(* ===== verification/_CoqProject ===== *)
-Q . S2P
Prelude.v
PyData.v
Float64.v
PyStd.v
Enums.v
Models.v
RiskEngine.v
Recovery.v
Policies.v
Security.v
Repository.v
Erasure.v
StoreInvariant.v
Notifications.v
Actions.v
OpenAI.v
Graph.v
Providers.v
Assessment.v
Evaluation.v
Config.v
Idempotency.v
Workers.v
Ingestion.v
Auth.v
ServiceInvariant.v
ApiCore.v
ApiLogic.v
Samples.v
ApiTrips.v
ApiIncidents.v
ApiRecovery.v
ApiMemory.v
ApiPrivacy.v
ApiNotifications.v
Delivery.v
ApiGovernance.v
ApiIngestion.v
Retries.v
Decisions.v
Interleaving.v
ConcurrentRetries.v
Sharing.v
ConcurrentDecisions.v
ConcurrentSubmissions.v
Audits.v
Completion.v
Boundary.v
Selections.v
ConcurrentSelections.v
Consent.v
Service.v
Confinement.v
StoredTypes.v
HandlerTypes.v
Sql.v
PgTables.v
Postgres.v
PgGovernance.v
ColumnBounds.v
PgStore.v
PgRefinement.v
PgWrites.v
PgErasure.v
PgPurge.v
RepositoryContract.v
PgLeases.v
PgSimulation.v
PgProperties.v
Startup.v
