(* ===== verification/Prelude.v ===== *)
(** * RouteShield: a verification library

    RouteShield watches corporate trips.  It collects evidence about each trip from
    external providers, scores the risk deterministically, and, when the score or
    the missing sources call for it, opens an incident that a human must decide; a
    bounded workflow with a language model may draft the recommendation, never the
    decision.  Around that core: ranking of recovery options, consented traveler
    memory, notifications, an outbox of approved actions, privacy jobs, CSV and
    webhook ingestion, runtime switches.  This library models the Python code under
    [src/] as executable definitions and proves what makes it correct.

    ** Layers and files

    Foundations.
    - [Prelude]: results and exceptions, the state-and-exception monad [M], record
      update, shared tactics.  [PyData]: insertion-ordered dictionaries, stable
      sorting, list idioms.  [Float64]: binary64 as integers in units of [2^-1074],
      with round-half-even.  [PyStd]: JSON values, text, UUIDs, times in
      microseconds, datetimes with or without an offset.

    Domain ([domain/]).
    - [Enums], [Models]: the types of [models.py]; [valid] is the conjunction of a
      model's pydantic constraints, and a constructor is [construct], which raises
      [ValidationError] where it fails.  [RiskEngine], [Recovery], [Policies]: the
      files of the same names.

    Services ([apps/api/], [agent/], [tools/], [workers/]).
    - [Security]: redaction and both rate limiters.  [Repository]: the in-memory
      repository, one definition per method.  [Erasure]: what an erasure removes, table
      by table.  [StoreInvariant]: the invariant of the store and [store_step], one
      constructor per write.  [Notifications], [Actions]: one delivery attempt.
      [OpenAI], [Graph]: the model adapter and the investigation workflow, a step
      function over its nodes.  [Providers]: adapters, normalizers and the concurrent
      collection.  [Assessment]: from evidence to factors, health, disposition and
      fallback drafts.  [Evaluation]: the golden suite.  [Config], [Idempotency],
      [Workers], [Ingestion], [Auth]: the files of those names (uploads are in
      [Ingestion]; the middleware [enforce_rate_limit] of [main.py] is in [Auth]).

    The HTTP service ([apps/api/main.py]).
    - [ApiCore]: the process state [World.t] (repository, providers, cache, uploads,
      workflow threads), the environment [Env], and the shared helpers.  A handler is
      a computation of the monad over [World.t]; an exception keeps the writes made
      before it, as the process does.  [ApiTrips], [ApiIncidents], [ApiRecovery],
      [ApiMemory], [ApiPrivacy], [ApiNotifications], [ApiGovernance],
      [ApiIngestion]: every route and job, under the function's own name.  Where two
      routes share a body it is one definition with the differences as arguments
      ([decision_handler]).
    - [ApiLogic]: the rules [keeps], [refuses], [quiet] and the inversion of a run,
      shared by all proofs about handlers.  [ServiceInvariant]: the invariant of the
      service.  [Samples]: a concrete environment for witnesses.

    The PostgreSQL repository ([apps/api/postgres_repository.py]).
    - [Sql]: what the code uses of a relational database, as the operations of a
      class with its laws.  [PgTables]: the tables, their keys and column widths.
      [Postgres], [PgGovernance]: every method, as the statements it issues in one
      transaction.
    - [PgStore], [PgRefinement]: [represents], the database that holds a given
      in-memory store.  [PgWrites], [PgErasure], [PgPurge], [PgLeases]: what each
      kind of method does to it.  [RepositoryContract]: the methods both
      repositories share, as commands and queries.  [PgSimulation], [PgProperties]:
      the refinement and what follows from it.

    The process.
    - [Startup]: start-up and shutdown of the API, its clients and checkpointer, the
      migration and monitor entry points, health, the web server's handler and the
      mock provider ([agent/checkpointer.py], [agent/checkpoint_backend.py],
      [tools/migrate.py], [workers/monitor.py], [apps/web/server.py],
      [apps/mock_provider/main.py]).

    Theorems about the service as a whole.
    - [Service]: [serves] relates each route to its role, tenant and handler, and
      [served] is reachability by requests and jobs.  In every served state the store
      is well formed, no action has been dispatched and the event log is redacted; a
      caller without the role or tenant is refused without effect.
    - [Confinement]: [reads] lists the reading routes with what the answer of each may
      hold, given the store it read: stored records of the caller's tenant, within
      the caller's role.  They write nothing.
    - [StoredTypes], [HandlerTypes]: from validated requests the service stores only
      records that satisfy their models, although [model_copy] checks nothing
      ([admitted] is the reachability of such requests).  [ColumnBounds]: so their
      rows fit the columns of the database; those of the six tables whose tenant (or
      traveler) id no model bounds fit exactly when that id has at most 128
      characters.
    - [Retries], [Decisions]: the shape of an idempotent route; a decision is made
      once, with exactly its effects, and its retry is answered from the record; a
      monitoring window is assessed once.  [Completion]: an admitted assessment of a
      stored snapshot always answers, on every branch, and its response is kept under
      its key (total correctness, [wp]); [Audits]: the audit entries that the
      investigation builds are those its models accept.  [Selections]: one selected
      candidate per set.  [Consent]: memory changes only with its traveler's
      confirmation, and only in the fields confirmed.  [Delivery]: over any queueing,
      leasing, delivery and acknowledgement, attempts are counted, bounded and final.
      [Boundary]: what a CSV, a webhook and a bearer token can do.

    Concurrent requests.
    - [Interleaving]: a request as a program of calls, a pool of requests whose calls
      are answered in any order ([sched]), and a rely-guarantee rule for one request
      among others.  [Sharing]: the rule for requests that share the store.  A
      handler written call by call is proved to be, when nothing interrupts it, the
      handler of the service ([decide_run], [route_run], [outcome_run]).
    - [ConcurrentDecisions]: decisions of different incidents do not disturb each
      other, and a decided incident stays decided; two decisions of one incident that
      overlap are both made ([overlap_decides_twice]).  [ConcurrentRetries],
      [ConcurrentSubmissions]: requests with one idempotency key, however they
      interleave while it lives, are all answered alike, and together they write no more
      than one of them would.
      [ConcurrentSelections]: one selected candidate per set while one request at
      most selects; two that overlap are both stored ([overlap_selects_twice]).

    Theorems about the PostgreSQL repository, in [PgProperties].  Every method that
    writes replies and commits as the in-memory one does, up to the order in which an
    outbox is leased, also over any run of calls from the empty database; every query
    answers alike, up to the order of a listing; a method that raises has no effect;
    workers never share a claim; a request key executes once.

    Theorems about components, in the component's file: exact and monotone scoring
    (floats never move a severity), ranking and evaluation, authoritative policy,
    redaction, the exact limiter, exclusive leases, at-most-once commits, retention
    under legal holds, exact erasure, the human gate and the
    bounds on the model, degraded providers, complete collection, canonical
    fingerprints, agreement of the golden suite with production, and a start-up that
    serves exactly when all its steps succeed (then every client is closed at
    shutdown; when a step fails, exactly those of [left_open] stay open).

    ** Bounds and fuel

    The workflow runs with LangGraph's recursion limit 25 as fuel; [human_gate] shows
    that every run ends within it.  All other recursion is structural.  Integers are
    unbounded as in Python; floats are finite binary64 numbers with overflow of [float]
    raised explicitly.  The CSV reader has the module's field limit of 131072.  The text
    columns have the widths their [String(n)] declares.

    ** What the model takes from outside

    [Env] holds, as parameters: the clock and random identifiers by number of
    readings, environment variables, digests, JSON and date parsing, the HTTP
    exchanges, the order in which concurrent fetches finish, the iteration order of a
    set of strings, the summation algorithm of the interpreter (plain and compensated
    are both instances of [ExactSum]), the model's completions, LangGraph's error for
    an unknown thread, and pydantic's decoding of the values the workflow returns,
    which [Decodes] states to be checked against the model and [AuditsDecode] to accept
    the audit entries with the fields their models declare.  [Dump] and [Validate]
    are a model's JSON encoding; a theorem about replayed responses assumes that they
    round-trip ([RoundTrip], with a concrete instance in its witness).  Text is a
    string of bytes: lengths and case follow Python on ASCII.

    [Sql] is PostgreSQL as the code uses it, and [SqlLaws] its documented behaviour: a
    table is a set of rows with distinct keys, a query without ORDER BY answers in any
    order, SKIP LOCKED passes over the rows that other transactions hold, a failed
    transaction leaves no effect.  [list_sql] is a concrete instance.  [Documents]
    encodes the JSON columns.  [Clients] is what the Redis, PostgreSQL and
    checkpoint clients answer at start-up.

    In [served], requests are steps: the model runs a handler from its first line to
    its answer.  That is what the in-memory repository does, which never suspends; in
    the process only a handler that waits for the network (a live collection, the
    model, the Redis limiter) can be interleaved with another there.  With PostgreSQL
    every call suspends: the decision, outcome and idempotent routes are also
    modelled call by call, each call being one transaction.  The theorems about the
    PostgreSQL repository itself are about single calls and cover every order of
    calls.

    ** Not modelled

    NaN and the infinities: the float fields of [models.py] admit NaN (and infinity
    where only a lower bound is declared), for which comparisons and [max] behave
    otherwise; the theorems are about finite numbers.  The interleaving of the other
    handlers with each other.  Inside a transaction: the waiting for row locks, and the
    interleaving of statements with those of another transaction.  How many of the
    records it could lease a claim leases: the contract of the two repositories lets a
    claim lease any of them, in any order.  A text with a NUL byte, which PostgreSQL
    refuses.  What LangGraph's checkpoints contain.  What the CORS middleware and the
    static file server of the libraries do with a request, the cache of PyJWT's key
    client, and the text printed to the log. *)

From stdpp Require Export base tactics list option numbers strings.
From Stdlib Require Export ZArith Lia.

#[global] Open Scope string_scope.
#[global] Open Scope Z_scope.
#[global] Open Scope list_scope.

(** ** Record update

    [model_copy(update={...})] and attribute assignment are written
    [r <| field := v |>].  A record that is updated declares one [Settable]
    instance, its eta expansion; the setter of a field is computed from it. *)

Class Settable (R : Type) := eta_of : R -> R.
Class Setter {R T : Type} (proj : R -> T) := over : (T -> T) -> R -> R.
Arguments over {R T} proj {_} f r.

Ltac derive_setter :=
  lazymatch goal with
  | |- @Setter ?R ?T ?proj =>
      let inst := constr:(_ : Settable R) in
      let body := eval red in inst in
      let abstracted := eval pattern proj in body in
      lazymatch abstracted with
      | ?F _ =>
          let s := eval cbv beta in (fun (f : T -> T) => F (fun r => f (proj r))) in
          exact s
      end
  end.

#[export] Hint Extern 1 (Setter _) => derive_setter : typeclass_instances.

Declare Scope rs_scope.
Delimit Scope rs_scope with rs.
#[global] Open Scope rs_scope.

Notation "r <| proj ::= f |>" := (over proj f r)
  (at level 12, f at next level, left associativity) : rs_scope.
Notation "r <| proj := v |>" := (over proj (fun _ => v) r)
  (at level 12, left associativity) : rs_scope.

(** Decidable equality as a boolean, written as Python writes it. *)
Notation "x == y" := (bool_decide (x = y)) (at level 70, no associativity) : rs_scope.
Notation "x != y" := (negb (bool_decide (x = y))) (at level 70, no associativity) : rs_scope.

(** ** Exceptions and the state-and-exception monad

    The state reached before a [raise] is kept: a Python handler that raises
    after a repository write has still written. *)

Inductive exn : Type :=
  | HTTPException (status_code : Z) (detail : string)
  | ValidationError (model : string)
  | KeyError (msg : string)
  | ValueError (msg : string)
  | TypeError (msg : string)
  | RuntimeError (msg : string)
  | OtherError (name : string).

#[export] Instance exn_eq_dec : EqDecision exn.
Proof. solve_decision. Defined.

Inductive res (A : Type) : Type :=
  | Ok (a : A)
  | Raise (e : exn).
Arguments Ok {A} a.
Arguments Raise {A} e.

#[export] Instance res_ret : MRet res := fun A a => Ok a.
#[export] Instance res_bind : MBind res := fun A B f m =>
  match m with Ok a => f a | Raise e => Raise e end.
#[export] Instance res_fmap : FMap res := fun A B f m =>
  match m with Ok a => Ok (f a) | Raise e => Raise e end.

Definition is_ok {A} (r : res A) : bool := match r with Ok _ => true | Raise _ => false end.

Definition M (S A : Type) : Type := S -> res A * S.

#[export] Instance M_ret {S} : MRet (M S) := fun A a s => (Ok a, s).
#[export] Instance M_bind {S} : MBind (M S) := fun A B f m s =>
  match m s with
  | (Ok a, s') => f a s'
  | (Raise e, s') => (Raise e, s')
  end.

Definition raise {S A} (e : exn) : M S A := fun s => (Raise e, s).
Definition gets {S A} (f : S -> A) : M S A := fun s => (Ok (f s), s).
Definition modify {S} (f : S -> S) : M S unit := fun s => (Ok tt, f s).
Definition lift_res {S A} (r : res A) : M S A := fun s => (r, s).
(** [if b: raise e] *)
Definition raise_if {S} (b : bool) (e : exn) : M S unit :=
  if b then raise e else mret tt.
(** [try: m  except: h] *)
Definition catch {S A} (m : M S A) (h : exn -> M S A) : M S A := fun s =>
  match m s with
  | (Ok a, s') => (Ok a, s')
  | (Raise e, s') => h e s'
  end.
(** [for x in l: body] *)
Fixpoint for_each {S A} (l : list A) (body : A -> M S unit) : M S unit :=
  match l with
  | [] => mret tt
  | x :: l' => body x ;; for_each l' body
  end.
(** a loop that threads an accumulator *)
Fixpoint fold_each {S A B} (l : list A) (acc : B) (body : B -> A -> M S B) : M S B :=
  match l with
  | [] => mret acc
  | x :: l' => acc' ← body acc x; fold_each l' acc' body
  end.

(** ** Tactics *)

(** Split a boolean conjunction, disjunction or decision in the hypotheses. *)
Ltac bool_hyps :=
  repeat match goal with
  | H : (_ && _)%bool = true |- _ => apply andb_true_iff in H; destruct H
  | H : (_ || _)%bool = false |- _ => apply orb_false_iff in H; destruct H
  | H : negb _ = true |- _ => apply negb_true_iff in H
  | H : negb _ = false |- _ => apply negb_false_iff in H
  | H : bool_decide _ = true |- _ => apply bool_decide_eq_true in H
  | H : bool_decide _ = false |- _ => apply bool_decide_eq_false in H
  | H : (_ <? _)%Z = true |- _ => apply Z.ltb_lt in H
  | H : (_ <? _)%Z = false |- _ => apply Z.ltb_ge in H
  | H : (_ <=? _)%Z = true |- _ => apply Z.leb_le in H
  | H : (_ <=? _)%Z = false |- _ => apply Z.leb_gt in H
  | H : (_ =? _)%Z = true |- _ => apply Z.eqb_eq in H
  | H : (_ =? _)%Z = false |- _ => apply Z.eqb_neq in H
  end.

(** Run a monadic body one bind at a time: [run] exposes the sequencing so that
    case analysis on the scrutinee makes progress. *)
Ltac run_in H := cbv [mbind M_bind mret M_ret raise gets modify lift_res raise_if res_bind res_ret] in H.
Ltac run := cbv [mbind M_bind mret M_ret raise gets modify lift_res raise_if res_bind res_ret].

Create HintDb rs.
Create Rewrite HintDb rs.

(** ** Generic lemmas *)

Lemma is_ok_inv {A} (r : res A) : is_ok r = true -> exists a, r = Ok a.
Proof. destruct r; [eauto|done]. Qed.

Lemma Ok_inj {A} (a b : A) : Ok a = Ok b -> a = b.
Proof. congruence. Qed.

Lemma res_bind_ok {A B} (m : res A) (f : A -> res B) b :
  (m ≫= f) = Ok b <-> exists a, m = Ok a /\ f a = Ok b.
Proof. destruct m; cbv [mbind res_bind]; naive_solver. Qed.

Lemma M_bind_ok {S A B} (m : M S A) (f : A -> M S B) s b s' :
  (m ≫= f) s = (Ok b, s') -> exists a s1, m s = (Ok a, s1) /\ f a s1 = (Ok b, s').
Proof. cbv [mbind M_bind]. destruct (m s) as [[a|e] s1] eqn:E; naive_solver. Qed.

Lemma M_bind_unfold {S A B} (m : M S A) (f : A -> M S B) s :
  (m ≫= f) s = match m s with (Ok a, s') => f a s' | (Raise e, s') => (Raise e, s') end.
Proof. reflexivity. Qed.

Lemma raise_if_ok {S} b e (s s' : S) :
  raise_if b e s = (Ok tt, s') <-> b = false /\ s' = s.
Proof. destruct b; cbv; naive_solver. Qed.

Lemma filter_bool_in {A} (p : A -> bool) l x :
  In x (List.filter p l) <-> In x l /\ p x = true.
Proof. apply filter_In. Qed.

Lemma existsb_true_iff {A} (p : A -> bool) l :
  existsb p l = true <-> exists x, In x l /\ p x = true.
Proof. apply existsb_exists. Qed.

Lemma existsb_false_iff {A} (p : A -> bool) l :
  existsb p l = false <-> forall x, In x l -> p x = false.
Proof.
  induction l as [|a l IH]; simpl; [naive_solver|].
  rewrite orb_false_iff, IH. naive_solver.
Qed.
