(* ===== verification/PyData.v ===== *)
(** * Python containers

    Insertion-ordered dictionaries, the stable [sorted], slices and the
    [min]/[max] of the built-ins, as the repository and the handlers use them. *)

From S2P Require Import Prelude.
From Stdlib Require Import Sorting.Permutation Sorting.Sorted.

(** ** [dict]: an association list in insertion order, one entry per key *)

Definition dict (K V : Type) : Type := list (K * V).

Section Dict.
Context {K V : Type} `{EqDecision K}.
Implicit Types (d : dict K V) (k : K) (v : V).

(** [d.get(k)] *)
Fixpoint dict_get k d : option V :=
  match d with
  | [] => None
  | (k', v) :: d' => if k == k' then Some v else dict_get k d'
  end.

(** [d[k] = v]: an existing key keeps its position. *)
Fixpoint dict_set k v d : dict K V :=
  match d with
  | [] => [(k, v)]
  | (k', v') :: d' => if k == k' then (k', v) :: d' else (k', v') :: dict_set k v d'
  end.

(** [d.pop(k, None)] (the dictionary that remains) *)
Definition dict_pop k d : dict K V := List.filter (fun kv => k != kv.1) d.

(** [{k: v for k, v in d.items() if p(k, v)}] *)
Definition dict_filter (p : K -> V -> bool) d : dict K V :=
  List.filter (fun kv => p kv.1 kv.2) d.

Definition dict_keys d : list K := d.*1.
Definition dict_values d : list V := d.*2.
Definition dict_mem k d : bool := match dict_get k d with Some _ => true | None => false end.

(** Python's representation invariant: keys are distinct. *)
Definition dict_wf d : Prop := NoDup d.*1.

End Dict.

(** [d.setdefault(k, []).append(v)] *)
Definition dict_append {K V} `{EqDecision K} (k : K) (v : V) (d : dict K (list V)) :=
  dict_set k (match dict_get k d with Some l => l ++ [v] | None => [v] end) d.

(** ** [sorted(l, key=...)]: a stable sort for a total preorder [leb] on keys *)

Section Sort.
Context {A : Type} (leb : A -> A -> bool).

Fixpoint sort_insert (x : A) (l : list A) : list A :=
  match l with
  | [] => [x]
  | y :: l' => if leb x y then x :: y :: l' else y :: sort_insert x l'
  end.

Definition sorted (l : list A) : list A := foldr sort_insert [] l.

End Sort.

(** [sorted(l, key=..., reverse=True)] keeps equal elements in order too. *)
Definition sorted_reverse {A} (leb : A -> A -> bool) (l : list A) : list A :=
  sorted (fun x y => leb y x) l.

(** [enumerate(l, start=n)] *)
Fixpoint enumerate {A} (n : Z) (l : list A) : list (Z * A) :=
  match l with
  | [] => []
  | x :: l' => (n, x) :: enumerate (n + 1) l'
  end.

(** [len(l)] as a Python integer, and the slices [l[n:]], [l[:n]] for [n >= 0]. *)
Definition len {A} (l : list A) : Z := Z.of_nat (length l).
Definition slice_from {A} (n : Z) (l : list A) : list A := List.skipn (Z.to_nat n) l.
Definition slice_to {A} (n : Z) (l : list A) : list A := List.firstn (Z.to_nat n) l.
(** [l[-n:]] for [n >= 1] *)
Definition slice_last {A} (n : Z) (l : list A) : list A :=
  List.skipn (length l - Z.to_nat n)%nat l.

(** [x in l] and [set(l1).issubset(l2)] *)
Definition mem {A} `{EqDecision A} (x : A) (l : list A) : bool := existsb (fun y => x == y) l.
Definition subset {A} `{EqDecision A} (l1 l2 : list A) : bool := forallb (fun x => mem x l2) l1.

(** [list(dict.fromkeys(l))]: the first occurrence of each element, in order *)
Fixpoint fromkeys_acc {A} `{EqDecision A} (seen l : list A) : list A :=
  match l with
  | [] => []
  | x :: l' => if mem x seen then fromkeys_acc seen l' else x :: fromkeys_acc (x :: seen) l'
  end.
Definition fromkeys {A} `{EqDecision A} (l : list A) : list A := fromkeys_acc [] l.

(** [max(l, key=...)]: the first maximal element, for a non-empty list *)
Fixpoint max_by {A} (leb : A -> A -> bool) (best : A) (l : list A) : A :=
  match l with
  | [] => best
  | x :: l' => max_by leb (if leb x best then best else x) l'
  end.

(** [bool] of a string: the empty string is false *)
Definition truthy_str (s : string) : bool := s != "".
Definition truthy_opt_str (o : option string) : bool :=
  match o with Some s => truthy_str s | None => false end.

(** ** Lemmas *)

Section DictLemmas.
Context {K V : Type} `{EqDecision K}.
Implicit Types (d : dict K V) (k : K) (v : V).

Lemma dict_get_set k k' v d :
  dict_get k (dict_set k' v d) = if k == k' then Some v else dict_get k d.
Proof.
  induction d as [|[k1 v1] d IH]; simpl.
  - repeat case_bool_decide; naive_solver.
  - repeat case_bool_decide; simplify_eq; simpl; repeat case_bool_decide; naive_solver.
Qed.

Lemma dict_get_set_eq k v d : dict_get k (dict_set k v d) = Some v.
Proof. rewrite dict_get_set. by rewrite bool_decide_true. Qed.

Lemma dict_get_set_ne k k' v d : k <> k' -> dict_get k (dict_set k' v d) = dict_get k d.
Proof. intros. rewrite dict_get_set. by rewrite bool_decide_false. Qed.

Lemma dict_get_pop k k' d :
  dict_get k (dict_pop k' d) = if k == k' then None else dict_get k d.
Proof.
  induction d as [|[k1 v1] d IH]; simpl; [by case_bool_decide|].
  unfold dict_pop in *. simpl. repeat case_bool_decide; simplify_eq; simpl;
    repeat case_bool_decide; naive_solver.
Qed.

Lemma dict_get_pop_eq k d : dict_get k (dict_pop k d) = None.
Proof. rewrite dict_get_pop. by rewrite bool_decide_true. Qed.

Lemma dict_get_in k v d : dict_get k d = Some v -> In (k, v) d.
Proof.
  induction d as [|[k1 v1] d IH]; simpl; [done|].
  case_bool_decide; naive_solver.
Qed.

Lemma dict_get_none k d : dict_get k d = None <-> ~ In k d.*1.
Proof.
  induction d as [|[k1 v1] d IH]; simpl; [naive_solver|].
  case_bool_decide; naive_solver.
Qed.

Lemma dict_in_get k v d : dict_wf d -> In (k, v) d -> dict_get k d = Some v.
Proof.
  unfold dict_wf. induction d as [|[k1 v1] d IH]; simpl; [done|].
  rewrite NoDup_cons. intros [Hn Hd] [Heq|Hin].
  - simplify_eq. by rewrite bool_decide_true.
  - rewrite bool_decide_false; [by apply IH|]. intros ->. apply Hn.
    apply list_elem_of_In, in_map_iff. by exists (k1, v).
Qed.

Lemma dict_in_values v d : In v (dict_values d) <-> exists k, In (k, v) d.
Proof.
  unfold dict_values. change (d.*2) with (List.map snd d). rewrite in_map_iff. split.
  - intros ([k v'] & <- & ?). by exists k.
  - intros [k ?]. by exists (k, v).
Qed.

Lemma dict_keys_set k v d :
  (dict_set k v d).*1 = if dict_mem k d then d.*1 else d.*1 ++ [k].
Proof.
  unfold dict_mem. induction d as [|[k1 v1] d IH]; csimpl; [done|].
  case_bool_decide; csimpl; [done|]. rewrite IH. by destruct (dict_get k d).
Qed.

Lemma dict_set_length k v d : (length (dict_set k v d) <= S (length d))%nat.
Proof. induction d as [|[k1 v1] d IH]; simpl; [lia|]. destruct (k == k1); simpl; lia. Qed.

Lemma dict_wf_nil : dict_wf ([] : dict K V).
Proof. apply NoDup_nil_2. Qed.

Lemma dict_wf_set k v d : dict_wf d -> dict_wf (dict_set k v d).
Proof.
  unfold dict_wf. intros Hd. rewrite dict_keys_set. unfold dict_mem.
  destruct (dict_get k d) eqn:E; [done|]. apply dict_get_none in E.
  apply NoDup_app. split_and!; [done| |by apply NoDup_singleton].
  intros x Hx. rewrite list_elem_of_singleton. intros ->. apply E, list_elem_of_In, Hx.
Qed.

Lemma NoDup_filter_fst (p : K * V -> bool) d : dict_wf d -> dict_wf (List.filter p d).
Proof.
  unfold dict_wf. induction d as [|[k1 v1] d IH]; simpl; [done|].
  rewrite NoDup_cons. intros [Hn Hd]. destruct (p (k1, v1)); simpl; [|by apply IH].
  apply NoDup_cons. split; [|by apply IH]. intros Hin. apply Hn.
  apply list_elem_of_In in Hin. apply in_map_iff in Hin as ([k2 v2] & Hk & Hin).
  apply filter_In in Hin as [Hin _]. simpl in Hk. subst.
  apply list_elem_of_In, in_map_iff. by exists (k1, v2).
Qed.

Lemma dict_wf_pop k d : dict_wf d -> dict_wf (dict_pop k d).
Proof. apply NoDup_filter_fst. Qed.

Lemma dict_wf_filter p d : dict_wf d -> dict_wf (dict_filter p d).
Proof. apply NoDup_filter_fst. Qed.

Lemma dict_get_filter (p : K -> V -> bool) k d :
  dict_wf d ->
  dict_get k (dict_filter p d) =
    match dict_get k d with Some v => if p k v then Some v else None | None => None end.
Proof.
  unfold dict_wf, dict_filter. induction d as [|[k1 v1] d IH]; simpl; [done|].
  rewrite NoDup_cons. intros [Hn Hd]. case_bool_decide; subst.
  - destruct (p k1 v1); simpl; [by rewrite bool_decide_true|].
    rewrite IH by done. destruct (dict_get k1 d) eqn:E; [|done].
    exfalso. apply Hn. apply dict_get_in in E. apply list_elem_of_In, in_map_iff.
    by exists (k1, v).
  - destruct (p k1 v1); simpl; [rewrite bool_decide_false by done|]; by apply IH.
Qed.

End DictLemmas.

#[export] Hint Resolve dict_wf_nil dict_wf_set dict_wf_pop dict_wf_filter : rs.
#[export] Hint Rewrite @dict_get_set_eq @dict_get_pop_eq : rs.

Section SortLemmas.
Context {A : Type} (leb : A -> A -> bool).

Lemma sort_insert_perm x l : Permutation (x :: l) (sort_insert leb x l).
Proof.
  induction l as [|y l IH]; simpl; [done|].
  destruct (leb x y); [done|]. rewrite perm_swap. by rewrite IH.
Qed.

Lemma sorted_perm l : Permutation l (sorted leb l).
Proof.
  induction l as [|x l IH]; simpl; [done|].
  rewrite <- sort_insert_perm. by rewrite <- IH.
Qed.

Lemma sorted_in x l : In x (sorted leb l) <-> In x l.
Proof.
  split; intros H; [eapply Permutation_in; [symmetry; apply sorted_perm|done]|].
  eapply Permutation_in; [apply sorted_perm|done].
Qed.

Lemma sorted_length l : length (sorted leb l) = length l.
Proof. symmetry. apply Permutation_length, sorted_perm. Qed.

Definition leb_le (x y : A) : Prop := leb x y = true.

Hypothesis leb_total : forall x y, leb x y = true \/ leb y x = true.
Hypothesis leb_trans : forall x y z, leb x y = true -> leb y z = true -> leb x z = true.

Lemma sort_insert_sorted x l :
  StronglySorted leb_le l -> StronglySorted leb_le (sort_insert leb x l).
Proof.
  induction 1 as [|y l Hl IH Hy]; simpl; [by repeat constructor|].
  destruct (leb x y) eqn:E.
  - constructor; [by constructor|]. constructor; [done|].
    eapply List.Forall_impl; [|exact Hy]. intros z Hz. by eapply leb_trans.
  - constructor; [done|]. rewrite List.Forall_forall in *.
    intros z Hz. apply (Permutation_in (l' := x :: l)) in Hz; [|symmetry; apply sort_insert_perm].
    destruct Hz as [<-|Hz]; [|by apply Hy].
    destruct (leb_total x y) as [?|?]; [congruence|done].
Qed.

Lemma sorted_sorted l : StronglySorted leb_le (sorted leb l).
Proof. induction l as [|x l IH]; simpl; [constructor|by apply sort_insert_sorted]. Qed.

End SortLemmas.

Lemma mem_true_iff {A} `{EqDecision A} (x : A) l : mem x l = true <-> In x l.
Proof.
  unfold mem. rewrite existsb_exists. split.
  - intros (y & Hy & E). by bool_hyps; subst.
  - intros Hx. exists x. split; [done|]. by apply bool_decide_true.
Qed.

Lemma mem_false_iff {A} `{EqDecision A} (x : A) l : mem x l = false <-> ~ In x l.
Proof. rewrite <- mem_true_iff. by destruct (mem x l). Qed.

Lemma subset_true_iff {A} `{EqDecision A} (l1 l2 : list A) :
  subset l1 l2 = true <-> forall x, In x l1 -> In x l2.
Proof. unfold subset. rewrite forallb_forall. by setoid_rewrite mem_true_iff. Qed.

Lemma enumerate_snd {A} n (l : list A) : (enumerate n l).*2 = l.
Proof. revert n. induction l as [|x l IH]; intros n; simpl; [done|]. by rewrite IH. Qed.

Lemma enumerate_fst {A} n (l : list A) i :
  (i < length l)%nat -> (enumerate n l).*1 !! i = Some (n + Z.of_nat i).
Proof.
  revert n i. induction l as [|x l IH]; intros n i Hi; simpl in *; [lia|].
  destruct i as [|i]; simpl; [f_equal; lia|]. rewrite IH by lia. f_equal; lia.
Qed.

Lemma fromkeys_acc_in {A} `{EqDecision A} (seen l : list A) x :
  In x (fromkeys_acc seen l) <-> In x l /\ ~ In x seen.
Proof.
  revert seen. induction l as [|y l IH]; intros seen; simpl; [naive_solver|].
  destruct (mem y seen) eqn:E.
  - apply mem_true_iff in E. rewrite IH. naive_solver.
  - apply mem_false_iff in E. simpl. rewrite IH. simpl.
    destruct (decide (x = y)); naive_solver.
Qed.

Lemma fromkeys_in {A} `{EqDecision A} (l : list A) x : In x (fromkeys l) <-> In x l.
Proof. unfold fromkeys. rewrite fromkeys_acc_in. naive_solver. Qed.

Lemma fromkeys_acc_NoDup {A} `{EqDecision A} (seen l : list A) : List.NoDup (fromkeys_acc seen l).
Proof.
  revert seen. induction l as [|y l IH]; intros seen; simpl; [constructor|].
  destruct (mem y seen); [apply IH|]. constructor; [|apply IH].
  rewrite fromkeys_acc_in. simpl. naive_solver.
Qed.

Lemma fromkeys_nil_iff {A} `{EqDecision A} (l : list A) : fromkeys l = [] <-> l = [].
Proof.
  destruct l as [|x l]; [done|]. split; [|done]. intros E.
  assert (H : In x (fromkeys (x :: l))) by (rewrite fromkeys_in; by left).
  by rewrite E in H.
Qed.

Lemma max_by_in {A} (leb : A -> A -> bool) best l : In (max_by leb best l) (best :: l).
Proof.
  revert best. induction l as [|x l IH]; intros best; simpl; [by left|].
  destruct (leb x best); [destruct (IH best)|destruct (IH x)]; simpl in *; naive_solver.
Qed.

(** ** Lexicographic keys and total preorders *)

(** comparison of the tuples [(k1, k2)] whose first component is an integer *)
Definition lex_leb {A} (k1 : A -> Z) (leb2 : A -> A -> bool) (a b : A) : bool :=
  (k1 a <? k1 b) || ((k1 a =? k1 b) && leb2 a b).

Definition leb_is_total {A} (leb : A -> A -> bool) : Prop :=
  forall x y, leb x y = true \/ leb y x = true.
Definition leb_is_trans {A} (leb : A -> A -> bool) : Prop :=
  forall x y z, leb x y = true -> leb y z = true -> leb x z = true.

Ltac lex_cases :=
  unfold lex_leb in *; repeat rewrite orb_true_iff in *; repeat rewrite andb_true_iff in *;
  repeat rewrite Z.ltb_lt in *; repeat rewrite Z.eqb_eq in *.

Lemma lex_leb_total {A} (k1 : A -> Z) leb2 : leb_is_total leb2 -> leb_is_total (lex_leb k1 leb2).
Proof.
  intros H x y. specialize (H x y). lex_cases.
  destruct (Z.lt_total (k1 x) (k1 y)) as [|[|]]; naive_solver.
Qed.

Lemma lex_leb_trans {A} (k1 : A -> Z) leb2 : leb_is_trans leb2 -> leb_is_trans (lex_leb k1 leb2).
Proof.
  intros H x y z H1 H2. specialize (H x y z). lex_cases.
  destruct H1 as [|[??]], H2 as [|[??]]; [left; lia..|right; split; [lia|by apply H]].
Qed.

Lemma by_key_total {A B} (f : A -> B) (leb : B -> B -> bool) :
  leb_is_total leb -> leb_is_total (fun x y => leb (f x) (f y)).
Proof. intros H x y. apply H. Qed.
Lemma by_key_trans {A B} (f : A -> B) (leb : B -> B -> bool) :
  leb_is_trans leb -> leb_is_trans (fun x y => leb (f x) (f y)).
Proof. intros H x y z. apply H. Qed.

(** ** The last element of a list that satisfies a test *)

(** writing the elements of a list into a dictionary in order keeps the last one of each key *)
Lemma dict_get_fold_set {K V} `{EqDecision K} (key : V -> K) (l : list V) d0 k :
  dict_get k (fold_left (fun d x => dict_set (key x) x d) l d0) =
    match last (List.filter (fun x => k == key x) l) with
    | Some x => Some x
    | None => dict_get k d0
    end.
Proof.
  revert d0. induction l as [|x l IH]; intros d0; simpl; [done|].
  rewrite IH, dict_get_set. case_bool_decide; simpl; [|done].
  destruct (List.filter _ l) as [|y l']; [done|].
  change (last (x :: y :: l')) with (last (y :: l')).
  destruct (last (y :: l')) eqn:E; [done|]. by apply last_None in E.
Qed.

Lemma StronglySorted_last {A} (R : A -> A -> Prop) l x :
  (forall y, R y y) -> StronglySorted R l -> last l = Some x -> forall y, In y l -> R y x.
Proof.
  intros Hr. induction 1 as [|a l Hl IH Ha]; [done|]. destruct l as [|b l].
  - simpl. intros [= ->] y [<-|[]]. apply Hr.
  - intros Hlast y [<-|Hy]; change (last (b :: l) = Some x) in Hlast.
    + rewrite List.Forall_forall in Ha. apply Ha.
      apply last_Some in Hlast as [l' El]. rewrite El. apply in_or_app. right. by left.
    + by apply IH.
Qed.

Lemma StronglySorted_filter {A} (R : A -> A -> Prop) (p : A -> bool) l :
  StronglySorted R l -> StronglySorted R (List.filter p l).
Proof.
  induction 1 as [|a l Hl IH Ha]; simpl; [constructor|]. destruct (p a); [|done].
  constructor; [done|]. rewrite List.Forall_forall in *. intros y Hy.
  apply filter_In in Hy as [? _]. by apply Ha.
Qed.

Lemma sorted_perm_filter {A} (leb : A -> A -> bool) (p : A -> bool) l x :
  In x (List.filter p (sorted leb l)) <-> In x l /\ p x = true.
Proof. by rewrite filter_In, sorted_in. Qed.

Lemma filter_perm {A} (p : A -> bool) l l' :
  Permutation l l' -> Permutation (List.filter p l) (List.filter p l').
Proof.
  induction 1 as [|x l l' _ IH|x y l|l l' l'' _ IH1 _ IH2]; simpl; [done|..].
  - destruct (p x); [by apply Permutation_cons|done].
  - destruct (p x), (p y); try done. apply perm_swap.
  - by transitivity (List.filter p l').
Qed.

Lemma max_by_ge {A} (leb : A -> A -> bool) best l :
  leb_is_total leb -> leb_is_trans leb -> forall y, In y (best :: l) -> leb y (max_by leb best l) = true.
Proof.
  intros Htot Htr. revert best. induction l as [|x l IH]; intros best y Hy; simpl in *.
  - destruct Hy as [<-|[]]. by destruct (Htot best best).
  - destruct (leb x best) eqn:E.
    + destruct Hy as [<-|[<-|Hy]]; [apply IH; by left| |apply IH; by right].
      eapply Htr; [exact E|]. apply IH. by left.
    + assert (leb best x = true) by (destruct (Htot best x); [done|congruence]).
      destruct Hy as [<-|[<-|Hy]]; [|apply IH; by left|apply IH; by right].
      eapply Htr; [eassumption|]. apply IH. by left.
Qed.
