(* ===== verification/Float64.v ===== *)
(** * Python [float]: IEEE-754 binary64

    A finite binary64 value is an integer multiple of [2^-1074]; [f64] is that
    integer, so comparisons are comparisons of integers and every operation is
    the exact rational result followed by one rounding, to nearest, ties to
    even, with a 53-bit significand and the subnormal spacing [2^-1074].
    The two zeros are one value.  NaN and the infinities are not represented: the
    definitions that use [f64] speak of finite inputs.  The bounds of
    [domain/models.py] do not exclude them (a NaN passes [ge] and [le], and an
    infinity a field with [ge=0] only), and on such an input, and only there,
    [evaluate_recovery_policy] and [field_score] behave differently. *)

From S2P Require Import Prelude.

Definition f64 : Type := Z.

(** one, in units of [2^-1074] *)
Definition one64 : Z := Eval vm_compute in 2 ^ 1074.

(** the integer nearest to [n/d], ties to even ([d > 0]) *)
Definition rhe (n d : Z) : Z :=
  let q := n / d in
  let r := n mod d in
  if 2 * r <? d then q
  else if d <? 2 * r then q + 1
  else if Z.even q then q else q + 1.

(** exponent of the last significand bit of [n/d] *)
Definition fexp (n d : Z) : Z := Z.max 0 (Z.log2 (Z.abs n / d) - 52).

(** the binary64 value nearest to the rational [n/d] (units of [2^-1074]) *)
Definition rnd (n d : Z) : f64 := let e := fexp n d in rhe n (d * 2 ^ e) * 2 ^ e.

Definition f_of_Z (n : Z) : f64 := rnd (n * one64) 1.
(** an integer of at most 53 bits as a float: exact *)
Definition f_int (n : Z) : f64 := n * one64.
(** the literal [n/d], e.g. [0.35] is [f_lit 35 100] *)
Definition f_lit (n d : Z) : f64 := rnd (n * one64) d.
Definition fadd (a b : f64) : f64 := rnd (a + b) 1.
Definition fsub (a b : f64) : f64 := rnd (a - b) 1.
Definition fmul (a b : f64) : f64 := rnd (a * b) one64.
Definition fle (a b : f64) : bool := a <=? b.
Definition flt (a b : f64) : bool := a <? b.
Definition fabs (a : f64) : f64 := Z.abs a.
Definition fmax (a b : f64) : f64 := if flt a b then b else a.
Definition fmin (a b : f64) : f64 := if flt b a then b else a.

(** [round(x, 2)]: the decimal with two digits nearest to the exact value of
    [x] (ties to even), read back as the nearest binary64. *)
Definition hundredths (x : f64) : Z := rhe (x * 100) one64.
Definition of_hundredths (k : Z) : f64 := f_lit k 100.
Definition py_round2 (x : f64) : f64 := of_hundredths (hundredths x).

(** [int(x)]: truncation *)
Definition py_int (x : f64) : Z := Z.quot x one64.

(** [sum] over floats: CPython before 3.12 adds naively from [0]; from 3.12 it
    carries Neumaier's compensation term. *)
Definition py_sum_naive (l : list f64) : f64 := fold_left fadd l 0.

Definition neumaier_step (acc : f64 * f64) (x : f64) : f64 * f64 :=
  let '(s, c) := acc in
  let t := fadd s x in
  let corr := if fle (fabs x) (fabs s)
              then fadd (fsub s t) x
              else fadd (fsub x t) s in
  (t, fadd c corr).

Definition py_sum_compensated (l : list f64) : f64 :=
  match l with
  | [] => 0
  | x :: l' =>
      let '(s, c) := fold_left neumaier_step l' (x, 0) in
      if c =? 0 then s else fadd s c
  end.

(** ** Rounding to an integer *)

Section Rhe.
Variables (d : Z).
Hypothesis Hd : 0 < d.

Lemma rhe_spec n : exists q r, n = d * q + r /\ 0 <= r < d /\
  (rhe n d = q /\ 2 * r <= d \/ rhe n d = q + 1 /\ d <= 2 * r).
Proof.
  exists (n / d), (n mod d). pose proof (Z.div_mod n d ltac:(lia)).
  pose proof (Z.mod_pos_bound n d Hd). split; [done|split;[lia|]].
  unfold rhe. destruct (Z.ltb_spec (2 * (n mod d)) d); [lia|].
  destruct (Z.ltb_spec d (2 * (n mod d))); [lia|]. destruct (Z.even (n / d)); lia.
Qed.

Lemma rhe_err n : 2 * Z.abs (d * rhe n d - n) <= d.
Proof. destruct (rhe_spec n) as (q & r & -> & ? & [[-> ?]|[-> ?]]); lia. Qed.

Lemma rhe_unique n k : 2 * Z.abs (d * k - n) < d -> rhe n d = k.
Proof. pose proof (rhe_err n). intros. nia. Qed.

Lemma rhe_exact k : rhe (d * k) d = k.
Proof. apply rhe_unique. lia. Qed.

Lemma rhe_ge n k : d * k <= n -> k <= rhe n d.
Proof. destruct (rhe_spec n) as (q & r & -> & ? & [[-> ?]|[-> ?]]); nia. Qed.

Lemma rhe_le n k : n <= d * k -> rhe n d <= k.
Proof. destruct (rhe_spec n) as (q & r & -> & ? & [[-> ?]|[-> ?]]); nia. Qed.

Lemma rhe_mono n n' : n <= n' -> rhe n d <= rhe n' d.
Proof.
  intros Hn. destruct (Z.eq_dec n n') as [->|Hne]; [lia|].
  pose proof (Z.div_le_mono n n' d Hd Hn) as Hq.
  pose proof (Z.div_mod n d ltac:(lia)). pose proof (Z.div_mod n' d ltac:(lia)).
  pose proof (Z.mod_pos_bound n d Hd). pose proof (Z.mod_pos_bound n' d Hd).
  destruct (Z.eq_dec (n / d) (n' / d)) as [E|E].
  - assert (n mod d < n' mod d) by lia. unfold rhe. rewrite E.
    destruct (Z.ltb_spec (2 * (n mod d)) d), (Z.ltb_spec (2 * (n' mod d)) d),
      (Z.ltb_spec d (2 * (n mod d))), (Z.ltb_spec d (2 * (n' mod d)));
      destruct (Z.even (n' / d)); lia.
  - transitivity (n / d + 1).
    + apply rhe_le. nia.
    + apply rhe_ge. nia.
Qed.

End Rhe.

(** ** Rounding to binary64 *)

Lemma fexp_nonneg n d : 0 <= fexp n d.
Proof. unfold fexp. lia. Qed.

Lemma fexp_mono n n' d : 0 < d -> 0 <= n <= n' -> fexp n d <= fexp n' d.
Proof.
  intros Hd Hn. unfold fexp. rewrite !Z.abs_eq by lia.
  pose proof (Z.log2_le_mono (n / d) (n' / d) (Z.div_le_mono _ _ _ Hd (proj2 Hn))). lia.
Qed.

Lemma fexp_spec n d : 0 < d -> 0 < fexp n d ->
  d * 2 ^ (fexp n d + 52) <= Z.abs n < d * 2 ^ (fexp n d + 53).
Proof.
  intros Hd He. unfold fexp in *. set (q := Z.abs n / d) in *.
  replace (Z.max 0 (Z.log2 q - 52)) with (Z.log2 q - 52) in * by lia.
  assert (Hq : 0 < q).
  { destruct (Z.ltb_spec 0 q); [done|]. rewrite Z.log2_nonpos in He by lia. lia. }
  pose proof (Z.log2_spec q Hq) as [Hlo Hhi].
  replace (Z.log2 q - 52 + 52) with (Z.log2 q) by lia.
  replace (Z.log2 q - 52 + 53) with (Z.succ (Z.log2 q)) by lia.
  pose proof (Z.div_mod (Z.abs n) d ltac:(lia)). pose proof (Z.mod_pos_bound (Z.abs n) d Hd).
  fold q in H. split; nia.
Qed.

Lemma fexp_le n d k : 0 < d -> 53 <= k -> Z.abs n < d * 2 ^ k -> fexp n d <= k - 53.
Proof.
  intros Hd Hk Hn. destruct (Z.eq_dec (fexp n d) 0) as [->|Hz]; [lia|].
  pose proof (fexp_nonneg n d). pose proof (fexp_spec n d Hd ltac:(lia)) as [Hlo _].
  assert (2 ^ (fexp n d + 52) < 2 ^ k) as Hlt by nia.
  apply Z.pow_lt_mono_r_iff in Hlt; lia.
Qed.

(** The rounding error is at most half a unit in the last place. *)
Lemma rnd_err n d k : 0 < d -> 53 <= k -> Z.abs n < d * 2 ^ k ->
  2 * Z.abs (d * rnd n d - n) <= d * 2 ^ (k - 53).
Proof.
  intros Hd Hk Hn. unfold rnd. pose proof (fexp_le n d k Hd Hk Hn) as Hle.
  pose proof (fexp_nonneg n d) as H0. set (e := fexp n d) in *.
  assert (0 < 2 ^ e) by (apply Z.pow_pos_nonneg; lia).
  pose proof (rhe_err (d * 2 ^ e) ltac:(nia) n) as Herr.
  pose proof (Z.pow_le_mono_r 2 e (k - 53) ltac:(lia) Hle).
  replace (d * (rhe n (d * 2 ^ e) * 2 ^ e)) with (d * 2 ^ e * rhe n (d * 2 ^ e)) by ring. nia.
Qed.

(** Rounding is monotone on non-negative rationals. *)
Lemma rnd_mono n n' d : 0 < d -> 0 <= n <= n' -> rnd n d <= rnd n' d.
Proof.
  intros Hd Hn. unfold rnd. pose proof (fexp_mono n n' d Hd Hn) as He.
  pose proof (fexp_nonneg n d) as H0.
  destruct (Z.eq_dec (fexp n d) (fexp n' d)) as [->|Hne].
  { apply Z.mul_le_mono_nonneg_r; [lia|]. apply rhe_mono; [|lia].
    assert (0 < 2 ^ fexp n' d) by (apply Z.pow_pos_nonneg; lia). nia. }
  pose proof (fexp_spec n' d Hd ltac:(lia)) as [Hlo _].
  set (e := fexp n d) in *. set (e' := fexp n' d) in *.
  assert (0 < 2 ^ e) by (apply Z.pow_pos_nonneg; lia).
  assert (0 < 2 ^ e') by (apply Z.pow_pos_nonneg; lia).
  transitivity (2 ^ (e + 53)).
  - assert (Hr : rhe n (d * 2 ^ e) <= 2 ^ 53).
    { apply rhe_le; [nia|]. rewrite <- Z.mul_assoc, <- Z.pow_add_r by lia.
      destruct (Z.eq_dec e 0) as [E0|E0].
      - rewrite E0. unfold e, fexp in E0. rewrite Z.abs_eq in E0 by lia.
        assert (Hlog : Z.log2 (n / d) < 53) by lia.
        destruct (Z.ltb_spec 0 (n / d)) as [Hpos|Hpos].
        + apply Z.log2_lt_pow2 in Hlog; [|done].
          pose proof (Z.div_mod n d ltac:(lia)). pose proof (Z.mod_pos_bound n d Hd).
          change (0 + 53) with 53. nia.
        + pose proof (Z.div_mod n d ltac:(lia)). pose proof (Z.mod_pos_bound n d Hd).
          assert (1 <= 2 ^ (0 + 53)) by lia. nia.
      - pose proof (fexp_spec n d Hd ltac:(fold e; lia)) as [_ Hhi]. fold e in Hhi. lia. }
    replace (2 ^ (e + 53)) with (2 ^ 53 * 2 ^ e) by (rewrite <- Z.pow_add_r by lia; f_equal; lia).
    nia.
  - assert (Hr : 2 ^ 52 <= rhe n' (d * 2 ^ e')).
    { apply rhe_ge; [nia|]. rewrite <- Z.mul_assoc, <- Z.pow_add_r by lia.
      rewrite Z.abs_eq in Hlo by lia. fold e' in Hlo.
      exact Hlo. }
    transitivity (2 ^ 52 * 2 ^ e'); [|nia]. rewrite <- Z.pow_add_r by lia.
    apply Z.pow_le_mono_r; lia.
Qed.

Lemma rnd_nonneg n d : 0 < d -> 0 <= n -> 0 <= rnd n d.
Proof.
  intros Hd Hn. unfold rnd. assert (0 < 2 ^ fexp n d) by (apply Z.pow_pos_nonneg; [lia|apply fexp_nonneg]).
  pose proof (rhe_ge (d * 2 ^ fexp n d) ltac:(nia) n 0 ltac:(lia)). nia.
Qed.

Lemma rnd_0 d : 0 < d -> rnd 0 d = 0.
Proof.
  intros Hd. unfold rnd.
  assert (0 < 2 ^ fexp 0 d) by (apply Z.pow_pos_nonneg; [lia|apply fexp_nonneg]).
  rewrite (rhe_unique (d * 2 ^ fexp 0 d) ltac:(nia) 0 0); nia.
Qed.

Lemma one64_pos : 0 < one64.
Proof. reflexivity. Qed.

Lemma fmul_mono a a' b : 0 <= b -> 0 <= a <= a' -> fmul a b <= fmul a' b.
Proof. intros. apply rnd_mono; [apply one64_pos|nia]. Qed.

Lemma fmul_nonneg a b : 0 <= a -> 0 <= b -> 0 <= fmul a b.
Proof. intros. apply rnd_nonneg; [apply one64_pos|nia]. Qed.

Lemma hundredths_mono x y : x <= y -> hundredths x <= hundredths y.
Proof. intros. apply rhe_mono; [apply one64_pos|lia]. Qed.

Lemma hundredths_nonneg x : 0 <= x -> 0 <= hundredths x.
Proof. intros. apply rhe_ge; [apply one64_pos|lia]. Qed.

Lemma of_hundredths_mono j k : 0 <= j <= k -> of_hundredths j <= of_hundredths k.
Proof. intros. pose proof one64_pos. apply rnd_mono; [lia|nia]. Qed.

Lemma of_hundredths_nonneg k : 0 <= k -> 0 <= of_hundredths k.
Proof. intros. pose proof one64_pos. apply rnd_nonneg; nia. Qed.

Lemma py_round2_mono x y : 0 <= x <= y -> py_round2 x <= py_round2 y.
Proof.
  intros. apply of_hundredths_mono. split; [apply hundredths_nonneg; lia|].
  apply hundredths_mono; lia.
Qed.

Lemma py_round2_nonneg x : 0 <= x -> 0 <= py_round2 x.
Proof. intros. by apply of_hundredths_nonneg, hundredths_nonneg. Qed.

(** ** Negative values: rounding is odd, hence monotone everywhere *)

Lemma rhe_opp n d : 0 < d -> rhe (- n) d = - rhe n d.
Proof.
  intros Hd. unfold rhe. destruct (Z.eq_dec (n mod d) 0) as [E|E].
  - rewrite Z.div_opp_l_z, Z.mod_opp_l_z, E by lia.
    destruct (Z.ltb_spec (2 * 0) d); lia.
  - rewrite Z.div_opp_l_nz, Z.mod_opp_l_nz by lia.
    pose proof (Z.mod_pos_bound n d Hd).
    replace (- (n / d) - 1) with (- (Z.succ (n / d))) by lia.
    rewrite Z.even_opp, Z.even_succ, <- Z.negb_even.
    destruct (Z.ltb_spec (2 * (d - n mod d)) d), (Z.ltb_spec (2 * (n mod d)) d),
      (Z.ltb_spec d (2 * (d - n mod d))), (Z.ltb_spec d (2 * (n mod d)));
      destruct (Z.even (n / d)); simpl; lia.
Qed.

Lemma rnd_opp n d : 0 < d -> rnd (- n) d = - rnd n d.
Proof.
  intros Hd. unfold rnd, fexp. rewrite Z.abs_opp. rewrite rhe_opp; [lia|].
  apply Z.mul_pos_pos; [done|]. apply Z.pow_pos_nonneg; lia.
Qed.

Lemma rnd_monotone n n' d : 0 < d -> n <= n' -> rnd n d <= rnd n' d.
Proof.
  intros Hd Hn. destruct (Z.le_gt_cases 0 n).
  - apply rnd_mono; lia.
  - destruct (Z.le_gt_cases 0 n').
    + pose proof (rnd_nonneg n' d Hd ltac:(lia)). pose proof (rnd_nonneg (- n) d Hd ltac:(lia)) as Hr.
      rewrite rnd_opp in Hr by done. lia.
    + pose proof (rnd_mono (- n') (- n) d Hd ltac:(lia)) as Hr. rewrite !rnd_opp in Hr by done. lia.
Qed.

Lemma fsub_mono a a' b b' : a <= a' -> b' <= b -> fsub a b <= fsub a' b'.
Proof. intros. unfold fsub. apply rnd_monotone; lia. Qed.

Lemma f_of_Z_mono m n : m <= n -> f_of_Z m <= f_of_Z n.
Proof. intros. pose proof one64_pos. apply rnd_monotone; nia. Qed.

Lemma f_of_Z_nonneg n : 0 <= n -> 0 <= f_of_Z n.
Proof. intros. pose proof one64_pos. apply rnd_nonneg; nia. Qed.

(** integers of at most 53 bits are floats *)
Lemma f_of_Z_exact n : Z.abs n < 2 ^ 53 -> f_of_Z n = f_int n.
Proof.
  intros Hn. unfold f_of_Z, f_int, rnd. pose proof (fexp_nonneg (n * one64) 1) as H0.
  assert (He : fexp (n * one64) 1 <= 1127 - 53).
  { apply fexp_le; [lia..|]. replace (2 ^ 1127) with (2 ^ 53 * one64) by (vm_compute; reflexivity).
    pose proof one64_pos. nia. }
  set (e := fexp (n * one64) 1) in *.
  replace one64 with (2 ^ e * 2 ^ (1074 - e)).
  2: { rewrite <- Z.pow_add_r by lia. replace (e + (1074 - e)) with 1074 by lia. vm_compute. reflexivity. }
  replace (n * (2 ^ e * 2 ^ (1074 - e))) with (1 * 2 ^ e * (n * 2 ^ (1074 - e))) at 1 by ring.
  rewrite rhe_exact; [unfold f64; ring|]. assert (0 < 2 ^ e) by (apply Z.pow_pos_nonneg; lia). lia.
Qed.

Example f_int_100 : f_of_Z 100 = f_int 100.
Proof. vm_compute. reflexivity. Qed.

Lemma f_int_nonneg n : 0 <= n -> 0 <= f_int n.
Proof. intros. pose proof one64_pos. unfold f_int. nia. Qed.

Lemma f_lit_nonneg n d : 0 <= n -> 0 < d -> 0 <= f_lit n d.
Proof. intros. pose proof one64_pos. apply rnd_nonneg; nia. Qed.

Lemma fmax_mono a b b' : b <= b' -> fmax a b <= fmax a b'.
Proof. intros. unfold fmax, flt. repeat case_match; bool_hyps; lia. Qed.

Lemma fmax_ge_l a b : a <= fmax a b.
Proof. unfold fmax, flt. case_match; bool_hyps; lia. Qed.

(** Proofs about programs use the lemmas above, never the digits. *)
#[global] Opaque rnd rhe.
#[global] Arguments f_of_Z : simpl never.
#[global] Arguments f_int : simpl never.
#[global] Arguments f_lit : simpl never.
#[global] Arguments fadd : simpl never.
#[global] Arguments fsub : simpl never.
#[global] Arguments fmul : simpl never.
#[global] Arguments hundredths : simpl never.
#[global] Arguments of_hundredths : simpl never.
#[global] Arguments py_round2 : simpl never.
