(* ===== verification/PyStd.v ===== *)
(** * Python values and the standard library

    JSON values ([dict[str, object]] payloads), ASCII string methods, UUID
    text, [datetime] with and without a UTC offset, and ISO-8601 text. *)

From S2P Require Import Prelude PyData Float64.
From stdpp Require Export pretty.
From Stdlib Require Export Ascii String.
From stdpp Require Export base tactics list option numbers strings.

#[global] Open Scope string_scope.
#[global] Open Scope Z_scope.
#[global] Open Scope list_scope.

(** ** JSON-compatible values; an object keeps its insertion order *)

Inductive json : Type :=
  | JNull
  | JBool (b : bool)
  | JInt (z : Z)
  | JFloat (f : f64)
  | JStr (s : string)
  | JList (l : list json)
  | JObj (kvs : list (string * json)).

Section JsonInd.
Variable P : json -> Prop.
Hypothesis Hnull : P JNull.
Hypothesis Hbool : forall b, P (JBool b).
Hypothesis Hint : forall z, P (JInt z).
Hypothesis Hfloat : forall f, P (JFloat f).
Hypothesis Hstr : forall s, P (JStr s).
Hypothesis Hlist : forall l, List.Forall P l -> P (JList l).
Hypothesis Hobj : forall kvs, List.Forall (fun kv => P (snd kv)) kvs -> P (JObj kvs).

Fixpoint json_ind' (j : json) : P j :=
  match j with
  | JNull => Hnull
  | JBool b => Hbool b
  | JInt z => Hint z
  | JFloat f => Hfloat f
  | JStr s => Hstr s
  | JList l =>
      Hlist l ((fix go l : List.Forall P l :=
        match l with
        | [] => List.Forall_nil _
        | x :: l' => List.Forall_cons _ _ _ (json_ind' x) (go l')
        end) l)
  | JObj kvs =>
      Hobj kvs ((fix go kvs : List.Forall (fun kv => P (snd kv)) kvs :=
        match kvs with
        | [] => List.Forall_nil _
        | kv :: kvs' => List.Forall_cons _ _ _ (json_ind' (snd kv) : (fun kv => P (snd kv)) kv) (go kvs')
        end) kvs)
  end.
End JsonInd.

Fixpoint json_eqb (a b : json) {struct a} : bool :=
  match a, b with
  | JNull, JNull => true
  | JBool x, JBool y => Bool.eqb x y
  | JInt x, JInt y => x =? y
  | JFloat x, JFloat y => x =? y
  | JStr x, JStr y => x == y
  | JList l1, JList l2 =>
      (fix go l1 l2 : bool :=
         match l1, l2 with
         | [], [] => true
         | x :: l1', y :: l2' => json_eqb x y && go l1' l2'
         | _, _ => false
         end) l1 l2
  | JObj l1, JObj l2 =>
      (fix go l1 l2 : bool :=
         match l1, l2 with
         | [], [] => true
         | (k, x) :: l1', (k', y) :: l2' => (k == k') && json_eqb x y && go l1' l2'
         | _, _ => false
         end) l1 l2
  | _, _ => false
  end.

(** [j.get(k)] of an object; [None] for a missing key or a non-object *)
Definition jget (k : string) (j : json) : option json :=
  match j with JObj kvs => dict_get k kvs | _ => None end.

Definition jstr_opt (o : option string) : json :=
  match o with Some s => JStr s | None => JNull end.
Definition jint_opt (o : option Z) : json :=
  match o with Some z => JInt z | None => JNull end.
Definition is_jobj (j : json) : bool := match j with JObj _ => true | _ => false end.
Definition is_jlist (j : json) : bool := match j with JList _ => true | _ => false end.

(** [j == s] for a text [s], where [j] is the result of [d.get(k)] *)
Definition jis_str (s : string) (j : option json) : bool :=
  match j with Some (JStr t) => t == s | _ => false end.

(** [bool(j)] *)
Definition truthy (j : json) : bool :=
  match j with
  | JNull => false
  | JBool b => b
  | JInt z => negb (z =? 0)
  | JFloat f => negb (f =? 0)
  | JStr s => truthy_str s
  | JList l => match l with [] => false | _ => true end
  | JObj kvs => match kvs with [] => false | _ => true end
  end.

(** ** [str] methods on ASCII text *)

Definition ascii_code (c : ascii) : Z := Z.of_nat (nat_of_ascii c).
Definition char_in (lo hi c : ascii) : bool :=
  (ascii_code lo <=? ascii_code c) && (ascii_code c <=? ascii_code hi).
Definition is_upper (c : ascii) : bool := char_in "A" "Z" c.
Definition is_lower (c : ascii) : bool := char_in "a" "z" c.
Definition is_digit (c : ascii) : bool := char_in "0" "9" c.
Definition is_space (c : ascii) : bool :=
  let n := ascii_code c in
  ((9 <=? n) && (n <=? 13)) || ((28 <=? n) && (n <=? 32)).

Fixpoint str_map (f : ascii -> ascii) (s : string) : string :=
  match s with
  | EmptyString => EmptyString
  | String c s' => String (f c) (str_map f s')
  end.
Fixpoint str_forall (p : ascii -> bool) (s : string) : bool :=
  match s with
  | EmptyString => true
  | String c s' => p c && str_forall p s'
  end.
Definition to_lower (c : ascii) : ascii :=
  if is_upper c then ascii_of_nat (nat_of_ascii c + 32) else c.
Definition to_upper (c : ascii) : ascii :=
  if is_lower c then ascii_of_nat (nat_of_ascii c - 32) else c.
(** [s.lower()], [s.upper()] *)
Definition str_lower : string -> string := str_map to_lower.
Definition str_upper : string -> string := str_map to_upper.
(** [s.replace(a, b)] for one-character [a] and [b] *)
Definition str_replace_char (a b : ascii) : string -> string :=
  str_map (fun c => if (c == a)%rs then b else c).

(** [s.replace(a, t)] for a one-character [a] *)
Fixpoint str_replace (a : ascii) (t s : string) : string :=
  match s with
  | EmptyString => EmptyString
  | String c s' => if (c == a)%rs then t +:+ str_replace a t s' else String c (str_replace a t s')
  end.

Fixpoint str_lstrip (s : string) : string :=
  match s with
  | EmptyString => EmptyString
  | String c s' => if is_space c then str_lstrip s' else s
  end.
Fixpoint str_rstrip (s : string) : string :=
  match s with
  | EmptyString => EmptyString
  | String c s' =>
      match str_rstrip s' with
      | EmptyString => if is_space c then EmptyString else String c EmptyString
      | t => String c t
      end
  end.
(** [s.strip()] *)
Definition str_strip (s : string) : string := str_rstrip (str_lstrip s).

(** [s.startswith(p)] *)
Definition startswith (p s : string) : bool := String.prefix p s.

(** [s.partition(c)]: what is before and after the first [c] *)
Fixpoint str_partition (c : ascii) (s : string) : string * string :=
  match s with
  | EmptyString => (EmptyString, EmptyString)
  | String x s' =>
      if (x == c)%rs then (EmptyString, s')
      else let '(a, b) := str_partition c s' in (String x a, b)
  end.

Definition str_len (s : string) : Z := Z.of_nat (String.length s).

(** [str(n)] *)
Definition str_int (n : Z) : string := pretty n.
Definition str_bool (b : bool) : string := if b then "True" else "False".

(** Lexicographic order of strings by code point, as [<=] on [str]. *)
Definition str_leb (a b : string) : bool := String.leb a b.

(** [c.join(l)] *)
Fixpoint str_join (sep : string) (l : list string) : string :=
  match l with
  | [] => ""
  | [s] => s
  | s :: l' => s +:+ sep +:+ str_join sep l'
  end.

(** ** UUIDs: 128-bit numbers with their canonical text *)

Definition uuid : Type := N.

Definition hex_digit (n : N) : ascii :=
  if (n <? 10)%N then ascii_of_N (n + 48) else ascii_of_N (n + 87).

(** the [k] low hexadecimal digits of [n], most significant first *)
Fixpoint hex_digits (k : nat) (n : N) : string :=
  match k with
  | O => ""
  | S k' => hex_digits k' (n / 16)%N +:+ String (hex_digit (n mod 16)%N) ""
  end.

(** [str(u)]: 8-4-4-4-12 lower-case hexadecimal digits *)
Definition uuid_str (u : uuid) : string :=
  hex_digits 8 (N.shiftr u 96) +:+ "-" +:+ hex_digits 4 (N.shiftr u 80) +:+ "-" +:+
  hex_digits 4 (N.shiftr u 64) +:+ "-" +:+ hex_digits 4 (N.shiftr u 48) +:+ "-" +:+
  hex_digits 12 u.

Definition juuid (u : uuid) : json := JStr (uuid_str u).

(** pydantic's [model_dump(mode="json")] and [model_validate] of a model *)
Class Dump (A : Type) : Type := dump : A -> json.
Class Validate (A : Type) : Type := model_validate : json -> res A.

(** ** Time

    [instant]: an aware UTC datetime, in microseconds since the epoch; what
    [datetime.now(UTC)] returns.  [datetime]: any datetime value a client can
    send, with its wall clock and its UTC offset (both in microseconds);
    [None] is a naive datetime. *)

Definition instant : Type := Z.
Record datetime : Type := DT { dt_wall : Z; dt_offset : option Z }.

#[export] Instance datetime_eq_dec : EqDecision datetime.
Proof. solve_decision. Defined.

Definition minute : Z := 60 * 1000000.
Definition hour : Z := 60 * minute.
Definition day : Z := 24 * hour.
Definition second : Z := 1000000.

Definition utc (t : instant) : datetime := DT t (Some 0).
Definition dt_aware (d : datetime) : bool := match dt_offset d with Some _ => true | None => false end.
(** the instant of an aware datetime (a naive one is read as UTC) *)
Definition dt_instant (d : datetime) : instant :=
  match dt_offset d with Some o => dt_wall d - o | None => dt_wall d end.

Definition naive_aware : exn := TypeError "can't compare offset-naive and offset-aware datetimes".

(** [a < b], [a <= b]: raises when exactly one of them is naive *)
Definition dt_lt (a b : datetime) : res bool :=
  if Bool.eqb (dt_aware a) (dt_aware b) then Ok (dt_instant a <? dt_instant b)
  else Raise naive_aware.
Definition dt_le (a b : datetime) : res bool :=
  if Bool.eqb (dt_aware a) (dt_aware b) then Ok (dt_instant a <=? dt_instant b)
  else Raise naive_aware.

(** calendar date of a day number counted from 1970-01-01 *)
Definition civil (days : Z) : Z * Z * Z :=
  let z := days + 719468 in
  let era := z / 146097 in
  let doe := z mod 146097 in
  let yoe := (doe - doe / 1460 + doe / 36524 - doe / 146096) / 365 in
  let doy := doe - (365 * yoe + yoe / 4 - yoe / 100) in
  let mp := (5 * doy + 2) / 153 in
  let d := doy - (153 * mp + 2) / 5 + 1 in
  let m := if mp <? 10 then mp + 3 else mp - 9 in
  let y := yoe + era * 400 + (if m <=? 2 then 1 else 0) in
  (y, m, d).

Fixpoint dec_digits (k : nat) (n : Z) : string :=
  match k with
  | O => ""
  | S k' => dec_digits k' (n / 10) +:+ String (ascii_of_N (Z.to_N (n mod 10) + 48)) ""
  end.

Definition date_str (wall : Z) : string :=
  let '(y, m, d) := civil (wall / day) in
  dec_digits 4 y +:+ "-" +:+ dec_digits 2 m +:+ "-" +:+ dec_digits 2 d.

Definition offset_str (o : Z) : string :=
  let a := Z.abs o in
  (if o <? 0 then "-" else "+") +:+ dec_digits 2 (a / hour) +:+ ":" +:+
  dec_digits 2 (a / minute mod 60) +:+
  (if a mod minute =? 0 then ""
   else ":" +:+ dec_digits 2 (a / second mod 60) +:+
        (if a mod second =? 0 then "" else "." +:+ dec_digits 6 (a mod second))).

(** [d.isoformat()] *)
Definition isoformat (d : datetime) : string :=
  let w := dt_wall d in
  let t := w mod day in
  date_str w +:+ "T" +:+ dec_digits 2 (t / hour) +:+ ":" +:+ dec_digits 2 (t / minute mod 60) +:+
  ":" +:+ dec_digits 2 (t / second mod 60) +:+
  (if t mod second =? 0 then "" else "." +:+ dec_digits 6 (t mod second)) +:+
  match dt_offset d with Some o => offset_str o | None => "" end.

Example isoformat_now : isoformat (utc 1784073600000001) = "2026-07-15T00:00:00.000001+00:00".
Proof. vm_compute. reflexivity. Qed.

Example uuid_text : uuid_str 1%N = "00000000-0000-0000-0000-000000000001".
Proof. vm_compute. reflexivity. Qed.

(** ** Lemmas *)

Lemma str_app_cons c (a b : string) : String c a +:+ b = String c (a +:+ b).
Proof. reflexivity. Qed.

Lemma str_app_nil_l (b : string) : "" +:+ b = b.
Proof. reflexivity. Qed.

Lemma str_app_nil_r (s : string) : s +:+ "" = s.
Proof. induction s as [|c s IH]; [done|]. by rewrite str_app_cons, IH. Qed.

Lemma str_app_assoc (a b c : string) : (a +:+ b) +:+ c = a +:+ (b +:+ c).
Proof. induction a as [|x a IH]; [done|]. by rewrite !str_app_cons, IH. Qed.

Lemma str_length_app (a b : string) :
  String.length (a +:+ b) = (String.length a + String.length b)%nat.
Proof. induction a as [|x a IH]; [done|]. rewrite str_app_cons. simpl. by rewrite IH. Qed.

(** Appending to texts of one length is injective in both parts. *)
Lemma str_app_inj_len (a1 b1 a2 b2 : string) :
  String.length a1 = String.length b1 -> a1 +:+ a2 = b1 +:+ b2 -> a1 = b1 /\ a2 = b2.
Proof.
  revert b1. induction a1 as [|x a1 IH]; intros [|y b1] Hl E; try discriminate Hl.
  - split; [done|exact E].
  - rewrite !str_app_cons in E. injection E as -> E. injection Hl as Hl.
    by destruct (IH b1 Hl E) as [-> ->].
Qed.

Lemma str_app_inj_l (a b1 b2 : string) : a +:+ b1 = a +:+ b2 -> b1 = b2.
Proof. intros E. by apply str_app_inj_len in E as [_ ?]. Qed.

Lemma hex_digits_length k n : String.length (hex_digits k n) = k.
Proof. revert n. induction k as [|k IH]; intros n; simpl; [done|]. rewrite str_length_app, IH. simpl. lia. Qed.

Lemma hex_digit_inj m n : (m < 16)%N -> (n < 16)%N -> hex_digit m = hex_digit n -> m = n.
Proof.
  intros Hm Hn. unfold hex_digit.
  destruct (N.ltb_spec m 10), (N.ltb_spec n 10); intros E;
    apply (f_equal N_of_ascii) in E; rewrite !N_ascii_embedding in E by lia; lia.
Qed.

Lemma hex_digits_inj k m n :
  (m < 16 ^ N.of_nat k)%N -> (n < 16 ^ N.of_nat k)%N -> hex_digits k m = hex_digits k n -> m = n.
Proof.
  revert m n. induction k as [|k IH]; intros m n Hm Hn E.
  - simpl in *. lia.
  - simpl in E. apply str_app_inj_len in E as [E1 E2]; [|by rewrite !hex_digits_length].
    rewrite Nat2N.inj_succ, N.pow_succ_r' in Hm, Hn.
    apply IH in E1; [|apply N.Div0.div_lt_upper_bound; lia..].
    simplify_eq. apply hex_digit_inj in E2; [|apply N.mod_lt; lia..].
    rewrite (N.div_mod m 16), (N.div_mod n 16) by lia. congruence.
Qed.

Lemma uuid_str_length u : String.length (uuid_str u) = 36%nat.
Proof. unfold uuid_str. by rewrite !str_length_app, !hex_digits_length. Qed.

Lemma jis_str_true s j : jis_str s j = true <-> j = Some (JStr s).
Proof. destruct j as [[]|]; simpl; try (split; congruence). rewrite bool_decide_eq_true. naive_solver. Qed.

Lemma str_leb_total : leb_is_total str_leb.
Proof. intros a b. apply String.leb_total. Qed.

Lemma str_leb_trans : leb_is_trans str_leb.
Proof.
  intros a. induction a as [|x a IH]; intros [|y b] [|z c] H1 H2; try done.
  cbv [str_leb String.leb] in *. simpl in *. unfold Ascii.compare in *.
  destruct (N.compare_spec (N_of_ascii x) (N_of_ascii y)) as [E|E|E],
    (N.compare_spec (N_of_ascii y) (N_of_ascii z)) as [E'|E'|E']; try discriminate.
  - rewrite E, E', N.compare_refl. by eapply IH.
  - rewrite E. by rewrite (proj2 (N.compare_lt_iff _ _) E').
  - rewrite <- E'. by rewrite (proj2 (N.compare_lt_iff _ _) E).
  - by rewrite (proj2 (N.compare_lt_iff _ _) (N.lt_trans _ _ _ E E')).
Qed.
