(* ===== verification/Enums.v ===== *)
(** * [domain/models.py]: enumerations

    Each [StrEnum] is a module with its members.  The class [StrEnum] is the
    interface the rest of the library uses: a member's [value], the list of
    members, and the laws that make [of_value] (Python's [E(s)]) the inverse
    of [value]. *)

From S2P Require Import Prelude PyData Float64 PyStd.

Class StrEnum (T : Type) : Type := {
  enum_eq_dec :: EqDecision T;
  value : T -> string;
  members : list T;
  members_complete : forall x, In x members;
  value_injective : forall x y, value x = value y -> x = y
}.

(** [E(s)]: the member with this value; Python raises [ValueError] otherwise *)
Definition of_value {T} `{StrEnum T} (s : string) : option T :=
  List.find (fun x => value x == s) members.

Lemma find_value {T} `{StrEnum T} (x : T) l :
  In x l -> List.find (fun y => value y == value x) l = Some x.
Proof.
  induction l as [|y l IH]; simpl; [done|]. intros [->|Hx].
  - by rewrite bool_decide_true.
  - case_bool_decide as E; [apply value_injective in E; by subst|by apply IH].
Qed.

(** Proof of the two laws of an enumeration by case analysis. *)
Ltac enum_laws :=
  [> solve [intros []; simpl; tauto]
   | solve [intros [] []; simpl; first [reflexivity | discriminate]] ].

Module Severity.

Inductive t : Type :=
  | LOW
  | WATCH
  | HIGH
  | CRITICAL.

#[global] Instance eq_dec : EqDecision t.
Proof. solve_decision. Defined.

#[global] Instance enum : StrEnum t.
Proof.
  refine {| value := fun x => match x with
    | LOW => "low"
    | WATCH => "watch"
    | HIGH => "high"
    | CRITICAL => "critical"
    end;
    members := [LOW; WATCH; HIGH; CRITICAL] |}; enum_laws.
Defined.

End Severity.

Module FreshnessStatus.

Inductive t : Type :=
  | FRESH
  | CACHED
  | STALE
  | UNAVAILABLE.

#[global] Instance eq_dec : EqDecision t.
Proof. solve_decision. Defined.

#[global] Instance enum : StrEnum t.
Proof.
  refine {| value := fun x => match x with
    | FRESH => "fresh"
    | CACHED => "cached"
    | STALE => "stale"
    | UNAVAILABLE => "unavailable"
    end;
    members := [FRESH; CACHED; STALE; UNAVAILABLE] |}; enum_laws.
Defined.

End FreshnessStatus.

Module TripCriticality.

Inductive t : Type :=
  | STANDARD
  | IMPORTANT
  | BUSINESS_CRITICAL.

#[global] Instance eq_dec : EqDecision t.
Proof. solve_decision. Defined.

#[global] Instance enum : StrEnum t.
Proof.
  refine {| value := fun x => match x with
    | STANDARD => "standard"
    | IMPORTANT => "important"
    | BUSINESS_CRITICAL => "business_critical"
    end;
    members := [STANDARD; IMPORTANT; BUSINESS_CRITICAL] |}; enum_laws.
Defined.

End TripCriticality.

Module TripStatus.

Inductive t : Type :=
  | ACTIVE
  | CANCELLED.

#[global] Instance eq_dec : EqDecision t.
Proof. solve_decision. Defined.

#[global] Instance enum : StrEnum t.
Proof.
  refine {| value := fun x => match x with
    | ACTIVE => "active"
    | CANCELLED => "cancelled"
    end;
    members := [ACTIVE; CANCELLED] |}; enum_laws.
Defined.

End TripStatus.

Module AssessmentDisposition.

Inductive t : Type :=
  | MONITOR
  | MANAGER_QUEUE
  | INVESTIGATE
  | NEEDS_HUMAN_REVIEW.

#[global] Instance eq_dec : EqDecision t.
Proof. solve_decision. Defined.

#[global] Instance enum : StrEnum t.
Proof.
  refine {| value := fun x => match x with
    | MONITOR => "monitor"
    | MANAGER_QUEUE => "manager_queue"
    | INVESTIGATE => "investigate"
    | NEEDS_HUMAN_REVIEW => "needs_human_review"
    end;
    members := [MONITOR; MANAGER_QUEUE; INVESTIGATE; NEEDS_HUMAN_REVIEW] |}; enum_laws.
Defined.

End AssessmentDisposition.

Module IncidentStatus.

Inductive t : Type :=
  | OPEN
  | PENDING_APPROVAL
  | APPROVED
  | REJECTED
  | RESOLVED.

#[global] Instance eq_dec : EqDecision t.
Proof. solve_decision. Defined.

#[global] Instance enum : StrEnum t.
Proof.
  refine {| value := fun x => match x with
    | OPEN => "open"
    | PENDING_APPROVAL => "pending_approval"
    | APPROVED => "approved"
    | REJECTED => "rejected"
    | RESOLVED => "resolved"
    end;
    members := [OPEN; PENDING_APPROVAL; APPROVED; REJECTED; RESOLVED] |}; enum_laws.
Defined.

End IncidentStatus.

Module ApprovalDecision.

Inductive t : Type :=
  | APPROVE
  | REJECT.

#[global] Instance eq_dec : EqDecision t.
Proof. solve_decision. Defined.

#[global] Instance enum : StrEnum t.
Proof.
  refine {| value := fun x => match x with
    | APPROVE => "approve"
    | REJECT => "reject"
    end;
    members := [APPROVE; REJECT] |}; enum_laws.
Defined.

End ApprovalDecision.

Module MemoryProposalStatus.

Inductive t : Type :=
  | PENDING_CONFIRMATION
  | CONFIRMED
  | REJECTED.

#[global] Instance eq_dec : EqDecision t.
Proof. solve_decision. Defined.

#[global] Instance enum : StrEnum t.
Proof.
  refine {| value := fun x => match x with
    | PENDING_CONFIRMATION => "pending_confirmation"
    | CONFIRMED => "confirmed"
    | REJECTED => "rejected"
    end;
    members := [PENDING_CONFIRMATION; CONFIRMED; REJECTED] |}; enum_laws.
Defined.

End MemoryProposalStatus.

Module ManagerFeedbackType.

Inductive t : Type :=
  | MANAGER_OVERRIDE
  | RECOVERY_OUTCOME.

#[global] Instance eq_dec : EqDecision t.
Proof. solve_decision. Defined.

#[global] Instance enum : StrEnum t.
Proof.
  refine {| value := fun x => match x with
    | MANAGER_OVERRIDE => "manager_override"
    | RECOVERY_OUTCOME => "recovery_outcome"
    end;
    members := [MANAGER_OVERRIDE; RECOVERY_OUTCOME] |}; enum_laws.
Defined.

End ManagerFeedbackType.

Module NotificationStatus.

Inductive t : Type :=
  | QUEUED
  | DELIVERED
  | RETRY_SCHEDULED
  | FAILED
  | ACKNOWLEDGED
  | CANCELLED.

#[global] Instance eq_dec : EqDecision t.
Proof. solve_decision. Defined.

#[global] Instance enum : StrEnum t.
Proof.
  refine {| value := fun x => match x with
    | QUEUED => "queued"
    | DELIVERED => "delivered"
    | RETRY_SCHEDULED => "retry_scheduled"
    | FAILED => "failed"
    | ACKNOWLEDGED => "acknowledged"
    | CANCELLED => "cancelled"
    end;
    members := [QUEUED; DELIVERED; RETRY_SCHEDULED; FAILED; ACKNOWLEDGED; CANCELLED] |}; enum_laws.
Defined.

End NotificationStatus.

Module ActionDispatchStatus.

Inductive t : Type :=
  | QUEUED
  | DISPATCHED
  | RETRY_SCHEDULED
  | FAILED
  | SUPPRESSED.

#[global] Instance eq_dec : EqDecision t.
Proof. solve_decision. Defined.

#[global] Instance enum : StrEnum t.
Proof.
  refine {| value := fun x => match x with
    | QUEUED => "queued"
    | DISPATCHED => "dispatched"
    | RETRY_SCHEDULED => "retry_scheduled"
    | FAILED => "failed"
    | SUPPRESSED => "suppressed"
    end;
    members := [QUEUED; DISPATCHED; RETRY_SCHEDULED; FAILED; SUPPRESSED] |}; enum_laws.
Defined.

End ActionDispatchStatus.

Module ChangeRecordType.

Inductive t : Type :=
  | MODEL
  | PROMPT
  | POLICY.

#[global] Instance eq_dec : EqDecision t.
Proof. solve_decision. Defined.

#[global] Instance enum : StrEnum t.
Proof.
  refine {| value := fun x => match x with
    | MODEL => "model"
    | PROMPT => "prompt"
    | POLICY => "policy"
    end;
    members := [MODEL; PROMPT; POLICY] |}; enum_laws.
Defined.

End ChangeRecordType.

Module ProviderOnboardingStatus.

Inductive t : Type :=
  | DRAFT
  | SECURITY_REVIEW
  | APPROVED
  | REJECTED
  | DISABLED.

#[global] Instance eq_dec : EqDecision t.
Proof. solve_decision. Defined.

#[global] Instance enum : StrEnum t.
Proof.
  refine {| value := fun x => match x with
    | DRAFT => "draft"
    | SECURITY_REVIEW => "security_review"
    | APPROVED => "approved"
    | REJECTED => "rejected"
    | DISABLED => "disabled"
    end;
    members := [DRAFT; SECURITY_REVIEW; APPROVED; REJECTED; DISABLED] |}; enum_laws.
Defined.

End ProviderOnboardingStatus.

Module DeletionRequestStatus.

Inductive t : Type :=
  | PENDING
  | BLOCKED_BY_LEGAL_HOLD
  | COMPLETED
  | FAILED.

#[global] Instance eq_dec : EqDecision t.
Proof. solve_decision. Defined.

#[global] Instance enum : StrEnum t.
Proof.
  refine {| value := fun x => match x with
    | PENDING => "pending"
    | BLOCKED_BY_LEGAL_HOLD => "blocked_by_legal_hold"
    | COMPLETED => "completed"
    | FAILED => "failed"
    end;
    members := [PENDING; BLOCKED_BY_LEGAL_HOLD; COMPLETED; FAILED] |}; enum_laws.
Defined.

End DeletionRequestStatus.

Module DeletionRequestScope.

Inductive t : Type :=
  | PREFERENCE_MEMORY
  | TRAVELER_DATA.

#[global] Instance eq_dec : EqDecision t.
Proof. solve_decision. Defined.

#[global] Instance enum : StrEnum t.
Proof.
  refine {| value := fun x => match x with
    | PREFERENCE_MEMORY => "preference_memory"
    | TRAVELER_DATA => "traveler_data"
    end;
    members := [PREFERENCE_MEMORY; TRAVELER_DATA] |}; enum_laws.
Defined.

End DeletionRequestScope.

Module LegalHoldScope.

Inductive t : Type :=
  | TENANT
  | TRAVELER
  | TRIP.

#[global] Instance eq_dec : EqDecision t.
Proof. solve_decision. Defined.

#[global] Instance enum : StrEnum t.
Proof.
  refine {| value := fun x => match x with
    | TENANT => "tenant"
    | TRAVELER => "traveler"
    | TRIP => "trip"
    end;
    members := [TENANT; TRAVELER; TRIP] |}; enum_laws.
Defined.

End LegalHoldScope.

Module IdempotencyState.

Inductive t : Type :=
  | IN_PROGRESS
  | COMPLETED.

#[global] Instance eq_dec : EqDecision t.
Proof. solve_decision. Defined.

#[global] Instance enum : StrEnum t.
Proof.
  refine {| value := fun x => match x with
    | IN_PROGRESS => "in_progress"
    | COMPLETED => "completed"
    end;
    members := [IN_PROGRESS; COMPLETED] |}; enum_laws.
Defined.

End IdempotencyState.

Module UserRole.

Inductive t : Type :=
  | TRAVELER
  | TRAVEL_MANAGER
  | DUTY_OF_CARE
  | TENANT_ADMIN
  | PLATFORM_ADMIN.

#[global] Instance eq_dec : EqDecision t.
Proof. solve_decision. Defined.

#[global] Instance enum : StrEnum t.
Proof.
  refine {| value := fun x => match x with
    | TRAVELER => "traveler"
    | TRAVEL_MANAGER => "travel_manager"
    | DUTY_OF_CARE => "duty_of_care"
    | TENANT_ADMIN => "tenant_admin"
    | PLATFORM_ADMIN => "platform_admin"
    end;
    members := [TRAVELER; TRAVEL_MANAGER; DUTY_OF_CARE; TENANT_ADMIN; PLATFORM_ADMIN] |}; enum_laws.
Defined.

End UserRole.

Module RuntimeControlName.

Inductive t : Type :=
  | LLM_ENABLED
  | REACT_TOOL_CALLS_ENABLED
  | NOTIFICATIONS_ENABLED
  | APPROVAL_ACTIONS_ENABLED
  | MEMORY_READS_ENABLED
  | MEMORY_WRITES_ENABLED
  | PROVIDER_AMADEUS_ENABLED
  | PROVIDER_FAA_ENABLED
  | PROVIDER_NWS_ENABLED
  | PROVIDER_AVIATION_WEATHER_ENABLED
  | PROVIDER_GOOGLE_ROUTES_ENABLED
  | PROVIDER_DESTINATION_ADVISORY_ENABLED
  | TENANT_AUTOMATION_ENABLED.

#[global] Instance eq_dec : EqDecision t.
Proof. solve_decision. Defined.

#[global] Instance enum : StrEnum t.
Proof.
  refine {| value := fun x => match x with
    | LLM_ENABLED => "LLM_ENABLED"
    | REACT_TOOL_CALLS_ENABLED => "REACT_TOOL_CALLS_ENABLED"
    | NOTIFICATIONS_ENABLED => "NOTIFICATIONS_ENABLED"
    | APPROVAL_ACTIONS_ENABLED => "APPROVAL_ACTIONS_ENABLED"
    | MEMORY_READS_ENABLED => "MEMORY_READS_ENABLED"
    | MEMORY_WRITES_ENABLED => "MEMORY_WRITES_ENABLED"
    | PROVIDER_AMADEUS_ENABLED => "PROVIDER_AMADEUS_ENABLED"
    | PROVIDER_FAA_ENABLED => "PROVIDER_FAA_ENABLED"
    | PROVIDER_NWS_ENABLED => "PROVIDER_NWS_ENABLED"
    | PROVIDER_AVIATION_WEATHER_ENABLED => "PROVIDER_AVIATION_WEATHER_ENABLED"
    | PROVIDER_GOOGLE_ROUTES_ENABLED => "PROVIDER_GOOGLE_ROUTES_ENABLED"
    | PROVIDER_DESTINATION_ADVISORY_ENABLED => "PROVIDER_DESTINATION_ADVISORY_ENABLED"
    | TENANT_AUTOMATION_ENABLED => "TENANT_AUTOMATION_ENABLED"
    end;
    members := [LLM_ENABLED; REACT_TOOL_CALLS_ENABLED; NOTIFICATIONS_ENABLED; APPROVAL_ACTIONS_ENABLED; MEMORY_READS_ENABLED; MEMORY_WRITES_ENABLED; PROVIDER_AMADEUS_ENABLED; PROVIDER_FAA_ENABLED; PROVIDER_NWS_ENABLED; PROVIDER_AVIATION_WEATHER_ENABLED; PROVIDER_GOOGLE_ROUTES_ENABLED; PROVIDER_DESTINATION_ADVISORY_ENABLED; TENANT_AUTOMATION_ENABLED] |}; enum_laws.
Defined.

End RuntimeControlName.

Module OriginalUploadStatus.

Inductive t : Type :=
  | QUARANTINED
  | VALIDATED
  | REJECTED.

#[global] Instance eq_dec : EqDecision t.
Proof. solve_decision. Defined.

#[global] Instance enum : StrEnum t.
Proof.
  refine {| value := fun x => match x with
    | QUARANTINED => "quarantined"
    | VALIDATED => "validated"
    | REJECTED => "rejected"
    end;
    members := [QUARANTINED; VALIDATED; REJECTED] |}; enum_laws.
Defined.

End OriginalUploadStatus.
