(* ===== verification/Models.v ===== *)
(** * [domain/models.py]: records

    Each pydantic model is a module with its fields and, as [valid], the
    constraints its construction checks ([Field(...)] bounds, patterns and
    validators): building a model that is not [valid] raises
    [ValidationError].  Defaults are supplied by the caller, as keyword
    arguments.  A timestamp that only the server writes is an [instant]; one
    that a client may send is a [datetime]. *)

From S2P Require Import Prelude PyData Float64 PyStd Enums.

(** ** Field constraints *)

(** [min_length=lo, max_length=hi] *)
Definition len_in (lo hi : Z) (s : string) : bool := (lo <=? str_len s) && (str_len s <=? hi).
Definition opt_max (n : Z) (o : option string) : bool :=
  match o with Some s => str_len s <=? n | None => true end.
(** the pattern [^[class]{lo,hi}$] *)
Definition chars_in (lo hi : Z) (p : ascii -> bool) (s : string) : bool :=
  len_in lo hi s && str_forall p s.
Definition is_hex_lower (c : ascii) : bool := is_digit c || char_in "a" "f" c.
Definition is_sha256_hex (s : string) : bool := chars_in 64 64 is_hex_lower s.
Definition is_channel (s : string) : bool := mem s ["email"; "sms"; "push"; "in_app"].
(** [^[a-z0-9][a-z0-9_-]*$] *)
Definition is_playbook_name (s : string) : bool :=
  match s with
  | EmptyString => false
  | String c s' =>
      (is_lower c || is_digit c) &&
      str_forall (fun c => is_lower c || is_digit c || (c == "_"%char)%rs || (c == "-"%char)%rs) s'
  end.
(** [ge=0, le=100] *)
Definition percent (x : f64) : bool := (0 <=? x) && (x <=? f_int 100).
Definition is_some {A} (o : option A) : bool := match o with Some _ => true | None => false end.

(** Constructing the model [name] from a value *)
Definition construct {A} (name : string) (valid : A -> bool) (x : A) : res A :=
  if valid x then Ok x else Raise (ValidationError name).

Lemma construct_ok {A} name valid (x y : A) :
  construct name valid x = Ok y <-> y = x /\ valid x = true.
Proof. unfold construct. destruct (valid x); naive_solver. Qed.

Module FlightSegmentCreate.

Record t : Type := mk {
  segment_id : string;
  carrier_code : string;
  flight_number : string;
  departure_airport : string;
  arrival_airport : string;
  scheduled_departure_at : datetime;
  scheduled_arrival_at : datetime
}.

(** [validate_schedule] *)
Definition validate_schedule (x : t) : bool :=
  dt_aware (scheduled_departure_at x) && dt_aware (scheduled_arrival_at x) &&
  (dt_instant (scheduled_departure_at x) <? dt_instant (scheduled_arrival_at x)).

Definition valid (x : t) : bool :=
  len_in 1 64 (segment_id x) &&
  chars_in 2 3 (fun c => is_upper c || is_digit c) (carrier_code x) &&
  chars_in 1 4 is_digit (flight_number x) &&
  chars_in 3 3 is_upper (departure_airport x) &&
  chars_in 3 3 is_upper (arrival_airport x) &&
  validate_schedule x.

End FlightSegmentCreate.

Module TripCreate.

Record t : Type := mk {
  tenant_id : string;
  traveler_id : string;
  assigned_manager_id : option string;
  trip_criticality : TripCriticality.t;
  ground_origin : string;
  destination_country : string;
  segments : list FlightSegmentCreate.t
}.

(** [validate_segment_order]: consecutive segments connect in place and time *)
Definition validate_segment_order (segments : list FlightSegmentCreate.t) : bool :=
  forallb (fun '(previous, current) =>
      (FlightSegmentCreate.arrival_airport previous ==
         FlightSegmentCreate.departure_airport current) &&
      negb (dt_instant (FlightSegmentCreate.scheduled_departure_at current) <?
            dt_instant (FlightSegmentCreate.scheduled_arrival_at previous)))
    (List.combine segments (List.tl segments)).

Definition valid (x : t) : bool :=
  len_in 1 128 (tenant_id x) && len_in 1 128 (traveler_id x) &&
  opt_max 128 (assigned_manager_id x) && len_in 1 256 (ground_origin x) &&
  chars_in 2 2 is_upper (destination_country x) &&
  (1 <=? len (segments x)) && (len (segments x) <=? 3) &&
  forallb FlightSegmentCreate.valid (segments x) &&
  validate_segment_order (segments x).

End TripCreate.

Module Trip.

Record t : Type := mk {
  tenant_id : string;
  traveler_id : string;
  assigned_manager_id : option string;
  trip_criticality : TripCriticality.t;
  ground_origin : string;
  destination_country : string;
  segments : list FlightSegmentCreate.t;
  trip_id : uuid;
  status : TripStatus.t;
  created_at : instant
}.

#[global] Instance settable : Settable t := fun x =>
    mk (tenant_id x) (traveler_id x) (assigned_manager_id x) (trip_criticality x) (ground_origin
    x) (destination_country x) (segments x) (trip_id x) (status x) (created_at x).

(** [Trip( **payload, trip_id=..., created_at=...)] *)
Definition of_create (p : TripCreate.t) (id : uuid) (st : TripStatus.t) (now : instant) : t :=
  {| tenant_id := TripCreate.tenant_id p; traveler_id := TripCreate.traveler_id p;
     assigned_manager_id := TripCreate.assigned_manager_id p;
     trip_criticality := TripCreate.trip_criticality p;
     ground_origin := TripCreate.ground_origin p;
     destination_country := TripCreate.destination_country p;
     segments := TripCreate.segments p; trip_id := id; status := st; created_at := now |}.

Definition to_create (x : t) : TripCreate.t :=
  TripCreate.mk (tenant_id x) (traveler_id x) (assigned_manager_id x) (trip_criticality x)
    (ground_origin x) (destination_country x) (segments x).

Definition valid (x : t) : bool := TripCreate.valid (to_create x).

End Trip.

Module TripAssignmentRequest.

Record t : Type := mk {
  manager_id : string
}.

Definition valid (x : t) : bool :=
  len_in 1 128 (manager_id x).

End TripAssignmentRequest.

Module TravelerIncidentView.

Record t : Type := mk {
  incident_id : uuid;
  trip_id : uuid;
  severity : Severity.t;
  status : IncidentStatus.t;
  created_at : instant;
  updated_at : instant;
  approved_guidance : option string
}.

End TravelerIncidentView.

Module OriginalUploadRecord.

Record t : Type := mk {
  original_upload_id : uuid;
  tenant_id : string;
  source : string;
  object_key : string;
  content_sha256 : string;
  content_size_bytes : Z;
  content_type : string;
  status : OriginalUploadStatus.t;
  validation_errors : list string;
  created_at : instant;
  validated_at : option instant
}.

#[global] Instance settable : Settable t := fun x =>
    mk (original_upload_id x) (tenant_id x) (source x) (object_key x) (content_sha256 x)
    (content_size_bytes x) (content_type x) (status x) (validation_errors x) (created_at x)
    (validated_at x).

Definition valid (x : t) : bool :=
  len_in 1 128 (tenant_id x) &&
  mem (source x) ["csv"; "booking_webhook"] &&
  len_in 1 512 (object_key x) &&
  is_sha256_hex (content_sha256 x) &&
  (1 <=? content_size_bytes x) &&
  (content_size_bytes x <=? 10000000) &&
  len_in 1 128 (content_type x) &&
  (len (validation_errors x) <=? 20).

End OriginalUploadRecord.

Module EvidenceEnvelope.

Record t : Type := mk {
  evidence_id : uuid;
  source_name : string;
  source_type : string;
  source_url_or_record_id : string;
  retrieved_at : datetime;
  observed_at : option datetime;
  expires_at : datetime;
  freshness_status : FreshnessStatus.t;
  normalized_payload : dict string json;
  raw_payload_reference : option string;
  provider_latency_ms : option Z;
  provider_request_id : option string;
  error_code : option string
}.

#[global] Instance settable : Settable t := fun x =>
    mk (evidence_id x) (source_name x) (source_type x) (source_url_or_record_id x) (retrieved_at
    x) (observed_at x) (expires_at x) (freshness_status x) (normalized_payload x)
    (raw_payload_reference x) (provider_latency_ms x) (provider_request_id x) (error_code x).

Definition valid (x : t) : bool :=
  truthy_str (source_name x) &&
  truthy_str (source_type x) &&
  truthy_str (source_url_or_record_id x) &&
  match provider_latency_ms x with Some n => 0 <=? n | None => true end.

End EvidenceEnvelope.

Module RiskFactors.

Record t : Type := mk {
  flight_disruption : f64;
  connection_fragility : f64;
  airport_weather : f64;
  ground_route_disruption : f64;
  destination_advisory : f64;
  traveler_trip_criticality : f64
}.

Definition valid (x : t) : bool :=
  percent (flight_disruption x) &&
  percent (connection_fragility x) &&
  percent (airport_weather x) &&
  percent (ground_route_disruption x) &&
  percent (destination_advisory x) &&
  percent (traveler_trip_criticality x).

End RiskFactors.

Module RiskAssessment.

Record t : Type := mk {
  assessment_id : uuid;
  trip_id : uuid;
  policy_version : string;
  risk_score : f64;
  severity : Severity.t;
  factor_contributions : dict string f64;
  assessment_time : instant;
  evidence_ids : list uuid;
  unknown_factors : list string;
  uncertainty : string
}.

Definition valid (x : t) : bool :=
  percent (risk_score x).

End RiskAssessment.

Module SourceHealth.

Record t : Type := mk {
  core_sources_unavailable : list string;
  limited_visibility : bool
}.

End SourceHealth.

Module AssessmentResult.

Record t : Type := mk {
  assessment : RiskAssessment.t;
  evidence : list EvidenceEnvelope.t;
  source_health : SourceHealth.t;
  disposition : AssessmentDisposition.t;
  incident_id : option uuid
}.

End AssessmentResult.

Module ToolAuditEvent.

Record t : Type := mk {
  tool_name : string;
  arguments : dict string json;
  evidence_ids : list uuid;
  occurred_at : instant;
  outcome : string
}.

End ToolAuditEvent.

Module ModelInvocationAudit.

Record t : Type := mk {
  provider : string;
  model : string;
  prompt_version : string;
  invocation_type : string;
  outcome : string;
  input_summary : dict string json;
  token_usage : option (dict string Z);
  estimated_cost_usd : option f64;
  occurred_at : instant
}.

Definition valid (x : t) : bool :=
  len_in 1 128 (provider x) &&
  len_in 1 256 (model x) &&
  len_in 1 128 (prompt_version x) &&
  len_in 1 128 (invocation_type x) &&
  len_in 1 128 (outcome x) &&
  match estimated_cost_usd x with Some c => 0 <=? c | None => true end.

End ModelInvocationAudit.

Module Recommendation.

Record t : Type := mk {
  recommendation_id : uuid;
  incident_id : uuid;
  severity_explanation : string;
  evidence_ids : list uuid;
  uncertainty : string;
  recommended_action : string;
  ranked_alternative_ids : list string;
  traveler_message : string;
  manager_message : string;
  requires_human_approval : bool;
  missing_information : list string;
  generated_at : instant
}.

Definition valid (x : t) : bool :=
  len_in 1 1000 (severity_explanation x) &&
  (1 <=? len (evidence_ids x)) &&
  len_in 1 1000 (recommended_action x) &&
  len_in 1 1000 (traveler_message x) &&
  len_in 1 2000 (manager_message x).

End Recommendation.

Module Incident.

Record t : Type := mk {
  incident_id : uuid;
  tenant_id : string;
  trip_id : uuid;
  assessment_id : uuid;
  severity : Severity.t;
  status : IncidentStatus.t;
  correlation_id : uuid;
  created_at : instant;
  updated_at : instant;
  tool_audit : list ToolAuditEvent.t;
  model_audit : list ModelInvocationAudit.t;
  recommendation : option Recommendation.t;
  graph_thread_id : option string;
  approval_payload : option (dict string json)
}.

#[global] Instance settable : Settable t := fun x =>
    mk (incident_id x) (tenant_id x) (trip_id x) (assessment_id x) (severity x) (status x)
    (correlation_id x) (created_at x) (updated_at x) (tool_audit x) (model_audit x)
    (recommendation x) (graph_thread_id x) (approval_payload x).

End Incident.

Module ApprovalRequest.

Record t : Type := mk {
  decision : ApprovalDecision.t;
  actor_id : string;
  reason : string;
  final_action_payload : dict string json
}.

Definition valid (x : t) : bool :=
  len_in 1 128 (actor_id x) &&
  len_in 1 1000 (reason x).

End ApprovalRequest.

Module ApprovalRecord.

Record t : Type := mk {
  decision : ApprovalDecision.t;
  actor_id : string;
  reason : string;
  final_action_payload : dict string json;
  approval_id : uuid;
  incident_id : uuid;
  decided_at : instant;
  action_dispatch_status : string
}.

Definition valid (x : t) : bool :=
  len_in 1 128 (actor_id x) &&
  len_in 1 1000 (reason x) &&
  mem (action_dispatch_status x) ["not_requested"; "suppressed"; "pending"; "dispatched"; "failed"].

End ApprovalRecord.

Module EventRecord.

Record t : Type := mk {
  event_id : uuid;
  event_type : string;
  tenant_id : string;
  trip_id : option uuid;
  correlation_id : uuid;
  idempotency_key : string;
  emitted_at : instant;
  actor_id : option string;
  details : dict string json
}.

#[global] Instance settable : Settable t := fun x =>
    mk (event_id x) (event_type x) (tenant_id x) (trip_id x) (correlation_id x) (idempotency_key
    x) (emitted_at x) (actor_id x) (details x).

End EventRecord.

Module IdempotencyRecord.

Record t : Type := mk {
  tenant_id : string;
  idempotency_key : string;
  scope : string;
  request_hash : string;
  state : IdempotencyState.t;
  response_status_code : option Z;
  response_payload : option json;
  created_at : instant;
  expires_at : instant;
  completed_at : option instant
}.

#[global] Instance settable : Settable t := fun x =>
    mk (tenant_id x) (idempotency_key x) (scope x) (request_hash x) (state x)
    (response_status_code x) (response_payload x) (created_at x) (expires_at x) (completed_at x).

Definition valid (x : t) : bool :=
  len_in 1 128 (tenant_id x) &&
  len_in 1 256 (idempotency_key x) &&
  len_in 1 256 (scope x) &&
  is_sha256_hex (request_hash x) &&
  match response_status_code x with Some c => (100 <=? c) && (c <=? 599) | None => true end.

End IdempotencyRecord.

Module TravelerPreferenceProfile.

Record t : Type := mk {
  tenant_id : string;
  traveler_id : string;
  preferred_airports : list string;
  preferred_carriers : list string;
  cabin_or_seat_preference : option string;
  minimum_connection_minutes : option Z;
  avoid_overnight_connections : option bool;
  approved_ground_transport_preferences : list string;
  notification_channel : option string;
  language : string;
  approved_accessibility_accommodations : list string;
  consent_version : string;
  version : Z;
  updated_at : instant
}.

#[global] Instance settable : Settable t := fun x =>
    mk (tenant_id x) (traveler_id x) (preferred_airports x) (preferred_carriers x)
    (cabin_or_seat_preference x) (minimum_connection_minutes x) (avoid_overnight_connections x)
    (approved_ground_transport_preferences x) (notification_channel x) (language x)
    (approved_accessibility_accommodations x) (consent_version x) (version x) (updated_at x).

Definition valid (x : t) : bool :=
  match minimum_connection_minutes x with Some n => (0 <=? n) && (n <=? 480) | None => true end &&
  len_in 1 64 (consent_version x) &&
  (1 <=? version x).

End TravelerPreferenceProfile.

Module TravelerPreferenceUpdate.

Record t : Type := mk {
  preferred_airports : option (list string);
  preferred_carriers : option (list string);
  cabin_or_seat_preference : option string;
  minimum_connection_minutes : option Z;
  avoid_overnight_connections : option bool;
  approved_ground_transport_preferences : option (list string);
  notification_channel : option string;
  language : option string;
  approved_accessibility_accommodations : option (list string);
  consent_version : string
}.

(** the model validator: some preference field is supplied *)
Definition includes_a_preference_change (x : t) : bool :=
  is_some (preferred_airports x) || is_some (preferred_carriers x) ||
  is_some (cabin_or_seat_preference x) || is_some (minimum_connection_minutes x) ||
  is_some (avoid_overnight_connections x) ||
  is_some (approved_ground_transport_preferences x) ||
  is_some (notification_channel x) || is_some (language x) ||
  is_some (approved_accessibility_accommodations x).

Definition valid (x : t) : bool :=
  match minimum_connection_minutes x with Some n => (0 <=? n) && (n <=? 480) | None => true end &&
  len_in 1 64 (consent_version x) &&
  includes_a_preference_change x.

End TravelerPreferenceUpdate.

Module MemoryUpdateProposal.

Record t : Type := mk {
  proposal_id : uuid;
  tenant_id : string;
  traveler_id : string;
  memory_type : string;
  record_id : string;
  before_value : dict string json;
  patch : dict string json;
  source_message_id : string;
  confidence : f64;
  consent_required : bool;
  status : MemoryProposalStatus.t;
  actor_id : string;
  created_at : datetime;
  resolved_at : option datetime
}.

#[global] Instance settable : Settable t := fun x =>
    mk (proposal_id x) (tenant_id x) (traveler_id x) (memory_type x) (record_id x) (before_value
    x) (patch x) (source_message_id x) (confidence x) (consent_required x) (status x) (actor_id x)
    (created_at x) (resolved_at x).

Definition valid (x : t) : bool :=
  (1 <=? len (patch x)) &&
  len_in 1 128 (source_message_id x) &&
  (0 <=? confidence x) && (confidence x <=? one64) &&
  len_in 1 128 (actor_id x).

End MemoryUpdateProposal.

Module NotificationRecord.

Record t : Type := mk {
  notification_id : uuid;
  tenant_id : string;
  incident_id : option uuid;
  traveler_id : string;
  channel : string;
  recipient_reference : string;
  subject : string;
  body : string;
  status : NotificationStatus.t;
  attempt_count : Z;
  next_attempt_at : instant;
  delivered_at : option instant;
  acknowledged_at : option instant;
  acknowledgement_actor_id : option string;
  last_error_code : option string;
  dispatch_claim_id : option uuid;
  dispatch_claimed_by : option string;
  dispatch_claimed_at : option instant;
  dispatch_claim_expires_at : option instant;
  created_at : instant;
  updated_at : instant
}.

#[global] Instance settable : Settable t := fun x =>
    mk (notification_id x) (tenant_id x) (incident_id x) (traveler_id x) (channel x)
    (recipient_reference x) (subject x) (body x) (status x) (attempt_count x) (next_attempt_at x)
    (delivered_at x) (acknowledged_at x) (acknowledgement_actor_id x) (last_error_code x)
    (dispatch_claim_id x) (dispatch_claimed_by x) (dispatch_claimed_at x)
    (dispatch_claim_expires_at x) (created_at x) (updated_at x).

Definition valid (x : t) : bool :=
  len_in 1 128 (tenant_id x) &&
  len_in 1 128 (traveler_id x) &&
  is_channel (channel x) &&
  len_in 1 256 (recipient_reference x) &&
  len_in 1 200 (subject x) &&
  len_in 1 4000 (body x) &&
  (0 <=? attempt_count x) && (attempt_count x <=? 10) &&
  opt_max 128 (acknowledgement_actor_id x) &&
  opt_max 128 (last_error_code x) &&
  opt_max 128 (dispatch_claimed_by x).

End NotificationRecord.

Module NotificationCreate.

Record t : Type := mk {
  incident_id : option uuid;
  traveler_id : string;
  channel : string;
  recipient_reference : string;
  subject : string;
  body : string
}.

Definition valid (x : t) : bool :=
  len_in 1 128 (traveler_id x) &&
  is_channel (channel x) &&
  len_in 1 256 (recipient_reference x) &&
  len_in 1 200 (subject x) &&
  len_in 1 4000 (body x).

End NotificationCreate.

Module NotificationAttempt.

Record t : Type := mk {
  attempt_id : uuid;
  notification_id : uuid;
  attempt_number : Z;
  attempted_at : instant;
  outcome : string;
  provider_message_reference : option string;
  error_code : option string
}.

Definition valid (x : t) : bool :=
  (1 <=? attempt_number x) && (attempt_number x <=? 10) &&
  mem (outcome x) ["delivered"; "retry_scheduled"; "failed"] &&
  opt_max 256 (provider_message_reference x) &&
  opt_max 128 (error_code x).

End NotificationAttempt.

Module ActionDispatchRecord.

Record t : Type := mk {
  action_dispatch_id : uuid;
  tenant_id : string;
  incident_id : uuid;
  approval_id : uuid;
  action_payload : dict string json;
  idempotency_key : string;
  status : ActionDispatchStatus.t;
  attempt_count : Z;
  next_attempt_at : instant;
  last_error_code : option string;
  dispatch_claim_id : option uuid;
  dispatch_claimed_by : option string;
  dispatch_claimed_at : option instant;
  dispatch_claim_expires_at : option instant;
  dispatched_at : option instant;
  created_at : instant;
  updated_at : instant
}.

#[global] Instance settable : Settable t := fun x =>
    mk (action_dispatch_id x) (tenant_id x) (incident_id x) (approval_id x) (action_payload x)
    (idempotency_key x) (status x) (attempt_count x) (next_attempt_at x) (last_error_code x)
    (dispatch_claim_id x) (dispatch_claimed_by x) (dispatch_claimed_at x)
    (dispatch_claim_expires_at x) (dispatched_at x) (created_at x) (updated_at x).

Definition valid (x : t) : bool :=
  len_in 1 128 (tenant_id x) &&
  (1 <=? len (action_payload x)) &&
  len_in 1 256 (idempotency_key x) &&
  (0 <=? attempt_count x) && (attempt_count x <=? 10) &&
  opt_max 128 (last_error_code x) &&
  opt_max 128 (dispatch_claimed_by x).

End ActionDispatchRecord.

Module ActionDispatchAttempt.

Record t : Type := mk {
  attempt_id : uuid;
  action_dispatch_id : uuid;
  attempt_number : Z;
  attempted_at : instant;
  outcome : string;
  external_reference : option string;
  error_code : option string
}.

Definition valid (x : t) : bool :=
  (1 <=? attempt_number x) && (attempt_number x <=? 10) &&
  mem (outcome x) ["dispatched"; "retry_scheduled"; "failed"; "suppressed"] &&
  opt_max 256 (external_reference x) &&
  opt_max 128 (error_code x).

End ActionDispatchAttempt.

Module MemoryAuditEvent.

Record t : Type := mk {
  audit_id : uuid;
  tenant_id : string;
  traveler_id : string;
  action : string;
  proposal_id : option uuid;
  actor_id : option string;
  details : dict string json;
  occurred_at : instant
}.

#[global] Instance settable : Settable t := fun x =>
    mk (audit_id x) (tenant_id x) (traveler_id x) (action x) (proposal_id x) (actor_id x) (details x)
    (occurred_at x).

Definition valid (x : t) : bool :=
  len_in 1 128 (tenant_id x) &&
  len_in 1 128 (traveler_id x) &&
  mem (action x) ["proposed"; "confirmed"; "updated"; "rejected"; "deleted"; "exported"] &&
  opt_max 128 (actor_id x).

End MemoryAuditEvent.

Module ManagerFeedback.

Record t : Type := mk {
  feedback_id : uuid;
  tenant_id : string;
  incident_id : uuid;
  candidate_set_id : uuid;
  candidate_id : string;
  feedback_type : ManagerFeedbackType.t;
  outcome_id : option uuid;
  actor_id : option string;
  reason : option string;
  details : dict string json;
  created_at : instant
}.

Definition validate_feedback (x : t) : bool :=
  negb ((feedback_type x == ManagerFeedbackType.MANAGER_OVERRIDE) && negb (truthy_opt_str (reason x))) &&
  negb ((feedback_type x == ManagerFeedbackType.RECOVERY_OUTCOME) && negb (is_some (outcome_id x))).

Definition valid (x : t) : bool :=
  len_in 1 128 (tenant_id x) &&
  truthy_str (candidate_id x) &&
  opt_max 128 (actor_id x) &&
  opt_max 1000 (reason x) &&
  validate_feedback x.

End ManagerFeedback.

Module TenantPlaybookCreate.

Record t : Type := mk {
  name : string;
  version : string;
  guidance : string
}.

Definition valid (x : t) : bool :=
  len_in 1 128 (name x) &&
  is_playbook_name (name x) &&
  len_in 1 64 (version x) &&
  len_in 1 5000 (guidance x).

End TenantPlaybookCreate.

Module TenantPlaybook.

Record t : Type := mk {
  name : string;
  version : string;
  guidance : string;
  playbook_id : uuid;
  tenant_id : string;
  approved_by : string;
  approved_at : instant
}.

Definition valid (x : t) : bool :=
  len_in 1 128 (name x) &&
  is_playbook_name (name x) &&
  len_in 1 64 (version x) &&
  len_in 1 5000 (guidance x) &&
  len_in 1 128 (tenant_id x) &&
  len_in 1 128 (approved_by x).

End TenantPlaybook.

Module ChangeRecord.

Record t : Type := mk {
  change_id : uuid;
  tenant_id : string;
  change_type : ChangeRecordType.t;
  name : string;
  version : string;
  summary : string;
  risk_assessment : string;
  rollback_plan : string;
  evidence_reference : option string;
  requested_by : string;
  approved_by : option string;
  approved_at : option datetime;
  created_at : datetime
}.

Definition valid (x : t) : bool :=
  len_in 1 128 (tenant_id x) &&
  len_in 1 128 (name x) &&
  len_in 1 128 (version x) &&
  len_in 1 2000 (summary x) &&
  len_in 1 2000 (risk_assessment x) &&
  len_in 1 2000 (rollback_plan x) &&
  opt_max 512 (evidence_reference x) &&
  len_in 1 128 (requested_by x) &&
  opt_max 128 (approved_by x).

End ChangeRecord.

Module RuntimeControlUpdate.

Record t : Type := mk {
  enabled : bool;
  reason : string;
  review_at : option datetime;
  expires_at : option datetime
}.

Definition valid (x : t) : bool :=
  len_in 1 2000 (reason x).

End RuntimeControlUpdate.

Module RuntimeControlChange.

Record t : Type := mk {
  enabled : bool;
  reason : string;
  review_at : option datetime;
  expires_at : option datetime;
  control_change_id : uuid;
  tenant_id : string;
  scope : string;
  control_name : RuntimeControlName.t;
  previous_enabled : bool;
  actor_id : string;
  changed_at : instant
}.

Definition valid (x : t) : bool :=
  len_in 1 2000 (reason x) &&
  len_in 1 128 (tenant_id x) &&
  (scope x == "tenant") &&
  len_in 1 128 (actor_id x).

End RuntimeControlChange.

Module PlatformRuntimeControlChange.

Record t : Type := mk {
  enabled : bool;
  reason : string;
  review_at : option datetime;
  expires_at : option datetime;
  control_change_id : uuid;
  scope : string;
  control_name : RuntimeControlName.t;
  previous_enabled : bool;
  actor_id : string;
  changed_at : instant
}.

Definition valid (x : t) : bool :=
  len_in 1 2000 (reason x) &&
  (scope x == "platform") &&
  len_in 1 128 (actor_id x).

End PlatformRuntimeControlChange.

Module ProviderOnboardingRecord.

Record t : Type := mk {
  provider_onboarding_id : uuid;
  tenant_id : string;
  provider_name : string;
  purpose : string;
  data_classification : string;
  contract_reference : option string;
  quota_reference : option string;
  owner_id : string;
  status : ProviderOnboardingStatus.t;
  approved_by : option string;
  approved_at : option datetime;
  created_at : datetime
}.

Definition valid (x : t) : bool :=
  len_in 1 128 (tenant_id x) &&
  len_in 1 128 (provider_name x) &&
  len_in 1 1000 (purpose x) &&
  len_in 1 256 (data_classification x) &&
  opt_max 512 (contract_reference x) &&
  opt_max 512 (quota_reference x) &&
  len_in 1 128 (owner_id x) &&
  opt_max 128 (approved_by x).

End ProviderOnboardingRecord.

Module LegalHoldRecord.

Record t : Type := mk {
  legal_hold_id : uuid;
  tenant_id : string;
  scope : LegalHoldScope.t;
  reason : string;
  created_by : string;
  traveler_id : option string;
  trip_id : option uuid;
  expires_at : option datetime;
  released_at : option datetime;
  released_by : option string;
  release_reason : option string;
  created_at : datetime
}.

#[global] Instance settable : Settable t := fun x =>
    mk (legal_hold_id x) (tenant_id x) (scope x) (reason x) (created_by x) (traveler_id x)
    (trip_id x) (expires_at x) (released_at x) (released_by x) (release_reason x) (created_at x).

Definition validate_scope (x : t) : bool :=
  let traveler := truthy_opt_str (traveler_id x) in
  let trip := is_some (trip_id x) in
  negb ((scope x == LegalHoldScope.TENANT) && (traveler || trip)) &&
  negb ((scope x == LegalHoldScope.TRAVELER) && negb traveler) &&
  negb ((scope x == LegalHoldScope.TRAVELER) && trip) &&
  negb ((scope x == LegalHoldScope.TRIP) && negb trip) &&
  negb ((scope x == LegalHoldScope.TRIP) && traveler) &&
  negb (is_some (released_at x) && negb (truthy_opt_str (released_by x))).

(** [is_active(timestamp)]: comparing a naive [expires_at] raises [TypeError] *)
Definition is_active (x : t) (timestamp : instant) : res bool :=
  match released_at x with
  | Some _ => Ok false
  | None =>
      match expires_at x with
      | None => Ok true
      | Some e => dt_lt (utc timestamp) e
      end
  end.

Definition valid (x : t) : bool :=
  len_in 1 128 (tenant_id x) &&
  len_in 1 2000 (reason x) &&
  len_in 1 128 (created_by x) &&
  opt_max 128 (traveler_id x) &&
  opt_max 128 (released_by x) &&
  opt_max 2000 (release_reason x) &&
  validate_scope x.

End LegalHoldRecord.

Module LegalHoldRelease.

Record t : Type := mk {
  reason : string
}.

Definition valid (x : t) : bool :=
  len_in 1 2000 (reason x).

End LegalHoldRelease.

Module DeletionRequest.

Record t : Type := mk {
  deletion_request_id : uuid;
  tenant_id : string;
  traveler_id : string;
  scope : DeletionRequestScope.t;
  requested_by : string;
  reason : string;
  status : DeletionRequestStatus.t;
  submitted_at : datetime;
  completed_at : option datetime;
  blocked_by_hold_ids : list uuid;
  failure_code : option string
}.

#[global] Instance settable : Settable t := fun x =>
    mk (deletion_request_id x) (tenant_id x) (traveler_id x) (scope x) (requested_by x) (reason x)
    (status x) (submitted_at x) (completed_at x) (blocked_by_hold_ids x) (failure_code x).

Definition valid (x : t) : bool :=
  len_in 1 128 (tenant_id x) &&
  len_in 1 128 (traveler_id x) &&
  len_in 1 128 (requested_by x) &&
  len_in 1 2000 (reason x) &&
  opt_max 128 (failure_code x).

End DeletionRequest.
