(* ===== verification/RiskEngine.v ===== *)
(** * [domain/risk_engine.py]: the deterministic weighted risk score *)

From S2P Require Import Prelude PyData Float64 PyStd Enums Models.

Definition RISK_POLICY_VERSION : string := "mvp-2026-07-14".

(** [WEIGHTS], in the order of the dictionary literal *)
Definition WEIGHTS : dict string f64 := Eval vm_compute in
  [("flight_disruption", f_lit 35 100);
   ("connection_fragility", f_lit 20 100);
   ("airport_weather", f_lit 20 100);
   ("ground_route_disruption", f_lit 10 100);
   ("destination_advisory", f_lit 10 100);
   ("traveler_trip_criticality", f_lit 5 100)].

Definition severity_for_score (score : f64) : Severity.t :=
  if flt score (f_int 25) then Severity.LOW
  else if flt score (f_int 50) then Severity.WATCH
  else if flt score (f_int 75) then Severity.HIGH
  else Severity.CRITICAL.

(** [getattr(factors, name)] for the names of [WEIGHTS] *)
Definition getattr (factors : RiskFactors.t) (name : string) : f64 :=
  if name == "flight_disruption" then RiskFactors.flight_disruption factors
  else if name == "connection_fragility" then RiskFactors.connection_fragility factors
  else if name == "airport_weather" then RiskFactors.airport_weather factors
  else if name == "ground_route_disruption" then RiskFactors.ground_route_disruption factors
  else if name == "destination_advisory" then RiskFactors.destination_advisory factors
  else RiskFactors.traveler_trip_criticality factors.

Definition contributions (factors : RiskFactors.t) : dict string f64 :=
  List.map (fun '(factor, weight) => (factor, py_round2 (fmul (getattr factors factor) weight)))
    WEIGHTS.

Section Engine.
(** The built-in [sum] of the interpreter that runs the code: naive up to
    CPython 3.11, compensated from 3.12. *)
Variable py_sum : list f64 -> f64.

Definition risk_score (factors : RiskFactors.t) : f64 :=
  py_round2 (py_sum (dict_values (contributions factors))).

(** [calculate_risk]; the identifier and the time are the defaults of
    [RiskAssessment]. *)
Definition calculate_risk (assessment_id : uuid) (now : instant) (trip_id : uuid)
    (factors : RiskFactors.t) (evidence_ids : list uuid) (unknown_factors : list string)
    : res RiskAssessment.t :=
  let score := risk_score factors in
  construct "RiskAssessment" RiskAssessment.valid
    {| RiskAssessment.assessment_id := assessment_id;
       RiskAssessment.trip_id := trip_id;
       RiskAssessment.policy_version := RISK_POLICY_VERSION;
       RiskAssessment.risk_score := score;
       RiskAssessment.severity := severity_for_score score;
       RiskAssessment.factor_contributions := contributions factors;
       RiskAssessment.assessment_time := now;
       RiskAssessment.evidence_ids := evidence_ids;
       RiskAssessment.unknown_factors := unknown_factors;
       RiskAssessment.uncertainty := match unknown_factors with [] => "low" | _ => "high" end |}.
End Engine.

(** ** Lemmas: the floating-point pipeline is exact in hundredths *)

(** the contribution of one factor, in hundredths of a point *)
Definition contribution_hundredths (f w : f64) : Z := hundredths (fmul f w).

Definition total_hundredths (factors : RiskFactors.t) : Z :=
  foldr Z.add 0
    (List.map (fun '(factor, weight) => contribution_hundredths (getattr factors factor) weight)
       WEIGHTS).

(** [2^-46]: the spacing of binary64 just below 128, in units of [2^-1074] *)
Definition spacing128 : Z := 2 ^ 1028.

Definition sum_hundredths (ks : list Z) : Z := foldr Z.add 0 ks.

Lemma spacing128_pos : 0 < spacing128.
Proof. reflexivity. Qed.

Lemma one64_spacing : one64 = 70368744177664 * spacing128.
Proof. vm_compute. reflexivity. Qed.

Lemma pow_spacing : 2 ^ 1081 = 9007199254740992 * spacing128.
Proof. vm_compute. reflexivity. Qed.

Lemma fadd_err a b :
  Z.abs (a + b) < 9007199254740992 * spacing128 -> 2 * Z.abs (fadd a b - (a + b)) <= spacing128.
Proof.
  intros H. rewrite <- pow_spacing in H.
  pose proof (rnd_err (a + b) 1 1081 ltac:(lia) ltac:(lia) ltac:(lia)) as E.
  change (1081 - 53) with 1028 in E. fold spacing128 in E. unfold fadd. lia.
Qed.

Lemma fsub_err a b :
  Z.abs (a - b) < 9007199254740992 * spacing128 -> 2 * Z.abs (fsub a b - (a - b)) <= spacing128.
Proof. intros. apply (fadd_err a (- b)). lia. Qed.

Lemma of_hundredths_err k :
  0 <= k <= 10000 -> Z.abs (100 * of_hundredths k - k * one64) <= 50 * spacing128.
Proof.
  intros Hk. unfold of_hundredths, f_lit. pose proof spacing128_pos.
  assert (Hlt : Z.abs (k * one64) < 100 * 2 ^ 1081).
  { rewrite pow_spacing, one64_spacing. nia. }
  pose proof (rnd_err (k * one64) 100 1081 ltac:(lia) ltac:(lia) Hlt) as E.
  change (1081 - 53) with 1028 in E. fold spacing128 in E. lia.
Qed.

(** [s] (with compensation [c]) is within [b] spacings of [K] hundredths. *)
Definition near (s : f64) (K b : Z) : Prop := Z.abs (100 * s - K * one64) <= b * spacing128.

Lemma near_add s x K k b b' : near s K b -> near x k b' -> near (s + x) (K + k) (b + b').
Proof. unfold near. lia. Qed.

Lemma near_of_hundredths k : 0 <= k <= 10000 -> near (of_hundredths k) k 50.
Proof. apply of_hundredths_err. Qed.

Lemma near_weaken s s' K b e :
  near s K b -> Z.abs (s' - s) <= e * spacing128 -> near s' K (b + 100 * e).
Proof. unfold near. lia. Qed.

(** Everything near at most 100 points is far below 128. *)
Lemma near_abs s K b :
  near s K b -> 0 <= K <= 10000 -> 0 <= b <= 6000 -> Z.abs s <= 7036874417766500 * spacing128.
Proof.
  unfold near. intros Hs HK Hb. pose proof spacing128_pos. rewrite one64_spacing in Hs.
  assert (0 <= K * spacing128 <= 10000 * spacing128) by (split; [lia|apply Z.mul_le_mono_nonneg_r; lia]).
  assert (0 <= b * spacing128 <= 6000 * spacing128) by (split; [lia|apply Z.mul_le_mono_nonneg_r; lia]).
  lia.
Qed.

Lemma naive_step s k K b :
  0 <= K -> 0 <= k -> K + k <= 10000 -> 0 <= b <= 1000 -> near s K b ->
  near (fadd s (of_hundredths k)) (K + k) (b + 150).
Proof.
  intros HK Hk HKk Hb Hs. pose proof spacing128_pos.
  pose proof (near_add _ _ _ _ _ _ Hs (near_of_hundredths k ltac:(lia))) as Hadd.
  pose proof (near_abs _ _ _ Hadd ltac:(lia) ltac:(lia)).
  pose proof (fadd_err s (of_hundredths k) ltac:(lia)).
  replace (b + 150) with (b + 50 + 100 * 1) by lia.
  eapply near_weaken; [exact Hadd|]. lia.
Qed.

Lemma naive_fold ks : forall s K b,
  Forall (fun k => 0 <= k) ks -> 0 <= K -> K + sum_hundredths ks <= 10000 ->
  0 <= b -> b + 150 * len ks <= 1100 -> near s K b ->
  near (fold_left fadd (List.map of_hundredths ks) s) (K + sum_hundredths ks) (b + 150 * len ks).
Proof.
  unfold sum_hundredths, len. induction ks as [|k ks IH]; intros s K b Hks HK Hsum Hb Hlen Hs; simpl in *.
  - by rewrite !Z.add_0_r.
  - apply Forall_cons in Hks as [Hk Hks].
    assert (0 <= foldr Z.add 0 ks) by (clear -Hks; induction Hks; simpl; lia).
    replace (K + (k + foldr Z.add 0 ks)) with (K + k + foldr Z.add 0 ks) by lia.
    replace (b + 150 * Z.of_nat (S (length ks))) with (b + 150 + 150 * Z.of_nat (length ks)) by lia.
    apply IH; try done; try lia. apply naive_step; try done; lia.
Qed.

Lemma compensated_step s c k K b e :
  0 <= K -> 0 <= k -> K + k <= 10000 -> 0 <= b <= 1600 -> 0 <= e <= 20 ->
  Z.abs c <= e * spacing128 -> near (s + c) K b ->
  let '(s', c') := neumaier_step (s, c) (of_hundredths k) in
  Z.abs c' <= (e + 3) * spacing128 /\ near (s' + c') (K + k) (b + 250).
Proof.
  unfold neumaier_step. intros HK Hk HKk Hb He Hc Hsc. pose proof spacing128_pos.
  pose proof (near_weaken _ s _ _ e Hsc ltac:(lia)) as Hs.
  pose proof (near_of_hundredths k ltac:(lia)) as Hx. set (x := of_hundredths k) in *.
  pose proof (near_abs _ _ _ Hs ltac:(lia) ltac:(lia)). pose proof (near_abs _ _ _ Hx ltac:(lia) ltac:(lia)).
  pose proof (near_abs _ _ _ (near_add _ _ _ _ _ _ Hs Hx) ltac:(lia) ltac:(lia)).
  pose proof (fadd_err s x ltac:(lia)) as Ht. set (t := fadd s x) in *.
  assert (Hcorr : exists r, (if fle (fabs x) (fabs s) then fadd (fsub s t) x else fadd (fsub x t) s) = r
                  /\ Z.abs (r - (s + x - t)) <= spacing128).
  { destruct (fle (fabs x) (fabs s)); eexists; (split; [reflexivity|]).
    - pose proof (fsub_err s t ltac:(lia)). pose proof (fadd_err (fsub s t) x ltac:(lia)). lia.
    - pose proof (fsub_err x t ltac:(lia)). pose proof (fadd_err (fsub x t) s ltac:(lia)). lia. }
  destruct Hcorr as (r & -> & Hr).
  assert (0 <= e * spacing128 <= 20 * spacing128) by (split; [lia|apply Z.mul_le_mono_nonneg_r; lia]).
  pose proof (fadd_err c r ltac:(lia)) as Hc'. set (c' := fadd c r) in *.
  split; [lia|]. replace (b + 250) with (b + 50 + 100 * 2) by lia.
  eapply near_weaken; [exact (near_add _ _ _ _ _ _ Hsc Hx)|]. lia.
Qed.

Lemma compensated_fold ks : forall s c K b e,
  Forall (fun k => 0 <= k) ks -> 0 <= K -> K + sum_hundredths ks <= 10000 ->
  0 <= b -> b + 250 * len ks <= 1600 -> 0 <= e -> e + 3 * len ks <= 20 ->
  Z.abs c <= e * spacing128 -> near (s + c) K b ->
  let '(s', c') := fold_left neumaier_step (List.map of_hundredths ks) (s, c) in
  Z.abs c' <= 20 * spacing128 /\ near (s' + c') (K + sum_hundredths ks) 1600.
Proof.
  unfold sum_hundredths, len. pose proof spacing128_pos.
  induction ks as [|k ks IH]; intros s c K b e Hks HK Hsum Hb Hlen He Hlen' Hc Hs;
    cbn [List.map fold_left foldr length] in *.
  - rewrite Z.add_0_r. split.
    + transitivity (e * spacing128); [done|]. apply Z.mul_le_mono_nonneg_r; lia.
    + unfold near in *. transitivity (b * spacing128); [done|]. apply Z.mul_le_mono_nonneg_r; lia.
  - apply Forall_cons in Hks as [Hk Hks].
    assert (0 <= foldr Z.add 0 ks) by (clear -Hks; induction Hks; simpl; lia).
    pose proof (compensated_step s c k K b e HK Hk ltac:(lia) ltac:(lia) ltac:(lia) Hc Hs) as Hstep.
    destruct (neumaier_step (s, c) (of_hundredths k)) as [s1 c1]. destruct Hstep as [Hc1 Hs1].
    replace (K + (k + foldr Z.add 0 ks)) with (K + k + foldr Z.add 0 ks) by lia.
    apply (IH s1 c1 (K + k) (b + 250) (e + 3)); try done; lia.
Qed.

(** A float within a few thousand spacings of [K] hundredths rounds to [K]. *)
Lemma near_hundredths s K b : 0 <= b <= 6000 -> near s K b -> hundredths s = K.
Proof.
  unfold near, hundredths. intros Hb Hs. pose proof spacing128_pos.
  assert (0 <= b * spacing128 <= 6000 * spacing128) by (split; [lia|apply Z.mul_le_mono_nonneg_r; lia]).
  apply rhe_unique; [apply one64_pos|]. rewrite one64_spacing in *. lia.
Qed.

(** What the engine needs of the interpreter's [sum]: on contributions that
    are non-negative hundredths adding up to at most 100 points, its error does
    not reach half a hundredth. *)
Class ExactSum (py_sum : list f64 -> f64) : Prop :=
  exact_sum : forall ks, Forall (fun k => 0 <= k) ks -> sum_hundredths ks <= 10000 -> len ks <= 7 ->
    hundredths (py_sum (List.map of_hundredths ks)) = sum_hundredths ks.

#[export] Instance naive_exact : ExactSum py_sum_naive.
Proof.
  intros ks Hks Hsum Hlen. unfold py_sum_naive. pose proof spacing128_pos.
  eapply (near_hundredths _ _ (0 + 150 * len ks)); [unfold len in *; lia|].
  replace (sum_hundredths ks) with (0 + sum_hundredths ks) by lia.
  apply naive_fold; try done; try lia. 
Qed.

#[export] Instance compensated_exact : ExactSum py_sum_compensated.
Proof.
  intros [|k ks] Hks Hsum Hlen; [reflexivity|]. pose proof spacing128_pos.
  apply Forall_cons in Hks as [Hk Hks]. unfold sum_hundredths in *; cbn [foldr] in *. fold (sum_hundredths ks) in *.
  assert (0 <= sum_hundredths ks) by (clear -Hks; unfold sum_hundredths; induction Hks; simpl; lia).
  unfold len in *. cbn [length] in Hlen.
  unfold py_sum_compensated. cbn [List.map].
  pose proof (compensated_fold ks (of_hundredths k) 0 k 50 0 Hks Hk ltac:(lia) ltac:(lia)
    ltac:(unfold len; lia) ltac:(lia) ltac:(unfold len; lia) ltac:(lia)
    ltac:(unfold near; rewrite Z.add_0_r; apply of_hundredths_err; lia)) as Hfold.
  revert Hfold. destruct (fold_left _ _ _) as [s c]. intros [Hc Hs].
  destruct (Z.eqb_spec c 0) as [->|Hne].
  - rewrite Z.add_0_r in Hs. eapply near_hundredths; [|exact Hs]. lia.
  - pose proof (near_abs _ _ _ Hs ltac:(lia) ltac:(lia)). pose proof (fadd_err s c ltac:(lia)).
    apply (near_hundredths _ _ (1600 + 100 * 1)); [lia|]. eapply near_weaken; [exact Hs|]. lia.
Qed.

Definition factors_le (a b : RiskFactors.t) : Prop :=
  forall name, In name (dict_keys WEIGHTS) -> getattr a name <= getattr b name.

Definition severity_rank (s : Severity.t) : Z :=
  match s with
  | Severity.LOW => 1 | Severity.WATCH => 2 | Severity.HIGH => 3 | Severity.CRITICAL => 4
  end.

(** the severity of a score given in hundredths of a point *)
Definition severity_of_hundredths (k : Z) : Severity.t :=
  if k <? 2500 then Severity.LOW
  else if k <? 5000 then Severity.WATCH
  else if k <? 7500 then Severity.HIGH
  else Severity.CRITICAL.

Lemma factors_bounds factors name :
  RiskFactors.valid factors = true -> 0 <= getattr factors name <= f_int 100.
Proof.
  unfold RiskFactors.valid, percent. intros H. bool_hyps.
  unfold getattr. repeat case_bool_decide; lia.
Qed.

Lemma contribution_mono f f' w :
  0 <= w -> 0 <= f <= f' -> 0 <= contribution_hundredths f w <= contribution_hundredths f' w.
Proof.
  intros Hw Hf. unfold contribution_hundredths. split.
  - apply hundredths_nonneg, fmul_nonneg; lia.
  - by apply hundredths_mono, fmul_mono.
Qed.

Lemma weights_nonneg : Forall (fun fw => 0 <= fw.2) WEIGHTS.
Proof. repeat (apply Forall_cons; split; [vm_compute; discriminate|]). apply Forall_nil. done. Qed.

Lemma sum_map_le (ws : dict string f64) (g g' : string -> f64) :
  Forall (fun fw => 0 <= fw.2) ws -> (forall n, In n (dict_keys ws) -> 0 <= g n <= g' n) ->
  0 <= sum_hundredths (List.map (fun '(n, w) => contribution_hundredths (g n) w) ws) <=
    sum_hundredths (List.map (fun '(n, w) => contribution_hundredths (g' n) w) ws).
Proof.
  unfold sum_hundredths, dict_keys. induction ws as [|[n w] ws IH]; intros Hw Hg; [simpl; lia|].
  apply Forall_cons in Hw as [Hw Hws].
  pose proof (contribution_mono (g n) (g' n) w Hw (Hg n (or_introl eq_refl))).
  specialize (IH Hws (fun n' Hn => Hg n' (or_intror Hn))). simpl. lia.
Qed.

Lemma total_as_sum factors :
  total_hundredths factors =
    sum_hundredths (List.map (fun '(n, w) => contribution_hundredths (getattr factors n) w) WEIGHTS).
Proof. reflexivity. Qed.

Lemma total_bounds factors :
  RiskFactors.valid factors = true -> 0 <= total_hundredths factors <= 10000.
Proof.
  intros H. rewrite total_as_sum.
  pose proof (sum_map_le WEIGHTS (getattr factors) (fun _ => f_int 100) weights_nonneg
    (fun n _ => factors_bounds factors n H)) as Hle.
  assert (E : sum_hundredths (List.map (fun '(_, w) => contribution_hundredths (f_int 100) w) WEIGHTS) = 10000)
    by (vm_compute; reflexivity).
  lia.
Qed.

Lemma contributions_values factors :
  dict_values (contributions factors) =
    List.map of_hundredths
      (List.map (fun '(n, w) => contribution_hundredths (getattr factors n) w) WEIGHTS).
Proof. reflexivity. Qed.

Lemma contributions_nonneg factors :
  RiskFactors.valid factors = true ->
  Forall (fun k => 0 <= k)
    (List.map (fun '(n, w) => contribution_hundredths (getattr factors n) w) WEIGHTS).
Proof.
  intros H. apply List.Forall_map. rewrite List.Forall_forall. intros [n w] Hin.
  pose proof (proj1 (List.Forall_forall _ _) weights_nonneg _ Hin).
  apply (contribution_mono _ (getattr factors n)); [done|].
  pose proof (factors_bounds factors n H). lia.
Qed.

Lemma risk_score_exact py_sum `{ExactSum py_sum} factors :
  RiskFactors.valid factors = true ->
  risk_score py_sum factors = of_hundredths (total_hundredths factors).
Proof.
  intros Hv. unfold risk_score, py_round2. f_equal. rewrite contributions_values.
  apply H; [by apply contributions_nonneg| |unfold len; simpl; lia].
  rewrite <- total_as_sum. by apply total_bounds.
Qed.

Lemma sum_nonneg ks : Forall (fun k => 0 <= k) ks -> 0 <= sum_hundredths ks.
Proof. unfold sum_hundredths. induction 1; simpl; lia. Qed.

Lemma sum_ge_member ks k :
  Forall (fun k => 0 <= k) ks -> In k ks -> 0 <= k <= sum_hundredths ks.
Proof.
  induction 1 as [|k' ks Hk Hks IH]; [done|]. pose proof (sum_nonneg ks Hks).
  unfold sum_hundredths in *. intros [->|Hin]; simpl; [lia|]. specialize (IH Hin). lia.
Qed.

Lemma hundredths_of_hundredths k : 0 <= k <= 10000 -> hundredths (of_hundredths k) = k.
Proof. intros. eapply near_hundredths; [|by apply near_of_hundredths]. lia. Qed.

Lemma hundredths_recovered ks :
  Forall (fun k => 0 <= k) ks -> 0 <= sum_hundredths ks <= 10000 ->
  List.map hundredths (List.map of_hundredths ks) = ks.
Proof.
  intros Hks Hsum. rewrite List.map_map. erewrite List.map_ext_in; [apply List.map_id|].
  intros k Hk. apply hundredths_of_hundredths. pose proof (sum_ge_member ks k Hks Hk). lia.
Qed.

Lemma of_hundredths_percent k : 0 <= k <= 10000 -> percent (of_hundredths k) = true.
Proof.
  intros Hk. unfold percent. rewrite andb_true_iff, !Z.leb_le. split.
  - apply of_hundredths_nonneg. lia.
  - replace (f_int 100) with (of_hundredths 10000) by (vm_compute; reflexivity).
    apply of_hundredths_mono. lia.
Qed.

Lemma flt_of_hundredths k b below above :
  of_hundredths below < b -> b <= of_hundredths above -> above = below + 1 -> 0 <= below -> 0 <= k ->
  flt (of_hundredths k) b = (k <? above).
Proof.
  intros Hb Ha -> Hn Hk. unfold flt. destruct (Z.ltb_spec k (below + 1)).
  - apply Z.ltb_lt. pose proof (of_hundredths_mono k below ltac:(lia)). lia.
  - apply Z.ltb_ge. pose proof (of_hundredths_mono (below + 1) k ltac:(lia)). lia.
Qed.

Lemma severity_exact k :
  0 <= k -> severity_for_score (of_hundredths k) = severity_of_hundredths k.
Proof.
  intros Hk. unfold severity_for_score, severity_of_hundredths.
  rewrite (flt_of_hundredths k (f_int 25) 2499 2500) by (try lia; vm_compute; congruence).
  rewrite (flt_of_hundredths k (f_int 50) 4999 5000) by (try lia; vm_compute; congruence).
  rewrite (flt_of_hundredths k (f_int 75) 7499 7500) by (try lia; vm_compute; congruence).
  reflexivity.
Qed.

Lemma total_mono a b :
  RiskFactors.valid a = true -> factors_le a b -> total_hundredths a <= total_hundredths b.
Proof.
  intros Hv Hle. rewrite !total_as_sum. apply sum_map_le; [apply weights_nonneg|].
  intros n Hn. pose proof (factors_bounds a n Hv). specialize (Hle n Hn). lia.
Qed.

Lemma WEIGHTS_literals : WEIGHTS =
  List.map (fun '(name, k) => (name, f_lit k 100))
    [("flight_disruption", 35); ("connection_fragility", 20); ("airport_weather", 20);
     ("ground_route_disruption", 10); ("destination_advisory", 10); ("traveler_trip_criticality", 5)].
Proof. vm_compute. reflexivity. Qed.

(** An integer factor under a weight of [k] hundredths contributes exactly [n * k]
    hundredths. *)
Lemma contribution_int n k : 0 <= n <= 100 -> 0 <= k <= 100 ->
  contribution_hundredths (f_int n) (f_lit k 100) = n * k.
Proof.
  intros Hn Hk. unfold contribution_hundredths, fmul, f_int. set (w := f_lit k 100).
  pose proof spacing128_pos as Hs. pose proof one64_pos as Ho.
  pose proof (of_hundredths_err k ltac:(lia)) as Hw. unfold of_hundredths in Hw. fold w in Hw.
  assert (Hwb : Z.abs w <= 70368744177665 * spacing128).
  { rewrite one64_spacing in Hw. assert (0 <= k * (70368744177664 * spacing128) <= 100 * (70368744177664 * spacing128)) by nia. lia. }
  assert (Hnw : Z.abs (n * one64 * w) < one64 * 2 ^ 1081).
  { replace (n * one64 * w) with (one64 * (n * w)) by ring. rewrite Z.abs_mul, (Z.abs_eq one64) by lia.
    apply Z.mul_lt_mono_pos_l; [done|]. rewrite Z.abs_mul, (Z.abs_eq n) by lia. rewrite pow_spacing.
    assert (n * Z.abs w <= 100 * (70368744177665 * spacing128)) by (apply Z.mul_le_mono_nonneg; lia). lia. }
  pose proof (rnd_err (n * one64 * w) one64 1081 Ho ltac:(lia) Hnw) as E.
  change (1081 - 53) with 1028 in E. fold spacing128 in E.
  set (f := rnd (n * one64 * w) one64) in *.
  assert (Hf : 2 * Z.abs (f - n * w) <= spacing128).
  { replace (one64 * f - n * one64 * w) with (one64 * (f - n * w)) in E by ring.
    rewrite Z.abs_mul, (Z.abs_eq one64) in E by lia. nia. }
  unfold hundredths. apply rhe_unique; [done|].
  assert (Hd : Z.abs (100 * (n * w) - n * k * one64) <= 5000 * spacing128).
  { replace (100 * (n * w) - n * k * one64) with (n * (100 * w - k * one64)) by ring.
    rewrite Z.abs_mul, (Z.abs_eq n) by lia.
    transitivity (100 * (50 * spacing128)); [apply Z.mul_le_mono_nonneg; lia|lia]. }
  rewrite one64_spacing in *. lia.
Qed.

Lemma calculate_risk_total py_sum `{ExactSum py_sum} id now trip factors evidence unknown :
  RiskFactors.valid factors = true ->
  exists a, calculate_risk py_sum id now trip factors evidence unknown = Ok a.
Proof.
  intros Hv. unfold calculate_risk. rewrite (risk_score_exact py_sum _ Hv).
  eexists. apply construct_ok. split; [reflexivity|]. by apply of_hundredths_percent, total_bounds.
Qed.

(** ** Properties *)

(** C13.  Scoring never fails and is exact: for every validated set of factors,
    whichever summation algorithm the interpreter uses, [calculate_risk]
    constructs an assessment (no validation error), its score is the float
    nearest to an integer number of hundredths, namely the sum of the factors'
    contributions each rounded to two decimals, that score lies between 0 and
    100, the recorded contributions are those roundings, and the severity is
    decided on the exact hundredths: no rounding moves a score across 25, 50 or 75. *)
Theorem calculate_risk_exact py_sum `{ExactSum py_sum} id now trip factors evidence unknown :
  RiskFactors.valid factors = true ->
  exists a, calculate_risk py_sum id now trip factors evidence unknown = Ok a /\
    RiskAssessment.risk_score a = of_hundredths (total_hundredths factors) /\
    0 <= total_hundredths factors <= 10000 /\
    total_hundredths factors =
      sum_hundredths (List.map hundredths (dict_values (RiskAssessment.factor_contributions a))) /\
    RiskAssessment.severity a = severity_of_hundredths (total_hundredths factors).
Proof.
  intros Hv. unfold calculate_risk. rewrite (risk_score_exact py_sum _ Hv).
  pose proof (total_bounds _ Hv) as Hb. eexists. split.
  { apply construct_ok. split; [reflexivity|]. by apply of_hundredths_percent. }
  cbn [RiskAssessment.risk_score RiskAssessment.factor_contributions RiskAssessment.severity].
  split; [reflexivity|]. split; [done|]. split; [|apply severity_exact, Hb].
  rewrite contributions_values, hundredths_recovered; [by rewrite total_as_sum| |].
  - by apply contributions_nonneg.
  - by rewrite <- total_as_sum.
Qed.

(** Severity bands: the severity of an assessment is decided on the exact
    hundredths, with the thresholds 25, 50 and 75 points, and no float
    rounding ever moves a score across a threshold. *)
Theorem severity_decided_on_hundredths py_sum `{ExactSum py_sum} id now trip factors evidence unknown a :
  RiskFactors.valid factors = true ->
  calculate_risk py_sum id now trip factors evidence unknown = Ok a ->
  RiskAssessment.severity a = severity_of_hundredths (total_hundredths factors).
Proof.
  unfold calculate_risk. intros Hv Ha. apply construct_ok in Ha as [-> _]. simpl.
  rewrite (risk_score_exact py_sum _ Hv). apply severity_exact. by apply total_bounds.
Qed.

(** C31.  Monotonicity: raising any risk factor never lowers the score or the
    severity of the assessment. *)
Theorem calculate_risk_monotone py_sum `{ExactSum py_sum} id now trip f1 f2 ev u1 u2 a1 a2 :
  RiskFactors.valid f1 = true -> RiskFactors.valid f2 = true -> factors_le f1 f2 ->
  calculate_risk py_sum id now trip f1 ev u1 = Ok a1 ->
  calculate_risk py_sum id now trip f2 ev u2 = Ok a2 ->
  fle (RiskAssessment.risk_score a1) (RiskAssessment.risk_score a2) = true /\
  severity_rank (RiskAssessment.severity a1) <= severity_rank (RiskAssessment.severity a2).
Proof.
  unfold calculate_risk. intros Hv1 Hv2 Hle H1 H2.
  apply construct_ok in H1 as [-> _]. apply construct_ok in H2 as [-> _]. simpl.
  rewrite !(risk_score_exact py_sum) by done. pose proof (total_mono _ _ Hv1 Hle).
  pose proof (total_bounds _ Hv1). pose proof (total_bounds _ Hv2). split.
  - apply Z.leb_le. apply of_hundredths_mono. lia.
  - rewrite !severity_exact by lia. unfold severity_of_hundredths.
    repeat match goal with |- context [?x <? ?y] => destruct (Z.ltb_spec x y) end; simpl; lia.
Qed.

(** ** Witnesses *)

Definition disruption_factors : RiskFactors.t :=
  RiskFactors.mk (f_int 90) (f_int 75) (f_int 70) (f_int 35) (f_int 15) (f_int 20).
Definition calm_factors : RiskFactors.t :=
  RiskFactors.mk (f_int 5) (f_int 10) (f_int 5) (f_int 10) (f_int 15) (f_int 20).

#[local] Abbreviation assess factors := (calculate_risk py_sum_compensated 1%N 0 2%N factors [] []).

Lemma calm_le_disruption : factors_le calm_factors disruption_factors.
Proof.
  intros name Hn. simpl in Hn.
  repeat (destruct Hn as [<-|Hn]; [vm_compute; discriminate|]). destruct Hn.
Qed.

Lemma calculate_risk_exact_witness :
  exists a, assess disruption_factors = Ok a /\
    RiskAssessment.risk_score a = of_hundredths (total_hundredths disruption_factors) /\
    0 <= total_hundredths disruption_factors <= 10000 /\
    total_hundredths disruption_factors =
      sum_hundredths (List.map hundredths (dict_values (RiskAssessment.factor_contributions a))) /\
    RiskAssessment.severity a = severity_of_hundredths (total_hundredths disruption_factors).
Proof.
  exact (calculate_risk_exact py_sum_compensated 1%N 0 2%N disruption_factors [] []
           ltac:(vm_compute; reflexivity)).
Defined.

Lemma severity_decided_on_hundredths_witness :
  exists a, assess disruption_factors = Ok a /\
    RiskAssessment.severity a = severity_of_hundredths (total_hundredths disruption_factors).
Proof.
  destruct (calculate_risk_total py_sum_compensated 1%N 0 2%N disruption_factors [] [] ltac:(vm_compute; reflexivity)) as [a E].
  exists a. split; [exact E|].
  exact (severity_decided_on_hundredths py_sum_compensated 1%N 0 2%N disruption_factors [] [] a
           ltac:(vm_compute; reflexivity) E).
Defined.

Lemma calculate_risk_monotone_witness :
  exists a1 a2, assess calm_factors = Ok a1 /\ assess disruption_factors = Ok a2 /\
    fle (RiskAssessment.risk_score a1) (RiskAssessment.risk_score a2) = true /\
    severity_rank (RiskAssessment.severity a1) <= severity_rank (RiskAssessment.severity a2).
Proof.
  destruct (calculate_risk_total py_sum_compensated 1%N 0 2%N calm_factors [] [] ltac:(vm_compute; reflexivity)) as [a1 E1].
  destruct (calculate_risk_total py_sum_compensated 1%N 0 2%N disruption_factors [] [] ltac:(vm_compute; reflexivity)) as [a2 E2].
  exists a1, a2. split; [exact E1|]. split; [exact E2|].
  exact (calculate_risk_monotone py_sum_compensated 1%N 0 2%N calm_factors disruption_factors
           [] [] [] a1 a2 ltac:(vm_compute; reflexivity) ltac:(vm_compute; reflexivity)
           calm_le_disruption E1 E2).
Defined.
