(* ===== verification/Recovery.v ===== *)
(** * [domain/recovery.py]: eligibility, ranking and candidate lifecycle *)

From S2P Require Import Prelude PyData Float64 PyStd Enums Models.
From Stdlib Require Import Sorting.Permutation Sorting.Sorted.

Module RecoveryCandidateState.

Inductive t : Type :=
  | UNAVAILABLE | POLICY_INELIGIBLE | INELIGIBLE | ELIGIBLE | OFFERED | VIEWED | SELECTED
  | REJECTED | COMPLETED.

#[global] Instance eq_dec : EqDecision t.
Proof. solve_decision. Defined.

#[global] Instance enum : StrEnum t.
Proof.
  refine {| value := fun x => match x with
    | UNAVAILABLE => "unavailable"
    | POLICY_INELIGIBLE => "policy_ineligible"
    | INELIGIBLE => "ineligible"
    | ELIGIBLE => "eligible"
    | OFFERED => "offered"
    | VIEWED => "viewed"
    | SELECTED => "selected"
    | REJECTED => "rejected"
    | COMPLETED => "completed"
    end;
    members := [UNAVAILABLE; POLICY_INELIGIBLE; INELIGIBLE; ELIGIBLE; OFFERED; VIEWED; SELECTED;
                REJECTED; COMPLETED] |}; enum_laws.
Defined.

End RecoveryCandidateState.

Module RecoveryCandidateOutcomeState.

Inductive t : Type := OFFERED | VIEWED | SELECTED | REJECTED | COMPLETED.

#[global] Instance eq_dec : EqDecision t.
Proof. solve_decision. Defined.

#[global] Instance enum : StrEnum t.
Proof.
  refine {| value := fun x => match x with
    | OFFERED => "offered"
    | VIEWED => "viewed"
    | SELECTED => "selected"
    | REJECTED => "rejected"
    | COMPLETED => "completed"
    end;
    members := [OFFERED; VIEWED; SELECTED; REJECTED; COMPLETED] |}; enum_laws.
Defined.

End RecoveryCandidateOutcomeState.

Module RecoveryCandidate.

Record t : Type := mk {
  candidate_id : string;
  available : bool;
  policy_compliant : bool;
  accessibility_compliant : bool;
  feasible : bool;
  arrival_delay_minutes : Z;
  incremental_cost : f64;
  connection_minutes : Z
}.

#[global] Instance settable : Settable t := fun x =>
  mk (candidate_id x) (available x) (policy_compliant x) (accessibility_compliant x) (feasible x)
    (arrival_delay_minutes x) (incremental_cost x) (connection_minutes x).

Definition valid (x : t) : bool :=
  truthy_str (candidate_id x) && (0 <=? arrival_delay_minutes x) && (0 <=? incremental_cost x) &&
  (0 <=? connection_minutes x).

End RecoveryCandidate.

Module EvaluatedCandidate.

(** The fields inherited from [RecoveryCandidate] are those of [base]. *)
Record t : Type := mk {
  base : RecoveryCandidate.t;
  eligible : bool;
  exclusion_reasons : list string;
  deterministic_recovery_score : option f64;
  normalized_candidate_features : dict string json;
  feature_schema_version : string;
  displayed_position : option Z;
  ranker_score : option f64;
  ranker_model_version : option string;
  lifecycle_state : RecoveryCandidateState.t
}.

#[global] Instance settable : Settable t := fun x =>
  mk (base x) (eligible x) (exclusion_reasons x) (deterministic_recovery_score x)
    (normalized_candidate_features x) (feature_schema_version x) (displayed_position x)
    (ranker_score x) (ranker_model_version x) (lifecycle_state x).

Definition candidate_id (x : t) : string := RecoveryCandidate.candidate_id (base x).
Definition connection_minutes (x : t) : Z := RecoveryCandidate.connection_minutes (base x).

Definition valid (x : t) : bool :=
  RecoveryCandidate.valid (base x) &&
  match deterministic_recovery_score x with Some s => percent s | None => true end &&
  match displayed_position x with Some n => 1 <=? n | None => true end.

End EvaluatedCandidate.

Module RecoveryCandidateOutcomeUpdate.

Record t : Type := mk {
  state : RecoveryCandidateOutcomeState.t;
  reason : option string;
  manager_override_reason : option string;
  final_itinerary : option (dict string json);
  material_outcome : option (dict string json)
}.

Definition validate_required_outcome_details (x : t) : bool :=
  negb ((state x == RecoveryCandidateOutcomeState.REJECTED) && negb (truthy_opt_str (reason x))) &&
  negb (truthy_opt_str (manager_override_reason x) &&
        (state x != RecoveryCandidateOutcomeState.SELECTED)) &&
  negb ((state x == RecoveryCandidateOutcomeState.COMPLETED) &&
        match material_outcome x with Some (_ :: _) => false | _ => true end).

Definition valid (x : t) : bool :=
  opt_max 1000 (reason x) && opt_max 1000 (manager_override_reason x) &&
  validate_required_outcome_details x.

End RecoveryCandidateOutcomeUpdate.

Module RecoveryCandidateOutcome.

(** The fields inherited from [RecoveryCandidateOutcomeUpdate] are those of [update]. *)
Record t : Type := mk {
  update : RecoveryCandidateOutcomeUpdate.t;
  outcome_id : uuid;
  candidate_set_id : uuid;
  incident_id : uuid;
  candidate_id : string;
  actor_id : option string;
  occurred_at : instant
}.

Definition state (x : t) : RecoveryCandidateOutcomeState.t :=
  RecoveryCandidateOutcomeUpdate.state (update x).

Definition valid (x : t) : bool :=
  RecoveryCandidateOutcomeUpdate.valid (update x) && truthy_str (candidate_id x) &&
  opt_max 128 (actor_id x).

End RecoveryCandidateOutcome.

Module RecoveryCandidateSet.

Record t : Type := mk {
  candidate_set_id : uuid;
  incident_id : uuid;
  score_version : string;
  policy_version : string;
  candidates : list EvaluatedCandidate.t;
  created_at : instant;
  outcomes : list RecoveryCandidateOutcome.t;
  selected_candidate_id : option string;
  manager_override_reason : option string
}.

#[global] Instance settable : Settable t := fun x =>
  mk (candidate_set_id x) (incident_id x) (score_version x) (policy_version x) (candidates x)
    (created_at x) (outcomes x) (selected_candidate_id x) (manager_override_reason x).

End RecoveryCandidateSet.

Module RecoveryCandidateSetCreate.

Record t : Type := mk { candidates : list RecoveryCandidate.t }.

Definition candidate_ids_are_unique (x : t) : bool :=
  let candidate_ids := List.map RecoveryCandidate.candidate_id (candidates x) in
  len candidate_ids =? len (fromkeys candidate_ids).

Definition valid (x : t) : bool :=
  (1 <=? len (candidates x)) && (len (candidates x) <=? 50) &&
  forallb RecoveryCandidate.valid (candidates x) && candidate_ids_are_unique x.

End RecoveryCandidateSetCreate.

(** ** Evaluation *)

(** [float(n)]: CPython raises [OverflowError] from [2^1024 - 2^970] on *)
Definition float_int_limit : Z := 2 ^ 1024 - 2 ^ 970.
#[global] Arguments float_int_limit : simpl never.
Definition float_of_int (n : Z) : res f64 :=
  if Z.abs n <? float_int_limit then Ok (f_of_Z n) else Raise (OtherError "OverflowError").

(** the reasons, in the order of the [if]s *)
Definition candidate_reasons (candidate : RecoveryCandidate.t) (minimum_connection_minutes : Z)
    : list string :=
  (if RecoveryCandidate.available candidate then [] else ["unavailable"]) ++
  (if RecoveryCandidate.feasible candidate then [] else ["itinerary_infeasible"]) ++
  (if RecoveryCandidate.policy_compliant candidate then [] else ["policy_ineligible"]) ++
  (if RecoveryCandidate.accessibility_compliant candidate then [] else ["accessibility_ineligible"]) ++
  (if RecoveryCandidate.connection_minutes candidate <? minimum_connection_minutes
   then ["connection_below_minimum"] else []).

(** the literals [0.5] and [0.1] *)
Definition lit_0_5 : f64 := Eval vm_compute in f_lit 5 10.
Definition lit_0_1 : f64 := Eval vm_compute in f_lit 1 10.

(** [round(max(0, 100 - delay * 0.5 - cost * 0.1), 2)] *)
Definition recovery_score (candidate : RecoveryCandidate.t) : res f64 :=
  delay ← float_of_int (RecoveryCandidate.arrival_delay_minutes candidate);
  Ok (py_round2 (fmax 0 (fsub (fsub (f_int 100) (fmul delay lit_0_5))
                             (fmul (RecoveryCandidate.incremental_cost candidate) lit_0_1)))).

Definition candidate_features (candidate : RecoveryCandidate.t) : dict string json :=
  [("available", JBool (RecoveryCandidate.available candidate));
   ("policy_compliant", JBool (RecoveryCandidate.policy_compliant candidate));
   ("accessibility_compliant", JBool (RecoveryCandidate.accessibility_compliant candidate));
   ("feasible", JBool (RecoveryCandidate.feasible candidate));
   ("arrival_delay_minutes", JInt (RecoveryCandidate.arrival_delay_minutes candidate));
   ("incremental_cost", JFloat (RecoveryCandidate.incremental_cost candidate));
   ("connection_minutes", JInt (RecoveryCandidate.connection_minutes candidate))].

Definition evaluate_candidate (candidate : RecoveryCandidate.t) (minimum_connection_minutes : Z)
    : res EvaluatedCandidate.t :=
  let reasons := candidate_reasons candidate minimum_connection_minutes in
  let eligible := match reasons with [] => true | _ => false end in
  score ← (if eligible then Some <$> recovery_score candidate else Ok None);
  construct "EvaluatedCandidate" EvaluatedCandidate.valid
    {| EvaluatedCandidate.base := candidate;
       EvaluatedCandidate.eligible := eligible;
       EvaluatedCandidate.exclusion_reasons := reasons;
       EvaluatedCandidate.deterministic_recovery_score := score;
       EvaluatedCandidate.normalized_candidate_features := candidate_features candidate;
       EvaluatedCandidate.feature_schema_version := "recovery-candidate-v1";
       EvaluatedCandidate.displayed_position := None;
       EvaluatedCandidate.ranker_score := None;
       EvaluatedCandidate.ranker_model_version := None;
       EvaluatedCandidate.lifecycle_state :=
         if negb (RecoveryCandidate.available candidate) then RecoveryCandidateState.UNAVAILABLE
         else if negb (RecoveryCandidate.policy_compliant candidate)
         then RecoveryCandidateState.POLICY_INELIGIBLE
         else if negb eligible then RecoveryCandidateState.INELIGIBLE
         else RecoveryCandidateState.ELIGIBLE |}.

(** ** Ranking *)

(** tuple comparison of [(deterministic_recovery_score or 0, candidate_id)] *)
Definition score_or_0 (c : EvaluatedCandidate.t) : f64 :=
  default 0 (EvaluatedCandidate.deterministic_recovery_score c).
Definition rank_key_leb : EvaluatedCandidate.t -> EvaluatedCandidate.t -> bool :=
  lex_leb score_or_0
    (fun a b => str_leb (EvaluatedCandidate.candidate_id a) (EvaluatedCandidate.candidate_id b)).

Definition rank_eligible (candidates : list EvaluatedCandidate.t) : list EvaluatedCandidate.t :=
  let ranked := sorted_reverse rank_key_leb (List.filter EvaluatedCandidate.eligible candidates) in
  List.map (fun '(position, candidate) =>
              candidate <| EvaluatedCandidate.displayed_position := Some position |>)
    (enumerate 1 ranked).

(** ** Projection of outcomes and the lifecycle *)

(** tuple comparison of [(occurred_at, str(outcome_id))] *)
Definition outcome_key_leb : RecoveryCandidateOutcome.t -> RecoveryCandidateOutcome.t -> bool :=
  lex_leb RecoveryCandidateOutcome.occurred_at
    (fun a b => str_leb (uuid_str (RecoveryCandidateOutcome.outcome_id a))
                        (uuid_str (RecoveryCandidateOutcome.outcome_id b))).

(** [RecoveryCandidateState(state.value)] *)
Definition state_of_outcome (o : RecoveryCandidateOutcomeState.t) : res RecoveryCandidateState.t :=
  match of_value (value o) with
  | Some s => Ok s
  | None => Raise (ValueError "is not a valid RecoveryCandidateState")
  end.

Definition latest_by_candidate (outcomes : list RecoveryCandidateOutcome.t)
    : dict string RecoveryCandidateOutcome.t :=
  fold_left (fun d o => dict_set (RecoveryCandidateOutcome.candidate_id o) o d)
    (sorted outcome_key_leb outcomes) [].

Definition project_candidate (by_candidate : dict string RecoveryCandidateOutcome.t)
    (candidate : EvaluatedCandidate.t) : res EvaluatedCandidate.t :=
  match dict_get (EvaluatedCandidate.candidate_id candidate) by_candidate with
  | Some outcome =>
      state ← state_of_outcome (RecoveryCandidateOutcome.state outcome);
      Ok (candidate <| EvaluatedCandidate.lifecycle_state := state |>)
  | None => Ok candidate
  end.

Definition latest_selection (outcomes : list RecoveryCandidateOutcome.t)
    : option RecoveryCandidateOutcome.t :=
  match List.filter (fun o => RecoveryCandidateOutcome.state o ==
                              RecoveryCandidateOutcomeState.SELECTED) outcomes with
  | [] => None
  | o :: l => Some (max_by outcome_key_leb o l)
  end.

Definition project_candidate_set_outcomes (candidate_set : RecoveryCandidateSet.t)
    (outcomes : list RecoveryCandidateOutcome.t) : res RecoveryCandidateSet.t :=
  candidates ← mapM (project_candidate (latest_by_candidate outcomes))
                    (RecoveryCandidateSet.candidates candidate_set);
  Ok (candidate_set
        <| RecoveryCandidateSet.candidates := candidates |>
        <| RecoveryCandidateSet.outcomes := sorted outcome_key_leb outcomes |>
        <| RecoveryCandidateSet.selected_candidate_id :=
             RecoveryCandidateOutcome.candidate_id <$> latest_selection outcomes |>
        <| RecoveryCandidateSet.manager_override_reason :=
             o ← latest_selection outcomes;
             RecoveryCandidateOutcomeUpdate.manager_override_reason
               (RecoveryCandidateOutcome.update o) |>).

Definition allowed_transitions : dict RecoveryCandidateState.t (list RecoveryCandidateOutcomeState.t) :=
  [(RecoveryCandidateState.ELIGIBLE, [RecoveryCandidateOutcomeState.OFFERED]);
   (RecoveryCandidateState.OFFERED,
      [RecoveryCandidateOutcomeState.VIEWED; RecoveryCandidateOutcomeState.SELECTED;
       RecoveryCandidateOutcomeState.REJECTED]);
   (RecoveryCandidateState.VIEWED,
      [RecoveryCandidateOutcomeState.SELECTED; RecoveryCandidateOutcomeState.REJECTED]);
   (RecoveryCandidateState.SELECTED, [RecoveryCandidateOutcomeState.COMPLETED])].

Definition transition_allowed (current_state : RecoveryCandidateState.t)
    (target_state : RecoveryCandidateOutcomeState.t) : bool :=
  mem target_state (default [] (dict_get current_state allowed_transitions)).

(** ** Lemmas *)

#[local] Opaque f_of_Z f_int f_lit fadd fsub fmul py_round2.

Lemma rank_key_total : leb_is_total rank_key_leb.
Proof. apply lex_leb_total, (by_key_total EvaluatedCandidate.candidate_id), str_leb_total. Qed.
Lemma rank_key_trans : leb_is_trans rank_key_leb.
Proof. apply lex_leb_trans, (by_key_trans EvaluatedCandidate.candidate_id), str_leb_trans. Qed.
Lemma outcome_key_total : leb_is_total outcome_key_leb.
Proof.
  apply lex_leb_total,
    (by_key_total (fun o => uuid_str (RecoveryCandidateOutcome.outcome_id o))), str_leb_total.
Qed.
Lemma outcome_key_trans : leb_is_trans outcome_key_leb.
Proof.
  apply lex_leb_trans,
    (by_key_trans (fun o => uuid_str (RecoveryCandidateOutcome.outcome_id o))), str_leb_trans.
Qed.

Lemma total_refl {A} (leb : A -> A -> bool) x : leb_is_total leb -> leb x x = true.
Proof. intros H. by destruct (H x x). Qed.

Definition clear_position (c : EvaluatedCandidate.t) : EvaluatedCandidate.t :=
  c <| EvaluatedCandidate.displayed_position := None |>.

Lemma enumerate_map_snd {A B} (f : A -> B) (g : Z * A -> B) n l :
  (forall i x, g (i, x) = f x) -> List.map g (enumerate n l) = List.map f l.
Proof. intros H. revert n. induction l as [|x l IH]; intros n; simpl; [done|]. by rewrite H, IH. Qed.

Lemma rank_eligible_cleared cs :
  List.map clear_position (rank_eligible cs) =
    List.map clear_position
      (sorted_reverse rank_key_leb (List.filter EvaluatedCandidate.eligible cs)).
Proof. unfold rank_eligible. rewrite List.map_map. by apply enumerate_map_snd. Qed.

Lemma rank_key_position a b p q :
  rank_key_leb (a <| EvaluatedCandidate.displayed_position := p |>)
               (b <| EvaluatedCandidate.displayed_position := q |>) = rank_key_leb a b.
Proof. reflexivity. Qed.

Lemma enumerate_map_sorted {A B} (R : A -> A -> Prop) (S : B -> B -> Prop) (f : Z * A -> B) n l :
  (forall i j x y, R x y -> S (f (i, x)) (f (j, y))) ->
  StronglySorted R l -> StronglySorted S (List.map f (enumerate n l)).
Proof.
  intros HS Hl. revert n. induction Hl as [|x l Hl IH Hx]; intros n; simpl; [constructor|].
  constructor; [apply IH|]. apply List.Forall_forall. intros b Hb.
  apply in_map_iff in Hb as ([j y] & <- & Hin). apply HS.
  rewrite List.Forall_forall in Hx. apply Hx. rewrite <- (enumerate_snd (n + 1) l).
  change ((enumerate (n + 1) l).*2) with (List.map snd (enumerate (n + 1) l)).
  apply in_map_iff. by exists (j, y).
Qed.

Lemma reasons_nil_iff c m :
  candidate_reasons c m = [] <->
    RecoveryCandidate.available c = true /\ RecoveryCandidate.feasible c = true /\
    RecoveryCandidate.policy_compliant c = true /\
    RecoveryCandidate.accessibility_compliant c = true /\
    m <= RecoveryCandidate.connection_minutes c.
Proof.
  unfold candidate_reasons. rewrite <- Z.ltb_ge.
  repeat case_match; simpl; naive_solver.
Qed.

(** the value [recovery_score] rounds *)
Definition raw_recovery_score (c : RecoveryCandidate.t) : f64 :=
  fmax 0 (fsub (fsub (f_int 100) (fmul (f_of_Z (RecoveryCandidate.arrival_delay_minutes c)) lit_0_5))
               (fmul (RecoveryCandidate.incremental_cost c) lit_0_1)).

Lemma raw_score_antitone c1 c2 :
  0 <= RecoveryCandidate.arrival_delay_minutes c1 <= RecoveryCandidate.arrival_delay_minutes c2 ->
  0 <= RecoveryCandidate.incremental_cost c1 <= RecoveryCandidate.incremental_cost c2 ->
  raw_recovery_score c2 <= raw_recovery_score c1.
Proof.
  intros Hd Hc. unfold raw_recovery_score. apply fmax_mono, fsub_mono; [apply fsub_mono; [lia|]|].
  - apply fmul_mono; [vm_compute; discriminate|]. split; [apply f_of_Z_nonneg|apply f_of_Z_mono]; lia.
  - apply fmul_mono; [vm_compute; discriminate|done].
Qed.

Definition best_candidate : RecoveryCandidate.t :=
  RecoveryCandidate.mk "best" true true true true 0 0 0.

Lemma recovery_score_bounds c :
  RecoveryCandidate.valid c = true -> 0 <= py_round2 (raw_recovery_score c) <= f_int 100.
Proof.
  unfold RecoveryCandidate.valid. intros Hv. bool_hyps.
  pose proof (fmax_ge_l 0 (fsub (fsub (f_int 100) (fmul (f_of_Z (RecoveryCandidate.arrival_delay_minutes c)) lit_0_5))
               (fmul (RecoveryCandidate.incremental_cost c) lit_0_1))).
  split; [by apply py_round2_nonneg|].
  transitivity (py_round2 (raw_recovery_score best_candidate)).
  - apply py_round2_mono. split; [done|]. apply raw_score_antitone; simpl; lia.
  - vm_compute. discriminate.
Qed.

Lemma float_of_int_ok n x : float_of_int n = Ok x -> x = f_of_Z n.
Proof. unfold float_of_int. destruct (Z.abs n <? float_int_limit); congruence. Qed.

Lemma recovery_score_ok c s :
  recovery_score c = Ok s -> s = py_round2 (raw_recovery_score c).
Proof.
  unfold recovery_score. intros E. apply res_bind_ok in E as (x & Hx & Hs).
  apply float_of_int_ok in Hx as ->. unfold raw_recovery_score. congruence.
Qed.

(** [evaluate_candidate] when it returns *)
Lemma evaluate_candidate_ok c m e :
  evaluate_candidate c m = Ok e ->
  EvaluatedCandidate.base e = c /\
  EvaluatedCandidate.exclusion_reasons e = candidate_reasons c m /\
  EvaluatedCandidate.eligible e = (match candidate_reasons c m with [] => true | _ => false end) /\
  EvaluatedCandidate.deterministic_recovery_score e =
    (if EvaluatedCandidate.eligible e then Some (py_round2 (raw_recovery_score c)) else None) /\
  EvaluatedCandidate.valid e = true.
Proof.
  unfold evaluate_candidate. destruct (candidate_reasons c m) as [|r rs] eqn:E.
  - cbv [fmap res_fmap mbind res_bind]. destruct (recovery_score c) as [s|] eqn:Es; [|done].
    apply recovery_score_ok in Es as ->. intros Hc. apply construct_ok in Hc as [-> Hv]. done.
  - cbv [mbind res_bind]. intros Hc. apply construct_ok in Hc as [-> Hv]. done.
Qed.

Lemma evaluate_candidate_total c m :
  RecoveryCandidate.valid c = true -> RecoveryCandidate.arrival_delay_minutes c < float_int_limit ->
  exists e, evaluate_candidate c m = Ok e.
Proof.
  intros Hv Hd. unfold evaluate_candidate. pose proof (recovery_score_bounds c Hv) as Hb.
  assert (Hs : recovery_score c = Ok (py_round2 (raw_recovery_score c))).
  { unfold recovery_score, float_of_int. unfold RecoveryCandidate.valid in Hv. bool_hyps.
    rewrite (proj2 (Z.ltb_lt _ _)); [done|]. rewrite Z.abs_eq by lia. done. }
  rewrite Hs. set (reasons := candidate_reasons c m).
  destruct reasons as [|r rs]; cbv [fmap res_fmap mbind res_bind]; eexists; apply construct_ok;
    (split; [reflexivity|]); unfold EvaluatedCandidate.valid; simpl; rewrite Hv; simpl; [|done].
  unfold percent. by rewrite (proj2 (Z.leb_le _ _) (proj1 Hb)), (proj2 (Z.leb_le _ _) (proj2 Hb)).
Qed.

Lemma mapM_res_Forall2 {A B} (f : A -> res B) l k :
  mapM f l = Ok k -> List.Forall2 (fun x y => f x = Ok y) l k.
Proof.
  revert k. induction l as [|x l IH]; intros k E; simpl in E.
  - injection E as <-. constructor.
  - apply res_bind_ok in E as (y & Hy & E). apply res_bind_ok in E as (k' & Hk & E).
    injection E as <-. constructor; [done|by apply IH].
Qed.

Lemma mapM_res_total {A B} (f : A -> res B) l :
  (forall x, In x l -> exists y, f x = Ok y) -> exists k, mapM f l = Ok k.
Proof.
  induction l as [|x l IH]; intros H; simpl; [by eexists|].
  destruct (H x (or_introl eq_refl)) as [y ->]. destruct IH as [k ->]; [naive_solver|].
  by eexists.
Qed.

Lemma state_of_outcome_total o : exists s, state_of_outcome o = Ok s /\ value s = value o.
Proof. destruct o; (eexists; split; [vm_compute; reflexivity|reflexivity]). Qed.

Lemma latest_by_candidate_spec outcomes k o :
  dict_get k (latest_by_candidate outcomes) = Some o ->
  In o outcomes /\ RecoveryCandidateOutcome.candidate_id o = k /\
  forall o', In o' outcomes -> RecoveryCandidateOutcome.candidate_id o' = k ->
    outcome_key_leb o' o = true.
Proof.
  unfold latest_by_candidate. rewrite dict_get_fold_set. simpl.
  destruct (last _) as [x|] eqn:E; [|done]. intros [= ->].
  assert (Hin : In o (List.filter (fun x => k == RecoveryCandidateOutcome.candidate_id x)
                        (sorted outcome_key_leb outcomes))).
  { apply last_Some in E as [l' El]. rewrite El. apply in_or_app. right. by left. }
  apply sorted_perm_filter in Hin as [Hin Hk]. bool_hyps. subst k.
  split_and!; [done|done|]. intros o' Ho' Hc.
  refine (StronglySorted_last (leb_le outcome_key_leb) _ o _ _ E o' _).
  - intros y. apply total_refl, outcome_key_total.
  - apply StronglySorted_filter, sorted_sorted; [apply outcome_key_total|apply outcome_key_trans].
  - apply sorted_perm_filter. split; [done|]. rewrite Hc. by apply bool_decide_true.
Qed.

Lemma latest_by_candidate_none outcomes k :
  dict_get k (latest_by_candidate outcomes) = None ->
  forall o, In o outcomes -> RecoveryCandidateOutcome.candidate_id o <> k.
Proof.
  unfold latest_by_candidate. rewrite dict_get_fold_set. simpl.
  destruct (last _) as [x|] eqn:E; [done|]. intros _ o Ho Hk.
  apply last_None in E.
  assert (Hin : In o (List.filter (fun x => k == RecoveryCandidateOutcome.candidate_id x)
                        (sorted outcome_key_leb outcomes))).
  { apply sorted_perm_filter. split; [done|]. rewrite Hk. by apply bool_decide_true. }
  by rewrite E in Hin.
Qed.

(** The lifecycle an ordered list of observed outcomes describes: each one must
    be allowed in the state its predecessors left. *)
Fixpoint lifecycle (s : RecoveryCandidateState.t) (events : list RecoveryCandidateOutcomeState.t)
    : res RecoveryCandidateState.t :=
  match events with
  | [] => Ok s
  | e :: events' =>
      if transition_allowed s e then s' ← state_of_outcome e; lifecycle s' events'
      else Raise (HTTPException 409 "candidate lifecycle transition is not allowed")
  end.

(** steps left before the lifecycle must stop *)
Definition steps_left (s : RecoveryCandidateState.t) : nat :=
  match s with
  | RecoveryCandidateState.ELIGIBLE => 4
  | RecoveryCandidateState.OFFERED => 3
  | RecoveryCandidateState.VIEWED => 2
  | RecoveryCandidateState.SELECTED => 1
  | _ => 0
  end.

Lemma transition_decreases s e s' :
  transition_allowed s e = true -> state_of_outcome e = Ok s' -> (steps_left s' < steps_left s)%nat.
Proof.
  destruct s, e; vm_compute (transition_allowed _ _); try done;
    intros _ [= <-]; simpl; lia.
Qed.

Lemma lifecycle_length s events s' :
  lifecycle s events = Ok s' -> (length events + steps_left s' <= steps_left s)%nat.
Proof.
  revert s. induction events as [|e events IH]; intros s E; simpl in *.
  - injection E as <-. lia.
  - destruct (transition_allowed s e) eqn:Ht; [|done].
    apply res_bind_ok in E as (s1 & Hs1 & E). pose proof (transition_decreases _ _ _ Ht Hs1).
    specialize (IH s1 E). lia.
Qed.

(** ** Properties *)

(** Evaluating a candidate never fails on a validated candidate whose delay
    fits a float; it is eligible exactly when it is available, feasible, policy
    and accessibility compliant and has the minimum connection; only an eligible
    candidate gets a deterministic score; and the score is between 0 and 100. *)
Theorem evaluate_candidate_spec c m :
  RecoveryCandidate.valid c = true -> RecoveryCandidate.arrival_delay_minutes c < float_int_limit ->
  exists e, evaluate_candidate c m = Ok e /\
    EvaluatedCandidate.base e = c /\
    (EvaluatedCandidate.eligible e = true <->
       RecoveryCandidate.available c = true /\ RecoveryCandidate.feasible c = true /\
       RecoveryCandidate.policy_compliant c = true /\
       RecoveryCandidate.accessibility_compliant c = true /\
       m <= RecoveryCandidate.connection_minutes c) /\
    (EvaluatedCandidate.exclusion_reasons e = [] <-> EvaluatedCandidate.eligible e = true) /\
    (forall s, EvaluatedCandidate.deterministic_recovery_score e = Some s ->
       EvaluatedCandidate.eligible e = true /\ 0 <= s <= f_int 100) /\
    (EvaluatedCandidate.eligible e = true ->
       is_some (EvaluatedCandidate.deterministic_recovery_score e) = true).
Proof.
  intros Hv Hd. destruct (evaluate_candidate_total c m Hv Hd) as [e He]. exists e.
  destruct (evaluate_candidate_ok _ _ _ He) as (Hb & Hr & He' & Hs & _).
  split; [done|]. split; [done|]. rewrite Hr, Hs, <- (reasons_nil_iff c m), He'. clear Hr Hs He'.
  pose proof (recovery_score_bounds c Hv) as Hbounds.
  generalize dependent (py_round2 (raw_recovery_score c)). intros s Hbounds.
  destruct (candidate_reasons c m) as [|r rs]; (split; [naive_solver|]); (split; [naive_solver|]).
  - split; [|reflexivity]. intros s' [= <-]. split; [reflexivity|exact Hbounds].
  - split; [intros s' E|intros E]; discriminate E.
Qed.

(** Dominance: of two eligible evaluated candidates, one that arrives no
    later and costs no more never has a lower deterministic score, whatever the
    roundings of the floating-point formula do. *)
Theorem recovery_score_dominance c1 c2 m1 m2 e1 e2 s1 s2 :
  RecoveryCandidate.valid c1 = true ->
  RecoveryCandidate.arrival_delay_minutes c1 <= RecoveryCandidate.arrival_delay_minutes c2 ->
  RecoveryCandidate.incremental_cost c1 <= RecoveryCandidate.incremental_cost c2 ->
  evaluate_candidate c1 m1 = Ok e1 -> evaluate_candidate c2 m2 = Ok e2 ->
  EvaluatedCandidate.deterministic_recovery_score e1 = Some s1 ->
  EvaluatedCandidate.deterministic_recovery_score e2 = Some s2 ->
  fle s2 s1 = true.
Proof.
  unfold RecoveryCandidate.valid. intros Hv Hd Hc He1 He2 Hs1 Hs2. bool_hyps.
  destruct (evaluate_candidate_ok _ _ _ He1) as (_ & _ & _ & Hs1' & _).
  destruct (evaluate_candidate_ok _ _ _ He2) as (_ & _ & _ & Hs2' & _).
  assert (Hmono : py_round2 (raw_recovery_score c2) <= py_round2 (raw_recovery_score c1)).
  { apply py_round2_mono. split; [apply fmax_ge_l|]. apply raw_score_antitone; lia. }
  generalize dependent (py_round2 (raw_recovery_score c1)).
  generalize dependent (py_round2 (raw_recovery_score c2)).
  intros r2 Hs2' r1 Hs1' Hmono. rewrite Hs1 in Hs1'. rewrite Hs2 in Hs2'.
  destruct (EvaluatedCandidate.eligible e1), (EvaluatedCandidate.eligible e2); try discriminate.
  injection Hs1' as ->. injection Hs2' as ->. by apply Z.leb_le.
Qed.

(** C39.  Ranking neither loses, invents nor alters a candidate: up to the
    displayed position the ranked list is a permutation of the eligible
    candidates, it is in descending order of score with ties in descending order
    of candidate id, and the positions are 1, 2, ... in that order. *)
Theorem rank_eligible_spec cs :
  Permutation (List.map clear_position (rank_eligible cs))
              (List.map clear_position (List.filter EvaluatedCandidate.eligible cs)) /\
  StronglySorted (fun a b => rank_key_leb b a = true) (rank_eligible cs) /\
  forall i c, rank_eligible cs !! i = Some c ->
    EvaluatedCandidate.displayed_position c = Some (1 + Z.of_nat i).
Proof.
  split_and!.
  - rewrite rank_eligible_cleared. apply Permutation_map. symmetry. apply sorted_perm.
  - apply enumerate_map_sorted with (R := fun a b => rank_key_leb b a = true); [done|].
    apply (sorted_sorted (fun x y => rank_key_leb y x)).
    + intros x y. apply rank_key_total.
    + intros x y z H1 H2. by apply (rank_key_trans z y x).
  - intros i c. unfold rank_eligible. set (l := sorted_reverse _ _).
    change (@List.map) with (@map). rewrite list_lookup_fmap.
    destruct (enumerate 1 l !! i) as [[p x]|] eqn:E; [|done]. intros [= <-]. simpl.
    pose proof (lookup_lt_Some _ _ _ E) as Hlt.
    assert (Hl : length (enumerate 1 l) = length l)
      by (rewrite <- (enumerate_snd 1 l) at 2; by rewrite length_fmap).
    pose proof (enumerate_fst 1 l i ltac:(lia)) as Hf. rewrite list_lookup_fmap, E in Hf.
    simpl in Hf. by injection Hf as ->.
Qed.

(** The outcome projection is the latest observation: it never fails, keeps
    the candidates of the immutable snapshot in order and unchanged except for
    their lifecycle state, and that state is the one of an outcome of the
    candidate that no other outcome of it follows (by time, then id); a candidate
    without outcomes is unchanged. *)
Theorem projection_latest_wins set outcomes :
  exists set', project_candidate_set_outcomes set outcomes = Ok set' /\
    Permutation (RecoveryCandidateSet.outcomes set') outcomes /\
    List.Forall2 (fun c c' =>
        c' <| EvaluatedCandidate.lifecycle_state := EvaluatedCandidate.lifecycle_state c |> = c /\
        ((c' = c /\ forall o, In o outcomes ->
            RecoveryCandidateOutcome.candidate_id o <> EvaluatedCandidate.candidate_id c) \/
         exists o, In o outcomes /\
            RecoveryCandidateOutcome.candidate_id o = EvaluatedCandidate.candidate_id c /\
            value (EvaluatedCandidate.lifecycle_state c') = value (RecoveryCandidateOutcome.state o) /\
            forall o', In o' outcomes ->
              RecoveryCandidateOutcome.candidate_id o' = EvaluatedCandidate.candidate_id c ->
              outcome_key_leb o' o = true))
      (RecoveryCandidateSet.candidates set) (RecoveryCandidateSet.candidates set').
Proof.
  destruct (mapM_res_total (project_candidate (latest_by_candidate outcomes))
              (RecoveryCandidateSet.candidates set)) as [k Hk].
  { intros c _. unfold project_candidate. destruct (dict_get _ _) as [o|]; [|by eexists].
    destruct (state_of_outcome_total (RecoveryCandidateOutcome.state o)) as (s & -> & _). by eexists. }
  unfold project_candidate_set_outcomes. rewrite Hk. eexists. split; [reflexivity|]. simpl.
  split; [symmetry; apply sorted_perm|].
  eapply List.Forall2_impl; [|apply mapM_res_Forall2; exact Hk].
  intros c c' Hc. unfold project_candidate in Hc. destruct (dict_get _ _) as [o|] eqn:E.
  - apply latest_by_candidate_spec in E as (Hin & Hid & Hlast).
    apply res_bind_ok in Hc as (s & Hs & Hc). injection Hc as <-. split; [by destruct c|].
    right. exists o. split_and!; try done.
    destruct (state_of_outcome_total (RecoveryCandidateOutcome.state o)) as (s' & Hs' & Hv).
    rewrite Hs' in Hs. injection Hs as <-. exact Hv.
  - injection Hc as <-. split; [by destruct c|]. left. split; [done|].
    intros o Ho. by apply (latest_by_candidate_none _ _ E).
Qed.

(** Candidate lifecycles are finite and ordered: any sequence of outcomes
    the transition table accepts has at most four events, the states of
    unavailable, policy-ineligible and ineligible candidates accept none, and a
    candidate that ends completed was offered, then selected, then completed. *)
Theorem lifecycle_ordered s events s' :
  lifecycle s events = Ok s' ->
  (length events <= 4)%nat /\
  (In s [RecoveryCandidateState.UNAVAILABLE; RecoveryCandidateState.POLICY_INELIGIBLE;
         RecoveryCandidateState.INELIGIBLE] -> events = []) /\
  (s = RecoveryCandidateState.ELIGIBLE -> s' = RecoveryCandidateState.COMPLETED ->
     events = [RecoveryCandidateOutcomeState.OFFERED; RecoveryCandidateOutcomeState.SELECTED;
               RecoveryCandidateOutcomeState.COMPLETED] \/
     events = [RecoveryCandidateOutcomeState.OFFERED; RecoveryCandidateOutcomeState.VIEWED;
               RecoveryCandidateOutcomeState.SELECTED; RecoveryCandidateOutcomeState.COMPLETED]).
Proof.
  intros E. pose proof (lifecycle_length _ _ _ E) as Hl. split_and!.
  - destruct s; simpl in Hl; lia.
  - intros Hs. destruct events as [|e events]; [done|]. simpl in Hl.
    simpl in Hs. destruct Hs as [<-|[<-|[<-|[]]]]; simpl in Hl; lia.
  - intros -> ->. simpl in Hl.
    destruct events as [|[] [|[] [|[] [|[] [|]]]]]; simpl in Hl; try lia;
      vm_compute in E; try discriminate E; auto.
Qed.

(** ** Witnesses *)

Definition rebooked : RecoveryCandidate.t :=
  RecoveryCandidate.mk "rebook-1" true true true true 30 (f_int 100) 75.
Definition rerouted : RecoveryCandidate.t :=
  RecoveryCandidate.mk "reroute-2" true true true true 90 (f_int 180) 60.

#[local] Transparent f_of_Z f_int f_lit fadd fsub fmul py_round2.

Lemma evaluate_candidate_spec_witness :
  exists e, evaluate_candidate rebooked 45 = Ok e /\ EvaluatedCandidate.eligible e = true.
Proof.
  destruct (evaluate_candidate_spec rebooked 45 ltac:(vm_compute; reflexivity)
              ltac:(vm_compute; reflexivity)) as (e & He & _ & Hel & _).
  exists e. split; [exact He|]. apply Hel. repeat split; vm_compute; congruence.
Defined.

Lemma recovery_score_dominance_witness :
  exists e1 e2 s1 s2, evaluate_candidate rebooked 45 = Ok e1 /\ evaluate_candidate rerouted 45 = Ok e2 /\
    EvaluatedCandidate.deterministic_recovery_score e1 = Some s1 /\
    EvaluatedCandidate.deterministic_recovery_score e2 = Some s2 /\ fle s2 s1 = true.
Proof.
  destruct (evaluate_candidate_total rebooked 45 ltac:(vm_compute; reflexivity) ltac:(vm_compute; reflexivity)) as [e1 E1].
  destruct (evaluate_candidate_total rerouted 45 ltac:(vm_compute; reflexivity) ltac:(vm_compute; reflexivity)) as [e2 E2].
  destruct (evaluate_candidate_ok _ _ _ E1) as (_ & _ & H1 & S1 & _).
  destruct (evaluate_candidate_ok _ _ _ E2) as (_ & _ & H2 & S2 & _).
  assert (candidate_reasons rebooked 45 = []) as R1 by reflexivity.
  assert (candidate_reasons rerouted 45 = []) as R2 by reflexivity.
  rewrite R1 in H1. rewrite R2 in H2. rewrite H1 in S1. rewrite H2 in S2.
  do 4 eexists. split; [exact E1|]. split; [exact E2|]. split; [exact S1|]. split; [exact S2|].
  exact (recovery_score_dominance rebooked rerouted 45 45 e1 e2 _ _ ltac:(vm_compute; reflexivity)
           ltac:(vm_compute; congruence) ltac:(vm_compute; congruence) E1 E2 S1 S2).
Defined.

Lemma lifecycle_ordered_witness :
  (length [RecoveryCandidateOutcomeState.OFFERED; RecoveryCandidateOutcomeState.SELECTED] <= 4)%nat.
Proof.
  exact (proj1 (lifecycle_ordered RecoveryCandidateState.ELIGIBLE
    [RecoveryCandidateOutcomeState.OFFERED; RecoveryCandidateOutcomeState.SELECTED]
    RecoveryCandidateState.SELECTED ltac:(vm_compute; reflexivity))).
Defined.
