(* ===== verification/Policies.v ===== *)
(** * [domain/policies.py]: corporate policy is authoritative over ranking *)

From S2P Require Import Prelude PyData Float64 PyStd Enums Models Recovery.

Module CorporateTravelPolicy.

Record t : Type := mk {
  version : string;
  maximum_incremental_cost : f64;
  minimum_connection_minutes : Z;
  allow_overnight_connections : bool
}.

Definition valid (x : t) : bool :=
  (0 <=? maximum_incremental_cost x) && (0 <=? minimum_connection_minutes x).

(** [CorporateTravelPolicy()] *)
Definition default : t := mk "mvp-v1" (f_int 500) 45 false.

End CorporateTravelPolicy.

Module PolicyDecision.

Record t : Type := mk {
  eligible : bool;
  reasons : list string;
  policy_version : string
}.

End PolicyDecision.

Definition evaluate_recovery_policy (candidate : RecoveryCandidate.t)
    (policy : CorporateTravelPolicy.t) : PolicyDecision.t :=
  let reasons :=
    (if flt (CorporateTravelPolicy.maximum_incremental_cost policy)
            (RecoveryCandidate.incremental_cost candidate)
     then ["cost_exceeds_policy"] else []) ++
    (if RecoveryCandidate.connection_minutes candidate <?
        CorporateTravelPolicy.minimum_connection_minutes policy
     then ["connection_below_policy_minimum"] else []) in
  {| PolicyDecision.eligible := match reasons with [] => true | _ => false end;
     PolicyDecision.reasons := reasons;
     PolicyDecision.policy_version := CorporateTravelPolicy.version policy |}.

Definition evaluate_policy_eligible_candidate (candidate : RecoveryCandidate.t)
    (policy : CorporateTravelPolicy.t) : res EvaluatedCandidate.t :=
  let policy_decision := evaluate_recovery_policy candidate policy in
  evaluated ← evaluate_candidate
    (candidate <| RecoveryCandidate.policy_compliant :=
       RecoveryCandidate.policy_compliant candidate && PolicyDecision.eligible policy_decision |>)
    (CorporateTravelPolicy.minimum_connection_minutes policy);
  let reasons := fromkeys (EvaluatedCandidate.exclusion_reasons evaluated ++
                           PolicyDecision.reasons policy_decision) in
  if negb (PolicyDecision.eligible policy_decision) then
    Ok (evaluated
          <| EvaluatedCandidate.eligible := false |>
          <| EvaluatedCandidate.exclusion_reasons := reasons |>
          <| EvaluatedCandidate.deterministic_recovery_score := None |>
          <| EvaluatedCandidate.lifecycle_state := RecoveryCandidateState.POLICY_INELIGIBLE |>)
  else Ok (evaluated <| EvaluatedCandidate.exclusion_reasons := reasons |>).

(** [not minimum_connection_minutes or ... or not candidate.eligible] *)
Definition apply_traveler_minimum_connection (candidate : EvaluatedCandidate.t)
    (minimum_connection_minutes : option Z) : EvaluatedCandidate.t :=
  match minimum_connection_minutes with
  | None => candidate
  | Some minimum =>
      if (minimum =? 0) || (minimum <=? EvaluatedCandidate.connection_minutes candidate) ||
         negb (EvaluatedCandidate.eligible candidate)
      then candidate
      else candidate
             <| EvaluatedCandidate.eligible := false |>
             <| EvaluatedCandidate.exclusion_reasons :=
                  EvaluatedCandidate.exclusion_reasons candidate ++
                  ["traveler_minimum_connection_not_met"] |>
             <| EvaluatedCandidate.deterministic_recovery_score := None |>
             <| EvaluatedCandidate.lifecycle_state := RecoveryCandidateState.INELIGIBLE |>
  end.

(** ** Lemmas *)

Lemma policy_decision_eligible c p :
  PolicyDecision.eligible (evaluate_recovery_policy c p) = true <->
    RecoveryCandidate.incremental_cost c <= CorporateTravelPolicy.maximum_incremental_cost p /\
    CorporateTravelPolicy.minimum_connection_minutes p <= RecoveryCandidate.connection_minutes c.
Proof.
  unfold evaluate_recovery_policy, flt. simpl. rewrite <- !Z.ltb_ge.
  repeat case_match; simpl; naive_solver.
Qed.

Lemma policy_decision_reasons c p :
  PolicyDecision.eligible (evaluate_recovery_policy c p) = true <->
  PolicyDecision.reasons (evaluate_recovery_policy c p) = [].
Proof. unfold evaluate_recovery_policy. simpl. case_match; naive_solver. Qed.

(** What an evaluation under policy and an optional traveler constraint yields. *)
Record policy_outcome (c : RecoveryCandidate.t) (p : CorporateTravelPolicy.t)
    (e : EvaluatedCandidate.t) : Prop := {
  outcome_eligible : EvaluatedCandidate.eligible e = true <->
    RecoveryCandidate.available c = true /\ RecoveryCandidate.feasible c = true /\
    RecoveryCandidate.policy_compliant c = true /\ RecoveryCandidate.accessibility_compliant c = true /\
    RecoveryCandidate.incremental_cost c <= CorporateTravelPolicy.maximum_incremental_cost p /\
    CorporateTravelPolicy.minimum_connection_minutes p <= RecoveryCandidate.connection_minutes c;
  outcome_score : EvaluatedCandidate.eligible e = true <->
    is_some (EvaluatedCandidate.deterministic_recovery_score e) = true;
  outcome_state : EvaluatedCandidate.eligible e = true <->
    EvaluatedCandidate.lifecycle_state e = RecoveryCandidateState.ELIGIBLE;
  outcome_reasons : EvaluatedCandidate.exclusion_reasons e = [] <-> EvaluatedCandidate.eligible e = true;
  outcome_connection :
    EvaluatedCandidate.connection_minutes e = RecoveryCandidate.connection_minutes c
}.

Lemma evaluated_lifecycle c m e :
  evaluate_candidate c m = Ok e ->
  (EvaluatedCandidate.eligible e = true <->
   EvaluatedCandidate.lifecycle_state e = RecoveryCandidateState.ELIGIBLE).
Proof.
  unfold evaluate_candidate. intros E. apply res_bind_ok in E as (s & _ & E).
  apply construct_ok in E as [-> _].
  cbn [EvaluatedCandidate.eligible EvaluatedCandidate.lifecycle_state].
  unfold candidate_reasons.
  destruct (RecoveryCandidate.available c), (RecoveryCandidate.feasible c),
    (RecoveryCandidate.policy_compliant c), (RecoveryCandidate.accessibility_compliant c),
    (RecoveryCandidate.connection_minutes c <? m); simpl; naive_solver.
Qed.

Lemma policy_evaluation c p e :
  evaluate_policy_eligible_candidate c p = Ok e -> policy_outcome c p e.
Proof.
  unfold evaluate_policy_eligible_candidate. intros E.
  apply res_bind_ok in E as (e0 & He0 & E).
  pose proof (evaluated_lifecycle _ _ _ He0) as Hst.
  apply evaluate_candidate_ok in He0 as (Hb & Hr & Hel & Hs & _).
  pose proof (policy_decision_eligible c p) as Hp. pose proof (policy_decision_reasons c p) as Hpr.
  set (c' := c <| RecoveryCandidate.policy_compliant := _ |>) in *.
  assert (Hr' : candidate_reasons c' (CorporateTravelPolicy.minimum_connection_minutes p) = [] <->
                EvaluatedCandidate.eligible e0 = true).
  { rewrite Hel. destruct (candidate_reasons _ _); naive_solver. }
  assert (Hsc : EvaluatedCandidate.eligible e0 = true <->
                is_some (EvaluatedCandidate.deterministic_recovery_score e0) = true).
  { rewrite Hs. destruct (EvaluatedCandidate.eligible e0); simpl; naive_solver. }
  assert (Hc' : EvaluatedCandidate.eligible e0 = true <-> _) by
    (rewrite <- Hr'; apply reasons_nil_iff). clear Hel Hs. simpl in Hc'.
  rewrite andb_true_iff in Hc'.
  destruct (PolicyDecision.eligible (evaluate_recovery_policy c p)) eqn:Hd; cbn [negb] in E;
    apply Ok_inj in E; subst e.
  - rewrite (proj1 Hpr eq_refl), app_nil_r. constructor; cbn.
    + rewrite Hc'. tauto.
    + done.
    + done.
    + rewrite fromkeys_nil_iff, Hr. done.
    + unfold EvaluatedCandidate.connection_minutes. cbn. by rewrite Hb.
  - constructor; cbn.
    + split; [done|]. intros (_ & _ & _ & _ & Hcost & Hconn).
      discriminate (proj2 Hp (conj Hcost Hconn)).
    + split; intros H; discriminate H.
    + split; intros H; discriminate H.
    + rewrite fromkeys_nil_iff. split; [|done]. intros [_ Hn]%app_eq_nil.
      discriminate (proj2 Hpr Hn).
    + unfold EvaluatedCandidate.connection_minutes. cbn. by rewrite Hb.
Qed.

Lemma evaluate_policy_total c p :
  RecoveryCandidate.valid c = true -> RecoveryCandidate.arrival_delay_minutes c < float_int_limit ->
  exists e, evaluate_policy_eligible_candidate c p = Ok e.
Proof.
  intros Hv Hd. unfold evaluate_policy_eligible_candidate.
  match goal with |- context [evaluate_candidate ?x ?m] => destruct (evaluate_candidate_total x m) as [e ->] end;
    [exact Hv|exact Hd|].
  cbv [mbind res_bind]. destruct (negb _); by eexists.
Qed.

(** the traveler's minimum connection is set, is not zero, and is not met *)
Definition minimum_fails (c : RecoveryCandidate.t) (minimum : option Z) : Prop :=
  exists m, minimum = Some m /\ m <> 0 /\ RecoveryCandidate.connection_minutes c < m.

#[local] Instance minimum_fails_dec c minimum : Decision (minimum_fails c minimum).
Proof.
  destruct minimum as [m|]; [|right; by intros (m & ? & _)].
  destruct (decide (m <> 0 /\ RecoveryCandidate.connection_minutes c < m)) as [H|H].
  - left. by exists m.
  - right. intros (m' & [= <-] & ?). naive_solver.
Defined.

(** ** Properties *)

(** C27.  Policy is authoritative and a traveler constraint only tightens it: a
    candidate evaluated under a corporate policy and then a traveler's minimum
    connection is eligible exactly when it meets every provider flag, the
    policy's cost cap and minimum connection, and the traveler's own non-zero
    minimum; it has a score, an empty list of exclusion reasons and the
    [ELIGIBLE] state exactly when it is eligible, so nothing that fails policy
    can be scored or ranked. *)
Theorem policy_authoritative c p minimum e0 :
  evaluate_policy_eligible_candidate c p = Ok e0 ->
  let e := apply_traveler_minimum_connection e0 minimum in
  (EvaluatedCandidate.eligible e = true <->
     RecoveryCandidate.available c = true /\ RecoveryCandidate.feasible c = true /\
     RecoveryCandidate.policy_compliant c = true /\
     RecoveryCandidate.accessibility_compliant c = true /\
     RecoveryCandidate.incremental_cost c <= CorporateTravelPolicy.maximum_incremental_cost p /\
     CorporateTravelPolicy.minimum_connection_minutes p <= RecoveryCandidate.connection_minutes c /\
     (forall m, minimum = Some m -> m <> 0 -> m <= RecoveryCandidate.connection_minutes c)) /\
  (EvaluatedCandidate.eligible e = true <->
     is_some (EvaluatedCandidate.deterministic_recovery_score e) = true) /\
  (EvaluatedCandidate.eligible e = true <-> EvaluatedCandidate.exclusion_reasons e = []) /\
  (EvaluatedCandidate.eligible e = true <->
     EvaluatedCandidate.lifecycle_state e = RecoveryCandidateState.ELIGIBLE).
Proof.
  intros [Hel Hsc Hst Hrs Hcn]%policy_evaluation e. subst e.
  assert (Hkeep : (forall m, minimum = Some m -> m <> 0 -> m <= RecoveryCandidate.connection_minutes c) \/
                  EvaluatedCandidate.eligible e0 = false ->
            apply_traveler_minimum_connection e0 minimum = e0).
  { unfold apply_traveler_minimum_connection. rewrite Hcn. destruct minimum as [m|]; [|done].
    intros [Hm| ->]; [|by rewrite orb_true_r]. specialize (Hm m eq_refl).
    destruct (Z.eqb_spec m 0), (Z.leb_spec m (RecoveryCandidate.connection_minutes c)); try done; lia. }
  destruct (decide (EvaluatedCandidate.eligible e0 = true /\ minimum_fails c minimum)) as [[E Hf]|Hok].
  - destruct Hf as (m & -> & Hne & Hlt). clear Hkeep. unfold apply_traveler_minimum_connection.
    rewrite Hcn, E. rewrite (proj2 (Z.eqb_neq _ _) Hne), (proj2 (Z.leb_gt _ _) Hlt). cbn.
    split; [|split; [|split]]; (split; [discriminate|]).
    + intros (_ & _ & _ & _ & _ & _ & Hm). specialize (Hm m eq_refl Hne). lia.
    + discriminate.
    + by intros [_ H]%app_eq_nil.
    + discriminate.
  - rewrite Hkeep.
    + split; [|split; [|split]]; [|done|by rewrite Hrs|done]. rewrite Hel.
      split; [|tauto]. intros Hc. pose proof (proj2 Hel Hc) as E.
      repeat split; try tauto. intros m -> Hne. apply Z.le_ngt. intros Hlt.
      apply Hok. split; [exact E|]. by exists m.
    + destruct (EvaluatedCandidate.eligible e0) eqn:E; [left|by right].
      intros m -> Hne. apply Z.le_ngt. intros Hlt. apply Hok. split; [done|]. by exists m.
Qed.

(** ** Witnesses *)

Lemma policy_authoritative_witness :
  exists e0, evaluate_policy_eligible_candidate rebooked CorporateTravelPolicy.default = Ok e0 /\
    EvaluatedCandidate.eligible (apply_traveler_minimum_connection e0 (Some 60)) = true.
Proof.
  destruct (evaluate_policy_total rebooked CorporateTravelPolicy.default
              ltac:(vm_compute; reflexivity) ltac:(vm_compute; reflexivity)) as [e0 E0].
  exists e0. split; [exact E0|].
  apply (proj1 (policy_authoritative rebooked CorporateTravelPolicy.default (Some 60) e0 E0)).
  repeat split; try (vm_compute; congruence). intros m [= <-] _. vm_compute. congruence.
Defined.
