(* ===== verification/Security.v ===== *)
(** * [apps/api/security.py]: audit redaction and rate limiting *)

From S2P Require Import Prelude PyData PyStd.

(** ** Redaction *)

Definition SENSITIVE_FIELDS : list string :=
  ["authorization"; "cookie"; "set-cookie"; "openai_api_key"; "password"; "passwd"; "secret";
   "token"; "access_token"; "refresh_token"; "id_token"; "api_key"; "x-api-key"; "client_secret";
   "private_key"; "signature"].

Definition _sensitive_key (key : string) : bool :=
  let normalized := str_replace_char "-" "_" (str_lower (str_strip key)) in
  mem normalized (List.map (str_replace_char "-" "_") SENSITIVE_FIELDS).

Fixpoint redact (payload : json) : json :=
  match payload with
  | JObj kvs =>
      JObj (List.map (fun kv => (kv.1, if _sensitive_key kv.1 then JStr "[REDACTED]"
                                       else redact kv.2)) kvs)
  | JList l => JList (List.map redact l)
  | _ => payload
  end.

(** [redact] of a [dict] payload *)
Definition redact_dict (details : dict string json) : dict string json :=
  List.map (fun kv => (kv.1, if _sensitive_key kv.1 then JStr "[REDACTED]" else redact kv.2)) details.

(** ** Rate limits *)

Module RateLimitResult.

Record t : Type := mk {
  allowed : bool;
  limit : Z;
  remaining : Z;
  retry_after_seconds : Z
}.

End RateLimitResult.

Module FixedWindowRateLimiter.

Record t : Type := mk {
  limit : Z;
  window : Z;
  requests : dict string (list instant)
}.

#[global] Instance settable : Settable t := fun x => mk (limit x) (window x) (requests x).

(** [__init__] *)
Definition init (limit window : Z) : res t :=
  if limit <? 1 then Raise (ValueError "rate limit must be at least one request")
  else if window <=? 0 then Raise (ValueError "rate-limit window must be positive")
  else Ok (mk limit window []).

(** the requests of [key] still inside the window at [now] *)
Definition active (self : t) (key : string) (now : instant) : list instant :=
  List.filter (fun time => now - time <? window self) (default [] (dict_get key (requests self))).

Definition check (self : t) (key : string) (now : instant) : RateLimitResult.t * t :=
  let act := active self key now in
  match act with
  | first :: _ =>
      if limit self <=? len act then
        (RateLimitResult.mk false (limit self) 0
           (Z.max 1 (Z.quot (window self - (now - first)) second)),
         self <| requests ::= dict_set key act |>)
      else
        (RateLimitResult.mk true (limit self) (limit self - len (act ++ [now])) 0,
         self <| requests ::= dict_set key (act ++ [now]) |>)
  | [] =>
      (* [limit >= 1], so an empty window always has room *)
      (RateLimitResult.mk true (limit self) (limit self - len (act ++ [now])) 0,
       self <| requests ::= dict_set key (act ++ [now]) |>)
  end.

Definition allow (self : t) (key : string) (now : instant) : bool * t :=
  let '(r, self') := check self key now in (RateLimitResult.allowed r, self').

End FixedWindowRateLimiter.

Module RedisFixedWindowRateLimiter.

(** [incr] is the Redis server's counter: its reply for a key and the server's
    next state.  [EXPIRE] only frees keys of past windows. *)
Record redis (S : Type) : Type := { incr : S -> string -> Z * S; expire : S -> string -> Z -> S }.
Arguments incr {S}.
Arguments expire {S}.

Record t : Type := mk { limit : Z; window_seconds : Z }.

Definition init (limit window : Z) : res t :=
  if (limit <? 1) || (window <=? 0)
  then Raise (ValueError "Redis rate limiter requires positive limit and window")
  else Ok (mk limit (Z.max 1 (Z.quot window second))).

Definition redis_key (self : t) (key : string) (now : instant) : string :=
  let epoch := now / second in
  let window_start := epoch - epoch mod window_seconds self in
  "routeshield:rate-limit:" +:+ str_int window_start +:+ ":" +:+ key.

Definition check {S} (client : redis S) (self : t) (key : string) (now : instant) (s : S)
    : RateLimitResult.t * S :=
  let epoch := now / second in
  let window_start := epoch - epoch mod window_seconds self in
  let rk := redis_key self key now in
  let '(count, s1) := incr client s rk in
  let s2 := if count =? 1 then expire client s1 rk (window_seconds self + 1) else s1 in
  let retry_after := Z.max 1 (window_seconds self - (epoch - window_start)) in
  (RateLimitResult.mk (count <=? limit self) (limit self) (Z.max 0 (limit self - count))
     (if limit self <? count then retry_after else 0), s2).

End RedisFixedWindowRateLimiter.

(** ** Lemmas *)

(** [entry k v j]: somewhere inside [j] an object maps [k] to [v] *)
Inductive entry (k : string) (v : json) : json -> Prop :=
  | entry_here kvs : In (k, v) kvs -> entry k v (JObj kvs)
  | entry_value kvs k' x : In (k', x) kvs -> entry k v x -> entry k v (JObj kvs)
  | entry_item l x : In x l -> entry k v x -> entry k v (JList l).

(** the keys and the list lengths of a value, without its leaves *)
Fixpoint keys_of (j : json) : list string :=
  match j with
  | JObj kvs => List.concat (List.map (fun kv => kv.1 :: if _sensitive_key kv.1 then [] else keys_of kv.2) kvs)
  | JList l => List.concat (List.map keys_of l)
  | _ => []
  end.

Lemma redact_dict_obj d : redact (JObj d) = JObj (redact_dict d).
Proof. reflexivity. Qed.

Lemma redact_entry k v j :
  _sensitive_key k = true -> entry k v (redact j) -> v = JStr "[REDACTED]".
Proof.
  intros Hk. revert v. induction j as [ | | | | |l IH|kvs IH] using json_ind'; intros v H;
    try solve [inversion H].
  - simpl in H. inversion H as [| |? x Hx He]; subst.
    apply in_map_iff in Hx as (y & <- & Hy). rewrite List.Forall_forall in IH. by apply (IH y).
  - simpl in H. rewrite List.Forall_forall in IH.
    inversion H as [? Hin|? k' x Hin He|]; subst.
    + apply in_map_iff in Hin as ([k1 v1] & E & Hin). simpl in E.
      injection E as -> <-. by rewrite Hk.
    + apply in_map_iff in Hin as ([k1 v1] & E & Hin). simpl in E.
      injection E as -> <-. destruct (_sensitive_key k'); [inversion He|]. by apply (IH _ Hin).
Qed.

Lemma redact_twice j : redact (redact j) = redact j.
Proof.
  induction j as [ | | | | |l IH|kvs IH] using json_ind'; try done; simpl; f_equal.
  - rewrite List.map_map. apply List.map_ext_in. rewrite List.Forall_forall in IH. apply IH.
  - rewrite List.map_map. apply List.map_ext_in. intros [k v] Hin. simpl.
    rewrite List.Forall_forall in IH. destruct (_sensitive_key k); [done|].
    f_equal. apply (IH _ Hin).
Qed.

Lemma redact_keys j : keys_of (redact j) = keys_of j.
Proof.
  induction j as [ | | | | |l IH|kvs IH] using json_ind'; try done; simpl; f_equal;
    rewrite List.map_map; apply List.map_ext_in; rewrite List.Forall_forall in IH.
  - done.
  - intros [k v] Hin. simpl. destruct (_sensitive_key k); [done|]. f_equal. apply (IH _ Hin).
Qed.

(** a value without any sensitive key *)
Lemma redact_clean j : (forall k v, entry k v j -> _sensitive_key k = false) -> redact j = j.
Proof.
  induction j as [ | | | | |l IH|kvs IH] using json_ind'; try done; intros H; simpl; f_equal;
    rewrite List.Forall_forall in IH.
  - transitivity (List.map (fun x => x) l); [|apply List.map_id].
    apply List.map_ext_in. intros x Hx. apply IH; [done|]. intros k v Hkv.
    apply (H k v). by econstructor.
  - transitivity (List.map (fun x => x) kvs); [|apply List.map_id].
    apply List.map_ext_in. intros [k v] Hx. simpl. rewrite (H k v) by by constructor.
    f_equal. apply (IH _ Hx). intros k' v' Hkv. apply (H k' v'). by eapply entry_value.
Qed.

(** A run of the limiter: each request with the decision it got, oldest first *)
Fixpoint run_limiter (self : FixedWindowRateLimiter.t) (trace : list (string * instant))
    : list (string * instant * bool) * FixedWindowRateLimiter.t :=
  match trace with
  | [] => ([], self)
  | (key, now) :: trace' =>
      let '(ok, self') := FixedWindowRateLimiter.allow self key now in
      let '(rest, self'') := run_limiter self' trace' in
      ((key, now, ok) :: rest, self'')
  end.

(** accepted requests of [key] in the half-open window [(now - w, now]] *)
Definition accepted_in (key : string) (w : Z) (now : instant)
    (decisions : list (string * instant * bool)) : list (string * instant * bool) :=
  List.filter (fun '(k, t, ok) => (k == key) && ok && (now - t <? w) && (t <=? now)) decisions.

(** clock readings do not decrease along the trace, starting from [now] *)
Fixpoint nondecreasing (now : instant) (trace : list (string * instant)) : Prop :=
  match trace with
  | [] => True
  | (_, t) :: trace' => now <= t /\ nondecreasing t trace'
  end.

Section Limiter.
Import FixedWindowRateLimiter.

Lemma allow_spec self key now ok self' :
  1 <= limit self -> allow self key now = (ok, self') ->
  limit self' = limit self /\ window self' = window self /\
  ok = (len (active self key now) <? limit self) /\
  requests self' = dict_set key (active self key now ++ (if ok then [now] else [])) (requests self).
Proof.
  intros Hl. unfold allow, check. set (act := active self key now).
  destruct act as [|first act'] eqn:E.
  - intros [= <- <-]. simpl. unfold len. simpl. split_and!; try done. symmetry. apply Z.ltb_lt. lia.
  - rewrite <- E. destruct (Z.leb_spec (limit self) (len act)); intros [= <- <-]; simpl;
      (split_and!; try done).
    + symmetry. by apply Z.ltb_ge.
    + by rewrite app_nil_r.
    + symmetry. by apply Z.ltb_lt.
Qed.

Definition stored (self : t) (key : string) : list instant := default [] (dict_get key (requests self)).

(** every key's log is within the limit *)
Definition within_limit (self : t) : Prop :=
  1 <= limit self /\ forall key, len (stored self key) <= limit self.

Lemma filter_len {A} (p : A -> bool) l : len (List.filter p l) <= len l.
Proof. unfold len. pose proof (List.filter_length_le p l). lia. Qed.

Lemma allow_within self key now ok self' :
  within_limit self -> allow self key now = (ok, self') -> within_limit self'.
Proof.
  intros [Hl Hb] Ha. destruct (allow_spec _ _ _ _ _ Hl Ha) as (El & Ew & Ho & Er).
  split; [lia|]. intros k. unfold stored. rewrite Er, dict_get_set, El.
  case_bool_decide; [subst k; simpl|apply Hb].
  assert (len (active self key now) <= len (stored self key)) by apply filter_len.
  specialize (Hb key).
  destruct ok; unfold len in *; rewrite length_app; simpl; [|lia].
  symmetry in Ho. apply Z.ltb_lt in Ho. lia.
Qed.

(** the log of a key holds every accepted request still inside the window *)
Definition logged (self : t) (past : list (string * instant * bool)) (now : instant) : Prop :=
  forall key later, now <= later ->
    List.filter (fun time => later - time <? window self) (stored self key) =
    List.map (fun d => d.1.2)
      (List.filter (fun '(k, t, ok) => (k == key) && ok && (later - t <? window self)) past).

Lemma filter_filter_sub {A} (p q : A -> bool) l :
  (forall x, p x = true -> q x = true) -> List.filter p (List.filter q l) = List.filter p l.
Proof.
  intros H. induction l as [|x l IH]; simpl; [done|].
  destruct (q x) eqn:Q; simpl; [by rewrite IH|].
  destruct (p x) eqn:P; [|done]. by rewrite (H x P) in Q.
Qed.

Lemma allow_logged self key now t past ok self' :
  1 <= limit self -> now <= t -> logged self past now -> allow self key t = (ok, self') ->
  logged self' (past ++ [(key, t, ok)]) t.
Proof.
  intros Hl Hn Hlog Ha. destruct (allow_spec _ _ _ _ _ Hl Ha) as (El & Ew & _ & Er).
  intros k later Hlater. unfold stored. rewrite Er, dict_get_set, Ew, List.filter_app, List.map_app.
  specialize (Hlog k later ltac:(lia)). case_bool_decide; subst; simpl.
  - rewrite List.filter_app. f_equal.
    + etransitivity; [|exact Hlog]. apply filter_filter_sub. intros x Hx. bool_hyps. apply Z.ltb_lt. lia.
    + rewrite bool_decide_true by done. destruct ok; simpl; [|done]. by destruct (_ <? _).
  - rewrite bool_decide_false by congruence. simpl. by rewrite app_nil_r.
Qed.

Lemma filter_window_length key w now past :
  Forall (fun d : string * instant * bool => d.1.2 <= now) past ->
  accepted_in key w now past =
  List.filter (fun '(k, t, ok) => (k == key) && ok && (now - t <? w)) past.
Proof.
  intros H. unfold accepted_in. apply List.filter_ext_in. intros [[k t] ok] Hin.
  rewrite List.Forall_forall in H. specialize (H _ Hin). simpl in H.
  rewrite (proj2 (Z.leb_le t now) H). by rewrite andb_true_r.
Qed.

(** The invariant of a run: in the window ending at the last request, and so at
    every request, no key has more accepted requests than the limit. *)
Lemma run_limiter_bounded trace : forall self now past out self',
  within_limit self -> logged self past now ->
  Forall (fun d : string * instant * bool => d.1.2 <= now) past -> nondecreasing now trace ->
  run_limiter self trace = (out, self') ->
  limit self' = limit self /\ window self' = window self /\
  (forall pre d post, out = pre ++ d :: post ->
     d.2 = (len (accepted_in d.1.1 (window self) d.1.2 (past ++ pre)) <? limit self) /\
     forall key, len (accepted_in key (window self) d.1.2 (past ++ pre ++ [d])) <= limit self).
Proof.
  induction trace as [|[key t] trace IH]; intros self now past out self' Hw Hlog Hpast Hmono Hrun;
    simpl in Hrun.
  - injection Hrun as <- <-. split_and!; try done. by intros [|] ? ? ?.
  - simpl in Hmono. destruct Hmono as [Hnow Hmono].
    destruct (allow self key t) as [ok self1] eqn:Ha.
    destruct (run_limiter self1 trace) as [rest self2] eqn:Hr. injection Hrun as <- <-.
    pose proof (allow_within _ _ _ _ _ Hw Ha) as Hw1.
    pose proof (allow_logged _ _ _ _ _ _ _ (proj1 Hw) Hnow Hlog Ha) as Hlog1.
    destruct (allow_spec _ _ _ _ _ (proj1 Hw) Ha) as (El & Ew & Eok & _).
    assert (Hpast1 : Forall (fun d : string * instant * bool => d.1.2 <= t) (past ++ [(key, t, ok)])).
    { apply List.Forall_app. split; [|by constructor]. eapply List.Forall_impl; [|exact Hpast].
      simpl. lia. }
    destruct (IH _ _ _ _ _ Hw1 Hlog1 Hpast1 Hmono Hr) as (El2 & Ew2 & Hout).
    split; [congruence|]. split; [congruence|]. intros [|d0 pre] d post E; simpl in E.
    + injection E as <- <-. simpl. split.
      { rewrite Eok, app_nil_r, filter_window_length; [|eapply List.Forall_impl; [|exact Hpast]; simpl; lia].
        f_equal. unfold active, len. rewrite <- (length_map (fun d : string * instant * bool => d.1.2)).
        f_equal. f_equal. exact (Hlog key t Hnow). }
      intros k. rewrite filter_window_length by done.
      rewrite <- Ew. pose proof (f_equal len (Hlog1 k t ltac:(lia))) as Hlen.
      pose proof (filter_len (fun time => t - time <? window self1) (stored self1 k)) as Hf.
      unfold len in Hlen at 2. rewrite length_map in Hlen. rewrite <- El.
      etransitivity; [apply Z.eq_le_incl; symmetry; exact Hlen|].
      etransitivity; [exact Hf|]. apply Hw1.
    + injection E as <- ->. specialize (Hout pre d post eq_refl).
      rewrite El, Ew in Hout. rewrite <- !(app_assoc past) in Hout. exact Hout.
Qed.

End Limiter.

Lemma init_ok limit window l :
  FixedWindowRateLimiter.init limit window = Ok l <->
  1 <= limit /\ 0 < window /\ l = FixedWindowRateLimiter.mk limit window [].
Proof.
  unfold FixedWindowRateLimiter.init.
  destruct (Z.ltb_spec limit 1), (Z.leb_spec window 0); split; try done; try lia; naive_solver lia.
Qed.

(** What the deployment relies on of Redis: [INCR] counts per key, and [EXPIRE]
    does not touch a counter before its delay, which ends after the window. *)
Class Counting {S} (client : RedisFixedWindowRateLimiter.redis S) := {
  counter : S -> string -> Z;
  incr_reply : forall s k, (RedisFixedWindowRateLimiter.incr client s k).1 = counter s k + 1;
  incr_counter : forall s k k',
    counter (RedisFixedWindowRateLimiter.incr client s k).2 k' =
      if k' == k then counter s k' + 1 else counter s k';
  expire_counter : forall s k n k', counter (RedisFixedWindowRateLimiter.expire client s k n) k' = counter s k'
}.

Section Redis.
Import RedisFixedWindowRateLimiter.
Context {S : Type} (client : redis S) `{!Counting client}.

Fixpoint run_redis (self : t) (trace : list (string * instant)) (s : S)
    : list (string * RateLimitResult.t) * S :=
  match trace with
  | [] => ([], s)
  | (key, now) :: trace' =>
      let '(r, s1) := check client self key now s in
      let '(rest, s2) := run_redis self trace' s1 in
      ((redis_key self key now, r) :: rest, s2)
  end.

(** the requests accepted under one Redis key *)
Definition accepted_under (rk : string) (out : list (string * RateLimitResult.t)) : Z :=
  len (List.filter (fun '(k, r) => (k == rk) && RateLimitResult.allowed r) out).

Lemma check_redis self key now s r s' :
  check client self key now s = (r, s') ->
  RateLimitResult.allowed r = (counter s (redis_key self key now) + 1 <=? limit self) /\
  forall k, counter s' k = if k == redis_key self key now then counter s k + 1 else counter s k.
Proof.
  unfold check. pose proof (incr_reply s (redis_key self key now)) as Hr.
  pose proof (incr_counter s (redis_key self key now)) as Hc.
  destruct (incr client s (redis_key self key now)) as [count s1]. simpl in *. subst count.
  intros [= <- <-]. simpl. split; [done|]. intros k. rewrite <- Hc.
  destruct (_ =? 1); [apply expire_counter|done].
Qed.

Lemma run_redis_bounded self trace rk : forall s out s',
  run_redis self trace s = (out, s') -> 0 <= counter s rk ->
  accepted_under rk out <= Z.max 0 (limit self - counter s rk).
Proof.
  induction trace as [|[key now] trace IH]; intros s out s' Hrun Hs; simpl in Hrun.
  - injection Hrun as <- <-. unfold accepted_under, len. simpl. lia.
  - destruct (check client self key now s) as [r s1] eqn:Hc.
    destruct (run_redis self trace s1) as [rest s2] eqn:Hr. injection Hrun as <- <-.
    apply check_redis in Hc as [Ha Hcount]. specialize (Hcount rk).
    unfold accepted_under, len in *. simpl. rewrite (bool_decide_ext _ (rk = redis_key self key now)) by naive_solver.
    case_bool_decide as E; simpl.
    + rewrite <- E in Ha. specialize (IH s1 rest s2 Hr ltac:(lia)).
      rewrite Ha. destruct (Z.leb_spec (counter s rk + 1) (limit self)); simpl; lia.
    + specialize (IH s1 rest s2 Hr ltac:(lia)). lia.
Qed.

End Redis.

(** ** Properties *)

(** C33.  Redaction: below a secret-shaped key, at any depth of objects and
    lists, only the marker remains; no key disappears; redacting again changes
    nothing; and a payload without secret-shaped keys is unchanged. *)
Theorem redact_safe j :
  (forall k v, entry k v (redact j) -> _sensitive_key k = true -> v = JStr "[REDACTED]") /\
  keys_of (redact j) = keys_of j /\ redact (redact j) = redact j /\
  ((forall k v, entry k v j -> _sensitive_key k = false) -> redact j = j).
Proof.
  split_and!; [|apply redact_keys|apply redact_twice|apply redact_clean].
  intros k v He Hk. by apply (redact_entry k v j).
Qed.

(** C40.  The local limiter is exact: over any sequence of requests whose clock
    does not go back, a request is accepted exactly when fewer than [limit]
    requests of its key were accepted in the window before it, so that no window
    ending at a request holds more than [limit] accepted requests of any key. *)
Theorem rate_limit_exact limit window limiter start trace out limiter' :
  FixedWindowRateLimiter.init limit window = Ok limiter ->
  nondecreasing start trace ->
  run_limiter limiter trace = (out, limiter') ->
  forall pre d post, out = pre ++ d :: post ->
    d.2 = (len (accepted_in d.1.1 window d.1.2 pre) <? limit) /\
    forall key, len (accepted_in key window d.1.2 (pre ++ [d])) <= limit.
Proof.
  intros (Hl & Hw & ->)%init_ok Hmono Hrun.
  refine (proj2 (proj2 (run_limiter_bounded trace _ start [] out limiter' _ _ _ Hmono Hrun))).
  - split; [done|]. intros key. unfold stored, len. simpl. lia.
  - by intros key later _.
  - constructor.
Qed.

(** The shared limiter: whatever requests the replicas send, the requests
    accepted under one key and window are at most [limit], given that Redis
    counts [INCR]s. *)
Theorem redis_rate_limit_bounded {S} (client : RedisFixedWindowRateLimiter.redis S)
    `{!Counting client} limit window limiter trace s out s' rk :
  RedisFixedWindowRateLimiter.init limit window = Ok limiter ->
  run_redis client limiter trace s = (out, s') -> counter s rk = 0 ->
  accepted_under rk out <= limit.
Proof.
  unfold RedisFixedWindowRateLimiter.init. destruct (Z.ltb_spec limit 1); [done|].
  destruct (window <=? 0); [done|]. intros [= <-] Hrun Hs.
  pose proof (run_redis_bounded client _ trace rk s out s' Hrun) as Hb.
  rewrite Hs in Hb. cbn [RedisFixedWindowRateLimiter.limit] in Hb. lia.
Qed.

(** ** Witnesses *)

Definition burst : list (string * instant) := [("a", 0); ("a", 1); ("b", 1); ("a", 2); ("a", 60000001)].

Lemma rate_limit_exact_witness :
  exists limiter out limiter', FixedWindowRateLimiter.init 2 60000000 = Ok limiter /\
    run_limiter limiter burst = (out, limiter') /\
    len (accepted_in "a" 60000000 2 [("a", 0, true); ("a", 1, true); ("b", 1, true); ("a", 2, false)]) <= 2.
Proof.
  do 3 eexists. split; [vm_compute; reflexivity|]. split; [vm_compute; reflexivity|].
  exact (proj2 (rate_limit_exact 2 60000000 _ 0 burst _ _ ltac:(vm_compute; reflexivity)
    ltac:(vm_compute; repeat split; discriminate) ltac:(vm_compute; reflexivity)
    [("a", 0, true); ("a", 1, true); ("b", 1, true)] ("a", 2, false) [("a", 60000001, true)]
    ltac:(vm_compute; reflexivity)) "a").
Defined.

(** a Redis that is its table of counters *)
Definition counter_table : RedisFixedWindowRateLimiter.redis (dict string Z) :=
  {| RedisFixedWindowRateLimiter.incr := fun d k =>
       let n := default 0 (dict_get k d) + 1 in (n, dict_set k n d);
     RedisFixedWindowRateLimiter.expire := fun d _ _ => d |}.

#[export] Instance counter_table_counting : Counting counter_table.
Proof.
  refine {| counter := fun d k => default 0 (dict_get k d) |}; [done| |done].
  intros s k k'. simpl. rewrite dict_get_set. by case_bool_decide; subst.
Defined.

Lemma redis_rate_limit_bounded_witness :
  exists limiter out s', RedisFixedWindowRateLimiter.init 2 60000000 = Ok limiter /\
    run_redis counter_table limiter burst [] = (out, s') /\
    accepted_under "routeshield:rate-limit:0:a" out <= 2.
Proof.
  do 3 eexists. split; [vm_compute; reflexivity|]. split; [vm_compute; reflexivity|].
  exact (redis_rate_limit_bounded counter_table 2 60000000 _ burst [] _ _ _
    ltac:(vm_compute; reflexivity) ltac:(vm_compute; reflexivity) ltac:(vm_compute; reflexivity)).
Defined.
