(* ===== verification/Repository.v ===== *)
(** * [apps/api/repository.py]: the tenant-filtered in-memory store

    The store is the record [Repo.t]; every coroutine is a function of the store
    (its body has no [await] other than its locks, so it runs atomically).
    [datetime.now(UTC)] and [uuid4()] are arguments. *)

From S2P Require Import Prelude PyData Float64 PyStd Enums Models Recovery Security.

Module Repo.

Record t : Type := mk {
  trips : dict uuid Trip.t;
  trip_segments : dict uuid (list FlightSegmentCreate.t);
  evidence : dict uuid (list EvidenceEnvelope.t);
  assessments : dict uuid (list RiskAssessment.t);
  incidents : dict uuid Incident.t;
  approvals : dict uuid ApprovalRecord.t;
  events : list EventRecord.t;
  profiles : dict (string * string) TravelerPreferenceProfile.t;
  memory_proposals : dict uuid MemoryUpdateProposal.t;
  idempotency_records : dict (string * string) IdempotencyRecord.t;
  candidate_sets : dict uuid (string * RecoveryCandidateSet.t);
  candidate_outcomes : dict uuid (string * RecoveryCandidateOutcome.t);
  manager_feedback : dict uuid ManagerFeedback.t;
  tenant_playbooks : dict uuid TenantPlaybook.t;
  notifications : dict uuid NotificationRecord.t;
  notification_attempts : dict uuid (list NotificationAttempt.t);
  action_dispatches : dict uuid ActionDispatchRecord.t;
  action_dispatch_attempts : dict uuid (list ActionDispatchAttempt.t);
  memory_audits : list MemoryAuditEvent.t;
  change_records : dict uuid ChangeRecord.t;
  provider_onboarding_records : dict uuid ProviderOnboardingRecord.t;
  legal_holds : dict uuid LegalHoldRecord.t;
  deletion_requests : dict uuid DeletionRequest.t;
  runtime_control_overrides : dict (string * RuntimeControlName.t) RuntimeControlChange.t;
  runtime_control_changes : list RuntimeControlChange.t;
  platform_control_overrides : dict RuntimeControlName.t PlatformRuntimeControlChange.t;
  platform_control_changes : list PlatformRuntimeControlChange.t;
  original_uploads : dict uuid OriginalUploadRecord.t
}.

#[global] Instance settable : Settable t := fun x =>
  mk (trips x) (trip_segments x) (evidence x) (assessments x) (incidents x) (approvals x) (events x)
    (profiles x) (memory_proposals x) (idempotency_records x) (candidate_sets x)
    (candidate_outcomes x) (manager_feedback x) (tenant_playbooks x) (notifications x)
    (notification_attempts x) (action_dispatches x) (action_dispatch_attempts x) (memory_audits x)
    (change_records x) (provider_onboarding_records x) (legal_holds x) (deletion_requests x)
    (runtime_control_overrides x) (runtime_control_changes x) (platform_control_overrides x)
    (platform_control_changes x) (original_uploads x).

(** [InMemoryRouteShieldRepository()] *)
Definition init : t :=
  mk [] [] [] [] [] [] [] [] [] [] [] [] [] [] [] [] [] [] [] [] [] [] [] [] [] [] [] [].

End Repo.

Abbreviation repo := Repo.t.

(** [x if x and x.tenant_id == tenant_id else None] *)
Definition of_tenant {A} (tenant_of : A -> string) (tenant_id : string) (found : option A) : option A :=
  match found with
  | Some x => if tenant_of x == tenant_id then Some x else None
  | None => None
  end.

(** [sorted(l, key=lambda x: (timestamp, text))] where the timestamps may mix
    naive and aware values: comparing the two kinds raises, and a sort of a list
    that holds both kinds compares some pair of them. *)
Definition dt_key_leb {A} (key : A -> datetime) (text : A -> string) : A -> A -> bool :=
  lex_leb (fun x => dt_instant (key x)) (fun x y => str_leb (text x) (text y)).
Definition dt_sorted {A} (key : A -> datetime) (text : A -> string) (l : list A) : res (list A) :=
  if existsb (fun x => dt_aware (key x)) l && existsb (fun x => negb (dt_aware (key x))) l
  then Raise naive_aware
  else Ok (sorted (dt_key_leb key text) l).

(** the comprehension [[x for x in l if p(x)]] when [p] may raise *)
Fixpoint filter_res {A} (p : A -> res bool) (l : list A) : res (list A) :=
  match l with
  | [] => Ok []
  | x :: l' =>
      keep ← p x;
      rest ← filter_res p l';
      Ok (if keep : bool then x :: rest else rest)
  end.

(** ** Trips, evidence, assessments, incidents, approvals *)

Definition create_trip (r : repo) (trip : Trip.t) : repo :=
  r <| Repo.trips ::= dict_set (Trip.trip_id trip) trip |>
    <| Repo.trip_segments ::= dict_set (Trip.trip_id trip) (Trip.segments trip) |>.

Definition save_trip (r : repo) (trip : Trip.t) : repo :=
  r <| Repo.trips ::= dict_set (Trip.trip_id trip) trip |>
    <| Repo.trip_segments ::= dict_set (Trip.trip_id trip) (Trip.segments trip) |>.

Definition get_trip (r : repo) (tenant_id : string) (trip_id : uuid) : option Trip.t :=
  of_tenant Trip.tenant_id tenant_id (dict_get trip_id (Repo.trips r)).

Definition list_trips (r : repo) : list Trip.t := dict_values (Repo.trips r).

Definition save_evidence (r : repo) (tenant_id : string) (trip_id : uuid)
    (evidence : list EvidenceEnvelope.t) : res repo :=
  match get_trip r tenant_id trip_id with
  | None => Raise (KeyError "trip not found")
  | Some _ => Ok (r <| Repo.evidence ::= dict_set trip_id evidence |>)
  end.

Definition get_evidence (r : repo) (tenant_id : string) (trip_id : uuid) : list EvidenceEnvelope.t :=
  match get_trip r tenant_id trip_id with
  | None => []
  | Some _ => default [] (dict_get trip_id (Repo.evidence r))
  end.

Definition save_assessment (r : repo) (tenant_id : string) (assessment : RiskAssessment.t) : res repo :=
  match get_trip r tenant_id (RiskAssessment.trip_id assessment) with
  | None => Raise (KeyError "trip not found")
  | Some _ => Ok (r <| Repo.assessments ::= dict_append (RiskAssessment.trip_id assessment) assessment |>)
  end.

Definition save_incident (r : repo) (incident : Incident.t) : repo :=
  r <| Repo.incidents ::= dict_set (Incident.incident_id incident) incident |>.

Definition get_incident (r : repo) (tenant_id : string) (incident_id : uuid) : option Incident.t :=
  of_tenant Incident.tenant_id tenant_id (dict_get incident_id (Repo.incidents r)).

Definition list_incidents (r : repo) (tenant_id : string) : list Incident.t :=
  List.filter (fun i => Incident.tenant_id i == tenant_id) (dict_values (Repo.incidents r)).

Definition save_approval (r : repo) (approval : ApprovalRecord.t) : repo :=
  r <| Repo.approvals ::= dict_set (ApprovalRecord.incident_id approval) approval |>.

(** ** Idempotency records *)

Definition claim_idempotency (r : repo) (tenant_id idempotency_key scope request_hash : string)
    (expires_at : instant) (now : instant) : res (string * IdempotencyRecord.t) * repo :=
  let key := (tenant_id, idempotency_key) in
  let found := dict_get key (Repo.idempotency_records r) in
  let expired := match found with
                 | Some e => IdempotencyRecord.expires_at e <=? now
                 | None => false
                 end in
  let r1 := if expired then r <| Repo.idempotency_records ::= dict_pop key |> else r in
  let existing := if expired then None else found in
  match existing with
  | None =>
      match construct "IdempotencyRecord" IdempotencyRecord.valid
              {| IdempotencyRecord.tenant_id := tenant_id;
                 IdempotencyRecord.idempotency_key := idempotency_key;
                 IdempotencyRecord.scope := scope;
                 IdempotencyRecord.request_hash := request_hash;
                 IdempotencyRecord.state := IdempotencyState.IN_PROGRESS;
                 IdempotencyRecord.response_status_code := None;
                 IdempotencyRecord.response_payload := None;
                 IdempotencyRecord.created_at := now;
                 IdempotencyRecord.expires_at := expires_at;
                 IdempotencyRecord.completed_at := None |} with
      | Ok record =>
          (Ok ("execute", record), r1 <| Repo.idempotency_records ::= dict_set key record |>)
      | Raise e => (Raise e, r1)
      end
  | Some e =>
      if (IdempotencyRecord.scope e != scope) || (IdempotencyRecord.request_hash e != request_hash)
      then (Ok ("conflict", e), r1)
      else if IdempotencyRecord.state e == IdempotencyState.COMPLETED then (Ok ("replay", e), r1)
      else (Ok ("in_progress", e), r1)
  end.

Definition complete_idempotency (r : repo) (tenant_id idempotency_key request_hash : string)
    (response_status_code : Z) (response_payload : json) (now : instant)
    : res (IdempotencyRecord.t * repo) :=
  let key := (tenant_id, idempotency_key) in
  match dict_get key (Repo.idempotency_records r) with
  | None => Raise (KeyError "idempotency claim not found")
  | Some record =>
      if IdempotencyRecord.request_hash record != request_hash
      then Raise (KeyError "idempotency claim not found")
      else
        let record' := record
          <| IdempotencyRecord.state := IdempotencyState.COMPLETED |>
          <| IdempotencyRecord.response_status_code := Some response_status_code |>
          <| IdempotencyRecord.response_payload := Some response_payload |>
          <| IdempotencyRecord.completed_at := Some now |> in
        Ok (record', r <| Repo.idempotency_records ::= dict_set key record' |>)
  end.

(** ** Audit events *)

Definition record_event (r : repo) (event : EventRecord.t) : EventRecord.t * repo :=
  let safe_event := event <| EventRecord.details := redact_dict (EventRecord.details event) |> in
  (safe_event, r <| Repo.events ::= fun l => l ++ [safe_event] |>).

Definition list_events (r : repo) (tenant_id : string) : list EventRecord.t :=
  List.filter (fun e => EventRecord.tenant_id e == tenant_id) (Repo.events r).

(** ** Candidate sets, outcomes, feedback, playbooks *)

Definition save_candidate_set (r : repo) (tenant_id : string) (s : RecoveryCandidateSet.t) : repo :=
  r <| Repo.candidate_sets ::= dict_set (RecoveryCandidateSet.candidate_set_id s) (tenant_id, s) |>.

Definition get_candidate_set (r : repo) (tenant_id : string) (incident_id candidate_set_id : uuid)
    : option RecoveryCandidateSet.t :=
  match dict_get candidate_set_id (Repo.candidate_sets r) with
  | None => None
  | Some (saved_tenant, candidate_set) =>
      if (saved_tenant != tenant_id) || (RecoveryCandidateSet.incident_id candidate_set != incident_id)
      then None else Some candidate_set
  end.

Definition list_candidate_sets (r : repo) (tenant_id : string) (incident_id : uuid)
    : list RecoveryCandidateSet.t :=
  List.map snd
    (List.filter (fun '(saved_tenant, item) =>
        (saved_tenant == tenant_id) && (RecoveryCandidateSet.incident_id item == incident_id))
      (dict_values (Repo.candidate_sets r))).

Definition record_candidate_outcome (r : repo) (tenant_id : string)
    (outcome : RecoveryCandidateOutcome.t) : repo :=
  r <| Repo.candidate_outcomes ::=
         dict_set (RecoveryCandidateOutcome.outcome_id outcome) (tenant_id, outcome) |>.

Definition list_candidate_outcomes (r : repo) (tenant_id : string) (candidate_set_id : uuid)
    : list RecoveryCandidateOutcome.t :=
  sorted outcome_key_leb
    (List.map snd
      (List.filter (fun '(saved_tenant, outcome) =>
          (saved_tenant == tenant_id) &&
          (RecoveryCandidateOutcome.candidate_set_id outcome == candidate_set_id))
        (dict_values (Repo.candidate_outcomes r)))).

Definition save_manager_feedback (r : repo) (feedback : ManagerFeedback.t) : repo :=
  r <| Repo.manager_feedback ::= dict_set (ManagerFeedback.feedback_id feedback) feedback |>.

Definition list_manager_feedback (r : repo) (tenant_id : string) (incident_id : uuid)
    : list ManagerFeedback.t :=
  sorted (lex_leb ManagerFeedback.created_at
            (fun a b => str_leb (uuid_str (ManagerFeedback.feedback_id a))
                                (uuid_str (ManagerFeedback.feedback_id b))))
    (List.filter (fun f => (ManagerFeedback.tenant_id f == tenant_id) &&
                           (ManagerFeedback.incident_id f == incident_id))
      (dict_values (Repo.manager_feedback r))).

Definition get_playbook (r : repo) (tenant_id : string) (playbook_id : uuid) : option TenantPlaybook.t :=
  of_tenant TenantPlaybook.tenant_id tenant_id (dict_get playbook_id (Repo.tenant_playbooks r)).

Definition save_playbook (r : repo) (playbook : TenantPlaybook.t) : TenantPlaybook.t * repo :=
  match dict_get (TenantPlaybook.playbook_id playbook) (Repo.tenant_playbooks r) with
  | Some existing => (existing, r)
  | None => (playbook, r <| Repo.tenant_playbooks ::=
                              dict_set (TenantPlaybook.playbook_id playbook) playbook |>)
  end.

(** tuple comparison of [(name, version)] *)
Definition playbook_leb (a b : TenantPlaybook.t) : bool :=
  if TenantPlaybook.name a == TenantPlaybook.name b
  then str_leb (TenantPlaybook.version a) (TenantPlaybook.version b)
  else str_leb (TenantPlaybook.name a) (TenantPlaybook.name b).

Definition list_approved_playbooks (r : repo) (tenant_id : string) : list TenantPlaybook.t :=
  sorted playbook_leb
    (List.filter (fun p => TenantPlaybook.tenant_id p == tenant_id)
      (dict_values (Repo.tenant_playbooks r))).

(** ** Traveler memory *)

Definition get_profile (r : repo) (tenant_id traveler_id : string) : option TravelerPreferenceProfile.t :=
  dict_get (tenant_id, traveler_id) (Repo.profiles r).

Definition save_profile (r : repo) (profile : TravelerPreferenceProfile.t) : repo :=
  r <| Repo.profiles ::= dict_set (TravelerPreferenceProfile.tenant_id profile,
                                   TravelerPreferenceProfile.traveler_id profile) profile |>.

Definition save_memory_proposal (r : repo) (proposal : MemoryUpdateProposal.t) : repo :=
  r <| Repo.memory_proposals ::= dict_set (MemoryUpdateProposal.proposal_id proposal) proposal |>.

Definition get_memory_proposal (r : repo) (tenant_id : string) (proposal_id : uuid)
    : option MemoryUpdateProposal.t :=
  of_tenant MemoryUpdateProposal.tenant_id tenant_id (dict_get proposal_id (Repo.memory_proposals r)).

Definition traveler_proposal_ids (d : dict uuid MemoryUpdateProposal.t) (tenant_id traveler_id : string)
    : list uuid :=
  dict_keys (dict_filter (fun _ p => (MemoryUpdateProposal.tenant_id p == tenant_id) &&
                                     (MemoryUpdateProposal.traveler_id p == traveler_id)) d).

(** [pop] of every key of [ids] *)
Definition pop_all {K V} `{EqDecision K} (ids : list K) (d : dict K V) : dict K V :=
  fold_left (fun d id => dict_pop id d) ids d.

Definition delete_traveler_memory (r : repo) (tenant_id traveler_id : string) : dict string Z * repo :=
  let deleted_profile := if dict_mem (tenant_id, traveler_id) (Repo.profiles r) then 1 else 0 in
  let proposal_ids := traveler_proposal_ids (Repo.memory_proposals r) tenant_id traveler_id in
  ([("profiles", deleted_profile); ("memory_proposals", len proposal_ids)],
   r <| Repo.profiles ::= dict_pop (tenant_id, traveler_id) |>
     <| Repo.memory_proposals ::= pop_all proposal_ids |>).

Definition record_memory_audit (r : repo) (event : MemoryAuditEvent.t) : repo :=
  r <| Repo.memory_audits ::= fun l => l ++ [event] |>.

Definition list_memory_audit (r : repo) (tenant_id : string) (traveler_id : option string)
    : list MemoryAuditEvent.t :=
  List.filter (fun e => (MemoryAuditEvent.tenant_id e == tenant_id) &&
      match traveler_id with None => true | Some t => MemoryAuditEvent.traveler_id e == t end)
    (Repo.memory_audits r).

(** ** Leases of the notification and action outboxes

    Both outboxes follow one protocol, stated once for a record type that has
    the lease fields. *)

Class Leasable (R : Type) := {
  lease_tenant : R -> string;
  lease_ready : R -> bool;             (* status in {QUEUED, RETRY_SCHEDULED} *)
  lease_next_attempt_at : R -> instant;
  lease_claim_id : R -> option uuid;
  lease_claim_expires_at : R -> option instant;
  set_lease : uuid -> string -> instant -> instant -> R -> R;
  clear_lease : R -> R;
  lease_claim_id_set : forall id w t e x, lease_claim_id (set_lease id w t e x) = Some id;
  lease_expires_set : forall id w t e x, lease_claim_expires_at (set_lease id w t e x) = Some e;
  lease_tenant_set : forall id w t e x, lease_tenant (set_lease id w t e x) = lease_tenant x;
  lease_claim_id_clear : forall x, lease_claim_id (clear_lease x) = None
}.

#[export] Instance notification_leasable : Leasable NotificationRecord.t.
Proof.
  refine {|
    lease_tenant := NotificationRecord.tenant_id;
    lease_ready := fun n => mem (NotificationRecord.status n)
      [NotificationStatus.QUEUED; NotificationStatus.RETRY_SCHEDULED];
    lease_next_attempt_at := NotificationRecord.next_attempt_at;
    lease_claim_id := NotificationRecord.dispatch_claim_id;
    lease_claim_expires_at := NotificationRecord.dispatch_claim_expires_at;
    set_lease := fun id worker now expires n => n
      <| NotificationRecord.dispatch_claim_id := Some id |>
      <| NotificationRecord.dispatch_claimed_by := Some worker |>
      <| NotificationRecord.dispatch_claimed_at := Some now |>
      <| NotificationRecord.dispatch_claim_expires_at := Some expires |>;
    clear_lease := fun n => n
      <| NotificationRecord.dispatch_claim_id := None |>
      <| NotificationRecord.dispatch_claimed_by := None |>
      <| NotificationRecord.dispatch_claimed_at := None |>
      <| NotificationRecord.dispatch_claim_expires_at := None |> |}; reflexivity.
Defined.

#[export] Instance action_leasable : Leasable ActionDispatchRecord.t.
Proof.
  refine {|
    lease_tenant := ActionDispatchRecord.tenant_id;
    lease_ready := fun a => mem (ActionDispatchRecord.status a)
      [ActionDispatchStatus.QUEUED; ActionDispatchStatus.RETRY_SCHEDULED];
    lease_next_attempt_at := ActionDispatchRecord.next_attempt_at;
    lease_claim_id := ActionDispatchRecord.dispatch_claim_id;
    lease_claim_expires_at := ActionDispatchRecord.dispatch_claim_expires_at;
    set_lease := fun id worker now expires a => a
      <| ActionDispatchRecord.dispatch_claim_id := Some id |>
      <| ActionDispatchRecord.dispatch_claimed_by := Some worker |>
      <| ActionDispatchRecord.dispatch_claimed_at := Some now |>
      <| ActionDispatchRecord.dispatch_claim_expires_at := Some expires |>;
    clear_lease := fun a => a
      <| ActionDispatchRecord.dispatch_claim_id := None |>
      <| ActionDispatchRecord.dispatch_claimed_by := None |>
      <| ActionDispatchRecord.dispatch_claimed_at := None |>
      <| ActionDispatchRecord.dispatch_claim_expires_at := None |> |}; reflexivity.
Defined.

Section Leases.
Context {R : Type} `{Leasable R}.

(** [if tenant_id and record.tenant_id != tenant_id: continue], and so on *)
Definition claimable (tenant_id : option string) (timestamp : instant) (x : R) : bool :=
  negb (truthy_opt_str tenant_id && negb (bool_decide (Some (lease_tenant x) = tenant_id))) &&
  lease_ready x && (lease_next_attempt_at x <=? timestamp) &&
  negb (match lease_claim_expires_at x with Some e => timestamp <? e | None => false end).

(** the loop over [self.<outbox>.items()]; [n] leases were already made *)
Fixpoint claim_due (tenant_id : option string) (worker_id : string) (claim_ttl : Z)
    (timestamp : instant) (limit : Z) (fresh : nat -> uuid) (n : nat) (d : dict uuid R)
    : list R * dict uuid R :=
  match d with
  | [] => ([], [])
  | (id, x) :: d' =>
      if limit <=? Z.of_nat n then ([], d)
      else if claimable tenant_id timestamp x then
        let leased := set_lease (fresh n) worker_id timestamp (timestamp + claim_ttl) x in
        let '(claimed, rest) := claim_due tenant_id worker_id claim_ttl timestamp limit fresh (S n) d' in
        (leased :: claimed, (id, leased) :: rest)
      else
        let '(claimed, rest) := claim_due tenant_id worker_id claim_ttl timestamp limit fresh n d' in
        (claimed, (id, x) :: rest)
  end.

(** [if not current or current.dispatch_claim_id != claim_id: return None] *)
Definition lease_held (id claim_id : uuid) (d : dict uuid R) : bool :=
  match dict_get id d with
  | Some current => bool_decide (lease_claim_id current = Some claim_id)
  | None => false
  end.

End Leases.

Definition save_notification (r : repo) (n : NotificationRecord.t) : repo :=
  r <| Repo.notifications ::= dict_set (NotificationRecord.notification_id n) n |>.

Definition get_notification (r : repo) (tenant_id : string) (notification_id : uuid)
    : option NotificationRecord.t :=
  of_tenant NotificationRecord.tenant_id tenant_id (dict_get notification_id (Repo.notifications r)).

Definition list_notifications (r : repo) (tenant_id : string)
    (statuses : option (list NotificationStatus.t)) : list NotificationRecord.t :=
  List.filter (fun n => (NotificationRecord.tenant_id n == tenant_id) &&
      match statuses with None => true | Some l => mem (NotificationRecord.status n) l end)
    (dict_values (Repo.notifications r)).

Definition list_due_notifications (r : repo) (timestamp : instant) : list NotificationRecord.t :=
  List.filter (fun n => lease_ready n && (NotificationRecord.next_attempt_at n <=? timestamp))
    (dict_values (Repo.notifications r)).

Definition claim_due_notifications (r : repo) (tenant_id : option string) (worker_id : string)
    (claim_ttl : Z) (timestamp : instant) (limit : Z) (fresh : nat -> uuid)
    : list NotificationRecord.t * repo :=
  let '(claimed, d) :=
    claim_due tenant_id worker_id claim_ttl timestamp limit fresh 0 (Repo.notifications r) in
  (claimed, r <| Repo.notifications := d |>).

Definition complete_notification_delivery (r : repo) (notification : NotificationRecord.t)
    (attempt : NotificationAttempt.t) (claim_id : uuid) : option NotificationRecord.t * repo :=
  if lease_held (NotificationRecord.notification_id notification) claim_id (Repo.notifications r) then
    let completed := clear_lease notification in
    (Some completed,
     r <| Repo.notifications ::= dict_set (NotificationRecord.notification_id completed) completed |>
       <| Repo.notification_attempts ::=
            dict_append (NotificationAttempt.notification_id attempt) attempt |>)
  else (None, r).

Definition record_notification_attempt (r : repo) (attempt : NotificationAttempt.t) : repo :=
  r <| Repo.notification_attempts ::= dict_append (NotificationAttempt.notification_id attempt) attempt |>.

Definition list_notification_attempts (r : repo) (tenant_id : string) (notification_id : uuid)
    : list NotificationAttempt.t :=
  match get_notification r tenant_id notification_id with
  | None => []
  | Some _ => default [] (dict_get notification_id (Repo.notification_attempts r))
  end.

Definition save_action_dispatch (r : repo) (a : ActionDispatchRecord.t) : repo :=
  r <| Repo.action_dispatches ::= dict_set (ActionDispatchRecord.action_dispatch_id a) a |>.

Definition list_action_dispatches (r : repo) (tenant_id : string) (incident_id : uuid)
    : list ActionDispatchRecord.t :=
  List.filter (fun a => (ActionDispatchRecord.tenant_id a == tenant_id) &&
                        (ActionDispatchRecord.incident_id a == incident_id))
    (dict_values (Repo.action_dispatches r)).

Definition claim_due_action_dispatches (r : repo) (tenant_id : option string) (worker_id : string)
    (claim_ttl : Z) (timestamp : instant) (limit : Z) (fresh : nat -> uuid)
    : list ActionDispatchRecord.t * repo :=
  let '(claimed, d) :=
    claim_due tenant_id worker_id claim_ttl timestamp limit fresh 0 (Repo.action_dispatches r) in
  (claimed, r <| Repo.action_dispatches := d |>).

Definition complete_action_dispatch (r : repo) (action : ActionDispatchRecord.t)
    (attempt : ActionDispatchAttempt.t) (claim_id : uuid) : option ActionDispatchRecord.t * repo :=
  if lease_held (ActionDispatchRecord.action_dispatch_id action) claim_id (Repo.action_dispatches r) then
    let completed := clear_lease action in
    (Some completed,
     r <| Repo.action_dispatches ::=
            dict_set (ActionDispatchRecord.action_dispatch_id completed) completed |>
       <| Repo.action_dispatch_attempts ::=
            dict_append (ActionDispatchAttempt.action_dispatch_id attempt) attempt |>)
  else (None, r).

Definition record_action_dispatch_attempt (r : repo) (attempt : ActionDispatchAttempt.t) : repo :=
  r <| Repo.action_dispatch_attempts ::=
         dict_append (ActionDispatchAttempt.action_dispatch_id attempt) attempt |>.

Definition list_action_dispatch_attempts (r : repo) (tenant_id : string) (action_dispatch_id : uuid)
    : list ActionDispatchAttempt.t :=
  match of_tenant ActionDispatchRecord.tenant_id tenant_id
          (dict_get action_dispatch_id (Repo.action_dispatches r)) with
  | None => []
  | Some _ => default [] (dict_get action_dispatch_id (Repo.action_dispatch_attempts r))
  end.

(** ** Governance records and runtime controls *)

Definition save_change_record (r : repo) (record : ChangeRecord.t) : repo :=
  r <| Repo.change_records ::= dict_set (ChangeRecord.change_id record) record |>.

Definition list_change_records (r : repo) (tenant_id : string) : list ChangeRecord.t :=
  List.filter (fun c => ChangeRecord.tenant_id c == tenant_id) (dict_values (Repo.change_records r)).

Definition save_provider_onboarding (r : repo) (record : ProviderOnboardingRecord.t) : repo :=
  r <| Repo.provider_onboarding_records ::=
         dict_set (ProviderOnboardingRecord.provider_onboarding_id record) record |>.

Definition list_provider_onboarding (r : repo) (tenant_id : string) : list ProviderOnboardingRecord.t :=
  List.filter (fun c => ProviderOnboardingRecord.tenant_id c == tenant_id)
    (dict_values (Repo.provider_onboarding_records r)).

(** [record.expires_at and record.expires_at <= now]: a naive expiry raises *)
Definition control_expired (expires_at : option datetime) (now : instant) : res bool :=
  match expires_at with
  | Some e => dt_le e (utc now)
  | None => Ok false
  end.

Definition get_runtime_control_override (r : repo) (tenant_id : string)
    (control_name : RuntimeControlName.t) (now : instant) : res (option RuntimeControlChange.t) :=
  match dict_get (tenant_id, control_name) (Repo.runtime_control_overrides r) with
  | None => Ok None
  | Some record =>
      expired ← control_expired (RuntimeControlChange.expires_at record) now;
      Ok (if expired : bool then None else Some record)
  end.

Definition save_runtime_control_change (r : repo) (record : RuntimeControlChange.t) : repo :=
  r <| Repo.runtime_control_overrides ::=
         dict_set (RuntimeControlChange.tenant_id record, RuntimeControlChange.control_name record) record |>
    <| Repo.runtime_control_changes ::= fun l => l ++ [record] |>.

Definition list_runtime_control_changes (r : repo) (tenant_id : string) : list RuntimeControlChange.t :=
  List.filter (fun c => RuntimeControlChange.tenant_id c == tenant_id) (Repo.runtime_control_changes r).

Definition get_platform_control_override (r : repo) (control_name : RuntimeControlName.t)
    (now : instant) : res (option PlatformRuntimeControlChange.t) :=
  match dict_get control_name (Repo.platform_control_overrides r) with
  | None => Ok None
  | Some record =>
      expired ← control_expired (PlatformRuntimeControlChange.expires_at record) now;
      Ok (if expired : bool then None else Some record)
  end.

Definition save_platform_control_change (r : repo) (record : PlatformRuntimeControlChange.t) : repo :=
  r <| Repo.platform_control_overrides ::=
         dict_set (PlatformRuntimeControlChange.control_name record) record |>
    <| Repo.platform_control_changes ::= fun l => l ++ [record] |>.

Definition list_platform_control_changes (r : repo) : list PlatformRuntimeControlChange.t :=
  Repo.platform_control_changes r.

Definition save_original_upload (r : repo) (record : OriginalUploadRecord.t) : repo :=
  r <| Repo.original_uploads ::= dict_set (OriginalUploadRecord.original_upload_id record) record |>.

Definition get_original_upload (r : repo) (tenant_id : string) (id : uuid)
    : option OriginalUploadRecord.t :=
  of_tenant OriginalUploadRecord.tenant_id tenant_id (dict_get id (Repo.original_uploads r)).

(** ** Legal holds and deletion requests *)

Definition save_legal_hold (r : repo) (hold : LegalHoldRecord.t) : repo :=
  r <| Repo.legal_holds ::= dict_set (LegalHoldRecord.legal_hold_id hold) hold |>.

Definition get_legal_hold (r : repo) (tenant_id : string) (id : uuid) : option LegalHoldRecord.t :=
  of_tenant LegalHoldRecord.tenant_id tenant_id (dict_get id (Repo.legal_holds r)).

Definition list_legal_holds (r : repo) (tenant_id : string) : res (list LegalHoldRecord.t) :=
  dt_sorted LegalHoldRecord.created_at (fun h => uuid_str (LegalHoldRecord.legal_hold_id h))
    (List.filter (fun h => LegalHoldRecord.tenant_id h == tenant_id) (dict_values (Repo.legal_holds r))).

(** the hold's scope covers the traveler, whose trips are [trip_ids] *)
Definition hold_covers_traveler (traveler_id : string) (trip_ids : list uuid) (h : LegalHoldRecord.t)
    : bool :=
  (LegalHoldRecord.scope h == LegalHoldScope.TENANT) ||
  ((LegalHoldRecord.scope h == LegalHoldScope.TRAVELER) &&
   bool_decide (LegalHoldRecord.traveler_id h = Some traveler_id)) ||
  ((LegalHoldRecord.scope h == LegalHoldScope.TRIP) &&
   match LegalHoldRecord.trip_id h with Some id => mem id trip_ids | None => false end).

Definition active_legal_holds_for_traveler (r : repo) (tenant_id traveler_id : string)
    (timestamp : instant) : res (list LegalHoldRecord.t) :=
  let trip_ids := List.map Trip.trip_id
    (List.filter (fun t => (Trip.tenant_id t == tenant_id) && (Trip.traveler_id t == traveler_id))
      (dict_values (Repo.trips r))) in
  holds ← list_legal_holds r tenant_id;
  filter_res (fun h =>
    active ← LegalHoldRecord.is_active h timestamp;
    Ok (active && hold_covers_traveler traveler_id trip_ids h)) holds.

Definition save_deletion_request (r : repo) (request : DeletionRequest.t) : repo :=
  r <| Repo.deletion_requests ::= dict_set (DeletionRequest.deletion_request_id request) request |>.

Definition get_deletion_request (r : repo) (tenant_id : string) (id : uuid) : option DeletionRequest.t :=
  of_tenant DeletionRequest.tenant_id tenant_id (dict_get id (Repo.deletion_requests r)).

Definition sort_requests : list DeletionRequest.t -> res (list DeletionRequest.t) :=
  dt_sorted DeletionRequest.submitted_at (fun q => uuid_str (DeletionRequest.deletion_request_id q)).

Definition list_deletion_requests (r : repo) (tenant_id : string) (traveler_id : option string)
    : res (list DeletionRequest.t) :=
  sort_requests (List.filter (fun q => (DeletionRequest.tenant_id q == tenant_id) &&
      match traveler_id with None => true | Some t => DeletionRequest.traveler_id q == t end)
    (dict_values (Repo.deletion_requests r))).

Definition list_pending_deletion_requests (r : repo) : res (list DeletionRequest.t) :=
  sort_requests (List.filter (fun q => mem (DeletionRequest.status q)
      [DeletionRequestStatus.PENDING; DeletionRequestStatus.BLOCKED_BY_LEGAL_HOLD])
    (dict_values (Repo.deletion_requests r))).

(** ** Erasure *)

(** [self.x = {k: v for k, v in self.x.items() if p(v)}] *)
Definition keep_values {K V} (p : V -> bool) (d : dict K V) : dict K V := dict_filter (fun _ v => p v) d.
Definition keep_keys {K V} (p : K -> bool) (d : dict K V) : dict K V := dict_filter (fun k _ => p k) d.
(** [sum(1 for k in d if p(k))] *)
Definition count_keys {K V} (p : K -> bool) (d : dict K V) : Z := len (keep_keys p d).
Definition count_values {K V} (p : V -> bool) (d : dict K V) : Z := len (keep_values p d).

Definition traveler_trip_ids (d : dict uuid Trip.t) (tenant_id traveler_id : string) : list uuid :=
  dict_keys (keep_values (fun t => (Trip.tenant_id t == tenant_id) && (Trip.traveler_id t == traveler_id)) d).
Definition traveler_incident_ids (d : dict uuid Incident.t) (tenant_id : string) (trip_ids : list uuid)
    : list uuid :=
  dict_keys (keep_values (fun i => (Incident.tenant_id i == tenant_id) && mem (Incident.trip_id i) trip_ids) d).

Definition erase_traveler_data (r : repo) (tenant_id traveler_id : string)
    (scope : DeletionRequestScope.t) : dict string Z * repo :=
  let '(counts, r) := delete_traveler_memory r tenant_id traveler_id in
  if scope == DeletionRequestScope.PREFERENCE_MEMORY then (counts, r) else
  let trip_ids := traveler_trip_ids (Repo.trips r) tenant_id traveler_id in
  let incident_ids := traveler_incident_ids (Repo.incidents r) tenant_id trip_ids in
  let counts := counts ++
    [("trips", len trip_ids);
     ("evidence", count_keys (fun id => mem id trip_ids) (Repo.evidence r));
     ("assessments", count_keys (fun id => mem id trip_ids) (Repo.assessments r));
     ("incidents", len incident_ids)] in
  let notifications := keep_values
    (fun n => negb ((NotificationRecord.tenant_id n == tenant_id) &&
                    (NotificationRecord.traveler_id n == traveler_id))) (Repo.notifications r) in
  let action_dispatches := keep_values
    (fun a => negb (mem (ActionDispatchRecord.incident_id a) incident_ids)) (Repo.action_dispatches r) in
  (counts,
   r <| Repo.trips ::= pop_all trip_ids |>
     <| Repo.trip_segments ::= pop_all trip_ids |>
     <| Repo.evidence ::= pop_all trip_ids |>
     <| Repo.assessments ::= pop_all trip_ids |>
     <| Repo.incidents ::= pop_all incident_ids |>
     <| Repo.approvals ::= pop_all incident_ids |>
     <| Repo.candidate_sets ::=
          keep_values (fun item => negb (mem (RecoveryCandidateSet.incident_id item.2) incident_ids)) |>
     <| Repo.candidate_outcomes ::=
          keep_values (fun item => negb (mem (RecoveryCandidateOutcome.incident_id item.2) incident_ids)) |>
     <| Repo.manager_feedback ::=
          keep_values (fun f => negb (mem (ManagerFeedback.incident_id f) incident_ids)) |>
     <| Repo.notifications := notifications |>
     <| Repo.notification_attempts ::= keep_keys (fun id => dict_mem id notifications) |>
     <| Repo.action_dispatches := action_dispatches |>
     <| Repo.action_dispatch_attempts ::= keep_keys (fun id => dict_mem id action_dispatches) |>).

(** ** Retention *)

Definition hold_covers_trip (h : LegalHoldRecord.t) (trip_id : uuid) (trip : Trip.t) : bool :=
  (LegalHoldRecord.tenant_id h == Trip.tenant_id trip) &&
  ((LegalHoldRecord.scope h == LegalHoldScope.TENANT) ||
   ((LegalHoldRecord.scope h == LegalHoldScope.TRAVELER) &&
    bool_decide (LegalHoldRecord.traveler_id h = Some (Trip.traveler_id trip))) ||
   ((LegalHoldRecord.scope h == LegalHoldScope.TRIP) &&
    bool_decide (LegalHoldRecord.trip_id h = Some trip_id))).

(** [(tenant, traveler) in held_travelers] and [tenant in held_tenants] *)
Definition held_traveler (holds : list LegalHoldRecord.t) (key : string * string) : bool :=
  existsb (fun h => (LegalHoldRecord.scope h == LegalHoldScope.TRAVELER) &&
                    truthy_opt_str (LegalHoldRecord.traveler_id h) &&
                    (LegalHoldRecord.tenant_id h == key.1) &&
                    bool_decide (LegalHoldRecord.traveler_id h = Some key.2)) holds.
Definition held_tenant (holds : list LegalHoldRecord.t) (tenant_id : string) : bool :=
  existsb (fun h => (LegalHoldRecord.scope h == LegalHoldScope.TENANT) &&
                    (LegalHoldRecord.tenant_id h == tenant_id)) holds.

(** [sum(1 for x in d.values() if p(x))] when [p] may raise *)
Definition count_res {A} (p : A -> res bool) (l : list A) : res Z :=
  kept ← filter_res p l; Ok (len kept).

Definition profile_key (p : TravelerPreferenceProfile.t) : string * string :=
  (TravelerPreferenceProfile.tenant_id p, TravelerPreferenceProfile.traveler_id p).
Definition proposal_key (p : MemoryUpdateProposal.t) : string * string :=
  (MemoryUpdateProposal.tenant_id p, MemoryUpdateProposal.traveler_id p).

(** [proposal.created_at < before and not held] *)
Definition proposal_expired (holds : list LegalHoldRecord.t) (before : instant)
    (p : MemoryUpdateProposal.t) : res bool :=
  old ← dt_lt (MemoryUpdateProposal.created_at p) (utc before);
  Ok (old && negb (held_traveler holds (proposal_key p)) &&
      negb (held_tenant holds (MemoryUpdateProposal.tenant_id p))).

(** [trip_id in expired_trip_ids], [incident_id in expired_incident_ids] *)
Definition expired_trip_ids (r : repo) (holds : list LegalHoldRecord.t) (before : instant) : list uuid :=
  dict_keys (dict_filter (fun id t => (Trip.created_at t <? before) &&
                                      negb (existsb (fun h => hold_covers_trip h id t) holds))
               (Repo.trips r)).
Definition expired_incident_ids (r : repo) (trip_ids : list uuid) : list uuid :=
  dict_keys (keep_values (fun i => mem (Incident.trip_id i) trip_ids) (Repo.incidents r)).

Definition profile_kept (holds : list LegalHoldRecord.t) (before : instant)
    (key : string * string) (p : TravelerPreferenceProfile.t) : bool :=
  (before <=? TravelerPreferenceProfile.updated_at p) || held_traveler holds key ||
  held_tenant holds (TravelerPreferenceProfile.tenant_id p).

(** [created_at >= before or held]; [count] has already compared every proposal *)
Definition proposal_kept (holds : list LegalHoldRecord.t) (before : instant)
    (p : MemoryUpdateProposal.t) : bool :=
  (before <=? dt_instant (MemoryUpdateProposal.created_at p)) || held_traveler holds (proposal_key p) ||
  held_tenant holds (MemoryUpdateProposal.tenant_id p).

(** the deletions, once the counts are computed *)
Definition purge (r : repo) (holds : list LegalHoldRecord.t)
    (before original_upload_cutoff audit_cutoff : instant) : repo :=
  let trip_ids := expired_trip_ids r holds before in
  let incident_ids := expired_incident_ids r trip_ids in
  let action_dispatches := keep_values
    (fun a => negb (mem (ActionDispatchRecord.incident_id a) incident_ids)) (Repo.action_dispatches r) in
  let expired_notification_ids := dict_keys
    (keep_values (fun n => NotificationRecord.created_at n <? before) (Repo.notifications r)) in
  r <| Repo.trips ::= pop_all trip_ids |>
    <| Repo.evidence ::= pop_all trip_ids |>
    <| Repo.assessments ::= pop_all trip_ids |>
    <| Repo.incidents ::= pop_all incident_ids |>
    <| Repo.approvals ::= pop_all incident_ids |>
    <| Repo.candidate_sets ::=
         keep_values (fun item => negb (mem (RecoveryCandidateSet.incident_id item.2) incident_ids)) |>
    <| Repo.candidate_outcomes ::=
         keep_values (fun item => negb (mem (RecoveryCandidateOutcome.incident_id item.2) incident_ids)) |>
    <| Repo.manager_feedback ::=
         keep_values (fun f => negb (mem (ManagerFeedback.incident_id f) incident_ids)) |>
    <| Repo.profiles ::= dict_filter (profile_kept holds before) |>
    <| Repo.memory_proposals ::= keep_values (proposal_kept holds before) |>
    <| Repo.notifications ::= keep_keys (fun id => negb (mem id expired_notification_ids)) |>
    <| Repo.notification_attempts ::= keep_keys (fun id => negb (mem id expired_notification_ids)) |>
    <| Repo.original_uploads ::=
         keep_values (fun u => (original_upload_cutoff <=? OriginalUploadRecord.created_at u) ||
                               held_tenant holds (OriginalUploadRecord.tenant_id u)) |>
    <| Repo.action_dispatches := action_dispatches |>
    <| Repo.action_dispatch_attempts ::= keep_keys (fun id => dict_mem id action_dispatches) |>
    <| Repo.events ::= List.filter (fun e => audit_cutoff <=? EventRecord.emitted_at e) |>
    <| Repo.memory_audits ::= List.filter (fun e => audit_cutoff <=? MemoryAuditEvent.occurred_at e) |>
    <| Repo.idempotency_records ::= keep_values (fun i => before <=? IdempotencyRecord.expires_at i) |>.

Definition purge_counts (r : repo) (holds : list LegalHoldRecord.t)
    (before original_upload_cutoff audit_cutoff : instant) : res (dict string Z) :=
  let trip_ids := expired_trip_ids r holds before in
  let incident_ids := expired_incident_ids r trip_ids in
  proposals ← count_res (proposal_expired holds before) (dict_values (Repo.memory_proposals r));
  Ok [("trips", len trip_ids);
      ("evidence", count_keys (fun id => mem id trip_ids) (Repo.evidence r));
      ("assessments", count_keys (fun id => mem id trip_ids) (Repo.assessments r));
      ("incidents", len incident_ids);
      ("profiles", count_values (fun p => (TravelerPreferenceProfile.updated_at p <? before) &&
           negb (held_traveler holds (profile_key p)) &&
           negb (held_tenant holds (TravelerPreferenceProfile.tenant_id p))) (Repo.profiles r));
      ("memory_proposals", proposals);
      ("notifications", count_values (fun n => NotificationRecord.created_at n <? before)
           (Repo.notifications r));
      ("original_uploads", count_values (fun u =>
           (OriginalUploadRecord.created_at u <? original_upload_cutoff) &&
           negb (held_tenant holds (OriginalUploadRecord.tenant_id u))) (Repo.original_uploads r));
      ("audit_events", len (List.filter (fun e => EventRecord.emitted_at e <? audit_cutoff)
           (Repo.events r)));
      ("memory_audits", len (List.filter (fun e => MemoryAuditEvent.occurred_at e <? audit_cutoff)
           (Repo.memory_audits r)))].

Definition purge_expired (r : repo) (before : instant)
    (original_upload_before audit_before : option instant) (now : instant)
    : res (dict string Z * repo) :=
  let original_upload_cutoff := default before original_upload_before in
  let audit_cutoff := default before audit_before in
  active_holds ← filter_res (fun h => LegalHoldRecord.is_active h now) (dict_values (Repo.legal_holds r));
  counts ← purge_counts r active_holds before original_upload_cutoff audit_cutoff;
  Ok (counts, purge r active_holds before original_upload_cutoff audit_cutoff).

(** ** Lemmas on the dictionary operations of the store *)

Lemma dict_get_pop_all {K V} `{EqDecision K} (ids : list K) (d : dict K V) k :
  dict_get k (pop_all ids d) = if mem k ids then None else dict_get k d.
Proof.
  unfold pop_all. revert d. induction ids as [|id ids IH]; intros d; simpl; [done|].
  rewrite IH, dict_get_pop. destruct (mem k ids); [by rewrite orb_true_r|].
  rewrite orb_false_r. done.
Qed.

Lemma dict_wf_pop_all {K V} `{EqDecision K} (ids : list K) (d : dict K V) :
  dict_wf d -> dict_wf (pop_all ids d).
Proof. unfold pop_all. revert d. induction ids as [|id ids IH]; intros d Hd; simpl; auto with rs. Qed.

Lemma dict_mem_get {K V} `{EqDecision K} (k : K) (d : dict K V) :
  dict_mem k d = true <-> exists v, dict_get k d = Some v.
Proof. unfold dict_mem. destruct (dict_get k d); naive_solver. Qed.

Lemma in_dict_keys {K V} `{EqDecision K} (k : K) (d : dict K V) :
  In k (dict_keys d) <-> exists v, dict_get k d = Some v.
Proof.
  unfold dict_keys. destruct (dict_get k d) as [v|] eqn:E.
  - split; [by exists v|]. intros _. apply dict_get_in in E.
    change (d.*1) with (List.map fst d). apply in_map_iff. by exists (k, v).
  - apply dict_get_none in E. split; [done|]. by intros [v ?].
Qed.

Lemma in_filter_keys {K V} `{EqDecision K} (p : K -> V -> bool) (d : dict K V) k :
  dict_wf d ->
  In k (dict_keys (dict_filter p d)) <-> exists v, dict_get k d = Some v /\ p k v = true.
Proof.
  intros Hd. rewrite in_dict_keys, dict_get_filter by done.
  destruct (dict_get k d) as [v|]; [|split; intros (? & ?); naive_solver].
  destruct (p k v) eqn:E; split.
  - intros _. by exists v.
  - intros _. by exists v.
  - by intros [? ?].
  - intros (v' & Hv & Hp). simplify_eq. congruence.
Qed.

Lemma mem_filter_keys {K V} `{EqDecision K} (p : K -> V -> bool) (d : dict K V) k v :
  dict_wf d -> dict_get k d = Some v -> mem k (dict_keys (dict_filter p d)) = p k v.
Proof.
  intros Hd Hk. apply eq_true_iff_eq. rewrite mem_true_iff, in_filter_keys by done. naive_solver.
Qed.

Lemma mem_filter_keys_none {K V} `{EqDecision K} (p : K -> V -> bool) (d : dict K V) k :
  dict_wf d -> dict_get k d = None -> mem k (dict_keys (dict_filter p d)) = false.
Proof. intros Hd Hk. apply mem_false_iff. rewrite in_filter_keys by done. naive_solver. Qed.

Lemma filter_res_ok {A} (p : A -> res bool) l l' :
  filter_res p l = Ok l' -> forall x, In x l' <-> In x l /\ p x = Ok true.
Proof.
  revert l'. induction l as [|y l IH]; intros l' E x; simpl in E.
  - apply Ok_inj in E as <-. naive_solver.
  - apply res_bind_ok in E as (keep & Hk & E). apply res_bind_ok in E as (rest & Hr & E).
    apply Ok_inj in E as <-. specialize (IH rest Hr x). destruct keep; simpl; naive_solver congruence.
Qed.

Lemma filter_res_total {A} (p : A -> res bool) l :
  (forall x, In x l -> is_ok (p x) = true) -> exists l', filter_res p l = Ok l'.
Proof.
  induction l as [|y l IH]; intros H; simpl; [by eexists|].
  destruct (is_ok_inv (p y) (H y (or_introl eq_refl))) as [b ->].
  destruct IH as [l' ->]; [naive_solver|]. by eexists.
Qed.

Lemma dict_get_keep_values {K V} `{EqDecision K} (p : V -> bool) (d : dict K V) k :
  dict_wf d -> dict_get k (keep_values p d) =
    match dict_get k d with Some v => if p v then Some v else None | None => None end.
Proof. apply dict_get_filter. Qed.

Lemma dict_filter_filter {K V} (p q : K -> V -> bool) (d : dict K V) :
  (forall k v, In (k, v) d -> p k v = true -> q k v = true) ->
  dict_filter p d = dict_filter p (dict_filter q d).
Proof.
  unfold dict_filter. induction d as [|[k v] d IH]; intros H; simpl; [done|].
  destruct (p k v) eqn:P.
  - rewrite (H k v (or_introl eq_refl) P). simpl. rewrite P. f_equal. apply IH. naive_solver.
  - destruct (q k v); simpl; [rewrite P|]; apply IH; naive_solver.
Qed.

(** the representation invariant of the store: every key occurs once *)
Record repo_wf (r : repo) : Prop := {
  wf_trips : dict_wf (Repo.trips r);
  wf_incidents : dict_wf (Repo.incidents r);
  wf_profiles : dict_wf (Repo.profiles r);
  wf_memory_proposals : dict_wf (Repo.memory_proposals r);
  wf_notifications : dict_wf (Repo.notifications r);
  wf_action_dispatches : dict_wf (Repo.action_dispatches r);
  wf_candidate_sets : dict_wf (Repo.candidate_sets r);
  wf_candidate_outcomes : dict_wf (Repo.candidate_outcomes r);
  wf_legal_holds : dict_wf (Repo.legal_holds r)
}.

Lemma repo_wf_init : repo_wf Repo.init.
Proof. constructor; apply dict_wf_nil. Qed.

Lemma trips_in_values (r : repo) t :
  In t (dict_values (Repo.trips r)) <-> exists id, In (id, t) (Repo.trips r).
Proof. apply dict_in_values. Qed.

(** ** Leases *)

Section LeaseLemmas.
Context {R : Type} `{Leasable R}.
Implicit Types (d : dict uuid R) (x : R).

Lemma claim_due_keys tenant worker ttl now limit fresh d : forall n c d',
  claim_due tenant worker ttl now limit fresh n d = (c, d') -> d'.*1 = d.*1.
Proof.
  induction d as [|[id x] d IH]; intros n c d' E; simpl in E; [by simplify_eq|].
  destruct (limit <=? Z.of_nat n); [by simplify_eq|].
  destruct (claimable tenant now x), (claim_due _ _ _ _ _ _ _ d) as [c1 d1] eqn:E1;
    simplify_eq; simpl; f_equal; by eapply IH.
Qed.

Lemma claim_due_wf tenant worker ttl now limit fresh d n c d' :
  claim_due tenant worker ttl now limit fresh n d = (c, d') -> dict_wf d -> dict_wf d'.
Proof. intros E. unfold dict_wf. by rewrite (claim_due_keys _ _ _ _ _ _ _ _ _ _ E). Qed.

(** the record of a key after a claim: leased if it was claimed, else as it was *)
Lemma claim_due_get tenant worker ttl now limit fresh d : forall n c d' id x',
  claim_due tenant worker ttl now limit fresh n d = (c, d') -> dict_get id d' = Some x' ->
  exists x, dict_get id d = Some x /\
    (x' = x \/ claimable tenant now x = true /\ In x' c /\
       exists i, x' = set_lease (fresh i) worker now (now + ttl) x).
Proof.
  induction d as [|[id0 x0] d IH]; intros n c d' id x' E Hget; simpl in E; [by simplify_eq|].
  destruct (limit <=? Z.of_nat n); [simplify_eq; naive_solver|].
  destruct (claimable tenant now x0) eqn:Hc,
    (claim_due _ _ _ _ _ _ _ d) as [c1 d1] eqn:E1; simplify_eq; simpl in *;
    case_bool_decide; simplify_eq.
  - exists x0. split; [done|]. right. split; [done|]. split; [by left|]. by exists n.
  - destruct (IH _ _ _ _ _ E1 Hget) as (x & Hx & [->|(? & ? & ?)]); exists x; naive_solver.
  - naive_solver.
  - by apply (IH _ _ _ _ _ E1).
Qed.

Lemma claim_due_untouched tenant worker ttl now limit fresh d : forall n c d' id x,
  claim_due tenant worker ttl now limit fresh n d = (c, d') -> dict_get id d = Some x ->
  claimable tenant now x = false -> dict_get id d' = Some x.
Proof.
  induction d as [|[id0 x0] d IH]; intros n c d' id x E Hget Hc; simpl in E; [by simplify_eq|].
  destruct (limit <=? Z.of_nat n); [by simplify_eq|]. simpl in Hget.
  destruct (claimable tenant now x0) eqn:Hc0,
    (claim_due _ _ _ _ _ _ _ d) as [c1 d1] eqn:E1; simplify_eq; simpl;
    case_bool_decide; simplify_eq; try congruence; by eapply IH.
Qed.

Lemma claim_due_length tenant worker ttl now limit fresh d : forall n c d',
  claim_due tenant worker ttl now limit fresh n d = (c, d') ->
  Z.of_nat n + len c <= Z.max limit (Z.of_nat n).
Proof.
  unfold len. induction d as [|[id0 x0] d IH]; intros n c d' E; simpl in E; [simplify_eq; simpl; lia|].
  destruct (Z.leb_spec limit (Z.of_nat n)); [simplify_eq; simpl; lia|].
  destruct (claimable tenant now x0), (claim_due _ _ _ _ _ _ _ d) as [c1 d1] eqn:E1; simplify_eq;
    specialize (IH _ _ _ E1); simpl; lia.
Qed.

Lemma claim_due_member tenant worker ttl now limit fresh d : forall n c d' x',
  claim_due tenant worker ttl now limit fresh n d = (c, d') -> dict_wf d -> In x' c ->
  exists id x i, dict_get id d = Some x /\ claimable tenant now x = true /\
    x' = set_lease (fresh i) worker now (now + ttl) x /\ dict_get id d' = Some x'.
Proof.
  unfold dict_wf. induction d as [|[id0 x0] d IH]; intros n c d' x' E Hwf Hin; simpl in E; [by simplify_eq|].
  destruct (limit <=? Z.of_nat n); [by simplify_eq|].
  apply NoDup_cons in Hwf as [Hn Hwf].
  assert (Hother : forall c1 d1 m, claim_due tenant worker ttl now limit fresh m d = (c1, d1) -> In x' c1 ->
     exists id x i, id <> id0 /\ dict_get id d = Some x /\ claimable tenant now x = true /\
       x' = set_lease (fresh i) worker now (now + ttl) x /\ dict_get id d1 = Some x').
  { intros c1 d1 m E1 Hin1. destruct (IH _ _ _ _ E1 Hwf Hin1) as (id & x & i & Hx & ? & ? & ?).
    exists id, x, i. split_and!; try done. intros ->. apply Hn.
    apply list_elem_of_In. apply dict_get_in in Hx.
    change (d.*1) with (List.map fst d). apply in_map_iff. by exists (id0, x). }
  destruct (claimable tenant now x0) eqn:Hc,
    (claim_due _ _ _ _ _ _ _ d) as [c1 d1] eqn:E1; simplify_eq.
  - destruct Hin as [<-|Hin].
    + exists id0, x0, n. simpl. rewrite !bool_decide_true by done. done.
    + destruct (Hother _ _ _ E1 Hin) as (id & x & i & Hne & ? & ? & ? & ?).
      exists id, x, i. simpl. rewrite !bool_decide_false by done. done.
  - destruct (Hother _ _ _ E1 Hin) as (id & x & i & Hne & ? & ? & ? & ?).
    exists id, x, i. simpl. rewrite !bool_decide_false by done. done.
Qed.

Lemma leased_not_claimable tenant id w t e now x :
  now < e -> claimable tenant now (set_lease id w t e x) = false.
Proof.
  intros He. unfold claimable. rewrite lease_expires_set.
  rewrite (proj2 (Z.ltb_lt now e) He). by rewrite !andb_false_r.
Qed.

End LeaseLemmas.

(** ** Lemmas on idempotency records *)

(** one request against the idempotency table *)
Inductive idempotency_op : Type :=
  | Claim (tenant_id key scope request_hash : string) (expires_at now : instant)
  | Complete (tenant_id key request_hash : string) (status_code : Z) (payload : json) (now : instant).

Definition op_now (op : idempotency_op) : instant :=
  match op with Claim _ _ _ _ _ now => now | Complete _ _ _ _ _ now => now end.

(** what the requester observes *)
Definition run_op (r : repo) (op : idempotency_op) : res string * repo :=
  match op with
  | Claim t k s h e now =>
      let '(out, r') := claim_idempotency r t k s h e now in (fst <$> out, r')
  | Complete t k h c p now =>
      match complete_idempotency r t k h c p now with
      | Ok (_, r') => (Ok "completed", r')
      | Raise e => (Raise e, r)
      end
  end.

Fixpoint run_ops (r : repo) (ops : list idempotency_op) : list (res string) * repo :=
  match ops with
  | [] => ([], r)
  | op :: ops' =>
      let '(out, r1) := run_op r op in
      let '(outs, r2) := run_ops r1 ops' in
      (out :: outs, r2)
  end.

(** the request was told to execute under the key *)
Definition executes (key : string * string) (op : idempotency_op) (out : res string) : bool :=
  match op, out with
  | Claim t k _ _ _ _, Ok "execute" => bool_decide ((t, k) = key)
  | _, _ => false
  end.

(** the record of [key] is live until [e] *)
Definition live_until (r : repo) (key : string * string) (e : instant) : Prop :=
  exists rec, dict_get key (Repo.idempotency_records r) = Some rec /\ IdempotencyRecord.expires_at rec = e.

Lemma claim_execute r t k s h e now rec r' :
  claim_idempotency r t k s h e now = (Ok ("execute", rec), r') ->
  IdempotencyRecord.expires_at rec = e /\ IdempotencyRecord.scope rec = s /\
  IdempotencyRecord.request_hash rec = h /\ IdempotencyRecord.state rec = IdempotencyState.IN_PROGRESS /\
  dict_get (t, k) (Repo.idempotency_records r') = Some rec.
Proof.
  unfold claim_idempotency. set (found := dict_get _ _).
  destruct (match found with Some _ => _ | None => false end).
  - destruct (construct _ _ _) eqn:Hc; [|done]. apply construct_ok in Hc as [-> _].
    intros [= <- <-]. simpl. by rewrite dict_get_set_eq.
  - destruct found as [x|].
    + destruct (_ || _); [done|]. by destruct (_ == _).
    + destruct (construct _ _ _) eqn:Hc; [|done]. apply construct_ok in Hc as [-> _].
      intros [= <- <-]. simpl. by rewrite dict_get_set_eq.
Qed.

(** a live record makes every claim of its key a replay, conflict or in-progress *)
Lemma claim_live r t k s h e now rec :
  dict_get (t, k) (Repo.idempotency_records r) = Some rec -> now < IdempotencyRecord.expires_at rec ->
  claim_idempotency r t k s h e now =
    (Ok (if (IdempotencyRecord.scope rec != s) || (IdempotencyRecord.request_hash rec != h) then "conflict"
         else if IdempotencyRecord.state rec == IdempotencyState.COMPLETED then "replay"
         else "in_progress", rec), r).
Proof.
  intros Hr Hn. unfold claim_idempotency. rewrite Hr.
  rewrite (proj2 (Z.leb_gt _ _) Hn). destruct (_ || _); [done|]. by destruct (_ == _).
Qed.

Lemma run_op_other r op key e :
  live_until r key e -> op_now op < e ->
  live_until (run_op r op).2 key e /\ executes key op (run_op r op).1 = false.
Proof.
  intros (rec & Hrec & He) Hnow. destruct op as [t k s h ex now|t k h c p now]; cbn [run_op op_now] in *.
  - destruct (decide ((t, k) = key)) as [<-|Hne].
    + rewrite (claim_live _ _ _ _ _ _ _ _ Hrec) by lia. simpl. split; [by exists rec|].
      destruct (_ || _); [done|]. by destruct (_ == _).
    + split.
      2: { destruct (let '(_, _) := _ in _).1; [|done]. unfold executes.
           rewrite bool_decide_false by done. repeat (case_match; try done). }
      unfold claim_idempotency. set (found := dict_get (t, k) _).
      assert (Hpop : dict_get key (dict_pop (t, k) (Repo.idempotency_records r)) = Some rec).
      { rewrite dict_get_pop, bool_decide_false by congruence. done. }
      destruct (match found with Some _ => _ | None => false end);
        [destruct (construct _ _ _)|destruct found as [x|]; [|destruct (construct _ _ _)]];
        cbn [fst snd]; try (destruct (_ || _); [|destruct (_ == _)]); simpl;
        exists rec; simpl; rewrite ?dict_get_set_ne by congruence; done.
  - unfold complete_idempotency. destruct (dict_get (t, k) _) as [x|] eqn:Hx; [|split; [by exists rec|done]].
    destruct (negb _); [split; [by exists rec|done]|]. simpl. split; [|done].
    unfold live_until. simpl. rewrite dict_get_set. case_bool_decide as E; [|by exists rec].
    eexists. split; [reflexivity|]. simpl. rewrite E in Hrec. by simplify_eq.
Qed.

Lemma run_ops_live r ops key e outs r' :
  live_until r key e -> Forall (fun op => op_now op < e) ops -> run_ops r ops = (outs, r') ->
  live_until r' key e /\ Forall2 (fun op out => executes key op out = false) ops outs.
Proof.
  revert r outs. induction ops as [|op ops IH]; intros r outs Hl Hops E; simpl in E.
  - simplify_eq. split; [done|constructor].
  - apply Forall_cons in Hops as [Hop Hops].
    pose proof (run_op_other r op key e Hl Hop) as [Hl1 Hx].
    destruct (run_op r op) as [out r1]. destruct (run_ops r1 ops) as [outs1 r2] eqn:E1. simplify_eq.
    destruct (IH _ _ Hl1 Hops E1) as [? ?]. split; [done|]. by constructor.
Qed.

(** ** Lemmas on erasure *)

Lemma dict_filter_all {K V} (p : K -> V -> bool) (d : dict K V) :
  (forall k v, In (k, v) d -> p k v = true) -> dict_filter p d = d.
Proof.
  unfold dict_filter. induction d as [|[k v] d IH]; intros H; simpl; [done|].
  rewrite (H k v) by by left. f_equal. apply IH. intros k' v' Hin. apply H. by right.
Qed.

Lemma dict_filter_twice {K V} (p : K -> V -> bool) (d : dict K V) :
  dict_filter p (dict_filter p d) = dict_filter p d.
Proof. apply dict_filter_all. intros k v Hin. apply filter_In in Hin. naive_solver. Qed.

Lemma dict_filter_none {K V} (p : K -> V -> bool) (d : dict K V) :
  (forall k v, In (k, v) d -> p k v = false) -> dict_filter p d = [].
Proof.
  unfold dict_filter. induction d as [|[k v] d IH]; intros H; simpl; [done|].
  rewrite (H k v) by by left. apply IH. intros k' v' Hin. apply H. by right.
Qed.

Lemma dict_pop_twice {K V} `{EqDecision K} (k : K) (d : dict K V) :
  dict_pop k (dict_pop k d) = dict_pop k d.
Proof. exact (dict_filter_twice (fun (k' : K) (_ : V) => k != k') d). Qed.

Lemma in_pop_all {K V} `{EqDecision K} (ids : list K) (d : dict K V) k v :
  In (k, v) (pop_all ids d) <-> In (k, v) d /\ mem k ids = false.
Proof.
  unfold pop_all. revert d. induction ids as [|id ids IH]; intros d; simpl; [naive_solver|].
  rewrite IH. unfold dict_pop. rewrite filter_In, orb_false_iff. simpl.
  rewrite negb_true_iff, !bool_decide_eq_false. naive_solver.
Qed.

(** Popping the keys of the entries that satisfy [p] leaves none that does. *)
Lemma filter_pop_all {K V} `{EqDecision K} (p : K -> V -> bool) (d : dict K V) :
  dict_filter p (pop_all (dict_keys (dict_filter p d)) d) = [].
Proof.
  apply dict_filter_none. intros k v Hin. apply in_pop_all in Hin as [Hin Hm].
  apply mem_false_iff in Hm. destruct (p k v) eqn:P; [|done]. exfalso. apply Hm.
  unfold dict_keys. change ((dict_filter p d).*1) with (List.map fst (dict_filter p d)).
  apply in_map_iff. exists (k, v). split; [done|]. by apply filter_In.
Qed.

Lemma traveler_trip_ids_erased d tenant traveler :
  traveler_trip_ids (pop_all (traveler_trip_ids d tenant traveler) d) tenant traveler = [].
Proof. unfold traveler_trip_ids, keep_values. by rewrite filter_pop_all. Qed.

Lemma traveler_proposal_ids_erased d tenant traveler :
  traveler_proposal_ids (pop_all (traveler_proposal_ids d tenant traveler) d) tenant traveler = [].
Proof. unfold traveler_proposal_ids. by rewrite filter_pop_all. Qed.

Lemma traveler_incident_ids_nil d tenant : traveler_incident_ids d tenant [] = [].
Proof.
  unfold traveler_incident_ids, keep_values. rewrite dict_filter_none; [done|].
  intros k v _. simpl. apply andb_false_r.
Qed.

Lemma keep_true {K V} (d : dict K V) : keep_values (fun _ => true) d = d.
Proof. by apply dict_filter_all. Qed.

Lemma keep_values_twice {K V} (p : V -> bool) (d : dict K V) :
  keep_values p (keep_values p d) = keep_values p d.
Proof. apply dict_filter_twice. Qed.

Lemma keep_keys_twice {K V} (p : K -> bool) (d : dict K V) :
  keep_keys p (keep_keys p d) = keep_keys p d.
Proof. apply dict_filter_twice. Qed.

Lemma repo_ext (a b : repo) :
  Repo.trips a = Repo.trips b ->
  Repo.trip_segments a = Repo.trip_segments b ->
  Repo.evidence a = Repo.evidence b ->
  Repo.assessments a = Repo.assessments b ->
  Repo.incidents a = Repo.incidents b ->
  Repo.approvals a = Repo.approvals b ->
  Repo.events a = Repo.events b ->
  Repo.profiles a = Repo.profiles b ->
  Repo.memory_proposals a = Repo.memory_proposals b ->
  Repo.idempotency_records a = Repo.idempotency_records b ->
  Repo.candidate_sets a = Repo.candidate_sets b ->
  Repo.candidate_outcomes a = Repo.candidate_outcomes b ->
  Repo.manager_feedback a = Repo.manager_feedback b ->
  Repo.tenant_playbooks a = Repo.tenant_playbooks b ->
  Repo.notifications a = Repo.notifications b ->
  Repo.notification_attempts a = Repo.notification_attempts b ->
  Repo.action_dispatches a = Repo.action_dispatches b ->
  Repo.action_dispatch_attempts a = Repo.action_dispatch_attempts b ->
  Repo.memory_audits a = Repo.memory_audits b ->
  Repo.change_records a = Repo.change_records b ->
  Repo.provider_onboarding_records a = Repo.provider_onboarding_records b ->
  Repo.legal_holds a = Repo.legal_holds b ->
  Repo.deletion_requests a = Repo.deletion_requests b ->
  Repo.runtime_control_overrides a = Repo.runtime_control_overrides b ->
  Repo.runtime_control_changes a = Repo.runtime_control_changes b ->
  Repo.platform_control_overrides a = Repo.platform_control_overrides b ->
  Repo.platform_control_changes a = Repo.platform_control_changes b ->
  Repo.original_uploads a = Repo.original_uploads b ->
  a = b.
Proof. destruct a, b. simpl. by intros; subst. Qed.

Lemma erase_twice r tenant traveler :
  let r' := (erase_traveler_data r tenant traveler DeletionRequestScope.TRAVELER_DATA).2 in
  (erase_traveler_data r' tenant traveler DeletionRequestScope.TRAVELER_DATA).2 = r'.
Proof.
  cbv zeta. unfold erase_traveler_data, delete_traveler_memory.
  apply repo_ext; simpl;
    rewrite ?traveler_trip_ids_erased, ?traveler_proposal_ids_erased, ?traveler_incident_ids_nil; simpl;
    rewrite ?dict_pop_twice, ?keep_true, ?keep_values_twice, ?keep_keys_twice; reflexivity.
Qed.

(** what it means for a legal hold to cover a trip *)
Definition covers (h : LegalHoldRecord.t) (trip_id : uuid) (trip : Trip.t) : Prop :=
  LegalHoldRecord.tenant_id h = Trip.tenant_id trip /\
  match LegalHoldRecord.scope h with
  | LegalHoldScope.TENANT => True
  | LegalHoldScope.TRAVELER => LegalHoldRecord.traveler_id h = Some (Trip.traveler_id trip)
  | LegalHoldScope.TRIP => LegalHoldRecord.trip_id h = Some trip_id
  end.

Lemma hold_covers_trip_iff h id trip : hold_covers_trip h id trip = true <-> covers h id trip.
Proof.
  unfold hold_covers_trip, covers. rewrite andb_true_iff, !orb_true_iff, !andb_true_iff, !bool_decide_eq_true.
  destruct (LegalHoldRecord.scope h); naive_solver.
Qed.

(** ** Properties *)

(** Execute once: when a claim of (tenant, key) is told to execute, then
    until its expiry no other claim of that key is, whatever claims and
    completions of this and other keys follow it; a later claim with another
    scope or fingerprint is a conflict, and one with the same scope and
    fingerprint is in progress until the request completes and then a replay of
    exactly the stored response. *)
Theorem idempotency_execute_once r t k s h e now rec r1 ops outs r2 :
  claim_idempotency r t k s h e now = (Ok ("execute", rec), r1) ->
  Forall (fun op => op_now op < e) ops -> run_ops r1 ops = (outs, r2) ->
  Forall2 (fun op out => executes (t, k) op out = false) ops outs /\
  (forall s' h' e' now', now' < e -> (s', h') <> (s, h) ->
     claim_idempotency r1 t k s' h' e' now' = (Ok ("conflict", rec), r1)) /\
  (forall e' now', now' < e ->
     claim_idempotency r1 t k s h e' now' = (Ok ("in_progress", rec), r1)) /\
  (forall code payload now1, exists rec' r3,
     complete_idempotency r1 t k h code payload now1 = Ok (rec', r3) /\
     IdempotencyRecord.response_status_code rec' = Some code /\
     IdempotencyRecord.response_payload rec' = Some payload /\
     forall e' now', now' < e -> claim_idempotency r3 t k s h e' now' = (Ok ("replay", rec'), r3)).
Proof.
  intros Hc Hops Hrun. apply claim_execute in Hc as (He & Hs & Hh & Hst & Hget). subst e s h.
  split_and!.
  - apply (run_ops_live r1 ops (t, k) (IdempotencyRecord.expires_at rec) outs r2); [by exists rec|done|done].
  - intros s' h' e' now' Hn Hne. rewrite (claim_live _ _ _ _ _ _ _ _ Hget Hn).
    destruct (_ || _) eqn:E; [done|]. bool_hyps. congruence.
  - intros e' now' Hn. rewrite (claim_live _ _ _ _ _ _ _ _ Hget Hn), Hst.
    repeat (case_bool_decide; simpl; try done).
  - intros code payload now1. unfold complete_idempotency. rewrite Hget.
    rewrite (bool_decide_true (_ = IdempotencyRecord.request_hash rec)) by done. simpl.
    do 2 eexists. split; [reflexivity|]. split; [done|]. split; [done|]. intros e' now' Hn.
    erewrite claim_live; [|simpl; apply dict_get_set_eq|done]. simpl.
    repeat (case_bool_decide; simpl; try done).
Qed.

(** Outbox leases are exclusive: a claim takes at most [limit] records,
    each due and unleased; until the lease expires no other claim, by any worker
    for any tenant, takes or changes such a record, so its holder can still
    complete it. *)
Theorem lease_exclusive {R} `{Leasable R} (d d1 d2 : dict uuid R) c1 c2
    tenant1 worker1 ttl1 t1 limit1 fresh1 tenant2 worker2 ttl2 t2 limit2 fresh2 :
  dict_wf d -> 0 <= limit1 ->
  claim_due tenant1 worker1 ttl1 t1 limit1 fresh1 0 d = (c1, d1) ->
  claim_due tenant2 worker2 ttl2 t2 limit2 fresh2 0 d1 = (c2, d2) ->
  t2 < t1 + ttl1 ->
  len c1 <= limit1 /\
  forall x, In x c1 -> exists id x0 i,
    dict_get id d = Some x0 /\ claimable tenant1 t1 x0 = true /\
    dict_get id d2 = Some x /\ lease_held id (fresh1 i) d2 = true /\
    lease_claim_id x = Some (fresh1 i).
Proof.
  intros Hwf Hl E1 E2 Ht. pose proof (claim_due_length _ _ _ _ _ _ _ _ _ _ E1) as Hlen.
  split; [lia|]. intros x Hx.
  destruct (claim_due_member _ _ _ _ _ _ _ _ _ _ _ E1 Hwf Hx) as (id & x0 & i & H0 & Hcl & -> & H1).
  exists id, x0, i. assert (H2 : dict_get id d2 = Some (set_lease (fresh1 i) worker1 t1 (t1 + ttl1) x0)).
  { apply (claim_due_untouched _ _ _ _ _ _ _ _ _ _ _ _ E2 H1). by apply leased_not_claimable. }
  split_and!; try done.
  - unfold lease_held. rewrite H2, lease_claim_id_set. by apply bool_decide_true.
  - apply lease_claim_id_set.
Qed.

(** A leased delivery commits at most once: completion succeeds exactly for
    the holder of the current lease, it then records the new state and exactly
    one attempt and releases the lease, and every later completion under the same
    lease, or any completion by a worker that lost it, changes nothing. *)
Theorem delivery_committed_once r n a claim :
  (lease_held (NotificationRecord.notification_id n) claim (Repo.notifications r) = false ->
   complete_notification_delivery r n a claim = (None, r)) /\
  (lease_held (NotificationRecord.notification_id n) claim (Repo.notifications r) = true ->
   exists r', complete_notification_delivery r n a claim = (Some (clear_lease n), r') /\
     dict_get (NotificationRecord.notification_id n) (Repo.notifications r') = Some (clear_lease n) /\
     dict_get (NotificationAttempt.notification_id a) (Repo.notification_attempts r') =
       Some (default [] (dict_get (NotificationAttempt.notification_id a) (Repo.notification_attempts r)) ++ [a]) /\
     forall n' a', NotificationRecord.notification_id n' = NotificationRecord.notification_id n ->
       complete_notification_delivery r' n' a' claim = (None, r')).
Proof.
  unfold complete_notification_delivery. split; intros Hh; rewrite Hh; [done|].
  eexists. split; [reflexivity|]. simpl. rewrite dict_get_set_eq. split; [done|]. split.
  - unfold dict_append. rewrite dict_get_set_eq. by destruct (dict_get _ _).
  - intros n' a' ->. unfold lease_held. simpl. by rewrite dict_get_set_eq.
Qed.

(** C25.  Retention honours legal holds and removes exactly what expired: a trip
    survives, with its evidence, assessments, incidents and approvals, when it is
    not older than the cutoff or an active hold of its tenant covers it (the
    tenant, its traveler or the trip itself); otherwise the trip and all of that is gone. *)
Theorem purge_respects_holds r before upload_before audit_before now counts r' :
  repo_wf r -> purge_expired r before upload_before audit_before now = Ok (counts, r') ->
  forall id trip, dict_get id (Repo.trips r) = Some trip ->
    let protected := exists key h, dict_get key (Repo.legal_holds r) = Some h /\
      LegalHoldRecord.is_active h now = Ok true /\ covers h id trip in
    (before <= Trip.created_at trip \/ protected ->
       dict_get id (Repo.trips r') = Some trip /\
       dict_get id (Repo.evidence r') = dict_get id (Repo.evidence r) /\
       dict_get id (Repo.assessments r') = dict_get id (Repo.assessments r) /\
       forall iid i, dict_get iid (Repo.incidents r) = Some i -> Incident.trip_id i = id ->
         dict_get iid (Repo.incidents r') = Some i /\
         dict_get iid (Repo.approvals r') = dict_get iid (Repo.approvals r)) /\
    (Trip.created_at trip < before -> ~ protected ->
       dict_get id (Repo.trips r') = None /\ dict_get id (Repo.evidence r') = None /\
       dict_get id (Repo.assessments r') = None /\
       forall iid i, dict_get iid (Repo.incidents r) = Some i -> Incident.trip_id i = id ->
         dict_get iid (Repo.incidents r') = None /\ dict_get iid (Repo.approvals r') = None).
Proof.
  intros Hwf E id trip Htrip protected. unfold purge_expired in E.
  apply res_bind_ok in E as (holds & Hholds & E). apply res_bind_ok in E as (cs & _ & E).
  apply Ok_inj in E. injection E as _ <-.
  pose proof (filter_res_ok _ _ _ Hholds) as Hin.
  set (ids := expired_trip_ids r holds before).
  assert (Hmem : mem id ids = (Trip.created_at trip <? before) &&
                 negb (existsb (fun h => hold_covers_trip h id trip) holds)).
  { etransitivity; [apply (mem_filter_keys _ (Repo.trips r) id trip); [apply Hwf|exact Htrip]|reflexivity]. }
  assert (Hinc : forall iid i, dict_get iid (Repo.incidents r) = Some i ->
                 mem iid (expired_incident_ids r ids) = mem (Incident.trip_id i) ids).
  { intros iid i Hi. etransitivity;
      [apply (mem_filter_keys _ (Repo.incidents r) iid i); [apply Hwf|exact Hi]|reflexivity]. }
  assert (Hprot : existsb (fun h => hold_covers_trip h id trip) holds = true <-> protected).
  { rewrite existsb_true_iff. split.
    - intros (h & [Hh Ha]%Hin & Hc%hold_covers_trip_iff). apply dict_in_values in Hh as [key Hh].
      exists key, h. split_and!; [by apply dict_in_get; [apply Hwf|]|done|done].
    - intros (key & h & Hh & Ha & Hc). exists h. split; [|by apply hold_covers_trip_iff]. apply Hin. split; [|done].
      apply dict_in_values. exists key. by apply dict_get_in. }
  unfold purge. fold ids. simpl. rewrite !dict_get_pop_all, Hmem. split.
  - intros Hkeep. assert (Hf : (Trip.created_at trip <? before) &&
        negb (existsb (fun h => hold_covers_trip h id trip) holds) = false).
    { destruct Hkeep as [Hk|Hp]; [by rewrite (proj2 (Z.ltb_ge _ _) Hk)|].
      rewrite (proj2 Hprot Hp). by rewrite andb_false_r. }
    rewrite Hf. split_and!; try done. intros iid i Hi <-.
    by rewrite !dict_get_pop_all, (Hinc iid i Hi), Hmem, Hf.
  - intros Hold Hnp. assert (Hf : (Trip.created_at trip <? before) &&
        negb (existsb (fun h => hold_covers_trip h id trip) holds) = true).
    { rewrite (proj2 (Z.ltb_lt _ _) Hold), (not_true_is_false _ (fun Ex => Hnp (proj1 Hprot Ex))). done. }
    rewrite Hf. split_and!; try done. intros iid i Hi <-.
    by rewrite !dict_get_pop_all, (Hinc iid i Hi), Hmem, Hf.
Qed.

(** What retention does not reach: the segments of the trips it removes stay, and no
    hold keeps a notification, although [docs/runbooks.md] says that a hold stops
    automated retention for its scope. *)
Lemma purge_keeps_segments r before upload_before audit_before now counts r' :
  purge_expired r before upload_before audit_before now = Ok (counts, r') ->
  Repo.trip_segments r' = Repo.trip_segments r.
Proof.
  intros E. apply res_bind_ok in E as (holds & _ & E). apply res_bind_ok in E as (cs & _ & E).
  apply Ok_inj in E. by injection E as _ <-.
Qed.

Lemma purge_ignores_holds r before upload_before audit_before now counts r' id n :
  repo_wf r -> purge_expired r before upload_before audit_before now = Ok (counts, r') ->
  dict_get id (Repo.notifications r) = Some n ->
  dict_get id (Repo.notifications r') = if NotificationRecord.created_at n <? before then None else Some n.
Proof.
  intros Hwf E Hn. apply res_bind_ok in E as (holds & _ & E). apply res_bind_ok in E as (cs & _ & E).
  apply Ok_inj in E. injection E as _ <-. simpl. unfold keep_keys.
  rewrite dict_get_filter by apply Hwf. rewrite Hn. unfold keep_values.
  rewrite (mem_filter_keys _ _ _ n (wf_notifications r Hwf) Hn). by destruct (_ <? _).
Qed.

(** ** Witnesses *)

Definition sample_hash : string := "0123456789abcdef0123456789abcdef0123456789abcdef0123456789abcdef".
Definition sample_segment : FlightSegmentCreate.t :=
  FlightSegmentCreate.mk "seg-1" "UA" "100" "SFO" "JFK" (utc (30 * day)) (utc (30 * day + 5 * hour)).
Definition sample_trip (id : uuid) (tenant traveler : string) (created : instant) : Trip.t :=
  Trip.mk tenant traveler None TripCriticality.STANDARD "Home" "US" [sample_segment] id TripStatus.ACTIVE created.
Definition sample_hold (id : uuid) (tenant traveler : string) : LegalHoldRecord.t :=
  LegalHoldRecord.mk id tenant LegalHoldScope.TRAVELER "litigation" "compliance-1" (Some traveler) None
    None None None None (utc 0).
Definition sample_repo : repo :=
  save_legal_hold
    (create_trip (create_trip (create_trip Repo.init (sample_trip 1%N "t1" "alice" 0))
       (sample_trip 2%N "t1" "bob" 0)) (sample_trip 3%N "t2" "alice" 0))
    (sample_hold 9%N "t1" "alice").

Lemma sample_repo_wf : repo_wf sample_repo.
Proof. constructor; unfold dict_wf; eapply (proj1 (bool_decide_eq_true _)); vm_compute; reflexivity. Qed.

Definition sample_notification : NotificationRecord.t :=
  NotificationRecord.mk 5%N "t1" None "alice" "email" "alice@example.com" "s" "b" NotificationStatus.QUEUED
    0 0 None None None None None None None None 0 0.

Lemma idempotency_execute_once_witness :
  exists rec r1, claim_idempotency Repo.init "t1" "k" "trips.create" sample_hash 100 0
      = (Ok ("execute", rec), r1) /\
    claim_idempotency r1 "t1" "k" "trips.create" sample_hash 300 50 = (Ok ("in_progress", rec), r1).
Proof.
  do 2 eexists. split; [vm_compute; reflexivity|].
  exact (proj1 (proj2 (proj2 (idempotency_execute_once Repo.init "t1" "k" "trips.create" sample_hash 100 0
    _ _ [] [] _ ltac:(vm_compute; reflexivity) ltac:(constructor) ltac:(vm_compute; reflexivity))))
    300 50 ltac:(vm_compute; reflexivity)).
Defined.

Lemma lease_exclusive_witness :
  exists c1 d1 c2 d2,
    claim_due None "w1" 60 0 10 (fun n => N.of_nat (100 + n)) 0 [(5%N, sample_notification)] = (c1, d1) /\
    claim_due None "w2" 60 30 10 (fun n => N.of_nat (200 + n)) 0 d1 = (c2, d2) /\ len c1 <= 10.
Proof.
  do 4 eexists. split; [vm_compute; reflexivity|]. split; [vm_compute; reflexivity|].
  exact (proj1 (lease_exclusive [(5%N, sample_notification)] _ _ _ _ None "w1" 60 0 10
    (fun n => N.of_nat (100 + n)) None "w2" 60 30 10 (fun n => N.of_nat (200 + n))
    ltac:(apply NoDup_singleton) ltac:(discriminate) ltac:(vm_compute; reflexivity)
    ltac:(vm_compute; reflexivity) ltac:(vm_compute; reflexivity))).
Defined.

Lemma purge_respects_holds_witness :
  exists counts r', purge_expired sample_repo (5 * day) None None (6 * day) = Ok (counts, r') /\
    dict_get 1%N (Repo.trips r') = Some (sample_trip 1%N "t1" "alice" 0).
Proof.
  do 2 eexists. split; [vm_compute; reflexivity|].
  refine (proj1 (proj1 (purge_respects_holds sample_repo (5 * day) None None (6 * day) _ _
    sample_repo_wf ltac:(vm_compute; reflexivity) 1%N (sample_trip 1%N "t1" "alice" 0)
    ltac:(vm_compute; reflexivity)) _)).
  right. exists 9%N, (sample_hold 9%N "t1" "alice"). repeat split; vm_compute; reflexivity.
Defined.
