(* ===== verification/Erasure.v ===== *)
(** * What the erasure of a traveler removes, and what it leaves

    [erase_traveler_data] of [apps/api/repository.py], table by table: a
    specification of what is the traveler's, and the theorem that exactly that is
    gone. *)

From S2P Require Import Prelude PyData PyStd Enums Models Recovery Repository.

(** ** Dictionaries with entries taken out *)

(** [remains d d' gone]: the entries of [d'] are those of [d] that are not [gone] *)
Definition remains {K V} (d d' : dict K V) (gone : K -> V -> Prop) : Prop :=
  forall k v, In (k, v) d' <-> In (k, v) d /\ ~ gone k v.

Lemma dict_mem_in {K V} `{EqDecision K} (d : dict K V) k : dict_mem k d = true <-> exists v, In (k, v) d.
Proof.
  unfold dict_mem. induction d as [|[k1 v1] d IH]; simpl; [by split; [|intros [v []]]|].
  case_bool_decide as Hk; subst; [split; [by exists v1; left|done]|]. rewrite IH. split.
  - intros [v Hv]. exists v. by right.
  - intros [v [[= ? ?]|Hv]]; [done|by exists v].
Qed.

Section Remains.
Context {K V : Type} `{EqDecision K}.

Lemma mem_keys_kept (p : V -> bool) (d : dict K V) k :
  mem k (dict_keys (keep_values p d)) = true <-> exists v, In (k, v) d /\ p v = true.
Proof.
  rewrite mem_true_iff. unfold dict_keys, keep_values.
  change ((dict_filter ?q d).*1) with (List.map fst (dict_filter q d)). rewrite in_map_iff. split.
  - intros ([k' v] & <- & [Hin Hp]%filter_In). by exists v.
  - intros (v & Hin & Hp). exists (k, v). split; [done|]. by apply filter_In.
Qed.

Lemma remains_pop k (d : dict K V) : remains d (dict_pop k d) (fun k' _ => k' = k).
Proof.
  intros k' v. unfold dict_pop. rewrite filter_In. simpl. rewrite negb_true_iff, bool_decide_eq_false. naive_solver.
Qed.

Lemma remains_pop_all (ids : list K) (d : dict K V) (gone : K -> Prop) :
  (forall k, mem k ids = true <-> gone k) -> remains d (pop_all ids d) (fun k _ => gone k).
Proof. intros Hg k v. by rewrite in_pop_all, <- Hg, not_true_iff_false. Qed.

Lemma remains_kept (p : V -> bool) (d : dict K V) (gone : V -> Prop) :
  (forall v, p v = true <-> ~ gone v) -> remains d (keep_values p d) (fun _ v => gone v).
Proof. intros Hg k v. unfold keep_values, dict_filter. rewrite filter_In. simpl. by rewrite Hg. Qed.

(** a table whose keys must be those of another *)
Lemma remains_keyed {W} (owners : dict K W) (d : dict K V) :
  remains d (keep_keys (fun k => dict_mem k owners) d) (fun k _ => forall w, ~ In (k, w) owners).
Proof.
  intros k v. unfold keep_keys, dict_filter. rewrite filter_In. simpl. apply and_iff_compat_l. split.
  - intros [w Hw]%dict_mem_in Hno. by apply (Hno w).
  - intros Hno. destruct (dict_mem k owners) eqn:Hm; [done|]. destruct Hno. intros w Hw.
    assert (Ht : dict_mem k owners = true) by (apply dict_mem_in; by exists w). congruence.
Qed.

End Remains.

(** ** What is the traveler's *)

Section Erased.
Context (tenant traveler : string) (r r' : repo).

Definition their_trip (id : uuid) : Prop := exists trip, In (id, trip) (Repo.trips r) /\
  Trip.tenant_id trip = tenant /\ Trip.traveler_id trip = traveler.
Definition their_incident (id : uuid) : Prop := exists i, In (id, i) (Repo.incidents r) /\
  Incident.tenant_id i = tenant /\ their_trip (Incident.trip_id i).
Definition their_proposal (id : uuid) : Prop := exists p, In (id, p) (Repo.memory_proposals r) /\
  MemoryUpdateProposal.tenant_id p = tenant /\ MemoryUpdateProposal.traveler_id p = traveler.
Definition their_notification (n : NotificationRecord.t) : Prop :=
  NotificationRecord.tenant_id n = tenant /\ NotificationRecord.traveler_id n = traveler.

(** the traveler's memory is gone, and nobody else's *)
Record memory_erased : Prop := {
  erased_profile : remains (Repo.profiles r) (Repo.profiles r') (fun key _ => key = (tenant, traveler));
  erased_proposals : remains (Repo.memory_proposals r) (Repo.memory_proposals r') (fun id _ => their_proposal id)
}.

(** the traveler's trips, what hangs on them and the notifications *)
Record data_erased : Prop := {
  erased_trips : remains (Repo.trips r) (Repo.trips r') (fun id _ => their_trip id);
  erased_segments : remains (Repo.trip_segments r) (Repo.trip_segments r') (fun id _ => their_trip id);
  erased_evidence : remains (Repo.evidence r) (Repo.evidence r') (fun id _ => their_trip id);
  erased_assessments : remains (Repo.assessments r) (Repo.assessments r') (fun id _ => their_trip id);
  erased_incidents : remains (Repo.incidents r) (Repo.incidents r') (fun id _ => their_incident id);
  erased_approvals : remains (Repo.approvals r) (Repo.approvals r') (fun id _ => their_incident id);
  erased_candidate_sets : remains (Repo.candidate_sets r) (Repo.candidate_sets r')
    (fun _ item => their_incident (RecoveryCandidateSet.incident_id item.2));
  erased_candidate_outcomes : remains (Repo.candidate_outcomes r) (Repo.candidate_outcomes r')
    (fun _ item => their_incident (RecoveryCandidateOutcome.incident_id item.2));
  erased_feedback : remains (Repo.manager_feedback r) (Repo.manager_feedback r')
    (fun _ f => their_incident (ManagerFeedback.incident_id f));
  erased_notifications : remains (Repo.notifications r) (Repo.notifications r') (fun _ n => their_notification n);
  erased_notification_attempts : remains (Repo.notification_attempts r) (Repo.notification_attempts r')
    (fun id _ => forall n, ~ In (id, n) (Repo.notifications r'));
  erased_actions : remains (Repo.action_dispatches r) (Repo.action_dispatches r')
    (fun _ a => their_incident (ActionDispatchRecord.incident_id a));
  erased_action_attempts : remains (Repo.action_dispatch_attempts r) (Repo.action_dispatch_attempts r')
    (fun id _ => forall a, ~ In (id, a) (Repo.action_dispatches r'))
}.

(** [r'] with the memory, the trips and what hangs on them as [r] has them *)
Definition restored : repo :=
  r' <| Repo.profiles := Repo.profiles r |> <| Repo.memory_proposals := Repo.memory_proposals r |>
     <| Repo.trips := Repo.trips r |> <| Repo.trip_segments := Repo.trip_segments r |>
     <| Repo.evidence := Repo.evidence r |> <| Repo.assessments := Repo.assessments r |>
     <| Repo.incidents := Repo.incidents r |> <| Repo.approvals := Repo.approvals r |>
     <| Repo.candidate_sets := Repo.candidate_sets r |> <| Repo.candidate_outcomes := Repo.candidate_outcomes r |>
     <| Repo.manager_feedback := Repo.manager_feedback r |> <| Repo.notifications := Repo.notifications r |>
     <| Repo.notification_attempts := Repo.notification_attempts r |>
     <| Repo.action_dispatches := Repo.action_dispatches r |>
     <| Repo.action_dispatch_attempts := Repo.action_dispatch_attempts r |>.

End Erased.

(** ** The keys that the erasure collects *)

Section Collected.
Context (r : repo) (tenant traveler : string).

Abbreviation trip_ids := (traveler_trip_ids (Repo.trips r) tenant traveler).
Abbreviation incident_ids := (traveler_incident_ids (Repo.incidents r) tenant trip_ids).

Lemma trip_ids_theirs id : mem id trip_ids = true <-> their_trip tenant traveler r id.
Proof.
  unfold traveler_trip_ids. rewrite mem_keys_kept. unfold their_trip. setoid_rewrite andb_true_iff.
  by setoid_rewrite bool_decide_eq_true.
Qed.

Lemma incident_ids_theirs id : mem id incident_ids = true <-> their_incident tenant traveler r id.
Proof.
  unfold traveler_incident_ids. rewrite mem_keys_kept. unfold their_incident. setoid_rewrite andb_true_iff.
  setoid_rewrite bool_decide_eq_true. by setoid_rewrite trip_ids_theirs.
Qed.

Lemma proposal_ids_theirs id : mem id (traveler_proposal_ids (Repo.memory_proposals r) tenant traveler) = true <->
  their_proposal tenant traveler r id.
Proof.
  change (traveler_proposal_ids (Repo.memory_proposals r) tenant traveler) with
    (dict_keys (keep_values (fun p => (MemoryUpdateProposal.tenant_id p == tenant) &&
       (MemoryUpdateProposal.traveler_id p == traveler)) (Repo.memory_proposals r))).
  rewrite mem_keys_kept. unfold their_proposal. setoid_rewrite andb_true_iff.
  by setoid_rewrite bool_decide_eq_true.
Qed.

Lemma not_their_incident id : negb (mem id incident_ids) = true <-> ~ their_incident tenant traveler r id.
Proof. by rewrite negb_true_iff, <- incident_ids_theirs, not_true_iff_false. Qed.

Lemma not_their_notification n :
  negb ((NotificationRecord.tenant_id n == tenant) && (NotificationRecord.traveler_id n == traveler)) = true <->
  ~ their_notification tenant traveler n.
Proof.
  unfold their_notification. rewrite negb_true_iff, <- not_true_iff_false, andb_true_iff. by rewrite !bool_decide_eq_true.
Qed.

Lemma memory_only : (erase_traveler_data r tenant traveler DeletionRequestScope.PREFERENCE_MEMORY).2 =
  (delete_traveler_memory r tenant traveler).2.
Proof. reflexivity. Qed.

Lemma memory_twice : let r' := (delete_traveler_memory r tenant traveler).2 in
  (delete_traveler_memory r' tenant traveler).2 = r'.
Proof.
  unfold delete_traveler_memory. simpl. apply repo_ext; try reflexivity; simpl.
  - apply dict_pop_twice.
  - by rewrite traveler_proposal_ids_erased.
Qed.

Lemma memory_is_erased : memory_erased tenant traveler r (delete_traveler_memory r tenant traveler).2.
Proof. constructor; [apply remains_pop|apply remains_pop_all, proposal_ids_theirs]. Qed.

End Collected.

(** ** Property *)

(** C36. Erasure.  Erasing a traveler's data removes, table by table, exactly what is
    theirs: profile and memory proposals; and, unless only the memory is asked for,
    their trips with segments, evidence and assessments, the tenant's incidents on
    those trips with approvals, candidate sets, outcomes, feedback and queued
    actions, their notifications, and the attempts of both outboxes that are left
    without a record.  Every other entry of these tables and every other table
    (events, audits, holds, deletion requests, idempotency records, uploads,
    settings) stays as it was, and a second run changes nothing. *)
Theorem erase_complete r tenant traveler scope :
  let r' := (erase_traveler_data r tenant traveler scope).2 in
  memory_erased tenant traveler r r' /\
  (if scope == DeletionRequestScope.PREFERENCE_MEMORY
   then r' <| Repo.profiles := Repo.profiles r |> <| Repo.memory_proposals := Repo.memory_proposals r |> = r
   else data_erased tenant traveler r r' /\ restored r r' = r) /\
  (erase_traveler_data r' tenant traveler scope).2 = r'.
Proof.
  intros r'. pose proof (memory_is_erased r tenant traveler) as [Hp Hm].
  destruct scope; subst r'.
  - split; [by split|]. split; [apply repo_ext; reflexivity|].
    rewrite !memory_only. apply memory_twice.
  - split; [by split|]. split; [|apply erase_twice]. simpl bool_decide. cbv iota. split.
    + constructor; simpl.
      1-4: apply remains_pop_all, trip_ids_theirs.
      1-2: apply remains_pop_all, incident_ids_theirs.
      1-3: apply remains_kept; intros; apply not_their_incident.
      1: apply remains_kept, not_their_notification.
      1: apply remains_keyed.
      1: apply remains_kept; intros; apply not_their_incident.
      apply remains_keyed.
    + apply repo_ext; reflexivity.
Qed.

(** on a store with two travelers of two tenants *)
Example erase_sample :
  dict_keys (Repo.trips (erase_traveler_data sample_repo "t1" "alice" DeletionRequestScope.TRAVELER_DATA).2) = [2%N; 3%N].
Proof. vm_compute. reflexivity. Qed.
