(* ===== verification/StoreInvariant.v ===== *)
(** * The invariant of the in-memory store and the operations that preserve it

    Every collection holds one record per key, stored under the record's own
    identifier.  [store_step] has one constructor per operation of
    [InMemoryRouteShieldRepository] that writes; a reachable store is one that
    the constructor and any sequence of them produce. *)

From stdpp Require Import relations.
From S2P Require Import Prelude PyData Float64 PyStd Enums Models Recovery Security Repository.

(** ** Keyed dictionaries *)

Section Keyed.
Context {K V : Type} `{EqDecision K} (key : V -> K).
Implicit Types (d : dict K V).

Definition keyed (d : dict K V) : Prop := dict_wf d /\ forall k v, In (k, v) d -> key v = k.

Lemma keyed_nil : keyed [].
Proof. split; [apply dict_wf_nil|done]. Qed.

Lemma in_dict_set k v k' v' d : In (k', v') (dict_set k v d) -> (k', v') = (k, v) \/ In (k', v') d.
Proof.
  induction d as [|[k1 v1] d IH]; simpl; [naive_solver|].
  case_bool_decide; subst; simpl; intuition congruence.
Qed.

Lemma keyed_set k v d : key v = k -> keyed d -> keyed (dict_set k v d).
Proof.
  intros <- [Hw Hk]. split; [by apply dict_wf_set|].
  intros k' v' [E|Hin]%in_dict_set; [by injection E as -> ->|by apply Hk].
Qed.

Lemma keyed_filter (p : K * V -> bool) d : keyed d -> keyed (List.filter p d).
Proof.
  intros [Hw Hk]. split; [by apply NoDup_filter_fst|].
  intros k v [Hin _]%filter_In. by apply Hk.
Qed.

Lemma keyed_pop k d : keyed d -> keyed (dict_pop k d).
Proof. apply keyed_filter. Qed.

Lemma keyed_dict_filter p d : keyed d -> keyed (dict_filter p d).
Proof. apply keyed_filter. Qed.

Lemma keyed_keep_values p d : keyed d -> keyed (keep_values p d).
Proof. apply keyed_filter. Qed.

Lemma keyed_keep_keys p d : keyed d -> keyed (keep_keys p d).
Proof. apply keyed_filter. Qed.

Lemma keyed_pop_all ids d : keyed d -> keyed (pop_all ids d).
Proof.
  unfold pop_all. revert d. induction ids as [|id ids IH]; intros d Hd; simpl; [done|].
  by apply IH, keyed_pop.
Qed.

(** what a lookup finds has the key it was found under *)
Lemma keyed_get d k v : keyed d -> dict_get k d = Some v -> key v = k.
Proof. intros [_ Hk] Hg. by apply Hk, dict_get_in. Qed.

End Keyed.

Lemma keyed_claim_due {R} `{Leasable R} (key : R -> uuid) tenant worker ttl now limit fresh :
  (forall id w t e x, key (set_lease id w t e x) = key x) -> forall d n c d',
  claim_due tenant worker ttl now limit fresh n d = (c, d') -> keyed key d -> keyed key d'.
Proof.
  intros Hset d n c d' E [Hw Hk]. pose proof (claim_due_wf _ _ _ _ _ _ _ _ _ _ E Hw) as Hw'.
  split; [done|]. intros k x Hin. apply dict_in_get in Hin; [|done].
  destruct (claim_due_get _ _ _ _ _ _ _ _ _ _ _ _ E Hin) as (x0 & Hx0 & Hx).
  apply dict_get_in, Hk in Hx0. destruct Hx as [->|(_ & _ & i & ->)]; by rewrite ?Hset.
Qed.

Lemma dict_wf_append {K V} `{EqDecision K} (k : K) (v : V) d : dict_wf d -> dict_wf (dict_append k v d).
Proof. apply dict_wf_set. Qed.

#[export] Hint Resolve keyed_nil keyed_set keyed_pop keyed_dict_filter keyed_keep_values keyed_keep_keys
  keyed_pop_all dict_wf_append dict_wf_pop_all : rs.
#[export] Hint Extern 1 (dict_wf (keep_values _ _)) => apply dict_wf_filter : rs.
#[export] Hint Extern 1 (dict_wf (keep_keys _ _)) => apply dict_wf_filter : rs.

(** ** The invariant *)

Record store_ok (r : repo) : Prop := {
  ok_trips : keyed Trip.trip_id (Repo.trips r);
  ok_trip_segments : dict_wf (Repo.trip_segments r);
  ok_evidence : dict_wf (Repo.evidence r);
  ok_assessments : dict_wf (Repo.assessments r);
  ok_incidents : keyed Incident.incident_id (Repo.incidents r);
  ok_approvals : keyed ApprovalRecord.incident_id (Repo.approvals r);
  ok_profiles : keyed profile_key (Repo.profiles r);
  ok_memory_proposals : keyed MemoryUpdateProposal.proposal_id (Repo.memory_proposals r);
  ok_idempotency : keyed (fun i => (IdempotencyRecord.tenant_id i, IdempotencyRecord.idempotency_key i))
                         (Repo.idempotency_records r);
  ok_candidate_sets : keyed (fun s => RecoveryCandidateSet.candidate_set_id s.2) (Repo.candidate_sets r);
  ok_candidate_outcomes :
    keyed (fun o => RecoveryCandidateOutcome.outcome_id o.2) (Repo.candidate_outcomes r);
  ok_manager_feedback : keyed ManagerFeedback.feedback_id (Repo.manager_feedback r);
  ok_playbooks : keyed TenantPlaybook.playbook_id (Repo.tenant_playbooks r);
  ok_notifications : keyed NotificationRecord.notification_id (Repo.notifications r);
  ok_notification_attempts : dict_wf (Repo.notification_attempts r);
  ok_action_dispatches : keyed ActionDispatchRecord.action_dispatch_id (Repo.action_dispatches r);
  ok_action_attempts : dict_wf (Repo.action_dispatch_attempts r);
  ok_change_records : keyed ChangeRecord.change_id (Repo.change_records r);
  ok_onboarding : keyed ProviderOnboardingRecord.provider_onboarding_id (Repo.provider_onboarding_records r);
  ok_legal_holds : keyed LegalHoldRecord.legal_hold_id (Repo.legal_holds r);
  ok_deletion_requests : keyed DeletionRequest.deletion_request_id (Repo.deletion_requests r);
  ok_runtime_overrides :
    keyed (fun c => (RuntimeControlChange.tenant_id c, RuntimeControlChange.control_name c))
      (Repo.runtime_control_overrides r);
  ok_platform_overrides : keyed PlatformRuntimeControlChange.control_name (Repo.platform_control_overrides r);
  ok_uploads : keyed OriginalUploadRecord.original_upload_id (Repo.original_uploads r)
}.

Lemma store_ok_wf r : store_ok r -> repo_wf r.
Proof.
  intros H. constructor.
  - apply (ok_trips r H).
  - apply (ok_incidents r H).
  - apply (ok_profiles r H).
  - apply (ok_memory_proposals r H).
  - apply (ok_notifications r H).
  - apply (ok_action_dispatches r H).
  - apply (ok_candidate_sets r H).
  - apply (ok_candidate_outcomes r H).
  - apply (ok_legal_holds r H).
Qed.

Lemma store_ok_init : store_ok Repo.init.
Proof. constructor; simpl; auto with rs. Qed.

Lemma of_tenant_keyed {K A} `{EqDecision K} (key : A -> K) (tenant_of : A -> string) tenant (d : dict K A) k x :
  keyed key d -> of_tenant tenant_of tenant (dict_get k d) = Some x -> tenant_of x = tenant /\ key x = k.
Proof.
  intros Hk. unfold of_tenant. destruct (dict_get k d) as [y|] eqn:Hg; [|done].
  case_bool_decide; [|done]. intros [= <-]. split; [done|]. by apply (keyed_get key d).
Qed.

(** ** The writes of the store *)

Inductive store_step (r : repo) : repo -> Prop :=
  | step_create_trip t : store_step r (create_trip r t)
  | step_save_trip t : store_step r (save_trip r t)
  | step_save_evidence tenant id items r' : save_evidence r tenant id items = Ok r' -> store_step r r'
  | step_save_assessment tenant a r' : save_assessment r tenant a = Ok r' -> store_step r r'
  | step_save_incident i : store_step r (save_incident r i)
  | step_save_approval a : store_step r (save_approval r a)
  | step_claim_idempotency tenant key scope hash expires now :
      store_step r (claim_idempotency r tenant key scope hash expires now).2
  | step_complete_idempotency tenant key hash code payload now rec r' :
      complete_idempotency r tenant key hash code payload now = Ok (rec, r') -> store_step r r'
  | step_record_event e : store_step r (record_event r e).2
  | step_save_candidate_set tenant s : store_step r (save_candidate_set r tenant s)
  | step_record_candidate_outcome tenant o : store_step r (record_candidate_outcome r tenant o)
  | step_save_manager_feedback f : store_step r (save_manager_feedback r f)
  | step_save_playbook p : store_step r (save_playbook r p).2
  | step_save_profile p : store_step r (save_profile r p)
  | step_save_memory_proposal p : store_step r (save_memory_proposal r p)
  | step_delete_traveler_memory tenant traveler : store_step r (delete_traveler_memory r tenant traveler).2
  | step_record_memory_audit e : store_step r (record_memory_audit r e)
  | step_save_notification n : store_step r (save_notification r n)
  | step_claim_due_notifications tenant worker ttl now limit fresh :
      store_step r (claim_due_notifications r tenant worker ttl now limit fresh).2
  | step_complete_notification n a claim : store_step r (complete_notification_delivery r n a claim).2
  | step_record_notification_attempt a : store_step r (record_notification_attempt r a)
  | step_save_action_dispatch a : store_step r (save_action_dispatch r a)
  | step_claim_due_actions tenant worker ttl now limit fresh :
      store_step r (claim_due_action_dispatches r tenant worker ttl now limit fresh).2
  | step_complete_action a att claim : store_step r (complete_action_dispatch r a att claim).2
  | step_record_action_attempt a : store_step r (record_action_dispatch_attempt r a)
  | step_save_change_record c : store_step r (save_change_record r c)
  | step_save_onboarding c : store_step r (save_provider_onboarding r c)
  | step_save_runtime_control c : store_step r (save_runtime_control_change r c)
  | step_save_platform_control c : store_step r (save_platform_control_change r c)
  | step_save_upload u : store_step r (save_original_upload r u)
  | step_save_legal_hold h : store_step r (save_legal_hold r h)
  | step_save_deletion_request q : store_step r (save_deletion_request r q)
  | step_erase tenant traveler scope : store_step r (erase_traveler_data r tenant traveler scope).2
  | step_purge before uploads audit now counts r' :
      purge_expired r before uploads audit now = Ok (counts, r') -> store_step r r'.

Definition reachable (r : repo) : Prop := rtc store_step Repo.init r.

(** ** Preservation *)

(** one field at a time: an untouched field is the old invariant *)
Ltac keep_store H :=
  destruct H; constructor; simpl; try assumption;
  repeat first [apply keyed_pop_all | apply keyed_keep_values | apply keyed_keep_keys
               | apply keyed_dict_filter | apply keyed_pop | apply dict_wf_pop_all
               | apply dict_wf_filter | apply dict_wf_append | apply dict_wf_set]; try assumption;
  try (apply keyed_set; [reflexivity|assumption]).

Lemma claim_idempotency_ok r tenant key scope hash expires now :
  store_ok r -> store_ok (claim_idempotency r tenant key scope hash expires now).2.
Proof.
  intros H. unfold claim_idempotency. set (expired := match dict_get _ _ with Some _ => _ | None => false end).
  set (r1 := if expired then _ else r).
  assert (H1 : store_ok r1) by (subst r1; destruct expired; [keep_store H|done]).
  clearbody r1. destruct (if expired then None else _) as [e|].
  - destruct (_ || _); [done|]. by destruct (IdempotencyRecord.state e == _).
  - destruct (construct _ _ _) as [record|] eqn:E; [|done]. apply construct_ok in E as [-> _]. simpl.
    keep_store H1.
Qed.

Lemma complete_idempotency_ok r tenant key hash code payload now rec r' :
  complete_idempotency r tenant key hash code payload now = Ok (rec, r') -> store_ok r -> store_ok r'.
Proof.
  unfold complete_idempotency. intros E H.
  destruct (dict_get (tenant, key) _) as [record|] eqn:Hg; [|done].
  pose proof (keyed_get _ _ _ _ (ok_idempotency r H) Hg) as Hk.
  destruct (_ != _); [done|]. apply Ok_inj in E. injection E as _ <-.
  keep_store H. by apply keyed_set.
Qed.

Lemma erase_ok r tenant traveler scope :
  store_ok r -> store_ok (erase_traveler_data r tenant traveler scope).2.
Proof.
  intros H. unfold erase_traveler_data, delete_traveler_memory. simpl.
  destruct (scope == _); keep_store H.
Qed.

Lemma purge_ok r holds before uploads audit : store_ok r -> store_ok (purge r holds before uploads audit).
Proof. intros H. unfold purge. cbv zeta. keep_store H. Qed.

Lemma step_ok r r' : store_step r r' -> store_ok r -> store_ok r'.
Proof.
  intros Hs H. destruct Hs; try solve [keep_store H].
  - revert H0. unfold save_evidence. destruct (get_trip _ _ _); [intros <-%Ok_inj; keep_store H|done].
  - revert H0. unfold save_assessment. destruct (get_trip _ _ _); [intros <-%Ok_inj; keep_store H|done].
  - by apply claim_idempotency_ok.
  - by apply (complete_idempotency_ok _ _ _ _ _ _ _ _ _ H0).
  - unfold save_playbook. destruct (dict_get _ _); [done|]. simpl. keep_store H.
  - unfold claim_due_notifications. destruct (claim_due _ _ _ _ _ _ _ _) as [c d] eqn:E. simpl.
    keep_store H. by eapply keyed_claim_due; [|exact E|].
  - unfold complete_notification_delivery. destruct (lease_held _ _ _); [|done]. simpl. keep_store H.
  - unfold claim_due_action_dispatches. destruct (claim_due _ _ _ _ _ _ _ _) as [c d] eqn:E. simpl.
    keep_store H. by eapply keyed_claim_due; [|exact E|].
  - unfold complete_action_dispatch. destruct (lease_held _ _ _); [|done]. simpl. keep_store H.
  - by apply erase_ok.
  - unfold purge_expired in H0. apply res_bind_ok in H0 as (holds & _ & E).
    apply res_bind_ok in E as (cs & _ & E). apply Ok_inj in E. injection E as _ <-. by apply purge_ok.
Qed.

Lemma reachable_ok r : reachable r -> store_ok r.
Proof.
  unfold reachable. intros Hr. remember Repo.init as r0. assert (Hi : store_ok r0) by (subst; apply store_ok_init).
  clear Heqr0. induction Hr as [|x y z Hxy _ IH]; [done|]. by apply IH, (step_ok x y).
Qed.

(** Whatever sequence of its operations has run, the store holds one record
    per key, each under its own identifier; so a lookup by tenant and id returns
    a record with that tenant and that id, or nothing, and a stored idempotency
    claim is the claim of the key it is found under. *)
Theorem store_invariant r :
  reachable r ->
  store_ok r /\
  (forall tenant id t, get_trip r tenant id = Some t -> Trip.tenant_id t = tenant /\ Trip.trip_id t = id) /\
  (forall tenant id i, get_incident r tenant id = Some i ->
     Incident.tenant_id i = tenant /\ Incident.incident_id i = id) /\
  (forall tenant id n, get_notification r tenant id = Some n ->
     NotificationRecord.tenant_id n = tenant /\ NotificationRecord.notification_id n = id) /\
  (forall tenant traveler p, get_profile r tenant traveler = Some p ->
     TravelerPreferenceProfile.tenant_id p = tenant /\ TravelerPreferenceProfile.traveler_id p = traveler) /\
  (forall tenant id q, get_deletion_request r tenant id = Some q ->
     DeletionRequest.tenant_id q = tenant /\ DeletionRequest.deletion_request_id q = id).
Proof.
  intros H%reachable_ok. split; [done|]. split_and!.
  - intros tenant id t Hg. exact (of_tenant_keyed _ _ _ _ _ _ (ok_trips r H) Hg).
  - intros tenant id t Hg. exact (of_tenant_keyed _ _ _ _ _ _ (ok_incidents r H) Hg).
  - intros tenant id t Hg. exact (of_tenant_keyed _ _ _ _ _ _ (ok_notifications r H) Hg).
  - intros tenant traveler p Hg. apply (keyed_get _ _ _ _ (ok_profiles r H)) in Hg.
    unfold profile_key in Hg. by injection Hg.
  - intros tenant id t Hg. exact (of_tenant_keyed _ _ _ _ _ _ (ok_deletion_requests r H) Hg).
Qed.

Lemma store_invariant_witness :
  exists r, reachable r /\ get_trip r "t1" 1%N = Some (sample_trip 1%N "t1" "alice" 0) /\ store_ok r.
Proof.
  exists sample_repo. assert (Hr : reachable sample_repo).
  { eapply rtc_l; [apply (step_create_trip _ (sample_trip 1%N "t1" "alice" 0))|].
    eapply rtc_l; [apply (step_create_trip _ (sample_trip 2%N "t1" "bob" 0))|].
    eapply rtc_l; [apply (step_create_trip _ (sample_trip 3%N "t2" "alice" 0))|].
    eapply rtc_l; [apply (step_save_legal_hold _ (sample_hold 9%N "t1" "alice"))|]. apply rtc_refl. }
  split; [exact Hr|]. split; [vm_compute; reflexivity|]. exact (proj1 (store_invariant sample_repo Hr)).
Defined.
