(* ===== verification/Notifications.v ===== *)
(** * [apps/api/notifications.py]: one delivery attempt of a queued notification *)

From S2P Require Import Prelude PyData PyStd Enums Models Repository.

Module DeliveryResult.

Record t : Type := mk {
  delivered : bool;
  provider_message_reference : option string;
  error_code : option string
}.

End DeliveryResult.

(** [NotificationSender]: a channel adapter; [Raise] is an exception it raises *)
Class NotificationSender : Type := send : NotificationRecord.t -> res DeliveryResult.t.

(** [InAppNotificationSender.send] *)
Definition in_app_send : NotificationSender := fun notification =>
  if NotificationRecord.channel notification == "in_app" then
    Ok (DeliveryResult.mk true
          (Some ("in-app:" +:+ uuid_str (NotificationRecord.notification_id notification))) None)
  else Ok (DeliveryResult.mk false None (Some "channel_not_configured")).

Definition retry_at (attempt_number : Z) (now : instant) : instant :=
  now + Z.min 60 (2 ^ Z.max 0 (attempt_number - 1)) * minute.

(** [try: await sender.send(...) except Exception] *)
Definition send_result (sender : NotificationSender) (n : NotificationRecord.t) : DeliveryResult.t :=
  match @send sender n with
  | Ok result => result
  | Raise _ => DeliveryResult.mk false None (Some "sender_exception")
  end.

(** [x or y] on optional text *)
Definition or_str (o : option string) (s : string) : string :=
  match o with Some x => if truthy_str x then x else s | None => s end.

(** the early returns of [deliver_notification] *)
Definition deliverable (n : NotificationRecord.t) (timestamp : instant) : bool :=
  mem (NotificationRecord.status n) [NotificationStatus.QUEUED; NotificationStatus.RETRY_SCHEDULED] &&
  negb (timestamp <? NotificationRecord.next_attempt_at n) &&
  negb (match NotificationRecord.dispatch_claim_expires_at n with
        | Some e => e <=? timestamp
        | None => false
        end).

(** the assignments to the record, and the attempt's [outcome] *)
Definition record_result (n : NotificationRecord.t) (result : DeliveryResult.t) (max_attempts : Z)
    (timestamp : instant) : NotificationRecord.t * string :=
  let attempt_number := NotificationRecord.attempt_count n + 1 in
  let n1 := n <| NotificationRecord.attempt_count := attempt_number |>
              <| NotificationRecord.updated_at := timestamp |> in
  if DeliveryResult.delivered result then
    (n1 <| NotificationRecord.status := NotificationStatus.DELIVERED |>
        <| NotificationRecord.delivered_at := Some timestamp |>
        <| NotificationRecord.last_error_code := None |>, "delivered")
  else if max_attempts <=? attempt_number then
    (n1 <| NotificationRecord.status := NotificationStatus.FAILED |>
        <| NotificationRecord.last_error_code :=
             Some (or_str (DeliveryResult.error_code result) "delivery_failed") |>, "failed")
  else
    (n1 <| NotificationRecord.status := NotificationStatus.RETRY_SCHEDULED |>
        <| NotificationRecord.next_attempt_at := retry_at attempt_number timestamp |>
        <| NotificationRecord.last_error_code :=
             Some (or_str (DeliveryResult.error_code result) "delivery_failed") |>, "retry_scheduled").

(** The record passed in is the caller's copy ([claim_due_notifications] returns
    copies), so assigning to it does not change the store. *)
Definition deliver_notification (r : repo) (n : NotificationRecord.t) (sender : NotificationSender)
    (max_attempts : Z) (timestamp : instant) (attempt_id : uuid) : res NotificationRecord.t * repo :=
  if negb (deliverable n timestamp) then (Ok n, r) else
  let claim_id := NotificationRecord.dispatch_claim_id n in
  let result := send_result sender n in
  let '(n', outcome) := record_result n result max_attempts timestamp in
  match construct "NotificationAttempt" NotificationAttempt.valid
          {| NotificationAttempt.attempt_id := attempt_id;
             NotificationAttempt.notification_id := NotificationRecord.notification_id n';
             NotificationAttempt.attempt_number := NotificationRecord.attempt_count n';
             NotificationAttempt.attempted_at := timestamp;
             NotificationAttempt.outcome := outcome;
             NotificationAttempt.provider_message_reference :=
               DeliveryResult.provider_message_reference result;
             NotificationAttempt.error_code := DeliveryResult.error_code result |} with
  | Raise e => (Raise e, r)
  | Ok attempt =>
      match claim_id with
      | Some claim =>
          let '(completed, r') := complete_notification_delivery r n' attempt claim in
          (Ok (default n' completed), r')
      | None => (Ok n', record_notification_attempt (save_notification r n') attempt)
      end
  end.

(** ** Lemmas *)

(** the delay grows with the attempt and stays between one minute and one hour *)
Lemma retry_at_bounds k now :
  now + minute <= retry_at k now <= now + hour /\ retry_at k now <= retry_at (k + 1) now.
Proof.
  unfold retry_at, hour.
  assert (Hm : 0 < minute) by reflexivity.
  pose proof (Z.pow_pos_nonneg 2 (Z.max 0 (k - 1)) ltac:(lia) ltac:(lia)).
  pose proof (Z.pow_le_mono_r 2 (Z.max 0 (k - 1)) (Z.max 0 (k + 1 - 1)) ltac:(lia) ltac:(lia)).
  set (m := minute) in *. clearbody m. nia.
Qed.

(** a status the dispatcher never touches again *)
Definition settled (n : NotificationRecord.t) : Prop :=
  ~ In (NotificationRecord.status n) [NotificationStatus.QUEUED; NotificationStatus.RETRY_SCHEDULED].

Lemma settled_not_deliverable n t : settled n -> deliverable n t = false.
Proof. intros H. unfold deliverable. by rewrite (proj2 (mem_false_iff _ _) H). Qed.

Lemma deliverable_open n t :
  deliverable n t = true ->
  In (NotificationRecord.status n) [NotificationStatus.QUEUED; NotificationStatus.RETRY_SCHEDULED].
Proof. unfold deliverable. intros H. bool_hyps. by apply mem_true_iff. Qed.

(** The transition of one attempt *)
Inductive attempted (max_attempts : Z) (now : instant) (n n' : NotificationRecord.t) : Prop :=
  | attempt_delivered :
      NotificationRecord.status n' = NotificationStatus.DELIVERED ->
      NotificationRecord.delivered_at n' = Some now -> attempted max_attempts now n n'
  | attempt_failed :
      NotificationRecord.status n' = NotificationStatus.FAILED ->
      max_attempts <= NotificationRecord.attempt_count n' -> attempted max_attempts now n n'
  | attempt_retry :
      NotificationRecord.status n' = NotificationStatus.RETRY_SCHEDULED ->
      NotificationRecord.attempt_count n' < max_attempts ->
      now + minute <= NotificationRecord.next_attempt_at n' <= now + hour ->
      attempted max_attempts now n n'.

Lemma record_result_attempted n result max_attempts now n' outcome :
  record_result n result max_attempts now = (n', outcome) ->
  NotificationRecord.attempt_count n' = NotificationRecord.attempt_count n + 1 /\
  NotificationRecord.notification_id n' = NotificationRecord.notification_id n /\
  attempted max_attempts now n n'.
Proof.
  unfold record_result. destruct (DeliveryResult.delivered result).
  - intros [= <- <-]. split; [done|]. split; [done|]. by apply attempt_delivered.
  - destruct (Z.leb_spec max_attempts (NotificationRecord.attempt_count n + 1)); intros [= <- <-];
      (split; [done|]); (split; [done|]).
    + by apply attempt_failed.
    + apply attempt_retry; [done|done|]. apply retry_at_bounds.
Qed.

(** ** Properties *)

(** One delivery attempt: a notification that is settled, not yet due or
    whose lease expired is returned unchanged and nothing is stored; otherwise,
    unless the attempt record is refused by validation (and then nothing is
    stored), the attempt counter grows by one and the result is delivered at this
    time, failed with the attempts exhausted, or rescheduled between one minute
    and one hour later with attempts left; and exactly one attempt is appended
    when the record is stored. *)
Theorem deliver_transition r n sender max_attempts now id out r' :
  deliver_notification r n sender max_attempts now id = (out, r') ->
  (deliverable n now = false -> out = Ok n /\ r' = r) /\
  (deliverable n now = true ->
    (exists e, out = Raise e /\ r' = r) \/
    exists n', out = Ok n' /\
      NotificationRecord.attempt_count n' = NotificationRecord.attempt_count n + 1 /\
      attempted max_attempts now n n' /\
      (r' = r \/
       exists a, NotificationAttempt.attempt_number a = NotificationRecord.attempt_count n' /\
         dict_get (NotificationRecord.notification_id n) (Repo.notifications r') = Some n' /\
         dict_get (NotificationRecord.notification_id n) (Repo.notification_attempts r') =
           Some (default [] (dict_get (NotificationRecord.notification_id n)
                               (Repo.notification_attempts r)) ++ [a]))).
Proof.
  unfold deliver_notification. destruct (deliverable n now); cbn [negb]; intros E.
  2: { injection E as <- <-. split; [done|discriminate]. }
  split; [discriminate|]. intros _.
  destruct (record_result n (send_result sender n) max_attempts now) as [n1 o] eqn:Hr.
  apply record_result_attempted in Hr as (Hcount & Hid & Ha).
  destruct (construct _ _ _) as [a|e] eqn:Hc.
  2: { injection E as <- <-. left. by exists e. }
  right. apply construct_ok in Hc as [-> _]. set (att := NotificationAttempt.mk _ _ _ _ _ _ _) in *.
  assert (Happ : forall d, dict_get (NotificationRecord.notification_id n)
                   (dict_append (NotificationAttempt.notification_id att) att d) =
                 Some (default [] (dict_get (NotificationRecord.notification_id n) d) ++ [att])).
  { intros d. unfold dict_append. simpl. rewrite Hid, dict_get_set_eq. by destruct (dict_get _ d). }
  destruct (NotificationRecord.dispatch_claim_id n) as [claim|].
  - unfold complete_notification_delivery in E. destruct (lease_held _ _ _); injection E as <- <-.
    + exists (clear_lease n1). split; [done|]. split; [done|]. split.
      { destruct Ha; [by apply attempt_delivered|by apply attempt_failed|by apply attempt_retry]. }
      right. exists att. split; [done|]. split; [|apply Happ]. simpl. by rewrite Hid, dict_get_set_eq.
    + exists n1. split; [done|]. split; [done|]. split; [done|]. by left.
  - injection E as <- <-. exists n1. split; [done|]. split; [done|]. split; [done|].
    right. exists att. split; [done|]. split; [|apply Happ]. simpl. by rewrite <- Hid, dict_get_set_eq.
Qed.

(** ** Witnesses *)

Lemma deliver_transition_witness :
  exists out r', deliver_notification Repo.init sample_notification in_app_send 5 0 7%N = (out, r') /\
    ((exists e, out = Raise e /\ r' = Repo.init) \/
     exists n', out = Ok n' /\ NotificationRecord.attempt_count n' = 1).
Proof.
  do 2 eexists. split; [vm_compute; reflexivity|].
  destruct (proj2 (deliver_transition Repo.init sample_notification in_app_send 5 0 7%N _ _
    ltac:(vm_compute; reflexivity)) ltac:(vm_compute; reflexivity)) as [?|(n' & ? & Hc & _)];
    [left; assumption|right; exists n'; split; [assumption|exact Hc]].
Defined.
