(* ===== verification/Actions.v ===== *)
(** * [apps/api/actions.py]: dispatch of human-approved actions, fail closed *)

From S2P Require Import Prelude PyData PyStd Enums Models Repository.

Module ActionDispatchResult.

Record t : Type := mk {
  dispatched : bool;
  external_reference : option string;
  error_code : option string
}.

End ActionDispatchResult.

(** [ApprovedActionSender] *)
Class ApprovedActionSender : Type := dispatch : ActionDispatchRecord.t -> res ActionDispatchResult.t.

(** [UnconfiguredActionSender.dispatch] *)
Definition unconfigured_dispatch : ApprovedActionSender := fun _ =>
  Ok (ActionDispatchResult.mk false None (Some "action_provider_not_configured")).

Definition retry_at (attempt_number : Z) (now : instant) : instant :=
  now + Z.min 60 (2 ^ Z.max 0 (attempt_number - 1)) * minute.

Definition dispatch_result (sender : ApprovedActionSender) (a : ActionDispatchRecord.t)
    : ActionDispatchResult.t :=
  match @dispatch sender a with
  | Ok result => result
  | Raise _ => ActionDispatchResult.mk false None (Some "action_sender_exception")
  end.

Definition dispatchable (a : ActionDispatchRecord.t) (timestamp : instant) : bool :=
  mem (ActionDispatchRecord.status a) [ActionDispatchStatus.QUEUED; ActionDispatchStatus.RETRY_SCHEDULED] &&
  negb (timestamp <? ActionDispatchRecord.next_attempt_at a) &&
  negb (match ActionDispatchRecord.dispatch_claim_expires_at a with
        | Some e => e <=? timestamp
        | None => false
        end).

(** [result.error_code or "action_dispatch_failed"] *)
Definition error_or_default (result : ActionDispatchResult.t) : string :=
  match ActionDispatchResult.error_code result with
  | Some x => if truthy_str x then x else "action_dispatch_failed"
  | None => "action_dispatch_failed"
  end.

Definition record_result (a : ActionDispatchRecord.t) (result : ActionDispatchResult.t)
    (max_attempts : Z) (timestamp : instant) : ActionDispatchRecord.t * string :=
  let attempt_number := ActionDispatchRecord.attempt_count a + 1 in
  let a1 := a <| ActionDispatchRecord.attempt_count := attempt_number |>
              <| ActionDispatchRecord.updated_at := timestamp |> in
  if ActionDispatchResult.dispatched result then
    (a1 <| ActionDispatchRecord.status := ActionDispatchStatus.DISPATCHED |>
        <| ActionDispatchRecord.dispatched_at := Some timestamp |>
        <| ActionDispatchRecord.last_error_code := None |>, "dispatched")
  else if max_attempts <=? attempt_number then
    (a1 <| ActionDispatchRecord.status := ActionDispatchStatus.FAILED |>
        <| ActionDispatchRecord.last_error_code := Some (error_or_default result) |>, "failed")
  else
    (a1 <| ActionDispatchRecord.status := ActionDispatchStatus.RETRY_SCHEDULED |>
        <| ActionDispatchRecord.next_attempt_at := retry_at attempt_number timestamp |>
        <| ActionDispatchRecord.last_error_code := Some (error_or_default result) |>, "retry_scheduled").

(** As for notifications, the record passed in is the caller's copy. *)
Definition dispatch_approved_action (r : repo) (a : ActionDispatchRecord.t)
    (sender : ApprovedActionSender) (max_attempts : Z) (timestamp : instant) (attempt_id : uuid)
    : res ActionDispatchRecord.t * repo :=
  if negb (dispatchable a timestamp) then (Ok a, r) else
  let claim_id := ActionDispatchRecord.dispatch_claim_id a in
  let result := dispatch_result sender a in
  let '(a', outcome) := record_result a result max_attempts timestamp in
  match construct "ActionDispatchAttempt" ActionDispatchAttempt.valid
          {| ActionDispatchAttempt.attempt_id := attempt_id;
             ActionDispatchAttempt.action_dispatch_id := ActionDispatchRecord.action_dispatch_id a';
             ActionDispatchAttempt.attempt_number := ActionDispatchRecord.attempt_count a';
             ActionDispatchAttempt.attempted_at := timestamp;
             ActionDispatchAttempt.outcome := outcome;
             ActionDispatchAttempt.external_reference := ActionDispatchResult.external_reference result;
             ActionDispatchAttempt.error_code := ActionDispatchResult.error_code result |} with
  | Raise e => (Raise e, r)
  | Ok attempt =>
      match claim_id with
      | Some claim =>
          let '(completed, r') := complete_action_dispatch r a' attempt claim in
          (Ok (default a' completed), r')
      | None => (Ok a', record_action_dispatch_attempt (save_action_dispatch r a') attempt)
      end
  end.

(** ** Lemmas *)

(** an action no provider has executed *)
Definition undispatched (a : ActionDispatchRecord.t) : Prop :=
  ActionDispatchRecord.status a <> ActionDispatchStatus.DISPATCHED /\
  ActionDispatchRecord.dispatched_at a = None.

Lemma unconfigured_result a max_attempts now a' outcome :
  record_result a (dispatch_result unconfigured_dispatch a) max_attempts now = (a', outcome) ->
  undispatched a ->
  undispatched a' /\ ActionDispatchRecord.action_dispatch_id a' = ActionDispatchRecord.action_dispatch_id a /\
  ActionDispatchRecord.attempt_count a' = ActionDispatchRecord.attempt_count a + 1 /\
  (ActionDispatchRecord.status a' = ActionDispatchStatus.FAILED <->
     max_attempts <= ActionDispatchRecord.attempt_count a').
Proof.
  unfold record_result, undispatched. simpl. intros E [_ Hd]. revert E.
  destruct (Z.leb_spec max_attempts (ActionDispatchRecord.attempt_count a + 1)); intros [= <- <-]; simpl;
    split_and!; try done; split; try done; lia.
Qed.

(** every stored action is undispatched *)
Definition none_dispatched (r : repo) : Prop :=
  forall id a, dict_get id (Repo.action_dispatches r) = Some a -> undispatched a.

Lemma save_undispatched r a :
  none_dispatched r -> undispatched a ->
  forall id x, dict_get id (dict_set (ActionDispatchRecord.action_dispatch_id a) a (Repo.action_dispatches r))
    = Some x -> undispatched x.
Proof.
  intros Hr Ha id x. rewrite dict_get_set. case_bool_decide; [by intros [= <-]|apply Hr].
Qed.

(** dispatcher calls, each on its own copy of an action *)
Fixpoint dispatcher (r : repo) (max_attempts : Z)
    (calls : list (ActionDispatchRecord.t * instant * uuid)) : repo :=
  match calls with
  | [] => r
  | (a, now, id) :: calls' =>
      dispatcher (dispatch_approved_action r a unconfigured_dispatch max_attempts now id).2
        max_attempts calls'
  end.

Lemma dispatch_keeps_none r a max_attempts now id :
  none_dispatched r -> undispatched a ->
  none_dispatched (dispatch_approved_action r a unconfigured_dispatch max_attempts now id).2.
Proof.
  intros Hr Ha. unfold dispatch_approved_action. destruct (negb _); [done|].
  destruct (record_result _ _ _ _) as [a' o] eqn:E. apply unconfigured_result in E as (Ha' & _); [|done].
  destruct (construct _ _ _); [|done]. destruct (ActionDispatchRecord.dispatch_claim_id a).
  - unfold complete_action_dispatch. destruct (lease_held _ _ _); [|done].
    intros id0 x. exact (save_undispatched r (clear_lease a') Hr Ha' id0 x).
  - intros id0 x. exact (save_undispatched r a' Hr Ha' id0 x).
Qed.

(** ** Properties *)

(** Actions fail closed: with the sender the service installs, no sequence
    of dispatcher calls, on any copies of undispatched actions, at any times,
    ever marks a stored action as dispatched; and each attempt on a due action
    ends in failure exactly when its attempts are exhausted. *)
Theorem actions_fail_closed r max_attempts calls :
  none_dispatched r -> Forall (fun c : ActionDispatchRecord.t * instant * uuid => undispatched c.1.1) calls ->
  none_dispatched (dispatcher r max_attempts calls) /\
  Forall (fun c : ActionDispatchRecord.t * instant * uuid => forall a' o,
      record_result c.1.1 (dispatch_result unconfigured_dispatch c.1.1) max_attempts c.1.2 = (a', o) ->
      ActionDispatchRecord.attempt_count a' = ActionDispatchRecord.attempt_count c.1.1 + 1 /\
      (ActionDispatchRecord.status a' = ActionDispatchStatus.FAILED <->
         max_attempts <= ActionDispatchRecord.attempt_count a')) calls.
Proof.
  intros Hr Hcalls. split.
  - revert r Hr. induction Hcalls as [|[[a now] id] calls Ha _ IH]; intros r Hr; simpl; [done|].
    apply IH. by apply dispatch_keeps_none.
  - eapply List.Forall_impl; [|exact Hcalls]. intros [[a now] id] Ha a' o E. simpl in *.
    apply unconfigured_result in E as (_ & _ & ? & ?); done.
Qed.

(** ** Witnesses *)

Definition sample_action : ActionDispatchRecord.t :=
  ActionDispatchRecord.mk 8%N "t1" 2%N 3%N [("action", JStr "rebook")] "k" ActionDispatchStatus.QUEUED
    0 0 None None None None None None 0 0.

Lemma actions_fail_closed_witness :
  none_dispatched (dispatcher (save_action_dispatch Repo.init sample_action) 5
    [(sample_action, 0, 7%N)]).
Proof.
  refine (proj1 (actions_fail_closed (save_action_dispatch Repo.init sample_action) 5
    [(sample_action, 0, 7%N)] _ _)).
  - intros id a. unfold save_action_dispatch. simpl. case_bool_decide; [|discriminate].
    intros [= <-]. split; [discriminate|reflexivity].
  - repeat constructor; simpl; discriminate.
Defined.
