(* ===== verification/OpenAI.v ===== *)
(** * [tools/openai_provider.py]: the bounded model integration

    The chat model is LangChain's: [ModelClient] is its two entry points, with
    what they return or raise.  Everything the provider decides around them is
    modelled. *)

From S2P Require Import Prelude PyData Float64 PyStd Enums Models.

Definition RECOMMENDATION_PROMPT_VERSION : string := "recommendation-2026-08-09".
Definition TOOL_SELECTION_PROMPT_VERSION : string := "tool-selection-2026-08-09".

(** one element of [READ_ONLY_TOOL_SCHEMAS] *)
Definition tool_schema (name description : string) : json :=
  JObj [("type", JStr "function");
        ("function", JObj
          [("name", JStr name); ("description", JStr description);
           ("parameters", JObj
             [("type", JStr "object");
              ("properties", JObj [("trip_id", JObj [("type", JStr "string")])]);
              ("required", JList [JStr "trip_id"]);
              ("additionalProperties", JBool false)])])].

Definition READ_ONLY_TOOL_SCHEMAS : list json :=
  [tool_schema "get_trip_context" "Retrieve the already scoped itinerary context for a trip.";
   tool_schema "get_flight_status" "Retrieve the normalized current flight status for a trip.";
   tool_schema "get_connection_feasibility" "Recalculate connection feasibility for a trip.";
   tool_schema "get_airport_weather" "Retrieve normalized airport weather risk for a trip.";
   tool_schema "get_ground_route_risk" "Retrieve normalized ground-route risk for a trip.";
   tool_schema "get_destination_advisory" "Retrieve normalized destination advisory context for a trip.";
   tool_schema "find_alternative_flights" "Retrieve available alternative flights for a trip.";
   tool_schema "get_corporate_travel_policy"
     "Retrieve the applicable corporate travel policy for a trip."].

(** the comprehension over the schemas *)
Definition READ_ONLY_TOOL_NAMES : list string :=
  List.concat (List.map (fun schema =>
    match jget "function" schema with
    | Some (JObj f) => match dict_get "name" f with Some (JStr n) => [n] | _ => [] end
    | _ => []
    end) READ_ONLY_TOOL_SCHEMAS).

Module RecommendationOutput.

Record t : Type := mk {
  severity_explanation : string;
  evidence_ids : list uuid;
  uncertainty : string;
  recommended_action : string;
  ranked_alternative_ids : list string;
  traveler_message : string;
  manager_message : string;
  requires_human_approval : bool;
  missing_information : list string
}.

Definition valid (x : t) : bool :=
  len_in 1 1000 (severity_explanation x) && (1 <=? len (evidence_ids x)) &&
  len_in 1 1000 (recommended_action x) && len_in 1 1000 (traveler_message x) &&
  len_in 1 2000 (manager_message x).

End RecommendationOutput.

Module ToolSelection.

Record t : Type := mk { name : string; arguments : dict string json }.

End ToolSelection.

(** [ChatOpenAI]: the [tool_calls] attribute of a tool-bound reply (an absent one
    is the empty list), and the object of a structured reply, which LangChain
    validates against [RecommendationOutput] before it returns. *)
Class ModelClient : Type := {
  invoke_tools : forall (model : string) (prompt : json), res json;
  invoke_structured : forall (model : string) (prompt : json), res RecommendationOutput.t
}.

Module OpenAIRecommendationProvider.

Record t : Type := mk {
  model : string;
  api_key : option string;
  enabled : bool
}.

(** [__init__] *)
Definition init (getenv : string -> option string) : t :=
  {| model := default "gpt-5.6-terra" (getenv "OPENAI_MODEL_PRIMARY");
     api_key := getenv "OPENAI_API_KEY";
     enabled := str_lower (default "false" (getenv "LLM_ENABLED")) == "true" |}.

Definition available_for (self : t) (enabled : bool) : bool := enabled && truthy_opt_str (api_key self).
Definition available (self : t) : bool := available_for self (enabled self).

Definition audit_metadata (self : t) (invocation_type outcome : string) : dict string json :=
  let prompt_version := if invocation_type == "tool_selection" then TOOL_SELECTION_PROMPT_VERSION
                        else RECOMMENDATION_PROMPT_VERSION in
  [("provider", JStr "openai"); ("model", JStr (model self)); ("prompt_version", JStr prompt_version);
   ("invocation_type", JStr invocation_type); ("outcome", JStr outcome);
   ("token_usage", JNull); ("estimated_cost_usd", JNull)].

(** the checks on the returned tool call *)
Definition accept_call (trip_id : string) (tool_calls : json) : option ToolSelection.t :=
  match tool_calls with
  | JList [JObj call] =>
      match dict_get "name" call, dict_get "args" call with
      | Some (JStr name), Some (JObj arguments) =>
          if negb (mem name READ_ONLY_TOOL_NAMES) then None
          else if negb (jis_str trip_id (dict_get "trip_id" arguments)) ||
                  negb (subset (dict_keys arguments) ["trip_id"])
          then None
          else Some (ToolSelection.mk name arguments)
      | _, _ => None
      end
  | _ => None
  end.

Definition select_tool {client : ModelClient} (self : t) (trip_id : string)
    (risk_assessment : dict string json) (evidence : list (dict string json))
    (source_health : dict string json) (enabled : bool) : res (option ToolSelection.t) :=
  if negb (available_for self enabled)
  then Raise (RuntimeError "OpenAI tool selection is disabled or OPENAI_API_KEY is unavailable")
  else
    tool_calls ← invoke_tools (model self)
      (JObj [("trip_id", JStr trip_id); ("risk_assessment", JObj risk_assessment);
             ("evidence", JList (List.map JObj evidence)); ("source_health", JObj source_health);
             ("instruction", JStr "Request at most one follow-up tool, or none.")]);
    Ok (accept_call trip_id tool_calls).

(** the new [recommendation_id] and the time are [Recommendation]'s defaults *)
Definition recommend {client : ModelClient} (self : t) (incident_id : uuid)
    (risk_assessment : dict string json) (evidence : list (dict string json)) (enabled : bool)
    (recommendation_id : uuid) (now : instant) : res Recommendation.t :=
  if negb (available_for self enabled)
  then Raise (RuntimeError "OpenAI recommendations are disabled or OPENAI_API_KEY is unavailable")
  else
    output ← invoke_structured (model self)
      (JObj [("risk_assessment", JObj risk_assessment); ("evidence", JList (List.map JObj evidence));
             ("instruction", JStr "Produce a manager-review recommendation only.")]);
    construct "Recommendation" Recommendation.valid
      {| Recommendation.recommendation_id := recommendation_id;
         Recommendation.incident_id := incident_id;
         Recommendation.severity_explanation := RecommendationOutput.severity_explanation output;
         Recommendation.evidence_ids := RecommendationOutput.evidence_ids output;
         Recommendation.uncertainty := RecommendationOutput.uncertainty output;
         Recommendation.recommended_action := RecommendationOutput.recommended_action output;
         Recommendation.ranked_alternative_ids := RecommendationOutput.ranked_alternative_ids output;
         Recommendation.traveler_message := RecommendationOutput.traveler_message output;
         Recommendation.manager_message := RecommendationOutput.manager_message output;
         Recommendation.requires_human_approval := RecommendationOutput.requires_human_approval output;
         Recommendation.missing_information := RecommendationOutput.missing_information output;
         Recommendation.generated_at := now |}.

End OpenAIRecommendationProvider.

(** ** Lemmas *)

(** What the model can obtain: a read-only tool, for this trip, with no other argument. *)
Lemma accept_call_scoped trip_id calls sel :
  OpenAIRecommendationProvider.accept_call trip_id calls = Some sel ->
  In (ToolSelection.name sel) READ_ONLY_TOOL_NAMES /\
  dict_get "trip_id" (ToolSelection.arguments sel) = Some (JStr trip_id) /\
  forall k, In k (dict_keys (ToolSelection.arguments sel)) -> k = "trip_id".
Proof.
  unfold OpenAIRecommendationProvider.accept_call. intros E.
  repeat (case_match; try discriminate). simplify_eq. cbn [ToolSelection.name ToolSelection.arguments].
  bool_hyps.
  match goal with H : mem _ _ = true |- _ => apply mem_true_iff in H end.
  match goal with H : jis_str _ _ = true |- _ => apply jis_str_true in H end.
  match goal with H : subset _ _ = true |- _ => rewrite subset_true_iff in H; rename H into Hs end.
  split_and!; [done|done|]. intros k Hk. apply Hs in Hk. simpl in Hk. naive_solver.
Qed.
