(* ===== verification/Graph.v ===== *)
(** * [agent/graph.py]: the bounded investigation workflow

    The nodes are functions of the state; [step] is the compiled graph: the node
    that runs, its effect, and the edge it takes.  [approval_gate] interrupts:
    LangGraph checkpoints the state and returns to the caller, and a later
    [Command(resume=...)] re-enters the node with the human decision. *)

From S2P Require Import Prelude PyData Float64 PyStd Enums Models Recovery Policies OpenAI.

Definition obj : Type := dict string json.

Module RouteRiskState.

(** [agent/state.py].  A [NotRequired] key is an option or, where the code reads
    it with a default, the default.  Recovery candidates are held as the typed
    records whose JSON dump the state carries between two nodes. *)
Record t : Type := mk {
  tenant_id : string;
  trip_id : string;
  incident_id : string;
  trip_context : option obj;
  traveler_context : option obj;
  memory_context : option obj;
  memory_context_version : option json;
  playbook_context : list json;
  approved_playbooks : list obj;
  risk_assessment : obj;
  evidence : list obj;
  source_health : obj;
  react_iterations : Z;
  tool_audit : list obj;
  model_audit : list obj;
  llm_enabled : bool;
  tool_selection_attempted : bool;
  tool_selection_mode : option string;
  pending_tool_call : option obj;
  alternative_candidates : list EvaluatedCandidate.t;
  eligible_alternatives : list EvaluatedCandidate.t;
  recovery_ranking : option obj;
  policy_decision : option obj;
  policy_gate : option obj;
  recommendation : option obj;
  approval : option json;
  dispatched_actions : list obj;
  final_status : option string
}.

#[global] Instance settable : Settable t := fun x =>
  mk (tenant_id x) (trip_id x) (incident_id x) (trip_context x) (traveler_context x)
    (memory_context x) (memory_context_version x) (playbook_context x) (approved_playbooks x)
    (risk_assessment x) (evidence x) (source_health x) (react_iterations x) (tool_audit x)
    (model_audit x) (llm_enabled x) (tool_selection_attempted x) (tool_selection_mode x)
    (pending_tool_call x) (alternative_candidates x) (eligible_alternatives x)
    (recovery_ranking x) (policy_decision x) (policy_gate x) (recommendation x) (approval x)
    (dispatched_actions x) (final_status x).

End RouteRiskState.

Abbreviation state := RouteRiskState.t.

(** [thread_id_for] *)
Definition thread_id_for (tenant_id : string) (trip_id incident_id : uuid) : string :=
  "tenant:" +:+ tenant_id +:+ ":trip:" +:+ uuid_str trip_id +:+ ":incident:" +:+ uuid_str incident_id.

Definition MAX_REACT_ITERATIONS : Z := 3.
Definition READ_ONLY_TOOLS : list string := READ_ONLY_TOOL_NAMES.

(** [str(d.get(k))] for a value that is text; [repr] is Python's text of any other value *)
Class Repr : Type := repr : json -> string.
Definition py_str `{Repr} (j : option json) : string :=
  match j with
  | Some (JStr s) => s
  | Some j => repr j
  | None => "None"
  end.

(** [d.get(k, default)] *)
Definition get_or (k : string) (def : json) (d : obj) : json := default def (dict_get k d).

Section Nodes.
Context `{Repr} {client : ModelClient}.

Definition _severity (s : state) : string :=
  py_str (Some (get_or "severity" (JStr "low") (RouteRiskState.risk_assessment s))).

Definition core_unavailable (s : state) : json :=
  get_or "core_sources_unavailable" (JList []) (RouteRiskState.source_health s).

Inductive node : Type :=
  | load_memory_context_ | react_assistant_ | tools_ | recommendation_
  | verify_alternative_eligibility_ | rank_eligible_recovery_options_ | attach_recovery_ranking_
  | policy_gate_ | approval_gate_ | queue_approved_action_ | finalize_.

Definition is_severe (s : state) : bool := mem (_severity s) ["high"; "critical"].

(** [json == s] in [x in list] for a text [s] *)
Definition in_json_list (s : string) (l : list json) : bool := existsb (fun j => jis_str s (Some j)) l.

Definition route_by_severity (s : state) : node :=
  match core_unavailable s with
  | JList unavailable =>
      if 2 <=? len unavailable then approval_gate_
      else if is_severe s && in_json_list "flight_status" unavailable then approval_gate_
      else if is_severe s then load_memory_context_
      else finalize_
  | _ => if is_severe s then load_memory_context_ else finalize_
  end.

Definition preferred_tools : list (string * string) :=
  [("flight_status", "get_flight_status");
   ("connection_feasibility", "get_connection_feasibility");
   ("airport_weather", "get_airport_weather")].

Definition _next_tool (s : state) : option string :=
  if MAX_REACT_ITERATIONS <=? RouteRiskState.react_iterations s then None else
  let evidence_types := List.map (fun item => py_str (dict_get "source_type" item))
                          (RouteRiskState.evidence s) in
  let already_called := List.map (fun item => py_str (dict_get "tool_name" item))
                          (RouteRiskState.tool_audit s) in
  snd <$> List.find (fun '(source_type, tool_name) =>
                       mem source_type evidence_types && negb (mem tool_name already_called))
            preferred_tools.

(** [[str(item["evidence_id"]) for item in state["evidence"] if "evidence_id" in item]] *)
Definition evidence_ids_of (s : state) : list string :=
  List.concat (List.map (fun item => match dict_get "evidence_id" item with
                                     | Some j => [py_str (Some j)]
                                     | None => []
                                     end) (RouteRiskState.evidence s)).

Definition _recommendation (s : state) : obj :=
  let unavailable := core_unavailable s in
  [("severity_explanation", JStr ("Deterministic assessment severity is " +:+ _severity s +:+ "."));
   ("evidence_ids", JList (List.map JStr (evidence_ids_of s)));
   ("uncertainty", JStr (if truthy unavailable then "high" else "medium"));
   ("recommended_action", JStr "Have a travel manager review before any itinerary action.");
   ("traveler_message", JStr "Your travel manager is reviewing a possible disruption. No itinerary change has been made.");
   ("manager_message", JStr "Review the cited evidence before approving any itinerary action.");
   ("requires_human_approval", JBool true);
   ("missing_information", if is_jlist unavailable then unavailable else JList [])].

Definition audit_entry (tool_name : string) (arguments : obj) (evidence_ids : list string)
    (outcome : string) : obj :=
  [("tool_name", JStr tool_name); ("arguments", JObj arguments);
   ("evidence_ids", JList (List.map JStr evidence_ids)); ("outcome", JStr outcome)].

(** ** load_memory_context *)

Definition allowed_fields : list string :=
  ["preferred_airports"; "preferred_carriers"; "minimum_connection_minutes";
   "avoid_overnight_connections"; "approved_ground_transport_preferences";
   "approved_accessibility_accommodations"; "version"].

Definition playbook_fields : list string := ["playbook_id"; "name"; "version"; "guidance"].

(** the playbook entry, when it is an object whose four fields are text *)
Definition approved_playbook (item : json) : list obj :=
  match item with
  | JObj d =>
      if forallb (fun key => match dict_get key d with Some (JStr _) => true | _ => false end)
           playbook_fields
      then [List.map (fun key => (key, get_or key JNull d)) playbook_fields]
      else []
  | _ => []
  end.

Definition nonempty {A} (l : list A) : bool := match l with [] => false | _ => true end.
(** truth of an optional dictionary *)
Definition truthy_obj (o : option obj) : bool := match o with Some d => nonempty d | None => false end.

Definition load_memory_context (s : state) : state :=
  let memory_context :=
    (fun supplied => dict_filter (fun key _ => mem key allowed_fields) supplied)
      <$> RouteRiskState.traveler_context s in
  let approved_playbooks :=
    List.concat (List.map approved_playbook (RouteRiskState.playbook_context s)) in
  let version := match memory_context with
                 | Some d => if nonempty d then dict_get "version" d else None
                 | None => None
                 end in
  let outcome := if truthy_obj memory_context && nonempty approved_playbooks
                 then "profile_and_playbooks_loaded"
                 else if truthy_obj memory_context then "profile_loaded"
                 else if nonempty approved_playbooks then "playbooks_loaded"
                 else "no_confirmed_profile_or_playbook" in
  s <| RouteRiskState.memory_context := memory_context |>
    <| RouteRiskState.memory_context_version :=
         match version with
         | Some (JInt z) => Some (JInt z)
         | Some (JBool b) => Some (JBool b)   (* isinstance(True, int) *)
         | _ => None
         end |>
    <| RouteRiskState.approved_playbooks := approved_playbooks |>
    <| RouteRiskState.tool_audit ::= fun audit =>
         audit ++ [audit_entry "load_memory_context" [("scope", JStr "tenant_traveler_profile")] [] outcome] |>.

(** ** react_assistant and the tool node *)

Definition provider : Type := OpenAIRecommendationProvider.t.

Definition with_summary (metadata summary : obj) : obj := dict_set "input_summary" (JObj summary) metadata.

Definition selection_summary (s : state) : obj :=
  [("severity", JStr (_severity s)); ("evidence_count", JInt (len (RouteRiskState.evidence s)));
   ("core_sources_unavailable", core_unavailable s)].

(** the deterministic continuation of [react_assistant] *)
Definition follow_up (s : state) : state :=
  match _next_tool s with
  | None => s <| RouteRiskState.pending_tool_call := None |>
              <| RouteRiskState.recommendation := Some (_recommendation s) |>
  | Some tool_name =>
      s <| RouteRiskState.tool_selection_mode := Some "deterministic_follow_up" |>
        <| RouteRiskState.pending_tool_call :=
             Some [("name", JStr tool_name);
                   ("arguments", JObj [("trip_id", JStr (RouteRiskState.trip_id s))])] |>
  end.

Definition react_assistant (p : provider) (s : state) : state :=
  if negb (RouteRiskState.tool_selection_attempted s) &&
     OpenAIRecommendationProvider.available_for p (RouteRiskState.llm_enabled s)
  then
    let metadata outcome :=
      with_summary (OpenAIRecommendationProvider.audit_metadata p "tool_selection" outcome)
        (selection_summary s) in
    match OpenAIRecommendationProvider.select_tool p (RouteRiskState.trip_id s)
            (RouteRiskState.risk_assessment s) (RouteRiskState.evidence s)
            (RouteRiskState.source_health s) true with
    | Raise _ =>
        s <| RouteRiskState.tool_selection_attempted := true |>
          <| RouteRiskState.tool_selection_mode := Some "deterministic_fallback" |>
          <| RouteRiskState.tool_audit ::= fun audit => audit ++
               [audit_entry "model_tool_selection" [] [] "model_selection_failed_fallback_used"] |>
          <| RouteRiskState.model_audit ::= fun audit => audit ++ [metadata "failed_fallback_used"] |>
    | Ok (Some selection) =>
        s <| RouteRiskState.tool_selection_attempted := true |>
          <| RouteRiskState.tool_selection_mode := Some "model_selected" |>
          <| RouteRiskState.tool_audit ::= fun audit => audit ++
               [audit_entry "model_tool_selection"
                  [("tool_requested", JStr (ToolSelection.name selection))] [] "model_selected_tool"] |>
          <| RouteRiskState.model_audit ::= fun audit => audit ++ [metadata "tool_selected"] |>
          <| RouteRiskState.pending_tool_call :=
               Some [("name", JStr (ToolSelection.name selection));
                     ("arguments", JObj (ToolSelection.arguments selection))] |>
    | Ok None =>
        s <| RouteRiskState.tool_selection_attempted := true |>
          <| RouteRiskState.tool_selection_mode := Some "model_selected_no_tool" |>
          <| RouteRiskState.tool_audit ::= fun audit => audit ++
               [audit_entry "model_tool_selection" [("tool_requested", JNull)] [] "model_selected_no_tool"] |>
          <| RouteRiskState.model_audit ::= fun audit => audit ++ [metadata "no_tool_selected"] |>
          <| RouteRiskState.pending_tool_call := None |>
          <| RouteRiskState.recommendation := Some (_recommendation s) |>
    end
  else follow_up s.

Definition route_after_assistant (s : state) : node :=
  if truthy_obj (RouteRiskState.pending_tool_call s) then tools_ else recommendation_.

(** the call the tool node accepts: an allow-listed name, with this trip's id *)
Definition accepted_call (s : state) : option (string * obj) :=
  match RouteRiskState.pending_tool_call s with
  | Some call =>
      match dict_get "name" call, dict_get "arguments" call with
      | Some (JStr name), Some (JObj arguments) =>
          if mem name READ_ONLY_TOOLS && jis_str (RouteRiskState.trip_id s) (dict_get "trip_id" arguments)
          then Some (name, arguments) else None
      | _, _ => None
      end
  | None => None
  end.

Definition run_read_only_tool (s : state) : state :=
  match accepted_call s with
  | None => s <| RouteRiskState.pending_tool_call := None |>
              <| RouteRiskState.recommendation := Some (_recommendation s) |>
  | Some (name, arguments) =>
      s <| RouteRiskState.react_iterations ::= fun n => n + 1 |>
        <| RouteRiskState.tool_audit ::= fun audit => audit ++
             [audit_entry name arguments (evidence_ids_of s)
                (if RouteRiskState.tool_selection_mode s == Some "model_selected"
                 then "model_selected_evidence_snapshot" else "deterministic_evidence_snapshot")] |>
        <| RouteRiskState.pending_tool_call := None |>
  end.

(** ** validate_recommendation *)

(** [UUID(text)]: 32 hexadecimal digits, with or without hyphens *)
Definition hex_value (c : ascii) : option N :=
  if is_digit c then Some (N_of_ascii c - 48)%N
  else if char_in "a" "f" c then Some (N_of_ascii c - 87)%N
  else if char_in "A" "F" c then Some (N_of_ascii c - 55)%N
  else None.
Fixpoint parse_hex (s : string) (digits : nat) (acc : N) : option N :=
  match s with
  | EmptyString => if (digits =? 0)%nat then Some acc else None
  | String c s' =>
      if (c == "-"%char)%rs then parse_hex s' digits acc
      else match digits, hex_value c with
           | S k, Some v => parse_hex s' k (acc * 16 + v)%N
           | _, _ => None
           end
  end.
Definition parse_uuid (s : string) : option uuid := parse_hex s 32 0.

(** [Recommendation.model_dump(mode="json")] *)
Definition dump_recommendation (x : Recommendation.t) : obj :=
  [("recommendation_id", juuid (Recommendation.recommendation_id x));
   ("incident_id", juuid (Recommendation.incident_id x));
   ("severity_explanation", JStr (Recommendation.severity_explanation x));
   ("evidence_ids", JList (List.map juuid (Recommendation.evidence_ids x)));
   ("uncertainty", JStr (Recommendation.uncertainty x));
   ("recommended_action", JStr (Recommendation.recommended_action x));
   ("ranked_alternative_ids", JList (List.map JStr (Recommendation.ranked_alternative_ids x)));
   ("traveler_message", JStr (Recommendation.traveler_message x));
   ("manager_message", JStr (Recommendation.manager_message x));
   ("requires_human_approval", JBool (Recommendation.requires_human_approval x));
   ("missing_information", JList (List.map JStr (Recommendation.missing_information x)));
   ("generated_at", JStr (isoformat (utc (Recommendation.generated_at x))))].

Definition recommendation_or_default (s : state) : obj :=
  if truthy_obj (RouteRiskState.recommendation s)
  then default [] (RouteRiskState.recommendation s) else _recommendation s.

Definition uncertain (r : obj) : obj := dict_set "uncertainty" (JStr "high") r.

(** the body of the [try]: an id that is no UUID, or the provider, may raise *)
Definition model_recommendation (p : provider) (rec_id : uuid) (now : instant) (s : state) : res obj :=
  match parse_uuid (RouteRiskState.incident_id s) with
  | None => Raise (ValueError "badly formed hexadecimal UUID string")
  | Some incident_id =>
      dump_recommendation <$>
        OpenAIRecommendationProvider.recommend p incident_id (RouteRiskState.risk_assessment s)
          (RouteRiskState.evidence s) true rec_id now
  end.

(** [isinstance(cited, list) and set(cited).issubset(known)] *)
Definition citations_known (s : state) (r : obj) : bool :=
  match get_or "evidence_ids" (JList []) r with
  | JList cited => forallb (fun j => existsb (fun k => jis_str k (Some j)) (evidence_ids_of s)) cited
  | _ => false
  end.

Definition validate_recommendation (p : provider) (rec_id : uuid) (now : instant) (s : state) : state :=
  let summary := [("severity", JStr (_severity s)); ("evidence_count", JInt (len (RouteRiskState.evidence s)))] in
  let metadata outcome :=
    with_summary (OpenAIRecommendationProvider.audit_metadata p "recommendation" outcome) summary in
  let '(recommendation, audit) :=
    if OpenAIRecommendationProvider.available_for p (RouteRiskState.llm_enabled s) && is_severe s then
      match model_recommendation p rec_id now s with
      | Ok r => (r, [metadata "succeeded"])
      | Raise _ => (uncertain (_recommendation s), [metadata "failed_fallback_used"])
      end
    else (recommendation_or_default s, []) in
  s <| RouteRiskState.recommendation :=
         Some (if citations_known s recommendation then recommendation
               else uncertain (_recommendation s)) |>
    <| RouteRiskState.model_audit ::= fun l => l ++ audit |>.

(** ** Recovery nodes *)

(** [tools/alternatives.py] *)
Definition fixture_alternatives : list RecoveryCandidate.t :=
  [RecoveryCandidate.mk "fixture-alt-1" true true true true 45 (f_int 120) 75;
   RecoveryCandidate.mk "fixture-alt-2" true true true true 90 (f_int 20) 55].

Definition minimum_connection (s : state) : option Z :=
  match dict_get "minimum_connection_minutes" (default [] (RouteRiskState.memory_context s)) with
  | Some (JInt z) => Some z
  | _ => None
  end.

Definition jopt (o : option json) : json := default JNull o.

Definition verify_alternative_eligibility (s : state) : res state :=
  let policy := CorporateTravelPolicy.default in
  evaluated ← mapM (fun candidate =>
      e ← evaluate_policy_eligible_candidate candidate policy;
      Ok (apply_traveler_minimum_connection e (minimum_connection s))) fixture_alternatives;
  Ok (s
    <| RouteRiskState.alternative_candidates := evaluated |>
    <| RouteRiskState.eligible_alternatives := [] |>
    <| RouteRiskState.policy_decision := Some
         [("policy_version", JStr (CorporateTravelPolicy.version policy));
          ("eligible_candidate_ids", JList (List.map (fun e => JStr (EvaluatedCandidate.candidate_id e))
              (List.filter EvaluatedCandidate.eligible evaluated)));
          ("traveler_minimum_connection_minutes", jint_opt (minimum_connection s));
          ("memory_context_version", jopt (RouteRiskState.memory_context_version s));
          ("approved_playbooks", JList (List.map JObj (RouteRiskState.approved_playbooks s)))] |>
    <| RouteRiskState.tool_audit ::= fun audit => audit ++
         [audit_entry "find_alternative_flights" [("trip_id", JStr (RouteRiskState.trip_id s))]
            (evidence_ids_of s) "policy_eligibility_evaluated"] |>).

(** [{c.candidate_id: c.displayed_position for c in ranked}] *)
Definition displayed_positions (ranked : list EvaluatedCandidate.t) : dict string (option Z) :=
  fold_left (fun d c => dict_set (EvaluatedCandidate.candidate_id c)
                                 (EvaluatedCandidate.displayed_position c) d) ranked [].

Definition rank_eligible_recovery_options (s : state) : state :=
  let candidates := RouteRiskState.alternative_candidates s in
  let ranked := rank_eligible candidates in
  s <| RouteRiskState.alternative_candidates :=
         List.map (fun c => c <| EvaluatedCandidate.displayed_position :=
             default None (dict_get (EvaluatedCandidate.candidate_id c) (displayed_positions ranked)) |>)
           candidates |>
    <| RouteRiskState.eligible_alternatives := ranked |>
    <| RouteRiskState.recovery_ranking := Some
         [("ranking_method", JStr "deterministic"); ("score_version", JStr "deterministic-v1");
          ("ranked_candidate_ids", JList (List.map (fun c => JStr (EvaluatedCandidate.candidate_id c)) ranked));
          ("fallback_reason", JStr "learned_ranker_not_enabled")] |>.

(** [recommendation["manager_message"]] raises [KeyError] when absent *)
Definition attach_recovery_ranking (s : state) : res state :=
  let recommendation := recommendation_or_default s in
  let ranked_ids :=
    match get_or "ranked_candidate_ids" (JList []) (default [] (RouteRiskState.recovery_ranking s)) with
    | JList l => l
    | _ => []
    end in
  match dict_get "manager_message" recommendation with
  | None => Raise (KeyError "manager_message")
  | Some message =>
      let r1 := dict_set "ranked_alternative_ids" (JList ranked_ids) recommendation in
      Ok (s <| RouteRiskState.recommendation := Some
        (dict_set "manager_message"
          (JStr (py_str (Some message) +:+ " " +:+ str_int (len ranked_ids) +:+
             " policy-eligible alternatives were ranked by the deterministic recovery score.")) r1) |>)
  end.

Definition policy_gate (s : state) : state :=
  let policy := default [] (RouteRiskState.policy_decision s) in
  let eligible_ids := match get_or "eligible_candidate_ids" (JList []) policy with
                      | JList l => l
                      | _ => []
                      end in
  s <| RouteRiskState.policy_gate := Some
         [("status", JStr "human_approval_required"); ("eligible_candidate_ids", JList eligible_ids);
          ("policy_version", jopt (dict_get "policy_version" policy))] |>.

(** ** The approval interrupt and its continuation *)

(** the value handed to [interrupt] *)
Record approval_payload : Type := {
  ap_incident_id : string;
  ap_original_itinerary : option obj;
  ap_risk_assessment : obj;
  ap_evidence : list obj;
  ap_policy_result : option obj;
  ap_policy_gate : option obj;
  ap_eligible_alternatives : list EvaluatedCandidate.t;
  ap_recovery_ranking : option obj;
  ap_memory_context_version : option json;
  ap_approved_playbooks : list obj;
  ap_recommendation : obj;
  ap_tool_audit : list obj;
  ap_proposed_external_action_payload : obj
}.

Definition interrupt_payload (s : state) : approval_payload :=
  {| ap_incident_id := RouteRiskState.incident_id s;
     ap_original_itinerary := RouteRiskState.trip_context s;
     ap_risk_assessment := RouteRiskState.risk_assessment s;
     ap_evidence := RouteRiskState.evidence s;
     ap_policy_result := RouteRiskState.policy_decision s;
     ap_policy_gate := RouteRiskState.policy_gate s;
     ap_eligible_alternatives := RouteRiskState.eligible_alternatives s;
     ap_recovery_ranking := RouteRiskState.recovery_ranking s;
     ap_memory_context_version := RouteRiskState.memory_context_version s;
     ap_approved_playbooks := RouteRiskState.approved_playbooks s;
     ap_recommendation := recommendation_or_default s;
     ap_tool_audit := RouteRiskState.tool_audit s;
     ap_proposed_external_action_payload := [] |}.

(** the node after [interrupt] returned the human [decision] *)
Definition approval_gate (decision : json) (s : state) : state :=
  let d := jget "decision" decision in
  if is_jobj decision && (jis_str "approve" d || jis_str "reject" d)
  then s <| RouteRiskState.approval := Some decision |>
  else s <| RouteRiskState.approval :=
              Some (JObj [("decision", JStr "reject"); ("reason", JStr "invalid approval payload")]) |>.

Definition queue_approved_action (s : state) : state :=
  let queued :=
    match RouteRiskState.approval s with
    | Some (JObj approval) =>
        match dict_get "action_dispatch_id" approval, dict_get "action_idempotency_key" approval with
        | Some action_dispatch_id, Some idempotency_key =>
            if jis_str "approve" (dict_get "decision" approval) &&
               truthy action_dispatch_id && truthy idempotency_key
            then [[("action_dispatch_id", action_dispatch_id); ("idempotency_key", idempotency_key);
                   ("status", JStr "queued")]]
            else []
        | _, _ => []
        end
    | _ => []
    end in
  s <| RouteRiskState.dispatched_actions := queued |>.

Definition finalize (s : state) : state :=
  s <| RouteRiskState.final_status := Some
         (match RouteRiskState.approval s with
          | Some (JObj approval) => py_str (Some (get_or "decision" (JStr "rejected") approval))
          | _ => "assessed"
          end) |>.

(** ** The compiled graph *)

Inductive step_result : Type :=
  | Goto (n : node) (s : state)
  | Interrupt (payload : approval_payload) (s : state)
  | Done (s : state).

Definition step (p : provider) (rec_id : uuid) (now : instant) (n : node) (s : state) : res step_result :=
  match n with
  | load_memory_context_ => Ok (Goto react_assistant_ (load_memory_context s))
  | react_assistant_ =>
      let s' := react_assistant p s in Ok (Goto (route_after_assistant s') s')
  | tools_ => Ok (Goto react_assistant_ (run_read_only_tool s))
  | recommendation_ =>
      Ok (Goto verify_alternative_eligibility_ (validate_recommendation p rec_id now s))
  | verify_alternative_eligibility_ =>
      s' ← verify_alternative_eligibility s; Ok (Goto rank_eligible_recovery_options_ s')
  | rank_eligible_recovery_options_ =>
      Ok (Goto attach_recovery_ranking_ (rank_eligible_recovery_options s))
  | attach_recovery_ranking_ =>
      s' ← attach_recovery_ranking s; Ok (Goto policy_gate_ s')
  | policy_gate_ => Ok (Goto approval_gate_ (policy_gate s))
  | approval_gate_ => Ok (Interrupt (interrupt_payload s) s)
  | queue_approved_action_ => Ok (Goto finalize_ (queue_approved_action s))
  | finalize_ => Ok (Done (finalize s))
  end.

Inductive outcome : Type :=
  | Interrupted (payload : approval_payload) (s : state)
  | Finished (s : state)
  | Failed (e : exn)
  | RecursionLimit.

(** [fuel] is LangGraph's recursion limit: one unit per super-step *)
Fixpoint run_from (p : provider) (rec_id : uuid) (now : instant) (fuel : nat) (n : node) (s : state)
    : outcome :=
  match fuel with
  | O => RecursionLimit
  | S fuel' =>
      match step p rec_id now n s with
      | Raise e => Failed e
      | Ok (Goto n' s') => run_from p rec_id now fuel' n' s'
      | Ok (Interrupt payload s') => Interrupted payload s'
      | Ok (Done s') => Finished s'
      end
  end.

(** LangGraph's default [recursion_limit] *)
Definition recursion_limit : nat := 25.

(** [graph.ainvoke(state)] and [graph.ainvoke(Command(resume=decision))] *)
Definition invoke (p : provider) (rec_id : uuid) (now : instant) (s : state) : outcome :=
  run_from p rec_id now recursion_limit (route_by_severity s) s.
Definition resume (p : provider) (rec_id : uuid) (now : instant) (decision : json) (s : state) : outcome :=
  run_from p rec_id now recursion_limit queue_approved_action_ (approval_gate decision s).

End Nodes.

(** ** Lemmas *)

Section Invariants.
Context `{Repr} {client : ModelClient} (p : provider) (rec_id : uuid) (now : instant).

Definition model_available (s : state) : bool :=
  OpenAIRecommendationProvider.available_for p (RouteRiskState.llm_enabled s).

(** what no node changes *)
Record frame (s s' : state) : Prop := {
  frame_tenant : RouteRiskState.tenant_id s' = RouteRiskState.tenant_id s;
  frame_trip : RouteRiskState.trip_id s' = RouteRiskState.trip_id s;
  frame_incident : RouteRiskState.incident_id s' = RouteRiskState.incident_id s;
  frame_context : RouteRiskState.trip_context s' = RouteRiskState.trip_context s;
  frame_assessment : RouteRiskState.risk_assessment s' = RouteRiskState.risk_assessment s;
  frame_evidence : RouteRiskState.evidence s' = RouteRiskState.evidence s;
  frame_health : RouteRiskState.source_health s' = RouteRiskState.source_health s;
  frame_llm : RouteRiskState.llm_enabled s' = RouteRiskState.llm_enabled s;
  frame_approval : RouteRiskState.approval s' = RouteRiskState.approval s
}.

Lemma frame_refl s : frame s s.
Proof. by constructor. Qed.
Lemma frame_trans s1 s2 s3 : frame s1 s2 -> frame s2 s3 -> frame s1 s3.
Proof. intros [] []. constructor; congruence. Qed.

Lemma evidence_ids_frame s s' : frame s s' -> evidence_ids_of s' = evidence_ids_of s.
Proof. intros F. unfold evidence_ids_of. by rewrite (frame_evidence _ _ F). Qed.
Lemma citations_frame s s' r : frame s s' -> citations_known s' r = citations_known s r.
Proof. intros F. unfold citations_known. by rewrite (evidence_ids_frame _ _ F). Qed.
Lemma available_frame s s' : frame s s' -> model_available s' = model_available s.
Proof. intros F. unfold model_available. by rewrite (frame_llm _ _ F). Qed.

(** a recommendation that cites known evidence and has the text the next node needs *)
Definition sound_recommendation (s : state) (r : obj) : Prop :=
  citations_known s r = true /\ is_some (dict_get "manager_message" r) = true.

Lemma citations_of_ids s (r : obj) ids :
  dict_get "evidence_ids" r = Some (JList (List.map JStr ids)) ->
  (forall i, In i ids -> In i (evidence_ids_of s)) -> citations_known s r = true.
Proof.
  intros Hr Hids. unfold citations_known, get_or. rewrite Hr. simpl. apply forallb_forall.
  intros j Hj. apply in_map_iff in Hj as (i & <- & Hi). apply existsb_exists.
  exists i. split; [by apply Hids|]. by apply bool_decide_eq_true.
Qed.

Lemma default_sound s : sound_recommendation s (_recommendation s).
Proof. split; [by apply (citations_of_ids _ _ (evidence_ids_of s))|done]. Qed.

Lemma uncertain_get k r : k <> "uncertainty" -> dict_get k (uncertain r) = dict_get k r.
Proof. intros. by apply dict_get_set_ne. Qed.

Lemma uncertain_sound s r : sound_recommendation s r -> sound_recommendation s (uncertain r).
Proof.
  intros [Hc Hm]. split; [|by rewrite uncertain_get].
  unfold citations_known, get_or in *. by rewrite uncertain_get.
Qed.

Definition has_message (r : obj) : Prop := is_some (dict_get "manager_message" r) = true.

Definition at_node (n : node) (s : state) : Prop :=
  0 <= RouteRiskState.react_iterations s <= MAX_REACT_ITERATIONS /\
  (forall r, RouteRiskState.recommendation s = Some r -> has_message r) /\
  match n with
  | load_memory_context_ => RouteRiskState.react_iterations s = 0
  | react_assistant_ =>
      model_available s = true -> RouteRiskState.tool_selection_attempted s = false ->
      RouteRiskState.react_iterations s = 0
  | tools_ =>
      RouteRiskState.react_iterations s < MAX_REACT_ITERATIONS /\
      (model_available s = true -> RouteRiskState.tool_selection_attempted s = true)
  | recommendation_ => True
  | verify_alternative_eligibility_ | rank_eligible_recovery_options_ =>
      exists r, RouteRiskState.recommendation s = Some r /\ sound_recommendation s r
  | attach_recovery_ranking_ =>
      (exists r, RouteRiskState.recommendation s = Some r /\ sound_recommendation s r) /\
      Forall (fun c => EvaluatedCandidate.eligible c = true) (RouteRiskState.eligible_alternatives s) /\
      dict_get "ranked_candidate_ids" (default [] (RouteRiskState.recovery_ranking s)) =
        Some (JList (List.map (fun c => JStr (EvaluatedCandidate.candidate_id c))
                       (RouteRiskState.eligible_alternatives s)))
  | policy_gate_ | approval_gate_ =>
      exists r, RouteRiskState.recommendation s = Some r /\ sound_recommendation s r /\
      Forall (fun c => EvaluatedCandidate.eligible c = true) (RouteRiskState.eligible_alternatives s) /\
      dict_get "ranked_alternative_ids" r =
        Some (JList (List.map (fun c => JStr (EvaluatedCandidate.candidate_id c))
                       (RouteRiskState.eligible_alternatives s)))
  | queue_approved_action_ | finalize_ => True
  end.

(** model completions: at most one selection, then at most one recommendation *)
Definition before_recommendation (n : node) : bool :=
  match n with
  | load_memory_context_ | react_assistant_ | tools_ | recommendation_ => true
  | _ => false
  end.
Definition completions_used (n : node) (s : state) : Z :=
  len (RouteRiskState.model_audit s) +
  (if before_recommendation n then (if RouteRiskState.tool_selection_attempted s then 1 else 2) else 0).

(** super-steps still possible before the interrupt *)
Definition tool_rounds (s : state) : Z :=
  (if RouteRiskState.tool_selection_attempted s then 0 else 1) +
  Z.max 0 (MAX_REACT_ITERATIONS - RouteRiskState.react_iterations s).
Definition steps_to_gate (n : node) (s : state) : Z :=
  match n with
  | load_memory_context_ => 8 + 2 * tool_rounds s
  | react_assistant_ => 7 + 2 * tool_rounds s
  | tools_ => 8 + 2 * (tool_rounds s - if is_some (accepted_call s) then 1 else 0)
  | recommendation_ => 6
  | verify_alternative_eligibility_ => 5
  | rank_eligible_recovery_options_ => 4
  | attach_recovery_ranking_ => 3
  | policy_gate_ => 2
  | approval_gate_ => 1
  | queue_approved_action_ => 2
  | finalize_ => 1
  end.

#[local] Arguments mem : simpl never.

(** the result of a step from [n], [s] that goes to [n'], [s'] *)
Record advances (n : node) (s : state) (n' : node) (s' : state) : Prop := {
  adv_frame : frame s s';
  adv_node : at_node n' s';
  adv_completions : completions_used n' s' <= completions_used n s;
  adv_steps : 0 < steps_to_gate n' s' < steps_to_gate n s
}.

Lemma next_tool_accepted s tool :
  _next_tool s = Some tool ->
  In tool READ_ONLY_TOOLS /\ RouteRiskState.react_iterations s < MAX_REACT_ITERATIONS.
Proof.
  unfold _next_tool. destruct (Z.leb_spec MAX_REACT_ITERATIONS (RouteRiskState.react_iterations s)); [done|].
  destruct (List.find _ preferred_tools) as [[t n]|] eqn:E; [|done]. intros [= <-].
  apply List.find_some in E as [Hin _]. split; [|done]. simpl in Hin.
  destruct Hin as [[= _ <-]|[[= _ <-]|[[= _ <-]|[]]]]; vm_compute; tauto.
Qed.

Lemma follow_up_accepts s tool :
  _next_tool s = Some tool ->
  accepted_call (follow_up s) = Some (tool, [("trip_id", JStr (RouteRiskState.trip_id s))]).
Proof.
  intros E. unfold follow_up. rewrite E. unfold accepted_call.
  apply next_tool_accepted in E as [Hin _]. apply mem_true_iff in Hin. simpl. rewrite Hin.
  by rewrite bool_decide_true.
Qed.

Lemma load_memory_advances s :
  at_node load_memory_context_ s -> advances load_memory_context_ s react_assistant_ (load_memory_context s).
Proof.
  intros (Hi & Hr & H0). constructor; [by constructor| | |].
  - split; [done|]. split; [done|]. by intros _ _.
  - unfold completions_used. simpl. lia.
  - unfold steps_to_gate, tool_rounds. simpl. destruct (RouteRiskState.tool_selection_attempted s); lia.
Qed.

Lemma len_snoc {A} (l : list A) x : len (l ++ [x]) = len l + 1.
Proof. unfold len. rewrite length_app. simpl. lia. Qed.

(** after a turn of the assistant: the edge it takes *)
Lemma assistant_edge s s' :
  frame s s' -> 0 <= RouteRiskState.react_iterations s' <= MAX_REACT_ITERATIONS ->
  (forall r, RouteRiskState.recommendation s' = Some r -> has_message r) ->
  (truthy_obj (RouteRiskState.pending_tool_call s') = true -> at_node tools_ s') ->
  completions_used react_assistant_ s' <= completions_used react_assistant_ s ->
  0 < steps_to_gate (route_after_assistant s') s' < steps_to_gate react_assistant_ s ->
  advances react_assistant_ s (route_after_assistant s') s'.
Proof.
  intros F Hi Hr Ht Hc Hs. constructor; [done| | |done].
  - unfold route_after_assistant. destruct (truthy_obj _); [by apply Ht|].
    split; [exact Hi|]. split; [exact Hr|exact I].
  - unfold route_after_assistant. destruct (truthy_obj _); exact Hc.
Qed.

Lemma follow_up_advances s :
  at_node react_assistant_ s -> ~ (model_available s = true /\ RouteRiskState.tool_selection_attempted s = false) ->
  advances react_assistant_ s (route_after_assistant (follow_up s)) (follow_up s).
Proof.
  intros (Hi & Hr & _) Hna. destruct (_next_tool s) as [tool|] eqn:E.
  - pose proof (follow_up_accepts s tool E) as Hacc. pose proof (next_tool_accepted s tool E) as [_ Hlt].
    assert (Hf : follow_up s = s
      <| RouteRiskState.tool_selection_mode := Some "deterministic_follow_up" |>
      <| RouteRiskState.pending_tool_call := Some [("name", JStr tool);
           ("arguments", JObj [("trip_id", JStr (RouteRiskState.trip_id s))])] |>)
      by (unfold follow_up; by rewrite E).
    rewrite Hf in *. apply assistant_edge; try done.
    + intros _. split; [done|]. split; [done|]. split; [done|]. intros Ha.
      change (model_available s = true) in Ha. apply not_false_is_true. intros Hat. by apply Hna.
    + unfold route_after_assistant, steps_to_gate. cbn [truthy_obj RouteRiskState.pending_tool_call nonempty over].
      rewrite Hacc. unfold tool_rounds. simpl.
      destruct (RouteRiskState.tool_selection_attempted s); unfold MAX_REACT_ITERATIONS in *; lia.
  - assert (Hf : follow_up s = s <| RouteRiskState.pending_tool_call := None |>
                                 <| RouteRiskState.recommendation := Some (_recommendation s) |>)
      by (unfold follow_up; by rewrite E).
    rewrite Hf. apply assistant_edge; try done.
    + intros r [= <-]. done.
    + unfold route_after_assistant, steps_to_gate, tool_rounds. simpl.
      destruct (RouteRiskState.tool_selection_attempted s); lia.
Qed.

Lemma react_assistant_advances s :
  at_node react_assistant_ s ->
  advances react_assistant_ s (route_after_assistant (react_assistant p s)) (react_assistant p s).
Proof.
  intros Hn. pose proof Hn as (Hi & Hr & H0). unfold react_assistant.
  fold (model_available s). destruct (RouteRiskState.tool_selection_attempted s) eqn:Hat; cbn [negb andb].
  { apply follow_up_advances; [done|]. rewrite Hat. naive_solver. }
  destruct (model_available s) eqn:Hav; [|apply follow_up_advances; [done|]; rewrite Hav; naive_solver].
  specialize (H0 eq_refl eq_refl).
  assert (Hsteps : forall s', RouteRiskState.react_iterations s' = 0 ->
            RouteRiskState.tool_selection_attempted s' = true ->
            0 < steps_to_gate (route_after_assistant s') s' < steps_to_gate react_assistant_ s).
  { intros s' Hi' Ha'. unfold route_after_assistant, steps_to_gate, tool_rounds. rewrite Hi', Ha', Hat, H0.
    unfold MAX_REACT_ITERATIONS. destruct (truthy_obj _); [|lia]. destruct (is_some _); lia. }
  assert (Htools : forall s', RouteRiskState.react_iterations s' = 0 ->
            RouteRiskState.tool_selection_attempted s' = true ->
            (forall r, RouteRiskState.recommendation s' = Some r -> has_message r) -> at_node tools_ s').
  { intros s' Hi' Ha' Hr'. unfold at_node. rewrite Hi', Ha'. unfold MAX_REACT_ITERATIONS. split_and!; try done; lia. }
  destruct (OpenAIRecommendationProvider.select_tool _ _ _ _ _ _) as [[selection|]|e];
    apply assistant_edge; try done; try (by constructor); try (by intros _; apply Htools); try (by apply Hsteps);
    try (unfold completions_used; simpl; rewrite Hat, len_snoc; lia);
    by intros r [= <-].
Qed.

Lemma tool_advances s :
  at_node tools_ s -> advances tools_ s react_assistant_ (run_read_only_tool s).
Proof.
  intros (Hi & Hr & Hlt & Ha). unfold run_read_only_tool.
  destruct (accepted_call s) as [[name arguments]|] eqn:E.
  - constructor; [by constructor| | |].
    + split; [simpl; lia|]. split; [done|]. intros Hav Hat. change (model_available s = true) in Hav.
      change (RouteRiskState.tool_selection_attempted s = false) in Hat. by rewrite (Ha Hav) in Hat.
    + unfold completions_used. simpl. lia.
    + unfold steps_to_gate. rewrite E. unfold tool_rounds. simpl.
      destruct (RouteRiskState.tool_selection_attempted s); lia.
  - constructor; [by constructor| | |].
    + split; [done|]. split; [by intros r [= <-]|]. intros Hav Hat. change (model_available s = true) in Hav.
      change (RouteRiskState.tool_selection_attempted s = false) in Hat. by rewrite (Ha Hav) in Hat.
    + unfold completions_used. simpl. lia.
    + unfold steps_to_gate. rewrite E. unfold tool_rounds. simpl.
      destruct (RouteRiskState.tool_selection_attempted s); lia.
Qed.

(** ** From the recommendation to the gate *)

Lemma dump_has_message x : has_message (dump_recommendation x).
Proof. done. Qed.

Lemma recommendation_or_default_message s :
  (forall r, RouteRiskState.recommendation s = Some r -> has_message r) ->
  has_message (recommendation_or_default s).
Proof.
  intros Hr. unfold recommendation_or_default. destruct (RouteRiskState.recommendation s) as [r|]; [|done].
  simpl. destruct (nonempty r); [by apply Hr|done].
Qed.

(** the recommendation before the citation check *)
Lemma drafted_has_message s :
  (forall r, RouteRiskState.recommendation s = Some r -> has_message r) ->
  forall r, model_recommendation p rec_id now s = Ok r -> has_message r.
Proof.
  intros _ r. unfold model_recommendation. destruct (parse_uuid _); [|done].
  cbv [fmap res_fmap]. destruct (OpenAIRecommendationProvider.recommend _ _ _ _ _ _ _); [|done].
  intros [= <-]. apply dump_has_message.
Qed.

Lemma checked_sound s r :
  has_message r ->
  sound_recommendation s (if citations_known s r then r else uncertain (_recommendation s)).
Proof.
  intros Hm. destruct (citations_known s r) eqn:E; [by split|]. apply uncertain_sound, default_sound.
Qed.

Lemma validate_advances s :
  at_node recommendation_ s ->
  advances recommendation_ s verify_alternative_eligibility_ (validate_recommendation p rec_id now s).
Proof.
  intros (Hi & Hr & _). unfold validate_recommendation. fold (model_available s).
  assert (Hshape : exists r audit, has_message r /\ len audit <= 1 /\
    validate_recommendation p rec_id now s = s
      <| RouteRiskState.recommendation :=
           Some (if citations_known s r then r else uncertain (_recommendation s)) |>
      <| RouteRiskState.model_audit ::= fun l => l ++ audit |>).
  { unfold validate_recommendation. fold (model_available s).
    destruct (model_available s && is_severe s).
    - destruct (model_recommendation p rec_id now s) as [r|e] eqn:E; do 2 eexists;
        (split; [|split; [|reflexivity]]); [by eapply drafted_has_message|by unfold len|done|by unfold len].
    - do 2 eexists. split; [|split; [|reflexivity]]; [by apply recommendation_or_default_message|by unfold len]. }
  unfold validate_recommendation in Hshape. fold (model_available s) in Hshape.
  destruct Hshape as (r & audit & Hm & Hl & ->).
  pose proof (checked_sound s r Hm) as Hsound. constructor.
  - done.
  - split; [done|]. split; [intros r' [= <-]; apply Hsound|]. eexists. split; [reflexivity|]. exact Hsound.
  - unfold completions_used, len in *. simpl. rewrite length_app.
    destruct (RouteRiskState.tool_selection_attempted s); lia.
  - simpl. lia.
Qed.

Lemma fixture_evaluation minimum :
  exists evaluated, mapM (fun candidate =>
      e ← evaluate_policy_eligible_candidate candidate CorporateTravelPolicy.default;
      Ok (apply_traveler_minimum_connection e minimum)) fixture_alternatives = Ok evaluated.
Proof.
  apply mapM_res_total. intros c Hc.
  destruct (evaluate_policy_total c CorporateTravelPolicy.default) as [e ->].
  - simpl in Hc. destruct Hc as [<-|[<-|[]]]; reflexivity.
  - simpl in Hc. destruct Hc as [<-|[<-|[]]]; vm_compute; reflexivity.
  - by eexists.
Qed.

Lemma verify_advances s :
  at_node verify_alternative_eligibility_ s ->
  exists s', verify_alternative_eligibility s = Ok s' /\
    advances verify_alternative_eligibility_ s rank_eligible_recovery_options_ s'.
Proof.
  intros (Hi & Hr & r & Hrec & Hs). unfold verify_alternative_eligibility.
  destruct (fixture_evaluation (minimum_connection s)) as [l ->].
  eexists. split; [reflexivity|]. constructor; [done| | |simpl; lia].
  - split; [done|]. split; [done|]. by exists r.
  - unfold completions_used. simpl. lia.
Qed.

Lemma rank_eligible_eligible cs c : In c (rank_eligible cs) -> EvaluatedCandidate.eligible c = true.
Proof.
  intros Hc.
  assert (Hl : In (clear_position c) (List.map clear_position (rank_eligible cs))) by by apply in_map.
  rewrite rank_eligible_cleared in Hl. apply in_map_iff in Hl as (c' & Heq & Hc').
  apply sorted_in, filter_In in Hc' as [_ He].
  change (EvaluatedCandidate.eligible (clear_position c) = true). by rewrite <- Heq.
Qed.

Lemma rank_advances s :
  at_node rank_eligible_recovery_options_ s ->
  advances rank_eligible_recovery_options_ s attach_recovery_ranking_ (rank_eligible_recovery_options s).
Proof.
  intros (Hi & Hr & r & Hrec & Hs). constructor; [done| | |simpl; lia].
  - split; [done|]. split; [done|]. split; [by exists r|]. split; [|done].
    apply List.Forall_forall. intros c. apply rank_eligible_eligible.
  - unfold completions_used. simpl. lia.
Qed.

Lemma dict_set_message_sound s r m :
  sound_recommendation s r -> sound_recommendation s (dict_set "manager_message" m r).
Proof.
  intros [Hc _]. split; [|by rewrite dict_get_set_eq].
  unfold citations_known, get_or in *. by rewrite dict_get_set_ne.
Qed.

Lemma dict_set_ranked_sound s r m :
  sound_recommendation s r -> sound_recommendation s (dict_set "ranked_alternative_ids" m r).
Proof.
  intros [Hc Hm]. split; [|by rewrite dict_get_set_ne].
  unfold citations_known, get_or in *. by rewrite dict_get_set_ne.
Qed.

Lemma attach_advances s :
  at_node attach_recovery_ranking_ s ->
  exists s', attach_recovery_ranking s = Ok s' /\ advances attach_recovery_ranking_ s policy_gate_ s'.
Proof.
  intros (Hi & Hr & (r & Hrec & Hs) & Hel & Hrank). unfold attach_recovery_ranking.
  assert (Hne : nonempty r = true) by (destruct Hs as [_ Hm]; by destruct r).
  assert (Hrd : recommendation_or_default s = r)
    by (unfold recommendation_or_default; rewrite Hrec; simpl; by rewrite Hne).
  rewrite Hrd. unfold get_or. rewrite Hrank. cbn [default].
  destruct (dict_get "manager_message" r) as [m|] eqn:Em; [|destruct Hs as [_ Hm]; by rewrite Em in Hm].
  eexists. split; [reflexivity|].
  match goal with |- context [dict_set "manager_message" ?m (dict_set ?k ?v r)] =>
    pose proof (dict_set_message_sound s _ m (dict_set_ranked_sound s r v Hs)) as Hsound end.
  constructor; [done| | |simpl; lia].
  - split; [done|]. split; [intros r' [= <-]; apply Hsound|]. eexists. split; [reflexivity|].
    split; [exact Hsound|]. split; [done|].
    rewrite dict_get_set_ne by done. by rewrite dict_get_set_eq.
  - unfold completions_used. simpl. lia.
Qed.

Lemma policy_gate_advances s :
  at_node policy_gate_ s -> advances policy_gate_ s approval_gate_ (policy_gate s).
Proof.
  intros (Hi & Hr & Hrest). constructor; [done| | |simpl; lia].
  - split; [done|]. by split.
  - unfold completions_used. simpl. lia.
Qed.

(** the nodes between the entry and the gate *)
Definition full_path (n : node) : bool :=
  match n with approval_gate_ | queue_approved_action_ | finalize_ => false | _ => true end.

Lemma Goto_inj n s n' s' : Ok (Goto n s) = Ok (Goto n' s') -> n = n' /\ s = s'.
Proof. by intros [= -> ->]. Qed.

Lemma step_advances n s :
  full_path n = true -> at_node n s ->
  exists n' s', step p rec_id now n s = Ok (Goto n' s') /\ advances n s n' s'.
Proof.
  intros Hn Hs. destruct n; try discriminate Hn; cbn [step].
  - do 2 eexists. split; [reflexivity|by apply load_memory_advances].
  - do 2 eexists. split; [reflexivity|by apply react_assistant_advances].
  - do 2 eexists. split; [reflexivity|by apply tool_advances].
  - do 2 eexists. split; [reflexivity|by apply validate_advances].
  - destruct (verify_advances s Hs) as (s' & -> & Ha). by do 2 eexists.
  - do 2 eexists. split; [reflexivity|by apply rank_advances].
  - destruct (attach_advances s Hs) as (s' & -> & Ha). by do 2 eexists.
  - do 2 eexists. split; [reflexivity|by apply policy_gate_advances].
Qed.

(** every node of the investigation, before the gate *)
Definition investigation (n : node) : bool :=
  match n with queue_approved_action_ | finalize_ => false | _ => true end.

(** The run from any such node reaches the interrupt within its step budget. *)
Lemma run_reaches_gate fuel : forall n s,
  investigation n = true -> at_node n s -> steps_to_gate n s <= Z.of_nat fuel ->
  exists s', run_from p rec_id now fuel n s = Interrupted (interrupt_payload s') s' /\
    frame s s' /\ at_node approval_gate_ s' /\
    len (RouteRiskState.model_audit s') <= completions_used n s.
Proof.
  induction fuel as [|fuel IH]; intros n s Hn Hs Hf.
  - exfalso. destruct (full_path n) eqn:Hfull.
    + destruct (step_advances n s Hfull Hs) as (n' & s' & _ & [_ _ _ Hadv]). lia.
    + destruct n; try discriminate; simpl in Hf; lia.
  - destruct (full_path n) eqn:Hfull.
    + destruct (step_advances n s Hfull Hs) as (n' & s1 & Hstep & [Hframe Hnode Hcomp Hadv]).
      assert (Hn' : investigation n' = true).
      { destruct n; try discriminate Hfull; cbn [step] in Hstep;
          try (apply res_bind_ok in Hstep as (? & _ & Hstep)); apply Goto_inj in Hstep as [<- _];
          try reflexivity. unfold route_after_assistant. by destruct (truthy_obj _). }
      cbn [run_from]. rewrite Hstep. destruct (IH n' s1 Hn' Hnode ltac:(lia)) as (s' & Hrun & Hfr & Hgate & Hlen).
      exists s'. split; [exact Hrun|]. split; [by eapply frame_trans|]. split; [done|lia].
    + destruct n; try discriminate. cbn [run_from step]. exists s. split; [done|]. split; [done|]. split; [done|].
      unfold completions_used. simpl. lia.
Qed.

End Invariants.

(** a state as the service starts the graph: no iteration run, nothing selected *)
Record initial (s : state) : Prop := {
  initial_iterations : RouteRiskState.react_iterations s = 0;
  initial_recommendation : RouteRiskState.recommendation s = None
}.

(** the assessment needs a human: a severe one, or two core sources down *)
Definition needs_review `{Repr} (s : state) : bool :=
  is_severe s || match core_unavailable s with JList l => 2 <=? len l | _ => false end.

Section Outcomes.
Context `{Repr} {client : ModelClient} (p : provider) (rec_id : uuid) (now : instant).

Lemma route_cases s :
  match route_by_severity s with
  | load_memory_context_ => is_severe s = true
  | approval_gate_ => needs_review s = true
  | finalize_ => needs_review s = false
  | _ => False
  end.
Proof.
  unfold route_by_severity, needs_review. destruct (core_unavailable s); destruct (is_severe s) eqn:E; simpl; try done;
    destruct (Z.leb_spec 2 (len l)); simpl; try done; by destruct (in_json_list _ l).
Qed.

Lemma initial_at_load s : initial s -> at_node p load_memory_context_ s.
Proof.
  intros [Hi Hr]. unfold at_node. rewrite Hi, Hr. unfold MAX_REACT_ITERATIONS. split_and!; try done; lia.
Qed.

Lemma initial_steps s : initial s -> steps_to_gate load_memory_context_ s <= 16.
Proof.
  intros [Hi _]. unfold steps_to_gate, tool_rounds. rewrite Hi. unfold MAX_REACT_ITERATIONS.
  destruct (RouteRiskState.tool_selection_attempted s); lia.
Qed.

Lemma invoke_full s :
  initial s -> route_by_severity s = load_memory_context_ ->
  exists s', invoke p rec_id now s = Interrupted (interrupt_payload s') s' /\
    frame s s' /\ at_node p approval_gate_ s' /\
    len (RouteRiskState.model_audit s') <= len (RouteRiskState.model_audit s) + 2.
Proof.
  intros Hi Hr. unfold invoke. rewrite Hr. pose proof (initial_steps s Hi) as Hst.
  destruct (run_reaches_gate p rec_id now recursion_limit load_memory_context_ s eq_refl
              (initial_at_load s Hi)) as (s' & Hrun & Hf & Hg & Hl).
  { unfold recursion_limit. lia. }
  exists s'. split_and!; try done. unfold completions_used in Hl. simpl in Hl.
  destruct (RouteRiskState.tool_selection_attempted s); lia.
Qed.

Lemma invoke_short s :
  route_by_severity s = approval_gate_ ->
  invoke p rec_id now s = Interrupted (interrupt_payload s) s.
Proof. intros Hr. unfold invoke. by rewrite Hr. Qed.

(** C8.  The workflow always ends, within LangGraph's recursion limit and
    without an error, and never past a human: whatever the model returns or
    raises, an assessment that needs review (high or critical severity, or two
    core sources unavailable) is interrupted for approval, and any other one is
    finalized as assessed; the deterministic assessment, the evidence and the
    source health reach the gate unchanged. *)
Theorem human_gate s :
  initial s -> RouteRiskState.approval s = None ->
  if needs_review s
  then exists payload s', invoke p rec_id now s = Interrupted payload s' /\ frame s s' /\
         ap_risk_assessment payload = RouteRiskState.risk_assessment s /\
         ap_evidence payload = RouteRiskState.evidence s /\
         ap_proposed_external_action_payload payload = []
  else exists s', invoke p rec_id now s = Finished s' /\
         RouteRiskState.final_status s' = Some "assessed" /\
         RouteRiskState.dispatched_actions s' = RouteRiskState.dispatched_actions s.
Proof.
  intros Hi Ha. pose proof (route_cases s) as Hr. destruct (route_by_severity s) eqn:E; try done.
  - unfold needs_review. rewrite Hr. simpl.
    destruct (invoke_full s Hi E) as (s' & Hrun & Hf & _ & _).
    exists (interrupt_payload s'), s'. split_and!; try done; [apply (frame_assessment _ _ Hf)|apply (frame_evidence _ _ Hf)].
  - rewrite Hr. exists (interrupt_payload s), s. split; [by apply invoke_short|]. by split_and!.
  - rewrite Hr. eexists. unfold invoke. rewrite E. simpl. split; [reflexivity|]. simpl. by rewrite Ha.
Qed.

(** The model's budget and the tools': a run makes at most two model
    completions (each leaves one audit record) and at most
    [MAX_REACT_ITERATIONS] read-only lookups. *)
Theorem bounded_model_use s payload s' :
  initial s -> invoke p rec_id now s = Interrupted payload s' ->
  len (RouteRiskState.model_audit s') <= len (RouteRiskState.model_audit s) + 2 /\
  0 <= RouteRiskState.react_iterations s' <= MAX_REACT_ITERATIONS.
Proof.
  intros Hi E. pose proof (route_cases s) as Hr. destruct (route_by_severity s) eqn:Er; try done.
  - destruct (invoke_full s Hi Er) as (s1 & Hrun & _ & Hg & Hl). rewrite Hrun in E.
    injection E as <- <-. split; [done|]. apply Hg.
  - rewrite (invoke_short s Er) in E. injection E as <- <-. split; [lia|].
    rewrite (initial_iterations _ Hi). unfold MAX_REACT_ITERATIONS. lia.
  - unfold invoke in E. rewrite Er in E. discriminate E.
Qed.

(** C17.  Grounding: the recommendation a manager is shown cites only evidence of
    this assessment, whatever the model cited; and when the investigation ran, the
    ranked alternatives in it are exactly the ids of the alternatives shown with
    it, in their order, all of which passed policy and traveler constraints. *)
Theorem recommendation_grounded s payload s' :
  initial s -> invoke p rec_id now s = Interrupted payload s' ->
  citations_known s (ap_recommendation payload) = true /\
  (route_by_severity s = load_memory_context_ ->
   Forall (fun c => EvaluatedCandidate.eligible c = true) (ap_eligible_alternatives payload) /\
   dict_get "ranked_alternative_ids" (ap_recommendation payload) =
     Some (JList (List.map (fun c => JStr (EvaluatedCandidate.candidate_id c))
                    (ap_eligible_alternatives payload)))).
Proof.
  intros Hi E. pose proof (route_cases s) as Hr. destruct (route_by_severity s) eqn:Er; try done.
  - destruct (invoke_full s Hi Er) as (s1 & Hrun & Hf & (_ & _ & r & Hrec & [Hc Hm] & Hel & Hrank) & _).
    rewrite Hrun in E. injection E as <- <-.
    assert (Hpay : ap_recommendation (interrupt_payload s1) = r).
    { simpl. unfold recommendation_or_default. rewrite Hrec. simpl. by destruct r. }
    rewrite Hpay. split; [by rewrite <- (citations_frame s s1 r Hf)|]. by intros _.
  - rewrite (invoke_short s Er) in E. injection E as <- <-. split; [|done]. simpl.
    unfold recommendation_or_default. rewrite (initial_recommendation _ Hi). apply default_sound.
  - unfold invoke in E. rewrite Er in E. discriminate E.
Qed.

Definition invalid_approval : json :=
  JObj [("decision", JStr "reject"); ("reason", JStr "invalid approval payload")].


End Outcomes.

(** ** Witnesses *)

(** a model that selects a tool for another trip and cites evidence it made up *)
Definition rogue_model : ModelClient := {|
  invoke_tools := fun _ _ => Ok (JList [JObj [("name", JStr "get_flight_status");
                                              ("args", JObj [("trip_id", JStr "other")])]]);
  invoke_structured := fun _ _ => Ok (RecommendationOutput.mk "e" [77%N] "low" "a" ["x"] "t" "m" false [])
|}.
Definition plain_repr : Repr := fun _ => "".
Definition enabled_provider : provider := OpenAIRecommendationProvider.mk "gpt" (Some "key") true.

Definition severe_state : state :=
  {| RouteRiskState.tenant_id := "t1"; RouteRiskState.trip_id := uuid_str 1%N;
     RouteRiskState.incident_id := uuid_str 2%N; RouteRiskState.trip_context := None;
     RouteRiskState.traveler_context := None; RouteRiskState.memory_context := None;
     RouteRiskState.memory_context_version := None; RouteRiskState.playbook_context := [];
     RouteRiskState.approved_playbooks := [];
     RouteRiskState.risk_assessment := [("severity", JStr "critical")];
     RouteRiskState.evidence := [[("evidence_id", juuid 5%N); ("source_type", JStr "flight_status")]];
     RouteRiskState.source_health := [("core_sources_unavailable", JList [])];
     RouteRiskState.react_iterations := 0; RouteRiskState.tool_audit := [];
     RouteRiskState.model_audit := []; RouteRiskState.llm_enabled := true;
     RouteRiskState.tool_selection_attempted := false; RouteRiskState.tool_selection_mode := None;
     RouteRiskState.pending_tool_call := None; RouteRiskState.alternative_candidates := [];
     RouteRiskState.eligible_alternatives := []; RouteRiskState.recovery_ranking := None;
     RouteRiskState.policy_decision := None; RouteRiskState.policy_gate := None;
     RouteRiskState.recommendation := None; RouteRiskState.approval := None;
     RouteRiskState.dispatched_actions := []; RouteRiskState.final_status := None |}.

Lemma severe_initial : initial severe_state.
Proof. by constructor. Qed.

Lemma severe_interrupted :
  exists payload s', @invoke plain_repr rogue_model enabled_provider 9%N 0 severe_state = Interrupted payload s'.
Proof.
  destruct (@invoke_full plain_repr rogue_model enabled_provider 9%N 0 severe_state severe_initial
    ltac:(reflexivity)) as (s' & E & _). by do 2 eexists.
Qed.

Lemma human_gate_witness :
  exists payload s', @invoke plain_repr rogue_model enabled_provider 9%N 0 severe_state = Interrupted payload s' /\
    ap_risk_assessment payload = [("severity", JStr "critical")].
Proof.
  pose proof (@human_gate plain_repr rogue_model enabled_provider 9%N 0 severe_state severe_initial
    ltac:(reflexivity)) as Hgate.
  change (@needs_review plain_repr severe_state) with true in Hgate.
  destruct Hgate as (payload & s' & E & _ & Ha & _). exists payload, s'. split; [exact E|exact Ha].
Defined.

Lemma bounded_model_use_witness :
  exists payload s', @invoke plain_repr rogue_model enabled_provider 9%N 0 severe_state = Interrupted payload s' /\
    len (RouteRiskState.model_audit s') <= 2.
Proof.
  destruct severe_interrupted as (payload & s' & E). exists payload, s'. split; [exact E|].
  exact (proj1 (@bounded_model_use plain_repr rogue_model enabled_provider 9%N 0 severe_state payload s'
    severe_initial E)).
Defined.

Lemma recommendation_grounded_witness :
  exists payload s', @invoke plain_repr rogue_model enabled_provider 9%N 0 severe_state = Interrupted payload s' /\
    @citations_known plain_repr severe_state (ap_recommendation payload) = true.
Proof.
  destruct severe_interrupted as (payload & s' & E). exists payload, s'. split; [exact E|].
  exact (proj1 (@recommendation_grounded plain_repr rogue_model enabled_provider 9%N 0 severe_state payload s'
    severe_initial E)).
Defined.
