(* ===== verification/Providers.v ===== *)
(** * [tools/]: evidence collection, bounded provider adapters, normalizers

    The HTTP client is httpx: an attempt is a value of [attempt], what the
    request, the status check and the JSON decoding gave.  The service uses the
    process-local cache; the Redis one is in [RedisProviderCache]. *)

From S2P Require Import Prelude PyData Float64 PyStd Enums Models Recovery.

Module DemoScenario.

Inductive t : Type := NORMAL | DISRUPTION | SOURCE_OUTAGE.

#[global] Instance eq_dec : EqDecision t.
Proof. solve_decision. Defined.

#[global] Instance enum : StrEnum t.
Proof.
  refine {| value := fun x => match x with
    | NORMAL => "normal"
    | DISRUPTION => "disruption"
    | SOURCE_OUTAGE => "source_outage"
    end;
    members := [NORMAL; DISRUPTION; SOURCE_OUTAGE] |}; enum_laws.
Defined.

End DemoScenario.

(** ** The captured fixtures ([FixtureEvidenceCollector.collect_baseline]) *)

Definition fixture_scores (scenario : DemoScenario.t) : dict string (option Z) :=
  match scenario with
  | DemoScenario.NORMAL =>
      [("flight_status", Some 5); ("connection_feasibility", Some 10); ("airport_weather", Some 5);
       ("ground_route", Some 10); ("destination_advisory", Some 15)]
  | DemoScenario.DISRUPTION =>
      [("flight_status", Some 90); ("connection_feasibility", Some 75); ("airport_weather", Some 70);
       ("ground_route", Some 35); ("destination_advisory", Some 15)]
  | DemoScenario.SOURCE_OUTAGE =>
      [("flight_status", None); ("connection_feasibility", Some 10); ("airport_weather", None);
       ("ground_route", Some 10); ("destination_advisory", Some 15)]
  end.

Definition source_names : dict string string :=
  [("flight_status", "fixture-amadeus"); ("connection_feasibility", "routeshield-calculator");
   ("airport_weather", "fixture-nws-aviation-weather"); ("ground_route", "fixture-google-routes");
   ("destination_advisory", "fixture-state-department")].

Definition fixture_envelope (id : uuid) (now : instant) (correlation_id : string)
    (source_type : string) (score : option Z) : res EvidenceEnvelope.t :=
  construct "EvidenceEnvelope" EvidenceEnvelope.valid
    {| EvidenceEnvelope.evidence_id := id;
       EvidenceEnvelope.source_name := default "" (dict_get source_type source_names);
       EvidenceEnvelope.source_type := source_type;
       EvidenceEnvelope.source_url_or_record_id :=
         "fixture:" +:+ correlation_id +:+ ":" +:+ source_type;
       EvidenceEnvelope.retrieved_at := utc now;
       EvidenceEnvelope.observed_at := Some (utc now);
       EvidenceEnvelope.expires_at := utc (now + 15 * minute);
       EvidenceEnvelope.freshness_status :=
         match score with None => FreshnessStatus.UNAVAILABLE | Some _ => FreshnessStatus.FRESH end;
       EvidenceEnvelope.normalized_payload :=
         match score with None => [] | Some n => [("risk_score", JInt n)] end;
       EvidenceEnvelope.raw_payload_reference := None;
       EvidenceEnvelope.provider_latency_ms := None;
       EvidenceEnvelope.provider_request_id := None;
       EvidenceEnvelope.error_code :=
         match score with None => Some "fixture_provider_unavailable" | Some _ => None end |}.

Definition collect_baseline (scenario : DemoScenario.t) (fresh : nat -> uuid) (now : instant)
    (correlation_id : string) : res (list EvidenceEnvelope.t) :=
  mapM (fun '(i, (source_type, score)) =>
          fixture_envelope (fresh (Z.to_nat i)) now correlation_id source_type score)
    (enumerate 0 (fixture_scores scenario)).

(** ** Normalizers *)

Definition is_nonempty_list (j : json) : bool := match j with JList (_ :: _) => true | _ => false end.
Definition score_payload (n : Z) : dict string json := [("risk_score", JInt n)].
Definition payload_get (k : string) (def : json) (payload : dict string json) : json :=
  default def (dict_get k payload).

Definition normalize_faa_nas (payload : dict string json) : dict string json :=
  score_payload (if is_nonempty_list (payload_get "events" (JList []) payload) then 75 else 0).
Definition normalize_nws_alerts (payload : dict string json) : dict string json :=
  score_payload (if is_nonempty_list (payload_get "features" (JList []) payload) then 80 else 0).
Definition normalize_aviation_weather (payload : dict string json) : dict string json :=
  score_payload (if is_nonempty_list (payload_get "hazards" (JList []) payload) then 70 else 0).

(** [isinstance(j, int | float)] with [float(j)]; [True] is an int *)
Definition as_float (j : json) : option (res f64) :=
  match j with
  | JInt n => Some (float_of_int n)
  | JBool b => Some (Ok (f_int (if b then 1 else 0)))
  | JFloat x => Some (Ok x)
  | _ => None
  end.

(** [min(100, x)] is [100] only when [x > 100] *)
Definition normalize_google_routes (payload : dict string json) : res (dict string json) :=
  match as_float (payload_get "traffic_delay_minutes" (JInt 0) payload) with
  | Some r =>
      x ← r;
      let doubled := fmul x (f_int 2) in
      Ok [("risk_score", if flt doubled (f_int 100) then JFloat doubled else JInt 100)]
  | None => Ok [("risk_score", JInt 0)]
  end.

Definition normalize_destination_advisory (payload : dict string json) : dict string json :=
  match payload_get "advisory_level" (JInt 1) payload with
  | JInt level => score_payload (Z.min 100 (Z.max 0 ((level - 1) * 30)))
  | JBool b => score_payload (Z.min 100 (Z.max 0 (((if b then 1 else 0) - 1) * 30)))
  | _ => score_payload 0
  end.

(** [tools/amadeus.py]; [text] is Python's [str] of a JSON value *)
Definition amadeus_score (status : string) : Z :=
  default 30 (dict_get status
    [("SCHEDULED", 5); ("ACTIVE", 15); ("LANDED", 0); ("CANCELLED", 100); ("DELAYED", 70)]).
Definition normalize_amadeus_status (text : json -> string) (payload : dict string json)
    : dict string json :=
  match dict_get "data" payload with
  | Some (JList (JObj flight :: _)) =>
      let status := str_upper (text (payload_get "status" (JStr "UNKNOWN") flight)) in
      [("risk_score", JInt (amadeus_score status)); ("status", JStr status)]
  | _ => [("risk_score", JInt 0); ("status", JStr "unknown")]
  end.

(** [tools/live_providers.py]: [risk_score_payload] *)
Definition risk_score_payload (payload : dict string json) : res (dict string json) :=
  match as_float (payload_get "risk_score" (JInt 0) payload) with
  | Some r => x ← r; Ok [("risk_score", JFloat x)]
  | None => Ok [("risk_score", JInt 0)]
  end.

(** ** Cache and circuit breaker *)

Definition ProviderCache : Type := dict string EvidenceEnvelope.t.

Definition cache_get (items : ProviderCache) (key : string) (now : instant) : res (option EvidenceEnvelope.t) :=
  match dict_get key items with
  | None => Ok None
  | Some item =>
      live ← dt_lt (utc now) (EvidenceEnvelope.expires_at item);
      Ok (if live : bool
          then Some (item <| EvidenceEnvelope.freshness_status := FreshnessStatus.CACHED |>) else None)
  end.
Definition cache_put (items : ProviderCache) (key : string) (item : EvidenceEnvelope.t) : ProviderCache :=
  dict_set key item items.

Module CircuitBreaker.

Record t : Type := mk { threshold : Z; failures : Z }.

#[global] Instance settable : Settable t := fun x => mk (threshold x) (failures x).

Definition init : t := mk 3 0.
Definition open (self : t) : bool := threshold self <=? failures self.
Definition record_success (self : t) : t := self <| failures := 0 |>.
Definition record_failure (self : t) : t := self <| failures ::= fun n => n + 1 |>.

End CircuitBreaker.

(** ** The bounded HTTP adapter *)

(** one GET: the exception it raised, by class, or the decoded body *)
Inductive attempt : Type :=
  | HTTPError (cls : string)       (* httpx.HTTPError and its subclasses: retried *)
  | DecodeError (cls : string)     (* ValueError from response.json() *)
  | Uncaught (cls : string)        (* anything else, e.g. httpx.InvalidURL *)
  | Body (payload : json).

Module JsonHttpProvider.

Record t : Type := mk {
  name : string;
  source_type : string;
  enabled_env : string;
  url_env : string;
  freshness_minutes : Z;
  retries : nat;
  breaker : CircuitBreaker.t
}.

#[global] Instance settable : Settable t := fun x =>
  mk (name x) (source_type x) (enabled_env x) (url_env x) (freshness_minutes x) (retries x) (breaker x).

(** the retry loop: attempts are made while they fail with an [HTTPError] and
    some are left *)
Fixpoint get_with_retries (http : nat -> attempt) (i left : nat) : attempt :=
  match http i, left with
  | HTTPError _, S left' => get_with_retries http (S i) left'
  | a, _ => a
  end.

Definition _unavailable (self : t) (id : uuid) (now : instant) (correlation_id error_code : string)
    : res EvidenceEnvelope.t :=
  construct "EvidenceEnvelope" EvidenceEnvelope.valid
    {| EvidenceEnvelope.evidence_id := id;
       EvidenceEnvelope.source_name := name self;
       EvidenceEnvelope.source_type := source_type self;
       EvidenceEnvelope.source_url_or_record_id := "unavailable:" +:+ correlation_id;
       EvidenceEnvelope.retrieved_at := utc now;
       EvidenceEnvelope.observed_at := Some (utc now);
       EvidenceEnvelope.expires_at := utc now;
       EvidenceEnvelope.freshness_status := FreshnessStatus.UNAVAILABLE;
       EvidenceEnvelope.normalized_payload := [];
       EvidenceEnvelope.raw_payload_reference := None;
       EvidenceEnvelope.provider_latency_ms := None;
       EvidenceEnvelope.provider_request_id := None;
       EvidenceEnvelope.error_code := Some error_code |}.

(** the three clock readings of a fetch: at the cache lookup, before the
    requests and after them *)
Record clock : Type := Clock { checked : instant; started : instant; finished : instant }.

(** [int((finished - started).total_seconds() * 1000)] *)
Definition latency_ms (c : clock) : Z :=
  py_int (fmul (rnd ((finished c - started c) * one64) 1000000) (f_int 1000)).

(** the envelope built from a decoded body *)
Definition envelope (self : t) (id : uuid) (url : string) (c : clock)
    (normalized : dict string json) : res EvidenceEnvelope.t :=
  construct "EvidenceEnvelope" EvidenceEnvelope.valid
    {| EvidenceEnvelope.evidence_id := id;
       EvidenceEnvelope.source_name := name self;
       EvidenceEnvelope.source_type := source_type self;
       EvidenceEnvelope.source_url_or_record_id := url;
       EvidenceEnvelope.retrieved_at := utc (finished c);
       EvidenceEnvelope.observed_at := Some (utc (started c));
       EvidenceEnvelope.expires_at := utc (started c + freshness_minutes self * minute);
       EvidenceEnvelope.freshness_status := FreshnessStatus.FRESH;
       EvidenceEnvelope.normalized_payload := normalized;
       EvidenceEnvelope.raw_payload_reference := None;
       EvidenceEnvelope.provider_latency_ms := Some (latency_ms c);
       EvidenceEnvelope.provider_request_id := None;
       EvidenceEnvelope.error_code := None |}.

(** what the [try] block ends with *)
Inductive tried : Type :=
  | Fetched (item : EvidenceEnvelope.t)
  | Caught (cls : string)          (* TimeoutError, httpx.HTTPError or ValueError *)
  | Escaped (e : exn).

Definition try_fetch (self : t) (http : nat -> attempt) (id : uuid) (url : string) (c : clock) : tried :=
  match get_with_retries http 0 (retries self) with
  | HTTPError cls => Caught cls
  | DecodeError cls => Caught cls
  | Uncaught cls => Escaped (OtherError cls)
  | Body (JObj payload) =>
      match risk_score_payload payload with
      | Raise e => Escaped e
      | Ok normalized =>
          match envelope self id url c normalized with
          | Ok item => Fetched item
          | Raise _ => Caught "ValidationError"
          end
      end
  | Body _ => Caught "ValueError"
  end.

Definition item_key (self : t) (tenant_id cache_key : string) : string :=
  tenant_id +:+ ":" +:+ source_type self +:+ ":" +:+ cache_key.

Definition is_enabled (getenv : string -> option string) (self : t) (enabled : option bool) : bool :=
  match enabled with
  | Some b => b
  | None => str_lower (default "false" (getenv (enabled_env self))) == "true"
  end.

(** What a fetch leaves: its result, the provider with its breaker, and the
    envelope it put in the cache, if any. *)
Record fetched : Type := {
  result : res EvidenceEnvelope.t;
  provider_after : t;
  stored : option EvidenceEnvelope.t
}.

Definition fetch (getenv : string -> option string) (http : nat -> attempt)
    (self : t) (cache : ProviderCache) (id : uuid) (c : clock)
    (tenant_id cache_key correlation_id : string) (enabled : option bool) : fetched :=
  let unavailable p code :=
    {| result := _unavailable p id (finished c) correlation_id code; provider_after := p; stored := None |} in
  match cache_get cache (item_key self tenant_id cache_key) (checked c) with
  | Raise e => {| result := Raise e; provider_after := self; stored := None |}
  | Ok (Some cached) => {| result := Ok cached; provider_after := self; stored := None |}
  | Ok None =>
      if CircuitBreaker.open (breaker self) then unavailable self "provider_circuit_open"
      else if negb (is_enabled getenv self enabled) then unavailable self "provider_disabled"
      else
        let url := default "" (getenv (url_env self)) in
        if negb (truthy_str url) then unavailable self "provider_url_not_configured" else
        match try_fetch self http id url c with
        | Fetched item =>
            {| result := Ok item; provider_after := self <| breaker ::= CircuitBreaker.record_success |>;
               stored := Some item |}
        | Caught cls => unavailable (self <| breaker ::= CircuitBreaker.record_failure |>) (str_lower cls)
        | Escaped e => {| result := Raise e; provider_after := self; stored := None |}
        end
  end.

(** [self.cache.put(...)] of a finished fetch *)
Definition store (self : t) (tenant_id cache_key : string) (f : fetched) (cache : ProviderCache)
    : ProviderCache :=
  match stored f with
  | Some item => cache_put cache (item_key self tenant_id cache_key) item
  | None => cache
  end.

End JsonHttpProvider.

(** ** Live collection *)

Definition provider (name source_type enabled_env url_env : string) (freshness_minutes : Z)
    : JsonHttpProvider.t :=
  JsonHttpProvider.mk name source_type enabled_env url_env freshness_minutes 1 CircuitBreaker.init.

Definition amadeus_flight_status := provider "amadeus-flight-status" "flight_status"
  "PROVIDER_AMADEUS_ENABLED" "AMADEUS_FLIGHT_STATUS_URL" 5.
Definition nws_alerts := provider "nws-alerts" "airport_weather"
  "PROVIDER_NWS_ENABLED" "NWS_ALERTS_URL" 15.
Definition faa_nas := provider "faa-nas-status" "airport_weather"
  "PROVIDER_FAA_ENABLED" "FAA_NAS_STATUS_URL" 15.
Definition aviation_weather := provider "aviation-weather" "airport_weather"
  "PROVIDER_AVIATION_WEATHER_ENABLED" "AVIATION_WEATHER_URL" 15.
Definition google_routes := provider "google-routes" "ground_route"
  "PROVIDER_GOOGLE_ROUTES_ENABLED" "GOOGLE_ROUTES_URL" 5.
Definition destination_advisory := provider "state-department-advisory" "destination_advisory"
  "PROVIDER_DESTINATION_ADVISORY_ENABLED" "DESTINATION_ADVISORY_URL" 1440.

(** [LiveEvidenceCollector.providers] *)
Definition live_providers : list (string * JsonHttpProvider.t) :=
  [("PROVIDER_AMADEUS_ENABLED", amadeus_flight_status); ("PROVIDER_FAA_ENABLED", faa_nas);
   ("PROVIDER_NWS_ENABLED", nws_alerts); ("PROVIDER_AVIATION_WEATHER_ENABLED", aviation_weather);
   ("PROVIDER_GOOGLE_ROUTES_ENABLED", google_routes);
   ("PROVIDER_DESTINATION_ADVISORY_ENABLED", destination_advisory)].

(** [timedelta.total_seconds() / 60] of a difference in microseconds *)
Definition minutes_between (us : Z) : f64 := rnd (rnd (us * one64) 1000000) 60.

(** [min(..., default=90)] over consecutive segments *)
Definition connection_gaps (segments : list FlightSegmentCreate.t) : list Z :=
  List.map (fun '(previous, next) =>
      dt_instant (FlightSegmentCreate.scheduled_departure_at next) -
      dt_instant (FlightSegmentCreate.scheduled_arrival_at previous))
    (List.combine segments (List.tl segments)).
Definition connection_minutes (segments : list FlightSegmentCreate.t) : f64 :=
  match connection_gaps segments with
  | [] => f_int 90
  | g :: gs => fold_left fmin (List.map minutes_between gs) (minutes_between g)
  end.
Definition connection_risk (minutes : f64) : Z :=
  if flt minutes (f_int 45) then 90 else if flt minutes (f_int 60) then 40 else 5.

Definition _connection_feasibility (id : uuid) (now : instant) (trip : Trip.t) (correlation_id : string)
    : res EvidenceEnvelope.t :=
  let minutes := connection_minutes (Trip.segments trip) in
  construct "EvidenceEnvelope" EvidenceEnvelope.valid
    {| EvidenceEnvelope.evidence_id := id;
       EvidenceEnvelope.source_name := "routeshield-connection-feasibility";
       EvidenceEnvelope.source_type := "connection_feasibility";
       EvidenceEnvelope.source_url_or_record_id := "calculated:" +:+ correlation_id;
       EvidenceEnvelope.retrieved_at := utc now;
       EvidenceEnvelope.observed_at := Some (utc now);
       EvidenceEnvelope.expires_at := utc (now + 15 * minute);
       EvidenceEnvelope.freshness_status := FreshnessStatus.FRESH;
       EvidenceEnvelope.normalized_payload :=
         [("risk_score", JInt (connection_risk minutes)); ("connection_minutes", JFloat minutes)];
       EvidenceEnvelope.raw_payload_reference := None;
       EvidenceEnvelope.provider_latency_ms := None;
       EvidenceEnvelope.provider_request_id := None;
       EvidenceEnvelope.error_code := None |}.

Definition cache_key_for (first_segment : FlightSegmentCreate.t) (trip : Trip.t) : string :=
  str_join ":" [FlightSegmentCreate.carrier_code first_segment;
                FlightSegmentCreate.flight_number first_segment;
                FlightSegmentCreate.departure_airport first_segment; Trip.destination_country trip].

(** One collection.  [asyncio.gather] starts the fetches together: each looks in
    the cache and waits for the network, so every lookup sees the cache as it was
    before any of them stores.  They finish, and store, in the order [finish_order]
    of their positions.  [gather] raises the first exception; the other fetches
    still finish. *)
Definition fetches (getenv : string -> option string) (http : string -> nat -> attempt)
    (fresh : nat -> uuid) (clock : nat -> JsonHttpProvider.clock)
    (tenant_id cache_key correlation_id : string) (enabled : string -> bool)
    (ps : list (string * JsonHttpProvider.t)) (cache : ProviderCache)
    : list (string * JsonHttpProvider.t * JsonHttpProvider.fetched) :=
  List.map (fun '(i, (flag, p)) =>
      (flag, p, JsonHttpProvider.fetch getenv (http (JsonHttpProvider.name p)) p cache
                  (fresh (Z.to_nat i)) (clock (Z.to_nat i)) tenant_id cache_key correlation_id
                  (Some (enabled flag))))
    (enumerate 0 ps).

Definition stores (tenant_id cache_key : string) (finish_order : list nat)
    (fs : list (string * JsonHttpProvider.t * JsonHttpProvider.fetched)) (cache : ProviderCache)
    : ProviderCache :=
  fold_left (fun cache i =>
      match fs !! i with
      | Some (_, p, f) => JsonHttpProvider.store p tenant_id cache_key f cache
      | None => cache
      end) finish_order cache.

Definition collect (getenv : string -> option string) (http : string -> nat -> attempt)
    (fresh : nat -> uuid) (clock : nat -> JsonHttpProvider.clock) (finish_order : list nat) (now : instant)
    (trip : Trip.t) (correlation_id : string) (enabled : string -> bool)
    (ps : list (string * JsonHttpProvider.t)) (cache : ProviderCache)
    : res (list EvidenceEnvelope.t) * (list (string * JsonHttpProvider.t) * ProviderCache) :=
  match Trip.segments trip with [] => (Raise (OtherError "IndexError"), (ps, cache)) | first :: _ =>
  let cache_key := cache_key_for first trip in
  let fs := fetches getenv http fresh clock (Trip.tenant_id trip) cache_key correlation_id enabled ps cache in
  (evidence ← mapM (fun f => JsonHttpProvider.result f.2) fs;
   connection ← _connection_feasibility (fresh (length ps)) now trip correlation_id;
   Ok (evidence ++ [connection]),
   (List.map (fun '(flag, _, f) => (flag, JsonHttpProvider.provider_after f)) fs,
    stores (Trip.tenant_id trip) cache_key finish_order fs cache))
  end.

(** ** [RedisProviderCache]: not selected by the service today

    [value] is the reply of [GET]; [SET ... EX] is a command to the server. *)

Module RedisProviderCache.

Definition get (model_validate_json : string -> res EvidenceEnvelope.t) (value : option string)
    : res (option EvidenceEnvelope.t) :=
  match value with
  | Some text =>
      if truthy_str text
      then item ← model_validate_json text;
           Ok (Some (item <| EvidenceEnvelope.freshness_status := FreshnessStatus.CACHED |>))
      else Ok None
  | None => Ok None
  end.
(** the key, the text and the time to live of the [SET] *)
Definition put (model_dump_json : EvidenceEnvelope.t -> string) (key : string) (item : EvidenceEnvelope.t)
    (ttl_seconds : Z) : string * string * Z := (key, model_dump_json item, ttl_seconds).

End RedisProviderCache.

(** ** Lemmas *)

Section Provider.
Import JsonHttpProvider.
Implicit Types (self : t) (c : clock).

Lemma get_with_retries_ext http http' i left :
  (forall j, (i <= j <= i + left)%nat -> http j = http' j) ->
  get_with_retries http i left = get_with_retries http' i left.
Proof.
  revert i. induction left as [|left IH]; intros i H; simpl; rewrite <- (H i) by lia; [done|].
  destruct (http i); try done. apply IH. intros j Hj. apply H. lia.
Qed.

Lemma get_with_retries_from http i left : exists j, (i <= j <= i + left)%nat /\
  get_with_retries http i left = http j.
Proof.
  revert i. induction left as [|left IH]; intros i; simpl.
  - exists i. split; [lia|]. by destruct (http i).
  - destruct (http i) eqn:E; try (exists i; split; [lia|congruence]).
    destruct (IH (S i)) as (j & Hj & ->). exists j. split; [lia|done].
Qed.

Definition named self : Prop := truthy_str (name self) = true /\ truthy_str (source_type self) = true.

(** an explicit absence of evidence: no score, a reason *)
Definition is_unavailable (item : EvidenceEnvelope.t) (code : string) : Prop :=
  EvidenceEnvelope.freshness_status item = FreshnessStatus.UNAVAILABLE /\
  EvidenceEnvelope.normalized_payload item = [] /\ EvidenceEnvelope.error_code item = Some code.

Lemma unavailable_ok self id now correlation code : named self ->
  exists item, _unavailable self id now correlation code = Ok item /\ is_unavailable item code.
Proof.
  intros [Hn Hs]. unfold _unavailable, construct, EvidenceEnvelope.valid. simpl. rewrite Hn, Hs. simpl.
  eexists. split; [reflexivity|]. by split_and!.
Qed.

Lemma envelope_ok self id url c normalized item :
  envelope self id url c normalized = Ok item ->
  EvidenceEnvelope.freshness_status item = FreshnessStatus.FRESH /\
  EvidenceEnvelope.normalized_payload item = normalized /\
  EvidenceEnvelope.expires_at item = utc (started c + freshness_minutes self * minute).
Proof. unfold envelope. intros [-> _]%construct_ok. done. Qed.

(** the counter is the number of failures since the last success *)
Lemma fetch_breaker getenv http self cache id c tenant key correlation enabled f :
  fetch getenv http self cache id c tenant key correlation enabled = f ->
  (name (provider_after f) = name self /\ source_type (provider_after f) = source_type self) /\
  CircuitBreaker.threshold (breaker (provider_after f)) = CircuitBreaker.threshold (breaker self) /\
  (CircuitBreaker.open (breaker self) = true -> provider_after f = self /\ stored f = None).
Proof.
  intros <-. unfold fetch. destruct (cache_get _ _ _) as [[cached|]|]; try done.
  destruct (CircuitBreaker.open (breaker self)) eqn:Ho; [done|].
  destruct (negb (is_enabled _ _ _)); [done|]. destruct (negb (truthy_str _)); [done|].
  by destruct (try_fetch _ _ _ _ _).
Qed.

End Provider.

(** ** Connection feasibility *)

Lemma minutes_45 : flt (minutes_between (45 * minute - 1)) (f_int 45) = true /\
  flt (minutes_between (45 * minute)) (f_int 45) = false.
Proof. vm_compute. done. Qed.

Lemma minutes_60 : flt (minutes_between (60 * minute - 1)) (f_int 60) = true /\
  flt (minutes_between (60 * minute)) (f_int 60) = false.
Proof. vm_compute. done. Qed.

Lemma minutes_between_mono a b : a <= b -> minutes_between a <= minutes_between b.
Proof. intros. pose proof one64_pos. unfold minutes_between. do 2 (apply rnd_monotone; [lia|]). nia. Qed.

Lemma minutes_threshold n g :
  flt (minutes_between (n * minute - 1)) (f_int n) = true ->
  flt (minutes_between (n * minute)) (f_int n) = false ->
  flt (minutes_between g) (f_int n) = (g <? n * minute).
Proof.
  unfold flt. intros Hlo Hhi. bool_hyps. destruct (Z.ltb_spec g (n * minute)) as [H|H].
  - apply Z.ltb_lt. pose proof (minutes_between_mono g (n * minute - 1) ltac:(lia)). lia.
  - apply Z.ltb_ge. pose proof (minutes_between_mono (n * minute) g ltac:(lia)). lia.
Qed.

Lemma fmin_mono_map gs : forall g,
  fold_left fmin (List.map minutes_between gs) (minutes_between g) = minutes_between (fold_left Z.min gs g).
Proof.
  induction gs as [|h gs IH]; intros g; simpl; [done|].
  rewrite <- IH. f_equal. unfold fmin, flt.
  pose proof (minutes_between_mono g h). pose proof (minutes_between_mono h g).
  destruct (Z.ltb_spec (minutes_between h) (minutes_between g)), (Z.min_spec g h) as [[? ->]|[? ->]]; lia.
Qed.

(** ** Sequences of fetches of one provider *)

(** the arguments of one fetch and what the network does during it *)
Record call : Type := Call {
  call_http : nat -> attempt; call_cache : ProviderCache; call_id : uuid;
  call_clock : JsonHttpProvider.clock; call_tenant : string; call_key : string;
  call_correlation : string; call_enabled : option bool
}.

Definition perform (getenv : string -> option string) (self : JsonHttpProvider.t) (k : call)
    : JsonHttpProvider.fetched :=
  JsonHttpProvider.fetch getenv (call_http k) self (call_cache k) (call_id k) (call_clock k)
    (call_tenant k) (call_key k) (call_correlation k) (call_enabled k).

(** a sequence of fetches: the provider after it and every result *)
Fixpoint performs (getenv : string -> option string) (self : JsonHttpProvider.t) (ks : list call)
    : JsonHttpProvider.t * list JsonHttpProvider.fetched :=
  match ks with
  | [] => (self, [])
  | k :: ks' =>
      let f := perform getenv self k in
      let '(p, fs) := performs getenv (JsonHttpProvider.provider_after f) ks' in
      (p, f :: fs)
  end.

(** the same call with another network *)
Definition with_network (http : nat -> attempt) (k : call) : call :=
  Call http (call_cache k) (call_id k) (call_clock k) (call_tenant k) (call_key k)
    (call_correlation k) (call_enabled k).

(** a call that reaches the network and gets no answer *)
Definition unanswered (getenv : string -> option string) (self : JsonHttpProvider.t) (k : call) : Prop :=
  cache_get (call_cache k) (JsonHttpProvider.item_key self (call_tenant k) (call_key k))
    (JsonHttpProvider.checked (call_clock k)) = Ok None /\
  JsonHttpProvider.is_enabled getenv self (call_enabled k) = true /\
  truthy_str (default "" (getenv (JsonHttpProvider.url_env self))) = true /\
  forall i, exists cls, call_http k i = HTTPError cls.

Lemma perform_unanswered getenv self k :
  CircuitBreaker.open (JsonHttpProvider.breaker self) = false -> unanswered getenv self k ->
  JsonHttpProvider.provider_after (perform getenv self k) =
    self <| JsonHttpProvider.breaker ::= CircuitBreaker.record_failure |>.
Proof.
  intros Ho (Hc & He & Hu & Hh). unfold perform, JsonHttpProvider.fetch.
  rewrite Hc, Ho, He, Hu. simpl. unfold JsonHttpProvider.try_fetch.
  destruct (get_with_retries_from (call_http k) 0 (JsonHttpProvider.retries self)) as (j & _ & ->).
  destruct (Hh j) as [cls ->]. reflexivity.
Qed.

Lemma perform_open getenv self k http :
  CircuitBreaker.open (JsonHttpProvider.breaker self) = true ->
  perform getenv self (with_network http k) = perform getenv self k /\
  JsonHttpProvider.provider_after (perform getenv self k) = self.
Proof.
  intros Ho. unfold perform, JsonHttpProvider.fetch. simpl. rewrite Ho.
  by destruct (cache_get _ _ _) as [[cached|]|].
Qed.

Lemma performs_open getenv http self ks :
  CircuitBreaker.open (JsonHttpProvider.breaker self) = true ->
  performs getenv self (List.map (with_network http) ks) = performs getenv self ks /\
  (performs getenv self ks).1 = self.
Proof.
  intros Ho. induction ks as [|k ks [IH1 IH2]]; simpl; [done|].
  destruct (perform_open getenv self k http Ho) as [-> ->]. rewrite IH1. split; [done|].
  by destruct (performs getenv self ks).
Qed.

(** ** The cache *)

Lemma partition_app c (a b : string) :
  str_forall (fun x => x != c)%rs a = true -> str_partition c (a +:+ String c b) = (a, b).
Proof.
  induction a as [|x a IH]; intros H.
  - rewrite str_app_nil_l. simpl. by rewrite bool_decide_true.
  - rewrite str_app_cons. simpl in *. bool_hyps. rewrite bool_decide_false by done. by rewrite IH.
Qed.

Definition colon_free (s : string) : Prop := str_forall (fun x => x != ":"%char)%rs s = true.

Lemma item_key_tenant p q tenant tenant' key key' :
  colon_free tenant -> colon_free tenant' ->
  JsonHttpProvider.item_key p tenant key = JsonHttpProvider.item_key q tenant' key' -> tenant = tenant'.
Proof.
  intros H H' E. apply (f_equal (str_partition ":"%char)) in E. unfold JsonHttpProvider.item_key in E.
  rewrite !(str_app_cons ":"%char ""), !str_app_nil_l in E.
  rewrite !partition_app in E by done. congruence.
Qed.

Lemma store_other p q tenant tenant' key key' f cache :
  colon_free tenant -> colon_free tenant' -> tenant <> tenant' ->
  dict_get (JsonHttpProvider.item_key q tenant' key') (JsonHttpProvider.store p tenant key f cache) =
  dict_get (JsonHttpProvider.item_key q tenant' key') cache.
Proof.
  intros H H' Hne. unfold JsonHttpProvider.store, cache_put.
  destruct (JsonHttpProvider.stored f); [|done]. apply dict_get_set_ne. intros E. apply Hne.
  symmetry. by apply (item_key_tenant q p tenant' tenant key' key).
Qed.

Lemma stores_other q tenant tenant' key key' order fs cache :
  colon_free tenant -> colon_free tenant' -> tenant <> tenant' ->
  dict_get (JsonHttpProvider.item_key q tenant' key') (stores tenant key order fs cache) =
  dict_get (JsonHttpProvider.item_key q tenant' key') cache.
Proof.
  intros H H' Hne. unfold stores. revert cache. induction order as [|i order IH]; intros cache; simpl; [done|].
  rewrite IH. destruct (fs !! i) as [[[flag p] f]|]; [|done]. by apply store_other.
Qed.

(** every cached expiry is an aware time, as the adapters store them *)
Definition cache_aware (cache : ProviderCache) : Prop :=
  forall key item, dict_get key cache = Some item -> dt_aware (EvidenceEnvelope.expires_at item) = true.

Lemma cache_get_total cache key now : cache_aware cache -> exists o, cache_get cache key now = Ok o.
Proof.
  intros H. unfold cache_get. destruct (dict_get key cache) as [item|] eqn:E; [|by eexists].
  unfold dt_lt. rewrite (H _ _ E). simpl. by eexists.
Qed.

(** an envelope is stored exactly as it was returned, with the expiry of its fetch *)
Lemma fetch_stored_spec getenv http self cache id c tenant key correlation enabled item :
  let f := JsonHttpProvider.fetch getenv http self cache id c tenant key correlation enabled in
  JsonHttpProvider.stored f = Some item ->
  JsonHttpProvider.result f = Ok item /\
  EvidenceEnvelope.expires_at item =
    utc (JsonHttpProvider.started c + JsonHttpProvider.freshness_minutes self * minute).
Proof.
  unfold JsonHttpProvider.fetch. destruct (cache_get _ _ _) as [[cached|]|]; try done.
  destruct (CircuitBreaker.open _); [done|]. destruct (negb _); [done|]. destruct (negb _); [done|].
  destruct (JsonHttpProvider.try_fetch _ _ _ _ _) as [x|cls|e] eqn:E; try done. simpl. intros [= ->].
  split; [done|].
  unfold JsonHttpProvider.try_fetch in E. destruct (JsonHttpProvider.get_with_retries _ _ _) as [| | |[| | | | | |p]]; try done.
  destruct (risk_score_payload p); [|done].
  destruct (JsonHttpProvider.envelope _ _ _ _ _) as [y|] eqn:Ee; [|done].
  injection E as ->. by apply envelope_ok in Ee as (_ & _ & ->).
Qed.

Lemma fetch_stored_aware getenv http self cache id c tenant key correlation enabled item :
  JsonHttpProvider.stored (JsonHttpProvider.fetch getenv http self cache id c tenant key correlation enabled)
    = Some item -> dt_aware (EvidenceEnvelope.expires_at item) = true.
Proof. intros [_ ->]%fetch_stored_spec. done. Qed.

Lemma stores_aware tenant key order fs cache :
  (forall x, x ∈ fs -> forall item, JsonHttpProvider.stored x.2 = Some item ->
     dt_aware (EvidenceEnvelope.expires_at item) = true) ->
  cache_aware cache -> cache_aware (stores tenant key order fs cache).
Proof.
  intros Hfs. unfold stores. revert cache. induction order as [|i order IH]; intros cache H; simpl; [done|].
  apply IH. destruct (fs !! i) as [[[flag p] f]|] eqn:Hi; [|done].
  unfold JsonHttpProvider.store, cache_put. destruct (JsonHttpProvider.stored f) as [item|] eqn:Hs; [|done].
  intros k x. rewrite dict_get_set. case_bool_decide; [intros [= <-]|apply H].
  by apply (Hfs _ (list_elem_of_lookup_2 _ _ _ Hi)).
Qed.

Lemma enumerate_length {A} n (l : list A) : length (enumerate n l) = length l.
Proof. revert n. induction l as [|x l IH]; intros n; simpl; [done|]. by rewrite IH. Qed.

Lemma map_enumerate_lookup {A B} (g : Z * A -> B) n (l : list A) i :
  List.map g (enumerate n l) !! i = (fun x => g (n + Z.of_nat i, x)) <$> l !! i.
Proof.
  revert n i. induction l as [|x l IH]; intros n [|i]; simpl; try done.
  - by rewrite Z.add_0_r.
  - rewrite IH. by replace (n + 1 + Z.of_nat i) with (n + Z.of_nat (S i)) by lia.
Qed.

Lemma connection_ok id now trip correlation : exists item,
  _connection_feasibility id now trip correlation = Ok item /\
  EvidenceEnvelope.source_type item = "connection_feasibility".
Proof. unfold _connection_feasibility. eexists. split; reflexivity. Qed.

(** a network whose answers the adapter contains: no exception it does not catch
    and no integer score beyond the range of a float *)
Definition contained (http : nat -> attempt) : Prop := forall i,
  match http i with
  | Uncaught _ => False
  | Body (JObj payload) => is_ok (risk_score_payload payload) = true
  | _ => True
  end.

Lemma fetch_total getenv http self cache id c tenant key correlation enabled :
  named self -> cache_aware cache -> contained http ->
  exists item, JsonHttpProvider.result
    (JsonHttpProvider.fetch getenv http self cache id c tenant key correlation enabled) = Ok item.
Proof.
  intros Hn Ha Hc. unfold JsonHttpProvider.fetch.
  assert (Hu : forall p code, named p -> exists item,
    JsonHttpProvider._unavailable p id (JsonHttpProvider.finished c) correlation code = Ok item).
  { intros p code Hp. destruct (unavailable_ok p id (JsonHttpProvider.finished c) correlation code Hp)
      as (item & E & _). by exists item. }
  destruct (cache_get_total cache (JsonHttpProvider.item_key self tenant key) (JsonHttpProvider.checked c) Ha)
    as [[cached|] ->]; [by eexists|].
  destruct (CircuitBreaker.open _); [by apply Hu|]. destruct (negb _); [by apply Hu|].
  destruct (negb _); [by apply Hu|]. unfold JsonHttpProvider.try_fetch.
  destruct (get_with_retries_from http 0 (JsonHttpProvider.retries self)) as (j & _ & ->).
  specialize (Hc j). destruct (http j) as [| | |[| | | | | |payload]]; try (by apply Hu); [done|].
  destruct (is_ok_inv _ Hc) as [normalized ->].
  destruct (JsonHttpProvider.envelope _ _ _ _ _); [by eexists|by apply Hu].
Qed.

(** ** Properties *)

(** C37.  A fetch degrades to an explicit absence: whatever the network does, it
    makes at most [retries + 1] requests and ends in one of three ways: the
    unexpired cached envelope marked as cached; a fresh envelope with the
    normalized score of an answer to an enabled, configured provider whose
    breaker is closed (then it is stored and the breaker's count is reset); or an
    unavailable envelope without a score and with a reason, and nothing stored.
    It raises only for an exception the adapter does not catch, an integer score
    beyond the range of a float or a cached expiry without a time zone. *)
Theorem fetch_degrades getenv http http' self cache id c tenant key correlation enabled :
  named self ->
  (forall i, (i <= JsonHttpProvider.retries self)%nat -> http i = http' i) ->
  let f := JsonHttpProvider.fetch getenv http self cache id c tenant key correlation enabled in
  let k := JsonHttpProvider.item_key self tenant key in
  f = JsonHttpProvider.fetch getenv http' self cache id c tenant key correlation enabled /\
  match JsonHttpProvider.result f with
  | Ok item =>
      (exists cached, dict_get k cache = Some cached /\
         dt_lt (utc (JsonHttpProvider.checked c)) (EvidenceEnvelope.expires_at cached) = Ok true /\
         item = cached <| EvidenceEnvelope.freshness_status := FreshnessStatus.CACHED |> /\
         JsonHttpProvider.provider_after f = self /\ JsonHttpProvider.stored f = None) \/
      (exists j payload, (j <= JsonHttpProvider.retries self)%nat /\ http j = Body (JObj payload) /\
         risk_score_payload payload = Ok (EvidenceEnvelope.normalized_payload item) /\
         EvidenceEnvelope.freshness_status item = FreshnessStatus.FRESH /\
         EvidenceEnvelope.expires_at item =
           utc (JsonHttpProvider.started c + JsonHttpProvider.freshness_minutes self * minute) /\
         JsonHttpProvider.is_enabled getenv self enabled = true /\
         CircuitBreaker.open (JsonHttpProvider.breaker self) = false /\
         CircuitBreaker.failures (JsonHttpProvider.breaker (JsonHttpProvider.provider_after f)) = 0 /\
         JsonHttpProvider.stored f = Some item) \/
      (exists code, is_unavailable item code /\ JsonHttpProvider.stored f = None)
  | Raise e =>
      (exists j cls, (j <= JsonHttpProvider.retries self)%nat /\ http j = Uncaught cls) \/
      (exists j payload, (j <= JsonHttpProvider.retries self)%nat /\ http j = Body (JObj payload) /\
         risk_score_payload payload = Raise e) \/
      cache_get cache k (JsonHttpProvider.checked c) = Raise e
  end.
Proof.
  intros Hn Hh f k. split.
  { subst f. unfold JsonHttpProvider.fetch, JsonHttpProvider.try_fetch.
    by rewrite (get_with_retries_ext http http' 0 (JsonHttpProvider.retries self)) by (intros; apply Hh; lia). }
  assert (Hu : forall p code, named p -> exists item,
    JsonHttpProvider._unavailable p id (JsonHttpProvider.finished c) correlation code = Ok item /\
    is_unavailable item code) by (intros; by apply unavailable_ok).
  subst f. unfold JsonHttpProvider.fetch. fold k.
  destruct (cache_get cache k (JsonHttpProvider.checked c)) as [[cached|]|e] eqn:Ec; [| |by right; right].
  { left. unfold cache_get in Ec. destruct (dict_get k cache) as [item0|]; [|done].
    apply res_bind_ok in Ec as (live & Hl & E). apply Ok_inj in E. destruct live; [|done].
    injection E as <-. exists item0. by split_and!. }
  destruct (CircuitBreaker.open _) eqn:Ho.
  { destruct (Hu self "provider_circuit_open" Hn) as (item & E & Hi). simpl. rewrite E. right; right. eauto. }
  destruct (JsonHttpProvider.is_enabled _ _ _) eqn:He; simpl.
  2: { destruct (Hu self "provider_disabled" Hn) as (item & E & Hi). rewrite E. right; right. eauto. }
  destruct (negb (truthy_str _)).
  { destruct (Hu self "provider_url_not_configured" Hn) as (item & E & Hi). simpl. rewrite E. right; right. eauto. }
  unfold JsonHttpProvider.try_fetch.
  destruct (get_with_retries_from http 0 (JsonHttpProvider.retries self)) as (j & Hj & ->).
  set (p := self <| JsonHttpProvider.breaker ::= CircuitBreaker.record_failure |>).
  assert (Hcaught : forall cls, exists item, JsonHttpProvider._unavailable p id (JsonHttpProvider.finished c)
      correlation (str_lower cls) = Ok item /\ is_unavailable item (str_lower cls)) by (intros; by apply Hu).
  destruct (http j) as [cls|cls|cls|body] eqn:Ej; simpl.
  - destruct (Hcaught cls) as (item & E & Hi). rewrite E. right; right. eauto.
  - destruct (Hcaught cls) as (item & E & Hi). rewrite E. right; right. eauto.
  - left. exists j, cls. split; [lia|done].
  - destruct body as [| | | | | |payload];
      try (destruct (Hcaught "ValueError") as (item & E & Hi); simpl; rewrite E; right; right; by eauto).
    destruct (risk_score_payload payload) as [normalized|e] eqn:Es; simpl.
    2: { right; left. exists j, payload. split; [lia|done]. }
    destruct (JsonHttpProvider.envelope _ _ _ _ _) as [item|] eqn:Ee; simpl.
    + right; left. apply envelope_ok in Ee as (? & Hp & ?). exists j, payload. rewrite Hp. split; [lia|by split_and!].
    + destruct (Hcaught "ValidationError") as (item & E & Hi). rewrite E. right; right. eauto.
Qed.

(** The circuit breaker: three consecutive fetches that reach the network and
    get no answer open it, and then no sequence of later fetches makes a request
    (their results do not depend on the network) or changes the provider: an open
    breaker stays open. *)
Theorem breaker_isolates getenv self k1 k2 k3 later http :
  JsonHttpProvider.breaker self = CircuitBreaker.init ->
  unanswered getenv self k1 -> unanswered getenv self k2 -> unanswered getenv self k3 ->
  let p := (performs getenv self [k1; k2; k3]).1 in
  CircuitBreaker.open (JsonHttpProvider.breaker p) = true /\
  performs getenv p (List.map (with_network http) later) = performs getenv p later /\
  (performs getenv p later).1 = p.
Proof.
  intros Hb H1 H2 H3 p.
  assert (Hp : p = self <| JsonHttpProvider.breaker := CircuitBreaker.mk 3 3 |>).
  { subst p. destruct self as [n st ee ue fm rt br]. simpl in Hb. subst br. cbn [performs].
    rewrite (perform_unanswered _ _ k1); [|done|exact H1].
    rewrite (perform_unanswered _ _ k2); [|done|exact H2].
    rewrite (perform_unanswered _ _ k3); [|done|exact H3]. reflexivity. }
  assert (Ho : CircuitBreaker.open (JsonHttpProvider.breaker p) = true) by by rewrite Hp.
  split; [done|]. by apply performs_open.
Qed.

(** Connection feasibility is exact: although the gap is a float number of
    minutes, the score is 90 when the shortest connection is under 45 minutes to
    the microsecond, 40 when it is under 60, and 5 otherwise or without
    connections. *)
Theorem connection_risk_exact segments :
  connection_risk (connection_minutes segments) =
  match connection_gaps segments with
  | [] => 5
  | g :: gs =>
      let shortest := fold_left Z.min gs g in
      if shortest <? 45 * minute then 90 else if shortest <? 60 * minute then 40 else 5
  end.
Proof.
  unfold connection_minutes. destruct (connection_gaps segments) as [|g gs].
  - unfold connection_risk, flt, f_int. pose proof one64_pos.
    rewrite !(proj2 (Z.ltb_ge _ _)) by lia. done.
  - rewrite fmin_mono_map. unfold connection_risk. cbv zeta.
    rewrite (minutes_threshold 45) by apply minutes_45. by rewrite (minutes_threshold 60) by apply minutes_60.
Qed.

(** C38.  Collection is complete and tenant-isolated.  When every adapter contains
    its network (the hypothesis [contained]) and the trip has a segment, exactly one
    envelope per provider comes back, enabled or not, each the answer of that
    provider's fetch under its own switch, in provider order and followed by the
    local connection calculation; the cache stays usable for the next collection;
    and no entry of another tenant appears, changes or disappears (tenant ids
    without a colon), in whatever order the fetches finish. *)
Theorem collect_complete getenv http fresh clock order now trip first rest correlation enabled ps cache :
  Trip.segments trip = first :: rest ->
  Forall (fun '(_, p) => named p) ps -> cache_aware cache ->
  (forall name, contained (http name)) ->
  exists items connection ps' cache',
    collect getenv http fresh clock order now trip correlation enabled ps cache =
      (Ok (items ++ [connection]), (ps', cache')) /\
    length items = length ps /\
    (forall i item flag p, items !! i = Some item -> ps !! i = Some (flag, p) ->
       exists f, JsonHttpProvider.result f = Ok item /\
         f = JsonHttpProvider.fetch getenv (http (JsonHttpProvider.name p)) p cache (fresh i) (clock i)
               (Trip.tenant_id trip) (cache_key_for first trip) correlation (Some (enabled flag))) /\
    EvidenceEnvelope.source_type connection = "connection_feasibility" /\
    cache_aware cache' /\
    (forall q tenant key, colon_free (Trip.tenant_id trip) -> colon_free tenant ->
       Trip.tenant_id trip <> tenant ->
       dict_get (JsonHttpProvider.item_key q tenant key) cache' =
       dict_get (JsonHttpProvider.item_key q tenant key) cache).
Proof.
  intros Hseg Hn Ha Hc. unfold collect. rewrite Hseg. cbv zeta. set (fs := fetches _ _ _ _ _ _ _ _ _ _).
  assert (Hfs : forall i flag p, ps !! i = Some (flag, p) -> fs !! i = Some (flag, p,
      JsonHttpProvider.fetch getenv (http (JsonHttpProvider.name p)) p cache (fresh i) (clock i)
        (Trip.tenant_id trip) (cache_key_for first trip) correlation (Some (enabled flag)))).
  { intros i flag p Hi. subst fs. unfold fetches. rewrite map_enumerate_lookup, Hi. cbn [fmap option_fmap option_map].
    by rewrite Z.add_0_l, Nat2Z.id. }
  assert (Hlen : length fs = length ps) by (subst fs; unfold fetches; by rewrite length_map, enumerate_length).
  destruct (mapM_res_total (fun f => JsonHttpProvider.result f.2) fs) as [items Hitems].
  { intros x Hx. apply list_elem_of_In, list_elem_of_lookup in Hx as [i Hi].
    destruct (ps !! i) as [[flag p]|] eqn:Hp.
    - rewrite (Hfs i flag p Hp) in Hi. injection Hi as <-. apply fetch_total; [|done|apply Hc].
      exact (proj1 (Forall_forall _ ps) Hn (flag, p) (list_elem_of_lookup_2 _ _ _ Hp)).
    - apply lookup_ge_None in Hp. apply lookup_lt_Some in Hi. lia. }
  rewrite Hitems. cbn [mbind res_bind]. destruct (connection_ok (fresh (length ps)) now trip correlation) as (connection & -> & Hct).
  cbn [mbind res_bind].
  exists items, connection. do 2 eexists. split; [reflexivity|]. apply mapM_res_Forall2 in Hitems.
  split_and!; try done.
  - by rewrite <- (Forall2_length _ _ _ Hitems).
  - intros i item flag p Hi Hp. destruct (Forall2_lookup_r _ _ _ _ _ Hitems Hi) as (x & Hx & Hr).
    rewrite (Hfs i flag p Hp) in Hx. injection Hx as <-. eexists. split; [exact Hr|done].
  - apply stores_aware; [|done]. intros [[flag p] f] Hx item Hs. simpl in Hs.
    apply list_elem_of_In, in_map_iff in Hx as ([z [flag0 p0]] & E & _). injection E as _ _ <-.
    by apply fetch_stored_aware in Hs.
  - intros q tenant key H1 H2 H3. by apply stores_other.
Qed.

(** Sources of one kind share one cache entry: once a fetch stored its
    envelope, then until it expires a fetch of any provider of the same source
    type for the same tenant and trip answers with that envelope, whatever its
    own network would say and even when it is disabled. *)
Theorem same_source_shares_entry getenv http self cache id c tenant key correlation enabled item
    http' other id' c' correlation' enabled' :
  let f := JsonHttpProvider.fetch getenv http self cache id c tenant key correlation enabled in
  JsonHttpProvider.stored f = Some item ->
  JsonHttpProvider.source_type other = JsonHttpProvider.source_type self ->
  JsonHttpProvider.checked c' < JsonHttpProvider.started c + JsonHttpProvider.freshness_minutes self * minute ->
  let g := JsonHttpProvider.fetch getenv http' other (JsonHttpProvider.store self tenant key f cache)
             id' c' tenant key correlation' enabled' in
  JsonHttpProvider.result g =
    Ok (item <| EvidenceEnvelope.freshness_status := FreshnessStatus.CACHED |>) /\
  JsonHttpProvider.result f = Ok item.
Proof.
  intros f Hs Ht Hl g. destruct (fetch_stored_spec _ _ _ _ _ _ _ _ _ _ _ Hs) as [Hr He]. split; [|done].
  subst g. unfold JsonHttpProvider.fetch at 1. unfold JsonHttpProvider.store. rewrite Hs.
  unfold cache_get, cache_put, JsonHttpProvider.item_key. rewrite Ht, dict_get_set_eq, He.
  unfold dt_lt, utc. simpl. unfold dt_instant. simpl.
  rewrite !Z.sub_0_r, (proj2 (Z.ltb_lt _ _) Hl). reflexivity.
Qed.

(** ** Witnesses *)

Definition sample_env (name : string) : option string := Some "https://provider.example/v1".
Definition silent : nat -> attempt := fun _ => HTTPError "ConnectTimeout".
Definition text_score : nat -> attempt := fun _ => Body (JObj [("risk_score", JStr "high")]).
Definition at_once (t : instant) : JsonHttpProvider.clock := JsonHttpProvider.Clock t t t.
Definition silent_call (t : instant) : call :=
  Call silent [] 1%N (at_once t) "tenant-a" "UA:100:SFO:US" "corr-1" (Some true).

Lemma sample_unanswered t : unanswered sample_env nws_alerts (silent_call t).
Proof. repeat split; try reflexivity. intros i. by exists "ConnectTimeout". Qed.

Lemma fetch_degrades_witness :
  named nws_alerts /\
  JsonHttpProvider.fetch sample_env silent nws_alerts [] 1%N (at_once 0) "tenant-a" "k" "corr-1" (Some true) =
  JsonHttpProvider.fetch sample_env (fun i => if (i <=? 1)%nat then HTTPError "ConnectTimeout" else Uncaught "Other")
    nws_alerts [] 1%N (at_once 0) "tenant-a" "k" "corr-1" (Some true).
Proof.
  split; [split; reflexivity|].
  refine (proj1 (fetch_degrades sample_env silent
    (fun i => if (i <=? 1)%nat then HTTPError "ConnectTimeout" else Uncaught "Other")
    nws_alerts [] 1%N (at_once 0) "tenant-a" "k" "corr-1" (Some true) _ _)); [split; reflexivity|].
  intros [|[|i]] Hi; simpl in *; try reflexivity. lia.
Defined.

Lemma breaker_isolates_witness :
  (performs sample_env nws_alerts [silent_call 0; silent_call 1; silent_call 2; silent_call 3]).1 =
  (performs sample_env nws_alerts [silent_call 0; silent_call 1; silent_call 2]).1.
Proof.
  exact (proj2 (proj2 (breaker_isolates sample_env nws_alerts (silent_call 0) (silent_call 1) (silent_call 2)
    [silent_call 3] text_score eq_refl (sample_unanswered 0) (sample_unanswered 1) (sample_unanswered 2)))).
Defined.

Lemma live_providers_named : Forall (fun '(_, p) => named p) live_providers.
Proof. repeat constructor. Qed.

Definition sample_flight : FlightSegmentCreate.t :=
  FlightSegmentCreate.mk "seg-1" "UA" "100" "SFO" "JFK" (utc (30 * day)) (utc (30 * day + 5 * hour)).
Definition sample_journey : Trip.t :=
  Trip.mk "tenant-a" "traveler-1" None TripCriticality.STANDARD "Home" "US" [sample_flight] 1%N
    TripStatus.ACTIVE 0.

Lemma collect_complete_witness :
  exists items connection ps' cache',
    collect sample_env (fun _ => silent) N.of_nat (fun _ => at_once 0) [5; 1]%nat 0 sample_journey
      "corr-1" (fun _ => true) live_providers [] = (Ok (items ++ [connection]), (ps', cache')) /\
    length items = 6%nat.
Proof.
  destruct (collect_complete sample_env (fun _ => silent) N.of_nat (fun _ => at_once 0) [5; 1]%nat 0
    sample_journey sample_flight [] "corr-1" (fun _ => true) live_providers [] eq_refl live_providers_named)
    as (items & c & ps' & cache' & E & Hl & _).
  - intros key item Hk. discriminate Hk.
  - intros name i. exact I.
  - exists items, c, ps', cache'. split; [exact E|exact Hl].
Defined.

(** NWS, disabled, answers with the aviation-weather envelope. *)
Lemma same_source_shares_entry_witness :
  exists item,
    let f := JsonHttpProvider.fetch sample_env text_score aviation_weather [] 1%N (at_once 0)
               "tenant-a" "k" "corr-1" (Some true) in
    JsonHttpProvider.result (JsonHttpProvider.fetch sample_env silent nws_alerts
      (JsonHttpProvider.store aviation_weather "tenant-a" "k" f []) 2%N (at_once 1)
      "tenant-a" "k" "corr-2" (Some false)) = Ok item /\
    EvidenceEnvelope.source_name item = "aviation-weather".
Proof.
  eexists. split; [|shelve].
  exact (proj1 (same_source_shares_entry sample_env text_score aviation_weather [] 1%N (at_once 0)
    "tenant-a" "k" "corr-1" (Some true) _ silent nws_alerts 2%N (at_once 1) "corr-2" (Some false)
    ltac:(vm_compute; reflexivity) eq_refl ltac:(vm_compute; reflexivity))).
  Unshelve. reflexivity.
Defined.
