(* ===== verification/Assessment.v ===== *)
(** * The assessment pipeline of [apps/api/main.py]

    From an evidence snapshot to risk factors, source health, disposition, the
    incident's fallback recommendation, and the state handed to the workflow. *)

From S2P Require Import Prelude PyData Float64 PyStd Enums Models RiskEngine Recovery Policies OpenAI Graph.
From S2P Require Import Providers.

(** ** Scoring inputs *)

Definition scoring_fields : list (string * string) :=
  [("flight_disruption", "flight_status");
   ("connection_fragility", "connection_feasibility");
   ("airport_weather", "airport_weather");
   ("ground_route_disruption", "ground_route");
   ("destination_advisory", "destination_advisory")].

(** [freshness_status in {STALE, UNAVAILABLE}] *)
Definition unusable (item : EvidenceEnvelope.t) : bool :=
  mem (EvidenceEnvelope.freshness_status item) [FreshnessStatus.STALE; FreshnessStatus.UNAVAILABLE].

Definition of_type (source_type : string) (evidence : list EvidenceEnvelope.t) : list EvidenceEnvelope.t :=
  List.filter (fun item => EvidenceEnvelope.source_type item == source_type) evidence.
Definition available (source_type : string) (evidence : list EvidenceEnvelope.t) : list EvidenceEnvelope.t :=
  List.filter (fun item => negb (unusable item)) (of_type source_type evidence).

(** [item.normalized_payload.get("risk_score", 0)] when it is a number; [float]
    of an integer beyond the range raises *)
Definition numeric_score (item : EvidenceEnvelope.t) : option (res f64) :=
  as_float (payload_get "risk_score" (JInt 0) (EvidenceEnvelope.normalized_payload item)).

(** [list] of the numeric scores, each through [float] *)
Fixpoint score_values (items : list EvidenceEnvelope.t) : res (list f64) :=
  match items with
  | [] => Ok []
  | item :: items' =>
      match numeric_score item with
      | None => score_values items'
      | Some r => x ← r; xs ← score_values items'; Ok (x :: xs)
      end
  end.

(** [max(values, default=0)] *)
Definition max_score (values : list f64) : f64 :=
  match values with
  | [] => 0
  | x :: xs => fold_left fmax xs x
  end.

(** one round of the loop: the score, and whether the field is unknown *)
Definition field_score (evidence : list EvidenceEnvelope.t) (source_type : string) : res (f64 * bool) :=
  match available source_type evidence with
  | [] => Ok (0, true)
  | items => values ← score_values items; Ok (max_score values, false)
  end.

Definition criticality_score (c : TripCriticality.t) : f64 :=
  f_int (match c with
         | TripCriticality.STANDARD => 20
         | TripCriticality.IMPORTANT => 60
         | TripCriticality.BUSINESS_CRITICAL => 100
         end).

Definition get_scoring_input (evidence : list EvidenceEnvelope.t) (trip : Trip.t)
    : res (RiskFactors.t * list string) :=
  flight ← field_score evidence "flight_status";
  connection ← field_score evidence "connection_feasibility";
  weather ← field_score evidence "airport_weather";
  ground ← field_score evidence "ground_route";
  advisory ← field_score evidence "destination_advisory";
  let unknown := List.map fst (List.filter snd
    (List.combine (List.map fst scoring_fields)
       [flight.2; connection.2; weather.2; ground.2; advisory.2])) in
  factors ← construct "RiskFactors" RiskFactors.valid
    {| RiskFactors.flight_disruption := flight.1;
       RiskFactors.connection_fragility := connection.1;
       RiskFactors.airport_weather := weather.1;
       RiskFactors.ground_route_disruption := ground.1;
       RiskFactors.destination_advisory := advisory.1;
       RiskFactors.traveler_trip_criticality := criticality_score (Trip.trip_criticality trip) |};
  Ok (factors, unknown).

(** ** Source health and disposition *)

Definition core_source_types : list string := ["flight_status"; "airport_weather"; "ground_route"].

(** no item of the type, or only unusable ones *)
Definition source_down (evidence : list EvidenceEnvelope.t) (source_type : string) : bool :=
  forallb unusable (of_type source_type evidence).

(** [core_order] is the iteration order of the set of core source types, which
    Python leaves open (string hashes are seeded per process). *)
Definition source_health_for (core_order : list string) (evidence : list EvidenceEnvelope.t)
    : SourceHealth.t :=
  let unavailable := List.filter (source_down evidence) core_order in
  {| SourceHealth.core_sources_unavailable := unavailable;
     SourceHealth.limited_visibility := match unavailable with [] => false | _ => true end |}.

Definition elevated (s : Severity.t) : bool := mem s [Severity.HIGH; Severity.CRITICAL].

Definition disposition_for (severity : Severity.t) (health : SourceHealth.t) : AssessmentDisposition.t :=
  let unavailable := SourceHealth.core_sources_unavailable health in
  if elevated severity && mem "flight_status" unavailable
  then AssessmentDisposition.NEEDS_HUMAN_REVIEW
  else if 2 <=? len unavailable then AssessmentDisposition.NEEDS_HUMAN_REVIEW
  else if elevated severity then AssessmentDisposition.INVESTIGATE
  else if severity == Severity.WATCH then AssessmentDisposition.MANAGER_QUEUE
  else AssessmentDisposition.MONITOR.

(** ** Fallback recommendations *)

Definition is_fresh (item : EvidenceEnvelope.t) : bool :=
  EvidenceEnvelope.freshness_status item == FreshnessStatus.FRESH.

(** the new [recommendation_id] and the times are defaults *)
Definition draft (rec_id : uuid) (now : instant) (incident : Incident.t) (explanation uncertainty action
    traveler manager : string) (evidence : list EvidenceEnvelope.t) (missing : list string)
    : res Recommendation.t :=
  construct "Recommendation" Recommendation.valid
    {| Recommendation.recommendation_id := rec_id;
       Recommendation.incident_id := Incident.incident_id incident;
       Recommendation.severity_explanation := explanation;
       Recommendation.evidence_ids := List.map EvidenceEnvelope.evidence_id evidence;
       Recommendation.uncertainty := uncertainty;
       Recommendation.recommended_action := action;
       Recommendation.ranked_alternative_ids := [];
       Recommendation.traveler_message := traveler;
       Recommendation.manager_message := manager;
       Recommendation.requires_human_approval := true;
       Recommendation.missing_information := missing;
       Recommendation.generated_at := now |}.

Definition investigate (rec_id : uuid) (now : instant) (incident : Incident.t)
    (evidence : list EvidenceEnvelope.t) : res Incident.t :=
  let relevant := List.filter is_fresh evidence in
  let tool_audit := List.map (fun name =>
    {| ToolAuditEvent.tool_name := name;
       ToolAuditEvent.arguments := [("trip_id", juuid (Incident.trip_id incident))];
       ToolAuditEvent.evidence_ids := List.map EvidenceEnvelope.evidence_id relevant;
       ToolAuditEvent.occurred_at := now;
       ToolAuditEvent.outcome := "completed" |})
    ["get_trip_context"; "get_flight_status"; "get_connection_feasibility"] in
  let missing := List.map EvidenceEnvelope.source_type (List.filter (fun i => negb (is_fresh i)) evidence) in
  recommendation ← draft rec_id now incident
    ("This trip is " +:+ value (Incident.severity incident) +:+
     " risk based on the verified evidence shown. RouteShield has not made or requested any booking change.")
    (match missing with [] => "medium" | _ => "high" end)
    "Review the current itinerary and provider evidence before approving any recovery action."
    "Your travel manager is reviewing a possible disruption. No itinerary change has been made."
    "Review the evidence timestamps and decide whether a policy-eligible recovery option is needed."
    evidence missing;
  Ok (incident <| Incident.tool_audit := tool_audit |>
               <| Incident.recommendation := Some recommendation |>
               <| Incident.status := IncidentStatus.PENDING_APPROVAL |>
               <| Incident.updated_at := now |>).

Definition create_limited_visibility_incident (rec_id : uuid) (now : instant) (incident : Incident.t)
    (evidence : list EvidenceEnvelope.t) : res Incident.t :=
  let unavailable := List.map EvidenceEnvelope.source_type (List.filter unusable evidence) in
  recommendation ← draft rec_id now incident
    "RouteShield has limited visibility because required sources are unavailable." "high"
    "Manually verify the itinerary before taking any recovery action."
    "Your travel manager is checking your itinerary. No itinerary change has been made."
    "Required source evidence is unavailable; verify the itinerary directly with providers."
    evidence unavailable;
  Ok (incident <| Incident.recommendation := Some recommendation |>
               <| Incident.status := IncidentStatus.PENDING_APPROVAL |>
               <| Incident.updated_at := now |>).

(** ** The state handed to the workflow *)

Definition jstrs (l : list string) : json := JList (List.map JStr l).

Definition graph_traveler_context (profile : option TravelerPreferenceProfile.t)
    : option (dict string json) :=
  match profile with
  | None => None
  | Some p => Some
      [("preferred_airports", jstrs (TravelerPreferenceProfile.preferred_airports p));
       ("preferred_carriers", jstrs (TravelerPreferenceProfile.preferred_carriers p));
       ("minimum_connection_minutes", jint_opt (TravelerPreferenceProfile.minimum_connection_minutes p));
       ("avoid_overnight_connections",
          match TravelerPreferenceProfile.avoid_overnight_connections p with
          | Some b => JBool b | None => JNull end);
       ("approved_ground_transport_preferences",
          jstrs (TravelerPreferenceProfile.approved_ground_transport_preferences p));
       ("approved_accessibility_accommodations",
          jstrs (TravelerPreferenceProfile.approved_accessibility_accommodations p));
       ("version", JInt (TravelerPreferenceProfile.version p))]
  end.

(** pydantic's JSON text of a datetime *)
Class JsonTime : Type := json_time : datetime -> string.

Section Dumps.
Context `{JsonTime}.

Definition jtime_opt (o : option datetime) : json :=
  match o with Some d => JStr (json_time d) | None => JNull end.

(** [model_dump(mode="json")] of the three records the workflow reads *)
Definition dump_assessment (a : RiskAssessment.t) : obj :=
  [("assessment_id", juuid (RiskAssessment.assessment_id a));
   ("trip_id", juuid (RiskAssessment.trip_id a));
   ("policy_version", JStr (RiskAssessment.policy_version a));
   ("risk_score", JFloat (RiskAssessment.risk_score a));
   ("severity", JStr (value (RiskAssessment.severity a)));
   ("factor_contributions",
      JObj (List.map (fun kv => (kv.1, JFloat kv.2)) (RiskAssessment.factor_contributions a)));
   ("assessment_time", JStr (json_time (utc (RiskAssessment.assessment_time a))));
   ("evidence_ids", JList (List.map juuid (RiskAssessment.evidence_ids a)));
   ("unknown_factors", jstrs (RiskAssessment.unknown_factors a));
   ("uncertainty", JStr (RiskAssessment.uncertainty a))].

Definition dump_source_health (h : SourceHealth.t) : obj :=
  [("core_sources_unavailable", jstrs (SourceHealth.core_sources_unavailable h));
   ("limited_visibility", JBool (SourceHealth.limited_visibility h))].

Definition dump_evidence (e : EvidenceEnvelope.t) : obj :=
  [("evidence_id", juuid (EvidenceEnvelope.evidence_id e));
   ("source_name", JStr (EvidenceEnvelope.source_name e));
   ("source_type", JStr (EvidenceEnvelope.source_type e));
   ("source_url_or_record_id", JStr (EvidenceEnvelope.source_url_or_record_id e));
   ("retrieved_at", JStr (json_time (EvidenceEnvelope.retrieved_at e)));
   ("observed_at", jtime_opt (EvidenceEnvelope.observed_at e));
   ("expires_at", JStr (json_time (EvidenceEnvelope.expires_at e)));
   ("freshness_status", JStr (value (EvidenceEnvelope.freshness_status e)));
   ("normalized_payload", JObj (EvidenceEnvelope.normalized_payload e));
   ("raw_payload_reference", jstr_opt (EvidenceEnvelope.raw_payload_reference e));
   ("provider_latency_ms", jint_opt (EvidenceEnvelope.provider_latency_ms e));
   ("provider_request_id", jstr_opt (EvidenceEnvelope.provider_request_id e));
   ("error_code", jstr_opt (EvidenceEnvelope.error_code e))].

Definition playbook_entry (p : TenantPlaybook.t) : json :=
  JObj [("playbook_id", juuid (TenantPlaybook.playbook_id p)); ("name", JStr (TenantPlaybook.name p));
        ("version", JStr (TenantPlaybook.version p)); ("guidance", JStr (TenantPlaybook.guidance p))].

(** the input of [route_risk_graph.ainvoke]; [trip_context] is the dump of the trip *)
Definition graph_input (incident : Incident.t) (assessment : RiskAssessment.t)
    (evidence : list EvidenceEnvelope.t) (trip_context : obj) (health : SourceHealth.t)
    (profile : option TravelerPreferenceProfile.t) (playbooks : list TenantPlaybook.t)
    (llm_enabled : bool) : state :=
  {| RouteRiskState.tenant_id := Incident.tenant_id incident;
     RouteRiskState.trip_id := uuid_str (Incident.trip_id incident);
     RouteRiskState.incident_id := uuid_str (Incident.incident_id incident);
     RouteRiskState.trip_context := Some trip_context;
     RouteRiskState.traveler_context := graph_traveler_context profile;
     RouteRiskState.memory_context := None;
     RouteRiskState.memory_context_version := None;
     RouteRiskState.playbook_context := List.map playbook_entry playbooks;
     RouteRiskState.approved_playbooks := [];
     RouteRiskState.risk_assessment := dump_assessment assessment;
     RouteRiskState.evidence := List.map dump_evidence evidence;
     RouteRiskState.source_health := dump_source_health health;
     RouteRiskState.react_iterations := 0;
     RouteRiskState.tool_audit := [];
     RouteRiskState.model_audit := [];
     RouteRiskState.llm_enabled := llm_enabled;
     RouteRiskState.tool_selection_attempted := false;
     RouteRiskState.tool_selection_mode := None;
     RouteRiskState.pending_tool_call := None;
     RouteRiskState.alternative_candidates := [];
     RouteRiskState.eligible_alternatives := [];
     RouteRiskState.recovery_ranking := None;
     RouteRiskState.policy_decision := None;
     RouteRiskState.policy_gate := None;
     RouteRiskState.recommendation := None;
     RouteRiskState.approval := None;
     RouteRiskState.dispatched_actions := [];
     RouteRiskState.final_status := None |}.

End Dumps.

(** ** Lemmas *)

Lemma fold_fmax_ge xs : forall x, x <= fold_left fmax xs x /\
  (forall y, In y xs -> y <= fold_left fmax xs x) /\
  (fold_left fmax xs x = x \/ In (fold_left fmax xs x) xs).
Proof.
  induction xs as [|z xs IH]; intros x; simpl; [split; [lia|]; split; [done|by left]|].
  destruct (IH (fmax x z)) as (H1 & H2 & H3). pose proof (fmax_ge_l x z) as Hl.
  assert (Hr : z <= fmax x z) by (unfold fmax, flt; case_match; bool_hyps; lia).
  split; [lia|]. split.
  - intros y [<-|Hy]; [lia|by apply H2].
  - destruct H3 as [->|H3]; [|by right; right]. unfold fmax. case_match; [right; by left|by left].
Qed.

Lemma max_score_spec values :
  (forall x, In x values -> x <= max_score values) /\
  (max_score values = 0 \/ In (max_score values) values).
Proof.
  destruct values as [|x xs]; simpl; [split; [done|by left]|].
  destruct (fold_fmax_ge xs x) as (H1 & H2 & H3). split.
  - intros y [<-|Hy]; [done|by apply H2].
  - right. destruct H3 as [->|H3]; [by left|by right].
Qed.

Lemma score_values_in items : forall xs x, score_values items = Ok xs ->
  In x xs <-> exists item, In item items /\ numeric_score item = Some (Ok x).
Proof.
  induction items as [|item items IH]; intros xs x E; simpl in E.
  - apply Ok_inj in E as <-. split; [done|]. by intros (? & ? & ?).
  - destruct (numeric_score item) as [r|] eqn:En.
    + apply res_bind_ok in E as (y & -> & E). apply res_bind_ok in E as (ys & Hys & E).
      apply Ok_inj in E as <-. specialize (IH ys x Hys). simpl. rewrite IH. split.
      * intros [->|(i & Hi & Hx)]; [exists item; split; [by left|done]|exists i; split; [by right|done]].
      * intros (i & [<-|Hi] & Hx); [left; congruence|right; by exists i].
    + rewrite (IH xs x E). simpl. split.
      * intros (i & Hi & Hx). exists i. split; [by right|done].
      * intros (i & [<-|Hi] & Hx); [congruence|by exists i].
Qed.

(** every usable item with a numeric score has one in the range of a percentage *)
Definition scores_in_range (evidence : list EvidenceEnvelope.t) : Prop :=
  forall item, In item evidence -> unusable item = false ->
    match numeric_score item with
    | Some r => exists x, r = Ok x /\ percent x = true
    | None => True
    end.

Lemma score_values_total items :
  (forall item, In item items -> match numeric_score item with
     | Some r => exists x, r = Ok x /\ percent x = true | None => True end) ->
  exists xs, score_values items = Ok xs.
Proof.
  induction items as [|item items IH]; intros H; simpl; [by eexists|].
  pose proof (H item (or_introl eq_refl)) as Hi. destruct IH as [xs ->]; [intros; apply H; by right|].
  destruct (numeric_score item) as [r|]; [|by eexists]. destruct Hi as (x & -> & _). by eexists.
Qed.

Lemma in_available source evidence item :
  In item (available source evidence) <->
  In item evidence /\ EvidenceEnvelope.source_type item = source /\ unusable item = false.
Proof.
  unfold available, of_type. rewrite !filter_In, negb_true_iff, bool_decide_eq_true. tauto.
Qed.

(** what one field reports about its source *)
Record reports (evidence : list EvidenceEnvelope.t) (source : string) (score : f64) (is_unknown : bool)
    : Prop := {
  reports_unknown : is_unknown = true <-> available source evidence = [];
  reports_upper : forall item x, In item (available source evidence) ->
    numeric_score item = Some (Ok x) -> x <= score;
  reports_attained : score = 0 \/ exists item, In item (available source evidence) /\
    numeric_score item = Some (Ok score)
}.

Lemma field_score_spec evidence source : scores_in_range evidence ->
  exists score is_unknown, field_score evidence source = Ok (score, is_unknown) /\
    reports evidence source score is_unknown /\ percent score = true.
Proof.
  intros Hr. unfold field_score. destruct (available source evidence) as [|i0 items] eqn:Ea.
  - exists 0, true. split; [done|]. split; [|reflexivity]. constructor; rewrite ?Ea; [done..|by left].
  - rewrite <- Ea. destruct (score_values_total (available source evidence)) as [xs E].
    { intros item (Hi & _ & Hu)%in_available. by apply Hr. }
    destruct (max_score_spec xs) as [Hmax Hin]. exists (max_score xs), false. rewrite E.
    split; [done|]. split.
    + constructor.
      * by rewrite Ea.
      * intros item x Hi Hx. apply Hmax, (score_values_in _ _ _ E). by exists item.
      * destruct Hin as [?|Hin]; [by left|right]. by apply (score_values_in _ _ _ E).
    + destruct Hin as [->|Hin]; [reflexivity|].
      apply (score_values_in _ _ _ E) in Hin as (item & (Hi & _ & Hu)%in_available & Hx).
      specialize (Hr item Hi Hu). rewrite Hx in Hr. destruct Hr as (x & Hxe & Hp). apply Ok_inj in Hxe. by subst x.
Qed.

(** the names whose flag is set *)
Lemma in_flagged (names : list string) (flags : list bool) field :
  In field (List.map fst (List.filter snd (List.combine names flags))) <->
  In (field, true) (List.combine names flags).
Proof.
  rewrite in_map_iff. split.
  - intros ([f b] & <- & [Hin Hb]%filter_In). simpl in *. by subst b.
  - intros Hin. exists (field, true). split; [done|]. by apply filter_In.
Qed.

Lemma in_combine_at (names : list string) : forall flags i field flag,
  NoDup names -> names !! i = Some field -> flags !! i = Some flag ->
  In (field, true) (List.combine names flags) <-> flag = true.
Proof.
  induction names as [|n names IH]; intros [|b flags] [|i] field flag Hn Hi Hb; try done; simpl in *.
  - injection Hi as ->. injection Hb as ->. apply NoDup_cons in Hn as [Hn _]. split.
    + intros [E|Hin]; [congruence|]. apply in_combine_l, list_elem_of_In in Hin. done.
    + intros ->. by left.
  - apply NoDup_cons in Hn as [Hn Hnd]. rewrite <- (IH flags i field flag Hnd Hi Hb). split; [|by right].
    intros [E|Hin]; [|done]. injection E as -> _. exfalso. apply Hn. by eapply list_elem_of_lookup_2.
Qed.

Lemma scoring_names_nodup : NoDup (List.map fst scoring_fields).
Proof. apply (bool_decide_eq_true _). vm_compute. reflexivity. Qed.

Lemma reports_fields evidence source score flag : reports evidence source score flag ->
  (flag = true <-> forall item, In item evidence -> EvidenceEnvelope.source_type item = source ->
     unusable item = true) /\
  (flag = true -> score = 0) /\
  (forall item x, In item evidence -> EvidenceEnvelope.source_type item = source ->
     unusable item = false -> numeric_score item = Some (Ok x) -> fle x score = true) /\
  (score = 0 \/ exists item, In item evidence /\ EvidenceEnvelope.source_type item = source /\
     unusable item = false /\ numeric_score item = Some (Ok score)).
Proof.
  intros [Hu Hmax Hin]. split_and!.
  - rewrite Hu. split.
    + intros Hn item Hi Hs. apply not_false_is_true. intros Hf.
      assert (Hc : In item (available source evidence)) by by apply in_available. by rewrite Hn in Hc.
    + intros Hall. destruct (available source evidence) as [|i l] eqn:E; [done|].
      assert (Hi : In i (available source evidence)) by (rewrite E; by left).
      apply in_available in Hi as (Hi & Hs & Hf). rewrite (Hall i Hi Hs) in Hf. done.
  - intros Hn%Hu. destruct Hin as [?|(item & Hi & _)]; [done|]. by rewrite Hn in Hi.
  - intros item x Hi Hs Hf Hx. apply Z.leb_le. apply (Hmax item); [by apply in_available|done].
  - destruct Hin as [?|(item & (Hi & Hs & Hf)%in_available & Hx)]; [by left|right; by exists item].
Qed.

Lemma criticality_percent c : percent (criticality_score c) = true.
Proof. destruct c; reflexivity. Qed.

Lemma percent_range x : percent x = true <-> 0 <= x <= f_int 100.
Proof. unfold percent. rewrite andb_true_iff, !Z.leb_le. done. Qed.

Lemma elevated_true s : elevated s = true <-> s = Severity.HIGH \/ s = Severity.CRITICAL.
Proof. destruct s; vm_compute; intuition congruence. Qed.

Lemma in_json_strs x l : in_json_list x (List.map JStr l) = mem x l.
Proof.
  apply eq_true_iff_eq. unfold in_json_list. rewrite existsb_exists, mem_true_iff. split.
  - intros (j & (y & <- & Hy)%in_map_iff & Hj%jis_str_true). by injection Hj as ->.
  - intros Hx. exists (JStr x). split; [by apply in_map|by apply jis_str_true].
Qed.

Lemma scoring_input_total evidence trip : scores_in_range evidence ->
  exists factors unknown, get_scoring_input evidence trip = Ok (factors, unknown) /\
    RiskFactors.valid factors = true.
Proof.
  intros Hr. unfold get_scoring_input.
  destruct (field_score_spec evidence "flight_status" Hr) as (s1 & u1 & -> & _ & P1).
  destruct (field_score_spec evidence "connection_feasibility" Hr) as (s2 & u2 & -> & _ & P2).
  destruct (field_score_spec evidence "airport_weather" Hr) as (s3 & u3 & -> & _ & P3).
  destruct (field_score_spec evidence "ground_route" Hr) as (s4 & u4 & -> & _ & P4).
  destruct (field_score_spec evidence "destination_advisory" Hr) as (s5 & u5 & -> & _ & P5).
  cbn [mbind res_bind]. unfold construct.
  match goal with |- context [RiskFactors.valid ?f] => assert (Hv : RiskFactors.valid f = true) end.
  { unfold RiskFactors.valid. simpl. by rewrite P1, P2, P3, P4, P5, criticality_percent. }
  rewrite Hv. do 2 eexists. split; [reflexivity|done].
Qed.

Section Routing.
Context `{JsonTime} `{Repr}.

Lemma graph_input_severe incident a evidence trip_context health profile playbooks llm :
  is_severe (graph_input incident a evidence trip_context health profile playbooks llm) =
  elevated (RiskAssessment.severity a).
Proof. unfold is_severe, _severity. simpl. by destruct (RiskAssessment.severity a). Qed.

Lemma graph_input_core incident a evidence trip_context health profile playbooks llm :
  core_unavailable (graph_input incident a evidence trip_context health profile playbooks llm) =
  JList (List.map JStr (SourceHealth.core_sources_unavailable health)).
Proof. reflexivity. Qed.

Lemma graph_input_initial incident a evidence trip_context health profile playbooks llm :
  initial (graph_input incident a evidence trip_context health profile playbooks llm).
Proof. by constructor. Qed.

End Routing.

Lemma down_permutation core_order evidence : Permutation core_order core_source_types ->
  len (List.filter (source_down evidence) core_order) =
    len (List.filter (source_down evidence) core_source_types) /\
  mem "flight_status" (List.filter (source_down evidence) core_order) = source_down evidence "flight_status".
Proof.
  intros Hp. split.
  - unfold len. f_equal. apply Permutation_length. by apply filter_perm.
  - apply eq_true_iff_eq. rewrite mem_true_iff, filter_In. split; [by intros [_ ?]|].
    intros Hd. split; [|done]. apply (Permutation_in _ (Permutation_sym Hp)). by left.
Qed.

Lemma draft_ok rec_id now incident explanation uncertainty action traveler manager evidence missing :
  evidence <> [] ->
  len_in 1 1000 explanation = true -> len_in 1 1000 action = true -> len_in 1 1000 traveler = true ->
  len_in 1 2000 manager = true ->
  draft rec_id now incident explanation uncertainty action traveler manager evidence missing = Ok
    (Recommendation.mk rec_id (Incident.incident_id incident) explanation
       (List.map EvidenceEnvelope.evidence_id evidence) uncertainty action [] traveler manager true missing now).
Proof.
  intros He H1 H2 H3 H4. unfold draft. apply construct_ok. split; [done|].
  unfold Recommendation.valid. simpl. rewrite H1, H2, H3, H4. simpl.
  destruct evidence as [|e evidence]; [done|]. unfold len. simpl. rewrite !andb_true_r. apply Z.leb_le. lia.
Qed.

(** Both fallback recommendations are safe drafts: from any evidence they are
    produced, cite exactly that evidence, name every source that is not usable (or
    not fresh), require human approval, and leave the incident pending approval
    with its identity, severity and assessment unchanged. *)
Lemma fallbacks_safe rec_id now incident evidence :
  evidence <> [] ->
  forall full : bool,
  exists incident' r,
    (if full then investigate rec_id now incident evidence
     else create_limited_visibility_incident rec_id now incident evidence) = Ok incident' /\
    Incident.recommendation incident' = Some r /\
    Recommendation.requires_human_approval r = true /\
    Recommendation.incident_id r = Incident.incident_id incident /\
    Recommendation.evidence_ids r = List.map EvidenceEnvelope.evidence_id evidence /\
    (forall item, In item evidence -> unusable item = true ->
       In (EvidenceEnvelope.source_type item) (Recommendation.missing_information r)) /\
    (forall source, In source (Recommendation.missing_information r) ->
       exists item, In item evidence /\ EvidenceEnvelope.source_type item = source /\ is_fresh item = false) /\
    Incident.status incident' = IncidentStatus.PENDING_APPROVAL /\
    (Incident.incident_id incident', Incident.tenant_id incident', Incident.trip_id incident',
     Incident.severity incident', Incident.assessment_id incident') =
    (Incident.incident_id incident, Incident.tenant_id incident, Incident.trip_id incident,
     Incident.severity incident, Incident.assessment_id incident).
Proof.
  intros He full. assert (Hunusable : forall item, unusable item = true -> is_fresh item = false).
  { intros item. unfold unusable, is_fresh. by destruct (EvidenceEnvelope.freshness_status item). }
  destruct full; unfold investigate, create_limited_visibility_incident; cbv zeta;
    (rewrite draft_ok; [|done|by destruct (Incident.severity incident)|done..]);
    cbn [mbind res_bind]; do 2 eexists; (split; [reflexivity|]); (split; [reflexivity|]);
    (split; [reflexivity|]); (split; [reflexivity|]); (split; [reflexivity|]);
    (split; [|split; [|by split]]); cbn [Recommendation.missing_information].
  - intros item Hi Hu. apply in_map, filter_In. split; [done|]. by rewrite (Hunusable item Hu).
  - intros source (item & <- & [Hi Hf]%filter_In)%in_map_iff. exists item. split; [done|]. split; [done|].
    by apply negb_true_iff.
  - intros item Hi Hu. by apply in_map, filter_In.
  - intros source (item & <- & [Hi Hf]%filter_In)%in_map_iff. exists item. split; [done|]. split; [done|].
    by apply Hunusable.
Qed.

(** ** Properties *)

(** C28.  Scoring inputs: from any evidence whose usable scores are percentages,
    the factors are always produced and valid; each factor is the largest usable
    score of its source, so that no source can hide another's higher score, and
    is reported unknown, with score zero, exactly when the source has no usable
    item. *)
Theorem scoring_input_spec evidence trip :
  scores_in_range evidence ->
  exists factors unknown, get_scoring_input evidence trip = Ok (factors, unknown) /\
    RiskFactors.valid factors = true /\
    forall field source, In (field, source) scoring_fields ->
      let score := getattr factors field in
      (In field unknown <-> forall item, In item evidence ->
         EvidenceEnvelope.source_type item = source -> unusable item = true) /\
      (In field unknown -> score = 0) /\
      (forall item x, In item evidence -> EvidenceEnvelope.source_type item = source ->
         unusable item = false -> numeric_score item = Some (Ok x) -> fle x score = true) /\
      (score = 0 \/ exists item, In item evidence /\ EvidenceEnvelope.source_type item = source /\
         unusable item = false /\ numeric_score item = Some (Ok score)).
Proof.
  intros Hr. unfold get_scoring_input.
  destruct (field_score_spec evidence "flight_status" Hr) as (s1 & u1 & -> & R1 & P1).
  destruct (field_score_spec evidence "connection_feasibility" Hr) as (s2 & u2 & -> & R2 & P2).
  destruct (field_score_spec evidence "airport_weather" Hr) as (s3 & u3 & -> & R3 & P3).
  destruct (field_score_spec evidence "ground_route" Hr) as (s4 & u4 & -> & R4 & P4).
  destruct (field_score_spec evidence "destination_advisory" Hr) as (s5 & u5 & -> & R5 & P5).
  cbn [mbind res_bind]. unfold construct.
  match goal with |- context [RiskFactors.valid ?f] => set (factors := f) end.
  assert (Hv : RiskFactors.valid factors = true).
  { unfold RiskFactors.valid. simpl. by rewrite P1, P2, P3, P4, P5, criticality_percent. }
  rewrite Hv. cbn [mbind res_bind]. exists factors. eexists. split; [reflexivity|]. split; [done|].
  cbn [fst snd]. intros field source Hin. cbv zeta. rewrite in_flagged. simpl in Hin.
  apply reports_fields in R1, R2, R3, R4, R5.
  destruct Hin as [E|[E|[E|[E|[E|[]]]]]]; injection E as <- <-.
  - rewrite (in_combine_at (List.map fst scoring_fields) [u1; u2; u3; u4; u5] 0 _ u1 scoring_names_nodup eq_refl eq_refl). exact R1.
  - rewrite (in_combine_at (List.map fst scoring_fields) [u1; u2; u3; u4; u5] 1 _ u2 scoring_names_nodup eq_refl eq_refl). exact R2.
  - rewrite (in_combine_at (List.map fst scoring_fields) [u1; u2; u3; u4; u5] 2 _ u3 scoring_names_nodup eq_refl eq_refl). exact R3.
  - rewrite (in_combine_at (List.map fst scoring_fields) [u1; u2; u3; u4; u5] 3 _ u4 scoring_names_nodup eq_refl eq_refl). exact R4.
  - rewrite (in_combine_at (List.map fst scoring_fields) [u1; u2; u3; u4; u5] 4 _ u5 scoring_names_nodup eq_refl eq_refl). exact R5.
Qed.

(** C29.  Disposition: whatever order the set of core sources is iterated in, a
    case goes to human review exactly when two core sources are down or a high or
    critical case lacks flight status; otherwise the severity decides.  The
    workflow started on the same assessment takes the corresponding route: the
    gate for review, the investigation for the other high and critical cases, and
    no investigation for the rest. *)
Theorem disposition_agrees `{JsonTime} `{Repr} core_order evidence incident assessment trip_context
    profile playbooks llm :
  Permutation core_order core_source_types ->
  let severity := RiskAssessment.severity assessment in
  let health := source_health_for core_order evidence in
  let down := len (List.filter (source_down evidence) core_source_types) in
  let review := (2 <=? down) || (elevated severity && source_down evidence "flight_status") in
  let d := disposition_for severity health in
  d = (if review then AssessmentDisposition.NEEDS_HUMAN_REVIEW
       else match severity with
            | Severity.LOW => AssessmentDisposition.MONITOR
            | Severity.WATCH => AssessmentDisposition.MANAGER_QUEUE
            | _ => AssessmentDisposition.INVESTIGATE
            end) /\
  route_by_severity (graph_input incident assessment evidence trip_context health profile playbooks llm) =
    match d with
    | AssessmentDisposition.NEEDS_HUMAN_REVIEW => approval_gate_
    | AssessmentDisposition.INVESTIGATE => load_memory_context_
    | _ => finalize_
    end.
Proof.
  intros Hp severity health down review d.
  destruct (down_permutation core_order evidence Hp) as [Hlen Hmem].
  assert (Hd : d = disposition_for severity health) by done.
  unfold disposition_for, health, source_health_for in Hd. simpl in Hd. rewrite Hlen, Hmem in Hd.
  fold down in Hd. unfold route_by_severity. rewrite graph_input_core, graph_input_severe, in_json_strs.
  unfold health, source_health_for, len. simpl. rewrite length_map, Hmem.
  change (Z.of_nat (length ?l)) with (len l). rewrite Hlen. fold down severity. subst review.
  rewrite Hd. destruct (2 <=? down), (source_down evidence "flight_status"), severity; by split.
Qed.

(** ** Witnesses *)

Definition sample_item (id : uuid) (source_type : string) (status : FreshnessStatus.t) (score : f64)
    : EvidenceEnvelope.t :=
  EvidenceEnvelope.mk id "provider" source_type "https://provider.example/v1" (utc 0) (Some (utc 0))
    (utc (15 * minute)) status [("risk_score", JFloat score)] None None None None.

Definition sample_evidence : list EvidenceEnvelope.t :=
  [sample_item 1%N "airport_weather" FreshnessStatus.FRESH (f_int 80);
   sample_item 2%N "airport_weather" FreshnessStatus.FRESH (f_int 0);
   sample_item 3%N "flight_status" FreshnessStatus.UNAVAILABLE (f_int 5)].

Lemma sample_scores : scores_in_range sample_evidence.
Proof.
  intros item [<-|[<-|[<-|[]]]] Hu; try discriminate Hu; (eexists; split; [reflexivity|reflexivity]).
Qed.

Definition sample_assessed_trip : Trip.t :=
  Trip.mk "tenant-a" "traveler-1" None TripCriticality.STANDARD "Home" "US" [] 1%N TripStatus.ACTIVE 0.

Lemma scoring_input_spec_witness :
  exists factors unknown, get_scoring_input sample_evidence sample_assessed_trip = Ok (factors, unknown) /\
    fle (f_int 80) (getattr factors "airport_weather") = true.
Proof.
  destruct (scoring_input_spec sample_evidence sample_assessed_trip sample_scores)
    as (factors & unknown & E & _ & Hspec).
  exists factors, unknown. split; [exact E|].
  refine (proj1 (proj2 (proj2 (Hspec "airport_weather" "airport_weather" _)))
    (sample_item 1%N "airport_weather" FreshnessStatus.FRESH (f_int 80)) (f_int 80) _ _ _ _).
  - right. right. left. reflexivity.
  - left. reflexivity.
  - reflexivity.
  - reflexivity.
  - reflexivity.
Defined.

Definition plain_time : JsonTime := isoformat.
Definition sample_incident (severity : Severity.t) : Incident.t :=
  Incident.mk 7%N "tenant-a" 1%N 8%N severity IncidentStatus.OPEN 9%N 0 0 [] [] None None None.
Definition sample_assessment (severity : Severity.t) : RiskAssessment.t :=
  RiskAssessment.mk 8%N 1%N RISK_POLICY_VERSION (f_int 60) severity [] 0 [] [] "low".

Lemma disposition_agrees_witness :
  disposition_for Severity.HIGH (source_health_for ["ground_route"; "flight_status"; "airport_weather"]
    sample_evidence) = AssessmentDisposition.NEEDS_HUMAN_REVIEW.
Proof.
  etransitivity; [|reflexivity].
  exact (proj1 (@disposition_agrees plain_time plain_repr ["ground_route"; "flight_status"; "airport_weather"]
    sample_evidence (sample_incident Severity.HIGH) (sample_assessment Severity.HIGH) [] None [] false
    ltac:(apply perm_trans with ["flight_status"; "ground_route"; "airport_weather"];
          [apply perm_swap|apply perm_skip, perm_swap]))).
Defined.
