(* ===== verification/Evaluation.v ===== *)
(** * [tools/evaluation.py]: the deterministic release gates *)

From S2P Require Import Prelude PyData Float64 PyStd Enums Models RiskEngine Recovery Policies OpenAI Graph.
From S2P Require Import Providers Assessment.

Definition EVALUATION_SUITE_VERSION : string := "2026.07.1".

Module GoldenScenarioResult.

Record t : Type := mk {
  scenario : DemoScenario.t;
  risk_score : f64;
  severity : string;
  disposition : AssessmentDisposition.t;
  provider_contract_valid : bool;
  unknown_factors : list string
}.

End GoldenScenarioResult.

Module GoldenScenarioCase.

Record t : Type := mk {
  case_id : string;
  evidence_profile : DemoScenario.t;
  expected_disposition : AssessmentDisposition.t
}.

End GoldenScenarioCase.

Definition _cases (profile : DemoScenario.t) (disposition : AssessmentDisposition.t)
    (case_ids : list string) : list GoldenScenarioCase.t :=
  List.map (fun case_id => GoldenScenarioCase.mk case_id profile disposition) case_ids.

Definition GOLDEN_SCENARIOS : list GoldenScenarioCase.t :=
  _cases DemoScenario.NORMAL AssessmentDisposition.MONITOR
    ["normal_itinerary_no_action"; "safe_connection_after_minor_delay";
     "low_severity_destination_context"; "standard_trip_baseline"; "important_trip_baseline";
     "executive_traveler_no_material_signal"; "confirmed_preference_no_eligibility_change";
     "explicit_preference_update_new_thread_retrieval"; "manager_queue_filtering_low_risk";
     "traveler_notification_preview_only"; "approved_playbook_read_only_guidance";
     "assessment_replay_without_duplicate_incident"] ++
  _cases DemoScenario.DISRUPTION AssessmentDisposition.INVESTIGATE
    ["missed_connection_risk"; "flight_cancellation"; "severe_departure_weather";
     "airport_ground_traffic_delay"; "critical_customer_meeting";
     "executive_traveler_material_disruption"; "destination_advisory_change";
     "alternative_recovery_ranking"; "preference_tightens_connection_rule";
     "accessibility_constraint_preserved"; "manager_recommendation_rejected";
     "manager_override_with_reason"; "candidate_offered_then_viewed";
     "candidate_selected_then_completed"; "candidate_rejected_without_negative_label";
     "approval_interrupt_and_resume"; "approved_action_outbox_replay_safe";
     "notification_queue_retry_transition"; "critical_duty_of_care_escalation";
     "provider_latency_recorded"; "evidence_freshness_preserved";
     "structured_recommendation_grounding"; "recommendation_alternative_order_preserved";
     "model_output_repair_attempt"; "tenant_scoped_memory_loaded";
     "playbook_visible_only_at_approval"] ++
  _cases DemoScenario.SOURCE_OUTAGE AssessmentDisposition.NEEDS_HUMAN_REVIEW
    ["conflicting_provider_data"; "flight_status_provider_outage"; "weather_provider_outage";
     "multiple_core_source_outage"; "stale_evidence_requires_human_review";
     "openai_unavailable_deterministic_fallback"; "malformed_model_output_safe_fallback";
     "prompt_injection_in_csv_rejected"; "prompt_injection_in_provider_content_rejected";
     "prompt_injection_in_playbook_rejected"; "malicious_memory_proposal_rejected";
     "restricted_memory_field_rejected"; "cross_tenant_memory_access_rejected";
     "cross_tenant_notification_access_rejected"; "duplicate_webhook_replay_rejected";
     "unconfigured_external_channel_fails_closed"; "unconfigured_action_provider_fails_closed";
     "retention_worker_respects_legal_hold"; "deletion_request_respects_legal_hold"].

(** [{item.source_type: item for item in evidence}.get(source_type)]: the last one *)
Definition by_type (evidence : list EvidenceEnvelope.t) (source_type : string) : option EvidenceEnvelope.t :=
  last (of_type source_type evidence).

(** one round of the loop of [_score_inputs] *)
Definition scored_field (evidence : list EvidenceEnvelope.t) (source_type : string) : res (f64 * bool) :=
  match by_type evidence source_type with
  | None => Ok (0, true)
  | Some item =>
      if unusable item then Ok (0, true)
      else match numeric_score item with
           | None => Ok (0, false)
           | Some r => x ← r; Ok (x, false)
           end
  end.

Definition _score_inputs (trip : Trip.t) (evidence : list EvidenceEnvelope.t)
    : res (RiskFactors.t * list string) :=
  flight ← scored_field evidence "flight_status";
  connection ← scored_field evidence "connection_feasibility";
  weather ← scored_field evidence "airport_weather";
  ground ← scored_field evidence "ground_route";
  advisory ← scored_field evidence "destination_advisory";
  let unknown := List.map fst (List.filter snd
    (List.combine (List.map fst scoring_fields)
       [flight.2; connection.2; weather.2; ground.2; advisory.2])) in
  factors ← construct "RiskFactors" RiskFactors.valid
    {| RiskFactors.flight_disruption := flight.1;
       RiskFactors.connection_fragility := connection.1;
       RiskFactors.airport_weather := weather.1;
       RiskFactors.ground_route_disruption := ground.1;
       RiskFactors.destination_advisory := advisory.1;
       RiskFactors.traveler_trip_criticality := criticality_score (Trip.trip_criticality trip) |};
  Ok (factors, unknown).

(** the set of core source types with an unusable item *)
Definition unavailable_core (evidence : list EvidenceEnvelope.t) : list string :=
  fromkeys (List.map EvidenceEnvelope.source_type
    (List.filter (fun item => mem (EvidenceEnvelope.source_type item) core_source_types && unusable item)
      evidence)).

Definition golden_disposition (evidence : list EvidenceEnvelope.t) (severity : Severity.t)
    : AssessmentDisposition.t :=
  if 2 <=? len (unavailable_core evidence) then AssessmentDisposition.NEEDS_HUMAN_REVIEW
  else if elevated severity then AssessmentDisposition.INVESTIGATE
  else if severity == Severity.WATCH then AssessmentDisposition.MANAGER_QUEUE
  else AssessmentDisposition.MONITOR.

(** [all(bool(name) and bool(url) and expires_at >= retrieved_at ...)] *)
Fixpoint contract_valid (evidence : list EvidenceEnvelope.t) : res bool :=
  match evidence with
  | [] => Ok true
  | item :: evidence' =>
      if truthy_str (EvidenceEnvelope.source_name item) &&
         truthy_str (EvidenceEnvelope.source_url_or_record_id item)
      then ordered ← dt_le (EvidenceEnvelope.retrieved_at item) (EvidenceEnvelope.expires_at item);
           if ordered : bool then contract_valid evidence' else Ok false
      else Ok false
  end.

Section Evaluate.
Variables (py_sum : list f64 -> f64) (fresh : nat -> uuid) (now : instant) (correlation : string).

Definition evaluate_golden_scenario (trip : Trip.t) (scenario : DemoScenario.t)
    : res GoldenScenarioResult.t :=
  evidence ← collect_baseline scenario fresh now correlation;
  inputs ← _score_inputs trip evidence;
  assessment ← calculate_risk py_sum (fresh 5%nat) now (Trip.trip_id trip) inputs.1
    (List.map EvidenceEnvelope.evidence_id evidence) inputs.2;
  provider_contract_valid ← contract_valid evidence;
  Ok (GoldenScenarioResult.mk scenario (RiskAssessment.risk_score assessment)
        (value (RiskAssessment.severity assessment))
        (golden_disposition evidence (RiskAssessment.severity assessment))
        provider_contract_valid inputs.2).

Definition evaluate_golden_suite (trip : Trip.t)
    : res (list (GoldenScenarioCase.t * GoldenScenarioResult.t)) :=
  mapM (fun case =>
    result ← evaluate_golden_scenario trip (GoldenScenarioCase.evidence_profile case);
    Ok (case, result)) GOLDEN_SCENARIOS.

End Evaluate.

Definition recommendation_is_grounded `{Repr} (recommendation : obj) (evidence_ids : list string) : bool :=
  match dict_get "evidence_ids" recommendation with
  | Some (JList ((_ :: _) as cited)) => subset (List.map (fun j => py_str (Some j)) cited) evidence_ids
  | _ => false
  end.

Definition recommendation_is_safe `{Repr} (recommendation : obj) (evidence_ids alternative_ids : list string)
    : bool :=
  recommendation_is_grounded recommendation evidence_ids &&
  match get_or "ranked_alternative_ids" (JList []) recommendation with
  | JList ranked => subset (List.map (fun j => py_str (Some j)) ranked) alternative_ids
  | _ => false
  end &&
  match dict_get "requires_human_approval" recommendation with Some (JBool true) => true | _ => false end.

(** ** Lemmas *)

Lemma of_type_single evidence source :
  NoDup (List.map EvidenceEnvelope.source_type evidence) -> (length (of_type source evidence) <= 1)%nat.
Proof.
  induction evidence as [|item evidence IH]; intros Hn; simpl; [lia|].
  apply NoDup_cons in Hn as [Hnot Hn]. case_bool_decide as E; [|by apply IH]. simpl.
  destruct (of_type source evidence) as [|x l] eqn:Ef; [simpl; lia|]. exfalso.
  assert (Hx : In x (of_type source evidence)) by (rewrite Ef; by left).
  apply filter_In in Hx as [Hx Hs%bool_decide_eq_true]. apply Hnot. rewrite E, <- Hs.
  by apply list_elem_of_In, in_map.
Qed.

Lemma scored_field_agrees evidence source :
  NoDup (List.map EvidenceEnvelope.source_type evidence) ->
  scored_field evidence source = field_score evidence source.
Proof.
  intros Hn. pose proof (of_type_single evidence source Hn) as Hl.
  unfold scored_field, by_type, field_score, available.
  destruct (of_type source evidence) as [|item [|item' l]]; [done| |simpl in Hl; lia]. simpl.
  destruct (unusable item); simpl; [done|]. by destruct (numeric_score item) as [[x|e]|].
Qed.

(** The fixtures of a scenario, and what scoring makes of them. *)
Definition fixture_factors (scenario : DemoScenario.t) (c : TripCriticality.t) : RiskFactors.t :=
  let score k := f_int (default 0 (default None (dict_get k (fixture_scores scenario)))) in
  {| RiskFactors.flight_disruption := score "flight_status";
     RiskFactors.connection_fragility := score "connection_feasibility";
     RiskFactors.airport_weather := score "airport_weather";
     RiskFactors.ground_route_disruption := score "ground_route";
     RiskFactors.destination_advisory := score "destination_advisory";
     RiskFactors.traveler_trip_criticality := criticality_score c |}.

Lemma float_of_small n : 0 <= n <= 100 -> float_of_int n = Ok (f_int n).
Proof.
  intros Hn. unfold float_of_int. rewrite f_of_Z_exact by lia.
  rewrite (proj2 (Z.ltb_lt _ _)); [done|]. transitivity 101; [lia|]. vm_compute. reflexivity.
Qed.

Lemma fixture_factors_valid scenario c : RiskFactors.valid (fixture_factors scenario c) = true.
Proof. by destruct scenario, c. Qed.

Lemma inputs_ok scenario c :
  construct "RiskFactors" RiskFactors.valid (fixture_factors scenario c) = Ok (fixture_factors scenario c).
Proof. apply construct_ok. split; [done|apply fixture_factors_valid]. Qed.

#[local] Opaque float_of_int f_int.

Lemma collect_baseline_ok scenario fresh now correlation : exists evidence,
  collect_baseline scenario fresh now correlation = Ok evidence /\
  List.map EvidenceEnvelope.source_type evidence = List.map fst (fixture_scores scenario) /\
  contract_valid evidence = Ok true /\
  (forall trip, _score_inputs trip evidence = Ok (fixture_factors scenario (Trip.trip_criticality trip),
     if scenario == DemoScenario.SOURCE_OUTAGE then ["flight_disruption"; "airport_weather"] else [])) /\
  len (unavailable_core evidence) = (if scenario == DemoScenario.SOURCE_OUTAGE then 2 else 0).
Proof.
  assert (Hle : (now - 0 <=? now + 15 * minute - 0) = true) by (apply Z.leb_le; unfold minute; lia).
  destruct scenario; (eexists; split; [reflexivity|]; split; [reflexivity|]; split;
    [cbn [contract_valid]; unfold dt_le, utc, dt_instant; simpl; rewrite !Hle; reflexivity|split; [|reflexivity]]);
    intros trip; unfold _score_inputs, scored_field, by_type, of_type; simpl;
    unfold numeric_score, as_float; simpl; rewrite ?float_of_small by lia; cbn [mbind res_bind fst snd];
    match goal with |- context [construct _ _ ?f] => set (factors := f) end;
    [pose proof (inputs_ok DemoScenario.NORMAL (Trip.trip_criticality trip)) as E
    |pose proof (inputs_ok DemoScenario.DISRUPTION (Trip.trip_criticality trip)) as E
    |pose proof (inputs_ok DemoScenario.SOURCE_OUTAGE (Trip.trip_criticality trip)) as E];
    change (fixture_factors _ _) with factors in E; rewrite E; reflexivity.
Qed.

#[local] Transparent float_of_int f_int.

(** the exact score of a fixture scenario, in hundredths *)
Definition fixture_hundredths (scenario : DemoScenario.t) (c : TripCriticality.t) : Z :=
  5 * match c with TripCriticality.STANDARD => 20 | TripCriticality.IMPORTANT => 60
                 | TripCriticality.BUSINESS_CRITICAL => 100 end +
  match scenario with
  | DemoScenario.NORMAL => 725
  | DemoScenario.DISRUPTION => 6550
  | DemoScenario.SOURCE_OUTAGE => 450
  end.

Lemma fixture_total scenario c : total_hundredths (fixture_factors scenario c) = fixture_hundredths scenario c.
Proof.
  unfold total_hundredths. rewrite WEIGHTS_literals. cbn [List.map foldr].
  unfold fixture_factors, criticality_score.
  destruct scenario, c; cbn [getattr default dict_get fixture_scores RiskFactors.flight_disruption];
    unfold getattr; simpl; rewrite !contribution_int by lia; reflexivity.
Qed.

Lemma fixture_severity scenario c :
  severity_of_hundredths (fixture_hundredths scenario c) =
  if scenario == DemoScenario.DISRUPTION then Severity.HIGH else Severity.LOW.
Proof. by destruct scenario, c. Qed.

Lemma mapM_ok {A B} (f : A -> res B) (P : A -> B -> Prop) l :
  (forall x, In x l -> exists y, f x = Ok y /\ P x y) ->
  exists ys, mapM f l = Ok ys /\ List.Forall2 P l ys.
Proof.
  intros H. destruct (mapM_res_total f l) as [ys E].
  { intros x Hx. destruct (H x Hx) as (y & Hy & _). by exists y. }
  exists ys. split; [done|]. apply mapM_res_Forall2 in E. revert H. induction E as [|x y l ys Hxy _ IH]; intros H; constructor.
  - destruct (H x (or_introl eq_refl)) as (y' & Hy' & HP). rewrite Hxy in Hy'. apply Ok_inj in Hy'. by subst.
  - apply IH. intros z Hz. apply H. by right.
Qed.

(** every case of the suite expects what its profile yields *)
Lemma golden_expectations : Forall (fun case => GoldenScenarioCase.expected_disposition case =
  match GoldenScenarioCase.evidence_profile case with
  | DemoScenario.NORMAL => AssessmentDisposition.MONITOR
  | DemoScenario.DISRUPTION => AssessmentDisposition.INVESTIGATE
  | DemoScenario.SOURCE_OUTAGE => AssessmentDisposition.NEEDS_HUMAN_REVIEW
  end) GOLDEN_SCENARIOS.
Proof. repeat constructor. Qed.

(** ** Properties *)

(** The release suite passes by construction: for every trip, and whichever
    summation the interpreter uses, all golden cases are evaluated without error,
    get the disposition they expect and satisfy the provider contract, with the
    score exactly the weighted sum of the captured scores; an outage reports the
    two sources it lost as unknown. *)
Theorem golden_suite_passes py_sum `{ExactSum py_sum} fresh now correlation trip :
  exists results, evaluate_golden_suite py_sum fresh now correlation trip = Ok results /\
    List.Forall2 (fun case '(case', result) =>
      case' = case /\
      GoldenScenarioResult.disposition result = GoldenScenarioCase.expected_disposition case /\
      GoldenScenarioResult.provider_contract_valid result = true /\
      GoldenScenarioResult.risk_score result =
        of_hundredths (fixture_hundredths (GoldenScenarioCase.evidence_profile case)
                         (Trip.trip_criticality trip)) /\
      GoldenScenarioResult.unknown_factors result =
        if GoldenScenarioCase.evidence_profile case == DemoScenario.SOURCE_OUTAGE
        then ["flight_disruption"; "airport_weather"] else []) GOLDEN_SCENARIOS results.
Proof.
  apply mapM_ok. intros case Hcase. set (scenario := GoldenScenarioCase.evidence_profile case).
  destruct (collect_baseline_ok scenario fresh now correlation) as (evidence & Ec & _ & Ev & Es & Eu).
  unfold evaluate_golden_scenario. rewrite Ec. cbn [mbind res_bind]. rewrite Es. cbn [mbind res_bind fst snd].
  set (factors := fixture_factors scenario (Trip.trip_criticality trip)).
  set (unknown := if scenario == DemoScenario.SOURCE_OUTAGE then _ else _).
  pose proof (fixture_factors_valid scenario (Trip.trip_criticality trip)) as Hv. fold factors in Hv.
  destruct (calculate_risk_total py_sum (fresh 5%nat) now (Trip.trip_id trip) factors
    (List.map EvidenceEnvelope.evidence_id evidence) unknown Hv) as [a Ea].
  rewrite Ea. cbn [mbind res_bind]. rewrite Ev. cbn [mbind res_bind]. eexists. split; [reflexivity|].
  apply construct_ok in Ea as [-> _]. cbn [RiskAssessment.severity RiskAssessment.risk_score].
  pose proof (fixture_total scenario (Trip.trip_criticality trip)) as Ht. fold factors in Ht.
  pose proof (total_bounds _ Hv) as Hb.
  rewrite (risk_score_exact py_sum _ Hv), severity_exact, Ht, fixture_severity by apply Hb.
  split_and!; try done.
  rewrite (proj1 (List.Forall_forall _ _) golden_expectations case Hcase).
  fold scenario. cbn [GoldenScenarioResult.disposition]. unfold golden_disposition. rewrite Eu. by destruct scenario.
Qed.

(** The release gate scores like production: on evidence with at most one
    item per source type, as the captured fixtures are, the evaluator's inputs are
    exactly those of [get_scoring_input]. *)
Theorem evaluation_scores_like_production evidence trip :
  NoDup (List.map EvidenceEnvelope.source_type evidence) ->
  _score_inputs trip evidence = get_scoring_input evidence trip.
Proof. intros Hn. unfold _score_inputs, get_scoring_input. by rewrite !scored_field_agrees. Qed.

(** On two weather items they differ: the evaluator keeps the last one only. *)
Lemma evaluation_hides_a_source : exists evidence trip f1 u1 f2 u2,
  _score_inputs trip evidence = Ok (f1, u1) /\ get_scoring_input evidence trip = Ok (f2, u2) /\
  getattr f1 "airport_weather" = 0 /\ getattr f2 "airport_weather" = f_int 80.
Proof.
  exists sample_evidence, sample_assessed_trip. do 4 eexists.
  split; [reflexivity|]. split; [reflexivity|]. split; reflexivity.
Qed.

Lemma evaluation_scores_like_production_witness :
  exists evidence, collect_baseline DemoScenario.DISRUPTION N.of_nat 0 "corr" = Ok evidence /\
    _score_inputs sample_assessed_trip evidence = get_scoring_input evidence sample_assessed_trip.
Proof.
  eexists. split; [reflexivity|].
  apply (evaluation_scores_like_production _ sample_assessed_trip).
  apply (bool_decide_eq_true _). vm_compute. reflexivity.
Defined.

Lemma golden_suite_passes_witness :
  exists results, evaluate_golden_suite py_sum_compensated N.of_nat 0 "c" sample_assessed_trip = Ok results /\
    length results = length GOLDEN_SCENARIOS.
Proof.
  destruct (golden_suite_passes py_sum_compensated N.of_nat 0 "c" sample_assessed_trip) as (results & E & Hall).
  exists results. split; [exact E|]. symmetry. exact (List.Forall2_length Hall).
Defined.
