(* ===== verification/Config.v ===== *)
(** * [apps/api/config.py]: runtime controls read from the environment *)

From S2P Require Import Prelude PyData PyStd.

(** ** Python's [int] of a text: surrounding blanks, a sign, and digits with
    single underscores between them *)

Fixpoint int_digits (s : string) (acc : Z) (after_digit : bool) : option Z :=
  match s with
  | EmptyString => if after_digit then Some acc else None
  | String c s' =>
      if is_digit c then int_digits s' (acc * 10 + (ascii_code c - 48)) true
      else if (c == "_"%char) && after_digit then int_digits s' acc false
      else None
  end.

Definition py_int_of_str (s : string) : option Z :=
  match str_strip s with
  | EmptyString => None
  | String c s' =>
      if (c == "-"%char)%rs then Z.opp <$> int_digits s' 0 false
      else if (c == "+"%char)%rs then int_digits s' 0 false
      else int_digits (String c s') 0 false
  end.

Example int_plain : py_int_of_str " 86_400 " = Some 86400. Proof. reflexivity. Qed.
Example int_double_underscore : py_int_of_str "1__0" = None. Proof. reflexivity. Qed.

Definition _enabled (getenv : string -> option string) (name : string) (dflt : bool) : bool :=
  match getenv name with
  | None => dflt
  | Some v => mem (str_lower (str_strip v)) ["1"; "true"; "yes"]
  end.

Definition _positive_int (getenv : string -> option string) (name : string) (dflt minimum : Z) : res Z :=
  match getenv name with
  | None => Ok dflt
  | Some v =>
      match py_int_of_str v with
      | None => Raise (ValueError (name +:+ " must be an integer"))
      | Some parsed =>
          if parsed <? minimum
          then Raise (ValueError (name +:+ " must be at least " +:+ str_int minimum))
          else Ok parsed
      end
  end.

Module RuntimeControls.

Record t : Type := mk {
  llm_enabled : bool;
  react_tool_calls_enabled : bool;
  notifications_enabled : bool;
  approval_actions_enabled : bool;
  memory_reads_enabled : bool;
  memory_writes_enabled : bool;
  require_oidc : bool;
  api_rate_limit : Z;
  api_rate_limit_window_seconds : Z;
  rate_limit_redis_required : bool;
  idempotency_ttl_seconds : Z;
  require_idempotency : bool;
  tenant_automation_enabled : bool;
  demo_evidence_enabled : bool;
  retention_days : Z
}.

Definition from_environment (getenv : string -> option string) : res t :=
  api_rate_limit ← _positive_int getenv "API_RATE_LIMIT" 60 1;
  api_rate_limit_window_seconds ← _positive_int getenv "API_RATE_LIMIT_WINDOW_SECONDS" 60 1;
  idempotency_ttl_seconds ← _positive_int getenv "IDEMPOTENCY_TTL_SECONDS" 86400 1;
  retention_days ← _positive_int getenv "RETENTION_DAYS" 90 1;
  Ok {| llm_enabled := _enabled getenv "LLM_ENABLED" false;
        react_tool_calls_enabled := _enabled getenv "REACT_TOOL_CALLS_ENABLED" true;
        notifications_enabled := _enabled getenv "NOTIFICATIONS_ENABLED" false;
        approval_actions_enabled := _enabled getenv "APPROVAL_ACTIONS_ENABLED" false;
        memory_reads_enabled := _enabled getenv "MEMORY_READS_ENABLED" true;
        memory_writes_enabled := _enabled getenv "MEMORY_WRITES_ENABLED" true;
        require_oidc := _enabled getenv "REQUIRE_OIDC" false;
        api_rate_limit := api_rate_limit;
        api_rate_limit_window_seconds := api_rate_limit_window_seconds;
        rate_limit_redis_required := _enabled getenv "RATE_LIMIT_REDIS_REQUIRED" false;
        idempotency_ttl_seconds := idempotency_ttl_seconds;
        require_idempotency := _enabled getenv "REQUIRE_IDEMPOTENCY" false;
        tenant_automation_enabled := _enabled getenv "TENANT_AUTOMATION_ENABLED" true;
        demo_evidence_enabled := _enabled getenv "DEMO_EVIDENCE_ENABLED" true;
        retention_days := retention_days |}.

End RuntimeControls.

(** ** Lemmas *)

Lemma positive_int_bound getenv name dflt minimum n :
  minimum <= dflt -> _positive_int getenv name dflt minimum = Ok n -> minimum <= n.
Proof.
  unfold _positive_int. intros Hd. destruct (getenv name) as [v|]; [|by intros <-%Ok_inj].
  destruct (py_int_of_str v) as [parsed|]; [|done]. destruct (Z.ltb_spec parsed minimum); [done|].
  by intros <-%Ok_inj.
Qed.

(** A configuration that loads has positive limits, windows, lifetimes and
    retention, and leaves the model, notifications and actions off unless the
    environment switches them on. *)
Lemma from_environment_safe getenv c : RuntimeControls.from_environment getenv = Ok c ->
  1 <= RuntimeControls.api_rate_limit c /\ 1 <= RuntimeControls.api_rate_limit_window_seconds c /\
  1 <= RuntimeControls.idempotency_ttl_seconds c /\ 1 <= RuntimeControls.retention_days c /\
  (getenv "LLM_ENABLED" = None -> RuntimeControls.llm_enabled c = false) /\
  (getenv "NOTIFICATIONS_ENABLED" = None -> RuntimeControls.notifications_enabled c = false) /\
  (getenv "APPROVAL_ACTIONS_ENABLED" = None -> RuntimeControls.approval_actions_enabled c = false).
Proof.
  unfold RuntimeControls.from_environment. intros E.
  apply res_bind_ok in E as (a & Ha%positive_int_bound & E); [|lia].
  apply res_bind_ok in E as (b & Hb%positive_int_bound & E); [|lia].
  apply res_bind_ok in E as (d & Hd%positive_int_bound & E); [|lia].
  apply res_bind_ok in E as (e & He%positive_int_bound & E); [|lia].
  apply Ok_inj in E as <-. simpl. unfold _enabled. split_and!; try done; by intros ->.
Qed.
