(* ===== verification/Idempotency.v ===== *)
(** * [apps/api/idempotency.py]: request fingerprints and the webhook replay store *)

From S2P Require Import Prelude PyData PyStd Enums Models.
From Stdlib Require Import Sorting.Permutation.

(** ** Canonical JSON text: [json.dumps(..., sort_keys=True, separators=(",", ":"))]

    Texts are ASCII; [float_repr] is Python's [repr] of a float. *)

Definition dquote : string := String (ascii_of_nat 34) "".
Definition backslash : string := String (ascii_of_nat 92) "".

Definition escape_char (c : ascii) : string :=
  let n := nat_of_ascii c in
  if (n =? 34)%nat then backslash +:+ dquote
  else if (n =? 92)%nat then backslash +:+ backslash
  else if (n =? 10)%nat then backslash +:+ "n"
  else if (n =? 13)%nat then backslash +:+ "r"
  else if (n =? 9)%nat then backslash +:+ "t"
  else if (n =? 12)%nat then backslash +:+ "f"
  else if (n =? 8)%nat then backslash +:+ "b"
  else if (n <? 32)%nat || (126 <? n)%nat then backslash +:+ "u" +:+ hex_digits 4 (N_of_ascii c)
  else String c "".

Fixpoint escape (s : string) : string :=
  match s with
  | EmptyString => EmptyString
  | String c s' => escape_char c +:+ escape s'
  end.

Definition dump_str (s : string) : string := dquote +:+ escape s +:+ dquote.

Definition key_leb {A} (x y : string * A) : bool := str_leb x.1 y.1.

Section Fingerprint.
Variables (float_repr : Float64.f64 -> string) (sha256_hex : string -> string).

Fixpoint json_dumps (j : json) : string :=
  match j with
  | JNull => "null"
  | JBool b => if b then "true" else "false"
  | JInt n => str_int n
  | JFloat x => float_repr x
  | JStr s => dump_str s
  | JList l => "[" +:+ str_join "," (List.map json_dumps l) +:+ "]"
  | JObj kvs =>
      "{" +:+ str_join "," (List.map (fun kv => dump_str kv.1 +:+ ":" +:+ kv.2)
                (sorted key_leb (List.map (fun kv => (kv.1, json_dumps kv.2)) kvs))) +:+ "}"
  end.

Definition request_fingerprint (scope : string) (payload : json) : string :=
  sha256_hex (json_dumps (JObj [("scope", JStr scope); ("payload", payload)])).

End Fingerprint.

(** ** The webhook replay store *)

Module WebhookReplayStore.

Record t : Type := mk { max_age : Z; seen : list string }.

Definition init (max_age : Z) : t := mk max_age [].

(** [timestamp] is aware; [now] is the clock *)
Definition accept_once (self : t) (message_id : string) (timestamp now : instant) : bool * t :=
  if (max_age self <? now - timestamp) || mem message_id (seen self) then (false, self)
  else (true, mk (max_age self) (message_id :: seen self)).

End WebhookReplayStore.

(** ** The local helper [IdempotencyStore] *)

Module IdempotencyStore.

Definition t : Type := dict (string * string) (instant * json).

Definition get (self : t) (tenant_id key : string) : option json :=
  snd <$> dict_get (tenant_id, key) self.
Definition put (self : t) (tenant_id key : string) (result : json) (now : instant) : t :=
  dict_set (tenant_id, key) (now, result) self.

End IdempotencyStore.

(** ** Lemmas *)

(** the same JSON value up to the order of the (distinct) keys of its objects *)
Inductive json_equiv : json -> json -> Prop :=
  | equiv_refl j : json_equiv j j
  | equiv_list l l' : List.Forall2 json_equiv l l' -> json_equiv (JList l) (JList l')
  | equiv_obj kvs kvs1 kvs' :
      NoDup kvs.*1 ->
      List.Forall2 (fun x y => x.1 = y.1 /\ json_equiv x.2 y.2) kvs kvs1 ->
      Permutation kvs1 kvs' -> json_equiv (JObj kvs) (JObj kvs').

Lemma str_leb_antisym a : forall b, str_leb a b = true -> str_leb b a = true -> a = b.
Proof.
  induction a as [|x a IH]; intros [|y b] H1 H2; try done.
  cbv [str_leb String.leb] in *. simpl in *. unfold Ascii.compare in *.
  destruct (N.compare_spec (N_of_ascii x) (N_of_ascii y)) as [E|E|E]; try discriminate.
  - rewrite E, N.compare_refl in H2. f_equal; [|by apply IH].
    by rewrite <- (ascii_N_embedding x), E, ascii_N_embedding.
  - by rewrite (proj2 (N.compare_gt_iff _ _) E) in H2.
Qed.

Section Sorting.
Context {A : Type}.
Implicit Types (l : list (string * A)).

(** Insertion of distinct keys commutes, so sorting forgets their order. *)
Lemma insert_comm (x y : string * A) l : x.1 <> y.1 ->
  sort_insert key_leb x (sort_insert key_leb y l) = sort_insert key_leb y (sort_insert key_leb x l).
Proof.
  intros Hne. assert (Hasym : key_leb x y = negb (key_leb y x)).
  { unfold key_leb. destruct (str_leb y.1 x.1) eqn:E1, (str_leb x.1 y.1) eqn:E2; try done.
    - by destruct (Hne (str_leb_antisym _ _ E2 E1)).
    - destruct (str_leb_total x.1 y.1); congruence. }
  assert (Htr : forall a b c : string * A, key_leb a b = true -> key_leb b c = true -> key_leb a c = true)
    by (intros a b c; apply str_leb_trans).
  assert (Htot : forall a b : string * A, key_leb a b = true \/ key_leb b a = true)
    by (intros a b; apply str_leb_total).
  induction l as [|z l IH]; simpl.
  - rewrite Hasym. by destruct (key_leb y x).
  - destruct (key_leb y z) eqn:Eyz, (key_leb x z) eqn:Exz; simpl; rewrite ?Eyz, ?Exz.
    + rewrite Hasym. by destruct (key_leb y x).
    + destruct (key_leb x y) eqn:Exy; [by rewrite (Htr x y z Exy Eyz) in Exz|]. done.
    + destruct (key_leb y x) eqn:Eyx; [by rewrite (Htr y x z Eyx Exz) in Eyz|]. done.
    + by rewrite IH.
Qed.

Lemma sorted_unique l l' : Permutation l l' -> NoDup l.*1 -> sorted key_leb l = sorted key_leb l'.
Proof.
  induction 1 as [|x l l' _ IH|x y l|l l1 l' H1 IH1 _ IH2]; intros Hn; csimpl in *.
  - done.
  - apply NoDup_cons in Hn as [_ Hn]. by rewrite IH.
  - apply insert_comm. apply NoDup_cons in Hn as [Hn _]. intros E. apply Hn. rewrite E. by left.
  - rewrite IH1 by done. apply IH2. by rewrite <- H1.
Qed.

End Sorting.

Section Canonical.
Variables (float_repr : Float64.f64 -> string).
#[local] Abbreviation dumps := (json_dumps float_repr).

Definition dump_field (kv : string * json) : string * string := (kv.1, dumps kv.2).

Lemma dumps_obj_perm kvs kvs' : NoDup kvs.*1 ->
  Permutation (List.map dump_field kvs) (List.map dump_field kvs') ->
  dumps (JObj kvs) = dumps (JObj kvs').
Proof.
  intros Hn Hp. cbn [json_dumps]. fold dump_field.
  rewrite (sorted_unique _ _ Hp); [done|].
  replace ((List.map dump_field kvs).*1) with (kvs.*1); [done|].
  clear. induction kvs as [|kv kvs IH]; csimpl; [done|by rewrite IH].
Qed.

Lemma dumps_equiv : forall j j', json_equiv j j' -> dumps j = dumps j'.
Proof.
  fix IH 3. intros j j' H. destruct H as [j|l l' H|kvs kvs1 kvs' Hn H Hp].
  - reflexivity.
  - cbn [json_dumps]. do 3 f_equal.
    revert l l' H. fix go 3. intros l l' H. destruct H as [|x y l l' Hxy H]; cbn; [reflexivity|].
    rewrite (IH x y Hxy). f_equal. exact (go l l' H).
  - apply dumps_obj_perm; [exact Hn|].
    transitivity (List.map dump_field kvs1); [|by apply Permutation_map].
    clear Hn Hp. revert kvs kvs1 H. fix go 3. intros l l' H. destruct H as [|x y l l' [Hk Hxy] H]; cbn; [reflexivity|].
    unfold dump_field at 1 3. rewrite Hk, (IH _ _ Hxy). apply Permutation_cons; [reflexivity|]. exact (go l l' H).
Qed.

End Canonical.

(** the decisions of a replay store on a sequence of messages *)
Fixpoint accepts (self : WebhookReplayStore.t) (messages : list (string * instant * instant))
    : list (string * instant * instant) :=
  match messages with
  | [] => []
  | (id, timestamp, now) :: messages' =>
      let '(ok, self') := WebhookReplayStore.accept_once self id timestamp now in
      if ok then (id, timestamp, now) :: accepts self' messages' else accepts self' messages'
  end.

Lemma accepts_spec messages : forall self m,
  In m (accepts self messages) -> In m messages /\ m.2 - m.1.2 <= WebhookReplayStore.max_age self /\
    ~ In m.1.1 (WebhookReplayStore.seen self).
Proof.
  induction messages as [|[[id ts] now] messages IH]; intros self m Hin; [done|]. simpl in Hin.
  unfold WebhookReplayStore.accept_once in Hin.
  destruct (_ || _) eqn:E.
  - apply IH in Hin as (? & ? & ?). split_and!; [by right|done|done].
  - apply orb_false_iff in E as [Ha Hs]. apply Z.ltb_ge in Ha. apply mem_false_iff in Hs.
    destruct Hin as [<-|Hin]; [split_and!; [by left|done|done]|].
    apply IH in Hin as (? & ? & Hn). simpl in *. split_and!; [by right|done|]. intros Hs'. apply Hn. by right.
Qed.

Lemma accepts_nodup messages : forall self, NoDup (List.map (fun m => m.1.1) (accepts self messages)).
Proof.
  induction messages as [|[[id ts] now] messages IH]; intros self; simpl; [constructor|].
  unfold WebhookReplayStore.accept_once. destruct (_ || _); [apply IH|]. simpl. apply NoDup_cons. split; [|apply IH].
  intros Hin%list_elem_of_In. apply in_map_iff in Hin as (m & Hid & Hm).
  apply accepts_spec in Hm as (_ & _ & Hn). apply Hn. simpl. by left.
Qed.

(** ** Properties *)

(** A fingerprint does not depend on key order: payloads that are the same
    JSON value up to the order of object keys, at any depth, get the same
    fingerprint under the same scope. *)
Theorem fingerprint_canonical float_repr sha256_hex scope payload payload' :
  json_equiv payload payload' ->
  request_fingerprint float_repr sha256_hex scope payload =
  request_fingerprint float_repr sha256_hex scope payload'.
Proof.
  intros H. unfold request_fingerprint. f_equal. apply dumps_equiv.
  apply (equiv_obj _ [("scope", JStr scope); ("payload", payload')]); [|repeat constructor; done|done].
  apply (bool_decide_eq_true _). vm_compute. reflexivity.
Qed.

(** Replay protection: over any sequence of deliveries, a message id is
    accepted at most once, only within the age limit at its arrival, and a fresh
    message whose id was not accepted before is accepted. *)
Theorem webhook_accepted_once max_age messages :
  let accepted := accepts (WebhookReplayStore.init max_age) messages in
  NoDup (List.map (fun m => m.1.1) accepted) /\
  (forall m, In m accepted -> In m messages /\ m.2 - m.1.2 <= max_age) /\
  forall m, In m messages -> m.2 - m.1.2 <= max_age ->
    In m.1.1 (List.map (fun m => m.1.1) accepted).
Proof.
  cbv zeta. split_and!.
  - apply accepts_nodup.
  - intros m Hm. by apply accepts_spec in Hm as (? & ? & _).
  - assert (H : forall self m, WebhookReplayStore.max_age self = max_age -> In m messages ->
      m.2 - m.1.2 <= max_age ->
      In m.1.1 (List.map (fun m => m.1.1) (accepts self messages)) \/ In m.1.1 (WebhookReplayStore.seen self)).
    { induction messages as [|[[id ts] now] messages IH]; intros self m Hs Hm Ha; [done|]. simpl.
      unfold WebhookReplayStore.accept_once. destruct (_ || _) eqn:E.
      - destruct Hm as [<-|Hm]; [|by apply IH]. simpl in *.
        apply orb_true_iff in E as [E|E]; [apply Z.ltb_lt in E; lia|right; by apply mem_true_iff].
      - simpl. destruct Hm as [<-|Hm]; [left; by left|].
        destruct (IH (WebhookReplayStore.mk (WebhookReplayStore.max_age self) (id :: WebhookReplayStore.seen self))
          m Hs Hm Ha) as [?|[?|?]]; [left; by right|left; by left|by right]. }
    intros m Hm Ha. by destruct (H (WebhookReplayStore.init max_age) m eq_refl Hm Ha).
Qed.

Lemma fingerprint_canonical_witness :
  request_fingerprint (fun _ => "") (fun s => s) "POST:/v1/trips"
    (JObj [("b", JInt 1); ("a", JObj [("y", JNull); ("x", JBool true)])]) =
  request_fingerprint (fun _ => "") (fun s => s) "POST:/v1/trips"
    (JObj [("a", JObj [("x", JBool true); ("y", JNull)]); ("b", JInt 1)]).
Proof.
  apply (fingerprint_canonical (fun _ => "") (fun s => s) "POST:/v1/trips").
  apply (equiv_obj _ [("b", JInt 1); ("a", JObj [("x", JBool true); ("y", JNull)])]).
  - apply (bool_decide_eq_true _). vm_compute. reflexivity.
  - constructor; [split; [reflexivity|apply equiv_refl]|].
    constructor; [|constructor]. split; [reflexivity|].
    apply (equiv_obj _ [("y", JNull); ("x", JBool true)]).
    + apply (bool_decide_eq_true _). vm_compute. reflexivity.
    + constructor; [split; [reflexivity|apply equiv_refl]|].
      constructor; [split; [reflexivity|apply equiv_refl]|constructor].
    + apply perm_swap.
  - apply perm_swap.
Defined.
