(* ===== verification/Workers.v ===== *)
(** * [workers/]: monitoring windows, retention and privacy deletion *)

From S2P Require Import Prelude PyData Float64 PyStd Enums Models Recovery Security Repository StoreInvariant.

(** ** [workers/monitor_due_trips.py] *)

Definition MONITORING_WINDOWS_HOURS : list Z := [24; 6; 2].

Definition assessment_due_idempotency_key (trip_id window : string) : string :=
  "assessment-due:" +:+ trip_id +:+ ":" +:+ window.

(** [0 <= now - (departure - hours) < grace_period] *)
Definition window_due (departure : datetime) (timestamp : instant) (grace_period : Z) (hours : Z) : bool :=
  let late := timestamp - (dt_instant departure - hours * hour) in
  (0 <=? late) && (late <? grace_period).

Definition due_windows (departure : datetime) (timestamp : instant) (grace_period : Z) : list string :=
  List.map (fun hours => "T-" +:+ str_int hours +:+ ":" +:+ isoformat departure)
    (List.filter (window_due departure timestamp grace_period) MONITORING_WINDOWS_HOURS).

(** [trip.segments[0]] of a trip without segments raises. *)
Definition due_monitoring_windows (trip : Trip.t) (timestamp : instant) (grace_period : Z)
    : res (list string) :=
  match Trip.segments trip with
  | [] => Raise (OtherError "IndexError")
  | first :: _ =>
      Ok (due_windows (FlightSegmentCreate.scheduled_departure_at first) timestamp grace_period)
  end.

Definition default_grace : Z := 20 * minute.

(** ** [workers/retention.py] *)

(** the repository reads the clock again for the holds: at [purged_at] *)
Definition run_retention (r : repo) (retention_days original_upload_retention_days audit_retention_days : Z)
    (timestamp purged_at : instant) : res (dict string Z * repo) :=
  if Z.min (Z.min retention_days original_upload_retention_days) audit_retention_days <? 1
  then Raise (ValueError "retention periods must be at least one day")
  else purge_expired r (timestamp - retention_days * day)
         (Some (timestamp - original_upload_retention_days * day))
         (Some (timestamp - audit_retention_days * day)) purged_at.

(** ** [workers/privacy.py] *)

(** one request of the loop; the in-memory [erase_traveler_data] does not raise,
    so its [except] branch is not taken *)
Definition process_request (r : repo) (timestamp : instant) (request : DeletionRequest.t)
    : res ((DeletionRequest.t * dict string Z) * repo) :=
  holds ← active_legal_holds_for_traveler r (DeletionRequest.tenant_id request)
            (DeletionRequest.traveler_id request) timestamp;
  Ok match holds with
     | _ :: _ =>
         let request' := request
           <| DeletionRequest.status := DeletionRequestStatus.BLOCKED_BY_LEGAL_HOLD |>
           <| DeletionRequest.blocked_by_hold_ids := List.map LegalHoldRecord.legal_hold_id holds |>
           <| DeletionRequest.failure_code := None |> in
         ((request', []), save_deletion_request r request')
     | [] =>
         let '(deleted, r') := erase_traveler_data r (DeletionRequest.tenant_id request)
           (DeletionRequest.traveler_id request) (DeletionRequest.scope request) in
         let request' := request
           <| DeletionRequest.status := DeletionRequestStatus.COMPLETED |>
           <| DeletionRequest.completed_at := Some (utc timestamp) |>
           <| DeletionRequest.blocked_by_hold_ids := [] |>
           <| DeletionRequest.failure_code := None |> in
         ((request', deleted), save_deletion_request r' request')
     end.

Fixpoint process_requests (r : repo) (timestamp : instant) (requests : list DeletionRequest.t)
    : res (list (DeletionRequest.t * dict string Z)) * repo :=
  match requests with
  | [] => (Ok [], r)
  | request :: requests' =>
      match process_request r timestamp request with
      | Raise e => (Raise e, r)
      | Ok (processed, r') =>
          let '(rest, r'') := process_requests r' timestamp requests' in
          (items ← rest; Ok (processed :: items), r'')
      end
  end.

(** the worker; an exception leaves what was already done *)
Definition process_due_deletion_requests (r : repo) (timestamp : instant)
    : res (list (DeletionRequest.t * dict string Z)) * repo :=
  match list_pending_deletion_requests r with
  | Raise e => (Raise e, r)
  | Ok requests => process_requests r timestamp requests
  end.

(** ** Lemmas *)

Lemma window_due_hours departure now g h1 h2 :
  g <= 2 * hour -> h1 + 2 <= h2 ->
  window_due departure now g h1 = true -> window_due departure now g h2 = false.
Proof.
  unfold window_due, hour, minute. intros Hg Hh H. apply andb_true_iff in H as [H1 H2].
  apply Z.leb_le in H1. apply Z.ltb_lt in H2. apply andb_false_iff. right. apply Z.ltb_ge. lia.
Qed.

(** the traveler of a request is the only one erasure touches *)
Lemma erase_other_trip r tenant traveler scope id trip :
  repo_wf r -> dict_get id (Repo.trips r) = Some trip ->
  (Trip.tenant_id trip <> tenant \/ Trip.traveler_id trip <> traveler) ->
  let r' := (erase_traveler_data r tenant traveler scope).2 in
  dict_get id (Repo.trips r') = Some trip /\ dict_get id (Repo.evidence r') = dict_get id (Repo.evidence r).
Proof.
  intros Hwf Hid Hne. unfold erase_traveler_data, delete_traveler_memory. simpl.
  destruct (scope == DeletionRequestScope.PREFERENCE_MEMORY); [done|]. simpl. rewrite !dict_get_pop_all.
  assert (E : mem id (traveler_trip_ids (Repo.trips r) tenant traveler) = false).
  { etransitivity; [apply (mem_filter_keys _ (Repo.trips r) id trip); [apply Hwf|exact Hid]|].
    cbv beta. apply andb_false_iff. destruct Hne; [left|right]; by apply bool_decide_eq_false. }
  by rewrite E.
Qed.

Lemma erase_legal_holds r tenant traveler scope :
  Repo.legal_holds (erase_traveler_data r tenant traveler scope).2 = Repo.legal_holds r.
Proof. unfold erase_traveler_data, delete_traveler_memory. simpl. by destruct (scope == _). Qed.

Lemma dt_sorted_ok {A} (key : A -> datetime) text (l l' : list A) :
  dt_sorted key text l = Ok l' -> l' = sorted (dt_key_leb key text) l.
Proof. unfold dt_sorted. destruct (_ && _); [done|]. by intros <-%Ok_inj. Qed.

(** an active hold that covers the traveler is found *)
Lemma active_hold_found r tenant traveler now holds key h :
  active_legal_holds_for_traveler r tenant traveler now = Ok holds ->
  dict_get key (Repo.legal_holds r) = Some h -> LegalHoldRecord.tenant_id h = tenant ->
  LegalHoldRecord.is_active h now = Ok true ->
  hold_covers_traveler traveler
    (List.map Trip.trip_id (List.filter (fun t => (Trip.tenant_id t == tenant) && (Trip.traveler_id t == traveler))
      (dict_values (Repo.trips r)))) h = true ->
  In h holds.
Proof.
  unfold active_legal_holds_for_traveler. intros E Hh Ht Ha Hc.
  apply res_bind_ok in E as (sorted_holds & Hs & E). unfold list_legal_holds in Hs.
  apply dt_sorted_ok in Hs as ->. apply (filter_res_ok _ _ _ E). split.
  - apply sorted_in, filter_In. split; [|by apply bool_decide_eq_true].
    apply dict_in_values. exists key. by apply dict_get_in.
  - rewrite Ha. simpl. by rewrite Hc.
Qed.

(** A hold that protects one traveler's trips: on the tenant, on the traveler, or
    on the trip itself. *)
Definition protects (r : repo) (now : instant) (id : uuid) (trip : Trip.t) : Prop :=
  exists key h, dict_get key (Repo.legal_holds r) = Some h /\ LegalHoldRecord.is_active h now = Ok true /\
    covers h id trip.

Lemma protects_blocks r now id trip holds :
  store_ok r -> dict_get id (Repo.trips r) = Some trip -> protects r now id trip ->
  active_legal_holds_for_traveler r (Trip.tenant_id trip) (Trip.traveler_id trip) now = Ok holds ->
  holds <> [].
Proof.
  intros Hok Hid (key & h & Hh & Ha & Ht & Hc) E Hnil.
  pose proof (keyed_get _ _ _ _ (ok_trips r Hok) Hid) as Hkey.
  assert (Hin : In h holds); [|by rewrite Hnil in Hin].
  eapply active_hold_found; [exact E|exact Hh|done|done|]. unfold hold_covers_traveler.
  destruct (LegalHoldRecord.scope h); simpl.
  - done.
  - by rewrite Hc, bool_decide_true.
  - rewrite Hc. apply mem_true_iff. rewrite <- Hkey. apply in_map, filter_In. split.
    + apply dict_in_values. exists id. by apply dict_get_in.
    + by rewrite !bool_decide_true.
Qed.

(** one request keeps the invariant, the holds and every protected trip *)
Lemma process_request_spec r now q p r' :
  store_ok r -> process_request r now q = Ok (p, r') ->
  store_ok r' /\ Repo.legal_holds r' = Repo.legal_holds r /\
  DeletionRequest.deletion_request_id p.1 = DeletionRequest.deletion_request_id q /\
  (DeletionRequest.status p.1 = DeletionRequestStatus.COMPLETED \/
   DeletionRequest.status p.1 = DeletionRequestStatus.BLOCKED_BY_LEGAL_HOLD) /\
  (forall id trip, dict_get id (Repo.trips r) = Some trip -> protects r now id trip ->
     dict_get id (Repo.trips r') = Some trip /\ dict_get id (Repo.evidence r') = dict_get id (Repo.evidence r)).
Proof.
  intros Hok E. unfold process_request in E. apply res_bind_ok in E as (holds & Eh & E). apply Ok_inj in E.
  destruct holds as [|h holds].
  - destruct (erase_traveler_data _ _ _ _) as [deleted r1] eqn:Ee. injection E as <- <-.
    assert (Hr1 : r1 = (erase_traveler_data r (DeletionRequest.tenant_id q) (DeletionRequest.traveler_id q)
      (DeletionRequest.scope q)).2) by by rewrite Ee.
    clear Ee. subst r1. split; [|split; [|split; [done|split; [by left|]]]].
    + eapply step_ok; [apply step_save_deletion_request|]. by apply erase_ok.
    + simpl. apply erase_legal_holds.
    + intros id trip Hid Hp. simpl. apply erase_other_trip; [by apply store_ok_wf|done|].
      destruct (decide (Trip.tenant_id trip = DeletionRequest.tenant_id q)) as [Et|Et]; [|by left]. right.
      intros Ev. rewrite <- Et, <- Ev in Eh. by apply (protects_blocks r now id trip [] Hok Hid Hp Eh).
  - injection E as <- <-. split; [|split; [done|split; [done|split; [by right|done]]]].
    eapply step_ok; [apply step_save_deletion_request|done].
Qed.

Lemma erase_deletion_requests r tenant traveler scope :
  Repo.deletion_requests (erase_traveler_data r tenant traveler scope).2 = Repo.deletion_requests r.
Proof. unfold erase_traveler_data, delete_traveler_memory. simpl. by destruct (scope == _). Qed.

Lemma process_request_saved r now q p r' : process_request r now q = Ok (p, r') ->
  Repo.deletion_requests r' =
    dict_set (DeletionRequest.deletion_request_id q) p.1 (Repo.deletion_requests r).
Proof.
  intros E. unfold process_request in E. apply res_bind_ok in E as (holds & Eh & E). apply Ok_inj in E.
  destruct holds as [|h holds].
  - destruct (erase_traveler_data _ _ _ _) as [deleted r1] eqn:Ee. injection E as <- <-. simpl.
    f_equal. by rewrite <- (erase_deletion_requests r (DeletionRequest.tenant_id q)
      (DeletionRequest.traveler_id q) (DeletionRequest.scope q)), Ee.
  - by injection E as <- <-.
Qed.

Definition settled (q : DeletionRequest.t) : Prop :=
  DeletionRequest.status q = DeletionRequestStatus.COMPLETED \/
  DeletionRequest.status q = DeletionRequestStatus.BLOCKED_BY_LEGAL_HOLD.

Lemma process_requests_spec now requests : forall r out r',
  store_ok r -> process_requests r now requests = (out, r') ->
  store_ok r' /\
  (forall id trip, dict_get id (Repo.trips r) = Some trip -> protects r now id trip ->
     dict_get id (Repo.trips r') = Some trip /\ dict_get id (Repo.evidence r') = dict_get id (Repo.evidence r)) /\
  (is_ok out = true -> forall id q, dict_get id (Repo.deletion_requests r') = Some q ->
     In id (List.map DeletionRequest.deletion_request_id requests) /\ settled q \/
     ~ In id (List.map DeletionRequest.deletion_request_id requests) /\
       dict_get id (Repo.deletion_requests r) = Some q).
Proof.
  induction requests as [|q requests IH]; intros r out r' Hok E; cbn [process_requests] in E.
  { injection E as <- <-. split_and!; try done. intros _ id q Hq. right. split; [intros []|done]. }
  destruct (process_request r now q) as [[p r1]|e] eqn:Ep; [|injection E as <- <-; by split_and!].
  destruct (process_requests r1 now requests) as [rest r2] eqn:Er. injection E as <- <-.
  destruct (process_request_spec r now q p r1 Hok Ep) as (Hok1 & Hh & Hid & Hst & Hk1).
  destruct (IH r1 rest r2 Hok1 Er) as (Hok2 & Hk2 & Hreq). split_and!; [done| |].
  - intros id trip Hget Hp. destruct (Hk1 id trip Hget Hp) as [Hg1 He1].
    assert (Hp1 : protects r1 now id trip) by (unfold protects; rewrite Hh; exact Hp).
    destruct (Hk2 id trip Hg1 Hp1) as [? He2]. split; [done|]. by rewrite He2.
  - intros Hout id x Hx. destruct rest as [items|]; [|done].
    destruct (Hreq eq_refl id x Hx) as [[Hin Hs]|[Hnot Hx1]]; [left; split; [by right|done]|].
    rewrite (process_request_saved _ _ _ _ _ Ep), dict_get_set in Hx1. case_bool_decide as Eid.
    + injection Hx1 as <-. left. split; [by left|exact Hst].
    + right. split; [|done]. intros [E|E]; [by apply Eid|by apply Hnot].
Qed.

(** ** Properties *)

(** Monitoring windows do not overlap: at any time at most one window of a
    departure is due, and the window of [h] hours is due exactly in the grace
    period that starts [h] hours before departure. *)
Theorem one_window_due trip first rest now grace :
  Trip.segments trip = first :: rest -> grace <= 2 * hour ->
  let departure := FlightSegmentCreate.scheduled_departure_at first in
  exists windows, due_monitoring_windows trip now grace = Ok windows /\
  (length windows <= 1)%nat /\
  forall hours, In hours MONITORING_WINDOWS_HOURS ->
    (dt_instant departure - hours * hour <= now < dt_instant departure - hours * hour + grace <->
     windows = ["T-" +:+ str_int hours +:+ ":" +:+ isoformat departure]).
Proof.
  intros Htrip Hg departure. unfold due_monitoring_windows. rewrite Htrip. eexists. split; [reflexivity|].
  fold departure. unfold due_windows, MONITORING_WINDOWS_HOURS. cbn [List.filter].
  pose proof (window_due_hours departure now grace 2 6 Hg ltac:(lia)) as H26.
  pose proof (window_due_hours departure now grace 2 24 Hg ltac:(lia)) as H224.
  pose proof (window_due_hours departure now grace 6 24 Hg ltac:(lia)) as H624.
  assert (Hiff : forall h, (dt_instant departure - h * hour <= now < dt_instant departure - h * hour + grace) <->
    window_due departure now grace h = true).
  { intros h. unfold window_due. rewrite andb_true_iff, Z.leb_le, Z.ltb_lt. lia. }
  destruct (window_due departure now grace 24) eqn:E24, (window_due departure now grace 6) eqn:E6,
    (window_due departure now grace 2) eqn:E2; simpl;
    try (specialize (H26 eq_refl); discriminate); try (specialize (H224 eq_refl); discriminate);
    try (specialize (H624 eq_refl); discriminate); (split; [lia|]);
    intros hours [<-|[<-|[<-|[]]]]; rewrite Hiff, ?E24, ?E6, ?E2; split; intros E; try reflexivity; discriminate E.
Qed.

(** Privacy deletion honours legal holds: however far one pass of the worker
    gets, a trip that an active hold covers keeps its record and its evidence; and
    when the pass succeeds, no request is left pending: each is completed or
    blocked. *)
Theorem deletion_respects_holds r now out r' :
  store_ok r -> process_due_deletion_requests r now = (out, r') ->
  store_ok r' /\
  (forall id trip, dict_get id (Repo.trips r) = Some trip -> protects r now id trip ->
     dict_get id (Repo.trips r') = Some trip /\ dict_get id (Repo.evidence r') = dict_get id (Repo.evidence r)) /\
  (is_ok out = true -> forall id q, dict_get id (Repo.deletion_requests r') = Some q ->
     DeletionRequest.status q <> DeletionRequestStatus.PENDING).
Proof.
  intros Hok E. unfold process_due_deletion_requests in E.
  destruct (list_pending_deletion_requests r) as [requests|e] eqn:El; [|by injection E as <- <-].
  destruct (process_requests_spec now requests r out r' Hok E) as (Hok' & Hkeep & Hreq).
  split_and!; try done. intros Hout id q Hq Hs.
  destruct (Hreq Hout id q Hq) as [[_ [Hs'|Hs']]|[Hnot Hq0]]; [congruence..|]. apply Hnot.
  unfold list_pending_deletion_requests, sort_requests in El. apply dt_sorted_ok in El as ->.
  apply in_map_iff. exists q. split; [by apply (keyed_get _ _ _ _ (ok_deletion_requests r Hok) Hq0)|].
  apply sorted_in, filter_In. split; [apply dict_in_values; exists id; by apply dict_get_in|].
  apply mem_true_iff. rewrite Hs. by left.
Qed.

(** ** Witnesses *)

Lemma one_window_due_witness :
  exists windows,
    due_monitoring_windows (sample_trip 1%N "t1" "alice" 0) (30 * day - 6 * hour + 60) default_grace
      = Ok windows /\ (length windows <= 1)%nat.
Proof.
  destruct (one_window_due (sample_trip 1%N "t1" "alice" 0) sample_segment [] (30 * day - 6 * hour + 60)
    default_grace eq_refl) as (windows & E & Hl & _); [vm_compute; discriminate|].
  exists windows. split; [exact E|exact Hl].
Defined.

Example due_at_six_hours :
  due_monitoring_windows (sample_trip 1%N "t1" "alice" 0) (30 * day - 6 * hour + 60) default_grace =
    Ok ["T-6:1970-01-31T00:00:00+00:00"].
Proof. vm_compute. reflexivity. Qed.

Definition sample_request : DeletionRequest.t :=
  DeletionRequest.mk 50%N "t1" "alice" DeletionRequestScope.TRAVELER_DATA "privacy-officer" "erasure request"
    DeletionRequestStatus.PENDING (utc 0) None [] None.
Definition deletion_repo : repo := save_deletion_request sample_repo sample_request.

Lemma deletion_repo_ok : store_ok deletion_repo.
Proof.
  apply (step_ok sample_repo); [apply step_save_deletion_request|].
  apply (step_ok (create_trip (create_trip (create_trip Repo.init (sample_trip 1%N "t1" "alice" 0))
       (sample_trip 2%N "t1" "bob" 0)) (sample_trip 3%N "t2" "alice" 0))); [apply step_save_legal_hold|].
  apply (step_ok (create_trip (create_trip Repo.init (sample_trip 1%N "t1" "alice" 0))
       (sample_trip 2%N "t1" "bob" 0))); [apply step_create_trip|].
  apply (step_ok (create_trip Repo.init (sample_trip 1%N "t1" "alice" 0))); [apply step_create_trip|].
  apply (step_ok Repo.init); [apply step_create_trip|apply store_ok_init].
Qed.

Lemma deletion_respects_holds_witness :
  exists out r', process_due_deletion_requests deletion_repo (2 * day) = (out, r') /\
    dict_get 1%N (Repo.trips r') = Some (sample_trip 1%N "t1" "alice" 0).
Proof.
  do 2 eexists. split; [vm_compute; reflexivity|].
  refine (proj1 (proj1 (proj2 (deletion_respects_holds deletion_repo (2 * day) _ _ deletion_repo_ok
    ltac:(vm_compute; reflexivity))) 1%N (sample_trip 1%N "t1" "alice" 0) _ _)).
  - vm_compute. reflexivity.
  - exists 9%N, (sample_hold 9%N "t1" "alice"). split; [vm_compute; reflexivity|].
    split; [vm_compute; reflexivity|]. split; reflexivity.
Defined.
