(* ===== verification/Ingestion.v ===== *)
(** * [apps/api/ingestion.py] and [apps/api/uploads.py]

    The CSV import (with the reader of Python's [csv] module it runs on), the
    signed booking webhook and the store of original uploads. *)

From S2P Require Import Prelude PyData Float64 PyStd Enums Models Recovery Security Repository Providers.

(** ** [csv.reader] with the default dialect *)

Module CsvReader.

Inductive phase : Type :=
  | START_RECORD | START_FIELD | IN_FIELD | IN_QUOTED_FIELD | QUOTE_IN_QUOTED_FIELD | EAT_CRNL.

#[global] Instance phase_eq_dec : EqDecision phase.
Proof. solve_decision. Defined.

(** the record being read: finished fields, the current one and its length *)
Record t : Type := mk { state : phase; fields : list string; field : string; field_len : Z }.

#[global] Instance settable : Settable t := fun x => mk (state x) (fields x) (field x) (field_len x).

Definition reset : t := mk START_RECORD [] "" 0.

(** [csv.field_size_limit()] *)
Definition field_limit : Z := 131072.

Definition LF : ascii := "010"%char.
Definition CR : ascii := "013"%char.
Definition quotechar : ascii := "034"%char.

Definition save_field (next : phase) (self : t) : t :=
  mk next (fields self ++ [field self]) "" 0.

Definition add_char (c : ascii) (next : phase) (self : t) : res t :=
  if field_limit <=? field_len self then Raise (OtherError "csv.Error") else
  Ok (mk next (fields self) (field self +:+ String c "") (field_len self + 1)).

(** a character, or the end of a line ([None]) *)
Definition is_newline (c : ascii) : bool := (c == LF) || (c == CR).

Definition start_field (c : ascii) (self : t) : res t :=
  if is_newline c then Ok (save_field EAT_CRNL self)
  else if c == quotechar then Ok (self <| state := IN_QUOTED_FIELD |>)
  else if c == ","%char then Ok (save_field START_FIELD self)
  else add_char c IN_FIELD self.

Definition process_char (self : t) (c : ascii) : res t :=
  match state self with
  | START_RECORD =>
      if is_newline c then Ok (self <| state := EAT_CRNL |>) else start_field c self
  | START_FIELD => start_field c self
  | IN_FIELD =>
      if is_newline c then Ok (save_field EAT_CRNL self)
      else if c == ","%char then Ok (save_field START_FIELD self)
      else add_char c IN_FIELD self
  | IN_QUOTED_FIELD =>
      if c == quotechar then Ok (self <| state := QUOTE_IN_QUOTED_FIELD |>)
      else add_char c IN_QUOTED_FIELD self
  | QUOTE_IN_QUOTED_FIELD =>
      if c == quotechar then add_char c IN_QUOTED_FIELD self
      else if c == ","%char then Ok (save_field START_FIELD self)
      else if is_newline c then Ok (save_field EAT_CRNL self)
      else add_char c IN_FIELD self
  | EAT_CRNL => if is_newline c then Ok self else Raise (OtherError "csv.Error")
  end.

Definition end_of_line (self : t) : t :=
  match state self with
  | START_RECORD | IN_QUOTED_FIELD => self
  | START_FIELD | IN_FIELD | QUOTE_IN_QUOTED_FIELD => save_field START_RECORD self
  | EAT_CRNL => self <| state := START_RECORD |>
  end.

(** the records that are complete at the end of a line, and the next reader *)
Definition emit (self : t) : list (list string) * t :=
  if state self == START_RECORD then ([fields self], reset) else ([], self).

(** end of input: an open quoted field ends the last record *)
Definition finish (self : t) : list (list string) :=
  if state self == IN_QUOTED_FIELD then [fields (save_field START_RECORD self)] else [].

(** [list(csv.reader(StringIO(content)))]; [pending]: the current line has characters *)
Fixpoint read (pending : bool) (self : t) (content : string) : res (list (list string)) :=
  match content with
  | EmptyString =>
      if pending : bool then let '(out, self') := emit (end_of_line self) in Ok (out ++ finish self')
      else Ok (finish self)
  | String c rest =>
      self' ← process_char self c;
      if c == LF then
        let '(out, self'') := emit (end_of_line self') in
        records ← read false self'' rest;
        Ok (out ++ records)
      else read true self' rest
  end.

Definition reader (content : string) : res (list (list string)) := read false reset content.

End CsvReader.

(** ** [csv.DictReader] *)

(** a value of a row: text, [restval] where the row is short, the surplus under
    the key [None] where it is long *)
Inductive cell : Type := Text (s : string) | Missing | Surplus (l : list string).

#[export] Instance cell_eq_dec : EqDecision cell.
Proof. solve_decision. Defined.

Definition csv_row : Type := dict (option string) cell.

(** [dict(zip(fieldnames, row))] *)
Definition zip_row (fieldnames row : list string) : csv_row :=
  fold_left (fun d '(k, v) => dict_set (Some k) (Text v) d) (List.combine fieldnames row) [].

Definition dict_row (fieldnames row : list string) : csv_row :=
  let d := zip_row fieldnames row in
  if (length fieldnames <? length row)%nat
  then dict_set None (Surplus (List.skipn (length fieldnames) row)) d
  else fold_left (fun d k => dict_set (Some k) Missing d) (List.skipn (length row) fieldnames) d.

(** the first record names the columns; empty records are skipped *)
Definition DictReader (content : string) : res (list csv_row) :=
  records ← CsvReader.reader content;
  Ok match records with
     | [] => []
     | fieldnames :: rows => List.map (dict_row fieldnames) (List.filter (fun row => row != []) rows)
     end.

(** ** [parse_csv_rows] *)

Definition REQUIRED_CSV_COLUMNS : list string :=
  ["tenant_id"; "traveler_id"; "segment_id"; "carrier_code"; "flight_number"].

Definition formula_like (s : string) : bool :=
  existsb (fun p => startswith p s) ["="; "+"; "-"; "@"].

(** [any(value.startswith(...) for ... if value)]: a surplus is a list, which has
    no [startswith] *)
Fixpoint any_formula (values : list cell) : res bool :=
  match values with
  | [] => Ok false
  | Text s :: values' => if truthy_str s && formula_like s then Ok true else any_formula values'
  | Missing :: values' => any_formula values'
  | Surplus _ :: _ => Raise (OtherError "AttributeError")
  end.

Definition max_csv_rows : Z := 1000.

Definition parse_csv_rows (content : string) : res (list csv_row) :=
  rows ← DictReader content;
  let complete := match rows with
                  | [] => false
                  | first :: _ => subset (List.map Some REQUIRED_CSV_COLUMNS) (dict_keys first)
                  end in
  if negb complete then Raise (ValueError "CSV is missing required itinerary columns")
  else if max_csv_rows <? len rows then Raise (ValueError "CSV exceeds row limit")
  else
    found ← any_formula (List.concat (List.map dict_values rows));
    if found : bool then Raise (ValueError "CSV formula-like values are not accepted") else Ok rows.

(** ** Booking webhooks *)

Module BookingWebhookEvent.

Record t : Type := mk {
  message_id : string;
  tenant_id : string;
  event_type : string;
  occurred_at : datetime;
  trip_id : option uuid;
  data : dict string json
}.

Definition valid (x : t) : bool :=
  len_in 1 128 (message_id x) && len_in 1 128 (tenant_id x) && len_in 1 128 (event_type x) &&
  dt_aware (occurred_at x).

End BookingWebhookEvent.

Section Webhook.
Context (fromisoformat : string -> option datetime) (json_loads : string -> option json)
  (model_validate : json -> res BookingWebhookEvent.t) (hmac_sha256_hex : string -> string -> string).

Definition webhook_max_age : Z := 5 * minute.

Definition parse_webhook_timestamp (text : string) (now : instant) : res datetime :=
  match fromisoformat (str_replace "Z" "+00:00" text) with
  | None => Raise (ValueError "webhook timestamp must be ISO-8601")
  | Some timestamp =>
      if negb (dt_aware timestamp) then Raise (ValueError "webhook timestamp must include a UTC offset")
      else if webhook_max_age <? Z.abs (now - dt_instant timestamp)
      then Raise (ValueError "webhook timestamp is outside the accepted replay window")
      else Ok timestamp
  end.

Definition parse_booking_webhook (body : string) (timestamp : datetime) : res BookingWebhookEvent.t :=
  match json_loads body with
  | None => Raise (ValueError "webhook payload must be valid JSON")
  | Some payload =>
      match model_validate payload with
      | Raise _ => Raise (ValueError "webhook payload does not match the booking event schema")
      | Ok event =>
          if webhook_max_age <? Z.abs (dt_instant (BookingWebhookEvent.occurred_at event) - dt_instant timestamp)
          then Raise (ValueError "webhook body timestamp does not match the signed timestamp")
          else Ok event
      end
  end.

Definition is_ascii (s : string) : bool := str_forall (fun c => ascii_code c <? 128) s.

(** [hmac.compare_digest] on text: only ASCII is accepted *)
Definition compare_digest (a b : string) : res bool :=
  if is_ascii a && is_ascii b then Ok (a == b)
  else Raise (TypeError "comparing strings with non-ASCII characters is not supported").

Definition verify_webhook_signature (body signature secret : string) (timestamp : option string) : res bool :=
  let signed_body := match timestamp with
                     | Some t => if truthy_str t then t +:+ "." +:+ body else body
                     | None => body
                     end in
  compare_digest (hmac_sha256_hex secret signed_body) signature.

End Webhook.

(** ** Original uploads *)

Definition object_key_for (tenant_id : string) (upload_id : uuid) (content_sha256 : string) : string :=
  "quarantine/" +:+ tenant_id +:+ "/" +:+ uuid_str upload_id +:+ "/" +:+ content_sha256 +:+ ".csv".

Module InMemoryOriginalUploadStore.

(** [self.objects] *)
Definition t : Type := dict string string.

Definition put (sha256_hex : string -> string) (self : t) (tenant_id : string) (upload_id : uuid)
    (content : string) : (string * string) * t :=
  let content_sha256 := sha256_hex content in
  let object_key := object_key_for tenant_id upload_id content_sha256 in
  ((object_key, content_sha256), dict_set object_key content self).

End InMemoryOriginalUploadStore.

Module GcsOriginalUploadStore.

Definition http_error : exn := OtherError "httpx.HTTPError".

(** [token_response.json().get("access_token")] *)
Definition access_token (token : attempt) : res string :=
  match token with
  | Body (JObj d) =>
      match dict_get "access_token" d with
      | Some (JStr s) =>
          if truthy_str s then Ok s
          else Raise (RuntimeError "Cloud Run metadata service did not provide an access token")
      | _ => Raise (RuntimeError "Cloud Run metadata service did not provide an access token")
      end
  | Body _ => Raise (OtherError "AttributeError")
  | HTTPError _ => Raise http_error
  | DecodeError cls | Uncaught cls => Raise (OtherError cls)
  end.

(** [upload] answers the POST of the object with the token; its body is not read *)
Definition put (sha256_hex : string -> string) (token : attempt) (upload : string -> attempt)
    (tenant_id : string) (upload_id : uuid) (content : string) : res (string * string) :=
  let content_sha256 := sha256_hex content in
  let object_key := object_key_for tenant_id upload_id content_sha256 in
  access_token ← access_token token;
  match upload access_token with
  | HTTPError _ => Raise http_error
  | Uncaught cls => Raise (OtherError cls)
  | Body _ | DecodeError _ => Ok (object_key, content_sha256)
  end.

End GcsOriginalUploadStore.
