(* ===== verification/Auth.v ===== *)
(** * [apps/api/auth.py] and the middleware [enforce_rate_limit] of [apps/api/main.py]

    Who a request acts for, and whether it is admitted. *)

From S2P Require Import Prelude PyData PyStd Enums Models Security OpenAI Graph Config.

(** ** Bearer tokens *)

Module AuthenticatedActor.

Record t : Type := mk { actor_id : string; tenant_id : string; role : UserRole.t }.

End AuthenticatedActor.

Section Auth.
Context (getenv : string -> option string) `{Repr}.

(** [jwt.decode] with the key the JWKS endpoint has for the token: by token, audience,
    issuer and endpoint, the verified claims or the exception *)
Context (jwt_decode : string -> string -> string -> string -> res obj).

(** [UserRole(x)] *)
Definition role_of_claim (j : json) : res UserRole.t :=
  match j with
  | JStr s => match of_value s with
              | Some r => Ok r
              | None => Raise (ValueError (s +:+ " is not a valid UserRole"))
              end
  | _ => Raise (ValueError "not a valid UserRole")
  end.

(** [claims[k]] *)
Definition claim (claims : obj) (k : string) : res json :=
  match dict_get k claims with Some j => Ok j | None => Raise (KeyError k) end.

Definition actor_of_claims (claims : obj) : res AuthenticatedActor.t :=
  let name variable fallback := default fallback (getenv variable) in
  actor ← claim claims (name "OIDC_ACTOR_ID_CLAIM" "sub");
  tenant ← claim claims (name "OIDC_TENANT_ID_CLAIM" "tenant_id");
  role ← claim claims (name "OIDC_ROLE_CLAIM" "role");
  role ← role_of_claim role;
  Ok (AuthenticatedActor.mk (py_str (Some actor)) (py_str (Some tenant)) role).

Definition validate_bearer_token (token : string) : res AuthenticatedActor.t :=
  match getenv "OIDC_ISSUER", getenv "OIDC_AUDIENCE", getenv "OIDC_JWKS_URL" with
  | Some issuer, Some audience, Some jwks_url =>
      if truthy_str issuer && truthy_str audience && truthy_str jwks_url then
        claims ← jwt_decode token audience issuer jwks_url;
        match actor_of_claims claims with
        | Raise (KeyError _) | Raise (ValueError _) =>
            Raise (ValueError "token is missing RouteShield authorization claims")
        | outcome => outcome
        end
      else Raise (ValueError "OIDC is not configured")
  | _, _, _ => Raise (ValueError "OIDC is not configured")
  end.

(** ** The middleware *)

(** the parts of an ASGI request the middleware reads *)
Record request : Type := Request {
  path : string;
  header_list : list (string * string);
  client_host : option string
}.

(** what it answers itself, or the headers it passes on and those it adds to the response *)
Inductive admission : Type :=
  | Respond (status_code : Z) (content : string) (added : list (string * string))
  | Forward (seen : list (string * string)) (added : list (string * string)).

(** header names are compared without case *)
Definition get_header (headers : list (string * string)) (name : string) : option string :=
  snd <$> List.find (fun kv => str_lower kv.1 == name) headers.

Definition identity_headers : list string := ["x-tenant-id"; "x-actor-id"; "x-actor-role"].

(** the request's headers with the token's identity in place of any it came with *)
Definition trusted_headers (headers : list (string * string)) (actor : AuthenticatedActor.t)
    : list (string * string) :=
  List.filter (fun kv => negb (mem (str_lower kv.1) identity_headers)) headers ++
  [("x-tenant-id", AuthenticatedActor.tenant_id actor);
   ("x-actor-id", AuthenticatedActor.actor_id actor);
   ("x-actor-role", value (AuthenticatedActor.role actor))].

Definition is_health_check (r : request) : bool := path r == "/health".
Definition is_signed_webhook (r : request) : bool := path r == "/v1/webhooks/booking".
Definition is_internal_job (r : request) : bool := startswith "/v1/internal/" (path r).

Context (controls : RuntimeControls.t).

(** the caller's identity: refused, or the verified actor if there is a token *)
Definition authenticate (r : request) : (Z * string) + option AuthenticatedActor.t :=
  let authorization := default "" (get_header (header_list r) "authorization") in
  if truthy_str authorization then
    let '(scheme, token) := str_partition " " authorization in
    if (str_lower scheme != "bearer") || negb (truthy_str token) then inl (401, "invalid bearer token")
    else match validate_bearer_token token with
         | Raise _ => inl (401, "invalid bearer token")
         | Ok actor =>
             let supplied := default "" (get_header (header_list r) "x-tenant-id") in
             if truthy_str supplied && (supplied != AuthenticatedActor.tenant_id actor)
             then inl (403, "tenant claim mismatch") else inr (Some actor)
         end
  else if RuntimeControls.require_oidc controls &&
          negb (is_health_check r || is_signed_webhook r || is_internal_job r)
  then inl (401, "bearer token is required")
  else inr None.

(** [x or y] on an optional text *)
Definition or_text (o : option string) (fallback : string) : string :=
  match o with Some s => if truthy_str s then s else fallback | None => fallback end.

Definition rate_limit_key (r : request) (actor : option AuthenticatedActor.t) : string :=
  let tenant := match actor with
                | Some a => AuthenticatedActor.tenant_id a
                | None => default "anonymous" (get_header (header_list r) "x-tenant-id")
                end in
  let actor_id := match actor with
                  | Some a => Some (AuthenticatedActor.actor_id a)
                  | None => get_header (header_list r) "x-actor-id"
                  end in
  tenant +:+ ":" +:+ or_text actor_id (default "unknown" (client_host r)) +:+ ":" +:+ path r.

(** the shared limiter, when Redis is configured: its client may raise *)
Context {R : Type} (shared : option (string -> instant -> R -> res RateLimitResult.t * R)).

(** the limiters' states: in process, and the Redis server's *)
Definition limiters : Type := FixedWindowRateLimiter.t * R.

Definition local_check (key : string) (now : instant) (s : limiters) : RateLimitResult.t * limiters :=
  let '(decision, local) := FixedWindowRateLimiter.check s.1 key now in (decision, (local, s.2)).

(** [None]: the shared limiter is required and failed *)
Definition decide (key : string) (now : instant) (s : limiters) : option RateLimitResult.t * limiters :=
  match shared with
  | None => let '(decision, s') := local_check key now s in (Some decision, s')
  | Some check =>
      let '(outcome, redis) := check key now s.2 in
      match outcome with
      | Ok decision => (Some decision, (s.1, redis))
      | Raise _ =>
          if RuntimeControls.rate_limit_redis_required controls then (None, (s.1, redis))
          else let '(decision, s') := local_check key now (s.1, redis) in (Some decision, s')
      end
  end.

Definition enforce_rate_limit (r : request) (now : instant) (s : limiters) : admission * limiters :=
  match authenticate r with
  | inl (status_code, content) => (Respond status_code content [], s)
  | inr actor =>
      let seen := match actor with Some a => trusted_headers (header_list r) a | None => header_list r end in
      let '(decision, s') := decide (rate_limit_key r actor) now s in
      match decision with
      | None => (Respond 503 "rate limit service unavailable" [], s')
      | Some d =>
          if negb (is_health_check r) && negb (RateLimitResult.allowed d) then
            (Respond 429 "rate limit exceeded"
               [("Retry-After", str_int (RateLimitResult.retry_after_seconds d));
                ("X-RateLimit-Limit", str_int (RateLimitResult.limit d)); ("X-RateLimit-Remaining", "0")], s')
          else
            (Forward seen
               (if is_health_check r then [] else
                  [("X-RateLimit-Limit", str_int (RateLimitResult.limit d));
                   ("X-RateLimit-Remaining", str_int (RateLimitResult.remaining d))]), s')
      end
  end.

End Auth.
