(* ===== verification/ServiceInvariant.v ===== *)
(** * What every request preserves in the store

    Reachability by the repository's operations (hence the shape invariant of
    [StoreInvariant]), no action dispatched, and an audit log without secrets. *)

From stdpp Require Import relations.
From S2P Require Import Prelude PyData Float64 PyStd Enums Models Recovery Security Repository StoreInvariant.
From S2P Require Import Notifications Actions.

(** ** What the service preserves *)

(** below a secret-shaped key the audit log holds only the marker *)
Definition log_redacted (r : repo) : Prop :=
  forall e, In e (Repo.events r) -> forall k v,
    entry k v (JObj (EventRecord.details e)) -> _sensitive_key k = true -> v = JStr "[REDACTED]".

Record service_ok (r : repo) : Prop := {
  service_reachable : reachable r;
  service_none_dispatched : none_dispatched r;
  service_log_redacted : log_redacted r
}.

Lemma step_log r r' : store_step r r' -> log_redacted r -> log_redacted r'.
Proof.
  intros Hs H. destruct Hs; try exact H.
  - revert H0. unfold save_evidence. destruct (get_trip _ _ _); [intros <-%Ok_inj; exact H|done].
  - revert H0. unfold save_assessment. destruct (get_trip _ _ _); [intros <-%Ok_inj; exact H|done].
  - unfold claim_idempotency.
    assert (Hc : forall b k, log_redacted (if b : bool then r <| Repo.idempotency_records ::= dict_pop k |> else r))
      by (intros [] k; exact H).
    cbv zeta. set (r1 := if match dict_get _ _ with Some _ => _ | None => false end then _ else r).
    assert (H1 : log_redacted r1) by apply Hc. clearbody r1.
    destruct (if match dict_get _ _ with Some _ => _ | None => false end then None else _) as [e|].
    + destruct (_ || _); [done|]. by destruct (IdempotencyRecord.state e == _).
    + by destruct (construct _ _ _).
  - revert H0. unfold complete_idempotency. destruct (dict_get _ _); [|done]. destruct (_ != _); [done|].
    intros E%Ok_inj. injection E as _ <-. exact H.
  - intros e' Hin k v. simpl in Hin. apply in_app_or in Hin as [Hin|[<-|[]]]; [by apply H|].
    intros He Hk. simpl in He. rewrite <-redact_dict_obj in He. exact (redact_entry k v _ Hk He).
  - unfold save_playbook. by destruct (dict_get _ _).
  - unfold claim_due_notifications. by destruct (claim_due _ _ _ _ _ _ _ _).
  - unfold complete_notification_delivery. by destruct (lease_held _ _ _).
  - unfold claim_due_action_dispatches. by destruct (claim_due _ _ _ _ _ _ _ _).
  - unfold complete_action_dispatch. by destruct (lease_held _ _ _).
  - unfold erase_traveler_data, delete_traveler_memory. simpl. by destruct (scope == _).
  - unfold purge_expired in H0. apply res_bind_ok in H0 as (holds & _ & E).
    apply res_bind_ok in E as (cs & _ & E). apply Ok_inj in E. injection E as _ <-.
    intros e Hin. apply H. unfold purge in Hin. simpl in Hin. apply filter_In in Hin. exact (proj1 Hin).
Qed.

Lemma service_ok_step r r' :
  store_step r r' -> (none_dispatched r -> none_dispatched r') -> service_ok r -> service_ok r'.
Proof.
  intros Hs Hn [H1 H2 H3]. constructor; [by eapply rtc_r|by apply Hn|by apply (step_log r)].
Qed.

Lemma service_ok_init : service_ok Repo.init.
Proof. constructor; [apply rtc_refl|done|by intros e []]. Qed.

(** ** The outbox of actions *)

Lemma leased_undispatched id worker now expires a : undispatched a -> undispatched (set_lease id worker now expires a).
Proof. by intros H. Qed.

Lemma claim_undispatched r tenant worker ttl now limit fresh :
  store_ok r -> none_dispatched r ->
  Forall undispatched (claim_due_action_dispatches r tenant worker ttl now limit fresh).1 /\
  none_dispatched (claim_due_action_dispatches r tenant worker ttl now limit fresh).2.
Proof.
  intros Hr Hn. unfold claim_due_action_dispatches.
  destruct (claim_due _ _ _ _ _ _ _ _) as [c d] eqn:E. simpl. split.
  - apply List.Forall_forall. intros x' Hin.
    destruct (claim_due_member _ _ _ _ _ _ _ _ _ _ _ E (proj1 (ok_action_dispatches r Hr)) Hin)
      as (id & x & i & Hx & _ & -> & _). by apply leased_undispatched, (Hn id).
  - intros id a Hg. destruct (claim_due_get _ _ _ _ _ _ _ _ _ _ _ _ E Hg) as (x & Hx & [->|(_ & _ & i & ->)]);
      [|apply leased_undispatched]; by apply (Hn id).
Qed.

Lemma none_dispatched_sub r r' :
  (forall id a, dict_get id (Repo.action_dispatches r') = Some a -> dict_get id (Repo.action_dispatches r) = Some a) ->
  none_dispatched r -> none_dispatched r'.
Proof. intros Hs Hn id a Hg. by apply (Hn id), Hs. Qed.

Lemma keep_values_sub {K V} `{EqDecision K} (p : V -> bool) (d : dict K V) k v :
  dict_wf d -> dict_get k (keep_values p d) = Some v -> dict_get k d = Some v.
Proof. intros Hw. rewrite dict_get_keep_values by done. destruct (dict_get k d); [|done]. by destruct (p _). Qed.

Lemma erase_undispatched r tenant traveler scope :
  store_ok r -> none_dispatched r -> none_dispatched (erase_traveler_data r tenant traveler scope).2.
Proof.
  intros Hr. apply none_dispatched_sub. intros id a. unfold erase_traveler_data, delete_traveler_memory. simpl.
  destruct (scope == _); simpl; [done|]. apply keep_values_sub, (ok_action_dispatches r Hr).
Qed.

Lemma purge_undispatched r holds before uploads audit :
  store_ok r -> none_dispatched r -> none_dispatched (purge r holds before uploads audit).
Proof.
  intros Hr. apply none_dispatched_sub. intros id a. unfold purge. simpl.
  apply keep_values_sub, (ok_action_dispatches r Hr).
Qed.

(** ** Writes that leave the outbox of actions alone *)

Lemma claim_idempotency_kept r tenant key scope hash expires now :
  service_ok r -> service_ok (claim_idempotency r tenant key scope hash expires now).2.
Proof.
  apply service_ok_step; [apply step_claim_idempotency|]. unfold claim_idempotency. intros Hn.
  set (r1 := if match dict_get _ _ with Some _ => _ | None => false end then _ else r).
  assert (H1 : none_dispatched r1) by (subst r1; by destruct (match dict_get _ _ with Some _ => _ | None => _ end)).
  clearbody r1. destruct (if match dict_get _ _ with Some _ => _ | None => false end then None else _) as [e|].
  - destruct (_ || _); [done|]. by destruct (IdempotencyRecord.state e == _).
  - by destruct (construct _ _ _).
Qed.

Lemma complete_idempotency_kept r tenant key hash code payload now rec r' :
  complete_idempotency r tenant key hash code payload now = Ok (rec, r') -> service_ok r -> service_ok r'.
Proof.
  intros E. apply service_ok_step; [by eapply step_complete_idempotency|]. revert E. unfold complete_idempotency.
  destruct (dict_get _ _); [|done]. destruct (_ != _); [done|]. intros E%Ok_inj. by injection E as _ <-.
Qed.

Lemma save_evidence_kept r tenant id items r' :
  save_evidence r tenant id items = Ok r' -> service_ok r -> service_ok r'.
Proof.
  intros E. apply service_ok_step; [by eapply step_save_evidence|]. revert E. unfold save_evidence.
  destruct (get_trip _ _ _); [by intros <-%Ok_inj|done].
Qed.

Lemma save_assessment_kept r tenant a r' :
  save_assessment r tenant a = Ok r' -> service_ok r -> service_ok r'.
Proof.
  intros E. apply service_ok_step; [by eapply step_save_assessment|]. revert E. unfold save_assessment.
  destruct (get_trip _ _ _); [by intros <-%Ok_inj|done].
Qed.

Lemma save_playbook_kept r p : service_ok r -> service_ok (save_playbook r p).2.
Proof. apply service_ok_step; [apply step_save_playbook|]. unfold save_playbook. by destruct (dict_get _ _). Qed.

Lemma delete_memory_kept r tenant traveler : service_ok r -> service_ok (delete_traveler_memory r tenant traveler).2.
Proof. by apply service_ok_step; [apply step_delete_traveler_memory|]. Qed.

Lemma claim_notifications_kept r tenant worker ttl now limit fresh :
  service_ok r -> service_ok (claim_due_notifications r tenant worker ttl now limit fresh).2.
Proof.
  apply service_ok_step; [apply step_claim_due_notifications|]. unfold claim_due_notifications.
  by destruct (claim_due _ _ _ _ _ _ _ _).
Qed.

Lemma deliver_kept r n sender max_attempts now id :
  service_ok r -> service_ok (deliver_notification r n sender max_attempts now id).2.
Proof.
  unfold deliver_notification. intros Hr. destruct (negb _); [done|]. destruct (Notifications.record_result _ _ _ _).
  destruct (construct _ _ _) as [attempt|]; [|done]. destruct (NotificationRecord.dispatch_claim_id n).
  - destruct (complete_notification_delivery _ _ _ _) as [o r'] eqn:E.
    change r' with (o, r').2. rewrite <-E. revert Hr. apply service_ok_step; [apply step_complete_notification|].
    unfold complete_notification_delivery. by destruct (lease_held _ _ _).
  - eapply service_ok_step; [apply step_record_notification_attempt|done|].
    by eapply service_ok_step; [apply step_save_notification| |].
Qed.

(** ** The outbox of actions *)

Lemma queue_action_kept r a : undispatched a -> service_ok r -> service_ok (save_action_dispatch r a).
Proof.
  intros Ha. apply service_ok_step; [apply step_save_action_dispatch|]. intros Hr id x. by apply save_undispatched.
Qed.

Lemma claim_actions_kept r tenant worker ttl now limit fresh : service_ok r ->
  service_ok (claim_due_action_dispatches r tenant worker ttl now limit fresh).2 /\
  Forall undispatched (claim_due_action_dispatches r tenant worker ttl now limit fresh).1.
Proof.
  intros Hr. destruct (claim_undispatched r tenant worker ttl now limit fresh) as [Hc Hn];
    [apply reachable_ok, Hr|apply Hr|]. split; [|done].
  by apply (service_ok_step r); [apply step_claim_due_actions| |].
Qed.

Lemma dispatch_action_kept r a max_attempts now id : undispatched a -> service_ok r ->
  service_ok (dispatch_approved_action r a unconfigured_dispatch max_attempts now id).2.
Proof.
  intros Ha Hr. pose proof (dispatch_keeps_none r a max_attempts now id (service_none_dispatched r Hr) Ha) as Hn.
  revert Hn. unfold dispatch_approved_action. destruct (negb _); [done|].
  destruct (record_result _ _ _ _) as [a' o] eqn:E. apply unconfigured_result in E as (Ha' & _); [|done].
  destruct (construct _ _ _) as [attempt|]; [|done]. destruct (ActionDispatchRecord.dispatch_claim_id a).
  - destruct (complete_action_dispatch _ _ _ _) as [c r'] eqn:E. change r' with (c, r').2. rewrite <-E.
    intros Hn. by apply (service_ok_step r); [apply step_complete_action| |].
  - intros Hn. apply (service_ok_step (save_action_dispatch r a')); [apply step_record_action_attempt|done|].
    by apply queue_action_kept.
Qed.

(** ** Erasure and retention *)

Lemma erase_kept r tenant traveler scope :
  service_ok r -> service_ok (erase_traveler_data r tenant traveler scope).2.
Proof.
  intros Hr. apply (service_ok_step r); [apply step_erase|apply erase_undispatched, reachable_ok, Hr|done].
Qed.

Lemma purge_kept r before uploads audit now counts r' :
  purge_expired r before uploads audit now = Ok (counts, r') -> service_ok r -> service_ok r'.
Proof.
  intros E Hr. apply (service_ok_step r); [by eapply step_purge| |done]. revert E. unfold purge_expired.
  intros (holds & _ & E)%res_bind_ok. apply res_bind_ok in E as (cs & _ & E).
  apply Ok_inj in E. injection E as _ <-. apply purge_undispatched, reachable_ok, Hr.
Qed.
