(* ===== verification/ApiCore.v ===== *)
(** * [apps/api/main.py]: the handlers' shared state and helpers

    A handler is a computation over [World] that may raise; the state reached
    before an exception is kept, as the service keeps it.  What the process reads
    from outside (clock, random identifiers, environment, network, model, the
    digests of the standard library) is the environment [Env]. *)

From S2P Require Import Prelude PyData Float64 PyStd Enums Models RiskEngine Recovery Policies Security.
From S2P Require Import Repository OpenAI Graph Providers Assessment Config Idempotency Ingestion.

Class Env : Type := {
  controls : RuntimeControls.t;
  getenv : string -> option string;
  clock_at : nat -> instant;              (* the n-th reading of the clock *)
  uuid_at : nat -> uuid;                  (* the n-th random identifier *)
  uuid5_url : string -> uuid;             (* [uuid5(NAMESPACE_URL, name)] *)
  float_repr : f64 -> string;
  sha256_hex : string -> string;
  hmac_sha256_hex : string -> string -> string;   (* by secret and message *)
  fromisoformat : string -> option datetime;      (* [datetime.fromisoformat]; [None] is a ValueError *)
  json_loads : string -> option json;             (* [None] is a decode error *)
  (* the bucket's HTTP exchanges for the n-th upload, when EVIDENCE_BUCKET is set *)
  evidence_bucket : option (nat -> attempt * (string -> attempt));
  network : nat -> string -> nat -> attempt;  (* what the n-th collection meets *)
  finish_order : nat -> list nat;
  core_order : list string;               (* iteration order of the core-source set *)
  py_sum : list f64 -> f64;
  resume_without_checkpoint : exn;        (* LangGraph's error for an unknown thread *)
  model_provider : OpenAIRecommendationProvider.t;
  env_model :: ModelClient;
  env_repr :: Repr;
  env_time :: JsonTime;
  (* [model_validate] of what the workflow returns; the defaults are the clock and a new id *)
  validate_tool_audit : instant -> obj -> res ToolAuditEvent.t;
  validate_model_audit : instant -> obj -> res ModelInvocationAudit.t;
  validate_graph_recommendation : uuid -> instant -> obj -> res Recommendation.t;
  dump_candidates : list EvaluatedCandidate.t -> json;
  (* pydantic's construction of a profile from the fields of one overridden by a patch *)
  patch_profile : TravelerPreferenceProfile.t -> dict string json -> res TravelerPreferenceProfile.t
}.

(** ** The service's state *)

Module World.

(** the repository, the live collector's providers and cache, the original uploads
    kept in process, the workflow's checkpoints by thread, and how many values
    were drawn from the environment *)
Record t : Type := mk {
  store : repo;
  providers : list (string * JsonHttpProvider.t);
  cache : ProviderCache;
  uploads : InMemoryOriginalUploadStore.t;
  threads : dict string state;
  ticks : nat
}.

#[global] Instance settable : Settable t := fun x =>
  mk (store x) (providers x) (cache x) (uploads x) (threads x) (ticks x).

Definition init : t := mk Repo.init live_providers [] [] [] 0.

End World.

Abbreviation API := (M World.t).

Section Core.
Context `{Env}.

Definition now : API instant := fun w => (Ok (clock_at (World.ticks w)), w <| World.ticks ::= S |>).
Definition uuid4 : API uuid := fun w => (Ok (uuid_at (World.ticks w)), w <| World.ticks ::= S |>).

(** repository calls: a query, a write, a write that may raise, a write with a result *)
Definition ask {A} (f : repo -> A) : API A := gets (fun w => f (World.store w)).
Definition put (f : repo -> repo) : API unit := modify (fun w => w <| World.store ::= f |>).
Definition try_put (f : repo -> res repo) : API unit := fun w =>
  match f (World.store w) with
  | Ok r => (Ok tt, w <| World.store := r |>)
  | Raise e => (Raise e, w)
  end.
Definition put_get {A} (f : repo -> res A * repo) : API A := fun w =>
  let '(a, r) := f (World.store w) in (a, w <| World.store := r |>).

Definition http_error {A} (status_code : Z) (detail : string) : API A :=
  raise (HTTPException status_code detail).

(** ** Events *)

Definition emit_event (event_type tenant_id : string) (trip_id : option uuid) (correlation_id : uuid)
    (actor_id : option string) (details : dict string json) : API unit :=
  event_id ← uuid4;
  emitted_at ← now;
  let event :=
    {| EventRecord.event_id := event_id;
       EventRecord.event_type := event_type;
       EventRecord.tenant_id := tenant_id;
       EventRecord.trip_id := trip_id;
       EventRecord.correlation_id := correlation_id;
       EventRecord.idempotency_key := event_type +:+ ":" +:+ uuid_str correlation_id;
       EventRecord.emitted_at := emitted_at;
       EventRecord.actor_id := actor_id;
       EventRecord.details := redact_dict details |} in
  put (fun r => (record_event r event).2).

(** ** Durable idempotency *)

Definition fingerprint (scope : string) (payload : json) : string :=
  request_fingerprint float_repr sha256_hex scope payload.

(** the fingerprint, and the record to replay *)
Definition claim_mutation (tenant_id idempotency_key scope : string) (payload : json)
    : API (string * option IdempotencyRecord.t) :=
  let hash := fingerprint scope payload in
  t ← now;
  t' ← now;
  outcome ← put_get (fun r => claim_idempotency r tenant_id idempotency_key scope hash
    (t + RuntimeControls.idempotency_ttl_seconds controls * second) t');
  let '(disposition, record) := outcome in
  if disposition == "execute" then mret (hash, None)
  else if disposition == "replay" then mret (hash, Some record)
  else if disposition == "conflict"
  then http_error 409 "Idempotency-Key was already used for a different request"
  else http_error 409 "A request with this Idempotency-Key is still in progress".

Definition complete_mutation (tenant_id idempotency_key request_hash : string)
    (response_status_code : Z) (response_payload : json) : API unit :=
  t ← now;
  try_put (fun r => '(_, r') ← complete_idempotency r tenant_id idempotency_key request_hash
                                response_status_code response_payload t;
                    Ok r').

Definition claim_optional_mutation (tenant_id : string) (idempotency_key : option string) (scope : string)
    (payload : json) : API (option string * option IdempotencyRecord.t) :=
  match idempotency_key with
  | Some key =>
      if truthy_str key then
        claimed ← claim_mutation tenant_id key scope payload;
        mret (Some claimed.1, claimed.2)
      else if RuntimeControls.require_idempotency controls
      then http_error 400 "Idempotency-Key is required" else mret (None, None)
  | None =>
      if RuntimeControls.require_idempotency controls
      then http_error 400 "Idempotency-Key is required" else mret (None, None)
  end.

Definition complete_optional_mutation (tenant_id : string) (idempotency_key request_hash : option string)
    (response_status_code : Z) (response_payload : json) : API unit :=
  match idempotency_key, request_hash with
  | Some key, Some hash =>
      if truthy_str key && truthy_str hash
      then complete_mutation tenant_id key hash response_status_code response_payload else mret tt
  | _, _ => mret tt
  end.

(** [Model.model_validate(replay.response_payload)] *)
Definition replayed {A} `{Validate A} (record : IdempotencyRecord.t) : API A :=
  lift_res (model_validate (default JNull (IdempotencyRecord.response_payload record))).

(** ** Access control *)

(** the request headers the handlers read *)
Record headers : Type := Headers {
  x_tenant_id : option string;
  x_actor_role : option UserRole.t;
  x_actor_id : option string;
  idempotency_key : option string
}.

Definition require_tenant (x_tenant_id : option string) : API string :=
  match x_tenant_id with
  | Some t => if truthy_str t then mret t else http_error 401 "X-Tenant-Id is required"
  | None => http_error 401 "X-Tenant-Id is required"
  end.

Definition role_in (x_actor_role : option UserRole.t) (allowed : list UserRole.t) : bool :=
  match x_actor_role with Some role => mem role allowed | None => false end.

Definition require_role (x_actor_role : option UserRole.t) (allowed : list UserRole.t) : API unit :=
  raise_if (negb (role_in x_actor_role allowed)) (HTTPException 403 "insufficient role").

Definition require_actor_id (x_actor_id : option string) : API (option string) :=
  if RuntimeControls.require_oidc controls && negb (truthy_opt_str x_actor_id)
  then http_error 401 "authenticated actor identity is required" else mret x_actor_id.

Definition require_actor_matches_payload (x_actor_id : option string) (payload_actor_id : string)
    : API string :=
  actor_id ← require_actor_id x_actor_id;
  match actor_id with
  | Some a =>
      if truthy_str a
      then if a != payload_actor_id then http_error 403 "actor identity mismatch" else mret a
      else mret payload_actor_id
  | None => mret payload_actor_id
  end.

(** the two ownership checks of [require_trip_access] *)
Definition trip_denied (trip : Trip.t) (x_actor_role : option UserRole.t) (actor_id : option string) : bool :=
  truthy_opt_str actor_id &&
  (bool_decide (x_actor_role = Some UserRole.TRAVELER) &&
     negb (bool_decide (actor_id = Some (Trip.traveler_id trip))) ||
   bool_decide (x_actor_role = Some UserRole.TRAVEL_MANAGER) &&
     negb (bool_decide (Trip.assigned_manager_id trip = actor_id))).

Definition require_trip_access (trip : Trip.t) (x_actor_role : option UserRole.t)
    (x_actor_id : option string) (allowed_roles : list UserRole.t) : API unit :=
  require_role x_actor_role allowed_roles ;;
  actor_id ← require_actor_id x_actor_id;
  raise_if (trip_denied trip x_actor_role actor_id) (HTTPException 403 "trip access denied").

(** [if not x: raise HTTPException(404, ...)] *)
Definition found {A} (o : option A) (detail : string) : API A :=
  match o with Some x => mret x | None => http_error 404 detail end.

Definition require_incident_trip_access (tenant_id : string) (incident_id : uuid)
    (x_actor_role : option UserRole.t) (x_actor_id : option string) (allowed_roles : list UserRole.t)
    : API (Incident.t * Trip.t) :=
  o ← ask (fun r => get_incident r tenant_id incident_id);
  incident ← found o "incident not found";
  o ← ask (fun r => get_trip r tenant_id (Incident.trip_id incident));
  trip ← found o "trip not found";
  require_trip_access trip x_actor_role x_actor_id allowed_roles ;;
  mret (incident, trip).

(** ** Runtime controls *)

Definition default_control_enabled (control_name : RuntimeControlName.t) : bool :=
  match control_name with
  | RuntimeControlName.LLM_ENABLED => RuntimeControls.llm_enabled controls
  | RuntimeControlName.REACT_TOOL_CALLS_ENABLED => RuntimeControls.react_tool_calls_enabled controls
  | RuntimeControlName.NOTIFICATIONS_ENABLED => RuntimeControls.notifications_enabled controls
  | RuntimeControlName.APPROVAL_ACTIONS_ENABLED => RuntimeControls.approval_actions_enabled controls
  | RuntimeControlName.MEMORY_READS_ENABLED => RuntimeControls.memory_reads_enabled controls
  | RuntimeControlName.MEMORY_WRITES_ENABLED => RuntimeControls.memory_writes_enabled controls
  | RuntimeControlName.TENANT_AUTOMATION_ENABLED => RuntimeControls.tenant_automation_enabled controls
  | other => str_lower (str_strip (default "false" (getenv (value other)))) == "true"
  end.

(** a tenant override decides, then a platform override, then the default *)
Definition control_enabled (tenant_id : string) (control_name : RuntimeControlName.t) : API bool :=
  t ← now;
  o ← ask (fun r => get_runtime_control_override r tenant_id control_name t);
  override ← lift_res o;
  match override with
  | Some change => mret (RuntimeControlChange.enabled change)
  | None =>
      t' ← now;
      o ← ask (fun r => get_platform_control_override r control_name t');
      platform_override ← lift_res o;
      mret match platform_override with
           | Some change => PlatformRuntimeControlChange.enabled change
           | None => default_control_enabled control_name
           end
  end.

(** [if not await control_enabled(...): raise HTTPException(503, ...)] *)
Definition require_control (tenant_id : string) (control_name : RuntimeControlName.t) (detail : string)
    : API unit :=
  enabled ← control_enabled tenant_id control_name;
  raise_if (negb enabled) (HTTPException 503 detail).

Definition require_memory_reads_enabled (tenant_id : string) : API unit :=
  require_control tenant_id RuntimeControlName.MEMORY_READS_ENABLED "memory reads disabled".

End Core.
