(* ===== verification/ApiLogic.v ===== *)
(** * Reasoning about handlers

    [keeps I m]: the computation [m] preserves the store invariant [I], also when
    it raises.  [quiet m]: it leaves the store alone.  [refuses m]: it raises and
    leaves the store alone.  Each has a rule per operation of the monad, collected
    in a hint database. *)

From S2P Require Import Prelude PyData Float64 PyStd Enums Models Repository Graph Providers Assessment.
From S2P Require Import Config Ingestion ApiCore.

(** ** Rules *)

Definition keeps {A} (I : repo -> Prop) (m : API A) : Prop :=
  forall w, I (World.store w) -> I (World.store (m w).2).

Definition quiet {A} (m : API A) : Prop := forall w, World.store (m w).2 = World.store w.

Definition refuses {A} (m : API A) : Prop :=
  forall w, exists e, (m w).1 = Raise e /\ World.store (m w).2 = World.store w.

Lemma quiet_keeps {A} I (m : API A) : quiet m -> keeps I m.
Proof. intros Hm w. by rewrite Hm. Qed.

Lemma keeps_quiet {A} (m : API A) : (forall I, keeps I m) -> quiet m.
Proof. intros Hm w. exact (Hm (fun r => r = World.store w) w eq_refl). Qed.

Section Keeps.
Context (I : repo -> Prop).

Lemma keeps_ret {A} (a : A) : keeps I (mret a).
Proof. by intros w. Qed.

Lemma keeps_raise {A} e : keeps I (raise e : API A).
Proof. by intros w. Qed.

Lemma keeps_raise_if b e : keeps I (raise_if b e).
Proof. destruct b; by intros w. Qed.

Lemma keeps_lift {A} (r : res A) : keeps I (lift_res r).
Proof. by intros w. Qed.

Lemma keeps_gets {A} (f : World.t -> A) : keeps I (gets f).
Proof. by intros w. Qed.

Lemma keeps_ask {A} (f : repo -> A) : keeps I (ask f).
Proof. by intros w. Qed.

(** what is known of the value bound: a constructed model, a row read from the store *)
Lemma keeps_bind_post {A B} (Q : A -> Prop) (m : API A) (f : A -> API B) :
  (forall w, I (World.store w) ->
     I (World.store (m w).2) /\ match (m w).1 with Ok a => Q a | Raise _ => True end) ->
  (forall a, Q a -> keeps I (f a)) -> keeps I (m ≫= f).
Proof.
  intros Hm Hf w Hw. rewrite M_bind_unfold. destruct (Hm w Hw) as [H1 H2].
  destruct (m w) as [[a|e] w']; [by apply Hf|done].
Qed.

Lemma keeps_bind {A B} (m : API A) (f : A -> API B) :
  keeps I m -> (forall a, keeps I (f a)) -> keeps I (m ≫= f).
Proof.
  intros Hm Hf. apply (keeps_bind_post (fun _ => True)); [|auto].
  intros w Hw. split; [by apply Hm|]. by destruct (m w).1.
Qed.

Lemma keeps_bind_lift {A B} (r : res A) (f : A -> API B) :
  (forall a, r = Ok a -> keeps I (f a)) -> keeps I (lift_res r ≫= f).
Proof. intros Hf. apply (keeps_bind_post (fun a => r = Ok a)); [|auto]. intros w Hw. split; [done|]. by destruct r. Qed.

Lemma keeps_for_each {A} (l : list A) body : (forall x, keeps I (body x)) -> keeps I (for_each l body).
Proof. intros Hb. induction l as [|x l IH]; simpl; [apply keeps_ret|]. by apply keeps_bind. Qed.

Lemma keeps_fold_forall {A B} (Q : A -> Prop) (l : list A) (body : B -> A -> API B) :
  Forall Q l -> (forall acc x, Q x -> keeps I (body acc x)) -> forall acc, keeps I (fold_each l acc body).
Proof.
  intros Hl Hb. induction Hl as [|x l Hx _ IH]; intros acc; simpl; [apply keeps_ret|]. apply keeps_bind; auto.
Qed.

Lemma keeps_fold_each {A B} (l : list A) (body : B -> A -> API B) :
  (forall acc x, keeps I (body acc x)) -> forall acc, keeps I (fold_each l acc body).
Proof. intros Hb. apply (keeps_fold_forall (fun _ => True)); [by apply List.Forall_forall|auto]. Qed.

Lemma keeps_catch {A} (m : API A) h : keeps I m -> (forall e, keeps I (h e)) -> keeps I (catch m h).
Proof.
  intros Hm Hh w Hw. unfold catch. pose proof (Hm w Hw) as Hw'.
  destruct (m w) as [[a|e] w']; [done|]. by apply Hh.
Qed.

Lemma keeps_put f : (forall r, I r -> I (f r)) -> keeps I (put f).
Proof. intros Hf w Hw. by apply Hf. Qed.

Lemma keeps_try_put f : (forall r r', f r = Ok r' -> I r -> I r') -> keeps I (try_put f).
Proof.
  intros Hf w Hw. unfold try_put. destruct (f (World.store w)) as [r'|] eqn:E; [|done]. by apply (Hf _ _ E).
Qed.

Lemma keeps_put_get {A} (f : repo -> res A * repo) : (forall r, I r -> I (f r).2) -> keeps I (put_get f).
Proof.
  intros Hf w Hw. unfold put_get. specialize (Hf _ Hw). by destruct (f (World.store w)).
Qed.

End Keeps.

Create HintDb keeps discriminated.
#[export] Hint Resolve keeps_ret keeps_raise keeps_raise_if keeps_lift keeps_gets keeps_ask : keeps.

(** One step per operation; matches on data are split. *)
Ltac keeps_step :=
  match goal with
  | |- forall _, _ => intro
  | |- keeps _ (lift_res _ ≫= _) => apply keeps_bind_lift
  | |- keeps _ (_ ≫= _) => apply keeps_bind
  | |- keeps _ (for_each _ _) => apply keeps_for_each
  | |- keeps _ (fold_each _ _ _) => apply keeps_fold_each
  | |- keeps _ (catch _ _) => apply keeps_catch
  | |- keeps _ (match ?x with _ => _ end) => destruct x eqn:?
  | |- keeps _ _ => solve [auto with keeps nocore]
  end.
Ltac keeps := repeat keeps_step.

Section Quiet.
Context `{Env}.

Lemma keeps_now I : keeps I now.
Proof. by intros w. Qed.
Lemma keeps_uuid4 I : keeps I uuid4.
Proof. by intros w. Qed.
#[local] Hint Resolve keeps_now keeps_uuid4 : keeps.

Lemma keeps_http_error {A} I code detail : keeps I (http_error code detail : API A).
Proof. by intros w. Qed.
Lemma keeps_found {A} I (o : option A) detail : keeps I (found o detail).
Proof. unfold found. destruct o; by intros w. Qed.
#[local] Hint Resolve keeps_http_error keeps_found : keeps.

Lemma keeps_replayed {A} `{Validate A} I record : keeps I (replayed record : API A).
Proof. unfold replayed. auto with keeps. Qed.
Lemma keeps_require_tenant I t : keeps I (require_tenant t).
Proof. unfold require_tenant. keeps. Qed.
Lemma keeps_require_role I role allowed : keeps I (require_role role allowed).
Proof. unfold require_role. keeps. Qed.
Lemma keeps_require_actor_id I a : keeps I (require_actor_id a).
Proof. unfold require_actor_id. keeps. Qed.
#[local] Hint Resolve keeps_require_tenant keeps_require_role keeps_require_actor_id : keeps.
Lemma keeps_require_actor_matches_payload I a p : keeps I (require_actor_matches_payload a p).
Proof. unfold require_actor_matches_payload. keeps. Qed.
Lemma keeps_require_trip_access I trip role a allowed : keeps I (require_trip_access trip role a allowed).
Proof. unfold require_trip_access. keeps. Qed.
#[local] Hint Resolve keeps_require_trip_access : keeps.
Lemma keeps_require_incident_trip_access I tenant id role a allowed :
  keeps I (require_incident_trip_access tenant id role a allowed).
Proof. unfold require_incident_trip_access. keeps. Qed.
Lemma keeps_control_enabled I tenant name : keeps I (control_enabled tenant name).
Proof. unfold control_enabled. keeps. Qed.
#[local] Hint Resolve keeps_control_enabled : keeps.
Lemma keeps_require_control I tenant name detail : keeps I (require_control tenant name detail).
Proof. unfold require_control. keeps. Qed.
Lemma keeps_require_memory_reads I tenant : keeps I (require_memory_reads_enabled tenant).
Proof. apply keeps_require_control. Qed.

End Quiet.

#[export] Hint Resolve keeps_now keeps_uuid4 keeps_http_error keeps_found keeps_replayed keeps_require_tenant
  keeps_require_role keeps_require_actor_id keeps_require_actor_matches_payload keeps_require_trip_access
  keeps_require_incident_trip_access keeps_control_enabled keeps_require_control
  keeps_require_memory_reads : keeps.

(** ** Refusals *)

Section Refuses.
Context `{Env}.

Lemma refuses_raise {A} e : refuses (raise e : API A).
Proof. intros w. by exists e. Qed.

Lemma refuses_bind {A B} (m : API A) (f : A -> API B) : refuses m -> refuses (m ≫= f).
Proof.
  intros Hm w. destruct (Hm w) as (e & E & Hw). exists e. rewrite M_bind_unfold.
  destruct (m w) as [[a|e'] w']; [done|]. simpl in *. split; [congruence|done].
Qed.

Lemma refuses_after {A B} (m : API A) (f : A -> API B) :
  (forall I, keeps I m) -> (forall a, refuses (f a)) -> refuses (m ≫= f).
Proof.
  intros Hm Hf w. apply keeps_quiet in Hm. rewrite M_bind_unfold. specialize (Hm w).
  destruct (m w) as [[a|e] w']; simpl in *; [|by exists e].
  destruct (Hf a w') as (e & E & Hw). exists e. split; [done|]. by rewrite Hw.
Qed.

Lemma refuses_require_role role allowed : role_in role allowed = false -> refuses (require_role role allowed).
Proof. intros Hr w. unfold require_role. rewrite Hr. by eexists. Qed.

Lemma refuses_trip_access trip role a allowed :
  role_in role allowed = false -> refuses (require_trip_access trip role a allowed).
Proof. intros Hr. by apply refuses_bind, refuses_require_role. Qed.

Lemma refuses_require_tenant t : truthy_opt_str t = false -> refuses (require_tenant t).
Proof.
  intros Ht w. unfold require_tenant. destruct t as [t|]; simpl in Ht; [rewrite Ht|]; by eexists.
Qed.

End Refuses.

(** ** What a handler that answered went through

    The equations of the operations on a result [Ok], and a tactic that takes a
    handler's run apart with them. *)

Section Runs.
Context `{Env}.

Lemma ret_ok {A} (a x : A) (w w' : World.t) : (mret a : API A) w = (Ok x, w') -> x = a /\ w' = w.
Proof. by intros [= <- <-]. Qed.

Lemma ask_ok {A} (f : repo -> A) w x w' : ask f w = (Ok x, w') -> x = f (World.store w) /\ w' = w.
Proof. by intros [= <- <-]. Qed.

Lemma lift_ok {A} (r : res A) (w w' : World.t) x : lift_res r w = (Ok x, w') -> r = Ok x /\ w' = w.
Proof. by intros [= -> <-]. Qed.

Lemma put_ok f w x w' : put f w = (Ok x, w') -> w' = w <| World.store ::= f |>.
Proof. by intros [= _ <-]. Qed.

Lemma put_get_ok {A} (f : repo -> res A * repo) w x w' :
  put_get f w = (Ok x, w') -> exists r', f (World.store w) = (Ok x, r') /\ w' = w <| World.store := r' |>.
Proof. unfold put_get. destruct (f _) as [a r']. intros [= -> <-]. by exists r'. Qed.

Lemma try_put_ok f w x w' :
  try_put f w = (Ok x, w') -> exists r', f (World.store w) = Ok r' /\ w' = w <| World.store := r' |>.
Proof. unfold try_put. destruct (f _) as [r'|]; [|done]. intros [= _ <-]. by exists r'. Qed.

Lemma now_ok w x w' : now w = (Ok x, w') -> x = clock_at (World.ticks w) /\ w' = w <| World.ticks ::= S |>.
Proof. by intros [= <- <-]. Qed.

Lemma uuid4_ok w x w' : uuid4 w = (Ok x, w') -> x = uuid_at (World.ticks w) /\ w' = w <| World.ticks ::= S |>.
Proof. by intros [= <- <-]. Qed.

Lemma guard_ok b e (w w' : World.t) x : raise_if b e w = (Ok x, w') -> b = false /\ w' = w.
Proof. destruct b; [done|]. by intros [= _ <-]. Qed.

Lemma found_ok {A} (o : option A) detail w x w' : found o detail w = (Ok x, w') -> o = Some x /\ w' = w.
Proof. destruct o; [|done]. by intros [= <- <-]. Qed.

Lemma require_tenant_ok t w x w' :
  require_tenant t w = (Ok x, w') -> t = Some x /\ truthy_str x = true /\ w' = w.
Proof.
  unfold require_tenant. destruct t as [t|]; [|done]. destruct (truthy_str t) eqn:E; [|done].
  by intros [= <- <-].
Qed.

Lemma require_role_ok role allowed w x w' :
  require_role role allowed w = (Ok x, w') -> role_in role allowed = true /\ w' = w.
Proof. intros [Hr ->]%guard_ok. by apply negb_false_iff in Hr. Qed.

Lemma require_actor_id_ok a w x w' :
  require_actor_id a w = (Ok x, w') ->
  x = a /\ w' = w /\ (RuntimeControls.require_oidc controls = true -> truthy_opt_str a = true).
Proof.
  unfold require_actor_id. destruct (RuntimeControls.require_oidc controls), (truthy_opt_str a);
    simpl; try done; by intros [= <- <-].
Qed.

Lemma require_actor_matches_payload_ok a p w x w' :
  require_actor_matches_payload a p w = (Ok x, w') -> x = p /\ w' = w.
Proof.
  unfold require_actor_matches_payload. intros (a' & w1 & (-> & -> & _)%require_actor_id_ok & E)%M_bind_ok.
  destruct a as [a|]; [|by apply ret_ok in E]. destruct (truthy_str a); [|by apply ret_ok in E].
  case_bool_decide; simpl in E; [|done]. subst. by apply ret_ok in E.
Qed.

(** a guard that passed passes again, in any state *)
Lemma require_actor_matches_payload_again a p w x w' w2 :
  require_actor_matches_payload a p w = (Ok x, w') -> require_actor_matches_payload a p w2 = (Ok x, w2).
Proof.
  unfold require_actor_matches_payload, require_actor_id. intros E.
  destruct (RuntimeControls.require_oidc controls && negb (truthy_opt_str a)); [done|]. revert E. run.
  destruct a as [a|]; [|by intros [= <- _]]. destruct (truthy_str a); [|by intros [= <- _]].
  destruct (a != p); [done|]. by intros [= <- _].
Qed.

Lemma require_actor_matches_payload_oidc a p w x w' :
  require_actor_matches_payload a p w = (Ok x, w') ->
  RuntimeControls.require_oidc controls = true -> truthy_opt_str a = true.
Proof.
  unfold require_actor_matches_payload. by intros (a' & w1 & (-> & -> & Ho)%require_actor_id_ok & _)%M_bind_ok.
Qed.

Lemma require_incident_trip_access_again tenant id role a allowed incident trip w :
  Repository.get_incident (World.store w) tenant id = Some incident ->
  Repository.get_trip (World.store w) tenant (Incident.trip_id incident) = Some trip ->
  require_trip_access trip role a allowed w = (Ok tt, w) ->
  require_incident_trip_access tenant id role a allowed w = (Ok (incident, trip), w).
Proof.
  intros Hi Ht Ha. unfold require_incident_trip_access, found, ask, gets. run. rewrite Hi. run. rewrite Ht. run.
  by rewrite Ha.
Qed.

Lemma require_role_again role allowed w : role_in role allowed = true -> require_role role allowed w = (Ok tt, w).
Proof. unfold require_role. by intros ->. Qed.

Lemma guard_again b e (w : World.t) : b = false -> raise_if b e w = (Ok tt, w).
Proof. by intros ->. Qed.

Lemma bind_again {A B} (m : API A) (f : A -> API B) w a w' : m w = (Ok a, w') -> (m ≫= f) w = f a w'.
Proof. intros E. by rewrite M_bind_unfold, E. Qed.

Lemma require_tenant_again t w : truthy_str t = true -> require_tenant (Some t) w = (Ok t, w).
Proof. unfold require_tenant. by intros ->. Qed.

Lemma require_trip_access_again trip role a allowed w :
  role_in role allowed = true -> trip_denied trip role a = false ->
  (RuntimeControls.require_oidc controls = true -> truthy_opt_str a = true) ->
  require_trip_access trip role a allowed w = (Ok tt, w).
Proof.
  intros Hr Hd Ha. unfold require_trip_access. rewrite M_bind_unfold, require_role_again by done.
  unfold require_actor_id. destruct (RuntimeControls.require_oidc controls); simpl.
  - rewrite Ha by done. simpl. run. by rewrite Hd.
  - run. by rewrite Hd.
Qed.

Lemma require_trip_access_ok trip role a allowed w x w' :
  require_trip_access trip role a allowed w = (Ok x, w') ->
  role_in role allowed = true /\ trip_denied trip role a = false /\ w' = w.
Proof.
  intros (? & ? & [Hr ->]%require_role_ok & E)%M_bind_ok.
  apply M_bind_ok in E as (? & ? & (-> & -> & _)%require_actor_id_ok & E). by apply guard_ok in E as [? ->].
Qed.

Lemma require_incident_trip_access_ok tenant id role a allowed w x w' :
  require_incident_trip_access tenant id role a allowed w = (Ok x, w') ->
  Repository.get_incident (World.store w) tenant id = Some x.1 /\
  Repository.get_trip (World.store w) tenant (Incident.trip_id x.1) = Some x.2 /\
  role_in role allowed = true /\ trip_denied x.2 role a = false /\ w' = w.
Proof.
  intros (o & ? & [-> ->]%ask_ok & E)%M_bind_ok. apply M_bind_ok in E as (i & ? & [Hi ->]%found_ok & E).
  apply M_bind_ok in E as (o & ? & [-> ->]%ask_ok & E). apply M_bind_ok in E as (t & ? & [Ht ->]%found_ok & E).
  apply M_bind_ok in E as (? & ? & (Hr & Hd & ->)%require_trip_access_ok & [-> ->]%ret_ok). done.
Qed.

Lemma quiet_ok {A} (m : API A) w x w' :
  (forall I, keeps I m) -> m w = (Ok x, w') -> World.store w' = World.store w.
Proof. intros Hm E. apply keeps_quiet in Hm. specialize (Hm w). by rewrite E in Hm. Qed.

Lemma keeps_ok {A} I (m : API A) w x w' :
  m w = (Ok x, w') -> keeps I m -> I (World.store w) -> I (World.store w').
Proof. intros E Hm Hw. specialize (Hm w Hw). by rewrite E in Hm. Qed.

(** the part of the store a computation does not write *)
Lemma keeps_view {A B} (f : repo -> B) (m : API A) w x w' :
  (forall b, keeps (fun r => f r = b) m) -> m w = (Ok x, w') -> f (World.store w') = f (World.store w).
Proof. intros Hm E. specialize (Hm _ w eq_refl). by rewrite E in Hm. Qed.

Lemma keeps_emit I kind tenant trip correlation actor details :
  (forall r e, I r -> I (record_event r e).2) ->
  keeps I (emit_event kind tenant trip correlation actor details).
Proof. intros HI. unfold emit_event. keeps. apply keeps_put. auto. Qed.

Lemma require_control_ok tenant name detail w x w' :
  require_control tenant name detail w = (Ok x, w') -> World.store w' = World.store w.
Proof. apply quiet_ok. auto with keeps. Qed.

End Runs.

(** Take apart one operation of a run that answered. *)
Ltac run_step :=
  match goal with
  | E : (_ ≫= _) _ = (Ok _, _) |- _ =>
      let E' := fresh "E" in apply M_bind_ok in E as (? & ? & E' & E); cbv beta in E
  | E : mret _ _ = (Ok _, _) |- _ => apply ret_ok in E as [? ?]; subst
  | E : ask _ _ = (Ok _, _) |- _ => apply ask_ok in E as [? ?]; subst
  | E : lift_res _ _ = (Ok _, _) |- _ => apply lift_ok in E as [? ?]; subst
  | E : put _ _ = (Ok _, _) |- _ => apply put_ok in E; subst
  | E : put_get _ _ = (Ok _, _) |- _ => apply put_get_ok in E as (? & E & ?); subst
  | E : try_put _ _ = (Ok _, _) |- _ => apply try_put_ok in E as (? & E & ?); subst
  | E : now _ = (Ok _, _) |- _ => apply now_ok in E as [? ?]; subst
  | E : uuid4 _ = (Ok _, _) |- _ => apply uuid4_ok in E as [? ?]; subst
  | E : raise_if _ _ _ = (Ok _, _) |- _ => apply guard_ok in E as [? ?]; subst
  | E : found _ _ _ = (Ok _, _) |- _ => apply found_ok in E as [? ?]; subst
  | E : require_tenant _ _ = (Ok _, _) |- _ => apply require_tenant_ok in E as (? & ? & ?); subst
  | E : require_role _ _ _ = (Ok _, _) |- _ => apply require_role_ok in E as [? ?]; subst
  | E : require_actor_id _ _ = (Ok _, _) |- _ => apply require_actor_id_ok in E as (? & ? & ?); subst
  | E : require_actor_matches_payload _ _ _ = (Ok _, _) |- _ =>
      apply require_actor_matches_payload_ok in E as [? ?]; subst
  | E : require_trip_access _ _ _ _ _ = (Ok _, _) |- _ =>
      apply require_trip_access_ok in E as (? & ? & ?); subst
  | E : require_incident_trip_access _ _ _ _ _ _ = (Ok _, _) |- _ =>
      apply require_incident_trip_access_ok in E as (? & ? & ? & ? & ?); subst
  | E : http_error _ _ _ = (Ok _, _) |- _ => discriminate E
  | E : raise _ _ = (Ok _, _) |- _ => discriminate E
  end.
Ltac runs := repeat run_step.
