(* ===== verification/Samples.v ===== *)
(** * A concrete environment, for the witnesses of the handlers' theorems *)

From S2P Require Import Prelude PyData Float64 PyStd Enums Models RiskEngine Recovery Policies Security.
From S2P Require Import Repository OpenAI Graph Providers Assessment Config Idempotency Ingestion ApiCore.

(** identity unchecked, actions and memory on, models off, one day of idempotency *)
Definition sample_controls : RuntimeControls.t :=
  {| RuntimeControls.llm_enabled := false;
     RuntimeControls.react_tool_calls_enabled := false;
     RuntimeControls.notifications_enabled := true;
     RuntimeControls.approval_actions_enabled := true;
     RuntimeControls.memory_reads_enabled := true;
     RuntimeControls.memory_writes_enabled := true;
     RuntimeControls.require_oidc := false;
     RuntimeControls.api_rate_limit := 60;
     RuntimeControls.api_rate_limit_window_seconds := 60;
     RuntimeControls.rate_limit_redis_required := false;
     RuntimeControls.idempotency_ttl_seconds := 86400;
     RuntimeControls.require_idempotency := false;
     RuntimeControls.tenant_automation_enabled := true;
     RuntimeControls.demo_evidence_enabled := true;
     RuntimeControls.retention_days := 90 |}.

(** the same, with the tool-calling investigation on *)
Definition investigating_controls : RuntimeControls.t :=
  RuntimeControls.mk false true true true true true false 60 60 false 86400 false true true 90.

(** stands for the digest of a name: the sum of its characters *)
Fixpoint name_sum (name : string) : uuid :=
  match name with "" => 0%N | String c name => (Ascii.N_of_ascii c + name_sum name)%N end.

(** a patch that overrides the language, and no other field *)
Definition patch_language (p : TravelerPreferenceProfile.t) (patch : dict string json)
    : res TravelerPreferenceProfile.t :=
  match dict_get "language" patch with
  | Some (JStr l) => Ok (p <| TravelerPreferenceProfile.language := l |>)
  | Some _ => Raise (ValidationError "TravelerPreferenceProfile")
  | None => Ok p
  end.

(** the workflow's audit entries, decoded field by field *)
Definition decode_uuid (j : json) : list uuid :=
  match j with JStr s => match parse_uuid s with Some u => [u] | None => [] end | _ => [] end.
Definition decode_tool_audit (t : instant) (d : obj) : res ToolAuditEvent.t :=
  match dict_get "tool_name" d, dict_get "arguments" d, dict_get "evidence_ids" d, dict_get "outcome" d with
  | Some (JStr tool), Some (JObj arguments), Some (JList ids), Some (JStr outcome) =>
      Ok (ToolAuditEvent.mk tool arguments (List.concat (List.map decode_uuid ids)) t outcome)
  | _, _, _, _ => Raise (ValidationError "ToolAuditEvent")
  end.
Definition decode_model_audit (t : instant) (d : obj) : res ModelInvocationAudit.t :=
  match dict_get "provider" d, dict_get "model" d, dict_get "prompt_version" d, dict_get "invocation_type" d,
        dict_get "outcome" d, dict_get "input_summary" d with
  | Some (JStr provider), Some (JStr model), Some (JStr prompt), Some (JStr kind), Some (JStr outcome),
    Some (JObj summary) =>
      construct "ModelInvocationAudit" ModelInvocationAudit.valid
        (ModelInvocationAudit.mk provider model prompt kind outcome summary None None t)
  | _, _, _, _, _, _ => Raise (ValidationError "ModelInvocationAudit")
  end.

(** the clock counts microseconds, identifiers count from 100, a model never answers *)
Definition sample_environment_with (switches : RuntimeControls.t) : Env :=
  {| controls := switches;
     getenv := fun _ => None;
     clock_at := Z.of_nat;
     uuid_at := fun n => (100 + N.of_nat n)%N;
     uuid5_url := name_sum;
     float_repr := fun _ => "";
     sha256_hex := fun _ => sample_hash;
     hmac_sha256_hex := fun _ _ => sample_hash;
     fromisoformat := fun _ => None;
     json_loads := fun _ => None;
     evidence_bucket := None;
     network := fun _ _ _ => HTTPError "ConnectTimeout";
     finish_order := fun _ => [];
     core_order := core_source_types;
     py_sum := py_sum_naive;
     resume_without_checkpoint := OtherError "EmptyInputError";
     model_provider := OpenAIRecommendationProvider.init (fun _ => None);
     env_model := {| invoke_tools := fun _ _ => Raise (OtherError "APIConnectionError");
                     invoke_structured := fun _ _ => Raise (OtherError "APIConnectionError") |};
     env_repr := fun _ => "";
     env_time := isoformat;
     validate_tool_audit := decode_tool_audit;
     validate_model_audit := decode_model_audit;
     validate_graph_recommendation := fun _ _ _ => Raise (ValidationError "Recommendation");
     dump_candidates := fun _ => JNull;
     patch_profile := patch_language |}.
Definition sample_environment : Env := sample_environment_with sample_controls.

(** a codec for the routes whose responses a witness does not replay *)
Definition sample_dump (A : Type) : Dump A := fun _ => JNull.
Definition sample_validate (A : Type) : Validate A := fun _ => Raise (ValidationError "").

Definition manager_headers : headers := Headers (Some "t1") (Some UserRole.TRAVEL_MANAGER) None None.
Definition sample_create : TripCreate.t := Trip.to_create (sample_trip 1%N "t1" "alice" 0).
