(* ===== verification/ApiTrips.v ===== *)
(** * [apps/api/main.py]: trips, evidence and assessments *)

From S2P Require Import Prelude PyData Float64 PyStd Enums Models RiskEngine Recovery Policies Security.
From S2P Require Import Repository OpenAI Graph Providers Assessment Config Idempotency Workers ApiCore.
From S2P Require Import ApiLogic.

Section Trips.
Context `{Env} `{Dump TripCreate.t} `{Dump Trip.t} `{Validate Trip.t} `{Dump TripAssignmentRequest.t}
  `{Dump (list EvidenceEnvelope.t)} `{Dump AssessmentResult.t} `{Validate AssessmentResult.t}.

Definition reviewers : list UserRole.t :=
  [UserRole.TRAVEL_MANAGER; UserRole.DUTY_OF_CARE; UserRole.TENANT_ADMIN].

(** ** Trips *)

Definition create_trip (payload : TripCreate.t) (h : headers) : API Trip.t :=
  require_role (x_actor_role h) [UserRole.TRAVEL_MANAGER; UserRole.TENANT_ADMIN] ;;
  tenant_id ← require_tenant (x_tenant_id h);
  raise_if (TripCreate.tenant_id payload != tenant_id) (HTTPException 403 "tenant mismatch") ;;
  actor_id ← require_actor_id (x_actor_id h);
  let manages := bool_decide (x_actor_role h = Some UserRole.TRAVEL_MANAGER) && truthy_opt_str actor_id in
  raise_if (manages && truthy_opt_str (TripCreate.assigned_manager_id payload) &&
            negb (bool_decide (TripCreate.assigned_manager_id payload = actor_id)))
    (HTTPException 403 "assignment mismatch") ;;
  claimed ← claim_optional_mutation tenant_id (idempotency_key h) "POST:/v1/trips" (dump payload);
  match claimed.2 with
  | Some replay => replayed replay
  | None =>
      id ← uuid4;
      created_at ← now;
      let trip_payload := if manages
        then TripCreate.mk (TripCreate.tenant_id payload) (TripCreate.traveler_id payload) actor_id
               (TripCreate.trip_criticality payload) (TripCreate.ground_origin payload)
               (TripCreate.destination_country payload) (TripCreate.segments payload)
        else payload in
      trip ← lift_res (construct "Trip" Trip.valid
               (Trip.of_create trip_payload id TripStatus.ACTIVE created_at));
      put (fun r => Repository.create_trip r trip) ;;
      correlation_id ← uuid4;
      emit_event "trip.created" tenant_id (Some (Trip.trip_id trip)) correlation_id None [] ;;
      complete_optional_mutation tenant_id (idempotency_key h) claimed.1 201 (dump trip) ;;
      mret trip
  end.

Definition get_trip (trip_id : uuid) (h : headers) : API Trip.t :=
  tenant_id ← require_tenant (x_tenant_id h);
  o ← ask (fun r => Repository.get_trip r tenant_id trip_id);
  trip ← found o "trip not found";
  require_trip_access trip (x_actor_role h) (x_actor_id h) (UserRole.TRAVELER :: reviewers) ;;
  mret trip.

(** [trip] is the stored object: the assignment shows in the store at once *)
Definition assign_trip_manager (trip_id : uuid) (payload : TripAssignmentRequest.t) (h : headers)
    : API Trip.t :=
  require_role (x_actor_role h) [UserRole.TENANT_ADMIN] ;;
  assignment_actor_id ← require_actor_id (x_actor_id h);
  tenant_id ← require_tenant (x_tenant_id h);
  o ← ask (fun r => Repository.get_trip r tenant_id trip_id);
  trip ← found o "trip not found";
  claimed ← claim_optional_mutation tenant_id (idempotency_key h)
    ("PUT:/v1/trips/" +:+ uuid_str trip_id +:+ "/assignment") (dump payload);
  match claimed.2 with
  | Some replay => replayed replay
  | None =>
      let trip := trip <| Trip.assigned_manager_id := Some (TripAssignmentRequest.manager_id payload) |> in
      put (fun r => save_trip r trip) ;;
      correlation_id ← uuid4;
      emit_event "trip.manager_assigned" tenant_id (Some (Trip.trip_id trip)) correlation_id
        assignment_actor_id [("assigned_manager_id", JStr (TripAssignmentRequest.manager_id payload))] ;;
      complete_optional_mutation tenant_id (idempotency_key h) claimed.1 200 (dump trip) ;;
      mret trip
  end.

(** the status code of the response *)
Definition put_evidence (trip_id : uuid) (payload : list EvidenceEnvelope.t) (h : headers) : API Z :=
  tenant_id ← require_tenant (x_tenant_id h);
  o ← ask (fun r => Repository.get_trip r tenant_id trip_id);
  trip ← found o "trip not found";
  require_trip_access trip (x_actor_role h) (x_actor_id h) reviewers ;;
  claimed ← claim_optional_mutation tenant_id (idempotency_key h)
    ("PUT:/v1/trips/" +:+ uuid_str trip_id +:+ "/evidence") (dump payload);
  match claimed.2 with
  | Some replay =>
      mret (match IdempotencyRecord.response_status_code replay with
            | Some code => if code =? 0 then 204 else code
            | None => 204
            end)
  | None =>
      try_put (fun r => save_evidence r tenant_id trip_id payload) ;;
      complete_optional_mutation tenant_id (idempotency_key h) claimed.1 204 (JObj []) ;;
      mret 204
  end.

(** ** Assessment *)

(** the tenant's switch of every provider, in provider order *)
Fixpoint provider_flags (tenant_id : string) (flags : list string) : API (list (string * bool)) :=
  match flags with
  | [] => mret []
  | flag :: flags' =>
      name ← lift_res (match of_value flag with
                       | Some name => Ok name
                       | None => Raise (ValueError (flag +:+ " is not a valid RuntimeControlName"))
                       end);
      enabled ← control_enabled tenant_id name;
      rest ← provider_flags tenant_id flags';
      mret ((flag, enabled) :: rest)
  end.

(** [live_evidence_collector.collect] with the switches [flags] *)
Definition live_fetches (trip : Trip.t) (correlation_id : string) (flags : list (string * bool))
    : API (list EvidenceEnvelope.t) := fun w =>
  let n := World.ticks w in
  let k := length (World.providers w) in
  let '(evidence, (ps', cache')) := collect getenv (network n) (fun i => uuid_at (n + i))
    (fun i => JsonHttpProvider.Clock (clock_at n) (clock_at (n + 1)) (clock_at (n + 2 + i)))
    (finish_order n) (clock_at (n + 2 + k)) trip correlation_id
    (fun flag => default false (dict_get flag flags)) (World.providers w) (World.cache w) in
  (evidence, w <| World.providers := ps' |> <| World.cache := cache' |>
               <| World.ticks ::= fun m => (m + 3 + k)%nat |>).

Definition live_collect (trip : Trip.t) (correlation_id : string) : API (list EvidenceEnvelope.t) :=
  ps ← gets World.providers;
  flags ← provider_flags (Trip.tenant_id trip) (List.map fst ps);
  live_fetches trip correlation_id flags.

(** [scenario or controls.demo_evidence_enabled]: the fixtures *)
Definition collect_assessment_evidence (trip : Trip.t) (scenario : option DemoScenario.t)
    (correlation_id : string) : API (list EvidenceEnvelope.t) :=
  if is_some scenario || RuntimeControls.demo_evidence_enabled controls then
    n ← gets World.ticks;
    modify (fun w => w <| World.ticks ::= fun k => (k + 6)%nat |>) ;;
    lift_res (collect_baseline (default DemoScenario.NORMAL scenario) (fun i => uuid_at (n + i))
                (clock_at n) correlation_id)
  else live_collect trip correlation_id.

Definition observed (tenant_id : string) (trip_id correlation_id : uuid) (item : EvidenceEnvelope.t)
    : API unit :=
  emit_event (if unusable item then "provider.unavailable" else "provider.evidence_observed") tenant_id
    (Some trip_id) correlation_id None
    [("source_name", JStr (EvidenceEnvelope.source_name item));
     ("source_type", JStr (EvidenceEnvelope.source_type item));
     ("freshness_status", JStr (value (EvidenceEnvelope.freshness_status item)));
     ("provider_latency_ms", jint_opt (EvidenceEnvelope.provider_latency_ms item));
     ("error_code", jstr_opt (EvidenceEnvelope.error_code item))].

(** ** The workflow's result on the incident *)

Definition dump_obj (j : json) : obj := match j with JObj d => d | _ => [] end.
Definition jobj_opt (o : option obj) : json := match o with Some d => JObj d | None => JNull end.

(** [dict(interrupt[0].value)] *)
Definition approval_obj (p : approval_payload) : obj :=
  [("incident_id", JStr (ap_incident_id p));
   ("original_itinerary", jobj_opt (ap_original_itinerary p));
   ("risk_assessment", JObj (ap_risk_assessment p));
   ("evidence", JList (List.map JObj (ap_evidence p)));
   ("policy_result", jobj_opt (ap_policy_result p));
   ("policy_gate", jobj_opt (ap_policy_gate p));
   ("eligible_alternatives", dump_candidates (ap_eligible_alternatives p));
   ("recovery_ranking", jobj_opt (ap_recovery_ranking p));
   ("memory_context_version", default JNull (ap_memory_context_version p));
   ("approved_playbooks", JList (List.map JObj (ap_approved_playbooks p)));
   ("recommendation", JObj (ap_recommendation p));
   ("tool_audit", JList (List.map JObj (ap_tool_audit p)));
   ("proposed_external_action_payload", JObj (ap_proposed_external_action_payload p))].

(** [route_risk_graph.ainvoke(input, thread)]: the state it ends in is checkpointed *)
Definition graph_invoke (thread_id : string) (input : state) : API (state * option approval_payload) :=
  fun w =>
    let n := World.ticks w in
    let save s := w <| World.threads ::= dict_set thread_id s |> <| World.ticks ::= fun k => (k + 2)%nat |> in
    match invoke model_provider (uuid_at n) (clock_at (n + 1)) input with
    | Interrupted payload s => (Ok (s, Some payload), save s)
    | Finished s => (Ok (s, None), save s)
    | Failed e => (Raise e, w)
    | RecursionLimit => (Raise (OtherError "GraphRecursionError"), w)
    end.

Definition text_or (k : string) (dflt : string) (o : option obj) : string :=
  match o with Some d => py_str (Some (get_or k (JStr dflt) d)) | None => dflt end.

(** the candidate set of the state, when the workflow evaluated alternatives *)
Definition graph_candidate_set (incident : Incident.t) (s : state) (id : uuid) (created_at : instant)
    : option RecoveryCandidateSet.t :=
  match RouteRiskState.alternative_candidates s with
  | [] => None
  | candidates => Some
      (RecoveryCandidateSet.mk id (Incident.incident_id incident)
         (text_or "score_version" "deterministic-v1" (RouteRiskState.recovery_ranking s))
         (text_or "policy_version" (CorporateTravelPolicy.version CorporateTravelPolicy.default)
            (RouteRiskState.policy_decision s))
         candidates created_at [] None None)
  end.

Definition run_graph_investigation (incident : Incident.t) (assessment : RiskAssessment.t)
    (evidence : list EvidenceEnvelope.t) (trip : Trip.t) (source_health : SourceHealth.t)
    : API Incident.t :=
  let tenant_id := Incident.tenant_id incident in
  let thread_id := thread_id_for tenant_id (Incident.trip_id incident) (Incident.incident_id incident) in
  let emit kind details := emit_event kind tenant_id (Some (Incident.trip_id incident))
                             (Incident.correlation_id incident) None details in
  memory_reads ← control_enabled tenant_id RuntimeControlName.MEMORY_READS_ENABLED;
  profile ← (if memory_reads : bool
             then ask (fun r => get_profile r tenant_id (Trip.traveler_id trip)) else mret None);
  playbooks ← ask (fun r => list_approved_playbooks r tenant_id);
  llm_enabled ← control_enabled tenant_id RuntimeControlName.LLM_ENABLED;
  result ← graph_invoke thread_id
    (graph_input incident assessment evidence (dump_obj (dump trip)) source_health profile playbooks
       llm_enabled);
  let '(s, interrupt) := result in
  t ← now;
  tool_audit ← lift_res (mapM (validate_tool_audit t) (RouteRiskState.tool_audit s));
  model_audit ← lift_res (mapM (validate_model_audit t) (RouteRiskState.model_audit s));
  emit "memory_context.loaded"
    [("graph_thread_id", JStr thread_id); ("profile_loaded", JBool (is_some profile));
     ("memory_context_version",
        jint_opt (TravelerPreferenceProfile.version <$> profile));
     ("playbook_count", JInt (len playbooks)); ("llm_enabled", JBool llm_enabled)] ;;
  for_each tool_audit (fun e => emit "tool.completed"
    [("graph_thread_id", JStr thread_id); ("tool_name", JStr (ToolAuditEvent.tool_name e));
     ("outcome", JStr (ToolAuditEvent.outcome e));
     ("evidence_count", JInt (len (ToolAuditEvent.evidence_ids e)))]) ;;
  for_each model_audit (fun e => emit "model.invocation"
    [("provider", JStr (ModelInvocationAudit.provider e)); ("model", JStr (ModelInvocationAudit.model e));
     ("prompt_version", JStr (ModelInvocationAudit.prompt_version e));
     ("invocation_type", JStr (ModelInvocationAudit.invocation_type e));
     ("outcome", JStr (ModelInvocationAudit.outcome e));
     ("token_usage_recorded", JBool (is_some (ModelInvocationAudit.token_usage e)));
     ("cost_recorded", JBool (is_some (ModelInvocationAudit.estimated_cost_usd e)))]) ;;
  rec_id ← uuid4;
  rec_at ← now;
  let recommendation :=
    match RouteRiskState.recommendation s with
    | None => Incident.recommendation incident
    | Some raw =>
        match validate_graph_recommendation rec_id rec_at
                (dict_set "incident_id" (juuid (Incident.incident_id incident)) raw) with
        | Ok r => Some r
        | Raise _ => None
        end
    end in
  (match recommendation with
   | Some r => emit "recommendation.generated"
       [("graph_thread_id", JStr thread_id);
        ("evidence_count", JInt (len (Recommendation.evidence_ids r)));
        ("uncertainty", JStr (Recommendation.uncertainty r));
        ("requires_human_approval", JBool (Recommendation.requires_human_approval r))]
   | None => mret tt
   end) ;;
  set_id ← uuid4;
  set_at ← now;
  (match graph_candidate_set incident s set_id set_at with
   | None => mret tt
   | Some candidate_set =>
       put (fun r => save_candidate_set r tenant_id candidate_set) ;;
       emit "recovery.candidate_set_created"
         [("candidate_set_id", juuid (RecoveryCandidateSet.candidate_set_id candidate_set));
          ("candidate_count", JInt (len (RecoveryCandidateSet.candidates candidate_set)));
          ("source", JStr "graph")] ;;
       emit "recovery.ranking_completed"
         [("candidate_set_id", juuid (RecoveryCandidateSet.candidate_set_id candidate_set));
          ("ranking_method", JStr "deterministic");
          ("ranked_candidate_ids",
             match RouteRiskState.recovery_ranking s with
             | Some d => get_or "ranked_candidate_ids" (JList []) d
             | None => JList []
             end)]
   end) ;;
  mret (incident <| Incident.tool_audit := tool_audit |>
                 <| Incident.model_audit := model_audit |>
                 <| Incident.recommendation := recommendation |>
                 <| Incident.graph_thread_id := Some thread_id |>
                 <| Incident.approval_payload ::= fun old =>
                      match interrupt with Some p => Some (approval_obj p) | None => old end |>).

(** the incident of an elevated assessment; [use_react] is the tenant's switch *)
Definition open_incident (tenant_id : string) (trip : Trip.t) (assessment : RiskAssessment.t)
    (evidence : list EvidenceEnvelope.t) (health : SourceHealth.t) (disposition : AssessmentDisposition.t)
    (correlation_id : uuid) : API uuid :=
  id ← uuid4;
  created_at ← now;
  updated_at ← now;
  let incident := Incident.mk id tenant_id (Trip.trip_id trip) (RiskAssessment.assessment_id assessment)
    (RiskAssessment.severity assessment) IncidentStatus.OPEN correlation_id created_at updated_at
    [] [] None None None in
  use_react ← (if disposition == AssessmentDisposition.INVESTIGATE
               then control_enabled tenant_id RuntimeControlName.REACT_TOOL_CALLS_ENABLED
               else mret false);
  rec_id ← uuid4;
  t ← now;
  incident ← lift_res (if use_react : bool then investigate rec_id t incident evidence
                       else create_limited_visibility_incident rec_id t incident evidence);
  incident ← (if use_react : bool
              then run_graph_investigation incident assessment evidence trip health else mret incident);
  put (fun r => save_incident r incident) ;;
  emit_event "incident.created" tenant_id (Some (Trip.trip_id trip)) (Incident.correlation_id incident) None [] ;;
  emit_event "approval.requested" tenant_id (Some (Trip.trip_id trip)) (Incident.correlation_id incident) None [] ;;
  mret (Incident.incident_id incident).

(** the evidence snapshot: the stored one, or a new collection that is stored *)
Definition snapshot (tenant_id : string) (trip : Trip.t) (scenario : option DemoScenario.t)
    (correlation_id : uuid) : API (list EvidenceEnvelope.t) :=
  stored ← ask (fun r => get_evidence r tenant_id (Trip.trip_id trip));
  match stored with
  | _ :: _ => mret stored
  | [] =>
      evidence ← collect_assessment_evidence trip scenario (uuid_str correlation_id);
      try_put (fun r => save_evidence r tenant_id (Trip.trip_id trip) evidence) ;;
      mret evidence
  end.

(** the body of [assess_trip] once the request is claimed *)
Definition assess_snapshot (tenant_id : string) (trip : Trip.t) (scenario : option DemoScenario.t)
    : API AssessmentResult.t :=
  let trip_id := Trip.trip_id trip in
  correlation_id ← uuid4;
  evidence ← snapshot tenant_id trip scenario correlation_id;
  for_each evidence (observed tenant_id trip_id correlation_id) ;;
  inputs ← lift_res (get_scoring_input evidence trip);
  let '(factors, unknown) := inputs in
  assessment_id ← uuid4;
  t ← now;
  assessment ← lift_res (calculate_risk py_sum assessment_id t trip_id factors
    (List.map EvidenceEnvelope.evidence_id evidence) unknown);
  try_put (fun r => save_assessment r tenant_id assessment) ;;
  let health := source_health_for core_order evidence in
  let disposition := disposition_for (RiskAssessment.severity assessment) health in
  incident_id ←
    (if mem disposition [AssessmentDisposition.INVESTIGATE; AssessmentDisposition.NEEDS_HUMAN_REVIEW]
     then id ← open_incident tenant_id trip assessment evidence health disposition correlation_id;
          mret (Some id)
     else mret None);
  emit_event "assessment.completed" tenant_id (Some trip_id) correlation_id None
    [("assessment_id", juuid (RiskAssessment.assessment_id assessment));
     ("risk_score", JFloat (RiskAssessment.risk_score assessment));
     ("severity", JStr (value (RiskAssessment.severity assessment)));
     ("disposition", JStr (value disposition));
     ("unknown_factor_count", JInt (len (RiskAssessment.unknown_factors assessment)))] ;;
  mret (AssessmentResult.mk assessment evidence health disposition incident_id).

Definition assess_trip (trip_id : uuid) (scenario : option DemoScenario.t) (h : headers)
    : API AssessmentResult.t :=
  tenant_id ← require_tenant (x_tenant_id h);
  o ← ask (fun r => Repository.get_trip r tenant_id trip_id);
  trip ← found o "trip not found";
  require_trip_access trip (x_actor_role h) (x_actor_id h) reviewers ;;
  claimed ← claim_optional_mutation tenant_id (idempotency_key h)
    ("POST:/v1/trips/" +:+ uuid_str trip_id +:+ "/assess")
    (JObj [("scenario", jstr_opt (value <$> scenario))]);
  match claimed.2 with
  | Some replay => replayed replay
  | None =>
      result ← assess_snapshot tenant_id trip scenario;
      complete_optional_mutation tenant_id (idempotency_key h) claimed.1 200 (dump result) ;;
      mret result
  end.

(** ** The scheduled monitor *)

(** one due window of one trip: assessed, or replayed *)
Definition process_window (trip : Trip.t) (window : string) : API bool :=
  let key := assessment_due_idempotency_key (uuid_str (Trip.trip_id trip)) window in
  let tenant_id := Trip.tenant_id trip in
  claimed ← claim_mutation tenant_id key "internal:assessment-due"
    (JObj [("trip_id", juuid (Trip.trip_id trip)); ("window", JStr window)]);
  match claimed.2 with
  | Some _ => mret false
  | None =>
      result ← assess_trip (Trip.trip_id trip) None
        (Headers (Some tenant_id) (Some UserRole.TENANT_ADMIN) (Some "system-monitor")
           (Some (key +:+ ":assessment")));
      complete_mutation tenant_id key claimed.1 200
        (JObj [("trip_id", juuid (Trip.trip_id trip)); ("window", JStr window);
               ("assessment_id", juuid (RiskAssessment.assessment_id (AssessmentResult.assessment result)))]) ;;
      correlation_id ← uuid4;
      emit_event "assessment.due.completed" tenant_id (Some (Trip.trip_id trip)) correlation_id
        (Some "system-monitor") [("window", JStr window)] ;;
      mret true
  end.

(** the counts [(assessed, replayed, skipped)] *)
Definition process_due_assessments (at_time : option instant) : API (Z * Z * Z) :=
  trips ← ask list_trips;
  fold_each trips (0, 0, 0) (fun '(assessed, replayed, skipped) trip =>
    enabled ← control_enabled (Trip.tenant_id trip) RuntimeControlName.TENANT_AUTOMATION_ENABLED;
    if negb enabled then mret (assessed, replayed, skipped + 1) else
    t ← (match at_time with Some t => mret t | None => now end);
    windows ← lift_res (due_monitoring_windows trip t default_grace);
    fold_each windows (assessed, replayed, skipped) (fun '(assessed, replayed, skipped) window =>
      done_now ← process_window trip window;
      mret (if done_now : bool then (assessed + 1, replayed, skipped) else (assessed, replayed + 1, skipped)))).

End Trips.

(** ** What leaves the store alone *)

Section TripLemmas.
Context `{Env}.

Lemma keeps_collect I trip scenario correlation : keeps I (collect_assessment_evidence trip scenario correlation).
Proof.
  unfold collect_assessment_evidence, live_collect. keeps.
  - by intros w.
  - generalize (List.map fst a). intros flags. induction flags as [|f flags IH]; simpl; keeps; auto.
  - intros w. unfold live_fetches. by destruct (collect _ _ _ _ _ _ _ _ _ _ _) as [e [ps c]].
Qed.

Lemma keeps_graph_invoke I thread input : keeps I (graph_invoke thread input).
Proof. intros w Hw. unfold graph_invoke. by destruct (invoke _ _ _ _). Qed.

End TripLemmas.

#[export] Hint Resolve keeps_collect keeps_graph_invoke : keeps.
