(* ===== verification/ApiIncidents.v ===== *)
(** * [apps/api/main.py]: incidents, decisions and approved actions *)

From S2P Require Import Prelude PyData Float64 PyStd Enums Models RiskEngine Recovery Policies Security.
From S2P Require Import Repository Notifications Actions OpenAI Graph Providers Assessment Config Idempotency.
From S2P Require Import Workers ApiCore ApiLogic ApiTrips.

Section Incidents.
Context `{Env} `{Dump Trip.t} `{Dump ApprovalRequest.t} `{Dump ApprovalRecord.t} `{Validate ApprovalRecord.t}
  `{Dump AssessmentResult.t} `{Validate AssessmentResult.t}.

(** ** Reading incidents *)

Definition severity_order (s : Severity.t) : Z :=
  match s with Severity.CRITICAL => 4 | Severity.HIGH => 3 | Severity.WATCH => 2 | Severity.LOW => 1 end.

(** the key [(severity, created_at)] *)
Definition incident_leb (a b : Incident.t) : bool :=
  lex_leb (fun i => severity_order (Incident.severity i))
    (fun a b => Incident.created_at a <=? Incident.created_at b) a b.

Definition assigned_to (r : repo) (tenant_id : string) (actor_id : option string) (incident : Incident.t)
    : bool :=
  match Repository.get_trip r tenant_id (Incident.trip_id incident) with
  | Some trip => bool_decide (Trip.assigned_manager_id trip = actor_id)
  | None => false
  end.

Definition list_incidents (limit offset : Z) (h : headers) : API (list Incident.t) :=
  require_role (x_actor_role h) reviewers ;;
  tenant_id ← require_tenant (x_tenant_id h);
  actor_id ← require_actor_id (x_actor_id h);
  ask (fun r =>
    let incidents := Repository.list_incidents r tenant_id in
    let incidents :=
      if bool_decide (x_actor_role h = Some UserRole.TRAVEL_MANAGER) && truthy_opt_str actor_id
      then List.filter (assigned_to r tenant_id actor_id) incidents else incidents in
    let incidents :=
      if bool_decide (x_actor_role h = Some UserRole.DUTY_OF_CARE)
      then List.filter (fun i => elevated (Incident.severity i)) incidents else incidents in
    slice_to limit (slice_from offset (sorted_reverse incident_leb incidents))).

Definition get_incident (incident_id : uuid) (h : headers) : API Incident.t :=
  require_role (x_actor_role h) reviewers ;;
  tenant_id ← require_tenant (x_tenant_id h);
  o ← ask (fun r => Repository.get_incident r tenant_id incident_id);
  incident ← found o "incident not found";
  o ← ask (fun r => Repository.get_trip r tenant_id (Incident.trip_id incident));
  trip ← found o "trip not found";
  require_trip_access trip (x_actor_role h) (x_actor_id h) reviewers ;;
  raise_if (bool_decide (x_actor_role h = Some UserRole.DUTY_OF_CARE) &&
            negb (elevated (Incident.severity incident)))
    (HTTPException 403 "incident access denied") ;;
  mret incident.

(** what a traveler sees: guidance only once a manager approved *)
Definition traveler_view (incident : Incident.t) : TravelerIncidentView.t :=
  TravelerIncidentView.mk (Incident.incident_id incident) (Incident.trip_id incident)
    (Incident.severity incident) (Incident.status incident) (Incident.created_at incident)
    (Incident.updated_at incident)
    (if Incident.status incident == IncidentStatus.APPROVED
     then Recommendation.traveler_message <$> Incident.recommendation incident else None).

Definition list_traveler_incidents (traveler_id : string) (h : headers) : API (list TravelerIncidentView.t) :=
  require_role (x_actor_role h) [UserRole.TRAVELER] ;;
  actor_id ← require_actor_id (x_actor_id h);
  raise_if (truthy_opt_str actor_id && negb (bool_decide (actor_id = Some traveler_id)))
    (HTTPException 403 "incident access denied") ;;
  tenant_id ← require_tenant (x_tenant_id h);
  ask (fun r => List.map traveler_view
    (List.filter (fun i =>
       match Repository.get_trip r tenant_id (Incident.trip_id i) with
       | Some trip => Trip.traveler_id trip == traveler_id
       | None => false
       end) (Repository.list_incidents r tenant_id))).

(** ** Decisions *)

(** [route_risk_graph.ainvoke(Command(resume=decision), thread)] *)
Definition graph_resume (thread_id : string) (decision : json) : API unit := fun w =>
  let n := World.ticks w in
  match dict_get thread_id (World.threads w) with
  | None => (Raise resume_without_checkpoint, w)
  | Some s =>
      let save s' := w <| World.threads ::= dict_set thread_id s' |> <| World.ticks ::= fun k => (k + 2)%nat |> in
      match resume model_provider (uuid_at n) (clock_at (n + 1)) decision s with
      | Interrupted _ s' => (Ok tt, save s')
      | Finished s' => (Ok tt, save s')
      | Failed e => (Raise e, w)
      | RecursionLimit => (Raise (OtherError "GraphRecursionError"), w)
      end
  end.

(** [suppressed], [pending] or [not_requested] *)
Definition requested_status (tenant_id : string) (payload : ApprovalRequest.t) : API string :=
  if nonempty (ApprovalRequest.final_action_payload payload) then
    enabled ← control_enabled tenant_id RuntimeControlName.APPROVAL_ACTIONS_ENABLED;
    mret (if enabled : bool then "pending" else "suppressed")
  else mret "not_requested".

(** the outbox record of an approval with an action *)
Definition queued_action (tenant_id : string) (incident_id : uuid) (approval : ApprovalRecord.t)
    (payload : dict string json) (t : instant) : res ActionDispatchRecord.t :=
  let approval_id := uuid_str (ApprovalRecord.approval_id approval) in
  construct "ActionDispatchRecord" ActionDispatchRecord.valid
    (ActionDispatchRecord.mk (uuid5_url ("routeshield:approved-action:" +:+ approval_id)) tenant_id
       incident_id (ApprovalRecord.approval_id approval) payload ("approved-action:" +:+ approval_id)
       ActionDispatchStatus.QUEUED 0 t None None None None None None t t).

Definition queue_action (tenant_id : string) (incident : Incident.t) (approval : ApprovalRecord.t)
    (payload : ApprovalRequest.t) : API ActionDispatchRecord.t :=
  t ← now;
  action ← lift_res (queued_action tenant_id (Incident.incident_id incident) approval
                       (ApprovalRequest.final_action_payload payload) t);
  put (fun r => save_action_dispatch r action) ;;
  emit_event "action.queued" tenant_id (Some (Incident.trip_id incident)) (Incident.correlation_id incident)
    (Some (ApprovalRequest.actor_id payload))
    [("action_dispatch_id", juuid (ActionDispatchRecord.action_dispatch_id action));
     ("idempotency_key", JStr (ActionDispatchRecord.idempotency_key action))] ;;
  mret action.

Definition resume_payload (payload : ApprovalRequest.t) (action : option ActionDispatchRecord.t) : json :=
  JObj ([("decision", JStr (value (ApprovalRequest.decision payload)));
         ("reason", JStr (ApprovalRequest.reason payload))] ++
        match action with
        | Some a => [("action_dispatch_id", juuid (ActionDispatchRecord.action_dispatch_id a));
                     ("action_idempotency_key", JStr (ActionDispatchRecord.idempotency_key a))]
        | None => []
        end).

Definition decided_status (d : ApprovalDecision.t) : IncidentStatus.t :=
  if d == ApprovalDecision.APPROVE then IncidentStatus.APPROVED else IncidentStatus.REJECTED.

Definition decide_incident (incident_id : uuid) (payload : ApprovalRequest.t) (tenant_id : string)
    : API ApprovalRecord.t :=
  o ← ask (fun r => Repository.get_incident r tenant_id incident_id);
  incident ← found o "incident not found";
  raise_if (Incident.status incident != IncidentStatus.PENDING_APPROVAL)
    (HTTPException 409 "incident is not awaiting approval") ;;
  action_dispatch_status ← requested_status tenant_id payload;
  approval_id ← uuid4;
  decided_at ← now;
  approval ← lift_res (construct "ApprovalRecord" ApprovalRecord.valid
    (ApprovalRecord.mk (ApprovalRequest.decision payload) (ApprovalRequest.actor_id payload)
       (ApprovalRequest.reason payload) (ApprovalRequest.final_action_payload payload)
       approval_id incident_id decided_at action_dispatch_status));
  put (fun r => save_approval r approval) ;;
  action ← (if nonempty (ApprovalRequest.final_action_payload payload) &&
               (action_dispatch_status == "pending")
            then a ← queue_action tenant_id incident approval payload; mret (Some a)
            else mret None);
  put (fun r => save_incident r (incident
    <| Incident.status := decided_status (ApprovalRequest.decision payload) |>
    <| Incident.updated_at := ApprovalRecord.decided_at approval |>)) ;;
  (match Incident.graph_thread_id incident with
   | Some thread_id => if truthy_str thread_id then graph_resume thread_id (resume_payload payload action)
                       else mret tt
   | None => mret tt
   end) ;;
  emit_event "approval.completed" tenant_id (Some (Incident.trip_id incident))
    (Incident.correlation_id incident) (Some (ApprovalRequest.actor_id payload))
    [("decision", JStr (value (ApprovalRequest.decision payload)));
     ("final_action_payload", JObj (ApprovalRequest.final_action_payload payload));
     ("action_dispatch_status", JStr action_dispatch_status)] ;;
  mret approval.

(** [approve_incident] and [reject_incident] differ in the decision they accept,
    the route and the wording. *)
Definition decision_handler (expected : ApprovalDecision.t) (route wrong : string) (incident_id : uuid)
    (payload : ApprovalRequest.t) (h : headers) : API ApprovalRecord.t :=
  require_role (x_actor_role h) [UserRole.TRAVEL_MANAGER; UserRole.TENANT_ADMIN] ;;
  _ ← require_actor_matches_payload (x_actor_id h) (ApprovalRequest.actor_id payload);
  match idempotency_key h with
  | None => http_error 400 "Idempotency-Key is required"
  | Some key =>
      raise_if (negb (truthy_str key)) (HTTPException 400 "Idempotency-Key is required") ;;
      raise_if (ApprovalRequest.decision payload != expected) (HTTPException 422 wrong) ;;
      tenant_id ← require_tenant (x_tenant_id h);
      _ ← require_incident_trip_access tenant_id incident_id (x_actor_role h) (x_actor_id h)
            [UserRole.TRAVEL_MANAGER; UserRole.TENANT_ADMIN];
      claimed ← claim_mutation tenant_id key
        ("POST:/v1/incidents/" +:+ uuid_str incident_id +:+ "/" +:+ route) (dump payload);
      match claimed.2 with
      | Some replay => replayed replay
      | None =>
          approval ← decide_incident incident_id payload tenant_id;
          complete_mutation tenant_id key claimed.1 200 (dump approval) ;;
          mret approval
      end
  end.

Definition approve_incident : uuid -> ApprovalRequest.t -> headers -> API ApprovalRecord.t :=
  decision_handler ApprovalDecision.APPROVE "approve" "decision must be approve".
Definition reject_incident : uuid -> ApprovalRequest.t -> headers -> API ApprovalRecord.t :=
  decision_handler ApprovalDecision.REJECT "reject" "decision must be reject".

Definition refresh_incident (incident_id : uuid) (h : headers) : API AssessmentResult.t :=
  require_role (x_actor_role h) reviewers ;;
  tenant_id ← require_tenant (x_tenant_id h);
  o ← ask (fun r => Repository.get_incident r tenant_id incident_id);
  incident ← found o "incident not found";
  claimed ← claim_optional_mutation tenant_id (idempotency_key h)
    ("POST:/v1/incidents/" +:+ uuid_str incident_id +:+ "/refresh")
    (JObj [("incident_id", juuid incident_id)]);
  match claimed.2 with
  | Some replay => replayed replay
  | None =>
      let assessment_key := match idempotency_key h with
                            | Some key => if truthy_str key then Some (key +:+ ":assessment") else None
                            | None => None
                            end in
      result ← assess_trip (Incident.trip_id incident) None
        (Headers (Some tenant_id) (x_actor_role h) (x_actor_id h) assessment_key);
      complete_optional_mutation tenant_id (idempotency_key h) claimed.1 200 (dump result) ;;
      mret result
  end.

(** ** The action dispatcher *)

(** one claimed action, when the tenant's switches allow it *)
Definition dispatch_claimed (action : ActionDispatchRecord.t) : API (option ActionDispatchRecord.t) :=
  let tenant_id := ActionDispatchRecord.tenant_id action in
  actions_on ← control_enabled tenant_id RuntimeControlName.APPROVAL_ACTIONS_ENABLED;
  allowed ← (if actions_on : bool
             then control_enabled tenant_id RuntimeControlName.TENANT_AUTOMATION_ENABLED else mret false);
  if negb allowed then mret None else
  t ← now;
  attempt_id ← uuid4;
  outcome ← put_get (fun r => dispatch_approved_action r action unconfigured_dispatch 5 t attempt_id);
  o ← ask (fun r => Repository.get_incident r tenant_id (ActionDispatchRecord.incident_id action));
  correlation_id ← (match o with Some i => mret (Incident.correlation_id i) | None => uuid4 end);
  emit_event ("action." +:+ value (ActionDispatchRecord.status outcome)) tenant_id
    (Incident.trip_id <$> o) correlation_id (Some "internal-approved-action-dispatcher")
    [("action_dispatch_id", juuid (ActionDispatchRecord.action_dispatch_id outcome));
     ("attempt_count", JInt (ActionDispatchRecord.attempt_count outcome));
     ("error_code", jstr_opt (ActionDispatchRecord.last_error_code outcome))] ;;
  mret (Some outcome).

(** the lease ids are drawn from the environment *)
Definition claim_actions (limit : Z) : API (list ActionDispatchRecord.t) := fun w =>
  let n := World.ticks w in
  let '(claimed, r) := claim_due_action_dispatches (World.store w) None
    "internal-approved-action-dispatcher" (5 * minute) (clock_at n) limit (fun i => uuid_at (n + 1 + i)) in
  (Ok claimed, w <| World.store := r |> <| World.ticks ::= fun k => (k + 1 + length claimed)%nat |>).

Definition dispatch_approved_actions_job : API (list ActionDispatchRecord.t) :=
  claimed ← claim_actions 100;
  fold_each claimed [] (fun dispatched action =>
    o ← dispatch_claimed action;
    mret (match o with Some outcome => dispatched ++ [outcome] | None => dispatched end)).

End Incidents.

Lemma keeps_graph_resume `{Env} I thread decision : keeps I (graph_resume thread decision).
Proof. intros w Hw. unfold graph_resume. destruct (dict_get _ _); [|done]. by destruct (resume _ _ _ _ _). Qed.
#[export] Hint Resolve keeps_graph_resume : keeps.
