(* ===== verification/ApiRecovery.v ===== *)
(** * [apps/api/main.py]: recovery candidates, their outcomes and the run's audit trail *)

From S2P Require Import Prelude PyData Float64 PyStd Enums Models RiskEngine Recovery Policies Security.
From S2P Require Import Repository OpenAI Graph Providers Assessment Config Idempotency Workers ApiCore.
From S2P Require Import ApiTrips.

Section Recoveries.
Context `{Env} `{Dump RecoveryCandidateSet.t} `{Validate RecoveryCandidateSet.t}
  `{Dump RecoveryCandidateSetCreate.t} `{Dump RecoveryCandidateOutcomeUpdate.t}
  `{Dump EvaluatedCandidate.t}.

Definition managers : list UserRole.t := [UserRole.TRAVEL_MANAGER; UserRole.TENANT_ADMIN].

(** ** The audit trail of one run *)

(** the events of the run, for a reviewer who may see its incident *)
Definition run_trail (r : repo) (tenant_id run_id : string) (limit : Z) : list EventRecord.t :=
  slice_last limit
    (List.filter (fun e => uuid_str (EventRecord.correlation_id e) == run_id) (list_events r tenant_id)).

Definition run_events (run_id : string) (limit : Z) (h : headers) : API (list EventRecord.t) :=
  require_role (x_actor_role h) reviewers ;;
  tenant_id ← require_tenant (x_tenant_id h);
  actor_id ← require_actor_id (x_actor_id h);
  o ← ask (fun r => List.find (fun i => uuid_str (Incident.correlation_id i) == run_id)
                      (Repository.list_incidents r tenant_id));
  match o with
  | None => mret []
  | Some incident =>
      o ← ask (fun r => Repository.get_trip r tenant_id (Incident.trip_id incident));
      match o with
      | None => mret []
      | Some trip =>
          require_trip_access trip (x_actor_role h) actor_id reviewers ;;
          raise_if (bool_decide (x_actor_role h = Some UserRole.DUTY_OF_CARE) &&
                    negb (elevated (Incident.severity incident)))
            (HTTPException 403 "incident access denied") ;;
          ask (fun r => run_trail r tenant_id run_id limit)
      end
  end.

(** ** Alternatives and candidate sets *)

Definition recovery_policy : CorporateTravelPolicy.t := CorporateTravelPolicy.default.

Definition evaluate_all (candidates : list RecoveryCandidate.t) : res (list EvaluatedCandidate.t) :=
  mapM (fun c => evaluate_policy_eligible_candidate c recovery_policy) candidates.

Definition alternatives_for_trip (trip_id : uuid) (h : headers) : API (list json) :=
  tenant_id ← require_tenant (x_tenant_id h);
  o ← ask (fun r => Repository.get_trip r tenant_id trip_id);
  trip ← found o "trip not found";
  require_trip_access trip (x_actor_role h) (x_actor_id h) (UserRole.TRAVELER :: reviewers) ;;
  evaluated ← lift_res (evaluate_all fixture_alternatives);
  mret (List.map dump (rank_eligible evaluated)).

(** every evaluated candidate, shown at its position among the ranked ones *)
Definition with_positions (evaluated : list EvaluatedCandidate.t) : list EvaluatedCandidate.t :=
  let positions := displayed_positions (rank_eligible evaluated) in
  List.map (fun c => c <| EvaluatedCandidate.displayed_position :=
                       default None (dict_get (EvaluatedCandidate.candidate_id c) positions) |>) evaluated.

Definition candidate_set_of (id : uuid) (created_at : instant) (incident_id : uuid)
    (evaluated : list EvaluatedCandidate.t) : RecoveryCandidateSet.t :=
  RecoveryCandidateSet.mk id incident_id "deterministic-v1" (CorporateTravelPolicy.version recovery_policy)
    (with_positions evaluated) created_at [] None None.

Definition create_candidate_set (incident_id : uuid) (payload : RecoveryCandidateSetCreate.t) (h : headers)
    : API RecoveryCandidateSet.t :=
  require_role (x_actor_role h) managers ;;
  tenant_id ← require_tenant (x_tenant_id h);
  access ← require_incident_trip_access tenant_id incident_id (x_actor_role h) (x_actor_id h) managers;
  let incident := access.1 in
  claimed ← claim_optional_mutation tenant_id (idempotency_key h)
    ("POST:/v1/incidents/" +:+ uuid_str incident_id +:+ "/candidate-sets") (dump payload);
  match claimed.2 with
  | Some replay => replayed replay
  | None =>
      evaluated ← lift_res (evaluate_all (RecoveryCandidateSetCreate.candidates payload));
      let ranked := rank_eligible evaluated in
      id ← uuid4;
      created_at ← now;
      let candidate_set := candidate_set_of id created_at incident_id evaluated in
      let emit kind details :=
        actor_id ← require_actor_id (x_actor_id h);
        emit_event kind tenant_id (Some (Incident.trip_id incident)) (Incident.correlation_id incident)
          actor_id (("candidate_set_id", juuid id) :: details) in
      put (fun r => save_candidate_set r tenant_id candidate_set) ;;
      emit "recovery.candidate_set_created"
        [("candidate_count", JInt (len (RecoveryCandidateSet.candidates candidate_set)));
         ("eligible_candidate_count", JInt (len ranked));
         ("policy_version", JStr (RecoveryCandidateSet.policy_version candidate_set));
         ("score_version", JStr (RecoveryCandidateSet.score_version candidate_set))] ;;
      emit "recovery.ranking_completed"
        [("ranked_candidate_ids", JList (List.map (fun c => JStr (EvaluatedCandidate.candidate_id c)) ranked));
         ("ranking_method", JStr "deterministic")] ;;
      complete_optional_mutation tenant_id (idempotency_key h) claimed.1 200 (dump candidate_set) ;;
      mret candidate_set
  end.

Definition list_candidate_sets (incident_id : uuid) (h : headers) : API (list RecoveryCandidateSet.t) :=
  require_role (x_actor_role h) reviewers ;;
  tenant_id ← require_tenant (x_tenant_id h);
  _ ← require_incident_trip_access tenant_id incident_id (x_actor_role h) (x_actor_id h) reviewers;
  sets ← ask (fun r => Repository.list_candidate_sets r tenant_id incident_id);
  views ← ask (fun r => mapM (fun s => project_candidate_set_outcomes s
    (Repository.list_candidate_outcomes r tenant_id (RecoveryCandidateSet.candidate_set_id s))) sets);
  lift_res views.

(** ** Candidate outcomes *)

Definition has_text (o : option string) : bool := truthy_opt_str o.
Definition is_manager (role : option UserRole.t) : bool := role_in role managers.

(** the first rule the observation breaks *)
Definition outcome_denied (role : option UserRole.t) (view : RecoveryCandidateSet.t)
    (candidate : EvaluatedCandidate.t) (payload : RecoveryCandidateOutcomeUpdate.t) : option exn :=
  let target := RecoveryCandidateOutcomeUpdate.state payload in
  let override := has_text (RecoveryCandidateOutcomeUpdate.manager_override_reason payload) in
  let selecting := target == RecoveryCandidateOutcomeState.SELECTED in
  let current := EvaluatedCandidate.lifecycle_state candidate in
  if bool_decide (role = Some UserRole.TRAVELER) &&
     negb (mem target [RecoveryCandidateOutcomeState.VIEWED; RecoveryCandidateOutcomeState.SELECTED;
                       RecoveryCandidateOutcomeState.REJECTED])
  then Some (HTTPException 403 "travelers may only view, select, or reject a candidate")
  else if override && negb (is_manager role)
  then Some (HTTPException 403 "only a manager can record an override")
  else if selecting && has_text (RecoveryCandidateSet.selected_candidate_id view) &&
          negb (bool_decide (RecoveryCandidateSet.selected_candidate_id view =
                             Some (EvaluatedCandidate.candidate_id candidate)))
  then Some (HTTPException 409 "a different candidate has already been selected")
  else if selecting && negb (mem (EvaluatedCandidate.displayed_position candidate) [None; Some 1]) &&
          is_manager role && negb override
  then Some (HTTPException 422 "selecting a non-top candidate requires a manager override reason")
  else if negb (transition_allowed current target)
  then Some (HTTPException 409 ("cannot transition candidate from " +:+ value current +:+ " to " +:+ value target))
  else None.

(** the feedback an outcome leaves: an override, a completed recovery *)
Definition override_feedback (id : uuid) (t : instant) (tenant_id : string)
    (outcome : RecoveryCandidateOutcome.t) (position : option Z) : res ManagerFeedback.t :=
  construct "ManagerFeedback" ManagerFeedback.valid
    (ManagerFeedback.mk id tenant_id (RecoveryCandidateOutcome.incident_id outcome)
       (RecoveryCandidateOutcome.candidate_set_id outcome) (RecoveryCandidateOutcome.candidate_id outcome)
       ManagerFeedbackType.MANAGER_OVERRIDE (Some (RecoveryCandidateOutcome.outcome_id outcome))
       (RecoveryCandidateOutcome.actor_id outcome)
       (RecoveryCandidateOutcomeUpdate.manager_override_reason (RecoveryCandidateOutcome.update outcome))
       [("displayed_position", jint_opt position)] t).

(** [d or {}] *)
Definition jdict_or_empty (d : option (dict string json)) : json := JObj (default [] d).

Definition completed_feedback (id : uuid) (t : instant) (tenant_id : string)
    (outcome : RecoveryCandidateOutcome.t) : res ManagerFeedback.t :=
  let update := RecoveryCandidateOutcome.update outcome in
  construct "ManagerFeedback" ManagerFeedback.valid
    (ManagerFeedback.mk id tenant_id (RecoveryCandidateOutcome.incident_id outcome)
       (RecoveryCandidateOutcome.candidate_set_id outcome) (RecoveryCandidateOutcome.candidate_id outcome)
       ManagerFeedbackType.RECOVERY_OUTCOME (Some (RecoveryCandidateOutcome.outcome_id outcome))
       (RecoveryCandidateOutcome.actor_id outcome) (RecoveryCandidateOutcomeUpdate.reason update)
       [("final_itinerary", jdict_or_empty (RecoveryCandidateOutcomeUpdate.final_itinerary update));
        ("material_outcome", jdict_or_empty (RecoveryCandidateOutcomeUpdate.material_outcome update))] t).

Definition feedback_when (b : bool) (make : uuid -> instant -> res ManagerFeedback.t)
    : API (list ManagerFeedback.t) :=
  if b then id ← uuid4; t ← now; f ← lift_res (make id t); mret [f] else mret [].

(** the claimed observation is stored with its feedback and shown *)
Definition observe_outcome (tenant_id : string) (incident : Incident.t) (candidate_set : RecoveryCandidateSet.t)
    (outcomes : list RecoveryCandidateOutcome.t) (candidate : EvaluatedCandidate.t)
    (payload : RecoveryCandidateOutcomeUpdate.t) (h : headers) : API RecoveryCandidateSet.t :=
  let candidate_set_id := RecoveryCandidateSet.candidate_set_id candidate_set in
  actor_id ← require_actor_id (x_actor_id h);
  outcome_id ← uuid4;
  occurred_at ← now;
  outcome ← lift_res (construct "RecoveryCandidateOutcome" RecoveryCandidateOutcome.valid
    (RecoveryCandidateOutcome.mk payload outcome_id candidate_set_id (Incident.incident_id incident)
       (EvaluatedCandidate.candidate_id candidate) actor_id occurred_at));
  put (fun r => Repository.record_candidate_outcome r tenant_id outcome) ;;
  let override := has_text (RecoveryCandidateOutcomeUpdate.manager_override_reason payload) in
  overridden ← feedback_when override (fun id t => override_feedback id t tenant_id outcome
                                         (EvaluatedCandidate.displayed_position candidate));
  completed ← feedback_when (RecoveryCandidateOutcome.state outcome == RecoveryCandidateOutcomeState.COMPLETED)
    (fun id t => completed_feedback id t tenant_id outcome);
  for_each (overridden ++ completed) (fun f => put (fun r => save_manager_feedback r f)) ;;
  view ← lift_res (project_candidate_set_outcomes candidate_set (outcomes ++ [outcome]));
  emit_event "recovery.outcome_recorded" tenant_id (Some (Incident.trip_id incident))
    (Incident.correlation_id incident) (RecoveryCandidateOutcome.actor_id outcome)
    [("candidate_set_id", juuid candidate_set_id);
     ("candidate_id", JStr (EvaluatedCandidate.candidate_id candidate));
     ("outcome_id", juuid (RecoveryCandidateOutcome.outcome_id outcome));
     ("state", JStr (value (RecoveryCandidateOutcome.state outcome)));
     ("has_manager_override", JBool override);
     ("has_material_outcome",
        JBool (nonempty (default [] (RecoveryCandidateOutcomeUpdate.material_outcome payload))));
     ("manager_feedback_ids",
        JList (List.map (fun f => juuid (ManagerFeedback.feedback_id f)) (overridden ++ completed)))] ;;
  mret view.

Definition record_candidate_outcome (incident_id candidate_set_id : uuid) (candidate_id : string)
    (payload : RecoveryCandidateOutcomeUpdate.t) (h : headers) : API RecoveryCandidateSet.t :=
  let allowed := UserRole.TRAVELER :: managers in
  require_role (x_actor_role h) allowed ;;
  tenant_id ← require_tenant (x_tenant_id h);
  access ← require_incident_trip_access tenant_id incident_id (x_actor_role h) (x_actor_id h) allowed;
  let incident := access.1 in
  o ← ask (fun r => get_candidate_set r tenant_id incident_id candidate_set_id);
  candidate_set ← found o "candidate set not found";
  outcomes ← ask (fun r => list_candidate_outcomes r tenant_id candidate_set_id);
  view ← lift_res (project_candidate_set_outcomes candidate_set outcomes);
  candidate ← found (List.find (fun c => EvaluatedCandidate.candidate_id c == candidate_id)
                       (RecoveryCandidateSet.candidates view)) "candidate not found";
  match outcome_denied (x_actor_role h) view candidate payload with
  | Some e => raise e
  | None =>
      claimed ← claim_optional_mutation tenant_id (idempotency_key h)
        ("POST:/v1/incidents/" +:+ uuid_str incident_id +:+ "/candidate-sets/" +:+ uuid_str candidate_set_id
           +:+ "/candidates/" +:+ candidate_id +:+ "/outcomes") (dump payload);
      match claimed.2 with
      | Some replay => replayed replay
      | None =>
          view ← observe_outcome tenant_id incident candidate_set outcomes candidate payload h;
          complete_optional_mutation tenant_id (idempotency_key h) claimed.1 200 (dump view) ;;
          mret view
      end
  end.

(** ** Feedback and dispatches of an incident *)

Definition list_manager_feedback (incident_id : uuid) (h : headers) : API (list ManagerFeedback.t) :=
  require_role (x_actor_role h) managers ;;
  tenant_id ← require_tenant (x_tenant_id h);
  _ ← require_incident_trip_access tenant_id incident_id (x_actor_role h) (x_actor_id h) managers;
  ask (fun r => Repository.list_manager_feedback r tenant_id incident_id).

Definition list_incident_action_dispatches (incident_id : uuid) (h : headers)
    : API (list ActionDispatchRecord.t) :=
  require_role (x_actor_role h) managers ;;
  tenant_id ← require_tenant (x_tenant_id h);
  _ ← require_incident_trip_access tenant_id incident_id (x_actor_role h) (x_actor_id h) managers;
  ask (fun r => list_action_dispatches r tenant_id incident_id).

End Recoveries.
