(* ===== verification/ApiMemory.v ===== *)
(** * [apps/api/main.py]: traveler preferences and consented memory *)

From S2P Require Import Prelude PyData Float64 PyStd Enums Models RiskEngine Recovery Policies Security.
From S2P Require Import Repository OpenAI Graph Providers Assessment Config Idempotency ApiCore.

Section Memory.
Context `{Env} `{Dump TravelerPreferenceProfile.t} `{Validate TravelerPreferenceProfile.t}
  `{Dump TravelerPreferenceUpdate.t} `{Dump MemoryUpdateProposal.t} `{Validate MemoryUpdateProposal.t}.

(** a traveler acts on nobody else *)
Definition other_traveler (role : option UserRole.t) (actor_id : option string) (traveler_id : string) : bool :=
  bool_decide (role = Some UserRole.TRAVELER) && truthy_opt_str actor_id &&
  negb (bool_decide (actor_id = Some traveler_id)).

Definition get_preferences (traveler_id : string) (h : headers) : API (option TravelerPreferenceProfile.t) :=
  tenant_id ← require_tenant (x_tenant_id h);
  require_memory_reads_enabled tenant_id ;;
  require_role (x_actor_role h) [UserRole.TRAVELER; UserRole.TRAVEL_MANAGER; UserRole.TENANT_ADMIN] ;;
  actor_id ← require_actor_id (x_actor_id h);
  raise_if (other_traveler (x_actor_role h) actor_id traveler_id)
    (HTTPException 403 "preference access denied") ;;
  ask (fun r => get_profile r tenant_id traveler_id).

(** the profile a traveler without one starts from *)
Definition blank_profile (tenant_id traveler_id consent_version : string) (updated_at : instant)
    : TravelerPreferenceProfile.t :=
  TravelerPreferenceProfile.mk tenant_id traveler_id [] [] None None None [] None "en" [] consent_version 1
    updated_at.

(** [{**baseline, **changed, "version": ..., "updated_at": ...}] *)
Definition merge_preferences (baseline : TravelerPreferenceProfile.t) (payload : TravelerPreferenceUpdate.t)
    (version : Z) (updated_at : instant) : TravelerPreferenceProfile.t :=
  TravelerPreferenceProfile.mk
    (TravelerPreferenceProfile.tenant_id baseline) (TravelerPreferenceProfile.traveler_id baseline)
    (default (TravelerPreferenceProfile.preferred_airports baseline)
       (TravelerPreferenceUpdate.preferred_airports payload))
    (default (TravelerPreferenceProfile.preferred_carriers baseline)
       (TravelerPreferenceUpdate.preferred_carriers payload))
    (union (TravelerPreferenceUpdate.cabin_or_seat_preference payload)
       (TravelerPreferenceProfile.cabin_or_seat_preference baseline))
    (union (TravelerPreferenceUpdate.minimum_connection_minutes payload)
       (TravelerPreferenceProfile.minimum_connection_minutes baseline))
    (union (TravelerPreferenceUpdate.avoid_overnight_connections payload)
       (TravelerPreferenceProfile.avoid_overnight_connections baseline))
    (default (TravelerPreferenceProfile.approved_ground_transport_preferences baseline)
       (TravelerPreferenceUpdate.approved_ground_transport_preferences payload))
    (union (TravelerPreferenceUpdate.notification_channel payload)
       (TravelerPreferenceProfile.notification_channel baseline))
    (default (TravelerPreferenceProfile.language baseline) (TravelerPreferenceUpdate.language payload))
    (default (TravelerPreferenceProfile.approved_accessibility_accommodations baseline)
       (TravelerPreferenceUpdate.approved_accessibility_accommodations payload))
    (TravelerPreferenceUpdate.consent_version payload) version updated_at.

(** [sorted(payload.model_dump(exclude_none=True))] *)
Definition changed_fields (payload : TravelerPreferenceUpdate.t) : list string :=
  let field (name : string) (present : bool) : list string := if present then [name] else [] in
  sorted str_leb
    (field "preferred_airports" (is_some (TravelerPreferenceUpdate.preferred_airports payload)) ++
     field "preferred_carriers" (is_some (TravelerPreferenceUpdate.preferred_carriers payload)) ++
     field "cabin_or_seat_preference" (is_some (TravelerPreferenceUpdate.cabin_or_seat_preference payload)) ++
     field "minimum_connection_minutes"
       (is_some (TravelerPreferenceUpdate.minimum_connection_minutes payload)) ++
     field "avoid_overnight_connections"
       (is_some (TravelerPreferenceUpdate.avoid_overnight_connections payload)) ++
     field "approved_ground_transport_preferences"
       (is_some (TravelerPreferenceUpdate.approved_ground_transport_preferences payload)) ++
     field "notification_channel" (is_some (TravelerPreferenceUpdate.notification_channel payload)) ++
     field "language" (is_some (TravelerPreferenceUpdate.language payload)) ++
     field "approved_accessibility_accommodations"
       (is_some (TravelerPreferenceUpdate.approved_accessibility_accommodations payload)) ++
     ["consent_version"]).

Definition next_version (existing : option TravelerPreferenceProfile.t) : Z :=
  match existing with Some p => TravelerPreferenceProfile.version p + 1 | None => 1 end.

(** [await repository.record_memory_audit(MemoryAuditEvent(...))] *)
Definition audit_memory (tenant_id traveler_id action : string) (proposal_id : option uuid)
    (actor_id : option string) (details : dict string json) : API unit :=
  audit_id ← uuid4;
  occurred_at ← now;
  event ← lift_res (construct "MemoryAuditEvent" MemoryAuditEvent.valid
    (MemoryAuditEvent.mk audit_id tenant_id traveler_id action proposal_id actor_id details occurred_at));
  put (fun r => record_memory_audit r event).

(** [x or y] on an optional actor *)
Definition actor_or (actor_id : option string) (fallback : string) : string :=
  match actor_id with Some a => if truthy_str a then a else fallback | None => fallback end.

Definition update_preferences (traveler_id : string) (payload : TravelerPreferenceUpdate.t) (h : headers)
    : API TravelerPreferenceProfile.t :=
  require_role (x_actor_role h) [UserRole.TRAVELER; UserRole.TENANT_ADMIN] ;;
  tenant_id ← require_tenant (x_tenant_id h);
  actor_id ← require_actor_id (x_actor_id h);
  raise_if (other_traveler (x_actor_role h) actor_id traveler_id)
    (HTTPException 403 "preference access denied") ;;
  require_control tenant_id RuntimeControlName.MEMORY_WRITES_ENABLED "memory writes disabled" ;;
  claimed ← claim_optional_mutation tenant_id (idempotency_key h)
    ("PUT:/v1/travelers/" +:+ traveler_id +:+ "/preferences") (dump payload);
  match claimed.2 with
  | Some replay => replayed replay
  | None =>
      existing ← ask (fun r => get_profile r tenant_id traveler_id);
      updated_at ← now;
      let baseline := default (blank_profile tenant_id traveler_id
                                 (TravelerPreferenceUpdate.consent_version payload) updated_at) existing in
      profile ← lift_res (construct "TravelerPreferenceProfile" TravelerPreferenceProfile.valid
                            (merge_preferences baseline payload (next_version existing) updated_at));
      put (fun r => save_profile r profile) ;;
      audit_memory tenant_id traveler_id "updated" None (Some (actor_or actor_id "local-compat-settings"))
        [("changed_fields", JList (List.map JStr (changed_fields payload)));
         ("previous_version", jint_opt (TravelerPreferenceProfile.version <$> existing));
         ("profile_version", JInt (TravelerPreferenceProfile.version profile));
         ("source", JStr "explicit_settings_api")] ;;
      correlation_id ← uuid4;
      emit_event "memory_update.explicit" tenant_id None correlation_id actor_id
        [("traveler_id", JStr traveler_id);
         ("profile_version", JInt (TravelerPreferenceProfile.version profile))] ;;
      complete_optional_mutation tenant_id (idempotency_key h) claimed.1 200 (dump profile) ;;
      mret profile
  end.

(** ** Proposals *)

(** [sorted(proposal.patch)] *)
Definition patch_fields (proposal : MemoryUpdateProposal.t) : list json :=
  List.map JStr (sorted str_leb (dict_keys (MemoryUpdateProposal.patch proposal))).

Definition create_memory_proposal (payload : MemoryUpdateProposal.t) (h : headers)
    : API MemoryUpdateProposal.t :=
  require_role (x_actor_role h) [UserRole.TRAVEL_MANAGER; UserRole.TENANT_ADMIN] ;;
  _ ← require_actor_matches_payload (x_actor_id h) (MemoryUpdateProposal.actor_id payload);
  tenant_id ← require_tenant (x_tenant_id h);
  require_control tenant_id RuntimeControlName.MEMORY_WRITES_ENABLED "memory writes disabled" ;;
  raise_if (MemoryUpdateProposal.tenant_id payload != tenant_id) (HTTPException 403 "tenant mismatch") ;;
  claimed ← claim_optional_mutation tenant_id (idempotency_key h) "POST:/v1/memory/proposals" (dump payload);
  match claimed.2 with
  | Some replay => replayed replay
  | None =>
      put (fun r => save_memory_proposal r payload) ;;
      audit_memory tenant_id (MemoryUpdateProposal.traveler_id payload) "proposed"
        (Some (MemoryUpdateProposal.proposal_id payload)) (Some (MemoryUpdateProposal.actor_id payload))
        [("changed_fields", JList (patch_fields payload));
         ("consent_required", JBool (MemoryUpdateProposal.consent_required payload))] ;;
      complete_optional_mutation tenant_id (idempotency_key h) claimed.1 201 (dump payload) ;;
      mret payload
  end.

(** the profile fields a proposal may change *)
Definition patchable_fields : list string :=
  ["preferred_airports"; "preferred_carriers"; "cabin_or_seat_preference"; "minimum_connection_minutes";
   "avoid_overnight_connections"; "approved_ground_transport_preferences"; "notification_channel"; "language";
   "approved_accessibility_accommodations"; "consent_version"].

(** the proposal, once it is resolved: [proposal] is the stored object *)
Definition confirmed (proposal : MemoryUpdateProposal.t) (t : instant) : MemoryUpdateProposal.t :=
  proposal <| MemoryUpdateProposal.status := MemoryProposalStatus.CONFIRMED |>
           <| MemoryUpdateProposal.resolved_at := Some (utc t) |>.

Definition apply_proposal (tenant_id confirmed_actor_id : string) (proposal : MemoryUpdateProposal.t)
    : API TravelerPreferenceProfile.t :=
  raise_if (MemoryUpdateProposal.status proposal != MemoryProposalStatus.PENDING_CONFIRMATION)
    (HTTPException 409 "proposal is already resolved") ;;
  let traveler_id := MemoryUpdateProposal.traveler_id proposal in
  existing ← ask (fun r => get_profile r tenant_id traveler_id);
  raise_if (negb (subset (dict_keys (MemoryUpdateProposal.patch proposal)) patchable_fields))
    (HTTPException 422 "proposal contains restricted fields") ;;
  created_at ← now;
  let baseline := default (blank_profile tenant_id traveler_id "pending" created_at) existing in
  profile ← lift_res (patch_profile (baseline <| TravelerPreferenceProfile.version := next_version existing |>)
                        (MemoryUpdateProposal.patch proposal));
  t ← now;
  put (fun r => save_profile r profile) ;;
  put (fun r => save_memory_proposal r (confirmed proposal t)) ;;
  audit_memory tenant_id traveler_id "confirmed" (Some (MemoryUpdateProposal.proposal_id proposal))
    (Some confirmed_actor_id)
    [("changed_fields", JList (patch_fields proposal));
     ("profile_version", JInt (TravelerPreferenceProfile.version profile))] ;;
  trip_id ← uuid4;
  correlation_id ← uuid4;
  emit_event "memory_update.confirmed" tenant_id (Some trip_id) correlation_id (Some confirmed_actor_id) [] ;;
  mret profile.

Definition confirm_memory_proposal (proposal_id : uuid) (actor_id : string) (h : headers)
    : API TravelerPreferenceProfile.t :=
  require_role (x_actor_role h) [UserRole.TRAVELER] ;;
  confirmed_actor_id ← require_actor_matches_payload (x_actor_id h) actor_id;
  tenant_id ← require_tenant (x_tenant_id h);
  require_control tenant_id RuntimeControlName.MEMORY_WRITES_ENABLED "memory writes disabled" ;;
  o ← ask (fun r => get_memory_proposal r tenant_id proposal_id);
  proposal ← found o "memory proposal not found";
  raise_if (confirmed_actor_id != MemoryUpdateProposal.traveler_id proposal)
    (HTTPException 403 "consent actor mismatch") ;;
  claimed ← claim_optional_mutation tenant_id (idempotency_key h)
    ("POST:/v1/memory/proposals/" +:+ uuid_str proposal_id +:+ "/confirm")
    (JObj [("actor_id", JStr actor_id)]);
  match claimed.2 with
  | Some replay => replayed replay
  | None =>
      profile ← apply_proposal tenant_id confirmed_actor_id proposal;
      complete_optional_mutation tenant_id (idempotency_key h) claimed.1 200 (dump profile) ;;
      mret profile
  end.

(** ** Deletion and audit *)

(** [replay.response_status_code or 204] *)
Definition replayed_code (replay : IdempotencyRecord.t) : Z :=
  match IdempotencyRecord.response_status_code replay with
  | Some code => if code =? 0 then 204 else code
  | None => 204
  end.

(** the status code of the response *)
Definition delete_traveler_memory (traveler_id actor_id : string) (h : headers) : API Z :=
  require_role (x_actor_role h) [UserRole.TRAVELER; UserRole.TENANT_ADMIN] ;;
  deletion_actor_id ← require_actor_matches_payload (x_actor_id h) actor_id;
  raise_if (bool_decide (x_actor_role h = Some UserRole.TRAVELER) && (deletion_actor_id != traveler_id))
    (HTTPException 403 "memory deletion denied") ;;
  tenant_id ← require_tenant (x_tenant_id h);
  t ← now;
  o ← ask (fun r => active_legal_holds_for_traveler r tenant_id traveler_id t);
  holds ← lift_res o;
  raise_if (nonempty holds) (HTTPException 423 "memory deletion is blocked by an active legal hold") ;;
  claimed ← claim_optional_mutation tenant_id (idempotency_key h)
    ("DELETE:/v1/travelers/" +:+ traveler_id +:+ "/preferences") (JObj [("actor_id", JStr actor_id)]);
  match claimed.2 with
  | Some replay => mret (replayed_code replay)
  | None =>
      deleted ← put_get (fun r => let '(counts, r') := Repository.delete_traveler_memory r tenant_id traveler_id in
                                  (Ok counts, r'));
      audit_memory tenant_id traveler_id "deleted" None (Some deletion_actor_id)
        [("deleted_record_counts", JObj (List.map (fun '(k, n) => (k, JInt n)) deleted))] ;;
      complete_optional_mutation tenant_id (idempotency_key h) claimed.1 204 (JObj []) ;;
      mret 204
  end.

Definition list_memory_audit (traveler_id : string) (h : headers) : API (list MemoryAuditEvent.t) :=
  tenant_id ← require_tenant (x_tenant_id h);
  require_memory_reads_enabled tenant_id ;;
  require_role (x_actor_role h) [UserRole.TRAVEL_MANAGER; UserRole.TENANT_ADMIN] ;;
  ask (fun r => Repository.list_memory_audit r tenant_id (Some traveler_id)).

End Memory.
