(* ===== verification/ApiPrivacy.v ===== *)
(** * [apps/api/main.py]: legal holds, deletion requests and the retention jobs *)

From S2P Require Import Prelude PyData Float64 PyStd Enums Models RiskEngine Recovery Policies Security.
From S2P Require Import Repository OpenAI Graph Providers Assessment Config Idempotency Workers ApiCore.

Section Privacy.
Context `{Env} `{Dump LegalHoldRecord.t} `{Validate LegalHoldRecord.t} `{Dump LegalHoldRelease.t}
  `{Dump DeletionRequest.t} `{Validate DeletionRequest.t}.

(** ** Legal holds *)

Definition create_legal_hold (payload : LegalHoldRecord.t) (h : headers) : API LegalHoldRecord.t :=
  require_role (x_actor_role h) [UserRole.TENANT_ADMIN] ;;
  tenant_id ← require_tenant (x_tenant_id h);
  _ ← require_actor_matches_payload (x_actor_id h) (LegalHoldRecord.created_by payload);
  raise_if (LegalHoldRecord.tenant_id payload != tenant_id) (HTTPException 403 "tenant mismatch") ;;
  claimed ← claim_optional_mutation tenant_id (idempotency_key h) "POST:/v1/privacy/legal-holds"
    (dump payload);
  match claimed.2 with
  | Some replay => replayed replay
  | None =>
      put (fun r => save_legal_hold r payload) ;;
      correlation_id ← uuid4;
      emit_event "privacy.legal_hold_created" tenant_id (LegalHoldRecord.trip_id payload) correlation_id
        (Some (LegalHoldRecord.created_by payload))
        [("legal_hold_id", juuid (LegalHoldRecord.legal_hold_id payload));
         ("scope", JStr (value (LegalHoldRecord.scope payload)))] ;;
      complete_optional_mutation tenant_id (idempotency_key h) claimed.1 201 (dump payload) ;;
      mret payload
  end.

Definition released (hold : LegalHoldRecord.t) (t : instant) (actor_id : option string) (reason : string)
    : LegalHoldRecord.t :=
  hold <| LegalHoldRecord.released_at := Some (utc t) |>
       <| LegalHoldRecord.released_by := actor_id |>
       <| LegalHoldRecord.release_reason := Some reason |>.

Definition release_legal_hold (legal_hold_id : uuid) (payload : LegalHoldRelease.t) (h : headers)
    : API LegalHoldRecord.t :=
  require_role (x_actor_role h) [UserRole.TENANT_ADMIN] ;;
  tenant_id ← require_tenant (x_tenant_id h);
  actor_id ← require_actor_id (x_actor_id h);
  raise_if (negb (truthy_opt_str actor_id)) (HTTPException 401 "actor required") ;;
  o ← ask (fun r => get_legal_hold r tenant_id legal_hold_id);
  hold ← found o "legal hold not found";
  claimed ← claim_optional_mutation tenant_id (idempotency_key h)
    ("POST:/v1/privacy/legal-holds/" +:+ uuid_str legal_hold_id +:+ "/release") (dump payload);
  match claimed.2 with
  | Some replay => replayed replay
  | None =>
      raise_if (is_some (LegalHoldRecord.released_at hold)) (HTTPException 409 "legal hold is released") ;;
      t ← now;
      let hold := released hold t actor_id (LegalHoldRelease.reason payload) in
      put (fun r => save_legal_hold r hold) ;;
      correlation_id ← uuid4;
      emit_event "privacy.legal_hold_released" tenant_id (LegalHoldRecord.trip_id hold) correlation_id actor_id
        [("legal_hold_id", juuid (LegalHoldRecord.legal_hold_id hold));
         ("scope", JStr (value (LegalHoldRecord.scope hold)))] ;;
      complete_optional_mutation tenant_id (idempotency_key h) claimed.1 200 (dump hold) ;;
      mret hold
  end.

Definition list_legal_holds (h : headers) : API (list LegalHoldRecord.t) :=
  require_role (x_actor_role h) [UserRole.TENANT_ADMIN] ;;
  tenant_id ← require_tenant (x_tenant_id h);
  o ← ask (fun r => Repository.list_legal_holds r tenant_id);
  lift_res o.

(** ** Deletion requests *)

(** what the server decides about a request is not the client's to supply *)
Definition pending_request (payload : DeletionRequest.t) : DeletionRequest.t :=
  payload <| DeletionRequest.status := DeletionRequestStatus.PENDING |>
          <| DeletionRequest.completed_at := None |>
          <| DeletionRequest.blocked_by_hold_ids := [] |>
          <| DeletionRequest.failure_code := None |>.

Definition create_deletion_request (payload : DeletionRequest.t) (h : headers) : API DeletionRequest.t :=
  require_role (x_actor_role h) [UserRole.TRAVELER; UserRole.TENANT_ADMIN] ;;
  tenant_id ← require_tenant (x_tenant_id h);
  requester ← require_actor_matches_payload (x_actor_id h) (DeletionRequest.requested_by payload);
  raise_if (DeletionRequest.tenant_id payload != tenant_id) (HTTPException 403 "tenant mismatch") ;;
  raise_if (bool_decide (x_actor_role h = Some UserRole.TRAVELER) &&
            (requester != DeletionRequest.traveler_id payload))
    (HTTPException 403 "deletion request denied") ;;
  claimed ← claim_optional_mutation tenant_id (idempotency_key h) "POST:/v1/privacy/deletion-requests"
    (dump payload);
  match claimed.2 with
  | Some replay => replayed replay
  | None =>
      let request := pending_request payload in
      put (fun r => save_deletion_request r request) ;;
      correlation_id ← uuid4;
      emit_event "privacy.deletion_requested" tenant_id None correlation_id (Some requester)
        [("deletion_request_id", juuid (DeletionRequest.deletion_request_id request));
         ("scope", JStr (value (DeletionRequest.scope request)))] ;;
      complete_optional_mutation tenant_id (idempotency_key h) claimed.1 201 (dump request) ;;
      mret request
  end.

Definition list_deletion_requests (h : headers) : API (list DeletionRequest.t) :=
  require_role (x_actor_role h) [UserRole.TRAVELER; UserRole.TENANT_ADMIN] ;;
  tenant_id ← require_tenant (x_tenant_id h);
  actor_id ← require_actor_id (x_actor_id h);
  let traveler_id := if bool_decide (x_actor_role h = Some UserRole.TRAVELER) then actor_id else None in
  o ← ask (fun r => Repository.list_deletion_requests r tenant_id traveler_id);
  lift_res o.

(** ** The scheduled jobs *)

Definition jcounts (counts : dict string Z) : json := JObj (List.map (fun '(k, n) => (k, JInt n)) counts).

Definition run_retention_job : API (dict string Z) :=
  t ← now;
  t' ← now;
  result ← put_get (fun r =>
    match run_retention r (RuntimeControls.retention_days controls) 30 365 t t' with
    | Ok (counts, r') => (Ok counts, r')
    | Raise e => (Raise e, r)
    end);
  correlation_id ← uuid4;
  today ← now;
  event_id ← uuid4;
  emitted_at ← now;
  put (fun r => (record_event r
    (EventRecord.mk event_id "retention.completed" "system" None correlation_id
       ("retention:" +:+ date_str today) emitted_at None
       [("deleted_record_counts", jcounts result);
        ("retention_days", JInt (RuntimeControls.retention_days controls))])).2) ;;
  mret result.

(** [summary[status] = summary.get(status, 0) + 1] *)
Definition count_status (summary : dict string Z) (status : string) : dict string Z :=
  dict_set status (default 0 (dict_get status summary) + 1) summary.

Definition process_privacy_deletion_requests_job : API (dict string Z) :=
  t ← now;
  processed ← put_get (fun r => process_due_deletion_requests r t);
  fold_each processed [("completed", 0); ("blocked_by_legal_hold", 0); ("failed", 0)]
    (fun summary '(request, deleted) =>
      let status := value (DeletionRequest.status request) in
      correlation_id ← uuid4;
      emit_event ("privacy.deletion_" +:+ status) (DeletionRequest.tenant_id request) None correlation_id
        (Some (DeletionRequest.requested_by request))
        [("deletion_request_id", juuid (DeletionRequest.deletion_request_id request));
         ("scope", JStr (value (DeletionRequest.scope request)));
         ("deleted_record_counts", jcounts deleted)] ;;
      mret (count_status summary status)).

End Privacy.
