(* ===== verification/ApiNotifications.v ===== *)
(** * [apps/api/main.py]: the notification queue *)

From S2P Require Import Prelude PyData Float64 PyStd Enums Models RiskEngine Recovery Policies Security.
From S2P Require Import Repository Notifications OpenAI Graph Providers Assessment Config Idempotency Workers.
From S2P Require Import ApiCore ApiTrips ApiRecovery ApiMemory.

Section Notify.
Context `{Env} `{Dump NotificationCreate.t} `{Dump NotificationRecord.t} `{Validate NotificationRecord.t}.

(** ** Preview and queue *)

Definition under_review : string :=
  "Your travel manager is reviewing a possible disruption. No itinerary change has been made.".

Definition preview_incident_notification (incident_id : uuid) (channel : string) (h : headers)
    : API NotificationCreate.t :=
  tenant_id ← require_tenant (x_tenant_id h);
  access ← require_incident_trip_access tenant_id incident_id (x_actor_role h) (x_actor_id h)
             (UserRole.TRAVELER :: reviewers);
  let '(incident, trip) := access in
  lift_res (construct "NotificationCreate" NotificationCreate.valid
    (NotificationCreate.mk (Some incident_id) (Trip.traveler_id trip) channel
       ("traveler:" +:+ Trip.traveler_id trip)
       ("RouteShield travel update: " +:+ value (Incident.severity incident) +:+ " risk")
       (match Incident.recommendation incident with
        | Some r => Recommendation.traveler_message r
        | None => under_review
        end))).

(** [NotificationRecord(tenant_id=tenant_id, **payload.model_dump())] *)
Definition queued_notification (id : uuid) (due created updated : instant) (tenant_id : string)
    (payload : NotificationCreate.t) : res NotificationRecord.t :=
  construct "NotificationRecord" NotificationRecord.valid
    (NotificationRecord.mk id tenant_id (NotificationCreate.incident_id payload)
       (NotificationCreate.traveler_id payload) (NotificationCreate.channel payload)
       (NotificationCreate.recipient_reference payload) (NotificationCreate.subject payload)
       (NotificationCreate.body payload) NotificationStatus.QUEUED 0 due None None None None None None None
       None created updated).

(** the incident a notification is about *)
Definition incident_of (tenant_id : string) (n : NotificationRecord.t) : API (option Incident.t) :=
  match NotificationRecord.incident_id n with
  | Some id => ask (fun r => get_incident r tenant_id id)
  | None => mret None
  end.

(** [incident.correlation_id if incident else uuid4()] *)
Definition correlation_of (o : option Incident.t) : API uuid :=
  match o with Some i => mret (Incident.correlation_id i) | None => uuid4 end.

Definition queue_notification (payload : NotificationCreate.t) (h : headers) : API NotificationRecord.t :=
  require_role (x_actor_role h) managers ;;
  tenant_id ← require_tenant (x_tenant_id h);
  (match NotificationCreate.incident_id payload with
   | Some incident_id =>
       access ← require_incident_trip_access tenant_id incident_id (x_actor_role h) (x_actor_id h) managers;
       raise_if (NotificationCreate.traveler_id payload != Trip.traveler_id access.2)
         (HTTPException 422 "notification traveler does not match incident trip")
   | None => mret tt
   end) ;;
  claimed ← claim_optional_mutation tenant_id (idempotency_key h) "POST:/v1/notifications" (dump payload);
  match claimed.2 with
  | Some replay => replayed replay
  | None =>
      id ← uuid4; due ← now; created ← now; updated ← now;
      notification ← lift_res (queued_notification id due created updated tenant_id payload);
      put (fun r => save_notification r notification) ;;
      o ← incident_of tenant_id notification;
      correlation_id ← correlation_of o;
      emit_event "notification.queued" tenant_id (Incident.trip_id <$> o) correlation_id (x_actor_id h)
        [("notification_id", juuid (NotificationRecord.notification_id notification));
         ("channel", JStr (NotificationRecord.channel notification))] ;;
      complete_optional_mutation tenant_id (idempotency_key h) claimed.1 201 (dump notification) ;;
      mret notification
  end.

(** ** Reading the queue *)

(** the notifications of the incidents a manager is assigned to *)
Definition managed_by (r : repo) (tenant_id : string) (actor_id : option string) (n : NotificationRecord.t)
    : bool :=
  match NotificationRecord.incident_id n with
  | None => false
  | Some id =>
      match get_incident r tenant_id id with
      | None => false
      | Some incident =>
          match Repository.get_trip r tenant_id (Incident.trip_id incident) with
          | Some trip => bool_decide (Trip.assigned_manager_id trip = actor_id)
          | None => false
          end
      end
  end.

Definition list_notifications (status : option NotificationStatus.t) (h : headers)
    : API (list NotificationRecord.t) :=
  require_role (x_actor_role h) (UserRole.TRAVELER :: managers) ;;
  actor_id ← require_actor_id (x_actor_id h);
  tenant_id ← require_tenant (x_tenant_id h);
  ask (fun r =>
    let notifications := Repository.list_notifications r tenant_id ((fun s => [s]) <$> status) in
    if bool_decide (x_actor_role h = Some UserRole.TRAVELER) && truthy_opt_str actor_id
    then List.filter (fun n => bool_decide (Some (NotificationRecord.traveler_id n) = actor_id)) notifications
    else if bool_decide (x_actor_role h = Some UserRole.TRAVEL_MANAGER) && truthy_opt_str actor_id
    then List.filter (managed_by r tenant_id actor_id) notifications
    else notifications).

(** ** Delivery *)

(** the claim of the due notifications; lease ids are drawn from the environment *)
Definition claim_notifications (tenant_id : option string) (worker_id : string)
    : API (list NotificationRecord.t) := fun w =>
  let n := World.ticks w in
  let '(claimed, r) := claim_due_notifications (World.store w) tenant_id worker_id (5 * minute) (clock_at n) 100
                         (fun i => uuid_at (n + 1 + i)) in
  (Ok claimed, w <| World.store := r |> <| World.ticks ::= fun k => (k + 1 + length claimed)%nat |>).

(** one claimed notification: delivered once through the in-app sender *)
Definition deliver_claimed (tenant_id worker_id : string) (item : NotificationRecord.t)
    : API NotificationRecord.t :=
  t ← now;
  attempt_id ← uuid4;
  outcome ← put_get (fun r => deliver_notification r item in_app_send 5 t attempt_id);
  o ← incident_of tenant_id outcome;
  correlation_id ← correlation_of o;
  emit_event ("notification." +:+ value (NotificationRecord.status outcome)) tenant_id
    (Incident.trip_id <$> o) correlation_id (Some worker_id)
    [("notification_id", juuid (NotificationRecord.notification_id outcome));
     ("channel", JStr (NotificationRecord.channel outcome));
     ("attempt_count", JInt (NotificationRecord.attempt_count outcome));
     ("error_code", jstr_opt (NotificationRecord.last_error_code outcome))] ;;
  mret outcome.

(** both switches of a tenant's delivery *)
Definition delivery_enabled (tenant_id : string) : API bool :=
  notifications_on ← control_enabled tenant_id RuntimeControlName.NOTIFICATIONS_ENABLED;
  if notifications_on : bool
  then control_enabled tenant_id RuntimeControlName.TENANT_AUTOMATION_ENABLED else mret false.

Definition dispatch_notifications (h : headers) : API (list NotificationRecord.t) :=
  require_role (x_actor_role h) [UserRole.TENANT_ADMIN] ;;
  tenant_id ← require_tenant (x_tenant_id h);
  enabled ← delivery_enabled tenant_id;
  raise_if (negb enabled) (HTTPException 503 "notification delivery automation is disabled") ;;
  actor_id ← require_actor_id (x_actor_id h);
  let worker_id := actor_or actor_id "tenant-admin-notification-dispatcher" in
  pending ← claim_notifications (Some tenant_id) worker_id;
  fold_each pending [] (fun delivered item =>
    outcome ← deliver_claimed tenant_id worker_id item;
    mret (delivered ++ [outcome])).

Definition dispatch_due_notifications_job : API (list NotificationRecord.t) :=
  let worker_id := "internal-notification-dispatcher" in
  pending ← claim_notifications None worker_id;
  fold_each pending [] (fun delivered item =>
    enabled ← delivery_enabled (NotificationRecord.tenant_id item);
    if enabled : bool then
      outcome ← deliver_claimed (NotificationRecord.tenant_id item) worker_id item;
      mret (delivered ++ [outcome])
    else mret delivered).

(** ** History and acknowledgement *)

(** a manager reaches a notification only through an incident assigned to them *)
Definition require_notification_access (tenant_id : string) (n : NotificationRecord.t) (h : headers)
    : API unit :=
  if bool_decide (x_actor_role h = Some UserRole.TRAVEL_MANAGER) then
    match NotificationRecord.incident_id n with
    | None => http_error 403 "notification access denied"
    | Some incident_id =>
        _ ← require_incident_trip_access tenant_id incident_id (x_actor_role h) (x_actor_id h)
              [UserRole.TRAVEL_MANAGER];
        mret tt
    end
  else mret tt.

Definition notification_attempt_history (notification_id : uuid) (h : headers)
    : API (list NotificationAttempt.t) :=
  require_role (x_actor_role h) managers ;;
  tenant_id ← require_tenant (x_tenant_id h);
  o ← ask (fun r => get_notification r tenant_id notification_id);
  notification ← found o "notification not found";
  require_notification_access tenant_id notification h ;;
  ask (fun r => list_notification_attempts r tenant_id notification_id).

(** [notification] is the stored object *)
Definition acknowledged (n : NotificationRecord.t) (t : instant) (actor_id : string) : NotificationRecord.t :=
  n <| NotificationRecord.status := NotificationStatus.ACKNOWLEDGED |>
    <| NotificationRecord.acknowledged_at := Some t |>
    <| NotificationRecord.acknowledgement_actor_id := Some actor_id |>
    <| NotificationRecord.updated_at := t |>.

Definition acknowledge_delivered (n : NotificationRecord.t) (actor_id : string) : API NotificationRecord.t :=
  raise_if (negb (mem (NotificationRecord.status n)
                      [NotificationStatus.DELIVERED; NotificationStatus.ACKNOWLEDGED]))
    (HTTPException 409 "notification has not been delivered") ;;
  if NotificationRecord.status n == NotificationStatus.DELIVERED then
    t ← now;
    put (fun r => save_notification r (acknowledged n t actor_id)) ;;
    mret (acknowledged n t actor_id)
  else mret n.

Definition acknowledge_notification (notification_id : uuid) (actor_id : string) (h : headers)
    : API NotificationRecord.t :=
  require_role (x_actor_role h) (UserRole.TRAVELER :: managers) ;;
  acknowledgement_actor_id ← require_actor_matches_payload (x_actor_id h) actor_id;
  tenant_id ← require_tenant (x_tenant_id h);
  o ← ask (fun r => get_notification r tenant_id notification_id);
  notification ← found o "notification not found";
  raise_if (bool_decide (x_actor_role h = Some UserRole.TRAVELER) &&
            (acknowledgement_actor_id != NotificationRecord.traveler_id notification))
    (HTTPException 403 "notification access denied") ;;
  require_notification_access tenant_id notification h ;;
  claimed ← claim_optional_mutation tenant_id (idempotency_key h)
    ("POST:/v1/notifications/" +:+ uuid_str notification_id +:+ "/acknowledge")
    (JObj [("actor_id", JStr actor_id)]);
  match claimed.2 with
  | Some replay => replayed replay
  | None =>
      notification ← acknowledge_delivered notification acknowledgement_actor_id;
      complete_optional_mutation tenant_id (idempotency_key h) claimed.1 200 (dump notification) ;;
      mret notification
  end.

End Notify.
