(* ===== verification/Delivery.v ===== *)
(** * The life of the queued notifications (apps/api/notifications.py and its callers)

    Workers of [apps/api/main.py] claim due notifications and deliver the copies
    they were given, at any later time and through any channel adapter; requests
    queue new notifications and acknowledge delivered ones.  [desk_step] has a
    constructor per such operation, over a store and the copies handed out so far;
    [recorded] relates a notification to the history of its attempts. *)

From stdpp Require Import list relations.
From S2P Require Import Prelude PyData PyStd Enums Models Repository StoreInvariant Notifications ApiNotifications.

(** ** Steps *)

Record desk : Type := Desk {
  shelf : repo;
  copies : list NotificationRecord.t       (* every copy a claim has handed to a worker *)
}.

Definition attempts_of (r : repo) (id : uuid) : list NotificationAttempt.t :=
  default [] (dict_get id (Repo.notification_attempts r)).

(** a lease id that no copy carries: a fresh [uuid4()] *)
Definition unused (cs : list NotificationRecord.t) (fresh : nat -> uuid) : Prop :=
  forall i c, In c cs -> NotificationRecord.dispatch_claim_id c <> Some (fresh i).

Inductive desk_step (max_attempts : Z) : relation desk :=
  | step_queue id due created updated tenant payload n r cs :
      queued_notification id due created updated tenant payload = Ok n ->
      dict_get id (Repo.notifications r) = None ->
      dict_get id (Repo.notification_attempts r) = None ->
      desk_step max_attempts (Desk r cs) (Desk (save_notification r n) cs)
  | step_claim tenant worker ttl now limit fresh r cs claimed r' :
      unused cs fresh ->
      claim_due_notifications r tenant worker ttl now limit fresh = (claimed, r') ->
      desk_step max_attempts (Desk r cs) (Desk r' (cs ++ claimed))
  | step_deliver c sender now attempt_id r cs out r' :
      In c cs ->
      deliver_notification r c sender max_attempts now attempt_id = (out, r') ->
      desk_step max_attempts (Desk r cs) (Desk r' cs)
  | step_acknowledge n t actor r cs :
      dict_get (NotificationRecord.notification_id n) (Repo.notifications r) = Some n ->
      NotificationRecord.status n = NotificationStatus.DELIVERED ->
      desk_step max_attempts (Desk r cs) (Desk (save_notification r (acknowledged n t actor)) cs).

(** ** A notification and the history of its attempts *)

(** the outcomes a notification of this status has recorded after [k] attempts *)
Definition expected_outcomes (s : NotificationStatus.t) (k : nat) : option (list string) :=
  match s with
  | NotificationStatus.QUEUED => if decide (k = 0%nat) then Some [] else None
  | NotificationStatus.RETRY_SCHEDULED =>
      if decide (k = 0%nat) then None else Some (replicate k "retry_scheduled")
  | NotificationStatus.DELIVERED | NotificationStatus.ACKNOWLEDGED =>
      if decide (k = 0%nat) then None else Some (replicate (k - 1) "retry_scheduled" ++ ["delivered"])
  | NotificationStatus.FAILED =>
      if decide (k = 0%nat) then None else Some (replicate (k - 1) "retry_scheduled" ++ ["failed"])
  | NotificationStatus.CANCELLED => None
  end.

(** [attempt_count] is the number of recorded attempts; they are numbered from
    one, only the last one was not rescheduled, and an open notification has
    attempts in hand. *)
Definition recorded (max_attempts : Z) (n : NotificationRecord.t) (l : list NotificationAttempt.t) : Prop :=
  NotificationRecord.attempt_count n = len l /\
  List.map NotificationAttempt.attempt_number l = List.map Z.of_nat (seq 1 (length l)) /\
  expected_outcomes (NotificationRecord.status n) (length l) = Some (List.map NotificationAttempt.outcome l) /\
  NotificationRecord.attempt_count n <= max_attempts /\
  (~ settled n -> NotificationRecord.attempt_count n < max_attempts) /\
  (NotificationRecord.status n = NotificationStatus.FAILED ->
   NotificationRecord.attempt_count n = max_attempts).

(** the invariant: what is stored is recorded, nobody holds a lease on a settled
    notification, and a copy whose lease is still held is the stored record *)
Record desk_ok (max_attempts : Z) (d : desk) : Prop := {
  desk_keyed : keyed NotificationRecord.notification_id (Repo.notifications (shelf d));
  desk_recorded : forall id n, dict_get id (Repo.notifications (shelf d)) = Some n ->
    recorded max_attempts n (attempts_of (shelf d) id);
  desk_settled : forall id n, dict_get id (Repo.notifications (shelf d)) = Some n -> settled n ->
    NotificationRecord.dispatch_claim_id n = None;
  desk_copies : forall c, In c (copies d) -> exists k,
    NotificationRecord.dispatch_claim_id c = Some k /\
    forall n, dict_get (NotificationRecord.notification_id c) (Repo.notifications (shelf d)) = Some n ->
      NotificationRecord.dispatch_claim_id n = Some k -> n = c
}.

(** the channel's answer fits the columns of the attempt *)
Definition answer_fits (a : DeliveryResult.t) : Prop :=
  opt_max 256 (DeliveryResult.provider_message_reference a) = true /\
  opt_max 128 (DeliveryResult.error_code a) = true.

(** ** One delivery *)

Lemma open_or_settled n : settled n \/ ~ settled n.
Proof. unfold settled. destruct (NotificationRecord.status n); simpl; intuition discriminate. Qed.

(** what a delivery makes of a recorded, open notification *)
Lemma record_result_recorded max n result now n' outcome l a :
  recorded max n l -> ~ settled n ->
  record_result n result max now = (n', outcome) ->
  NotificationAttempt.attempt_number a = NotificationRecord.attempt_count n' ->
  NotificationAttempt.outcome a = outcome ->
  recorded max n' (l ++ [a]).
Proof.
  intros (Hc & Hn & Ho & Hle & Hlt & _) Hopen Hr Ha Hout. specialize (Hlt Hopen).
  assert (Hc' : NotificationRecord.attempt_count n' = len l + 1).
  { apply record_result_attempted in Hr as (-> & _). by rewrite Hc. }
  assert (Hretry : List.map NotificationAttempt.outcome l = replicate (length l) "retry_scheduled").
  { unfold settled in Hopen. destruct (NotificationRecord.status n); simpl in Ho, Hopen;
      try (exfalso; apply Hopen; intuition discriminate); case_decide as E; simplify_eq.
    - by rewrite E, <- Ho.
    - done. }
  assert (Hl : length (l ++ [a]) = S (length l)) by (rewrite length_app; simpl; lia).
  unfold recorded, len in *. rewrite Hl, seq_S, !List.map_app, Hn, Hretry.
  cbn [List.map]. rewrite Ha, Hc'.
  unfold record_result in Hr. destruct (DeliveryResult.delivered result).
  - injection Hr as <- <-. rewrite Hout. simpl in *. split_and!; try done; try lia.
    + by replace (Z.of_nat (length l) + 1) with (Z.of_nat (S (length l))) by lia.
    + by rewrite Nat.sub_0_r.
    + intros Hs. exfalso. apply Hs. unfold settled. simpl. intuition discriminate.
  - destruct (Z.leb_spec max (NotificationRecord.attempt_count n + 1)); injection Hr as <- <-;
      rewrite Hout; simpl in *; split_and!; try done; try lia.
    + by replace (Z.of_nat (length l) + 1) with (Z.of_nat (S (length l))) by lia.
    + by rewrite Nat.sub_0_r.
    + intros Hs. exfalso. apply Hs. unfold settled. simpl. intuition discriminate.
    + by replace (Z.of_nat (length l) + 1) with (Z.of_nat (S (length l))) by lia.
    + by rewrite (replicate_cons_app (length l)).
Qed.

(** a delivery whose lease is held and whose attempt is valid is stored; any other
    leaves the store alone *)
Lemma deliver_cases max r c sender now id out r' k :
  NotificationRecord.dispatch_claim_id c = Some k ->
  deliver_notification r c sender max now id = (out, r') ->
  r' = r \/
  deliverable c now = true /\
  lease_held (NotificationRecord.notification_id c) k (Repo.notifications r) = true /\
  exists n1 outcome a,
    record_result c (send_result sender c) max now = (n1, outcome) /\
    NotificationAttempt.attempt_number a = NotificationRecord.attempt_count n1 /\
    NotificationAttempt.outcome a = outcome /\
    out = Ok (clear_lease n1) /\
    Repo.notifications r' =
      dict_set (NotificationRecord.notification_id c) (clear_lease n1) (Repo.notifications r) /\
    Repo.notification_attempts r' =
      dict_append (NotificationRecord.notification_id c) a (Repo.notification_attempts r).
Proof.
  unfold deliver_notification. intros Hk E. destruct (deliverable c now); cbn [negb] in E.
  2: { injection E as _ <-. by left. }
  destruct (record_result c (send_result sender c) max now) as [n1 outcome] eqn:Hr.
  destruct (construct _ _ _) as [a|e] eqn:Hc; [|injection E as _ <-; by left].
  apply construct_ok in Hc as [Ha _]. rewrite Hk in E. unfold complete_notification_delivery in E.
  apply record_result_attempted in Hr as Hr'. destruct Hr' as (_ & Hid & _). rewrite Hid in E.
  destruct (lease_held _ _ _); injection E as <- <-; [|by left].
  right. do 2 (split; [done|]). exists n1, outcome, a. subst a. simpl. rewrite Hid. done.
Qed.

(** an answer that fits is always recorded while the lease is held *)
Lemma deliver_answers max r c sender now id out r' k :
  0 <= NotificationRecord.attempt_count c < 10 -> answer_fits (send_result sender c) ->
  NotificationRecord.dispatch_claim_id c = Some k -> deliverable c now = true ->
  lease_held (NotificationRecord.notification_id c) k (Repo.notifications r) = true ->
  deliver_notification r c sender max now id = (out, r') ->
  exists n1 outcome a,
    record_result c (send_result sender c) max now = (n1, outcome) /\
    out = Ok (clear_lease n1) /\
    Repo.notifications r' =
      dict_set (NotificationRecord.notification_id c) (clear_lease n1) (Repo.notifications r) /\
    Repo.notification_attempts r' =
      dict_append (NotificationRecord.notification_id c) a (Repo.notification_attempts r) /\
    NotificationAttempt.attempt_number a = NotificationRecord.attempt_count n1 /\
    NotificationAttempt.outcome a = outcome.
Proof.
  unfold deliver_notification. intros Hc [Hf1 Hf2] Hk -> Hh E. cbn [negb] in E.
  destruct (record_result c (send_result sender c) max now) as [n1 outcome] eqn:Hr.
  apply record_result_attempted in Hr as Hr'. destruct Hr' as (Hcount & Hid & _).
  unfold construct in E.
  match type of E with context [NotificationAttempt.valid ?x] => set (a := x) in E end.
  assert (Ha : NotificationAttempt.valid a = true).
  { unfold NotificationAttempt.valid, a. simpl. rewrite Hcount, Hf1, Hf2.
    rewrite (proj2 (Z.leb_le _ _)), (proj2 (Z.leb_le _ _)) by lia. rewrite !andb_true_r. simpl.
    unfold record_result in Hr. destruct (DeliveryResult.delivered _); [injection Hr as _ <-; done|].
    destruct (_ <=? _); injection Hr as _ <-; done. }
  rewrite Ha, Hk in E. unfold complete_notification_delivery in E. rewrite Hid, Hh in E.
  injection E as <- <-. exists n1, outcome, a. simpl. rewrite Hid. done.
Qed.

(** ** The invariant *)

Lemma recorded_same max n n' l :
  NotificationRecord.attempt_count n' = NotificationRecord.attempt_count n ->
  NotificationRecord.status n' = NotificationRecord.status n ->
  recorded max n l -> recorded max n' l.
Proof. unfold recorded, settled. intros -> ->. done. Qed.

Lemma recorded_acknowledged max n l t actor :
  NotificationRecord.status n = NotificationStatus.DELIVERED ->
  recorded max n l -> recorded max (acknowledged n t actor) l.
Proof.
  intros Hs (Hc & Hn & Ho & Hle & _). rewrite Hs in Ho. split_and!; try done.
  intros Hopen. exfalso. apply Hopen. unfold settled. simpl. intuition discriminate.
Qed.

Section Steps.
Context (max_attempts : Z) (positive : 0 < max_attempts).

Abbreviation ok := (desk_ok max_attempts).

Lemma ok_queue id due created updated tenant payload n r cs :
  queued_notification id due created updated tenant payload = Ok n ->
  dict_get id (Repo.notification_attempts r) = None ->
  ok (Desk r cs) -> ok (Desk (save_notification r n) cs).
Proof.
  intros Hq Hnone [Hk Hrec Hset Hcs]. apply construct_ok in Hq as [-> _]. constructor; simpl in *.
  - by apply keyed_set.
  - intros id' n. rewrite dict_get_set. case_bool_decide; subst; [|by apply Hrec].
    intros [= <-]. unfold attempts_of. simpl. rewrite Hnone. unfold recorded, len. simpl. split_and!; done || lia.
  - intros id' n. rewrite dict_get_set. case_bool_decide; subst; [|by apply Hset]. by intros [= <-].
  - intros c Hc. destruct (Hcs c Hc) as (k & Hck & Hsame). exists k. split; [done|].
    intros n. rewrite dict_get_set. case_bool_decide; [|by apply Hsame]. by intros [= <-].
Qed.

Lemma ok_claim tenant worker ttl now limit fresh r cs claimed r' :
  unused cs fresh -> claim_due_notifications r tenant worker ttl now limit fresh = (claimed, r') ->
  ok (Desk r cs) -> ok (Desk r' (cs ++ claimed)).
Proof.
  unfold claim_due_notifications. intros Hu E [Hk Hrec Hset Hcs].
  destruct (claim_due _ _ _ _ _ _ _ _) as [c d] eqn:Ec. injection E as -> <-.
  assert (Hget : forall id n, dict_get id d = Some n -> exists n0, dict_get id (Repo.notifications r) = Some n0 /\
    (n = n0 \/ ~ settled n0 /\ exists i, n = set_lease (fresh i) worker now (now + ttl) n0)).
  { intros id n Hn. destruct (claim_due_get _ _ _ _ _ _ _ _ _ _ _ _ Ec Hn) as (n0 & H0 & Hn0).
    exists n0. split; [done|]. destruct Hn0 as [->|(Hc & _ & Hi)]; [by left|right]. split; [|done].
    unfold claimable in Hc. bool_hyps. intros Hs. apply Hs. by apply mem_true_iff. }
  assert (Hkd : keyed NotificationRecord.notification_id d) by (by eapply keyed_claim_due; [|exact Ec|exact Hk]).
  constructor; simpl in *; [done| | |].
  - intros id n (n0 & H0 & Hn)%Hget. apply Hrec in H0.
    destruct Hn as [->|(_ & i & ->)]; [done|by apply (recorded_same _ n0)].
  - intros id n (n0 & H0 & [->|(Hopen & i & ->)])%Hget Hs; [by apply (Hset id)|done].
  - intros x [Hx|Hx]%in_app_or.
    + destruct (Hcs x Hx) as (k & Hck & Hsame). exists k. split; [done|].
      intros n (n0 & H0 & [->|(_ & i & ->)])%Hget Hclaim; [by apply Hsame|].
      simpl in Hclaim. exfalso. apply (Hu i x Hx). by rewrite Hclaim.
    + destruct (claim_due_member _ _ _ _ _ _ _ _ _ _ _ Ec (proj1 Hk) Hx) as (id & x0 & i & H0 & _ & -> & Hd).
      exists (fresh i). split; [done|]. intros n Hn _.
      rewrite (keyed_get _ _ _ _ Hkd Hd) in Hn. congruence.
Qed.

Lemma ok_acknowledge n t actor r cs :
  dict_get (NotificationRecord.notification_id n) (Repo.notifications r) = Some n ->
  NotificationRecord.status n = NotificationStatus.DELIVERED ->
  ok (Desk r cs) -> ok (Desk (save_notification r (acknowledged n t actor)) cs).
Proof.
  intros Hn Hs [Hk Hrec Hset Hcs].
  assert (Hnone : NotificationRecord.dispatch_claim_id n = None).
  { apply (Hset _ _ Hn). unfold settled. rewrite Hs. simpl. intuition discriminate. }
  constructor; simpl in *.
  - by apply keyed_set.
  - intros id n'. rewrite dict_get_set. case_bool_decide; subst; [|by apply Hrec].
    intros [= <-]. apply recorded_acknowledged; [done|]. by apply Hrec.
  - intros id n'. rewrite dict_get_set. case_bool_decide; subst; [|by apply Hset]. by intros [= <-].
  - intros c Hc. destruct (Hcs c Hc) as (k & Hck & Hsame). exists k. split; [done|].
    intros n'. rewrite dict_get_set. case_bool_decide; [|by apply Hsame].
    intros [= <-]. simpl. by rewrite Hnone.
Qed.

(** a copy whose lease is held is what is stored, and open when it is deliverable *)
Lemma held_stored r cs c k now :
  ok (Desk r cs) -> In c cs -> NotificationRecord.dispatch_claim_id c = Some k ->
  lease_held (NotificationRecord.notification_id c) k (Repo.notifications r) = true ->
  deliverable c now = true ->
  dict_get (NotificationRecord.notification_id c) (Repo.notifications r) = Some c /\ ~ settled c /\
  recorded max_attempts c (attempts_of r (NotificationRecord.notification_id c)).
Proof.
  intros [_ Hrec _ Hcs] Hc Hk Hh Hd. destruct (Hcs c Hc) as (k' & Hk' & Hsame).
  rewrite Hk in Hk'. injection Hk' as <-. unfold lease_held in Hh. simpl in *.
  destruct (dict_get _ (Repo.notifications r)) as [n|] eqn:Hn; [|done].
  apply bool_decide_eq_true in Hh. rewrite (Hsame n eq_refl Hh) in *.
  split; [done|]. split; [|by apply Hrec].
  intros Hs. apply Hs. by apply (deliverable_open c now).
Qed.

Lemma settled_clear n : settled (clear_lease n) <-> settled n.
Proof. done. Qed.

Lemma attempts_append (id : uuid) (a : NotificationAttempt.t) d id' :
  default [] (dict_get id' (dict_append id a d)) =
  (if decide (id' = id) then default [] (dict_get id d) ++ [a] else default [] (dict_get id' d)).
Proof.
  unfold dict_append. rewrite dict_get_set. case_bool_decide; case_decide; try congruence.
  simpl. by destruct (dict_get id d).
Qed.

Lemma ok_deliver c sender now id r cs out r' :
  In c cs -> deliver_notification r c sender max_attempts now id = (out, r') ->
  ok (Desk r cs) -> ok (Desk r' cs).
Proof.
  intros Hc E Hok. destruct (desk_copies _ _ Hok c Hc) as (k & Hk & _).
  destruct (deliver_cases _ _ _ _ _ _ _ _ _ Hk E)
    as [->|(Hd & Hh & n1 & outcome & a & Hr & Ha & Hout & _ & Hns & Has)]; [done|].
  destruct (held_stored _ _ _ _ _ Hok Hc Hk Hh Hd) as (_ & Hopen & Hrc).
  pose proof (record_result_recorded _ _ _ _ _ _ _ a Hrc Hopen Hr Ha Hout) as Hrec1.
  apply record_result_attempted in Hr as (_ & Hid & _).
  destruct Hok as [Hk0 Hrec Hset Hcs]. constructor; simpl in *; rewrite ?Hns.
  - by apply keyed_set.
  - intros id' n. rewrite dict_get_set. unfold attempts_of. rewrite Has, attempts_append.
    case_bool_decide; case_decide; subst; try done; [|by apply Hrec].
    intros [= <-]. by apply (recorded_same _ n1).
  - intros id' n. rewrite dict_get_set. case_bool_decide; subst; [|by apply Hset]. by intros [= <-].
  - intros c' Hc'. destruct (Hcs c' Hc') as (k' & Hk' & Hsame). exists k'. split; [done|].
    intros n. rewrite dict_get_set. case_bool_decide; [|by apply Hsame]. by intros [= <-].
Qed.

Lemma ok_step d d' : desk_step max_attempts d d' -> ok d -> ok d'.
Proof.
  intros [????????? Hq _ Ha|?????????? Hu Hc|???????? Hc Hd|????? Hn Hs].
  - by eapply ok_queue.
  - by eapply ok_claim.
  - by eapply ok_deliver.
  - by apply ok_acknowledge.
Qed.

Lemma ok_steps d d' : rtc (desk_step max_attempts) d d' -> ok d -> ok d'.
Proof. induction 1; [done|]. eauto using ok_step. Qed.

Lemma ok_init : ok (Desk Repo.init []).
Proof. constructor; simpl; [apply keyed_nil|done|done|done]. Qed.

(** ** Settled notifications *)

(** what remains of a settled notification: its counter, its history, and its
    status but for an acknowledgement *)
Definition final (r : repo) (id : uuid) (n : NotificationRecord.t) (r' : repo) : Prop :=
  exists n', dict_get id (Repo.notifications r') = Some n' /\ settled n' /\
    NotificationRecord.attempt_count n' = NotificationRecord.attempt_count n /\
    attempts_of r' id = attempts_of r id /\
    (NotificationRecord.status n' = NotificationRecord.status n \/
     NotificationRecord.status n = NotificationStatus.DELIVERED /\
     NotificationRecord.status n' = NotificationStatus.ACKNOWLEDGED).

Lemma final_step d d' id n :
  ok d -> desk_step max_attempts d d' ->
  dict_get id (Repo.notifications (shelf d)) = Some n -> settled n ->
  final (shelf d) id n (shelf d').
Proof.
  intros Hok Hstep Hn Hs. unfold final, attempts_of.
  destruct Hstep as [??????? r cs Hq Hfree _|?????? r cs claimed r' Hu E|c ??? r cs out r' Hc E|m ?? r cs Hm Hd];
    simpl in *.
  - exists n. apply construct_ok in Hq as [-> _]. simpl. rewrite dict_get_set_ne by congruence. split_and!; auto.
  - unfold claim_due_notifications in E. destruct (claim_due _ _ _ _ _ _ _ _) as [c d] eqn:Ec.
    injection E as -> <-. exists n. simpl. split; [|split_and!; auto]. apply (claim_due_untouched _ _ _ _ _ _ _ _ _ _ _ _ Ec Hn).
    unfold claimable. cbn [lease_ready notification_leasable]. rewrite (proj2 (mem_false_iff _ _) Hs). by rewrite andb_false_r.
  - destruct (desk_copies _ _ Hok c Hc) as (k & Hk & _).
    destruct (deliver_cases _ _ _ _ _ _ _ _ _ Hk E) as [->|(Hdl & Hh & n1 & o & a & _ & _ & _ & _ & Hns & Has)];
      [exists n; split_and!; auto|].
    destruct (held_stored _ _ _ _ _ Hok Hc Hk Hh Hdl) as (Hst & Hopen & _).
    assert (Hne : id <> NotificationRecord.notification_id c) by (intros ->; rewrite Hst in Hn; injection Hn as <-; auto).
    exists n. rewrite Hns, Has, attempts_append, dict_get_set_ne by done. rewrite decide_False by done. split_and!; auto.
  - rewrite dict_get_set. case_bool_decide as Heq; [|exists n; split_and!; auto]. simpl in Heq. subst id.
    rewrite Hm in Hn. injection Hn as <-. eexists. split; [done|]. split.
    { unfold settled. simpl. intuition discriminate. }
    simpl. auto.
Qed.

Lemma final_steps d d' id n :
  ok d -> rtc (desk_step max_attempts) d d' ->
  dict_get id (Repo.notifications (shelf d)) = Some n -> settled n ->
  final (shelf d) id n (shelf d').
Proof.
  intros Hok Hsteps. revert n. induction Hsteps as [d|d1 d2 d3 H12 _ IH]; intros n Hn Hs.
  { exists n. split_and!; auto. }
  destruct (final_step _ _ _ _ Hok H12 Hn Hs) as (n2 & Hn2 & Hs2 & Hc2 & Ha2 & Hst2).
  destruct (IH (ok_step _ _ H12 Hok) n2 Hn2 Hs2) as (n3 & Hn3 & Hs3 & Hc3 & Ha3 & Hst3).
  exists n3. split_and!; try done; try congruence.
  destruct Hst2 as [E2|[E2 E2']], Hst3 as [E3|[E3 E3']]; try (left; congruence); right; split; congruence.
Qed.

End Steps.

(** ** Properties *)

(** C35.  Delivery attempts are counted, bounded and final (for a limit of at most
    ten attempts, which the code sets to five).  From the empty store,
    whatever notifications are queued, whoever claims and delivers them, when and
    through whichever channel, and whoever acknowledges them: the attempt counter
    of a stored notification is the number of its recorded attempts, which are
    numbered from one and at most [max_attempts]; all but the last were
    rescheduled, the last one decided the status, and a notification is failed at
    exactly [max_attempts] and open below it.  A worker that still holds its lease
    on a due notification records exactly one attempt and counts it, whatever the
    channel answers (within the length limits of the attempt).  Once delivered
    or failed, a notification is never attempted again. *)
Theorem delivery_bounded max_attempts r cs :
  0 < max_attempts <= 10 -> rtc (desk_step max_attempts) (Desk Repo.init []) (Desk r cs) ->
  (forall id n, dict_get id (Repo.notifications r) = Some n ->
     recorded max_attempts n (attempts_of r id)) /\
  (forall c k sender now attempt_id out r',
     In c cs -> NotificationRecord.dispatch_claim_id c = Some k ->
     lease_held (NotificationRecord.notification_id c) k (Repo.notifications r) = true ->
     deliverable c now = true -> answer_fits (send_result sender c) ->
     deliver_notification r c sender max_attempts now attempt_id = (out, r') ->
     exists n' a, out = Ok n' /\
       dict_get (NotificationRecord.notification_id c) (Repo.notifications r') = Some n' /\
       attempts_of r' (NotificationRecord.notification_id c) =
         attempts_of r (NotificationRecord.notification_id c) ++ [a] /\
       NotificationRecord.attempt_count n' = NotificationRecord.attempt_count c + 1 /\
       NotificationAttempt.attempt_number a = NotificationRecord.attempt_count c + 1) /\
  (forall d' id n, rtc (desk_step max_attempts) (Desk r cs) d' ->
     dict_get id (Repo.notifications r) = Some n -> settled n -> final r id n (shelf d')).
Proof.
  intros Hm Hd. assert (Hok : desk_ok max_attempts (Desk r cs)).
  { exact (ok_steps _ (proj1 Hm) _ _ Hd (ok_init _)). }
  split; [apply (desk_recorded _ _ Hok)|]. split.
  2: { intros d' id n Hd'. by apply (final_steps max_attempts (proj1 Hm) (Desk r cs) d' id n). }
  intros c k sender now attempt_id out r' Hc Hk Hh Hdl Hfit E.
  destruct (held_stored _ _ _ _ _ _ Hok Hc Hk Hh Hdl) as (_ & Hopen & (Hcount & _ & _ & _ & Hlt & _)).
  specialize (Hlt Hopen). unfold len in Hcount.
  assert (Hrange : 0 <= NotificationRecord.attempt_count c < 10) by lia.
  destruct (deliver_answers _ r c _ _ _ _ _ _ Hrange Hfit Hk Hdl Hh E)
    as (n1 & o & a & Hr & -> & Hns & Has & Ha & _).
  apply record_result_attempted in Hr as (Hc1 & _ & _).
  exists (clear_lease n1), a. unfold attempts_of. rewrite Hns, Has, attempts_append, dict_get_set_eq.
  rewrite decide_True by done. split_and!; try done. by rewrite Ha, Hc1.
Qed.

(** ** Witnesses *)

Definition refusal : NotificationSender := fun _ => Ok (DeliveryResult.mk false None (Some "channel_not_configured")).

Definition queued_sample : res NotificationRecord.t :=
  queued_notification 5%N 0 0 0 "t1"
    (NotificationCreate.mk None "alice" "email" "alice@example.com" "s" "b").

(** queued, claimed, refused once *)
Definition queued_desk : repo :=
  match queued_sample with Ok n => save_notification Repo.init n | Raise _ => Repo.init end.

Definition claimed_desk : list NotificationRecord.t * repo :=
  claim_due_notifications queued_desk None "w" 600 0 10 (fun i => N.of_nat (100 + i)).

Definition refused_desk : repo :=
  match claimed_desk.1 with
  | c :: _ => (deliver_notification claimed_desk.2 c refusal 5 1 7%N).2
  | [] => claimed_desk.2
  end.

Lemma queued_step n : queued_sample = Ok n -> desk_step 5 (Desk Repo.init []) (Desk queued_desk []).
Proof.
  intros Hq. unfold queued_desk. rewrite Hq.
  by apply (step_queue 5 5%N 0 0 0 "t1" _ n Repo.init [] Hq).
Qed.

Lemma leased_step : desk_step 5 (Desk queued_desk []) (Desk claimed_desk.2 claimed_desk.1).
Proof.
  apply (step_claim 5 None "w" 600 0 10 (fun i => N.of_nat (100 + i)) queued_desk [] claimed_desk.1 claimed_desk.2);
    [intros i c []|]. unfold claimed_desk. by destruct (claim_due_notifications _ _ _ _ _ _ _).
Qed.

Lemma refused_step c l :
  claimed_desk.1 = c :: l ->
  desk_step 5 (Desk claimed_desk.2 claimed_desk.1) (Desk refused_desk claimed_desk.1).
Proof.
  intros Hc. unfold refused_desk. rewrite Hc.
  apply (step_deliver 5 c refusal 1 7%N claimed_desk.2 (c :: l) (deliver_notification claimed_desk.2 c refusal 5 1 7%N).1);
    [by left|]. by destruct (deliver_notification _ _ _ _ _ _).
Qed.

Lemma refused_reached : rtc (desk_step 5) (Desk Repo.init []) (Desk refused_desk claimed_desk.1).
Proof.
  assert (Hq : exists n, queued_sample = Ok n) by (eexists; vm_compute; reflexivity).
  assert (Hc : exists c l, claimed_desk.1 = c :: l) by (do 2 eexists; vm_compute; reflexivity).
  destruct Hq as [n Hq], Hc as (c & l & Hc).
  eapply rtc_l; [exact (queued_step n Hq)|]. eapply rtc_l; [exact leased_step|].
  apply rtc_once. exact (refused_step c l Hc).
Qed.

Lemma delivery_bounded_witness :
  option_map NotificationRecord.attempt_count (dict_get 5%N (Repo.notifications refused_desk)) = Some 1 /\
  forall n, dict_get 5%N (Repo.notifications refused_desk) = Some n ->
    recorded 5 n (attempts_of refused_desk 5%N).
Proof.
  split; [vm_compute; reflexivity|]. intros n Hn.
  destruct (delivery_bounded 5 _ _ ltac:(lia) refused_reached) as [Hrec _]. exact (Hrec 5%N n Hn).
Defined.
