(* ===== verification/ApiGovernance.v ===== *)
(** * [apps/api/main.py]: change records, runtime controls, playbooks and provider onboarding *)

From S2P Require Import Prelude PyData Float64 PyStd Enums Models RiskEngine Recovery Policies Security.
From S2P Require Import Repository OpenAI Graph Providers Assessment Config Idempotency ApiCore ApiTrips.
From S2P Require Import ApiMemory.

Section Governance.
Context `{Env} `{Dump ChangeRecord.t} `{Validate ChangeRecord.t} `{Dump RuntimeControlUpdate.t}
  `{Dump RuntimeControlChange.t} `{Validate RuntimeControlChange.t}
  `{Dump PlatformRuntimeControlChange.t} `{Validate PlatformRuntimeControlChange.t}
  `{Dump TenantPlaybookCreate.t} `{Dump TenantPlaybook.t} `{Validate TenantPlaybook.t}
  `{Dump ProviderOnboardingRecord.t} `{Validate ProviderOnboardingRecord.t}.

Definition admins : list UserRole.t := [UserRole.TENANT_ADMIN].

(** ** Change records *)

Definition create_change_record (payload : ChangeRecord.t) (h : headers) : API ChangeRecord.t :=
  require_role (x_actor_role h) admins ;;
  _ ← require_actor_matches_payload (x_actor_id h) (ChangeRecord.requested_by payload);
  tenant_id ← require_tenant (x_tenant_id h);
  raise_if (ChangeRecord.tenant_id payload != tenant_id) (HTTPException 403 "tenant mismatch") ;;
  claimed ← claim_optional_mutation tenant_id (idempotency_key h) "POST:/v1/governance/changes" (dump payload);
  match claimed.2 with
  | Some replay => replayed replay
  | None =>
      put (fun r => save_change_record r payload) ;;
      complete_optional_mutation tenant_id (idempotency_key h) claimed.1 201 (dump payload) ;;
      mret payload
  end.

Definition list_change_records (h : headers) : API (list ChangeRecord.t) :=
  require_role (x_actor_role h) admins ;;
  tenant_id ← require_tenant (x_tenant_id h);
  ask (fun r => Repository.list_change_records r tenant_id).

(** ** Runtime controls *)

(** [payload.expires_at and payload.expires_at <= datetime.now(UTC)] *)
Definition require_future_expiry (payload : RuntimeControlUpdate.t) : API unit :=
  match RuntimeControlUpdate.expires_at payload with
  | None => mret tt
  | Some e =>
      t ← now;
      past ← lift_res (dt_le e (utc t));
      raise_if past (HTTPException 422 "control expiry must be in the future")
  end.

Definition control_event (kind scope tenant_id : string) (control_name : RuntimeControlName.t)
    (previous_enabled : bool) (actor_id : string) (payload : RuntimeControlUpdate.t) : API unit :=
  correlation_id ← uuid4;
  emit_event kind tenant_id None correlation_id (Some actor_id)
    [("scope", JStr scope); ("control_name", JStr (value control_name));
     ("reason", JStr (RuntimeControlUpdate.reason payload));
     ("previous_enabled", JBool previous_enabled);
     ("enabled", JBool (RuntimeControlUpdate.enabled payload));
     ("review_at", jstr_opt (isoformat <$> RuntimeControlUpdate.review_at payload));
     ("expires_at", jstr_opt (isoformat <$> RuntimeControlUpdate.expires_at payload))].

Definition runtime_change (id : uuid) (t : instant) (tenant_id : string) (control_name : RuntimeControlName.t)
    (previous_enabled : bool) (actor_id : string) (payload : RuntimeControlUpdate.t)
    : res RuntimeControlChange.t :=
  construct "RuntimeControlChange" RuntimeControlChange.valid
    (RuntimeControlChange.mk (RuntimeControlUpdate.enabled payload) (RuntimeControlUpdate.reason payload)
       (RuntimeControlUpdate.review_at payload) (RuntimeControlUpdate.expires_at payload)
       id tenant_id "tenant" control_name previous_enabled actor_id t).

Definition set_runtime_control (control_name : RuntimeControlName.t) (payload : RuntimeControlUpdate.t)
    (h : headers) : API RuntimeControlChange.t :=
  require_role (x_actor_role h) admins ;;
  tenant_id ← require_tenant (x_tenant_id h);
  require_future_expiry payload ;;
  actor ← require_actor_id (x_actor_id h);
  let actor_id := actor_or actor "local-compat-tenant-admin" in
  previous_enabled ← control_enabled tenant_id control_name;
  claimed ← claim_optional_mutation tenant_id (idempotency_key h)
    ("PUT:/v1/governance/runtime-controls/" +:+ value control_name) (dump payload);
  match claimed.2 with
  | Some replay => replayed replay
  | None =>
      id ← uuid4; t ← now;
      record ← lift_res (runtime_change id t tenant_id control_name previous_enabled actor_id payload);
      put (fun r => save_runtime_control_change r record) ;;
      control_event "runtime_control.changed" "tenant" tenant_id control_name previous_enabled actor_id
        payload ;;
      complete_optional_mutation tenant_id (idempotency_key h) claimed.1 200 (dump record) ;;
      mret record
  end.

Definition list_runtime_control_changes (h : headers) : API (list RuntimeControlChange.t) :=
  require_role (x_actor_role h) admins ;;
  tenant_id ← require_tenant (x_tenant_id h);
  ask (fun r => Repository.list_runtime_control_changes r tenant_id).

Definition platform_tenant : string := "platform-control-plane".

Definition platform_change (id : uuid) (t : instant) (control_name : RuntimeControlName.t)
    (previous_enabled : bool) (actor_id : string) (payload : RuntimeControlUpdate.t)
    : res PlatformRuntimeControlChange.t :=
  construct "PlatformRuntimeControlChange" PlatformRuntimeControlChange.valid
    (PlatformRuntimeControlChange.mk (RuntimeControlUpdate.enabled payload)
       (RuntimeControlUpdate.reason payload) (RuntimeControlUpdate.review_at payload)
       (RuntimeControlUpdate.expires_at payload) id "platform" control_name previous_enabled actor_id t).

Definition set_platform_runtime_control (control_name : RuntimeControlName.t)
    (payload : RuntimeControlUpdate.t) (h : headers) : API PlatformRuntimeControlChange.t :=
  require_role (x_actor_role h) [UserRole.PLATFORM_ADMIN] ;;
  require_future_expiry payload ;;
  actor ← require_actor_id (x_actor_id h);
  let actor_id := actor_or actor "local-compat-platform-admin" in
  t ← now;
  o ← ask (fun r => get_platform_control_override r control_name t);
  current ← lift_res o;
  let previous_enabled := match current with
                          | Some c => PlatformRuntimeControlChange.enabled c
                          | None => default_control_enabled control_name
                          end in
  claimed ← claim_optional_mutation platform_tenant (idempotency_key h)
    ("PUT:/v1/platform/runtime-controls/" +:+ value control_name) (dump payload);
  match claimed.2 with
  | Some replay => replayed replay
  | None =>
      id ← uuid4; t ← now;
      record ← lift_res (platform_change id t control_name previous_enabled actor_id payload);
      put (fun r => save_platform_control_change r record) ;;
      control_event "platform_runtime_control.changed" "platform" platform_tenant control_name
        previous_enabled actor_id payload ;;
      complete_optional_mutation platform_tenant (idempotency_key h) claimed.1 200 (dump record) ;;
      mret record
  end.

Definition list_platform_runtime_controls (h : headers) : API (list PlatformRuntimeControlChange.t) :=
  require_role (x_actor_role h) [UserRole.PLATFORM_ADMIN] ;;
  ask list_platform_control_changes.

(** ** Playbooks *)

Definition playbook_id_of (tenant_id : string) (payload : TenantPlaybookCreate.t) : uuid :=
  uuid5_url ("routeshield:playbook:" +:+ tenant_id +:+ ":" +:+ TenantPlaybookCreate.name payload +:+ ":"
             +:+ TenantPlaybookCreate.version payload).

Definition immutable_playbook {A} : API A :=
  http_error 409 "an immutable playbook already exists for this name and version".

Definition published (id : uuid) (t : instant) (tenant_id actor_id : string)
    (payload : TenantPlaybookCreate.t) : res TenantPlaybook.t :=
  construct "TenantPlaybook" TenantPlaybook.valid
    (TenantPlaybook.mk (TenantPlaybookCreate.name payload) (TenantPlaybookCreate.version payload)
       (TenantPlaybookCreate.guidance payload) id tenant_id actor_id t).

Definition publish_tenant_playbook (payload : TenantPlaybookCreate.t) (h : headers) : API TenantPlaybook.t :=
  require_role (x_actor_role h) admins ;;
  tenant_id ← require_tenant (x_tenant_id h);
  actor ← require_actor_id (x_actor_id h);
  raise_if (negb (truthy_opt_str actor)) (HTTPException 401 "an administrator actor identity is required") ;;
  let actor_id := default "" actor in
  let playbook_id := playbook_id_of tenant_id payload in
  existing ← ask (fun r => get_playbook r tenant_id playbook_id);
  match existing with
  | Some p =>
      if TenantPlaybook.guidance p != TenantPlaybookCreate.guidance payload then immutable_playbook else mret p
  | None =>
      claimed ← claim_optional_mutation tenant_id (idempotency_key h) "POST:/v1/governance/playbooks"
        (dump payload);
      match claimed.2 with
      | Some replay => replayed replay
      | None =>
          t ← now;
          playbook ← lift_res (published playbook_id t tenant_id actor_id payload);
          stored ← put_get (fun r => let '(p, r') := save_playbook r playbook in (Ok p, r'));
          if TenantPlaybook.guidance stored != TenantPlaybook.guidance playbook then immutable_playbook else
          correlation_id ← uuid4;
          emit_event "playbook.published" tenant_id None correlation_id (Some actor_id)
            [("playbook_id", juuid (TenantPlaybook.playbook_id stored));
             ("name", JStr (TenantPlaybook.name stored));
             ("version", JStr (TenantPlaybook.version stored))] ;;
          complete_optional_mutation tenant_id (idempotency_key h) claimed.1 201 (dump stored) ;;
          mret stored
      end
  end.

Definition list_tenant_playbooks (h : headers) : API (list TenantPlaybook.t) :=
  require_role (x_actor_role h) reviewers ;;
  tenant_id ← require_tenant (x_tenant_id h);
  ask (fun r => list_approved_playbooks r tenant_id).

(** ** Provider onboarding *)

Definition create_provider_onboarding (payload : ProviderOnboardingRecord.t) (h : headers)
    : API ProviderOnboardingRecord.t :=
  require_role (x_actor_role h) admins ;;
  _ ← require_actor_matches_payload (x_actor_id h) (ProviderOnboardingRecord.owner_id payload);
  tenant_id ← require_tenant (x_tenant_id h);
  raise_if (ProviderOnboardingRecord.tenant_id payload != tenant_id) (HTTPException 403 "tenant mismatch") ;;
  claimed ← claim_optional_mutation tenant_id (idempotency_key h) "POST:/v1/governance/providers"
    (dump payload);
  match claimed.2 with
  | Some replay => replayed replay
  | None =>
      put (fun r => save_provider_onboarding r payload) ;;
      complete_optional_mutation tenant_id (idempotency_key h) claimed.1 201 (dump payload) ;;
      mret payload
  end.

Definition list_provider_onboarding (h : headers) : API (list ProviderOnboardingRecord.t) :=
  require_role (x_actor_role h) admins ;;
  tenant_id ← require_tenant (x_tenant_id h);
  ask (fun r => Repository.list_provider_onboarding r tenant_id).

(** ** Start-up audit *)

Definition env_flag (name : string) : bool := str_lower (default "false" (getenv name)) == "true".

Definition audit_runtime_controls : API unit :=
  correlation_id ← uuid4;
  t ← now;
  event_id ← uuid4;
  emitted_at ← now;
  put (fun r => (record_event r
    (EventRecord.mk event_id "runtime_controls.loaded" "system" None correlation_id
       ("runtime-controls:" +:+ isoformat (utc t)) emitted_at None
       [("llm_enabled", JBool (RuntimeControls.llm_enabled controls));
        ("react_tool_calls_enabled", JBool (RuntimeControls.react_tool_calls_enabled controls));
        ("notifications_enabled", JBool (RuntimeControls.notifications_enabled controls));
        ("approval_actions_enabled", JBool (RuntimeControls.approval_actions_enabled controls));
        ("memory_reads_enabled", JBool (RuntimeControls.memory_reads_enabled controls));
        ("memory_writes_enabled", JBool (RuntimeControls.memory_writes_enabled controls));
        ("tenant_automation_enabled", JBool (RuntimeControls.tenant_automation_enabled controls));
        ("provider_controls", JObj
           [("amadeus", JBool (env_flag "PROVIDER_AMADEUS_ENABLED"));
            ("faa", JBool (env_flag "PROVIDER_FAA_ENABLED"));
            ("nws", JBool (env_flag "PROVIDER_NWS_ENABLED"));
            ("aviation_weather", JBool (env_flag "PROVIDER_AVIATION_WEATHER_ENABLED"));
            ("google_routes", JBool (env_flag "PROVIDER_GOOGLE_ROUTES_ENABLED"));
            ("destination_advisory", JBool (env_flag "PROVIDER_DESTINATION_ADVISORY_ENABLED"))])])).2).

End Governance.
