(* ===== verification/ApiIngestion.v ===== *)
(** * [apps/api/main.py]: CSV imports and the signed booking webhook *)

From S2P Require Import Prelude PyData Float64 PyStd Enums Models RiskEngine Recovery Policies Security.
From S2P Require Import Repository OpenAI Graph Providers Assessment Config Idempotency Workers Ingestion.
From S2P Require Import ApiCore ApiTrips ApiRecovery.

Section Ingest.
Context `{Env} `{Dump Trip.t} `{Dump AssessmentResult.t} `{Validate AssessmentResult.t}
  `{Validate TripCreate.t} `{Dump BookingWebhookEvent.t} `{Validate BookingWebhookEvent.t}.

(** ** CSV imports *)

(** [original_upload_store.put]: the bucket, or the store in process *)
Definition put_original (tenant_id : string) (upload_id : uuid) (content : string) : API (string * string) :=
  fun w =>
    match evidence_bucket with
    | Some bucket =>
        let '(token, upload) := bucket (World.ticks w) in
        (GcsOriginalUploadStore.put sha256_hex token upload tenant_id upload_id content, w)
    | None =>
        let '(stored, objects) :=
          InMemoryOriginalUploadStore.put sha256_hex (World.uploads w) tenant_id upload_id content in
        (Ok stored, w <| World.uploads := objects |>)
    end.

(** [except (httpx.HTTPError, RuntimeError)] *)
Definition storage_failure (e : exn) : bool :=
  match e with RuntimeError _ => true | e => e == GcsOriginalUploadStore.http_error end.

Definition store_original (tenant_id : string) (upload_id : uuid) (content : string) : API (string * string) :=
  catch (put_original tenant_id upload_id content) (fun e =>
    if storage_failure e then http_error 503 "original upload storage is unavailable" else raise e).

Definition csv_upload (upload_id : uuid) (created_at : instant) (tenant_id object_key content_sha256 : string)
    (content : string) : res OriginalUploadRecord.t :=
  construct "OriginalUploadRecord" OriginalUploadRecord.valid
    (OriginalUploadRecord.mk upload_id tenant_id "csv" object_key content_sha256 (str_len content) "text/csv"
       OriginalUploadStatus.QUARANTINED [] created_at None).

(** [row["tenant_id"] != tenant_id] *)
Definition other_tenant (tenant_id : string) (row : csv_row) : res bool :=
  match dict_get (Some "tenant_id") row with
  | None => Raise (KeyError "tenant_id")
  | Some value => Ok (value != Text tenant_id)
  end.

Fixpoint any_other_tenant (tenant_id : string) (rows : list csv_row) : res bool :=
  match rows with
  | [] => Ok false
  | row :: rows' =>
      other ← other_tenant tenant_id row;
      if other : bool then Ok true else any_other_tenant tenant_id rows'
  end.

(** the stored record is the one assigned to *)
Definition reject_upload (upload : OriginalUploadRecord.t) (error : string) : API unit :=
  put (fun r => save_original_upload r
    (upload <| OriginalUploadRecord.status := OriginalUploadStatus.REJECTED |>
            <| OriginalUploadRecord.validation_errors := [error] |>)).

(** the rows of a quarantined upload, or its rejection *)
Definition validated_rows (tenant_id content : string) (upload : OriginalUploadRecord.t)
    : API (list csv_row) :=
  match parse_csv_rows content with
  | Raise (ValueError msg) => reject_upload upload msg ;; http_error 422 msg
  | Raise e => raise e
  | Ok rows =>
      mismatch ← lift_res (any_other_tenant tenant_id rows);
      if mismatch : bool then reject_upload upload "tenant mismatch" ;; http_error 403 "tenant mismatch"
      else mret rows
  end.

(** [replay.response_payload or {...}] *)
Definition payload_or (fallback : json) (replay : IdempotencyRecord.t) : json :=
  match IdempotencyRecord.response_payload replay with
  | Some j => if truthy j then j else fallback
  | None => fallback
  end.

Definition validate_trip_csv (content : string) (h : headers) : API json :=
  require_role (x_actor_role h) managers ;;
  tenant_id ← require_tenant (x_tenant_id h);
  claimed ← claim_optional_mutation tenant_id (idempotency_key h) "POST:/v1/trips/import/csv"
    (JObj [("content_sha256", JStr (sha256_hex content))]);
  match claimed.2 with
  | Some replay => mret (payload_or (JObj []) replay)
  | None =>
      upload_id ← uuid4;
      stored ← store_original tenant_id upload_id content;
      created_at ← now;
      upload ← lift_res (csv_upload upload_id created_at tenant_id stored.1 stored.2 content);
      put (fun r => save_original_upload r upload) ;;
      rows ← validated_rows tenant_id content upload;
      validated_at ← now;
      let upload := upload <| OriginalUploadRecord.status := OriginalUploadStatus.VALIDATED |>
                           <| OriginalUploadRecord.validated_at := Some validated_at |> in
      put (fun r => save_original_upload r upload) ;;
      let response := JObj [("validated_rows", JInt (len rows));
                            ("original_upload_id", juuid (OriginalUploadRecord.original_upload_id upload));
                            ("status", JStr (value (OriginalUploadRecord.status upload)))] in
      complete_optional_mutation tenant_id (idempotency_key h) claimed.1 200 response ;;
      mret response
  end.

(** ** The booking webhook *)

Record webhook_headers : Type := WebhookHeaders {
  x_webhook_signature : option string;
  x_webhook_timestamp : option string;
  webhook_tenant_id : option string
}.

(** [if not secret or not x_webhook_signature or not x_webhook_timestamp] *)
Definition webhook_credentials (h : webhook_headers) : option (string * string * string) :=
  match getenv "BOOKING_WEBHOOK_SECRET", x_webhook_signature h, x_webhook_timestamp h with
  | Some secret, Some signature, Some timestamp =>
      if truthy_str secret && truthy_str signature && truthy_str timestamp
      then Some (secret, signature, timestamp) else None
  | _, _, _ => None
  end.

(** the authenticated event of a request *)
Definition authentic_webhook (body : string) (h : webhook_headers) : API BookingWebhookEvent.t :=
  match webhook_credentials h with
  | None => http_error 401 "invalid webhook credentials"
  | Some (secret, signature, text) =>
      genuine ← lift_res (verify_webhook_signature hmac_sha256_hex body signature secret (Some text));
      raise_if (negb genuine) (HTTPException 401 "invalid webhook signature") ;;
      t ← now;
      match (timestamp ← parse_webhook_timestamp fromisoformat text t;
             parse_booking_webhook json_loads model_validate body timestamp) with
      | Ok webhook =>
          raise_if (truthy_opt_str (webhook_tenant_id h) &&
                    negb (bool_decide (webhook_tenant_id h = Some (BookingWebhookEvent.tenant_id webhook))))
            (HTTPException 403 "tenant mismatch") ;;
          mret webhook
      | Raise (ValueError msg) => http_error 422 msg
      | Raise e => raise e
      end
  end.

Definition existing_trip (webhook : BookingWebhookEvent.t) : API (option Trip.t) :=
  match BookingWebhookEvent.trip_id webhook with
  | Some id => ask (fun r => Repository.get_trip r (BookingWebhookEvent.tenant_id webhook) id)
  | None => mret None
  end.

(** an itinerary the event creates or replaces *)
Definition upserted_trip (webhook : BookingWebhookEvent.t) : API (Trip.t * string) :=
  let event_type := BookingWebhookEvent.event_type webhook in
  match dict_get "trip" (BookingWebhookEvent.data webhook) with
  | Some (JObj raw_trip) =>
      match (model_validate (JObj raw_trip) : res TripCreate.t) with
      | Raise _ => http_error 422 (event_type +:+ " trip is invalid")
      | Ok payload =>
          raise_if (TripCreate.tenant_id payload != BookingWebhookEvent.tenant_id webhook)
            (HTTPException 403 "tenant mismatch") ;;
          existing ← existing_trip webhook;
          let updating := event_type == "itinerary.updated" in
          raise_if (updating && negb (is_some (BookingWebhookEvent.trip_id webhook)))
            (HTTPException 422 "itinerary.updated requires trip_id") ;;
          raise_if (updating && negb (is_some existing)) (HTTPException 404 "trip not found") ;;
          id ← (match BookingWebhookEvent.trip_id webhook with Some id => mret id | None => uuid4 end);
          created_at ← (match existing with Some t => mret (Trip.created_at t) | None => now end);
          trip ← lift_res (construct "Trip" Trip.valid (Trip.of_create payload id TripStatus.ACTIVE created_at));
          mret (trip, if is_some existing then "itinerary_updated" else "itinerary_created")
      end
  | _ => http_error 422 (event_type +:+ " requires a trip object")
  end.

Definition cancelled_trip (webhook : BookingWebhookEvent.t) : API (Trip.t * string) :=
  match BookingWebhookEvent.trip_id webhook with
  | None => http_error 422 "itinerary.cancelled requires trip_id"
  | Some _ =>
      existing ← existing_trip webhook;
      trip ← found existing "trip not found";
      mret (trip <| Trip.status := TripStatus.CANCELLED |>, "itinerary_cancelled")
  end.

(** the trip the event changes and how, for an itinerary event *)
Definition trip_change (webhook : BookingWebhookEvent.t) : API (option (Trip.t * string)) :=
  let event_type := BookingWebhookEvent.event_type webhook in
  if mem event_type ["itinerary.upsert"; "itinerary.updated"]
  then change ← upserted_trip webhook; mret (Some change)
  else if event_type == "itinerary.cancelled"
  then change ← cancelled_trip webhook; mret (Some change)
  else mret None.

Definition cancellation_evidence (id : uuid) (retrieved_at expiry_from : instant) (message_id : string)
    : res EvidenceEnvelope.t :=
  construct "EvidenceEnvelope" EvidenceEnvelope.valid
    {| EvidenceEnvelope.evidence_id := id;
       EvidenceEnvelope.source_name := "booking-webhook";
       EvidenceEnvelope.source_type := "flight_status";
       EvidenceEnvelope.source_url_or_record_id := "booking-webhook:" +:+ message_id;
       EvidenceEnvelope.retrieved_at := utc retrieved_at;
       EvidenceEnvelope.observed_at := None;
       EvidenceEnvelope.expires_at := utc (expiry_from + 15 * minute);
       EvidenceEnvelope.freshness_status := FreshnessStatus.FRESH;
       EvidenceEnvelope.normalized_payload := [("risk_score", JInt 100); ("booking_status", JStr "cancelled")];
       EvidenceEnvelope.raw_payload_reference := None;
       EvidenceEnvelope.provider_latency_ms := None;
       EvidenceEnvelope.provider_request_id := None;
       EvidenceEnvelope.error_code := None |}.

(** new flight and route evidence is needed; a cancellation is itself evidence *)
Definition revise_evidence (trip : Trip.t) (material_change message_id : string) : API unit :=
  let tenant_id := Trip.tenant_id trip in
  if material_change == "itinerary_updated"
  then try_put (fun r => save_evidence r tenant_id (Trip.trip_id trip) [])
  else if material_change == "itinerary_cancelled" then
    current ← ask (fun r => get_evidence r tenant_id (Trip.trip_id trip));
    id ← uuid4; t ← now; t' ← now;
    cancellation ← lift_res (cancellation_evidence id t t' message_id);
    try_put (fun r => save_evidence r tenant_id (Trip.trip_id trip)
      (List.filter (fun e => EvidenceEnvelope.source_type e != "flight_status") current ++ [cancellation]))
  else mret tt.

(** the trip is stored, its evidence revised and its risk assessed again *)
Definition apply_change (change : Trip.t * string) (idempotency_key message_id : string) : API uuid :=
  let '(trip, material_change) := change in
  put (fun r => save_trip r trip) ;;
  revise_evidence trip material_change message_id ;;
  result ← assess_trip (Trip.trip_id trip) None
    (Headers (Some (Trip.tenant_id trip)) (Some UserRole.TENANT_ADMIN) (Some "booking-webhook")
       (Some (idempotency_key +:+ ":assessment")));
  mret (RiskAssessment.assessment_id (AssessmentResult.assessment result)).

Definition booking_webhook (body : string) (h : webhook_headers) : API json :=
  webhook ← authentic_webhook body h;
  change ← trip_change webhook;
  let tenant_id := BookingWebhookEvent.tenant_id webhook in
  let message_id := BookingWebhookEvent.message_id webhook in
  let key := "booking-webhook:" +:+ message_id in
  let changed_trip := Trip.trip_id ∘ fst <$> change in
  claimed ← claim_mutation tenant_id key "POST:/v1/webhooks/booking" (dump webhook);
  match claimed.2 with
  | Some replay => mret (payload_or (JObj [("status", JStr "accepted")]) replay)
  | None =>
      correlation_id ← uuid4; event_id ← uuid4; emitted_at ← now;
      event ← put_get (fun r => let '(event, r') := record_event r
        (EventRecord.mk event_id ("booking_webhook." +:+ BookingWebhookEvent.event_type webhook) tenant_id
           (union changed_trip (BookingWebhookEvent.trip_id webhook)) correlation_id key emitted_at None
           [("message_id", JStr message_id);
            ("occurred_at", JStr (isoformat (BookingWebhookEvent.occurred_at webhook)));
            ("payload_keys", JList (List.map JStr (sorted str_leb (dict_keys (BookingWebhookEvent.data webhook)))));
            ("material_change", jstr_opt (snd <$> change))]) in
        (Ok event, r'));
      assessment_id ← (match change with
                       | Some c => id ← apply_change c key message_id; mret (Some id)
                       | None => mret None
                       end);
      let response := JObj [("status", JStr "accepted"); ("message_id", JStr message_id);
                            ("event_id", juuid (EventRecord.event_id event));
                            ("trip_id", jstr_opt (uuid_str <$> changed_trip));
                            ("assessment_id", jstr_opt (uuid_str <$> assessment_id));
                            ("material_change", jstr_opt (snd <$> change))] in
      complete_mutation tenant_id key claimed.1 202 response ;;
      mret response
  end.

End Ingest.
