(* ===== verification/Retries.v ===== *)
(** * Requests with an idempotency key: the retry of an answered request

    The shape shared by the mutating routes (claim the key, replay or run the
    body, store the response) and what it guarantees. *)

From S2P Require Import Prelude PyData Float64 PyStd Enums Models Recovery Repository Assessment Config.
From S2P Require Import Idempotency Ingestion ApiCore ApiLogic Samples ApiTrips ApiIncidents.

Section Retries.
Context `{Env}.

(** ** The claim and the completion *)

Definition record_at (tenant key : string) (o : option IdempotencyRecord.t) (r : repo) : Prop :=
  dict_get (tenant, key) (Repo.idempotency_records r) = o.

(** the claim that is told to execute leaves a live claim of its request *)
Lemma claim_executes tenant key scope payload w hash w' :
  claim_mutation tenant key scope payload w = (Ok (hash, None), w') ->
  hash = fingerprint scope payload /\
  exists e, record_at tenant key (Some e) (World.store w') /\
    IdempotencyRecord.scope e = scope /\ IdempotencyRecord.request_hash e = hash /\
    IdempotencyRecord.expires_at e =
      clock_at (World.ticks w) + RuntimeControls.idempotency_ttl_seconds controls * second.
Proof.
  unfold claim_mutation. intros E. runs.
  match goal with C : claim_idempotency _ _ _ _ _ _ _ = (Ok ?p, _) |- _ => destruct p as [disposition record] end.
  case_bool_decide as Hd; [|case_bool_decide; [|case_bool_decide]; runs; congruence]. subst. runs.
  injection H0 as ->. split; [done|]. exists record.
  match goal with C : claim_idempotency _ _ _ _ _ _ _ = _ |- _ =>
    apply claim_execute in C as (He & Hs & Hh & _ & Hg) end.
  by split_and!.
Qed.

(** the claim that is told to replay found a completed request of the same body *)
Lemma claim_replayed tenant key scope payload w hash e w' :
  claim_mutation tenant key scope payload w = (Ok (hash, Some e), w') ->
  record_at tenant key (Some e) (World.store w') /\
  IdempotencyRecord.scope e = scope /\ IdempotencyRecord.request_hash e = fingerprint scope payload /\
  IdempotencyRecord.state e = IdempotencyState.COMPLETED.
Proof.
  unfold claim_mutation. intros E. runs.
  match goal with C : claim_idempotency _ _ _ _ _ _ _ = (Ok ?p, _) |- _ => destruct p as [disposition record] end.
  case_bool_decide; [runs; congruence|]. case_bool_decide as Hd; [|case_bool_decide; runs; congruence].
  subst. runs. injection H1 as -> ->.
  match goal with C : claim_idempotency _ _ _ _ _ _ _ = _ |- _ => unfold claim_idempotency in C; revert C end.
  set (expired := match dict_get (tenant, key) _ with Some _ => _ | None => false end). unfold record_at.
  destruct expired; [by destruct (construct _ _ _)|].
  destruct (dict_get (tenant, key) _) as [x|] eqn:Hg; [|by destruct (construct _ _ _)].
  destruct (_ || _) eqn:Hm; [done|]. destruct (IdempotencyRecord.state x == _) eqn:Hc; [|done].
  intros [= -> <-]. bool_hyps. by split_and!.
Qed.

(** a completed request of the same body is replayed, and nothing changes *)
Lemma claim_replays tenant key scope payload e w :
  record_at tenant key (Some e) (World.store w) ->
  IdempotencyRecord.scope e = scope -> IdempotencyRecord.request_hash e = fingerprint scope payload ->
  IdempotencyRecord.state e = IdempotencyState.COMPLETED ->
  clock_at (S (World.ticks w)) < IdempotencyRecord.expires_at e ->
  exists w', claim_mutation tenant key scope payload w = (Ok (fingerprint scope payload, Some e), w') /\
             World.store w' = World.store w.
Proof.
  intros Hr Hs Hh Hc He. eexists. unfold claim_mutation. run. unfold now, put_get. simpl.
  rewrite (claim_live _ _ _ _ _ _ _ e Hr He), Hs, Hh, Hc.
  rewrite (bool_decide_true (scope = scope)), (bool_decide_true (fingerprint scope payload = _)) by done.
  split; reflexivity.
Qed.

Lemma complete_records tenant key hash code payload w x w' e :
  complete_mutation tenant key hash code payload w = (Ok x, w') ->
  record_at tenant key (Some e) (World.store w) ->
  record_at tenant key (Some (e <| IdempotencyRecord.state := IdempotencyState.COMPLETED |>
    <| IdempotencyRecord.response_status_code := Some code |>
    <| IdempotencyRecord.response_payload := Some payload |>
    <| IdempotencyRecord.completed_at := Some (clock_at (World.ticks w)) |>)) (World.store w').
Proof.
  unfold complete_mutation. intros E Hr. runs. apply res_bind_ok in E as ([rec r'] & E & ->%Ok_inj).
  unfold complete_idempotency in E. simpl in E. unfold record_at in *. rewrite Hr in E.
  destruct (_ != _); [done|]. injection E as _ <-. simpl. by rewrite dict_get_set_eq.
Qed.

(** ** Bodies that leave the claims of other keys alone *)

Abbreviation framed t k e := (keeps (record_at t k (Some e))).

#[local] Hint Extern 1 (keeps (record_at _ _ _) (put _)) =>
  (apply keeps_put; intros ? Hrecord; exact Hrecord) : keeps.

Section Frames.
Context (t k : string) (e : IdempotencyRecord.t).

Lemma framed_emit kind tenant trip correlation actor details :
  framed t k e (emit_event kind tenant trip correlation actor details).
Proof. unfold emit_event. keeps. Qed.

Lemma framed_save_evidence tenant id items : framed t k e (try_put (fun r => save_evidence r tenant id items)).
Proof.
  apply keeps_try_put. intros r r'. unfold save_evidence.
  destruct (Repository.get_trip _ _ _); [by intros <-%Ok_inj|done].
Qed.

Lemma framed_save_assessment tenant a : framed t k e (try_put (fun r => save_assessment r tenant a)).
Proof.
  apply keeps_try_put. intros r r'. unfold save_assessment.
  destruct (Repository.get_trip _ _ _); [by intros <-%Ok_inj|done].
Qed.
#[local] Hint Resolve framed_emit framed_save_evidence framed_save_assessment : keeps.

Lemma framed_claim tenant key scope payload :
  (tenant, key) <> (t, k) -> framed t k e (claim_mutation tenant key scope payload).
Proof.
  intros Hne. unfold claim_mutation. keeps. apply keeps_put_get. unfold record_at. intros r Hr.
  unfold claim_idempotency. set (expired := match dict_get (tenant, key) _ with Some _ => _ | None => false end).
  set (r1 := if expired then _ else r).
  assert (H1 : dict_get (t, k) (Repo.idempotency_records r1) = Some e).
  { subst r1. destruct expired; [|done]. simpl. by rewrite dict_get_pop, bool_decide_false by congruence. }
  clearbody r1. destruct (if expired then None else _) as [x|].
  - destruct (_ || _); [done|]. by destruct (IdempotencyRecord.state x == _).
  - destruct (construct _ _ _); [|done]. simpl. by rewrite dict_get_set_ne by congruence.
Qed.

Lemma framed_complete tenant key hash code payload :
  (tenant, key) <> (t, k) -> framed t k e (complete_mutation tenant key hash code payload).
Proof.
  intros Hne. unfold complete_mutation. keeps. apply keeps_try_put. unfold record_at.
  intros r r' ([rec r1] & E & ->%Ok_inj)%res_bind_ok Hr. revert E. unfold complete_idempotency.
  destruct (dict_get (tenant, key) _); [|done]. destruct (_ != _); [done|]. intros E%Ok_inj.
  injection E as _ <-. simpl. by rewrite dict_get_set_ne by congruence.
Qed.

Lemma framed_claim_optional tenant key scope payload :
  (forall x, key = Some x -> (tenant, x) <> (t, k)) ->
  framed t k e (claim_optional_mutation tenant key scope payload).
Proof.
  intros Hne. unfold claim_optional_mutation. keeps. by apply framed_claim, Hne.
Qed.

Lemma framed_complete_optional tenant key hash code payload :
  (forall x, key = Some x -> (tenant, x) <> (t, k)) ->
  framed t k e (complete_optional_mutation tenant key hash code payload).
Proof.
  intros Hne. unfold complete_optional_mutation. keeps. by apply framed_complete, Hne.
Qed.

Lemma framed_snapshot `{Dump Trip.t} tenant trip scenario : framed t k e (assess_snapshot tenant trip scenario).
Proof.
  unfold assess_snapshot, snapshot, observed, open_incident, run_graph_investigation. keeps.
Qed.

Lemma framed_decide id payload tenant : framed t k e (decide_incident id payload tenant).
Proof. unfold decide_incident, requested_status, queue_action. keeps. Qed.

End Frames.

(** ** Parts of the store that requests leave to their bodies

    A view of the store that does not look at the idempotency records or the event
    log is not changed by claims, completions and emissions. *)

Section Views.
Context {B : Type} (f : repo -> B) (b : B).
Hypothesis unkeyed : forall r g, f (r <| Repo.idempotency_records ::= g |>) = f r.
Hypothesis unlogged : forall r g, f (r <| Repo.events ::= g |>) = f r.

Lemma view_claimed tenant key scope payload :
  keeps (fun r => f r = b) (claim_mutation tenant key scope payload).
Proof using unkeyed.
  unfold claim_mutation. keeps. apply keeps_put_get; intros r Hr.
  unfold claim_idempotency. set (expired := match dict_get _ _ with Some _ => _ | None => false end).
  destruct expired; simpl; repeat case_match; simpl; rewrite ?unkeyed; done.
Qed.

Lemma view_completed tenant key hash code payload :
  keeps (fun r => f r = b) (complete_mutation tenant key hash code payload).
Proof using unkeyed.
  unfold complete_mutation. keeps. apply keeps_try_put.
  intros r r' ([rec r1] & E & ->%Ok_inj)%res_bind_ok Hr. revert E. unfold complete_idempotency.
  destruct (dict_get _ _); [|done]. destruct (_ != _); [done|]. intros E%Ok_inj. injection E as _ <-.
  by rewrite unkeyed.
Qed.

Lemma view_claim tenant key scope payload :
  keeps (fun r => f r = b) (claim_optional_mutation tenant key scope payload).
Proof using unkeyed. unfold claim_optional_mutation. keeps. apply view_claimed. Qed.

Lemma view_complete tenant key hash code payload :
  keeps (fun r => f r = b) (complete_optional_mutation tenant key hash code payload).
Proof using unkeyed. unfold complete_optional_mutation. keeps. apply view_completed. Qed.

Lemma view_emit kind tenant trip correlation actor details :
  keeps (fun r => f r = b) (emit_event kind tenant trip correlation actor details).
Proof using unlogged. apply keeps_emit. intros r e Hr. unfold record_event. simpl. by rewrite unlogged. Qed.

End Views.

(** ** Round trips *)

(** pydantic reads back what it wrote *)
Class RoundTrip (A : Type) `{Dump A, Validate A} : Prop :=
  round_trip : forall a, model_validate (dump a) = Ok a.

(** [claim; replay or body and completion]: the tail of a mutating route *)
Definition mutation {A} `{Dump A} `{Validate A} (tenant key scope : string) (payload : json) (code : Z)
    (body : API A) : API A :=
  claimed ← claim_mutation tenant key scope payload;
  match claimed.2 with
  | Some replay => replayed replay
  | None => a ← body; complete_mutation tenant key claimed.1 code (dump a) ;; mret a
  end.

(** the record under which the answer [a] of a request is kept *)
Definition answers {A} `{Dump A} `{Validate A} (tenant key scope : string) (payload : json) (a : A)
    (e : IdempotencyRecord.t) (r : repo) : Prop :=
  record_at tenant key (Some e) r /\ IdempotencyRecord.scope e = scope /\
  IdempotencyRecord.request_hash e = fingerprint scope payload /\
  IdempotencyRecord.state e = IdempotencyState.COMPLETED /\
  model_validate (default JNull (IdempotencyRecord.response_payload e)) = Ok a.

Lemma mutation_answers {A} `{RoundTrip A} tenant key scope payload code (body : API A) w a w' :
  (forall e, framed tenant key e body) -> mutation tenant key scope payload code body w = (Ok a, w') ->
  exists e, answers tenant key scope payload a e (World.store w').
Proof.
  intros Hb E. unfold mutation in E. runs.
  match goal with C : claim_mutation _ _ _ _ _ = (Ok ?c, _) |- _ => destruct c as [hash [e|]] end; simpl in *.
  - apply claim_replayed in E0 as (Hr & Hs & Hh & Hc). unfold replayed in E. runs. by exists e.
  - apply claim_executes in E0 as (-> & e & Hr & Hs & Hh & _). runs.
    match goal with B : body ?w1 = (Ok _, ?w2) |- _ => pose proof (Hb e w1 Hr) as Hr2; rewrite B in Hr2 end.
    match goal with C : complete_mutation _ _ _ _ _ _ = _ |- _ => apply (complete_records _ _ _ _ _ _ _ _ e) in C end;
      [|done].
    eexists. split; [eassumption|]. simpl. by split_and!.
Qed.

Lemma mutation_retried {A} `{Dump A} `{Validate A} tenant key scope payload code (body : API A) a e w :
  answers tenant key scope payload a e (World.store w) ->
  clock_at (S (World.ticks w)) < IdempotencyRecord.expires_at e ->
  exists w', mutation tenant key scope payload code body w = (Ok a, w') /\ World.store w' = World.store w.
Proof.
  intros (Hr & Hs & Hh & Hc & Ha) He.
  destruct (claim_replays tenant key scope payload e w Hr Hs Hh Hc He) as (w' & E & Hw).
  exists w'. split; [|done]. unfold mutation. rewrite M_bind_unfold, E. simpl. unfold replayed, lift_res.
  by rewrite Ha.
Qed.

End Retries.
