(* ===== verification/Decisions.v ===== *)
(** * Human decisions on an incident, and the monitor's windows

    What a decision changes, that it is made once, and that a retry of its
    request answers the same without a second effect. *)

From stdpp Require Import relations.
From S2P Require Import Prelude PyData Float64 PyStd Enums Models Recovery Repository StoreInvariant.
From S2P Require Import ServiceInvariant Graph Providers Assessment Config Idempotency Workers Ingestion.
From S2P Require Import ApiCore ApiLogic Samples ApiTrips ApiIncidents Retries.

Section Decisions.
Context `{Env} `{!Dump ApprovalRequest.t} `{!Dump ApprovalRecord.t} `{!Validate ApprovalRecord.t}.

Definition undecided : exn := HTTPException 409 "incident is not awaiting approval".

Definition decided (incident : Incident.t) (approval : ApprovalRecord.t) : Incident.t :=
  incident <| Incident.status := decided_status (ApprovalRecord.decision approval) |>
           <| Incident.updated_at := ApprovalRecord.decided_at approval |>.

(** what the outbox holds for an approval *)
Definition queued_for (tenant : string) (incident_id : uuid) (approval : ApprovalRecord.t)
    (a : ActionDispatchRecord.t) : Prop :=
  ActionDispatchRecord.tenant_id a = tenant /\ ActionDispatchRecord.incident_id a = incident_id /\
  ActionDispatchRecord.approval_id a = ApprovalRecord.approval_id approval /\
  ActionDispatchRecord.action_payload a = ApprovalRecord.final_action_payload approval /\
  ActionDispatchRecord.status a = ActionDispatchStatus.QUEUED /\
  ActionDispatchRecord.attempt_count a = 0.

(** the part of the store a decision is about *)
Definition decision_view (r : repo) : dict uuid Incident.t * dict uuid ApprovalRecord.t *
    dict uuid ActionDispatchRecord.t :=
  (Repo.incidents r, Repo.approvals r, Repo.action_dispatches r).

Lemma emit_view b kind tenant trip correlation actor details :
  keeps (fun r => decision_view r = b) (emit_event kind tenant trip correlation actor details).
Proof. by apply keeps_emit. Qed.
#[local] Hint Resolve emit_view : keeps.

Lemma queue_action_effect tenant incident approval payload w a w' :
  queue_action tenant incident approval payload w = (Ok a, w') ->
  ApprovalRecord.final_action_payload approval = ApprovalRequest.final_action_payload payload ->
  queued_for tenant (Incident.incident_id incident) approval a /\
  decision_view (World.store w') =
    decision_view (save_action_dispatch (World.store w) a).
Proof.
  unfold queue_action. intros E Hp. runs. apply construct_ok in H0 as [-> _].
  match goal with E : emit_event _ _ _ _ _ _ _ = _ |- _ => apply (keeps_view decision_view) in E; [|auto with keeps] end.
  split; [|done]. by rewrite <-Hp.
Qed.

Lemma graph_step_view b thread payload action : keeps (fun r => decision_view r = b)
  (match thread with
   | Some thread_id => if truthy_str thread_id then graph_resume thread_id (resume_payload payload action)
                       else mret tt
   | None => mret tt
   end).
Proof. keeps. Qed.

(** the outbox status of a decision, by the payload and the tenant's switch *)
Definition status_of_request (tenant : string) (payload : ApprovalRequest.t) (w : World.t) (status : string) : Prop :=
  if nonempty (ApprovalRequest.final_action_payload payload)
  then exists enabled w1, control_enabled tenant RuntimeControlName.APPROVAL_ACTIONS_ENABLED w = (Ok enabled, w1) /\
         status = if enabled : bool then "pending" else "suppressed"
  else status = "not_requested".

Lemma requested_status_ok tenant payload w status w' :
  requested_status tenant payload w = (Ok status, w') ->
  World.store w' = World.store w /\ status_of_request tenant payload w status.
Proof.
  unfold requested_status, status_of_request. intros E.
  destruct (nonempty (ApprovalRequest.final_action_payload payload)); [|by runs].
  apply M_bind_ok in E as (enabled & w1 & E & [-> ->]%ret_ok).
  split; [|by exists enabled, w1]. eapply quiet_ok; [|exact E]. auto with keeps.
Qed.

(** the outbox after a decision: one new action, when it was asked for and enabled *)
Definition outbox_after (tenant : string) (id : uuid) (approval : ApprovalRecord.t) (r r' : repo) : Prop :=
  if ApprovalRecord.action_dispatch_status approval == "pending"
  then exists a, queued_for tenant id approval a /\
         Repo.action_dispatches r' = dict_set (ActionDispatchRecord.action_dispatch_id a) a (Repo.action_dispatches r)
  else Repo.action_dispatches r' = Repo.action_dispatches r.

(** what [approval] records of the request *)
Definition records_request (id : uuid) (payload : ApprovalRequest.t) (approval : ApprovalRecord.t) : Prop :=
  ApprovalRecord.incident_id approval = id /\
  ApprovalRecord.decision approval = ApprovalRequest.decision payload /\
  ApprovalRecord.actor_id approval = ApprovalRequest.actor_id payload /\
  ApprovalRecord.reason approval = ApprovalRequest.reason payload /\
  ApprovalRecord.final_action_payload approval = ApprovalRequest.final_action_payload payload.

Lemma queue_step_effect tenant incident approval payload (b : bool) w o w' :
  (if b then a ← queue_action tenant incident approval payload; mret (Some a) else mret None) w = (Ok o, w') ->
  ApprovalRecord.final_action_payload approval = ApprovalRequest.final_action_payload payload ->
  Repo.incidents (World.store w') = Repo.incidents (World.store w) /\
  Repo.approvals (World.store w') = Repo.approvals (World.store w) /\
  if b then exists a, queued_for tenant (Incident.incident_id incident) approval a /\
         Repo.action_dispatches (World.store w') =
           dict_set (ActionDispatchRecord.action_dispatch_id a) a (Repo.action_dispatches (World.store w))
  else Repo.action_dispatches (World.store w') = Repo.action_dispatches (World.store w).
Proof.
  destruct b; intros E Hp; runs; [|done].
  match goal with E : queue_action _ _ _ _ _ = _ |- _ => apply queue_action_effect in E as [Hq Hv]; [|done] end.
  unfold decision_view in Hv. simpl in Hv. injection Hv as -> -> Hd. split_and!; eauto.
Qed.

Lemma decide_effect id payload tenant w approval w' :
  decide_incident id payload tenant w = (Ok approval, w') ->
  exists incident,
    Repository.get_incident (World.store w) tenant id = Some incident /\
    Incident.status incident = IncidentStatus.PENDING_APPROVAL /\
    records_request id payload approval /\
    status_of_request tenant payload w (ApprovalRecord.action_dispatch_status approval) /\
    Repo.incidents (World.store w') =
      dict_set (Incident.incident_id incident) (decided incident approval) (Repo.incidents (World.store w)) /\
    Repo.approvals (World.store w') = dict_set id approval (Repo.approvals (World.store w)) /\
    outbox_after tenant (Incident.incident_id incident) approval (World.store w) (World.store w').
Proof.
  intros E. unfold decide_incident in E. runs.
  match goal with E : emit_event _ _ _ _ _ _ _ = _ |- _ => apply (keeps_view decision_view) in E as Hv1; [|auto with keeps] end.
  match goal with E : match Incident.graph_thread_id _ with _ => _ end _ = _ |- _ =>
    apply (keeps_view decision_view) in E as Hv2; [|intros; apply graph_step_view] end.
  rewrite Hv2 in Hv1. unfold decision_view in Hv1. injection Hv1 as Hi Ha Hd.
  apply construct_ok in H0 as [-> _].
  match goal with E : requested_status _ _ _ = _ |- _ => apply requested_status_ok in E as [Hw Hs] end.
  match goal with E : (if _ then _ else mret None) _ = _ |- _ =>
    apply queue_step_effect in E as (Hi' & Ha' & Hd'); [|done] end.
  simpl in *. rewrite Hw in *. eexists. split; [eassumption|]. split; [by bool_hyps|].
  split; [by split_and!|]. split; [done|]. rewrite Hi, Ha, Hi', Ha'. simpl. split_and!; [done..|].
  unfold outbox_after. simpl. rewrite Hd. revert Hd'. unfold status_of_request in Hs.
  destruct (nonempty _); simpl; [|by subst].
  case_bool_decide; simpl; done.
Qed.

(** C4.  One decision.  Deciding succeeds only on an incident that awaits approval;
    then the incident has the decision's status, the approval records who decided
    what, and the outbox gains exactly one queued action with the approved payload
    if a payload was given and the tenant's actions are enabled, none otherwise.
    Every later decision on the incident is refused and changes nothing. *)
Theorem decision_final id payload tenant w approval w' :
  store_ok (World.store w) ->
  decide_incident id payload tenant w = (Ok approval, w') ->
  exists incident,
    Repository.get_incident (World.store w) tenant id = Some incident /\
    Incident.status incident = IncidentStatus.PENDING_APPROVAL /\
    Repository.get_incident (World.store w') tenant id = Some (decided incident approval) /\
    dict_get id (Repo.approvals (World.store w')) = Some approval /\ records_request id payload approval /\
    status_of_request tenant payload w (ApprovalRecord.action_dispatch_status approval) /\
    outbox_after tenant id approval (World.store w) (World.store w') /\
    (forall payload2 w2,
       Repository.get_incident (World.store w2) tenant id = Some (decided incident approval) ->
       decide_incident id payload2 tenant w2 = (Raise undecided, w2)).
Proof.
  intros Hok E. apply decide_effect in E as (incident & Hg & Hp & Hr & Hs & Hi & Ha & Ho).
  destruct (of_tenant_keyed _ _ _ _ _ _ (ok_incidents _ Hok) Hg) as [Ht Hid]. rewrite Hid in *.
  exists incident. split_and!; try done.
  - unfold Repository.get_incident. rewrite Hi, dict_get_set_eq. unfold of_tenant. simpl.
    by rewrite bool_decide_true.
  - by rewrite Ha, dict_get_set_eq.
  - intros payload2 w2 Hg2. unfold decide_incident. rewrite M_bind_unfold. unfold ask, gets. rewrite Hg2. simpl.
    unfold decided, decided_status.
    by destruct (ApprovalRecord.decision approval == ApprovalDecision.APPROVE).
Qed.

(** the caller may decide on the incident, as the store has it *)
Definition may_decide (tenant : string) (id : uuid) (h : headers) (r : repo) : Prop :=
  exists incident trip, Repository.get_incident r tenant id = Some incident /\
    Repository.get_trip r tenant (Incident.trip_id incident) = Some trip /\
    trip_denied trip (x_actor_role h) (x_actor_id h) = false.

(** C12.  A retried decision.  The answer to a decision request is kept under its
    idempotency key: while that record lives and the caller still may decide, the
    same request is answered the same again, and the store does not change, so
    nothing is decided or queued twice. *)
Theorem decision_retried `{!RoundTrip ApprovalRecord.t} expected route wrong id payload h w approval w' :
  decision_handler expected route wrong id payload h w = (Ok approval, w') ->
  exists tenant key e, x_tenant_id h = Some tenant /\ idempotency_key h = Some key /\
    record_at tenant key (Some e) (World.store w') /\
    forall w2, record_at tenant key (Some e) (World.store w2) -> may_decide tenant id h (World.store w2) ->
      clock_at (S (World.ticks w2)) < IdempotencyRecord.expires_at e ->
      exists w3, decision_handler expected route wrong id payload h w2 = (Ok approval, w3) /\
                 World.store w3 = World.store w2.
Proof.
  intros E. unfold decision_handler in E.
  apply M_bind_ok in E as (? & ? & [Hr ->]%require_role_ok & E).
  apply M_bind_ok in E as (? & ? & Ha & E).
  pose proof (require_actor_matches_payload_ok _ _ _ _ _ Ha) as [-> ->].
  destruct (idempotency_key h) as [key|] eqn:Hk; [|discriminate E].
  apply M_bind_ok in E as (? & ? & [Hkey ->]%guard_ok & E). apply M_bind_ok in E as (? & ? & [Hd ->]%guard_ok & E).
  apply M_bind_ok in E as (tenant & ? & (Ht & Htt & ->)%require_tenant_ok & E).
  apply M_bind_ok in E as (? & ? & (_ & _ & _ & _ & ->)%require_incident_trip_access_ok & E).
  apply (mutation_answers tenant key _ (dump payload) 200 (decide_incident id payload tenant)) in E as (e & He);
    [|intros e; apply framed_decide].
  exists tenant, key, e. split_and!; [done..|apply He|]. intros w2 Hw2 (incident & trip & Hi & Htr & Hden) Hexp.
  assert (Hans : answers tenant key ("POST:/v1/incidents/" +:+ uuid_str id +:+ "/" +:+ route) (dump payload)
            approval e (World.store w2)) by (split; [exact Hw2|apply He]).
  destruct (mutation_retried _ _ _ _ 200 (decide_incident id payload tenant) _ _ _ Hans Hexp) as (w3 & Hm & Hw).
  exists w3. split; [|exact Hw]. unfold decision_handler.
  rewrite (bind_again _ _ _ _ _ (require_role_again _ _ _ Hr)).
  rewrite (bind_again _ _ _ _ _ (require_actor_matches_payload_again _ _ _ _ _ w2 Ha)), Hk.
  rewrite (bind_again _ _ _ _ _ (guard_again _ _ _ Hkey)), (bind_again _ _ _ _ _ (guard_again _ _ _ Hd)), Ht.
  rewrite (bind_again _ _ _ _ _ (require_tenant_again _ _ Htt)).
  rewrite M_bind_unfold, (require_incident_trip_access_again _ _ _ _ _ incident trip); [exact Hm|done..|].
  apply require_trip_access_again; [done..|]. exact (require_actor_matches_payload_oidc _ _ _ _ _ Ha).
Qed.

End Decisions.

(** ** The monitor's windows *)

Section Windows.
Context `{Env} `{!Dump Trip.t} `{!Dump AssessmentResult.t} `{!Validate AssessmentResult.t}.

Definition window_key (trip : Trip.t) (window : string) : string :=
  assessment_due_idempotency_key (uuid_str (Trip.trip_id trip)) window.
Definition window_request (trip : Trip.t) (window : string) : json :=
  JObj [("trip_id", juuid (Trip.trip_id trip)); ("window", JStr window)].

(** the window's key records a completed assessment *)
Definition window_done (trip : Trip.t) (window : string) (e : IdempotencyRecord.t) (r : repo) : Prop :=
  record_at (Trip.tenant_id trip) (window_key trip window) (Some e) r /\
  IdempotencyRecord.scope e = "internal:assessment-due" /\
  IdempotencyRecord.request_hash e = fingerprint "internal:assessment-due" (window_request trip window) /\
  IdempotencyRecord.state e = IdempotencyState.COMPLETED.

Lemma suffix_ne (key suffix : string) : suffix <> "" -> key +:+ suffix <> key.
Proof.
  intros Hs E. assert (Hl : String.length (key +:+ suffix) = String.length key) by congruence.
  rewrite str_length_app in Hl. destruct suffix; [done|]. simpl in Hl. lia.
Qed.

Lemma framed_assess t k e id scenario h :
  (forall tenant key, x_tenant_id h = Some tenant -> idempotency_key h = Some key -> (tenant, key) <> (t, k)) ->
  keeps (record_at t k (Some e)) (assess_trip id scenario h).
Proof.
  intros Hne. unfold assess_trip, require_tenant.
  destruct (x_tenant_id h) as [tenant|]; [|intros w Hw; exact Hw].
  destruct (truthy_str tenant); [|intros w Hw; exact Hw].
  assert (Hkey : forall x, idempotency_key h = Some x -> (tenant, x) <> (t, k)) by (intros x Hx; by apply Hne).
  pose proof (fun scope payload => framed_claim_optional t k e tenant _ scope payload Hkey) as Hclaim.
  pose proof (fun hash code payload => framed_complete_optional t k e tenant _ hash code payload Hkey) as Hdone.
  pose proof (fun trip => framed_snapshot t k e tenant trip scenario) as Hsnap.
  match goal with |- keeps ?I (mret ?a ≫= ?f) => change (keeps I (f a)); cbv beta end.
  keeps; first [apply Hclaim | apply Hdone | apply Hsnap].
Qed.

Lemma window_completes trip window w b w' :
  process_window trip window w = (Ok b, w') -> exists e, window_done trip window e (World.store w').
Proof.
  intros E. unfold process_window in E.
  apply M_bind_ok in E as ([hash o] & w1 & C & E). destruct o as [e|]; simpl in E.
  - runs. apply claim_replayed in C as (Hr & Hs & Hh & Hc). by exists e.
  - apply claim_executes in C as (-> & e & Hr & Hs & Hh & _).
    apply M_bind_ok in E as (result & w2 & A & E). apply M_bind_ok in E as (u & w3 & C & E).
    eapply keeps_ok in A; [|apply framed_assess|exact Hr]; [|by intros ? ? [= <-] [= <-] [= F%suffix_ne]].
    apply (complete_records _ _ _ _ _ _ _ _ e) in C; [|done].
    eapply keeps_ok in E; [|keeps; apply framed_emit|exact C].
    eexists. split; [exact E|]. by split_and!.
Qed.

(** C30.  Once per window.  A due window that was processed, by whichever run, is
    recorded as completed; while that record lives, any later run of the monitor
    over it replays: it reports no new assessment and the store does not change. *)
Theorem window_assessed_once trip window w b w' :
  process_window trip window w = (Ok b, w') ->
  exists e, window_done trip window e (World.store w') /\
    forall w2, window_done trip window e (World.store w2) ->
      clock_at (S (World.ticks w2)) < IdempotencyRecord.expires_at e ->
      exists w3, process_window trip window w2 = (Ok false, w3) /\ World.store w3 = World.store w2.
Proof.
  intros (e & He)%window_completes. exists e. split; [done|]. intros w2 (Hr & Hs & Hh & Hc) Hexp.
  destruct (claim_replays _ _ _ (window_request trip window) e w2 Hr Hs Hh Hc Hexp) as (w3 & Hclaim & Hw).
  exists w3. split; [|done]. unfold process_window. by rewrite (bind_again _ _ _ _ _ Hclaim).
Qed.

End Windows.

(** ** Witnesses *)

Section Witnesses.
#[local] Existing Instance sample_environment.

(** a codec that writes an approval field by field *)
#[local] Instance dump_approval : Dump ApprovalRecord.t := fun a =>
  JObj [("approve", JBool (ApprovalRecord.decision a == ApprovalDecision.APPROVE));
        ("actor_id", JStr (ApprovalRecord.actor_id a)); ("reason", JStr (ApprovalRecord.reason a));
        ("final_action_payload", JObj (ApprovalRecord.final_action_payload a));
        ("approval_id", JInt (Z.of_N (ApprovalRecord.approval_id a)));
        ("incident_id", JInt (Z.of_N (ApprovalRecord.incident_id a)));
        ("decided_at", JInt (ApprovalRecord.decided_at a));
        ("action_dispatch_status", JStr (ApprovalRecord.action_dispatch_status a))].
#[local] Instance validate_approval : Validate ApprovalRecord.t := fun j =>
  match j with
  | JObj [(_, JBool b); (_, JStr actor); (_, JStr reason); (_, JObj payload); (_, JInt id); (_, JInt incident);
          (_, JInt t); (_, JStr status)] =>
      Ok (ApprovalRecord.mk (if b then ApprovalDecision.APPROVE else ApprovalDecision.REJECT) actor reason payload
            (Z.to_N id) (Z.to_N incident) t status)
  | _ => Raise (ValidationError "ApprovalRecord")
  end.
#[local] Instance approval_round_trip : RoundTrip ApprovalRecord.t.
Proof. intros [[] ? ? ? ? ? ? ?]; unfold model_validate, dump; simpl; by rewrite !N2Z.id. Qed.
#[local] Instance dump_request : Dump ApprovalRequest.t := sample_dump _.

Definition sample_request : ApprovalRequest.t :=
  ApprovalRequest.mk ApprovalDecision.APPROVE "m1" "rebook" [("rebook", JStr "UA 200")].
Definition awaiting : Incident.t :=
  sample_incident Severity.HIGH <| Incident.tenant_id := "t1" |>
    <| Incident.status := IncidentStatus.PENDING_APPROVAL |>.
Definition decision_world : World.t :=
  World.init <| World.store :=
    save_incident (Repository.create_trip Repo.init (sample_trip 1%N "t1" "alice" 0)) awaiting |>.
Definition decision_headers : headers :=
  Headers (Some "t1") (Some UserRole.TENANT_ADMIN) (Some "m1") (Some "key-1").

Lemma decision_final_witness :
  exists approval w', decide_incident 7%N sample_request "t1" decision_world = (Ok approval, w') /\
    option_map Incident.status (Repository.get_incident (World.store w') "t1" 7%N) = Some IncidentStatus.APPROVED.
Proof.
  destruct (decide_incident 7%N sample_request "t1" decision_world) as [[approval|e] w'] eqn:E;
    [|vm_compute in E; discriminate].
  exists approval, w'. split; [done|].
  assert (Hok : store_ok (World.store decision_world)).
  { apply reachable_ok. eapply rtc_l; [apply step_create_trip|apply rtc_once, step_save_incident]. }
  destruct (decision_final _ _ _ _ _ _ Hok E) as (incident & Hi & _ & -> & _ & Hr & _).
  destruct Hr as (_ & Hd & _). simpl. unfold decided_status. by rewrite Hd.
Defined.

Abbreviation approve := (decision_handler ApprovalDecision.APPROVE "approve" "decision must be approve").
Definition decided_world : World.t := (approve 7%N sample_request decision_headers decision_world).2.
Definition sample_approval : ApprovalRecord.t :=
  ApprovalRecord.mk ApprovalDecision.APPROVE "m1" "rebook" [("rebook", JStr "UA 200")] 104%N 7%N 5 "pending".

Lemma decision_retried_witness :
  exists w2, approve 7%N sample_request decision_headers decided_world = (Ok sample_approval, w2) /\
    World.store w2 = World.store decided_world.
Proof.
  assert (E : approve 7%N sample_request decision_headers decision_world
              = (Ok sample_approval, decided_world)) by (vm_compute; reflexivity).
  destruct (decision_retried _ _ _ _ _ _ _ _ _ E) as (tenant & key & e & Ht & Hk & Hr & Hretry).
  injection Ht as <-. injection Hk as <-.
  apply (Hretry decided_world Hr).
  - do 2 eexists. split_and!; vm_compute; reflexivity.
  - assert (He : option_map IdempotencyRecord.expires_at
      (dict_get ("t1", "key-1") (Repo.idempotency_records (World.store decided_world))) = Some 86400000000)
      by (vm_compute; reflexivity).
    unfold record_at in Hr. rewrite Hr in He. injection He as ->. vm_compute. reflexivity.
Defined.

#[local] Instance dump_trip : Dump Trip.t := sample_dump _.
#[local] Instance dump_result : Dump AssessmentResult.t := sample_dump _.
#[local] Instance validate_result : Validate AssessmentResult.t := sample_validate _.

(** another run has completed the window *)
Definition sample_window_trip : Trip.t := sample_trip 1%N "t1" "alice" 0.
Definition other_run : API unit :=
  claimed ← claim_mutation "t1" (window_key sample_window_trip "T-24:x") "internal:assessment-due"
    (window_request sample_window_trip "T-24:x");
  complete_mutation "t1" (window_key sample_window_trip "T-24:x") claimed.1 200 JNull.
Definition windowed_world : World.t := (other_run decision_world).2.
Definition rerun_world : World.t := (process_window sample_window_trip "T-24:x" windowed_world).2.

Lemma window_assessed_once_witness :
  exists w2, process_window sample_window_trip "T-24:x" rerun_world = (Ok false, w2) /\
    World.store w2 = World.store rerun_world.
Proof.
  assert (E : process_window sample_window_trip "T-24:x" windowed_world = (Ok false, rerun_world))
    by (vm_compute; reflexivity).
  destruct (window_assessed_once _ _ _ _ _ E) as (e & He & Hagain). apply (Hagain rerun_world He).
  assert (Hexp : option_map IdempotencyRecord.expires_at
      (dict_get ("t1", window_key sample_window_trip "T-24:x")
        (Repo.idempotency_records (World.store rerun_world))) = Some 86400000000)
    by (vm_compute; reflexivity).
  destruct He as (Hr & _). change (dict_get ("t1", window_key sample_window_trip "T-24:x")
    (Repo.idempotency_records (World.store rerun_world)) = Some e) in Hr.
  rewrite Hr in Hexp. injection Hexp as ->.
  vm_compute. reflexivity.
Defined.

End Witnesses.
