(* ===== verification/Interleaving.v ===== *)
(** * Requests that interleave

    A handler is suspended at each [await].  With the in-memory repository no call
    of the repository suspends; with PostgreSQL every call does, and the calls of
    concurrent requests interleave.  Here a request is a program of calls, a pool of
    requests runs them in any order, and a rely-guarantee rule reasons about one
    request among others. *)

From stdpp Require Import list relations.
From S2P Require Import Prelude.

(** ** Programs of calls *)

Section Programs.
Context {S A : Type}.

(** [Await call k]: one call, made in one piece, and what follows its answer *)
Inductive prog : Type :=
  | Done (x : res A)
  | Await {B : Type} (call : M S B) (k : B -> prog).

(** without interruption *)
Fixpoint run (p : prog) : M S A :=
  match p with
  | Done x => lift_res x
  | Await call k => b ← call; run (k b)
  end.

(** one request is answered its call *)
Inductive answered : prog -> S -> prog -> S -> Prop :=
  | answered_ok B (call : M S B) k s b s' : call s = (Ok b, s') -> answered (Await call k) s (k b) s'
  | answered_raise B (call : M S B) k s e s' :
      call s = (Raise e, s') -> answered (Await call k) s (Done (Raise e)) s'.

(** a pool of requests, any of which may be answered next *)
Inductive sched : list prog * S -> list prog * S -> Prop :=
  | sched_one ps i p s q s' : ps !! i = Some p -> answered p s q s' -> sched (ps, s) (<[i := q]> ps, s').

(** to run a request without interruption is one of the schedules *)
Lemma run_scheduled p : forall ps i s x s', ps !! i = Some p -> run p s = (x, s') ->
  rtc sched (ps, s) (<[i := Done x]> ps, s').
Proof.
  induction p as [y|B call k IH]; intros ps i s x s' Hi E.
  - injection E as <- <-. by rewrite list_insert_id.
  - simpl in E. rewrite M_bind_unfold in E. destruct (call s) as [[b|e] s1] eqn:Ec.
    + eapply rtc_l; [eapply sched_one; [done|by apply answered_ok]|].
      rewrite <- (list_insert_insert_eq ps i (Done x) (k b)).
      eapply IH; [|exact E]. apply list_lookup_insert_eq. by eapply lookup_lt_Some.
    + injection E as <- <-. apply rtc_once. eapply sched_one; [done|]. by apply answered_raise.
Qed.

(** ** Rely and guarantee

    [I]: an invariant of every call.  [R]: what a request may rely on of the others'
    calls.  [frames p]: every call of [p] keeps [I] and is an [R] step.
    [outline Q p s]: started in [s], interrupted by [R] steps, [p] keeps [I] and
    ends with [Q], which holds from its end on. *)
Section RelyGuarantee.
Context (I : S -> Prop) (R : S -> S -> Prop) `{!PreOrder R}.

Fixpoint frames (p : prog) : Prop :=
  match p with
  | Done _ => True
  | Await call k => forall s, I s -> I (call s).2 /\ R s (call s).2 /\
      match (call s).1 with Ok b => frames (k b) | Raise _ => True end
  end.

Fixpoint outline (Q : res A -> S -> Prop) (p : prog) (s0 : S) : Prop :=
  match p with
  | Done x => forall s, R s0 s -> Q x s
  | Await call k => forall s, I s -> R s0 s -> I (call s).2 /\
      match (call s).1 with
      | Ok b => outline Q (k b) (call s).2
      | Raise e => forall s', R (call s).2 s' -> Q (Raise e) s'
      end
  end.

Lemma outline_rely Q p s0 s1 : outline Q p s0 -> R s0 s1 -> outline Q p s1.
Proof.
  destruct p; simpl; intros Hp Hr; [intros s Hs; apply Hp; by transitivity s1|].
  intros s HI Hs. apply Hp; [done|by transitivity s1].
Qed.

Lemma frames_step p s q s' : answered p s q s' -> I s -> frames p -> I s' /\ R s s' /\ frames q.
Proof.
  intros Ha HI Hp. destruct Ha as [B call k s b s' E|B call k s e s' E];
    specialize (Hp s HI); rewrite E in Hp; naive_solver.
Qed.

Lemma outline_step Q p s q s' : answered p s q s' -> I s -> outline Q p s -> I s' /\ outline Q q s'.
Proof.
  intros Ha HI Hp. destruct Ha as [B call k s b s' E|B call k s e s' E];
    specialize (Hp s HI (reflexivity s)); by rewrite E in Hp.
Qed.

(** a request among others that guarantee what it relies on *)
Definition rests (Q : res A -> S -> Prop) (i : nat) (c : list prog * S) : Prop :=
  I c.2 /\ (exists p, c.1 !! i = Some p /\ outline Q p c.2) /\
  forall j q, j <> i -> c.1 !! j = Some q -> frames q.

Lemma rests_sched Q i c c' : sched c c' -> rests Q i c -> rests Q i c'.
Proof.
  intros Hs (HI & (p & Hi & Hp) & Hf). destruct Hs as [ps j q s q' s' Hj Ha]. simpl in *.
  assert (Hlen : (j < length ps)%nat) by by eapply lookup_lt_Some.
  destruct (decide (j = i)) as [->|Hne].
  - rewrite Hi in Hj. injection Hj as <-. destruct (outline_step _ _ _ _ _ Ha HI Hp) as [HI' Hq].
    unfold rests; simpl; split_and!; [done|exists q'; split; [by apply list_lookup_insert_eq|done]|].
    intros j' r Hj'. rewrite list_lookup_insert_ne by done. by apply Hf.
  - destruct (frames_step _ _ _ _ Ha HI (Hf j q Hne Hj)) as (HI' & HR & Hq).
    unfold rests; simpl; split_and!; [done|exists p; split; [by rewrite list_lookup_insert_ne|by eapply outline_rely]|].
    intros j' r Hj' Hr. destruct (decide (j' = j)) as [->|Hne'].
    + rewrite list_lookup_insert_eq in Hr by done. by injection Hr as <-.
    + rewrite list_lookup_insert_ne in Hr by done. by eapply Hf.
Qed.

(** so it does to the end *)
Lemma rests_run Q i c c' : rtc sched c c' -> rests Q i c -> rests Q i c'.
Proof. induction 1 as [c|c c1 c' H1 _ IH]; [done|]. intros Hc. apply IH. by eapply rests_sched. Qed.

Lemma rests_kept Q i c c' : rtc sched c c' -> rests Q i c -> I c'.2.
Proof. intros Hs Hc. by apply (rests_run _ _ _ _ Hs Hc). Qed.

(** what an answered request gives *)
Lemma rely_guarantee Q i c c' x :
  rtc sched c c' -> rests Q i c -> c'.1 !! i = Some (Done x) -> Q x c'.2.
Proof.
  intros Hs Hc Hx. destruct (rests_run _ _ _ _ Hs Hc) as (_ & (p & Hp & Ho) & _). rewrite Hx in Hp. injection Hp as <-. by apply Ho.
Qed.

End RelyGuarantee.
End Programs.
Arguments prog : clear implicits.
Arguments Done {S A} x.
Arguments Await {S A B} call k.

(** ** Sequencing *)

#[export] Instance prog_ret {S} : MRet (prog S) := fun A a => Done (Ok a).
#[export] Instance prog_bind {S} : MBind (prog S) := fun A B f =>
  fix bind p :=
    match p with
    | Done (Ok a) => f a
    | Done (Raise e) => Done (Raise e)
    | Await call k => Await call (fun b => bind (k b))
    end.

(** a program of one call *)
Definition await {S A} (call : M S A) : prog S A := Await call (fun a => Done (Ok a)).

(** a loop of calls *)
Fixpoint await_each {S A} (l : list A) (body : A -> M S unit) : prog S unit :=
  match l with
  | [] => mret tt
  | x :: l' => await (body x) ;; await_each l' body
  end.

Section Sequencing.
Context {S A B : Type}.

Lemma run_bind (p : prog S A) (f : A -> prog S B) s :
  run (p ≫= f) s = match run p s with (Ok a, s') => run (f a) s' | (Raise e, s') => (Raise e, s') end.
Proof.
  revert s. induction p as [[a|e]|C call k IH]; intros s; [done|done|].
  change (run (Await call k ≫= f)) with (b ← call; run (k b ≫= f)). simpl. rewrite !M_bind_unfold.
  destruct (call s) as [[b|e] s']; [apply IH|done].
Qed.

Lemma run_then (p : prog S A) (f : A -> prog S B) s : run (p ≫= f) s = (run p ≫= fun a => run (f a)) s.
Proof. rewrite run_bind, M_bind_unfold. by destruct (run p s) as [[a|e] s']. Qed.

Lemma bind_ext (m m' : M S A) (f f' : A -> M S B) s :
  (forall s, m s = m' s) -> (forall a s, f a s = f' a s) -> (m ≫= f) s = (m' ≫= f') s.
Proof. intros Hm Hf. rewrite !M_bind_unfold, Hm. by destruct (m' s) as [[a|e] s']. Qed.

Lemma run_await (call : M S A) s : run (await call) s = call s.
Proof. unfold await. simpl. rewrite M_bind_unfold. by destruct (call s) as [[a|e] s']. Qed.

Lemma run_await_then (call : M S A) (f : A -> M S B) s : (run (await call) ≫= f) s = (call ≫= f) s.
Proof. rewrite !M_bind_unfold. unfold await. simpl. rewrite M_bind_unfold. by destruct (call s) as [[a|e] s']. Qed.

Lemma ret_then (a : A) (f : A -> M S B) s : (mret a ≫= f) s = f a s.
Proof. done. Qed.

Lemma bind_assoc {C} (m : M S C) (f : C -> M S A) (g : A -> M S B) s :
  ((m ≫= f) ≫= g) s = (m ≫= fun c => f c ≫= g) s.
Proof. rewrite !M_bind_unfold. by destruct (m s) as [[c|e] s']. Qed.

Context (I : S -> Prop) (R : S -> S -> Prop) `{!PreOrder R}.

Lemma frames_bind (p : prog S A) (f : A -> prog S B) :
  frames I R p -> (forall a, frames I R (f a)) -> frames I R (p ≫= f).
Proof.
  induction p as [[a|e]|C call k IH]; intros Hp Hf; [apply Hf|done|].
  intros s HI. destruct (Hp s HI) as (HI' & HR & Hk). split_and!; [done|done|].
  destruct (call s).1; [by apply IH|done].
Qed.

Lemma frames_await (call : M S A) (f : A -> prog S B) :
  (forall s, I s -> I (call s).2 /\ R s (call s).2 /\ forall a, (call s).1 = Ok a -> frames I R (f a)) ->
  frames I R (await call ≫= f).
Proof.
  intros Hc s HI. destruct (Hc s HI) as (HI' & HR & Hf). split_and!; [done|done|].
  destruct (call s).1 eqn:E; [by apply Hf|done].
Qed.

Lemma outline_bind Q (p : prog S A) (f : A -> prog S B) s0 :
  outline I R (fun x s => match x with Ok a => outline I R Q (f a) s | Raise e => Q (Raise e) s end) p s0 ->
  outline I R Q (p ≫= f) s0.
Proof.
  revert s0. induction p as [[a|e]|C call k IH]; intros s0 Hp.
  - apply (Hp s0). reflexivity.
  - intros s Hs. by apply Hp.
  - intros s HI Hs. destruct (Hp s HI Hs) as [HI' Hk]. split; [done|]. destruct (call s).1; [by apply IH|done].
Qed.

Lemma outline_await Q (call : M S A) s0 :
  (forall s, I s -> R s0 s -> I (call s).2 /\ forall s', R (call s).2 s' -> Q (call s).1 s') ->
  outline I R Q (await call) s0.
Proof.
  intros Hc s HI Hs. destruct (Hc s HI Hs) as [HI' Hq]. split; [done|].
  destruct (call s).1; simpl; auto.
Qed.

Lemma outline_ret Q (a : A) s0 : (forall s, R s0 s -> Q (Ok a) s) -> outline I R Q (mret a) s0.
Proof. done. Qed.

Lemma outline_weaken Q Q' (p : prog S A) s0 :
  outline I R Q p s0 -> (forall x s, Q x s -> Q' x s) -> outline I R Q' p s0.
Proof.
  intros Hp HQ. revert s0 Hp. induction p as [x|C call k IH]; intros s0 Hp; [intros s Hs; by apply HQ, Hp|].
  intros s HI Hs. destruct (Hp s HI Hs) as [HI' Hk]. split; [done|]. destruct (call s).1; [by apply IH|].
  intros s' Hs'. by apply HQ, Hk.
Qed.

End Sequencing.

Lemma run_await_each {S C} (l : list C) (body : C -> M S unit) s : run (await_each l body) s = for_each l body s.
Proof.
  revert s. induction l as [|x l IH]; intros s; [done|]. 
  change (run (await (body x) ≫= fun _ => await_each l body) s = (body x ≫= fun _ => for_each l body) s).
  rewrite run_then, run_await_then.
  apply bind_ext; [done|]. intros u t. apply IH.
Qed.

(** without interruption, the calls of a program are those of the handler *)
Ltac same_calls :=
  intros;
  first
    [ reflexivity
    | rewrite run_then; same_calls
    | rewrite run_await_then; same_calls
    | rewrite run_await; same_calls
    | rewrite run_await_each; same_calls
    | rewrite bind_assoc; same_calls
    | rewrite ret_then; same_calls
    | solve [auto]
    | apply bind_ext; same_calls
    | match goal with
      | |- run (match ?x with _ => _ end) _ = _ => destruct x; same_calls
      | |- (match ?x with _ => _ end ≫= _) _ = _ => destruct x; same_calls
      end
    | idtac ].

(** ** Schedules *)

Section Schedules.
Context {S A : Type}.

(** the request [i] is answered its call, if it is waiting for one *)
Definition turn (c : list (prog S A) * S) (i : nat) : list (prog S A) * S :=
  match c.1 !! i with
  | Some (Await call k) =>
      match call c.2 with
      | (Ok b, s) => (<[i := k b]> c.1, s)
      | (Raise e, s) => (<[i := Done (Raise e)]> c.1, s)
      end
  | _ => c
  end.

Lemma turns_sched order c : rtc sched c (List.fold_left turn order c).
Proof.
  revert c. induction order as [|i order IH]; intros [ps s]; simpl; [done|].
  transitivity (turn (ps, s) i); [|apply IH]. unfold turn. simpl.
  destruct (ps !! i) as [[x|B call k]|] eqn:E; [done| |done].
  destruct (call s) as [[b|e] s'] eqn:Ec; apply rtc_once; eapply sched_one; try done; by constructor.
Qed.

End Schedules.

(** two requests, call by call in turn *)
Fixpoint in_turns (n : nat) : list nat := match n with O => [] | S n => 0%nat :: 1%nat :: in_turns n end.
