(* ===== verification/ConcurrentRetries.v ===== *)
(** * Requests with one idempotency key, at once

    The tail of a mutating route as a program of repository calls: claim the key,
    replay or run the body, store the response.  Any number of such requests with
    the same tenant and key may interleave, with any scopes, payloads and bodies:
    while the key lives, every answer is the same, and one body at most has run. *)

From stdpp Require Import list relations.
From S2P Require Import Prelude PyData Float64 PyStd Enums Models Recovery Repository Assessment Config.
From S2P Require Import Idempotency ApiCore ApiLogic ApiIncidents Retries Interleaving.

Section Once.
Context `{Env} {A : Type} `{!Dump A} `{!Validate A}.

(** [mutation] of [Retries], call by call *)
Definition execute_once (tenant key hash : string) (code : Z) (body : prog World.t A) : prog World.t A :=
  a ← body;
  await (complete_mutation tenant key hash code (dump a)) ;;
  mret a.

Definition once (tenant key scope : string) (payload : json) (code : Z) (body : prog World.t A) : prog World.t A :=
  claimed ← await (claim_mutation tenant key scope payload);
  match claimed.2 with
  | Some replay => Done (model_validate (default JNull (IdempotencyRecord.response_payload replay)))
  | None => execute_once tenant key claimed.1 code body
  end.

Lemma execute_run tenant key hash code body w :
  run (execute_once tenant key hash code body) w
  = (a ← run body; complete_mutation tenant key hash code (dump a) ;; mret a) w.
Proof.
  unfold execute_once. rewrite run_then. apply bind_ext; [done|]. intros a s. by rewrite run_then, run_await_then.
Qed.

Lemma once_run tenant key scope payload code body w :
  run (once tenant key scope payload code body) w = mutation tenant key scope payload code (run body) w.
Proof.
  unfold once, mutation. rewrite run_then, run_await_then. apply bind_ext; [done|].
  intros [hash [replay|]] s; cbn [fst snd]; [done|apply execute_run].
Qed.

(** ** One step of a claim *)

Section Claims.
Variables tenant key : string.
(** a count of what bodies write, that claims and completions leave alone *)
Context (f : repo -> nat).
Hypothesis unkeyed : forall r g, f (r <| Repo.idempotency_records ::= g |>) = f r.

Definition count (w : World.t) : nat := f (World.store w).

Lemma claim_count scope payload w : count (claim_mutation tenant key scope payload w).2 = count w.
Proof using unkeyed. by apply (view_claimed f). Qed.
Lemma complete_count hash code payload w : count (complete_mutation tenant key hash code payload w).2 = count w.
Proof using unkeyed. by apply (view_completed f). Qed.

(** no reading of the clock from [n0] up to [n] has passed the expiry of [e] *)
Definition lives (n0 n : nat) (e : IdempotencyRecord.t) : Prop :=
  forall m, (n0 <= m < n)%nat -> clock_at m < IdempotencyRecord.expires_at e.
(** the readings from [n0] up to [n] are within one lifetime of a key *)
Definition within_ttl (n0 n : nat) : Prop := forall m m', (n0 <= m < n)%nat -> (n0 <= m' < n)%nat ->
  clock_at m < clock_at m' + RuntimeControls.idempotency_ttl_seconds controls * second.

Lemma claim_ticks scope payload w : World.ticks (claim_mutation tenant key scope payload w).2 = S (S (World.ticks w)).
Proof.
  unfold claim_mutation. cbv [mbind M_bind now put_get]. simpl.
  destruct (claim_idempotency _ _ _ _ _ _ _) as [[[d rec]|e] r]; simpl; [|done].
  destruct (d == "execute"); [done|]. destruct (d == "replay"); [done|]. by destruct (d == "conflict").
Qed.

Lemma claim_first scope payload w :
  record_at tenant key None (World.store w) ->
  match claim_mutation tenant key scope payload w with
  | (Ok (hash, replay), w') => replay = None /\ exists e, record_at tenant key (Some e) (World.store w') /\
      IdempotencyRecord.state e = IdempotencyState.IN_PROGRESS /\ IdempotencyRecord.request_hash e = hash /\
      IdempotencyRecord.expires_at e =
        clock_at (World.ticks w) + RuntimeControls.idempotency_ttl_seconds controls * second
  | (Raise _, w') => record_at tenant key None (World.store w')
  end.
Proof.
  unfold record_at. intros Hr. unfold claim_mutation. cbv [mbind M_bind now put_get]. simpl.
  unfold claim_idempotency. rewrite Hr. destruct (construct _ _ _) as [e|x] eqn:E; [|exact Hr].
  apply construct_ok in E as [-> _]. simpl. split; [done|]. eexists. split; [by rewrite dict_get_set_eq|]. by split_and!.
Qed.

Lemma claim_later scope payload w e :
  record_at tenant key (Some e) (World.store w) -> clock_at (S (World.ticks w)) < IdempotencyRecord.expires_at e ->
  match claim_mutation tenant key scope payload w with
  | (Ok (hash, replay), w') => World.store w' = World.store w /\ replay = Some e /\
      IdempotencyRecord.state e = IdempotencyState.COMPLETED
  | (Raise _, w') => World.store w' = World.store w
  end.
Proof.
  unfold record_at. intros Hr He. unfold claim_mutation. cbv [mbind M_bind now put_get]. simpl.
  rewrite (claim_live _ _ _ _ _ _ _ e Hr He). simpl.
  destruct (_ || _); simpl; [done|]. destruct (IdempotencyRecord.state e == _) eqn:Ec; simpl; [|done].
  split_and!; [done|done|]. by bool_hyps.
Qed.

(** ** The stages of a request *)

Definition grows {T} (m : API T) : Prop := forall w, (World.ticks w <= World.ticks (m w).2)%nat.

(** a body: its calls leave the claim alone, and add at most [n] to the count *)
Fixpoint tame {T} (n : nat) (p : prog World.t T) : Prop :=
  match p with
  | Done _ => True
  | Await call k => grows call /\ (forall e, keeps (record_at tenant key (Some e)) call) /\
      exists c n', (c + n' <= n)%nat /\ (forall w, (count (call w).2 <= count w + c)%nat) /\ forall b, tame n' (k b)
  end.

(** before the claim, or refused: the calls so far leave the store alone *)
Fixpoint entering (N : nat) (p : prog World.t A) : Prop :=
  match p with
  | Done x => forall a, x <> Ok a
  | Await call k =>
      (grows call /\ quiet call /\ forall w b, (call w).1 = Ok b -> entering N (k b)) \/
      (exists scope payload code body, Await call k = once tenant key scope payload code body /\ tame N body)
  end.

(** after a claim that was told to execute *)
Definition running (n : nat) (hash : string) (p : prog World.t A) : Prop :=
  exists code body, p = execute_once tenant key hash code body /\ tame n body.

Definition shaped (N : nat) (p : prog World.t A) : Prop :=
  entering N p \/ (exists n hash, running n hash p) \/ exists x, p = Done x.

Lemma answered_inv (p q : prog World.t A) s s' : answered p s q s' ->
  match p with
  | Done _ => False
  | Await call k => (exists b, call s = (Ok b, s') /\ q = k b) \/ (exists e, call s = (Raise e, s') /\ q = Done (Raise e))
  end.
Proof. intros []; [left; by eexists|right; by eexists]. Qed.

Lemma raised_enters N e : entering N (Done (Raise e)).
Proof. done. Qed.

Lemma claim_grows scope payload : grows (claim_mutation tenant key scope payload).
Proof. intros w. rewrite claim_ticks. lia. Qed.

Lemma complete_grows hash code payload : grows (complete_mutation tenant key hash code payload).
Proof.
  intros w. unfold complete_mutation. cbv [mbind M_bind now try_put]. simpl. destruct (res_bind _ _ _ _); simpl; lia.
Qed.

(** the calls of a body, and its completion *)
Lemma running_step N n hash p s q s' : answered p s q s' -> running n hash p ->
  (World.ticks s <= World.ticks s')%nat /\
  exists n', (count s' + n' <= count s + n)%nat /\
  ((running n' hash q \/ entering N q) /\
   (forall e, record_at tenant key (Some e) (World.store s) -> record_at tenant key (Some e) (World.store s')) \/
   exists a, q = Done (Ok a) /\ forall e, record_at tenant key (Some e) (World.store s) ->
     exists e', record_at tenant key (Some e') (World.store s') /\
       IdempotencyRecord.state e' = IdempotencyState.COMPLETED /\
       IdempotencyRecord.expires_at e' = IdempotencyRecord.expires_at e /\
       IdempotencyRecord.response_payload e' = Some (dump a)).
Proof using unkeyed.
  intros Ha (code & body & -> & Hb). destruct body as [[a|e]|B call k].
  - apply answered_inv in Ha. simpl in Ha. pose proof (complete_grows hash code (dump a) s) as Hg.
    pose proof (complete_count hash code (dump a) s) as Hc.
    destruct Ha as [(b & E & ->)|(e & E & ->)]; rewrite E in Hg, Hc; simpl in Hc;
      (split; [exact Hg|]); exists n; (split; [lia|]).
    + right. exists a. split; [done|]. intros e He. eexists. split; [by eapply complete_records|]. by split_and!.
    + left. split; [right; apply raised_enters|]. intros e0 He0. revert E. unfold complete_mutation.
      cbv [mbind M_bind now try_put]. simpl. destruct (res_bind _ _ _ _) as [r|x]; [done|]. by intros [= _ <-].
  - by apply answered_inv in Ha.
  - destruct Hb as (Hg & Hk & c & n' & Hle & Hc & Ht). apply answered_inv in Ha. simpl in Ha.
    specialize (Hg s). specialize (Hc s).
    destruct Ha as [(b & E & ->)|(e & E & ->)]; rewrite E in Hg, Hc; simpl in Hc;
      (split; [exact Hg|]); exists n'; (split; [lia|]); left;
      (split; [|intros e0 He0; specialize (Hk e0 s He0); by rewrite E in Hk]).
    + left. exists code, (k b). by split.
    + right. apply raised_enters.
Qed.

(** a step of a request that has not claimed yet *)
Lemma entering_step N p s q s' : answered p s q s' -> entering N p ->
  (World.ticks s <= World.ticks s')%nat /\ count s' = count s /\
  ((entering N q /\ World.store s' = World.store s) \/
   exists scope payload, World.ticks s' = S (S (World.ticks s)) /\
     match claim_mutation tenant key scope payload s with
     | (Ok (hash, None), t) => t = s' /\ running N hash q
     | (Ok (_, Some e), t) => t = s' /\ q = Done (model_validate (default JNull (IdempotencyRecord.response_payload e)))
     | (Raise e, t) => t = s' /\ q = Done (Raise e)
     end).
Proof using unkeyed.
  intros Ha Hp. destruct p as [x|B call k]; [by apply answered_inv in Ha|].
  destruct Hp as [(Hg & Hk & Hn)|(scope & payload & code & body & Ep & Hb)].
  - apply answered_inv in Ha. specialize (Hg s). specialize (Hk s). unfold count.
    destruct Ha as [(b & E & ->)|(e & E & ->)]; rewrite E in Hg, Hk; simpl in Hk;
      (split; [exact Hg|]); (split; [by rewrite Hk|]); left; (split; [|done]).
    + apply (Hn s). by rewrite E.
    + apply raised_enters.
  - rewrite Ep in Ha. apply answered_inv in Ha. simpl in Ha. pose proof (claim_ticks scope payload s) as Ht.
    pose proof (claim_count scope payload s) as Hc.
    destruct Ha as [([hash replay] & E & ->)|(e & E & ->)]; rewrite E in Ht, Hc; simpl in Ht, Hc;
      (split; [lia|]); (split; [done|]); right; exists scope, payload; (split; [done|]); rewrite E; [|done].
    destruct replay; (split; [done|]); [done|]. by exists code, body.
Qed.

Lemma shaped_step N p s q s' : answered p s q s' -> shaped N p -> (World.ticks s <= World.ticks s')%nat /\ shaped N q.
Proof using unkeyed.
  intros Ha [Hp|[(n & hash & Hp)|[x ->]]]; [| |by apply answered_inv in Ha].
  - destruct (entering_step _ _ _ _ _ Ha Hp) as (Hg & _ & [[Hq _]|(scope & payload & _ & Hq)]);
      (split; [done|]); [by left|].
    destruct (claim_mutation _ _ _ _ _) as [[[h [e|]]|e] t]; destruct Hq as [_ Hq];
      [right; right; by eexists|right; left; by exists N, h|right; right; by eexists].
  - destruct (running_step N _ _ _ _ _ _ Ha Hp) as (Hg & n' & _ & [[[Hq|Hq] _]|(a & Hq & _)]); (split; [done|]);
      [right; left; by exists n', hash|by left|right; right; by eexists].
Qed.

(** ** The stages of a pool *)

(** nobody has claimed; one has and may be running; one has answered [a].  The
    count stays below [N] more than [c0]. *)
Inductive stage (N c0 n0 n : nat) (c : list (prog World.t A) * World.t) : Prop :=
  | stage_open :
      record_at tenant key None (World.store c.2) -> (count c.2 <= c0)%nat ->
      (forall j p, c.1 !! j = Some p -> entering N p) -> stage N c0 n0 n c
  | stage_claimed e i m :
      record_at tenant key (Some e) (World.store c.2) -> lives n0 n e ->
      IdempotencyRecord.state e = IdempotencyState.IN_PROGRESS -> (count c.2 + m <= c0 + N)%nat ->
      (forall j p, c.1 !! j = Some p -> entering N p \/ (j = i /\ exists hash, running m hash p)) ->
      stage N c0 n0 n c
  | stage_answered e a :
      record_at tenant key (Some e) (World.store c.2) -> lives n0 n e ->
      IdempotencyRecord.state e = IdempotencyState.COMPLETED ->
      model_validate (default JNull (IdempotencyRecord.response_payload e)) = Ok a -> (count c.2 <= c0 + N)%nat ->
      (forall j p, c.1 !! j = Some p -> entering N p \/ p = Done (Ok a)) -> stage N c0 n0 n c.

(** what holds of every request of a pool, after a step of one *)
Lemma pool_step (P Q : nat -> prog World.t A -> Prop) (ps : list (prog World.t A)) i q :
  (forall j p, ps !! j = Some p -> P j p) -> (forall j p, j <> i -> P j p -> Q j p) -> Q i q ->
  forall j p, <[i := q]> ps !! j = Some p -> Q j p.
Proof.
  intros HP HPQ Hq j p Hj. apply list_lookup_insert_Some in Hj as [(<- & <- & _)|(Hne & Hj)]; [done|].
  apply HPQ; [done|]. by apply HP.
Qed.

Section Step.
Context `{!RoundTrip A} (N c0 n0 n : nat) (ps : list (prog World.t A)) (i : nat) (p : prog World.t A) (s : World.t)
  (q : prog World.t A) (s' : World.t).
Hypotheses (Httl : within_ttl n0 n) (H0 : (n0 <= World.ticks s)%nat) (Hn : (World.ticks s' <= n)%nat)
  (Hi : ps !! i = Some p) (Ha : answered p s q s').

Lemma open_step : record_at tenant key None (World.store s) -> (count s <= c0)%nat ->
  (forall j p, ps !! j = Some p -> entering N p) -> stage N c0 n0 n (<[i := q]> ps, s').
Proof using unkeyed Httl H0 Hn Hi Ha.
  intros Hr Hle Hps. destruct (entering_step N _ _ _ _ Ha (Hps i p Hi)) as (_ & Hc & [[Hq Hk]|(scope & payload & Ht & Hq)]).
  - apply stage_open; simpl; [by rewrite Hk|lia|]. eapply pool_step; [exact Hps|done|done].
  - pose proof (claim_first scope payload s Hr) as Hf. destruct (claim_mutation _ _ _ _ _) as [[[hash replay]|x] t].
    + destruct Hf as (-> & e & He & Hst & Hh & Hx). destruct Hq as [-> Hq].
      apply (stage_claimed _ _ _ _ _ e i N); simpl; [done| |done|lia|].
      * intros m Hm. rewrite Hx. apply Httl; lia.
      * eapply pool_step; [exact Hps|by left|]. right. by eauto.
    + destruct Hq as [-> ->]. apply stage_open; simpl; [done|lia|].
      eapply pool_step; [exact Hps|done|]. apply raised_enters.
Qed.

(** a claim of a key that lives changes nothing; it is refused, or replays *)
Lemma late_claim e : record_at tenant key (Some e) (World.store s) -> lives n0 n e -> entering N p ->
  record_at tenant key (Some e) (World.store s') /\ count s' = count s /\
  (entering N q \/ IdempotencyRecord.state e = IdempotencyState.COMPLETED /\
     q = Done (model_validate (default JNull (IdempotencyRecord.response_payload e)))).
Proof using unkeyed H0 Hn Ha.
  intros Hr Hl Hp. destruct (entering_step N _ _ _ _ Ha Hp) as (_ & Hcount & [[Hq Hk]|(scope & payload & Ht & Hq)]).
  - split_and!; [by rewrite Hk|done|by left].
  - pose proof (claim_later scope payload s e Hr (Hl (S (World.ticks s)) ltac:(lia))) as Hc. unfold record_at in *.
    destruct (claim_mutation _ _ _ _ _) as [[[hash replay]|x] t].
    + destruct Hc as (Hc & -> & Hst). destruct Hq as [-> ->]. rewrite Hc. split_and!; [done|done|by right].
    + destruct Hq as [-> ->]. rewrite Hc. split_and!; [done|done|]. left. apply raised_enters.
Qed.

Lemma claimed_step e o m : record_at tenant key (Some e) (World.store s) -> lives n0 n e ->
  IdempotencyRecord.state e = IdempotencyState.IN_PROGRESS -> (count s + m <= c0 + N)%nat ->
  (forall j p, ps !! j = Some p -> entering N p \/ (j = o /\ exists hash, running m hash p)) ->
  stage N c0 n0 n (<[i := q]> ps, s').
Proof using unkeyed RoundTrip0 H0 Hn Hi Ha.
  intros Hr Hl Hst Hle Hps. destruct (Hps i p Hi) as [Hp|[-> [hash Hp]]].
  - destruct (late_claim e Hr Hl Hp) as (Hr' & Hc & [Hq|[Hst' _]]); [|congruence].
    apply (stage_claimed _ _ _ _ _ e o m); simpl; [done..|lia|]. eapply pool_step; [exact Hps|done|by left].
  - destruct (running_step N _ _ _ _ _ _ Ha Hp) as (_ & m' & Hle' & [[Hq Hk]|(a & -> & Hk)]).
    + apply (stage_claimed _ _ _ _ _ e o m'); simpl; [by apply Hk|done|done|lia|].
      eapply (pool_step _ _ _ _ _ Hps).
      * intros j p' Hj [Hp'|[-> _]]; [by left|done].
      * destruct Hq; [right; by eauto|by left].
    + destruct (Hk e Hr) as (e' & Hr' & Hst' & Hx & Hpay).
      apply (stage_answered _ _ _ _ _ e' a); simpl; [done| |done| |lia|].
      * intros k Hm. rewrite Hx. by apply Hl.
      * rewrite Hpay. apply round_trip.
      * eapply pool_step; [exact Hps| |by right]. intros j p' Hj [Hp'|[-> _]]; [by left|done].
Qed.

Lemma answered_step e a : record_at tenant key (Some e) (World.store s) -> lives n0 n e ->
  IdempotencyRecord.state e = IdempotencyState.COMPLETED ->
  model_validate (default JNull (IdempotencyRecord.response_payload e)) = Ok a -> (count s <= c0 + N)%nat ->
  (forall j p, ps !! j = Some p -> entering N p \/ p = Done (Ok a)) -> stage N c0 n0 n (<[i := q]> ps, s').
Proof using unkeyed H0 Hn Hi Ha.
  intros Hr Hl Hst Hv Hle Hps. destruct (Hps i p Hi) as [Hp|Hp]; [|rewrite Hp in Ha; by apply answered_inv in Ha].
  destruct (late_claim e Hr Hl Hp) as (Hr' & Hc & Hq). apply (stage_answered _ _ _ _ _ e a); simpl; [done..|lia|].
  eapply pool_step; [exact Hps|done|]. destruct Hq as [Hq|[_ ->]]; [by left|]. rewrite Hv. by right.
Qed.

End Step.

Lemma stage_sched `{!RoundTrip A} N c0 n0 n c c' : within_ttl n0 n -> (n0 <= World.ticks c.2)%nat ->
  (World.ticks c'.2 <= n)%nat -> sched c c' -> stage N c0 n0 n c -> stage N c0 n0 n c'.
Proof using unkeyed.
  intros Httl H0 Hn Hs. destruct Hs as [ps i p s q s' Hi Ha].
  intros [Hr Hle Hps|e o m Hr Hl Hst Hle Hps|e a Hr Hl Hst Hv Hle Hps].
  - by eapply open_step.
  - by eapply claimed_step.
  - by eapply answered_step.
Qed.

Lemma shaped_sched N c c' : sched c c' -> (forall j p, c.1 !! j = Some p -> shaped N p) ->
  (World.ticks c.2 <= World.ticks c'.2)%nat /\ forall j p, c'.1 !! j = Some p -> shaped N p.
Proof using unkeyed.
  intros [ps i p s q s' Hi Ha] Hps. destruct (shaped_step N _ _ _ _ Ha (Hps i p Hi)) as [Hg Hq]. split; [done|].
  simpl. eapply (pool_step (fun _ => shaped N) (fun _ => shaped N)); [exact Hps|done|done].
Qed.

Lemma shaped_grows N c c' : rtc sched c c' -> (forall j p, c.1 !! j = Some p -> shaped N p) ->
  (World.ticks c.2 <= World.ticks c'.2)%nat.
Proof using unkeyed.
  induction 1 as [c|c c1 c' H1 _ IH]; intros Hps; [lia|]. destruct (shaped_sched N _ _ H1 Hps) as [Hg Hps1].
  specialize (IH Hps1). lia.
Qed.

Lemma stage_shaped N c0 n0 n c : stage N c0 n0 n c -> forall j p, c.1 !! j = Some p -> shaped N p.
Proof using unkeyed.
  intros [_ _ Hps|e o m _ _ _ _ Hps|e a _ _ _ _ _ Hps] j p Hj; unfold shaped; specialize (Hps j p Hj); naive_solver.
Qed.

(** in a run within one lifetime of the key, from a pool that has not claimed it *)
Lemma stage_run `{!RoundTrip A} N c0 n0 c c' : within_ttl n0 (World.ticks c'.2) -> (n0 <= World.ticks c.2)%nat ->
  rtc sched c c' -> stage N c0 n0 (World.ticks c'.2) c -> stage N c0 n0 (World.ticks c'.2) c'.
Proof using unkeyed.
  intros Httl H0 Hs. remember (World.ticks c'.2) as n eqn:En. induction Hs as [c|c c1 c' H1 Hs IH]; intros Hc; [done|].
  destruct (shaped_sched N _ _ H1 (stage_shaped _ _ _ _ _ Hc)) as [Hg Hps1].
  apply IH; [done|lia|]. eapply stage_sched; [done|exact H0| |exact H1|done]. rewrite En. by apply (shaped_grows N).
Qed.

(** all its answers are one *)
Lemma answers_agree_once `{!RoundTrip A} N ps w ps' w' i j a b :
  record_at tenant key None (World.store w) -> (forall k p, ps !! k = Some p -> entering N p) ->
  rtc sched (ps, w) (ps', w') -> within_ttl (World.ticks w) (World.ticks w') ->
  ps' !! i = Some (Done (Ok a)) -> ps' !! j = Some (Done (Ok b)) ->
  a = b /\ (count w' <= count w + N)%nat /\ exists e, record_at tenant key (Some e) (World.store w') /\
    model_validate (default JNull (IdempotencyRecord.response_payload e)) = Ok a.
Proof using unkeyed.
  intros Hr Hps Hs Httl Hi Hj. assert (Hst : stage N (count w) (World.ticks w) (World.ticks w') (ps', w')).
  { apply (stage_run _ _ _ (ps, w) (ps', w') Httl (le_n _) Hs). by apply stage_open. }
  destruct Hst as [_ _ Hps'|e o m _ _ _ _ Hps'|e a' Hr' _ _ Hv Hle Hps']; simpl in *.
  - by destruct (Hps' i _ Hi a).
  - destruct (Hps' i _ Hi) as [Hbad|[_ (h & code & [[x|x]|B call k] & E & _)]]; [by destruct (Hbad a)|done..].
  - destruct (Hps' i _ Hi) as [Hbad|Ea]; [by destruct (Hbad a)|]. destruct (Hps' j _ Hj) as [Hbad|Eb]; [by destruct (Hbad b)|].
    injection Ea as ->. injection Eb as ->. split_and!; [done|done|]. by exists e.
Qed.

End Claims.
End Once.
