(* ===== verification/Sharing.v ===== *)
(** * The store among interleaving requests

    The rely-guarantee rule of [Interleaving] for requests to the API: the invariant
    and what a request relies on speak of the store, and a call is a computation of
    the handlers' monad. *)

From stdpp Require Import list relations.
From S2P Require Import Prelude PyData Enums Models Repository ApiCore ApiLogic Interleaving.

Section Sharing.
Context `{Env}.
(** an invariant of the store, and what a request relies on *)
Context (J : repo -> Prop) (Rel : repo -> repo -> Prop) `{!PreOrder Rel}.

Definition inv (w : World.t) : Prop := J (World.store w).
Definition rely (w w' : World.t) : Prop := Rel (World.store w) (World.store w').

#[export] Instance rely_preorder : PreOrder rely.
Proof. split; [intros w; unfold rely; reflexivity|intros w1 w2 w3; unfold rely; apply transitivity]. Qed.

(** writes that others may see *)
Definition allowed (f : repo -> repo) : Prop := forall r, J r -> J (f r) /\ Rel r (f r).

Lemma keeps_allowed r0 f : allowed f -> keeps (fun r => J r /\ Rel r0 r) (put f).
Proof.
  intros Hf. apply keeps_put. intros r [HJ HR]. destruct (Hf r HJ) as [HJ' HR']. split; [done|by transitivity r].
Qed.

Lemma guaranteed {A} (m : API A) w :
  (forall r0, keeps (fun r => J r /\ Rel r0 r) m) -> inv w -> inv (m w).2 /\ rely w (m w).2.
Proof. intros Hm Hw. apply (Hm (World.store w) w). split; [done|reflexivity]. Qed.

Lemma frames_call {A} (m : API A) :
  (forall r0, keeps (fun r => J r /\ Rel r0 r) m) -> frames inv rely (await m).
Proof.
  intros Hm w Hw. destruct (guaranteed m w Hm Hw) as [HI HR]. split_and!; [done|done|]. by destruct (m w).1.
Qed.

Definition stable (A : repo -> Prop) : Prop := forall r r', Rel r r' -> A r -> A r'.

Lemma stable_pure (P : Prop) : stable (fun _ => P).
Proof. by intros r r'. Qed.

(** what an answer gives of the store *)
Definition post {A} (B : A -> repo -> Prop) (x : res A) (w : World.t) : Prop :=
  match x with Ok a => B a (World.store w) | Raise _ => True end.

Lemma frames_outline {T} (A : repo -> Prop) (p : prog World.t T) w0 :
  frames inv rely p -> stable A -> A (World.store w0) -> outline inv rely (post (fun _ => A)) p w0.
Proof.
  intros Hp HA. revert w0. induction p as [x|B call k IH]; intros w0 H0.
  - intros w Hw. destruct x; [|done]. by apply (HA (World.store w0)).
  - intros w HI Hw. destruct (Hp w HI) as (HI' & HR & Hk). split; [done|].
    destruct (call w).1; [|done]. apply IH; [done|]. apply (HA (World.store w)); [done|].
    by apply (HA (World.store w0)).
Qed.

Lemma outline_call {T} (A : repo -> Prop) (B : T -> repo -> Prop) (m : API T) w0 :
  stable A -> (forall x, stable (B x)) -> A (World.store w0) ->
  (forall w, inv w -> A (World.store w) -> inv (m w).2 /\ post B (m w).1 (m w).2) ->
  outline inv rely (post B) (await m) w0.
Proof.
  intros HA HB H0 Hm. apply (outline_await inv rely). intros w HI Hw.
  destruct (Hm w HI) as [HI' Hp]; [by apply (HA (World.store w0))|]. split; [done|].
  intros w' Hw'. destruct (m w).1 as [x|e]; [|done]. by apply (HB x (World.store (m w).2)).
Qed.

Lemma outline_seq {T U} (B : T -> repo -> Prop) (C : U -> repo -> Prop) (p : prog World.t T) f w0 :
  outline inv rely (post B) p w0 ->
  (forall x w, B x (World.store w) -> outline inv rely (post C) (f x) w) ->
  outline inv rely (post C) (p ≫= f) w0.
Proof.
  intros Hp Hf. apply (outline_bind inv rely). eapply outline_weaken; [exact Hp|]. intros [x|e] w Hw; [by apply Hf|done].
Qed.

(** *** Calls that leave alone the part of the store that matters *)

Section View.
Context {B : Type} (f : repo -> B).
Hypothesis inv_view : forall r r', f r = f r' -> J r -> J r'.
Hypothesis rely_view : forall r r', f r = f r' -> Rel r r'.

Lemma leaves_guaranteed {A} (m : API A) r0 :
  (forall b, keeps (fun r => f r = b) m) -> keeps (fun r => J r /\ Rel r0 r) m.
Proof.
  intros Hm w [HJ HR]. assert (E : f (World.store w) = f (World.store (m w).2)) by (symmetry; by apply Hm).
  split; [by apply (inv_view _ _ E)|]. transitivity (World.store w); [done|by apply rely_view].
Qed.

Lemma frames_leaves {A} (m : API A) : (forall b, keeps (fun r => f r = b) m) -> frames inv rely (await m).
Proof using inv_view rely_view PreOrder0. intros Hm. apply frames_call. intros r0. by apply leaves_guaranteed. Qed.

Lemma leaves_stable (A : repo -> Prop) (m : API unit) : stable A ->
  (forall b, keeps (fun r => f r = b) m) -> keeps A m.
Proof using rely_view.
  intros HA Hm w Hw. apply (HA (World.store w)); [|done]. apply rely_view. symmetry. by apply Hm.
Qed.

End View.

End Sharing.
