(* ===== verification/ConcurrentDecisions.v ===== *)
(** * Decisions that interleave

    [decide_incident] of [apps/api/main.py] as a program of repository calls, what
    any number of decisions at once guarantees, and what it does not: two decisions
    of one incident that overlap are both made. *)

From stdpp Require Import list relations.
From S2P Require Import Prelude PyData Float64 PyStd Enums Models Recovery Repository StoreInvariant.
From S2P Require Import Graph Assessment Config ApiCore ApiLogic Samples ApiIncidents Decisions Interleaving Sharing.

(** ** The decision of an incident *)

Module Awaits.

Section Awaits.
Context `{Env}.

Definition control_enabled (tenant_id : string) (control_name : RuntimeControlName.t) : prog World.t bool :=
  override ← await (
    t ← now;
    o ← ask (fun r => get_runtime_control_override r tenant_id control_name t);
    lift_res o);
  match override with
  | Some change => mret (RuntimeControlChange.enabled change)
  | None =>
      platform_override ← await (
        t ← now;
        o ← ask (fun r => get_platform_control_override r control_name t);
        lift_res o);
      mret match platform_override with
           | Some change => PlatformRuntimeControlChange.enabled change
           | None => default_control_enabled control_name
           end
  end.

Definition requested_status (tenant_id : string) (payload : ApprovalRequest.t) : prog World.t string :=
  if nonempty (ApprovalRequest.final_action_payload payload) then
    enabled ← control_enabled tenant_id RuntimeControlName.APPROVAL_ACTIONS_ENABLED;
    mret (if enabled : bool then "pending" else "suppressed")
  else mret "not_requested".

Definition queue_action (tenant_id : string) (incident : Incident.t) (approval : ApprovalRecord.t)
    (payload : ApprovalRequest.t) : prog World.t ActionDispatchRecord.t :=
  action ← await (
    t ← now;
    action ← lift_res (queued_action tenant_id (Incident.incident_id incident) approval
                         (ApprovalRequest.final_action_payload payload) t);
    put (fun r => save_action_dispatch r action) ;;
    mret action);
  await (emit_event "action.queued" tenant_id (Some (Incident.trip_id incident)) (Incident.correlation_id incident)
    (Some (ApprovalRequest.actor_id payload))
    [("action_dispatch_id", juuid (ActionDispatchRecord.action_dispatch_id action));
     ("idempotency_key", JStr (ActionDispatchRecord.idempotency_key action))]) ;;
  mret action.

(** from the decision on: the incident, as it was read, is awaiting approval *)
Definition decide (incident_id : uuid) (payload : ApprovalRequest.t) (tenant_id : string) (incident : Incident.t)
    : prog World.t ApprovalRecord.t :=
  action_dispatch_status ← requested_status tenant_id payload;
  approval ← await (
    approval_id ← uuid4;
    decided_at ← now;
    approval ← lift_res (construct "ApprovalRecord" ApprovalRecord.valid
      (ApprovalRecord.mk (ApprovalRequest.decision payload) (ApprovalRequest.actor_id payload)
         (ApprovalRequest.reason payload) (ApprovalRequest.final_action_payload payload)
         approval_id incident_id decided_at action_dispatch_status));
    put (fun r => save_approval r approval) ;;
    mret approval);
  action ← (if nonempty (ApprovalRequest.final_action_payload payload) &&
               (action_dispatch_status == "pending")
            then a ← queue_action tenant_id incident approval payload; mret (Some a)
            else mret None);
  await (put (fun r => save_incident r (incident
    <| Incident.status := decided_status (ApprovalRequest.decision payload) |>
    <| Incident.updated_at := ApprovalRecord.decided_at approval |>))) ;;
  (match Incident.graph_thread_id incident with
   | Some thread_id => if truthy_str thread_id
                       then await (graph_resume thread_id (resume_payload payload action)) else mret tt
   | None => mret tt
   end) ;;
  await (emit_event "approval.completed" tenant_id (Some (Incident.trip_id incident))
    (Incident.correlation_id incident) (Some (ApprovalRequest.actor_id payload))
    [("decision", JStr (value (ApprovalRequest.decision payload)));
     ("final_action_payload", JObj (ApprovalRequest.final_action_payload payload));
     ("action_dispatch_status", JStr action_dispatch_status)]) ;;
  mret approval.

Definition decide_incident (incident_id : uuid) (payload : ApprovalRequest.t) (tenant_id : string)
    : prog World.t ApprovalRecord.t :=
  incident ← await (
    o ← ask (fun r => Repository.get_incident r tenant_id incident_id);
    incident ← found o "incident not found";
    raise_if (Incident.status incident != IncidentStatus.PENDING_APPROVAL)
      (HTTPException 409 "incident is not awaiting approval") ;;
    mret incident);
  decide incident_id payload tenant_id incident.

End Awaits.

End Awaits.

Section Decide.
Context `{Env}.

Lemma control_enabled_run tenant name w :
  run (Awaits.control_enabled tenant name) w = control_enabled tenant name w.
Proof. unfold Awaits.control_enabled, control_enabled. same_calls. Qed.

Lemma requested_status_run tenant payload w :
  run (Awaits.requested_status tenant payload) w = requested_status tenant payload w.
Proof.
  unfold Awaits.requested_status, requested_status. destruct (nonempty _); [|done].
  rewrite run_then. apply bind_ext; [apply control_enabled_run|done].
Qed.

Lemma queue_action_run tenant incident approval payload w :
  run (Awaits.queue_action tenant incident approval payload) w = queue_action tenant incident approval payload w.
Proof. unfold Awaits.queue_action, queue_action. same_calls. Qed.

#[local] Hint Resolve requested_status_run queue_action_run : core.

Lemma decide_run id payload tenant w :
  run (Awaits.decide_incident id payload tenant) w = decide_incident id payload tenant w.
Proof. unfold Awaits.decide_incident, Awaits.decide, decide_incident. same_calls. Qed.

End Decide.

(** ** What a decision does among others *)

Section Among.
Context `{Env}.
(** an invariant of the store, and what a request relies on *)
Context (J : repo -> Prop) (Rel : repo -> repo -> Prop) `{!PreOrder Rel}.
#[local] Abbreviation inv := (Sharing.inv J).
#[local] Abbreviation rely := (Sharing.rely Rel).
#[local] Abbreviation allowed := (Sharing.allowed J Rel).
#[local] Abbreviation stable := (Sharing.stable Rel).
#[local] Abbreviation frames_call := (Sharing.frames_call J Rel).
#[local] Abbreviation frames_outline := (Sharing.frames_outline J Rel).

(** the writes of the log and of the action outbox are for others to see *)
Class Bystander : Prop := {
  event_allowed e : allowed (fun r => (record_event r e).2);
  action_allowed a : allowed (fun r => save_action_dispatch r a)
}.

Lemma keeps_allowed_emit `{!Bystander} r0 kind tenant trip correlation actor details :
  keeps (fun r => J r /\ Rel r0 r) (emit_event kind tenant trip correlation actor details).
Proof.
  apply keeps_emit. intros r e [HJ HR]. destruct (event_allowed e r HJ) as [HJ' HR']. split; [done|by transitivity r].
Qed.

Lemma frames_control tenant name : frames inv rely (Awaits.control_enabled tenant name).
Proof.
  unfold Awaits.control_enabled. apply frames_bind; [apply frames_call; intros; keeps|].
  intros [change|]; [done|]. apply frames_bind; [apply frames_call; intros; keeps|done].
Qed.

Lemma frames_status tenant payload : frames inv rely (Awaits.requested_status tenant payload).
Proof. unfold Awaits.requested_status. destruct (nonempty _); [|done]. by apply frames_bind; [apply frames_control|]. Qed.

#[local] Hint Resolve keeps_allowed_emit : keeps.

Lemma frames_queue `{!Bystander} tenant incident approval payload :
  frames inv rely (Awaits.queue_action tenant incident approval payload).
Proof.
  unfold Awaits.queue_action. apply frames_bind.
  - apply frames_call. intros r0. keeps. apply (keeps_allowed J Rel), action_allowed.
  - intros action. apply frames_bind; [apply frames_call; intros; keeps|done].
Qed.

Lemma frames_resume thread payload action : frames inv rely
  (match thread with
   | Some thread_id => if truthy_str thread_id
                       then await (graph_resume thread_id (resume_payload payload action)) else mret tt
   | None => mret tt
   end).
Proof.
  destruct thread as [t|]; [|done]. destruct (truthy_str t); [|done]. apply frames_call. intros. keeps.
Qed.

(** *** The decisions of others *)

Section Others.
Context `{!Bystander} (id : uuid).
Hypothesis approval_allowed : forall a, ApprovalRecord.incident_id a = id -> allowed (fun r => save_approval r a).
Hypothesis incident_allowed : forall i, Incident.incident_id i = id ->
  Incident.status i <> IncidentStatus.PENDING_APPROVAL -> allowed (fun r => save_incident r i).
Hypothesis incident_read : forall r tenant i, J r -> Repository.get_incident r tenant id = Some i ->
  Incident.incident_id i = id.

Lemma decided_status_not_pending d : decided_status d <> IncidentStatus.PENDING_APPROVAL.
Proof. unfold decided_status. by destruct (d == _). Qed.

Lemma frames_decide payload tenant : frames inv rely (Awaits.decide_incident id payload tenant).
Proof.
  unfold Awaits.decide_incident. apply frames_await. intros w Hw.
  destruct (guaranteed J Rel (o ← ask (fun r => Repository.get_incident r tenant id);
    incident ← found o "incident not found";
    raise_if (Incident.status incident != IncidentStatus.PENDING_APPROVAL)
      (HTTPException 409 "incident is not awaiting approval") ;;
    mret incident) w) as [HI HR]; [intros; keeps|done|]. split_and!; [done|done|]. clear HI HR.
  intros incident E. assert (Hid : Incident.incident_id incident = id).
  { match type of E with (?m w).1 = _ => destruct (m w) as [x w1] eqn:E1 end. simpl in E. subst x. runs. by eapply incident_read. }
  unfold Awaits.decide. apply frames_bind; [apply frames_status|intros status].
  apply frames_bind; [apply frames_call; intros; keeps; apply (keeps_allowed J Rel), approval_allowed|intros approval].
  { match goal with E : construct _ _ _ = Ok _ |- _ => by apply construct_ok in E as [-> _] end. }
  apply frames_bind; [|intros action].
  { destruct (_ && _); [|done]. by apply frames_bind; [apply frames_queue|]. }
  apply frames_bind; [apply frames_call; intros; apply (keeps_allowed J Rel), incident_allowed|intros _].
  { done. }
  { apply decided_status_not_pending. }
  apply frames_bind; [apply frames_resume|intros _].
  apply frames_bind; [apply frames_call; intros; keeps|done].
Qed.

End Others.

(** *** The decision of one *)

Section Own.
Context `{!Bystander} (id : uuid) (payload : ApprovalRequest.t) (incident : Incident.t).
(** what is known of the store before the decision, after its approval, at its end *)
Variables (A0 : repo -> Prop) (A1 A2 : ApprovalRecord.t -> repo -> Prop).
Hypotheses (stable0 : stable A0) (stable1 : forall a, stable (A1 a)) (stable2 : forall a, stable (A2 a)).
Hypothesis own_approval : forall r a, J r -> A0 r -> ApprovalRecord.incident_id a = id ->
  J (save_approval r a) /\ A1 a (save_approval r a).
Hypothesis own_incident : forall r a, J r -> A1 a r ->
  J (save_incident r (decided incident a)) /\ A2 a (save_incident r (decided incident a)).

Definition decides (a : ApprovalRecord.t) (r : repo) : Prop := records_request id payload a /\ A2 a r.

Lemma decide_outline tenant w0 : A0 (World.store w0) ->
  outline inv rely (post decides) (Awaits.decide id payload tenant incident) w0.
Proof.
  intros HA0. unfold Awaits.decide.
  apply (outline_seq J Rel (fun _ => A0)); [by apply frames_outline; [apply frames_status|..]|].
  intros status w1 H1. apply (outline_seq J Rel (fun a r => records_request id payload a /\ A1 a r)).
  { apply (outline_call J Rel A0); [done|intros a r r' Hr [Hq Ha]; split; [done|by apply (stable1 a r)]|done|].
    intros w Hw Ha.
    cbv [mbind M_bind uuid4 now lift_res put modify mret M_ret]. simpl.
    destruct (construct _ _ _) as [a|e] eqn:E; [|done]. apply construct_ok in E as [-> _].
    match goal with |- context [save_approval _ ?a] =>
      destruct (own_approval (World.store w) a Hw Ha eq_refl) as [HJ HA1] end. split; [exact HJ|].
    split; [by split_and!|exact HA1]. }
  intros a w2 [Hq Ha]. apply (outline_seq J Rel (fun _ => A1 a)).
  { apply frames_outline; [|done|done]. destruct (_ && _); [|done]. by apply frames_bind; [apply frames_queue|]. }
  intros action w3 H3. apply (outline_seq J Rel (fun _ => A2 a)).
  { apply (outline_call J Rel (A1 a)); [done|done|done|]. intros w Hw H1'. simpl.
    destruct Hq as (_ & Hd & _). rewrite <- Hd. by apply own_incident. }
  intros _ w4 H4. apply (outline_seq J Rel (fun _ => A2 a)); [by apply frames_outline; [apply frames_resume|..]|].
  intros _ w5 H5. apply (outline_seq J Rel (fun _ => A2 a)).
  { apply frames_outline; [|done|done]. apply frames_call. intros. keeps. }
  intros _ w6 H6 w7 H7. split; [done|]. by apply (stable2 a (World.store w6)).
Qed.

End Own.

End Among.

(** ** Any number of decisions at once *)

Section Decisions.
Context `{Env}.

(** a decision request: the incident, the body, the tenant *)
Record request : Type := Request {
  about : uuid;
  body : ApprovalRequest.t;
  within : string
}.
Definition start (q : request) : prog World.t ApprovalRecord.t :=
  Awaits.decide_incident (about q) (body q) (within q).

Definition status_of (id : uuid) (r : repo) : option IncidentStatus.t :=
  Incident.status <$> dict_get id (Repo.incidents r).

(** the incident is decided, and the approval is there *)
Definition settled (id : uuid) (r : repo) : Prop :=
  (exists s, status_of id r = Some s /\ s <> IncidentStatus.PENDING_APPROVAL) /\
  is_Some (dict_get id (Repo.approvals r)).

(** what the store has of an incident and its decision *)
Definition slot (id : uuid) (r : repo) : option Incident.t * option ApprovalRecord.t :=
  (dict_get id (Repo.incidents r), dict_get id (Repo.approvals r)).

Lemma store_event r e : store_ok r -> store_ok (record_event r e).2.
Proof. apply step_ok. constructor. Qed.
Lemma store_action r a : store_ok r -> store_ok (save_action_dispatch r a).
Proof. apply step_ok. constructor. Qed.
Lemma store_approval r a : store_ok r -> store_ok (save_approval r a).
Proof. apply step_ok. constructor. Qed.
Lemma store_incident r i : store_ok r -> store_ok (save_incident r i).
Proof. apply step_ok. constructor. Qed.
#[local] Hint Resolve store_event store_action store_approval store_incident : core.

Lemma incident_keyed r tenant id i : store_ok r -> Repository.get_incident r tenant id = Some i ->
  Incident.tenant_id i = tenant /\ Incident.incident_id i = id /\ dict_get id (Repo.incidents r) = Some i.
Proof.
  intros Hok Hg. destruct (of_tenant_keyed _ _ _ _ _ _ (ok_incidents r Hok) Hg) as [Ht Hid].
  split_and!; [done|done|]. unfold Repository.get_incident, of_tenant in Hg.
  destruct (dict_get id (Repo.incidents r)); [|done]. by case_bool_decide.
Qed.

(** *** Decisions on other incidents leave the slot alone *)

Definition same_slot (id : uuid) (r r' : repo) : Prop := slot id r = slot id r'.
#[local] Instance same_slot_preorder id : PreOrder (same_slot id).
Proof. unfold same_slot. split; [done|intros r1 r2 r3; congruence]. Qed.
#[local] Instance same_slot_bystander id : Bystander store_ok (same_slot id).
Proof. constructor; intros x r Hr; split; auto; done. Qed.

Lemma frames_elsewhere id q : about q <> id -> frames (inv store_ok) (rely (same_slot id)) (start q).
Proof.
  intros Hq. unfold start. apply (frames_decide store_ok (same_slot id) (about q)).
  - intros a Ha r Hr. split; [auto|]. unfold same_slot, slot. simpl. by rewrite dict_get_set_ne by congruence.
  - intros i Hi _ r Hr. split; [auto|]. unfold same_slot, slot. simpl. by rewrite dict_get_set_ne by congruence.
  - intros r tenant i Hr Hg. by apply (incident_keyed r tenant).
Qed.

(** *** Decisions on the incident itself settle it and keep it settled *)

Definition settles (id : uuid) (r r' : repo) : Prop :=
  (status_of id r <> Some IncidentStatus.PENDING_APPROVAL -> status_of id r' <> Some IncidentStatus.PENDING_APPROVAL) /\
  (is_Some (status_of id r) -> is_Some (status_of id r')) /\
  (is_Some (dict_get id (Repo.approvals r)) -> is_Some (dict_get id (Repo.approvals r'))).
#[local] Instance settles_preorder id : PreOrder (settles id).
Proof. unfold settles. split; [intros r; naive_solver|intros r1 r2 r3; naive_solver]. Qed.
#[local] Instance settles_bystander id : Bystander store_ok (settles id).
Proof. constructor; intros x r Hr; split; auto; done. Qed.

Lemma settles_incident id r i : Incident.status i <> IncidentStatus.PENDING_APPROVAL -> settles id r (save_incident r i).
Proof.
  intros Hi. unfold settles, status_of. simpl. rewrite dict_get_set. case_bool_decide; simpl; [|done].
  split_and!; [congruence|done|done].
Qed.
Lemma settles_approval id r a : settles id r (save_approval r a).
Proof.
  unfold settles, status_of. simpl. split_and!; [done|done|]. rewrite dict_get_set. by case_bool_decide.
Qed.

Lemma frames_settle id q : frames (inv store_ok) (rely (settles id)) (start q).
Proof.
  unfold start. apply (frames_decide store_ok (settles id) (about q)).
  - intros a _ r Hr. split; [auto|apply settles_approval].
  - intros i _ Hi r Hr. split; [auto|by apply settles_incident].
  - intros r tenant i Hr Hg. by apply (incident_keyed r tenant).
Qed.

(** *** A decision among them *)

(** the incident that a request finds awaiting its approval, and what it makes of it *)
Definition reads (q : request) : API Incident.t :=
  o ← ask (fun r => Repository.get_incident r (within q) (about q));
  incident ← found o "incident not found";
  raise_if (Incident.status incident != IncidentStatus.PENDING_APPROVAL)
    (HTTPException 409 "incident is not awaiting approval") ;;
  mret incident.

Definition awaiting_in (q : request) (i : Incident.t) (r : repo) : Prop :=
  Repository.get_incident r (within q) (about q) = Some i /\ Incident.status i = IncidentStatus.PENDING_APPROVAL.

Lemma reads_spec q w : (reads q w).2 = w /\
  match (reads q w).1 with Ok i => awaiting_in q i (World.store w) | Raise _ => True end.
Proof.
  unfold reads, awaiting_in. cbv [mbind M_bind ask gets found raise_if mret M_ret]. simpl.
  destruct (Repository.get_incident _ _ _) as [i|]; simpl; [|done].
  destruct (Incident.status i != _) eqn:E; simpl; [done|]. split_and!; [done..|]. by bool_hyps.
Qed.

Section Started.
Context (Rel : repo -> repo -> Prop) `{!PreOrder Rel} `{!Bystander store_ok Rel} (q : request) (w0 : World.t).
Variables (A0 : Incident.t -> repo -> Prop) (A1 A2 : Incident.t -> ApprovalRecord.t -> repo -> Prop).
Hypotheses (stable0 : forall i, stable Rel (A0 i)) (stable1 : forall i a, stable Rel (A1 i a))
  (stable2 : forall i a, stable Rel (A2 i a)).
Hypothesis own_read : forall r i, store_ok r -> Rel (World.store w0) r -> awaiting_in q i r -> A0 i r.
Hypothesis own_approval : forall i r a, A0 i r -> ApprovalRecord.incident_id a = about q -> A1 i a (save_approval r a).
Hypothesis own_incident : forall i r a, A1 i a r -> A2 i a (save_incident r (decided i a)).

Lemma start_outline : outline (inv store_ok) (rely Rel)
  (post (fun a r => exists i, records_request (about q) (body q) a /\ A2 i a r)) (start q) w0.
Proof.
  unfold start, Awaits.decide_incident. apply (outline_seq store_ok Rel A0).
  - apply (outline_call store_ok Rel (Rel (World.store w0))); [|done|reflexivity|].
    + intros r1 r2 H12 H01. by transitivity r1.
    + intros w Hw Hrel. destruct (reads_spec q w) as [Hq Ha]. fold (reads q). rewrite Hq. split; [done|].
      unfold post. destruct (reads q w).1; [|done]. by apply own_read.
  - intros i w Hi. eapply outline_weaken.
    + apply (decide_outline store_ok Rel (about q) (body q) i (A0 i) (A1 i) (A2 i)); auto.
    + intros [a|e] w' Ha; [|done]. by exists i.
Qed.

End Started.

Definition alone (q : request) (w0 : World.t) (a : ApprovalRecord.t) (r : repo) : Prop :=
  exists i, awaiting_in q i (World.store w0) /\ records_request (about q) (body q) a /\
    slot (about q) r = (Some (decided i a), Some a).

Lemma alone_outline q w0 : store_ok (World.store w0) ->
  outline (inv store_ok) (rely (same_slot (about q))) (post (alone q w0)) (start q) w0.
Proof.
  intros Hok. eapply outline_weaken.
  - apply (start_outline (same_slot (about q)) q w0
      (fun i r => awaiting_in q i (World.store w0) /\ Incident.incident_id i = about q /\ (slot (about q) r).1 = Some i)
      (fun i a r => awaiting_in q i (World.store w0) /\ Incident.incident_id i = about q /\
                    slot (about q) r = (Some i, Some a))
      (fun i a r => awaiting_in q i (World.store w0) /\ slot (about q) r = (Some (decided i a), Some a))).
    1-3: intros; unfold stable, same_slot; intros r r' <-; done.
    + intros r i Hr Hsame [Hg Hp]. destruct (incident_keyed _ _ _ _ Hr Hg) as (Ht & Hid & Hd).
      split_and!; [|done|done]. split; [|done].
      unfold Repository.get_incident. unfold same_slot, slot in Hsame. injection Hsame as -> _. exact Hg.
    + intros i r a (Ha & Hid & Hs) Hap. split_and!; [done|done|]. unfold slot in *. simpl in *.
      rewrite Hs, Hap. by rewrite dict_get_set_eq.
    + intros i r a (Ha & Hid & Hs). split; [done|]. unfold slot in *. simpl. injection Hs as _ ->.
      rewrite Hid. by rewrite dict_get_set_eq.
  - intros [a|e] w Ha; [|done]. destruct Ha as (i & Hq & Hi & Hs). by exists i.
Qed.

Definition found_awaiting (q : request) (w0 : World.t) (a : ApprovalRecord.t) (r : repo) : Prop :=
  status_of (about q) (World.store w0) = Some IncidentStatus.PENDING_APPROVAL /\
  records_request (about q) (body q) a /\ settled (about q) r.

Lemma found_outline q w0 : store_ok (World.store w0) ->
  outline (inv store_ok) (rely (settles (about q))) (post (found_awaiting q w0)) (start q) w0.
Proof.
  intros Hok. set (start_pending := status_of (about q) (World.store w0) = Some IncidentStatus.PENDING_APPROVAL).
  eapply outline_weaken.
  - apply (start_outline (settles (about q)) q w0
      (fun i r => start_pending /\ Incident.incident_id i = about q)
      (fun i a r => start_pending /\ Incident.incident_id i = about q /\ is_Some (dict_get (about q) (Repo.approvals r)))
      (fun i a r => start_pending /\ settled (about q) r)).
    + by intros i r r'.
    + intros i a r r' (_ & _ & Hs) Ha. naive_solver.
    + intros i a r r' (Hp & Hi & Hs) [Ha [(s & Es & Hne) Hap]]. split; [done|].
      destruct (Hi (ex_intro _ _ Es)) as [s' Es']. split; [|by apply Hs]. exists s'. split; [done|].
      rewrite Es in Hp. intros ->. apply Hp; [congruence|done].
    + intros r i Hr [Hp _] [Hg Hpend]. destruct (incident_keyed _ _ _ _ Hr Hg) as (Ht & Hid & Hd). split; [|done].
      unfold start_pending. destruct (decide (status_of (about q) (World.store w0) = Some IncidentStatus.PENDING_APPROVAL))
        as [|Hne]; [done|]. destruct (Hp Hne). unfold status_of. by rewrite Hd, <- Hpend.
    + intros i r a (Ha & Hid) Hap. split_and!; [done|done|]. simpl. rewrite Hap, dict_get_set_eq. by eexists.
    + intros i r a (Ha & Hid & Hs). split; [done|]. split; [|done]. unfold status_of. simpl. rewrite Hid, dict_get_set_eq.
      eexists. split; [done|]. apply decided_status_not_pending.
  - intros [a|e] w Ha; [|done]. destruct Ha as (i & Hq & Hi & Hs). by split_and!.
Qed.

Definition pool (qs : list request) : list (prog World.t ApprovalRecord.t) := List.map start qs.

Lemma pool_lookup qs i q : qs !! i = Some q -> pool qs !! i = Some (start q).
Proof. intros Hi. unfold pool. by rewrite list_lookup_fmap, Hi. Qed.

Lemma pool_others qs (P : prog World.t ApprovalRecord.t -> Prop) i :
  (forall j q, j <> i -> qs !! j = Some q -> P (start q)) ->
  forall j p, j <> i -> pool qs !! j = Some p -> P p.
Proof.
  intros Hq j p Hj Hp. unfold pool in Hp. rewrite list_lookup_fmap in Hp.
  destruct (qs !! j) as [q|] eqn:E; [|done]. injection Hp as <-. by eapply Hq.
Qed.

(** C5. Concurrent decisions.  Any number of decision requests run at once, their
    calls interleaved in any order.  A request that is answered found its incident
    awaiting approval at the start, its approval records what it asked for, and the
    incident is settled: decided, with an approval, whatever the others do.  When no
    other request is about the same incident, the decision and the approval that
    are stored are those of the answer. *)
Theorem decisions_interleaved qs w ps w' i q approval :
  store_ok (World.store w) -> rtc sched (pool qs, w) (ps, w') ->
  qs !! i = Some q -> ps !! i = Some (Done (Ok approval)) ->
  status_of (about q) (World.store w) = Some IncidentStatus.PENDING_APPROVAL /\
  records_request (about q) (body q) approval /\
  settled (about q) (World.store w') /\
  ((forall j q', j <> i -> qs !! j = Some q' -> about q' <> about q) ->
   exists incident, Repository.get_incident (World.store w) (within q) (about q) = Some incident /\
     dict_get (about q) (Repo.incidents (World.store w')) = Some (decided incident approval) /\
     dict_get (about q) (Repo.approvals (World.store w')) = Some approval).
Proof.
  intros Hok Hs Hi Hp.
  destruct (rely_guarantee (inv store_ok) (rely (settles (about q))) (post (found_awaiting q w)) i _ _ (Ok approval) Hs) as (H1 & H2 & H3).
  { split_and!; [done| |].
    - exists (start q). split; [by apply pool_lookup|by apply found_outline].
    - apply pool_others. intros j q' _ _. apply frames_settle. }
  { exact Hp. }
  split_and!; [done..|]. intros Halone.
  destruct (rely_guarantee (inv store_ok) (rely (same_slot (about q))) (post (alone q w)) i _ _ (Ok approval) Hs)
    as (incident & [Hg _] & _ & Hslot).
  { split_and!; [done| |].
    - exists (start q). split; [by apply pool_lookup|by apply alone_outline].
    - apply pool_others. intros j q' Hj Hq'. by eapply frames_elsewhere, Halone. }
  { exact Hp. }
  exists incident. split; [done|]. by injection Hslot as -> ->.
Qed.

End Decisions.

(** ** Witness, and the decisions that overlap *)

Section Overlap.
#[local] Existing Instance sample_environment.

Definition rebook (flight : string) : ApprovalRequest.t :=
  ApprovalRequest.mk ApprovalDecision.APPROVE "m1" "rebook" [("rebook", JStr flight)].
Definition two_incidents : World.t :=
  decision_world <| World.store ::= fun r => save_incident r (awaiting <| Incident.incident_id := 17%N |>) |>.

Definition race (w : World.t) (q1 q2 : request) : list (prog World.t ApprovalRecord.t) * World.t :=
  List.fold_left turn (in_turns 10) (pool [q1; q2], w).
Definition answer_of (c : list (prog World.t ApprovalRecord.t) * World.t) (i : nat) : option ApprovalRecord.t :=
  match c.1 !! i with Some (Done (Ok a)) => Some a | _ => None end.

Definition elsewhere : list (prog World.t ApprovalRecord.t) * World.t :=
  race two_incidents (Request 7%N (rebook "UA 200") "t1") (Request 17%N (rebook "UA 300") "t1").

Lemma two_incidents_ok : store_ok (World.store two_incidents).
Proof.
  apply reachable_ok. eapply rtc_l; [apply step_create_trip|].
  eapply rtc_l; [apply step_save_incident|]. apply rtc_once, step_save_incident.
Qed.

Lemma other_is_elsewhere j q : j <> 0%nat ->
  [Request 7%N (rebook "UA 200") "t1"; Request 17%N (rebook "UA 300") "t1"] !! j = Some q -> about q <> 7%N.
Proof. intros Hj Hq. destruct j as [|[|j]]; [done|by injection Hq as <-|discriminate Hq]. Qed.

Definition answered_approval (id : uuid) (flight : string) (approval_id : uuid) (t : instant) : ApprovalRecord.t :=
  ApprovalRecord.mk ApprovalDecision.APPROVE "m1" "rebook" [("rebook", JStr flight)] approval_id id t "pending".

Lemma elsewhere_answers : answer_of elsewhere 0 = Some (answered_approval 7%N "UA 200" 104%N 5).
Proof. vm_compute. reflexivity. Qed.
Lemma elsewhere_sched :
  rtc sched (pool [Request 7%N (rebook "UA 200") "t1"; Request 17%N (rebook "UA 300") "t1"], two_incidents) elsewhere.
Proof. apply turns_sched. Qed.

Lemma decisions_interleaved_witness :
  dict_get 7%N (Repo.approvals (World.store elsewhere.2)) = Some (answered_approval 7%N "UA 200" 104%N 5).
Proof.
  generalize elsewhere_answers, elsewhere_sched. generalize elsewhere. intros [ps w'] Ha Hs. unfold answer_of in Ha.
  simpl in Ha. destruct (ps !! 0%nat) as [[[a|e]|B call k]|] eqn:El; try discriminate Ha. injection Ha as ->.
  destruct (decisions_interleaved _ _ _ _ 0 (Request 7%N (rebook "UA 200") "t1") _ two_incidents_ok Hs eq_refl El)
    as (_ & _ & _ & Halone).
  destruct (Halone other_is_elsewhere) as (incident & _ & _ & Happ). exact Happ.
Defined.

(** Two approvals of one incident whose calls overlap: both requests are answered,
    two actions are queued, and the approval of the first answer is gone.  Alone,
    the second would be refused ([decision_final]). *)
Definition overlapping : list (prog World.t ApprovalRecord.t) * World.t :=
  race decision_world (Request 7%N (rebook "UA 200") "t1") (Request 7%N (rebook "UA 300") "t1").

Lemma overlap_decides_twice :
  let first := answered_approval 7%N "UA 200" 104%N 5 in
  let second := answered_approval 7%N "UA 300" 106%N 7 in
  rtc sched (pool [Request 7%N (rebook "UA 200") "t1"; Request 7%N (rebook "UA 300") "t1"], decision_world) overlapping /\
  answer_of overlapping 0 = Some first /\ answer_of overlapping 1 = Some second /\
  dict_values (Repo.approvals (World.store overlapping.2)) = [second] /\
  List.map ActionDispatchRecord.approval_id (dict_values (Repo.action_dispatches (World.store overlapping.2))) =
    [ApprovalRecord.approval_id first; ApprovalRecord.approval_id second].
Proof. intros first second. split; [apply turns_sched|]. split_and!; vm_compute; reflexivity. Qed.

End Overlap.
