(* ===== verification/ConcurrentSubmissions.v ===== *)
(** * One decision submitted many times at once

    The whole route of a decision ([approve_incident] and [reject_incident] of
    [apps/api/main.py]) as a program of repository calls: its checks, the claim of
    its key, the decision, the stored response.  Submissions with one tenant and
    one key may interleave in any order: the key lets one of them decide. *)

From stdpp Require Import list relations.
From S2P Require Import Prelude PyData Float64 PyStd Enums Models Recovery Repository Assessment Config.
From S2P Require Import Graph Idempotency ApiCore ApiLogic Samples ApiIncidents Retries Decisions Interleaving ConcurrentRetries ConcurrentDecisions.

(** ** The route *)

Module Routes.

Section Routes.
Context `{Env} `{!Dump ApprovalRecord.t} `{!Validate ApprovalRecord.t} `{!Dump ApprovalRequest.t}.

Definition require_incident_trip_access (tenant_id : string) (incident_id : uuid)
    (x_actor_role : option UserRole.t) (x_actor_id : option string) (allowed_roles : list UserRole.t)
    : prog World.t (Incident.t * Trip.t) :=
  incident ← await (
    o ← ask (fun r => Repository.get_incident r tenant_id incident_id);
    found o "incident not found");
  trip ← await (
    o ← ask (fun r => Repository.get_trip r tenant_id (Incident.trip_id incident));
    found o "trip not found");
  await (require_trip_access trip x_actor_role x_actor_id allowed_roles) ;;
  mret (incident, trip).

(** the checks of the headers and the body: the tenant and the key *)
Definition checked (expected : ApprovalDecision.t) (wrong : string) (payload : ApprovalRequest.t) (h : headers)
    : API (string * string) :=
  require_role (x_actor_role h) [UserRole.TRAVEL_MANAGER; UserRole.TENANT_ADMIN] ;;
  _ ← require_actor_matches_payload (x_actor_id h) (ApprovalRequest.actor_id payload);
  match idempotency_key h with
  | None => http_error 400 "Idempotency-Key is required"
  | Some key =>
      raise_if (negb (truthy_str key)) (HTTPException 400 "Idempotency-Key is required") ;;
      raise_if (ApprovalRequest.decision payload != expected) (HTTPException 422 wrong) ;;
      tenant_id ← require_tenant (x_tenant_id h);
      mret (tenant_id, key)
  end.

Definition decision_handler (expected : ApprovalDecision.t) (route wrong : string) (incident_id : uuid)
    (payload : ApprovalRequest.t) (h : headers) : prog World.t ApprovalRecord.t :=
  caller ← await (checked expected wrong payload h);
  _ ← require_incident_trip_access caller.1 incident_id (x_actor_role h) (x_actor_id h)
        [UserRole.TRAVEL_MANAGER; UserRole.TENANT_ADMIN];
  once caller.1 caller.2 ("POST:/v1/incidents/" +:+ uuid_str incident_id +:+ "/" +:+ route) (dump payload) 200
    (Awaits.decide_incident incident_id payload caller.1).

End Routes.

End Routes.

(** ** Calls that only move the clock on *)

Section Clocks.
Context `{Env}.

Lemma grows_ret {A} (a : A) : grows (mret a).
Proof. by intros w. Qed.
Lemma grows_ask {A} (f : repo -> A) : grows (ask f).
Proof. by intros w. Qed.
Lemma grows_lift {A} (r : res A) : grows (lift_res r).
Proof. intros w. by destruct r. Qed.
Lemma grows_found {A} (o : option A) detail : grows (found o detail).
Proof. intros w. by destruct o. Qed.
Lemma grows_raise_if b e : grows (raise_if b e).
Proof. intros w. by destruct b. Qed.
Lemma grows_http_error {A} code detail : grows (http_error code detail : API A).
Proof. by intros w. Qed.
Lemma grows_now : grows now.
Proof. intros w. simpl. lia. Qed.
Lemma grows_uuid4 : grows uuid4.
Proof. intros w. simpl. lia. Qed.
Lemma grows_put f : grows (put f).
Proof. by intros w. Qed.
Lemma grows_bind {A B} (m : API A) (f : A -> API B) : grows m -> (forall a, grows (f a)) -> grows (m ≫= f).
Proof.
  intros Hm Hf w. rewrite M_bind_unfold. specialize (Hm w). destruct (m w) as [[a|e] w1]; [|done].
  specialize (Hf a w1). simpl in *. lia.
Qed.
Lemma grows_resume thread decision : grows (graph_resume thread decision).
Proof.
  intros w. unfold graph_resume. destruct (dict_get _ _); [|done]. destruct (resume _ _ _ _ _); simpl; lia.
Qed.

End Clocks.

Create HintDb grows discriminated.
#[export] Hint Resolve grows_ret grows_ask grows_lift grows_found grows_raise_if grows_http_error grows_now grows_uuid4
  grows_put grows_resume : grows.

Ltac grows := repeat
  match goal with
  | |- forall _, _ => intros ?
  | |- grows (_ ≫= _) => apply grows_bind
  | |- grows (match ?x with _ => _ end) => destruct x
  | |- grows _ => solve [auto with grows nocore]
  end.

Section Checks.
Context `{Env}.

Lemma grows_emit kind tenant trip correlation actor details :
  grows (emit_event kind tenant trip correlation actor details).
Proof. unfold emit_event. grows. Qed.
Lemma grows_require_role role allowed : grows (require_role role allowed).
Proof. unfold require_role. grows. Qed.
Lemma grows_require_actor_id a : grows (require_actor_id a).
Proof. unfold require_actor_id. grows. Qed.
Lemma grows_require_tenant t : grows (require_tenant t).
Proof. unfold require_tenant. grows. Qed.
#[local] Hint Resolve grows_require_actor_id grows_require_role grows_require_tenant : grows.
Lemma grows_require_actor_matches a p : grows (require_actor_matches_payload a p).
Proof. unfold require_actor_matches_payload. grows. Qed.
Lemma grows_require_trip_access trip role a allowed : grows (require_trip_access trip role a allowed).
Proof. unfold require_trip_access. grows. Qed.
#[local] Hint Resolve grows_require_actor_matches : grows.
Lemma grows_checked `{!Dump ApprovalRequest.t} expected wrong payload h : grows (Routes.checked expected wrong payload h).
Proof. unfold Routes.checked. grows. Qed.

End Checks.

#[export] Hint Resolve grows_emit grows_require_trip_access grows_checked : grows.

(** ** The shape of the route *)

Section Shape.
Context `{Env} (tenant key : string).
(** a count of what the decisions write *)
Context (f : repo -> nat) (approval_cost action_cost : nat).
Hypothesis approval_count : forall r a, (f (save_approval r a) <= f r + approval_cost)%nat.
Hypothesis action_count : forall r a, (f (save_action_dispatch r a) <= f r + action_cost)%nat.
Hypothesis incident_count : forall r i, f (save_incident r i) = f r.
Hypothesis event_count : forall r e, f (record_event r e).2 = f r.

Abbreviation tame := (tame tenant key f).
Abbreviation entering := (entering tenant key f (approval_cost + action_cost)).

Lemma tame_more {A} n n' (p : prog World.t A) : tame n p -> (n <= n')%nat -> tame n' p.
Proof.
  destruct p as [x|B call k]; [done|]. intros (Hg & Hk & c & m & Hle & Hc & Ht) Hn. split_and!; [done|done|].
  exists c, m. split_and!; [lia|done|done].
Qed.

Lemma tame_bind {A B} n m (p : prog World.t A) (g : A -> prog World.t B) :
  tame n p -> (forall a, tame m (g a)) -> tame (n + m) (p ≫= g).
Proof.
  intros Hp Hf. revert n Hp. induction p as [[a|e]|C call k IH]; intros n Hp; [|done|].
  - apply (tame_more m); [apply Hf|lia].
  - destruct Hp as (Hg & Hk & c & n' & Hle & Hc & Ht). split_and!; [done|done|].
    exists c, (n' + m)%nat. split_and!; [lia|done|]. intros b. apply IH, Ht.
Qed.

Lemma tame_writes {A} n (call : API A) : grows call -> (forall e, keeps (record_at tenant key (Some e)) call) ->
  (forall w, (f (World.store (call w).2) <= f (World.store w) + n)%nat) -> tame n (await call).
Proof. intros Hg Hk Hc. split_and!; [done|done|]. exists n, 0%nat. split_and!; [lia|done|done]. Qed.

Lemma tame_leaves {A} (call : API A) : grows call -> (forall e, keeps (record_at tenant key (Some e)) call) ->
  (forall b, keeps (fun r => f r = b) call) -> tame 0 (await call).
Proof. intros Hg Hk Hc. apply tame_writes; [done|done|]. intros w. rewrite (Hc (f (World.store w)) w eq_refl). lia. Qed.

Lemma count_emit b kind t trip correlation actor details :
  keeps (fun r => f r = b) (emit_event kind t trip correlation actor details).
Proof using event_count. apply keeps_emit. intros r e Hr. by rewrite event_count. Qed.
#[local] Hint Resolve count_emit framed_emit : keeps.

Lemma count_put b g : (forall r, f (g r) = f r) -> keeps (fun r => f r = b) (put g).
Proof. intros Hg. apply keeps_put. intros r Hr. by rewrite Hg. Qed.

Lemma unclaimed_put e g : (forall r, Repo.idempotency_records (g r) = Repo.idempotency_records r) ->
  keeps (record_at tenant key (Some e)) (put g).
Proof. intros Hg. apply keeps_put. intros r. unfold record_at. by rewrite Hg. Qed.

(** calls that write nothing that is counted *)
Ltac idle := repeat
  match goal with
  | |- tame 0 (await _) => apply tame_leaves; [grows|intros; keeps|intros; keeps]
  | |- tame 0 (_ ≫= _) => apply (tame_bind 0 0); [|intros ?]
  | |- tame 0 (mret _) => exact I
  | |- tame 0 (match ?x with _ => _ end) => destruct x
  end.

Lemma control_idle t name : tame 0 (Awaits.control_enabled t name).
Proof. unfold Awaits.control_enabled. idle. Qed.

Lemma status_idle t payload : tame 0 (Awaits.requested_status t payload).
Proof. unfold Awaits.requested_status. idle. apply control_idle. Qed.

Lemma queue_tame t incident approval payload : tame action_cost (Awaits.queue_action t incident approval payload).
Proof using action_count event_count.
  unfold Awaits.queue_action. rewrite <- (Nat.add_0_r action_cost). apply tame_bind; [|intros action; idle].
  apply tame_writes; [grows|intros e; keeps; by apply unclaimed_put|]. intros w.
  cbv [mbind M_bind now lift_res put modify mret M_ret]. simpl.
  destruct (queued_action _ _ _ _ _); simpl; [apply action_count|lia].
Qed.

Lemma decide_tame id payload t : tame (approval_cost + action_cost) (Awaits.decide_incident id payload t).
Proof using approval_count action_count incident_count event_count.
  unfold Awaits.decide_incident, Awaits.decide. apply (tame_bind 0); [idle|intros incident].
  apply (tame_bind 0); [apply status_idle|intros status]. apply tame_bind; [|intros approval].
  { apply tame_writes; [grows|intros e; keeps; by apply unclaimed_put|]. intros w.
    cbv [mbind M_bind uuid4 now lift_res put modify mret M_ret]. simpl.
    destruct (construct _ _ _); simpl; [apply approval_count|lia]. }
  rewrite <- (Nat.add_0_r action_cost). apply tame_bind; [|intros action].
  { destruct (_ && _); [|by apply (tame_more 0); [|lia]].
    rewrite <- (Nat.add_0_r action_cost). apply tame_bind; [apply queue_tame|intros; idle]. }
  idle. { by apply unclaimed_put. } { by apply count_put. }
Qed.

Context `{!Dump ApprovalRecord.t} `{!Validate ApprovalRecord.t} `{!Dump ApprovalRequest.t}.

Lemma entering_await {A} (call : API A) (g : A -> prog World.t ApprovalRecord.t) :
  grows call -> quiet call -> (forall w b, (call w).1 = Ok b -> entering (g b)) -> entering (await call ≫= g).
Proof. intros Hg Hq Hf. by left. Qed.

Lemma checked_ok expected wrong payload h w t k :
  x_tenant_id h = Some tenant -> idempotency_key h = Some key ->
  (Routes.checked expected wrong payload h w).1 = Ok (t, k) -> t = tenant /\ k = key.
Proof.
  unfold Routes.checked. intros -> -> E. match type of E with (?m w).1 = _ => destruct (m w) as [x w1] eqn:E1 end.
  simpl in E. subst x. runs. by simplify_eq.
Qed.

Lemma quiet_checked expected wrong payload h : quiet (Routes.checked expected wrong payload h).
Proof. apply keeps_quiet. intros I. unfold Routes.checked. keeps. Qed.

Lemma route_entering expected route wrong id payload h :
  x_tenant_id h = Some tenant -> idempotency_key h = Some key ->
  entering (Routes.decision_handler expected route wrong id payload h).
Proof using approval_count action_count incident_count event_count.
  intros Ht Hk. unfold Routes.decision_handler. apply entering_await; [auto with grows|apply quiet_checked|].
  intros w [t k] E. destruct (checked_ok _ _ _ _ _ _ _ Ht Hk E) as [-> ->].
  unfold Routes.require_incident_trip_access. cbn [fst snd].
  apply entering_await; [grows|apply keeps_quiet; intros; keeps|]. intros w1 incident _.
  apply entering_await; [grows|apply keeps_quiet; intros; keeps|]. intros w2 trip _.
  apply entering_await; [auto with grows|apply keeps_quiet; intros; keeps|]. intros w3 _ _.
  right. do 4 eexists. split; [reflexivity|apply decide_tame].
Qed.

End Shape.

Section Runs.
Context `{Env} `{!Dump ApprovalRecord.t} `{!Validate ApprovalRecord.t} `{!Dump ApprovalRequest.t}.

Lemma access_run t id role actor allowed w :
  run (Routes.require_incident_trip_access t id role actor allowed) w
  = require_incident_trip_access t id role actor allowed w.
Proof. unfold Routes.require_incident_trip_access, require_incident_trip_access. same_calls. Qed.

(** without interruption it is the handler *)
Lemma route_run expected route wrong id payload h w :
  run (Routes.decision_handler expected route wrong id payload h) w
  = decision_handler expected route wrong id payload h w.
Proof.
  unfold Routes.decision_handler, Routes.checked, decision_handler. destruct (idempotency_key h); same_calls.
  match goal with |- context [match ?c.2 with _ => _ end] => destruct c as [hash [replay|]] end; [reflexivity|].
  etransitivity; [apply execute_run|]. apply bind_ext; [apply decide_run|done].
Qed.

End Runs.

(** ** Submissions at once *)

(** a request to one of the two routes *)
Record submission : Type := Submission {
  expects : ApprovalDecision.t;
  route_of : string;
  refusal : string;
  decided_incident : uuid;
  content : ApprovalRequest.t;
  sent_with : headers
}.

(** what decisions write: approvals and queued actions *)
Definition approvals_stored (w : World.t) : nat := length (Repo.approvals (World.store w)).
Definition actions_queued (w : World.t) : nat := length (Repo.action_dispatches (World.store w)).

Section Submissions.
Context `{Env} `{!Dump ApprovalRecord.t} `{!Validate ApprovalRecord.t} `{!Dump ApprovalRequest.t}.

Definition submit (q : submission) : prog World.t ApprovalRecord.t :=
  Routes.decision_handler (expects q) (route_of q) (refusal q) (decided_incident q) (content q) (sent_with q).

(** one tenant and one key *)
Definition under (tenant key : string) (q : submission) : Prop :=
  x_tenant_id (sent_with q) = Some tenant /\ idempotency_key (sent_with q) = Some key.

Lemma submit_entering tenant key f n m qs :
  (forall r a, (f (save_approval r a) <= f r + n)%nat) -> (forall r a, (f (save_action_dispatch r a) <= f r + m)%nat) ->
  (forall r i, f (save_incident r i) = f r) -> (forall r e, f (record_event r e).2 = f r) ->
  (forall q, q ∈ qs -> under tenant key q) ->
  forall k p, List.map submit qs !! k = Some p -> entering tenant key f (n + m) p.
Proof.
  intros Ha Hq Hi He Hall k p Hk. rewrite list_lookup_fmap in Hk. destruct (qs !! k) as [q|] eqn:E; [|done].
  injection Hk as <-. apply list_elem_of_lookup_2, Hall in E as [Ht Hkey].
  exact (route_entering tenant key f n m Ha Hq Hi He _ _ _ _ _ _ Ht Hkey).
Qed.

Lemma approvals_at_most r a :
  (length (Repo.approvals (save_approval r a)) <= length (Repo.approvals r) + 1)%nat.
Proof. rewrite Nat.add_1_r. apply dict_set_length. Qed.

Lemma actions_at_most r a :
  (length (Repo.action_dispatches (save_action_dispatch r a)) <= length (Repo.action_dispatches r) + 1)%nat.
Proof. rewrite Nat.add_1_r. apply dict_set_length. Qed.

(** C6. A decision submitted many times at once.  Any number of approve and reject
    requests carry one tenant and one idempotency key, which is unused; their calls
    interleave in any order, within the lifetime of the key.  Whatever requests are
    answered are answered with the same approval, the key holds it as its response,
    and all of them together have stored at most one approval and queued at most one
    action. *)
Theorem double_submission `{!RoundTrip ApprovalRecord.t} tenant key qs w ps w' i j a b :
  record_at tenant key None (World.store w) -> (forall q, q ∈ qs -> under tenant key q) ->
  rtc sched (List.map submit qs, w) (ps, w') -> within_ttl (World.ticks w) (World.ticks w') ->
  ps !! i = Some (Done (Ok a)) -> ps !! j = Some (Done (Ok b)) ->
  a = b /\
  (exists e, record_at tenant key (Some e) (World.store w') /\
    model_validate (default JNull (IdempotencyRecord.response_payload e)) = Ok a) /\
  (approvals_stored w' <= S (approvals_stored w))%nat /\ (actions_queued w' <= S (actions_queued w))%nat.
Proof.
  intros Hr Hqs Hs Httl Hi Hj.
  destruct (answers_agree_once tenant key (fun r => length (Repo.approvals r)) (fun _ _ => eq_refl) (1 + 0)
    (List.map submit qs) w ps w' i j a b Hr) as (Hab & Hone & He); [|done..|].
  { apply submit_entering; [apply approvals_at_most|by intros; rewrite Nat.add_0_r|done..]. }
  destruct (answers_agree_once tenant key (fun r => length (Repo.action_dispatches r)) (fun _ _ => eq_refl) (0 + 1)
    (List.map submit qs) w ps w' i j a b Hr) as (_ & Hqueued & _); [|done..|].
  { apply submit_entering; [by intros; rewrite Nat.add_0_r|apply actions_at_most|done..]. }
  unfold count in *. unfold approvals_stored, actions_queued. split_and!; [done|done|lia|lia].
Qed.

End Submissions.

(** ** Witness *)

Section Twice.
#[local] Existing Instance sample_environment.
#[local] Existing Instances Decisions.dump_approval Decisions.validate_approval Decisions.approval_round_trip Decisions.dump_request.

(** both check, the first claims and decides, the second claims *)
Definition approve_once : submission :=
  Submission ApprovalDecision.APPROVE "approve" "decision must be approve" 7%N sample_request decision_headers.
Definition checks_first : list nat := [0; 1; 0; 1; 0; 1; 0; 1]%nat ++ List.repeat 0%nat 20 ++ List.repeat 1%nat 4.
Definition submitted_twice : list (prog World.t ApprovalRecord.t) * World.t :=
  List.fold_left turn checks_first (List.map submit [approve_once; approve_once], decision_world).
Definition answers_are (o : list (option ApprovalRecord.t)) (c : list (prog World.t ApprovalRecord.t) * World.t)
    : Prop :=
  List.map (fun p => match p with Done (Ok a) => Some a | _ => None end) c.1 = o.

Lemma submitted_twice_answers : exists a, answers_are [Some a; Some a] submitted_twice.
Proof. eexists. vm_compute. reflexivity. Qed.
Lemma submitted_twice_sched :
  rtc sched (List.map submit [approve_once; approve_once], decision_world) submitted_twice.
Proof. apply turns_sched. Qed.
Lemma submitted_twice_ticks : within_ttl (World.ticks decision_world) (World.ticks submitted_twice.2).
Proof.
  intros m m' Hm Hm'. assert (Ht : World.ticks submitted_twice.2 = 14%nat) by (vm_compute; reflexivity).
  rewrite Ht in *. change (Z.of_nat m < Z.of_nat m' + 86400 * 1000000). lia.
Qed.

Lemma key_unused : record_at "t1" "key-1" None (World.store decision_world).
Proof. reflexivity. Qed.
Lemma twice_under q : q ∈ [approve_once; approve_once] -> under "t1" "key-1" q.
Proof. intros Hq. by apply list_elem_of_In in Hq as [<-|[<-|[]]]. Qed.

Lemma double_submission_witness :
  exists a, answers_are [Some a; Some a] submitted_twice /\
    (approvals_stored submitted_twice.2 <= 1)%nat /\ (actions_queued submitted_twice.2 <= 1)%nat.
Proof.
  destruct submitted_twice_answers as [a Ha]. exists a. split; [exact Ha|]. revert Ha.
  generalize submitted_twice_sched submitted_twice_ticks. generalize submitted_twice. intros [ps w'] Hs Ht Ha.
  unfold answers_are in Ha. simpl in Ha, Ht.
  destruct ps as [|[[b|e]|B call k] [|[[b'|e']|B' call' k'] [|q' ps]]]; try discriminate Ha.
  injection Ha as -> ->.
  destruct (double_submission "t1" "key-1" _ _ _ _ 0 1 a a key_unused twice_under Hs Ht eq_refl eq_refl) as (_ & _ & H1 & H2).
  split; [exact H1|exact H2].
Defined.

End Twice.
