(* ===== verification/Audits.v ===== *)
(** * What the workflow hands back decodes

    Every entry that the nodes of the workflow append to [tool_audit] is an
    [audit_entry] that cites no evidence or all the evidence of the run, and every
    entry of [model_audit] is the metadata of one completion.  These are the
    dictionaries that [run_graph_investigation] turns into [ToolAuditEvent] and
    [ModelInvocationAudit] records. *)

From S2P Require Import Prelude PyData Float64 PyStd Enums Models Recovery Repository OpenAI Graph Providers Assessment.
From S2P Require Import Config Ingestion ApiCore.

(** pydantic's decoding of those entries: a [ToolAuditEvent] takes any text and
    any object, and UUIDs as text; a [ModelInvocationAudit] bounds its texts *)
Class AuditsDecode `{Env} : Prop := {
  decodes_tool_entry t tool arguments us outcome :
    exists x, validate_tool_audit t (audit_entry tool arguments (List.map uuid_str us) outcome) = Ok x;
  decodes_model_entry t p kind outcome summary :
    len_in 1 256 (OpenAIRecommendationProvider.model p) = true -> len_in 1 128 kind = true ->
    len_in 1 128 outcome = true ->
    exists x, validate_model_audit t
      (with_summary (OpenAIRecommendationProvider.audit_metadata p kind outcome) summary) = Ok x
}.

Create HintDb audits.

Section Audited.
Context `{Repr} {client : ModelClient} (p : OpenAIRecommendationProvider.t) (ids : list string).

Definition tool_entry (d : obj) : Prop :=
  exists tool arguments cited outcome, d = audit_entry tool arguments cited outcome /\ (cited = [] \/ cited = ids).

Definition model_entry (d : obj) : Prop :=
  exists kind outcome summary,
    d = with_summary (OpenAIRecommendationProvider.audit_metadata p kind outcome) summary /\
    len_in 1 128 kind = true /\ len_in 1 128 outcome = true.

Record audited (s : state) : Prop := {
  audited_ids : evidence_ids_of s = ids;
  audited_tools : Forall tool_entry (RouteRiskState.tool_audit s);
  audited_models : Forall model_entry (RouteRiskState.model_audit s)
}.

Lemma snoc_tool l tool arguments cited outcome :
  Forall tool_entry l -> cited = [] \/ cited = ids -> Forall tool_entry (l ++ [audit_entry tool arguments cited outcome]).
Proof. intros Hl Hc. apply Forall_app. split; [done|]. constructor; [by do 4 eexists|done]. Qed.

Lemma snoc_model l kind outcome summary :
  Forall model_entry l -> len_in 1 128 kind = true -> len_in 1 128 outcome = true ->
  Forall model_entry
    (l ++ [with_summary (OpenAIRecommendationProvider.audit_metadata p kind outcome) summary]).
Proof. intros Hl Hk Ho. apply Forall_app. split; [done|]. constructor; [by do 3 eexists|done]. Qed.

#[local] Hint Resolve snoc_tool snoc_model : audits.
#[local] Hint Extern 1 (len_in _ _ _ = true) => reflexivity : audits.

Lemma step_audited rec_id now n s n' s' :
  step p rec_id now n s = Ok (Goto n' s') -> audited s -> audited s'.
Proof.
  intros E [Hi Ht Hm]. destruct n; cbn [step] in E.
  - apply Goto_inj in E as [_ <-]. constructor; simpl; auto with audits.
  - apply Goto_inj in E as [_ <-]. unfold react_assistant, follow_up.
    destruct (_ && _); [destruct (OpenAIRecommendationProvider.select_tool _ _ _ _ _ _) as [[sel|]|e]|
      destruct (_next_tool s)]; constructor; simpl; auto with audits.
  - apply Goto_inj in E as [_ <-]. unfold run_read_only_tool.
    destruct (accepted_call s) as [[name arguments]|]; constructor; simpl; auto with audits.
  - apply Goto_inj in E as [_ <-]. unfold validate_recommendation.
    destruct (_ && _); [destruct (model_recommendation p rec_id now s)|]; constructor; simpl;
      rewrite ?app_nil_r; auto with audits.
  - apply res_bind_ok in E as (s1 & E1 & E). apply Goto_inj in E as [_ <-].
    unfold verify_alternative_eligibility in E1. apply res_bind_ok in E1 as (es & _ & <-%Ok_inj).
    constructor; simpl; auto with audits.
  - apply Goto_inj in E as [_ <-]. by constructor.
  - apply res_bind_ok in E as (s1 & E1 & E). apply Goto_inj in E as [_ <-].
    unfold attach_recovery_ranking in E1. destruct (dict_get "manager_message" _); [|done].
    apply Ok_inj in E1 as <-. by constructor.
  - apply Goto_inj in E as [_ <-]. by constructor.
  - done.
  - apply Goto_inj in E as [_ <-]. by constructor.
  - done.
Qed.

Definition reached (o : outcome) (s : state) : Prop :=
  match o with Interrupted _ s' | Finished s' => s' = s | _ => False end.

Lemma run_audited rec_id now fuel : forall n s s',
  audited s -> reached (run_from p rec_id now fuel n s) s' -> audited s'.
Proof.
  induction fuel as [|fuel IH]; intros n s s' Hs Hr; cbn [run_from] in Hr; [done|].
  destruct (step p rec_id now n s) as [[n1 s1|payload s1|s1]|e] eqn:E; [| | |done].
  - eapply IH; [|exact Hr]. by eapply step_audited.
  - simpl in Hr. subst. destruct n; cbn [step] in E; try (apply res_bind_ok in E as (? & _ & E)); try done.
    by injection E as _ <-.
  - simpl in Hr. subst. destruct n; cbn [step] in E; try (apply res_bind_ok in E as (? & _ & E)); try done.
    injection E as <-. destruct Hs. by constructor.
Qed.

End Audited.

(** ** The run that the service starts *)

Lemma graph_input_ids `{JsonTime} `{Repr} incident assessment evidence context health profile playbooks llm :
  evidence_ids_of (graph_input incident assessment evidence context health profile playbooks llm) =
  List.map uuid_str (List.map EvidenceEnvelope.evidence_id evidence).
Proof.
  unfold evidence_ids_of. simpl. induction evidence as [|e evidence IH]; simpl; [done|]. by rewrite IH.
Qed.

(** an assessment that needs review is interrupted, with audits that decode *)
Lemma review_interrupts `{Repr} {client : ModelClient} p rec_id now s :
  initial s -> RouteRiskState.tool_audit s = [] -> RouteRiskState.model_audit s = [] -> needs_review s = true ->
  exists s', invoke p rec_id now s = Interrupted (interrupt_payload s') s' /\ audited p (evidence_ids_of s) s' /\
    RouteRiskState.incident_id s' = RouteRiskState.incident_id s.
Proof.
  intros Hi Ht Hm Hr.
  assert (Ha : audited p (evidence_ids_of s) s) by (constructor; [done|by rewrite Ht|by rewrite Hm]).
  assert (Hrun : exists s', invoke p rec_id now s = Interrupted (interrupt_payload s') s' /\
    RouteRiskState.incident_id s' = RouteRiskState.incident_id s).
  { pose proof (route_cases s) as Hc. destruct (route_by_severity s) eqn:E; try done.
    - destruct (invoke_full p rec_id now s Hi E) as (s' & Hrun & Hf & _). exists s'.
      split; [done|]. apply (frame_incident _ _ Hf).
    - exists s. split; [by apply invoke_short|done].
    - congruence. }
  destruct Hrun as (s' & Hrun & Hid). exists s'. split; [done|]. split; [|done]. unfold invoke in Hrun.
  eapply (run_audited p (evidence_ids_of s)); [exact Ha|]. by rewrite Hrun.
Qed.

Section Decoded.
Context `{Env} `{!AuditsDecode}.

Lemma tools_decode t us l :
  Forall (tool_entry (List.map uuid_str us)) l -> exists k, mapM (validate_tool_audit t) l = Ok k.
Proof.
  intros Hl. apply mapM_res_total. intros d Hd. rewrite List.Forall_forall in Hl.
  destruct (Hl d Hd) as (tool & arguments & cited & outcome & -> & Hc).
  destruct Hc as [->| ->]; [apply (decodes_tool_entry t tool arguments [])|apply decodes_tool_entry].
Qed.

Lemma models_decode t p l :
  len_in 1 256 (OpenAIRecommendationProvider.model p) = true ->
  Forall (model_entry p) l -> exists k, mapM (validate_model_audit t) l = Ok k.
Proof.
  intros Hp Hl. apply mapM_res_total. intros d Hd. rewrite List.Forall_forall in Hl.
  destruct (Hl d Hd) as (kind & outcome & summary & -> & Hk & Ho). by apply decodes_model_entry.
Qed.

End Decoded.
