(* ===== verification/Completion.v ===== *)
(** * Assessments complete

    [wp m Q w]: from [w] the computation [m] answers, with a value and a store that
    satisfy [Q].  The assessment of a stored snapshot whose scores are percentages
    always answers, through every branch, with the disposition the scores call for. *)

From S2P Require Import Prelude PyData Float64 PyStd Enums Models RiskEngine Repository OpenAI Graph Providers Assessment.
From S2P Require Import Config Idempotency Ingestion ApiCore ApiLogic Samples ApiTrips ApiIncidents Retries Audits.

(** ** Total correctness *)

Definition wp {A} (m : API A) (Q : A -> repo -> Prop) (w : World.t) : Prop :=
  exists a w', m w = (Ok a, w') /\ Q a (World.store w').

Section Wp.
Context `{Env}.

Lemma wp_bind {A B} (m : API A) (f : A -> API B) Q w :
  wp m (fun a r => forall w', World.store w' = r -> wp (f a) Q w') w -> wp (m ≫= f) Q w.
Proof.
  intros (a & w' & E & Hf). destruct (Hf w' eq_refl) as (b & w2 & E2 & HQ).
  exists b, w2. split; [|done]. by rewrite (bind_again _ _ _ _ _ E).
Qed.

Lemma wp_mono {A} (m : API A) (P Q : A -> repo -> Prop) w : wp m P w -> (forall a r, P a r -> Q a r) -> wp m Q w.
Proof. intros (a & w' & E & HP) HPQ. exists a, w'. auto. Qed.

Lemma wp_ret {A} (a : A) (Q : A -> repo -> Prop) w : Q a (World.store w) -> wp (mret a) Q w.
Proof. intros HQ. by exists a, w. Qed.

Lemma wp_ask {A} (f : repo -> A) (Q : A -> repo -> Prop) w : Q (f (World.store w)) (World.store w) -> wp (ask f) Q w.
Proof. intros HQ. by eexists _, w. Qed.

Lemma wp_now (Q : instant -> repo -> Prop) w : (forall t, Q t (World.store w)) -> wp now Q w.
Proof. intros HQ. by do 2 eexists. Qed.

Lemma wp_uuid4 (Q : uuid -> repo -> Prop) w : (forall u, Q u (World.store w)) -> wp uuid4 Q w.
Proof. intros HQ. by do 2 eexists. Qed.

Lemma wp_put f (Q : unit -> repo -> Prop) w : Q tt (f (World.store w)) -> wp (put f) Q w.
Proof. intros HQ. by do 2 eexists. Qed.

Lemma wp_try_put f r (Q : unit -> repo -> Prop) w : f (World.store w) = Ok r -> Q tt r -> wp (try_put f) Q w.
Proof. intros E HQ. exists tt. eexists. split; [unfold try_put; rewrite E; reflexivity|done]. Qed.

Lemma wp_put_get {A} (f : repo -> res A * repo) a r (Q : A -> repo -> Prop) w :
  f (World.store w) = (Ok a, r) -> Q a r -> wp (put_get f) Q w.
Proof. intros E HQ. exists a. eexists. split; [unfold put_get; rewrite E; reflexivity|done]. Qed.

Lemma wp_lift {A} (m : res A) a (Q : A -> repo -> Prop) w : m = Ok a -> Q a (World.store w) -> wp (lift_res m) Q w.
Proof. intros -> HQ. by exists a, w. Qed.

Lemma wp_emit kind tenant trip correlation actor details (Q : unit -> repo -> Prop) w :
  (forall events, Q tt (World.store w <| Repo.events := events |>)) ->
  wp (emit_event kind tenant trip correlation actor details) Q w.
Proof.
  intros HQ. unfold emit_event. apply wp_bind, wp_uuid4. intros u w1 E1. apply wp_bind, wp_now.
  intros t w2 E2. apply wp_put. rewrite E2, E1. apply HQ.
Qed.

(** a loop of emissions *)
Lemma wp_for_each {A} (l : list A) body (P : repo -> Prop) (Q : unit -> repo -> Prop) w :
  (forall x w, P (World.store w) -> wp (body x) (fun _ => P) w) -> P (World.store w) ->
  (forall r, P r -> Q tt r) -> wp (for_each l body) Q w.
Proof.
  intros Hb HP HQ. revert w HP. induction l as [|x l IH]; intros w HP; simpl; [by apply wp_ret, HQ|].
  apply wp_bind. eapply wp_mono; [by apply Hb|]. intros u r' Hr w' E. apply IH. by rewrite E.
Qed.

End Wp.

(** ** The assessment of a snapshot *)

Section Completion.
Context `{Env} `{!ExactSum py_sum} `{!Dump Trip.t} `{!AuditsDecode}.

(** every stored switch has an expiry that can be compared with the clock, as the
    routes that store one check ([require_future_expiry]) *)
Definition readable_controls (r : repo) : Prop :=
  (forall tenant name c t, dict_get (tenant, name) (Repo.runtime_control_overrides r) = Some c ->
     is_ok (control_expired (RuntimeControlChange.expires_at c) t) = true) /\
  (forall name c t, dict_get name (Repo.platform_control_overrides r) = Some c ->
     is_ok (control_expired (PlatformRuntimeControlChange.expires_at c) t) = true).

Lemma wp_control tenant name (Q : bool -> repo -> Prop) w :
  readable_controls (World.store w) -> (forall b, Q b (World.store w)) -> wp (control_enabled tenant name) Q w.
Proof.
  intros [Ht Hp] HQ. unfold control_enabled. apply wp_bind, wp_now. intros t w1 E1.
  apply wp_bind, wp_ask. rewrite E1. intros w2 E2. apply wp_bind.
  assert (Ho : exists o, get_runtime_control_override (World.store w) tenant name t = Ok o).
  { unfold get_runtime_control_override. destruct (dict_get _ _) as [c|] eqn:Hg; [|by eexists].
    destruct (is_ok_inv _ (Ht tenant name c t Hg)) as [b ->]. by eexists. }
  destruct Ho as [o Ho]. eapply wp_lift; [exact Ho|]. intros w3 E3. rewrite E2 in E3.
  destruct o as [c|]; [apply wp_ret; rewrite E3; apply HQ|].
  apply wp_bind, wp_now. intros t' w4 E4. apply wp_bind, wp_ask. rewrite E4, E3. intros w5 E5. apply wp_bind.
  assert (Ho' : exists o, get_platform_control_override (World.store w) name t' = Ok o).
  { unfold get_platform_control_override. destruct (dict_get _ _) as [c|] eqn:Hg; [|by eexists].
    destruct (is_ok_inv _ (Hp name c t' Hg)) as [b ->]. by eexists. }
  destruct Ho' as [o' Ho']. eapply wp_lift; [exact Ho'|]. intros w6 E6. apply wp_ret.
  rewrite E6, E5. apply HQ.
Qed.

(** ** The investigation *)

(** the incident once the workflow is paused at its human gate: nothing but the
    investigation's own fields has changed, and the payload proposes no action *)
Record paused (incident incident' : Incident.t) : Prop := {
  paused_identity : (Incident.incident_id incident', Incident.tenant_id incident', Incident.trip_id incident',
                     Incident.assessment_id incident', Incident.severity incident', Incident.status incident') =
                    (Incident.incident_id incident, Incident.tenant_id incident, Incident.trip_id incident,
                     Incident.assessment_id incident, Incident.severity incident, Incident.status incident);
  paused_thread : Incident.graph_thread_id incident' = Some (thread_id_for (Incident.tenant_id incident)
    (Incident.trip_id incident) (Incident.incident_id incident));
  paused_payload : exists payload, Incident.approval_payload incident' = Some (approval_obj payload) /\
    ap_incident_id payload = uuid_str (Incident.incident_id incident) /\
    ap_proposed_external_action_payload payload = []
}.

Lemma wp_graph thread input (Q : state * option approval_payload -> repo -> Prop) w :
  initial input -> RouteRiskState.tool_audit input = [] -> RouteRiskState.model_audit input = [] ->
  needs_review input = true ->
  (forall s, audited model_provider (evidence_ids_of input) s ->
     RouteRiskState.incident_id s = RouteRiskState.incident_id input ->
     Q (s, Some (interrupt_payload s)) (World.store w)) ->
  wp (graph_invoke thread input) Q w.
Proof.
  intros Hi Ht Hm Hr HQ. unfold wp, graph_invoke.
  destruct (review_interrupts model_provider (uuid_at (World.ticks w)) (clock_at (World.ticks w + 1)) input
              Hi Ht Hm Hr) as (s & E & Ha & Hid). rewrite E.
  do 2 eexists. split; [reflexivity|]. by apply HQ.
Qed.

(** emissions and writes that leave the assessments alone *)
Abbreviation calm r0 := (fun r : repo => Repo.assessments r = Repo.assessments r0).

Lemma wp_calm_emit r0 kind tenant trip correlation actor details w :
  calm r0 (World.store w) ->
  wp (emit_event kind tenant trip correlation actor details) (fun _ => calm r0) w.
Proof. intros Hw. apply wp_emit. intros events. exact Hw. Qed.

Lemma wp_calm_each {A} r0 (l : list A) body w :
  (forall x w, calm r0 (World.store w) -> wp (body x) (fun _ => calm r0) w) ->
  calm r0 (World.store w) -> wp (for_each l body) (fun _ => calm r0) w.
Proof. intros Hb Hw. by apply (wp_for_each l body (calm r0)). Qed.

(** run [m] and go on, knowing only that the assessments are as they were *)
Lemma wp_calm {A B} r0 (m : API A) (f : A -> API B) (Q : B -> repo -> Prop) w :
  wp m (fun _ => calm r0) w -> (forall a w', calm r0 (World.store w') -> wp (f a) Q w') -> wp (m ≫= f) Q w.
Proof.
  intros Hm Hf. apply wp_bind. eapply wp_mono; [exact Hm|]. intros a r Hr w' E. apply Hf. by rewrite E.
Qed.

Lemma wp_investigation incident assessment evidence trip health w :
  readable_controls (World.store w) -> elevated (RiskAssessment.severity assessment) = true ->
  len_in 1 256 (OpenAIRecommendationProvider.model model_provider) = true ->
  wp (run_graph_investigation incident assessment evidence trip health)
    (fun incident' r => paused incident incident' /\ Repo.assessments r = Repo.assessments (World.store w)) w.
Proof.
  intros Hc Hsev Hmodel. unfold run_graph_investigation. cbv zeta.
  apply wp_bind, wp_control; [done|]. intros reads w1 E1.
  apply wp_bind. apply (wp_mono _ (fun _ r => r = World.store w)).
  { destruct reads; [apply wp_ask|apply wp_ret]; exact E1. }
  intros profile r -> w2 E2. apply wp_bind, wp_ask. intros w3 E3. rewrite E2 in E3.
  apply wp_bind, wp_control; [by rewrite E3|]. intros llm w4 E4. rewrite E3 in E4. apply wp_bind.
  match goal with |- wp (graph_invoke ?thread ?input) _ _ => set (start := input) end.
  apply wp_graph; [apply graph_input_initial|done|done| |].
  { unfold needs_review, start. by rewrite graph_input_severe, Hsev. }
  intros s [_ Htools Hmodels] Hid. unfold start in Htools, Hid. rewrite graph_input_ids in Htools.
  rewrite E4. intros w5 E5. cbv beta iota. apply wp_bind, wp_now. intros t w6 E6. rewrite E5 in E6.
  destruct (tools_decode t _ _ Htools) as [tool_audit Et]. destruct (models_decode t _ _ Hmodel Hmodels) as [model_audit Em].
  apply wp_bind. eapply wp_lift; [exact Et|]. intros w7 E7. apply wp_bind. eapply wp_lift; [exact Em|].
  intros w8 E8. assert (H8 : calm (World.store w) (World.store w8)) by (by rewrite E8, E7, E6).
  clear -Hid H8. apply (wp_calm (World.store w)); [by apply wp_calm_emit|]. intros _ w9 H9.
  apply (wp_calm (World.store w)); [apply wp_calm_each; [intros; by apply wp_calm_emit|done]|]. intros _ w10 H10.
  apply (wp_calm (World.store w)); [apply wp_calm_each; [intros; by apply wp_calm_emit|done]|]. intros _ w11 H11.
  apply wp_bind, wp_uuid4. intros rec_id w12 E12. apply wp_bind, wp_now. intros rec_at w13 E13.
  rewrite E12 in E13. set (recommendation := match RouteRiskState.recommendation s with Some _ => _ | None => _ end).
  clearbody recommendation. apply (wp_calm (World.store w)).
  { destruct recommendation; [apply wp_calm_emit|apply wp_ret]; by rewrite E13. }
  intros _ w14 H14. apply wp_bind, wp_uuid4. intros set_id w15 E15. apply wp_bind, wp_now.
  intros set_at w16 E16. rewrite E15 in E16. apply (wp_calm (World.store w)).
  { destruct (graph_candidate_set _ _ _ _); [|apply wp_ret; by rewrite E16].
    apply (wp_calm (World.store w)); [apply wp_put; by rewrite E16|]. intros _ w17 H17.
    apply (wp_calm (World.store w)); [by apply wp_calm_emit|]. intros _ w18 H18. by apply wp_calm_emit. }
  intros _ w17 H17. apply wp_ret. split; [|exact H17]. constructor; [done|done|]. by eexists.
Qed.

(** an incident opened for [assessment] that waits for a human: with a draft that a
    human must approve, or with the payload of the workflow paused at its gate *)
Record awaits_human (tenant : string) (trip : Trip.t) (assessment : RiskAssessment.t) (incident : Incident.t)
    : Prop := {
  awaits_tenant : Incident.tenant_id incident = tenant;
  awaits_trip : Incident.trip_id incident = Trip.trip_id trip;
  awaits_assessment : Incident.assessment_id incident = RiskAssessment.assessment_id assessment;
  awaits_severity : Incident.severity incident = RiskAssessment.severity assessment;
  awaits_approval : Incident.status incident = IncidentStatus.PENDING_APPROVAL;
  awaits_review :
    (exists r, Incident.recommendation incident = Some r /\ Recommendation.requires_human_approval r = true) \/
    Incident.graph_thread_id incident =
      Some (thread_id_for tenant (Trip.trip_id trip) (Incident.incident_id incident)) /\
    exists payload, Incident.approval_payload incident = Some (approval_obj payload) /\
      ap_incident_id payload = uuid_str (Incident.incident_id incident) /\
      ap_proposed_external_action_payload payload = []
}.

Lemma investigated_elevated severity health :
  disposition_for severity health = AssessmentDisposition.INVESTIGATE -> elevated severity = true.
Proof.
  unfold disposition_for. destruct (elevated severity); [done|]. simpl.
  destruct (2 <=? _); [done|]. by destruct (severity == Severity.WATCH).
Qed.

Lemma wp_open_incident tenant trip assessment evidence health correlation w :
  evidence <> [] -> readable_controls (World.store w) ->
  len_in 1 256 (OpenAIRecommendationProvider.model model_provider) = true ->
  wp (open_incident tenant trip assessment evidence health
        (disposition_for (RiskAssessment.severity assessment) health) correlation)
    (fun id r => exists incident, Repository.get_incident r tenant id = Some incident /\
       awaits_human tenant trip assessment incident /\ Repo.assessments r = Repo.assessments (World.store w)) w.
Proof.
  intros He Hc Hmodel. unfold open_incident.
  apply wp_bind, wp_uuid4. intros id w1 E1. apply wp_bind, wp_now. intros t1 w2 E2.
  apply wp_bind, wp_now. intros t2 w3 E3. rewrite E2, E1 in E3. cbv zeta.
  apply wp_bind. apply (wp_mono _ (fun use_react r => r = World.store w /\
    (use_react = true -> elevated (RiskAssessment.severity assessment) = true))).
  { destruct (bool_decide (disposition_for _ _ = _)) eqn:Hd.
    - apply bool_decide_eq_true, investigated_elevated in Hd. by apply wp_control; rewrite E3.
    - apply wp_ret. by rewrite E3. }
  intros use_react r [-> Hsev] w4 E4. apply wp_bind, wp_uuid4. intros rec_id w5 E5. apply wp_bind, wp_now.
  intros t w6 E6. rewrite E5, E4 in E6. apply wp_bind.
  match goal with |- context [create_limited_visibility_incident rec_id t ?i evidence] =>
    destruct (fallbacks_safe rec_id t i evidence He use_react)
      as (incident & draft & Ei & Hr & Hh & _ & _ & _ & _ & Hs & Hid)
  end.
  eapply wp_lift; [exact Ei|]. intros w7 E7. rewrite E6 in E7. simpl in Hid. injection Hid as Hi Ht Htr Hsv Ha.
  apply wp_bind. apply (wp_mono _ (fun incident' r => Repo.assessments r = Repo.assessments (World.store w) /\
    Incident.incident_id incident' = id /\ awaits_human tenant trip assessment incident')).
  { destruct use_react.
    - eapply wp_mono; [apply wp_investigation; [by rewrite E7|by apply Hsev|done]|].
      intros incident' r [[Hp Hthread Hpay] Hass]. rewrite E7 in Hass. injection Hp as P1 P2 P3 P4 P5 P6.
      split; [done|]. split; [congruence|]. constructor; try congruence.
      right. rewrite P1, <- Ht, <- Htr. by split.
    - apply wp_ret. rewrite E7. split; [done|]. split; [done|]. constructor; eauto. }
  intros incident' r (Hass & Hid & Hw) w8 E8. apply wp_bind, wp_put. intros w9 E9. apply wp_bind, wp_emit.
  intros ev1 w10 E10. apply wp_bind, wp_emit. intros ev2 w11 E11. apply wp_ret. exists incident'.
  rewrite E11, E10, E9, E8. unfold Repository.get_incident. simpl. rewrite dict_get_set_eq. simpl.
  rewrite bool_decide_true by apply Hw. done.
Qed.

(** what a completed assessment answers, and what it has stored *)
Record assessed (tenant : string) (trip : Trip.t) (evidence : list EvidenceEnvelope.t)
    (result : AssessmentResult.t) (r : repo) : Prop := {
  assessed_evidence : AssessmentResult.evidence result = evidence;
  assessed_health : AssessmentResult.source_health result = source_health_for core_order evidence;
  assessed_disposition : AssessmentResult.disposition result =
    disposition_for (RiskAssessment.severity (AssessmentResult.assessment result))
      (AssessmentResult.source_health result);
  assessed_saved : In (AssessmentResult.assessment result)
    (default [] (dict_get (Trip.trip_id trip) (Repo.assessments r)));
  assessed_incident :
    if mem (AssessmentResult.disposition result)
         [AssessmentDisposition.INVESTIGATE; AssessmentDisposition.NEEDS_HUMAN_REVIEW]
    then exists id incident, AssessmentResult.incident_id result = Some id /\
           Repository.get_incident r tenant id = Some incident /\
           awaits_human tenant trip (AssessmentResult.assessment result) incident
    else AssessmentResult.incident_id result = None
}.

Lemma wp_snapshot tenant trip scenario correlation w :
  get_evidence (World.store w) tenant (Trip.trip_id trip) <> [] ->
  wp (snapshot tenant trip scenario correlation)
    (fun items r => items = get_evidence (World.store w) tenant (Trip.trip_id trip) /\ r = World.store w) w.
Proof.
  intros He. unfold snapshot. apply wp_bind, wp_ask. intros w1 E1.
  destruct (get_evidence _ _ _) as [|item items]; [done|]. by apply wp_ret.
Qed.

Lemma wp_observed tenant id correlation evidence w :
  wp (for_each evidence (observed tenant id correlation))
    (fun _ r => exists events, r = World.store w <| Repo.events := events |>) w.
Proof.
  apply (wp_for_each _ _ (fun r => exists events, r = World.store w <| Repo.events := events |>)); [| |done].
  2: { exists (Repo.events (World.store w)). by destruct (World.store w). }
  intros item w1 [events E]. unfold observed. apply wp_emit. intros events'. rewrite E. by eexists.
Qed.

Lemma calculated id t trip factors evidence unknown a :
  calculate_risk py_sum id t trip factors evidence unknown = Ok a ->
  RiskAssessment.trip_id a = trip.
Proof. intros [-> _]%construct_ok. done. Qed.

Lemma snapshot_completes tenant trip scenario w :
  let evidence := get_evidence (World.store w) tenant (Trip.trip_id trip) in
  evidence <> [] -> scores_in_range evidence -> readable_controls (World.store w) ->
  len_in 1 256 (OpenAIRecommendationProvider.model model_provider) = true ->
  exists result w', assess_snapshot tenant trip scenario w = (Ok result, w') /\
    assessed tenant trip evidence result (World.store w').
Proof.
  intros evidence He Hs Hc Hmodel.
  change (wp (assess_snapshot tenant trip scenario) (assessed tenant trip evidence) w).
  unfold assess_snapshot. apply wp_bind, wp_uuid4. intros correlation w1 E1. apply wp_bind.
  eapply wp_mono; [apply wp_snapshot; by rewrite E1|]. intros items r [-> ->] w2 E2. rewrite E1 in *. fold evidence.
  apply wp_bind. eapply wp_mono; [apply wp_observed|]. intros u r [events ->] w3 E3. rewrite E2 in E3.
  destruct (scoring_input_total evidence trip Hs) as (factors & unknown & Ef & Hv).
  apply wp_bind. eapply wp_lift; [exact Ef|]. intros w4 E4.
  apply wp_bind, wp_uuid4. intros id w5 E5. apply wp_bind, wp_now. intros t w6 E6. apply wp_bind.
  destruct (calculate_risk_total py_sum id t (Trip.trip_id trip) factors
    (List.map EvidenceEnvelope.evidence_id evidence) unknown Hv) as [a Ea].
  eapply wp_lift; [exact Ea|]. apply calculated in Ea. intros w7 E7.
  rewrite E6, E5, E4, E3 in E7. set (r1 := World.store w <| Repo.events := events |>) in *.
  assert (Htrip : exists x, Repository.get_trip (World.store w) tenant (Trip.trip_id trip) = Some x).
  { unfold evidence, get_evidence in He. destruct (Repository.get_trip _ _ _) as [x|]; [by exists x|done]. }
  destruct Htrip as [x Hx]. apply wp_bind.
  set (r2 := r1 <| Repo.assessments ::= dict_append (Trip.trip_id trip) a |>).
  apply (wp_try_put _ r2). { unfold save_assessment. rewrite E7, Ea. unfold Repository.get_trip, r2, r1 in *. simpl. by rewrite Hx. }
  intros w8 E8. apply wp_bind. set (health := source_health_for core_order evidence).
  set (d := disposition_for (RiskAssessment.severity a) health).
  assert (Hin : In a (default [] (dict_get (Trip.trip_id trip) (Repo.assessments r2)))).
  { unfold r2, dict_append. simpl. rewrite dict_get_set_eq. simpl.
    destruct (dict_get _ _); [apply in_or_app; right|]; by left. }
  apply (wp_mono _ (fun o r => Repo.assessments r = Repo.assessments r2 /\
    if mem d [AssessmentDisposition.INVESTIGATE; AssessmentDisposition.NEEDS_HUMAN_REVIEW]
    then exists id incident, o = Some id /\ Repository.get_incident r tenant id = Some incident /\
           awaits_human tenant trip a incident
    else o = None)).
  - destruct (mem d _); [|apply wp_ret; by rewrite E8]. apply wp_bind.
    eapply wp_mono; [apply wp_open_incident; [done|by rewrite E8|done]|].
    intros i r (incident & Hi & Hw & Ha) w9 E9. apply wp_ret. rewrite E9, Ha, E8. split; [done|]. by exists i, incident.
  - intros o r [Ha Hi] w9 E9. apply wp_bind, wp_emit. intros events' w10 E10. apply wp_ret. rewrite E10.
    constructor; [done|done|done|simpl; by rewrite E9, Ha|].
    cbn [AssessmentResult.disposition AssessmentResult.incident_id AssessmentResult.assessment].
    destruct (mem d _); [|done]. destruct Hi as (i & incident & -> & Hg & Hw).
    exists i, incident. split; [done|]. split; [|done]. rewrite E9. exact Hg.
Qed.

(** ** The idempotency key *)

(** a key that is not in use yet and can be claimed; or none, where none is needed *)
Definition claimable_key (tenant : string) (key : option string) (scope : string) (payload : json) (r : repo) : Prop :=
  match key with
  | Some k =>
      if truthy_str k then
        dict_get (tenant, k) (Repo.idempotency_records r) = None /\
        len_in 1 128 tenant = true /\ len_in 1 256 k = true /\ len_in 1 256 scope = true /\
        is_sha256_hex (fingerprint scope payload) = true
      else RuntimeControls.require_idempotency controls = false
  | None => RuntimeControls.require_idempotency controls = false
  end.

(** the claim a request has made, which its completion looks for *)
Definition pending (tenant : string) (key hash : option string) (r : repo) : Prop :=
  match key, hash with
  | Some k, Some h => truthy_str k = true /\ truthy_str h = true /\
      exists e, record_at tenant k (Some e) r /\ IdempotencyRecord.request_hash e = h
  | Some k, None => truthy_str k = false
  | None, _ => True
  end.

(** the response is kept under the key *)
Definition response_kept (tenant : string) (key : option string) (code : Z) (payload : json) (r : repo) : Prop :=
  match key with
  | Some k => truthy_str k = true -> exists e, record_at tenant k (Some e) r /\
      IdempotencyRecord.state e = IdempotencyState.COMPLETED /\
      IdempotencyRecord.response_status_code e = Some code /\ IdempotencyRecord.response_payload e = Some payload
  | None => True
  end.

(** [r] but for the idempotency records *)
Definition rekeyed (r r' : repo) : Prop := exists g, r' = r <| Repo.idempotency_records ::= g |>.

Lemma rekeyed_refl r : rekeyed r r.
Proof. exists id. by destruct r. Qed.

Lemma wp_claim_optional tenant key scope payload w :
  claimable_key tenant key scope payload (World.store w) ->
  wp (claim_optional_mutation tenant key scope payload)
    (fun claimed r => claimed.2 = None /\ pending tenant key claimed.1 r /\ rekeyed (World.store w) r) w.
Proof.
  unfold claimable_key, claim_optional_mutation, pending. destruct key as [k|].
  2: { intros ->. apply wp_ret. split; [done|]. split; [done|]. apply rekeyed_refl. }
  destruct (truthy_str k) eqn:Hk.
  2: { intros ->. apply wp_ret. split; [done|]. split; [done|]. apply rekeyed_refl. }
  intros (Hfree & Ht & Hkl & Hsc & Hh). unfold claim_mutation. apply wp_bind, wp_bind, wp_now. intros t w1 E1.
  apply wp_bind, wp_now. intros t' w2 E2. rewrite E1 in E2. apply wp_bind.
  set (e := IdempotencyRecord.mk tenant k scope (fingerprint scope payload) IdempotencyState.IN_PROGRESS None None t'
    (t + RuntimeControls.idempotency_ttl_seconds controls * second) None).
  assert (Hv : IdempotencyRecord.valid e = true).
  { unfold IdempotencyRecord.valid, e. simpl. by rewrite Ht, Hkl, Hsc, Hh. }
  apply (wp_put_get _ ("execute", e) (World.store w <| Repo.idempotency_records ::= dict_set (tenant, k) e |>)).
  { rewrite E2. unfold claim_idempotency. rewrite Hfree. unfold construct. fold e. by rewrite Hv. }
  intros w3 E3. cbv beta iota. rewrite bool_decide_true by done. apply wp_ret. intros w4 E4. apply wp_ret.
  rewrite E4, E3. split; [done|]. simpl. split; [split; [done|split]|].
  - unfold is_sha256_hex, chars_in, len_in in Hh. bool_hyps. by destruct (fingerprint scope payload).
  - exists e. split; [|done]. unfold record_at. simpl. by rewrite dict_get_set_eq.
  - by eexists.
Qed.

Lemma wp_complete_optional tenant key hash code payload w :
  pending tenant key hash (World.store w) ->
  wp (complete_optional_mutation tenant key hash code payload)
    (fun _ r => response_kept tenant key code payload r /\ rekeyed (World.store w) r) w.
Proof.
  unfold pending, complete_optional_mutation, response_kept. destruct key as [k|].
  2: { intros _. apply wp_ret. split; [done|]. apply rekeyed_refl. }
  destruct hash as [h|].
  2: { intros Hk. apply wp_ret. split; [by rewrite Hk|]. apply rekeyed_refl. }
  intros (-> & -> & e & He & Hh). simpl. unfold complete_mutation. apply wp_bind, wp_now. intros t w1 E1.
  set (e' := e <| IdempotencyRecord.state := IdempotencyState.COMPLETED |>
    <| IdempotencyRecord.response_status_code := Some code |>
    <| IdempotencyRecord.response_payload := Some payload |>
    <| IdempotencyRecord.completed_at := Some t |>).
  apply (wp_try_put _ (World.store w <| Repo.idempotency_records ::= dict_set (tenant, k) e' |>)).
  { rewrite E1. unfold complete_idempotency. unfold record_at in He. rewrite He, Hh.
    by rewrite (bool_decide_true (h = h)). }
  split; [|by eexists]. intros _. exists e'. unfold record_at. simpl. by rewrite dict_get_set_eq.
Qed.

Lemma pending_framed {A} tenant key hash (m : API A) w :
  (forall k e, keeps (record_at tenant k (Some e)) m) -> pending tenant key hash (World.store w) ->
  pending tenant key hash (World.store (m w).2).
Proof.
  intros Hm. unfold pending. destruct key as [k|], hash as [h|]; try done.
  intros (Hk & Hh & e & He & Hr). do 2 (split; [done|]). exists e. split; [by apply Hm|done].
Qed.

Lemma assessed_rekeyed tenant trip evidence result r r' :
  rekeyed r r' -> assessed tenant trip evidence result r -> assessed tenant trip evidence result r'.
Proof. intros [g ->] [H1 H2 H3 H4 H5]. constructor; [done|done|done|exact H4|exact H5]. Qed.

(** ** The request *)

(** the scope and the body of the request's fingerprint *)
Definition assess_scope (id : uuid) : string := "POST:/v1/trips/" +:+ uuid_str id +:+ "/assess".
Definition assess_body (scenario : option DemoScenario.t) : json :=
  JObj [("scenario", jstr_opt (value <$> scenario))].

(** a request for an assessment that is admitted *)
Record admitted_request (id : uuid) (scenario : option DemoScenario.t) (h : headers) (tenant : string) (trip : Trip.t)
    (r : repo) : Prop := {
  admitted_tenant : x_tenant_id h = Some tenant;
  admitted_name : truthy_str tenant = true;
  admitted_trip : Repository.get_trip r tenant id = Some trip;
  admitted_role : role_in (x_actor_role h) reviewers = true;
  admitted_actor : trip_denied trip (x_actor_role h) (x_actor_id h) = false;
  admitted_identity : RuntimeControls.require_oidc controls = true -> truthy_opt_str (x_actor_id h) = true;
  admitted_key : claimable_key tenant (idempotency_key h) (assess_scope id) (assess_body scenario) r
}.

(** what the assessment of a stored snapshot needs of its surroundings *)
Record assessable (tenant : string) (trip : Trip.t) (r : repo) : Prop := {
  assessable_snapshot : get_evidence r tenant (Trip.trip_id trip) <> [];
  assessable_scores : scores_in_range (get_evidence r tenant (Trip.trip_id trip));
  assessable_controls : readable_controls r;
  assessable_model : len_in 1 256 (OpenAIRecommendationProvider.model model_provider) = true
}.

(** C11.  Assessments complete.  An admitted request (of a caller with access to the
    trip, whose idempotency key, if it sends one, is new) on a trip with a stored
    snapshot whose usable scores are percentages is always answered, on every branch,
    also through the tool-calling investigation and whatever the model returns or
    raises.  The assessment is stored with the trip and cites the snapshot and the
    health of its sources; when its severity or the missing sources call for a human,
    an incident of that severity awaits approval, with a draft that a human must
    approve or with the payload of the workflow paused at its gate, which proposes no
    action; and the response is kept under the key.  (The expiries of the stored
    switches have an offset, the model's name is at most 256 characters long, and
    pydantic decodes the audit entries of the workflow, [AuditsDecode].) *)
Theorem assessment_completes `{!Dump AssessmentResult.t} `{!Validate AssessmentResult.t} id scenario h tenant trip w :
  admitted_request id scenario h tenant trip (World.store w) -> assessable tenant trip (World.store w) ->
  exists result w', assess_trip id scenario h w = (Ok result, w') /\
    assessed tenant trip (get_evidence (World.store w) tenant (Trip.trip_id trip)) result (World.store w') /\
    response_kept tenant (idempotency_key h) 200 (dump result) (World.store w').
Proof.
  intros [Ht Htt Htr Hr Hd Ha Hk] [He Hs Hc Hmodel].
  destruct (wp_claim_optional _ _ _ _ _ Hk) as (claimed & w1 & C & Hnone & Hp & [g Hg]).
  destruct (snapshot_completes tenant trip scenario w1) as (result & w2 & E & Hq);
    [by rewrite Hg|by rewrite Hg|by rewrite Hg|done|].
  rewrite Hg in Hq.
  assert (Hp2 : pending tenant (idempotency_key h) claimed.1 (World.store w2)).
  { pose proof (pending_framed tenant (idempotency_key h) claimed.1 (assess_snapshot tenant trip scenario) w1
      (fun k e => framed_snapshot tenant k e tenant trip scenario) Hp) as Hp2. by rewrite E in Hp2. }
  destruct (wp_complete_optional _ _ _ 200 (dump result) _ Hp2) as ([] & w3 & D & Hkept & Hre).
  exists result, w3. split; [|split; [by apply (assessed_rekeyed _ _ _ _ _ _ Hre)|done]].
  unfold assess_trip. rewrite Ht, (bind_again _ _ _ _ _ (require_tenant_again _ _ Htt)).
  unfold found, ask, gets. run. rewrite Htr. run. rewrite require_trip_access_again by done. run.
  change (JObj [("scenario", _)]) with (assess_body scenario).
  change ("POST:/v1/trips/" +:+ _) with (assess_scope id). rewrite C. run. rewrite Hnone. run. rewrite E. run.
  by rewrite D.
Qed.

End Completion.

(** ** Witness: a critical case with every source present, investigated under a key *)

Section Witness.
#[local] Instance investigating : Env := sample_environment_with investigating_controls.
#[local] Instance dump_trip : Dump Trip.t := sample_dump _.
#[local] Instance dump_result : Dump AssessmentResult.t := sample_dump _.
#[local] Instance validate_result : Validate AssessmentResult.t := sample_validate _.
#[local] Instance sample_sum : ExactSum py_sum := naive_exact.

#[local] Instance sample_audits : AuditsDecode.
Proof.
  split; [by eexists|]. intros t p kind outcome summary Hp Hk Ho. simpl. unfold decode_model_audit. simpl.
  unfold construct, ModelInvocationAudit.valid. simpl. rewrite Hp, Hk, Ho. simpl.
  destruct (kind == "tool_selection"); by eexists.
Qed.

Definition storm : list EvidenceEnvelope.t :=
  List.map (fun '(id, source) => sample_item id source FreshnessStatus.FRESH (f_int 100))
    [(1%N, "flight_status"); (2%N, "connection_feasibility"); (3%N, "airport_weather"); (4%N, "ground_route");
     (5%N, "destination_advisory")].

Definition storm_world : World.t :=
  World.init <| World.store := Repository.create_trip Repo.init (sample_trip 1%N "t1" "alice" 0)
    <| Repo.evidence := [(1%N, storm)] |> |>.

Definition keyed_manager : headers := Headers (Some "t1") (Some UserRole.TRAVEL_MANAGER) None (Some "k1").

Lemma storm_scores : scores_in_range storm.
Proof.
  intros item Hin _. unfold storm in Hin. apply in_map_iff in Hin as ([id source] & <- & _).
  exists (f_int 100). split; reflexivity.
Qed.

Lemma storm_snapshot : get_evidence (World.store storm_world) "t1" (Trip.trip_id (sample_trip 1%N "t1" "alice" 0)) = storm.
Proof. reflexivity. Qed.

Lemma storm_admitted :
  admitted_request 1%N None keyed_manager "t1" (sample_trip 1%N "t1" "alice" 0) (World.store storm_world).
Proof. constructor; try reflexivity; [discriminate|]. split_and!; reflexivity. Qed.

Lemma storm_assessable : assessable "t1" (sample_trip 1%N "t1" "alice" 0) (World.store storm_world).
Proof. constructor; [discriminate|exact storm_scores|split; discriminate|reflexivity]. Qed.

(** the workflow investigates it *)
Lemma storm_investigated :
  match (assess_trip 1%N None keyed_manager storm_world).1 with
  | Ok result => AssessmentResult.disposition result = AssessmentDisposition.INVESTIGATE
  | Raise _ => False
  end.
Proof. vm_compute. reflexivity. Qed.

Lemma assessment_completes_witness :
  exists result w', assess_trip 1%N None keyed_manager storm_world = (Ok result, w') /\
    AssessmentResult.evidence result = storm /\
    (exists e, record_at "t1" "k1" (Some e) (World.store w') /\
       IdempotencyRecord.state e = IdempotencyState.COMPLETED).
Proof.
  destruct (assessment_completes 1%N None keyed_manager "t1" (sample_trip 1%N "t1" "alice" 0) storm_world
    storm_admitted storm_assessable) as (result & w' & E & Hq & Hk).
  apply assessed_evidence in Hq. rewrite storm_snapshot in Hq.
  exists result, w'. split; [exact E|]. split; [exact Hq|].
  destruct (Hk eq_refl) as (e & He & Hs & _). exists e. split; [exact He|exact Hs].
Defined.

End Witness.
