(* ===== verification/Boundary.v ===== *)
(** * What enters from outside

    CSV imports: a well-formed table is read back exactly, and nothing else that
    is accepted can smuggle a formula.  Booking webhooks: nothing happens without
    a valid signature.  Bearer tokens: the handlers act for the token's identity. *)

From S2P Require Import Prelude PyData Float64 PyStd Enums Models Security Repository OpenAI Graph Providers.
From S2P Require Import Assessment Config Ingestion ApiCore ApiLogic Samples ApiTrips ApiRecovery.
From S2P Require Import ApiIngestion Auth.

(** ** Writing CSV: every field quoted, quotes doubled *)

Module CsvWriter.
Import CsvReader.

Fixpoint doubled (s : string) : string :=
  match s with
  | EmptyString => EmptyString
  | String c s' => if c == quotechar then String c (String c (doubled s')) else String c (doubled s')
  end.

Definition quoted (s : string) : string := String quotechar (doubled s +:+ String quotechar "").

Fixpoint record (row : list string) : string :=
  match row with
  | [] => String LF ""
  | [s] => quoted s +:+ String LF ""
  | s :: row' => quoted s +:+ String "," (record row')
  end.

Definition table (rows : list (list string)) : string := foldr (fun row s => record row +:+ s) "" rows.

(** the reader's limit on a field *)
Definition fits (s : string) : Prop := str_len s <= field_limit.

End CsvWriter.

Section Reading.
Import CsvReader CsvWriter.

Lemma ok_eta {A} (m : res A) : (x ← m; Ok x) = m.
Proof. by destruct m. Qed.

Lemma read_more pending self c rest self' :
  process_char self c = Ok self' -> state self' <> START_RECORD -> c <> LF ->
  read pending self (String c rest) = read true self' rest.
Proof. intros E _ Hc. cbn [read]. rewrite E. simpl. by rewrite bool_decide_false. Qed.

(** inside quotes a line feed is a character like any other *)
Lemma read_quoted_char pending fs f n c rest : n < field_limit -> c <> quotechar ->
  exists p, read pending (mk IN_QUOTED_FIELD fs f n) (String c rest) =
    read p (mk IN_QUOTED_FIELD fs (f +:+ String c "") (n + 1)) rest.
Proof.
  intros Hn Hc. cbn [read]. unfold process_char, add_char. simpl.
  rewrite (bool_decide_false (c = quotechar)) by done.
  destruct (Z.leb_spec field_limit n); [lia|]. simpl. case_bool_decide; [|by exists true].
  exists false. unfold emit, end_of_line. simpl. by destruct (read _ _ rest).
Qed.

(** two quotes inside quotes are one *)
Lemma read_two_quotes pending fs f n rest : n < field_limit ->
  read pending (mk IN_QUOTED_FIELD fs f n) (String quotechar (String quotechar rest)) =
  read true (mk IN_QUOTED_FIELD fs (f +:+ String quotechar "") (n + 1)) rest.
Proof.
  intros Hn. rewrite (read_more _ _ _ _ (mk QUOTE_IN_QUOTED_FIELD fs f n)) by done.
  apply read_more; [|done..]. cbn [process_char state]. rewrite (bool_decide_true (quotechar = quotechar)) by done.
  unfold add_char. cbn [field_len fields field]. destruct (Z.leb_spec field_limit n); [lia|done].
Qed.

Lemma read_doubled s : forall pending fs f n rest, n + str_len s <= field_limit ->
  exists p, read pending (mk IN_QUOTED_FIELD fs f n) (doubled s +:+ rest) =
    read p (mk IN_QUOTED_FIELD fs (f +:+ s) (n + str_len s)) rest.
Proof.
  induction s as [|c s IH]; intros pending fs f n rest Hn; simpl.
  - exists pending. by rewrite str_app_nil_r, Z.add_0_r.
  - unfold str_len in *. simpl in Hn.
    assert (E : forall p, exists q, read p (mk IN_QUOTED_FIELD fs (f +:+ String c "") (n + 1)) (doubled s +:+ rest) =
      read q (mk IN_QUOTED_FIELD fs (f +:+ String c s) (n + Z.of_nat (S (String.length s)))) rest).
    { intros p. destruct (IH p fs (f +:+ String c "") (n + 1) rest) as [q E]; [lia|]. exists q. rewrite E.
      f_equal. f_equal; [by rewrite str_app_assoc|lia]. }
    case_bool_decide as Hc.
    + subst c. destruct (E true) as [q Hq]. exists q. etransitivity; [|exact Hq].
      apply read_two_quotes. lia.
    + destruct (read_quoted_char pending fs f n c (doubled s +:+ rest)) as [p Hp]; [lia|done|].
      destruct (E p) as [q Hq]. exists q. etransitivity; [exact Hp|exact Hq].
Qed.

(** where a field may begin *)
Definition between (ph : phase) : Prop := ph = START_RECORD \/ ph = START_FIELD.

Lemma read_field s pending ph fs rest : between ph -> fits s ->
  exists p n, read pending (mk ph fs "" 0) (quoted s +:+ rest) = read p (mk QUOTE_IN_QUOTED_FIELD fs s n) rest.
Proof.
  intros Hph Hs. assert (Eq : quoted s +:+ rest = String quotechar (doubled s +:+ String quotechar rest))
    by (unfold quoted; by rewrite str_app_cons, str_app_assoc).
  rewrite Eq.
  assert (E : read pending (mk ph fs "" 0) (String quotechar (doubled s +:+ String quotechar rest)) =
              read true (mk IN_QUOTED_FIELD fs "" 0) (doubled s +:+ String quotechar rest))
    by (destruct Hph as [-> | ->]; reflexivity).
  destruct (read_doubled s true fs "" 0 (String quotechar rest) Hs) as [p Hp].
  exists true, (0 + str_len s). rewrite E, Hp. reflexivity.
Qed.

Lemma read_field_next s pending ph fs rest : between ph -> fits s ->
  exists p, read pending (mk ph fs "" 0) (quoted s +:+ String "," rest) = read p (mk START_FIELD (fs ++ [s]) "" 0) rest.
Proof.
  intros Hph Hs. destruct (read_field s pending ph fs (String "," rest) Hph Hs) as (p & n & ->).
  by exists true.
Qed.

Lemma read_field_last s pending ph fs rest : between ph -> fits s ->
  read pending (mk ph fs "" 0) (quoted s +:+ String LF rest) =
  (records ← read false reset rest; Ok ((fs ++ [s]) :: records)).
Proof.
  intros Hph Hs. destruct (read_field s pending ph fs (String LF rest) Hph Hs) as (p & n & ->). reflexivity.
Qed.

Lemma read_record row : forall pending ph fs rest, row <> [] -> between ph -> Forall fits row ->
  read pending (mk ph fs "" 0) (record row +:+ rest) =
  (records ← read false reset rest; Ok ((fs ++ row) :: records)).
Proof.
  induction row as [|s row IH]; intros pending ph fs rest Hne Hph Hr; [done|]. apply Forall_cons in Hr as [Hs Hr].
  destruct row as [|s' row].
  - cbn [record]. rewrite str_app_assoc, str_app_cons. by apply read_field_last.
  - change (record (s :: s' :: row)) with (quoted s +:+ String "," (record (s' :: row))).
    rewrite str_app_assoc, str_app_cons.
    destruct (read_field_next s pending ph fs (record (s' :: row) +:+ rest) Hph Hs) as [p ->].
    rewrite IH by (done || by right). by rewrite <- app_assoc.
Qed.

(** a table is read back *)
Lemma read_table rows : Forall (fun row => row <> [] /\ Forall fits row) rows -> reader (table rows) = Ok rows.
Proof.
  unfold reader. induction 1 as [|row rows [Hne Hr] _ IH]; [done|]. cbn [table foldr].
  unfold reset. rewrite read_record by (done || by left). unfold table, reset in *. by rewrite IH.
Qed.

End Reading.

(** ** Rows by column *)

Lemma fold_set_fresh {K V} `{EqDecision K} (l d : dict K V) :
  NoDup (d.*1 ++ l.*1) -> fold_left (fun d '(k, v) => dict_set k v d) l d = d ++ l.
Proof.
  revert d. induction l as [|[k v] l IH]; intros d Hd; simpl; [by rewrite app_nil_r|].
  assert (Hk : dict_set k v d = d ++ [(k, v)]).
  { clear IH. induction d as [|[k' v'] d IHd]; simpl in *; [done|]. apply NoDup_cons in Hd as [Hk' Hd].
    rewrite bool_decide_false; [by rewrite IHd|]. intros <-. apply Hk', list_elem_of_In, in_or_app. right. by left. }
  rewrite Hk, IH, <- app_assoc; [done|]. rewrite fmap_app, <- app_assoc. exact Hd.
Qed.

Lemma NoDup_map_Some {A} (l : list A) : NoDup l -> NoDup (List.map Some l).
Proof. apply (NoDup_fmap_2 Some). Qed.

(** the cells of a row under their columns *)
Definition columns (header row : list string) : csv_row :=
  List.map (fun '(k, v) => (Some k, Text v)) (List.combine header row).

Lemma map_fst_combine {A B} (l : list A) (l' : list B) :
  length l = length l' -> List.map fst (List.combine l l') = l.
Proof. revert l'. induction l as [|a l IH]; intros [|b l'] E; simpl in *; [done..|]. f_equal. apply IH. lia. Qed.

Lemma columns_keys header row : length header = length row -> (columns header row).*1 = List.map Some header.
Proof.
  intros E. unfold columns. rewrite <- (map_fst_combine header row E) at 2.
  induction (List.combine header row) as [|[k v] l IH]; [done|]. simpl. by rewrite <- IH.
Qed.

Lemma dict_row_columns header row : NoDup header -> length header = length row -> dict_row header row = columns header row.
Proof.
  intros Hn E. unfold dict_row. rewrite <- E, Nat.ltb_irrefl, List.skipn_all. simpl. unfold zip_row.
  transitivity ([] ++ columns header row); [|done].
  rewrite <- (fold_set_fresh (columns header row) []); [|simpl; rewrite columns_keys by done; by apply NoDup_map_Some].
  unfold columns. generalize (@nil (option string * cell)). induction (List.combine header row) as [|[k v] l IH]; [done|].
  intros d. simpl. apply IH.
Qed.

(** ** What the import accepts *)

(** a cell that is not a formula *)
Definition harmless (c : cell) : Prop :=
  match c with Text s => formula_like s = false | Missing => True | Surplus _ => False end.

Lemma any_formula_harmless values : any_formula values = Ok false <-> Forall harmless values.
Proof.
  induction values as [|c values IH]; simpl; [by split|]. rewrite Forall_cons, <- IH. destruct c as [s| |l]; simpl.
  - destruct (truthy_str s) eqn:Ht; simpl.
    + destruct (formula_like s); split; naive_solver.
    + destruct s; [|done]. split; [by split|by intros [_ ?]].
  - naive_solver.
  - naive_solver.
Qed.

Lemma in_dict_values {K V} (d : dict K V) v : In v (dict_values d) <-> exists k, In (k, v) d.
Proof.
  unfold dict_values. rewrite in_map_iff. split; [intros ([k x] & <- & Hin); by exists k|].
  intros [k Hin]. by exists (k, v).
Qed.

Lemma Forall_concat_map {A B} (P : B -> Prop) (f : A -> list B) l :
  Forall P (List.concat (List.map f l)) <-> forall x, In x l -> Forall P (f x).
Proof. rewrite Forall_concat, !List.Forall_forall. setoid_rewrite in_map_iff. naive_solver. Qed.

Lemma columns_harmless header row :
  Forall (fun s => formula_like s = false) row -> Forall harmless (dict_values (columns header row)).
Proof.
  intros Hr. apply List.Forall_forall. intros c [k Hin]%in_dict_values. unfold columns in Hin.
  apply in_map_iff in Hin as ([h s] & E & Hin). injection E as _ <-. simpl.
  rewrite List.Forall_forall in Hr. apply Hr. by apply in_combine_r in Hin.
Qed.

(** the reader and the scan for formulas raise no [ValueError] *)
Lemma add_char_error c next self msg : CsvReader.add_char c next self <> Raise (ValueError msg).
Proof. unfold CsvReader.add_char. by destruct (_ <=? _). Qed.

Lemma process_char_error self c msg : CsvReader.process_char self c <> Raise (ValueError msg).
Proof.
  unfold CsvReader.process_char, CsvReader.start_field. repeat case_match; try done; apply add_char_error.
Qed.

Lemma read_error content : forall pending self msg, CsvReader.read pending self content <> Raise (ValueError msg).
Proof.
  induction content as [|c content IH]; intros pending self msg; simpl.
  - destruct pending; [|done]. by destruct (CsvReader.emit _).
  - destruct (CsvReader.process_char self c) as [self'|e] eqn:E; simpl.
    + destruct (c == CsvReader.LF); [|apply IH]. destruct (CsvReader.emit _) as [out self2].
      specialize (IH false self2 msg). destruct (CsvReader.read _ _ content); simpl; congruence.
    + intros [= ->]. by apply process_char_error in E.
Qed.

Lemma dict_reader_error content msg : DictReader content <> Raise (ValueError msg).
Proof.
  unfold DictReader, CsvReader.reader. pose proof (read_error content false CsvReader.reset msg) as Hr.
  destruct (CsvReader.read _ _ content); simpl; congruence.
Qed.

Lemma any_formula_error values msg : any_formula values <> Raise (ValueError msg).
Proof. induction values as [|[s| |l] values IH]; simpl; try done. by destruct (_ && _). Qed.

(** a table that the import should accept *)
Record importable (header : list string) (rows : list (list string)) : Prop := {
  import_distinct : NoDup header;
  import_required : subset REQUIRED_CSV_COLUMNS header = true;
  import_header : Forall CsvWriter.fits header;
  import_some : rows <> [];
  import_bounded : len rows <= max_csv_rows;
  import_width : Forall (fun row => length header = length row) rows;
  import_cells : Forall (Forall (fun s => CsvWriter.fits s /\ formula_like s = false)) rows
}.

Lemma required_columns header row : subset REQUIRED_CSV_COLUMNS header = true -> length header = length row ->
  subset (List.map Some REQUIRED_CSV_COLUMNS) (dict_keys (columns header row)) = true.
Proof.
  intros Hs E. pose proof (proj1 (subset_true_iff _ _) Hs) as Hin. apply subset_true_iff. intros x (y & <- & Hy)%in_map_iff.
  change (dict_keys (columns header row)) with ((columns header row).*1). rewrite columns_keys by done.
  by apply in_map, Hin.
Qed.

(** C32.  CSV round trip.  A table whose columns are distinct and include the
    required ones, with between one and a thousand rows of that width and no cell
    that starts like a formula, is read back exactly from its quoted text: every
    row, in order, with each cell under its column. *)
Theorem csv_roundtrip header rows :
  importable header rows ->
  parse_csv_rows (CsvWriter.table (header :: rows)) = Ok (List.map (columns header) rows).
Proof.
  intros [Hn Hreq Hh Hsome Hlen Hw Hc]. unfold parse_csv_rows, DictReader.
  assert (Hne : header <> []) by by intros ->.
  rewrite List.Forall_forall in Hw, Hc. rewrite read_table.
  2: { constructor; [by split|]. apply List.Forall_forall. intros row Hr. specialize (Hw row Hr).
       split; [by destruct row, header|]. eapply Forall_impl; [by apply Hc|]. by intros s [? _]. }
  cbn [mbind res_bind]. rewrite List.forallb_filter_id.
  2: { apply forallb_forall. intros row Hr. specialize (Hw row Hr). apply negb_true_iff, bool_decide_eq_false.
       by destruct row, header. }
  assert (Hmap : List.map (dict_row header) rows = List.map (columns header) rows)
    by (apply map_ext_in; intros row Hr; apply dict_row_columns; auto).
  rewrite Hmap. unfold len in *. rewrite length_map. destruct (Z.ltb_spec max_csv_rows (Z.of_nat (length rows))); [lia|].
  assert (Ha : any_formula (List.concat (List.map dict_values (List.map (columns header) rows))) = Ok false).
  { apply any_formula_harmless, Forall_concat_map. intros d (row & <- & Hr)%in_map_iff. apply columns_harmless.
    eapply Forall_impl; [by apply Hc|]. by intros s [_ ?]. }
  rewrite Ha. destruct rows as [|row rows]; [done|]. cbn [List.map].
  rewrite required_columns; [done..|]. apply Hw. by left.
Qed.

(** What an import accepts.  Accepted rows are between one and a thousand, the
    first has the required columns, and in every one of them every cell is absent
    or a text that does not start like a formula.  The parser's own refusals, the
    ones the route answers with 422, are the three named ones. *)
Theorem csv_accepts content :
  (forall rows, parse_csv_rows content = Ok rows ->
     (exists first rest, rows = first :: rest /\
        forall column, In column REQUIRED_CSV_COLUMNS -> exists c, In (Some column, c) first) /\
     len rows <= max_csv_rows /\
     (forall row k c, In row rows -> In (k, c) row -> harmless c)) /\
  (forall msg, parse_csv_rows content = Raise (ValueError msg) ->
     In msg ["CSV is missing required itinerary columns"; "CSV exceeds row limit";
             "CSV formula-like values are not accepted"]).
Proof.
  unfold parse_csv_rows. destruct (DictReader content) as [rows|e] eqn:E.
  2: { split; [done|]. intros msg [= ->]. exfalso. by apply dict_reader_error in E. }
  cbn [mbind res_bind]. destruct rows as [|first rest]; [split; [done|]; intros msg [= <-]; by left|].
  destruct (subset _ _) eqn:Hs; [|split; [done|]; intros msg [= <-]; by left].
  cbn [negb]. destruct (max_csv_rows <? len _) eqn:Hlen; [split; [done|]; intros msg [= <-]; by right; left|].
  apply Z.ltb_ge in Hlen.
  destruct (any_formula _) as [found|e] eqn:Ha; cbn [mbind res_bind negb].
  2: { split; [done|]. intros msg [= ->]. exfalso. by apply any_formula_error in Ha. }
  destruct found; [split; [done|]; intros msg [= <-]; by right; right; left|].
  split; [|done]. intros rows' <-%Ok_inj. split; [|split; [exact Hlen|]].
  - exists first, rest. split; [done|]. intros column Hin. rewrite subset_true_iff in Hs.
    specialize (Hs (Some column) (in_map Some _ _ Hin)). unfold dict_keys in Hs. apply in_map_iff in Hs as ([k c] & <- & Hc).
    by exists c.
  - intros row k c Hr Hk. apply any_formula_harmless in Ha. rewrite Forall_concat_map in Ha.
    specialize (Ha row Hr). rewrite List.Forall_forall in Ha. apply Ha, in_dict_values. by exists k.
Qed.

(** ** Booking webhooks *)

Section Webhook.
Context `{Env} `{!Dump Trip.t} `{!Dump AssessmentResult.t} `{!Validate AssessmentResult.t}
  `{!Validate TripCreate.t} `{!Dump BookingWebhookEvent.t} `{!Validate BookingWebhookEvent.t}.

(** the request carries the digest of its timestamp and body under the shared secret,
    and the timestamp is within five minutes of the clock *)
Definition signed (body : string) (h : webhook_headers) (at_time : instant) : Prop :=
  exists secret text timestamp,
    getenv "BOOKING_WEBHOOK_SECRET" = Some secret /\ truthy_str secret = true /\
    x_webhook_timestamp h = Some text /\
    x_webhook_signature h = Some (hmac_sha256_hex secret (text +:+ "." +:+ body)) /\
    fromisoformat (str_replace "Z" "+00:00" text) = Some timestamp /\
    Z.abs (at_time - dt_instant timestamp) <= 5 * minute.

Lemma verified body signature secret text :
  truthy_str text = true ->
  verify_webhook_signature hmac_sha256_hex body signature secret (Some text) = Ok true ->
  signature = hmac_sha256_hex secret (text +:+ "." +:+ body).
Proof.
  intros Ht. unfold verify_webhook_signature, compare_digest. rewrite Ht. destruct (_ && _); [|done].
  intros Hs%Ok_inj. symmetry. by apply bool_decide_eq_true in Hs.
Qed.

Lemma timestamp_fresh text t ts : parse_webhook_timestamp fromisoformat text t = Ok ts ->
  fromisoformat (str_replace "Z" "+00:00" text) = Some ts /\ Z.abs (t - dt_instant ts) <= 5 * minute.
Proof.
  unfold parse_webhook_timestamp. destruct (fromisoformat _) as [x|]; [|done].
  destruct (negb _); [done|]. destruct (Z.ltb_spec webhook_max_age (Z.abs (t - dt_instant x))) as [|Hle]; [done|].
  intros <-%Ok_inj. by split.
Qed.

Lemma authentic_quiet I body h : keeps I (authentic_webhook body h).
Proof. unfold authentic_webhook. keeps. Qed.

Lemma authentic_signed body h w webhook w' :
  authentic_webhook body h w = (Ok webhook, w') ->
  signed body h (clock_at (World.ticks w)) /\
  (forall t, webhook_tenant_id h = Some t -> truthy_str t = true -> BookingWebhookEvent.tenant_id webhook = t).
Proof.
  unfold authentic_webhook, webhook_credentials. intros E.
  destruct (getenv "BOOKING_WEBHOOK_SECRET") as [secret|] eqn:Hs; [|discriminate E].
  destruct (x_webhook_signature h) as [signature|] eqn:Hg; [|discriminate E].
  destruct (x_webhook_timestamp h) as [text|] eqn:Ht; [|discriminate E].
  destruct (truthy_str secret) eqn:H1; [|discriminate E]. destruct (truthy_str signature); [|discriminate E].
  destruct (truthy_str text) eqn:H2; [|discriminate E]. simpl in E. runs.
  match goal with H : negb _ = false |- _ => apply negb_false_iff in H; subst end.
  match goal with V : verify_webhook_signature _ _ _ _ _ = Ok true |- _ => apply verified in V as ->; [|done] end.
  destruct (parse_webhook_timestamp _ _ _) as [ts|e] eqn:Hts; simpl in E; [|destruct e; runs].
  destruct (parse_booking_webhook _ _ _ _) as [event|e]; [|destruct e; runs]. runs.
  apply timestamp_fresh in Hts as [Hi Hf]. split.
  - by exists secret, text, ts.
  - intros t Et Htt. rewrite Et in *. simpl in *. rewrite Htt in *. simpl in *.
    match goal with H : negb _ = false |- _ => apply negb_false_iff, bool_decide_eq_true in H; by injection H end.
Qed.

(** C16.  Webhooks are authenticated first.  Whatever the store holds, a webhook has
    an effect or an answer only if it carries the digest of its timestamp and body
    under the configured secret and its timestamp is within five minutes of the
    clock; every other request is refused and leaves the store alone. *)
Theorem webhook_authentic body h w :
  signed body h (clock_at (World.ticks w)) \/
  exists e, (booking_webhook body h w).1 = Raise e /\ World.store (booking_webhook body h w).2 = World.store w.
Proof.
  unfold booking_webhook. rewrite M_bind_unfold.
  pose proof (keeps_quiet _ (fun I => authentic_quiet I body h) w) as Hq.
  destruct (authentic_webhook body h w) as [[webhook|e] w1] eqn:E.
  - left. by apply authentic_signed in E as [? _].
  - right. by exists e.
Qed.

End Webhook.

(** ** Bearer tokens *)

Section Identity.
Context (env : string -> option string) `{Repr}
  (jwt_decode : string -> string -> string -> string -> res obj) (rc : RuntimeControls.t)
  {R : Type} (shared : option (string -> instant -> R -> res RateLimitResult.t * R)).

Lemma header_appended (headers added : list (string * string)) name :
  mem name identity_headers = true ->
  get_header (List.filter (fun kv => negb (mem (str_lower kv.1) identity_headers)) headers ++ added) name =
  get_header added name.
Proof.
  intros Hn. unfold get_header. induction headers as [|[k v] headers IH]; [done|]. cbn [List.filter fst].
  destruct (mem (str_lower k) identity_headers) eqn:Hk; [exact IH|]. cbn [negb app List.find fst].
  rewrite bool_decide_false; [done|]. intros <-. congruence.
Qed.

(** the identity the handlers read from the headers *)
Definition acts_for (headers : list (string * string)) (actor : AuthenticatedActor.t) : Prop :=
  get_header headers "x-tenant-id" = Some (AuthenticatedActor.tenant_id actor) /\
  get_header headers "x-actor-id" = Some (AuthenticatedActor.actor_id actor) /\
  exists role, get_header headers "x-actor-role" = Some role /\ of_value role = Some (AuthenticatedActor.role actor).

Lemma trusted_acts_for headers actor : acts_for (trusted_headers headers actor) actor.
Proof.
  unfold acts_for, trusted_headers. rewrite !header_appended by done.
  split; [done|]. split; [done|]. exists (value (AuthenticatedActor.role actor)). split; [done|].
  by destruct (AuthenticatedActor.role actor).
Qed.

(** C15.  Identity comes from the token.  A request that reaches a handler either
    carried a bearer token that the identity provider's keys verified, and then the
    tenant, actor and role the handler reads are the token's, whatever identity
    headers the request came with; or it carried no authorization, and then
    identity is not required, or the path is the health check, the signed webhook
    or an internal job. *)
Theorem identity_from_token r now s seen added s' :
  enforce_rate_limit env jwt_decode rc shared r now s = (Forward seen added, s') ->
  (exists scheme token actor,
     str_partition " " (default "" (get_header (header_list r) "authorization")) = (scheme, token) /\
     str_lower scheme = "bearer" /\ validate_bearer_token env jwt_decode token = Ok actor /\ acts_for seen actor) \/
  (truthy_opt_str (get_header (header_list r) "authorization") = false /\ seen = header_list r /\
     (RuntimeControls.require_oidc rc = false \/ is_health_check r = true \/ is_signed_webhook r = true \/
      is_internal_job r = true)).
Proof.
  unfold enforce_rate_limit. destruct (authenticate _ _ _ r) as [[code content]|actor] eqn:Ea; [done|].
  destruct (decide _ _ _ _ _) as [[d|] s1]; [|done]. destruct (_ && _); [done|]. intros [= <- _ _].
  unfold authenticate in Ea.
  destruct (truthy_str (default "" (get_header (header_list r) "authorization"))) eqn:Ht.
  - left. destruct (str_partition _ _) as [scheme token] eqn:Hp.
    destruct ((str_lower scheme != "bearer") || negb (truthy_str token)) eqn:Hb; [done|].
    apply orb_false_iff in Hb as [Hs%negb_false_iff _]. apply bool_decide_eq_true in Hs.
    destruct (validate_bearer_token _ _ token) as [a|] eqn:Hv; [|done]. destruct (_ && _); [done|].
    injection Ea as <-. exists scheme, token, a. split_and!; try done; apply trusted_acts_for.
  - right. destruct (_ && _) eqn:Hr; [done|]. injection Ea as <-. split; [|split; [done|]].
    + by destruct (get_header (header_list r) "authorization").
    + apply andb_false_iff in Hr as [?|Hr]; [by left|]. apply negb_false_iff in Hr.
      apply orb_true_iff in Hr as [Hr|?]; [|by auto]. apply orb_true_iff in Hr as [?|?]; auto.
Qed.

End Identity.

(** ** Witnesses *)

(** a cell with a comma, quotes and a line feed *)
Definition sample_rows : list (list string) :=
  [["t1"; "alice"; "seg-1"; "UA"; "100"]; ["t1"; "bob"; String CsvReader.quotechar "a, b"; "UA"; String CsvReader.LF ""]].

Lemma csv_roundtrip_witness :
  parse_csv_rows (CsvWriter.table (REQUIRED_CSV_COLUMNS :: sample_rows)) =
    Ok (List.map (columns REQUIRED_CSV_COLUMNS) sample_rows).
Proof.
  apply (csv_roundtrip REQUIRED_CSV_COLUMNS sample_rows). constructor.
  - apply (bool_decide_eq_true _). vm_compute. reflexivity.
  - reflexivity.
  - repeat constructor; unfold CsvWriter.fits; vm_compute; discriminate.
  - discriminate.
  - vm_compute. discriminate.
  - repeat constructor.
  - repeat constructor; unfold CsvWriter.fits; vm_compute; discriminate.
Defined.

Lemma csv_accepts_witness :
  exists rows, parse_csv_rows (CsvWriter.table (REQUIRED_CSV_COLUMNS :: sample_rows)) = Ok rows /\ len rows <= 1000.
Proof.
  destruct (parse_csv_rows (CsvWriter.table (REQUIRED_CSV_COLUMNS :: sample_rows))) as [rows|e] eqn:E;
    [|vm_compute in E; discriminate].
  exists rows. split; [done|]. exact (proj1 (proj2 (proj1 (csv_accepts _) rows E))).
Defined.

(** a row with more cells than the header is not refused but raises *)
Lemma surplus_raises :
  parse_csv_rows (CsvWriter.table [REQUIRED_CSV_COLUMNS; ["t1"; "alice"; "seg-1"; "UA"; "100"; "extra"]]) =
    Raise (OtherError "AttributeError").
Proof. vm_compute. reflexivity. Qed.

(** an identity provider with one token, and a request that claims to be someone else *)
Definition sample_jwt (token audience issuer jwks : string) : res obj :=
  if token == "good" then Ok [("sub", JStr "alice"); ("tenant_id", JStr "t1"); ("role", JStr "traveler")]
  else Raise (ValueError "invalid").
Definition sample_oidc (name : string) : option string :=
  if mem name ["OIDC_ISSUER"; "OIDC_AUDIENCE"; "OIDC_JWKS_URL"] then Some "https://id.example" else None.
Definition spoofed : request :=
  Request "/v1/trips" [("Authorization", "Bearer good"); ("X-Actor-Role", "travel_manager"); ("X-Actor-Id", "m1")] None.

Lemma identity_from_token_witness :
  exists seen added s', @enforce_rate_limit sample_oidc plain_repr sample_jwt sample_controls unit None spoofed 0
      (FixedWindowRateLimiter.mk 60 60000000 [], tt) = (Forward seen added, s') /\
    acts_for seen (AuthenticatedActor.mk "alice" "t1" UserRole.TRAVELER).
Proof.
  do 3 eexists. split; [vm_compute; reflexivity|].
  destruct (@identity_from_token sample_oidc plain_repr sample_jwt sample_controls unit None spoofed 0
    (FixedWindowRateLimiter.mk 60 60000000 [], tt) _ _ _ ltac:(vm_compute; reflexivity))
    as [(scheme & token & actor & Hp & _ & Hv & Ha)|(Hf & _)]; [|discriminate Hf].
  vm_compute in Hp. injection Hp as <- <-. vm_compute in Hv. injection Hv as <-. exact Ha.
Defined.
