(* ===== verification/Selections.v ===== *)
(** * What recording a candidate's outcome guarantees

    The append-only observations of a candidate set: who may record which, and
    that at most one candidate of a set is ever selected. *)

From stdpp Require Import relations.
From S2P Require Import Prelude PyData Float64 PyStd Enums Models RiskEngine Recovery Repository.
From S2P Require Import StoreInvariant Providers Assessment Config Idempotency Ingestion ApiCore ApiLogic.
From S2P Require Import Samples ApiTrips ApiIncidents ApiRecovery Retries.

Section Selections.
Context `{Env} `{!Dump RecoveryCandidateOutcomeUpdate.t} `{!Dump RecoveryCandidateSet.t}
  `{!Validate RecoveryCandidateSet.t}.

(** the observations recorded for a set *)
Definition recorded (tenant : string) (set_id : uuid) (r : repo) (o : RecoveryCandidateOutcome.t) : Prop :=
  exists id, In (id, (tenant, o)) (Repo.candidate_outcomes r) /\
    RecoveryCandidateOutcome.candidate_set_id o = set_id.

(** every observation names its candidate, and the selections all name the same one *)
Definition one_selection (tenant : string) (set_id : uuid) (r : repo) : Prop :=
  (forall o, recorded tenant set_id r o -> truthy_str (RecoveryCandidateOutcome.candidate_id o) = true) /\
  (forall o1 o2, recorded tenant set_id r o1 -> recorded tenant set_id r o2 ->
     RecoveryCandidateOutcome.state o1 = RecoveryCandidateOutcomeState.SELECTED ->
     RecoveryCandidateOutcome.state o2 = RecoveryCandidateOutcomeState.SELECTED ->
     RecoveryCandidateOutcome.candidate_id o1 = RecoveryCandidateOutcome.candidate_id o2).

Lemma in_outcomes r tenant set_id o :
  In o (list_candidate_outcomes r tenant set_id) <-> recorded tenant set_id r o.
Proof.
  unfold list_candidate_outcomes. rewrite sorted_in, in_map_iff. split.
  - intros ([t x] & <- & [Hin Hp]%filter_In). apply andb_true_iff in Hp as [Ht%bool_decide_eq_true Hs%bool_decide_eq_true].
    apply dict_in_values in Hin as [k Hin]. exists k. by subst t.
  - intros (k & Hin & Hs). exists (tenant, o). split; [done|]. apply filter_In. split.
    + apply dict_in_values. by exists k.
    + by rewrite !bool_decide_true.
Qed.

(** the view's selection is one of the selections *)
Lemma view_selection set outcomes view c :
  project_candidate_set_outcomes set outcomes = Ok view ->
  RecoveryCandidateSet.selected_candidate_id view = c ->
  match c with
  | Some c => exists o, In o outcomes /\ RecoveryCandidateOutcome.state o = RecoveryCandidateOutcomeState.SELECTED /\
                RecoveryCandidateOutcome.candidate_id o = c
  | None => forall o, In o outcomes -> RecoveryCandidateOutcome.state o <> RecoveryCandidateOutcomeState.SELECTED
  end.
Proof.
  unfold project_candidate_set_outcomes. intros E. apply res_bind_ok in E as (cs & _ & <-%Ok_inj). simpl. intros <-.
  unfold latest_selection. destruct (List.filter _ outcomes) as [|o l] eqn:Ef; simpl.
  - intros o Ho Hs. assert (Hin : In o []) by (rewrite <- Ef; apply filter_In; by rewrite Hs, bool_decide_true). done.
  - pose proof (max_by_in outcome_key_leb o l) as Hin. rewrite <- Ef in Hin.
    apply filter_In in Hin as [Hin Hs%bool_decide_eq_true]. by eexists.
Qed.

(** what the rules let through *)
Lemma not_denied role view candidate payload :
  outcome_denied role view candidate payload = None ->
  let target := RecoveryCandidateOutcomeUpdate.state payload in
  (role = Some UserRole.TRAVELER -> In target [RecoveryCandidateOutcomeState.VIEWED;
     RecoveryCandidateOutcomeState.SELECTED; RecoveryCandidateOutcomeState.REJECTED]) /\
  (has_text (RecoveryCandidateOutcomeUpdate.manager_override_reason payload) = true -> is_manager role = true) /\
  (target = RecoveryCandidateOutcomeState.SELECTED ->
     has_text (RecoveryCandidateSet.selected_candidate_id view) = true ->
     RecoveryCandidateSet.selected_candidate_id view = Some (EvaluatedCandidate.candidate_id candidate)) /\
  transition_allowed (EvaluatedCandidate.lifecycle_state candidate) target = true.
Proof.
  unfold outcome_denied. cbv zeta. intros E.
  destruct (bool_decide (role = _) && _) eqn:E1; [done|]. destruct (has_text _ && negb _) eqn:E2; [done|].
  destruct ((_ && has_text _) && negb _) eqn:E3; [done|]. destruct (_ && is_manager role && _) eqn:E4; [done|].
  destruct (negb (transition_allowed _ _)) eqn:E5; [done|]. apply negb_false_iff in E5. split_and!; [| | |done].
  - intros Hr. rewrite (bool_decide_true (role = Some UserRole.TRAVELER)) in E1 by done. apply negb_false_iff in E1. by apply mem_true_iff.
  - intros Ho. rewrite Ho in E2. by apply negb_false_iff in E2.
  - intros Hs Ht. rewrite Hs, Ht in E3. simpl in E3. apply negb_false_iff in E3. by apply bool_decide_eq_true in E3.
Qed.

#[local] Hint Extern 1 (keeps _ (put (fun r => save_manager_feedback r _))) =>
  (apply keeps_put; intros ? Hkeep; exact Hkeep) : keeps.

#[local] Hint Extern 1 (keeps _ (emit_event _ _ _ _ _ _)) => (apply view_emit; reflexivity) : keeps.

Lemma observe_effect tenant incident set outcomes candidate payload h w view w' :
  observe_outcome tenant incident set outcomes candidate payload h w = (Ok view, w') ->
  exists o, RecoveryCandidateOutcome.valid o = true /\ RecoveryCandidateOutcome.update o = payload /\
    RecoveryCandidateOutcome.candidate_id o = EvaluatedCandidate.candidate_id candidate /\
    RecoveryCandidateOutcome.candidate_set_id o = RecoveryCandidateSet.candidate_set_id set /\
    Repo.candidate_outcomes (World.store w') =
      dict_set (RecoveryCandidateOutcome.outcome_id o) (tenant, o) (Repo.candidate_outcomes (World.store w)).
Proof.
  unfold observe_outcome. intros E.
  apply M_bind_ok in E as (actor & ? & (-> & -> & _)%require_actor_id_ok & E).
  apply M_bind_ok in E as (id & ? & [-> ->]%uuid4_ok & E). apply M_bind_ok in E as (t & ? & [-> ->]%now_ok & E).
  apply M_bind_ok in E as (o & ? & [Ho ->]%lift_ok & E). apply construct_ok in Ho as [-> Hv].
  apply M_bind_ok in E as (u & ? & ->%put_ok & E).
  match type of Hv with RecoveryCandidateOutcome.valid ?o = true => exists o end.
  do 4 (split; [done|]).
  apply (keeps_view Repo.candidate_outcomes) in E; [exact E|]. intros b. unfold feedback_when. keeps.
Qed.

Lemma candidate_set_id_of r tenant incident set_id set :
  store_ok r -> get_candidate_set r tenant incident set_id = Some set ->
  RecoveryCandidateSet.candidate_set_id set = set_id.
Proof.
  intros Hok. unfold get_candidate_set. destruct (dict_get _ _) as [[t s]|] eqn:Hg; [|done].
  destruct (_ || _); [done|]. intros [= <-]. by apply (keyed_get _ _ _ _ (ok_candidate_sets _ Hok)) in Hg.
Qed.

(** an observation that selects no second candidate keeps the rule *)
Lemma selection_added tenant set_id r o r' :
  one_selection tenant set_id r ->
  Repo.candidate_outcomes r' =
    dict_set (RecoveryCandidateOutcome.outcome_id o) (tenant, o) (Repo.candidate_outcomes r) ->
  RecoveryCandidateOutcome.candidate_set_id o = set_id ->
  truthy_str (RecoveryCandidateOutcome.candidate_id o) = true ->
  (RecoveryCandidateOutcome.state o = RecoveryCandidateOutcomeState.SELECTED ->
   forall o', recorded tenant set_id r o' -> RecoveryCandidateOutcome.state o' = RecoveryCandidateOutcomeState.SELECTED ->
     RecoveryCandidateOutcome.candidate_id o' = RecoveryCandidateOutcome.candidate_id o) ->
  one_selection tenant set_id r'.
Proof.
  intros [Hname Hsame] E Hs Ht Hone.
  assert (Hrec : forall x, recorded tenant set_id r' x -> x = o \/ recorded tenant set_id r x).
  { intros x (id & Hin & Hx). rewrite E in Hin. destruct (in_dict_set (fun _ => id) _ _ _ _ _ Hin) as [Heq|Hold]; [left; congruence|].
    right. by exists id. }
  split.
  - intros x [->|Hx]%Hrec; auto.
  - intros x y [->|Hx]%Hrec [->|Hy]%Hrec Hsx Hsy; [done| | |by apply Hsame].
    + symmetry. by apply Hone.
    + by apply Hone.
Qed.

(** C22.  One selection.  An accepted outcome request adds at most one observation:
    the requested state for the candidate, by a traveler only a view, a choice or a
    rejection, an override only by a manager.  The selections of a set keep naming
    one candidate: a second candidate of the set cannot be selected. *)
Theorem single_selection incident set_id candidate payload h w view w' tenant :
  ApiRecovery.record_candidate_outcome incident set_id candidate payload h w = (Ok view, w') ->
  x_tenant_id h = Some tenant -> store_ok (World.store w) -> one_selection tenant set_id (World.store w) ->
  one_selection tenant set_id (World.store w') /\
  (Repo.candidate_outcomes (World.store w') = Repo.candidate_outcomes (World.store w) \/
   exists o, Repo.candidate_outcomes (World.store w') =
       dict_set (RecoveryCandidateOutcome.outcome_id o) (tenant, o) (Repo.candidate_outcomes (World.store w)) /\
     RecoveryCandidateOutcome.update o = payload /\ RecoveryCandidateOutcome.candidate_id o = candidate /\
     RecoveryCandidateOutcome.candidate_set_id o = set_id /\
     (x_actor_role h = Some UserRole.TRAVELER -> In (RecoveryCandidateOutcome.state o)
        [RecoveryCandidateOutcomeState.VIEWED; RecoveryCandidateOutcomeState.SELECTED;
         RecoveryCandidateOutcomeState.REJECTED]) /\
     (has_text (RecoveryCandidateOutcomeUpdate.manager_override_reason payload) = true ->
        is_manager (x_actor_role h) = true)).
Proof.
  intros E Ht Hok [Hname Hsame]. unfold ApiRecovery.record_candidate_outcome in E.
  apply M_bind_ok in E as (? & ? & [_ ->]%require_role_ok & E).
  apply M_bind_ok in E as (t & ? & (Ht' & _ & ->)%require_tenant_ok & E). rewrite Ht in Ht'. injection Ht' as <-.
  apply M_bind_ok in E as (access & ? & (_ & _ & _ & _ & ->)%require_incident_trip_access_ok & E).
  apply M_bind_ok in E as (o & ? & [-> ->]%ask_ok & E). apply M_bind_ok in E as (set & ? & [Hset ->]%found_ok & E).
  apply M_bind_ok in E as (outcomes & ? & [-> ->]%ask_ok & E).
  apply M_bind_ok in E as (old & ? & [Hview ->]%lift_ok & E). apply M_bind_ok in E as (c & ? & [Hc ->]%found_ok & E).
  destruct (outcome_denied _ old c payload) as [e|] eqn:Hden; [discriminate E|].
  apply not_denied in Hden as (Htrav & Hover & Hsel & _).
  apply M_bind_ok in E as ([hash replay] & w1 & C & E).
  apply (keeps_view Repo.candidate_outcomes) in C; [|intros; by apply view_claim].
  destruct replay as [e|]; simpl in E.
  { apply lift_ok in E as [_ ->]. split; [|by left]. unfold one_selection, recorded. by rewrite C. }
  apply M_bind_ok in E as (v & w2 & O & E). apply M_bind_ok in E as (u & w3 & D & [-> ->]%ret_ok).
  apply (keeps_view Repo.candidate_outcomes) in D; [|intros; by apply view_complete].
  apply observe_effect in O as (o & Hv & Hu & Hoc & Hos & O). rewrite D, O, C.
  apply find_some in Hc as [_ Hc%bool_decide_eq_true]. rewrite Hc in *.
  apply (candidate_set_id_of _ _ _ _ _ Hok) in Hset. rewrite Hset in *.
  split; [|right; exists o; split_and!; try done; by rewrite <- Hu in Htrav].
  apply (selection_added _ _ (World.store w) o); [by split|by rewrite D, O, C|done| |].
  - unfold RecoveryCandidateOutcome.valid in Hv. by bool_hyps.
  - intros Hs o' Ho' Hs'. unfold RecoveryCandidateOutcome.state in Hs. rewrite Hu in Hs.
    pose proof (view_selection _ _ _ _ Hview eq_refl) as Hchosen.
    destruct (RecoveryCandidateSet.selected_candidate_id old) as [chosen|].
    + destruct Hchosen as (y & Hy%in_outcomes & Hys & <-). rewrite (Hsame o' y Ho' Hy Hs' Hys), Hoc.
      apply Hsel in Hs; [by injection Hs|]. exact (Hname y Hy).
    + by apply in_outcomes, Hchosen in Ho'.
Qed.

End Selections.

(** ** Witness *)

Section Witness.
#[local] Existing Instance sample_environment.
#[local] Instance dump_update : Dump RecoveryCandidateOutcomeUpdate.t := sample_dump _.
#[local] Instance dump_set : Dump RecoveryCandidateSet.t := sample_dump _.
#[local] Instance validate_set : Validate RecoveryCandidateSet.t := sample_validate _.

Definition sample_candidate (id : string) (state : RecoveryCandidateState.t) : EvaluatedCandidate.t :=
  EvaluatedCandidate.mk (RecoveryCandidate.mk id true true true true 0 0 60) true [] None [] "v1" (Some 1) None None
    state.
Definition sample_set : RecoveryCandidateSet.t :=
  RecoveryCandidateSet.mk 3%N 7%N "deterministic-v1" "mvp-v1"
    [sample_candidate "c1" RecoveryCandidateState.OFFERED; sample_candidate "c2" RecoveryCandidateState.OFFERED]
    0 [] None None.
Definition set_world : World.t :=
  World.init <| World.store :=
    save_candidate_set (save_incident (Repository.create_trip Repo.init (sample_trip 1%N "t1" "alice" 0))
      (sample_incident Severity.HIGH <| Incident.tenant_id := "t1" |>)) "t1" sample_set |>.
Definition choose : RecoveryCandidateOutcomeUpdate.t :=
  RecoveryCandidateOutcomeUpdate.mk RecoveryCandidateOutcomeState.SELECTED None None None None.
Definition traveler_headers : headers := Headers (Some "t1") (Some UserRole.TRAVELER) (Some "alice") None.

Lemma set_world_ok : store_ok (World.store set_world).
Proof.
  apply reachable_ok. eapply rtc_l; [apply step_create_trip|]. eapply rtc_l; [apply step_save_incident|].
  apply rtc_once, step_save_candidate_set.
Qed.

Lemma single_selection_witness :
  exists view w', ApiRecovery.record_candidate_outcome 7%N 3%N "c1" choose traveler_headers set_world = (Ok view, w') /\
    one_selection "t1" 3%N (World.store w').
Proof.
  destruct (ApiRecovery.record_candidate_outcome 7%N 3%N "c1" choose traveler_headers set_world) as [[view|e] w'] eqn:E;
    [|vm_compute in E; discriminate].
  exists view, w'. split; [done|].
  refine (proj1 (single_selection 7%N 3%N "c1" choose traveler_headers set_world view w' "t1" E eq_refl set_world_ok _)).
  split; [intros o (k & Hin & _)|intros o1 o2 (k & Hin & _)]; destruct Hin.
Defined.

End Witness.
