(* ===== verification/ConcurrentSelections.v ===== *)
(** * Outcomes that interleave

    [record_candidate_outcome] of [apps/api/main.py] as a program of repository
    calls.  A candidate set keeps one selection while one request at most selects,
    whatever others observe at the same time; two selections that overlap are both
    made. *)

From stdpp Require Import list relations.
From S2P Require Import Prelude PyData Float64 PyStd Enums Models Recovery Repository StoreInvariant Assessment Config.
From S2P Require Import Graph Idempotency Providers ApiCore ApiLogic Samples ApiTrips ApiIncidents ApiRecovery Retries Selections.
From S2P Require Import Interleaving Sharing ConcurrentSubmissions.

(** ** The route *)

Module Observing.

Section Observing.
Context `{Env} `{!Dump RecoveryCandidateOutcomeUpdate.t} `{!Dump RecoveryCandidateSet.t}
  `{!Validate RecoveryCandidateSet.t}.

(** the observation, written *)
Definition observation (tenant_id : string) (incident : Incident.t) (candidate_set : RecoveryCandidateSet.t)
    (candidate : EvaluatedCandidate.t) (payload : RecoveryCandidateOutcomeUpdate.t) (h : headers)
    : API RecoveryCandidateOutcome.t :=
  actor_id ← require_actor_id (x_actor_id h);
  outcome_id ← uuid4;
  occurred_at ← now;
  outcome ← lift_res (construct "RecoveryCandidateOutcome" RecoveryCandidateOutcome.valid
    (RecoveryCandidateOutcome.mk payload outcome_id (RecoveryCandidateSet.candidate_set_id candidate_set)
       (Incident.incident_id incident) (EvaluatedCandidate.candidate_id candidate) actor_id occurred_at));
  put (fun r => Repository.record_candidate_outcome r tenant_id outcome) ;;
  mret outcome.

(** the feedback it leaves, and the event *)
Definition feedback_of (tenant_id : string) (candidate : EvaluatedCandidate.t)
    (payload : RecoveryCandidateOutcomeUpdate.t) (outcome : RecoveryCandidateOutcome.t) : API (list ManagerFeedback.t) :=
  overridden ← feedback_when (has_text (RecoveryCandidateOutcomeUpdate.manager_override_reason payload))
    (fun id t => override_feedback id t tenant_id outcome (EvaluatedCandidate.displayed_position candidate));
  completed ← feedback_when (RecoveryCandidateOutcome.state outcome == RecoveryCandidateOutcomeState.COMPLETED)
    (fun id t => completed_feedback id t tenant_id outcome);
  mret (overridden ++ completed).

Definition report (tenant_id : string) (incident : Incident.t) (candidate_set : RecoveryCandidateSet.t)
    (outcomes : list RecoveryCandidateOutcome.t) (candidate : EvaluatedCandidate.t)
    (payload : RecoveryCandidateOutcomeUpdate.t) (outcome : RecoveryCandidateOutcome.t)
    (feedback : list ManagerFeedback.t) : API RecoveryCandidateSet.t :=
  view ← lift_res (project_candidate_set_outcomes candidate_set (outcomes ++ [outcome]));
  emit_event "recovery.outcome_recorded" tenant_id (Some (Incident.trip_id incident))
    (Incident.correlation_id incident) (RecoveryCandidateOutcome.actor_id outcome)
    [("candidate_set_id", juuid (RecoveryCandidateSet.candidate_set_id candidate_set));
     ("candidate_id", JStr (EvaluatedCandidate.candidate_id candidate));
     ("outcome_id", juuid (RecoveryCandidateOutcome.outcome_id outcome));
     ("state", JStr (value (RecoveryCandidateOutcome.state outcome)));
     ("has_manager_override",
        JBool (has_text (RecoveryCandidateOutcomeUpdate.manager_override_reason payload)));
     ("has_material_outcome",
        JBool (nonempty (default [] (RecoveryCandidateOutcomeUpdate.material_outcome payload))));
     ("manager_feedback_ids", JList (List.map (fun f => juuid (ManagerFeedback.feedback_id f)) feedback))] ;;
  mret view.

Definition observe_outcome (tenant_id : string) (incident : Incident.t) (candidate_set : RecoveryCandidateSet.t)
    (outcomes : list RecoveryCandidateOutcome.t) (candidate : EvaluatedCandidate.t)
    (payload : RecoveryCandidateOutcomeUpdate.t) (h : headers) : prog World.t RecoveryCandidateSet.t :=
  outcome ← await (observation tenant_id incident candidate_set candidate payload h);
  feedback ← await (feedback_of tenant_id candidate payload outcome);
  await_each feedback (fun f => put (fun r => save_manager_feedback r f)) ;;
  await (report tenant_id incident candidate_set outcomes candidate payload outcome feedback).

(** what the set shows, and whether the rules allow the observation *)
Definition judged (tenant_id : string) (candidate_set : RecoveryCandidateSet.t) (candidate_set_id : uuid)
    (candidate_id : string) (payload : RecoveryCandidateOutcomeUpdate.t) (h : headers)
    : API (list RecoveryCandidateOutcome.t * EvaluatedCandidate.t) :=
  outcomes ← ask (fun r => list_candidate_outcomes r tenant_id candidate_set_id);
  view ← lift_res (project_candidate_set_outcomes candidate_set outcomes);
  candidate ← found (List.find (fun c => EvaluatedCandidate.candidate_id c == candidate_id)
                       (RecoveryCandidateSet.candidates view)) "candidate not found";
  match outcome_denied (x_actor_role h) view candidate payload with
  | Some e => raise e
  | None => mret (outcomes, candidate)
  end.

Definition record_candidate_outcome (incident_id candidate_set_id : uuid) (candidate_id : string)
    (payload : RecoveryCandidateOutcomeUpdate.t) (h : headers) : prog World.t RecoveryCandidateSet.t :=
  let allowed := UserRole.TRAVELER :: managers in
  tenant_id ← await (require_role (x_actor_role h) allowed ;; require_tenant (x_tenant_id h));
  access ← Routes.require_incident_trip_access tenant_id incident_id (x_actor_role h) (x_actor_id h) allowed;
  let incident := access.1 in
  candidate_set ← await (
    o ← ask (fun r => get_candidate_set r tenant_id incident_id candidate_set_id);
    found o "candidate set not found");
  judged ← await (judged tenant_id candidate_set candidate_set_id candidate_id payload h);
  claimed ← await (claim_optional_mutation tenant_id (idempotency_key h)
    ("POST:/v1/incidents/" +:+ uuid_str incident_id +:+ "/candidate-sets/" +:+ uuid_str candidate_set_id
       +:+ "/candidates/" +:+ candidate_id +:+ "/outcomes") (dump payload));
  match claimed.2 with
  | Some replay => Done (model_validate (default JNull (IdempotencyRecord.response_payload replay)))
  | None =>
      view ← observe_outcome tenant_id incident candidate_set judged.1 judged.2 payload h;
      await (complete_optional_mutation tenant_id (idempotency_key h) claimed.1 200 (dump view)) ;;
      mret view
  end.

End Observing.

End Observing.

Section Runs.
Context `{Env} `{!Dump RecoveryCandidateOutcomeUpdate.t} `{!Dump RecoveryCandidateSet.t}
  `{!Validate RecoveryCandidateSet.t}.

Lemma observe_run tenant incident set outcomes candidate payload h w :
  run (Observing.observe_outcome tenant incident set outcomes candidate payload h) w
  = observe_outcome tenant incident set outcomes candidate payload h w.
Proof.
  unfold Observing.observe_outcome, Observing.observation, Observing.feedback_of, Observing.report, observe_outcome.
  same_calls.
Qed.

#[local] Hint Resolve observe_run access_run : core.

(** without interruption it is the handler *)
Lemma outcome_run incident set_id candidate payload h w :
  run (Observing.record_candidate_outcome incident set_id candidate payload h) w
  = ApiRecovery.record_candidate_outcome incident set_id candidate payload h w.
Proof.
  unfold Observing.record_candidate_outcome, Observing.judged, ApiRecovery.record_candidate_outcome. same_calls.
Qed.

End Runs.

(** ** What observations share *)

Section Observations.
Context `{Env} `{!Dump RecoveryCandidateOutcomeUpdate.t} `{!Dump RecoveryCandidateSet.t}
  `{!Validate RecoveryCandidateSet.t}.
Context (tenant : string) (set_id : uuid).

Definition selected (o : RecoveryCandidateOutcome.t) (r : repo) : Prop :=
  recorded tenant set_id r o /\ RecoveryCandidateOutcome.state o = RecoveryCandidateOutcomeState.SELECTED.

(** candidate sets are stored under their ids, and the set has one selection *)
Definition sound (r : repo) : Prop :=
  keyed (fun s => RecoveryCandidateSet.candidate_set_id s.2) (Repo.candidate_sets r) /\ one_selection tenant set_id r.
(** nothing more is selected *)
Definition no_more (r r' : repo) : Prop := forall o, selected o r' -> selected o r.
#[local] Instance no_more_preorder : PreOrder no_more.
Proof. unfold no_more. split; [intros r; auto|intros r1 r2 r3; auto]. Qed.

(** the tables they speak of *)
Definition tables (r : repo) := (Repo.candidate_sets r, Repo.candidate_outcomes r).

Lemma tables_sound r r' : tables r = tables r' -> sound r -> sound r'.
Proof. unfold tables, sound, one_selection, recorded. by intros [= <- <-]. Qed.
Lemma tables_no_more r r' : tables r = tables r' -> no_more r r'.
Proof. unfold tables, no_more, selected, recorded. by intros [= _ <-]. Qed.

Abbreviation inv := (Sharing.inv sound).
Abbreviation rely := (Sharing.rely no_more).

Lemma frames_quiet {A} (m : API A) : (forall b, keeps (fun r => tables r = b) m) -> frames inv rely (await m).
Proof. apply (frames_leaves sound no_more tables tables_sound tables_no_more). Qed.

Lemma frames_each {A} (l : list A) (body : A -> API unit) :
  (forall x b, keeps (fun r => tables r = b) (body x)) -> frames inv rely (await_each l body).
Proof.
  intros Hb. induction l as [|x l IH]; [done|]. by apply (frames_bind inv rely); [apply frames_quiet|].
Qed.

#[local] Hint Extern 1 (keeps _ (put (fun r => save_manager_feedback r _))) =>
  (apply keeps_put; intros ? Hkeep; exact Hkeep) : keeps.
#[local] Hint Extern 1 (keeps _ (emit_event _ _ _ _ _ _)) => (apply view_emit; reflexivity) : keeps.

Lemma frames_after t incident set outcomes candidate payload (outcome : RecoveryCandidateOutcome.t) :
  frames inv rely (
    feedback ← await (Observing.feedback_of t candidate payload outcome);
    await_each feedback (fun f => put (fun r => save_manager_feedback r f)) ;;
    await (Observing.report t incident set outcomes candidate payload outcome feedback)).
Proof.
  apply (frames_bind inv rely).
  { apply frames_quiet. intros b. unfold Observing.feedback_of, feedback_when. keeps. }
  intros feedback. apply (frames_bind inv rely); [apply frames_each; intros; keeps|]. intros _.
  apply frames_quiet. intros b. unfold Observing.report. keeps.
Qed.

(** the written observation *)
Lemma observation_spec t incident set candidate payload h w :
  match Observing.observation t incident set candidate payload h w with
  | (Ok o, w') => RecoveryCandidateOutcome.valid o = true /\ RecoveryCandidateOutcome.update o = payload /\
      RecoveryCandidateOutcome.candidate_id o = EvaluatedCandidate.candidate_id candidate /\
      RecoveryCandidateOutcome.candidate_set_id o = RecoveryCandidateSet.candidate_set_id set /\
      World.store w' = Repository.record_candidate_outcome (World.store w) t o
  | (Raise _, w') => World.store w' = World.store w
  end.
Proof.
  unfold Observing.observation, require_actor_id.
  destruct (_ && _); [done|]. cbv [mbind M_bind uuid4 now lift_res put modify mret M_ret]. simpl.
  destruct (construct _ _ _) as [o|e] eqn:E; [|done]. by apply construct_ok in E as [-> Hv].
Qed.

Lemma added t o r x : recorded tenant set_id (Repository.record_candidate_outcome r t o) x ->
  recorded tenant set_id r x \/ (t = tenant /\ RecoveryCandidateOutcome.candidate_set_id o = set_id /\ x = o).
Proof.
  intros (id & Hin & Hx). destruct (in_dict_set (fun _ => id) _ _ _ _ _ Hin) as [[= _ <- ->]|Hold]; [by right|].
  left. by exists id.
Qed.

(** an observation that selects no second candidate keeps the set sound *)
Lemma observed_sound t o r : RecoveryCandidateOutcome.valid o = true -> sound r ->
  (t = tenant -> RecoveryCandidateOutcome.candidate_set_id o = set_id ->
   RecoveryCandidateOutcome.state o = RecoveryCandidateOutcomeState.SELECTED ->
   forall x, selected x r -> RecoveryCandidateOutcome.candidate_id x = RecoveryCandidateOutcome.candidate_id o) ->
  sound (Repository.record_candidate_outcome r t o).
Proof.
  intros Hv [Hk Hone] Hsel. split; [exact Hk|].
  destruct (decide (t = tenant /\ RecoveryCandidateOutcome.candidate_set_id o = set_id)) as [[-> Hs]|Hne].
  - apply (selection_added _ _ r o); [done|done|done| |].
    + unfold RecoveryCandidateOutcome.valid in Hv. by bool_hyps.
    + intros Hstate x Hx Hxs. by apply Hsel.
  - assert (Hold : forall x, recorded tenant set_id (Repository.record_candidate_outcome r t o) x -> recorded tenant set_id r x).
    { intros x [Hx|(-> & <- & _)]%added; [done|]. by destruct Hne. }
    destruct Hone as [Hname Hsame]. split; auto.
Qed.

Lemma observed_no_more t o r :
  ~ (t = tenant /\ RecoveryCandidateOutcome.candidate_set_id o = set_id /\
     RecoveryCandidateOutcome.state o = RecoveryCandidateOutcomeState.SELECTED) ->
  no_more r (Repository.record_candidate_outcome r t o).
Proof. intros Hne x [[Hx|(-> & <- & ->)]%added Hs]; [by split|]. by destruct Hne. Qed.

(** ** One request among them *)

Record choice : Type := Choice {
  on_incident : uuid;
  on_set : uuid;
  of_candidate : string;
  chosen : RecoveryCandidateOutcomeUpdate.t;
  by_caller : headers
}.

Definition choose_with (q : choice) : prog World.t RecoveryCandidateSet.t :=
  Observing.record_candidate_outcome (on_incident q) (on_set q) (of_candidate q) (chosen q) (by_caller q).

(** a request to select a candidate of the set *)
Definition selects (q : choice) : Prop :=
  x_tenant_id (by_caller q) = Some tenant /\ on_set q = set_id /\
  RecoveryCandidateOutcomeUpdate.state (chosen q) = RecoveryCandidateOutcomeState.SELECTED.

Lemma guards_ok (h : headers) allowed w t :
  (((require_role (x_actor_role h) allowed ;; require_tenant (x_tenant_id h)) : API string) w).1 = Ok t ->
  x_tenant_id h = Some t.
Proof.
  intros E. match type of E with (?m w).1 = _ => destruct (m w) as [x w1] eqn:E1 end. simpl in E. subst x. by runs.
Qed.

Lemma frames_access t id role actor allowed :
  frames inv rely (Routes.require_incident_trip_access t id role actor allowed).
Proof.
  unfold Routes.require_incident_trip_access.
  apply (frames_bind inv rely); [apply frames_quiet; intros; keeps|]. intros incident.
  apply (frames_bind inv rely); [apply frames_quiet; intros; keeps|]. intros trip.
  apply (frames_bind inv rely); [apply frames_quiet; intros; keeps|done].
Qed.

(** the set that is read has its id *)
Lemma set_read t incident id w set : sound (World.store w) ->
  (((o ← ask (fun r => get_candidate_set r t incident id); found o "candidate set not found") : API _) w).1 = Ok set ->
  RecoveryCandidateSet.candidate_set_id set = id.
Proof.
  intros [Hk _]. cbv [mbind M_bind ask gets]. simpl. unfold get_candidate_set.
  destruct (dict_get id _) as [[t' s]|] eqn:Hg; [|done]. destruct (_ || _); [done|]. simpl. intros [= <-].
  by apply (keyed_get _ _ _ _ Hk) in Hg.
Qed.

(** *** A request that does not select *)

Lemma frames_choice q : ~ selects q -> frames inv rely (choose_with q).
Proof.
  intros Hq. unfold choose_with, Observing.record_candidate_outcome.
  apply (frames_await inv rely). intros w Hw. split; [|split].
  1,2: apply (guaranteed sound no_more); [intros; keeps|done].
  intros t Ht%guards_ok. apply (frames_bind inv rely); [apply frames_access|]. intros access.
  apply (frames_await inv rely). intros w1 Hw1. split; [|split].
  1,2: apply (guaranteed sound no_more); [intros; keeps|done].
  intros set Hset%set_read; [|exact Hw1].
  apply (frames_bind inv rely); [apply frames_quiet; intros; unfold Observing.judged; keeps|]. intros [outcomes candidate].
  apply (frames_bind inv rely); [apply frames_quiet; intros; by apply view_claim|]. intros [hash [replay|]]; [done|].
  apply (frames_bind inv rely).
  2: { intros view. apply (frames_bind inv rely); [apply frames_quiet; intros; by apply view_complete|done]. }
  unfold Observing.observe_outcome. apply (frames_bind inv rely); [|intros o; apply frames_after].
  apply (frames_call sound no_more). intros r0 w2 [HJ HR].
  pose proof (observation_spec t access.1 set candidate (chosen q) (by_caller q) w2) as Ho.
  destruct (Observing.observation _ _ _ _ _ _ _) as [[o|e] w3]; simpl; [|by rewrite Ho].
  destruct Ho as (Hv & Hu & Hc & Hs & ->).
  assert (Hno : ~ (t = tenant /\ RecoveryCandidateOutcome.candidate_set_id o = set_id /\
                   RecoveryCandidateOutcome.state o = RecoveryCandidateOutcomeState.SELECTED)).
  { intros (-> & Hid & Hstate). apply Hq. split_and!; [done|by rewrite <- Hid, Hs|by rewrite <- Hu]. }
  split; [|transitivity (World.store w2); [done|by apply observed_no_more]].
  apply observed_sound; [done|done|]. intros -> Hid Hstate. by destruct Hno.
Qed.

(** *** A request that may *)

(** what the rules let through: any selection there is names the candidate *)
Definition agrees (candidate : EvaluatedCandidate.t) (r : repo) : Prop :=
  forall x, selected x r -> RecoveryCandidateOutcome.candidate_id x = EvaluatedCandidate.candidate_id candidate.

Lemma agrees_stable candidate : stable no_more (agrees candidate).
Proof. intros r r' Hr Ha x Hx. apply Ha, Hr, Hx. Qed.

Lemma judged_agrees set candidate_id payload h w outcomes candidate :
  sound (World.store w) ->
  (Observing.judged tenant set set_id candidate_id payload h w).1 = Ok (outcomes, candidate) ->
  RecoveryCandidateOutcomeUpdate.state payload = RecoveryCandidateOutcomeState.SELECTED ->
  agrees candidate (World.store w).
Proof.
  intros [_ [Hname Hsame]] E Hstate x [Hx Hxs].
  match type of E with (?m w).1 = _ => destruct (m w) as [y w1] eqn:E1 end. simpl in E. subst y.
  unfold Observing.judged in E1. apply M_bind_ok in E1 as (l & ? & [-> ->]%ask_ok & E).
  apply M_bind_ok in E as (view & ? & [Hview ->]%lift_ok & E).
  apply M_bind_ok in E as (c & ? & [Hc ->]%found_ok & E).
  destruct (outcome_denied _ _ _ _) as [e|] eqn:Hden; [discriminate E|]. apply ret_ok in E as [[= -> ->] _].
  apply not_denied in Hden as (_ & _ & Hsel & _).
  pose proof (view_selection _ _ _ _ Hview eq_refl) as Hchosen.
  destruct (RecoveryCandidateSet.selected_candidate_id view) as [chosen|].
  - destruct Hchosen as (y & Hy%in_outcomes & Hys & <-). rewrite (Hsame x y Hx Hy Hxs Hys).
    apply Hsel in Hstate; [by injection Hstate|]. exact (Hname y Hy).
  - apply in_outcomes in Hx. by apply Hchosen in Hx.
Qed.
Lemma outline_read {T} (P : T -> repo -> Prop) (m : API T) w0 :
  (forall x, stable no_more (P x)) -> (forall b, keeps (fun r => tables r = b) m) ->
  (forall w x, inv w -> (m w).1 = Ok x -> P x (World.store w)) -> outline inv rely (post P) (await m) w0.
Proof.
  intros HP Hm Hx. apply (outline_call sound no_more (fun _ => True)); [apply stable_pure|done|done|]. intros w Hw _.
  assert (E : tables (World.store w) = tables (World.store (m w).2)) by (symmetry; by apply Hm).
  split; [by apply (tables_sound _ _ E)|]. unfold post. destruct (m w).1 as [x|e] eqn:Em; [|done].
  apply (HP x (World.store w)); [by apply tables_no_more|by apply Hx].
Qed.

Lemma outline_any {T} (A : repo -> Prop) (p : prog World.t T) w0 :
  frames inv rely p -> stable no_more A -> A (World.store w0) -> outline inv rely (post (fun _ => A)) p w0.
Proof. intros Hp HA H0. by apply (frames_outline sound no_more). Qed.

Abbreviation always := (fun _ _ => True).

Lemma outline_choice q w0 : outline inv rely (post always) (choose_with q) w0.
Proof.
  unfold choose_with, Observing.record_candidate_outcome.
  apply (outline_seq sound no_more (fun t _ => x_tenant_id (by_caller q) = Some t)).
  { apply outline_read; [intros; apply stable_pure|intros; keeps|]. intros w t _. apply guards_ok. }
  intros t w1 Ht. apply (outline_seq sound no_more always); [apply outline_any; [apply frames_access|apply stable_pure|done]|].
  intros access w2 _. apply (outline_seq sound no_more (fun set _ => RecoveryCandidateSet.candidate_set_id set = on_set q)).
  { apply outline_read; [intros; apply stable_pure|intros; keeps|]. intros w set Hw. by apply set_read. }
  intros set w3 Hset. set (allows := fun candidate r => selects q -> agrees candidate r).
  assert (Hstable : forall c, stable no_more (allows c)) by (intros c r r' Hr Ha Hq; apply (agrees_stable c r r' Hr), Ha, Hq).
  apply (outline_seq sound no_more (fun j => allows j.2)).
  { apply outline_read; [by intros|intros; unfold Observing.judged; keeps|]. intros w [outcomes candidate] Hw E (Hq & Hid & Hs).
    rewrite Ht in Hq. injection Hq as ->. rewrite Hid in E. by eapply judged_agrees. }
  intros [outcomes candidate] w4 Ha. apply (outline_seq sound no_more (fun _ => allows candidate)).
  { apply outline_any; [apply frames_quiet; intros; by apply view_claim|done|done]. }
  intros [hash [replay|]] w5 Ha5; [by intros w _; destruct (model_validate _)|].
  apply (outline_seq sound no_more always).
  2: { intros view w _. apply outline_any; [|apply stable_pure|done].
       apply (frames_bind inv rely); [apply frames_quiet; intros; by apply view_complete|done]. }
  unfold Observing.observe_outcome. apply (outline_seq sound no_more always).
  2: { intros o w _. apply outline_any; [apply frames_after|apply stable_pure|done]. }
  apply (outline_call sound no_more (allows candidate)); [done|intros; apply stable_pure|done|]. intros w Hw Hal.
  pose proof (observation_spec t access.1 set candidate (chosen q) (by_caller q) w) as Ho. unfold post, Sharing.inv.
  simpl. destruct (Observing.observation _ _ _ _ _ _ _) as [[o|e] w6]; simpl; [|by rewrite Ho].
  destruct Ho as (Hv & Hu & Hc & Hs & ->). split; [|done]. apply observed_sound; [done|done|].
  intros -> Hid Hstate x Hx. rewrite Hc. apply Hal; [|done]. split_and!; [done|by rewrite <- Hset, <- Hs|by rewrite <- Hu].
Qed.

(** C23. One selection among concurrent observations.  Any number of outcome requests
    run at once, their calls interleaved in any order; one of them at most selects a
    candidate of the set, the others view, reject, complete or concern other sets.
    At every moment the set's selections name one candidate, whatever the request
    that selects had read before the others wrote. *)
Theorem selections_interleaved qs w ps w' i q :
  store_ok (World.store w) -> one_selection tenant set_id (World.store w) ->
  qs !! i = Some q -> (forall j q', j <> i -> qs !! j = Some q' -> ~ selects q') ->
  rtc sched (List.map choose_with qs, w) (ps, w') ->
  one_selection tenant set_id (World.store w').
Proof.
  intros Hok Hone Hi Hothers Hs.
  apply (rests_kept inv rely (post always) i _ _ Hs). split_and!.
  - split; [apply (ok_candidate_sets _ Hok)|exact Hone].
  - exists (choose_with q). split; [simpl; by rewrite list_lookup_fmap, Hi|apply outline_choice].
  - intros j p Hj Hp. simpl in Hp. rewrite list_lookup_fmap in Hp. destruct (qs !! j) as [q'|] eqn:E; [|done].
    injection Hp as <-. apply frames_choice. by eapply Hothers.
Qed.

End Observations.

(** ** Witness, and the selections that overlap *)

Section Overlap.
#[local] Existing Instance sample_environment.
#[local] Existing Instances Selections.dump_update Selections.dump_set Selections.validate_set.

Definition select (candidate : string) : choice := Choice 7%N 3%N candidate choose traveler_headers.
Definition view_it (candidate : string) : choice :=
  Choice 7%N 3%N candidate
    (RecoveryCandidateOutcomeUpdate.mk RecoveryCandidateOutcomeState.VIEWED None None None None) traveler_headers.

Definition meet (q1 q2 : choice) : list (prog World.t RecoveryCandidateSet.t) * World.t :=
  List.fold_left turn (in_turns 12) (List.map choose_with [q1; q2], set_world).

(** how the requests ended, and the observations with their candidates *)
Definition answered_all (c : list (prog World.t RecoveryCandidateSet.t) * World.t) : bool :=
  List.forallb (fun p => match p with Done (Ok _) => true | _ => false end) c.1.
Definition observed (c : list (prog World.t RecoveryCandidateSet.t) * World.t)
    : list (string * RecoveryCandidateOutcomeState.t) :=
  List.map (fun '(_, o) => (RecoveryCandidateOutcome.candidate_id o, RecoveryCandidateOutcome.state o))
    (dict_values (Repo.candidate_outcomes (World.store c.2))).

Lemma set_world_unselected : one_selection "t1" 3%N (World.store set_world).
Proof. split; [intros o (k & Hin & _)|intros o1 o2 (k & Hin & _)]; destruct Hin. Qed.
Lemma one_selects j q : j <> 0%nat -> [select "c1"; view_it "c2"] !! j = Some q -> ~ selects "t1" 3%N q.
Proof. intros Hj Hq. destruct j as [|[|j]]; [done| |discriminate Hq]. injection Hq as <-. by intros (_ & _ & Hs). Qed.

Lemma selections_interleaved_witness :
  observed (meet (select "c1") (view_it "c2")) =
    [("c1", RecoveryCandidateOutcomeState.SELECTED); ("c2", RecoveryCandidateOutcomeState.VIEWED)] /\
  one_selection "t1" 3%N (World.store (meet (select "c1") (view_it "c2")).2).
Proof.
  split; [vm_compute; reflexivity|].
  assert (Hs : rtc sched (List.map choose_with [select "c1"; view_it "c2"], set_world) (meet (select "c1") (view_it "c2")))
    by apply turns_sched.
  revert Hs. generalize (meet (select "c1") (view_it "c2")). intros [ps w'] Hs.
  apply (selections_interleaved "t1" 3%N [select "c1"; view_it "c2"] _ _ _ 0 (select "c1") set_world_ok set_world_unselected eq_refl one_selects Hs).
Defined.

(** Two travelers' requests, or one traveler twice: both candidates are selected. *)
Lemma overlap_selects_twice :
  rtc sched (List.map choose_with [select "c1"; select "c2"], set_world) (meet (select "c1") (select "c2")) /\
  answered_all (meet (select "c1") (select "c2")) = true /\
  observed (meet (select "c1") (select "c2")) =
    [("c1", RecoveryCandidateOutcomeState.SELECTED); ("c2", RecoveryCandidateOutcomeState.SELECTED)].
Proof. split; [apply turns_sched|]. split; vm_compute; reflexivity. Qed.

End Overlap.
