(* ===== verification/Consent.v ===== *)
(** * Traveler memory is changed with consent

    What confirming a memory proposal takes and what it changes. *)

From stdpp Require Import relations.
From S2P Require Import Prelude PyData Float64 PyStd Enums Models Repository StoreInvariant Providers Assessment.
From S2P Require Import Config Idempotency Ingestion ApiCore ApiLogic Samples ApiTrips ApiIncidents Retries.
From S2P Require Import ApiMemory.

Section Consent.
Context `{Env} `{!Dump TravelerPreferenceProfile.t} `{!Validate TravelerPreferenceProfile.t}.

(** the two profiles agree on every field that is not in [named] *)
Definition agrees_outside (named : list string) (p p' : TravelerPreferenceProfile.t) : Prop :=
  (~ In "tenant_id" named -> TravelerPreferenceProfile.tenant_id p' = TravelerPreferenceProfile.tenant_id p) /\
  (~ In "traveler_id" named ->
    TravelerPreferenceProfile.traveler_id p' = TravelerPreferenceProfile.traveler_id p) /\
  (~ In "preferred_airports" named ->
    TravelerPreferenceProfile.preferred_airports p' = TravelerPreferenceProfile.preferred_airports p) /\
  (~ In "preferred_carriers" named ->
    TravelerPreferenceProfile.preferred_carriers p' = TravelerPreferenceProfile.preferred_carriers p) /\
  (~ In "cabin_or_seat_preference" named ->
    TravelerPreferenceProfile.cabin_or_seat_preference p' = TravelerPreferenceProfile.cabin_or_seat_preference p) /\
  (~ In "minimum_connection_minutes" named ->
    TravelerPreferenceProfile.minimum_connection_minutes p' =
    TravelerPreferenceProfile.minimum_connection_minutes p) /\
  (~ In "avoid_overnight_connections" named ->
    TravelerPreferenceProfile.avoid_overnight_connections p' =
    TravelerPreferenceProfile.avoid_overnight_connections p) /\
  (~ In "approved_ground_transport_preferences" named ->
    TravelerPreferenceProfile.approved_ground_transport_preferences p' =
    TravelerPreferenceProfile.approved_ground_transport_preferences p) /\
  (~ In "notification_channel" named ->
    TravelerPreferenceProfile.notification_channel p' = TravelerPreferenceProfile.notification_channel p) /\
  (~ In "language" named -> TravelerPreferenceProfile.language p' = TravelerPreferenceProfile.language p) /\
  (~ In "approved_accessibility_accommodations" named ->
    TravelerPreferenceProfile.approved_accessibility_accommodations p' =
    TravelerPreferenceProfile.approved_accessibility_accommodations p) /\
  (~ In "consent_version" named ->
    TravelerPreferenceProfile.consent_version p' = TravelerPreferenceProfile.consent_version p) /\
  (~ In "version" named -> TravelerPreferenceProfile.version p' = TravelerPreferenceProfile.version p) /\
  (~ In "updated_at" named -> TravelerPreferenceProfile.updated_at p' = TravelerPreferenceProfile.updated_at p).

(** pydantic's construction of [{**baseline, **patch}] takes the fields the patch
    does not name from the baseline *)
Definition patch_overrides : Prop := forall p patch p',
  patch_profile p patch = Ok p' -> agrees_outside (dict_keys patch) p p'.

(** the confirmed profile is the stored one, or a blank one when none is stored,
    overridden by the patch: one version on, and otherwise unchanged outside the
    fields the patch names *)
Definition confirmed_profile (existing : option TravelerPreferenceProfile.t) (blank : TravelerPreferenceProfile.t)
    (patch : dict string json) (profile : TravelerPreferenceProfile.t) : Prop :=
  let baseline := default blank existing <| TravelerPreferenceProfile.version := next_version existing |> in
  patch_profile baseline patch = Ok profile /\ agrees_outside (dict_keys patch) baseline profile /\
  TravelerPreferenceProfile.version profile = next_version existing.

(** the memory of the travelers *)
Definition memory (r : repo) : dict (string * string) TravelerPreferenceProfile.t * dict uuid MemoryUpdateProposal.t :=
  (Repo.profiles r, Repo.memory_proposals r).

#[local] Hint Extern 1 (keeps _ (emit_event _ _ _ _ _ _)) => (apply view_emit; reflexivity) : keeps.
#[local] Hint Extern 1 (keeps _ (put (fun r => record_memory_audit r _))) =>
  (apply keeps_put; intros ? Hkeep; exact Hkeep) : keeps.

Lemma existing_key r tenant traveler updated_at consent :
  keyed profile_key (Repo.profiles r) ->
  profile_key (default (blank_profile tenant traveler consent updated_at) (get_profile r tenant traveler)) = (tenant, traveler).
Proof.
  intros Hok. unfold get_profile. destruct (dict_get _ _) as [p|] eqn:Hg; [|done].
  exact (keyed_get _ _ _ _ Hok Hg).
Qed.

(** a permitted patch names neither the key of the profile nor its version *)
Lemma permitted_fields (patch : dict string json) f :
  subset (dict_keys patch) patchable_fields = true -> mem f patchable_fields = false -> ~ In f (dict_keys patch).
Proof.
  intros Hs Hf. apply mem_false_iff in Hf. intros Hin. apply Hf. by apply (proj1 (subset_true_iff _ _) Hs).
Qed.

Lemma apply_effect tenant actor proposal w profile w' :
  patch_overrides -> keyed profile_key (Repo.profiles (World.store w)) ->
  apply_proposal tenant actor proposal w = (Ok profile, w') ->
  let traveler := MemoryUpdateProposal.traveler_id proposal in
  MemoryUpdateProposal.status proposal = MemoryProposalStatus.PENDING_CONFIRMATION /\
  subset (dict_keys (MemoryUpdateProposal.patch proposal)) patchable_fields = true /\
  (exists created, confirmed_profile (get_profile (World.store w) tenant traveler)
     (blank_profile tenant traveler "pending" created) (MemoryUpdateProposal.patch proposal) profile) /\
  Repo.profiles (World.store w') = dict_set (tenant, traveler) profile (Repo.profiles (World.store w)) /\
  exists t, Repo.memory_proposals (World.store w') =
    dict_set (MemoryUpdateProposal.proposal_id proposal) (confirmed proposal t) (Repo.memory_proposals (World.store w)).
Proof.
  intros Hlaw Hok E traveler. unfold apply_proposal in E.
  apply M_bind_ok in E as (? & ? & [Hs ->]%guard_ok & E). apply negb_false_iff, bool_decide_eq_true in Hs.
  apply M_bind_ok in E as (existing & ? & [-> ->]%ask_ok & E).
  apply M_bind_ok in E as (? & ? & [Hf ->]%guard_ok & E). apply negb_false_iff in Hf.
  apply M_bind_ok in E as (created & ? & [-> ->]%now_ok & E). apply M_bind_ok in E as (p & ? & [Hp ->]%lift_ok & E).
  apply M_bind_ok in E as (t & ? & [-> ->]%now_ok & E). apply M_bind_ok in E as (? & ? & ->%put_ok & E).
  apply M_bind_ok in E as (? & ? & ->%put_ok & E).
  pose proof (Hlaw _ _ _ Hp) as Hout. assert (Hout' := Hout).
  destruct Hout' as (Hten & Htrav & _ & _ & _ & _ & _ & _ & _ & _ & _ & _ & Hversion & _).
  assert (Hpk : profile_key p = (tenant, traveler)).
  { unfold profile_key. rewrite Hten, Htrav by (by apply permitted_fields).
    rewrite <- (existing_key (World.store w) tenant traveler (clock_at (World.ticks w)) "pending" Hok).
    by destruct (default _ _). }
  apply M_bind_ok in E as (u & w1 & A & E). apply (keeps_view memory) in A; [|intros b; unfold audit_memory; keeps].
  apply M_bind_ok in E as (trip & ? & [-> ->]%uuid4_ok & E). apply M_bind_ok in E as (c & ? & [-> ->]%uuid4_ok & E).
  apply M_bind_ok in E as (v & w2 & B & [-> ->]%ret_ok). apply (keeps_view memory) in B; [|intros b; keeps].
  simpl in A, B. rewrite A in B. unfold memory in B. simpl in B. injection B as Hprofiles Hproposals.
  unfold profile_key in Hpk.
  split; [done|]. split; [done|]. split; [|split].
  - exists (clock_at (World.ticks w)). split; [exact Hp|]. split; [exact Hout|].
    rewrite Hversion by (by apply permitted_fields). by destruct (default _ _).
  - rewrite Hprofiles. by rewrite Hpk.
  - rewrite Hproposals. by eexists.
Qed.

Lemma matched_actor a p w x w' :
  require_actor_matches_payload a p w = (Ok x, w') -> truthy_opt_str a = true -> a = Some p.
Proof.
  unfold require_actor_matches_payload. intros (a' & w1 & (-> & -> & _)%require_actor_id_ok & E)%M_bind_ok Ht.
  destruct a as [a|]; [|done]. simpl in Ht. rewrite Ht in E.
  destruct (a != p) eqn:Hne; [discriminate E|]. apply negb_false_iff, bool_decide_eq_true in Hne. by rewrite Hne.
Qed.

(** C24.  Memory needs consent.  A confirmation succeeds only for the traveler the
    proposal is about, in the role of a traveler.  It either repeats an earlier
    answer and leaves memory alone, or resolves a pending proposal of permitted
    fields: then the traveler's stored profile (a blank one if there is none) is
    replaced by itself overridden by the proposal's patch, one version on; every
    field the patch does not name keeps its stored value, no other profile changes,
    and the proposal is confirmed.  (The hypothesis is pydantic's construction of
    [{**baseline, **patch}].) *)
Theorem memory_consented id actor h w profile w' tenant :
  patch_overrides -> store_ok (World.store w) -> x_tenant_id h = Some tenant ->
  confirm_memory_proposal id actor h w = (Ok profile, w') ->
  exists proposal, get_memory_proposal (World.store w) tenant id = Some proposal /\
    x_actor_role h = Some UserRole.TRAVELER /\ actor = MemoryUpdateProposal.traveler_id proposal /\
    (truthy_opt_str (x_actor_id h) = true -> x_actor_id h = Some actor) /\
    (memory (World.store w') = memory (World.store w) \/
     MemoryUpdateProposal.status proposal = MemoryProposalStatus.PENDING_CONFIRMATION /\
     subset (dict_keys (MemoryUpdateProposal.patch proposal)) patchable_fields = true /\
     (exists created, confirmed_profile (get_profile (World.store w) tenant actor)
        (blank_profile tenant actor "pending" created) (MemoryUpdateProposal.patch proposal) profile) /\
     get_profile (World.store w') tenant actor = Some profile /\
     (forall tenant' traveler', (tenant', traveler') <> (tenant, actor) ->
        get_profile (World.store w') tenant' traveler' = get_profile (World.store w) tenant' traveler') /\
     exists t, get_memory_proposal (World.store w') tenant id = Some (confirmed proposal t)).
Proof.
  intros Hlaw Hok Ht E. unfold confirm_memory_proposal in E.
  apply M_bind_ok in E as (? & ? & [Hr ->]%require_role_ok & E).
  apply M_bind_ok in E as (a & ? & Ha & E). pose proof (matched_actor _ _ _ _ _ Ha) as Hactor.
  apply require_actor_matches_payload_ok in Ha as [-> ->].
  apply M_bind_ok in E as (t & ? & (Ht' & _ & ->)%require_tenant_ok & E). rewrite Ht in Ht'. injection Ht' as <-.
  apply M_bind_ok in E as (u & w1 & C & E). apply require_control_ok in C as Hw1.
  apply M_bind_ok in E as (o & ? & [-> ->]%ask_ok & E). apply M_bind_ok in E as (proposal & ? & [Hp ->]%found_ok & E).
  apply M_bind_ok in E as (? & ? & [Hsame ->]%guard_ok & E). apply negb_false_iff, bool_decide_eq_true in Hsame.
  apply M_bind_ok in E as ([hash replay] & w2 & K & E).
  apply (keeps_view memory) in K; [|intros; by apply view_claim]. rewrite Hw1 in Hp, K.
  exists proposal. split; [done|]. split.
  { destruct (x_actor_role h) as [role|]; [|done]. destruct role; try done. }
  split; [done|]. split; [done|]. destruct replay as [e|]; simpl in E.
  { apply lift_ok in E as [_ ->]. by left. }
  right. apply M_bind_ok in E as (p & w3 & A & E). apply M_bind_ok in E as (v & w4 & D & [-> ->]%ret_ok).
  apply (keeps_view memory) in D; [|intros; by apply view_complete].
  injection K as Kp Km. injection D as Dp Dm.
  apply apply_effect in A as (Hs & Hf & Hv & Hprofiles & t & Hproposals); [|done|rewrite Kp; apply Hok].
  rewrite <- Hsame in Hv, Hprofiles. rewrite Kp in Hprofiles. rewrite Km in Hproposals.
  unfold get_profile in *. rewrite Kp in Hv. rewrite Dp, Hprofiles.
  split_and!; [done|done|done|by rewrite dict_get_set_eq| |].
  - intros tenant' traveler' Hne. by rewrite dict_get_set_ne.
  - exists t. unfold get_memory_proposal. rewrite Dm, Hproposals.
    destruct (of_tenant_keyed _ _ _ _ _ _ (ok_memory_proposals _ Hok) Hp) as [Htenant <-].
    rewrite dict_get_set_eq. unfold of_tenant. simpl. by rewrite bool_decide_true.
Qed.

End Consent.

(** ** Witness *)

Section Witness.
#[local] Existing Instance sample_environment.
#[local] Instance dump_profile : Dump TravelerPreferenceProfile.t := sample_dump _.
#[local] Instance validate_profile : Validate TravelerPreferenceProfile.t := sample_validate _.

Definition sample_proposal : MemoryUpdateProposal.t :=
  MemoryUpdateProposal.mk 5%N "t1" "alice" "preference" "r1" [] [("language", JStr "fr")] "msg-1" one64 true
    MemoryProposalStatus.PENDING_CONFIRMATION "m1" (utc 0) None.
Definition sample_profile : TravelerPreferenceProfile.t :=
  blank_profile "t1" "alice" "v1" 0 <| TravelerPreferenceProfile.preferred_airports := ["LHR"] |>.
Definition proposal_world : World.t :=
  World.init <| World.store := save_memory_proposal (save_profile Repo.init sample_profile) sample_proposal |>.
Definition alice_headers : headers := Headers (Some "t1") (Some UserRole.TRAVELER) (Some "alice") None.

Lemma sample_patch_law : patch_overrides.
Proof.
  intros p patch p'. simpl. unfold patch_language. destruct (dict_get "language" patch) as [v|] eqn:Hl.
  - destruct v; try done. intros [= <-]. unfold agrees_outside. split_and!; try done.
    intros Hn. exfalso. apply Hn. apply dict_get_in in Hl. unfold dict_keys. apply in_map_iff. by eexists (_, _).
  - intros [= <-]. by unfold agrees_outside.
Qed.

Lemma proposal_world_ok : store_ok (World.store proposal_world).
Proof.
  apply reachable_ok. eapply rtc_l; [apply (step_save_profile _ sample_profile)|].
  apply rtc_once, (step_save_memory_proposal _ sample_proposal).
Qed.

(** alice confirms the change of language; her preferred airport stays *)
Lemma memory_consented_witness :
  exists profile w', confirm_memory_proposal 5%N "alice" alice_headers proposal_world = (Ok profile, w') /\
    TravelerPreferenceProfile.language profile = "fr" /\
    TravelerPreferenceProfile.preferred_airports profile = ["LHR"] /\
    exists proposal, get_memory_proposal (World.store proposal_world) "t1" 5%N = Some proposal /\
      "alice" = MemoryUpdateProposal.traveler_id proposal.
Proof.
  destruct (confirm_memory_proposal 5%N "alice" alice_headers proposal_world) as [[profile|e] w'] eqn:E;
    [|vm_compute in E; discriminate].
  exists profile, w'. split; [done|].
  destruct (memory_consented 5%N "alice" alice_headers proposal_world profile w' "t1" sample_patch_law
    proposal_world_ok eq_refl E) as (proposal & Hp & _ & Ha & _).
  clear -E Hp Ha. vm_compute in E. injection E as <- _. split; [done|]. split; [done|]. exists proposal. by split.
Defined.

End Witness.
