(* ===== verification/Service.v ===== *)
(** * The service: every route and job over one store

    [serves] lists the routes with the roles each admits and whether it needs a
    tenant; [service_step] is one request or scheduled job.  The theorems hold of
    every sequence of them. *)

From stdpp Require Import relations.
From S2P Require Import Prelude PyData Float64 PyStd Enums Models RiskEngine Recovery Policies Security.
From S2P Require Import Repository StoreInvariant Notifications Actions ServiceInvariant OpenAI Graph.
From S2P Require Import Providers Assessment Config Idempotency Workers Ingestion ApiCore ApiLogic Samples.
From S2P Require Import ApiTrips ApiIncidents ApiRecovery ApiMemory ApiPrivacy ApiNotifications ApiGovernance.
From S2P Require Import ApiIngestion.

Section Routes.
Context `{Env}.
Context `{!Dump TripCreate.t} `{!Validate TripCreate.t} `{!Dump Trip.t} `{!Validate Trip.t}
  `{!Dump TripAssignmentRequest.t} `{!Dump (list EvidenceEnvelope.t)} `{!Dump AssessmentResult.t}
  `{!Validate AssessmentResult.t} `{!Dump ApprovalRequest.t} `{!Dump ApprovalRecord.t}
  `{!Validate ApprovalRecord.t} `{!Dump RecoveryCandidateSet.t} `{!Validate RecoveryCandidateSet.t}
  `{!Dump RecoveryCandidateSetCreate.t} `{!Dump RecoveryCandidateOutcomeUpdate.t} `{!Dump EvaluatedCandidate.t}
  `{!Dump TravelerPreferenceProfile.t} `{!Validate TravelerPreferenceProfile.t}
  `{!Dump TravelerPreferenceUpdate.t} `{!Dump MemoryUpdateProposal.t} `{!Validate MemoryUpdateProposal.t}
  `{!Dump LegalHoldRecord.t} `{!Validate LegalHoldRecord.t} `{!Dump LegalHoldRelease.t}
  `{!Dump DeletionRequest.t} `{!Validate DeletionRequest.t} `{!Dump NotificationCreate.t}
  `{!Dump NotificationRecord.t} `{!Validate NotificationRecord.t} `{!Dump ChangeRecord.t}
  `{!Validate ChangeRecord.t} `{!Dump RuntimeControlUpdate.t} `{!Dump RuntimeControlChange.t}
  `{!Validate RuntimeControlChange.t} `{!Dump PlatformRuntimeControlChange.t}
  `{!Validate PlatformRuntimeControlChange.t} `{!Dump TenantPlaybookCreate.t} `{!Dump TenantPlaybook.t}
  `{!Validate TenantPlaybook.t} `{!Dump ProviderOnboardingRecord.t} `{!Validate ProviderOnboardingRecord.t}
  `{!Dump BookingWebhookEvent.t} `{!Validate BookingWebhookEvent.t}.

(** ** The routes *)

Definition travelers_and (roles : list UserRole.t) : list UserRole.t := UserRole.TRAVELER :: roles.

(** [serves allowed tenant_scoped handler]: a route, the roles it admits, and
    whether it needs a tenant *)
Inductive serves : list UserRole.t -> bool -> forall A, (headers -> API A) -> Prop :=
  | serve_create_trip p : serves managers true _ (create_trip p)
  | serve_get_trip id : serves (travelers_and reviewers) true _ (ApiTrips.get_trip id)
  | serve_assign id p : serves admins true _ (assign_trip_manager id p)
  | serve_put_evidence id p : serves reviewers true _ (ApiTrips.put_evidence id p)
  | serve_assess id s : serves reviewers true _ (assess_trip id s)
  | serve_list_incidents n k : serves reviewers true _ (ApiIncidents.list_incidents n k)
  | serve_get_incident id : serves reviewers true _ (ApiIncidents.get_incident id)
  | serve_traveler_incidents t : serves [UserRole.TRAVELER] true _ (list_traveler_incidents t)
  | serve_approve id p : serves managers true _ (approve_incident id p)
  | serve_reject id p : serves managers true _ (reject_incident id p)
  | serve_refresh id : serves reviewers true _ (refresh_incident id)
  | serve_run_events id n : serves reviewers true _ (run_events id n)
  | serve_alternatives id : serves (travelers_and reviewers) true _ (alternatives_for_trip id)
  | serve_create_set id p : serves managers true _ (create_candidate_set id p)
  | serve_list_sets id : serves reviewers true _ (ApiRecovery.list_candidate_sets id)
  | serve_outcome i s c p :
      serves (travelers_and managers) true _ (ApiRecovery.record_candidate_outcome i s c p)
  | serve_feedback id : serves managers true _ (ApiRecovery.list_manager_feedback id)
  | serve_actions id : serves managers true _ (list_incident_action_dispatches id)
  | serve_preferences t : serves (travelers_and managers) true _ (get_preferences t)
  | serve_update_preferences t p : serves (travelers_and admins) true _ (update_preferences t p)
  | serve_proposal p : serves managers true _ (create_memory_proposal p)
  | serve_confirm id a : serves [UserRole.TRAVELER] true _ (confirm_memory_proposal id a)
  | serve_delete_memory t a : serves (travelers_and admins) true _ (ApiMemory.delete_traveler_memory t a)
  | serve_memory_audit t : serves managers true _ (ApiMemory.list_memory_audit t)
  | serve_hold p : serves admins true _ (create_legal_hold p)
  | serve_release id p : serves admins true _ (release_legal_hold id p)
  | serve_list_holds : serves admins true _ ApiPrivacy.list_legal_holds
  | serve_deletion p : serves (travelers_and admins) true _ (create_deletion_request p)
  | serve_list_deletions : serves (travelers_and admins) true _ ApiPrivacy.list_deletion_requests
  | serve_preview id c : serves (travelers_and reviewers) true _ (preview_incident_notification id c)
  | serve_queue p : serves managers true _ (queue_notification p)
  | serve_list_notifications s : serves (travelers_and managers) true _ (ApiNotifications.list_notifications s)
  | serve_dispatch : serves admins true _ dispatch_notifications
  | serve_attempts id : serves managers true _ (notification_attempt_history id)
  | serve_acknowledge id a : serves (travelers_and managers) true _ (acknowledge_notification id a)
  | serve_change p : serves admins true _ (create_change_record p)
  | serve_list_changes : serves admins true _ ApiGovernance.list_change_records
  | serve_control n p : serves admins true _ (set_runtime_control n p)
  | serve_list_controls : serves admins true _ ApiGovernance.list_runtime_control_changes
  | serve_platform n p : serves [UserRole.PLATFORM_ADMIN] false _ (set_platform_runtime_control n p)
  | serve_list_platform : serves [UserRole.PLATFORM_ADMIN] false _ list_platform_runtime_controls
  | serve_playbook p : serves admins true _ (publish_tenant_playbook p)
  | serve_list_playbooks : serves reviewers true _ list_tenant_playbooks
  | serve_onboarding p : serves admins true _ (create_provider_onboarding p)
  | serve_list_onboarding : serves admins true _ ApiGovernance.list_provider_onboarding
  | serve_csv c : serves managers true _ (validate_trip_csv c).

(** the signed webhook and the jobs of the scheduler, which carry no role *)
Inductive job : forall A, API A -> Prop :=
  | job_webhook body h : job _ (booking_webhook body h)
  | job_notifications : job _ dispatch_due_notifications_job
  | job_actions : job _ dispatch_approved_actions_job
  | job_assessments : job _ (process_due_assessments None)
  | job_retention : job _ run_retention_job
  | job_privacy : job _ process_privacy_deletion_requests_job
  | job_start : job _ audit_runtime_controls.

Inductive service_step (w : World.t) : World.t -> Prop :=
  | step_route allowed scoped A (handler : headers -> API A) h :
      serves allowed scoped A handler -> service_step w (handler h w).2
  | step_job A (m : API A) : job A m -> service_step w (m w).2.

(** ** Access control *)

Ltac refuse_role Hr :=
  repeat match goal with
  | |- refuses (match ?x with _ => _ end) => destruct x eqn:?
  | |- refuses (require_role _ _ ≫= _) => apply refuses_bind; apply refuses_require_role; exact Hr
  | |- refuses (require_trip_access _ _ _ _ ≫= _) => apply refuses_bind; apply refuses_trip_access; exact Hr
  | |- refuses (require_incident_trip_access _ _ _ _ _ ≫= _) => apply refuses_bind
  | |- refuses (require_incident_trip_access _ _ _ _ _) => unfold require_incident_trip_access
  | |- refuses (raise _) => apply refuses_raise
  | |- refuses (_ ≫= _) => apply refuses_after; [auto with keeps nocore|intro]
  end.

Ltac head_of t := match t with ?f _ => head_of f | _ => t end.
Ltac unfold_handler :=
  match goal with
  | |- refuses ?m => let f := head_of m in unfold f
  | |- keeps _ ?m => let f := head_of m in unfold f
  end.

Lemma role_denied allowed scoped A handler h :
  serves allowed scoped A handler -> role_in (x_actor_role h) allowed = false -> refuses (handler h).
Proof.
  intros Hs Hr. destruct Hs; unfold_handler; try unfold decision_handler; refuse_role Hr.
Qed.

Ltac refuse_tenant Ht :=
  repeat match goal with
  | |- refuses (match ?x with _ => _ end) => destruct x eqn:?
  | |- refuses (require_tenant _ ≫= _) => apply refuses_bind; apply refuses_require_tenant; exact Ht
  | |- refuses (raise _) => apply refuses_raise
  | |- refuses (http_error _ _) => apply refuses_raise
  | |- refuses (_ ≫= _) => apply refuses_after; [auto with keeps nocore|intro]
  end.

Lemma tenant_denied allowed A handler h :
  serves allowed true A handler -> truthy_opt_str (x_tenant_id h) = false -> refuses (handler h).
Proof.
  intros Hs Ht. inversion Hs; subst; unfold_handler; try unfold decision_handler; refuse_tenant Ht.
Qed.

(** ** Every request preserves the service invariant *)

Abbreviation kept := (keeps service_ok).

(** a write is a step of the store that leaves the outbox of actions as it was *)
Ltac store_write :=
  intros; (eapply service_ok_step; [constructor|intros Hnone; exact Hnone|eassumption]).

#[local] Hint Extern 1 (keeps service_ok (put _)) => apply keeps_put; store_write : keeps.

Lemma kept_emit kind tenant trip correlation actor details :
  kept (emit_event kind tenant trip correlation actor details).
Proof. unfold emit_event. keeps. Qed.

Lemma kept_claim tenant key scope payload : kept (claim_mutation tenant key scope payload).
Proof.
  unfold claim_mutation. keeps. apply keeps_put_get. intros r Hr. by apply claim_idempotency_kept.
Qed.

Lemma kept_complete tenant key hash code payload : kept (complete_mutation tenant key hash code payload).
Proof.
  unfold complete_mutation. keeps. apply keeps_try_put. intros r r' ([rec r1] & E & ->%Ok_inj)%res_bind_ok.
  by eapply complete_idempotency_kept.
Qed.
#[local] Hint Resolve kept_emit kept_claim kept_complete : keeps.

Lemma kept_claim_optional tenant key scope payload : kept (claim_optional_mutation tenant key scope payload).
Proof. unfold claim_optional_mutation. keeps. Qed.

Lemma kept_complete_optional tenant key hash code payload :
  kept (complete_optional_mutation tenant key hash code payload).
Proof. unfold complete_optional_mutation. keeps. Qed.

Lemma kept_save_evidence tenant id items : kept (try_put (fun r => save_evidence r tenant id items)).
Proof. apply keeps_try_put. intros r r'. apply save_evidence_kept. Qed.

Lemma kept_save_assessment tenant a : kept (try_put (fun r => save_assessment r tenant a)).
Proof. apply keeps_try_put. intros r r'. apply save_assessment_kept. Qed.
#[local] Hint Resolve kept_claim_optional kept_complete_optional kept_save_evidence kept_save_assessment : keeps.

Lemma kept_audit tenant traveler action proposal actor details :
  kept (audit_memory tenant traveler action proposal actor details).
Proof. unfold audit_memory. keeps. Qed.
#[local] Hint Resolve kept_audit : keeps.

(** *** Assessments *)

Lemma kept_investigation incident a evidence trip health :
  kept (run_graph_investigation incident a evidence trip health).
Proof. unfold run_graph_investigation. keeps. Qed.
#[local] Hint Resolve kept_investigation : keeps.

Lemma kept_assess trip_id scenario h : kept (assess_trip trip_id scenario h).
Proof. unfold assess_trip, assess_snapshot, snapshot, observed, open_incident. keeps. Qed.
#[local] Hint Resolve kept_assess : keeps.

Lemma kept_process_window trip window : kept (process_window trip window).
Proof. unfold process_window. keeps. Qed.
#[local] Hint Resolve kept_process_window : keeps.

(** *** Decisions and the outboxes *)

Lemma kept_queue_action tenant incident approval payload : kept (queue_action tenant incident approval payload).
Proof.
  unfold queue_action. apply keeps_bind; [auto with keeps|intros t].
  apply keeps_bind_lift. intros action Ha. apply keeps_bind; [|intros; keeps].
  apply keeps_put. intros r. apply queue_action_kept. unfold queued_action in Ha.
  by apply construct_ok in Ha as [-> _].
Qed.
#[local] Hint Resolve kept_queue_action : keeps.

Lemma kept_decision expected route wrong id payload h :
  kept (decision_handler expected route wrong id payload h).
Proof. unfold decision_handler, decide_incident, requested_status. keeps. Qed.
#[local] Hint Resolve kept_decision : keeps.

Lemma kept_dispatch_claimed action : undispatched action -> kept (dispatch_claimed action).
Proof.
  intros Ha. unfold dispatch_claimed. keeps. apply keeps_put_get. intros r. by apply dispatch_action_kept.
Qed.

Lemma kept_dispatch_actions : kept dispatch_approved_actions_job.
Proof.
  unfold dispatch_approved_actions_job. apply (keeps_bind_post _ (Forall undispatched)).
  - intros w Hw. unfold claim_actions.
    destruct (claim_actions_kept (World.store w) None "internal-approved-action-dispatcher" (5 * minute)
                (clock_at (World.ticks w)) 100 (fun i => uuid_at (World.ticks w + 1 + i)) Hw) as [H1 H2].
    by destruct (claim_due_action_dispatches _ _ _ _ _ _ _).
  - intros claimed Hc. apply (keeps_fold_forall _ undispatched); [done|].
    intros acc a Ha. apply keeps_bind; [by apply kept_dispatch_claimed|keeps].
Qed.

Lemma kept_claim_notifications tenant worker : kept (claim_notifications tenant worker).
Proof.
  intros w Hw. unfold claim_notifications.
  pose proof (claim_notifications_kept (World.store w) tenant worker (5 * minute) (clock_at (World.ticks w)) 100
    (fun i => uuid_at (World.ticks w + 1 + i)) Hw) as Hk.
  by destruct (claim_due_notifications _ _ _ _ _ _ _).
Qed.

Lemma kept_deliver tenant worker item : kept (deliver_claimed tenant worker item).
Proof.
  unfold deliver_claimed, incident_of, correlation_of. keeps. apply keeps_put_get. intros r. apply deliver_kept.
Qed.
#[local] Hint Resolve kept_dispatch_actions kept_claim_notifications kept_deliver : keeps.

Lemma kept_snapshot tenant trip scenario : kept (assess_snapshot tenant trip scenario).
Proof. unfold assess_snapshot, snapshot, observed, open_incident. keeps. Qed.

Lemma kept_observe tenant incident candidate_set outcomes candidate payload h :
  kept (observe_outcome tenant incident candidate_set outcomes candidate payload h).
Proof. unfold observe_outcome, feedback_when. keeps. Qed.

Lemma kept_apply_proposal tenant actor proposal : kept (apply_proposal tenant actor proposal).
Proof. unfold apply_proposal. keeps. Qed.

Lemma kept_delete_memory tenant traveler :
  kept (put_get (fun r => let '(counts, r') := Repository.delete_traveler_memory r tenant traveler in
                          (Ok counts, r'))).
Proof. apply keeps_put_get. intros r. by apply (delete_memory_kept r tenant traveler). Qed.
#[local] Hint Resolve kept_snapshot kept_observe kept_apply_proposal kept_delete_memory : keeps.

Lemma kept_notification_access tenant n h : kept (require_notification_access tenant n h).
Proof. unfold require_notification_access. keeps. Qed.

Lemma kept_acknowledge n actor : kept (acknowledge_delivered n actor).
Proof. unfold acknowledge_delivered. keeps. Qed.

Lemma kept_future payload : kept (require_future_expiry payload).
Proof. unfold require_future_expiry. keeps. Qed.

Lemma kept_control_event kind scope tenant name previous actor payload :
  kept (control_event kind scope tenant name previous actor payload).
Proof. unfold control_event. keeps. Qed.

Lemma kept_save_playbook p :
  kept (put_get (fun r => let '(stored, r') := save_playbook r p in (Ok stored, r'))).
Proof.
  apply keeps_put_get. intros r Hr. pose proof (save_playbook_kept r p Hr) as Hk. by destruct (save_playbook r p).
Qed.
#[local] Hint Resolve kept_notification_access kept_acknowledge kept_future kept_control_event
  kept_save_playbook : keeps.

Lemma kept_store_original tenant id content : kept (store_original tenant id content).
Proof.
  unfold store_original. keeps. intros w Hw. unfold put_original. destruct evidence_bucket as [bucket|].
  - by destruct (bucket _).
  - by destruct (InMemoryOriginalUploadStore.put _ _ _ _ _).
Qed.

Lemma kept_reject upload error : kept (reject_upload upload error).
Proof. unfold reject_upload. keeps. Qed.
#[local] Hint Resolve kept_store_original kept_reject : keeps.

Lemma kept_validated_rows tenant content upload : kept (validated_rows tenant content upload).
Proof. unfold validated_rows. keeps. Qed.
#[local] Hint Resolve kept_validated_rows : keeps.

(** *** Every route and job *)

Lemma kept_route allowed scoped A handler h : serves allowed scoped A handler -> kept (handler h).
Proof.
  intros Hs. destruct Hs; unfold_handler;
    unfold delivery_enabled, incident_of, correlation_of, immutable_playbook; keeps.
Qed.

Lemma kept_record_event event :
  kept (put_get (fun r => let '(stored, r') := record_event r event in (Ok stored, r'))).
Proof. apply keeps_put_get. intros r. by apply service_ok_step; [apply (step_record_event _ event)|]. Qed.
#[local] Hint Resolve kept_record_event : keeps.

Lemma kept_retention :
  kept run_retention_job.
Proof.
  unfold run_retention_job. keeps. apply keeps_put_get. intros r Hr. unfold run_retention.
  destruct (_ <? 1); [done|]. destruct (purge_expired _ _ _ _ _) as [[counts r']|] eqn:E; [|done].
  by apply (purge_kept _ _ _ _ _ _ _ E).
Qed.

Lemma process_request_kept r t request processed r' :
  process_request r t request = Ok (processed, r') -> service_ok r -> service_ok r'.
Proof.
  unfold process_request. intros (holds & _ & E%Ok_inj)%res_bind_ok Hr. destruct holds.
  - pose proof (erase_kept r (DeletionRequest.tenant_id request) (DeletionRequest.traveler_id request)
                  (DeletionRequest.scope request) Hr) as Hk.
    destruct (erase_traveler_data _ _ _ _) as [deleted r1]. injection E as _ <-. revert Hk.
    by apply service_ok_step; [constructor|].
  - injection E as _ <-. revert Hr. by apply service_ok_step; [constructor|].
Qed.

Lemma process_requests_kept t requests : forall r,
  service_ok r -> service_ok (process_requests r t requests).2.
Proof.
  induction requests as [|request requests IH]; intros r Hr; simpl; [done|].
  destruct (process_request r t request) as [[processed r']|] eqn:E; [|done].
  specialize (IH r' (process_request_kept _ _ _ _ _ E Hr)). by destruct (process_requests r' t requests).
Qed.

Lemma kept_privacy : kept process_privacy_deletion_requests_job.
Proof.
  unfold process_privacy_deletion_requests_job. keeps. apply keeps_put_get. intros r Hr.
  unfold process_due_deletion_requests. destruct (list_pending_deletion_requests r); [|done].
  by apply process_requests_kept.
Qed.
#[local] Hint Resolve kept_retention kept_privacy : keeps.

Lemma kept_job A (m : API A) : job A m -> kept m.
Proof.
  intros Hj. destruct Hj; try solve [auto with keeps nocore].
  - unfold booking_webhook, authentic_webhook, trip_change, upserted_trip, cancelled_trip, existing_trip,
      apply_change, revise_evidence. keeps.
  - unfold dispatch_due_notifications_job, delivery_enabled. keeps.
  - unfold process_due_assessments. keeps. destruct acc as [[assessed replayed] skipped]. keeps.
    destruct acc as [[assessed' replayed'] skipped']. keeps.
  - unfold audit_runtime_controls. keeps.
Qed.

Lemma kept_step w w' : service_step w w' -> service_ok (World.store w) -> service_ok (World.store w').
Proof. intros [allowed scoped A handler h Hs|A m Hj]; [by apply (kept_route allowed scoped A)|by apply kept_job]. Qed.

Definition served (w : World.t) : Prop := rtc service_step World.init w.

Lemma served_ok w : served w -> service_ok (World.store w).
Proof.
  intros Hw. assert (H0 : service_ok (World.store World.init)) by apply service_ok_init.
  induction Hw as [|w1 w2 w3 H12 _ IH]; [done|]. by apply IH, (kept_step w1).
Qed.

(** ** Properties *)

(** C2.  Access control.  A route refuses, without a write, every caller whose
    role it does not admit, and a tenant's route refuses every request that names
    no tenant. *)
Theorem access_control allowed scoped A handler h w :
  serves allowed scoped A handler ->
  role_in (x_actor_role h) allowed = false \/ scoped = true /\ truthy_opt_str (x_tenant_id h) = false ->
  exists e, (handler h w).1 = Raise e /\ World.store (handler h w).2 = World.store w.
Proof.
  intros Hs [Hr|[-> Ht]].
  - exact (role_denied allowed scoped A handler h Hs Hr w).
  - exact (tenant_denied allowed A handler h Hs Ht w).
Qed.

(** C1.  The service is safe.  Whatever requests arrive, from whomever, and
    whatever jobs run, also those that fail midway: the store holds one record
    per key under its own identifier, so a lookup returns what was asked for; no
    action is ever marked dispatched, for no sender is configured; and no value
    below a secret-shaped key is in the audit log. *)
Theorem service_safe w : served w ->
  store_ok (World.store w) /\ none_dispatched (World.store w) /\ log_redacted (World.store w) /\
  (forall tenant id t, Repository.get_trip (World.store w) tenant id = Some t ->
     Trip.tenant_id t = tenant /\ Trip.trip_id t = id) /\
  (forall tenant id i, Repository.get_incident (World.store w) tenant id = Some i ->
     Incident.tenant_id i = tenant /\ Incident.incident_id i = id) /\
  (forall tenant id n, get_notification (World.store w) tenant id = Some n ->
     NotificationRecord.tenant_id n = tenant /\ NotificationRecord.notification_id n = id).
Proof.
  intros [Hr Hn Hl]%served_ok. apply reachable_ok in Hr. split_and!; try done; intros tenant id x Hg.
  - exact (of_tenant_keyed _ _ _ _ _ _ (ok_trips _ Hr) Hg).
  - exact (of_tenant_keyed _ _ _ _ _ _ (ok_incidents _ Hr) Hg).
  - exact (of_tenant_keyed _ _ _ _ _ _ (ok_notifications _ Hr) Hg).
Qed.

End Routes.

(** ** Witnesses *)

Section Witnesses.
#[local] Existing Instance sample_environment.
#[local] Existing Instance sample_dump.
#[local] Existing Instance sample_validate.

(** a manager's trip is created and a traveler of another tenant looks around *)
Definition sample_world : World.t := (create_trip sample_create manager_headers World.init).2.

Lemma sample_served : served sample_world.
Proof. apply rtc_once. exact (step_route _ _ _ _ _ _ (serve_create_trip sample_create)). Qed.

Lemma access_control_witness :
  exists e, (ApiIncidents.list_incidents 20 0 (Headers (Some "t1") (Some UserRole.TRAVELER) None None) sample_world).1
            = Raise e.
Proof.
  destruct (access_control _ _ _ _ (Headers (Some "t1") (Some UserRole.TRAVELER) None None) sample_world
    (serve_list_incidents 20 0) (or_introl eq_refl)) as (e & He & _). by exists e.
Defined.

Lemma service_safe_witness :
  length (Repo.trips (World.store sample_world)) = 1%nat /\ none_dispatched (World.store sample_world).
Proof. split; [vm_compute; reflexivity|]. exact (proj1 (proj2 (service_safe _ sample_served))). Defined.

End Witnesses.
