(* ===== verification/Confinement.v ===== *)
(** * What the reading routes show

    [reads] lists every reading route of [apps/api/main.py] (the health check
    apart) with what its answer may hold, as a property of the store at the
    moment of reading. *)

From stdpp Require Import relations.
From S2P Require Import Prelude PyData Float64 PyStd Enums Models RiskEngine Recovery Policies Security.
From S2P Require Import Repository StoreInvariant Notifications Actions ServiceInvariant OpenAI Graph.
From S2P Require Import Providers Assessment Config Idempotency Workers Ingestion ApiCore ApiLogic Samples.
From S2P Require Import ApiTrips ApiIncidents ApiRecovery ApiMemory ApiPrivacy ApiNotifications ApiGovernance.
From S2P Require Import ApiIngestion.
From S2P Require Import Service.

Section Confinement.
Context `{Env}.
Context `{!Dump TripCreate.t} `{!Validate TripCreate.t} `{!Dump Trip.t} `{!Validate Trip.t}
  `{!Dump TripAssignmentRequest.t} `{!Dump (list EvidenceEnvelope.t)} `{!Dump AssessmentResult.t}
  `{!Validate AssessmentResult.t} `{!Dump ApprovalRequest.t} `{!Dump ApprovalRecord.t}
  `{!Validate ApprovalRecord.t} `{!Dump RecoveryCandidateSet.t} `{!Validate RecoveryCandidateSet.t}
  `{!Dump RecoveryCandidateSetCreate.t} `{!Dump RecoveryCandidateOutcomeUpdate.t} `{!Dump EvaluatedCandidate.t}
  `{!Dump TravelerPreferenceProfile.t} `{!Validate TravelerPreferenceProfile.t}
  `{!Dump TravelerPreferenceUpdate.t} `{!Dump MemoryUpdateProposal.t} `{!Validate MemoryUpdateProposal.t}
  `{!Dump LegalHoldRecord.t} `{!Validate LegalHoldRecord.t} `{!Dump LegalHoldRelease.t}
  `{!Dump DeletionRequest.t} `{!Validate DeletionRequest.t} `{!Dump NotificationCreate.t}
  `{!Dump NotificationRecord.t} `{!Validate NotificationRecord.t} `{!Dump ChangeRecord.t}
  `{!Validate ChangeRecord.t} `{!Dump RuntimeControlUpdate.t} `{!Dump RuntimeControlChange.t}
  `{!Validate RuntimeControlChange.t} `{!Dump PlatformRuntimeControlChange.t}
  `{!Validate PlatformRuntimeControlChange.t} `{!Dump TenantPlaybookCreate.t} `{!Dump TenantPlaybook.t}
  `{!Validate TenantPlaybook.t} `{!Dump ProviderOnboardingRecord.t} `{!Validate ProviderOnboardingRecord.t}
  `{!Dump BookingWebhookEvent.t} `{!Validate BookingWebhookEvent.t}.


(** ** Who may see what *)

(** a signed-in traveler sees their own trips, a signed-in manager those assigned
    to them; the tenant's administrators and duty of care see every trip *)
Definition sees (h : headers) (trip : Trip.t) : Prop :=
  truthy_opt_str (x_actor_id h) = true ->
  (x_actor_role h = Some UserRole.TRAVELER -> x_actor_id h = Some (Trip.traveler_id trip)) /\
  (x_actor_role h = Some UserRole.TRAVEL_MANAGER -> Trip.assigned_manager_id trip = x_actor_id h).

(** [trip] is stored as trip [id] of the tenant, and the caller sees it *)
Definition may_see (h : headers) (tenant : string) (r : repo) (id : uuid) (trip : Trip.t) : Prop :=
  dict_get id (Repo.trips r) = Some trip /\ Trip.tenant_id trip = tenant /\ Trip.trip_id trip = id /\ sees h trip.

(** a stored incident of the tenant; a signed-in manager sees the trip it is on, and
    duty of care is shown elevated incidents only *)
Definition may_see_incident (h : headers) (tenant : string) (r : repo) (i : Incident.t) : Prop :=
  dict_get (Incident.incident_id i) (Repo.incidents r) = Some i /\ Incident.tenant_id i = tenant /\
  (x_actor_role h = Some UserRole.TRAVEL_MANAGER -> truthy_opt_str (x_actor_id h) = true ->
   exists trip, may_see h tenant r (Incident.trip_id i) trip) /\
  (x_actor_role h = Some UserRole.DUTY_OF_CARE -> elevated (Incident.severity i) = true).

(** the incident [id] of the tenant is on a trip the caller sees *)
Definition opened (h : headers) (tenant : string) (r : repo) (id : uuid) (i : Incident.t) (trip : Trip.t) : Prop :=
  dict_get id (Repo.incidents r) = Some i /\ Incident.tenant_id i = tenant /\ Incident.incident_id i = id /\
  may_see h tenant r (Incident.trip_id i) trip.

(** a signed-in traveler asks for themselves *)
Definition own (h : headers) (traveler : string) : Prop :=
  x_actor_role h = Some UserRole.TRAVELER -> truthy_opt_str (x_actor_id h) = true -> x_actor_id h = Some traveler.

(** a manager reaches a notification only through an incident of their trips *)
Definition reaches (h : headers) (tenant : string) (r : repo) (n : NotificationRecord.t) : Prop :=
  x_actor_role h = Some UserRole.TRAVEL_MANAGER -> truthy_opt_str (x_actor_id h) = true ->
  exists id i trip, NotificationRecord.incident_id n = Some id /\ opened h tenant r id i trip.

(** the traveler's own view of an incident: guidance only once it is approved *)
Definition view_of (i : Incident.t) (v : TravelerIncidentView.t) : Prop :=
  TravelerIncidentView.incident_id v = Incident.incident_id i /\
  TravelerIncidentView.trip_id v = Incident.trip_id i /\
  TravelerIncidentView.severity v = Incident.severity i /\
  TravelerIncidentView.status v = Incident.status i /\
  forall g, TravelerIncidentView.approved_guidance v = Some g ->
    Incident.status i = IncidentStatus.APPROVED /\
    exists rec, Incident.recommendation i = Some rec /\ g = Recommendation.traveler_message rec.

(** ** The reading routes *)

(** what the answer to a request for a tenant may hold, given the store it read *)
Definition within {A} (h : headers) (shown : string -> repo -> A -> Prop) (r : repo) (a : A) : Prop :=
  exists tenant, x_tenant_id h = Some tenant /\ shown tenant r a.

(** each record is stored, and is the tenant's *)
Definition of_the_tenant {B} (table : repo -> list B) (tenant_of : B -> string) (more : B -> Prop)
    (tenant : string) (r : repo) (l : list B) : Prop :=
  Forall (fun x => In x (table r) /\ tenant_of x = tenant /\ more x) l.

Inductive reads (h : headers) : forall A, (headers -> API A) -> (repo -> A -> Prop) -> Prop :=
  | read_trip id : reads h _ (ApiTrips.get_trip id) (within h (fun tenant r trip => may_see h tenant r id trip))
  | read_alternatives id : reads h _ (alternatives_for_trip id) (within h (fun tenant r _ =>
      exists trip, may_see h tenant r id trip))
  | read_incident id : reads h _ (ApiIncidents.get_incident id) (within h (fun tenant r i =>
      Incident.incident_id i = id /\ may_see_incident h tenant r i /\ exists trip, opened h tenant r id i trip))
  | read_incidents n k : reads h _ (ApiIncidents.list_incidents n k) (within h (fun tenant r =>
      Forall (may_see_incident h tenant r)))
  | read_guidance t : reads h _ (list_traveler_incidents t) (within h (fun tenant r views =>
      own h t /\ Forall (fun v => exists i trip,
        dict_get (Incident.incident_id i) (Repo.incidents r) = Some i /\ Incident.tenant_id i = tenant /\
        Repository.get_trip r tenant (Incident.trip_id i) = Some trip /\ Trip.traveler_id trip = t /\
        view_of i v) views))
  | read_events id n : reads h _ (run_events id n) (within h (fun tenant r events =>
      (events <> [] -> exists i trip, uuid_str (Incident.correlation_id i) = id /\
         may_see_incident h tenant r i /\ may_see h tenant r (Incident.trip_id i) trip) /\
      of_the_tenant Repo.events EventRecord.tenant_id
        (fun e => uuid_str (EventRecord.correlation_id e) = id) tenant r events))
  | read_sets id : reads h _ (ApiRecovery.list_candidate_sets id) (within h (fun tenant r sets =>
      (exists i trip, opened h tenant r id i trip) /\
      Forall (fun s => RecoveryCandidateSet.incident_id s = id /\ exists s0,
        In (tenant, s0) (dict_values (Repo.candidate_sets r)) /\
        project_candidate_set_outcomes s0 (Repository.list_candidate_outcomes r tenant
          (RecoveryCandidateSet.candidate_set_id s0)) = Ok s) sets))
  | read_actions id : reads h _ (list_incident_action_dispatches id) (within h (fun tenant r actions =>
      (exists i trip, opened h tenant r id i trip) /\
      of_the_tenant (fun r => dict_values (Repo.action_dispatches r)) ActionDispatchRecord.tenant_id
        (fun a => ActionDispatchRecord.incident_id a = id) tenant r actions))
  | read_feedback id : reads h _ (ApiRecovery.list_manager_feedback id) (within h (fun tenant r feedback =>
      (exists i trip, opened h tenant r id i trip) /\
      of_the_tenant (fun r => dict_values (Repo.manager_feedback r)) ManagerFeedback.tenant_id
        (fun f => ManagerFeedback.incident_id f = id) tenant r feedback))
  | read_preferences t : reads h _ (get_preferences t) (within h (fun tenant r o =>
      own h t /\ forall p, o = Some p -> dict_get (tenant, t) (Repo.profiles r) = Some p /\
        TravelerPreferenceProfile.tenant_id p = tenant /\ TravelerPreferenceProfile.traveler_id p = t))
  | read_memory_audit t : reads h _ (ApiMemory.list_memory_audit t) (within h
      (of_the_tenant Repo.memory_audits MemoryAuditEvent.tenant_id (fun e => MemoryAuditEvent.traveler_id e = t)))
  | read_preview id c : reads h _ (preview_incident_notification id c) (within h (fun tenant r n =>
      exists i trip, opened h tenant r id i trip /\ NotificationCreate.incident_id n = Some id /\
        NotificationCreate.traveler_id n = Trip.traveler_id trip /\
        (NotificationCreate.body n = under_review \/
         exists rec, Incident.recommendation i = Some rec /\
           NotificationCreate.body n = Recommendation.traveler_message rec)))
  | read_notifications s : reads h _ (ApiNotifications.list_notifications s) (within h (fun tenant r =>
      of_the_tenant (fun r => dict_values (Repo.notifications r)) NotificationRecord.tenant_id
        (fun n => own h (NotificationRecord.traveler_id n) /\ reaches h tenant r n) tenant r))
  | read_attempts id : reads h _ (notification_attempt_history id) (within h (fun tenant r attempts =>
      exists n, dict_get id (Repo.notifications r) = Some n /\ NotificationRecord.tenant_id n = tenant /\
        reaches h tenant r n /\ attempts = default [] (dict_get id (Repo.notification_attempts r))))
  | read_holds : reads h _ ApiPrivacy.list_legal_holds (within h
      (of_the_tenant (fun r => dict_values (Repo.legal_holds r)) LegalHoldRecord.tenant_id (fun _ => True)))
  | read_deletions : reads h _ ApiPrivacy.list_deletion_requests (within h
      (of_the_tenant (fun r => dict_values (Repo.deletion_requests r)) DeletionRequest.tenant_id
        (fun q => own h (DeletionRequest.traveler_id q))))
  | read_changes : reads h _ ApiGovernance.list_change_records (within h
      (of_the_tenant (fun r => dict_values (Repo.change_records r)) ChangeRecord.tenant_id (fun _ => True)))
  | read_controls : reads h _ ApiGovernance.list_runtime_control_changes (within h
      (of_the_tenant Repo.runtime_control_changes RuntimeControlChange.tenant_id (fun _ => True)))
  | read_platform : reads h _ list_platform_runtime_controls (fun r l =>
      x_actor_role h = Some UserRole.PLATFORM_ADMIN /\ l = Repo.platform_control_changes r)
  | read_playbooks : reads h _ list_tenant_playbooks (within h
      (of_the_tenant (fun r => dict_values (Repo.tenant_playbooks r)) TenantPlaybook.tenant_id (fun _ => True)))
  | read_onboarding : reads h _ ApiGovernance.list_provider_onboarding (within h
      (of_the_tenant (fun r => dict_values (Repo.provider_onboarding_records r))
         ProviderOnboardingRecord.tenant_id (fun _ => True))).

(** ** Lemmas *)

Lemma of_tenant_get {B} (tenant_of : B -> string) tenant found x :
  of_tenant tenant_of tenant found = Some x -> found = Some x /\ tenant_of x = tenant.
Proof. unfold of_tenant. destruct found; [|done]. case_bool_decide; [|done]. by intros [= <-]. Qed.

Lemma trip_denied_false trip h : trip_denied trip (x_actor_role h) (x_actor_id h) = false -> sees h trip.
Proof.
  unfold trip_denied. intros Hd Ht. rewrite Ht in Hd. simpl in Hd. apply orb_false_iff in Hd as [H1 H2].
  split; intros Hr; rewrite Hr in *; rewrite bool_decide_true in * by done; simpl in *; bool_hyps; done.
Qed.

Lemma own_of_guard h traveler :
  other_traveler (x_actor_role h) (x_actor_id h) traveler = false -> own h traveler.
Proof.
  unfold other_traveler. intros Hg Hr Ha. rewrite Hr, Ha in Hg. simpl in Hg. by bool_hyps.
Qed.

Lemma require_memory_reads_ok tenant w x w' :
  require_memory_reads_enabled tenant w = (Ok x, w') -> World.store w' = World.store w.
Proof. unfold require_memory_reads_enabled. intros E. exact (require_control_ok _ _ _ _ _ _ E). Qed.

Lemma slice_last_in {B} n (l : list B) x : In x (slice_last n l) -> In x l.
Proof. unfold slice_last. intros Hx. rewrite <-(firstn_skipn (length l - Z.to_nat n) l). apply in_or_app. by right. Qed.

Lemma slice_from_in {B} n (l : list B) x : In x (slice_from n l) -> In x l.
Proof. unfold slice_from. intros Hx. rewrite <-(firstn_skipn (Z.to_nat n) l). apply in_or_app. by right. Qed.

Lemma slice_to_in {B} n (l : list B) x : In x (slice_to n l) -> In x l.
Proof. unfold slice_to. intros Hx. rewrite <-(firstn_skipn (Z.to_nat n) l). apply in_or_app. by left. Qed.

Lemma dt_sorted_in {B} (key : B -> datetime) text l l' x : dt_sorted key text l = Ok l' -> In x l' -> In x l.
Proof. unfold dt_sorted. destruct (_ && _); [done|]. intros <-%Ok_inj. apply sorted_in. Qed.

Ltac runs_all := repeat (run_step || match goal with
  | E : require_memory_reads_enabled _ _ = (Ok _, _) |- _ => apply require_memory_reads_ok in E
  end).

Ltac head_of t := match t with ?f _ => head_of f | _ => t end.

Lemma Forall2_right {B C} (P : B -> C -> Prop) l k y :
  List.Forall2 P l k -> In y k -> exists x, In x l /\ P x y.
Proof. induction 1; simpl; [done|]. naive_solver. Qed.

Ltac open_run :=
  match goal with E : ?f _ _ = (Ok _, _) |- _ => let g := head_of f in unfold g in E end.

Ltac for_tenant :=
  match goal with Ht : x_tenant_id _ = Some ?t |- _ => exists t; split; [exact Ht|]; rename t into tenant end.

(** records a listing has filtered out of a table, and sorted *)
Ltac listed :=
  apply List.Forall_forall; let y := fresh "y" in let Hy := fresh "Hy" in intros y Hy;
  unfold list_action_dispatches, Repository.list_manager_feedback, Repository.list_memory_audit,
    Repository.list_change_records, Repository.list_runtime_control_changes, list_approved_playbooks,
    Repository.list_provider_onboarding in Hy;
  repeat match type of Hy with
  | In _ (sorted _ _) => apply sorted_in in Hy
  | In _ (List.filter _ _) => let Hp := fresh "Hp" in apply filter_In in Hy as [Hy Hp]
  | In _ ?l => match goal with E : _ _ _ = Ok l |- _ => apply (dt_sorted_in _ _ _ _ _ E) in Hy; clear E end
  | In _ ?l => match goal with E : _ _ _ _ = Ok l |- _ => apply (dt_sorted_in _ _ _ _ _ E) in Hy; clear E end
  end; bool_hyps; try done.

Section Stored.
Context (h : headers) (r : repo) (Hok : store_ok r).

Lemma trip_seen tenant id trip :
  Repository.get_trip r tenant id = Some trip -> sees h trip -> may_see h tenant r id trip.
Proof.
  intros Hg Hs. destruct (of_tenant_keyed _ _ _ _ _ _ (ok_trips r Hok) Hg) as [Ht Hi].
  by destruct (of_tenant_get _ _ _ _ Hg).
Qed.

Lemma trip_allowed tenant id trip :
  Repository.get_trip r tenant id = Some trip -> trip_denied trip (x_actor_role h) (x_actor_id h) = false ->
  may_see h tenant r id trip.
Proof. intros Hg Hd. by apply trip_seen, trip_denied_false. Qed.

Lemma incident_opened tenant id i trip :
  Repository.get_incident r tenant id = Some i ->
  Repository.get_trip r tenant (Incident.trip_id i) = Some trip ->
  trip_denied trip (x_actor_role h) (x_actor_id h) = false -> opened h tenant r id i trip.
Proof.
  intros Hi Ht Hd. destruct (of_tenant_keyed _ _ _ _ _ _ (ok_incidents r Hok) Hi) as [Hit Hid].
  destruct (of_tenant_get _ _ _ _ Hi) as [Hg _]. split_and!; try done. by apply trip_allowed.
Qed.

Lemma opened_may_see tenant id i trip :
  opened h tenant r id i trip ->
  (x_actor_role h = Some UserRole.DUTY_OF_CARE -> elevated (Incident.severity i) = true) ->
  may_see_incident h tenant r i.
Proof. intros (Hi & Ht & <- & Htrip) He. split_and!; [done|done|by exists trip|done]. Qed.

Lemma listed_incident tenant i :
  In i (Repository.list_incidents r tenant) ->
  dict_get (Incident.incident_id i) (Repo.incidents r) = Some i /\ Incident.tenant_id i = tenant.
Proof.
  intros [Hin Ht]%filter_In. bool_hyps. split; [|done].
  unfold dict_values in Hin. apply in_map_iff in Hin as ([k x] & <- & Hkx).
  destruct (ok_incidents r Hok) as [Hw Hk]. simpl. rewrite (Hk _ _ Hkx). by apply dict_in_get.
Qed.

(** a trip assigned to a signed-in manager is one the manager sees *)
Lemma assigned_seen tenant i :
  x_actor_role h = Some UserRole.TRAVEL_MANAGER ->
  assigned_to r tenant (x_actor_id h) i = true -> exists trip, may_see h tenant r (Incident.trip_id i) trip.
Proof.
  unfold assigned_to. intros Hr Ha. destruct (Repository.get_trip _ _ _) as [trip|] eqn:Hg; [|done]. bool_hyps.
  exists trip. apply trip_seen; [done|]. intros _. split; intros E; [congruence|done].
Qed.

Lemma managed_reaches tenant n : managed_by r tenant (x_actor_id h) n = true -> reaches h tenant r n.
Proof.
  unfold managed_by. intros Hm Hr _. destruct (NotificationRecord.incident_id n) as [id|]; [|done].
  destruct (Repository.get_incident r tenant id) as [i|] eqn:Hi; [|done].
  destruct (Repository.get_trip r tenant (Incident.trip_id i)) as [trip|] eqn:Ht; [|done]. bool_hyps.
  exists id, i, trip. split; [done|]. apply incident_opened; [done|done|].
  unfold trip_denied. rewrite Hr, (bool_decide_true (_ = x_actor_id h)) by done. simpl.
  by rewrite ?andb_false_r.
Qed.

Lemma traveler_view_of i : view_of i (traveler_view i).
Proof.
  unfold traveler_view. split_and!; try done. simpl. intros g.
  destruct (Incident.status i == IncidentStatus.APPROVED) eqn:Hs; [|done]. bool_hyps.
  destruct (Incident.recommendation i) as [rec|]; simpl; [|done]. intros [= <-]. eauto.
Qed.

End Stored.

(** *** Routes whose answer takes more than a filter *)

Section Runs.
Context (h : headers) (w : World.t) (Hok : store_ok (World.store w)).

(** the run answers [a], and what it shows is read off the unchanged store *)
Definition shows {A} (m : API A) (shown : repo -> A -> Prop) : Prop :=
  forall a w', m w = (Ok a, w') -> World.store w' = World.store w /\ shown (World.store w) a.

Lemma get_incident_shown id : shows (ApiIncidents.get_incident id h) (within h (fun tenant r i =>
  Incident.incident_id i = id /\ may_see_incident h tenant r i /\ exists trip, opened h tenant r id i trip)).
Proof.
  intros a w' E. open_run. runs_all. split; [done|]. for_tenant.
  match goal with Hi : Repository.get_incident _ _ _ = Some _, Ht : Repository.get_trip _ _ _ = Some _,
                  Hd : trip_denied _ _ _ = false |- _ =>
    pose proof (incident_opened h _ Hok _ _ _ _ Hi Ht Hd) as Ho; assert (Hid := Ho) end.
  destruct Hid as (_ & _ & Hid & _). split; [done|]. split; [|by eexists].
  eapply opened_may_see; [exact Ho|]. intros Hr.
  match goal with G : (_ && _)%bool = false |- _ => rewrite bool_decide_true in G by done; simpl in G end.
  by bool_hyps.
Qed.

Lemma list_incidents_shown n k : shows (ApiIncidents.list_incidents n k h) (within h (fun tenant r =>
  Forall (may_see_incident h tenant r))).
Proof.
  intros a w' E. open_run. runs_all. split; [done|]. for_tenant. apply List.Forall_forall. intros i Hi.
  apply slice_to_in, slice_from_in, sorted_in in Hi.
  assert (He : (x_actor_role h = Some UserRole.DUTY_OF_CARE -> elevated (Incident.severity i) = true) /\
    In i (if bool_decide (x_actor_role h = Some UserRole.TRAVEL_MANAGER) && truthy_opt_str (x_actor_id h)
          then List.filter (assigned_to (World.store w) tenant (x_actor_id h))
                 (Repository.list_incidents (World.store w) tenant)
          else Repository.list_incidents (World.store w) tenant)).
  { case_bool_decide; [apply filter_In in Hi as [Hi He]|]; (split; [|intros]; done). }
  clear Hi. destruct He as [He Hi].
  assert (Ha : In i (Repository.list_incidents (World.store w) tenant) /\
    (x_actor_role h = Some UserRole.TRAVEL_MANAGER -> truthy_opt_str (x_actor_id h) = true ->
     assigned_to (World.store w) tenant (x_actor_id h) i = true)).
  { case_bool_decide; simpl in Hi; [destruct (truthy_opt_str _); [apply filter_In in Hi as [Hi Ha]|]|];
      (split; [|intros]; done). }
  destruct Ha as [Hl Ha]. apply listed_incident in Hl as [Hg Ht]; [|done]. split_and!; [done|done| |done].
  intros Hr Hs. by apply assigned_seen; [| |apply Ha].
Qed.

Lemma run_events_shown id n : shows (run_events id n h) (within h (fun tenant r events =>
  (events <> [] -> exists i trip, uuid_str (Incident.correlation_id i) = id /\
     may_see_incident h tenant r i /\ may_see h tenant r (Incident.trip_id i) trip) /\
  of_the_tenant Repo.events EventRecord.tenant_id
    (fun e => uuid_str (EventRecord.correlation_id e) = id) tenant r events)).
Proof.
  intros a w' E. open_run. runs_all.
  match goal with E : match ?o with _ => _ end _ = _ |- _ => destruct o as [i|] eqn:Hf end.
  2: { runs_all. split; [done|]. for_tenant. split; [done|constructor]. }
  runs_all. match goal with E : match ?o with _ => _ end _ = _ |- _ => destruct o as [trip|] eqn:Ht end.
  2: { runs_all. split; [done|]. for_tenant. split; [done|constructor]. }
  runs_all. split; [done|]. for_tenant. apply find_some in Hf as [[Hi Hten]%listed_incident Hc]; [|done].
  bool_hyps. assert (Hsee : may_see h tenant (World.store w) (Incident.trip_id i) trip) by (by apply trip_allowed).
  split.
  - intros _. exists i, trip. split; [done|]. split; [|done]. do 2 (split; [done|]). split; [by exists trip|]. intros Hr.
    match goal with G : (_ && _)%bool = false |- _ => rewrite bool_decide_true in G by done; simpl in G end.
    by bool_hyps.
  - apply List.Forall_forall. intros e He. apply slice_last_in, filter_In in He as [[Hin Ht1]%filter_In He2].
    by bool_hyps.
Qed.

Lemma traveler_views_shown t : shows (list_traveler_incidents t h) (within h (fun tenant r views =>
  own h t /\ Forall (fun v => exists i trip,
    dict_get (Incident.incident_id i) (Repo.incidents r) = Some i /\ Incident.tenant_id i = tenant /\
    Repository.get_trip r tenant (Incident.trip_id i) = Some trip /\ Trip.traveler_id trip = t /\
    view_of i v) views)).
Proof.
  intros a w' E. open_run. runs_all. split; [done|]. for_tenant. split.
  - intros _ Ha. match goal with G : (_ && _)%bool = false |- _ => rewrite Ha in G; simpl in G end. by bool_hyps.
  - apply List.Forall_forall. intros v (i & <- & [Hi Ht]%filter_In)%in_map_iff.
    apply listed_incident in Hi as [Hg Hten]; [|done].
    destruct (Repository.get_trip _ _ _) as [trip|] eqn:Htrip; [|done]. bool_hyps.
    exists i, trip. split_and!; try done. apply traveler_view_of.
Qed.

Lemma candidate_sets_shown id : shows (ApiRecovery.list_candidate_sets id h) (within h (fun tenant r sets =>
  (exists i trip, opened h tenant r id i trip) /\
  Forall (fun s => RecoveryCandidateSet.incident_id s = id /\ exists s0,
    In (tenant, s0) (dict_values (Repo.candidate_sets r)) /\
    project_candidate_set_outcomes s0 (Repository.list_candidate_outcomes r tenant
      (RecoveryCandidateSet.candidate_set_id s0)) = Ok s) sets)).
Proof.
  intros a w' E. open_run. runs_all. split; [done|]. for_tenant. split.
  { eexists _, _. by eapply incident_opened. }
  match goal with E : mapM _ _ = Ok a |- _ => apply mapM_res_Forall2 in E as Hall end.
  apply List.Forall_forall. intros s Hs.
  destruct (Forall2_right _ _ _ _ Hall Hs) as (s0 & Hs0 & Hp).
  unfold Repository.list_candidate_sets in Hs0.
  apply in_map_iff in Hs0 as ([ten s0'] & <- & [Hin Hid]%filter_In). simpl in *. bool_hyps. subst.
  split; [|by exists s0'].
  unfold project_candidate_set_outcomes in Hp. apply res_bind_ok in Hp as (c & _ & <-%Ok_inj). done.
Qed.

Lemma list_notifications_shown s : shows (ApiNotifications.list_notifications s h) (within h (fun tenant r =>
  of_the_tenant (fun r => dict_values (Repo.notifications r)) NotificationRecord.tenant_id
    (fun n => own h (NotificationRecord.traveler_id n) /\ reaches h tenant r n) tenant r)).
Proof.
  intros a w' E. open_run. runs_all. split; [done|]. for_tenant. apply List.Forall_forall. intros n Hn.
  assert (Hl : In n (Repository.list_notifications (World.store w) tenant ((fun s => [s]) <$> s)) /\
               own h (NotificationRecord.traveler_id n) /\ reaches h tenant (World.store w) n).
  { unfold own. destruct (truthy_opt_str (x_actor_id h)) eqn:Ht.
    2: { rewrite !andb_false_r in Hn. split; [done|]. split; [done|]. intros _. congruence. }
    rewrite !andb_true_r in Hn. case_bool_decide as Hr.
    - apply filter_In in Hn as [Hn Hown]. bool_hyps. split_and!; try done. intros Hm. congruence.
    - case_bool_decide as Hm; [apply filter_In in Hn as [Hn Hmg]|];
        (split; [done|]); (split; [done|]); [by apply managed_reaches|by intros ?]. }
  destruct Hl as (Hl & Hown & Hreach). unfold Repository.list_notifications in Hl.
  apply filter_In in Hl as [Hin Hten]. bool_hyps. done.
Qed.

Lemma preview_shown id c : shows (preview_incident_notification id c h) (within h (fun tenant r n =>
  exists i trip, opened h tenant r id i trip /\ NotificationCreate.incident_id n = Some id /\
    NotificationCreate.traveler_id n = Trip.traveler_id trip /\
    (NotificationCreate.body n = under_review \/
     exists rec, Incident.recommendation i = Some rec /\
       NotificationCreate.body n = Recommendation.traveler_message rec))).
Proof.
  intros a w' E. open_run. runs_all.
  match goal with x : Incident.t * Trip.t |- _ => destruct x as [i trip] end. runs_all. split; [done|]. for_tenant.
  match goal with E : construct _ _ _ = Ok a |- _ => apply construct_ok in E as [-> _] end.
  exists i, trip. split; [by eapply incident_opened|]. simpl. do 2 (split; [done|]).
  destruct (Incident.recommendation i) as [rec|]; [right; by exists rec|by left].
Qed.

Lemma notification_access_ok tenant n x w' :
  require_notification_access tenant n h w = (Ok x, w') -> w' = w /\ reaches h tenant (World.store w) n.
Proof.
  unfold require_notification_access, reaches. case_bool_decide as Hr; intros E; [|runs; split; [done|by intros ?]].
  destruct (NotificationRecord.incident_id n) as [id|]; [|done]. runs_all. split; [done|]. intros _ _.
  eexists _, _, _. split; [done|]. by eapply incident_opened.
Qed.

Lemma attempts_shown id : shows (notification_attempt_history id h) (within h (fun tenant r attempts =>
  exists n, dict_get id (Repo.notifications r) = Some n /\ NotificationRecord.tenant_id n = tenant /\
    reaches h tenant r n /\ attempts = default [] (dict_get id (Repo.notification_attempts r)))).
Proof.
  intros a w' E. open_run. runs_all.
  match goal with E : require_notification_access _ _ _ _ = (Ok _, _) |- _ =>
    apply notification_access_ok in E as [-> Hreach] end.
  split; [done|]. for_tenant.
  match goal with Hn : get_notification _ _ _ = Some ?n |- _ =>
    exists n; destruct (of_tenant_get _ _ _ _ Hn) as [Hg Ht];
    unfold list_notification_attempts; rewrite Hn end.
  done.
Qed.


End Runs.

(** ** Properties *)

(** C3.  Isolation of reads.  After any sequence of requests and jobs, a reading
    route that answers has changed nothing, was given a tenant (the platform
    controls apart, which only a platform administrator reads) and shows stored
    records of that tenant only.  A signed-in traveler is shown their own trips,
    incidents, preferences, notifications and deletion requests; a signed-in
    manager the trips assigned to them, and what belongs to an incident only if its
    trip is assigned to them; duty of care elevated incidents and the runs of
    those.  What is shown under an incident, a run or a notification is that
    incident's, run's or notification's; the traveler's own view carries the
    guidance of an incident only once it is approved. *)
Theorem reads_confined A handler shown h w a w' :
  served w -> reads h A handler shown -> handler h w = (Ok a, w') ->
  World.store w' = World.store w /\ shown (World.store w) a.
Proof.
  intros Hw Hr. revert a w'. pose proof (reachable_ok _ (service_reachable _ (served_ok _ Hw))) as Hok.
  fold (shows w (handler h) shown).
  destruct Hr; try solve [by apply get_incident_shown|by apply list_incidents_shown|by apply run_events_shown
    |by apply traveler_views_shown|by apply candidate_sets_shown|by apply list_notifications_shown
    |by apply preview_shown|by apply attempts_shown]; 
    intros a w' E; open_run; runs_all; (split; [congruence|]); try for_tenant.
  - by apply trip_allowed.
  - eexists. by apply trip_allowed.
  - split; [by eexists _, _; eapply incident_opened|]. listed.
  - split; [by eexists _, _; eapply incident_opened|]. listed.
  - split; [by apply own_of_guard|]. intros p Hp.
    match goal with G : World.store _ = World.store w |- _ => rewrite G in Hp end.
    pose proof (keyed_get _ _ _ _ (ok_profiles _ Hok) Hp) as Hkey. unfold profile_key in Hkey.
    by injection Hkey.
  - match goal with G : World.store _ = World.store w |- _ => rewrite G end. listed.
  - listed.
  - listed. do 2 (split; [done|]). intros Hr Ht. rewrite bool_decide_true in * by done.
    destruct (x_actor_id h); [|done]. by bool_hyps; subst.
  - listed.
  - listed.
  - split; [|done].
    match goal with G : role_in _ _ = true |- _ => revert G end. by destruct (x_actor_role h) as [[]|].
  - listed.
  - listed.
Qed.

End Confinement.

(** ** Witnesses *)

Section Witnesses.
#[local] Existing Instance sample_environment.
#[local] Existing Instance sample_dump.
#[local] Existing Instance sample_validate.

Lemma reads_confined_witness :
  exists trip, (ApiTrips.get_trip 100%N manager_headers sample_world).1 = Ok trip /\ Trip.tenant_id trip = "t1".
Proof.
  destruct (ApiTrips.get_trip 100%N manager_headers sample_world) as [[trip|e] w'] eqn:E;
    [|vm_compute in E; discriminate].
  exists trip. split; [done|].
  destruct (reads_confined _ _ _ _ _ _ _ sample_served (read_trip manager_headers 100%N) E)
    as (_ & tenant & Ht & _ & Hs & _).
  vm_compute in Ht. injection Ht as <-. exact Hs.
Defined.

End Witnesses.
