(* ===== verification/StoredTypes.v ===== *)
(** * The types of the stored records

    A record is checked against its model when it is constructed from a request;
    [model_copy] and attribute assignment check nothing.  [records_typed r]: every
    record of the store satisfies the constraints of its model, so that
    [model_validate] reads its JSON back.  Here are the writes that keep it; the
    handlers are in [HandlerTypes]. *)

From S2P Require Import Prelude PyData Float64 PyStd Enums Models RiskEngine Recovery Policies Security Repository.
From S2P Require Import Notifications Actions OpenAI Graph Providers Assessment Workers.

(** a conjunction of constraints, from the conjuncts at hand *)
Ltac conj_hyps :=
  repeat match goal with H : (_ && _)%bool = true |- _ => apply andb_true_iff in H as [? ?] end.
Ltac conjuncts :=
  conj_hyps;
  repeat match goal with |- (_ && _)%bool = true => apply andb_true_iff; split end; try assumption.

(** ** Collections *)

Definition typed_as {A} (valid : A -> bool) (x : A) : Prop := valid x = true.

Definition stored {K V} (P : V -> Prop) (d : dict K V) : Prop := forall v, In v (dict_values d) -> P v.
Definition listed {A} (P : A -> Prop) (l : list A) : Prop := forall x, In x l -> P x.

Section Stored.
Context {K V : Type} `{EqDecision K} (P : V -> Prop).
Implicit Types (d : dict K V).

Lemma stored_nil : stored P ([] : dict K V).
Proof. by intros v. Qed.

Lemma stored_in d k v : stored P d -> In (k, v) d -> P v.
Proof. intros Hd Hin. apply Hd, dict_in_values. by exists k. Qed.

Lemma stored_get d k v : stored P d -> dict_get k d = Some v -> P v.
Proof. intros Hd Hg%dict_get_in. by eapply stored_in. Qed.

Lemma stored_cons d k v : P v -> stored P d -> stored P ((k, v) :: d).
Proof. intros Hv Hd v' [<-|Hin]; [done|by apply Hd]. Qed.

Lemma stored_tail d k v : stored P ((k, v) :: d) -> P v /\ stored P d.
Proof. intros Hd. split; [by apply Hd; left|]. intros v' Hin. apply Hd. by right. Qed.

Lemma stored_set d k v : P v -> stored P d -> stored P (dict_set k v d).
Proof.
  intros Hv. induction d as [|[k' v'] d IH]; intros Hd; simpl; [by apply stored_cons|].
  apply stored_tail in Hd as [Hv' Hd]. case_bool_decide; apply stored_cons; auto.
Qed.

Lemma stored_filter (p : K * V -> bool) d : stored P d -> stored P (List.filter p d).
Proof.
  intros Hd v (k & [Hin _]%filter_In)%dict_in_values. by eapply stored_in.
Qed.

Lemma stored_pop d k : stored P d -> stored P (dict_pop k d).
Proof. apply stored_filter. Qed.
Lemma stored_dict_filter p d : stored P d -> stored P (dict_filter p d).
Proof. apply stored_filter. Qed.
Lemma stored_keep_values p d : stored P d -> stored P (keep_values p d).
Proof. apply stored_filter. Qed.
Lemma stored_keep_keys p d : stored P d -> stored P (keep_keys p d).
Proof. apply stored_filter. Qed.

Lemma stored_pop_all ids d : stored P d -> stored P (pop_all ids d).
Proof. unfold pop_all. revert d. induction ids as [|id ids IH]; intros d Hd; simpl; [done|]. by apply IH, stored_pop. Qed.

End Stored.

Lemma listed_snoc {A} (P : A -> Prop) l x : listed P l -> P x -> listed P (l ++ [x]).
Proof. intros Hl Hx y [Hin|[<-|[]]]%in_app_or; auto. Qed.
Lemma listed_app {A} (P : A -> Prop) l l' : listed P l -> listed P l' -> listed P (l ++ l').
Proof. intros Hl Hl' y [Hin|Hin]%in_app_or; auto. Qed.
Lemma listed_filter {A} (P : A -> Prop) p l : listed P l -> listed P (List.filter p l).
Proof. intros Hl x [Hin _]%filter_In. auto. Qed.
Lemma listed_nil {A} (P : A -> Prop) : listed P [].
Proof. by intros x. Qed.
Lemma listed_single {A} (P : A -> Prop) x : P x -> listed P [x].
Proof. by intros Hx y [<-|[]]. Qed.

Lemma stored_append {K V} `{EqDecision K} (P : V -> Prop) (d : dict K (list V)) k v :
  stored (listed P) d -> P v -> stored (listed P) (dict_append k v d).
Proof.
  intros Hd Hv. unfold dict_append. apply stored_set; [|done].
  destruct (dict_get k d) eqn:E; [|by apply listed_single].
  apply listed_snoc; [|done]. by apply (stored_get _ d k).
Qed.

(** a lease changes the columns of the lease only *)
Lemma stored_claim_due {R} `{Leasable R} (P : R -> Prop) tenant worker ttl now limit fresh :
  (forall id t e x, P x -> P (set_lease id worker t e x)) -> forall d n c d',
  claim_due tenant worker ttl now limit fresh n d = (c, d') -> stored P d -> listed P c /\ stored P d'.
Proof.
  intros Hset. induction d as [|[id x] d IH]; intros n c d' E Hd; simpl in E.
  - injection E as <- <-. split; [apply listed_nil|done].
  - pose proof (stored_tail P _ _ _ Hd) as [Hx Hd'].
    destruct (limit <=? Z.of_nat n); [injection E as <- <-; split; [apply listed_nil|done]|].
    destruct (claimable _ _ _).
    + destruct (claim_due _ _ _ _ _ _ _ _) as [c' rest] eqn:E'. injection E as <- <-.
      destruct (IH _ _ _ E' Hd') as [Hc Hr]. split; [intros y [<-|Hin]; auto|by apply stored_cons; auto].
    + destruct (claim_due _ _ _ _ _ _ _ _) as [c' rest] eqn:E'. injection E as <- <-.
      destruct (IH _ _ _ E' Hd') as [Hc Hr]. split; [done|by apply stored_cons].
Qed.

(** ** The store *)

(** the models below have no constraint of their own: those of what they contain *)
Definition incident_valid (i : Incident.t) : bool :=
  match Incident.recommendation i with Some x => Recommendation.valid x | None => true end &&
  forallb ModelInvocationAudit.valid (Incident.model_audit i).
Definition candidate_set_valid (s : RecoveryCandidateSet.t) : bool :=
  forallb EvaluatedCandidate.valid (RecoveryCandidateSet.candidates s) &&
  forallb RecoveryCandidateOutcome.valid (RecoveryCandidateSet.outcomes s).

Record records_typed (r : repo) : Prop := {
  trips_typed : stored (typed_as Trip.valid) (Repo.trips r);
  segments_typed : stored (listed (typed_as FlightSegmentCreate.valid)) (Repo.trip_segments r);
  evidence_typed : stored (listed (typed_as EvidenceEnvelope.valid)) (Repo.evidence r);
  assessments_typed : stored (listed (typed_as RiskAssessment.valid)) (Repo.assessments r);
  incidents_typed : stored (typed_as incident_valid) (Repo.incidents r);
  approvals_typed : stored (typed_as ApprovalRecord.valid) (Repo.approvals r);
  profiles_typed : stored (typed_as TravelerPreferenceProfile.valid) (Repo.profiles r);
  proposals_typed : stored (typed_as MemoryUpdateProposal.valid) (Repo.memory_proposals r);
  idempotency_typed : stored (typed_as IdempotencyRecord.valid) (Repo.idempotency_records r);
  candidate_sets_typed : stored (fun s => typed_as candidate_set_valid s.2) (Repo.candidate_sets r);
  outcomes_typed : stored (fun o => typed_as RecoveryCandidateOutcome.valid o.2) (Repo.candidate_outcomes r);
  feedback_typed : stored (typed_as ManagerFeedback.valid) (Repo.manager_feedback r);
  playbooks_typed : stored (typed_as TenantPlaybook.valid) (Repo.tenant_playbooks r);
  notifications_typed : stored (typed_as NotificationRecord.valid) (Repo.notifications r);
  notification_attempts_typed :
    stored (listed (typed_as NotificationAttempt.valid)) (Repo.notification_attempts r);
  actions_typed : stored (typed_as ActionDispatchRecord.valid) (Repo.action_dispatches r);
  action_attempts_typed :
    stored (listed (typed_as ActionDispatchAttempt.valid)) (Repo.action_dispatch_attempts r);
  memory_audits_typed : listed (typed_as MemoryAuditEvent.valid) (Repo.memory_audits r);
  changes_typed : stored (typed_as ChangeRecord.valid) (Repo.change_records r);
  onboarding_typed : stored (typed_as ProviderOnboardingRecord.valid) (Repo.provider_onboarding_records r);
  holds_typed : stored (typed_as LegalHoldRecord.valid) (Repo.legal_holds r);
  deletions_typed : stored (typed_as DeletionRequest.valid) (Repo.deletion_requests r);
  overrides_typed : stored (typed_as RuntimeControlChange.valid) (Repo.runtime_control_overrides r);
  control_changes_typed : listed (typed_as RuntimeControlChange.valid) (Repo.runtime_control_changes r);
  platform_overrides_typed :
    stored (typed_as PlatformRuntimeControlChange.valid) (Repo.platform_control_overrides r);
  platform_changes_typed : listed (typed_as PlatformRuntimeControlChange.valid) (Repo.platform_control_changes r);
  uploads_typed : stored (typed_as OriginalUploadRecord.valid) (Repo.original_uploads r)
}.

(** one field at a time: an untouched field is the old one *)
Ltac keep_types H :=
  destruct H; constructor; simpl; try assumption;
  repeat first [apply stored_pop_all | apply stored_keep_values | apply stored_keep_keys
               | apply stored_dict_filter | apply stored_pop | apply listed_filter
               | apply stored_append | apply listed_snoc | apply stored_set]; try assumption.

Lemma records_typed_init : records_typed Repo.init.
Proof. constructor; simpl; try apply stored_nil; apply listed_nil. Qed.

(** ** Writes of whole records *)

Create HintDb typed discriminated.

Section Writes.
Variable r : repo.
Hypothesis Hr : records_typed r.

Lemma trip_segments_typed trip :
  Trip.valid trip = true -> listed (typed_as FlightSegmentCreate.valid) (Trip.segments trip).
Proof.
  unfold Trip.valid, TripCreate.valid. intros [[_ H]%andb_true_iff _]%andb_true_iff s Hin.
  exact (proj1 (forallb_forall _ _) H s Hin).
Qed.
#[local] Hint Resolve trip_segments_typed : typed.

Lemma create_trip_typed trip : Trip.valid trip = true -> records_typed (create_trip r trip).
Proof. intros Ht. keep_types Hr. by apply trip_segments_typed. Qed.
Lemma save_trip_typed trip : Trip.valid trip = true -> records_typed (save_trip r trip).
Proof. intros Ht. keep_types Hr. by apply trip_segments_typed. Qed.
Lemma save_evidence_typed tenant id items r' :
  listed (typed_as EvidenceEnvelope.valid) items -> save_evidence r tenant id items = Ok r' -> records_typed r'.
Proof. unfold save_evidence. destruct (get_trip _ _ _); [|done]. intros Hi <-%Ok_inj. keep_types Hr. Qed.
Lemma save_assessment_typed tenant a r' :
  RiskAssessment.valid a = true -> save_assessment r tenant a = Ok r' -> records_typed r'.
Proof. unfold save_assessment. destruct (get_trip _ _ _); [|done]. intros Ha <-%Ok_inj. keep_types Hr. Qed.
Lemma save_incident_typed i : incident_valid i = true -> records_typed (save_incident r i).
Proof. intros Hi. keep_types Hr. Qed.
Lemma save_approval_typed a : ApprovalRecord.valid a = true -> records_typed (save_approval r a).
Proof. intros Ha. keep_types Hr. Qed.
Lemma record_event_typed e : records_typed (record_event r e).2.
Proof. keep_types Hr. Qed.
Lemma save_profile_typed p : TravelerPreferenceProfile.valid p = true -> records_typed (save_profile r p).
Proof. intros Hp. keep_types Hr. Qed.
Lemma save_memory_proposal_typed p : MemoryUpdateProposal.valid p = true -> records_typed (save_memory_proposal r p).
Proof. intros Hp. keep_types Hr. Qed.
Lemma delete_memory_typed tenant traveler : records_typed (delete_traveler_memory r tenant traveler).2.
Proof. simpl. keep_types Hr. Qed.
Lemma record_memory_audit_typed e : MemoryAuditEvent.valid e = true -> records_typed (record_memory_audit r e).
Proof. intros He. keep_types Hr. Qed.
Lemma save_candidate_set_typed tenant s : candidate_set_valid s = true -> records_typed (save_candidate_set r tenant s).
Proof. intros Hs. keep_types Hr. Qed.
Lemma record_outcome_typed tenant o :
  RecoveryCandidateOutcome.valid o = true -> records_typed (record_candidate_outcome r tenant o).
Proof. intros Ho. keep_types Hr. Qed.
Lemma save_feedback_typed f : ManagerFeedback.valid f = true -> records_typed (save_manager_feedback r f).
Proof. intros Hf. keep_types Hr. Qed.
Lemma save_playbook_typed p : TenantPlaybook.valid p = true -> records_typed (save_playbook r p).2.
Proof. intros Hp. unfold save_playbook. destruct (dict_get _ _); [done|]. simpl. keep_types Hr. Qed.
Lemma save_notification_typed n : NotificationRecord.valid n = true -> records_typed (save_notification r n).
Proof. intros Hn. keep_types Hr. Qed.
Lemma save_action_typed a : ActionDispatchRecord.valid a = true -> records_typed (save_action_dispatch r a).
Proof. intros Ha. keep_types Hr. Qed.
Lemma save_change_typed c : ChangeRecord.valid c = true -> records_typed (save_change_record r c).
Proof. intros Hc. keep_types Hr. Qed.
Lemma save_onboarding_typed c : ProviderOnboardingRecord.valid c = true -> records_typed (save_provider_onboarding r c).
Proof. intros Hc. keep_types Hr. Qed.
Lemma save_control_typed c : RuntimeControlChange.valid c = true -> records_typed (save_runtime_control_change r c).
Proof. intros Hc. keep_types Hr. Qed.
Lemma save_platform_typed c :
  PlatformRuntimeControlChange.valid c = true -> records_typed (save_platform_control_change r c).
Proof. intros Hc. keep_types Hr. Qed.
Lemma save_upload_typed u : OriginalUploadRecord.valid u = true -> records_typed (save_original_upload r u).
Proof. intros Hu. keep_types Hr. Qed.
Lemma save_hold_typed h : LegalHoldRecord.valid h = true -> records_typed (save_legal_hold r h).
Proof. intros Hh. keep_types Hr. Qed.
Lemma save_deletion_typed q : DeletionRequest.valid q = true -> records_typed (save_deletion_request r q).
Proof. intros Hq. keep_types Hr. Qed.
Lemma erase_typed tenant traveler scope : records_typed (erase_traveler_data r tenant traveler scope).2.
Proof. unfold erase_traveler_data, delete_traveler_memory. simpl. destruct (scope == _); keep_types Hr. Qed.
Lemma purge_typed before uploads audit now counts r' :
  purge_expired r before uploads audit now = Ok (counts, r') -> records_typed r'.
Proof.
  unfold purge_expired. intros E. apply res_bind_ok in E as (holds & _ & E). apply res_bind_ok in E as (cs & _ & E).
  apply Ok_inj in E. injection E as _ <-. unfold purge. cbv zeta. keep_types Hr.
Qed.

Lemma claim_idempotency_typed tenant key scope hash expires now :
  records_typed (claim_idempotency r tenant key scope hash expires now).2.
Proof.
  unfold claim_idempotency. set (expired := match dict_get _ _ with Some _ => _ | None => false end).
  set (r1 := if expired then _ else r).
  assert (H1 : records_typed r1) by (subst r1; destruct expired; [keep_types Hr|done]).
  clearbody r1. destruct (if expired then None else _) as [e|].
  - destruct (_ || _); [done|]. by destruct (IdempotencyRecord.state e == _).
  - destruct (construct _ _ _) as [record|] eqn:E; [|done]. apply construct_ok in E as [-> Hv]. simpl. keep_types H1.
Qed.

Lemma complete_idempotency_typed tenant key hash code payload now record r' : 100 <= code <= 599 ->
  complete_idempotency r tenant key hash code payload now = Ok (record, r') -> records_typed r'.
Proof.
  unfold complete_idempotency. intros Hcode E. destruct (dict_get (tenant, key) _) as [old|] eqn:Hg; [|done].
  pose proof (stored_get _ _ _ _ (idempotency_typed r Hr) Hg) as Hv.
  destruct (_ != _); [done|]. apply Ok_inj in E. injection E as _ <-. keep_types Hr.
  unfold typed_as, IdempotencyRecord.valid in *. conjuncts. simpl. conjuncts; apply Z.leb_le; lia.
Qed.

End Writes.

(** ** Updates of a record *)

Lemma construct_valid {A} name valid (x y : A) : construct name valid x = Ok y -> valid y = true.
Proof. by intros [-> ?]%construct_ok. Qed.

Lemma assigned_trip_valid trip manager : Trip.valid trip = true -> len_in 1 128 manager = true ->
  Trip.valid (trip <| Trip.assigned_manager_id := Some manager |>) = true.
Proof.
  unfold Trip.valid, TripCreate.valid. intros Ht Hm. conjuncts. by apply andb_true_iff in Hm as [_ Hm].
Qed.

(** claimed with a worker's name of at most 128 characters *)
Definition worker_fits (worker : string) : Prop := (str_len worker <=? 128) = true.

Lemma leased_notification_valid id worker t e n : worker_fits worker ->
  NotificationRecord.valid n = true -> NotificationRecord.valid (set_lease id worker t e n) = true.
Proof. unfold NotificationRecord.valid. intros Hw Hn. conjuncts. Qed.
Lemma leased_action_valid id worker t e a : worker_fits worker ->
  ActionDispatchRecord.valid a = true -> ActionDispatchRecord.valid (set_lease id worker t e a) = true.
Proof. unfold ActionDispatchRecord.valid. intros Hw Ha. conjuncts. Qed.
Lemma cleared_notification_valid n :
  NotificationRecord.valid n = true -> NotificationRecord.valid (clear_lease n) = true.
Proof. unfold NotificationRecord.valid. intros Hn. conjuncts. done. Qed.
Lemma cleared_action_valid a :
  ActionDispatchRecord.valid a = true -> ActionDispatchRecord.valid (clear_lease a) = true.
Proof. unfold ActionDispatchRecord.valid. intros Ha. conjuncts. done. Qed.

(** ** The outboxes *)

Section Outboxes.
Variable r : repo.
Hypothesis Hr : records_typed r.

Lemma claim_notifications_typed tenant worker ttl now limit fresh c r' : worker_fits worker ->
  claim_due_notifications r tenant worker ttl now limit fresh = (c, r') ->
  listed (typed_as NotificationRecord.valid) c /\ records_typed r'.
Proof.
  unfold claim_due_notifications. intros Hw. destruct (claim_due _ _ _ _ _ _ _ _) as [c' d] eqn:E. intros [= <- <-].
  destruct (stored_claim_due (typed_as NotificationRecord.valid) _ _ _ _ _ _
    (fun id t e x => leased_notification_valid id worker t e x Hw) _ _ _ _ E (notifications_typed r Hr)) as [Hc Hd].
  split; [done|]. keep_types Hr.
Qed.

Lemma claim_actions_typed tenant worker ttl now limit fresh c r' : worker_fits worker ->
  claim_due_action_dispatches r tenant worker ttl now limit fresh = (c, r') ->
  listed (typed_as ActionDispatchRecord.valid) c /\ records_typed r'.
Proof.
  unfold claim_due_action_dispatches. intros Hw. destruct (claim_due _ _ _ _ _ _ _ _) as [c' d] eqn:E. intros [= <- <-].
  destruct (stored_claim_due (typed_as ActionDispatchRecord.valid) _ _ _ _ _ _
    (fun id t e x => leased_action_valid id worker t e x Hw) _ _ _ _ E (actions_typed r Hr)) as [Hc Hd].
  split; [done|]. keep_types Hr.
Qed.

Lemma complete_notification_typed n a claim :
  NotificationRecord.valid n = true -> NotificationAttempt.valid a = true ->
  records_typed (complete_notification_delivery r n a claim).2.
Proof.
  intros Hn Ha. unfold complete_notification_delivery. destruct (lease_held _ _ _); [|done]. simpl. keep_types Hr.
  by apply cleared_notification_valid.
Qed.
Lemma complete_action_typed x a claim :
  ActionDispatchRecord.valid x = true -> ActionDispatchAttempt.valid a = true ->
  records_typed (complete_action_dispatch r x a claim).2.
Proof.
  intros Hn Ha. unfold complete_action_dispatch. destruct (lease_held _ _ _); [|done]. simpl. keep_types Hr.
  by apply cleared_action_valid.
Qed.
Lemma notification_attempt_typed n a : NotificationRecord.valid n = true -> NotificationAttempt.valid a = true ->
  records_typed (record_notification_attempt (save_notification r n) a).
Proof. intros Hn Ha. keep_types Hr. Qed.
Lemma action_attempt_typed x a : ActionDispatchRecord.valid x = true -> ActionDispatchAttempt.valid a = true ->
  records_typed (record_action_dispatch_attempt (save_action_dispatch r x) a).
Proof. intros Hn Ha. keep_types Hr. Qed.

End Outboxes.

(** the attempt that is constructed bounds the record's new count and error code *)
Lemma delivered_valid n result max_attempts now id n' outcome a :
  NotificationRecord.valid n = true -> Notifications.record_result n result max_attempts now = (n', outcome) ->
  construct "NotificationAttempt" NotificationAttempt.valid
    (NotificationAttempt.mk id (NotificationRecord.notification_id n') (NotificationRecord.attempt_count n') now
       outcome (DeliveryResult.provider_message_reference result) (DeliveryResult.error_code result)) = Ok a ->
  NotificationRecord.valid n' = true /\ NotificationAttempt.valid a = true.
Proof.
  intros Hn E Ha. pose proof (construct_valid _ _ _ _ Ha) as Hv. split; [|done].
  apply construct_ok in Ha as [-> _]. unfold NotificationAttempt.valid in Hv. unfold NotificationRecord.valid in *.
  simpl in Hv. conj_hyps.
  assert (Herr : opt_max 128 (Some (Notifications.or_str (DeliveryResult.error_code result) "delivery_failed")) = true).
  { unfold Notifications.or_str. destruct (DeliveryResult.error_code result) as [x|]; [|done]. by destruct (truthy_str x). }
  unfold Notifications.record_result in E.
  destruct (DeliveryResult.delivered result); [|destruct (max_attempts <=? _)]; injection E as <- _; conjuncts;
    try done; apply Z.leb_le; simpl; bool_hyps; lia.
Qed.

Lemma dispatched_valid x result max_attempts now id x' outcome a :
  ActionDispatchRecord.valid x = true -> Actions.record_result x result max_attempts now = (x', outcome) ->
  construct "ActionDispatchAttempt" ActionDispatchAttempt.valid
    (ActionDispatchAttempt.mk id (ActionDispatchRecord.action_dispatch_id x') (ActionDispatchRecord.attempt_count x') now
       outcome (ActionDispatchResult.external_reference result) (ActionDispatchResult.error_code result)) = Ok a ->
  ActionDispatchRecord.valid x' = true /\ ActionDispatchAttempt.valid a = true.
Proof.
  intros Hn E Ha. pose proof (construct_valid _ _ _ _ Ha) as Hv. split; [|done].
  apply construct_ok in Ha as [-> _]. unfold ActionDispatchAttempt.valid in Hv. unfold ActionDispatchRecord.valid in *.
  simpl in Hv. conj_hyps.
  assert (Herr : opt_max 128 (Some (Actions.error_or_default result)) = true).
  { unfold Actions.error_or_default. destruct (ActionDispatchResult.error_code result) as [e|]; [|done].
    by destruct (truthy_str e). }
  unfold Actions.record_result in E.
  destruct (ActionDispatchResult.dispatched result); [|destruct (max_attempts <=? _)]; injection E as <- _; conjuncts;
    try done; apply Z.leb_le; simpl; bool_hyps; lia.
Qed.

Section Delivery.
Variable r : repo.
Hypothesis Hr : records_typed r.

Lemma deliver_typed n sender max_attempts now id : NotificationRecord.valid n = true ->
  let '(outcome, r') := deliver_notification r n sender max_attempts now id in
  records_typed r' /\ forall x, outcome = Ok x -> NotificationRecord.valid x = true.
Proof.
  intros Hn. unfold deliver_notification. destruct (deliverable n now); simpl; [|split; [done|by intros x [= <-]]].
  destruct (Notifications.record_result _ _ _ _) as [n' outcome] eqn:E.
  destruct (construct _ _ _) as [a|e] eqn:Ec; [|by split].
  destruct (delivered_valid _ _ _ _ _ _ _ _ Hn E Ec) as [Hn' Ha].
  destruct (NotificationRecord.dispatch_claim_id n) as [claim|]; [|by split; [apply notification_attempt_typed|intros x [= <-]]].
  pose proof (complete_notification_typed r Hr n' a claim Hn' Ha) as Hk. unfold complete_notification_delivery in *.
  destruct (lease_held _ _ _); (split; [exact Hk|]); intros x [= <-]; [by apply cleared_notification_valid|done].
Qed.

Lemma dispatch_typed x sender max_attempts now id : ActionDispatchRecord.valid x = true ->
  let '(outcome, r') := dispatch_approved_action r x sender max_attempts now id in
  records_typed r' /\ forall y, outcome = Ok y -> ActionDispatchRecord.valid y = true.
Proof.
  intros Hn. unfold dispatch_approved_action. destruct (dispatchable x now); simpl; [|split; [done|by intros y [= <-]]].
  destruct (Actions.record_result _ _ _ _) as [x' outcome] eqn:E.
  destruct (construct _ _ _) as [a|e] eqn:Ec; [|by split].
  destruct (dispatched_valid _ _ _ _ _ _ _ _ Hn E Ec) as [Hn' Ha].
  destruct (ActionDispatchRecord.dispatch_claim_id x) as [claim|]; [|by split; [apply action_attempt_typed|intros y [= <-]]].
  pose proof (complete_action_typed r Hr x' a claim Hn' Ha) as Hk. unfold complete_action_dispatch in *.
  destruct (lease_held _ _ _); (split; [exact Hk|]); intros y [= <-]; [by apply cleared_action_valid|done].
Qed.

End Delivery.

(** ** The jobs *)

Lemma processed_valid q status completed holds : DeletionRequest.valid q = true ->
  DeletionRequest.valid (q <| DeletionRequest.status := status |> <| DeletionRequest.completed_at := completed |>
    <| DeletionRequest.blocked_by_hold_ids := holds |> <| DeletionRequest.failure_code := None |>) = true.
Proof. unfold DeletionRequest.valid. intros Hq. conjuncts. done. Qed.

Lemma process_request_typed r now request processed r' : records_typed r -> DeletionRequest.valid request = true ->
  process_request r now request = Ok (processed, r') -> records_typed r'.
Proof.
  unfold process_request. intros Hr Hq E. apply res_bind_ok in E as (holds & _ & E). apply Ok_inj in E. destruct holds.
  - pose proof (erase_typed r Hr (DeletionRequest.tenant_id request) (DeletionRequest.traveler_id request)
                  (DeletionRequest.scope request)) as Hk.
    destruct (erase_traveler_data _ _ _ _) as [deleted r1]. injection E as _ <-.
    apply save_deletion_typed; [done|]. by apply processed_valid.
  - injection E as _ <-. apply save_deletion_typed; [done|]. by apply (processed_valid request _ (DeletionRequest.completed_at request)).
Qed.

Lemma process_requests_typed now requests : forall r, records_typed r -> listed (typed_as DeletionRequest.valid) requests ->
  records_typed (process_requests r now requests).2.
Proof.
  induction requests as [|request requests IH]; intros r Hr Hq; simpl; [done|].
  destruct (process_request r now request) as [[processed r']|] eqn:E; [|done].
  assert (H1 : DeletionRequest.valid request = true) by (apply Hq; by left).
  specialize (IH r' (process_request_typed _ _ _ _ _ Hr H1 E) (fun x Hin => Hq x (or_intror Hin))).
  by destruct (process_requests r' now requests).
Qed.

Lemma deletions_processed_typed r now : records_typed r -> records_typed (process_due_deletion_requests r now).2.
Proof.
  intros Hr. unfold process_due_deletion_requests. destruct (list_pending_deletion_requests r) as [l|] eqn:E; [|done].
  apply process_requests_typed; [done|]. unfold list_pending_deletion_requests, sort_requests, dt_sorted in E.
  destruct (_ && _); [done|]. apply Ok_inj in E as <-. intros q [Hin _]%sorted_in%filter_In. by apply (deletions_typed r Hr).
Qed.

Lemma retention_typed r days uploads audit t t' counts r' : records_typed r ->
  run_retention r days uploads audit t t' = Ok (counts, r') -> records_typed r'.
Proof.
  intros Hr. unfold run_retention. destruct (_ <? 1); [done|].
  destruct (purge_expired _ _ _ _ _) as [[c r1]|] eqn:E; [|done]. intros [= <- <-]. by eapply purge_typed.
Qed.

(** ** What the services compute *)

Lemma evaluated_valid c m e : evaluate_candidate c m = Ok e -> EvaluatedCandidate.valid e = true.
Proof. by intros (_ & _ & _ & _ & Hv)%evaluate_candidate_ok. Qed.

Lemma policy_evaluated_valid c p e : evaluate_policy_eligible_candidate c p = Ok e -> EvaluatedCandidate.valid e = true.
Proof.
  unfold evaluate_policy_eligible_candidate. intros E. apply res_bind_ok in E as (e0 & He%evaluated_valid & E).
  unfold EvaluatedCandidate.valid in *. conj_hyps.
  destruct (negb _); apply Ok_inj in E as <-; conjuncts; done.
Qed.

Lemma traveler_minimum_valid e m :
  EvaluatedCandidate.valid e = true -> EvaluatedCandidate.valid (apply_traveler_minimum_connection e m) = true.
Proof.
  unfold apply_traveler_minimum_connection. intros He. destruct m as [m|]; [|done].
  destruct (_ || _ || _); [done|]. unfold EvaluatedCandidate.valid in *. conjuncts. done.
Qed.

Lemma displayed_positive ranked k v :
  (forall c, In c ranked -> exists n, EvaluatedCandidate.displayed_position c = Some n /\ 1 <= n) ->
  dict_get k (displayed_positions ranked) = Some v -> exists n, v = Some n /\ 1 <= n.
Proof.
  unfold displayed_positions. intros Hc.
  assert (Hs : stored (fun v => exists n, v = Some n /\ 1 <= n) ([] : dict string (option Z))) by apply stored_nil.
  revert Hs Hc. generalize ([] : dict string (option Z)). induction ranked as [|c ranked IH]; intros d Hd Hc; simpl.
  - intros Hg. exact (stored_get _ d k v Hd Hg).
  - apply IH; [|by intros c' Hin; apply Hc; right]. apply stored_set; [|done]. by apply Hc; left.
Qed.

Lemma enumerate_from {A} n (l : list A) i x : In (i, x) (enumerate n l) -> n <= i.
Proof.
  revert n. induction l as [|y l IH]; intros n; simpl; [done|].
  intros [[= <- _]|Hin]; [lia|]. specialize (IH _ Hin). lia.
Qed.

Lemma ranked_positive cs c : In c (rank_eligible cs) ->
  exists n, EvaluatedCandidate.displayed_position c = Some n /\ 1 <= n.
Proof.
  unfold rank_eligible. intros ([n x] & <- & Hin)%in_map_iff. exists n. split; [done|]. by eapply enumerate_from.
Qed.

(** the positions written on the evaluated candidates are those of the ranking *)
Lemma positioned_valid cs (l : list EvaluatedCandidate.t) : forallb EvaluatedCandidate.valid l = true ->
  forallb EvaluatedCandidate.valid (List.map (fun c => c <| EvaluatedCandidate.displayed_position :=
    default None (dict_get (EvaluatedCandidate.candidate_id c) (displayed_positions (rank_eligible cs))) |>) l) = true.
Proof.
  rewrite !forallb_forall. intros Hl x (c & <- & Hin)%in_map_iff. specialize (Hl c Hin).
  unfold EvaluatedCandidate.valid in *. conjuncts. simpl.
  destruct (dict_get _ _) as [v|] eqn:E; [|done].
  destruct (displayed_positive _ _ _ (ranked_positive cs) E) as (n & -> & Hn). by apply Z.leb_le.
Qed.

Lemma mapM_valid {A B} (f : A -> res B) (valid : B -> bool) l k :
  (forall x y, f x = Ok y -> valid y = true) -> mapM f l = Ok k -> forallb valid k = true.
Proof.
  intros Hf Hm%mapM_res_Forall2. induction Hm as [|x y l k Hxy _ IH]; [done|]. simpl. by rewrite (Hf x y Hxy).
Qed.

(** *** The workflow's candidates *)

Section Workflow.
Context `{Repr} {client : ModelClient} (p : OpenAIRecommendationProvider.t) (rec_id : uuid) (now : instant).

Definition candidates_valid (s : state) : Prop :=
  forallb EvaluatedCandidate.valid (RouteRiskState.alternative_candidates s) = true.

Lemma assistant_candidates s :
  RouteRiskState.alternative_candidates (react_assistant p s) = RouteRiskState.alternative_candidates s.
Proof. unfold react_assistant, follow_up. by repeat case_match. Qed.

Lemma tool_candidates s :
  RouteRiskState.alternative_candidates (run_read_only_tool s) = RouteRiskState.alternative_candidates s.
Proof. unfold run_read_only_tool. by repeat case_match. Qed.

Lemma validate_candidates s :
  RouteRiskState.alternative_candidates (validate_recommendation p rec_id now s) =
  RouteRiskState.alternative_candidates s.
Proof. unfold validate_recommendation. cbv zeta. destruct (if _ && _ then _ else _) as [x audit]. done. Qed.

Lemma verified_candidates s s' : verify_alternative_eligibility s = Ok s' -> candidates_valid s'.
Proof.
  unfold verify_alternative_eligibility. intros E. apply res_bind_ok in E as (l & Hl & E). apply Ok_inj in E as <-.
  refine (mapM_valid _ _ _ _ _ Hl). intros x y E. apply res_bind_ok in E as (e & He & E). apply Ok_inj in E as <-.
  by eapply traveler_minimum_valid, policy_evaluated_valid.
Qed.

Lemma attached_candidates s s' : attach_recovery_ranking s = Ok s' ->
  RouteRiskState.alternative_candidates s' = RouteRiskState.alternative_candidates s.
Proof. unfold attach_recovery_ranking. intros E. repeat (case_match; try done). all: by apply Ok_inj in E as <-. Qed.

Lemma step_candidates n s : candidates_valid s ->
  match step p rec_id now n s with
  | Ok (Goto _ s') | Ok (Interrupt _ s') | Ok (Done s') => candidates_valid s'
  | Raise _ => True
  end.
Proof.
  intros Hs. destruct n; cbn [step].
  - exact Hs.
  - unfold candidates_valid in *. by rewrite assistant_candidates.
  - unfold candidates_valid in *. by rewrite tool_candidates.
  - unfold candidates_valid in *. by rewrite validate_candidates.
  - destruct (verify_alternative_eligibility s) as [s'|] eqn:E; simpl; [|done]. by eapply verified_candidates.
  - exact (positioned_valid (RouteRiskState.alternative_candidates s) (RouteRiskState.alternative_candidates s) Hs).
  - destruct (attach_recovery_ranking s) as [s'|] eqn:E; simpl; [|done].
    unfold candidates_valid in *. by rewrite (attached_candidates _ _ E).
  - exact Hs.
  - exact Hs.
  - exact Hs.
  - exact Hs.
Qed.

Lemma run_candidates fuel : forall n s, candidates_valid s ->
  match run_from p rec_id now fuel n s with
  | Interrupted _ s' | Finished s' => candidates_valid s'
  | _ => True
  end.
Proof.
  induction fuel as [|fuel IH]; intros n s Hs; simpl; [done|].
  pose proof (step_candidates n s Hs) as Hstep.
  destruct (step p rec_id now n s) as [[n' s'|payload s'|s']|e]; [by apply IH|done..].
Qed.

End Workflow.

(** *** Evidence *)

(** every item in the cache of the live collector *)
Definition cache_typed (cache : ProviderCache) : Prop := stored (typed_as EvidenceEnvelope.valid) cache.

Lemma fetch_typed getenv http self cache id c tenant key correlation enabled : cache_typed cache ->
  let f := JsonHttpProvider.fetch getenv http self cache id c tenant key correlation enabled in
  (forall item, JsonHttpProvider.result f = Ok item -> EvidenceEnvelope.valid item = true) /\
  (forall item, JsonHttpProvider.stored f = Some item -> EvidenceEnvelope.valid item = true).
Proof.
  intros Hc. cbv zeta. unfold JsonHttpProvider.fetch.
  destruct (cache_get cache _ _) as [[cached|]|e] eqn:Eg; simpl.
  - split; [|done]. intros item [= <-]. unfold cache_get in Eg.
    destruct (dict_get _ cache) as [x|] eqn:Ed; [|done]. pose proof (stored_get _ _ _ _ Hc Ed) as Hx.
    apply res_bind_ok in Eg as (b & _ & Eg). apply Ok_inj in Eg. destruct b; [|done]. injection Eg as <-. exact Hx.
  - destruct (CircuitBreaker.open _); simpl; [split; [intros item; apply construct_valid|done]|].
    destruct (negb _); simpl; [split; [intros item; apply construct_valid|done]|].
    destruct (negb _); simpl; [split; [intros item; apply construct_valid|done]|].
    destruct (JsonHttpProvider.try_fetch _ _ _ _ _) as [item|cls|e] eqn:Et; simpl.
    + assert (Hv : EvidenceEnvelope.valid item = true).
      { unfold JsonHttpProvider.try_fetch in Et. repeat (case_match; try done). simplify_eq. by eapply construct_valid. }
      split; by intros ? [= <-].
    + split; [intros item; apply construct_valid|done].
    + done.
  - done.
Qed.

Lemma fetches_typed getenv http fresh clock tenant key correlation enabled ps cache : cache_typed cache ->
  forall f, In f (fetches getenv http fresh clock tenant key correlation enabled ps cache) ->
    (forall item, JsonHttpProvider.result f.2 = Ok item -> EvidenceEnvelope.valid item = true) /\
    (forall item, JsonHttpProvider.stored f.2 = Some item -> EvidenceEnvelope.valid item = true).
Proof. intros Hc f ([i [flag p]] & <- & _)%in_map_iff. by apply fetch_typed. Qed.

Lemma stores_typed tenant key order fs : forall cache, cache_typed cache ->
  (forall f, In f fs -> forall item, JsonHttpProvider.stored f.2 = Some item -> EvidenceEnvelope.valid item = true) ->
  cache_typed (stores tenant key order fs cache).
Proof.
  unfold stores. induction order as [|i order IH]; intros cache Hc Hf; simpl; [done|]. apply IH; [|done].
  destruct (fs !! i) as [[[flag p] f]|] eqn:El; [|done]. unfold JsonHttpProvider.store.
  destruct (JsonHttpProvider.stored f) as [item|] eqn:Es; [|done]. apply stored_set; [|done].
  apply (Hf (flag, p, f)); [|done]. apply list_elem_of_In. by eapply list_elem_of_lookup_2.
Qed.

Lemma collect_typed getenv http fresh clock order now trip correlation enabled ps cache items ps' cache' :
  cache_typed cache ->
  collect getenv http fresh clock order now trip correlation enabled ps cache = (items, (ps', cache')) ->
  cache_typed cache' /\ forall l, items = Ok l -> listed (typed_as EvidenceEnvelope.valid) l.
Proof.
  unfold collect. intros Hc. destruct (Trip.segments trip) as [|first rest]; [intros [= <- _ <-]; done|]. cbv zeta.
  set (fs := fetches _ _ _ _ _ _ _ _ _ _). intros E.
  pose proof (f_equal fst E) as Ei. pose proof (f_equal (fun x => x.2.2) E) as Ec. cbn [fst snd] in Ei, Ec.
  subst cache'. clear E.
  pose proof (fetches_typed getenv http fresh clock (Trip.tenant_id trip) (cache_key_for first trip) correlation enabled ps
    cache Hc) as Hf. fold fs in Hf. split; [apply stores_typed; [done|]; intros f Hin; by apply Hf|].
  intros l ->. apply res_bind_ok in Ei as (found & Hm & Ei). apply res_bind_ok in Ei as (connection & Hv & Ei).
  apply Ok_inj in Ei as <-. apply listed_snoc; [|by eapply construct_valid].
  apply mapM_res_Forall2 in Hm. clear -Hm Hf. induction Hm as [|f x fs' l Hfx _ IH]; [apply listed_nil|].
  intros y [<-|Hin]; [exact (proj1 (Hf f (or_introl eq_refl)) x Hfx)|].
  apply IH; [|done]. intros f' Hin'. apply Hf. by right.
Qed.

(** *** Fallback recommendations and assessments *)

Lemma drafted_valid i x : Recommendation.valid x = true -> incident_valid i = true ->
  incident_valid (i <| Incident.recommendation := Some x |>) = true.
Proof. unfold incident_valid. intros Hx [_ Hi]%andb_true_iff. by apply andb_true_iff. Qed.

Lemma investigated_valid id now i evidence i' :
  investigate id now i evidence = Ok i' -> incident_valid i = true -> incident_valid i' = true.
Proof.
  unfold investigate. intros E Hi. apply res_bind_ok in E as (x & Hx%construct_valid & E). apply Ok_inj in E as <-.
  exact (drafted_valid i x Hx Hi).
Qed.

Lemma limited_valid id now i evidence i' :
  create_limited_visibility_incident id now i evidence = Ok i' -> incident_valid i = true -> incident_valid i' = true.
Proof.
  unfold create_limited_visibility_incident. intros E Hi. apply res_bind_ok in E as (x & Hx%construct_valid & E).
  apply Ok_inj in E as <-. exact (drafted_valid i x Hx Hi).
Qed.
