(* ===== verification/HandlerTypes.v ===== *)
(** * Every handler keeps the stored records typed

    [typed Q m]: from a state whose records and cached evidence satisfy their
    models, [m] reaches such a state, also when it raises, and a value it returns
    has [Q].  One rule per operation of the monad, then one lemma per helper, then
    every route and job. *)

From stdpp Require Import relations.
From S2P Require Import Prelude PyData Float64 PyStd Enums Models RiskEngine Recovery Policies Security.
From S2P Require Import Repository Notifications Actions OpenAI Graph Providers Assessment Config Idempotency Workers.
From S2P Require Import Ingestion ApiCore ApiLogic Samples ApiTrips ApiIncidents ApiRecovery ApiMemory ApiPrivacy.
From S2P Require Import ApiNotifications ApiGovernance ApiIngestion Service StoredTypes.

(** ** Rules *)

Definition typed_world (w : World.t) : Prop :=
  records_typed (World.store w) /\ cache_typed (World.cache w).

Definition typed {A} (Q : A -> Prop) (m : API A) : Prop :=
  forall w, typed_world w -> typed_world (m w).2 /\ forall a, (m w).1 = Ok a -> Q a.

Definition any {A} : A -> Prop := fun _ => True.

Section Rules.
Context `{Env}.

Lemma typed_weaken {A} (Q R : A -> Prop) m : typed Q m -> (forall a, Q a -> R a) -> typed R m.
Proof. intros Hm HR w Hw. destruct (Hm w Hw) as [H1 H2]. split; [done|]. intros a E. by apply HR, H2. Qed.

Lemma typed_bind {A B} (Q : A -> Prop) (R : B -> Prop) (m : API A) (f : A -> API B) :
  typed Q m -> (forall a, Q a -> typed R (f a)) -> typed R (m ≫= f).
Proof.
  intros Hm Hf w Hw. rewrite M_bind_unfold. destruct (Hm w Hw) as [H1 H2].
  destruct (m w) as [[a|e] w']; [|by split]. exact (Hf a (H2 a eq_refl) w' H1).
Qed.

(** an operation that leaves store and cache alone, with what it returned *)
Lemma typed_pure {A} (Q : A -> Prop) (m : API A) :
  (forall w, World.store (m w).2 = World.store w /\ World.cache (m w).2 = World.cache w) ->
  (forall w a, typed_world w -> (m w).1 = Ok a -> Q a) -> typed Q m.
Proof.
  intros Hm HQ w Hw. destruct (Hm w) as [Hs Hc]. split; [|by intros a; apply HQ].
  unfold typed_world. by rewrite Hs, Hc.
Qed.

Lemma typed_ret {A} (Q : A -> Prop) a : Q a -> typed Q (mret a).
Proof. intros Ha. apply typed_pure; [done|]. by intros w x _ [= <-]. Qed.
Lemma typed_raise {A} (Q : A -> Prop) e : typed Q (raise e : API A).
Proof. by apply typed_pure. Qed.
Lemma typed_http_error {A} (Q : A -> Prop) code detail : typed Q (http_error code detail : API A).
Proof. apply typed_raise. Qed.
Lemma typed_guard b e : typed (fun _ => b = false) (raise_if b e).
Proof. apply typed_pure; [by destruct b|]. by destruct b. Qed.
Lemma typed_lift {A} (r : res A) : typed (fun a => r = Ok a) (lift_res r).
Proof. by apply typed_pure. Qed.
Lemma typed_gets {A} (f : World.t -> A) : typed any (gets f).
Proof. by apply typed_pure. Qed.
Lemma typed_ask {A} (f : repo -> A) : typed (fun a => exists r, records_typed r /\ a = f r) (ask f).
Proof. apply typed_pure; [done|]. intros w a [Hw _] [= <-]. by exists (World.store w). Qed.
Lemma typed_found {A} (o : option A) detail : typed (fun a => o = Some a) (found o detail).
Proof. destruct o as [x|]; [by apply typed_ret|apply typed_raise]. Qed.
Lemma typed_now : typed any now.
Proof. by apply typed_pure. Qed.
Lemma typed_uuid4 : typed any uuid4.
Proof. by apply typed_pure. Qed.

Lemma typed_put f : (forall r, records_typed r -> records_typed (f r)) -> typed any (put f).
Proof. intros Hf w [Hs Hc]. split; [|done]. split; [by apply Hf|done]. Qed.
Lemma typed_try_put f : (forall r r', records_typed r -> f r = Ok r' -> records_typed r') -> typed any (try_put f).
Proof.
  intros Hf w [Hs Hc]. unfold try_put. destruct (f (World.store w)) as [r'|] eqn:E; [|by split].
  split; [|done]. split; [by eapply Hf|done].
Qed.
Lemma typed_put_get {A} (Q : A -> Prop) (f : repo -> res A * repo) :
  (forall r, records_typed r -> records_typed (f r).2 /\ forall a, (f r).1 = Ok a -> Q a) -> typed Q (put_get f).
Proof.
  intros Hf w [Hs Hc]. unfold put_get. specialize (Hf _ Hs). destruct (f (World.store w)) as [a r'].
  destruct Hf as [H1 H2]. by split.
Qed.

Lemma typed_catch {A} (Q : A -> Prop) (m : API A) h : typed Q m -> (forall e, typed Q (h e)) -> typed Q (catch m h).
Proof.
  intros Hm Hh w Hw. unfold catch. destruct (Hm w Hw) as [H1 H2].
  destruct (m w) as [[a|e] w']; [by split|]. by apply Hh.
Qed.

Lemma typed_for_each {A} (l : list A) body : (forall x, In x l -> typed any (body x)) -> typed any (for_each l body).
Proof.
  induction l as [|x l IH]; intros Hb; simpl; [by apply typed_ret|].
  apply (typed_bind any); [by apply Hb; left|]. intros _ _. apply IH. intros y Hin. apply Hb. by right.
Qed.

Lemma typed_fold_each {A B} (l : list A) (body : B -> A -> API B) :
  (forall acc x, In x l -> typed any (body acc x)) -> forall acc, typed any (fold_each l acc body).
Proof.
  induction l as [|x l IH]; intros Hb acc; simpl; [by apply typed_ret|].
  apply (typed_bind any); [by apply Hb; left|]. intros acc' _. apply IH. intros acc'' y Hin. apply Hb. by right.
Qed.

End Rules.

#[export] Hint Resolve typed_raise typed_http_error typed_guard typed_lift typed_gets typed_ask typed_found typed_now
  typed_uuid4 : typed.

(** One step per operation: a bind takes the postcondition of its first operation
    from the hints, or none; matches on data are split. *)
Ltac typed_any := solve [eauto 2 with typed nocore | eapply typed_weaken; [eauto 2 with typed nocore|done]].
Ltac typed_step :=
  match goal with
  | |- forall _, _ => intro
  | |- any _ => exact I
  | |- typed _ (_ ≫= _) => eapply typed_bind; [solve [eauto 2 with typed nocore]|cbv beta]
  | |- typed _ (_ ≫= _) => apply (typed_bind any)
  | |- typed _ (for_each _ _) => apply typed_for_each
  | |- typed _ (fold_each _ _ _) => apply typed_fold_each
  | |- typed _ (catch _ _) => apply typed_catch
  | |- typed _ (match ?x with _ => _ end) => destruct x eqn:?
  | |- typed _ ((match ?x with _ => _ end) _) => destruct x eqn:?
  | |- typed any (mret _) => by apply typed_ret
  | |- typed _ _ => typed_any
  end.
Ltac types := repeat typed_step.

(** ** Helpers *)

Section Helpers.
Context `{Env}.

Lemma typed_replayed {A} `{Validate A} (Q : A -> Prop) record : (forall a, Q a) -> typed Q (replayed record : API A).
Proof. intros HQ. by apply typed_pure. Qed.
Lemma typed_require_tenant t : typed any (require_tenant t).
Proof. unfold require_tenant. types. Qed.
Lemma typed_require_role role allowed : typed any (require_role role allowed).
Proof. unfold require_role. types. Qed.
Lemma typed_require_actor_id a : typed (fun x => x = a) (require_actor_id a).
Proof. unfold require_actor_id. types. by apply typed_ret. Qed.
#[local] Hint Resolve typed_require_tenant typed_require_role typed_require_actor_id : typed.
Lemma typed_actor_matches a p : typed (fun x => x = p) (require_actor_matches_payload a p).
Proof.
  intros w Hw. split.
  - unfold require_actor_matches_payload, require_actor_id.
    destruct (_ && _); [done|]. run. destruct a as [a|]; [|done]. destruct (truthy_str a); [|done]. by destruct (a != p).
  - intros x E. destruct (require_actor_matches_payload a p w) as [o w'] eqn:Em. simpl in E. subst o.
    by destruct (require_actor_matches_payload_ok _ _ _ _ _ Em).
Qed.
Lemma typed_trip_access trip role a allowed : typed any (require_trip_access trip role a allowed).
Proof. unfold require_trip_access. types. Qed.

(** what is found in a typed store is typed *)
Lemma got_typed {A} (valid : A -> bool) tenant_of tenant (d : dict uuid A) id x :
  stored (typed_as valid) d -> of_tenant tenant_of tenant (dict_get id d) = Some x -> valid x = true.
Proof.
  unfold of_tenant. intros Hd. destruct (dict_get id d) as [y|] eqn:E; [|done]. destruct (_ == _); [|done].
  intros [= <-]. exact (stored_get _ d id y Hd E).
Qed.
Lemma got_trip r tenant id trip : records_typed r -> Repository.get_trip r tenant id = Some trip -> Trip.valid trip = true.
Proof. intros Hr. apply got_typed, (trips_typed r Hr). Qed.
Lemma got_incident r tenant id i :
  records_typed r -> Repository.get_incident r tenant id = Some i -> incident_valid i = true.
Proof. intros Hr. apply got_typed, (incidents_typed r Hr). Qed.

#[local] Hint Resolve typed_trip_access : typed.
Lemma typed_incident_access tenant id role a allowed :
  typed (fun x => incident_valid x.1 = true /\ Trip.valid x.2 = true)
    (require_incident_trip_access tenant id role a allowed).
Proof.
  unfold require_incident_trip_access. types. destruct H0 as (r & Hr & ->), H2 as (r' & Hr' & ->).
  apply typed_ret. split; [exact (got_incident _ _ _ _ Hr H1)|exact (got_trip _ _ _ _ Hr' H3)].
Qed.
Lemma typed_control_enabled tenant name : typed any (control_enabled tenant name).
Proof. unfold control_enabled. types. Qed.
#[local] Hint Resolve typed_control_enabled : typed.
Lemma typed_require_control tenant name detail : typed any (require_control tenant name detail).
Proof. unfold require_control. types. Qed.
Lemma typed_memory_reads tenant : typed any (require_memory_reads_enabled tenant).
Proof. apply typed_require_control. Qed.

Lemma typed_emit kind tenant trip correlation actor details : typed any (emit_event kind tenant trip correlation actor details).
Proof. unfold emit_event. types. apply typed_put. intros r Hr. by apply record_event_typed. Qed.

Lemma typed_claim tenant key scope payload : typed any (claim_mutation tenant key scope payload).
Proof.
  unfold claim_mutation. types. apply typed_put_get. intros r Hr. split; [by apply claim_idempotency_typed|done].
Qed.
Lemma typed_complete tenant key hash code payload : 100 <= code <= 599 ->
  typed any (complete_mutation tenant key hash code payload).
Proof.
  intros Hc. unfold complete_mutation. types. apply typed_try_put. intros r r' Hr E.
  apply res_bind_ok in E as ([rec r1] & E & E'). apply Ok_inj in E' as <-. by eapply complete_idempotency_typed.
Qed.
#[local] Hint Resolve typed_claim : typed.
Lemma typed_claim_optional tenant key scope payload : typed any (claim_optional_mutation tenant key scope payload).
Proof. unfold claim_optional_mutation. types. Qed.
Lemma typed_complete_optional tenant key hash code payload : 100 <= code <= 599 ->
  typed any (complete_optional_mutation tenant key hash code payload).
Proof. intros Hc. unfold complete_optional_mutation. types. by apply typed_complete. Qed.

End Helpers.

Lemma typed_replayed_any `{Env} {A} `{Validate A} record : typed any (replayed record : API A).
Proof. by apply typed_replayed. Qed.

#[export] Hint Resolve typed_replayed_any typed_require_tenant typed_require_role typed_require_actor_id typed_actor_matches
  typed_trip_access typed_incident_access typed_control_enabled typed_require_control typed_memory_reads typed_emit
  typed_claim typed_complete typed_claim_optional typed_complete_optional : typed.
#[export] Hint Extern 1 (100 <= _ <= 599) => lia : typed.

(** [put] of a record whose validity the last step established *)
Ltac typed_write :=
  match goal with
  | |- typed any (put _) => let r := fresh "r" in let Hr := fresh "Hr" in apply typed_put; intros r Hr
  | |- typed any (try_put _) => 
      let r := fresh "r" in let r' := fresh "r'" in let Hr := fresh "Hr" in apply typed_try_put; intros r r' Hr
  end.

(** ** Trips *)

(** pydantic's construction of what the workflow and a patch hand back is checked *)
Class Decodes `{Env} : Prop := {
  decodes_model_audit t d x : validate_model_audit t d = Ok x -> ModelInvocationAudit.valid x = true;
  decodes_recommendation id t d x : validate_graph_recommendation id t d = Ok x -> Recommendation.valid x = true;
  decodes_profile p patch x : TravelerPreferenceProfile.valid p = true -> patch_profile p patch = Ok x ->
    TravelerPreferenceProfile.valid x = true
}.

Section Handlers.
Context `{Env} `{!Decodes}.
Context `{!Dump TripCreate.t} `{!Validate TripCreate.t} `{!Dump Trip.t} `{!Validate Trip.t}
  `{!Dump TripAssignmentRequest.t} `{!Dump (list EvidenceEnvelope.t)} `{!Dump AssessmentResult.t}
  `{!Validate AssessmentResult.t} `{!Dump ApprovalRequest.t} `{!Dump ApprovalRecord.t}
  `{!Validate ApprovalRecord.t} `{!Dump RecoveryCandidateSet.t} `{!Validate RecoveryCandidateSet.t}
  `{!Dump RecoveryCandidateSetCreate.t} `{!Dump RecoveryCandidateOutcomeUpdate.t} `{!Dump EvaluatedCandidate.t}
  `{!Dump TravelerPreferenceProfile.t} `{!Validate TravelerPreferenceProfile.t}
  `{!Dump TravelerPreferenceUpdate.t} `{!Dump MemoryUpdateProposal.t} `{!Validate MemoryUpdateProposal.t}
  `{!Dump LegalHoldRecord.t} `{!Validate LegalHoldRecord.t} `{!Dump LegalHoldRelease.t}
  `{!Dump DeletionRequest.t} `{!Validate DeletionRequest.t} `{!Dump NotificationCreate.t}
  `{!Dump NotificationRecord.t} `{!Validate NotificationRecord.t} `{!Dump ChangeRecord.t}
  `{!Validate ChangeRecord.t} `{!Dump RuntimeControlUpdate.t} `{!Dump RuntimeControlChange.t}
  `{!Validate RuntimeControlChange.t} `{!Dump PlatformRuntimeControlChange.t}
  `{!Validate PlatformRuntimeControlChange.t} `{!Dump TenantPlaybookCreate.t} `{!Dump TenantPlaybook.t}
  `{!Validate TenantPlaybook.t} `{!Dump ProviderOnboardingRecord.t} `{!Validate ProviderOnboardingRecord.t}
  `{!Dump BookingWebhookEvent.t} `{!Validate BookingWebhookEvent.t}.

Lemma typed_create_trip p h : typed any (create_trip p h).
Proof.
  unfold create_trip. types. typed_write. apply create_trip_typed; [done|]. by eapply construct_valid.
Qed.

Lemma typed_get_trip id h : typed any (ApiTrips.get_trip id h).
Proof. unfold ApiTrips.get_trip. types. Qed.

(** a row of a typed store *)
Lemma asked {A} (f : repo -> option A) (valid : A -> bool) o x :
  (forall r y, records_typed r -> f r = Some y -> valid y = true) ->
  (exists r, records_typed r /\ o = f r) -> o = Some x -> valid x = true.
Proof. intros Hf (r & Hr & ->) E. exact (Hf r x Hr E). Qed.

Lemma asked_trip tenant id o trip :
  (exists r, records_typed r /\ o = Repository.get_trip r tenant id) -> o = Some trip -> Trip.valid trip = true.
Proof. apply (asked (fun r => Repository.get_trip r tenant id)). intros r y Hr. by apply got_trip. Qed.

Lemma typed_assign id p h : TripAssignmentRequest.valid p = true -> typed any (assign_trip_manager id p h).
Proof.
  intros Hp. unfold assign_trip_manager. types. typed_write.
  apply save_trip_typed; [done|]. apply assigned_trip_valid; [by eapply asked_trip|done].
Qed.

Lemma typed_put_evidence id p h : listed (typed_as EvidenceEnvelope.valid) p -> typed any (ApiTrips.put_evidence id p h).
Proof. intros Hp. unfold ApiTrips.put_evidence. types. typed_write. by apply save_evidence_typed. Qed.

(** *** Assessment *)

Lemma fixtures_typed scenario fresh t correlation l :
  collect_baseline scenario fresh t correlation = Ok l -> listed (typed_as EvidenceEnvelope.valid) l.
Proof.
  unfold collect_baseline. intros E x Hin.
  assert (Hl : forallb EvidenceEnvelope.valid l = true).
  { refine (mapM_valid _ _ _ _ _ E). intros [i [source score]] y. apply construct_valid. }
  exact (proj1 (forallb_forall _ _) Hl x Hin).
Qed.

Lemma typed_flags tenant flags : typed any (provider_flags tenant flags).
Proof. induction flags as [|f flags IH]; simpl; types; exact IH. Qed.

Lemma typed_live trip correlation : typed (listed (typed_as EvidenceEnvelope.valid)) (live_collect trip correlation).
Proof.
  unfold live_collect. apply (typed_bind any); [typed_any|]. intros ps _.
  apply (typed_bind any); [apply typed_flags|]. intros flags _ w [Hs Hc]. unfold live_fetches. cbv zeta.
  destruct (collect _ _ _ _ _ _ _ _ _ _ _) as [evidence [ps' cache']] eqn:E.
  destruct (collect_typed _ _ _ _ _ _ _ _ _ _ _ _ _ _ Hc E) as [Hc' Hl]. by split.
Qed.

Lemma typed_collect trip scenario correlation :
  typed (listed (typed_as EvidenceEnvelope.valid)) (collect_assessment_evidence trip scenario correlation).
Proof.
  unfold collect_assessment_evidence. destruct (_ || _); [|apply typed_live].
  apply (typed_bind any); [typed_any|]. intros n _. apply (typed_bind any); [by apply typed_pure|]. intros _ _.
  eapply typed_weaken; [apply typed_lift|]. intros l. apply fixtures_typed.
Qed.

Lemma typed_snapshot tenant trip scenario correlation :
  typed (listed (typed_as EvidenceEnvelope.valid)) (snapshot tenant trip scenario correlation).
Proof.
  unfold snapshot. eapply typed_bind; [apply typed_ask|]. cbv beta. intros stored0 (r & Hr & ->).
  destruct (get_evidence r tenant (Trip.trip_id trip)) as [|e l] eqn:E.
  - eapply typed_bind; [apply typed_collect|]. intros evidence He.
    apply (typed_bind any); [|by intros _ _; apply typed_ret]. typed_write. by apply save_evidence_typed.
  - apply typed_ret. rewrite <- E. unfold get_evidence. destruct (Repository.get_trip _ _ _); [|apply listed_nil].
    destruct (dict_get (Trip.trip_id trip) (Repo.evidence r)) as [l0|] eqn:El; [|apply listed_nil].
    exact (stored_get _ _ _ _ (evidence_typed r Hr) El).
Qed.

Lemma typed_invoke thread input : candidates_valid input ->
  typed (fun x => candidates_valid x.1) (graph_invoke thread input).
Proof.
  intros Hi w Hw. unfold graph_invoke. cbv zeta.
  pose proof (run_candidates model_provider (uuid_at (World.ticks w)) (clock_at (World.ticks w + 1)) recursion_limit
    (route_by_severity input) input Hi) as Hrun. fold (invoke model_provider) in Hrun.
  change (run_from _ _ _ _ _ _) with (invoke model_provider (uuid_at (World.ticks w)) (clock_at (World.ticks w + 1)) input)
    in Hrun.
  destruct (invoke _ _ _ _) as [payload s|s|e|]; (split; [exact Hw|]); try discriminate; by intros a [= <-].
Qed.

Lemma audited_valid t (l : list obj) k :
  mapM (validate_model_audit t) l = Ok k -> forallb ModelInvocationAudit.valid k = true.
Proof. apply mapM_valid. apply decodes_model_audit. Qed.

Lemma typed_investigate_input thread incident assessment evidence context health profile playbooks llm :
  typed (fun x => candidates_valid x.1)
    (graph_invoke thread (graph_input incident assessment evidence context health profile playbooks llm)).
Proof. by apply typed_invoke. Qed.
#[local] Hint Resolve typed_investigate_input : typed.

Lemma graph_set_valid incident s id t set :
  candidates_valid s -> graph_candidate_set incident s id t = Some set -> candidate_set_valid set = true.
Proof.
  unfold graph_candidate_set, candidates_valid, candidate_set_valid. intros Hs.
  destruct (RouteRiskState.alternative_candidates s); [done|]. intros [= <-]. cbn -[EvaluatedCandidate.valid] in *.
  by rewrite Hs.
Qed.

Lemma typed_investigation incident assessment evidence trip health : incident_valid incident = true ->
  typed (typed_as incident_valid) (run_graph_investigation incident assessment evidence trip health).
Proof.
  intros Hi. unfold run_graph_investigation. types.
  - typed_write. apply save_candidate_set_typed; [done|]. by eapply graph_set_valid.
  - apply typed_ret. unfold typed_as, incident_valid in *. apply andb_true_iff in Hi as [Hi _]. simpl.
    apply andb_true_iff. split; [|by eapply audited_valid].
    destruct (RouteRiskState.recommendation t) as [raw|]; [|done].
    destruct (validate_graph_recommendation _ _ _) as [x|e] eqn:Ex; [|done]. by eapply decodes_recommendation.
Qed.
#[local] Hint Resolve typed_investigation : typed.

Lemma typed_open_incident tenant trip assessment evidence health disposition correlation :
  typed any (open_incident tenant trip assessment evidence health disposition correlation).
Proof.
  unfold open_incident. do 3 (apply (typed_bind any); [typed_any|intros ? _]).
  apply (typed_bind any); [types|intros use_react _]. do 2 (apply (typed_bind any); [typed_any|intros ? _]).
  eapply typed_bind; [apply typed_lift|cbv beta; intros drafted Hd].
  assert (Hv : incident_valid drafted = true).
  { destruct use_react; [eapply investigated_valid|eapply limited_valid]; first [exact Hd|done]. }
  apply (typed_bind (typed_as incident_valid)).
  { destruct use_react; [by apply typed_investigation|by apply typed_ret]. }
  intros final Hf. types. typed_write. by apply save_incident_typed.
Qed.
#[local] Hint Resolve typed_snapshot typed_open_incident : typed.

Lemma typed_observed tenant trip correlation item : typed any (observed tenant trip correlation item).
Proof. unfold observed. typed_any. Qed.
#[local] Hint Resolve typed_observed : typed.

Lemma typed_assess_snapshot tenant trip scenario : typed any (assess_snapshot tenant trip scenario).
Proof.
  unfold assess_snapshot. types. typed_write. apply save_assessment_typed; [done|].
  unfold calculate_risk in *. by eapply construct_valid.
Qed.
#[local] Hint Resolve typed_assess_snapshot : typed.

Lemma typed_assess_trip id scenario h : typed any (assess_trip id scenario h).
Proof. unfold assess_trip. types. Qed.
#[local] Hint Resolve typed_assess_trip : typed.

Lemma typed_window trip window : typed any (process_window trip window).
Proof. unfold process_window. types. Qed.
#[local] Hint Resolve typed_window : typed.

Lemma typed_due_assessments at_time : typed any (process_due_assessments at_time).
Proof. unfold process_due_assessments. types. Qed.

(** ** Incidents, decisions and actions *)

Lemma typed_list_incidents n k h : typed any (ApiIncidents.list_incidents n k h).
Proof. unfold ApiIncidents.list_incidents. types. Qed.
Lemma typed_get_incident id h : typed any (ApiIncidents.get_incident id h).
Proof. unfold ApiIncidents.get_incident. types. Qed.
Lemma typed_traveler_incidents t h : typed any (list_traveler_incidents t h).
Proof. unfold list_traveler_incidents. types. Qed.

Lemma typed_resume thread decision : typed any (graph_resume thread decision).
Proof.
  intros w Hw. unfold graph_resume. destruct (dict_get _ _); [|by split]. cbv zeta.
  destruct (resume _ _ _ _ _); by split.
Qed.
Lemma typed_requested tenant p : typed any (requested_status tenant p).
Proof. unfold requested_status. types. Qed.
#[local] Hint Resolve typed_resume typed_requested : typed.

Lemma typed_queue_action tenant incident approval p : typed any (queue_action tenant incident approval p).
Proof. unfold queue_action. types. typed_write. apply save_action_typed; [done|]. by eapply construct_valid. Qed.
#[local] Hint Resolve typed_queue_action : typed.

Lemma asked_incident tenant id o i :
  (exists r, records_typed r /\ o = Repository.get_incident r tenant id) -> o = Some i -> incident_valid i = true.
Proof. apply (asked (fun r => Repository.get_incident r tenant id)). intros r y Hr. by apply got_incident. Qed.

Lemma typed_decide id p tenant : typed any (decide_incident id p tenant).
Proof.
  unfold decide_incident. types; typed_write.
  - apply save_approval_typed; [done|]. by eapply construct_valid.
  - apply save_incident_typed; [done|]. change (incident_valid a0 = true). by eapply asked_incident.
Qed.
#[local] Hint Resolve typed_decide : typed.

Lemma typed_decision expected route wrong id p h : typed any (decision_handler expected route wrong id p h).
Proof. unfold decision_handler. types. Qed.
Lemma typed_refresh id h : typed any (refresh_incident id h).
Proof. unfold refresh_incident. types. Qed.

Lemma typed_dispatch_claimed a : ActionDispatchRecord.valid a = true -> typed any (dispatch_claimed a).
Proof.
  intros Ha. unfold dispatch_claimed. types. apply typed_put_get. intros r Hr.
  pose proof (dispatch_typed r Hr a unconfigured_dispatch 5 a2 a3 Ha) as Hd.
  destruct (dispatch_approved_action _ _ _ _ _ _) as [outcome r']. by destruct Hd.
Qed.

Lemma typed_claim_actions limit : typed (listed (typed_as ActionDispatchRecord.valid)) (claim_actions limit).
Proof.
  intros w [Hs Hc]. unfold claim_actions. cbv zeta. destruct (claim_due_action_dispatches _ _ _ _ _ _ _) as [c r] eqn:E.
  assert (Hf : worker_fits "internal-approved-action-dispatcher") by reflexivity.
  destruct (claim_actions_typed _ Hs _ _ _ _ _ _ _ _ Hf E) as [Hl Hr]. split; [by split|]. by intros a [= <-].
Qed.
#[local] Hint Resolve typed_claim_actions : typed.

Lemma typed_actions_job : typed any dispatch_approved_actions_job.
Proof. unfold dispatch_approved_actions_job. types. apply typed_dispatch_claimed. by apply H1. Qed.

(** ** Recovery *)

Lemma typed_run_events id n h : typed any (run_events id n h).
Proof. unfold run_events. types. Qed.
Lemma typed_alternatives id h : typed any (alternatives_for_trip id h).
Proof. unfold alternatives_for_trip. types. Qed.

Lemma set_of_valid id t incident cs evaluated :
  evaluate_all cs = Ok evaluated -> candidate_set_valid (candidate_set_of id t incident evaluated) = true.
Proof.
  intros E. unfold candidate_set_valid. apply andb_true_iff. split; [|done]. simpl. apply positioned_valid.
  refine (mapM_valid _ _ _ _ _ E). intros x y. apply policy_evaluated_valid.
Qed.

Lemma typed_create_set id p h : typed any (create_candidate_set id p h).
Proof. unfold create_candidate_set. types. typed_write. apply save_candidate_set_typed; [done|]. by eapply set_of_valid. Qed.
Lemma typed_list_sets id h : typed any (ApiRecovery.list_candidate_sets id h).
Proof. unfold ApiRecovery.list_candidate_sets. types. Qed.

Lemma typed_feedback_when b make :
  (forall id t f, make id t = Ok f -> ManagerFeedback.valid f = true) ->
  typed (listed (typed_as ManagerFeedback.valid)) (feedback_when b make).
Proof.
  intros Hm. unfold feedback_when. destruct b; [|apply typed_ret, listed_nil]. types.
  apply typed_ret, listed_single. by eapply Hm.
Qed.

Lemma typed_overridden b tenant outcome position :
  typed (listed (typed_as ManagerFeedback.valid))
    (feedback_when b (fun id t => override_feedback id t tenant outcome position)).
Proof. apply typed_feedback_when. intros id t f. apply construct_valid. Qed.
Lemma typed_completed b tenant outcome :
  typed (listed (typed_as ManagerFeedback.valid)) (feedback_when b (fun id t => completed_feedback id t tenant outcome)).
Proof. apply typed_feedback_when. intros id t f. apply construct_valid. Qed.
#[local] Hint Resolve typed_overridden typed_completed : typed.

Lemma typed_observe tenant incident set outcomes candidate p h :
  typed any (observe_outcome tenant incident set outcomes candidate p h).
Proof.
  unfold observe_outcome. types; typed_write.
  - apply record_outcome_typed; [done|]. by eapply construct_valid.
  - apply save_feedback_typed; [done|].
    match goal with Hin : In x (_ ++ _) |- _ => apply in_app_or in Hin as [Hin|Hin] end;
      match goal with Hl : listed _ ?l, Hin : In x ?l |- _ => exact (Hl x Hin) end.
Qed.
#[local] Hint Resolve typed_observe : typed.

Lemma typed_outcome i s c p h : typed any (ApiRecovery.record_candidate_outcome i s c p h).
Proof. unfold ApiRecovery.record_candidate_outcome. types. Qed.
Lemma typed_list_feedback id h : typed any (ApiRecovery.list_manager_feedback id h).
Proof. unfold ApiRecovery.list_manager_feedback. types. Qed.
Lemma typed_list_actions id h : typed any (list_incident_action_dispatches id h).
Proof. unfold list_incident_action_dispatches. types. Qed.

(** ** Memory *)

Lemma typed_audit tenant traveler action proposal actor details :
  typed any (audit_memory tenant traveler action proposal actor details).
Proof. unfold audit_memory. types. typed_write. apply record_memory_audit_typed; [done|]. by eapply construct_valid. Qed.
#[local] Hint Resolve typed_audit : typed.

Lemma typed_get_preferences t h : typed any (get_preferences t h).
Proof. unfold get_preferences. types. Qed.
Lemma typed_update_preferences t p h : typed any (update_preferences t p h).
Proof. unfold update_preferences. types. typed_write. apply save_profile_typed; [done|]. by eapply construct_valid. Qed.
Lemma typed_proposal p h : MemoryUpdateProposal.valid p = true -> typed any (create_memory_proposal p h).
Proof. intros Hp. unfold create_memory_proposal. types. typed_write. by apply save_memory_proposal_typed. Qed.

Lemma next_version_valid p n : TravelerPreferenceProfile.valid p = true -> 1 <= n ->
  TravelerPreferenceProfile.valid (p <| TravelerPreferenceProfile.version := n |>) = true.
Proof. unfold TravelerPreferenceProfile.valid. intros Hp Hn. conjuncts. by apply Z.leb_le. Qed.

Lemma baseline_valid o tenant traveler t :
  (forall p, o = Some p -> TravelerPreferenceProfile.valid p = true) ->
  TravelerPreferenceProfile.valid (default (blank_profile tenant traveler "pending" t) o
    <| TravelerPreferenceProfile.version := next_version o |>) = true.
Proof.
  intros Ho. destruct o as [p|]; simpl; [|done]. apply next_version_valid; [by apply Ho|].
  specialize (Ho p eq_refl). unfold TravelerPreferenceProfile.valid in Ho. conj_hyps. bool_hyps. lia.
Qed.

Lemma typed_apply_proposal tenant actor proposal : MemoryUpdateProposal.valid proposal = true ->
  typed any (apply_proposal tenant actor proposal).
Proof.
  intros Hp. unfold apply_proposal. types; typed_write.
  - apply save_profile_typed; [done|]. eapply decodes_profile; [|eassumption].
    match goal with Ha : exists _, _ |- _ => destruct Ha as (r0 & Hr0 & ->) end.
    apply baseline_valid. intros q. apply (stored_get _ _ _ _ (profiles_typed r0 Hr0)).
  - by apply save_memory_proposal_typed.
Qed.

Lemma typed_confirm id a h : typed any (confirm_memory_proposal id a h).
Proof.
  unfold confirm_memory_proposal. types. apply typed_apply_proposal.
  eapply (asked (fun r => get_memory_proposal r _ _)); [|eassumption..].
  intros r y Hr. apply got_typed, (proposals_typed r Hr).
Qed.

Lemma typed_delete_memory t a h : typed any (ApiMemory.delete_traveler_memory t a h).
Proof.
  unfold ApiMemory.delete_traveler_memory. types. apply typed_put_get. intros r Hr. split; [|done].
  by apply delete_memory_typed.
Qed.
Lemma typed_list_audit t h : typed any (ApiMemory.list_memory_audit t h).
Proof. unfold ApiMemory.list_memory_audit. types. Qed.

(** ** Privacy *)

(** the caller's identity, of at most the 128 characters its columns hold *)
Definition identity_fits (h : headers) : Prop := opt_max 128 (x_actor_id h) = true.

Lemma typed_hold p h : LegalHoldRecord.valid p = true -> typed any (create_legal_hold p h).
Proof. intros Hp. unfold create_legal_hold. types. typed_write. by apply save_hold_typed. Qed.

Lemma released_valid hold t actor reason : LegalHoldRecord.valid hold = true -> opt_max 128 actor = true ->
  truthy_opt_str actor = true -> len_in 1 2000 reason = true ->
  LegalHoldRecord.valid (released hold t actor reason) = true.
Proof.
  unfold LegalHoldRecord.valid, LegalHoldRecord.validate_scope. intros Hh Ha Ht Hm. cbv zeta in *. conjuncts.
  - by apply andb_true_iff in Hm as [_ ?].
  - change (negb (true && negb (truthy_opt_str actor)) = true). by rewrite Ht.
Qed.

Lemma typed_release id p h : LegalHoldRelease.valid p = true -> identity_fits h ->
  typed any (release_legal_hold id p h).
Proof.
  intros Hp Hh. unfold release_legal_hold. types. typed_write. apply save_hold_typed; [done|].
  match goal with Ha : _ = x_actor_id h |- _ => subst end.
  apply released_valid; [|done| |done].
  - eapply (asked (fun r => get_legal_hold r _ _)); [|eassumption|reflexivity].
    intros r' y Hr'. apply got_typed, (holds_typed r' Hr').
  - match goal with Hg : negb (truthy_opt_str _) = false |- _ => by apply negb_false_iff in Hg end.
Qed.
Lemma typed_list_holds h : typed any (ApiPrivacy.list_legal_holds h).
Proof. unfold ApiPrivacy.list_legal_holds. types. Qed.

Lemma typed_deletion p h : DeletionRequest.valid p = true -> typed any (create_deletion_request p h).
Proof.
  intros Hp. unfold create_deletion_request. types. typed_write. apply save_deletion_typed; [done|].
  by apply processed_valid.
Qed.
Lemma typed_list_deletions h : typed any (ApiPrivacy.list_deletion_requests h).
Proof. unfold ApiPrivacy.list_deletion_requests. types. Qed.

Lemma typed_record_event event : typed any (put (fun r => (record_event r event).2)).
Proof. typed_write. by apply record_event_typed. Qed.
#[local] Hint Resolve typed_record_event : typed.

Lemma typed_retention : typed any run_retention_job.
Proof.
  unfold run_retention_job. types. apply typed_put_get. intros r Hr. split; [|done].
  destruct (run_retention _ _ _ _ _ _) as [[counts r']|] eqn:E; [|done]. by eapply retention_typed.
Qed.
Lemma typed_privacy_job : typed any process_privacy_deletion_requests_job.
Proof.
  unfold process_privacy_deletion_requests_job. types. apply typed_put_get. intros r Hr. split; [|done].
  by apply deletions_processed_typed.
Qed.

(** ** Notifications *)

Lemma typed_incident_of tenant n : typed any (incident_of tenant n).
Proof. unfold incident_of. types. Qed.
Lemma typed_correlation o : typed any (correlation_of o).
Proof. unfold correlation_of. types. Qed.
Lemma typed_delivery_enabled tenant : typed any (delivery_enabled tenant).
Proof. unfold delivery_enabled. types. Qed.
#[local] Hint Resolve typed_incident_of typed_correlation typed_delivery_enabled : typed.

Lemma typed_preview id c h : typed any (preview_incident_notification id c h).
Proof. unfold preview_incident_notification. types. Qed.
Lemma typed_queue p h : typed any (queue_notification p h).
Proof. unfold queue_notification. types. typed_write. apply save_notification_typed; [done|]. by eapply construct_valid. Qed.
Lemma typed_list_notifications s h : typed any (ApiNotifications.list_notifications s h).
Proof. unfold ApiNotifications.list_notifications. types. Qed.

Lemma typed_claim_notifications tenant worker : worker_fits worker ->
  typed (listed (typed_as NotificationRecord.valid)) (claim_notifications tenant worker).
Proof.
  intros Hf w [Hs Hc]. unfold claim_notifications. cbv zeta.
  destruct (claim_due_notifications _ _ _ _ _ _ _) as [c r] eqn:E.
  destruct (claim_notifications_typed _ Hs _ _ _ _ _ _ _ _ Hf E) as [Hl Hr]. split; [by split|]. by intros a [= <-].
Qed.

Lemma typed_deliver tenant worker n : NotificationRecord.valid n = true -> typed any (deliver_claimed tenant worker n).
Proof.
  intros Hn. unfold deliver_claimed. types. apply typed_put_get. intros r Hr.
  match goal with |- context [deliver_notification r n in_app_send 5 ?t ?id] =>
    pose proof (deliver_typed r Hr n in_app_send 5 t id Hn) as Hd end.
  destruct (deliver_notification _ _ _ _ _ _) as [outcome r']. by destruct Hd.
Qed.

Lemma actor_fits a dflt : opt_max 128 a = true -> (str_len dflt <=? 128) = true -> worker_fits (actor_or a dflt).
Proof. unfold actor_or, worker_fits. destruct a as [a|]; [|done]. by destruct (truthy_str a). Qed.
#[local] Hint Resolve typed_claim_notifications : typed.
#[local] Hint Extern 1 (worker_fits _) => solve [subst; by apply actor_fits | reflexivity] : typed.

Lemma typed_dispatch h : identity_fits h -> typed any (dispatch_notifications h).
Proof.
  intros Hh. unfold dispatch_notifications. types. apply typed_deliver.
  match goal with Hl : listed _ ?l, Hin : In x ?l |- _ => exact (Hl x Hin) end.
Qed.
Lemma typed_dispatch_job : typed any dispatch_due_notifications_job.
Proof.
  unfold dispatch_due_notifications_job. types. apply typed_deliver.
  match goal with Hl : listed _ ?l, Hin : In x ?l |- _ => exact (Hl x Hin) end.
Qed.

Lemma typed_notification_access tenant n h : typed any (require_notification_access tenant n h).
Proof. unfold require_notification_access. types. Qed.
#[local] Hint Resolve typed_notification_access : typed.
Lemma typed_attempts id h : typed any (notification_attempt_history id h).
Proof. unfold notification_attempt_history. types. Qed.

Lemma acknowledged_valid n t actor : NotificationRecord.valid n = true -> (str_len actor <=? 128) = true ->
  NotificationRecord.valid (acknowledged n t actor) = true.
Proof. unfold NotificationRecord.valid. intros Hn Ha. conjuncts. Qed.

Lemma typed_acknowledge id a h : (str_len a <=? 128) = true -> typed any (acknowledge_notification id a h).
Proof.
  intros Ha. unfold acknowledge_notification, acknowledge_delivered. types. typed_write.
  apply save_notification_typed; [done|].
  match goal with Hm : _ = a |- _ => rewrite Hm end. apply acknowledged_valid; [|done].
  eapply (asked (fun r => get_notification r _ _)); [|eassumption..].
  intros r' y Hr'. apply got_typed, (notifications_typed r' Hr').
Qed.

(** ** Governance *)

Lemma typed_change p h : ChangeRecord.valid p = true -> typed any (create_change_record p h).
Proof. intros Hp. unfold create_change_record. types. typed_write. by apply save_change_typed. Qed.
Lemma typed_list_changes h : typed any (ApiGovernance.list_change_records h).
Proof. unfold ApiGovernance.list_change_records. types. Qed.

Lemma typed_future p : typed any (require_future_expiry p).
Proof. unfold require_future_expiry. types. Qed.
Lemma typed_control_event kind scope tenant name previous actor p :
  typed any (control_event kind scope tenant name previous actor p).
Proof. unfold control_event. types. Qed.
#[local] Hint Resolve typed_future typed_control_event : typed.

Lemma typed_control n p h : typed any (set_runtime_control n p h).
Proof. unfold set_runtime_control. types. typed_write. apply save_control_typed; [done|]. by eapply construct_valid. Qed.
Lemma typed_list_controls h : typed any (ApiGovernance.list_runtime_control_changes h).
Proof. unfold ApiGovernance.list_runtime_control_changes. types. Qed.
Lemma typed_platform n p h : typed any (set_platform_runtime_control n p h).
Proof.
  unfold set_platform_runtime_control. types. typed_write. apply save_platform_typed; [done|].
  by eapply construct_valid.
Qed.
Lemma typed_list_platform h : typed any (list_platform_runtime_controls h).
Proof. unfold list_platform_runtime_controls. types. Qed.

Lemma typed_playbook p h : typed any (publish_tenant_playbook p h).
Proof.
  unfold publish_tenant_playbook, immutable_playbook. types. apply typed_put_get. intros r Hr. split; [|done].
  match goal with Hp : published _ _ _ _ _ = Ok ?x |- _ =>
    pose proof (save_playbook_typed r Hr x (construct_valid _ _ _ _ Hp)) as Hk end.
  by destruct (save_playbook _ _).
Qed.
Lemma typed_list_playbooks h : typed any (list_tenant_playbooks h).
Proof. unfold list_tenant_playbooks. types. Qed.
Lemma typed_onboarding p h : ProviderOnboardingRecord.valid p = true -> typed any (create_provider_onboarding p h).
Proof. intros Hp. unfold create_provider_onboarding. types. typed_write. by apply save_onboarding_typed. Qed.
Lemma typed_list_onboarding h : typed any (ApiGovernance.list_provider_onboarding h).
Proof. unfold ApiGovernance.list_provider_onboarding. types. Qed.
Lemma typed_audit_controls : typed any audit_runtime_controls.
Proof. unfold audit_runtime_controls. types. Qed.

(** ** Ingestion *)

Lemma typed_store_original tenant id content : typed any (store_original tenant id content).
Proof.
  unfold store_original. types. intros w Hw. unfold put_original. destruct evidence_bucket as [bucket|].
  - destruct (bucket _). by split.
  - destruct (InMemoryOriginalUploadStore.put _ _ _ _ _). by split.
Qed.
#[local] Hint Resolve typed_store_original : typed.

Lemma typed_reject_upload upload error : OriginalUploadRecord.valid upload = true -> typed any (reject_upload upload error).
Proof.
  intros Hu. unfold reject_upload. typed_write. apply save_upload_typed; [done|].
  unfold OriginalUploadRecord.valid in *. conjuncts. done.
Qed.

Lemma typed_validated_rows tenant content upload :
  OriginalUploadRecord.valid upload = true -> typed any (validated_rows tenant content upload).
Proof. intros Hu. unfold validated_rows. types; by apply typed_reject_upload. Qed.

Lemma typed_csv c h : typed any (validate_trip_csv c h).
Proof.
  unfold validate_trip_csv. types.
  all: match goal with Hc : csv_upload _ _ _ _ _ _ = Ok _ |- _ => pose proof (construct_valid _ _ _ _ Hc) as Hv end.
  - typed_write. by apply save_upload_typed.
  - by apply typed_validated_rows.
  - typed_write. by apply save_upload_typed.
Qed.

Lemma typed_authentic body h : typed any (authentic_webhook body h).
Proof. unfold authentic_webhook. types. Qed.
#[local] Hint Resolve typed_authentic : typed.

Definition change_typed (change : Trip.t * string) : Prop := Trip.valid change.1 = true.

Lemma typed_existing webhook :
  typed (fun o => forall t, o = Some t -> Trip.valid t = true) (existing_trip webhook).
Proof.
  unfold existing_trip. destruct (BookingWebhookEvent.trip_id webhook) as [id|]; [|by apply typed_ret].
  eapply typed_weaken; [apply typed_ask|]. cbv beta. intros o (r & Hr & ->) t. by apply got_trip.
Qed.
#[local] Hint Resolve typed_existing : typed.

Lemma typed_upserted webhook : typed change_typed (upserted_trip webhook).
Proof.
  unfold upserted_trip. types.
  all: try (apply typed_ret; unfold change_typed; by eapply construct_valid).
Qed.

Lemma typed_cancelled webhook : typed change_typed (cancelled_trip webhook).
Proof.
  unfold cancelled_trip. types. apply typed_ret. unfold change_typed. simpl.
  match goal with Hv : forall t, _ -> Trip.valid t = true, E : _ = Some ?x |- _ => exact (Hv x E) end.
Qed.
#[local] Hint Resolve typed_upserted typed_cancelled : typed.

Lemma typed_trip_change webhook : typed (fun o => forall c, o = Some c -> change_typed c) (trip_change webhook).
Proof.
  unfold trip_change. types; apply typed_ret; [..|done]; by intros c [= <-].
Qed.
#[local] Hint Resolve typed_trip_change : typed.

Lemma typed_revise trip change message : typed any (revise_evidence trip change message).
Proof.
  unfold revise_evidence. types; typed_write.
  - by apply save_evidence_typed, listed_nil.
  - apply save_evidence_typed; [done|].
    match goal with Ha : exists _, _ |- _ => destruct Ha as (r0 & Hr0 & ->) end.
    apply listed_snoc; [|by eapply construct_valid]. apply listed_filter. unfold get_evidence.
    destruct (Repository.get_trip _ _ _); [|apply listed_nil].
    destruct (dict_get (Trip.trip_id trip) (Repo.evidence r0)) as [l0|] eqn:El; [|apply listed_nil].
    exact (stored_get _ _ _ _ (evidence_typed r0 Hr0) El).
Qed.
#[local] Hint Resolve typed_revise : typed.

Lemma typed_apply_change c key message : change_typed c -> typed any (apply_change c key message).
Proof. intros Hc. unfold apply_change. types. typed_write. by apply save_trip_typed. Qed.

Lemma typed_webhook body h : typed any (booking_webhook body h).
Proof.
  unfold booking_webhook. types.
  - apply typed_put_get. intros r Hr. split; [|done]. by apply record_event_typed.
  - apply typed_apply_change. eauto.
Qed.

(** ** Requests *)

(** [admitted m]: a request whose body satisfies its model, as FastAPI checks before
    the handler runs, from a caller whose identity fits its columns *)
Inductive admitted : forall A, API A -> Prop :=
  | admit_create_trip p h : TripCreate.valid p = true -> admitted _ (create_trip p h)
  | admit_get_trip id h : admitted _ (ApiTrips.get_trip id h)
  | admit_assign id p h : TripAssignmentRequest.valid p = true -> admitted _ (assign_trip_manager id p h)
  | admit_put_evidence id p h : listed (typed_as EvidenceEnvelope.valid) p -> admitted _ (ApiTrips.put_evidence id p h)
  | admit_assess id s h : admitted _ (assess_trip id s h)
  | admit_list_incidents n k h : admitted _ (ApiIncidents.list_incidents n k h)
  | admit_get_incident id h : admitted _ (ApiIncidents.get_incident id h)
  | admit_traveler_incidents t h : admitted _ (list_traveler_incidents t h)
  | admit_approve id p h : ApprovalRequest.valid p = true -> admitted _ (approve_incident id p h)
  | admit_reject id p h : ApprovalRequest.valid p = true -> admitted _ (reject_incident id p h)
  | admit_refresh id h : admitted _ (refresh_incident id h)
  | admit_run_events id n h : admitted _ (run_events id n h)
  | admit_alternatives id h : admitted _ (alternatives_for_trip id h)
  | admit_create_set id p h : RecoveryCandidateSetCreate.valid p = true -> admitted _ (create_candidate_set id p h)
  | admit_list_sets id h : admitted _ (ApiRecovery.list_candidate_sets id h)
  | admit_outcome i s c p h :
      RecoveryCandidateOutcomeUpdate.valid p = true -> admitted _ (ApiRecovery.record_candidate_outcome i s c p h)
  | admit_feedback id h : admitted _ (ApiRecovery.list_manager_feedback id h)
  | admit_actions id h : admitted _ (list_incident_action_dispatches id h)
  | admit_preferences t h : admitted _ (get_preferences t h)
  | admit_update_preferences t p h : TravelerPreferenceUpdate.valid p = true -> admitted _ (update_preferences t p h)
  | admit_proposal p h : MemoryUpdateProposal.valid p = true -> admitted _ (create_memory_proposal p h)
  | admit_confirm id a h : admitted _ (confirm_memory_proposal id a h)
  | admit_delete_memory t a h : admitted _ (ApiMemory.delete_traveler_memory t a h)
  | admit_memory_audit t h : admitted _ (ApiMemory.list_memory_audit t h)
  | admit_hold p h : LegalHoldRecord.valid p = true -> admitted _ (create_legal_hold p h)
  | admit_release id p h : LegalHoldRelease.valid p = true -> identity_fits h -> admitted _ (release_legal_hold id p h)
  | admit_list_holds h : admitted _ (ApiPrivacy.list_legal_holds h)
  | admit_deletion p h : DeletionRequest.valid p = true -> admitted _ (create_deletion_request p h)
  | admit_list_deletions h : admitted _ (ApiPrivacy.list_deletion_requests h)
  | admit_preview id c h : admitted _ (preview_incident_notification id c h)
  | admit_queue p h : NotificationCreate.valid p = true -> admitted _ (queue_notification p h)
  | admit_list_notifications s h : admitted _ (ApiNotifications.list_notifications s h)
  | admit_dispatch h : identity_fits h -> admitted _ (dispatch_notifications h)
  | admit_attempts id h : admitted _ (notification_attempt_history id h)
  | admit_acknowledge id a h : (str_len a <=? 128) = true -> admitted _ (acknowledge_notification id a h)
  | admit_change p h : ChangeRecord.valid p = true -> admitted _ (create_change_record p h)
  | admit_list_changes h : admitted _ (ApiGovernance.list_change_records h)
  | admit_control n p h : RuntimeControlUpdate.valid p = true -> admitted _ (set_runtime_control n p h)
  | admit_list_controls h : admitted _ (ApiGovernance.list_runtime_control_changes h)
  | admit_platform n p h : RuntimeControlUpdate.valid p = true -> admitted _ (set_platform_runtime_control n p h)
  | admit_list_platform h : admitted _ (list_platform_runtime_controls h)
  | admit_playbook p h : TenantPlaybookCreate.valid p = true -> admitted _ (publish_tenant_playbook p h)
  | admit_list_playbooks h : admitted _ (list_tenant_playbooks h)
  | admit_onboarding p h : ProviderOnboardingRecord.valid p = true -> admitted _ (create_provider_onboarding p h)
  | admit_list_onboarding h : admitted _ (ApiGovernance.list_provider_onboarding h)
  | admit_csv c h : admitted _ (validate_trip_csv c h)
  | admit_job A (m : API A) : job A m -> admitted A m.

#[local] Hint Resolve typed_create_trip typed_get_trip typed_assign typed_put_evidence typed_assess_trip
  typed_list_incidents typed_get_incident typed_traveler_incidents typed_decision typed_refresh typed_run_events
  typed_alternatives typed_create_set typed_list_sets typed_outcome typed_list_feedback typed_list_actions
  typed_get_preferences typed_update_preferences typed_proposal typed_confirm typed_delete_memory typed_list_audit
  typed_hold typed_release typed_list_holds typed_deletion typed_list_deletions typed_preview typed_queue
  typed_list_notifications typed_dispatch typed_attempts typed_acknowledge typed_change typed_list_changes
  typed_control typed_list_controls typed_platform typed_list_platform typed_playbook typed_list_playbooks
  typed_onboarding typed_list_onboarding typed_csv typed_webhook typed_dispatch_job typed_actions_job
  typed_due_assessments typed_retention typed_privacy_job typed_audit_controls : typed.

Lemma job_typed A (m : API A) : job A m -> typed any m.
Proof. intros Hm. destruct Hm; eauto 2 with typed nocore. Qed.

Lemma admitted_typed A (m : API A) : admitted A m -> typed any m.
Proof.
  intros Hm. destruct Hm; unfold approve_incident, reject_incident; try solve [eauto 2 with typed nocore].
  by apply job_typed.
Qed.

Inductive admitted_step (w : World.t) : World.t -> Prop :=
  | step_admitted A (m : API A) : admitted A m -> admitted_step w (m w).2.

Definition admitted_run (w : World.t) : Prop := rtc admitted_step World.init w.

Lemma admitted_run_typed w : admitted_run w -> typed_world w.
Proof.
  intros Hw. assert (Hi : typed_world World.init) by (split; [apply records_typed_init|apply stored_nil]).
  induction Hw as [|w1 w2 w3 [A m Hm] _ IH]; [done|]. apply IH. exact (proj1 (admitted_typed A m Hm w1 Hi)).
Qed.

(** C7. Type safety of the store.  Whatever requests and jobs have run, raised or
    not, every record of the store satisfies the constraints of its model, although
    [model_copy] and attribute assignment check nothing, and so does every cached
    evidence item: what was stored can be validated again when it is read.  The
    requests have bodies that pydantic accepts, and the identities that handlers
    write without a check have at most 128 characters. *)
Theorem stored_records_typed w : admitted_run w ->
  records_typed (World.store w) /\ cache_typed (World.cache w).
Proof. apply admitted_run_typed. Qed.

End Handlers.

(** ** Witness: a manager's trip is created and assigned to another manager *)

Section Witness.
#[local] Existing Instance sample_environment.
#[local] Existing Instance sample_dump.
#[local] Existing Instance sample_validate.

#[local] Instance sample_decodes : Decodes.
Proof.
  split; [|done|].
  { intros t d x. simpl. unfold decode_model_audit. repeat case_match; try done.
    by intros [-> Hv]%construct_ok. }
  intros p patch x Hp. simpl. unfold patch_language.
  destruct (dict_get "language" patch) as [[]|]; try done; by intros [= <-].
Qed.

Definition admin_headers : headers := Headers (Some "t1") (Some UserRole.TENANT_ADMIN) None None.
Definition assigned_world : World.t :=
  (assign_trip_manager 100%N (TripAssignmentRequest.mk "manager-2") admin_headers
     (create_trip sample_create manager_headers World.init).2).2.

Lemma assigned_run : admitted_run assigned_world.
Proof.
  eapply rtc_l; [apply (step_admitted World.init Trip.t (create_trip sample_create manager_headers)); by apply admit_create_trip|].
  eapply rtc_l; [|apply rtc_refl].
  apply (step_admitted _ Trip.t (assign_trip_manager 100%N (TripAssignmentRequest.mk "manager-2") admin_headers)).
  by apply admit_assign.
Qed.

Lemma stored_records_typed_witness :
  List.map Trip.assigned_manager_id (dict_values (Repo.trips (World.store assigned_world))) = [Some "manager-2"] /\
  records_typed (World.store assigned_world).
Proof. split; [vm_compute; reflexivity|]. exact (proj1 (stored_records_typed _ assigned_run)). Defined.

(** the identity of a caller is written on a released hold unchecked *)
Definition long_identity : string := String.concat "" (List.repeat "a" 129).
Lemma release_unchecked :
  let hold := sample_hold 9%N "t1" "alice" in
  let w := World.init <| World.store ::= fun r => save_legal_hold r hold |> in
  let h := Headers (Some "t1") (Some UserRole.TENANT_ADMIN) (Some long_identity) None in
  let '(answer, w') := release_legal_hold 9%N (LegalHoldRelease.mk "ended") h w in
  LegalHoldRecord.valid hold = true /\ is_ok answer = true /\
  List.map LegalHoldRecord.valid (dict_values (Repo.legal_holds (World.store w'))) = [false].
Proof. vm_compute. done. Qed.

End Witness.
