(* ===== verification/Sql.v ===== *)
(** * Tables of a relational database

    What the repository of [apps/api/postgres_repository.py] uses of SQLAlchemy and
    PostgreSQL.  Neither is in the repository, so a database is a parameter: the
    operations of the class [Sql], one per form of statement the code issues, whose
    documented behaviour is the class [SqlLaws].  A table is a bag of rows with
    distinct primary keys; a query without ORDER BY may return its rows in any
    order, so the laws speak up to permutation.  [ListSql] is a concrete instance. *)

From stdpp Require Import list.
From S2P Require Import Prelude PyData PyStd.
From Stdlib Require Import Sorting.Permutation Sorting.Sorted.

(** a row type: its primary key, and whether its texts fit the columns' widths *)
Class Table (R : Type) : Type := {
  key_of : Type;
  primary_key : R -> key_of;
  key_eq_dec :: EqDecision key_of;
  fits : R -> bool
}.
Arguments key_of R {_}.
#[global] Hint Mode Table ! : typeclass_instances.

Class Sql : Type := {
  table : forall (R : Type) `{Table R}, Type;
  (* [metadata.create_all] on an empty database *)
  create_table : forall {R} `{Table R}, table R;
  (* [select(...).where(p)]: as it is, [.with_for_update()], [.order_by(...)] *)
  select : forall {R} `{Table R}, (R -> bool) -> table R -> list R;
  select_for_update : forall {R} `{Table R}, (R -> bool) -> table R -> list R;
  select_ordered : forall {R} `{Table R}, (R -> R -> bool) -> (R -> bool) -> table R -> list R;
  (* [.with_for_update(skip_locked=True).limit(n)]; [locked] are the rows that
     other transactions hold *)
  select_skip_locked : forall {R} `{Table R},
    (R -> bool) -> Z -> (R -> bool) -> table R -> list R;
  (* [insert().values(...)] of one or several rows *)
  insert : forall {R} `{Table R}, list R -> table R -> res (table R);
  (* [on_conflict_do_nothing().returning(...)]: the inserted rows *)
  insert_or_ignore : forall {R} `{Table R}, R -> table R -> res (list R * table R);
  (* [on_conflict_do_update(set_=...)] on the primary key *)
  upsert : forall {R} `{Table R}, R -> (R -> R) -> table R -> res (table R);
  update : forall {R} `{Table R}, (R -> bool) -> (R -> R) -> table R -> res (table R);
  (* [delete().where(p)] with its [rowcount] *)
  delete : forall {R} `{Table R}, (R -> bool) -> table R -> Z * table R;
  (* [Result.scalar_one_or_none()] and [Result.scalar_one()] *)
  scalar_one_or_none : forall {A}, list A -> res (option A);
  scalar_one : forall {A}, list A -> res A;
  (* [async with engine.begin()]: commit at the end, roll back on an exception *)
  begin : forall {S A}, M S A -> M S A;
  (* what a JSONB column gives back for a document, and [payload->>'field'] *)
  jsonb : json -> json;
  astext : string -> json -> option string
}.

Definition keys {R} `{Table R} (l : list R) : list (key_of R) := List.map primary_key l.

Section Laws.
Context `{Sql}.

Definition rows {R} `{Table R} (t : table R) : list R := select (fun _ => true) t.

Class SqlLaws : Prop := {
  rows_unique {R} `{Table R} (t : table R) : NoDup (keys (rows t));
  rows_create {R} `{Table R} : rows (create_table : table R) = [];
  select_rows {R} `{Table R} p (t : table R) : select p t ≡ₚ List.filter p (rows t);
  select_for_update_rows {R} `{Table R} p (t : table R) :
    select_for_update p t ≡ₚ List.filter p (rows t);
  select_ordered_rows {R} `{Table R} leb p (t : table R) :
    leb_is_total leb -> leb_is_trans leb ->
    select_ordered leb p t ≡ₚ List.filter p (rows t) /\
    StronglySorted (fun x y => leb x y = true) (select_ordered leb p t);
  select_skip_locked_rows {R} `{Table R} locked n p (t : table R) :
    0 <= n -> exists l, l ≡ₚ List.filter (fun r => p r && negb (locked r)) (rows t) /\
                        select_skip_locked locked n p t = List.firstn (Z.to_nat n) l;
  insert_ok {R} `{Table R} l (t : table R) :
    l <> [] -> NoDup (keys (l ++ rows t)) -> forallb fits l = true ->
    exists t', insert l t = Ok t' /\ rows t' ≡ₚ l ++ rows t;
  insert_conflict {R} `{Table R} l (t : table R) :
    ~ NoDup (keys (l ++ rows t)) -> exists e, insert l t = Raise e;
  insert_or_ignore_new {R} `{Table R} r (t : table R) :
    ~ In (primary_key r) (keys (rows t)) -> fits r = true ->
    exists t', insert_or_ignore r t = Ok ([r], t') /\ rows t' ≡ₚ r :: rows t;
  insert_or_ignore_old {R} `{Table R} r (t : table R) :
    In (primary_key r) (keys (rows t)) -> fits r = true ->
    exists t', insert_or_ignore r t = Ok ([], t') /\ rows t' ≡ₚ rows t;
  upsert_new {R} `{Table R} r f (t : table R) :
    ~ In (primary_key r) (keys (rows t)) -> fits r = true ->
    exists t', upsert r f t = Ok t' /\ rows t' ≡ₚ r :: rows t;
  upsert_old {R} `{Table R} r f old l (t : table R) :
    rows t ≡ₚ old :: l -> primary_key old = primary_key r -> primary_key (f old) = primary_key r ->
    fits r = true -> fits (f old) = true ->
    exists t', upsert r f t = Ok t' /\ rows t' ≡ₚ f old :: l;
  update_rows {R} `{Table R} p f (t : table R) :
    (forall r, In r (rows t) -> p r = true -> primary_key (f r) = primary_key r /\ fits (f r) = true) ->
    exists t', update p f t = Ok t' /\ rows t' ≡ₚ List.map (fun r => if p r then f r else r) (rows t);
  delete_rows {R} `{Table R} p (t : table R) :
    (delete p t).1 = len (List.filter p (rows t)) /\
    rows (delete p t).2 ≡ₚ List.filter (fun r => negb (p r)) (rows t);
  scalar_one_or_none_nil {A} : scalar_one_or_none ([] : list A) = Ok None;
  scalar_one_or_none_one {A} (x : A) : scalar_one_or_none [x] = Ok (Some x);
  scalar_one_one {A} (x : A) : scalar_one [x] = Ok x;
  begin_commit {S A} (m : M S A) s a s' : m s = (Ok a, s') -> begin m s = (Ok a, s');
  begin_rollback {S A} (m : M S A) s e s' : m s = (Raise e, s') -> begin m s = (Raise e, s);
  astext_string kvs k s :
    NoDup kvs.*1 -> In (k, JStr s) kvs -> astext k (jsonb (JObj kvs)) = Some s
}.

End Laws.

(** ** Statements as computations over a database with a table per field *)

Section Statements.
Context `{Sql} {S R : Type} `{Table R} (tbl : S -> table R) `{!Setter tbl}.

(** [await connection.execute(statement)] for a statement that writes [tbl] *)
Definition execute (f : table R -> res (table R)) : M S unit := fun db =>
  match f (tbl db) with
  | Ok t => (Ok tt, over tbl (fun _ => t) db)
  | Raise e => (Raise e, db)
  end.
(** [result.rowcount] of a DELETE; [delete_from] ignores it *)
Definition execute_delete (p : R -> bool) : M S Z := fun db =>
  let '(rowcount, t) := delete p (tbl db) in (Ok rowcount, over tbl (fun _ => t) db).
Definition delete_from (p : R -> bool) : M S unit := execute_delete p ;; mret tt.
Definition execute_insert_or_ignore (r : R) : M S (list R) := fun db =>
  match insert_or_ignore r (tbl db) with
  | Ok (inserted, t) => (Ok inserted, over tbl (fun _ => t) db)
  | Raise e => (Raise e, db)
  end.

End Statements.

(** a statement that only reads *)
Definition query {S A} (f : S -> res A) : M S A := fun db => (f db, db).

(** [if ids: body] *)
Definition if_any {S A} (ids : list A) (body : M S unit) : M S unit :=
  match ids with [] => mret tt | _ => body end.

(** ** A concrete database: a table is a list of rows, newest first

    The first row with a given key counts; JSONB gives back the document it was
    given. *)

Section Unique.
Context {R : Type} `{Table R}.

Fixpoint distinct (seen : list (key_of R)) (l : list R) : list R :=
  match l with
  | [] => []
  | r :: l' => if mem (primary_key r) seen then distinct seen l'
               else r :: distinct (primary_key r :: seen) l'
  end.

Lemma distinct_spec l : forall seen,
  NoDup (keys (distinct seen l)) /\ forall k, In k seen -> ~ In k (keys (distinct seen l)).
Proof.
  induction l as [|r l IH]; intros seen; simpl; [split; [apply NoDup_nil_2|naive_solver]|].
  destruct (mem (primary_key r) seen) eqn:E; [apply IH|].
  apply mem_false_iff in E. destruct (IH (primary_key r :: seen)) as [Hd Hs]. split.
  - simpl. apply NoDup_cons. split; [|done]. rewrite list_elem_of_In. apply Hs. by left.
  - intros k Hk [<-|Hin]; [done|]. apply (Hs k); [by right|done].
Qed.

Lemma distinct_id l : forall seen,
  NoDup (keys l) -> (forall k, In k seen -> ~ In k (keys l)) -> distinct seen l = l.
Proof.
  induction l as [|r l IH]; intros seen Hd Hs; simpl; [done|].
  simpl in Hd. apply NoDup_cons in Hd as [Hn Hd]. rewrite list_elem_of_In in Hn.
  destruct (mem (primary_key r) seen) eqn:E.
  - apply mem_true_iff in E. exfalso. apply (Hs _ E). by left.
  - f_equal. apply IH; [done|]. intros k [<-|Hk]; [done|]. intros Hin. apply (Hs k Hk). by right.
Qed.

Definition unique (l : list R) : list R := distinct [] l.

Lemma unique_keys l : NoDup (keys (unique l)).
Proof. apply distinct_spec. Qed.
Lemma unique_id l : NoDup (keys l) -> unique l = l.
Proof. intros Hd. apply distinct_id; naive_solver. Qed.
Lemma unique_unique l : unique (unique l) = unique l.
Proof. apply unique_id, unique_keys. Qed.

End Unique.

Lemma keys_app {R} `{Table R} (l l' : list R) : keys (l ++ l') = keys l ++ keys l'.
Proof. apply List.map_app. Qed.

Lemma keys_map_same {R} `{Table R} (f : R -> R) l :
  (forall r, In r l -> primary_key (f r) = primary_key r) -> keys (List.map f l) = keys l.
Proof.
  intros Hf. unfold keys. rewrite List.map_map. apply List.map_ext_in. done.
Qed.

Lemma keys_filter_nodup {R} `{Table R} (p : R -> bool) l : NoDup (keys l) -> NoDup (keys (List.filter p l)).
Proof.
  induction l as [|r l IH]; simpl; [done|]. rewrite NoDup_cons, list_elem_of_In. intros [Hn Hd].
  destruct (p r); simpl; [|by apply IH]. apply NoDup_cons. split; [|by apply IH].
  rewrite list_elem_of_In. unfold keys. rewrite in_map_iff. intros (r' & E & Hin).
  apply filter_In in Hin as [Hin _]. apply Hn. unfold keys. apply in_map_iff. by exists r'.
Qed.

(** ** Lemmas on rows by key *)

Section Keys.
Context {R : Type} `{Table R}.
Implicit Types (l : list R) (r : R).

Lemma in_keys r l : In r l -> In (primary_key r) (keys l).
Proof. apply in_map. Qed.

Lemma map_off_key (k : key_of R) f l :
  ~ In k (keys l) -> List.map (fun x => if primary_key x == k then f x else x) l = l.
Proof.
  intros Hk. rewrite <- (List.map_id l) at 2. apply List.map_ext_in. intros x Hx.
  rewrite bool_decide_false; [done|]. intros <-. by apply Hk, in_keys.
Qed.

Lemma filter_off_key (k : key_of R) l :
  ~ In k (keys l) -> List.filter (fun x => primary_key x == k) l = [].
Proof.
  intros Hk. induction l as [|x l IH]; simpl; [done|].
  rewrite bool_decide_false; [|intros <-; apply Hk; by left]. apply IH. intros Hin. apply Hk. by right.
Qed.

Lemma keys_perm l l' : l ≡ₚ l' -> keys l ≡ₚ keys l'.
Proof. apply Permutation_map. Qed.

Lemma nodup_perm l l' : l ≡ₚ l' -> NoDup (keys l) -> NoDup (keys l').
Proof. intros Hp. by rewrite (keys_perm _ _ Hp). Qed.

Lemma nodup_cons_key r l : NoDup (keys (r :: l)) <-> ~ In (primary_key r) (keys l) /\ NoDup (keys l).
Proof. simpl. by rewrite NoDup_cons, list_elem_of_In. Qed.

(** the only row with the key of [r] *)
Lemma filter_key r l : NoDup (keys (r :: l)) -> List.filter (fun x => primary_key x == primary_key r) (r :: l) = [r].
Proof.
  intros [Hn _]%nodup_cons_key. simpl. rewrite bool_decide_true by done. f_equal. by apply filter_off_key.
Qed.

Lemma map_key r f l : NoDup (keys (r :: l)) ->
  List.map (fun x => if primary_key x == primary_key r then f x else x) (r :: l) = f r :: l.
Proof.
  intros [Hn _]%nodup_cons_key. simpl. rewrite bool_decide_true by done. f_equal. by apply map_off_key.
Qed.

Lemma forallb_perm (p : R -> bool) l l' : l ≡ₚ l' -> forallb p l = forallb p l'.
Proof. induction 1; simpl; try congruence. by destruct (p x), (p y). Qed.

End Keys.

Section ListSql.

Definition integrity_error : exn := OtherError "IntegrityError".
Definition data_error : exn := OtherError "DataError".

Definition list_insert {R} `{Table R} (l t : list R) : res (list R) :=
  match l with
  | [] => Raise integrity_error      (* INSERT ... DEFAULT VALUES: the columns are NOT NULL *)
  | _ => if negb (forallb fits l) then Raise data_error
         else if bool_decide (NoDup (keys (l ++ unique t))) then Ok (l ++ unique t)
         else Raise integrity_error
  end.
Definition list_upsert {R} `{Table R} (r : R) (f : R -> R) (t : list R) : res (list R) :=
  let old := fun x => primary_key x == primary_key r in
  if negb (fits r) then Raise data_error
  else if existsb old (unique t) then
    let t' := List.map (fun x => if old x then f x else x) (unique t) in
    if forallb fits (List.map f (List.filter old (unique t))) then Ok t' else Raise data_error
  else Ok (r :: unique t).
Definition list_update {R} `{Table R} (p : R -> bool) (f : R -> R) (t : list R) : res (list R) :=
  if forallb fits (List.map f (List.filter p (unique t)))
  then Ok (List.map (fun r => if p r then f r else r) (unique t))
  else Raise data_error.

#[local] Instance list_sql : Sql := {|
  table R _ := list R;
  create_table _ _ := [];
  select _ _ p t := List.filter p (unique t);
  select_for_update _ _ p t := List.filter p (unique t);
  select_ordered _ _ leb p t := sorted leb (List.filter p (unique t));
  select_skip_locked _ _ locked n p t :=
    List.firstn (Z.to_nat n) (List.filter (fun r => p r && negb (locked r)) (unique t));
  insert _ _ l t := list_insert l t;
  insert_or_ignore _ _ r t :=
    if negb (fits r) then Raise data_error
    else if mem (primary_key r) (keys (unique t)) then Ok ([], unique t) else Ok ([r], r :: unique t);
  upsert _ _ r f t := list_upsert r f t;
  update _ _ p f t := list_update p f t;
  delete _ _ p t := (len (List.filter p (unique t)), List.filter (fun r => negb (p r)) (unique t));
  scalar_one_or_none _ l :=
    match l with [] => Ok None | [x] => Ok (Some x) | _ => Raise (OtherError "MultipleResultsFound") end;
  scalar_one _ l :=
    match l with
    | [] => Raise (OtherError "NoResultFound")
    | [x] => Ok x
    | _ => Raise (OtherError "MultipleResultsFound")
    end;
  begin _ _ m s := match m s with (Ok a, s') => (Ok a, s') | (Raise e, _) => (Raise e, s) end;
  jsonb j := j;
  astext k j := match j with
                | JObj kvs => match dict_get k kvs with Some (JStr s) => Some s | _ => None end
                | _ => None
                end |}.

Lemma list_rows {R} `{Table R} (t : list R) : rows (t : table R) = unique t.
Proof.
  unfold rows. simpl. generalize (unique t). intros l. induction l as [|x l IH]; simpl; congruence.
Qed.

Lemma list_insert_laws {R} `{Table R} (l t : list R) :
  (l <> [] -> NoDup (keys (l ++ unique t)) -> forallb fits l = true -> list_insert l t = Ok (l ++ unique t)) /\
  (~ NoDup (keys (l ++ unique t)) -> exists e, list_insert l t = Raise e).
Proof.
  unfold list_insert. split.
  - intros Hl Hd Hf. destruct l as [|r l]; [done|]. rewrite Hf. simpl negb. by rewrite bool_decide_true.
  - intros Hbad. destruct l as [|r l]; [by eexists|]. destruct (forallb fits (r :: l)); simpl negb; [|by eexists].
    rewrite bool_decide_false by done. by eexists.
Qed.

Lemma list_upsert_laws {R} `{Table R} r f (t : list R) :
  (~ In (primary_key r) (keys (unique t)) -> fits r = true -> list_upsert r f t = Ok (r :: unique t)) /\
  (forall old l, unique t ≡ₚ old :: l -> primary_key old = primary_key r ->
     fits r = true -> fits (f old) = true -> exists t', list_upsert r f t = Ok t' /\ t' ≡ₚ f old :: l).
Proof.
  unfold list_upsert. split.
  - intros Hn Hf. rewrite Hf. simpl negb. cbv iota.
    destruct (existsb _ (unique t)) eqn:E; [|done].
    apply existsb_true_iff in E as (x & Hx & Hk). apply bool_decide_eq_true in Hk. exfalso.
    apply Hn. rewrite <- Hk. by apply in_keys.
  - intros old l Hp Hk Hf Hf'. rewrite Hf. simpl negb. cbv iota. rewrite <- Hk.
    pose proof (nodup_perm _ _ Hp (unique_keys t)) as Hd.
    destruct (existsb _ (unique t)) eqn:E.
    + erewrite (forallb_perm fits); [|apply Permutation_map, filter_perm, Hp].
      rewrite filter_key by done. simpl forallb. rewrite Hf'. eexists. split; [done|].
      etransitivity; [apply Permutation_map, Hp|]. by rewrite map_key.
    + exfalso. rewrite existsb_false_iff in E. specialize (E old).
      rewrite bool_decide_true in E by done. enough (true = false) by done. apply E.
      by rewrite Hp; left.
Qed.

Lemma list_update_law {R} `{Table R} p f (t : list R) :
  (forall r, In r (unique t) -> p r = true -> primary_key (f r) = primary_key r /\ fits (f r) = true) ->
  list_update p f t = Ok (List.map (fun r => if p r then f r else r) (unique t)) /\
  NoDup (keys (List.map (fun r => if p r then f r else r) (unique t))).
Proof.
  intros Hf. unfold list_update. split.
  - replace (forallb fits _) with true; [done|]. symmetry. apply forallb_forall.
    intros x (y & <- & Hy)%in_map_iff. apply filter_In in Hy as [Hy Hp]. by apply Hf.
  - rewrite keys_map_same; [apply unique_keys|]. intros r Hr. destruct (p r) eqn:E; [by apply Hf|done].
Qed.

#[local] Instance list_sql_laws : SqlLaws.
Proof.
  constructor; intros; rewrite ?list_rows in *.
  - apply unique_keys.
  - done.
  - done.
  - done.
  - split; [symmetry; apply sorted_perm|]. by apply sorted_sorted.
  - by eexists.
  - destruct (list_insert_laws l t) as [Hi _]. exists (l ++ unique t).
    split; [by apply Hi|]. rewrite (list_rows (l ++ unique t)). by rewrite unique_id.
  - by apply list_insert_laws.
  - exists (r :: unique t). rewrite (list_rows (r :: unique t)), (unique_id (r :: unique t)); [|by apply nodup_cons_key; split; [|apply unique_keys]].
    split; [|done]. simpl. replace (fits r) with true. simpl. by rewrite (proj2 (mem_false_iff _ _)).
  - exists (unique t). rewrite (list_rows (unique t)), unique_unique. split; [|done].
    simpl. replace (fits r) with true. simpl. by rewrite (proj2 (mem_true_iff _ _)).
  - exists (r :: unique t). rewrite (list_rows (r :: unique t)), (unique_id (r :: unique t)); [|by apply nodup_cons_key; split; [|apply unique_keys]].
    split; [|done]. by apply list_upsert_laws.
  - destruct (proj2 (list_upsert_laws r f t) old l) as (t' & E & Hp); try done.
    exists t'. split; [done|]. rewrite (list_rows t'), unique_id; [done|].
    eapply nodup_perm; [symmetry; exact Hp|]. pose proof (unique_keys t) as Hd.
    match goal with Hr : unique t ≡ₚ old :: l |- _ => apply (nodup_perm _ _ Hr) in Hd end.
    rewrite nodup_cons_key in *. congruence.
  - destruct (list_update_law p f t) as [E Hd]; [done|]. eexists. split; [exact E|].
    by rewrite (list_rows (List.map _ _)), unique_id.
  - split; [done|]. simpl. rewrite unique_id; [done|]. apply keys_filter_nodup, unique_keys.
  - done.
  - done.
  - done.
  - simpl. by rewrite H.
  - simpl. by rewrite H.
  - simpl. by rewrite (dict_in_get k (JStr s)).
Qed.

End ListSql.
