(* ===== verification/PgTables.v ===== *)
(** * [apps/api/postgres_repository.py]: the tables

    One row type per [Table] of the file, under a name in the singular, with its
    columns, its primary key and the widths of its [String(n)] columns; [Db.t] holds
    the tables under the names of the source. *)

From S2P Require Import Prelude PyData PyStd Enums Models Recovery Security.
From S2P Require Import Repository Sql.

(** [String(n)] *)
Definition varchar (n : Z) (s : string) : bool := str_len s <=? n.

Module TripRow.

Record t : Type := mk {
  trip_id : uuid;
  tenant_id : string;
  payload : json
}.

#[global] Instance settable : Settable t := fun x =>
  mk (trip_id x) (tenant_id x) (payload x).

#[global] Instance keyed : Table t := {|
  primary_key := trip_id;
  fits := fun x => varchar 128 (tenant_id x) |}.

End TripRow.

Module SegmentRow.

Record t : Type := mk {
  trip_id : uuid;
  segment_id : string;
  tenant_id : string;
  carrier_code : string;
  flight_number : string;
  departure_airport : string;
  arrival_airport : string;
  scheduled_departure_at : instant;
  scheduled_arrival_at : instant
}.

#[global] Instance settable : Settable t := fun x =>
  mk (trip_id x) (segment_id x) (tenant_id x) (carrier_code x) (flight_number x) (departure_airport x) (arrival_airport x) (scheduled_departure_at x) (scheduled_arrival_at x).

#[global] Instance keyed : Table t := {|
  primary_key := fun x => (trip_id x, segment_id x);
  fits := fun x => varchar 64 (segment_id x) && varchar 128 (tenant_id x) && varchar 3 (carrier_code x) &&
    varchar 4 (flight_number x) && varchar 3 (departure_airport x) && varchar 3 (arrival_airport x) |}.

End SegmentRow.

Module EvidenceRow.

Record t : Type := mk {
  evidence_id : uuid;
  tenant_id : string;
  trip_id : uuid;
  payload : json
}.

#[global] Instance settable : Settable t := fun x =>
  mk (evidence_id x) (tenant_id x) (trip_id x) (payload x).

#[global] Instance keyed : Table t := {|
  primary_key := evidence_id;
  fits := fun x => varchar 128 (tenant_id x) |}.

End EvidenceRow.

Module AssessmentRow.

Record t : Type := mk {
  assessment_id : uuid;
  tenant_id : string;
  trip_id : uuid;
  payload : json
}.

#[global] Instance settable : Settable t := fun x =>
  mk (assessment_id x) (tenant_id x) (trip_id x) (payload x).

#[global] Instance keyed : Table t := {|
  primary_key := assessment_id;
  fits := fun x => varchar 128 (tenant_id x) |}.

End AssessmentRow.

Module IncidentRow.

Record t : Type := mk {
  incident_id : uuid;
  tenant_id : string;
  trip_id : uuid;
  payload : json
}.

#[global] Instance settable : Settable t := fun x =>
  mk (incident_id x) (tenant_id x) (trip_id x) (payload x).

#[global] Instance keyed : Table t := {|
  primary_key := incident_id;
  fits := fun x => varchar 128 (tenant_id x) |}.

End IncidentRow.

Module PreferenceRow.

Record t : Type := mk {
  tenant_id : string;
  traveler_id : string;
  payload : json
}.

#[global] Instance settable : Settable t := fun x =>
  mk (tenant_id x) (traveler_id x) (payload x).

#[global] Instance keyed : Table t := {|
  primary_key := fun x => (tenant_id x, traveler_id x);
  fits := fun x => varchar 128 (tenant_id x) && varchar 128 (traveler_id x) |}.

End PreferenceRow.

Module ApprovalRow.

Record t : Type := mk {
  incident_id : uuid;
  payload : json
}.

#[global] Instance settable : Settable t := fun x =>
  mk (incident_id x) (payload x).

#[global] Instance keyed : Table t := {|
  primary_key := incident_id;
  fits := fun _ => true |}.

End ApprovalRow.

Module EventRow.

Record t : Type := mk {
  event_id : uuid;
  tenant_id : string;
  payload : json
}.

#[global] Instance settable : Settable t := fun x =>
  mk (event_id x) (tenant_id x) (payload x).

#[global] Instance keyed : Table t := {|
  primary_key := event_id;
  fits := fun x => varchar 128 (tenant_id x) |}.

End EventRow.

Module ProposalRow.

Record t : Type := mk {
  proposal_id : uuid;
  tenant_id : string;
  payload : json
}.

#[global] Instance settable : Settable t := fun x =>
  mk (proposal_id x) (tenant_id x) (payload x).

#[global] Instance keyed : Table t := {|
  primary_key := proposal_id;
  fits := fun x => varchar 128 (tenant_id x) |}.

End ProposalRow.

Module CandidateSetRow.

Record t : Type := mk {
  candidate_set_id : uuid;
  tenant_id : string;
  incident_id : uuid;
  payload : json
}.

#[global] Instance settable : Settable t := fun x =>
  mk (candidate_set_id x) (tenant_id x) (incident_id x) (payload x).

#[global] Instance keyed : Table t := {|
  primary_key := candidate_set_id;
  fits := fun x => varchar 128 (tenant_id x) |}.

End CandidateSetRow.

Module OutcomeRow.

Record t : Type := mk {
  outcome_id : uuid;
  tenant_id : string;
  incident_id : uuid;
  candidate_set_id : uuid;
  payload : json
}.

#[global] Instance settable : Settable t := fun x =>
  mk (outcome_id x) (tenant_id x) (incident_id x) (candidate_set_id x) (payload x).

#[global] Instance keyed : Table t := {|
  primary_key := outcome_id;
  fits := fun x => varchar 128 (tenant_id x) |}.

End OutcomeRow.

Module FeedbackRow.

Record t : Type := mk {
  feedback_id : uuid;
  tenant_id : string;
  incident_id : uuid;
  payload : json
}.

#[global] Instance settable : Settable t := fun x =>
  mk (feedback_id x) (tenant_id x) (incident_id x) (payload x).

#[global] Instance keyed : Table t := {|
  primary_key := feedback_id;
  fits := fun x => varchar 128 (tenant_id x) |}.

End FeedbackRow.

Module PlaybookRow.

Record t : Type := mk {
  playbook_id : uuid;
  tenant_id : string;
  payload : json
}.

#[global] Instance settable : Settable t := fun x =>
  mk (playbook_id x) (tenant_id x) (payload x).

#[global] Instance keyed : Table t := {|
  primary_key := playbook_id;
  fits := fun x => varchar 128 (tenant_id x) |}.

End PlaybookRow.

Module NotificationRow.

Record t : Type := mk {
  notification_id : uuid;
  tenant_id : string;
  status : string;
  payload : json
}.

#[global] Instance settable : Settable t := fun x =>
  mk (notification_id x) (tenant_id x) (status x) (payload x).

#[global] Instance keyed : Table t := {|
  primary_key := notification_id;
  fits := fun x => varchar 128 (tenant_id x) && varchar 32 (status x) |}.

End NotificationRow.

Module NotificationAttemptRow.

Record t : Type := mk {
  attempt_id : uuid;
  notification_id : uuid;
  payload : json
}.

#[global] Instance settable : Settable t := fun x =>
  mk (attempt_id x) (notification_id x) (payload x).

#[global] Instance keyed : Table t := {|
  primary_key := attempt_id;
  fits := fun _ => true |}.

End NotificationAttemptRow.

Module ActionRow.

Record t : Type := mk {
  action_dispatch_id : uuid;
  tenant_id : string;
  incident_id : uuid;
  status : string;
  payload : json
}.

#[global] Instance settable : Settable t := fun x =>
  mk (action_dispatch_id x) (tenant_id x) (incident_id x) (status x) (payload x).

#[global] Instance keyed : Table t := {|
  primary_key := action_dispatch_id;
  fits := fun x => varchar 128 (tenant_id x) && varchar 32 (status x) |}.

End ActionRow.

Module ActionAttemptRow.

Record t : Type := mk {
  attempt_id : uuid;
  action_dispatch_id : uuid;
  payload : json
}.

#[global] Instance settable : Settable t := fun x =>
  mk (attempt_id x) (action_dispatch_id x) (payload x).

#[global] Instance keyed : Table t := {|
  primary_key := attempt_id;
  fits := fun _ => true |}.

End ActionAttemptRow.

Module MemoryAuditRow.

Record t : Type := mk {
  audit_id : uuid;
  tenant_id : string;
  traveler_id : string;
  payload : json
}.

#[global] Instance settable : Settable t := fun x =>
  mk (audit_id x) (tenant_id x) (traveler_id x) (payload x).

#[global] Instance keyed : Table t := {|
  primary_key := audit_id;
  fits := fun x => varchar 128 (tenant_id x) && varchar 128 (traveler_id x) |}.

End MemoryAuditRow.

Module ChangeRow.

Record t : Type := mk {
  change_id : uuid;
  tenant_id : string;
  change_type : string;
  payload : json
}.

#[global] Instance settable : Settable t := fun x =>
  mk (change_id x) (tenant_id x) (change_type x) (payload x).

#[global] Instance keyed : Table t := {|
  primary_key := change_id;
  fits := fun x => varchar 128 (tenant_id x) && varchar 32 (change_type x) |}.

End ChangeRow.

Module OnboardingRow.

Record t : Type := mk {
  provider_onboarding_id : uuid;
  tenant_id : string;
  status : string;
  payload : json
}.

#[global] Instance settable : Settable t := fun x =>
  mk (provider_onboarding_id x) (tenant_id x) (status x) (payload x).

#[global] Instance keyed : Table t := {|
  primary_key := provider_onboarding_id;
  fits := fun x => varchar 128 (tenant_id x) && varchar 32 (status x) |}.

End OnboardingRow.

Module ControlOverrideRow.

Record t : Type := mk {
  tenant_id : string;
  control_name : string;
  payload : json
}.

#[global] Instance settable : Settable t := fun x =>
  mk (tenant_id x) (control_name x) (payload x).

#[global] Instance keyed : Table t := {|
  primary_key := fun x => (tenant_id x, control_name x);
  fits := fun x => varchar 128 (tenant_id x) && varchar 64 (control_name x) |}.

End ControlOverrideRow.

Module ControlChangeRow.

Record t : Type := mk {
  control_change_id : uuid;
  tenant_id : string;
  control_name : string;
  payload : json
}.

#[global] Instance settable : Settable t := fun x =>
  mk (control_change_id x) (tenant_id x) (control_name x) (payload x).

#[global] Instance keyed : Table t := {|
  primary_key := control_change_id;
  fits := fun x => varchar 128 (tenant_id x) && varchar 64 (control_name x) |}.

End ControlChangeRow.

Module PlatformOverrideRow.

Record t : Type := mk {
  control_name : string;
  payload : json
}.

#[global] Instance settable : Settable t := fun x =>
  mk (control_name x) (payload x).

#[global] Instance keyed : Table t := {|
  primary_key := control_name;
  fits := fun x => varchar 64 (control_name x) |}.

End PlatformOverrideRow.

Module PlatformChangeRow.

Record t : Type := mk {
  control_change_id : uuid;
  control_name : string;
  payload : json
}.

#[global] Instance settable : Settable t := fun x =>
  mk (control_change_id x) (control_name x) (payload x).

#[global] Instance keyed : Table t := {|
  primary_key := control_change_id;
  fits := fun x => varchar 64 (control_name x) |}.

End PlatformChangeRow.

Module IdempotencyRow.

Record t : Type := mk {
  tenant_id : string;
  idempotency_key : string;
  payload : json
}.

#[global] Instance settable : Settable t := fun x =>
  mk (tenant_id x) (idempotency_key x) (payload x).

#[global] Instance keyed : Table t := {|
  primary_key := fun x => (tenant_id x, idempotency_key x);
  fits := fun x => varchar 128 (tenant_id x) && varchar 256 (idempotency_key x) |}.

End IdempotencyRow.

Module UploadRow.

Record t : Type := mk {
  original_upload_id : uuid;
  tenant_id : string;
  status : string;
  payload : json
}.

#[global] Instance settable : Settable t := fun x =>
  mk (original_upload_id x) (tenant_id x) (status x) (payload x).

#[global] Instance keyed : Table t := {|
  primary_key := original_upload_id;
  fits := fun x => varchar 128 (tenant_id x) && varchar 32 (status x) |}.

End UploadRow.

Module LegalHoldRow.

Record t : Type := mk {
  legal_hold_id : uuid;
  tenant_id : string;
  status : string;
  payload : json
}.

#[global] Instance settable : Settable t := fun x =>
  mk (legal_hold_id x) (tenant_id x) (status x) (payload x).

#[global] Instance keyed : Table t := {|
  primary_key := legal_hold_id;
  fits := fun x => varchar 128 (tenant_id x) && varchar 32 (status x) |}.

End LegalHoldRow.

Module DeletionRow.

Record t : Type := mk {
  deletion_request_id : uuid;
  tenant_id : string;
  traveler_id : string;
  status : string;
  payload : json
}.

#[global] Instance settable : Settable t := fun x =>
  mk (deletion_request_id x) (tenant_id x) (traveler_id x) (status x) (payload x).

#[global] Instance keyed : Table t := {|
  primary_key := deletion_request_id;
  fits := fun x => varchar 128 (tenant_id x) && varchar 128 (traveler_id x) && varchar 32 (status x) |}.

End DeletionRow.

(** ** The database *)

Module Db.

Section Tables.
Context `{Sql}.

Record t : Type := mk {
  trips : table TripRow.t;
  trip_segments : table SegmentRow.t;
  evidence_items : table EvidenceRow.t;
  assessments : table AssessmentRow.t;
  incidents : table IncidentRow.t;
  preferences : table PreferenceRow.t;
  approvals : table ApprovalRow.t;
  events : table EventRow.t;
  memory_proposals : table ProposalRow.t;
  candidate_sets : table CandidateSetRow.t;
  candidate_outcomes : table OutcomeRow.t;
  manager_feedback : table FeedbackRow.t;
  tenant_playbooks : table PlaybookRow.t;
  notifications : table NotificationRow.t;
  notification_attempts : table NotificationAttemptRow.t;
  action_dispatches : table ActionRow.t;
  action_dispatch_attempts : table ActionAttemptRow.t;
  memory_audit_events : table MemoryAuditRow.t;
  change_records : table ChangeRow.t;
  provider_onboarding_records : table OnboardingRow.t;
  runtime_control_overrides : table ControlOverrideRow.t;
  runtime_control_changes : table ControlChangeRow.t;
  platform_runtime_control_overrides : table PlatformOverrideRow.t;
  platform_runtime_control_changes : table PlatformChangeRow.t;
  idempotency_records : table IdempotencyRow.t;
  original_uploads : table UploadRow.t;
  legal_holds : table LegalHoldRow.t;
  deletion_requests : table DeletionRow.t
}.

#[global] Instance settable : Settable t := fun x =>
  mk (trips x) (trip_segments x) (evidence_items x) (assessments x) (incidents x)
    (preferences x) (approvals x) (events x) (memory_proposals x) (candidate_sets x)
    (candidate_outcomes x) (manager_feedback x) (tenant_playbooks x) (notifications x)
    (notification_attempts x) (action_dispatches x) (action_dispatch_attempts x)
    (memory_audit_events x) (change_records x) (provider_onboarding_records x)
    (runtime_control_overrides x) (runtime_control_changes x)
    (platform_runtime_control_overrides x) (platform_runtime_control_changes x)
    (idempotency_records x) (original_uploads x) (legal_holds x) (deletion_requests x).

End Tables.

End Db.

(** [setup()] on an empty database: [metadata.create_all] *)
Definition setup `{Sql} : Db.t :=
  Db.mk create_table create_table create_table create_table create_table create_table
    create_table create_table create_table create_table create_table create_table create_table
    create_table create_table create_table create_table create_table create_table create_table
    create_table create_table create_table create_table create_table create_table create_table
    create_table.
