(* ===== verification/Postgres.v ===== *)
(** * [apps/api/postgres_repository.py]: trips, incidents, outboxes, controls

    One definition per method, under the method's name: the statements it issues,
    in order, over the database [Db.t].  A method that writes runs inside [begin],
    as [async with self.engine.begin()] does; one that only reads is a function of
    the database.  [now] and [fresh] stand for [datetime.now(UTC)] and [uuid4()]. *)

From S2P Require Import Prelude PyData Float64 PyStd Enums Models Recovery Security.
From S2P Require Import Repository Sql PgTables.

(** a model's [model_dump(mode="json")] and [model_validate] *)
Class Document (A : Type) : Type := {
  document_dump :: Dump A;
  document_validate :: Validate A
}.

(** the models that the repository stores *)
Class Documents : Type := {
  trip_document :: Document Trip.t;
  evidence_document :: Document EvidenceEnvelope.t;
  assessment_document :: Document RiskAssessment.t;
  incident_document :: Document Incident.t;
  profile_document :: Document TravelerPreferenceProfile.t;
  approval_document :: Document ApprovalRecord.t;
  event_document :: Document EventRecord.t;
  idempotency_document :: Document IdempotencyRecord.t;
  proposal_document :: Document MemoryUpdateProposal.t;
  candidate_set_document :: Document RecoveryCandidateSet.t;
  outcome_document :: Document RecoveryCandidateOutcome.t;
  feedback_document :: Document ManagerFeedback.t;
  playbook_document :: Document TenantPlaybook.t;
  notification_document :: Document NotificationRecord.t;
  notification_attempt_document :: Document NotificationAttempt.t;
  action_document :: Document ActionDispatchRecord.t;
  action_attempt_document :: Document ActionDispatchAttempt.t;
  memory_audit_document :: Document MemoryAuditEvent.t;
  change_document :: Document ChangeRecord.t;
  onboarding_document :: Document ProviderOnboardingRecord.t;
  runtime_control_document :: Document RuntimeControlChange.t;
  platform_control_document :: Document PlatformRuntimeControlChange.t;
  upload_document :: Document OriginalUploadRecord.t;
  legal_hold_document :: Document LegalHoldRecord.t;
  deletion_document :: Document DeletionRequest.t
}.

Definition as_json {A} `{Document A} (model : A) : json := dump model.

Section Postgres.
Context `{Sql} `{Documents}.

(** the payload column of a row written for a model *)
Definition column {A} `{Document A} (model : A) : json := jsonb (as_json model).

(** [Model.model_validate(row) if row else None] *)
Definition validate_row {A} `{Document A} (row : option json) : res (option A) :=
  match row with
  | Some j => if truthy j then Some <$> model_validate j else Ok None
  | None => Ok None
  end.
(** [[Model.model_validate(row) for row in rows]] *)
Definition validate_rows {A} `{Document A} (rows : list json) : res (list A) := mapM model_validate rows.

(** [.scalar_one_or_none()] of the payloads, validated *)
Definition one_payload {A} `{Document A} (rows : list json) : res (option A) :=
  row ← scalar_one_or_none rows; validate_row row.

(** ** Trips *)

Definition trip_row (trip : Trip.t) : TripRow.t :=
  {| TripRow.trip_id := Trip.trip_id trip;
     TripRow.tenant_id := Trip.tenant_id trip;
     TripRow.payload := column trip |}.

Definition segment_row (trip : Trip.t) (segment : FlightSegmentCreate.t) : SegmentRow.t :=
  {| SegmentRow.trip_id := Trip.trip_id trip;
     SegmentRow.segment_id := FlightSegmentCreate.segment_id segment;
     SegmentRow.tenant_id := Trip.tenant_id trip;
     SegmentRow.carrier_code := FlightSegmentCreate.carrier_code segment;
     SegmentRow.flight_number := FlightSegmentCreate.flight_number segment;
     SegmentRow.departure_airport := FlightSegmentCreate.departure_airport segment;
     SegmentRow.arrival_airport := FlightSegmentCreate.arrival_airport segment;
     SegmentRow.scheduled_departure_at := dt_instant (FlightSegmentCreate.scheduled_departure_at segment);
     SegmentRow.scheduled_arrival_at := dt_instant (FlightSegmentCreate.scheduled_arrival_at segment) |}.

Definition _replace_trip_segments (trip : Trip.t) : M Db.t unit :=
  delete_from Db.trip_segments (fun r => SegmentRow.trip_id r == Trip.trip_id trip) ;;
  execute Db.trip_segments (insert (List.map (segment_row trip) (Trip.segments trip))).

Definition create_trip (trip : Trip.t) : M Db.t Trip.t :=
  begin (
    execute Db.trips (insert [trip_row trip]) ;;
    _replace_trip_segments trip) ;;
  mret trip.

Definition save_trip (trip : Trip.t) : M Db.t Trip.t :=
  begin (
    execute Db.trips (upsert (trip_row trip) (fun old =>
      old <| TripRow.tenant_id := Trip.tenant_id trip |> <| TripRow.payload := column trip |>)) ;;
    _replace_trip_segments trip) ;;
  mret trip.

Definition get_trip (db : Db.t) (tenant_id : string) (trip_id : uuid) : res (option Trip.t) :=
  one_payload (List.map TripRow.payload
    (select (fun r => (TripRow.tenant_id r == tenant_id) && (TripRow.trip_id r == trip_id)) (Db.trips db))).

Definition list_trips (db : Db.t) : res (list Trip.t) :=
  validate_rows (List.map TripRow.payload (rows (Db.trips db))).

(** ** Evidence and assessments *)

Definition evidence_row (tenant_id : string) (trip_id : uuid) (item : EvidenceEnvelope.t) : EvidenceRow.t :=
  {| EvidenceRow.evidence_id := EvidenceEnvelope.evidence_id item;
     EvidenceRow.tenant_id := tenant_id;
     EvidenceRow.trip_id := trip_id;
     EvidenceRow.payload := column item |}.

Definition evidence_of (tenant_id : string) (trip_id : uuid) (r : EvidenceRow.t) : bool :=
  (EvidenceRow.tenant_id r == tenant_id) && (EvidenceRow.trip_id r == trip_id).

Definition save_evidence (tenant_id : string) (trip_id : uuid) (evidence : list EvidenceEnvelope.t)
    : M Db.t unit :=
  begin (
    delete_from Db.evidence_items (evidence_of tenant_id trip_id) ;;
    if_any evidence
      (execute Db.evidence_items (insert (List.map (evidence_row tenant_id trip_id) evidence)))).

Definition get_evidence (db : Db.t) (tenant_id : string) (trip_id : uuid) : res (list EvidenceEnvelope.t) :=
  validate_rows (List.map EvidenceRow.payload
    (select (evidence_of tenant_id trip_id) (Db.evidence_items db))).

Definition assessment_row (tenant_id : string) (assessment : RiskAssessment.t) : AssessmentRow.t :=
  {| AssessmentRow.assessment_id := RiskAssessment.assessment_id assessment;
     AssessmentRow.tenant_id := tenant_id;
     AssessmentRow.trip_id := RiskAssessment.trip_id assessment;
     AssessmentRow.payload := column assessment |}.

Definition save_assessment (tenant_id : string) (assessment : RiskAssessment.t) : M Db.t RiskAssessment.t :=
  begin (execute Db.assessments (insert [assessment_row tenant_id assessment])) ;;
  mret assessment.

(** ** Incidents, profiles, approvals *)

Definition incident_row (incident : Incident.t) : IncidentRow.t :=
  {| IncidentRow.incident_id := Incident.incident_id incident;
     IncidentRow.tenant_id := Incident.tenant_id incident;
     IncidentRow.trip_id := Incident.trip_id incident;
     IncidentRow.payload := column incident |}.

Definition save_incident (incident : Incident.t) : M Db.t Incident.t :=
  begin (execute Db.incidents (upsert (incident_row incident) (fun old =>
    old <| IncidentRow.payload := column incident |>))) ;;
  mret incident.

Definition get_incident (db : Db.t) (tenant_id : string) (incident_id : uuid) : res (option Incident.t) :=
  one_payload (List.map IncidentRow.payload
    (select (fun r => (IncidentRow.tenant_id r == tenant_id) && (IncidentRow.incident_id r == incident_id))
      (Db.incidents db))).

Definition list_incidents (db : Db.t) (tenant_id : string) : res (list Incident.t) :=
  validate_rows (List.map IncidentRow.payload
    (select (fun r => IncidentRow.tenant_id r == tenant_id) (Db.incidents db))).

Definition profile_row (profile : TravelerPreferenceProfile.t) : PreferenceRow.t :=
  {| PreferenceRow.tenant_id := TravelerPreferenceProfile.tenant_id profile;
     PreferenceRow.traveler_id := TravelerPreferenceProfile.traveler_id profile;
     PreferenceRow.payload := column profile |}.

Definition preference_of (tenant_id traveler_id : string) (r : PreferenceRow.t) : bool :=
  (PreferenceRow.tenant_id r == tenant_id) && (PreferenceRow.traveler_id r == traveler_id).

Definition save_profile (profile : TravelerPreferenceProfile.t) : M Db.t TravelerPreferenceProfile.t :=
  begin (execute Db.preferences (upsert (profile_row profile) (fun old =>
    old <| PreferenceRow.payload := column profile |>))) ;;
  mret profile.

Definition get_profile (db : Db.t) (tenant_id traveler_id : string)
    : res (option TravelerPreferenceProfile.t) :=
  one_payload (List.map PreferenceRow.payload
    (select (preference_of tenant_id traveler_id) (Db.preferences db))).

Definition approval_row (approval : ApprovalRecord.t) : ApprovalRow.t :=
  {| ApprovalRow.incident_id := ApprovalRecord.incident_id approval;
     ApprovalRow.payload := column approval |}.

Definition save_approval (approval : ApprovalRecord.t) : M Db.t ApprovalRecord.t :=
  begin (execute Db.approvals (upsert (approval_row approval) (fun old =>
    old <| ApprovalRow.payload := column approval |>))) ;;
  mret approval.

(** ** Idempotency records *)

Definition idempotency_row (record : IdempotencyRecord.t) (tenant_id idempotency_key : string)
    : IdempotencyRow.t :=
  {| IdempotencyRow.tenant_id := tenant_id;
     IdempotencyRow.idempotency_key := idempotency_key;
     IdempotencyRow.payload := column record |}.

Definition claim_of (tenant_id idempotency_key : string) (r : IdempotencyRow.t) : bool :=
  (IdempotencyRow.tenant_id r == tenant_id) && (IdempotencyRow.idempotency_key r == idempotency_key).

(** [update().where(claim).values(payload=as_json(record))] *)
Definition update_claim (tenant_id idempotency_key : string) (record : IdempotencyRecord.t) : M Db.t unit :=
  execute Db.idempotency_records (update (claim_of tenant_id idempotency_key) (fun r =>
    r <| IdempotencyRow.payload := column record |>)).

(** [created] and [now]: the readings of the clock for [created_at] and for the expiry *)
Definition claim_idempotency (tenant_id idempotency_key scope request_hash : string)
    (expires_at created now : instant) : M Db.t (string * IdempotencyRecord.t) :=
  record ← lift_res (construct "IdempotencyRecord" IdempotencyRecord.valid
    {| IdempotencyRecord.tenant_id := tenant_id;
       IdempotencyRecord.idempotency_key := idempotency_key;
       IdempotencyRecord.scope := scope;
       IdempotencyRecord.request_hash := request_hash;
       IdempotencyRecord.state := IdempotencyState.IN_PROGRESS;
       IdempotencyRecord.response_status_code := None;
       IdempotencyRecord.response_payload := None;
       IdempotencyRecord.created_at := created;
       IdempotencyRecord.expires_at := expires_at;
       IdempotencyRecord.completed_at := None |});
  begin (
    returned ← execute_insert_or_ignore Db.idempotency_records
                 (idempotency_row record tenant_id idempotency_key);
    inserted ← query (fun _ => scalar_one_or_none (List.map IdempotencyRow.payload returned));
    if match inserted with Some j => truthy j | None => false end then
      claimed ← lift_res (model_validate (default JNull inserted));
      mret ("execute", claimed)
    else
      current_payload ← query (fun db => scalar_one (List.map IdempotencyRow.payload
        (select_for_update (claim_of tenant_id idempotency_key) (Db.idempotency_records db))));
      current ← lift_res (model_validate current_payload);
      if IdempotencyRecord.expires_at current <=? now then
        update_claim tenant_id idempotency_key record ;; mret ("execute", record)
      else if (IdempotencyRecord.scope current != scope) ||
              (IdempotencyRecord.request_hash current != request_hash)
      then mret ("conflict", current)
      else if IdempotencyRecord.state current == IdempotencyState.COMPLETED
      then mret ("replay", current)
      else mret ("in_progress", current)).

Definition complete_idempotency (tenant_id idempotency_key request_hash : string)
    (response_status_code : Z) (response_payload : json) (now : instant) : M Db.t IdempotencyRecord.t :=
  begin (
    current_payload ← query (fun db => scalar_one_or_none (List.map IdempotencyRow.payload
      (select_for_update (claim_of tenant_id idempotency_key) (Db.idempotency_records db))));
    if negb match current_payload with Some j => truthy j | None => false end
    then raise (KeyError "idempotency claim not found")
    else
      record ← lift_res (model_validate (default JNull current_payload));
      raise_if (IdempotencyRecord.request_hash record != request_hash)
        (KeyError "idempotency claim does not match request") ;;
      let record := record
        <| IdempotencyRecord.state := IdempotencyState.COMPLETED |>
        <| IdempotencyRecord.response_status_code := Some response_status_code |>
        <| IdempotencyRecord.response_payload := Some response_payload |>
        <| IdempotencyRecord.completed_at := Some now |> in
      update_claim tenant_id idempotency_key record ;;
      mret record).

(** ** Audit events *)

Definition event_row (event : EventRecord.t) : EventRow.t :=
  {| EventRow.event_id := EventRecord.event_id event;
     EventRow.tenant_id := EventRecord.tenant_id event;
     EventRow.payload := column event |}.

Definition record_event (event : EventRecord.t) : M Db.t EventRecord.t :=
  let event := event <| EventRecord.details := redact_dict (EventRecord.details event) |> in
  begin (execute Db.events (insert [event_row event])) ;;
  mret event.

Definition list_events (db : Db.t) (tenant_id : string) : res (list EventRecord.t) :=
  validate_rows (List.map EventRow.payload
    (select (fun r => EventRow.tenant_id r == tenant_id) (Db.events db))).

(** ** Traveler memory *)

Definition proposal_row (proposal : MemoryUpdateProposal.t) : ProposalRow.t :=
  {| ProposalRow.proposal_id := MemoryUpdateProposal.proposal_id proposal;
     ProposalRow.tenant_id := MemoryUpdateProposal.tenant_id proposal;
     ProposalRow.payload := column proposal |}.

Definition save_memory_proposal (proposal : MemoryUpdateProposal.t) : M Db.t MemoryUpdateProposal.t :=
  begin (execute Db.memory_proposals (upsert (proposal_row proposal) (fun old =>
    old <| ProposalRow.payload := column proposal |>))) ;;
  mret proposal.

Definition get_memory_proposal (db : Db.t) (tenant_id : string) (proposal_id : uuid)
    : res (option MemoryUpdateProposal.t) :=
  one_payload (List.map ProposalRow.payload
    (select (fun r => (ProposalRow.tenant_id r == tenant_id) && (ProposalRow.proposal_id r == proposal_id))
      (Db.memory_proposals db))).

Definition delete_traveler_memory (tenant_id traveler_id : string) : M Db.t (dict string Z) :=
  begin (
    profile_rowcount ← execute_delete Db.preferences (preference_of tenant_id traveler_id);
    proposal_rowcount ← execute_delete Db.memory_proposals (fun r =>
      (ProposalRow.tenant_id r == tenant_id) &&
      bool_decide (astext "traveler_id" (ProposalRow.payload r) = Some traveler_id));
    mret [("profiles", profile_rowcount); ("memory_proposals", proposal_rowcount)]).

(** ** Candidate sets, outcomes, feedback, playbooks *)

Definition candidate_set_row (tenant_id : string) (candidate_set : RecoveryCandidateSet.t)
    : CandidateSetRow.t :=
  {| CandidateSetRow.candidate_set_id := RecoveryCandidateSet.candidate_set_id candidate_set;
     CandidateSetRow.tenant_id := tenant_id;
     CandidateSetRow.incident_id := RecoveryCandidateSet.incident_id candidate_set;
     CandidateSetRow.payload := column candidate_set |}.

Definition save_candidate_set (tenant_id : string) (candidate_set : RecoveryCandidateSet.t)
    : M Db.t RecoveryCandidateSet.t :=
  begin (execute Db.candidate_sets (insert [candidate_set_row tenant_id candidate_set])) ;;
  mret candidate_set.

Definition get_candidate_set (db : Db.t) (tenant_id : string) (incident_id candidate_set_id : uuid)
    : res (option RecoveryCandidateSet.t) :=
  one_payload (List.map CandidateSetRow.payload
    (select (fun r => (CandidateSetRow.tenant_id r == tenant_id) &&
                      (CandidateSetRow.incident_id r == incident_id) &&
                      (CandidateSetRow.candidate_set_id r == candidate_set_id)) (Db.candidate_sets db))).

Definition list_candidate_sets (db : Db.t) (tenant_id : string) (incident_id : uuid)
    : res (list RecoveryCandidateSet.t) :=
  validate_rows (List.map CandidateSetRow.payload
    (select (fun r => (CandidateSetRow.tenant_id r == tenant_id) &&
                      (CandidateSetRow.incident_id r == incident_id)) (Db.candidate_sets db))).

Definition outcome_row (tenant_id : string) (outcome : RecoveryCandidateOutcome.t) : OutcomeRow.t :=
  {| OutcomeRow.outcome_id := RecoveryCandidateOutcome.outcome_id outcome;
     OutcomeRow.tenant_id := tenant_id;
     OutcomeRow.incident_id := RecoveryCandidateOutcome.incident_id outcome;
     OutcomeRow.candidate_set_id := RecoveryCandidateOutcome.candidate_set_id outcome;
     OutcomeRow.payload := column outcome |}.

Definition record_candidate_outcome (tenant_id : string) (outcome : RecoveryCandidateOutcome.t)
    : M Db.t RecoveryCandidateOutcome.t :=
  begin (execute Db.candidate_outcomes (insert [outcome_row tenant_id outcome])) ;;
  mret outcome.

Definition list_candidate_outcomes (db : Db.t) (tenant_id : string) (candidate_set_id : uuid)
    : res (list RecoveryCandidateOutcome.t) :=
  sorted outcome_key_leb <$> validate_rows (List.map OutcomeRow.payload
    (select (fun r => (OutcomeRow.tenant_id r == tenant_id) &&
                      (OutcomeRow.candidate_set_id r == candidate_set_id)) (Db.candidate_outcomes db))).

Definition feedback_row (feedback : ManagerFeedback.t) : FeedbackRow.t :=
  {| FeedbackRow.feedback_id := ManagerFeedback.feedback_id feedback;
     FeedbackRow.tenant_id := ManagerFeedback.tenant_id feedback;
     FeedbackRow.incident_id := ManagerFeedback.incident_id feedback;
     FeedbackRow.payload := column feedback |}.

Definition save_manager_feedback (feedback : ManagerFeedback.t) : M Db.t ManagerFeedback.t :=
  begin (execute Db.manager_feedback (insert [feedback_row feedback])) ;;
  mret feedback.

Definition list_manager_feedback (db : Db.t) (tenant_id : string) (incident_id : uuid)
    : res (list ManagerFeedback.t) :=
  sorted (lex_leb ManagerFeedback.created_at
            (fun a b => str_leb (uuid_str (ManagerFeedback.feedback_id a))
                                (uuid_str (ManagerFeedback.feedback_id b)))) <$>
    validate_rows (List.map FeedbackRow.payload
      (select (fun r => (FeedbackRow.tenant_id r == tenant_id) &&
                        (FeedbackRow.incident_id r == incident_id)) (Db.manager_feedback db))).

Definition playbook_row (playbook : TenantPlaybook.t) : PlaybookRow.t :=
  {| PlaybookRow.playbook_id := TenantPlaybook.playbook_id playbook;
     PlaybookRow.tenant_id := TenantPlaybook.tenant_id playbook;
     PlaybookRow.payload := column playbook |}.

Definition get_playbook (db : Db.t) (tenant_id : string) (playbook_id : uuid) : res (option TenantPlaybook.t) :=
  one_payload (List.map PlaybookRow.payload
    (select (fun r => (PlaybookRow.tenant_id r == tenant_id) && (PlaybookRow.playbook_id r == playbook_id))
      (Db.tenant_playbooks db))).

Definition save_playbook (playbook : TenantPlaybook.t) : M Db.t TenantPlaybook.t :=
  begin (
    returned ← execute_insert_or_ignore Db.tenant_playbooks (playbook_row playbook);
    inserted ← query (fun _ => scalar_one_or_none (List.map PlaybookRow.payload returned));
    if match inserted with Some j => truthy j | None => false end
    then lift_res (model_validate (default JNull inserted))
    else
      existing ← query (fun db => scalar_one (List.map PlaybookRow.payload
        (select (fun r => PlaybookRow.playbook_id r == TenantPlaybook.playbook_id playbook)
          (Db.tenant_playbooks db))));
      lift_res (model_validate existing)).

Definition list_approved_playbooks (db : Db.t) (tenant_id : string) : res (list TenantPlaybook.t) :=
  sorted playbook_leb <$> validate_rows (List.map PlaybookRow.payload
    (select (fun r => PlaybookRow.tenant_id r == tenant_id) (Db.tenant_playbooks db))).

(** ** The notification and action outboxes

    The two outboxes run the same statements over their own tables; the section
    states them once. *)

Section Outbox.
Context {R Row : Type} `{Document R} `{Leasable R} `{Table Row} (tbl : Db.t -> table Row) `{!Setter tbl}.
Variables (id_of : R -> uuid) (row_id : Row -> uuid) (row_tenant row_status : Row -> string)
  (payload : Row -> json) (set_payload : json -> Row -> Row).
Variable ready_statuses : list string.   (* the values of QUEUED and RETRY_SCHEDULED *)

(** the body of the loop over the locked rows; [n] leases were already made *)
Fixpoint claim_rows (worker_id : string) (claim_ttl : Z) (timestamp : instant) (fresh : nat -> uuid)
    (n : nat) (locked_rows : list Row) : M Db.t (list R) :=
  match locked_rows with
  | [] => mret []
  | row :: rest =>
      record ← lift_res (model_validate (payload row));
      if timestamp <? lease_next_attempt_at record
      then claim_rows worker_id claim_ttl timestamp fresh n rest
      else if match lease_claim_expires_at record with Some e => timestamp <? e | None => false end
      then claim_rows worker_id claim_ttl timestamp fresh n rest
      else
        let leased := set_lease (fresh n) worker_id timestamp (timestamp + claim_ttl) record in
        execute tbl (update (fun r => row_id r == id_of record) (set_payload (column leased))) ;;
        claimed ← claim_rows worker_id claim_ttl timestamp fresh (S n) rest;
        mret (leased :: claimed)
  end.

(** [where(status IN (...))], and [where(tenant_id = ...)] [if tenant_id:] *)
Definition ready_row (tenant_id : option string) (r : Row) : bool :=
  mem (row_status r) ready_statuses &&
  negb (truthy_opt_str tenant_id && negb (bool_decide (Some (row_tenant r) = tenant_id))).

(** [locked]: the rows that other transactions hold when the query runs *)
Definition claim_due (locked : Row -> bool) (tenant_id : option string) (worker_id : string)
    (claim_ttl : Z) (timestamp : instant) (limit : Z) (fresh : nat -> uuid) : M Db.t (list R) :=
  begin (
    locked_rows ← query (fun db => Ok (select_skip_locked locked limit (ready_row tenant_id) (tbl db)));
    claim_rows worker_id claim_ttl timestamp fresh 0 locked_rows).

(** [select ... for update], the check of the claim, the update and the attempt *)
Definition complete (completed_row : R -> Row -> Row) (insert_attempt : M Db.t unit) (record : R)
    (claim_id : uuid) : M Db.t (option R) :=
  begin (
    found ← query (fun db => scalar_one_or_none (List.map payload
      (select_for_update (fun r => row_id r == id_of record) (tbl db))));
    if negb match found with Some j => truthy j | None => false end then mret None
    else
      current ← lift_res (model_validate (default JNull found));
      if negb (bool_decide (lease_claim_id (current : R) = Some claim_id)) then mret None
      else
        let completed := clear_lease record in
        execute tbl (update (fun r => row_id r == id_of record) (completed_row completed)) ;;
        insert_attempt ;;
        mret (Some completed)).

End Outbox.

Definition notification_row (n : NotificationRecord.t) : NotificationRow.t :=
  {| NotificationRow.notification_id := NotificationRecord.notification_id n;
     NotificationRow.tenant_id := NotificationRecord.tenant_id n;
     NotificationRow.status := value (NotificationRecord.status n);
     NotificationRow.payload := column n |}.

Definition notification_attempt_row (a : NotificationAttempt.t) : NotificationAttemptRow.t :=
  {| NotificationAttemptRow.attempt_id := NotificationAttempt.attempt_id a;
     NotificationAttemptRow.notification_id := NotificationAttempt.notification_id a;
     NotificationAttemptRow.payload := column a |}.

Definition ready_notifications : list string :=
  [value NotificationStatus.QUEUED; value NotificationStatus.RETRY_SCHEDULED].

Definition save_notification (notification : NotificationRecord.t) : M Db.t NotificationRecord.t :=
  begin (execute Db.notifications (upsert (notification_row notification) (fun old =>
    old <| NotificationRow.status := value (NotificationRecord.status notification) |>
        <| NotificationRow.payload := column notification |>))) ;;
  mret notification.

Definition get_notification (db : Db.t) (tenant_id : string) (notification_id : uuid)
    : res (option NotificationRecord.t) :=
  one_payload (List.map NotificationRow.payload
    (select (fun r => (NotificationRow.tenant_id r == tenant_id) &&
                      (NotificationRow.notification_id r == notification_id)) (Db.notifications db))).

Definition list_notifications (db : Db.t) (tenant_id : string)
    (statuses : option (list NotificationStatus.t)) : res (list NotificationRecord.t) :=
  let in_statuses r := match statuses with
                       | Some ((_ :: _) as l) => mem (NotificationRow.status r) (List.map value l)
                       | _ => true
                       end in
  validate_rows (List.map NotificationRow.payload
    (select (fun r => (NotificationRow.tenant_id r == tenant_id) && in_statuses r) (Db.notifications db))).

Definition list_due_notifications (db : Db.t) (timestamp : instant) : res (list NotificationRecord.t) :=
  List.filter (fun n => NotificationRecord.next_attempt_at n <=? timestamp) <$>
    validate_rows (List.map NotificationRow.payload
      (select (fun r => mem (NotificationRow.status r) ready_notifications) (Db.notifications db))).

Definition claim_due_notifications (locked : NotificationRow.t -> bool) (tenant_id : option string)
    (worker_id : string) (claim_ttl : Z) (timestamp : instant) (limit : Z) (fresh : nat -> uuid)
    : M Db.t (list NotificationRecord.t) :=
  claim_due Db.notifications NotificationRecord.notification_id NotificationRow.notification_id
    NotificationRow.tenant_id NotificationRow.status NotificationRow.payload
    (fun j r => r <| NotificationRow.payload := j |>) ready_notifications
    locked tenant_id worker_id claim_ttl timestamp limit fresh.

Definition record_notification_attempt (attempt : NotificationAttempt.t) : M Db.t NotificationAttempt.t :=
  begin (execute Db.notification_attempts (insert [notification_attempt_row attempt])) ;;
  mret attempt.

Definition complete_notification_delivery (notification : NotificationRecord.t)
    (attempt : NotificationAttempt.t) (claim_id : uuid) : M Db.t (option NotificationRecord.t) :=
  complete Db.notifications NotificationRecord.notification_id NotificationRow.notification_id
    NotificationRow.payload
    (fun completed r => r <| NotificationRow.status := value (NotificationRecord.status completed) |>
                          <| NotificationRow.payload := column completed |>)
    (execute Db.notification_attempts (insert [notification_attempt_row attempt]))
    notification claim_id.

Definition list_notification_attempts (db : Db.t) (tenant_id : string) (notification_id : uuid)
    : res (list NotificationAttempt.t) :=
  found ← get_notification db tenant_id notification_id;
  match found with
  | None => Ok []
  | Some _ =>
      validate_rows (List.map NotificationAttemptRow.payload
        (select (fun r => NotificationAttemptRow.notification_id r == notification_id)
          (Db.notification_attempts db)))
  end.

Definition action_row (action : ActionDispatchRecord.t) : ActionRow.t :=
  {| ActionRow.action_dispatch_id := ActionDispatchRecord.action_dispatch_id action;
     ActionRow.tenant_id := ActionDispatchRecord.tenant_id action;
     ActionRow.incident_id := ActionDispatchRecord.incident_id action;
     ActionRow.status := value (ActionDispatchRecord.status action);
     ActionRow.payload := column action |}.

Definition action_attempt_row (a : ActionDispatchAttempt.t) : ActionAttemptRow.t :=
  {| ActionAttemptRow.attempt_id := ActionDispatchAttempt.attempt_id a;
     ActionAttemptRow.action_dispatch_id := ActionDispatchAttempt.action_dispatch_id a;
     ActionAttemptRow.payload := column a |}.

Definition ready_actions : list string :=
  [value ActionDispatchStatus.QUEUED; value ActionDispatchStatus.RETRY_SCHEDULED].

Definition save_action_dispatch (action : ActionDispatchRecord.t) : M Db.t ActionDispatchRecord.t :=
  begin (execute Db.action_dispatches (upsert (action_row action) (fun old =>
    old <| ActionRow.status := value (ActionDispatchRecord.status action) |>
        <| ActionRow.payload := column action |>))) ;;
  mret action.

Definition list_action_dispatches (db : Db.t) (tenant_id : string) (incident_id : uuid)
    : res (list ActionDispatchRecord.t) :=
  validate_rows (List.map ActionRow.payload
    (select (fun r => (ActionRow.tenant_id r == tenant_id) && (ActionRow.incident_id r == incident_id))
      (Db.action_dispatches db))).

Definition claim_due_action_dispatches (locked : ActionRow.t -> bool) (tenant_id : option string)
    (worker_id : string) (claim_ttl : Z) (timestamp : instant) (limit : Z) (fresh : nat -> uuid)
    : M Db.t (list ActionDispatchRecord.t) :=
  claim_due Db.action_dispatches ActionDispatchRecord.action_dispatch_id ActionRow.action_dispatch_id
    ActionRow.tenant_id ActionRow.status ActionRow.payload
    (fun j r => r <| ActionRow.payload := j |>) ready_actions
    locked tenant_id worker_id claim_ttl timestamp limit fresh.

Definition record_action_dispatch_attempt (attempt : ActionDispatchAttempt.t)
    : M Db.t ActionDispatchAttempt.t :=
  begin (execute Db.action_dispatch_attempts (insert [action_attempt_row attempt])) ;;
  mret attempt.

Definition complete_action_dispatch (action : ActionDispatchRecord.t) (attempt : ActionDispatchAttempt.t)
    (claim_id : uuid) : M Db.t (option ActionDispatchRecord.t) :=
  complete Db.action_dispatches ActionDispatchRecord.action_dispatch_id ActionRow.action_dispatch_id
    ActionRow.payload
    (fun completed r => r <| ActionRow.status := value (ActionDispatchRecord.status completed) |>
                          <| ActionRow.payload := column completed |>)
    (execute Db.action_dispatch_attempts (insert [action_attempt_row attempt]))
    action claim_id.

Definition list_action_dispatch_attempts (db : Db.t) (tenant_id : string) (action_dispatch_id : uuid)
    : res (list ActionDispatchAttempt.t) :=
  action_payload ← scalar_one_or_none (List.map ActionRow.payload
    (select (fun r => (ActionRow.tenant_id r == tenant_id) &&
                      (ActionRow.action_dispatch_id r == action_dispatch_id)) (Db.action_dispatches db)));
  if negb match action_payload with Some j => truthy j | None => false end then Ok []
  else
    validate_rows (List.map ActionAttemptRow.payload
      (select (fun r => ActionAttemptRow.action_dispatch_id r == action_dispatch_id)
        (Db.action_dispatch_attempts db))).

End Postgres.
