(* ===== verification/PgGovernance.v ===== *)
(** * [apps/api/postgres_repository.py]: governance records, controls, erasure, retention *)

From S2P Require Import Prelude PyData Float64 PyStd Enums Models Recovery Security.
From S2P Require Import Repository Sql PgTables Postgres.

Section PgGovernance.
Context `{Sql} `{Documents}.

(** ** Memory audits, change records, provider onboarding *)

Definition memory_audit_row (event : MemoryAuditEvent.t) : MemoryAuditRow.t :=
  {| MemoryAuditRow.audit_id := MemoryAuditEvent.audit_id event;
     MemoryAuditRow.tenant_id := MemoryAuditEvent.tenant_id event;
     MemoryAuditRow.traveler_id := MemoryAuditEvent.traveler_id event;
     MemoryAuditRow.payload := column event |}.

Definition record_memory_audit (event : MemoryAuditEvent.t) : M Db.t MemoryAuditEvent.t :=
  let event := event <| MemoryAuditEvent.details := redact_dict (MemoryAuditEvent.details event) |> in
  begin (execute Db.memory_audit_events (insert [memory_audit_row event])) ;;
  mret event.

Definition list_memory_audit (db : Db.t) (tenant_id : string) (traveler_id : option string)
    : res (list MemoryAuditEvent.t) :=
  validate_rows (List.map MemoryAuditRow.payload
    (select (fun r => (MemoryAuditRow.tenant_id r == tenant_id) &&
        negb (truthy_opt_str traveler_id && negb (bool_decide (Some (MemoryAuditRow.traveler_id r) = traveler_id))))
      (Db.memory_audit_events db))).

Definition change_row (record : ChangeRecord.t) : ChangeRow.t :=
  {| ChangeRow.change_id := ChangeRecord.change_id record;
     ChangeRow.tenant_id := ChangeRecord.tenant_id record;
     ChangeRow.change_type := value (ChangeRecord.change_type record);
     ChangeRow.payload := column record |}.

Definition save_change_record (record : ChangeRecord.t) : M Db.t ChangeRecord.t :=
  begin (execute Db.change_records (insert [change_row record])) ;;
  mret record.

Definition list_change_records (db : Db.t) (tenant_id : string) : res (list ChangeRecord.t) :=
  validate_rows (List.map ChangeRow.payload
    (select (fun r => ChangeRow.tenant_id r == tenant_id) (Db.change_records db))).

Definition onboarding_row (record : ProviderOnboardingRecord.t) : OnboardingRow.t :=
  {| OnboardingRow.provider_onboarding_id := ProviderOnboardingRecord.provider_onboarding_id record;
     OnboardingRow.tenant_id := ProviderOnboardingRecord.tenant_id record;
     OnboardingRow.status := value (ProviderOnboardingRecord.status record);
     OnboardingRow.payload := column record |}.

Definition save_provider_onboarding (record : ProviderOnboardingRecord.t) : M Db.t ProviderOnboardingRecord.t :=
  begin (execute Db.provider_onboarding_records (insert [onboarding_row record])) ;;
  mret record.

Definition list_provider_onboarding (db : Db.t) (tenant_id : string) : res (list ProviderOnboardingRecord.t) :=
  validate_rows (List.map OnboardingRow.payload
    (select (fun r => OnboardingRow.tenant_id r == tenant_id) (Db.provider_onboarding_records db))).

(** ** Runtime controls *)

Definition override_row (record : RuntimeControlChange.t) : ControlOverrideRow.t :=
  {| ControlOverrideRow.tenant_id := RuntimeControlChange.tenant_id record;
     ControlOverrideRow.control_name := value (RuntimeControlChange.control_name record);
     ControlOverrideRow.payload := column record |}.
Definition control_change_row (record : RuntimeControlChange.t) : ControlChangeRow.t :=
  {| ControlChangeRow.control_change_id := RuntimeControlChange.control_change_id record;
     ControlChangeRow.tenant_id := RuntimeControlChange.tenant_id record;
     ControlChangeRow.control_name := value (RuntimeControlChange.control_name record);
     ControlChangeRow.payload := column record |}.

(** [record if not (record and record.expires_at and record.expires_at <= now) else None] *)
Definition unexpired {A} (expires_at : A -> option datetime) (now : instant) (record : option A)
    : res (option A) :=
  match record with
  | None => Ok None
  | Some r =>
      expired ← control_expired (expires_at r) now;
      Ok (if expired : bool then None else Some r)
  end.

Definition get_runtime_control_override (db : Db.t) (tenant_id : string)
    (control_name : RuntimeControlName.t) (now : instant) : res (option RuntimeControlChange.t) :=
  record ← one_payload (List.map ControlOverrideRow.payload
    (select (fun r => (ControlOverrideRow.tenant_id r == tenant_id) &&
                      (ControlOverrideRow.control_name r == value control_name))
      (Db.runtime_control_overrides db)));
  unexpired RuntimeControlChange.expires_at now record.

Definition save_runtime_control_change (record : RuntimeControlChange.t) : M Db.t RuntimeControlChange.t :=
  begin (
    execute Db.runtime_control_changes (insert [control_change_row record]) ;;
    execute Db.runtime_control_overrides (upsert (override_row record) (fun old =>
      old <| ControlOverrideRow.payload := column record |>))) ;;
  mret record.

(** ids are compared as PostgreSQL compares uuids: bytewise *)
Definition list_runtime_control_changes (db : Db.t) (tenant_id : string) : res (list RuntimeControlChange.t) :=
  validate_rows (List.map ControlChangeRow.payload
    (select_ordered (fun a b => (ControlChangeRow.control_change_id a <=? ControlChangeRow.control_change_id b)%N)
      (fun r => ControlChangeRow.tenant_id r == tenant_id) (Db.runtime_control_changes db))).

Definition platform_override_row (record : PlatformRuntimeControlChange.t) : PlatformOverrideRow.t :=
  {| PlatformOverrideRow.control_name := value (PlatformRuntimeControlChange.control_name record);
     PlatformOverrideRow.payload := column record |}.
Definition platform_change_row (record : PlatformRuntimeControlChange.t) : PlatformChangeRow.t :=
  {| PlatformChangeRow.control_change_id := PlatformRuntimeControlChange.control_change_id record;
     PlatformChangeRow.control_name := value (PlatformRuntimeControlChange.control_name record);
     PlatformChangeRow.payload := column record |}.

Definition get_platform_control_override (db : Db.t) (control_name : RuntimeControlName.t)
    (now : instant) : res (option PlatformRuntimeControlChange.t) :=
  record ← one_payload (List.map PlatformOverrideRow.payload
    (select (fun r => PlatformOverrideRow.control_name r == value control_name)
      (Db.platform_runtime_control_overrides db)));
  unexpired PlatformRuntimeControlChange.expires_at now record.

Definition save_platform_control_change (record : PlatformRuntimeControlChange.t)
    : M Db.t PlatformRuntimeControlChange.t :=
  begin (
    execute Db.platform_runtime_control_changes (insert [platform_change_row record]) ;;
    execute Db.platform_runtime_control_overrides (upsert (platform_override_row record) (fun old =>
      old <| PlatformOverrideRow.payload := column record |>))) ;;
  mret record.

Definition list_platform_control_changes (db : Db.t) : res (list PlatformRuntimeControlChange.t) :=
  validate_rows (List.map PlatformChangeRow.payload
    (select_ordered (fun a b => (PlatformChangeRow.control_change_id a <=? PlatformChangeRow.control_change_id b)%N)
      (fun _ => true) (Db.platform_runtime_control_changes db))).

(** ** Original uploads, legal holds, deletion requests *)

Definition upload_row (record : OriginalUploadRecord.t) : UploadRow.t :=
  {| UploadRow.original_upload_id := OriginalUploadRecord.original_upload_id record;
     UploadRow.tenant_id := OriginalUploadRecord.tenant_id record;
     UploadRow.status := value (OriginalUploadRecord.status record);
     UploadRow.payload := column record |}.

Definition save_original_upload (record : OriginalUploadRecord.t) : M Db.t OriginalUploadRecord.t :=
  begin (execute Db.original_uploads (upsert (upload_row record) (fun old =>
    old <| UploadRow.status := value (OriginalUploadRecord.status record) |>
        <| UploadRow.payload := column record |>))) ;;
  mret record.

Definition get_original_upload (db : Db.t) (tenant_id : string) (original_upload_id : uuid)
    : res (option OriginalUploadRecord.t) :=
  one_payload (List.map UploadRow.payload
    (select (fun r => (UploadRow.tenant_id r == tenant_id) &&
                      (UploadRow.original_upload_id r == original_upload_id)) (Db.original_uploads db))).

Definition hold_status (hold : LegalHoldRecord.t) : string :=
  match LegalHoldRecord.released_at hold with Some _ => "released" | None => "active" end.

Definition legal_hold_row (hold : LegalHoldRecord.t) : LegalHoldRow.t :=
  {| LegalHoldRow.legal_hold_id := LegalHoldRecord.legal_hold_id hold;
     LegalHoldRow.tenant_id := LegalHoldRecord.tenant_id hold;
     LegalHoldRow.status := hold_status hold;
     LegalHoldRow.payload := column hold |}.

Definition save_legal_hold (hold : LegalHoldRecord.t) : M Db.t LegalHoldRecord.t :=
  begin (execute Db.legal_holds (upsert (legal_hold_row hold) (fun old =>
    old <| LegalHoldRow.status := hold_status hold |> <| LegalHoldRow.payload := column hold |>))) ;;
  mret hold.

Definition get_legal_hold (db : Db.t) (tenant_id : string) (legal_hold_id : uuid)
    : res (option LegalHoldRecord.t) :=
  one_payload (List.map LegalHoldRow.payload
    (select (fun r => (LegalHoldRow.tenant_id r == tenant_id) && (LegalHoldRow.legal_hold_id r == legal_hold_id))
      (Db.legal_holds db))).

Definition list_legal_holds (db : Db.t) (tenant_id : string) : res (list LegalHoldRecord.t) :=
  validate_rows (List.map LegalHoldRow.payload
    (select_ordered (fun a b => (LegalHoldRow.legal_hold_id a <=? LegalHoldRow.legal_hold_id b)%N)
      (fun r => LegalHoldRow.tenant_id r == tenant_id) (Db.legal_holds db))).

(** the ids of the rows whose document satisfies a test *)
Definition ids_where {Row A ID} `{Document A} (payload : Row -> json) (id : Row -> ID) (p : A -> res bool)
    (found : list Row) : res (list ID) :=
  List.map id <$> filter_res (fun row => x ← model_validate (payload row); p x) found.

Definition trip_ids_of (tenant_id traveler_id : string) : list TripRow.t -> res (list uuid) :=
  ids_where TripRow.payload TripRow.trip_id (fun trip =>
    Ok ((Trip.tenant_id trip == tenant_id) && (Trip.traveler_id trip == traveler_id))).

Definition active_legal_holds_for_traveler (db : Db.t) (tenant_id traveler_id : string)
    (timestamp : instant) : res (list LegalHoldRecord.t) :=
  trip_ids ← trip_ids_of tenant_id traveler_id (rows (Db.trips db));
  holds ← list_legal_holds db tenant_id;
  filter_res (fun hold =>
    active ← LegalHoldRecord.is_active hold timestamp;
    Ok (active && hold_covers_traveler traveler_id trip_ids hold)) holds.

Definition deletion_row (request : DeletionRequest.t) : DeletionRow.t :=
  {| DeletionRow.deletion_request_id := DeletionRequest.deletion_request_id request;
     DeletionRow.tenant_id := DeletionRequest.tenant_id request;
     DeletionRow.traveler_id := DeletionRequest.traveler_id request;
     DeletionRow.status := value (DeletionRequest.status request);
     DeletionRow.payload := column request |}.

Definition save_deletion_request (request : DeletionRequest.t) : M Db.t DeletionRequest.t :=
  begin (execute Db.deletion_requests (upsert (deletion_row request) (fun old =>
    old <| DeletionRow.status := value (DeletionRequest.status request) |>
        <| DeletionRow.payload := column request |>))) ;;
  mret request.

Definition get_deletion_request (db : Db.t) (tenant_id : string) (deletion_request_id : uuid)
    : res (option DeletionRequest.t) :=
  one_payload (List.map DeletionRow.payload
    (select (fun r => (DeletionRow.tenant_id r == tenant_id) &&
                      (DeletionRow.deletion_request_id r == deletion_request_id)) (Db.deletion_requests db))).

Definition deletion_order (a b : DeletionRow.t) : bool :=
  (DeletionRow.deletion_request_id a <=? DeletionRow.deletion_request_id b)%N.

Definition list_deletion_requests (db : Db.t) (tenant_id : string) (traveler_id : option string)
    : res (list DeletionRequest.t) :=
  validate_rows (List.map DeletionRow.payload
    (select_ordered deletion_order (fun r => (DeletionRow.tenant_id r == tenant_id) &&
        negb (truthy_opt_str traveler_id && negb (bool_decide (Some (DeletionRow.traveler_id r) = traveler_id))))
      (Db.deletion_requests db))).

Definition list_pending_deletion_requests (db : Db.t) : res (list DeletionRequest.t) :=
  validate_rows (List.map DeletionRow.payload
    (select_ordered deletion_order (fun r => mem (DeletionRow.status r)
        [value DeletionRequestStatus.PENDING; value DeletionRequestStatus.BLOCKED_BY_LEGAL_HOLD])
      (Db.deletion_requests db))).

(** ** Erasure *)

(** the deletes that [erase_traveler_data] and [purge_expired] share, in the order
    given by each; [IN (SELECT ...)] reads the dispatches first *)
Definition delete_action_attempts (incident_ids : list uuid) : M Db.t unit :=
  action_dispatch_ids ← gets (fun db => List.map ActionRow.action_dispatch_id
    (select (fun r => mem (ActionRow.incident_id r) incident_ids) (Db.action_dispatches db)));
  delete_from Db.action_dispatch_attempts (fun r =>
    mem (ActionAttemptRow.action_dispatch_id r) action_dispatch_ids).

Definition erase_preferences (tenant_id traveler_id : string) : M Db.t (dict string Z) :=
  profile_present ← query (fun db => scalar_one_or_none (List.map PreferenceRow.traveler_id
    (select (preference_of tenant_id traveler_id) (Db.preferences db))));
  proposal_ids ← query (fun db =>
    ids_where ProposalRow.payload ProposalRow.proposal_id
      (fun p => Ok (MemoryUpdateProposal.traveler_id p == traveler_id))
      (select (fun r => ProposalRow.tenant_id r == tenant_id) (Db.memory_proposals db)));
  delete_from Db.preferences (preference_of tenant_id traveler_id) ;;
  if_any proposal_ids
    (delete_from Db.memory_proposals (fun r => mem (ProposalRow.proposal_id r) proposal_ids)) ;;
  mret [("profiles", match profile_present with Some _ => 1 | None => 0 end);
        ("memory_proposals", len proposal_ids)].

Definition erase_trips (tenant_id traveler_id : string) : M Db.t (list uuid * list uuid * list uuid) :=
  trip_ids ← query (fun db => trip_ids_of tenant_id traveler_id (rows (Db.trips db)));
  incident_ids ← query (fun db =>
    ids_where IncidentRow.payload IncidentRow.incident_id (fun incident =>
      Ok ((Incident.tenant_id incident == tenant_id) && mem (Incident.trip_id incident) trip_ids))
      (rows (Db.incidents db)));
  notification_ids ← query (fun db =>
    ids_where NotificationRow.payload NotificationRow.notification_id
      (fun n => Ok (NotificationRecord.traveler_id n == traveler_id))
      (select (fun r => NotificationRow.tenant_id r == tenant_id) (Db.notifications db)));
  if_any notification_ids (
    delete_from Db.notification_attempts (fun r =>
      mem (NotificationAttemptRow.notification_id r) notification_ids) ;;
    delete_from Db.notifications (fun r => mem (NotificationRow.notification_id r) notification_ids)) ;;
  if_any incident_ids (
    delete_action_attempts incident_ids ;;
    delete_from Db.action_dispatches (fun r => mem (ActionRow.incident_id r) incident_ids) ;;
    delete_from Db.approvals (fun r => mem (ApprovalRow.incident_id r) incident_ids) ;;
    delete_from Db.candidate_sets (fun r => mem (CandidateSetRow.incident_id r) incident_ids) ;;
    delete_from Db.candidate_outcomes (fun r => mem (OutcomeRow.incident_id r) incident_ids) ;;
    delete_from Db.manager_feedback (fun r => mem (FeedbackRow.incident_id r) incident_ids) ;;
    delete_from Db.incidents (fun r => mem (IncidentRow.incident_id r) incident_ids)) ;;
  if_any trip_ids (
    delete_from Db.evidence_items (fun r => mem (EvidenceRow.trip_id r) trip_ids) ;;
    delete_from Db.assessments (fun r => mem (AssessmentRow.trip_id r) trip_ids) ;;
    delete_from Db.trip_segments (fun r => mem (SegmentRow.trip_id r) trip_ids) ;;
    delete_from Db.trips (fun r => mem (TripRow.trip_id r) trip_ids)) ;;
  mret (trip_ids, incident_ids, notification_ids).

Definition erase_traveler_data (tenant_id traveler_id : string) (scope : DeletionRequestScope.t)
    : M Db.t (dict string Z) :=
  begin (
    counts ← erase_preferences tenant_id traveler_id;
    if scope == DeletionRequestScope.PREFERENCE_MEMORY then mret counts
    else
      erased ← erase_trips tenant_id traveler_id;
      let '(trip_ids, incident_ids, notification_ids) := erased in
      mret (counts ++
        [("trips", len trip_ids); ("evidence", len trip_ids); ("assessments", len trip_ids);
         ("incidents", len incident_ids); ("notifications", len notification_ids)])).

(** ** Retention *)

(** what [purge_expired] selects before it deletes *)
Record expired : Type := Expired {
  expired_trips : list uuid;
  expired_incidents : list uuid;
  expired_profiles : list (string * string);
  expired_proposals : list uuid;
  expired_notifications : list uuid;
  expired_uploads : list uuid;
  expired_events : list uuid;
  expired_memory_audits : list uuid
}.

Definition select_expired (db : Db.t) (before original_upload_cutoff audit_cutoff now : instant) : res expired :=
  let trip_rows := rows (Db.trips db) in
  active_rows ← filter_res (fun row =>
    hold ← model_validate (LegalHoldRow.payload row);
    LegalHoldRecord.is_active hold now) (rows (Db.legal_holds db));
  active_holds ← validate_rows (List.map LegalHoldRow.payload active_rows);
  parsed_trips ← mapM (fun row => trip ← model_validate (TripRow.payload row);
                                  Ok (TripRow.trip_id row, trip)) trip_rows;
  let held_trip_ids := dict_keys (dict_filter (fun trip_id trip =>
    existsb (fun hold => hold_covers_trip hold trip_id trip) active_holds) parsed_trips) in
  let trip_ids := dict_keys (dict_filter (fun trip_id trip =>
    (Trip.created_at trip <? before) && negb (mem trip_id held_trip_ids)) parsed_trips) in
  incident_ids ← ids_where IncidentRow.payload IncidentRow.incident_id
    (fun incident => Ok (mem (Incident.trip_id incident) trip_ids)) (rows (Db.incidents db));
  profile_rows ← filter_res (fun row =>
    profile ← model_validate (PreferenceRow.payload row);
    Ok ((TravelerPreferenceProfile.updated_at profile <? before) &&
        negb (held_traveler active_holds (PreferenceRow.tenant_id row, PreferenceRow.traveler_id row)) &&
        negb (held_tenant active_holds (PreferenceRow.tenant_id row)))) (rows (Db.preferences db));
  proposal_ids ← ids_where ProposalRow.payload ProposalRow.proposal_id
    (proposal_expired active_holds before) (rows (Db.memory_proposals db));
  notification_ids ← ids_where NotificationRow.payload NotificationRow.notification_id
    (fun n => Ok (NotificationRecord.created_at n <? before)) (rows (Db.notifications db));
  upload_rows ← filter_res (fun row =>
    upload ← model_validate (UploadRow.payload row);
    Ok ((OriginalUploadRecord.created_at upload <? original_upload_cutoff) &&
        negb (held_tenant active_holds (UploadRow.tenant_id row)))) (rows (Db.original_uploads db));
  event_ids ← ids_where EventRow.payload EventRow.event_id
    (fun e => Ok (EventRecord.emitted_at e <? audit_cutoff)) (rows (Db.events db));
  memory_audit_ids ← ids_where MemoryAuditRow.payload MemoryAuditRow.audit_id
    (fun e => Ok (MemoryAuditEvent.occurred_at e <? audit_cutoff)) (rows (Db.memory_audit_events db));
  Ok (Expired trip_ids incident_ids
        (List.map (fun row => (PreferenceRow.tenant_id row, PreferenceRow.traveler_id row)) profile_rows)
        proposal_ids notification_ids (List.map UploadRow.original_upload_id upload_rows)
        event_ids memory_audit_ids).

Definition delete_expired (x : expired) : M Db.t unit :=
  if_any (expired_trips x) (
    delete_from Db.evidence_items (fun r => mem (EvidenceRow.trip_id r) (expired_trips x)) ;;
    delete_from Db.assessments (fun r => mem (AssessmentRow.trip_id r) (expired_trips x))) ;;
  if_any (expired_incidents x) (
    delete_from Db.approvals (fun r => mem (ApprovalRow.incident_id r) (expired_incidents x)) ;;
    delete_from Db.candidate_sets (fun r => mem (CandidateSetRow.incident_id r) (expired_incidents x)) ;;
    delete_from Db.candidate_outcomes (fun r => mem (OutcomeRow.incident_id r) (expired_incidents x)) ;;
    delete_from Db.manager_feedback (fun r => mem (FeedbackRow.incident_id r) (expired_incidents x)) ;;
    delete_action_attempts (expired_incidents x) ;;
    delete_from Db.action_dispatches (fun r => mem (ActionRow.incident_id r) (expired_incidents x)) ;;
    delete_from Db.incidents (fun r => mem (IncidentRow.incident_id r) (expired_incidents x))) ;;
  if_any (expired_trips x)
    (delete_from Db.trips (fun r => mem (TripRow.trip_id r) (expired_trips x))) ;;
  for_each (expired_profiles x) (fun '(tenant_id, traveler_id) =>
    delete_from Db.preferences (preference_of tenant_id traveler_id)) ;;
  if_any (expired_proposals x)
    (delete_from Db.memory_proposals (fun r => mem (ProposalRow.proposal_id r) (expired_proposals x))) ;;
  if_any (expired_notifications x) (
    delete_from Db.notification_attempts (fun r =>
      mem (NotificationAttemptRow.notification_id r) (expired_notifications x)) ;;
    delete_from Db.notifications (fun r =>
      mem (NotificationRow.notification_id r) (expired_notifications x))) ;;
  if_any (expired_uploads x)
    (delete_from Db.original_uploads (fun r => mem (UploadRow.original_upload_id r) (expired_uploads x))) ;;
  if_any (expired_events x)
    (delete_from Db.events (fun r => mem (EventRow.event_id r) (expired_events x))) ;;
  if_any (expired_memory_audits x)
    (delete_from Db.memory_audit_events (fun r => mem (MemoryAuditRow.audit_id r) (expired_memory_audits x))).

Definition purge_expired (before : instant) (original_upload_before audit_before : option instant)
    (now : instant) : M Db.t (dict string Z) :=
  let original_upload_cutoff := default before original_upload_before in
  let audit_cutoff := default before audit_before in
  begin (
    x ← query (fun db => select_expired db before original_upload_cutoff audit_cutoff now);
    delete_expired x ;;
    mret [("trips", len (expired_trips x)); ("evidence", len (expired_trips x));
          ("assessments", len (expired_trips x)); ("incidents", len (expired_incidents x));
          ("profiles", len (expired_profiles x)); ("memory_proposals", len (expired_proposals x));
          ("notifications", len (expired_notifications x)); ("original_uploads", len (expired_uploads x));
          ("audit_events", len (expired_events x));
          ("memory_audits", len (expired_memory_audits x))]).

End PgGovernance.
