(* ===== verification/ColumnBounds.v ===== *)
(** * The columns hold what the service stores

    A record is validated against its model, its row against the widths of the
    table.  For the models that bound their identifiers the first implies the
    second.  Incidents, preferences, proposals and events bound nothing, and
    candidate sets and outcomes take the tenant of the request: their rows fit
    exactly when those identifiers have at most 128 characters. *)

From S2P Require Import Prelude PyData Float64 PyStd Enums Models Recovery Security Repository StoredTypes.
From S2P Require Import Ingestion ApiCore Samples ApiTrips ApiIncidents Service HandlerTypes Sql PgTables Postgres PgGovernance.

Section Columns.
Context `{Sql} `{Documents}.

Lemma len_fits lo hi n s : len_in lo hi s = true -> hi <= n -> varchar n s = true.
Proof. unfold len_in, varchar. intros Hl Hn. bool_hyps. apply Z.leb_le. lia. Qed.
Lemma chars_fit lo hi p n s : chars_in lo hi p s = true -> hi <= n -> varchar n s = true.
Proof. intros [Hl _]%andb_true_iff. by apply len_fits with (lo := lo). Qed.

(** a bound of the model at least as tight as the column's; the values of an enum
    one by one *)
Ltac fits_column :=
  match goal with
  | Hl : len_in ?lo ?hi ?s = true |- varchar ?n ?s = true => apply (len_fits lo hi n s Hl); lia
  | Hl : chars_in ?lo ?hi ?p ?s = true |- varchar ?n ?s = true => apply (chars_fit lo hi p n s Hl); lia
  | |- varchar _ (match ?e with _ => _ end) = true => destruct e; reflexivity
  end.
Ltac row_fits := intros; simpl; conjuncts; try fits_column.

Lemma trip_fits trip : Trip.valid trip = true ->
  fits (trip_row trip) = true /\ forall s, In s (Trip.segments trip) -> fits (segment_row trip s) = true.
Proof.
  unfold Trip.valid, TripCreate.valid. intros Ht. conj_hyps.
  match goal with Hs : forallb FlightSegmentCreate.valid _ = true |- _ => rename Hs into Hsegments end.
  change (TripCreate.tenant_id (Trip.to_create trip)) with (Trip.tenant_id trip) in *.
  split; [row_fits|].
  intros s Hin. apply (proj1 (forallb_forall _ _) Hsegments) in Hin. unfold FlightSegmentCreate.valid in Hin.
  row_fits.
Qed.

Lemma feedback_fits f : ManagerFeedback.valid f = true -> fits (feedback_row f) = true.
Proof. unfold ManagerFeedback.valid. row_fits. Qed.
Lemma playbook_fits p : TenantPlaybook.valid p = true -> fits (playbook_row p) = true.
Proof. unfold TenantPlaybook.valid. row_fits. Qed.
Lemma notification_fits n : NotificationRecord.valid n = true -> fits (notification_row n) = true.
Proof. unfold NotificationRecord.valid. row_fits. Qed.
Lemma action_fits a : ActionDispatchRecord.valid a = true -> fits (action_row a) = true.
Proof. unfold ActionDispatchRecord.valid. row_fits. Qed.
Lemma memory_audit_fits e : MemoryAuditEvent.valid e = true -> fits (memory_audit_row e) = true.
Proof. unfold MemoryAuditEvent.valid. row_fits. Qed.
Lemma change_fits c : ChangeRecord.valid c = true -> fits (change_row c) = true.
Proof. unfold ChangeRecord.valid. row_fits. Qed.
Lemma onboarding_fits c : ProviderOnboardingRecord.valid c = true -> fits (onboarding_row c) = true.
Proof. unfold ProviderOnboardingRecord.valid. row_fits. Qed.
Lemma control_fits c : RuntimeControlChange.valid c = true ->
  fits (override_row c) = true /\ fits (control_change_row c) = true.
Proof. unfold RuntimeControlChange.valid. intros Hc. split; row_fits. Qed.
Lemma platform_fits c : fits (platform_override_row c) = true /\ fits (platform_change_row c) = true.
Proof. split; row_fits. Qed.
Lemma upload_fits u : OriginalUploadRecord.valid u = true -> fits (upload_row u) = true.
Proof. unfold OriginalUploadRecord.valid. row_fits. Qed.
Lemma hold_fits h : LegalHoldRecord.valid h = true -> fits (legal_hold_row h) = true.
Proof.
  unfold LegalHoldRecord.valid. row_fits. unfold hold_status. fits_column.
Qed.
Lemma deletion_fits q : DeletionRequest.valid q = true -> fits (deletion_row q) = true.
Proof. unfold DeletionRequest.valid. row_fits. Qed.
Lemma idempotency_fits i : IdempotencyRecord.valid i = true ->
  fits (idempotency_row i (IdempotencyRecord.tenant_id i) (IdempotencyRecord.idempotency_key i)) = true.
Proof. unfold IdempotencyRecord.valid. row_fits. Qed.

(** the rows of a trip: its own, its segments', its evidence's, its assessments' *)
Definition trip_rows_fit (r : repo) (trip : Trip.t) : Prop :=
  fits (trip_row trip) = true /\
  (forall s, In s (Trip.segments trip) -> fits (segment_row trip s) = true) /\
  (forall e, In e (default [] (dict_get (Trip.trip_id trip) (Repo.evidence r))) ->
     fits (evidence_row (Trip.tenant_id trip) (Trip.trip_id trip) e) = true) /\
  (forall a, In a (default [] (dict_get (Trip.trip_id trip) (Repo.assessments r))) ->
     fits (assessment_row (Trip.tenant_id trip) a) = true).

(** the rows of the records whose model bounds what their columns hold *)
Definition bounded_rows_fit (r : repo) : Prop :=
  (forall v, In v (dict_values (Repo.trips r)) -> trip_rows_fit r v) /\
  (forall v, In v (dict_values (Repo.approvals r)) -> fits (approval_row v) = true) /\
  (forall v, In v (dict_values (Repo.idempotency_records r)) ->
     fits (idempotency_row v (IdempotencyRecord.tenant_id v) (IdempotencyRecord.idempotency_key v)) = true) /\
  (forall v, In v (dict_values (Repo.manager_feedback r)) -> fits (feedback_row v) = true) /\
  (forall v, In v (dict_values (Repo.tenant_playbooks r)) -> fits (playbook_row v) = true) /\
  (forall v, In v (dict_values (Repo.notifications r)) -> fits (notification_row v) = true) /\
  (forall l v, In l (dict_values (Repo.notification_attempts r)) -> In v l ->
     fits (notification_attempt_row v) = true) /\
  (forall v, In v (dict_values (Repo.action_dispatches r)) -> fits (action_row v) = true) /\
  (forall l v, In l (dict_values (Repo.action_dispatch_attempts r)) -> In v l ->
     fits (action_attempt_row v) = true) /\
  (forall v, In v (Repo.memory_audits r) -> fits (memory_audit_row v) = true) /\
  (forall v, In v (dict_values (Repo.change_records r)) -> fits (change_row v) = true) /\
  (forall v, In v (dict_values (Repo.provider_onboarding_records r)) -> fits (onboarding_row v) = true) /\
  (forall v, In v (dict_values (Repo.runtime_control_overrides r)) -> fits (override_row v) = true) /\
  (forall v, In v (Repo.runtime_control_changes r) -> fits (control_change_row v) = true) /\
  (forall v, In v (dict_values (Repo.platform_control_overrides r)) -> fits (platform_override_row v) = true) /\
  (forall v, In v (Repo.platform_control_changes r) -> fits (platform_change_row v) = true) /\
  (forall v, In v (dict_values (Repo.original_uploads r)) -> fits (upload_row v) = true) /\
  (forall v, In v (dict_values (Repo.legal_holds r)) -> fits (legal_hold_row v) = true) /\
  (forall v, In v (dict_values (Repo.deletion_requests r)) -> fits (deletion_row v) = true).

(** an identifier the [String(128)] columns hold *)
Definition short (s : string) : Prop := str_len s <= 128.

(** the rows of the other records, which fit as far as those identifiers are short *)
Definition unbounded_rows_fit (r : repo) : Prop :=
  (forall v, In v (dict_values (Repo.incidents r)) ->
     fits (incident_row v) = true <-> short (Incident.tenant_id v)) /\
  (forall v, In v (dict_values (Repo.profiles r)) ->
     fits (profile_row v) = true <->
     short (TravelerPreferenceProfile.tenant_id v) /\ short (TravelerPreferenceProfile.traveler_id v)) /\
  (forall v, In v (dict_values (Repo.memory_proposals r)) ->
     fits (proposal_row v) = true <-> short (MemoryUpdateProposal.tenant_id v)) /\
  (forall v, In v (Repo.events r) -> fits (event_row v) = true <-> short (EventRecord.tenant_id v)) /\
  (forall tenant v, In (tenant, v) (dict_values (Repo.candidate_sets r)) ->
     fits (candidate_set_row tenant v) = true <-> short tenant) /\
  (forall tenant v, In (tenant, v) (dict_values (Repo.candidate_outcomes r)) ->
     fits (outcome_row tenant v) = true <-> short tenant).

Definition rows_fit (r : repo) : Prop := bounded_rows_fit r /\ unbounded_rows_fit r.

Lemma varchar_short s : varchar 128 s = true <-> short s.
Proof. apply Z.leb_le. Qed.

Lemma trip_rows r trip : Trip.valid trip = true -> trip_rows_fit r trip.
Proof.
  intros Ht. destruct (trip_fits trip Ht) as [Hrow Hsegments]. split; [done|]. split; [done|].
  split; intros; exact Hrow.
Qed.

Lemma typed_rows_fit r : records_typed r -> rows_fit r.
Proof.
  intros Hr. split.
  2: { split_and!; intros; try apply varchar_short. simpl. rewrite andb_true_iff. by rewrite !varchar_short. }
  unfold bounded_rows_fit. split_and!; [..|done| |done| | | | | | | | | |]; intros v Hin.
  - by apply trip_rows, (trips_typed r Hr).
  - done.
  - by apply idempotency_fits, (idempotency_typed r Hr).
  - by apply feedback_fits, (feedback_typed r Hr).
  - by apply playbook_fits, (playbooks_typed r Hr).
  - by apply notification_fits, (notifications_typed r Hr).
  - by apply action_fits, (actions_typed r Hr).
  - by apply memory_audit_fits, (memory_audits_typed r Hr).
  - by apply change_fits, (changes_typed r Hr).
  - by apply onboarding_fits, (onboarding_typed r Hr).
  - by apply (control_fits v), (overrides_typed r Hr).
  - by apply (control_fits v), (control_changes_typed r Hr).
  - apply platform_fits.
  - apply platform_fits.
  - by apply upload_fits, (uploads_typed r Hr).
  - by apply hold_fits, (holds_typed r Hr).
  - by apply deletion_fits, (deletions_typed r Hr).
Qed.

End Columns.

(** ** The service's store *)

Section Service.
Context `{Sql} `{Documents} `{Env} `{!Decodes}.
Context `{!Dump TripCreate.t} `{!Validate TripCreate.t} `{!Dump Trip.t} `{!Validate Trip.t}
  `{!Dump TripAssignmentRequest.t} `{!Dump (list EvidenceEnvelope.t)} `{!Dump AssessmentResult.t}
  `{!Validate AssessmentResult.t} `{!Dump ApprovalRequest.t} `{!Dump ApprovalRecord.t}
  `{!Validate ApprovalRecord.t} `{!Dump RecoveryCandidateSet.t} `{!Validate RecoveryCandidateSet.t}
  `{!Dump RecoveryCandidateSetCreate.t} `{!Dump RecoveryCandidateOutcomeUpdate.t} `{!Dump EvaluatedCandidate.t}
  `{!Dump TravelerPreferenceProfile.t} `{!Validate TravelerPreferenceProfile.t}
  `{!Dump TravelerPreferenceUpdate.t} `{!Dump MemoryUpdateProposal.t} `{!Validate MemoryUpdateProposal.t}
  `{!Dump LegalHoldRecord.t} `{!Validate LegalHoldRecord.t} `{!Dump LegalHoldRelease.t}
  `{!Dump DeletionRequest.t} `{!Validate DeletionRequest.t} `{!Dump NotificationCreate.t}
  `{!Dump NotificationRecord.t} `{!Validate NotificationRecord.t} `{!Dump ChangeRecord.t}
  `{!Validate ChangeRecord.t} `{!Dump RuntimeControlUpdate.t} `{!Dump RuntimeControlChange.t}
  `{!Validate RuntimeControlChange.t} `{!Dump PlatformRuntimeControlChange.t}
  `{!Validate PlatformRuntimeControlChange.t} `{!Dump TenantPlaybookCreate.t} `{!Dump TenantPlaybook.t}
  `{!Validate TenantPlaybook.t} `{!Dump ProviderOnboardingRecord.t} `{!Validate ProviderOnboardingRecord.t}
  `{!Dump BookingWebhookEvent.t} `{!Validate BookingWebhookEvent.t}.

(** C26.  Column bounds.  Whatever requests and jobs have run (by callers whose
    identity has at most 128 characters), the rows of every stored trip with its
    segments, evidence and assessments, and of every stored approval, idempotency
    record, feedback, playbook, notification, action, attempt, memory audit, change,
    onboarding, control, upload, hold and deletion request fit the widths of their
    PostgreSQL columns.  The rows of incidents, preferences, proposals, events,
    candidate sets and outcomes, whose tenant (and traveler) ids no model bounds, fit
    exactly when those ids have at most 128 characters; a longer one PostgreSQL
    refuses. *)
Theorem stored_rows_fit w : admitted_run w -> rows_fit (World.store w).
Proof. intros [Hr _]%admitted_run_typed. by apply typed_rows_fit. Qed.

End Service.

(** ** Witness: the trip of [HandlerTypes.assigned_world] *)

Section Witness.
#[local] Existing Instances sample_environment sample_dump sample_validate sample_decodes list_sql.

Definition blank_document (A : Type) : Document A :=
  {| document_dump := sample_dump A; document_validate := sample_validate A |}.
#[local] Instance blank_documents : Documents.
Proof. constructor; apply blank_document. Defined.

Lemma stored_rows_fit_witness : exists trip,
  In trip (dict_values (Repo.trips (World.store assigned_world))) /\ @fits _ _ (trip_row trip) = true.
Proof.
  destruct (stored_rows_fit assigned_world assigned_run) as [[Ht _] _].
  eexists. split; [left; vm_compute; reflexivity|]. apply Ht. left. vm_compute. reflexivity.
Defined.

End Witness.
