(* ===== verification/PgStore.v ===== *)
(** * How the tables store the models

    [stores row doc t l]: the table [t] holds exactly the rows of the values [l].
    One lemma per form of statement says what it does to [l]; the section on
    dictionaries says it for the values of a dictionary of the in-memory store. *)

From stdpp Require Import list.
From S2P Require Import Prelude PyData Float64 PyStd Enums Models Recovery Security.
From S2P Require Import Repository StoreInvariant Sql PgTables Postgres PgGovernance.
From Stdlib Require Import Sorting.Permutation.

(** ** Lists *)

Lemma filter_map_swap {A B} (f : A -> B) (p : B -> bool) (q : A -> bool) l :
  (forall x, In x l -> p (f x) = q x) -> List.filter p (List.map f l) = List.map f (List.filter q l).
Proof.
  induction l as [|x l IH]; intros Hpq; simpl; [done|]. rewrite (Hpq x) by (by left).
  rewrite IH by (intros; apply Hpq; by right). by destruct (q x).
Qed.

Lemma filter_ext_in' {A} (p q : A -> bool) l :
  (forall x, In x l -> p x = q x) -> List.filter p l = List.filter q l.
Proof.
  induction l as [|x l IH]; intros Hpq; simpl; [done|]. rewrite (Hpq x) by (by left).
  rewrite IH by (intros; apply Hpq; by right). done.
Qed.

Lemma filter_res_perm {A} (p : A -> res bool) l l' k :
  l ≡ₚ l' -> filter_res p l = Ok k -> exists k', filter_res p l' = Ok k' /\ k ≡ₚ k'.
Proof.
  intros Hl. revert k. induction Hl as [|x l l' _ IH|x y l|l l' l'' _ IH1 _ IH2]; intros k E.
  - by exists k.
  - simpl in *. apply res_bind_ok in E as (b & Hb & E). apply res_bind_ok in E as (k0 & E0 & E).
    apply Ok_inj in E as <-. destruct (IH _ E0) as (k' & E' & Hk). rewrite Hb. cbn. rewrite E'. cbn.
    eexists. split; [done|]. destruct b; [by constructor|done].
  - simpl in *. apply res_bind_ok in E as (b & Hb & E). apply res_bind_ok in E as (k0 & E0 & E).
    apply res_bind_ok in E0 as (b' & Hb' & E0). apply res_bind_ok in E0 as (k1 & E1 & E0).
    apply Ok_inj in E as <-. apply Ok_inj in E0 as <-. rewrite Hb'. cbn. rewrite Hb. cbn. rewrite E1. cbn.
    eexists. split; [done|]. destruct b, b'; try done. constructor.
  - apply IH1 in E as (k1 & E & Hk). apply IH2 in E as (k2 & E & Hk'). exists k2. split; [done|].
    by transitivity k1.
Qed.

Lemma filter_res_pure {A} (p : A -> res bool) (q : A -> bool) l :
  (forall x, In x l -> p x = Ok (q x)) -> filter_res p l = Ok (List.filter q l).
Proof.
  induction l as [|x l IH]; intros Hpq; simpl; [done|]. rewrite (Hpq x) by (by left). cbn.
  rewrite IH by (intros; apply Hpq; by right). cbn. by destruct (q x).
Qed.

Lemma filter_res_ext {A B} (f : A -> B) (p : B -> res bool) (q : A -> res bool) l k :
  (forall x, In x l -> p (f x) = q x) -> filter_res q l = Ok k ->
  filter_res p (List.map f l) = Ok (List.map f k).
Proof.
  revert k. induction l as [|x l IH]; intros k Hpq E; simpl in *.
  - by apply Ok_inj in E as <-.
  - apply res_bind_ok in E as (b & Hb & E). apply res_bind_ok in E as (k0 & E0 & E).
    apply Ok_inj in E as <-. rewrite Hpq, Hb by (by left). cbn.
    rewrite (IH k0) by naive_solver. cbn. by destruct b.
Qed.

Lemma mem_perm {A} `{EqDecision A} (x : A) l l' : l ≡ₚ l' -> mem x l = mem x l'.
Proof.
  intros Hl. apply eq_true_iff_eq. rewrite !mem_true_iff. split; apply Permutation_in; [done|by symmetry].
Qed.

Lemma existsb_perm {A} (p : A -> bool) l l' : l ≡ₚ l' -> existsb p l = existsb p l'.
Proof.
  induction 1; simpl; try congruence. destruct (p x), (p y); simpl; congruence.
Qed.

Lemma len_perm {A} (l l' : list A) : l ≡ₚ l' -> len l = len l'.
Proof. intros Hl. unfold len. by rewrite Hl. Qed.

Lemma len_map {A B} (f : A -> B) l : len (List.map f l) = len l.
Proof. unfold len. by rewrite List.length_map. Qed.

Lemma singleton_perm {A} (x : A) l : l ≡ₚ [x] -> l = [x].
Proof. intros Hl. by apply Permutation_length_1_inv, Permutation_sym. Qed.

(** ** Dictionaries *)

Section DictValues.
Context {K V : Type} `{EqDecision K}.
Implicit Types (d : dict K V).

Lemma dict_set_new k v d : dict_get k d = None -> dict_set k v d = d ++ [(k, v)].
Proof.
  induction d as [|[k' v'] d IH]; simpl; [done|]. case_bool_decide; [done|]. intros Hg. by rewrite IH.
Qed.

Lemma dict_set_old k v v0 d : dict_get k d = Some v0 ->
  exists d1 d2, d = d1 ++ (k, v0) :: d2 /\ dict_set k v d = d1 ++ (k, v) :: d2.
Proof.
  induction d as [|[k' v'] d IH]; simpl; [done|]. case_bool_decide as E; intros Hg.
  - simplify_eq. by exists [], d.
  - destruct (IH Hg) as (d1 & d2 & -> & ->). by exists ((k', v') :: d1), d2.
Qed.

Lemma dict_values_app d1 d2 : dict_values (d1 ++ d2) = dict_values d1 ++ dict_values d2.
Proof. apply List.map_app. Qed.

Lemma values_set_new k v d :
  dict_get k d = None -> dict_values (dict_set k v d) = dict_values d ++ [v].
Proof. intros Hg. by rewrite dict_set_new, dict_values_app. Qed.

Lemma values_filter (p : V -> bool) d : dict_values (keep_values p d) = List.filter p (dict_values d).
Proof.
  unfold keep_values, dict_filter, dict_values. induction d as [|[k v] d IH]; simpl; [done|].
  destruct (p v); csimpl; by rewrite IH.
Qed.

Lemma values_dict_filter (p : K -> V -> bool) (q : V -> bool) d :
  (forall k v, In (k, v) d -> p k v = q v) ->
  dict_values (dict_filter p d) = List.filter q (dict_values d).
Proof.
  intros Hpq. rewrite <- values_filter. unfold keep_values, dict_filter. f_equal.
  apply filter_ext_in'. intros [k v] Hin. by apply Hpq.
Qed.

Lemma pop_all_filter (ids : list K) d : pop_all ids d = dict_filter (fun k _ => negb (mem k ids)) d.
Proof.
  unfold pop_all. revert d. induction ids as [|id ids IH]; intros d; simpl.
  - unfold dict_filter. simpl. induction d as [|x d IHd]; simpl; congruence.
  - rewrite IH. unfold dict_filter, dict_pop. induction d as [|[k v] d IHd]; simpl; [done|].
    case_bool_decide as E; simpl.
    + subst. rewrite bool_decide_true by done. done.
    + rewrite bool_decide_false by congruence. simpl. destruct (mem k ids); simpl; by rewrite IHd.
Qed.

Lemma keyed_split (key : V -> K) k v0 d : keyed key d -> dict_get k d = Some v0 -> key v0 = k.
Proof. intros Hd Hg. by apply (keyed_get key d). Qed.

(** the values of a keyed dictionary that satisfy a test of the key and another one *)
Lemma filter_values_get (key : V -> K) (p : V -> bool) k d : keyed key d ->
  List.filter (fun v => p v && (key v == k)) (dict_values d) =
    match dict_get k d with Some v => if p v then [v] else [] | None => [] end.
Proof.
  intros [Hw Hk]. revert Hw Hk. unfold dict_wf, dict_values.
  induction d as [|[k' v'] d IH]; intros Hw Hk; csimpl; [done|].
  csimpl in Hw. apply NoDup_cons in Hw as [Hn Hw].
  pose proof (Hk k' v' (or_introl eq_refl)) as <-.
  specialize (IH Hw (fun k v Hin => Hk k v (or_intror Hin))).
  destruct (decide (k = key v')) as [->|Hne].
  - rewrite bool_decide_true by done. rewrite andb_true_r, IH.
    rewrite (proj2 (dict_get_none (key v') d)); [by destruct (p v')|]. by rewrite <- list_elem_of_In.
  - rewrite bool_decide_false by congruence. rewrite (bool_decide_false (k = key v')) by done.
    rewrite andb_false_r. done.
Qed.

End DictValues.

(** ** Tables that store values *)

(** what is written can be read back, and is not an empty document *)
Definition storable `{Sql} {A} `{Document A} (a : A) : Prop :=
  model_validate (column a) = Ok a /\ truthy (column a) = true.

Section Stores.
Context `{HS : Sql} `{!SqlLaws} `{Documents}.
Context {V A R : Type} `{Document A} `{Table R} (row : V -> R) (doc : V -> A).
Implicit Types (t : table R) (l : list V) (v : V).

Definition stores t l : Prop :=
  rows t ≡ₚ List.map row l /\ forall v, In v l -> storable (doc v).

Lemma stores_perm t l l' : l ≡ₚ l' -> stores t l -> stores t l'.
Proof.
  intros Hl [Hr Hs]. split; [by rewrite Hr, Hl|]. intros v Hv. apply Hs. by rewrite Hl.
Qed.

Lemma stores_create : stores create_table [].
Proof. split; [by rewrite rows_create|done]. Qed.

Lemma stores_unique t l : stores t l -> NoDup (keys (List.map row l)).
Proof. intros [Hr _]. eapply nodup_perm; [exact Hr|]. apply rows_unique. Qed.

Lemma stores_row t l v : stores t l -> In v l -> In (row v) (rows t).
Proof. intros [-> _] Hv. by apply in_map. Qed.

Lemma stores_in t l r : stores t l -> In r (rows t) -> exists v, r = row v /\ In v l /\ storable (doc v).
Proof.
  intros [Hr Hs] Hin. rewrite Hr in Hin. apply in_map_iff in Hin as (v & <- & Hv). exists v.
  split; [done|]. split; [done|]. by apply Hs.
Qed.

(** two stored values with one primary key are the same row *)
Lemma stores_same t l v v' : stores t l -> In v l -> In v' l ->
  primary_key (row v) = primary_key (row v') -> row v = row v'.
Proof.
  intros Ht Hv Hv' Hk. pose proof (stores_unique t l Ht) as Hd. revert Hd Hv Hv'. clear Ht.
  induction l as [|x l IH]; [done|]. intros [Hn Hd]%nodup_cons_key [<-|Hv] [<-|Hv']; try done.
  - exfalso. apply Hn. rewrite Hk. by apply in_keys, in_map.
  - exfalso. apply Hn. rewrite <- Hk. by apply in_keys, in_map.
  - by apply IH.
Qed.

Lemma stores_filter t l p q : stores t l -> (forall v, In v l -> p (row v) = q v) ->
  List.filter p (rows t) ≡ₚ List.map row (List.filter q l).
Proof. intros [Hr _] Hpq. rewrite (filter_perm p _ _ Hr). by rewrite (filter_map_swap row p q). Qed.

(** *** Queries *)

Section Reads.
Variable payload : R -> json.
Hypothesis payload_row : forall v, payload (row v) = column (doc v).

Lemma validate_payloads l : (forall v, In v l -> storable (doc v)) ->
  validate_rows (List.map payload (List.map row l)) = Ok (List.map doc l).
Proof.
  unfold validate_rows. induction l as [|v l IH]; intros Hs; simpl; [done|].
  destruct (Hs v (or_introl eq_refl)) as [Hv _]. rewrite payload_row, Hv. cbn.
  rewrite IH by (intros; apply Hs; by right). done.
Qed.

(** the validated rows of a query, whatever their order *)
Lemma read_rows t l s q : stores t l -> s ≡ₚ List.map row (List.filter q l) ->
  exists l' : list A, validate_rows (List.map payload s) = Ok l' /\ l' ≡ₚ List.map doc (List.filter q l).
Proof.
  intros [_ Hs] Hp. apply Permutation_map_inv in Hp as (l1 & -> & Hl).
  exists (List.map doc l1). split; [|by rewrite Hl].
  apply validate_payloads. intros v Hv. apply Hs. rewrite <- Hl in Hv. by apply filter_In in Hv as [? _].
Qed.

Lemma read_select t l p q : stores t l -> (forall v, In v l -> p (row v) = q v) ->
  exists l' : list A, validate_rows (List.map payload (select p t)) = Ok l' /\ l' ≡ₚ List.map doc (List.filter q l).
Proof.
  intros Ht Hpq. apply (read_rows t); [done|]. rewrite select_rows. by apply stores_filter.
Qed.

Lemma read_one s l v :
  s ≡ₚ List.map row l -> (forall v, In v l -> storable (doc v)) ->
  (l = [] -> one_payload (List.map payload s) = Ok None) /\
  (l = [v] -> one_payload (List.map payload s) = Ok (Some (doc v))).
Proof.
  intros Hp Hs. unfold one_payload. split; intros ->; simpl in Hp.
  - apply Permutation_sym, Permutation_nil in Hp as ->. simpl. by rewrite scalar_one_or_none_nil.
  - apply singleton_perm in Hp as ->. simpl. rewrite scalar_one_or_none_one. cbn.
    destruct (Hs v (or_introl eq_refl)) as [Hv Ht]. by rewrite payload_row, Ht, Hv.
Qed.

(** [scalar_one()] and [scalar_one_or_none()] of the only payload *)
Lemma only_payload t l s q v : stores t l -> s ≡ₚ List.map row (List.filter q l) -> List.filter q l = [v] ->
  List.map payload s = [column (doc v)] /\ storable (doc v).
Proof.
  intros [_ Hs] Hp Hl. rewrite Hl in Hp. simpl in Hp. apply singleton_perm in Hp as ->. simpl.
  rewrite payload_row. split; [done|]. apply Hs. assert (Hin : In v (List.filter q l)) by (rewrite Hl; by left).
  by apply filter_In in Hin as [? _].
Qed.

(** a comprehension over the rows, filtered by a test of their documents *)
Lemma filter_rows s l p k : s ≡ₚ List.map row l -> (forall v, In v l -> storable (doc v)) ->
  filter_res (fun v => p (doc v)) l = Ok k ->
  exists k' : list V, filter_res (fun r => x ← model_validate (payload r); p x) s = Ok (List.map row k') /\ k' ≡ₚ k.
Proof.
  intros Hp Hs E. apply Permutation_map_inv in Hp as (l1 & -> & Hl).
  destruct (filter_res_perm _ _ _ _ Hl E) as (k' & E' & Hk). exists k'. split; [|by symmetry].
  apply (filter_res_ext row _ (fun v => p (doc v))); [|done].
  intros v Hv. rewrite <- Hl in Hv. destruct (Hs v Hv) as [Hval _]. by rewrite payload_row, Hval.
Qed.

Lemma ids_where_rows {ID} (ident : R -> ID) (key : V -> ID) s l p k :
  (forall v, ident (row v) = key v) ->
  s ≡ₚ List.map row l -> (forall v, In v l -> storable (doc v)) ->
  filter_res (fun v => p (doc v)) l = Ok k ->
  exists ids, ids_where payload ident p s = Ok ids /\ ids ≡ₚ List.map key k.
Proof.
  intros Hid Hp Hs E. destruct (filter_rows s l p k Hp Hs E) as (k' & E' & Hk).
  unfold ids_where. rewrite E'. cbn. eexists. split; [done|]. rewrite List.map_map, <- Hk.
  apply Permutation_refl'. apply List.map_ext. done.
Qed.

(** [scalar_one_or_none()] of the payloads with the key of one value at most *)
Lemma read_option t l s q (o : option V) : stores t l -> s ≡ₚ List.map row (List.filter q l) ->
  List.filter q l = match o with Some v => [v] | None => [] end ->
  one_payload (List.map payload s) = Ok (doc <$> o).
Proof.
  intros [_ Hs] Hp Hl. assert (Hs' : forall v, In v (List.filter q l) -> storable (doc v)).
  { intros v [Hv _]%filter_In. by apply Hs. }
  destruct o as [v|].
  - by apply (read_one s _ v Hp Hs').
  - destruct (List.filter q l) as [|v0 l0] eqn:E; [|done].
    unfold one_payload. apply Permutation_sym, Permutation_nil in Hp as ->. simpl.
    by rewrite scalar_one_or_none_nil.
Qed.

End Reads.

(** *** Writes *)

Lemma stores_insert_all t l vs : stores t l -> vs <> [] ->
  NoDup (keys (List.map row vs)) ->
  (forall v, In v vs -> ~ In (primary_key (row v)) (keys (List.map row l))) ->
  (forall v, In v vs -> storable (doc v) /\ fits (row v) = true) ->
  exists t', insert (List.map row vs) t = Ok t' /\ stores t' (l ++ vs).
Proof.
  intros [Hr Hs] Hne Hd Hn Hv. destruct (insert_ok (List.map row vs) t) as (t' & E & Ht').
  - by destruct vs.
  - eapply nodup_perm; [apply Permutation_app_head; symmetry; exact Hr|].
    rewrite keys_app. apply NoDup_app. split_and!; [done| |].
    + intros k Hk Hk'. rewrite list_elem_of_In in Hk, Hk'. unfold keys in Hk. rewrite List.map_map in Hk.
      apply in_map_iff in Hk as (v & <- & Hin). by apply (Hn v).
    + eapply nodup_perm; [exact Hr|apply rows_unique].
  - apply forallb_forall. intros r (v & <- & Hin)%in_map_iff. by apply Hv.
  - exists t'. split; [done|]. split.
    + rewrite Ht', Hr, List.map_app. apply Permutation_app_comm.
    + intros v [Hin|Hin]%in_app_or; [by apply Hs|by apply Hv].
Qed.

Lemma stores_insert t l v : stores t l -> ~ In (primary_key (row v)) (keys (List.map row l)) ->
  storable (doc v) -> fits (row v) = true ->
  exists t', insert [row v] t = Ok t' /\ stores t' (l ++ [v]).
Proof.
  intros Ht Hn Hs Hf. apply (stores_insert_all t l [v]); [done|done| | |].
  - apply NoDup_singleton.
  - by intros ? [<-|[]].
  - by intros ? [<-|[]].
Qed.

Lemma stores_insert_or_ignore t l v : stores t l -> storable (doc v) -> fits (row v) = true ->
  (~ In (primary_key (row v)) (keys (List.map row l)) ->
   exists t', insert_or_ignore (row v) t = Ok ([row v], t') /\ stores t' (l ++ [v])) /\
  (In (primary_key (row v)) (keys (List.map row l)) ->
   exists t', insert_or_ignore (row v) t = Ok ([], t') /\ stores t' l).
Proof.
  intros [Hr Hs] Hv Hf. split; intros Hk; rewrite <- (keys_perm _ _ Hr) in Hk.
  - destruct (insert_or_ignore_new (row v) t Hk Hf) as (t' & E & Ht'). exists t'. split; [done|]. split.
    + rewrite Ht', Hr, List.map_app. apply Permutation_cons_append.
    + intros x [Hin|[<-|[]]]%in_app_or; [by apply Hs|done].
  - destruct (insert_or_ignore_old (row v) t Hk Hf) as (t' & E & Ht'). exists t'. split; [done|].
    split; [by rewrite Ht'|done].
Qed.

Lemma stores_upsert_new t l v f : stores t l -> storable (doc v) -> fits (row v) = true ->
  ~ In (primary_key (row v)) (keys (List.map row l)) ->
  exists t', upsert (row v) f t = Ok t' /\ stores t' (l ++ [v]).
Proof.
  intros [Hr Hs] Hv Hf Hn. rewrite <- (keys_perm _ _ Hr) in Hn.
  destruct (upsert_new (row v) f t Hn Hf) as (t' & E & Ht'). exists t'. split; [done|]. split.
  - rewrite Ht', Hr, List.map_app. apply Permutation_cons_append.
  - intros x [Hin|[<-|[]]]%in_app_or; [by apply Hs|done].
Qed.

Lemma stores_upsert_old t l1 v0 l2 v f : stores t (l1 ++ v0 :: l2) ->
  primary_key (row v0) = primary_key (row v) -> f (row v0) = row v ->
  storable (doc v) -> fits (row v) = true ->
  exists t', upsert (row v) f t = Ok t' /\ stores t' (l1 ++ v :: l2).
Proof.
  intros [Hr Hs] Hk Hf Hv Hfit.
  destruct (upsert_old (row v) f (row v0) (List.map row (l1 ++ l2)) t) as (t' & E & Ht').
  - rewrite Hr, !List.map_app. simpl. symmetry. apply Permutation_middle.
  - done.
  - by rewrite Hf.
  - done.
  - by rewrite Hf.
  - exists t'. split; [done|]. split.
    + rewrite Ht', Hf, !List.map_app. simpl. apply Permutation_middle.
    + intros x [Hin|[<-|Hin]]%in_app_or; [|done|]; apply Hs, in_or_app; [by left|right; by right].
Qed.

Lemma stores_delete t l p q : stores t l -> (forall v, In v l -> p (row v) = q v) ->
  (delete p t).1 = len (List.filter q l) /\
  stores (delete p t).2 (List.filter (fun v => negb (q v)) l).
Proof.
  intros Ht Hpq. destruct (delete_rows p t) as [Hc Hd]. split.
  - rewrite Hc, (len_perm _ _ (stores_filter t l p q Ht Hpq)). apply len_map.
  - split; [|intros v [Hv _]%filter_In; by apply Ht].
    rewrite Hd. apply stores_filter; [done|]. intros v Hv. by rewrite Hpq.
Qed.

Lemma stores_update t l p q f g : stores t l -> (forall v, In v l -> p (row v) = q v) ->
  (forall v, In v l -> q v = true -> f (row v) = row (g v) /\ storable (doc (g v)) /\
     fits (row (g v)) = true /\ primary_key (row (g v)) = primary_key (row v)) ->
  exists t', update p f t = Ok t' /\ stores t' (List.map (fun v => if q v then g v else v) l).
Proof.
  intros Ht Hpq Hf. destruct (update_rows p f t) as (t' & E & Ht').
  - intros r Hr Hp. destruct (stores_in t l r Ht Hr) as (v & -> & Hv & _). rewrite Hpq in Hp by done.
    destruct (Hf v Hv Hp) as (-> & _ & Hfit & Hk). done.
  - exists t'. split; [done|]. split.
    + rewrite Ht'. destruct Ht as [-> _]. rewrite !List.map_map. apply Permutation_refl'.
      apply List.map_ext_in. intros v Hv. rewrite Hpq by done. destruct (q v) eqn:Hq; [|done]. by apply Hf.
    + intros x (v & <- & Hv)%in_map_iff. destruct (q v) eqn:Hq; [by apply Hf|by apply Ht].
Qed.

End Stores.

(** ** Tables that store the values of a dictionary *)

Section StoresDict.
Context `{HS : Sql} `{!SqlLaws} `{Documents}.
Context {K V A R : Type} `{EqDecision K} `{Document A} `{Table R} (row : V -> R) (doc : V -> A) (key : V -> K).
Hypothesis row_key : forall v v', primary_key (row v) = primary_key (row v') <-> key v = key v'.
Implicit Types (t : table R) (d : dict K V) (v : V).

Lemma row_absent d v : keyed key d ->
  dict_get (key v) d = None <-> ~ In (primary_key (row v)) (keys (List.map row (dict_values d))).
Proof.
  intros Hd. unfold keys. rewrite List.map_map, in_map_iff. split.
  - intros Hg (v' & E & Hin). apply row_key in E. apply dict_in_values in Hin as [k Hin].
    rewrite (proj2 Hd k v' Hin) in E. subst k. apply dict_in_get in Hin; [congruence|apply Hd].
  - intros Hn. destruct (dict_get (key v) d) as [v'|] eqn:E; [|done]. exfalso. apply Hn. exists v'.
    split; [apply row_key; by apply (keyed_get key d) in E|].
    apply dict_in_values. exists (key v). by apply dict_get_in.
Qed.

Lemma row_present d v v0 : keyed key d -> dict_get (key v) d = Some v0 ->
  In (primary_key (row v)) (keys (List.map row (dict_values d))).
Proof.
  intros Hd Hg. replace (primary_key (row v)) with (primary_key (row v0)).
  - apply in_keys, in_map, dict_in_values. exists (key v). by apply dict_get_in.
  - apply row_key. by apply (keyed_get key d).
Qed.

(** INSERT ... ON CONFLICT DO NOTHING RETURNING *)
Lemma stores_dict_insert_or_ignore t d v : stores row doc t (dict_values d) -> keyed key d ->
  storable (doc v) -> fits (row v) = true ->
  exists t', insert_or_ignore (row v) t =
      Ok (match dict_get (key v) d with Some _ => [] | None => [row v] end, t') /\
    stores row doc t' (dict_values (match dict_get (key v) d with Some _ => d | None => dict_set (key v) v d end)).
Proof.
  intros Ht Hd Hs Hf. destruct (stores_insert_or_ignore row doc t (dict_values d) v Ht Hs Hf) as [Hn Ho].
  destruct (dict_get (key v) d) as [v0|] eqn:Hg.
  - apply Ho. by apply (row_present d v v0).
  - rewrite values_set_new by done. apply Hn. by apply row_absent.
Qed.

Lemma stores_dict_insert t d v : stores row doc t (dict_values d) -> keyed key d ->
  dict_get (key v) d = None -> storable (doc v) -> fits (row v) = true ->
  exists t', insert [row v] t = Ok t' /\ stores row doc t' (dict_values (dict_set (key v) v d)).
Proof.
  intros Ht Hd Hg Hs Hf. rewrite values_set_new by done. apply stores_insert; try done.
  by apply row_absent.
Qed.

Lemma stores_dict_upsert t d v f : stores row doc t (dict_values d) -> keyed key d ->
  (forall v0, dict_get (key v) d = Some v0 -> f (row v0) = row v) ->
  storable (doc v) -> fits (row v) = true ->
  exists t', upsert (row v) f t = Ok t' /\ stores row doc t' (dict_values (dict_set (key v) v d)).
Proof.
  intros Ht Hd Hf Hs Hfit. destruct (dict_get (key v) d) as [v0|] eqn:Hg.
  - pose proof (keyed_get key d _ _ Hd Hg) as Hk.
    destruct (dict_set_old _ v _ _ Hg) as (d1 & d2 & Ed & ->). rewrite Ed in Ht.
    rewrite dict_values_app in *. unfold dict_values in *. csimpl in *.
    apply (stores_upsert_old row doc t _ v0); try done; [by apply row_key|by apply Hf].
  - rewrite values_set_new by done. apply stores_upsert_new; try done. by apply row_absent.
Qed.

Lemma values_dict_set d v v0 : keyed key d -> dict_get (key v) d = Some v0 ->
  List.map (fun x => if key x == key v then v else x) (dict_values d) = dict_values (dict_set (key v) v d).
Proof.
  intros [Hw Hk] Hg. revert Hw Hk Hg. unfold dict_wf, dict_values.
  induction d as [|[k' v'] d IH]; intros Hw Hk Hg; [done|]. csimpl in *.
  apply NoDup_cons in Hw as [Hn Hw].
  pose proof (Hk k' v' (or_introl eq_refl)) as <-. destruct (decide (key v = key v')) as [E|E].
  - rewrite (bool_decide_true (key v' = key v)), (bool_decide_true (key v = key v')) by done. csimpl. f_equal.
    rewrite <- (List.map_id d.*2) at 2. apply List.map_ext_in. intros x (k & Hin)%dict_in_values.
    rewrite bool_decide_false; [done|]. intros Ex. apply Hn. rewrite <- E, <- Ex.
    rewrite (Hk k x (or_intror Hin)). apply list_elem_of_In, in_map_iff. by exists (k, x).
  - rewrite (bool_decide_false (key v' = key v)) by congruence.
    rewrite (bool_decide_false (key v = key v')) in * by done. csimpl. f_equal. apply IH; try done. naive_solver.
Qed.

Lemma stores_dict_update t d v v0 p f : stores row doc t (dict_values d) -> keyed key d ->
  dict_get (key v) d = Some v0 -> (forall v', p (row v') = (key v' == key v)) -> f (row v0) = row v ->
  storable (doc v) -> fits (row v) = true ->
  exists t', update p f t = Ok t' /\ stores row doc t' (dict_values (dict_set (key v) v d)).
Proof.
  intros Ht Hd Hg Hp Hf Hs Hfit. rewrite <- (values_dict_set d v v0) by done.
  apply (stores_update row doc t (dict_values d) p (fun x => key x == key v) f (fun _ => v)); [done|done|].
  intros x Hx E. apply bool_decide_eq_true in E. split_and!; try done; [|by apply row_key].
  rewrite <- Hf. f_equal. apply dict_in_values in Hx as (k & Hin).
  rewrite (proj2 Hd k x Hin) in E. subst k. apply dict_in_get in Hin; [congruence|apply Hd].
Qed.

Lemma stores_dict_filter t d p q : stores row doc t (dict_values d) -> (forall v, p (row v) = q v) ->
  stores row doc (delete p t).2 (dict_values (keep_values (fun v => negb (q v)) d)).
Proof. intros Ht Hpq. rewrite values_filter. by apply stores_delete. Qed.

Lemma stores_dict_pop t d p ids : stores row doc t (dict_values d) -> keyed key d ->
  (forall v, p (row v) = mem (key v) ids) ->
  stores row doc (delete p t).2 (dict_values (pop_all ids d)).
Proof.
  intros Ht Hd Hp. rewrite pop_all_filter.
  rewrite (values_dict_filter _ (fun v => negb (mem (key v) ids))).
  - by apply stores_delete.
  - intros k v Hin. by rewrite (proj2 Hd k v Hin).
Qed.

(** the record with an id, for its tenant *)
Lemma read_get payload t d p tenant_of tenant k :
  (forall v, payload (row v) = column (doc v)) -> stores row doc t (dict_values d) -> keyed key d ->
  (forall v, p (row v) = (tenant_of v == tenant) && (key v == k)) ->
  one_payload (List.map payload (select p t)) = Ok (doc <$> of_tenant tenant_of tenant (dict_get k d)).
Proof.
  intros Hpay Ht Hd Hp.
  apply (read_option row doc payload Hpay t (dict_values d) _ (fun v => (tenant_of v == tenant) && (key v == k)));
    [done|by rewrite select_rows; apply (stores_filter row doc)|].
  rewrite filter_values_get by done. unfold of_tenant. destruct (dict_get k d); [|done].
  by destruct (bool_decide _).
Qed.

End StoresDict.

(** ** Entries of a dictionary of lists *)

Definition entries {K V} (d : dict K (list V)) : list (K * V) :=
  List.flat_map (fun kl => List.map (pair kl.1) kl.2) d.

Section Entries.
Context {K V : Type} `{EqDecision K}.
Implicit Types (d : dict K (list V)).

Lemma in_entries k v d : In (k, v) (entries d) <-> exists l, In (k, l) d /\ In v l.
Proof.
  unfold entries. rewrite in_flat_map. split.
  - intros ([k' l] & Hin & (v' & E & Hv)%in_map_iff). simpl in *. simplify_eq. by exists l.
  - intros (l & Hin & Hv). exists (k, l). split; [done|]. apply in_map_iff. by exists v.
Qed.

Lemma entries_app d1 d2 : entries (d1 ++ d2) = entries d1 ++ entries d2.
Proof. apply List.flat_map_app. Qed.

Lemma entries_cons k l d : entries ((k, l) :: d) = List.map (pair k) l ++ entries d.
Proof. reflexivity. Qed.

Lemma entries_filter (p : K -> bool) d :
  entries (dict_filter (fun k _ => p k) d) = List.filter (fun e => p e.1) (entries d).
Proof.
  unfold entries, dict_filter. induction d as [|[k l] d IH]; simpl; [done|].
  rewrite List.filter_app, <- IH. destruct (p k) eqn:E; simpl.
  - f_equal. induction l as [|v l IHl]; simpl; [done|]. rewrite E. by f_equal.
  - replace (List.filter _ (List.map (pair k) l)) with (@nil (K * V)); [done|].
    induction l as [|v l IHl]; simpl; [done|]. by rewrite E.
Qed.

Lemma entries_append k v d : entries (dict_append k v d) ≡ₚ entries d ++ [(k, v)].
Proof.
  unfold dict_append. destruct (dict_get k d) as [l|] eqn:Hg.
  - destruct (dict_set_old k (l ++ [v]) l d Hg) as (d1 & d2 & -> & ->).
    rewrite !entries_app, !entries_cons, List.map_app. simpl.
    rewrite <- !app_assoc. apply Permutation_app_head, Permutation_app_head. apply Permutation_cons_append.
  - rewrite dict_set_new by done. by rewrite entries_app.
Qed.

(** replacing the list of a key *)
Lemma entries_set k l d : dict_wf d ->
  entries (dict_set k l d) ≡ₚ List.filter (fun e => negb (e.1 == k)) (entries d) ++ List.map (pair k) l.
Proof.
  intros Hw. assert (Hoff : forall d', ~ In k d'.*1 ->
    List.filter (fun e => negb (e.1 == k)) (entries d') = entries d').
  { intros d' Hn. transitivity (entries (dict_filter (fun x _ => negb (x == k)) d'));
      [symmetry; apply (entries_filter (fun x => negb (x == k)))|f_equal; unfold dict_filter].
    transitivity (List.filter (fun _ : K * list V => true) d'); [|by clear; induction d' as [|? ? IH]; simpl; f_equal].
    apply filter_ext_in'. intros [k' l'] Hin. simpl. rewrite bool_decide_false; [done|]. intros ->. apply Hn.
    apply in_map_iff. by exists (k, l'). }
  destruct (dict_get k d) as [l0|] eqn:Hg.
  - destruct (dict_set_old k l l0 d Hg) as (d1 & d2 & Ed & ->). unfold dict_wf in Hw.
    rewrite Ed in Hw. change ((d1 ++ (k, l0) :: d2).*1) with (List.map fst (d1 ++ (k, l0) :: d2)) in Hw.
    rewrite List.map_app in Hw. simpl in Hw. apply NoDup_app in Hw as (_ & Hw1 & Hw2).
    apply NoDup_cons in Hw2 as [Hw2 _].
    rewrite Ed, !entries_app, !entries_cons, !List.filter_app, Hoff.
    + rewrite (Hoff d2) by (rewrite <- list_elem_of_In; exact Hw2).
      replace (List.filter _ (List.map (pair k) l0)) with (@nil (K * V)).
      * simpl. rewrite <- app_assoc. apply Permutation_app_head. apply Permutation_app_comm.
      * clear. induction l0 as [|v l0 IH]; simpl; [done|]. by rewrite bool_decide_true.
    + intros Hin. apply (Hw1 k); [by apply list_elem_of_In|]. by left.
  - rewrite dict_set_new by done. rewrite entries_app, Hoff by (by apply dict_get_none).
    by rewrite entries_cons, app_nil_r.
Qed.

Lemma entries_get k d : dict_wf d ->
  List.map snd (List.filter (fun e => e.1 == k) (entries d)) = default [] (dict_get k d).
Proof.
  unfold dict_wf, entries. induction d as [|[k' l] d IH]; intros Hw; [done|]. csimpl in *.
  apply NoDup_cons in Hw as [Hn Hw]. rewrite List.filter_app, List.map_app, IH by done.
  destruct (decide (k = k')) as [->|E].
  - rewrite bool_decide_true by done. rewrite (proj2 (dict_get_none k' d)) by (by rewrite <- list_elem_of_In).
    simpl. rewrite app_nil_r. clear. induction l as [|v l IH]; simpl; [done|].
    rewrite bool_decide_true by done. simpl. by f_equal.
  - rewrite (bool_decide_false (k = k')) by done. replace (List.filter _ (List.map (pair k') l)) with (@nil (K * V)); [done|].
    clear -E. induction l as [|v l IH]; simpl; [done|]. by rewrite bool_decide_false.
Qed.

End Entries.
