(* ===== verification/PgRefinement.v ===== *)
(** * The database represents the in-memory store

    [represents h db r]: table by table, the database [db] holds what the
    dictionaries of the in-memory store [r] hold.  Rows of the idempotency table
    whose record expired before the horizon [h] may be left over: the PostgreSQL
    repository never purges them.  [reads_agree]: both repositories then answer
    every query alike, up to the order of a list. *)

From stdpp Require Import list.
From S2P Require Import Prelude PyData Float64 PyStd Enums Models Recovery Security.
From S2P Require Import Repository StoreInvariant Sql PgTables Postgres PgGovernance PgStore.
From Stdlib Require Import Sorting.Permutation.

(** ** The rows of the collections that are lists by key *)

(** the tenant of a stored trip *)
Definition trip_tenant (r : repo) (id : uuid) : string :=
  match dict_get id (Repo.trips r) with Some trip => Trip.tenant_id trip | None => "" end.

Section Rows.
Context `{Sql} `{Documents}.

Definition evidence_entry (tenant_of : uuid -> string) (e : uuid * EvidenceEnvelope.t) : EvidenceRow.t :=
  evidence_row (tenant_of e.1) e.1 e.2.
Definition assessment_entry (tenant_of : uuid -> string) (e : uuid * RiskAssessment.t) : AssessmentRow.t :=
  assessment_row (tenant_of e.1) e.2 <| AssessmentRow.trip_id := e.1 |>.
Definition notification_attempt_entry (e : uuid * NotificationAttempt.t) : NotificationAttemptRow.t :=
  notification_attempt_row e.2 <| NotificationAttemptRow.notification_id := e.1 |>.
Definition action_attempt_entry (e : uuid * ActionDispatchAttempt.t) : ActionAttemptRow.t :=
  action_attempt_row e.2 <| ActionAttemptRow.action_dispatch_id := e.1 |>.
(** segments are compared without their tenant column, which the store has not *)
Definition segment_entry (e : uuid * FlightSegmentCreate.t) : SegmentRow.t :=
  {| SegmentRow.trip_id := e.1;
     SegmentRow.segment_id := FlightSegmentCreate.segment_id e.2;
     SegmentRow.tenant_id := "";
     SegmentRow.carrier_code := FlightSegmentCreate.carrier_code e.2;
     SegmentRow.flight_number := FlightSegmentCreate.flight_number e.2;
     SegmentRow.departure_airport := FlightSegmentCreate.departure_airport e.2;
     SegmentRow.arrival_airport := FlightSegmentCreate.arrival_airport e.2;
     SegmentRow.scheduled_departure_at := dt_instant (FlightSegmentCreate.scheduled_departure_at e.2);
     SegmentRow.scheduled_arrival_at := dt_instant (FlightSegmentCreate.scheduled_arrival_at e.2) |}.
Definition untenanted (s : SegmentRow.t) : SegmentRow.t := s <| SegmentRow.tenant_id := "" |>.

Definition record_row (record : IdempotencyRecord.t) : IdempotencyRow.t :=
  idempotency_row record (IdempotencyRecord.tenant_id record) (IdempotencyRecord.idempotency_key record).
Definition set_row (s : string * RecoveryCandidateSet.t) : CandidateSetRow.t := candidate_set_row s.1 s.2.
Definition set_outcome_row (o : string * RecoveryCandidateOutcome.t) : OutcomeRow.t := outcome_row o.1 o.2.

End Rows.

(** ** The relation *)

Lemma filter_true {A} (l : list A) : List.filter (fun _ => true) l = l.
Proof. induction l as [|x l IH]; simpl; congruence. Qed.

Section Represents.
Context `{HS : Sql} `{Documents}.

Record represents (h : instant) (db : Db.t) (r : repo) : Prop := {
  rep_trips : stores trip_row id (Db.trips db) (dict_values (Repo.trips r));
  rep_segments : List.map untenanted (rows (Db.trip_segments db)) ≡ₚ
                 List.map segment_entry (entries (Repo.trip_segments r));
  rep_evidence : stores (evidence_entry (trip_tenant r)) snd (Db.evidence_items db) (entries (Repo.evidence r));
  rep_assessments :
    stores (assessment_entry (trip_tenant r)) snd (Db.assessments db) (entries (Repo.assessments r));
  rep_incidents : stores incident_row id (Db.incidents db) (dict_values (Repo.incidents r));
  rep_profiles : stores profile_row id (Db.preferences db) (dict_values (Repo.profiles r));
  rep_approvals : stores approval_row id (Db.approvals db) (dict_values (Repo.approvals r));
  rep_events : stores event_row id (Db.events db) (Repo.events r);
  rep_proposals : stores proposal_row id (Db.memory_proposals db) (dict_values (Repo.memory_proposals r));
  rep_candidate_sets : stores set_row snd (Db.candidate_sets db) (dict_values (Repo.candidate_sets r));
  rep_outcomes : stores set_outcome_row snd (Db.candidate_outcomes db) (dict_values (Repo.candidate_outcomes r));
  rep_feedback : stores feedback_row id (Db.manager_feedback db) (dict_values (Repo.manager_feedback r));
  rep_playbooks : stores playbook_row id (Db.tenant_playbooks db) (dict_values (Repo.tenant_playbooks r));
  rep_notifications :
    stores notification_row id (Db.notifications db) (dict_values (Repo.notifications r));
  rep_notification_attempts : stores notification_attempt_entry snd (Db.notification_attempts db)
    (entries (Repo.notification_attempts r));
  rep_actions : stores action_row id (Db.action_dispatches db) (dict_values (Repo.action_dispatches r));
  rep_action_attempts : stores action_attempt_entry snd (Db.action_dispatch_attempts db)
    (entries (Repo.action_dispatch_attempts r));
  rep_memory_audits : stores memory_audit_row id (Db.memory_audit_events db) (Repo.memory_audits r);
  rep_change_records : stores change_row id (Db.change_records db) (dict_values (Repo.change_records r));
  rep_onboarding : stores onboarding_row id (Db.provider_onboarding_records db)
    (dict_values (Repo.provider_onboarding_records r));
  rep_overrides : stores override_row id (Db.runtime_control_overrides db)
    (dict_values (Repo.runtime_control_overrides r));
  rep_control_changes : stores control_change_row id (Db.runtime_control_changes db)
    (Repo.runtime_control_changes r);
  rep_platform_overrides : stores platform_override_row id (Db.platform_runtime_control_overrides db)
    (dict_values (Repo.platform_control_overrides r));
  rep_platform_changes : stores platform_change_row id (Db.platform_runtime_control_changes db)
    (Repo.platform_control_changes r);
  rep_idempotency : exists stale,
    stores record_row id (Db.idempotency_records db) (dict_values (Repo.idempotency_records r) ++ stale) /\
    forall e, In e stale -> IdempotencyRecord.expires_at e < h;
  rep_uploads : stores upload_row id (Db.original_uploads db) (dict_values (Repo.original_uploads r));
  rep_legal_holds : stores legal_hold_row id (Db.legal_holds db) (dict_values (Repo.legal_holds r));
  rep_deletion_requests : stores deletion_row id (Db.deletion_requests db) (dict_values (Repo.deletion_requests r));
  (* the children of a record are stored only while the record is *)
  rep_evidence_trip : forall id l, In (id, l) (Repo.evidence r) -> dict_mem id (Repo.trips r) = true;
  rep_assessment_trip : forall id l, In (id, l) (Repo.assessments r) -> dict_mem id (Repo.trips r) = true;
  rep_attempt_notification : forall id l,
    In (id, l) (Repo.notification_attempts r) -> dict_mem id (Repo.notifications r) = true;
  rep_attempt_action : forall id l,
    In (id, l) (Repo.action_dispatch_attempts r) -> dict_mem id (Repo.action_dispatches r) = true
}.

Context `{!SqlLaws}.

(** two fresh repositories *)
Lemma represents_setup h : represents h setup Repo.init.
Proof.
  constructor; try (apply stores_create); try done.
  - unfold setup. cbn [Db.trip_segments]. by rewrite rows_create.
  - exists []. split; [apply stores_create|done].
Qed.

(** a query that returns the values [l], in some order *)
Definition agrees {A} (m : res (list A)) (l : list A) : Prop := exists l', m = Ok l' /\ l' ≡ₚ l.

Lemma agrees_sorted {A} leb (m : res (list A)) l : agrees m l -> agrees (sorted leb <$> m) (sorted leb l).
Proof.
  intros (l' & -> & Hl). eexists. split; [done|]. etransitivity; [symmetry; apply sorted_perm|].
  rewrite Hl. apply sorted_perm.
Qed.

Lemma agrees_filter {A} p (m : res (list A)) l :
  agrees m l -> agrees (List.filter p <$> m) (List.filter p l).
Proof. intros (l' & -> & Hl). eexists. split; [done|]. by apply filter_perm. Qed.

(** [validate_rows] of a [select] over stored values *)
Lemma agrees_select {V A R} `{Document A} `{Table R} (row : V -> R) (doc : V -> A) payload t l p q :
  (forall v, payload (row v) = column (doc v)) -> stores row doc t l ->
  (forall v, In v l -> p (row v) = q v) ->
  agrees (validate_rows (List.map payload (select p t))) (List.map doc (List.filter q l)).
Proof. intros Hpay Ht Hpq. by apply (read_select row doc payload Hpay t). Qed.

Lemma agrees_ordered {V A R} `{Document A} `{Table R} (row : V -> R) (doc : V -> A) payload t l leb p q :
  (forall v, payload (row v) = column (doc v)) -> stores row doc t l ->
  leb_is_total leb -> leb_is_trans leb -> (forall v, In v l -> p (row v) = q v) ->
  agrees (validate_rows (List.map payload (select_ordered leb p t))) (List.map doc (List.filter q l)).
Proof.
  intros Hpay Ht Htot Htr Hpq. apply (read_rows row doc payload Hpay t); [done|].
  rewrite (proj1 (select_ordered_rows leb p t Htot Htr)). by apply (stores_filter row doc).
Qed.

Lemma agrees_id {A} (m : res (list A)) l : agrees m (List.map id l) -> agrees m l.
Proof. by rewrite List.map_id. Qed.

Lemma id_leb_total {A} (f : A -> N) : leb_is_total (fun a b => (f a <=? f b)%N).
Proof. intros a b. rewrite !N.leb_le. lia. Qed.
Lemma id_leb_trans {A} (f : A -> N) : leb_is_trans (fun a b => (f a <=? f b)%N).
Proof. intros a b c. rewrite !N.leb_le. lia. Qed.

End Represents.

(** ** Queries *)

Section Reads.
Context `{HS : Sql} `{!SqlLaws} `{Documents} (h : instant) (db : Db.t) (r : repo).
Hypotheses (Hr : represents h db r) (Hok : store_ok r).

(** a record by tenant and id, in the table of a keyed dictionary *)
Ltac by_id rep ok tenants key :=
  etransitivity;
  [ eapply (read_get _ id key _ _ _ _ tenants);
    [|exact (rep h db r Hr)|exact (ok r Hok)|]; reflexivity
  | by rewrite option_fmap_id ].

(** the records that satisfy a test of their columns *)
Ltac by_columns rep :=
  eapply agrees_id, (agrees_select _ id); [|exact (rep h db r Hr)|]; reflexivity.

Lemma pg_get_trip tenant k : get_trip db tenant k = Ok (Repository.get_trip r tenant k).
Proof. unfold get_trip. by_id rep_trips ok_trips Trip.tenant_id Trip.trip_id. Qed.

Lemma pg_get_incident tenant k : get_incident db tenant k = Ok (Repository.get_incident r tenant k).
Proof. unfold get_incident. by_id rep_incidents ok_incidents Incident.tenant_id Incident.incident_id. Qed.

Lemma pg_get_memory_proposal tenant k :
  get_memory_proposal db tenant k = Ok (Repository.get_memory_proposal r tenant k).
Proof.
  unfold get_memory_proposal.
  by_id rep_proposals ok_memory_proposals MemoryUpdateProposal.tenant_id MemoryUpdateProposal.proposal_id.
Qed.

Lemma pg_get_playbook tenant k : get_playbook db tenant k = Ok (Repository.get_playbook r tenant k).
Proof. unfold get_playbook. by_id rep_playbooks ok_playbooks TenantPlaybook.tenant_id TenantPlaybook.playbook_id. Qed.

Lemma pg_get_notification tenant k : get_notification db tenant k = Ok (Repository.get_notification r tenant k).
Proof.
  unfold get_notification.
  by_id rep_notifications ok_notifications NotificationRecord.tenant_id NotificationRecord.notification_id.
Qed.

Lemma pg_get_original_upload tenant k :
  get_original_upload db tenant k = Ok (Repository.get_original_upload r tenant k).
Proof.
  unfold get_original_upload.
  by_id rep_uploads ok_uploads OriginalUploadRecord.tenant_id OriginalUploadRecord.original_upload_id.
Qed.

Lemma pg_get_legal_hold tenant k : get_legal_hold db tenant k = Ok (Repository.get_legal_hold r tenant k).
Proof.
  unfold get_legal_hold. by_id rep_legal_holds ok_legal_holds LegalHoldRecord.tenant_id LegalHoldRecord.legal_hold_id.
Qed.

Lemma pg_get_deletion_request tenant k :
  get_deletion_request db tenant k = Ok (Repository.get_deletion_request r tenant k).
Proof.
  unfold get_deletion_request.
  by_id rep_deletion_requests ok_deletion_requests DeletionRequest.tenant_id DeletionRequest.deletion_request_id.
Qed.

(** a record by its whole key *)
Lemma pg_get_profile tenant traveler :
  get_profile db tenant traveler = Ok (Repository.get_profile r tenant traveler).
Proof.
  unfold get_profile, Repository.get_profile. etransitivity.
  - eapply (read_option profile_row id PreferenceRow.payload)
      with (q := fun v => true && (profile_key v == (tenant, traveler)));
      [reflexivity|exact (rep_profiles h db r Hr)| |].
    + rewrite select_rows. apply (stores_filter profile_row id); [exact (rep_profiles h db r Hr)|].
      intros v _. unfold preference_of, profile_key, profile_row. simpl.
      repeat case_bool_decide; simplify_eq; naive_solver.
    + by rewrite (filter_values_get profile_key (fun _ => true) _ _ (ok_profiles r Hok)).
  - by rewrite option_fmap_id.
Qed.

Lemma pg_get_candidate_set tenant incident_id k :
  get_candidate_set db tenant incident_id k = Ok (Repository.get_candidate_set r tenant incident_id k).
Proof.
  unfold get_candidate_set, Repository.get_candidate_set. etransitivity.
  - eapply (read_option set_row snd CandidateSetRow.payload)
      with (q := fun v => (v.1 == tenant) && (RecoveryCandidateSet.incident_id v.2 == incident_id) &&
                          (RecoveryCandidateSet.candidate_set_id v.2 == k))
           (o := match dict_get k (Repo.candidate_sets r) with
                 | Some v => if (v.1 == tenant) && (RecoveryCandidateSet.incident_id v.2 == incident_id)
                             then Some v else None
                 | None => None end);
      [reflexivity|exact (rep_candidate_sets h db r Hr)| |].
    + rewrite select_rows. by apply (stores_filter set_row snd); [exact (rep_candidate_sets h db r Hr)|].
    + rewrite (filter_values_get (fun v => RecoveryCandidateSet.candidate_set_id v.2)
                 (fun v => (v.1 == tenant) && (RecoveryCandidateSet.incident_id v.2 == incident_id))
                 _ _ (ok_candidate_sets r Hok)).
      destruct (dict_get _ _); [|done]. by destruct (_ && _).
  - destruct (dict_get k (Repo.candidate_sets r)) as [[t s]|]; [|done]. simpl.
    by destruct (t == tenant), (RecoveryCandidateSet.incident_id s == incident_id).
Qed.

(** the lists *)

Lemma pg_list_trips : agrees (list_trips db) (Repository.list_trips r).
Proof.
  destruct (read_rows trip_row id TripRow.payload (fun _ => eq_refl) (Db.trips db)
              (dict_values (Repo.trips r)) (rows (Db.trips db)) (fun _ => true)) as (l & E & Hl).
  - exact (rep_trips h db r Hr).
  - rewrite <- (stores_filter trip_row id _ _ (fun _ => true) _ (rep_trips h db r Hr)) by done.
    by rewrite filter_true.
  - exists l. split; [exact E|]. by rewrite Hl, List.map_id, filter_true.
Qed.

Lemma pg_list_incidents tenant : agrees (list_incidents db tenant) (Repository.list_incidents r tenant).
Proof. by_columns rep_incidents. Qed.

Lemma pg_list_events tenant : agrees (list_events db tenant) (Repository.list_events r tenant).
Proof. by_columns rep_events. Qed.

Lemma pg_list_candidate_sets tenant incident_id :
  agrees (list_candidate_sets db tenant incident_id) (Repository.list_candidate_sets r tenant incident_id).
Proof.
  unfold Repository.list_candidate_sets. erewrite filter_ext_in';
    [apply (agrees_select set_row snd); [reflexivity|exact (rep_candidate_sets h db r Hr)|reflexivity]|].
  by intros [t s] _.
Qed.

Lemma pg_list_candidate_outcomes tenant k :
  agrees (list_candidate_outcomes db tenant k) (Repository.list_candidate_outcomes r tenant k).
Proof.
  unfold Repository.list_candidate_outcomes. apply agrees_sorted. erewrite filter_ext_in';
    [apply (agrees_select set_outcome_row snd); [reflexivity|exact (rep_outcomes h db r Hr)|reflexivity]|].
  by intros [t s] _.
Qed.

Lemma pg_list_manager_feedback tenant incident_id :
  agrees (list_manager_feedback db tenant incident_id) (Repository.list_manager_feedback r tenant incident_id).
Proof. apply agrees_sorted. by_columns rep_feedback. Qed.

Lemma pg_list_approved_playbooks tenant :
  agrees (list_approved_playbooks db tenant) (Repository.list_approved_playbooks r tenant).
Proof. apply agrees_sorted. by_columns rep_playbooks. Qed.

Lemma pg_list_action_dispatches tenant incident_id :
  agrees (list_action_dispatches db tenant incident_id) (Repository.list_action_dispatches r tenant incident_id).
Proof. by_columns rep_actions. Qed.

Lemma pg_list_change_records tenant :
  agrees (list_change_records db tenant) (Repository.list_change_records r tenant).
Proof. by_columns rep_change_records. Qed.

Lemma pg_list_provider_onboarding tenant :
  agrees (list_provider_onboarding db tenant) (Repository.list_provider_onboarding r tenant).
Proof. by_columns rep_onboarding. Qed.

Lemma pg_get_evidence tenant k : agrees (get_evidence db tenant k) (Repository.get_evidence r tenant k).
Proof.
  unfold get_evidence, Repository.get_evidence.
  destruct (agrees_select (evidence_entry (trip_tenant r)) snd EvidenceRow.payload (Db.evidence_items db)
              (entries (Repo.evidence r)) (evidence_of tenant k)
              (fun e => (trip_tenant r e.1 == tenant) && (e.1 == k))) as (l & E & Hl);
    [reflexivity|exact (rep_evidence h db r Hr)|reflexivity|].
  exists l. split; [exact E|]. rewrite Hl. clear E Hl l. unfold Repository.get_trip, of_tenant.
  rewrite (filter_ext_in' _ (fun e => (e.1 == k) && (trip_tenant r k == tenant))).
  - destruct (dict_get k (Repo.trips r)) as [trip|] eqn:Hg; unfold trip_tenant; rewrite Hg.
    + destruct (Trip.tenant_id trip == tenant).
      * rewrite <- (entries_get k (Repo.evidence r)) by apply Hok. apply Permutation_refl'. f_equal.
        apply filter_ext_in'. intros e _. by rewrite andb_true_r.
      * rewrite (filter_ext_in' _ (fun _ => false)) by (intros; by rewrite andb_false_r).
        by induction (entries _).
    + rewrite (filter_ext_in' _ (fun _ => false)); [by induction (entries _)|].
      intros [id e] (l & Hin & _)%in_entries. apply (rep_evidence_trip h db r Hr) in Hin. simpl.
      case_bool_decide; [|done]. subst. unfold dict_mem in Hin. by rewrite Hg in Hin.
  - intros [id e] _. simpl. destruct (id == k) eqn:E; [|by rewrite andb_false_r].
    apply bool_decide_eq_true in E as ->. by rewrite andb_comm.
Qed.

Lemma mem_values {T} `{Enums.StrEnum T} (x : T) l : mem (value x) (List.map value l) = mem x l.
Proof.
  apply eq_true_iff_eq. rewrite !mem_true_iff, in_map_iff. split.
  - intros (y & Hy & Hin). apply value_injective in Hy. by subst.
  - intros Hin. by exists x.
Qed.

Lemma pg_list_notifications tenant statuses : statuses <> Some [] ->
  agrees (list_notifications db tenant statuses) (Repository.list_notifications r tenant statuses).
Proof.
  intros Hs. apply agrees_id. eapply (agrees_select notification_row id);
    [reflexivity|exact (rep_notifications h db r Hr)|].
  intros n _. destruct statuses as [[|s l]|]; [done| |done].
  apply (f_equal (andb (NotificationRecord.tenant_id n == tenant))).
  exact (mem_values (NotificationRecord.status n) (s :: l)).
Qed.

Lemma filter_filter {A} (p q : A -> bool) l :
  List.filter p (List.filter q l) = List.filter (fun x => q x && p x) l.
Proof.
  induction l as [|x l IH]; simpl; [done|]. destruct (q x); simpl; [|done]. destruct (p x); by rewrite IH.
Qed.

Lemma pg_list_due_notifications now :
  agrees (list_due_notifications db now) (Repository.list_due_notifications r now).
Proof.
  unfold Repository.list_due_notifications. rewrite <- (filter_filter _ lease_ready). apply agrees_filter.
  apply agrees_id. eapply (agrees_select notification_row id);
    [reflexivity|exact (rep_notifications h db r Hr)|].
  intros n _. exact (mem_values (NotificationRecord.status n)
    [NotificationStatus.QUEUED; NotificationStatus.RETRY_SCHEDULED]).
Qed.

Lemma pg_list_notification_attempts tenant k :
  agrees (list_notification_attempts db tenant k) (Repository.list_notification_attempts r tenant k).
Proof.
  unfold list_notification_attempts, Repository.list_notification_attempts. rewrite pg_get_notification. cbn.
  destruct (Repository.get_notification r tenant k); [|by exists []].
  rewrite <- entries_get by apply Hok.
  apply (agrees_select notification_attempt_entry snd); [reflexivity| |reflexivity].
  exact (rep_notification_attempts h db r Hr).
Qed.

Lemma pg_list_action_dispatch_attempts tenant k :
  agrees (list_action_dispatch_attempts db tenant k) (Repository.list_action_dispatch_attempts r tenant k).
Proof.
  unfold list_action_dispatch_attempts, Repository.list_action_dispatch_attempts.
  set (s := select _ (Db.action_dispatches db)).
  assert (Hs : s ≡ₚ List.map action_row
    match of_tenant ActionDispatchRecord.tenant_id tenant (dict_get k (Repo.action_dispatches r)) with
    | Some a => [a] | None => [] end).
  { subst s. rewrite select_rows.
    rewrite (stores_filter action_row id _ _ _ (fun a => (ActionDispatchRecord.tenant_id a == tenant) &&
      (ActionDispatchRecord.action_dispatch_id a == k)) (rep_actions h db r Hr)) by reflexivity.
    rewrite (filter_values_get ActionDispatchRecord.action_dispatch_id
      (fun a => ActionDispatchRecord.tenant_id a == tenant) _ _ (ok_action_dispatches r Hok)).
    unfold of_tenant. destruct (dict_get k _); [|done]. by destruct (_ == _). }
  destruct (of_tenant _ _ _) as [a|] eqn:Hg.
  - apply singleton_perm in Hs as ->. simpl. rewrite scalar_one_or_none_one. cbn.
    assert (Ha : storable a).
    { apply (rep_actions h db r Hr). unfold of_tenant in Hg. destruct (dict_get k _) as [a'|] eqn:E; [|done].
      apply dict_get_in in E. case_bool_decide; [|done]. simplify_eq. apply dict_in_values. by exists k. }
    rewrite (proj2 Ha). cbn. rewrite <- entries_get by apply Hok.
    apply (agrees_select action_attempt_entry snd); [reflexivity| |reflexivity].
    exact (rep_action_attempts h db r Hr).
  - apply Permutation_sym, Permutation_nil in Hs as ->. simpl. rewrite scalar_one_or_none_nil. by exists [].
Qed.

(** [if traveler_id:] and [traveler_id is None] differ on the empty string only *)
Lemma optional_filter (traveler_id : option string) x : traveler_id <> Some "" ->
  negb (truthy_opt_str traveler_id && negb (bool_decide (Some x = traveler_id))) =
  match traveler_id with None => true | Some t => x == t end.
Proof.
  intros Hne. destruct traveler_id as [t|]; [|done]. simpl. unfold truthy_str.
  rewrite bool_decide_false by congruence. simpl. rewrite negb_involutive.
  apply bool_decide_ext. naive_solver.
Qed.

Lemma pg_list_memory_audit tenant traveler : traveler <> Some "" ->
  agrees (list_memory_audit db tenant traveler) (Repository.list_memory_audit r tenant traveler).
Proof.
  intros Hne. apply agrees_id. eapply (agrees_select memory_audit_row id);
    [reflexivity|exact (rep_memory_audits h db r Hr)|].
  intros e _. simpl. f_equal. by apply optional_filter.
Qed.

Lemma pg_list_runtime_control_changes tenant :
  agrees (list_runtime_control_changes db tenant) (Repository.list_runtime_control_changes r tenant).
Proof.
  apply agrees_id. eapply (agrees_ordered control_change_row id);
    [reflexivity|exact (rep_control_changes h db r Hr)|apply id_leb_total|apply id_leb_trans|reflexivity].
Qed.

Lemma pg_list_platform_control_changes :
  agrees (list_platform_control_changes db) (Repository.list_platform_control_changes r).
Proof.
  unfold Repository.list_platform_control_changes. rewrite <- (filter_true (Repo.platform_control_changes r)).
  apply agrees_id. eapply (agrees_ordered platform_change_row id);
    [reflexivity|exact (rep_platform_changes h db r Hr)|apply id_leb_total|apply id_leb_trans|reflexivity].
Qed.

Lemma value_eqb {T} `{Enums.StrEnum T} (x y : T) : (value x == value y) = (x == y).
Proof. apply bool_decide_ext. split; [apply value_injective|congruence]. Qed.

Lemma pg_get_runtime_control_override tenant name now :
  get_runtime_control_override db tenant name now = Repository.get_runtime_control_override r tenant name now.
Proof.
  unfold get_runtime_control_override, Repository.get_runtime_control_override.
  rewrite (read_option override_row id ControlOverrideRow.payload (fun _ => eq_refl) _ _ _
    (fun v => true && ((RuntimeControlChange.tenant_id v, RuntimeControlChange.control_name v) == (tenant, name)))
    (dict_get (tenant, name) (Repo.runtime_control_overrides r)) (rep_overrides h db r Hr)).
  - by destruct (dict_get _ _).
  - rewrite select_rows. apply (stores_filter override_row id); [exact (rep_overrides h db r Hr)|].
    intros v _. transitivity ((RuntimeControlChange.tenant_id v == tenant) &&
      (value (RuntimeControlChange.control_name v) == value name)); [reflexivity|].
    rewrite value_eqb. simpl. repeat case_bool_decide; naive_solver.
  - by rewrite (filter_values_get _ (fun _ => true) _ _ (ok_runtime_overrides r Hok)).
Qed.

Lemma pg_get_platform_control_override name now :
  get_platform_control_override db name now = Repository.get_platform_control_override r name now.
Proof.
  unfold get_platform_control_override, Repository.get_platform_control_override.
  rewrite (read_option platform_override_row id PlatformOverrideRow.payload (fun _ => eq_refl) _ _ _
    (fun v => true && (PlatformRuntimeControlChange.control_name v == name))
    (dict_get name (Repo.platform_control_overrides r)) (rep_platform_overrides h db r Hr)).
  - by destruct (dict_get _ _).
  - rewrite select_rows.
    apply (stores_filter platform_override_row id); [exact (rep_platform_overrides h db r Hr)|].
    intros v _. exact (value_eqb (PlatformRuntimeControlChange.control_name v) name).
  - by rewrite (filter_values_get _ (fun _ => true) _ _ (ok_platform_overrides r Hok)).
Qed.

Lemma dt_sorted_perm {A} key text (l l' : list A) : dt_sorted key text l = Ok l' -> l' ≡ₚ l.
Proof. unfold dt_sorted. destruct (_ && _); [done|]. intros <-%Ok_inj. symmetry. apply sorted_perm. Qed.

Lemma pg_list_legal_holds tenant l :
  Repository.list_legal_holds r tenant = Ok l -> agrees (list_legal_holds db tenant) l.
Proof.
  intros E. apply dt_sorted_perm in E.
  destruct (agrees_ordered legal_hold_row id LegalHoldRow.payload (Db.legal_holds db) (dict_values (Repo.legal_holds r))
    (fun a b => (LegalHoldRow.legal_hold_id a <=? LegalHoldRow.legal_hold_id b)%N)
    (fun r => LegalHoldRow.tenant_id r == tenant) (fun v => LegalHoldRecord.tenant_id v == tenant))
    as (l' & E' & Hl'); [reflexivity|exact (rep_legal_holds h db r Hr)|apply id_leb_total|apply id_leb_trans|reflexivity|].
  exists l'. split; [exact E'|]. by rewrite Hl', List.map_id, E.
Qed.

Lemma map_filter_fst {V} (key : V -> uuid) (q : V -> bool) (d : dict uuid V) : keyed key d ->
  dict_keys (keep_values q d) = List.map key (List.filter q (dict_values d)).
Proof.
  intros [_ Hk]. rewrite <- values_filter. unfold dict_keys, dict_values.
  change (?l.*1) with (List.map fst l). change (?l.*2) with (List.map snd l). rewrite List.map_map.
  apply List.map_ext_in. intros [k v] [Hin _]%filter_In. symmetry. by apply Hk.
Qed.

(** the ids that the database selects by the documents are those the store selects *)
Lemma pg_trip_ids tenant traveler :
  agrees (trip_ids_of tenant traveler (rows (Db.trips db))) (traveler_trip_ids (Repo.trips r) tenant traveler).
Proof.
  unfold traveler_trip_ids. rewrite (map_filter_fst Trip.trip_id _ _ (ok_trips r Hok)).
  eapply (ids_where_rows trip_row id); [reflexivity|reflexivity|apply (rep_trips h db r Hr)|
    apply (rep_trips h db r Hr)|]. by apply filter_res_pure.
Qed.

Lemma hold_covers_perm traveler ids ids' hold : ids ≡ₚ ids' ->
  hold_covers_traveler traveler ids hold = hold_covers_traveler traveler ids' hold.
Proof.
  intros Hp. unfold hold_covers_traveler. do 2 f_equal.
  destruct (LegalHoldRecord.trip_id hold); [by apply mem_perm|done].
Qed.

Lemma pg_active_legal_holds tenant traveler now l :
  Repository.active_legal_holds_for_traveler r tenant traveler now = Ok l ->
  agrees (active_legal_holds_for_traveler db tenant traveler now) l.
Proof.
  unfold Repository.active_legal_holds_for_traveler, active_legal_holds_for_traveler. intros E.
  apply res_bind_ok in E as (holds & Eh & E).
  destruct (pg_trip_ids tenant traveler) as (ids & -> & Hids). cbn.
  destruct (pg_list_legal_holds tenant holds Eh) as (holds' & -> & Hh). cbn.
  symmetry in Hh. destruct (filter_res_perm _ _ _ _ Hh E) as (l' & E' & Hl').
  exists l'. split; [|by symmetry]. erewrite <- (List.map_id holds'), <- (List.map_id l').
  eapply (filter_res_ext (fun x => x)); [|exact E'].
  intros x _. cbv beta. destruct (LegalHoldRecord.is_active x now); [|reflexivity]. cbn. do 2 f_equal.
  apply hold_covers_perm. rewrite Hids. unfold traveler_trip_ids.
  by rewrite (map_filter_fst Trip.trip_id _ _ (ok_trips r Hok)).
Qed.

Lemma pg_list_deletion_requests tenant traveler l : traveler <> Some "" ->
  Repository.list_deletion_requests r tenant traveler = Ok l ->
  agrees (list_deletion_requests db tenant traveler) l.
Proof.
  intros Hne E. apply dt_sorted_perm in E.
  destruct (agrees_ordered deletion_row id DeletionRow.payload (Db.deletion_requests db)
    (dict_values (Repo.deletion_requests r)) deletion_order
    (fun r => (DeletionRow.tenant_id r == tenant) &&
      negb (truthy_opt_str traveler && negb (bool_decide (Some (DeletionRow.traveler_id r) = traveler))))
    (fun q => (DeletionRequest.tenant_id q == tenant) &&
      match traveler with None => true | Some t => DeletionRequest.traveler_id q == t end)) as (l' & E' & Hl');
    [reflexivity|exact (rep_deletion_requests h db r Hr)|apply id_leb_total|apply id_leb_trans| |].
  - intros q _. simpl. f_equal. by apply optional_filter.
  - exists l'. split; [exact E'|]. by rewrite Hl', List.map_id, E.
Qed.

Lemma pg_list_pending_deletion_requests l :
  Repository.list_pending_deletion_requests r = Ok l -> agrees (list_pending_deletion_requests db) l.
Proof.
  intros E. apply dt_sorted_perm in E.
  destruct (agrees_ordered deletion_row id DeletionRow.payload (Db.deletion_requests db)
    (dict_values (Repo.deletion_requests r)) deletion_order
    (fun r => mem (DeletionRow.status r)
        [value DeletionRequestStatus.PENDING; value DeletionRequestStatus.BLOCKED_BY_LEGAL_HOLD])
    (fun q => mem (DeletionRequest.status q)
        [DeletionRequestStatus.PENDING; DeletionRequestStatus.BLOCKED_BY_LEGAL_HOLD])) as (l' & E' & Hl');
    [reflexivity|exact (rep_deletion_requests h db r Hr)|apply id_leb_total|apply id_leb_trans| |].
  - intros q _. exact (mem_values (DeletionRequest.status q)
      [DeletionRequestStatus.PENDING; DeletionRequestStatus.BLOCKED_BY_LEGAL_HOLD]).
  - exists l'. split; [exact E'|]. by rewrite Hl', List.map_id, E.
Qed.

End Reads.
