(* ===== verification/PgWrites.v ===== *)
(** * Writes of the database that follow the writes of the store

    One lemma per method of [apps/api/postgres_repository.py] that writes: from a
    database that represents the store, the method commits a database that
    represents the store after the method of the same name of
    [apps/api/repository.py].  The hypotheses are what the relational schema adds:
    texts fit their columns, an inserted identifier is new, and an overwritten row
    keeps the columns that its ON CONFLICT clause does not set. *)

From stdpp Require Import list.
From S2P Require Import Prelude PyData Float64 PyStd Enums Models Recovery Security.
From S2P Require Import Repository StoreInvariant Sql PgTables Postgres PgGovernance PgStore PgRefinement.
From Stdlib Require Import Sorting.Permutation.

Section Writes.
Context `{HS : Sql} `{!SqlLaws} `{HD : Documents}.

(** ** Transactions *)

Lemma begin_then {A B} (m : M Db.t A) (k : A -> M Db.t B) db a db' :
  m db = (Ok a, db') -> (begin m ≫= k) db = k a db'.
Proof. intros E. rewrite M_bind_unfold. by rewrite (begin_commit _ _ _ _ E). Qed.

Lemma execute_ok {R} `{Table R} (tbl : Db.t -> table R) `{!Setter tbl} f db t :
  f (tbl db) = Ok t -> execute tbl f db = (Ok tt, over tbl (fun _ => t) db).
Proof. unfold execute. by intros ->. Qed.

(** one statement in its own transaction *)
Lemma commit_one {R A} `{Table R} (tbl : Db.t -> table R) `{!Setter tbl} f db t (x : A) :
  f (tbl db) = Ok t -> (begin (execute tbl f) ;; mret x) db = (Ok x, over tbl (fun _ => t) db).
Proof. intros E. by rewrite (begin_then _ _ _ _ _ (execute_ok tbl f db t E)). Qed.

Lemma delete_from_ok {R} `{Table R} (tbl : Db.t -> table R) `{!Setter tbl} p db :
  delete_from tbl p db = (Ok tt, over tbl (fun _ => (delete p (tbl db)).2) db).
Proof. unfold delete_from, execute_delete. rewrite M_bind_unfold. by destruct (delete p (tbl db)). Qed.

(** a value that can be written under its row *)
Definition writable {A R} `{Document A} `{Table R} (row : R) (a : A) : Prop := storable a /\ fits row = true.

(** the fields that a write does not touch *)
Ltac rebuild Hr := destruct Hr; constructor; simpl; try assumption.

Lemma stores_ext {V A R} `{Document A} `{Table R} (row row' : V -> R) (doc : V -> A) t l :
  (forall v, In v l -> row v = row' v) -> stores row doc t l -> stores row' doc t l.
Proof.
  intros Hrow [Hr Hs]. split; [|done]. rewrite Hr. apply Permutation_refl'. by apply List.map_ext_in.
Qed.

Section Step.
Variables (h : instant) (db : Db.t) (r : repo).
Hypotheses (Hr : represents h db r) (Hok : store_ok r).

(** ** Trips *)

Lemma replace_segments (trip : Trip.t) :
  Trip.segments trip <> [] ->
  NoDup (List.map FlightSegmentCreate.segment_id (Trip.segments trip)) ->
  (forall s, In s (Trip.segments trip) -> fits (segment_row trip s) = true) ->
  exists t,
    (forall db1, Db.trip_segments db1 = Db.trip_segments db ->
       _replace_trip_segments trip db1 = (Ok tt, db1 <| Db.trip_segments := t |>)) /\
    List.map untenanted (rows t) ≡ₚ
    List.map segment_entry (entries (dict_set (Trip.trip_id trip) (Trip.segments trip) (Repo.trip_segments r))).
Proof.
  intros Hne Hd Hf. set (p := fun s => SegmentRow.trip_id s == Trip.trip_id trip).
  destruct (delete_rows p (Db.trip_segments db)) as [_ Hdel].
  set (t1 := (delete p (Db.trip_segments db)).2) in *.
  destruct (insert_ok (List.map (segment_row trip) (Trip.segments trip)) t1) as (t2 & E & Ht2).
  - by destruct (Trip.segments trip).
  - rewrite keys_app. apply NoDup_app. split_and!; [| |apply rows_unique].
    + unfold keys. rewrite List.map_map. simpl.
      rewrite <- (List.map_map FlightSegmentCreate.segment_id (fun s => (Trip.trip_id trip, s))).
      apply NoDup_fmap_2; [|done]. by intros x y [= ->].
    + intros k Hk Hk'. rewrite list_elem_of_In in Hk, Hk'. rewrite (keys_perm _ _ Hdel) in Hk'.
      apply in_map_iff in Hk as (s & <- & (s0 & <- & _)%in_map_iff).
      apply in_map_iff in Hk' as (s' & E & (_ & Hp)%filter_In). subst p. simpl in *. simplify_eq.
      rewrite bool_decide_true in Hp; [done|congruence].
  - apply forallb_forall. intros s (s0 & <- & Hs)%in_map_iff. by apply Hf.
  - exists t2. split.
    + intros db1 E1. unfold _replace_trip_segments. rewrite M_bind_unfold, delete_from_ok. cbv iota beta.
      rewrite (execute_ok Db.trip_segments _ _ t2); [done|]. simpl. rewrite E1. exact E.
    + rewrite Ht2, Hdel. rewrite (entries_set _ _ _ (ok_trip_segments r Hok)), !List.map_app.
      rewrite Permutation_app_comm. apply Permutation_app; [|by rewrite !List.map_map].
      rewrite <- (filter_map_swap untenanted (fun s => negb (p s))) by reflexivity.
      rewrite (filter_perm _ _ _ (rep_segments h db r Hr)).
      rewrite (filter_map_swap segment_entry _ (fun e => negb (e.1 == Trip.trip_id trip))) by reflexivity. done.
Qed.

(** the children of the trips keep their tenant column *)
Lemma children_tenant (r' : repo) :
  (forall id, dict_mem id (Repo.trips r) = true -> trip_tenant r' id = trip_tenant r id) ->
  stores (evidence_entry (trip_tenant r')) snd (Db.evidence_items db) (entries (Repo.evidence r)) /\
  stores (assessment_entry (trip_tenant r')) snd (Db.assessments db) (entries (Repo.assessments r)).
Proof.
  intros Ht. split.
  - eapply stores_ext; [|exact (rep_evidence h db r Hr)]. intros [id e] (l & Hin & _)%in_entries.
    unfold evidence_entry. simpl. by rewrite Ht by (by eapply (rep_evidence_trip h db r Hr)).
  - eapply stores_ext; [|exact (rep_assessments h db r Hr)]. intros [id e] (l & Hin & _)%in_entries.
    unfold assessment_entry. simpl. by rewrite Ht by (by eapply (rep_assessment_trip h db r Hr)).
Qed.

Lemma dict_mem_set {K V} `{EqDecision K} (k k' : K) (v : V) d :
  dict_mem k d = true -> dict_mem k (dict_set k' v d) = true.
Proof. unfold dict_mem. rewrite dict_get_set. by case_bool_decide. Qed.

Lemma children_set {V} (P : uuid -> Prop) k0 (l0 : V) (d : dict uuid V) :
  (forall k l, In (k, l) d -> P k) -> P k0 -> forall k l, In (k, l) (dict_set k0 l0 d) -> P k.
Proof.
  intros Hd Hk k l Hin. apply (in_dict_set (fun _ => k0)) in Hin as [E|Hin]; [by injection E as -> _|by eapply Hd].
Qed.

(** the segments of a trip that the table can hold *)
Definition segments_fit (trip : Trip.t) : Prop :=
  Trip.segments trip <> [] /\
  NoDup (List.map FlightSegmentCreate.segment_id (Trip.segments trip)) /\
  forall s, In s (Trip.segments trip) -> fits (segment_row trip s) = true.

(** what [create_trip] and [save_trip] both commit *)
Lemma trip_written f trip t :
  f (Db.trips db) = Ok t ->
  stores trip_row id t (dict_values (dict_set (Trip.trip_id trip) trip (Repo.trips r))) ->
  (forall old, dict_get (Trip.trip_id trip) (Repo.trips r) = Some old ->
     Trip.tenant_id old = Trip.tenant_id trip) ->
  segments_fit trip ->
  exists db', (begin (execute Db.trips f ;; _replace_trip_segments trip) ;; mret trip) db = (Ok trip, db') /\
    represents h db' (Repository.save_trip r trip).
Proof.
  intros Ef Ht Htenant (Hne & Hd & Hf). destruct (replace_segments trip Hne Hd Hf) as (t2 & Es & Ht2).
  exists (db <| Db.trips := t |> <| Db.trip_segments := t2 |>). split.
  - erewrite begin_then; [reflexivity|]. rewrite M_bind_unfold, (execute_ok Db.trips _ _ t Ef). by apply Es.
  - destruct (children_tenant (Repository.save_trip r trip)) as [He Ha].
    { intros k Hm. unfold trip_tenant, dict_mem in *. simpl. rewrite dict_get_set.
      case_bool_decide as E; [|done]. subst. destruct (dict_get _ _) as [old|] eqn:Hg; [|done].
      by rewrite (Htenant old). }
    rebuild Hr; intros k l Hin; apply dict_mem_set; eauto.
Qed.

(** one INSERT, or one upsert, of the row of a value of a keyed dictionary *)
Ltac row_key row key Hkey :=
  assert (Hkey : forall v v', primary_key (row v) = primary_key (row v') <-> key v = key v')
    by (intros; reflexivity).
Ltac insert_row row doc key rep ok :=
  match goal with
  | |- exists _, (begin (execute ?tbl (insert [row ?v])) ;; mret ?x) db = _ /\ _ =>
      let t := fresh "t" in let E := fresh "E" in let Ht := fresh "Ht" in let Hkey := fresh "Hkey" in
      row_key row key Hkey; destruct (stores_dict_insert row doc key Hkey (tbl db) _ v (rep h db r Hr) (ok r Hok))
        as (t & E & Ht);
      [..|exists (over tbl (fun _ => t) db); split; [exact (commit_one tbl _ db t x E)|rebuild Hr]]
  end.
Ltac save_row row doc key rep ok :=
  match goal with
  | |- exists _, (begin (execute ?tbl (upsert _ ?f)) ;; mret ?v) db = _ /\ _ =>
      let t := fresh "t" in let E := fresh "E" in let Ht := fresh "Ht" in let Hkey := fresh "Hkey" in
      row_key row key Hkey; destruct (stores_dict_upsert row doc key Hkey (tbl db) _ v f (rep h db r Hr) (ok r Hok))
        as (t & E & Ht);
      [..|exists (over tbl (fun _ => t) db); split; [exact (commit_one tbl _ db t v E)|rebuild Hr]]
  end.

Lemma pg_create_trip trip : dict_get (Trip.trip_id trip) (Repo.trips r) = None ->
  writable (trip_row trip) trip -> segments_fit trip ->
  exists db', create_trip trip db = (Ok trip, db') /\ represents h db' (Repository.create_trip r trip).
Proof.
  intros Hg [Hs Hf] Hseg. row_key trip_row Trip.trip_id Hkey.
  destruct (stores_dict_insert trip_row id Trip.trip_id Hkey (Db.trips db) (Repo.trips r) trip)
    as (t & E & Ht); try done; [apply (rep_trips h db r Hr)|apply (ok_trips r Hok)|].
  apply (trip_written _ trip t); try done. by rewrite Hg.
Qed.

Lemma pg_save_trip trip :
  (forall old, dict_get (Trip.trip_id trip) (Repo.trips r) = Some old ->
     Trip.tenant_id old = Trip.tenant_id trip) ->
  writable (trip_row trip) trip -> segments_fit trip ->
  exists db', save_trip trip db = (Ok trip, db') /\ represents h db' (Repository.save_trip r trip).
Proof.
  intros Htn [Hs Hf] Hseg. row_key trip_row Trip.trip_id Hkey.
  edestruct (stores_dict_upsert trip_row id Trip.trip_id Hkey (Db.trips db) (Repo.trips r) trip)
    as (t & E & Ht); [apply (rep_trips h db r Hr)|apply (ok_trips r Hok)| |done|done|
      by apply (trip_written _ trip t)].
  intros v0 Hg%(keyed_get _ _ _ _ (ok_trips r Hok)). unfold trip_row. simpl. by rewrite Hg.
Qed.

(** ** Evidence and assessments *)

Lemma pg_save_assessment tenant a r' : Repository.save_assessment r tenant a = Ok r' ->
  ~ In (RiskAssessment.assessment_id a) (List.map (fun e => RiskAssessment.assessment_id e.2) (entries (Repo.assessments r))) ->
  writable (assessment_row tenant a) a ->
  exists db', save_assessment tenant a db = (Ok a, db') /\ represents h db' r'.
Proof.
  unfold Repository.save_assessment. intros E Hn [Hs Hf].
  destruct (Repository.get_trip r tenant (RiskAssessment.trip_id a)) as [trip|] eqn:Hg; [|done].
  apply Ok_inj in E as <-. unfold Repository.get_trip, of_tenant in Hg.
  destruct (dict_get _ (Repo.trips r)) as [trip'|] eqn:Hd; [|done]. case_bool_decide as Ht; [|done]. simplify_eq.
  assert (Hrow : assessment_row (Trip.tenant_id trip) a =
                 assessment_entry (trip_tenant r) (RiskAssessment.trip_id a, a)).
  { unfold assessment_entry, trip_tenant. simpl. by rewrite Hd. }
  destruct (stores_insert (assessment_entry (trip_tenant r)) snd (Db.assessments db) (entries (Repo.assessments r))
    (RiskAssessment.trip_id a, a)) as (t & E & Hst); [apply (rep_assessments h db r Hr)| |done|by rewrite <- Hrow|].
  { unfold keys. by rewrite List.map_map. }
  exists (db <| Db.assessments := t |>). split; [by apply (commit_one Db.assessments); rewrite Hrow|].
  rebuild Hr.
  - eapply stores_perm; [|exact Hst]. symmetry. apply entries_append.
  - eapply children_set; [eassumption|]. unfold dict_mem. by rewrite Hd.
Qed.

Lemma pg_save_evidence tenant k items r' : Repository.save_evidence r tenant k items = Ok r' ->
  NoDup (List.map EvidenceEnvelope.evidence_id items) ->
  (forall e, In e (entries (Repo.evidence r)) -> e.1 <> k ->
     ~ In (EvidenceEnvelope.evidence_id e.2) (List.map EvidenceEnvelope.evidence_id items)) ->
  (forall e, In e items -> writable (evidence_row tenant k e) e) ->
  exists db', save_evidence tenant k items db = (Ok tt, db') /\ represents h db' r'.
Proof.
  unfold Repository.save_evidence. intros E Hd Hn Hw.
  destruct (Repository.get_trip r tenant k) as [trip|] eqn:Hg; [|done].
  apply Ok_inj in E as <-. unfold Repository.get_trip, of_tenant in Hg.
  destruct (dict_get _ (Repo.trips r)) as [trip'|] eqn:Hk; [|done]. case_bool_decide as Ht; [|done]. simplify_eq.
  set (row := evidence_entry (trip_tenant r)).
  assert (Hrow : forall e, evidence_row (Trip.tenant_id trip) k e = row (k, e)).
  { intros e. subst row. unfold evidence_entry, trip_tenant. simpl. by rewrite Hk. }
  destruct (stores_delete row snd (Db.evidence_items db) (entries (Repo.evidence r))
    (evidence_of (Trip.tenant_id trip) k) (fun e => e.1 == k)) as [_ Hst];
    [exact (rep_evidence h db r Hr)|..].
  { intros [k' e] _. subst row. unfold evidence_of, evidence_entry, trip_tenant. simpl.
    destruct (decide (k' = k)) as [->|Hne]; [|by rewrite (bool_decide_false (k' = k)), andb_false_r].
    rewrite Hk. by rewrite !bool_decide_true. }
  set (t1 := (delete _ (Db.evidence_items db)).2) in *.
  assert (Ht2 : exists t2, if_any items (execute Db.evidence_items
      (insert (List.map (evidence_row (Trip.tenant_id trip) k) items))) (db <| Db.evidence_items := t1 |>) =
      (Ok tt, db <| Db.evidence_items := t2 |>) /\
      stores row snd t2 (entries (dict_set k items (Repo.evidence r)))).
  { destruct items as [|e items].
    - exists t1. split; [done|]. eapply stores_perm; [|exact Hst].
      rewrite (entries_set _ _ _ (ok_evidence r Hok)). simpl. by rewrite app_nil_r.
    - destruct (stores_insert_all row snd t1 _ (List.map (pair k) (e :: items)) Hst) as (t2 & E & Ht2); try done.
      + unfold keys. by rewrite !List.map_map.
      + intros v (e' & <- & Hin)%in_map_iff Hk'. unfold keys in Hk'. rewrite List.map_map in Hk'.
        apply in_map_iff in Hk' as (v' & Ev & [Hv' Hne]%filter_In). bool_hyps.
        apply (Hn v' Hv' Hne). change (primary_key (row v')) with (EvidenceEnvelope.evidence_id v'.2) in Ev.
        change (primary_key (row (k, e'))) with (EvidenceEnvelope.evidence_id e') in Ev.
        rewrite Ev. by apply in_map.
      + intros v (e' & <- & Hin)%in_map_iff. rewrite <- Hrow. by apply Hw.
      + exists t2. split.
        * unfold if_any. rewrite (execute_ok Db.evidence_items _ _ t2); [done|]. simpl.
          rewrite <- E. f_equal. rewrite List.map_map. apply (List.map_ext _ _ Hrow (e :: items)).
        * eapply stores_perm; [|exact Ht2]. by rewrite (entries_set _ _ _ (ok_evidence r Hok)). }
  destruct Ht2 as (t2 & E & Ht2). exists (db <| Db.evidence_items := t2 |>). split.
  - unfold save_evidence. apply begin_commit. rewrite M_bind_unfold, delete_from_ok. exact E.
  - rebuild Hr. eapply children_set; [eassumption|]. unfold dict_mem. by rewrite Hk.
Qed.

(** ** Incidents, profiles, approvals *)

Lemma pg_save_incident i :
  (forall old, dict_get (Incident.incident_id i) (Repo.incidents r) = Some old ->
     Incident.tenant_id old = Incident.tenant_id i /\ Incident.trip_id old = Incident.trip_id i) ->
  writable (incident_row i) i ->
  exists db', save_incident i db = (Ok i, db') /\ represents h db' (Repository.save_incident r i).
Proof.
  intros Hold [Hs Hf]. unfold save_incident.
  save_row incident_row (@id Incident.t) Incident.incident_id rep_incidents ok_incidents; try done.
  intros old Hg. destruct (Hold old Hg) as [Ht Htr]. apply (keyed_get _ _ _ _ (ok_incidents r Hok)) in Hg.
  unfold incident_row. simpl. by rewrite Hg, Ht, Htr.
Qed.

Lemma pg_save_profile p : writable (profile_row p) p ->
  exists db', save_profile p db = (Ok p, db') /\ represents h db' (Repository.save_profile r p).
Proof.
  intros [Hs Hf]. unfold save_profile.
  save_row profile_row (@id TravelerPreferenceProfile.t) profile_key rep_profiles ok_profiles; try done.
  intros old Hg. apply (keyed_get _ _ _ _ (ok_profiles r Hok)) in Hg. unfold profile_key in Hg.
  injection Hg as Ht Htr. unfold profile_row. simpl. by rewrite Ht, Htr.
Qed.

Lemma pg_save_approval a : writable (approval_row a) a ->
  exists db', save_approval a db = (Ok a, db') /\ represents h db' (Repository.save_approval r a).
Proof.
  intros [Hs Hf]. unfold save_approval.
  save_row approval_row (@id ApprovalRecord.t) ApprovalRecord.incident_id rep_approvals ok_approvals; try done.
  intros old Hg. apply (keyed_get _ _ _ _ (ok_approvals r Hok)) in Hg. unfold approval_row. simpl. by rewrite Hg.
Qed.

Lemma pg_save_memory_proposal p :
  (forall old, dict_get (MemoryUpdateProposal.proposal_id p) (Repo.memory_proposals r) = Some old ->
     MemoryUpdateProposal.tenant_id old = MemoryUpdateProposal.tenant_id p) ->
  writable (proposal_row p) p ->
  exists db', save_memory_proposal p db = (Ok p, db') /\ represents h db' (Repository.save_memory_proposal r p).
Proof.
  intros Hold [Hs Hf]. unfold save_memory_proposal.
  save_row proposal_row (@id MemoryUpdateProposal.t) MemoryUpdateProposal.proposal_id rep_proposals ok_memory_proposals;
    try done.
  intros old Hg. pose proof (Hold old Hg) as Ht. apply (keyed_get _ _ _ _ (ok_memory_proposals r Hok)) in Hg.
  unfold proposal_row. simpl. by rewrite Hg, Ht.
Qed.

(** ** Candidate sets, outcomes, feedback, playbooks *)

Lemma pg_save_candidate_set tenant s :
  dict_get (RecoveryCandidateSet.candidate_set_id s) (Repo.candidate_sets r) = None ->
  writable (candidate_set_row tenant s) s ->
  exists db', save_candidate_set tenant s db = (Ok s, db') /\
    represents h db' (Repository.save_candidate_set r tenant s).
Proof.
  intros Hn [Hs Hf]. unfold save_candidate_set. change (candidate_set_row tenant s) with (set_row (tenant, s)).
  insert_row set_row (@snd string RecoveryCandidateSet.t)
    (fun s : string * RecoveryCandidateSet.t => RecoveryCandidateSet.candidate_set_id s.2)
    rep_candidate_sets ok_candidate_sets; try done.
Qed.

Lemma pg_record_candidate_outcome tenant o :
  dict_get (RecoveryCandidateOutcome.outcome_id o) (Repo.candidate_outcomes r) = None ->
  writable (outcome_row tenant o) o ->
  exists db', record_candidate_outcome tenant o db = (Ok o, db') /\
    represents h db' (Repository.record_candidate_outcome r tenant o).
Proof.
  intros Hn [Hs Hf]. unfold record_candidate_outcome. change (outcome_row tenant o) with (set_outcome_row (tenant, o)).
  insert_row set_outcome_row (@snd string RecoveryCandidateOutcome.t)
    (fun o : string * RecoveryCandidateOutcome.t => RecoveryCandidateOutcome.outcome_id o.2)
    rep_outcomes ok_candidate_outcomes; try done.
Qed.

Lemma pg_save_manager_feedback f :
  dict_get (ManagerFeedback.feedback_id f) (Repo.manager_feedback r) = None -> writable (feedback_row f) f ->
  exists db', save_manager_feedback f db = (Ok f, db') /\ represents h db' (Repository.save_manager_feedback r f).
Proof.
  intros Hn [Hs Hf]. unfold save_manager_feedback.
  insert_row feedback_row (@id ManagerFeedback.t) ManagerFeedback.feedback_id rep_feedback ok_manager_feedback; try done.
Qed.

Lemma pg_save_change_record c :
  dict_get (ChangeRecord.change_id c) (Repo.change_records r) = None -> writable (change_row c) c ->
  exists db', save_change_record c db = (Ok c, db') /\ represents h db' (Repository.save_change_record r c).
Proof.
  intros Hn [Hs Hf]. unfold save_change_record.
  insert_row change_row (@id ChangeRecord.t) ChangeRecord.change_id rep_change_records ok_change_records; try done.
Qed.

Lemma pg_save_provider_onboarding c :
  dict_get (ProviderOnboardingRecord.provider_onboarding_id c) (Repo.provider_onboarding_records r) = None ->
  writable (onboarding_row c) c ->
  exists db', save_provider_onboarding c db = (Ok c, db') /\
    represents h db' (Repository.save_provider_onboarding r c).
Proof.
  intros Hn [Hs Hf]. unfold save_provider_onboarding.
  insert_row onboarding_row (@id ProviderOnboardingRecord.t) ProviderOnboardingRecord.provider_onboarding_id
    rep_onboarding ok_onboarding; try done.
Qed.

Lemma pg_save_playbook p : writable (playbook_row p) p ->
  exists db', save_playbook p db = (Ok (Repository.save_playbook r p).1, db') /\
    represents h db' (Repository.save_playbook r p).2.
Proof.
  intros [Hs Hf]. row_key playbook_row TenantPlaybook.playbook_id Hkey. unfold Repository.save_playbook.
  destruct (stores_dict_insert_or_ignore playbook_row id TenantPlaybook.playbook_id Hkey (Db.tenant_playbooks db)
    (Repo.tenant_playbooks r) p) as (t & E & Ht); try done; [exact (rep_playbooks h db r Hr)|exact (ok_playbooks r Hok)|].
  exists (db <| Db.tenant_playbooks := t |>). unfold save_playbook.
  destruct (dict_get (TenantPlaybook.playbook_id p) (Repo.tenant_playbooks r)) as [p0|] eqn:Hg.
  - split; [|rebuild Hr]. apply begin_commit. rewrite M_bind_unfold. unfold execute_insert_or_ignore. rewrite E.
    cbv iota beta. rewrite M_bind_unfold. unfold query at 1. simpl. rewrite scalar_one_or_none_nil. cbv iota beta.
    rewrite M_bind_unfold. unfold query. cbv beta.
    change (Db.tenant_playbooks (over Db.tenant_playbooks (fun _ => t) db)) with t.
    destruct (only_payload playbook_row id PlaybookRow.payload (fun _ => eq_refl) t (dict_values (Repo.tenant_playbooks r))
      (select (fun r => PlaybookRow.playbook_id r == TenantPlaybook.playbook_id p) t)
      (fun v => true && (TenantPlaybook.playbook_id v == TenantPlaybook.playbook_id p)) p0 Ht) as [-> [Hv _]].
    + rewrite select_rows. by apply (stores_filter playbook_row id).
    + by rewrite (filter_values_get _ (fun _ => true) _ _ (ok_playbooks r Hok)), Hg.
    + rewrite scalar_one_one. cbv iota beta. unfold lift_res. by rewrite Hv.
  - split; [|rebuild Hr]. apply begin_commit. rewrite M_bind_unfold. unfold execute_insert_or_ignore. rewrite E.
    cbv iota beta. rewrite M_bind_unfold. unfold query at 1. simpl. rewrite scalar_one_or_none_one. cbv iota beta.
    destruct Hs as [Hv Htr]. rewrite Htr. simpl. unfold lift_res. by rewrite Hv.
Qed.

(** ** Append-only tables *)

(** one INSERT of the row of a value that a list of the store gains *)
Ltac append_row row l rep :=
  match goal with
  | |- exists _, (begin (execute ?tbl (insert [row ?v])) ;; mret ?x) db = _ /\ _ =>
      let t := fresh "t" in let E := fresh "E" in let Ht := fresh "Ht" in
      destruct (stores_insert row id (tbl db) l v (rep h db r Hr)) as (t & E & Ht);
      [try (unfold keys; rewrite List.map_map; assumption)|try done|try done
      |exists (over tbl (fun _ => t) db); split; [exact (commit_one tbl _ db t x E)|rebuild Hr]]
  end.

Lemma pg_record_event e :
  ~ In (EventRecord.event_id e) (List.map EventRecord.event_id (Repo.events r)) ->
  let safe := (Repository.record_event r e).1 in writable (event_row safe) safe ->
  exists db', record_event e db = (Ok safe, db') /\ represents h db' (Repository.record_event r e).2.
Proof. intros Hn safe [Hs Hf]. unfold record_event. append_row event_row (Repo.events r) rep_events. Qed.

Lemma pg_record_memory_audit e :
  ~ In (MemoryAuditEvent.audit_id e) (List.map MemoryAuditEvent.audit_id (Repo.memory_audits r)) ->
  redact_dict (MemoryAuditEvent.details e) = MemoryAuditEvent.details e ->
  writable (memory_audit_row e) e ->
  exists db', record_memory_audit e db = (Ok e, db') /\ represents h db' (Repository.record_memory_audit r e).
Proof.
  intros Hn Hred [Hs Hf]. unfold record_memory_audit. cbv zeta. rewrite Hred.
  replace (e <| MemoryAuditEvent.details := MemoryAuditEvent.details e |>) with e by (by destruct e).
  append_row memory_audit_row (Repo.memory_audits r) rep_memory_audits.
Qed.

(** two statements in one transaction *)
Lemma commit_two {R R' A} `{Table R} `{Table R'} (tbl : Db.t -> table R) `{!Setter tbl}
    (tbl' : Db.t -> table R') `{!Setter tbl'} f f' t t' (x : A) :
  f (tbl db) = Ok t -> tbl' (over tbl (fun _ => t) db) = tbl' db -> f' (tbl' db) = Ok t' ->
  (begin (execute tbl f ;; execute tbl' f') ;; mret x) db =
    (Ok x, over tbl' (fun _ => t') (over tbl (fun _ => t) db)).
Proof.
  intros E Eq E'. erewrite begin_then; [reflexivity|]. rewrite M_bind_unfold, (execute_ok tbl f db t E).
  apply execute_ok. by rewrite Eq.
Qed.

(** the overrides are keyed by the value of the control's name, which determines the name *)
Lemma override_key v v' : primary_key (override_row v) = primary_key (override_row v') <->
  (RuntimeControlChange.tenant_id v, RuntimeControlChange.control_name v) =
  (RuntimeControlChange.tenant_id v', RuntimeControlChange.control_name v').
Proof.
  unfold override_row. cbn [primary_key ControlOverrideRow.keyed ControlOverrideRow.tenant_id
    ControlOverrideRow.control_name]. split; intros E.
  - apply pair_equal_spec in E as [-> E2]. apply value_injective in E2. by rewrite E2.
  - apply pair_equal_spec in E as [-> E2]. by rewrite E2.
Qed.
Lemma platform_override_key v v' : primary_key (platform_override_row v) = primary_key (platform_override_row v') <->
  PlatformRuntimeControlChange.control_name v = PlatformRuntimeControlChange.control_name v'.
Proof.
  unfold platform_override_row. cbn [primary_key PlatformOverrideRow.keyed PlatformOverrideRow.control_name].
  split; intros E; [by apply value_injective in E|by rewrite E].
Qed.

Lemma pg_save_runtime_control_change c :
  ~ In (RuntimeControlChange.control_change_id c)
      (List.map RuntimeControlChange.control_change_id (Repo.runtime_control_changes r)) ->
  writable (control_change_row c) c -> fits (override_row c) = true ->
  exists db', save_runtime_control_change c db = (Ok c, db') /\
    represents h db' (Repository.save_runtime_control_change r c).
Proof.
  intros Hn [Hs Hf] Hf'.
  destruct (stores_insert control_change_row id (Db.runtime_control_changes db) (Repo.runtime_control_changes r) c)
    as (t & E & Ht); [exact (rep_control_changes h db r Hr)|unfold keys; by rewrite List.map_map|done|done|].
  edestruct (stores_dict_upsert override_row id
    (fun c => (RuntimeControlChange.tenant_id c, RuntimeControlChange.control_name c))) as (t' & E' & Ht');
    [|exact (rep_overrides h db r Hr)|exact (ok_runtime_overrides r Hok)| |exact Hs|exact Hf'|].
  { apply override_key. }
  2: { exists (db <| Db.runtime_control_changes := t |> <| Db.runtime_control_overrides := t' |>). split.
       - apply (commit_two Db.runtime_control_changes Db.runtime_control_overrides); [exact E|done|exact E'].
       - rebuild Hr. }
  intros old Hg. apply (keyed_get _ _ _ _ (ok_runtime_overrides r Hok)) in Hg. injection Hg as Ht1 Ht2.
  unfold override_row. by rewrite Ht1, Ht2.
Qed.

Lemma pg_save_platform_control_change c :
  ~ In (PlatformRuntimeControlChange.control_change_id c)
      (List.map PlatformRuntimeControlChange.control_change_id (Repo.platform_control_changes r)) ->
  writable (platform_change_row c) c -> fits (platform_override_row c) = true ->
  exists db', save_platform_control_change c db = (Ok c, db') /\
    represents h db' (Repository.save_platform_control_change r c).
Proof.
  intros Hn [Hs Hf] Hf'.
  destruct (stores_insert platform_change_row id (Db.platform_runtime_control_changes db)
    (Repo.platform_control_changes r) c)
    as (t & E & Ht); [exact (rep_platform_changes h db r Hr)|unfold keys; by rewrite List.map_map|done|done|].
  edestruct (stores_dict_upsert platform_override_row id PlatformRuntimeControlChange.control_name)
    as (t' & E' & Ht');
    [|exact (rep_platform_overrides h db r Hr)|exact (ok_platform_overrides r Hok)| |exact Hs|exact Hf'|].
  { apply platform_override_key. }
  2: { exists (db <| Db.platform_runtime_control_changes := t |> <| Db.platform_runtime_control_overrides := t' |>).
       split.
       - apply (commit_two Db.platform_runtime_control_changes Db.platform_runtime_control_overrides);
           [exact E|done|exact E'].
       - rebuild Hr. }
  intros old Hg. apply (keyed_get _ _ _ _ (ok_platform_overrides r Hok)) in Hg.
  unfold platform_override_row. by rewrite Hg.
Qed.

(** ** Uploads, legal holds, deletion requests *)

Lemma pg_save_original_upload u :
  (forall old, dict_get (OriginalUploadRecord.original_upload_id u) (Repo.original_uploads r) = Some old ->
     OriginalUploadRecord.tenant_id old = OriginalUploadRecord.tenant_id u) ->
  writable (upload_row u) u ->
  exists db', save_original_upload u db = (Ok u, db') /\ represents h db' (Repository.save_original_upload r u).
Proof.
  intros Hold [Hs Hf]. unfold save_original_upload.
  save_row upload_row (@id OriginalUploadRecord.t) OriginalUploadRecord.original_upload_id rep_uploads ok_uploads;
    try done.
  intros old Hg. pose proof (Hold old Hg) as Ht. apply (keyed_get _ _ _ _ (ok_uploads r Hok)) in Hg.
  unfold upload_row. by rewrite Hg, Ht.
Qed.

Lemma pg_save_legal_hold l :
  (forall old, dict_get (LegalHoldRecord.legal_hold_id l) (Repo.legal_holds r) = Some old ->
     LegalHoldRecord.tenant_id old = LegalHoldRecord.tenant_id l) ->
  writable (legal_hold_row l) l ->
  exists db', save_legal_hold l db = (Ok l, db') /\ represents h db' (Repository.save_legal_hold r l).
Proof.
  intros Hold [Hs Hf]. unfold save_legal_hold.
  save_row legal_hold_row (@id LegalHoldRecord.t) LegalHoldRecord.legal_hold_id rep_legal_holds ok_legal_holds;
    try done.
  intros old Hg. pose proof (Hold old Hg) as Ht. apply (keyed_get _ _ _ _ (ok_legal_holds r Hok)) in Hg.
  unfold legal_hold_row. by rewrite Hg, Ht.
Qed.

Lemma pg_save_deletion_request q :
  (forall old, dict_get (DeletionRequest.deletion_request_id q) (Repo.deletion_requests r) = Some old ->
     DeletionRequest.tenant_id old = DeletionRequest.tenant_id q /\
     DeletionRequest.traveler_id old = DeletionRequest.traveler_id q) ->
  writable (deletion_row q) q ->
  exists db', save_deletion_request q db = (Ok q, db') /\ represents h db' (Repository.save_deletion_request r q).
Proof.
  intros Hold [Hs Hf]. unfold save_deletion_request.
  save_row deletion_row (@id DeletionRequest.t) DeletionRequest.deletion_request_id rep_deletion_requests
    ok_deletion_requests; try done.
  intros old Hg. destruct (Hold old Hg) as [Ht Htr]. apply (keyed_get _ _ _ _ (ok_deletion_requests r Hok)) in Hg.
  unfold deletion_row. by rewrite Hg, Ht, Htr.
Qed.

(** ** Outboxes *)

Lemma pg_save_notification n :
  (forall old, dict_get (NotificationRecord.notification_id n) (Repo.notifications r) = Some old ->
     NotificationRecord.tenant_id old = NotificationRecord.tenant_id n) ->
  writable (notification_row n) n ->
  exists db', save_notification n db = (Ok n, db') /\ represents h db' (Repository.save_notification r n).
Proof.
  intros Hold [Hs Hf]. unfold save_notification.
  save_row notification_row (@id NotificationRecord.t) NotificationRecord.notification_id rep_notifications
    ok_notifications; try done.
  - intros old Hg. pose proof (Hold old Hg) as Ht. apply (keyed_get _ _ _ _ (ok_notifications r Hok)) in Hg.
    unfold notification_row. by rewrite Hg, Ht.
  - intros k l Hin. apply dict_mem_set. eauto.
Qed.

Lemma pg_save_action_dispatch a :
  (forall old, dict_get (ActionDispatchRecord.action_dispatch_id a) (Repo.action_dispatches r) = Some old ->
     ActionDispatchRecord.tenant_id old = ActionDispatchRecord.tenant_id a /\
     ActionDispatchRecord.incident_id old = ActionDispatchRecord.incident_id a) ->
  writable (action_row a) a ->
  exists db', save_action_dispatch a db = (Ok a, db') /\ represents h db' (Repository.save_action_dispatch r a).
Proof.
  intros Hold [Hs Hf]. unfold save_action_dispatch.
  save_row action_row (@id ActionDispatchRecord.t) ActionDispatchRecord.action_dispatch_id rep_actions
    ok_action_dispatches; try done.
  - intros old Hg. destruct (Hold old Hg) as [Ht Hi]. apply (keyed_get _ _ _ _ (ok_action_dispatches r Hok)) in Hg.
    unfold action_row. by rewrite Hg, Ht, Hi.
  - intros k l Hin. apply dict_mem_set. eauto.
Qed.

(** a new attempt of a stored record *)
Lemma notification_attempt_stored a :
  ~ In (NotificationAttempt.attempt_id a)
      (List.map (fun e => NotificationAttempt.attempt_id e.2) (entries (Repo.notification_attempts r))) ->
  storable a ->
  exists t, insert [notification_attempt_row a] (Db.notification_attempts db) = Ok t /\
    stores notification_attempt_entry snd t
      (entries (dict_append (NotificationAttempt.notification_id a) a (Repo.notification_attempts r))).
Proof.
  intros Hn Hs.
  destruct (stores_insert notification_attempt_entry snd (Db.notification_attempts db)
    (entries (Repo.notification_attempts r)) (NotificationAttempt.notification_id a, a)) as (t & E & Ht);
    [exact (rep_notification_attempts h db r Hr)|unfold keys; by rewrite List.map_map|done|done|].
  exists t. split; [exact E|]. eapply stores_perm; [|exact Ht]. symmetry. apply entries_append.
Qed.

Lemma action_attempt_stored a :
  ~ In (ActionDispatchAttempt.attempt_id a)
      (List.map (fun e => ActionDispatchAttempt.attempt_id e.2) (entries (Repo.action_dispatch_attempts r))) ->
  storable a ->
  exists t, insert [action_attempt_row a] (Db.action_dispatch_attempts db) = Ok t /\
    stores action_attempt_entry snd t
      (entries (dict_append (ActionDispatchAttempt.action_dispatch_id a) a (Repo.action_dispatch_attempts r))).
Proof.
  intros Hn Hs.
  destruct (stores_insert action_attempt_entry snd (Db.action_dispatch_attempts db)
    (entries (Repo.action_dispatch_attempts r)) (ActionDispatchAttempt.action_dispatch_id a, a)) as (t & E & Ht);
    [exact (rep_action_attempts h db r Hr)|unfold keys; by rewrite List.map_map|done|done|].
  exists t. split; [exact E|]. eapply stores_perm; [|exact Ht]. symmetry. apply entries_append.
Qed.

Lemma pg_record_notification_attempt a :
  dict_mem (NotificationAttempt.notification_id a) (Repo.notifications r) = true ->
  ~ In (NotificationAttempt.attempt_id a)
      (List.map (fun e => NotificationAttempt.attempt_id e.2) (entries (Repo.notification_attempts r))) ->
  storable a ->
  exists db', record_notification_attempt a db = (Ok a, db') /\
    represents h db' (Repository.record_notification_attempt r a).
Proof.
  intros Hm Hn Hs. destruct (notification_attempt_stored a Hn Hs) as (t & E & Ht).
  exists (db <| Db.notification_attempts := t |>). split; [exact (commit_one Db.notification_attempts _ db t a E)|].
  rebuild Hr. by apply children_set.
Qed.

Lemma pg_record_action_dispatch_attempt a :
  dict_mem (ActionDispatchAttempt.action_dispatch_id a) (Repo.action_dispatches r) = true ->
  ~ In (ActionDispatchAttempt.attempt_id a)
      (List.map (fun e => ActionDispatchAttempt.attempt_id e.2) (entries (Repo.action_dispatch_attempts r))) ->
  storable a ->
  exists db', record_action_dispatch_attempt a db = (Ok a, db') /\
    represents h db' (Repository.record_action_dispatch_attempt r a).
Proof.
  intros Hm Hn Hs. destruct (action_attempt_stored a Hn Hs) as (t & E & Ht).
  exists (db <| Db.action_dispatch_attempts := t |>).
  split; [exact (commit_one Db.action_dispatch_attempts _ db t a E)|].
  rebuild Hr. by apply children_set.
Qed.

(** the generic completion: a lost lease changes nothing, a held one is committed
    together with its attempt *)
Section Complete.
Context {R Row : Type} `{Document R} `{Leasable R} `{Table Row} (tbl : Db.t -> table Row) `{!Setter tbl}.
Variables (row : R -> Row) (id_of : R -> uuid) (row_id : Row -> uuid) (payload : Row -> json).
Hypotheses (payload_row : forall x, payload (row x) = column x) (row_id_of : forall x, row_id (row x) = id_of x)
  (row_key_id : forall v v', primary_key (row v) = primary_key (row v') <-> id_of v = id_of v').
Variable d : dict uuid R.
Hypotheses (Hd : keyed id_of d) (Ht : stores row id (tbl db) (dict_values d)).

Lemma locked_payload record : List.map payload (select_for_update (fun x => row_id x == id_of record) (tbl db)) =
    match dict_get (id_of record) d with Some v => [column v] | None => [] end /\
  forall v, dict_get (id_of record) d = Some v -> storable v.
Proof.
  assert (Hsel : select_for_update (fun x => row_id x == id_of record) (tbl db) ≡ₚ
    List.map row (List.filter (fun v => true && (id_of v == id_of record)) (dict_values d))).
  { rewrite select_for_update_rows. apply (stores_filter row id); [done|]. intros v _. by rewrite row_id_of. }
  pose proof (filter_values_get id_of (fun _ => true) (id_of record) d Hd) as Hf. simpl in Hf.
  destruct (dict_get (id_of record) d) as [v|].
  - destruct (only_payload row id payload payload_row (tbl db) _ _ _ v Ht Hsel Hf) as [-> Hs].
    split; [done|]. by intros ? [= <-].
  - simpl in Hsel. rewrite Hf in Hsel. apply Permutation_sym, Permutation_nil in Hsel as ->. done.
Qed.

Lemma complete_lost completed_row insert_attempt record claim :
  lease_held (id_of record) claim d = false ->
  complete tbl id_of row_id payload completed_row insert_attempt record claim db = (Ok None, db).
Proof.
  unfold lease_held, complete. intros Hl. apply begin_commit. rewrite M_bind_unfold. unfold query. cbv beta.
  destruct (locked_payload record) as [-> Hs]. destruct (dict_get (id_of record) d) as [v|].
  - rewrite scalar_one_or_none_one. cbv iota beta. destruct (Hs v eq_refl) as [Hv Htr]. rewrite Htr. simpl.
    rewrite M_bind_unfold. unfold lift_res. rewrite Hv. cbv iota beta. by rewrite Hl.
  - by rewrite scalar_one_or_none_nil.
Qed.

Lemma complete_held (completed_row : R -> Row -> Row) insert_attempt (record v0 : R) claim :
  dict_get (id_of record) d = Some v0 -> lease_claim_id v0 = Some claim ->
  (forall v, id_of (clear_lease v) = id_of v) ->
  completed_row (clear_lease record) (row v0) = row (clear_lease record) ->
  writable (row (clear_lease record)) (clear_lease record) ->
  exists t, stores row id t (dict_values (dict_set (id_of record) (clear_lease record) d)) /\
    forall db', insert_attempt (over tbl (fun _ => t) db) = (Ok tt, db') ->
      complete tbl id_of row_id payload completed_row insert_attempt record claim db =
        (Ok (Some (clear_lease record)), db').
Proof.
  intros Hg Hc Hid Hrow [Hs Hf].
  destruct (stores_dict_update row id id_of row_key_id (tbl db) d (clear_lease record) v0
    (fun x => row_id x == id_of record) (completed_row (clear_lease record))) as (t & E & Hst); try done.
  - by rewrite Hid.
  - intros v. by rewrite row_id_of, Hid.
  - rewrite Hid in Hst. exists t. split; [done|]. intros db' Ei. unfold complete. apply begin_commit.
    rewrite M_bind_unfold. unfold query. cbv beta. destruct (locked_payload record) as [-> Hv]. rewrite Hg.
    rewrite scalar_one_or_none_one. cbv iota beta. destruct (Hv v0 Hg) as [Hval Htr]. rewrite Htr. simpl.
    rewrite M_bind_unfold. unfold lift_res. rewrite Hval. cbv iota beta.
    rewrite bool_decide_true by done. simpl. rewrite M_bind_unfold, (execute_ok tbl _ _ t E). cbv iota beta.
    by rewrite M_bind_unfold, Ei.
Qed.

End Complete.

Lemma lease_held_some {R} `{Leasable R} k claim (d : dict uuid R) : lease_held k claim d = true ->
  exists v, dict_get k d = Some v /\ lease_claim_id v = Some claim.
Proof.
  unfold lease_held. destruct (dict_get k d) as [v|]; [|done]. intros E%bool_decide_eq_true. by exists v.
Qed.

Lemma pg_complete_notification_delivery n a claim :
  (forall old, dict_get (NotificationRecord.notification_id n) (Repo.notifications r) = Some old ->
     NotificationRecord.tenant_id old = NotificationRecord.tenant_id n) ->
  NotificationAttempt.notification_id a = NotificationRecord.notification_id n ->
  ~ In (NotificationAttempt.attempt_id a)
      (List.map (fun e => NotificationAttempt.attempt_id e.2) (entries (Repo.notification_attempts r))) ->
  storable a -> writable (notification_row (clear_lease n)) (clear_lease n) ->
  exists db', complete_notification_delivery n a claim db =
      (Ok (Repository.complete_notification_delivery r n a claim).1, db') /\
    represents h db' (Repository.complete_notification_delivery r n a claim).2.
Proof.
  intros Hold Ha Hn Hs Hw. unfold Repository.complete_notification_delivery, complete_notification_delivery.
  row_key notification_row NotificationRecord.notification_id Hkey.
  destruct (lease_held _ _ _) eqn:Hl.
  - apply lease_held_some in Hl as (v0 & Hg & Hc).
    destruct (notification_attempt_stored a Hn Hs) as (t2 & E2 & Ht2).
    edestruct (complete_held Db.notifications notification_row NotificationRecord.notification_id
      NotificationRow.notification_id NotificationRow.payload (fun _ => eq_refl) (fun _ => eq_refl) Hkey
      (Repo.notifications r) (ok_notifications r Hok) (rep_notifications h db r Hr)) as (t & Ht & Hrun);
      [exact Hg|exact Hc|done| |exact Hw|].
    2: { exists (db <| Db.notifications := t |> <| Db.notification_attempts := t2 |>). split.
         - by apply Hrun, (execute_ok Db.notification_attempts).
         - rebuild Hr; intros k l Hin.
           + apply (children_set (fun k => dict_mem k (dict_set (NotificationRecord.notification_id n)
               (clear_lease n) (Repo.notifications r)) = true) _ _ _) in Hin; [done| |].
             * intros k' l' Hin'. apply dict_mem_set. eauto.
             * rewrite Ha. apply dict_mem_set. unfold dict_mem. by rewrite Hg. }
    pose proof (Hold v0 Hg) as Ht. apply (keyed_get _ _ _ _ (ok_notifications r Hok)) in Hg.
    unfold notification_row. simpl. by rewrite Hg, Ht.
  - exists db. split; [|done].
    eapply (complete_lost Db.notifications notification_row); try done;
      [exact (ok_notifications r Hok)|exact (rep_notifications h db r Hr)].
Qed.

Lemma pg_complete_action_dispatch x a claim :
  (forall old, dict_get (ActionDispatchRecord.action_dispatch_id x) (Repo.action_dispatches r) = Some old ->
     ActionDispatchRecord.tenant_id old = ActionDispatchRecord.tenant_id x /\
     ActionDispatchRecord.incident_id old = ActionDispatchRecord.incident_id x) ->
  ActionDispatchAttempt.action_dispatch_id a = ActionDispatchRecord.action_dispatch_id x ->
  ~ In (ActionDispatchAttempt.attempt_id a)
      (List.map (fun e => ActionDispatchAttempt.attempt_id e.2) (entries (Repo.action_dispatch_attempts r))) ->
  storable a -> writable (action_row (clear_lease x)) (clear_lease x) ->
  exists db', complete_action_dispatch x a claim db =
      (Ok (Repository.complete_action_dispatch r x a claim).1, db') /\
    represents h db' (Repository.complete_action_dispatch r x a claim).2.
Proof.
  intros Hold Ha Hn Hs Hw. unfold Repository.complete_action_dispatch, complete_action_dispatch.
  row_key action_row ActionDispatchRecord.action_dispatch_id Hkey.
  destruct (lease_held _ _ _) eqn:Hl.
  - apply lease_held_some in Hl as (v0 & Hg & Hc).
    destruct (action_attempt_stored a Hn Hs) as (t2 & E2 & Ht2).
    edestruct (complete_held Db.action_dispatches action_row ActionDispatchRecord.action_dispatch_id
      ActionRow.action_dispatch_id ActionRow.payload (fun _ => eq_refl) (fun _ => eq_refl) Hkey
      (Repo.action_dispatches r) (ok_action_dispatches r Hok) (rep_actions h db r Hr)) as (t & Ht & Hrun);
      [exact Hg|exact Hc|done| |exact Hw|].
    2: { exists (db <| Db.action_dispatches := t |> <| Db.action_dispatch_attempts := t2 |>). split.
         - by apply Hrun, (execute_ok Db.action_dispatch_attempts).
         - rebuild Hr; intros k l Hin.
           apply (children_set (fun k => dict_mem k (dict_set (ActionDispatchRecord.action_dispatch_id x)
             (clear_lease x) (Repo.action_dispatches r)) = true) _ _ _) in Hin; [done| |].
           + intros k' l' Hin'. apply dict_mem_set. eauto.
           + rewrite Ha. apply dict_mem_set. unfold dict_mem. by rewrite Hg. }
    destruct (Hold v0 Hg) as [Ht Hi]. apply (keyed_get _ _ _ _ (ok_action_dispatches r Hok)) in Hg.
    unfold action_row. simpl. by rewrite Hg, Ht, Hi.
  - exists db. split; [|done].
    eapply (complete_lost Db.action_dispatches action_row); try done;
      [exact (ok_action_dispatches r Hok)|exact (rep_actions h db r Hr)].
Qed.

(** ** Traveler memory *)

(** the text that PostgreSQL reads in a proposal's document is its traveler *)
Definition readable_traveler (p : MemoryUpdateProposal.t) : Prop :=
  exists kvs, dump p = JObj kvs /\ NoDup kvs.*1 /\ In ("traveler_id", JStr (MemoryUpdateProposal.traveler_id p)) kvs.

Lemma readable_astext p : readable_traveler p ->
  astext "traveler_id" (ProposalRow.payload (proposal_row p)) = Some (MemoryUpdateProposal.traveler_id p).
Proof.
  intros (kvs & E & Hd & Hin). unfold proposal_row, column, as_json. simpl. rewrite E. by apply astext_string.
Qed.

Lemma profile_test (tenant traveler : string) v :
  preference_of tenant traveler (profile_row v) = (profile_key v == (tenant, traveler)).
Proof. unfold preference_of, profile_key, profile_row. simpl. repeat case_bool_decide; naive_solver. Qed.

(** the profile of a traveler, deleted *)
Lemma profile_deleted tenant traveler :
  (delete (preference_of tenant traveler) (Db.preferences db)).1 =
    (if dict_mem (tenant, traveler) (Repo.profiles r) then 1 else 0) /\
  stores profile_row id (delete (preference_of tenant traveler) (Db.preferences db)).2
    (dict_values (dict_pop (tenant, traveler) (Repo.profiles r))).
Proof.
  destruct (stores_delete profile_row id _ _ (preference_of tenant traveler)
    (fun v => profile_key v == (tenant, traveler)) (rep_profiles h db r Hr)) as [Hc Ht];
    [intros v _; apply profile_test|]. split.
  - rewrite Hc. pose proof (filter_values_get profile_key (fun _ => true) (tenant, traveler) _ (ok_profiles r Hok)) as Hf.
    simpl in Hf. rewrite Hf. unfold dict_mem. by destruct (dict_get _ _).
  - change (dict_pop (tenant, traveler) (Repo.profiles r)) with
      (dict_filter (fun k _ => negb ((tenant, traveler) == k)) (Repo.profiles r)).
    rewrite (values_dict_filter _ (fun v => negb (profile_key v == (tenant, traveler)))); [exact Ht|].
    intros k v Hin. apply (proj2 (ok_profiles r Hok)) in Hin. rewrite Hin. f_equal. by apply bool_decide_ext.
Qed.

(** the proposals of a traveler, by the keys under which the store keeps them *)
Lemma proposal_ids_popped tenant traveler (d : dict uuid MemoryUpdateProposal.t) :
  keyed MemoryUpdateProposal.proposal_id d ->
  let q := fun p => (MemoryUpdateProposal.tenant_id p == tenant) && (MemoryUpdateProposal.traveler_id p == traveler) in
  traveler_proposal_ids d tenant traveler = List.map MemoryUpdateProposal.proposal_id (List.filter q (dict_values d)) /\
  dict_values (pop_all (traveler_proposal_ids d tenant traveler) d) = List.filter (fun p => negb (q p)) (dict_values d).
Proof.
  intros Hd q. assert (E : traveler_proposal_ids d tenant traveler = dict_keys (keep_values q d)) by done.
  split; [rewrite E; by apply map_filter_fst|]. rewrite pop_all_filter. apply values_dict_filter.
  intros k v Hin. f_equal. rewrite E. unfold keep_values. apply dict_in_get in Hin; [|apply Hd].
  by rewrite (mem_filter_keys _ _ _ v (proj1 Hd) Hin).
Qed.

Lemma pg_delete_traveler_memory tenant traveler :
  (forall p, In p (dict_values (Repo.memory_proposals r)) -> readable_traveler p) ->
  exists db', delete_traveler_memory tenant traveler db =
      (Ok (Repository.delete_traveler_memory r tenant traveler).1, db') /\
    represents h db' (Repository.delete_traveler_memory r tenant traveler).2.
Proof.
  intros Hread. destruct (profile_deleted tenant traveler) as [Hc Ht].
  destruct (proposal_ids_popped tenant traveler _ (ok_memory_proposals r Hok)) as [Hids Hvals].
  set (p := fun x => (ProposalRow.tenant_id x == tenant) &&
    bool_decide (astext "traveler_id" (ProposalRow.payload x) = Some traveler)).
  destruct (stores_delete proposal_row id _ _ p (fun v => (MemoryUpdateProposal.tenant_id v == tenant) &&
    (MemoryUpdateProposal.traveler_id v == traveler)) (rep_proposals h db r Hr)) as [Hc2 Ht2].
  { intros v Hv. subst p. simpl. f_equal.
    pose proof (readable_astext v (Hread v Hv)) as E. simpl in E. rewrite E. apply bool_decide_ext. naive_solver. }
  eexists. split.
  - unfold delete_traveler_memory. apply begin_commit. rewrite M_bind_unfold. unfold execute_delete at 1.
    rewrite (surjective_pairing (delete (preference_of tenant traveler) (Db.preferences db))). cbv iota beta.
    rewrite M_bind_unfold. unfold execute_delete. fold p. simpl.
    rewrite (surjective_pairing (delete p (Db.memory_proposals db))). rewrite Hc, Hc2, Hids, len_map. reflexivity.
  - rebuild Hr. by rewrite Hvals.
Qed.

(** ** Idempotency records

    The table holds the records of the store and stale ones, under one key each. *)

Definition record_key (e : IdempotencyRecord.t) : string * string :=
  (IdempotencyRecord.tenant_id e, IdempotencyRecord.idempotency_key e).

Lemma claim_test tenant key e : claim_of tenant key (record_row e) = (record_key e == (tenant, key)).
Proof. unfold claim_of, record_key, record_row. simpl. repeat case_bool_decide; naive_solver. Qed.

(** the only record of a key among [l] *)
Lemma unique_record t l e : stores record_row id t l -> In e l ->
  exists l1 l2, l = l1 ++ e :: l2 /\ (forall x, In x (l1 ++ l2) -> record_key x <> record_key e) /\
    List.filter (fun x => record_key x == record_key e) l = [e].
Proof.
  intros Ht Hin. pose proof (stores_unique record_row id t l Ht) as Hd.
  apply in_split in Hin as (l1 & l2 & ->). exists l1, l2.
  assert (Hoff : forall x, In x (l1 ++ l2) -> record_key x <> record_key e).
  { intros x Hx Ex. unfold keys in Hd. rewrite List.map_map, List.map_app in Hd. simpl in Hd.
    rewrite Permutation_app_comm in Hd. simpl in Hd. apply NoDup_cons in Hd as [Hn _]. apply Hn.
    rewrite Permutation_app_comm, <- List.map_app, list_elem_of_In, in_map_iff. exists x. split; [exact Ex|done]. }
  split; [done|]. split; [done|]. rewrite List.filter_app. simpl. rewrite bool_decide_true by done.
  assert (Hnil : forall k, (forall x, In x k -> record_key x <> record_key e) ->
    List.filter (fun x => record_key x == record_key e) k = []).
  { intros k Hk. rewrite (filter_ext_in' _ (fun _ => false)); [by clear; induction k|].
    intros x Hx. by apply bool_decide_eq_false, Hk. }
  rewrite !Hnil; [done| |]; intros x Hx; apply Hoff, in_or_app; [by right|by left].
Qed.

Lemma replace_record (w : IdempotencyRecord.t) l1 e l2 :
  (forall x, In x (l1 ++ l2) -> record_key x <> record_key e) ->
  List.map (fun x => if record_key x == record_key e then w else x) (l1 ++ e :: l2) = l1 ++ w :: l2.
Proof.
  intros Hoff. rewrite List.map_app. simpl. rewrite bool_decide_true by done.
  assert (Hid : forall k, (forall x, In x k -> record_key x <> record_key e) ->
    List.map (fun x => if record_key x == record_key e then w else x) k = k).
  { intros k Hk. rewrite <- (List.map_id k) at 2. apply List.map_ext_in. intros x Hx.
    by rewrite bool_decide_false by (by apply Hk). }
  rewrite !Hid; [done| |]; intros x Hx; apply Hoff, in_or_app; [by right|by left].
Qed.

(** the record of a claim, locked and read *)
Lemma locked_claim t l e : stores record_row id t l -> In e l ->
  List.map IdempotencyRow.payload (select_for_update (claim_of (record_key e).1 (record_key e).2) t) = [column e] /\
  storable e.
Proof.
  intros Ht Hin. destruct (unique_record t l e Ht Hin) as (l1 & l2 & El & Hoff & Hf).
  apply (only_payload record_row id IdempotencyRow.payload (fun _ => eq_refl) t l _ _ e Ht) with (2 := Hf).
  rewrite select_for_update_rows. apply (stores_filter record_row id); [done|]. intros v _. apply claim_test.
Qed.

(** UPDATE of the record of a claim *)
Lemma updated_claim t l1 e l2 w : stores record_row id t (l1 ++ e :: l2) ->
  record_key w = record_key e -> writable (record_row w) w ->
  exists t', update (claim_of (record_key e).1 (record_key e).2) (fun x => x <| IdempotencyRow.payload := column w |>) t =
      Ok t' /\ stores record_row id t' (l1 ++ w :: l2).
Proof.
  intros Ht Hk [Hs Hf].
  destruct (unique_record t _ e Ht) as (k1 & k2 & El & Hoff & _); [apply in_or_app; right; by left|].
  destruct (stores_update record_row id t (l1 ++ e :: l2) (claim_of (record_key e).1 (record_key e).2)
    (fun x => record_key x == record_key e) (fun x => x <| IdempotencyRow.payload := column w |>) (fun _ => w))
    as (t' & E & Ht'); [done| | |].
  - intros v _. apply claim_test.
  - intros v _ Ev. bool_hyps. split_and!; [|done|done|exact (eq_trans Hk (eq_sym Ev))].
    unfold record_key in *. injection Ev as Ev1 Ev2. injection Hk as Hk1 Hk2.
    unfold record_row, idempotency_row. by rewrite Ev1, Ev2, Hk1, Hk2.
  - exists t'. split; [done|]. rewrite El in Ht'. rewrite (replace_record w k1 e k2 Hoff) in Ht'.
    eapply stores_perm; [|exact Ht'].
    apply Permutation_trans with (w :: k1 ++ k2); [symmetry; apply Permutation_middle|].
    apply Permutation_trans with (w :: l1 ++ l2); [|apply Permutation_middle]. constructor.
    apply Permutation_cons_inv with (a := e).
    transitivity (k1 ++ e :: k2); [apply Permutation_middle|]. rewrite <- El. symmetry. apply Permutation_middle.
Qed.

Lemma pg_complete_idempotency tenant key hash code payload now rec r' :
  Repository.complete_idempotency r tenant key hash code payload now = Ok (rec, r') ->
  writable (record_row rec) rec ->
  exists db', complete_idempotency tenant key hash code payload now db = (Ok rec, db') /\ represents h db' r'.
Proof.
  unfold Repository.complete_idempotency. intros E Hw.
  destruct (dict_get (tenant, key) (Repo.idempotency_records r)) as [e|] eqn:Hg; [|done].
  destruct (IdempotencyRecord.request_hash e != hash) eqn:Hh; [done|]. apply Ok_inj in E. injection E as Erec <-.
  pose proof (keyed_get _ _ _ _ (ok_idempotency r Hok) Hg) as Hk. simpl in Hk.
  destruct (rep_idempotency h db r Hr) as (stale & Ht & Hstale).
  destruct (dict_set_old _ rec _ _ Hg) as (d1 & d2 & Ed & Es).
  assert (Hin : In e (dict_values (Repo.idempotency_records r) ++ stale)).
  { apply in_or_app. left. apply dict_in_values. exists (tenant, key). by apply dict_get_in. }
  destruct (locked_claim _ _ e Ht Hin) as [Hsel [Hv Htr]].
  rewrite Ed, dict_values_app in Ht. unfold dict_values in Ht. csimpl in Ht. rewrite <- app_assoc in Ht. csimpl in Ht.
  assert (Hrk : record_key rec = record_key e) by (subst rec; done).
  destruct (updated_claim _ _ _ _ rec Ht Hrk Hw) as (t & Eu & Ht').
  exists (db <| Db.idempotency_records := t |>).
  unfold record_key in Hsel, Eu. simpl in Hsel, Eu. injection Hk as Hkt Hkk. rewrite Hkt, Hkk in *. split.
  - unfold complete_idempotency. apply begin_commit. rewrite M_bind_unfold. unfold query. cbv beta. rewrite Hsel.
    rewrite scalar_one_or_none_one. cbv iota beta. rewrite Htr. simpl. rewrite M_bind_unfold. unfold lift_res.
    rewrite Hv. cbv iota beta. rewrite Hh. rewrite M_bind_unfold. simpl. rewrite M_bind_unfold.
    unfold update_claim. rewrite Erec. by rewrite (execute_ok Db.idempotency_records _ db t Eu).
  - rewrite Erec. rebuild Hr. exists stale. split; [|done]. rewrite Es, dict_values_app. unfold dict_values. csimpl.
    rewrite <- app_assoc. exact Ht'.
Qed.

(** the record of a new claim *)
Definition new_claim (tenant key scope hash : string) (expires now : instant) : IdempotencyRecord.t :=
  {| IdempotencyRecord.tenant_id := tenant;
     IdempotencyRecord.idempotency_key := key;
     IdempotencyRecord.scope := scope;
     IdempotencyRecord.request_hash := hash;
     IdempotencyRecord.state := IdempotencyState.IN_PROGRESS;
     IdempotencyRecord.response_status_code := None;
     IdempotencyRecord.response_payload := None;
     IdempotencyRecord.created_at := now;
     IdempotencyRecord.expires_at := expires;
     IdempotencyRecord.completed_at := None |}.

Section Claim.
Variables (tenant key scope hash : string) (expires now : instant) (l : list IdempotencyRecord.t).
Let record := new_claim tenant key scope hash expires now.
Hypotheses (Hvalid : IdempotencyRecord.valid record = true) (Hw : writable (record_row record) record)
  (Hl : stores record_row id (Db.idempotency_records db) l).

Let run := claim_idempotency tenant key scope hash expires now now db.

Lemma constructed : construct "IdempotencyRecord" IdempotencyRecord.valid record = Ok record.
Proof. unfold construct. by rewrite Hvalid. Qed.

Lemma claim_absent : (forall e, In e l -> record_key e <> (tenant, key)) ->
  exists t, run = (Ok ("execute", record), db <| Db.idempotency_records := t |>) /\ stores record_row id t (l ++ [record]).
Proof.
  intros Hn. destruct Hw as [[Hv Htr] Hf].
  destruct (stores_insert_or_ignore record_row id _ _ record Hl (conj Hv Htr) Hf) as [Hnew _].
  destruct Hnew as (t & E & Ht).
  { unfold keys. rewrite List.map_map, in_map_iff. intros (e & Ek & Hin). by apply (Hn e Hin). }
  exists t. split; [|done]. unfold run, claim_idempotency. rewrite M_bind_unfold. unfold lift_res at 1.
  change (construct _ _ _) with (construct "IdempotencyRecord" IdempotencyRecord.valid record). rewrite constructed.
  apply begin_commit. rewrite M_bind_unfold. unfold execute_insert_or_ignore.
  change (idempotency_row record tenant key) with (record_row record). rewrite E. cbv iota beta.
  rewrite M_bind_unfold. unfold query at 1. simpl. rewrite scalar_one_or_none_one. cbv iota beta.
  rewrite Htr, M_bind_unfold. unfold lift_res. simpl. by rewrite Hv.
Qed.

(** the outcome for a record that was already there *)
Definition claim_outcome (e : IdempotencyRecord.t) : string * IdempotencyRecord.t :=
  if IdempotencyRecord.expires_at e <=? now then ("execute", record)
  else if (IdempotencyRecord.scope e != scope) || (IdempotencyRecord.request_hash e != hash) then ("conflict", e)
  else if IdempotencyRecord.state e == IdempotencyState.COMPLETED then ("replay", e)
  else ("in_progress", e).

Lemma claim_present l1 e l2 : l = l1 ++ e :: l2 -> record_key e = (tenant, key) ->
  exists t, run = (Ok (claim_outcome e), db <| Db.idempotency_records := t |>) /\
    stores record_row id t (if IdempotencyRecord.expires_at e <=? now then l1 ++ record :: l2 else l).
Proof.
  intros El Hk. destruct Hw as [[Hv Htr] Hf].
  destruct (stores_insert_or_ignore record_row id _ _ record Hl (conj Hv Htr) Hf) as [_ Hold].
  assert (Hin : In e l) by (rewrite El; apply in_or_app; right; by left).
  destruct Hold as (t & E & Ht).
  { unfold keys. rewrite List.map_map, in_map_iff. by exists e. }
  destruct (locked_claim t l e Ht Hin) as [Hsel [Hve _]]. rewrite Hk in Hsel. simpl in Hsel.
  assert (Hrun : forall db' x,
    (if IdempotencyRecord.expires_at e <=? now then
       update_claim tenant key record ;; mret ("execute", record)
     else if (IdempotencyRecord.scope e != scope) || (IdempotencyRecord.request_hash e != hash)
     then mret ("conflict", e)
     else if IdempotencyRecord.state e == IdempotencyState.COMPLETED then mret ("replay", e)
     else mret ("in_progress", e)) (db <| Db.idempotency_records := t |>) = (Ok x, db') ->
    run = (Ok x, db')).
  { intros db' x Hx. unfold run, claim_idempotency. rewrite M_bind_unfold. unfold lift_res at 1.
    change (construct _ _ _) with (construct "IdempotencyRecord" IdempotencyRecord.valid record). rewrite constructed.
    apply begin_commit. rewrite M_bind_unfold. unfold execute_insert_or_ignore.
    change (idempotency_row record tenant key) with (record_row record). rewrite E. cbv iota beta.
    rewrite M_bind_unfold. unfold query at 1. simpl. rewrite scalar_one_or_none_nil. cbv iota beta.
    rewrite M_bind_unfold. unfold query at 1. cbv beta.
    change (Db.idempotency_records (over Db.idempotency_records (fun _ => t) db)) with t.
    rewrite Hsel, scalar_one_one. cbv iota beta. rewrite M_bind_unfold. unfold lift_res at 1. rewrite Hve. exact Hx. }
  unfold claim_outcome. destruct (IdempotencyRecord.expires_at e <=? now) eqn:Hexp.
  - rewrite El in Ht. assert (Hrk : record_key record = record_key e) by (by rewrite Hk).
    destruct (updated_claim t l1 e l2 record Ht Hrk (conj (conj Hv Htr) Hf)) as (t' & Eu & Ht').
    rewrite Hk in Eu. exists t'. split; [|done]. apply Hrun. simpl in Eu.
    rewrite M_bind_unfold. unfold update_claim. erewrite (execute_ok Db.idempotency_records); [reflexivity|exact Eu].
  - exists t. split; [|done]. apply Hrun. by repeat case_match.
Qed.

End Claim.

Lemma pop_perm {K V} `{EqDecision K} (k : K) (v0 v : V) (d : dict K V) : dict_wf d -> dict_get k d = Some v0 ->
  dict_values (dict_set k v (dict_pop k d)) ≡ₚ dict_values (dict_set k v d).
Proof.
  intros Hw Hg. rewrite values_set_new by apply dict_get_pop_eq.
  destruct (dict_set_old k v v0 d Hg) as (d1 & d2 & -> & ->).
  assert (Hpop : dict_pop k (d1 ++ (k, v0) :: d2) = d1 ++ d2).
  { unfold dict_wf in Hw. change ((d1 ++ (k, v0) :: d2).*1) with (List.map fst (d1 ++ (k, v0) :: d2)) in Hw.
    rewrite List.map_app in Hw. simpl in Hw. rewrite Permutation_app_comm in Hw. simpl in Hw.
    apply NoDup_cons in Hw as [Hn _]. rewrite Permutation_app_comm, <- List.map_app, list_elem_of_In in Hn.
    unfold dict_pop. rewrite List.filter_app. simpl. rewrite (bool_decide_true (k = k)) by done. simpl.
    rewrite <- List.filter_app, (filter_ext_in' _ (fun _ => true)), filter_true; [done|].
    intros [k' v'] Hin. simpl. rewrite bool_decide_false; [done|]. intros ->. apply Hn.
    apply in_map_iff. by exists (k', v'). }
  rewrite Hpop, !dict_values_app. unfold dict_values. csimpl.
  rewrite <- app_assoc. apply Permutation_app_head. symmetry. apply Permutation_cons_append.
Qed.

Lemma pg_claim_idempotency tenant key scope hash expires now :
  h <= now ->
  IdempotencyRecord.valid (new_claim tenant key scope hash expires now) = true ->
  writable (record_row (new_claim tenant key scope hash expires now)) (new_claim tenant key scope hash expires now) ->
  exists db', claim_idempotency tenant key scope hash expires now now db =
      ((Repository.claim_idempotency r tenant key scope hash expires now).1, db') /\
    represents h db' (Repository.claim_idempotency r tenant key scope hash expires now).2.
Proof.
  intros Hh Hvalid Hw. destruct (rep_idempotency h db r Hr) as (stale & Hl & Hstale).
  set (rec := new_claim tenant key scope hash expires now) in *.
  assert (Hc : construct "IdempotencyRecord" IdempotencyRecord.valid rec = Ok rec) by (unfold construct; by rewrite Hvalid).
  unfold Repository.claim_idempotency. change (construct _ _ _) with (construct "IdempotencyRecord" IdempotencyRecord.valid rec).
  rewrite Hc. destruct (dict_get (tenant, key) (Repo.idempotency_records r)) as [e|] eqn:Hg.
  - pose proof (keyed_get _ _ _ _ (ok_idempotency r Hok) Hg) as Hk.
    destruct (dict_set_old _ rec _ _ Hg) as (d1 & d2 & Ed & Es).
    assert (El : dict_values (Repo.idempotency_records r) ++ stale =
                 dict_values d1 ++ e :: (dict_values d2 ++ stale)).
    { rewrite Ed, dict_values_app. unfold dict_values. csimpl. by rewrite <- app_assoc. }
    destruct (claim_present tenant key scope hash expires now _ Hvalid Hw Hl _ e _ El Hk) as (t & E & Ht).
    exists (db <| Db.idempotency_records := t |>). rewrite E. unfold claim_outcome.
    destruct (IdempotencyRecord.expires_at e <=? now).
    + split; [done|]. simpl. rebuild Hr. exists stale. split; [|done].
      eapply stores_perm; [|exact Ht]. symmetry.
      etransitivity; [apply Permutation_app_tail, (pop_perm _ e rec); [apply (ok_idempotency r Hok)|done]|].
      rewrite Es, dict_values_app. unfold dict_values. csimpl. by rewrite <- app_assoc.
    + repeat case_match; (split; [done|]; rebuild Hr; by exists stale).
  - assert (Habs : forall e, In e (dict_values (Repo.idempotency_records r)) -> record_key e <> (tenant, key)).
    { intros e (k & Hin)%dict_in_values Ek. apply (proj2 (ok_idempotency r Hok)) in Hin as Hk.
      unfold record_key in Ek. rewrite Hk in Ek. subst k. apply dict_in_get in Hin; [congruence|].
      apply (ok_idempotency r Hok). }
    destruct (existsb (fun e => record_key e == (tenant, key)) stale) eqn:Hst.
    + apply existsb_true_iff in Hst as (e & He & Hk). apply bool_decide_eq_true in Hk.
      apply in_split in He as (s1 & s2 & ->).
      destruct (claim_present tenant key scope hash expires now _ Hvalid Hw Hl
        (dict_values (Repo.idempotency_records r) ++ s1) e s2) as (t & E & Ht); [by rewrite <- app_assoc|done|].
      exists (db <| Db.idempotency_records := t |>). rewrite E. unfold claim_outcome.
      assert (Hexp : IdempotencyRecord.expires_at e < h) by (apply Hstale, in_or_app; right; by left).
      replace (IdempotencyRecord.expires_at e <=? now) with true in * by (symmetry; apply Z.leb_le; lia).
      split; [done|]. simpl. rebuild Hr. exists (s1 ++ s2). split.
      * eapply stores_perm; [|exact Ht]. rewrite values_set_new by done. rewrite <- !app_assoc.
        apply Permutation_app_head. simpl. symmetry. apply Permutation_middle.
      * intros x [Hx|Hx]%in_app_or; apply Hstale, in_or_app; [by left|right; by right].
    + rewrite existsb_false_iff in Hst.
      destruct (claim_absent tenant key scope hash expires now _ Hvalid Hw Hl) as (t & E & Ht).
      { intros e [He|He]%in_app_or; [by apply Habs|]. apply Hst, bool_decide_eq_false in He. done. }
      exists (db <| Db.idempotency_records := t |>). rewrite E. split; [done|]. simpl. rebuild Hr. exists stale.
      split; [|done]. eapply stores_perm; [|exact Ht]. rewrite values_set_new by done. rewrite <- !app_assoc.
      apply Permutation_app_head, Permutation_app_comm.
Qed.

End Step.
End Writes.
