(* ===== verification/PgErasure.v ===== *)
(** * Erasure and retention of the database follow those of the store

    [erase_traveler_data] and [purge_expired] of [apps/api/postgres_repository.py]
    select identifiers by the documents and delete by the identifiers; the store
    filters its dictionaries.  Both remove the same records. *)

From stdpp Require Import list.
From S2P Require Import Prelude PyData Float64 PyStd Enums Models Recovery Security.
From S2P Require Import Repository StoreInvariant Sql PgTables Postgres PgGovernance PgStore PgRefinement PgWrites.
From Stdlib Require Import Sorting.Permutation.

(** ** [if ids: DELETE ...] *)

Definition del `{Sql} {R A} `{Table R} (ids : list A) (p : R -> bool) (t : table R) : table R :=
  match ids with [] => t | _ => (delete p t).2 end.

(** two databases with the same tables *)
Ltac same_tables db := destruct db; cbv beta iota zeta delta [
    over del Db.trips Db.trip_segments Db.evidence_items Db.assessments Db.incidents
    Db.preferences Db.approvals Db.events Db.memory_proposals Db.candidate_sets
    Db.candidate_outcomes Db.manager_feedback Db.tenant_playbooks Db.notifications
    Db.notification_attempts Db.action_dispatches Db.action_dispatch_attempts
    Db.memory_audit_events Db.change_records Db.provider_onboarding_records
    Db.runtime_control_overrides Db.runtime_control_changes
    Db.platform_runtime_control_overrides Db.platform_runtime_control_changes
    Db.idempotency_records Db.original_uploads Db.legal_holds Db.deletion_requests];
  reflexivity.
Section Erasure.
Context `{HS : Sql} `{!SqlLaws} `{HD : Documents}.

(** the values that a deletion leaves, when nothing satisfies the test of no ids *)
Lemma stores_del_test {V A R} `{Document A} `{Table R} {ID} (row : V -> R) (doc : V -> A) (ids : list ID) p q t l :
  stores row doc t l -> (forall v, In v l -> p (row v) = q v) -> (ids = [] -> forall v, In v l -> q v = false) ->
  stores row doc (del ids p t) (List.filter (fun v => negb (q v)) l).
Proof.
  intros Ht Hp Hnil. unfold del. destruct ids as [|i ids]; [|by apply stores_delete].
  rewrite (filter_ext_in' _ (fun _ => true)), filter_true; [done|]. intros v Hv. by rewrite (Hnil eq_refl v Hv).
Qed.

(** the values that a deletion by identifiers leaves *)
Lemma stores_del {V A R} `{Document A} `{Table R} {ID} `{EqDecision ID} (row : V -> R) (doc : V -> A)
    (f : V -> ID) (ids ids' : list ID) p t l :
  stores row doc t l -> (forall v, In v l -> p (row v) = mem (f v) ids) -> ids ≡ₚ ids' ->
  stores row doc (del ids p t) (List.filter (fun v => negb (mem (f v) ids')) l).
Proof.
  intros Ht Hp Hids. rewrite (filter_ext_in' _ (fun v => negb (mem (f v) ids)))
    by (intros v _; by rewrite (mem_perm (f v) _ _ Hids)).
  apply (stores_del_test row doc ids p (fun v => mem (f v) ids)); [done|done|]. by intros -> v _.
Qed.

Section DelDict.
Context {K V A R : Type} `{EqDecision K} `{Document A} `{Table R} (row : V -> R) (doc : V -> A).
Variables (t : table R) (d : dict K V).
Hypothesis Ht : stores row doc t (dict_values d).

Lemma stores_del_pop (key : V -> K) ids ids' p : keyed key d ->
  (forall v, p (row v) = mem (key v) ids) -> ids ≡ₚ ids' ->
  stores row doc (del ids p t) (dict_values (pop_all ids' d)).
Proof.
  intros Hd Hp Hids. rewrite pop_all_filter. rewrite (values_dict_filter _ (fun v => negb (mem (key v) ids'))).
  - by apply (stores_del row doc key).
  - intros k v Hin. by rewrite (proj2 Hd k v Hin).
Qed.

Lemma stores_del_keep {ID} `{EqDecision ID} (f : V -> ID) ids ids' p :
  (forall v, p (row v) = mem (f v) ids) -> ids ≡ₚ ids' ->
  stores row doc (del ids p t) (dict_values (keep_values (fun v => negb (mem (f v) ids')) d)).
Proof. intros Hp Hids. rewrite values_filter. by apply (stores_del row doc f). Qed.

End DelDict.

Lemma stores_del_entries {V A R} `{Document A} `{Table R} (row : uuid * V -> R) (doc : uuid * V -> A) t
    (d : dict uuid (list V)) (kept : uuid -> bool) ids p :
  stores row doc t (entries d) -> (forall e, p (row e) = mem e.1 ids) ->
  (forall k l, In (k, l) d -> kept k = negb (mem k ids)) ->
  stores row doc (del ids p t) (entries (dict_filter (fun k _ => kept k) d)).
Proof.
  intros Ht Hp Hk. rewrite entries_filter. rewrite (filter_ext_in' _ (fun e => negb (mem e.1 ids))).
  - by apply (stores_del row doc fst).
  - intros [k v] (l & Hin & _)%in_entries. by eapply Hk.
Qed.

(** a list of distinct keys: the elements selected, by their keys *)
Lemma mem_selected {V K} `{EqDecision K} (key : V -> K) (q : V -> bool) l v :
  NoDup (List.map key l) -> In v l -> mem (key v) (List.map key (List.filter q l)) = q v.
Proof.
  intros Hd Hv. apply eq_true_iff_eq. rewrite mem_true_iff, in_map_iff. split.
  - intros (w & Hk & [Hw Hq]%filter_In). replace v with w; [done|].
    clear Hq. induction l as [|x l IH]; [done|]. simpl in Hd. apply NoDup_cons in Hd as [Hn Hd].
    rewrite list_elem_of_In in Hn. destruct Hv as [<-|Hv], Hw as [<-|Hw]; [done| | |by apply IH].
    + exfalso. apply Hn. rewrite <- Hk. by apply in_map.
    + exfalso. apply Hn. rewrite Hk. by apply in_map.
  - intros Hq. exists v. split; [done|]. by apply filter_In.
Qed.

Lemma stores_nodup {V A R K} `{Document A} `{Table R} (row : V -> R) (doc : V -> A) (key : V -> K) t l :
  stores row doc t l -> (forall v v', key v = key v' -> primary_key (row v) = primary_key (row v')) ->
  NoDup (List.map key l).
Proof.
  intros Ht Hk. pose proof (stores_unique row doc t l Ht) as Hd. clear Ht. unfold keys in Hd.
  rewrite List.map_map in Hd. induction l as [|v l IH]; [apply NoDup_nil_2|]. simpl in *.
  apply NoDup_cons in Hd as [Hn Hd]. apply NoDup_cons. split; [|by apply IH].
  intros (w & E & Hin)%list_elem_of_In%in_map_iff. apply Hn, list_elem_of_In, in_map_iff. exists w. split; [|done].
  by apply Hk.
Qed.

(** children of the records that remain *)
Lemma link_pop {V W} ids (c : dict uuid V) (d : dict uuid W) :
  (forall k l, In (k, l) c -> dict_mem k d = true) ->
  forall k l, In (k, l) (pop_all ids c) -> dict_mem k (pop_all ids d) = true.
Proof.
  intros Hlink k l Hin. rewrite pop_all_filter in Hin. apply filter_In in Hin as [Hin Hn]. simpl in Hn. bool_hyps.
  unfold dict_mem. rewrite dict_get_pop_all, Hn. by apply Hlink in Hin.
Qed.

Lemma link_keys {V W} (c : dict uuid V) (d : dict uuid W) k l :
  In (k, l) (keep_keys (fun id => dict_mem id d) c) -> dict_mem k d = true.
Proof. by intros [_ Hk]%filter_In. Qed.

(** a record with an id outside the selected ones remains *)
Lemma mem_kept {V} (key : V -> uuid) (q : V -> bool) (d : dict uuid V) ids k : keyed key d ->
  ids ≡ₚ dict_keys (keep_values q d) -> dict_mem k d = true ->
  dict_mem k (keep_values (fun v => negb (q v)) d) = negb (mem k ids).
Proof.
  intros Hd Hids Hm. rewrite (mem_perm k _ _ Hids). unfold dict_mem in *.
  rewrite dict_get_keep_values by apply Hd. destruct (dict_get k d) as [v|] eqn:Hg; [|done].
  unfold keep_values. rewrite (mem_filter_keys _ d k v (proj1 Hd) Hg). by destruct (q v).
Qed.

(** the table of segments, by the ids of the trips *)
Lemma segments_del (t : table SegmentRow.t) (d : dict uuid (list FlightSegmentCreate.t)) ids ids' :
  List.map untenanted (rows t) ≡ₚ List.map segment_entry (entries d) -> ids ≡ₚ ids' ->
  List.map untenanted (rows (del ids (fun x => mem (SegmentRow.trip_id x) ids) t)) ≡ₚ
  List.map segment_entry (entries (pop_all ids' d)).
Proof.
  intros Ht Hids. rewrite pop_all_filter, (entries_filter (fun k => negb (mem k ids'))).
  assert (Hdel : rows (del ids (fun x => mem (SegmentRow.trip_id x) ids) t) ≡ₚ
                 List.filter (fun x => negb (mem (SegmentRow.trip_id x) ids)) (rows t)).
  { unfold del. destruct ids as [|i ids]; [by rewrite filter_true|]. apply delete_rows. }
  rewrite Hdel, <- (filter_map_swap untenanted (fun x => negb (mem (SegmentRow.trip_id x) ids))) by done.
  rewrite (filter_perm _ _ _ Ht), (filter_map_swap segment_entry _ (fun e => negb (mem e.1 ids))) by done.
  apply Permutation_map, Permutation_refl', filter_ext_in'. intros e _. by rewrite (mem_perm e.1 _ _ Hids).
Qed.

(** ** The blocks of deletions *)

Definition notifications_deleted (ids : list uuid) (db : Db.t) : Db.t :=
  db <| Db.notification_attempts ::= del ids (fun x => mem (NotificationAttemptRow.notification_id x) ids) |>
     <| Db.notifications ::= del ids (fun x => mem (NotificationRow.notification_id x) ids) |>.

Definition incidents_deleted (ids : list uuid) (db : Db.t) : Db.t :=
  let action_ids := List.map ActionRow.action_dispatch_id
    (select (fun x => mem (ActionRow.incident_id x) ids) (Db.action_dispatches db)) in
  db <| Db.action_dispatch_attempts ::= del ids (fun x => mem (ActionAttemptRow.action_dispatch_id x) action_ids) |>
     <| Db.action_dispatches ::= del ids (fun x => mem (ActionRow.incident_id x) ids) |>
     <| Db.approvals ::= del ids (fun x => mem (ApprovalRow.incident_id x) ids) |>
     <| Db.candidate_sets ::= del ids (fun x => mem (CandidateSetRow.incident_id x) ids) |>
     <| Db.candidate_outcomes ::= del ids (fun x => mem (OutcomeRow.incident_id x) ids) |>
     <| Db.manager_feedback ::= del ids (fun x => mem (FeedbackRow.incident_id x) ids) |>
     <| Db.incidents ::= del ids (fun x => mem (IncidentRow.incident_id x) ids) |>.

Definition evidence_deleted (ids : list uuid) (db : Db.t) : Db.t :=
  db <| Db.evidence_items ::= del ids (fun x => mem (EvidenceRow.trip_id x) ids) |>
     <| Db.assessments ::= del ids (fun x => mem (AssessmentRow.trip_id x) ids) |>.

Definition segments_deleted (ids : list uuid) (db : Db.t) : Db.t :=
  db <| Db.trip_segments ::= del ids (fun x => mem (SegmentRow.trip_id x) ids) |>.

Definition trips_deleted (ids : list uuid) (db : Db.t) : Db.t :=
  db <| Db.trips ::= del ids (fun x => mem (TripRow.trip_id x) ids) |>.

(** a block whose list is empty runs no statement; otherwise each deletes *)
Ltac block ids db := unfold if_any, del; destruct ids; [same_tables db|].
Ltac next_delete := rewrite M_bind_unfold, delete_from_ok; cbv iota beta.
Ltac next_action_attempts :=
  rewrite M_bind_unfold; unfold delete_action_attempts; rewrite M_bind_unfold; unfold gets;
  cbv iota beta; rewrite delete_from_ok; cbv iota beta.
Ltac last_delete db := rewrite delete_from_ok; same_tables db.

Lemma delete_notifications ids db :
  if_any ids (
    delete_from Db.notification_attempts (fun r => mem (NotificationAttemptRow.notification_id r) ids) ;;
    delete_from Db.notifications (fun r => mem (NotificationRow.notification_id r) ids)) db =
  (Ok tt, notifications_deleted ids db).
Proof. unfold notifications_deleted. block ids db. next_delete. last_delete db. Qed.

Lemma delete_incidents ids db :
  if_any ids (
    delete_action_attempts ids ;;
    delete_from Db.action_dispatches (fun r => mem (ActionRow.incident_id r) ids) ;;
    delete_from Db.approvals (fun r => mem (ApprovalRow.incident_id r) ids) ;;
    delete_from Db.candidate_sets (fun r => mem (CandidateSetRow.incident_id r) ids) ;;
    delete_from Db.candidate_outcomes (fun r => mem (OutcomeRow.incident_id r) ids) ;;
    delete_from Db.manager_feedback (fun r => mem (FeedbackRow.incident_id r) ids) ;;
    delete_from Db.incidents (fun r => mem (IncidentRow.incident_id r) ids)) db =
  (Ok tt, incidents_deleted ids db).
Proof. unfold incidents_deleted. block ids db. next_action_attempts. do 5 next_delete. last_delete db. Qed.

(** [purge_expired] issues the same deletions in another order *)
Lemma purge_incidents ids db :
  if_any ids (
    delete_from Db.approvals (fun r => mem (ApprovalRow.incident_id r) ids) ;;
    delete_from Db.candidate_sets (fun r => mem (CandidateSetRow.incident_id r) ids) ;;
    delete_from Db.candidate_outcomes (fun r => mem (OutcomeRow.incident_id r) ids) ;;
    delete_from Db.manager_feedback (fun r => mem (FeedbackRow.incident_id r) ids) ;;
    delete_action_attempts ids ;;
    delete_from Db.action_dispatches (fun r => mem (ActionRow.incident_id r) ids) ;;
    delete_from Db.incidents (fun r => mem (IncidentRow.incident_id r) ids)) db =
  (Ok tt, incidents_deleted ids db).
Proof. unfold incidents_deleted. block ids db. do 4 next_delete. next_action_attempts. next_delete. last_delete db. Qed.

Lemma delete_trips ids db :
  if_any ids (
    delete_from Db.evidence_items (fun r => mem (EvidenceRow.trip_id r) ids) ;;
    delete_from Db.assessments (fun r => mem (AssessmentRow.trip_id r) ids) ;;
    delete_from Db.trip_segments (fun r => mem (SegmentRow.trip_id r) ids) ;;
    delete_from Db.trips (fun r => mem (TripRow.trip_id r) ids)) db =
  (Ok tt, trips_deleted ids (segments_deleted ids (evidence_deleted ids db))).
Proof. unfold trips_deleted, segments_deleted, evidence_deleted. block ids db. do 3 next_delete. last_delete db. Qed.

Lemma purge_evidence ids db :
  if_any ids (
    delete_from Db.evidence_items (fun r => mem (EvidenceRow.trip_id r) ids) ;;
    delete_from Db.assessments (fun r => mem (AssessmentRow.trip_id r) ids)) db =
  (Ok tt, evidence_deleted ids db).
Proof. unfold evidence_deleted. block ids db. next_delete. last_delete db. Qed.

Lemma purge_trips ids db :
  if_any ids (delete_from Db.trips (fun r => mem (TripRow.trip_id r) ids)) db = (Ok tt, trips_deleted ids db).
Proof. unfold trips_deleted. block ids db. last_delete db. Qed.

(** ** What the deletions leave *)

Section Left.
Variables (h : instant) (db : Db.t) (r : repo).
Hypotheses (Hr : represents h db r) (Hok : store_ok r).

(** the children of the trips that remain keep their tenant column *)
Lemma children_popped trip_ids ids :
  let tenant_of := trip_tenant (r <| Repo.trips ::= pop_all trip_ids |>) in
  ids ≡ₚ trip_ids ->
  stores (evidence_entry tenant_of) snd
    (del ids (fun x => mem (EvidenceRow.trip_id x) ids) (Db.evidence_items db))
    (entries (pop_all trip_ids (Repo.evidence r))) /\
  stores (assessment_entry tenant_of) snd
    (del ids (fun x => mem (AssessmentRow.trip_id x) ids) (Db.assessments db))
    (entries (pop_all trip_ids (Repo.assessments r))).
Proof.
  intros tenant_of Hids.
  assert (Htn : forall k, mem k trip_ids = false -> trip_tenant r k = tenant_of k).
  { intros k Hk. unfold tenant_of, trip_tenant. simpl. by rewrite dict_get_pop_all, Hk. }
  rewrite !pop_all_filter. split; eapply stores_ext.
  2: { apply stores_del_entries; [exact (rep_evidence h db r Hr)|done|].
       intros k l _. by rewrite (mem_perm k _ _ Hids). }
  3: { apply stores_del_entries; [exact (rep_assessments h db r Hr)|done|].
       intros k l _. by rewrite (mem_perm k _ _ Hids). }
  - intros [k e] (l & [_ Hk]%filter_In & _)%in_entries. simpl in Hk. bool_hyps.
    unfold evidence_entry. simpl. by rewrite Htn.
  - intros [k e] (l & [_ Hk]%filter_In & _)%in_entries. simpl in Hk. bool_hyps.
    unfold assessment_entry. simpl. by rewrite Htn.
Qed.

(** the attempts of the dispatches of the incidents *)
Lemma action_attempts_del incident_ids ids : ids ≡ₚ incident_ids ->
  let action_ids := List.map ActionRow.action_dispatch_id
    (select (fun x => mem (ActionRow.incident_id x) ids) (Db.action_dispatches db)) in
  let kept := keep_values (fun a => negb (mem (ActionDispatchRecord.incident_id a) incident_ids))
    (Repo.action_dispatches r) in
  stores action_attempt_entry snd
    (del ids (fun x => mem (ActionAttemptRow.action_dispatch_id x) action_ids) (Db.action_dispatch_attempts db))
    (entries (keep_keys (fun id => dict_mem id kept) (Repo.action_dispatch_attempts r))).
Proof.
  intros Hids action_ids kept. set (q := fun a => mem (ActionDispatchRecord.incident_id a) incident_ids).
  assert (Hact : action_ids ≡ₚ dict_keys (keep_values q (Repo.action_dispatches r))).
  { rewrite (map_filter_fst ActionDispatchRecord.action_dispatch_id _ _ (ok_action_dispatches r Hok)).
    unfold action_ids. rewrite select_rows.
    rewrite (stores_filter action_row id _ _ _ q (rep_actions h db r Hr)), List.map_map; [done|].
    intros a _. by apply mem_perm. }
  unfold keep_keys. rewrite entries_filter.
  rewrite (filter_ext_in' _ (fun e => negb (mem e.1 action_ids))).
  - apply (stores_del_test action_attempt_entry snd ids); [exact (rep_action_attempts h db r Hr)|done|].
    intros Hnil e _. rewrite (mem_perm e.1 _ _ Hact).
    rewrite Hnil in Hids. apply Permutation_nil in Hids. unfold q. rewrite Hids.
    apply mem_false_iff. unfold keep_values. rewrite in_filter_keys by apply (ok_action_dispatches r Hok). by intros (v & _ & Hv).
  - intros [k e] (l & Hin & _)%in_entries. simpl. unfold kept.
    apply (mem_kept ActionDispatchRecord.action_dispatch_id q); [exact (ok_action_dispatches r Hok)|done|].
    by eapply (rep_attempt_action h db r Hr).
Qed.

(** the notifications selected, and their attempts *)
Lemma notifications_del q ids : ids ≡ₚ dict_keys (keep_values q (Repo.notifications r)) ->
  stores notification_row id
    (del ids (fun x => mem (NotificationRow.notification_id x) ids) (Db.notifications db))
    (dict_values (keep_values (fun n => negb (q n)) (Repo.notifications r))) /\
  forall kept, (forall k l, In (k, l) (Repo.notification_attempts r) -> kept k = negb (mem k ids)) ->
  stores notification_attempt_entry snd
    (del ids (fun x => mem (NotificationAttemptRow.notification_id x) ids) (Db.notification_attempts db))
    (entries (keep_keys kept (Repo.notification_attempts r))).
Proof.
  intros Hids. pose proof (rep_notifications h db r Hr) as Hn. split.
  - rewrite values_filter. rewrite (map_filter_fst NotificationRecord.notification_id _ _ (ok_notifications r Hok)) in Hids.
    rewrite (filter_ext_in' _ (fun n => negb (mem (NotificationRecord.notification_id n)
      (List.map NotificationRecord.notification_id (List.filter q (dict_values (Repo.notifications r))))))).
    + by apply (stores_del notification_row id).
    + intros n Hin. f_equal. symmetry.
      apply (mem_selected NotificationRecord.notification_id q (dict_values (Repo.notifications r))); [|done].
      apply (stores_nodup notification_row id _ _ _ Hn). intros v v' E. simpl. by rewrite E.
  - intros kept Hk. apply stores_del_entries; [exact (rep_notification_attempts h db r Hr)|done|done].
Qed.

Lemma approvals_del incident_ids ids : ids ≡ₚ incident_ids ->
  stores approval_row id (del ids (fun x => mem (ApprovalRow.incident_id x) ids) (Db.approvals db))
    (dict_values (pop_all incident_ids (Repo.approvals r))).
Proof.
  intros Hi. by apply (stores_del_pop approval_row id _ _ (rep_approvals h db r Hr) ApprovalRecord.incident_id ids
    incident_ids (fun x => mem (ApprovalRow.incident_id x) ids) (ok_approvals r Hok) (fun _ => eq_refl)).
Qed.

End Left.

(** ** Erasing a traveler *)

Section Erase.
Variables (h : instant) (db : Db.t) (r : repo) (tenant traveler : string).
Hypotheses (Hr : represents h db r) (Hok : store_ok r).

Lemma erase_preferences_ok : exists proposal_ids t1 t2,
  erase_preferences tenant traveler db =
    (Ok (Repository.delete_traveler_memory r tenant traveler).1,
     db <| Db.preferences := t1 |> <| Db.memory_proposals := t2 |>) /\
  proposal_ids ≡ₚ traveler_proposal_ids (Repo.memory_proposals r) tenant traveler /\
  stores profile_row id t1 (dict_values (dict_pop (tenant, traveler) (Repo.profiles r))) /\
  stores proposal_row id t2 (dict_values
    (pop_all (traveler_proposal_ids (Repo.memory_proposals r) tenant traveler) (Repo.memory_proposals r))).
Proof.
  destruct (proposal_ids_popped tenant traveler _ (ok_memory_proposals r Hok)) as [Hids Hvals].
  set (q := fun p => (MemoryUpdateProposal.tenant_id p == tenant) && (MemoryUpdateProposal.traveler_id p == traveler)) in *.
  pose proof (rep_proposals h db r Hr) as Hp.
  destruct (ids_where_rows proposal_row id ProposalRow.payload (fun _ => eq_refl) ProposalRow.proposal_id
    MemoryUpdateProposal.proposal_id
    (select (fun x => ProposalRow.tenant_id x == tenant) (Db.memory_proposals db))
    (List.filter (fun p => MemoryUpdateProposal.tenant_id p == tenant) (dict_values (Repo.memory_proposals r)))
    (fun p => Ok (MemoryUpdateProposal.traveler_id p == traveler))
    (List.filter q (dict_values (Repo.memory_proposals r)))) as (ids & E & Hp2).
  - done.
  - rewrite select_rows. by apply (stores_filter proposal_row id).
  - intros v [Hv _]%filter_In. by apply Hp.
  - erewrite filter_res_pure; [|reflexivity]. by rewrite filter_filter.
  - exists ids, (delete (preference_of tenant traveler) (Db.preferences db)).2,
      (del ids (fun x => mem (ProposalRow.proposal_id x) ids) (Db.memory_proposals db)).
    split_and!.
    + unfold erase_preferences. rewrite M_bind_unfold. unfold query at 1.
      assert (Hone : scalar_one_or_none (List.map PreferenceRow.traveler_id
        (select (preference_of tenant traveler) (Db.preferences db))) =
        Ok (TravelerPreferenceProfile.traveler_id <$> dict_get (tenant, traveler) (Repo.profiles r))).
      { assert (Hs : select (preference_of tenant traveler) (Db.preferences db) ≡ₚ
          List.map profile_row (List.filter (fun v => true && (profile_key v == (tenant, traveler)))
            (dict_values (Repo.profiles r)))).
        { rewrite select_rows. apply (stores_filter profile_row id); [exact (rep_profiles h db r Hr)|].
          intros v _. apply profile_test. }
        rewrite (filter_values_get profile_key (fun _ => true) _ _ (ok_profiles r Hok)) in Hs.
        destruct (dict_get _ _) as [v|].
        - apply singleton_perm in Hs as ->. simpl. by rewrite scalar_one_or_none_one.
        - apply Permutation_sym, Permutation_nil in Hs as ->. simpl. by rewrite scalar_one_or_none_nil. }
      rewrite Hone. cbv iota beta. rewrite M_bind_unfold. unfold query. rewrite E. cbv iota beta.
      rewrite M_bind_unfold, delete_from_ok. cbv iota beta. rewrite M_bind_unfold.
      replace (if_any ids _ _) with (Ok tt, db <| Db.preferences := (delete (preference_of tenant traveler) (Db.preferences db)).2 |>
        <| Db.memory_proposals := del ids (fun x => mem (ProposalRow.proposal_id x) ids) (Db.memory_proposals db) |>).
      * simpl. unfold Repository.delete_traveler_memory. simpl. rewrite Hids, len_map, (len_perm _ _ Hp2), len_map.
        unfold dict_mem. by destruct (dict_get _ _).
      * unfold if_any, del. destruct ids as [|i ids]; [by destruct db|]. by rewrite delete_from_ok.
    + by rewrite Hp2, Hids.
    + exact (proj2 (profile_deleted h db r Hr Hok tenant traveler)).
    + apply (stores_del_pop proposal_row id _ _ Hp MemoryUpdateProposal.proposal_id);
        [exact (ok_memory_proposals r Hok)|done|]. by rewrite Hp2, Hids.
Qed.

(** the database after the deletions *)
Definition erased_db (trip_ids incident_ids notification_ids : list uuid) : Db.t :=
  trips_deleted trip_ids (segments_deleted trip_ids (evidence_deleted trip_ids
    (incidents_deleted incident_ids (notifications_deleted notification_ids db)))).

Lemma erase_trips_run trip_ids incident_ids notification_ids :
  trip_ids_of tenant traveler (rows (Db.trips db)) = Ok trip_ids ->
  ids_where IncidentRow.payload IncidentRow.incident_id (fun i =>
    Ok ((Incident.tenant_id i == tenant) && mem (Incident.trip_id i) trip_ids)) (rows (Db.incidents db)) = Ok incident_ids ->
  ids_where NotificationRow.payload NotificationRow.notification_id
    (fun n => Ok (NotificationRecord.traveler_id n == traveler))
    (select (fun x => NotificationRow.tenant_id x == tenant) (Db.notifications db)) = Ok notification_ids ->
  erase_trips tenant traveler db =
    (Ok (trip_ids, incident_ids, notification_ids), erased_db trip_ids incident_ids notification_ids).
Proof.
  intros E1 E2 E3. unfold erase_trips.
  rewrite M_bind_unfold. unfold query at 1. rewrite E1. cbv iota beta.
  rewrite M_bind_unfold. unfold query at 1. rewrite E2. cbv iota beta.
  rewrite M_bind_unfold. unfold query at 1. rewrite E3. cbv iota beta.
  rewrite M_bind_unfold, delete_notifications. cbv iota beta.
  rewrite M_bind_unfold, delete_incidents. cbv iota beta.
  by rewrite M_bind_unfold, delete_trips.
Qed.

(** the invariants of the erased store, and the ids that are erased *)
Let trip_ids := traveler_trip_ids (Repo.trips r) tenant traveler.
Let incident_ids := traveler_incident_ids (Repo.incidents r) tenant trip_ids.

Lemma erased_incident_ids trip_ids' : trip_ids' ≡ₚ trip_ids ->
  exists ids, ids_where IncidentRow.payload IncidentRow.incident_id (fun i =>
    Ok ((Incident.tenant_id i == tenant) && mem (Incident.trip_id i) trip_ids')) (rows (Db.incidents db)) = Ok ids /\
    ids ≡ₚ incident_ids.
Proof.
  intros Hids. unfold incident_ids, traveler_incident_ids.
  rewrite (map_filter_fst Incident.incident_id _ _ (ok_incidents r Hok)).
  eapply (ids_where_rows incident_row id); [reflexivity|reflexivity|apply (rep_incidents h db r Hr)|
    apply (rep_incidents h db r Hr)|].
  apply filter_res_pure. intros i _. do 2 f_equal. by apply mem_perm.
Qed.

Let of_traveler (n : NotificationRecord.t) : bool :=
  (NotificationRecord.tenant_id n == tenant) && (NotificationRecord.traveler_id n == traveler).

Lemma erased_notification_ids :
  exists ids, ids_where NotificationRow.payload NotificationRow.notification_id
    (fun n => Ok (NotificationRecord.traveler_id n == traveler))
    (select (fun x => NotificationRow.tenant_id x == tenant) (Db.notifications db)) = Ok ids /\
    ids ≡ₚ dict_keys (keep_values of_traveler (Repo.notifications r)).
Proof.
  rewrite (map_filter_fst NotificationRecord.notification_id _ _ (ok_notifications r Hok)).
  unfold of_traveler. rewrite <- (filter_filter (fun n => NotificationRecord.traveler_id n == traveler)).
  pose proof (rep_notifications h db r Hr) as Hn.
  eapply (ids_where_rows notification_row id); [reflexivity|reflexivity| | |].
  - rewrite select_rows. by apply (stores_filter notification_row id).
  - intros v [Hv _]%filter_In. by apply Hn.
  - by apply filter_res_pure.
Qed.

(** the store after the erasure, from the store without the traveler's memory *)
Definition erased_store (r : repo) : repo :=
  let notifications := keep_values
    (fun n => negb ((NotificationRecord.tenant_id n == tenant) &&
                    (NotificationRecord.traveler_id n == traveler))) (Repo.notifications r) in
  let action_dispatches := keep_values
    (fun a => negb (mem (ActionDispatchRecord.incident_id a) incident_ids)) (Repo.action_dispatches r) in
  r <| Repo.trips ::= pop_all trip_ids |>
    <| Repo.trip_segments ::= pop_all trip_ids |>
    <| Repo.evidence ::= pop_all trip_ids |>
    <| Repo.assessments ::= pop_all trip_ids |>
    <| Repo.incidents ::= pop_all incident_ids |>
    <| Repo.approvals ::= pop_all incident_ids |>
    <| Repo.candidate_sets ::=
         keep_values (fun item => negb (mem (RecoveryCandidateSet.incident_id item.2) incident_ids)) |>
    <| Repo.candidate_outcomes ::=
         keep_values (fun item => negb (mem (RecoveryCandidateOutcome.incident_id item.2) incident_ids)) |>
    <| Repo.manager_feedback ::=
         keep_values (fun f => negb (mem (ManagerFeedback.incident_id f) incident_ids)) |>
    <| Repo.notifications := notifications |>
    <| Repo.notification_attempts ::= keep_keys (fun id => dict_mem id notifications) |>
    <| Repo.action_dispatches := action_dispatches |>
    <| Repo.action_dispatch_attempts ::= keep_keys (fun id => dict_mem id action_dispatches) |>.

Lemma represents_erased trip_ids' incident_ids' notification_ids' :
  trip_ids' ≡ₚ trip_ids -> incident_ids' ≡ₚ incident_ids ->
  notification_ids' ≡ₚ dict_keys (keep_values of_traveler (Repo.notifications r)) ->
  represents h (erased_db trip_ids' incident_ids' notification_ids') (erased_store r).
Proof.
  intros Ht Hi Hn. destruct (children_popped h db r Hr _ _ Ht) as [He Ha].
  pose proof (action_attempts_del h db r Hr Hok _ _ Hi) as Haa.
  pose proof (stores_del_pop trip_row id _ _ (rep_trips h db r Hr) Trip.trip_id trip_ids' trip_ids
    (fun x => mem (TripRow.trip_id x) trip_ids') (ok_trips r Hok) (fun _ => eq_refl) Ht) as Htr.
  pose proof (segments_del _ _ _ _ (rep_segments h db r Hr) Ht) as Hseg.
  pose proof (stores_del_pop incident_row id _ _ (rep_incidents h db r Hr) Incident.incident_id incident_ids' incident_ids
    (fun x => mem (IncidentRow.incident_id x) incident_ids') (ok_incidents r Hok) (fun _ => eq_refl) Hi) as Hin.
  pose proof (stores_del_keep set_row snd _ _ (rep_candidate_sets h db r Hr)
    (fun s => RecoveryCandidateSet.incident_id s.2) incident_ids' incident_ids
    (fun x => mem (CandidateSetRow.incident_id x) incident_ids') (fun _ => eq_refl) Hi) as Hcs.
  pose proof (stores_del_keep set_outcome_row snd _ _ (rep_outcomes h db r Hr)
    (fun s => RecoveryCandidateOutcome.incident_id s.2) incident_ids' incident_ids
    (fun x => mem (OutcomeRow.incident_id x) incident_ids') (fun _ => eq_refl) Hi) as Hoc.
  pose proof (stores_del_keep feedback_row id _ _ (rep_feedback h db r Hr) ManagerFeedback.incident_id incident_ids'
    incident_ids (fun x => mem (FeedbackRow.incident_id x) incident_ids') (fun _ => eq_refl) Hi) as Hfb.
  pose proof (stores_del_keep action_row id _ _ (rep_actions h db r Hr) ActionDispatchRecord.incident_id incident_ids'
    incident_ids (fun x => mem (ActionRow.incident_id x) incident_ids') (fun _ => eq_refl) Hi) as Hac.
  destruct (notifications_del h db r Hr Hok of_traveler notification_ids' Hn) as [Hno Hna].
  assert (Hkept : forall k l, In (k, l) (Repo.notification_attempts r) ->
    dict_mem k (keep_values (fun n => negb (of_traveler n)) (Repo.notifications r)) = negb (mem k notification_ids')).
  { intros k l Hk. apply (mem_kept NotificationRecord.notification_id of_traveler);
      [exact (ok_notifications r Hok)|exact Hn|by eapply (rep_attempt_notification h db r Hr)]. }
  specialize (Hna _ Hkept).
  pose proof (approvals_del h db r Hr Hok _ _ Hi) as Hap.
  pose proof (link_pop trip_ids _ _ (rep_evidence_trip h db r Hr)) as Le.
  pose proof (link_pop trip_ids _ _ (rep_assessment_trip h db r Hr)) as La.
  destruct Hr. constructor; try assumption.
  - intros k l. apply link_keys.
  - intros k l. apply link_keys.
Qed.

End Erase.

(** the preferences and the proposals of the traveler are gone *)
Lemma represents_preferences h db r tenant traveler t1 t2 : represents h db r ->
  stores profile_row id t1 (dict_values (dict_pop (tenant, traveler) (Repo.profiles r))) ->
  stores proposal_row id t2 (dict_values
    (pop_all (traveler_proposal_ids (Repo.memory_proposals r) tenant traveler) (Repo.memory_proposals r))) ->
  represents h (db <| Db.preferences := t1 |> <| Db.memory_proposals := t2 |>)
    (Repository.delete_traveler_memory r tenant traveler).2.
Proof. intros Hr Hp Hm. destruct Hr. by constructor. Qed.

(** the counts that both repositories report alike *)
Definition common_counts (keys : list string) (counts counts' : dict string Z) : Prop :=
  forall k, In k keys -> dict_get k counts = dict_get k counts'.

Lemma pg_erase_traveler_data h db r tenant traveler scope : represents h db r -> store_ok r ->
  exists counts db', erase_traveler_data tenant traveler scope db = (Ok counts, db') /\
    represents h db' (Repository.erase_traveler_data r tenant traveler scope).2 /\
    common_counts ["profiles"; "memory_proposals"; "trips"; "incidents"]
      counts (Repository.erase_traveler_data r tenant traveler scope).1.
Proof.
  intros Hr Hok. destruct (erase_preferences_ok h db r tenant traveler Hr Hok) as (ids & t1 & t2 & E & _ & Hp & Hm).
  pose proof (represents_preferences h db r tenant traveler t1 t2 Hr Hp Hm) as Hr1.
  assert (Hok1 : store_ok (Repository.delete_traveler_memory r tenant traveler).2)
    by exact (erase_ok r tenant traveler DeletionRequestScope.PREFERENCE_MEMORY Hok).
  unfold erase_traveler_data, Repository.erase_traveler_data.
  destruct (Repository.delete_traveler_memory r tenant traveler) as [counts r1] eqn:Em. simpl in Hr1, Hok1, E.
  set (db1 := db <| Db.preferences := t1 |> <| Db.memory_proposals := t2 |>) in *.
  destruct (scope == DeletionRequestScope.PREFERENCE_MEMORY).
  { exists counts, db1. split; [|done]. apply begin_commit. by rewrite M_bind_unfold, E. }
  destruct (pg_trip_ids h db1 r1 Hr1 Hok1 tenant traveler) as (trip_ids & E1 & H1).
  destruct (erased_incident_ids h db1 r1 tenant traveler Hr1 Hok1 trip_ids H1) as (incident_ids & E2 & H2).
  destruct (erased_notification_ids h db1 r1 tenant traveler Hr1 Hok1) as (notification_ids & E3 & H3).
  pose proof (erase_trips_run db1 tenant traveler _ _ _ E1 E2 E3) as Erun.
  exists (counts ++ [("trips", len trip_ids); ("evidence", len trip_ids); ("assessments", len trip_ids);
                     ("incidents", len incident_ids); ("notifications", len notification_ids)]),
    (erased_db db1 trip_ids incident_ids notification_ids).
  split_and!.
  - apply begin_commit. rewrite M_bind_unfold, E. cbv iota beta. by rewrite M_bind_unfold, Erun.
  - by apply (represents_erased h db1 r1 tenant traveler).
  - unfold Repository.delete_traveler_memory in Em. injection Em as <- <-.
    intros k [<-|[<-|[<-|[<-|[]]]]]; simpl; by rewrite ?(len_perm _ _ H1), ?(len_perm _ _ H2).
Qed.

End Erasure.
