(* ===== verification/PgPurge.v ===== *)
(** * The retention job of the database follows that of the store

    [purge_expired] of [apps/api/postgres_repository.py] reads and validates whole
    tables, selects the expired identifiers in Python and deletes by identifiers.
    The store filters its dictionaries by the same tests. *)

From stdpp Require Import list.
From S2P Require Import Prelude PyData Float64 PyStd Enums Models Recovery Security.
From S2P Require Import Repository StoreInvariant Sql PgTables Postgres PgGovernance PgStore PgRefinement PgWrites PgErasure.
From Stdlib Require Import Sorting.Permutation.

Section Purge.
Context `{HS : Sql} `{!SqlLaws} `{HD : Documents}.

(** ** Selections *)

Section Select.
Context {V A R : Type} `{Document A} `{Table R} (row : V -> R) (doc : V -> A) (payload : R -> json).
Hypothesis payload_row : forall v, payload (row v) = column (doc v).

(** the rows of a table whose document satisfies a test *)
Lemma select_rows_pure t l (P : R -> A -> res bool) q :
  stores row doc t l -> (forall v, In v l -> P (row v) (doc v) = Ok (q v)) ->
  exists k, filter_res (fun r => x ← model_validate (payload r); P r x) (rows t) = Ok (List.map row k) /\
    k ≡ₚ List.filter q l.
Proof.
  intros [Hrows Hs] HP. apply Permutation_map_inv in Hrows as (l' & -> & Hl).
  exists (List.filter q l'). split; [|by symmetry; apply filter_perm].
  apply (filter_res_ext row _ (fun v => Ok (q v))); [|by apply filter_res_pure].
  intros v Hv. assert (Hin : In v l) by by eapply Permutation_in; [symmetry|].
  rewrite payload_row, (proj1 (Hs v Hin)). cbn. by apply HP.
Qed.

Lemma select_ids_pure {ID} (ident : R -> ID) (key : V -> ID) t l (p : A -> res bool) q :
  (forall v, ident (row v) = key v) -> stores row doc t l -> (forall v, In v l -> p (doc v) = Ok (q v)) ->
  exists ids, ids_where payload ident p (rows t) = Ok ids /\ ids ≡ₚ List.map key (List.filter q l).
Proof.
  intros Hi Ht Hp. destruct (select_rows_pure t l (fun _ => p) q Ht Hp) as (k & E & Hk).
  exists (List.map ident (List.map row k)). split; [unfold ids_where; by rewrite E|].
  rewrite List.map_map, Hk. apply Permutation_refl'. by apply List.map_ext.
Qed.

(** the rows with the identifiers selected are deleted *)
Lemma stores_del_selected {ID} `{EqDecision ID} (key : V -> ID) ids q p t l :
  stores row doc t l -> (forall v v', key v = key v' -> primary_key (row v) = primary_key (row v')) ->
  (forall v, p (row v) = mem (key v) ids) -> ids ≡ₚ List.map key (List.filter q l) ->
  stores row doc (del ids p t) (List.filter (fun v => negb (q v)) l).
Proof.
  intros Ht Hk Hp Hids. apply (stores_del_test row doc ids p q); [done| |].
  - intros v Hv. rewrite Hp, (mem_perm (key v) _ _ Hids).
    apply mem_selected; [by eapply stores_nodup|done].
  - intros -> v Hv. apply Permutation_nil, map_eq_nil in Hids.
    destruct (q v) eqn:E; [|done]. assert (Hin : In v (List.filter q l)) by by apply filter_In.
    by rewrite Hids in Hin.
Qed.

End Select.

Lemma filter_res_each {A} (p : A -> res bool) l k x : filter_res p l = Ok k -> In x l -> exists b, p x = Ok b.
Proof.
  revert k. induction l as [|y l IH]; intros k E Hx; [done|]. simpl in E.
  apply res_bind_ok in E as (b & Hb & E). apply res_bind_ok in E as (k' & E' & _).
  destruct Hx as [<-|Hx]; [by exists b|by eapply IH].
Qed.

(** *** The deletions, table by table *)

Definition preferences_deleted (keys : list (string * string)) (t : table PreferenceRow.t) : table PreferenceRow.t :=
  List.fold_left (fun t '(tenant, traveler) => (delete (preference_of tenant traveler) t).2) keys t.
Definition purged_db (x : expired) (db : Db.t) : Db.t :=
  notifications_deleted (expired_notifications x)
    (trips_deleted (expired_trips x)
      (incidents_deleted (expired_incidents x) (evidence_deleted (expired_trips x) db)))
  <| Db.preferences ::= preferences_deleted (expired_profiles x) |>
  <| Db.memory_proposals ::=
       del (expired_proposals x) (fun r => mem (ProposalRow.proposal_id r) (expired_proposals x)) |>
  <| Db.original_uploads ::=
       del (expired_uploads x) (fun r => mem (UploadRow.original_upload_id r) (expired_uploads x)) |>
  <| Db.events ::= del (expired_events x) (fun r => mem (EventRow.event_id r) (expired_events x)) |>
  <| Db.memory_audit_events ::=
       del (expired_memory_audits x) (fun r => mem (MemoryAuditRow.audit_id r) (expired_memory_audits x)) |>.

Lemma delete_preferences keys db :
  for_each keys (fun '(tenant, traveler) => delete_from Db.preferences (preference_of tenant traveler)) db =
  (Ok tt, db <| Db.preferences ::= preferences_deleted keys |>).
Proof.
  revert db. induction keys as [|[tenant traveler] keys IH]; intros db; simpl; [by destruct db|].
  rewrite M_bind_unfold, delete_from_ok. cbv iota beta. rewrite IH. by destruct db.
Qed.

(** one table, when there is something to delete *)
Lemma delete_if_any {R ID} `{Table R} (tbl : Db.t -> table R) `{!Setter tbl} (ids : list ID) p :
  (forall db, over tbl (fun t => t) db = db) ->
  (forall f db, over tbl f db = over tbl (fun _ => f (tbl db)) db) ->
  forall db, if_any ids (delete_from tbl p) db = (Ok tt, over tbl (del ids p) db).
Proof.
  intros Hid Hover db. unfold if_any. destruct ids as [|i ids].
  - change (over tbl (del [] p)) with (over tbl (fun t => t)). by rewrite Hid.
  - rewrite delete_from_ok. by rewrite (Hover (del (i :: ids) p) db).
Qed.

Ltac table_laws := intros; match goal with db : Db.t |- _ => same_tables db end.

Lemma delete_expired_run x db : delete_expired x db = (Ok tt, purged_db x db).
Proof.
  unfold delete_expired.
  rewrite M_bind_unfold, purge_evidence. cbv iota beta. rewrite M_bind_unfold, purge_incidents. cbv iota beta.
  rewrite M_bind_unfold, purge_trips. cbv iota beta. rewrite M_bind_unfold, delete_preferences. cbv iota beta.
  rewrite M_bind_unfold, delete_if_any by table_laws. cbv iota beta.
  rewrite M_bind_unfold, delete_notifications. cbv iota beta.
  do 2 (rewrite M_bind_unfold, delete_if_any by table_laws; cbv iota beta).
  rewrite delete_if_any by table_laws. unfold purged_db.
  set (db' := trips_deleted _ _). unfold notifications_deleted. clearbody db'. destruct db'. reflexivity.
Qed.

Section Expired.
Variables (h : instant) (db : Db.t) (r : repo) (before uploads audit now : instant) (holds : list LegalHoldRecord.t).
Hypotheses (Hr : represents h db r) (Hok : store_ok r).
Hypothesis Hholds : filter_res (fun x => LegalHoldRecord.is_active x now) (dict_values (Repo.legal_holds r)) = Ok holds.

Lemma held_perm holds' key : holds' ≡ₚ holds -> held_traveler holds' key = held_traveler holds key.
Proof. apply existsb_perm. Qed.
Lemma held_tenant_perm holds' tenant : holds' ≡ₚ holds -> held_tenant holds' tenant = held_tenant holds tenant.
Proof. apply existsb_perm. Qed.

(** the holds that are active *)
Lemma active_holds : exists found active,
  filter_res (fun row => hold ← model_validate (LegalHoldRow.payload row); LegalHoldRecord.is_active hold now)
    (rows (Db.legal_holds db)) = Ok found /\
  validate_rows (List.map LegalHoldRow.payload found) = Ok active /\ active ≡ₚ holds.
Proof.
  destruct (rep_legal_holds h db r Hr) as [Hrows Hs].
  destruct (filter_rows legal_hold_row id LegalHoldRow.payload (fun _ => eq_refl) (rows (Db.legal_holds db))
    (dict_values (Repo.legal_holds r)) (fun x => LegalHoldRecord.is_active x now) holds Hrows Hs Hholds)
    as (active & E & Ha).
  exists (List.map legal_hold_row active), active. split_and!; [exact E| |done].
  rewrite (validate_payloads legal_hold_row id LegalHoldRow.payload (fun _ => eq_refl)), List.map_id; [done|].
  intros v Hv. apply Hs, (filter_res_ok _ _ _ Hholds). rewrite <- Ha. exact Hv.
Qed.

(** [parsed_trips]: the dictionary of the store, in some order *)
Lemma parsed_trips : exists d,
  mapM (fun row => trip ← model_validate (TripRow.payload row); Ok (TripRow.trip_id row, trip)) (rows (Db.trips db)) =
    Ok d /\ d ≡ₚ Repo.trips r.
Proof.
  destruct (rep_trips h db r Hr) as [Hrows Hs]. apply Permutation_map_inv in Hrows as (l' & -> & Hl).
  exists (List.map (fun t => (Trip.trip_id t, t)) l'). split.
  - assert (Hs' : forall t, In t l' -> storable t) by (intros t Ht; apply Hs; by rewrite Hl).
    clear Hl. induction l' as [|t l' IH]; [done|]. simpl.
    rewrite (proj1 (Hs' t (or_introl eq_refl))). cbn. rewrite IH by (intros; apply Hs'; by right). done.
  - rewrite <- Hl. unfold dict_values. change (?l.*2) with (List.map snd l). rewrite List.map_map.
    apply Permutation_refl'. rewrite <- List.map_id. apply List.map_ext_in. intros [k t] Hin.
    simpl. by rewrite (proj2 (ok_trips r Hok) k t Hin).
Qed.

Lemma expired_trips_selected d active : d ≡ₚ Repo.trips r -> active ≡ₚ holds ->
  let held := dict_keys (dict_filter (fun trip_id trip =>
    existsb (fun hold => hold_covers_trip hold trip_id trip) active) d) in
  dict_keys (dict_filter (fun trip_id trip => (Trip.created_at trip <? before) && negb (mem trip_id held)) d) ≡ₚ
  expired_trip_ids r holds before.
Proof.
  intros Hd Ha held. unfold expired_trip_ids, dict_keys. change (?l.*1) with (List.map fst l).
  apply Permutation_map. unfold dict_filter. rewrite (filter_perm _ _ _ Hd).
  apply Permutation_refl', filter_ext_in'. intros [k t] Hin. simpl. do 2 f_equal.
  assert (Hw : dict_wf d) by (unfold dict_wf; rewrite Hd; apply (ok_trips r Hok)).
  unfold held. rewrite (mem_filter_keys _ d k t); [by apply existsb_perm|done|].
  apply dict_in_get; [done|]. by rewrite Hd.
Qed.

(** *** What the job selects *)

Definition profile_expired (p : TravelerPreferenceProfile.t) : bool :=
  (TravelerPreferenceProfile.updated_at p <? before) && negb (held_traveler holds (profile_key p)) &&
  negb (held_tenant holds (TravelerPreferenceProfile.tenant_id p)).
Definition upload_expired (u : OriginalUploadRecord.t) : bool :=
  (OriginalUploadRecord.created_at u <? uploads) && negb (held_tenant holds (OriginalUploadRecord.tenant_id u)).

Let trip_ids := expired_trip_ids r holds before.

(** the selected identifiers are those of the records that the store drops *)
Record selected (x : expired) : Prop := Selected {
  sel_trips : expired_trips x ≡ₚ trip_ids;
  sel_incidents : expired_incidents x ≡ₚ expired_incident_ids r trip_ids;
  sel_profiles : expired_profiles x ≡ₚ
    List.map profile_key (List.filter profile_expired (dict_values (Repo.profiles r)));
  sel_proposals : expired_proposals x ≡ₚ List.map MemoryUpdateProposal.proposal_id
    (List.filter (fun p => negb (proposal_kept holds before p)) (dict_values (Repo.memory_proposals r)));
  sel_notifications : expired_notifications x ≡ₚ
    dict_keys (keep_values (fun n => NotificationRecord.created_at n <? before) (Repo.notifications r));
  sel_uploads : expired_uploads x ≡ₚ
    List.map OriginalUploadRecord.original_upload_id (List.filter upload_expired (dict_values (Repo.original_uploads r)));
  sel_events : expired_events x ≡ₚ
    List.map EventRecord.event_id (List.filter (fun e => EventRecord.emitted_at e <? audit) (Repo.events r));
  sel_audits : expired_memory_audits x ≡ₚ
    List.map MemoryAuditEvent.audit_id (List.filter (fun e => MemoryAuditEvent.occurred_at e <? audit) (Repo.memory_audits r))
}.

(** the comparison of every proposal succeeds, so each is kept or expired *)
Lemma proposal_compared (p : MemoryUpdateProposal.t) b active : active ≡ₚ holds ->
  proposal_expired holds before p = Ok b -> proposal_expired active before p = Ok (negb (proposal_kept holds before p)).
Proof.
  intros Ha E. unfold proposal_expired, proposal_kept, dt_lt in *.
  rewrite (held_perm active _ Ha), (held_tenant_perm active _ Ha).
  destruct (Bool.eqb _ _); [|done]. cbn. f_equal. rewrite !negb_orb, Z.leb_antisym, negb_involutive.
  by rewrite Z.sub_0_r.
Qed.

Lemma select_expired_ok k :
  filter_res (proposal_expired holds before) (dict_values (Repo.memory_proposals r)) = Ok k ->
  exists x, select_expired db before uploads audit now = Ok x /\ selected x.
Proof.
  intros Ek. destruct active_holds as (found & active & E1 & E2 & Ha). destruct parsed_trips as (d & E3 & Hd).
  unfold select_expired. rewrite E1. cbn. rewrite E2. cbn. rewrite E3. cbn.
  set (tids := dict_keys (dict_filter _ d)).
  assert (Ht : tids ≡ₚ trip_ids) by by apply expired_trips_selected.
  destruct (select_ids_pure incident_row id IncidentRow.payload (fun _ => eq_refl) IncidentRow.incident_id
    Incident.incident_id _ _ (fun i => Ok (mem (Incident.trip_id i) tids)) (fun i => mem (Incident.trip_id i) trip_ids)
    (fun _ => eq_refl) (rep_incidents h db r Hr)) as (incidents & -> & Hi).
  { intros v _. f_equal. by apply mem_perm. }
  cbn. destruct (select_rows_pure profile_row id PreferenceRow.payload (fun _ => eq_refl) (Db.preferences db)
    (dict_values (Repo.profiles r)) (fun row profile =>
      Ok ((TravelerPreferenceProfile.updated_at profile <? before) &&
        negb (held_traveler active (PreferenceRow.tenant_id row, PreferenceRow.traveler_id row)) &&
        negb (held_tenant active (PreferenceRow.tenant_id row)))) profile_expired (rep_profiles h db r Hr))
    as (profiles & -> & Hp).
  { intros v _. unfold profile_expired. do 2 f_equal; [f_equal|]; f_equal; by apply existsb_perm. }
  cbn. destruct (select_ids_pure proposal_row id ProposalRow.payload (fun _ => eq_refl) ProposalRow.proposal_id
    MemoryUpdateProposal.proposal_id _ _ (proposal_expired active before)
    (fun p => negb (proposal_kept holds before p)) (fun _ => eq_refl) (rep_proposals h db r Hr)) as (proposals & -> & Hm).
  { intros v Hv. destruct (filter_res_each _ _ _ _ Ek Hv) as [b Hb]. by apply (proposal_compared v b). }
  cbn. destruct (select_ids_pure notification_row id NotificationRow.payload (fun _ => eq_refl)
    NotificationRow.notification_id NotificationRecord.notification_id _ _
    (fun n => Ok (NotificationRecord.created_at n <? before)) _ (fun _ => eq_refl) (rep_notifications h db r Hr)
    (fun _ _ => eq_refl)) as (notifications & -> & Hn).
  cbn. destruct (select_rows_pure upload_row id UploadRow.payload (fun _ => eq_refl) (Db.original_uploads db)
    (dict_values (Repo.original_uploads r)) (fun row upload =>
      Ok ((OriginalUploadRecord.created_at upload <? uploads) && negb (held_tenant active (UploadRow.tenant_id row))))
    upload_expired (rep_uploads h db r Hr)) as (ups & -> & Hu).
  { intros v _. unfold upload_expired. do 3 f_equal. by apply existsb_perm. }
  cbn. destruct (select_ids_pure event_row id EventRow.payload (fun _ => eq_refl) EventRow.event_id EventRecord.event_id
    _ _ (fun e => Ok (EventRecord.emitted_at e <? audit)) _ (fun _ => eq_refl) (rep_events h db r Hr)
    (fun _ _ => eq_refl)) as (events & -> & He).
  cbn. destruct (select_ids_pure memory_audit_row id MemoryAuditRow.payload (fun _ => eq_refl) MemoryAuditRow.audit_id
    MemoryAuditEvent.audit_id _ _ (fun e => Ok (MemoryAuditEvent.occurred_at e <? audit)) _ (fun _ => eq_refl)
    (rep_memory_audits h db r Hr) (fun _ _ => eq_refl)) as (audits & -> & Hau).
  eexists. split; [reflexivity|]. constructor; try assumption.
  - unfold expired_incident_ids. by rewrite (map_filter_fst Incident.incident_id _ _ (ok_incidents r Hok)).
  - simpl. by rewrite List.map_map, Hp.
  - by rewrite (map_filter_fst NotificationRecord.notification_id _ _ (ok_notifications r Hok)).
  - simpl. by rewrite List.map_map, Hu.
Qed.

(** *** What remains *)

Lemma preferences_left keys t l : stores profile_row id t l ->
  stores profile_row id (preferences_deleted keys t) (List.filter (fun v => negb (mem (profile_key v) keys)) l).
Proof.
  revert t l. induction keys as [|[tenant traveler] keys IH]; intros t l Ht; simpl.
  - by rewrite filter_true.
  - rewrite (filter_ext_in' _ (fun v => negb (profile_key v == (tenant, traveler)) && negb (mem (profile_key v) keys))).
    + rewrite <- (filter_filter (fun v => negb (mem (profile_key v) keys))). apply IH.
      apply (stores_delete profile_row id t l); [done|]. intros v _. apply profile_test.
    + intros v _. by rewrite negb_orb.
Qed.

Lemma profiles_purged x : selected x ->
  stores profile_row id (preferences_deleted (expired_profiles x) (Db.preferences db))
    (dict_values (dict_filter (profile_kept holds before) (Repo.profiles r))).
Proof.
  intros Hx. pose proof (rep_profiles h db r Hr) as Hp.
  rewrite (values_dict_filter _ (fun v => negb (mem (profile_key v) (expired_profiles x)))); [by apply preferences_left|].
  intros k v Hin. assert (Hv : In v (dict_values (Repo.profiles r))) by (apply dict_in_values; by exists k).
  rewrite (mem_perm (profile_key v) _ _ (sel_profiles x Hx)), (mem_selected profile_key profile_expired _ v);
    [|apply (stores_nodup profile_row id _ _ _ Hp)|done].
  - rewrite <- (proj2 (ok_profiles r Hok) k v Hin). unfold profile_kept, profile_expired.
    by rewrite !negb_andb, !negb_involutive, Z.leb_antisym.
  - intros v1 v2 E. unfold profile_key in E. simpl. congruence.
Qed.

Lemma proposals_purged x : selected x ->
  stores proposal_row id
    (del (expired_proposals x) (fun r => mem (ProposalRow.proposal_id r) (expired_proposals x)) (Db.memory_proposals db))
    (dict_values (keep_values (proposal_kept holds before) (Repo.memory_proposals r))).
Proof.
  intros Hx. rewrite values_filter.
  rewrite (filter_ext_in' _ (fun p => negb (negb (proposal_kept holds before p)))) by (intros; by rewrite negb_involutive).
  apply (stores_del_selected proposal_row id MemoryUpdateProposal.proposal_id);
    [exact (rep_proposals h db r Hr)|simpl; congruence|done|exact (sel_proposals x Hx)].
Qed.

Lemma uploads_purged x : selected x ->
  stores upload_row id
    (del (expired_uploads x) (fun r => mem (UploadRow.original_upload_id r) (expired_uploads x)) (Db.original_uploads db))
    (dict_values (keep_values (fun u => (uploads <=? OriginalUploadRecord.created_at u) ||
                               held_tenant holds (OriginalUploadRecord.tenant_id u)) (Repo.original_uploads r))).
Proof.
  intros Hx. rewrite values_filter. rewrite (filter_ext_in' _ (fun u => negb (upload_expired u))).
  - apply (stores_del_selected upload_row id OriginalUploadRecord.original_upload_id);
      [exact (rep_uploads h db r Hr)|simpl; congruence|done|exact (sel_uploads x Hx)].
  - intros u _. unfold upload_expired. by rewrite negb_andb, negb_involutive, Z.leb_antisym.
Qed.

Lemma events_purged x : selected x ->
  stores event_row id (del (expired_events x) (fun r => mem (EventRow.event_id r) (expired_events x)) (Db.events db))
    (List.filter (fun e => audit <=? EventRecord.emitted_at e) (Repo.events r)).
Proof.
  intros Hx. rewrite (filter_ext_in' _ (fun e => negb (EventRecord.emitted_at e <? audit)))
    by (intros; apply Z.leb_antisym).
  apply (stores_del_selected event_row id EventRecord.event_id);
    [exact (rep_events h db r Hr)|simpl; congruence|done|exact (sel_events x Hx)].
Qed.

Lemma audits_purged x : selected x ->
  stores memory_audit_row id
    (del (expired_memory_audits x) (fun r => mem (MemoryAuditRow.audit_id r) (expired_memory_audits x))
      (Db.memory_audit_events db))
    (List.filter (fun e => audit <=? MemoryAuditEvent.occurred_at e) (Repo.memory_audits r)).
Proof.
  intros Hx. rewrite (filter_ext_in' _ (fun e => negb (MemoryAuditEvent.occurred_at e <? audit)))
    by (intros; apply Z.leb_antisym).
  apply (stores_del_selected memory_audit_row id MemoryAuditEvent.audit_id);
    [exact (rep_memory_audits h db r Hr)|simpl; congruence|done|exact (sel_audits x Hx)].
Qed.

Lemma filter_partition {A} (p : A -> bool) l :
  List.filter (fun x => negb (p x)) l ++ List.filter p l ≡ₚ l.
Proof.
  induction l as [|x l IH]; simpl; [done|]. destruct (p x); simpl; [|by f_equiv].
  rewrite <- Permutation_middle. by f_equiv.
Qed.

(** the records of the store that expire become stale rows *)
Lemma idempotency_purged : exists stale,
  stores record_row id (Db.idempotency_records db)
    (dict_values (keep_values (fun i => before <=? IdempotencyRecord.expires_at i) (Repo.idempotency_records r)) ++ stale) /\
  forall e, In e stale -> IdempotencyRecord.expires_at e < Z.max h before.
Proof.
  destruct (rep_idempotency h db r Hr) as (stale & Ht & Hs).
  set (kept := fun i => before <=? IdempotencyRecord.expires_at i).
  exists (List.filter (fun i => negb (kept i)) (dict_values (Repo.idempotency_records r)) ++ stale). split.
  - eapply stores_perm, Ht. rewrite values_filter, app_assoc. apply Permutation_app_tail.
    by rewrite (Permutation_app_comm (List.filter kept _)), (filter_partition kept).
  - intros e [He|He]%in_app_iff; [|specialize (Hs e He); lia].
    apply filter_In in He as [_ He]. unfold kept in He. lia.
Qed.

Lemma notifications_purged x : selected x ->
  let gone := dict_keys (keep_values (fun n => NotificationRecord.created_at n <? before) (Repo.notifications r)) in
  stores notification_row id
    (del (expired_notifications x) (fun r => mem (NotificationRow.notification_id r) (expired_notifications x))
      (Db.notifications db))
    (dict_values (keep_keys (fun id => negb (mem id gone)) (Repo.notifications r))) /\
  stores notification_attempt_entry snd
    (del (expired_notifications x) (fun r => mem (NotificationAttemptRow.notification_id r) (expired_notifications x))
      (Db.notification_attempts db))
    (entries (keep_keys (fun id => negb (mem id gone)) (Repo.notification_attempts r))).
Proof.
  intros Hx gone. pose proof (sel_notifications x Hx) as Hn. fold gone in Hn. split.
  - unfold keep_keys. rewrite <- (pop_all_filter gone).
    by apply (stores_del_pop notification_row id _ _ (rep_notifications h db r Hr) NotificationRecord.notification_id);
      [exact (ok_notifications r Hok)| |].
  - apply (notifications_del h db r Hr Hok (fun n => NotificationRecord.created_at n <? before) _ Hn).
    intros k l _. by rewrite (mem_perm k _ _ Hn).
Qed.

Lemma attempts_linked k l :
  let gone := dict_keys (keep_values (fun n => NotificationRecord.created_at n <? before) (Repo.notifications r)) in
  In (k, l) (keep_keys (fun id => negb (mem id gone)) (Repo.notification_attempts r)) ->
  dict_mem k (keep_keys (fun id => negb (mem id gone)) (Repo.notifications r)) = true.
Proof.
  intros gone. unfold keep_keys. rewrite <- !(pop_all_filter gone).
  by apply link_pop, (rep_attempt_notification h db r Hr).
Qed.

Lemma represents_purged x : selected x ->
  represents (Z.max h before) (purged_db x db) (purge r holds before uploads audit).
Proof.
  intros Hx. set (incident_ids := expired_incident_ids r trip_ids).
  pose proof (sel_trips x Hx) as Ht. pose proof (sel_incidents x Hx) as Hi. fold incident_ids in Hi.
  destruct (children_popped h db r Hr trip_ids _ Ht) as [He Ha].
  pose proof (action_attempts_del h db r Hr Hok incident_ids _ Hi) as Haa.
  pose proof (stores_del_pop trip_row id _ _ (rep_trips h db r Hr) Trip.trip_id _ trip_ids
    (fun r => mem (TripRow.trip_id r) (expired_trips x)) (ok_trips r Hok) (fun _ => eq_refl) Ht) as Htr.
  pose proof (stores_del_pop incident_row id _ _ (rep_incidents h db r Hr) Incident.incident_id _ incident_ids
    (fun r => mem (IncidentRow.incident_id r) (expired_incidents x)) (ok_incidents r Hok) (fun _ => eq_refl) Hi) as Hin.
  pose proof (stores_del_keep set_row snd _ _ (rep_candidate_sets h db r Hr)
    (fun s => RecoveryCandidateSet.incident_id s.2) _ incident_ids
    (fun r => mem (CandidateSetRow.incident_id r) (expired_incidents x)) (fun _ => eq_refl) Hi) as Hcs.
  pose proof (stores_del_keep set_outcome_row snd _ _ (rep_outcomes h db r Hr)
    (fun s => RecoveryCandidateOutcome.incident_id s.2) _ incident_ids
    (fun r => mem (OutcomeRow.incident_id r) (expired_incidents x)) (fun _ => eq_refl) Hi) as Hoc.
  pose proof (stores_del_keep feedback_row id _ _ (rep_feedback h db r Hr) ManagerFeedback.incident_id _
    incident_ids (fun r => mem (FeedbackRow.incident_id r) (expired_incidents x)) (fun _ => eq_refl) Hi) as Hfb.
  pose proof (stores_del_keep action_row id _ _ (rep_actions h db r Hr) ActionDispatchRecord.incident_id _
    incident_ids (fun r => mem (ActionRow.incident_id r) (expired_incidents x)) (fun _ => eq_refl) Hi) as Hac.
  pose proof (approvals_del h db r Hr Hok incident_ids _ Hi) as Hap.
  destruct (notifications_purged x Hx) as [Hno Hna].
  pose proof (profiles_purged x Hx) as Hpr. pose proof (proposals_purged x Hx) as Hpo.
  pose proof (uploads_purged x Hx) as Hup. pose proof (events_purged x Hx) as Hev.
  pose proof (audits_purged x Hx) as Hau. pose proof idempotency_purged as Hid.
  pose proof (link_pop trip_ids _ _ (rep_evidence_trip h db r Hr)) as Le.
  pose proof (link_pop trip_ids _ _ (rep_assessment_trip h db r Hr)) as La.
  pose proof attempts_linked as Ln.
  destruct Hr. constructor; try assumption. intros k l. apply link_keys.
Qed.

(** the numbers of records that both remove *)
Lemma purge_counts_common x k evidence assessments : selected x ->
  filter_res (proposal_expired holds before) (dict_values (Repo.memory_proposals r)) = Ok k ->
  common_counts ["trips"; "incidents"; "profiles"; "memory_proposals"; "notifications"; "original_uploads";
                 "audit_events"; "memory_audits"]
    [("trips", len (expired_trips x)); ("evidence", len (expired_trips x));
     ("assessments", len (expired_trips x)); ("incidents", len (expired_incidents x));
     ("profiles", len (expired_profiles x)); ("memory_proposals", len (expired_proposals x));
     ("notifications", len (expired_notifications x)); ("original_uploads", len (expired_uploads x));
     ("audit_events", len (expired_events x)); ("memory_audits", len (expired_memory_audits x))]
    [("trips", len trip_ids); ("evidence", evidence); ("assessments", assessments);
     ("incidents", len (expired_incident_ids r trip_ids));
     ("profiles", count_values profile_expired (Repo.profiles r)); ("memory_proposals", len k);
     ("notifications", count_values (fun n => NotificationRecord.created_at n <? before) (Repo.notifications r));
     ("original_uploads", count_values upload_expired (Repo.original_uploads r));
     ("audit_events", len (List.filter (fun e => EventRecord.emitted_at e <? audit) (Repo.events r)));
     ("memory_audits", len (List.filter (fun e => MemoryAuditEvent.occurred_at e <? audit) (Repo.memory_audits r)))].
Proof.
  intros Hx Ek. destruct Hx as [H1 H2 H3 H4 H5 H6 H7 H8].
  rewrite (filter_res_pure _ (fun p => negb (proposal_kept holds before p))) in Ek.
  2: { intros p Hp. destruct (filter_res_each _ _ _ _ Ek Hp) as [b Hb]. by apply (proposal_compared p b). }
  apply Ok_inj in Ek as <-.
  assert (Hcount : forall K V (q : V -> bool) (d : dict K V), count_values q d = len (List.filter q (dict_values d))).
  { intros. rewrite <- values_filter. unfold count_values, dict_values. change (?l.*2) with (List.map snd l).
    by rewrite len_map. }
  rewrite !Hcount. apply len_perm in H1, H2, H3, H4, H5, H6, H7, H8. rewrite len_map in H3. rewrite len_map in H4.
  rewrite len_map in H6. rewrite len_map in H7. rewrite len_map in H8.
  unfold dict_keys in H5. change (?l.*1) with (List.map fst l) in H5. rewrite len_map in H5.
  fold (count_values (fun n => NotificationRecord.created_at n <? before) (Repo.notifications r)) in H5.
  rewrite Hcount in H5. intros key Hkey. simpl in Hkey. destruct_or! Hkey; subst key; simpl; by f_equal.
Qed.

End Expired.

Lemma pg_purge_expired h db r before upload_before audit_before now counts r' : represents h db r -> store_ok r ->
  Repository.purge_expired r before upload_before audit_before now = Ok (counts, r') ->
  exists counts' db', purge_expired before upload_before audit_before now db = (Ok counts', db') /\
    represents (Z.max h before) db' r' /\
    common_counts ["trips"; "incidents"; "profiles"; "memory_proposals"; "notifications"; "original_uploads";
                   "audit_events"; "memory_audits"] counts' counts.
Proof.
  intros Hr Hok E. unfold Repository.purge_expired in E.
  apply res_bind_ok in E as (holds & Eh & E). apply res_bind_ok in E as (c & Ec & E).
  apply Ok_inj in E. injection E as <- <-.
  unfold purge_counts, count_res in Ec. apply res_bind_ok in Ec as (n & En & Ec).
  apply res_bind_ok in En as (k & Ek & En). apply Ok_inj in En as <-.
  destruct (select_expired_ok h db r before (default before upload_before) (default before audit_before) now holds
    Hr Hok Eh k Ek) as (x & Ex & Hx).
  eexists _, (purged_db x db). split_and!.
  - unfold purge_expired. apply begin_commit. rewrite M_bind_unfold. unfold query. rewrite Ex. cbv iota beta.
    by rewrite M_bind_unfold, delete_expired_run.
  - by apply (represents_purged h db r).
  - apply Ok_inj in Ec as <-. by eapply purge_counts_common.
Qed.
End Purge.
