(* ===== verification/RepositoryContract.v ===== *)
(** * The contract that both repositories meet

    The API is given a repository as one of two classes with the same methods:
    [InMemoryRouteShieldRepository] ([apps/api/repository.py]) and
    [PostgresRouteShieldRepository] ([apps/api/postgres_repository.py]).  A
    [command] is a call of a method that writes.  [memory] runs it on the store,
    and [specified] says which reply and which store it may lead to: those of
    [memory], except that a claim may lease any of the claimable records, even
    none, in any order: PostgreSQL applies LIMIT before it tests which rows are
    due, and skips the rows that another transaction holds. *)

From stdpp Require Import list.
From S2P Require Import Prelude PyData Float64 PyStd Enums Models Recovery Security.
From S2P Require Import Repository StoreInvariant.

(** ** Leasing an outbox: any of the claimable records, at most [limit], in any order *)

Section Leased.
Context {R : Type} `{Leasable R}.
Variables (allowed : R -> bool) (tenant_id : option string) (worker_id : string) (claim_ttl : Z)
  (timestamp : instant) (fresh : nat -> uuid).

(** the [n]-th claim of a call, of a record [x] *)
Definition lease (n : nat) (x : R) : R := set_lease (fresh n) worker_id timestamp (timestamp + claim_ttl) x.

Inductive leased : nat -> dict uuid R -> list R -> dict uuid R -> Prop :=
  | leased_nil n d : leased n d [] d
  | leased_cons n d id x claimed d' :
      dict_get id d = Some x -> claimable tenant_id timestamp x = true -> allowed x = true ->
      leased (S n) (dict_set id (lease n x) d) claimed d' -> leased n d (lease n x :: claimed) d'.

Definition leases (limit : Z) (d : dict uuid R) (claimed : list R) (d' : dict uuid R) : Prop :=
  leased 0 d claimed d' /\ len claimed <= Z.max 0 limit.

Lemma leased_keyed (key : R -> uuid) n d claimed d' :
  (forall n x, key (lease n x) = key x) -> leased n d claimed d' -> keyed key d -> keyed key d'.
Proof.
  intros Hkey. induction 1 as [|n d id x claimed d' Hg _ _ _ IH]; intros Hd; [done|].
  apply IH, keyed_set; [|done]. rewrite Hkey. by apply (keyed_get key d).
Qed.

Lemma leased_mem n d claimed d' id : leased n d claimed d' -> dict_mem id d = true -> dict_mem id d' = true.
Proof.
  induction 1 as [|n d id' x claimed d' Hg _ _ _ IH]; intros Hm; [done|].
  apply IH. unfold dict_mem. rewrite dict_get_set. by case_bool_decide.
Qed.

(** a record that is not leased stays; a leased one was claimable and is leased once *)
Lemma leased_get n d claimed d' id x : 0 < claim_ttl -> leased n d claimed d' -> dict_get id d = Some x ->
  dict_get id d' = Some x \/
  (claimable tenant_id timestamp x = true /\ allowed x = true /\
   exists m, (n <= m < n + length claimed)%nat /\ dict_get id d' = Some (lease m x)).
Proof.
  intros Httl Hl. revert x. induction Hl as [|n d id' x' claimed d' Hg Hc Ha Hl IH]; intros x Hx; [by left|].
  destruct (decide (id = id')) as [->|Hne].
  - simplify_eq. right. split; [done|]. split; [done|].
    destruct (IH (lease n x')) as [Hd|(Hc' & _)]; [rewrite dict_get_set; by case_bool_decide| |].
    + exists n. simpl. split; [lia|done].
    + exfalso. unfold claimable, lease in Hc'. rewrite lease_expires_set in Hc'. bool_hyps. lia.
  - destruct (IH x) as [Hd|(Hc' & Ha' & m & Hm & Hd)]; [rewrite dict_get_set; by case_bool_decide|by left|].
    right. split; [done|]. split; [done|]. exists m. simpl. split; [lia|done].
Qed.

Section Held.
Variable key : R -> uuid.
Hypotheses (Hkey : forall n x, key (lease n x) = key x) (Httl : 0 < claim_ttl).

Lemma lease_not_claimable n x : claimable tenant_id timestamp (lease n x) = false.
Proof.
  unfold claimable, lease. rewrite lease_expires_set. apply not_true_iff_false. intros E. bool_hyps. lia.
Qed.

(** what a call claims was claimable and allowed in the outbox it started from *)
Lemma leased_from n d claimed d' y : leased n d claimed d' -> keyed key d -> In y claimed ->
  exists x m, dict_get (key y) d = Some x /\ claimable tenant_id timestamp x = true /\ allowed x = true /\ y = lease m x.
Proof.
  induction 1 as [|n d id x claimed d' Hg Hc Ha Hl IH]; intros Hd Hy; [done|].
  assert (Hid : key x = id) by by apply (keyed_get key d).
  destruct Hy as [<-|Hy]; [exists x, n; by rewrite Hkey, Hid|].
  destruct IH as (x' & m & Hg' & Hc' & Ha' & ->); [by apply keyed_set; [rewrite Hkey|]|done|].
  rewrite dict_get_set in Hg'. case_bool_decide; [|by exists x', m].
  simplify_eq. by rewrite lease_not_claimable in Hc'.
Qed.

(** and is held under its claim in the outbox it leaves *)
Lemma leased_held n d claimed d' y : leased n d claimed d' -> keyed key d -> In y claimed ->
  dict_get (key y) d' = Some y.
Proof.
  induction 1 as [|n d id x claimed d' Hg Hc Ha Hl IH]; intros Hd Hy; [done|].
  assert (Hid : key x = id) by by apply (keyed_get key d).
  destruct Hy as [<-|Hy]; [|apply IH; [by apply keyed_set; [rewrite Hkey|]|done]].
  rewrite Hkey, Hid. destruct (leased_get (S n) _ claimed d' id (lease n x) Httl Hl) as [Hd'|(Hc' & _)];
    [rewrite dict_get_set; by rewrite bool_decide_true|done|by rewrite lease_not_claimable in Hc'].
Qed.

End Held.

Lemma lease_loop limit pre d n claimed rest : dict_wf (pre ++ d) -> (forall x, allowed x = true) ->
  claim_due tenant_id worker_id claim_ttl timestamp limit fresh n d = (claimed, rest) ->
  leased n (pre ++ d) claimed (pre ++ rest) /\ len claimed <= Z.max 0 (limit - Z.of_nat n).
Proof.
  intros Hw Ha. revert pre n claimed rest Hw. induction d as [|[id x] d IH]; intros pre n claimed rest Hw E; simpl in E.
  - injection E as <- <-. split; [constructor|unfold len; simpl; lia].
  - destruct (limit <=? Z.of_nat n) eqn:Hlim.
    { injection E as <- <-. split; [constructor|unfold len; simpl; lia]. }
    assert (Hnext : forall y, (pre ++ [(id, y)]) ++ d = pre ++ (id, y) :: d) by (intros; by rewrite <- app_assoc).
    destruct (claimable tenant_id timestamp x) eqn:Hc.
    + destruct (claim_due _ _ _ _ _ _ (S n) d) as [claimed' rest'] eqn:E'. injection E as <- <-.
      assert (Hg : dict_get id (pre ++ (id, x) :: d) = Some x).
      { apply dict_in_get; [done|]. apply in_or_app. right. by left. }
      assert (Hset : dict_set id (lease n x) (pre ++ (id, x) :: d) = pre ++ (id, lease n x) :: d).
      { clear -Hw. unfold dict_wf in Hw. induction pre as [|[k v] pre IHp]; csimpl in *; [by rewrite bool_decide_true|].
        apply NoDup_cons in Hw as [Hn Hw]. rewrite bool_decide_false; [by rewrite IHp|].
        intros ->. apply Hn, list_elem_of_In. rewrite fmap_app. apply in_or_app. right. by left. }
      destruct (IH (pre ++ [(id, lease n x)]) (S n) claimed' rest') as [Hl Hlen]; [|done|].
      { rewrite Hnext. unfold dict_wf in *. rewrite fmap_app in *. exact Hw. }
      rewrite !Hnext, <- app_assoc in Hl. cbn [app] in Hl.
      split; [|unfold len in *; simpl; lia]. econstructor; [exact Hg|done|apply Ha|]. by rewrite Hset.
    + destruct (claim_due _ _ _ _ _ _ n d) as [claimed' rest'] eqn:E'. injection E as <- <-.
      destruct (IH (pre ++ [(id, x)]) n claimed' rest') as [Hl Hlen]; [by rewrite Hnext|done|].
      rewrite !Hnext, <- app_assoc in Hl. by cbn [app] in Hl.
Qed.

End Leased.

(** records of one call that are found in the outbox that another call leaves *)
Lemma leases_exclusive {R} `{Leasable R} (key : R -> uuid) allowed tenant worker ttl now fresh limit d claimed d' x y
    tenant' now' : (forall id w t e x, key (set_lease id w t e x) = key x) -> 0 < ttl -> keyed key d ->
  leases allowed tenant worker ttl now fresh limit d claimed d' -> In x claimed ->
  In y (dict_values d') -> claimable tenant' now' y = true -> now' < now + ttl -> key x <> key y.
Proof.
  intros Hkey Httl Hd [Hl _] Hx Hy Hc Hnow E.
  assert (Hd' : keyed key d') by (eapply leased_keyed; [|exact Hl|done]; intros; apply Hkey).
  pose proof (leased_held allowed tenant worker ttl now fresh key (fun _ _ => Hkey _ _ _ _ _) Httl 0 d claimed d' x Hl Hd Hx)
    as Hg.
  destruct (leased_from allowed tenant worker ttl now fresh key (fun _ _ => Hkey _ _ _ _ _) Httl 0 d claimed d' x Hl Hd Hx)
    as (x0 & m & _ & _ & _ & ->).
  apply dict_in_values in Hy as [k Hk]. pose proof (proj2 Hd' k y Hk) as Hky. apply dict_in_get in Hk; [|apply Hd'].
  rewrite E, Hky, Hk in Hg. injection Hg as ->. unfold claimable, lease in Hc. rewrite lease_expires_set in Hc.
  bool_hyps. lia.
Qed.

(** ** The writing methods *)

Inductive command : Type -> Type :=
  | CreateTrip (trip : Trip.t) : command Trip.t
  | SaveTrip (trip : Trip.t) : command Trip.t
  | SaveEvidence (tenant : string) (trip_id : uuid) (evidence : list EvidenceEnvelope.t) : command unit
  | SaveAssessment (tenant : string) (assessment : RiskAssessment.t) : command RiskAssessment.t
  | SaveIncident (incident : Incident.t) : command Incident.t
  | SaveApproval (approval : ApprovalRecord.t) : command ApprovalRecord.t
  | ClaimIdempotency (tenant key scope request_hash : string) (expires_at now : instant)
      : command (string * IdempotencyRecord.t)
  | CompleteIdempotency (tenant key request_hash : string) (status_code : Z) (payload : json) (now : instant)
      : command IdempotencyRecord.t
  | RecordEvent (event : EventRecord.t) : command EventRecord.t
  | SaveCandidateSet (tenant : string) (candidates : RecoveryCandidateSet.t) : command RecoveryCandidateSet.t
  | RecordCandidateOutcome (tenant : string) (outcome : RecoveryCandidateOutcome.t)
      : command RecoveryCandidateOutcome.t
  | SaveManagerFeedback (feedback : ManagerFeedback.t) : command ManagerFeedback.t
  | SavePlaybook (playbook : TenantPlaybook.t) : command TenantPlaybook.t
  | SaveProfile (profile : TravelerPreferenceProfile.t) : command TravelerPreferenceProfile.t
  | SaveMemoryProposal (proposal : MemoryUpdateProposal.t) : command MemoryUpdateProposal.t
  | DeleteTravelerMemory (tenant traveler : string) : command (dict string Z)
  | RecordMemoryAudit (event : MemoryAuditEvent.t) : command MemoryAuditEvent.t
  | SaveNotification (notification : NotificationRecord.t) : command NotificationRecord.t
  | ClaimDueNotifications (tenant : option string) (worker : string) (claim_ttl : Z) (now : instant)
      (limit : Z) (fresh : nat -> uuid) : command (list NotificationRecord.t)
  | CompleteNotificationDelivery (notification : NotificationRecord.t) (attempt : NotificationAttempt.t)
      (claim_id : uuid) : command (option NotificationRecord.t)
  | RecordNotificationAttempt (attempt : NotificationAttempt.t) : command NotificationAttempt.t
  | SaveActionDispatch (action : ActionDispatchRecord.t) : command ActionDispatchRecord.t
  | ClaimDueActionDispatches (tenant : option string) (worker : string) (claim_ttl : Z) (now : instant)
      (limit : Z) (fresh : nat -> uuid) : command (list ActionDispatchRecord.t)
  | CompleteActionDispatch (action : ActionDispatchRecord.t) (attempt : ActionDispatchAttempt.t)
      (claim_id : uuid) : command (option ActionDispatchRecord.t)
  | RecordActionDispatchAttempt (attempt : ActionDispatchAttempt.t) : command ActionDispatchAttempt.t
  | SaveChangeRecord (record : ChangeRecord.t) : command ChangeRecord.t
  | SaveProviderOnboarding (record : ProviderOnboardingRecord.t) : command ProviderOnboardingRecord.t
  | SaveRuntimeControlChange (record : RuntimeControlChange.t) : command RuntimeControlChange.t
  | SavePlatformControlChange (record : PlatformRuntimeControlChange.t) : command PlatformRuntimeControlChange.t
  | SaveOriginalUpload (record : OriginalUploadRecord.t) : command OriginalUploadRecord.t
  | SaveLegalHold (hold : LegalHoldRecord.t) : command LegalHoldRecord.t
  | SaveDeletionRequest (request : DeletionRequest.t) : command DeletionRequest.t
  | EraseTravelerData (tenant traveler : string) (scope : DeletionRequestScope.t) : command (dict string Z)
  | PurgeExpired (before : instant) (original_upload_before audit_before : option instant) (now : instant)
      : command (dict string Z).

(** a method that may raise: nothing is written when it does *)
Definition written {A} (r : repo) (reply : A) (written : res repo) : res A * repo :=
  match written with Ok r' => (Ok reply, r') | Raise e => (Raise e, r) end.
Definition replied {A} (r : repo) (outcome : res (A * repo)) : res A * repo :=
  match outcome with Ok (reply, r') => (Ok reply, r') | Raise e => (Raise e, r) end.
Definition ok_reply {A} (outcome : A * repo) : res A * repo := (Ok outcome.1, outcome.2).

(** the methods of [InMemoryRouteShieldRepository] *)
Definition memory {A} (c : command A) (r : repo) : res A * repo :=
  match c in command A return res A * repo with
  | CreateTrip trip => (Ok trip, create_trip r trip)
  | SaveTrip trip => (Ok trip, save_trip r trip)
  | SaveEvidence tenant id items => written r tt (save_evidence r tenant id items)
  | SaveAssessment tenant a => written r a (save_assessment r tenant a)
  | SaveIncident i => (Ok i, save_incident r i)
  | SaveApproval a => (Ok a, save_approval r a)
  | ClaimIdempotency tenant key scope hash expires now => claim_idempotency r tenant key scope hash expires now
  | CompleteIdempotency tenant key hash code payload now =>
      replied r (complete_idempotency r tenant key hash code payload now)
  | RecordEvent e => ok_reply (record_event r e)
  | SaveCandidateSet tenant s => (Ok s, save_candidate_set r tenant s)
  | RecordCandidateOutcome tenant o => (Ok o, record_candidate_outcome r tenant o)
  | SaveManagerFeedback f => (Ok f, save_manager_feedback r f)
  | SavePlaybook p => ok_reply (save_playbook r p)
  | SaveProfile p => (Ok p, save_profile r p)
  | SaveMemoryProposal p => (Ok p, save_memory_proposal r p)
  | DeleteTravelerMemory tenant traveler => ok_reply (delete_traveler_memory r tenant traveler)
  | RecordMemoryAudit e => (Ok e, record_memory_audit r e)
  | SaveNotification n => (Ok n, save_notification r n)
  | ClaimDueNotifications tenant worker ttl now limit fresh =>
      ok_reply (claim_due_notifications r tenant worker ttl now limit fresh)
  | CompleteNotificationDelivery n a claim => ok_reply (complete_notification_delivery r n a claim)
  | RecordNotificationAttempt a => (Ok a, record_notification_attempt r a)
  | SaveActionDispatch a => (Ok a, save_action_dispatch r a)
  | ClaimDueActionDispatches tenant worker ttl now limit fresh =>
      ok_reply (claim_due_action_dispatches r tenant worker ttl now limit fresh)
  | CompleteActionDispatch a att claim => ok_reply (complete_action_dispatch r a att claim)
  | RecordActionDispatchAttempt a => (Ok a, record_action_dispatch_attempt r a)
  | SaveChangeRecord c => (Ok c, save_change_record r c)
  | SaveProviderOnboarding c => (Ok c, save_provider_onboarding r c)
  | SaveRuntimeControlChange c => (Ok c, save_runtime_control_change r c)
  | SavePlatformControlChange c => (Ok c, save_platform_control_change r c)
  | SaveOriginalUpload u => (Ok u, save_original_upload r u)
  | SaveLegalHold hold => (Ok hold, save_legal_hold r hold)
  | SaveDeletionRequest q => (Ok q, save_deletion_request r q)
  | EraseTravelerData tenant traveler scope => ok_reply (erase_traveler_data r tenant traveler scope)
  | PurgeExpired before uploads audit now => replied r (purge_expired r before uploads audit now)
  end.

(** what a caller may rely on: [memory], with the outboxes leased in some order *)
Definition specified {A} (c : command A) (r : repo) : res A -> repo -> Prop :=
  match c in command A return res A -> repo -> Prop with
  | ClaimDueNotifications tenant worker ttl now limit fresh => fun reply r' => exists claimed d,
      reply = Ok claimed /\ r' = r <| Repo.notifications := d |> /\
      leases (fun _ => true) tenant worker ttl now fresh limit (Repo.notifications r) claimed d
  | ClaimDueActionDispatches tenant worker ttl now limit fresh => fun reply r' => exists claimed d,
      reply = Ok claimed /\ r' = r <| Repo.action_dispatches := d |> /\
      leases (fun _ => true) tenant worker ttl now fresh limit (Repo.action_dispatches r) claimed d
  | c => fun reply r' => memory c r = (reply, r')
  end.

(** the store meets the contract *)
Lemma memory_specified {A} (c : command A) r : store_ok r -> specified c r (memory c r).1 (memory c r).2.
Proof.
  intros Hok. destruct c; simpl; try reflexivity; try apply surjective_pairing.
  - unfold claim_due_notifications. destruct (claim_due _ _ _ _ _ _ _ _) as [claimed d] eqn:E. simpl.
    exists claimed, d. split_and!; [done|done|].
    apply (lease_loop (fun _ => true) _ _ _ _ _ _ []) in E as [Hl Hlen]; [|apply (ok_notifications r Hok)|done].
    split; [done|]. by rewrite Z.sub_0_r in Hlen.
  - unfold claim_due_action_dispatches. destruct (claim_due _ _ _ _ _ _ _ _) as [claimed d] eqn:E. simpl.
    exists claimed, d. split_and!; [done|done|].
    apply (lease_loop (fun _ => true) _ _ _ _ _ _ []) in E as [Hl Hlen]; [|apply (ok_action_dispatches r Hok)|done].
    split; [done|]. by rewrite Z.sub_0_r in Hlen.
Qed.

Lemma memory_step {A} (c : command A) r : store_step r (memory c r).2 \/ (memory c r).2 = r.
Proof.
  destruct c; simpl; unfold written, replied, ok_reply; try (left; constructor).
  - destruct (save_evidence _ _ _ _) eqn:E; [left; by econstructor|by right].
  - destruct (save_assessment _ _ _) eqn:E; [left; by econstructor|by right].
  - destruct (complete_idempotency _ _ _ _ _ _ _) as [[x r1]|e] eqn:E; [left; by econstructor|by right].
  - destruct (purge_expired _ _ _ _ _) as [[x r1]|e] eqn:E; [left; by econstructor|by right].
Qed.

(** every outcome keeps the invariant of the store *)
Lemma specified_ok {A} (c : command A) r reply r' : specified c r reply r' -> store_ok r -> store_ok r'.
Proof.
  intros Hs Hok. assert (Hd : memory c r = (reply, r') -> store_ok r').
  { intros E. destruct (memory_step c r) as [Hst|Hst]; rewrite E in Hst; simpl in Hst; [by eapply step_ok|congruence]. }
  destruct c; try (by apply Hd); clear Hd; destruct Hs as (claimed & d & -> & -> & Hl & _).
  - apply (leased_keyed _ _ _ _ _ _ NotificationRecord.notification_id) in Hl;
      [|done|exact (ok_notifications r Hok)]. by destruct Hok; constructor.
  - apply (leased_keyed _ _ _ _ _ _ ActionDispatchRecord.action_dispatch_id) in Hl;
      [|done|exact (ok_action_dispatches r Hok)]. by destruct Hok; constructor.
Qed.

(** ** The reading methods *)

(** of one record; the answers are equal *)
Inductive lookup : Type -> Type :=
  | GetTrip (tenant : string) (trip_id : uuid) : lookup (option Trip.t)
  | GetIncident (tenant : string) (incident_id : uuid) : lookup (option Incident.t)
  | GetCandidateSet (tenant : string) (incident_id candidate_set_id : uuid) : lookup (option RecoveryCandidateSet.t)
  | GetPlaybook (tenant : string) (playbook_id : uuid) : lookup (option TenantPlaybook.t)
  | GetProfile (tenant traveler : string) : lookup (option TravelerPreferenceProfile.t)
  | GetMemoryProposal (tenant : string) (proposal_id : uuid) : lookup (option MemoryUpdateProposal.t)
  | GetNotification (tenant : string) (notification_id : uuid) : lookup (option NotificationRecord.t)
  | GetRuntimeControlOverride (tenant : string) (name : RuntimeControlName.t) (now : instant)
      : lookup (option RuntimeControlChange.t)
  | GetPlatformControlOverride (name : RuntimeControlName.t) (now : instant)
      : lookup (option PlatformRuntimeControlChange.t)
  | GetOriginalUpload (tenant : string) (original_upload_id : uuid) : lookup (option OriginalUploadRecord.t)
  | GetLegalHold (tenant : string) (legal_hold_id : uuid) : lookup (option LegalHoldRecord.t)
  | GetDeletionRequest (tenant : string) (deletion_request_id : uuid) : lookup (option DeletionRequest.t).

Definition memory_lookup {A} (q : lookup A) (r : repo) : res A :=
  match q in lookup A return res A with
  | GetTrip tenant id => Ok (get_trip r tenant id)
  | GetIncident tenant id => Ok (get_incident r tenant id)
  | GetCandidateSet tenant incident id => Ok (get_candidate_set r tenant incident id)
  | GetPlaybook tenant id => Ok (get_playbook r tenant id)
  | GetProfile tenant traveler => Ok (get_profile r tenant traveler)
  | GetMemoryProposal tenant id => Ok (get_memory_proposal r tenant id)
  | GetNotification tenant id => Ok (get_notification r tenant id)
  | GetRuntimeControlOverride tenant name now => get_runtime_control_override r tenant name now
  | GetPlatformControlOverride name now => get_platform_control_override r name now
  | GetOriginalUpload tenant id => Ok (get_original_upload r tenant id)
  | GetLegalHold tenant id => Ok (get_legal_hold r tenant id)
  | GetDeletionRequest tenant id => Ok (get_deletion_request r tenant id)
  end.

(** of several records; the answers are equal up to their order *)
Inductive listing : Type -> Type :=
  | ListTrips : listing Trip.t
  | GetEvidence (tenant : string) (trip_id : uuid) : listing EvidenceEnvelope.t
  | ListIncidents (tenant : string) : listing Incident.t
  | ListEvents (tenant : string) : listing EventRecord.t
  | ListCandidateSets (tenant : string) (incident_id : uuid) : listing RecoveryCandidateSet.t
  | ListCandidateOutcomes (tenant : string) (candidate_set_id : uuid) : listing RecoveryCandidateOutcome.t
  | ListManagerFeedback (tenant : string) (incident_id : uuid) : listing ManagerFeedback.t
  | ListApprovedPlaybooks (tenant : string) : listing TenantPlaybook.t
  | ListMemoryAudit (tenant : string) (traveler : option string) : listing MemoryAuditEvent.t
  | ListNotifications (tenant : string) (statuses : option (list NotificationStatus.t)) : listing NotificationRecord.t
  | ListDueNotifications (now : instant) : listing NotificationRecord.t
  | ListNotificationAttempts (tenant : string) (notification_id : uuid) : listing NotificationAttempt.t
  | ListActionDispatches (tenant : string) (incident_id : uuid) : listing ActionDispatchRecord.t
  | ListActionDispatchAttempts (tenant : string) (action_dispatch_id : uuid) : listing ActionDispatchAttempt.t
  | ListChangeRecords (tenant : string) : listing ChangeRecord.t
  | ListProviderOnboarding (tenant : string) : listing ProviderOnboardingRecord.t
  | ListRuntimeControlChanges (tenant : string) : listing RuntimeControlChange.t
  | ListPlatformControlChanges : listing PlatformRuntimeControlChange.t
  | ListLegalHolds (tenant : string) : listing LegalHoldRecord.t
  | ActiveLegalHolds (tenant traveler : string) (now : instant) : listing LegalHoldRecord.t
  | ListDeletionRequests (tenant : string) (traveler : option string) : listing DeletionRequest.t
  | ListPendingDeletionRequests : listing DeletionRequest.t.

Definition memory_listing {A} (q : listing A) (r : repo) : res (list A) :=
  match q in listing A return res (list A) with
  | ListTrips => Ok (list_trips r)
  | GetEvidence tenant id => Ok (get_evidence r tenant id)
  | ListIncidents tenant => Ok (list_incidents r tenant)
  | ListEvents tenant => Ok (list_events r tenant)
  | ListCandidateSets tenant id => Ok (list_candidate_sets r tenant id)
  | ListCandidateOutcomes tenant id => Ok (list_candidate_outcomes r tenant id)
  | ListManagerFeedback tenant id => Ok (list_manager_feedback r tenant id)
  | ListApprovedPlaybooks tenant => Ok (list_approved_playbooks r tenant)
  | ListMemoryAudit tenant traveler => Ok (list_memory_audit r tenant traveler)
  | ListNotifications tenant statuses => Ok (list_notifications r tenant statuses)
  | ListDueNotifications now => Ok (list_due_notifications r now)
  | ListNotificationAttempts tenant id => Ok (list_notification_attempts r tenant id)
  | ListActionDispatches tenant id => Ok (list_action_dispatches r tenant id)
  | ListActionDispatchAttempts tenant id => Ok (list_action_dispatch_attempts r tenant id)
  | ListChangeRecords tenant => Ok (list_change_records r tenant)
  | ListProviderOnboarding tenant => Ok (list_provider_onboarding r tenant)
  | ListRuntimeControlChanges tenant => Ok (list_runtime_control_changes r tenant)
  | ListPlatformControlChanges => Ok (list_platform_control_changes r)
  | ListLegalHolds tenant => list_legal_holds r tenant
  | ActiveLegalHolds tenant traveler now => active_legal_holds_for_traveler r tenant traveler now
  | ListDeletionRequests tenant traveler => list_deletion_requests r tenant traveler
  | ListPendingDeletionRequests => list_pending_deletion_requests r
  end.

(** an empty filter is "no filter" in SQL ([if statuses], [if traveler_id]) and
    "nothing" in memory ([is not None]) *)
Definition proper_filter {A} (q : listing A) : Prop :=
  match q with
  | ListMemoryAudit _ traveler | ListDeletionRequests _ traveler => traveler <> Some ""
  | ListNotifications _ statuses => statuses <> Some []
  | _ => True
  end.
