(* ===== verification/PgLeases.v ===== *)
(** * Leasing the outboxes with row locks

    [claim_due_notifications] and [claim_due_action_dispatches] of
    [apps/api/postgres_repository.py] select with [FOR UPDATE SKIP LOCKED] and
    [LIMIT], then test and update each row.  What they commit is a leasing of the
    outbox of the store, restricted to the rows that no other transaction holds. *)

From stdpp Require Import list.
From S2P Require Import Prelude PyData Float64 PyStd Enums Models Recovery Security.
From S2P Require Import Repository StoreInvariant RepositoryContract Sql PgTables Postgres PgGovernance PgStore PgRefinement PgWrites.
From Stdlib Require Import Sorting.Permutation.

Section Outbox.
Context `{HS : Sql} `{!SqlLaws} `{HD : Documents}.
Context {R Row : Type} `{HR : Document R} `{HL : Leasable R} `{HT : Table Row} (tbl : Db.t -> table Row) `{!Setter tbl}.
Variables (row : R -> Row) (id_of : R -> uuid) (row_id : Row -> uuid) (row_tenant row_status : Row -> string)
  (payload : Row -> json) (set_payload : json -> Row -> Row) (ready_statuses : list string).

(** the row of a record, and the fields of a database *)
Record outbox : Prop := {
  outbox_key : forall x y, primary_key (row x) = primary_key (row y) <-> id_of x = id_of y;
  outbox_id : forall x, row_id (row x) = id_of x;
  outbox_tenant : forall x, row_tenant (row x) = lease_tenant x;
  outbox_ready : forall x, mem (row_status (row x)) ready_statuses = lease_ready x;
  outbox_payload : forall x, payload (row x) = column x;
  outbox_leased_id : forall id worker now e x, id_of (set_lease id worker now e x) = id_of x;
  outbox_leased : forall id worker now e x,
    set_payload (column (set_lease id worker now e x)) (row x) = row (set_lease id worker now e x);
  outbox_get : forall f db, tbl (over tbl f db) = f (tbl db);
  outbox_set : forall f g db, over tbl f (over tbl g db) = over tbl (fun t => f (g t)) db;
  outbox_same : forall db, over tbl (fun _ => tbl db) db = db
}.
Hypothesis Hbox : outbox.

Variables (allowed : R -> bool) (tenant : option string) (worker : string) (ttl : Z) (now : instant)
  (fresh : nat -> uuid).
#[local] Abbreviation lease := (lease worker ttl now fresh).
#[local] Abbreviation leased := (leased allowed tenant worker ttl now fresh).
#[local] Abbreviation claim := (claim_rows tbl id_of row_id payload set_payload worker ttl now fresh).

(** the rows of a query, in the outbox [d] *)
Definition selected_rows (d : dict uuid R) (vs : list R) : Prop :=
  NoDup (List.map id_of vs) /\
  forall x, In x vs -> dict_get (id_of x) d = Some x /\
    ready_row row_tenant row_status ready_statuses tenant (row x) = true /\ allowed x = true.

Lemma selected_rows_next d x vs y : selected_rows d (x :: vs) -> selected_rows (dict_set (id_of x) y d) vs.
Proof.
  intros [Hd Hin]. simpl in Hd. apply NoDup_cons in Hd as [Hn Hd]. split; [done|]. intros v Hv.
  destruct (Hin v (or_intror Hv)) as (Hg & Hok). split; [|done]. rewrite dict_get_set.
  case_bool_decide as E; [|done]. exfalso. apply Hn, list_elem_of_In, in_map_iff. by exists v.
Qed.

Lemma selected_rows_skip d x vs : selected_rows d (x :: vs) -> selected_rows d vs.
Proof. intros [Hd Hin]. simpl in Hd. apply NoDup_cons in Hd as [_ Hd]. split; [done|]. intros v Hv. apply Hin. by right. Qed.

(** the conditions of the loop and of the query are those of the store *)
Lemma ready_claimable x : ready_row row_tenant row_status ready_statuses tenant (row x) = true ->
  claimable tenant now x = negb (now <? lease_next_attempt_at x) &&
    negb match lease_claim_expires_at x with Some e => now <? e | None => false end.
Proof.
  unfold ready_row, claimable. rewrite (outbox_ready Hbox), (outbox_tenant Hbox). intros [-> ->]%andb_true_iff.
  by rewrite Z.leb_antisym.
Qed.

Lemma claim_rows_leased vs : forall n db d,
  stores row id (tbl db) (dict_values d) -> keyed id_of d -> selected_rows d vs ->
  (forall m x, In x vs -> claimable tenant now x = true -> writable (row (lease m x)) (lease m x)) ->
  exists t claimed d', claim n (List.map row vs) db = (Ok claimed, over tbl (fun _ => t) db) /\
    stores row id t (dict_values d') /\ leased n d claimed d' /\ len claimed <= len vs.
Proof.
  induction vs as [|x vs IH]; intros n db d Ht Hd Hsel Hw; simpl.
  { exists (tbl db), [], d. split_and!; [by rewrite (outbox_same Hbox)|done|constructor|done]. }
  destruct (proj2 Hsel x (or_introl eq_refl)) as (Hg & Hready & Hallowed).
  pose proof (ready_claimable x Hready) as Hc.
  assert (Hv : model_validate (payload (row x)) = Ok x).
  { rewrite (outbox_payload Hbox). apply (proj2 Ht). apply dict_in_values. exists (id_of x). by apply dict_get_in. }
  rewrite M_bind_unfold. unfold lift_res at 1. rewrite Hv. cbv iota beta.
  assert (Hskip : claimable tenant now x = false -> exists t claimed d',
    claim n (List.map row vs) db = (Ok claimed, over tbl (fun _ => t) db) /\
    stores row id t (dict_values d') /\ leased n d claimed d' /\ len claimed <= len (x :: vs)).
  { intros _. destruct (IH n db d Ht Hd (selected_rows_skip d x vs Hsel)) as (t & claimed & d' & E & Hs & Hl & Hn);
      [intros; apply Hw; [by right|done]|]. exists t, claimed, d'. split_and!; try done. unfold len in *. simpl. lia. }
  destruct (now <? lease_next_attempt_at x); [by apply Hskip|].
  destruct (match lease_claim_expires_at x with Some e => now <? e | None => false end); [by apply Hskip|].
  simpl in Hc. clear Hskip. set (y := lease n x). change (set_lease _ _ _ _ x) with y.
  destruct (Hw n x (or_introl eq_refl) Hc) as [Hst Hf]. fold y in Hst, Hf.
  assert (Hid : id_of y = id_of x) by apply (outbox_leased_id Hbox).
  destruct (stores_dict_update row id id_of (outbox_key Hbox) (tbl db) d y x
    (fun r => row_id r == id_of x) (set_payload (column y)) Ht Hd) as (t1 & E1 & Ht1);
    [by rewrite Hid| |apply (outbox_leased Hbox)|done|done|].
  { intros v. by rewrite (outbox_id Hbox), Hid. }
  rewrite M_bind_unfold, (execute_ok tbl _ db t1 E1). cbv iota beta. rewrite M_bind_unfold.
  rewrite Hid in Ht1.
  destruct (IH (S n) (over tbl (fun _ => t1) db) (dict_set (id_of x) y d)) as (t & claimed & d' & -> & Hs & Hl & Hn).
  - by rewrite (outbox_get Hbox).
  - by apply keyed_set.
  - by apply selected_rows_next.
  - intros; apply Hw; [by right|done].
  - cbv iota beta. exists t, (y :: claimed), d'. rewrite (outbox_set Hbox). split_and!; [done|done| |].
    + by econstructor.
    + unfold len in *. simpl. lia.
Qed.

Lemma in_firstn {A} n (l : list A) x : In x (List.firstn n l) -> In x l.
Proof. intros Hx. rewrite <- (List.firstn_skipn n l). apply in_or_app. by left. Qed.

Lemma map_keys_nodup (d : dict uuid R) q : keyed id_of d -> NoDup (List.map id_of (List.filter q (dict_values d))).
Proof.
  intros Hd. rewrite <- values_filter. assert (Hk : keyed id_of (keep_values q d)) by by apply keyed_keep_values.
  destruct Hk as [Hw Hk]. unfold dict_wf in Hw. unfold dict_values. change (?l.*2) with (List.map snd l).
  rewrite List.map_map. erewrite List.map_ext_in; [exact Hw|]. intros [k v] Hin. by apply Hk in Hin.
Qed.

Lemma claim_due_leased locked limit db d : 0 <= limit ->
  stores row id (tbl db) (dict_values d) -> keyed id_of d -> (forall x, allowed x = negb (locked (row x))) ->
  (forall m x, In x (dict_values d) -> claimable tenant now x = true -> writable (row (lease m x)) (lease m x)) ->
  exists t claimed d',
    claim_due tbl id_of row_id row_tenant row_status payload set_payload ready_statuses
      locked tenant worker ttl now limit fresh db = (Ok claimed, over tbl (fun _ => t) db) /\
    stores row id t (dict_values d') /\ leases allowed tenant worker ttl now fresh limit d claimed d'.
Proof.
  intros Hlim Ht Hd Ha Hw. unfold claim_due.
  destruct (select_skip_locked_rows locked limit (ready_row row_tenant row_status ready_statuses tenant) (tbl db) Hlim)
    as (l & Hl & Esel).
  set (q := fun x => ready_row row_tenant row_status ready_statuses tenant (row x) && negb (locked (row x))).
  rewrite (stores_filter row id _ _ _ q Ht) in Hl by done.
  apply Permutation_map_inv in Hl as (vs & -> & Hvs).
  assert (Hsel : selected_rows d (List.firstn (Z.to_nat limit) vs)).
  { split.
    - pose proof (map_keys_nodup d q Hd) as Hn. rewrite Hvs in Hn.
      rewrite <- (List.firstn_skipn (Z.to_nat limit) vs), List.map_app in Hn. by apply NoDup_app in Hn as [Hn _].
    - intros x Hx%in_firstn. rewrite <- Hvs in Hx. apply filter_In in Hx as [Hx Hq].
      apply andb_true_iff in Hq as [Hq Hlk]. split_and!; [|done|by rewrite Ha].
      apply dict_in_values in Hx as [k Hk]. apply dict_in_get; [apply Hd|]. by rewrite (proj2 Hd k x Hk). }
  destruct (claim_rows_leased (List.firstn (Z.to_nat limit) vs) 0 db d Ht Hd Hsel) as (t & claimed & d' & E & Hs & Hle & Hn).
  - intros m x Hx. apply Hw. apply in_firstn in Hx. rewrite <- Hvs in Hx. by apply filter_In in Hx as [Hx _].
  - exists t, claimed, d'. split_and!; [|done|].
    + apply begin_commit. rewrite M_bind_unfold. unfold query. rewrite Esel, List.firstn_map. cbv iota beta. exact E.
    + split; [done|]. etransitivity; [exact Hn|]. unfold len. rewrite List.length_firstn. lia.
Qed.

(** whatever the loop claims is the lease of a row that it was given *)
Lemma claimed_rows vs : forall n db claimed db', (forall x, In x vs -> storable x) ->
  claim n (List.map row vs) db = (Ok claimed, db') -> forall y, In y claimed ->
  exists x m, In x vs /\ y = lease m x /\ (now <? lease_next_attempt_at x) = false /\
    match lease_claim_expires_at x with Some e => now <? e | None => false end = false.
Proof.
  induction vs as [|x vs IH]; intros n db claimed db' Hs E y Hy; simpl in E; [by injection E as <- _|].
  assert (Hrest : forall n db claimed db', claim n (List.map row vs) db = (Ok claimed, db') -> In y claimed ->
    exists x0 m, In x0 (x :: vs) /\ y = lease m x0 /\ (now <? lease_next_attempt_at x0) = false /\
      match lease_claim_expires_at x0 with Some e => now <? e | None => false end = false).
  { intros n0 db0 c0 db0' E0 Hy0. destruct (IH n0 db0 c0 db0' (fun z Hz => Hs z (or_intror Hz)) E0 y Hy0)
      as (x0 & m & Hin & Hrest). exists x0, m. split; [by right|done]. }
  rewrite M_bind_unfold in E. unfold lift_res in E. rewrite (outbox_payload Hbox) in E.
  rewrite (proj1 (Hs x (or_introl eq_refl))) in E. cbv iota beta in E.
  destruct (now <? lease_next_attempt_at x) eqn:Hnext; [by eapply Hrest|].
  destruct (match lease_claim_expires_at x with Some e => now <? e | None => false end) eqn:Hexp; [by eapply Hrest|].
  rewrite M_bind_unfold in E. destruct (execute _ _ db) as [[[]|e] db1]; [|done].
  rewrite M_bind_unfold in E. destruct (claim (S n) (List.map row vs) db1) as [[claimed'|e] db2] eqn:E2; [|done].
  injection E as <- _. destruct Hy as [<-|Hy]; [|by eapply Hrest].
  exists x, n. split_and!; [by left|done|done|done].
Qed.

(** a claim takes records of the outbox that are due, unleased and not held *)
Lemma claimed_from locked limit db db' (d : dict uuid R) claimed y : 0 <= limit -> stores row id (tbl db) (dict_values d) ->
  claim_due tbl id_of row_id row_tenant row_status payload set_payload ready_statuses
    locked tenant worker ttl now limit fresh db = (Ok claimed, db') -> In y claimed ->
  exists x m, In x (dict_values d) /\ y = lease m x /\ claimable tenant now x = true /\ locked (row x) = false.
Proof.
  intros Hlim Ht E Hy. unfold claim_due in E.
  destruct (select_skip_locked_rows locked limit (ready_row row_tenant row_status ready_statuses tenant) (tbl db) Hlim)
    as (l & Hl & Esel).
  set (q := fun x => ready_row row_tenant row_status ready_statuses tenant (row x) && negb (locked (row x))).
  rewrite (stores_filter row id _ _ _ q Ht) in Hl by done. apply Permutation_map_inv in Hl as (vs & -> & Hvs).
  assert (Hin : forall x, In x (List.firstn (Z.to_nat limit) vs) -> In x (dict_values d) /\ q x = true).
  { intros x Hx%in_firstn. rewrite <- Hvs in Hx. by apply filter_In in Hx. }
  match type of E with begin ?m db = _ => destruct (m db) as [[c|e] s] eqn:Em end.
  - rewrite (begin_commit _ _ _ _ Em) in E. injection E as -> ->.
    rewrite M_bind_unfold in Em. unfold query in Em. rewrite Esel, List.firstn_map in Em. cbv iota beta in Em.
    eapply claimed_rows in Em as (x & m & Hx & -> & Hnext & Hexp); [| |exact Hy].
    + destruct (Hin x Hx) as [Hd [Hq Hlk%negb_true_iff]%andb_true_iff]. exists x, m. split_and!; [done|done| |done].
      by rewrite (ready_claimable x Hq), Hnext, Hexp.
    + intros x0 Hx0. by apply (proj2 Ht), Hin.
  - by rewrite (begin_rollback _ _ _ _ Em) in E.
Qed.

End Outbox.

(** ** The two outboxes *)

Section Claims.
Context `{HS : Sql} `{!SqlLaws} `{HD : Documents}.

Lemma notification_outbox : outbox Db.notifications notification_row NotificationRecord.notification_id
  NotificationRow.notification_id NotificationRow.tenant_id NotificationRow.status NotificationRow.payload
  (fun j r => r <| NotificationRow.payload := j |>) ready_notifications.
Proof.
  constructor; try done.
  - intros x. unfold ready_notifications, notification_row. simpl.
    by destruct (NotificationRecord.status x).
  - intros db. by destruct db.
Qed.

Lemma action_outbox : outbox Db.action_dispatches action_row ActionDispatchRecord.action_dispatch_id
  ActionRow.action_dispatch_id ActionRow.tenant_id ActionRow.status ActionRow.payload
  (fun j r => r <| ActionRow.payload := j |>) ready_actions.
Proof.
  constructor; try done.
  - intros x. unfold ready_actions, action_row. simpl. by destruct (ActionDispatchRecord.status x).
  - intros db. by destruct db.
Qed.

Section Step.
Variables (h : instant) (db : Db.t) (r : repo).
Hypotheses (Hr : represents h db r) (Hok : store_ok r).

Lemma pg_claim_due_notifications locked tenant worker ttl now limit fresh : 0 <= limit ->
  (forall m x, In x (dict_values (Repo.notifications r)) -> claimable tenant now x = true ->
     writable (notification_row (lease worker ttl now fresh m x)) (lease worker ttl now fresh m x)) ->
  exists db' claimed d, claim_due_notifications locked tenant worker ttl now limit fresh db = (Ok claimed, db') /\
    leases (fun x => negb (locked (notification_row x))) tenant worker ttl now fresh limit (Repo.notifications r) claimed d /\
    represents h db' (r <| Repo.notifications := d |>).
Proof.
  intros Hlim Hw. destruct (claim_due_leased Db.notifications notification_row NotificationRecord.notification_id
    NotificationRow.notification_id NotificationRow.tenant_id NotificationRow.status NotificationRow.payload
    (fun j r => r <| NotificationRow.payload := j |>) ready_notifications notification_outbox
    (fun x => negb (locked (notification_row x))) tenant worker ttl now fresh locked limit db (Repo.notifications r))
    as (t & claimed & d & E & Ht & Hl); try done; [exact (rep_notifications h db r Hr)|exact (ok_notifications r Hok)|].
  eexists _, claimed, d. split_and!; [exact E|done|]. destruct Hl as [Hl _].
  pose proof (rep_attempt_notification h db r Hr) as Hlink. destruct Hr. constructor; simpl; try assumption.
  intros k l Hin. eapply leased_mem; [exact Hl|]. by eapply Hlink.
Qed.

Lemma pg_claim_due_action_dispatches locked tenant worker ttl now limit fresh : 0 <= limit ->
  (forall m x, In x (dict_values (Repo.action_dispatches r)) -> claimable tenant now x = true ->
     writable (action_row (lease worker ttl now fresh m x)) (lease worker ttl now fresh m x)) ->
  exists db' claimed d, claim_due_action_dispatches locked tenant worker ttl now limit fresh db = (Ok claimed, db') /\
    leases (fun x => negb (locked (action_row x))) tenant worker ttl now fresh limit (Repo.action_dispatches r) claimed d /\
    represents h db' (r <| Repo.action_dispatches := d |>).
Proof.
  intros Hlim Hw. destruct (claim_due_leased Db.action_dispatches action_row ActionDispatchRecord.action_dispatch_id
    ActionRow.action_dispatch_id ActionRow.tenant_id ActionRow.status ActionRow.payload
    (fun j r => r <| ActionRow.payload := j |>) ready_actions action_outbox
    (fun x => negb (locked (action_row x))) tenant worker ttl now fresh locked limit db (Repo.action_dispatches r))
    as (t & claimed & d & E & Ht & Hl); try done; [exact (rep_actions h db r Hr)|exact (ok_action_dispatches r Hok)|].
  eexists _, claimed, d. split_and!; [exact E|done|]. destruct Hl as [Hl _].
  pose proof (rep_attempt_action h db r Hr) as Hlink. destruct Hr. constructor; simpl; try assumption.
  intros k l Hin. eapply leased_mem; [exact Hl|]. by eapply Hlink.
Qed.

End Step.
End Claims.
