(* ===== verification/PgSimulation.v ===== *)
(** * The PostgreSQL repository refines the contract

    [postgres] is the method of [PostgresRouteShieldRepository] behind each
    [command].  From a database that represents a store it replies and commits as
    the contract says, in a database that represents the store it leads to. *)

From stdpp Require Import list.
From S2P Require Import Prelude PyData Float64 PyStd Enums Models Recovery Security.
From S2P Require Import Repository StoreInvariant RepositoryContract Sql PgTables Postgres PgGovernance PgStore PgRefinement PgWrites PgErasure PgPurge PgLeases.

Section Simulation.
Context `{HS : Sql} `{!SqlLaws} `{HD : Documents}.

(** [locked_*]: the rows of the outboxes that other transactions hold *)
Variables (locked_notification : NotificationRow.t -> bool) (locked_action : ActionRow.t -> bool).

Definition postgres {A} (c : command A) : M Db.t A :=
  match c in command A return M Db.t A with
  | CreateTrip trip => create_trip trip
  | SaveTrip trip => save_trip trip
  | SaveEvidence tenant id items => save_evidence tenant id items
  | SaveAssessment tenant a => save_assessment tenant a
  | SaveIncident i => save_incident i
  | SaveApproval a => save_approval a
  | ClaimIdempotency tenant key scope hash expires now =>
      claim_idempotency tenant key scope hash expires now now
  | CompleteIdempotency tenant key hash code payload now =>
      complete_idempotency tenant key hash code payload now
  | RecordEvent e => record_event e
  | SaveCandidateSet tenant s => save_candidate_set tenant s
  | RecordCandidateOutcome tenant o => record_candidate_outcome tenant o
  | SaveManagerFeedback f => save_manager_feedback f
  | SavePlaybook p => save_playbook p
  | SaveProfile p => save_profile p
  | SaveMemoryProposal p => save_memory_proposal p
  | DeleteTravelerMemory tenant traveler => delete_traveler_memory tenant traveler
  | RecordMemoryAudit e => record_memory_audit e
  | SaveNotification n => save_notification n
  | ClaimDueNotifications tenant worker ttl now limit fresh =>
      claim_due_notifications locked_notification tenant worker ttl now limit fresh
  | CompleteNotificationDelivery n a claim => complete_notification_delivery n a claim
  | RecordNotificationAttempt a => record_notification_attempt a
  | SaveActionDispatch a => save_action_dispatch a
  | ClaimDueActionDispatches tenant worker ttl now limit fresh =>
      claim_due_action_dispatches locked_action tenant worker ttl now limit fresh
  | CompleteActionDispatch a att claim => complete_action_dispatch a att claim
  | RecordActionDispatchAttempt a => record_action_dispatch_attempt a
  | SaveChangeRecord c => save_change_record c
  | SaveProviderOnboarding c => save_provider_onboarding c
  | SaveRuntimeControlChange c => save_runtime_control_change c
  | SavePlatformControlChange c => save_platform_control_change c
  | SaveOriginalUpload u => save_original_upload u
  | SaveLegalHold hold => save_legal_hold hold
  | SaveDeletionRequest q => save_deletion_request q
  | EraseTravelerData tenant traveler scope => erase_traveler_data tenant traveler scope
  | PurgeExpired before uploads audit now => purge_expired before uploads audit now
  end.

(** replies that differ only in what the two repositories count differently *)
Definition same_counts (keys : list string) (counts counts' : res (dict string Z)) : Prop :=
  match counts, counts' with
  | Ok c, Ok c' => common_counts keys c c'
  | _, _ => counts = counts'
  end.
Definition same_reply {A} (c : command A) : res A -> res A -> Prop :=
  match c in command A return res A -> res A -> Prop with
  | EraseTravelerData _ _ _ => same_counts ["profiles"; "memory_proposals"; "trips"; "incidents"]
  | PurgeExpired _ _ _ _ =>
      same_counts ["trips"; "incidents"; "profiles"; "memory_proposals"; "notifications"; "original_uploads";
                   "audit_events"; "memory_audits"]
  | _ => eq
  end.

(** a retention job leaves idempotency rows that the store has dropped *)
Definition horizon {A} (c : command A) (h : instant) : instant :=
  match c with PurgeExpired before _ _ _ => Z.max h before | _ => h end.

(** an overwritten record keeps the columns that [ON CONFLICT DO UPDATE] does not set *)
Definition keeps_columns {V K} (key : V -> uuid) (columns : V -> K) (v : V) (d : dict uuid V) : Prop :=
  forall old, dict_get (key v) d = Some old -> columns old = columns v.
(** an identifier that no record of a list has *)
Definition unused {V} (key : V -> uuid) (v : V) (l : list V) : Prop := ~ In (key v) (List.map key l).
Definition unused_entry {V} (key : V -> uuid) (v : V) (d : dict uuid (list V)) : Prop :=
  ~ In (key v) (List.map (fun e => key e.2) (entries d)).

(** what the relational schema and a clock that does not go back ask of a call *)
Definition admissible {A} (h : instant) (r : repo) (c : command A) : Prop :=
  match c with
  | CreateTrip trip =>
      dict_get (Trip.trip_id trip) (Repo.trips r) = None /\ writable (trip_row trip) trip /\ segments_fit trip
  | SaveTrip trip =>
      keeps_columns Trip.trip_id Trip.tenant_id trip (Repo.trips r) /\
      writable (trip_row trip) trip /\ segments_fit trip
  | SaveEvidence tenant id items =>
      Repository.get_trip r tenant id <> None /\ NoDup (List.map EvidenceEnvelope.evidence_id items) /\
      (forall e, In e (entries (Repo.evidence r)) -> e.1 <> id ->
         ~ In (EvidenceEnvelope.evidence_id e.2) (List.map EvidenceEnvelope.evidence_id items)) /\
      (forall e, In e items -> writable (evidence_row tenant id e) e)
  | SaveAssessment tenant a =>
      Repository.get_trip r tenant (RiskAssessment.trip_id a) <> None /\
      unused_entry RiskAssessment.assessment_id a (Repo.assessments r) /\ writable (assessment_row tenant a) a
  | SaveIncident i =>
      keeps_columns Incident.incident_id (fun i => (Incident.tenant_id i, Incident.trip_id i)) i (Repo.incidents r) /\
      writable (incident_row i) i
  | SaveApproval a => writable (approval_row a) a
  | ClaimIdempotency tenant key scope hash expires now =>
      let record := new_claim tenant key scope hash expires now in
      h <= now /\ IdempotencyRecord.valid record = true /\ writable (record_row record) record
  | CompleteIdempotency tenant key hash code payload now =>
      exists record r', Repository.complete_idempotency r tenant key hash code payload now = Ok (record, r') /\
        writable (record_row record) record
  | RecordEvent e =>
      unused EventRecord.event_id e (Repo.events r) /\
      let safe := (Repository.record_event r e).1 in writable (event_row safe) safe
  | SaveCandidateSet tenant s =>
      dict_get (RecoveryCandidateSet.candidate_set_id s) (Repo.candidate_sets r) = None /\
      writable (candidate_set_row tenant s) s
  | RecordCandidateOutcome tenant o =>
      dict_get (RecoveryCandidateOutcome.outcome_id o) (Repo.candidate_outcomes r) = None /\
      writable (outcome_row tenant o) o
  | SaveManagerFeedback f =>
      dict_get (ManagerFeedback.feedback_id f) (Repo.manager_feedback r) = None /\ writable (feedback_row f) f
  | SavePlaybook p => writable (playbook_row p) p
  | SaveProfile p => writable (profile_row p) p
  | SaveMemoryProposal p =>
      keeps_columns MemoryUpdateProposal.proposal_id MemoryUpdateProposal.tenant_id p (Repo.memory_proposals r) /\
      writable (proposal_row p) p
  | DeleteTravelerMemory _ _ =>
      forall p, In p (dict_values (Repo.memory_proposals r)) -> readable_traveler p
  | RecordMemoryAudit e =>
      unused MemoryAuditEvent.audit_id e (Repo.memory_audits r) /\
      redact_dict (MemoryAuditEvent.details e) = MemoryAuditEvent.details e /\ writable (memory_audit_row e) e
  | SaveNotification n =>
      keeps_columns NotificationRecord.notification_id NotificationRecord.tenant_id n (Repo.notifications r) /\
      writable (notification_row n) n
  | ClaimDueNotifications tenant worker ttl now limit fresh =>
      0 <= limit /\
      (forall m x, In x (dict_values (Repo.notifications r)) -> claimable tenant now x = true ->
         writable (notification_row (lease worker ttl now fresh m x)) (lease worker ttl now fresh m x))
  | CompleteNotificationDelivery n a claim =>
      keeps_columns NotificationRecord.notification_id NotificationRecord.tenant_id n (Repo.notifications r) /\
      NotificationAttempt.notification_id a = NotificationRecord.notification_id n /\
      unused_entry NotificationAttempt.attempt_id a (Repo.notification_attempts r) /\ storable a /\
      writable (notification_row (clear_lease n)) (clear_lease n)
  | RecordNotificationAttempt a =>
      dict_mem (NotificationAttempt.notification_id a) (Repo.notifications r) = true /\
      unused_entry NotificationAttempt.attempt_id a (Repo.notification_attempts r) /\ storable a
  | SaveActionDispatch a =>
      keeps_columns ActionDispatchRecord.action_dispatch_id
        (fun a => (ActionDispatchRecord.tenant_id a, ActionDispatchRecord.incident_id a)) a (Repo.action_dispatches r) /\
      writable (action_row a) a
  | ClaimDueActionDispatches tenant worker ttl now limit fresh =>
      0 <= limit /\
      (forall m x, In x (dict_values (Repo.action_dispatches r)) -> claimable tenant now x = true ->
         writable (action_row (lease worker ttl now fresh m x)) (lease worker ttl now fresh m x))
  | CompleteActionDispatch x a claim =>
      keeps_columns ActionDispatchRecord.action_dispatch_id
        (fun a => (ActionDispatchRecord.tenant_id a, ActionDispatchRecord.incident_id a)) x (Repo.action_dispatches r) /\
      ActionDispatchAttempt.action_dispatch_id a = ActionDispatchRecord.action_dispatch_id x /\
      unused_entry ActionDispatchAttempt.attempt_id a (Repo.action_dispatch_attempts r) /\ storable a /\
      writable (action_row (clear_lease x)) (clear_lease x)
  | RecordActionDispatchAttempt a =>
      dict_mem (ActionDispatchAttempt.action_dispatch_id a) (Repo.action_dispatches r) = true /\
      unused_entry ActionDispatchAttempt.attempt_id a (Repo.action_dispatch_attempts r) /\ storable a
  | SaveChangeRecord c =>
      dict_get (ChangeRecord.change_id c) (Repo.change_records r) = None /\ writable (change_row c) c
  | SaveProviderOnboarding c =>
      dict_get (ProviderOnboardingRecord.provider_onboarding_id c) (Repo.provider_onboarding_records r) = None /\
      writable (onboarding_row c) c
  | SaveRuntimeControlChange c =>
      unused RuntimeControlChange.control_change_id c (Repo.runtime_control_changes r) /\
      writable (control_change_row c) c /\ fits (override_row c) = true
  | SavePlatformControlChange c =>
      unused PlatformRuntimeControlChange.control_change_id c (Repo.platform_control_changes r) /\
      writable (platform_change_row c) c /\ fits (platform_override_row c) = true
  | SaveOriginalUpload u =>
      keeps_columns OriginalUploadRecord.original_upload_id OriginalUploadRecord.tenant_id u (Repo.original_uploads r) /\
      writable (upload_row u) u
  | SaveLegalHold hold =>
      keeps_columns LegalHoldRecord.legal_hold_id LegalHoldRecord.tenant_id hold (Repo.legal_holds r) /\
      writable (legal_hold_row hold) hold
  | SaveDeletionRequest q =>
      keeps_columns DeletionRequest.deletion_request_id
        (fun q => (DeletionRequest.tenant_id q, DeletionRequest.traveler_id q)) q (Repo.deletion_requests r) /\
      writable (deletion_row q) q
  | EraseTravelerData _ _ _ => True
  | PurgeExpired before uploads audit now =>
      is_ok (Repository.purge_expired r before uploads audit now) = true
  end.

(** ** One call *)

Definition refined {A} (c : command A) (h : instant) (db : Db.t) (r : repo) : Prop :=
  exists reply r' reply' db', specified c r reply r' /\ postgres c db = (reply', db') /\
    same_reply c reply' reply /\ represents (horizon c h) db' r'.

(** a command whose outcome is that of the store *)
Lemma refined_by_memory {A} (c : command A) h db r reply' db' :
  (forall reply r', memory c r = (reply, r') -> specified c r reply r') ->
  postgres c db = (reply', db') -> same_reply c reply' (memory c r).1 ->
  represents (horizon c h) db' (memory c r).2 -> refined c h db r.
Proof.
  intros Hs E Hreply Hrep. exists (memory c r).1, (memory c r).2, reply', db'.
  split_and!; [apply Hs, surjective_pairing|done|done|done].
Qed.

Lemma leased_any {R} `{Leasable R} allowed tenant worker ttl now fresh limit d (claimed : list R) d' :
  leases allowed tenant worker ttl now fresh limit d claimed d' ->
  leases (fun _ => true) tenant worker ttl now fresh limit d claimed d'.
Proof. intros [Hl Hn]. split; [|done]. clear Hn. induction Hl; econstructor; eauto. Qed.

Section Step.
Variables (h : instant) (db : Db.t) (r : repo).
Hypotheses (Hr : represents h db r) (Hok : store_ok r).

(** the lemma of the method gives the outcome of the store *)
Ltac by_method H :=
  let db' := fresh "db'" in let E := fresh "E" in let Hrep := fresh "Hrep" in
  destruct H as (db' & E & Hrep);
  eapply refined_by_memory; [by intros|exact E|reflexivity|exact Hrep].

(** the parts of [keeps_columns] of two columns *)
Lemma keeps_both {V A B} (key : V -> uuid) (a : V -> A) (b : V -> B) v d :
  keeps_columns key (fun x => (a x, b x)) v d -> forall old, dict_get (key v) d = Some old -> a old = a v /\ b old = b v.
Proof. intros Hk old Hg. specialize (Hk old Hg). by simplify_eq. Qed.

Lemma refines_save_evidence tenant id items :
  admissible h r (SaveEvidence tenant id items) -> refined (SaveEvidence tenant id items) h db r.
Proof.
  intros (Hg & Hd & Hn & Hw). destruct (Repository.save_evidence r tenant id items) as [r'|e] eqn:E.
  - destruct (pg_save_evidence h db r Hr Hok tenant id items r' E Hd Hn Hw) as (db' & Ep & Hrep).
    exists (Ok tt), r', (Ok tt), db'. split_and!; [|done|done|done]. simpl. unfold written. by rewrite E.
  - exfalso. unfold Repository.save_evidence in E. by destruct (Repository.get_trip r tenant id).
Qed.

Lemma refines_save_assessment tenant a :
  admissible h r (SaveAssessment tenant a) -> refined (SaveAssessment tenant a) h db r.
Proof.
  intros (Hg & Hn & Hw). destruct (Repository.save_assessment r tenant a) as [r'|e] eqn:E.
  - destruct (pg_save_assessment h db r Hr tenant a r' E Hn Hw) as (db' & Ep & Hrep).
    exists (Ok a), r', (Ok a), db'. split_and!; [|done|done|done]. simpl. unfold written. by rewrite E.
  - exfalso. unfold Repository.save_assessment in E. by destruct (Repository.get_trip r tenant _).
Qed.

Lemma refines_complete_idempotency tenant key hash code payload now :
  admissible h r (CompleteIdempotency tenant key hash code payload now) ->
  refined (CompleteIdempotency tenant key hash code payload now) h db r.
Proof.
  intros (record & r' & E & Hw).
  destruct (pg_complete_idempotency h db r Hr Hok tenant key hash code payload now record r' E Hw) as (db' & Ep & Hrep).
  exists (Ok record), r', (Ok record), db'. split_and!; [|done|done|done]. simpl. unfold replied. by rewrite E.
Qed.

Lemma refines_erase tenant traveler scope : refined (EraseTravelerData tenant traveler scope) h db r.
Proof.
  destruct (pg_erase_traveler_data h db r tenant traveler scope Hr Hok) as (counts & db' & E & Hrep & Hc).
  eapply refined_by_memory; [by intros|exact E|exact Hc|exact Hrep].
Qed.

Lemma refines_purge before uploads audit now :
  admissible h r (PurgeExpired before uploads audit now) -> refined (PurgeExpired before uploads audit now) h db r.
Proof.
  intros [[counts r'] E]%is_ok_inv.
  destruct (pg_purge_expired h db r before uploads audit now counts r' Hr Hok E) as (counts' & db' & Ep & Hrep & Hc).
  exists (Ok counts), r', (Ok counts'), db'. split_and!; [|done|done|done]. simpl. unfold replied. by rewrite E.
Qed.

Lemma refines_claims_notifications tenant worker ttl now limit fresh :
  admissible h r (ClaimDueNotifications tenant worker ttl now limit fresh) ->
  refined (ClaimDueNotifications tenant worker ttl now limit fresh) h db r.
Proof.
  intros [Hlim Hw]. destruct (pg_claim_due_notifications h db r Hr Hok locked_notification tenant worker ttl now
    limit fresh Hlim Hw) as (db' & claimed & d & E & Hl & Hrep).
  exists (Ok claimed), (r <| Repo.notifications := d |>), (Ok claimed), db'. split_and!; [|done|done|done].
  exists claimed, d. split_and!; [done|done|by eapply leased_any].
Qed.

Lemma refines_claims_actions tenant worker ttl now limit fresh :
  admissible h r (ClaimDueActionDispatches tenant worker ttl now limit fresh) ->
  refined (ClaimDueActionDispatches tenant worker ttl now limit fresh) h db r.
Proof.
  intros [Hlim Hw]. destruct (pg_claim_due_action_dispatches h db r Hr Hok locked_action tenant worker ttl now
    limit fresh Hlim Hw) as (db' & claimed & d & E & Hl & Hrep).
  exists (Ok claimed), (r <| Repo.action_dispatches := d |>), (Ok claimed), db'. split_and!; [|done|done|done].
  exists claimed, d. split_and!; [done|done|by eapply leased_any].
Qed.

Lemma call_refined {A} (c : command A) : admissible h r c -> refined c h db r.
Proof.
  intros Ha. destruct c.
  - destruct Ha as (H1 & H2 & H3). by_method (pg_create_trip h db r Hr Hok trip H1 H2 H3).
  - destruct Ha as (H1 & H2 & H3). by_method (pg_save_trip h db r Hr Hok trip H1 H2 H3).
  - by apply refines_save_evidence.
  - by apply refines_save_assessment.
  - destruct Ha as [H1 H2]. by_method (pg_save_incident h db r Hr Hok incident (keeps_both _ _ _ _ _ H1) H2).
  - by_method (pg_save_approval h db r Hr Hok approval Ha).
  - destruct Ha as (H1 & H2 & H3).
    by_method (pg_claim_idempotency h db r Hr Hok tenant key scope request_hash expires_at now H1 H2 H3).
  - by apply refines_complete_idempotency.
  - destruct Ha as [H1 H2]. by_method (pg_record_event h db r Hr event H1 H2).
  - destruct Ha as [H1 H2]. by_method (pg_save_candidate_set h db r Hr Hok tenant candidates H1 H2).
  - destruct Ha as [H1 H2]. by_method (pg_record_candidate_outcome h db r Hr Hok tenant outcome H1 H2).
  - destruct Ha as [H1 H2]. by_method (pg_save_manager_feedback h db r Hr Hok feedback H1 H2).
  - by_method (pg_save_playbook h db r Hr Hok playbook Ha).
  - by_method (pg_save_profile h db r Hr Hok profile Ha).
  - destruct Ha as [H1 H2]. by_method (pg_save_memory_proposal h db r Hr Hok proposal H1 H2).
  - by_method (pg_delete_traveler_memory h db r Hr Hok tenant traveler Ha).
  - destruct Ha as (H1 & H2 & H3). by_method (pg_record_memory_audit h db r Hr event H1 H2 H3).
  - destruct Ha as [H1 H2]. by_method (pg_save_notification h db r Hr Hok notification H1 H2).
  - by apply refines_claims_notifications.
  - destruct Ha as (H1 & H2 & H3 & H4 & H5).
    by_method (pg_complete_notification_delivery h db r Hr Hok notification attempt claim_id H1 H2 H3 H4 H5).
  - destruct Ha as (H1 & H2 & H3). by_method (pg_record_notification_attempt h db r Hr attempt H1 H2 H3).
  - destruct Ha as [H1 H2]. by_method (pg_save_action_dispatch h db r Hr Hok action (keeps_both _ _ _ _ _ H1) H2).
  - by apply refines_claims_actions.
  - destruct Ha as (H1 & H2 & H3 & H4 & H5).

    by_method (pg_complete_action_dispatch h db r Hr Hok action attempt claim_id (keeps_both _ _ _ _ _ H1) H2 H3 H4 H5).
  - destruct Ha as (H1 & H2 & H3). by_method (pg_record_action_dispatch_attempt h db r Hr attempt H1 H2 H3).
  - destruct Ha as [H1 H2]. by_method (pg_save_change_record h db r Hr Hok record H1 H2).
  - destruct Ha as [H1 H2]. by_method (pg_save_provider_onboarding h db r Hr Hok record H1 H2).
  - destruct Ha as (H1 & H2 & H3). by_method (pg_save_runtime_control_change h db r Hr Hok record H1 H2 H3).
  - destruct Ha as (H1 & H2 & H3). by_method (pg_save_platform_control_change h db r Hr Hok record H1 H2 H3).
  - destruct Ha as [H1 H2]. by_method (pg_save_original_upload h db r Hr Hok record H1 H2).
  - destruct Ha as [H1 H2]. by_method (pg_save_legal_hold h db r Hr Hok hold H1 H2).
  - destruct Ha as [H1 H2]. by_method (pg_save_deletion_request h db r Hr Hok request (keeps_both _ _ _ _ _ H1) H2).
  - apply refines_erase.
  - by apply refines_purge.
Qed.

End Step.

(** ** Queries *)

Definition pg_lookup {A} (q : lookup A) (db : Db.t) : res A :=
  match q in lookup A return res A with
  | GetTrip tenant id => get_trip db tenant id
  | GetIncident tenant id => get_incident db tenant id
  | GetCandidateSet tenant incident id => get_candidate_set db tenant incident id
  | GetPlaybook tenant id => get_playbook db tenant id
  | GetProfile tenant traveler => get_profile db tenant traveler
  | GetMemoryProposal tenant id => get_memory_proposal db tenant id
  | GetNotification tenant id => get_notification db tenant id
  | GetRuntimeControlOverride tenant name now => get_runtime_control_override db tenant name now
  | GetPlatformControlOverride name now => get_platform_control_override db name now
  | GetOriginalUpload tenant id => get_original_upload db tenant id
  | GetLegalHold tenant id => get_legal_hold db tenant id
  | GetDeletionRequest tenant id => get_deletion_request db tenant id
  end.

Definition pg_listing {A} (q : listing A) (db : Db.t) : res (list A) :=
  match q in listing A return res (list A) with
  | ListTrips => list_trips db
  | GetEvidence tenant id => get_evidence db tenant id
  | ListIncidents tenant => list_incidents db tenant
  | ListEvents tenant => list_events db tenant
  | ListCandidateSets tenant id => list_candidate_sets db tenant id
  | ListCandidateOutcomes tenant id => list_candidate_outcomes db tenant id
  | ListManagerFeedback tenant id => list_manager_feedback db tenant id
  | ListApprovedPlaybooks tenant => list_approved_playbooks db tenant
  | ListMemoryAudit tenant traveler => list_memory_audit db tenant traveler
  | ListNotifications tenant statuses => list_notifications db tenant statuses
  | ListDueNotifications now => list_due_notifications db now
  | ListNotificationAttempts tenant id => list_notification_attempts db tenant id
  | ListActionDispatches tenant id => list_action_dispatches db tenant id
  | ListActionDispatchAttempts tenant id => list_action_dispatch_attempts db tenant id
  | ListChangeRecords tenant => list_change_records db tenant
  | ListProviderOnboarding tenant => list_provider_onboarding db tenant
  | ListRuntimeControlChanges tenant => list_runtime_control_changes db tenant
  | ListPlatformControlChanges => list_platform_control_changes db
  | ListLegalHolds tenant => list_legal_holds db tenant
  | ActiveLegalHolds tenant traveler now => active_legal_holds_for_traveler db tenant traveler now
  | ListDeletionRequests tenant traveler => list_deletion_requests db tenant traveler
  | ListPendingDeletionRequests => list_pending_deletion_requests db
  end.

(** the database answers every query as the store does *)
Definition answers_as (db : Db.t) (r : repo) : Prop :=
  (forall A (q : lookup A), pg_lookup q db = memory_lookup q r) /\
  (forall A (q : listing A) l, proper_filter q -> memory_listing q r = Ok l -> agrees (pg_listing q db) l).

Lemma represents_answers h db r : represents h db r -> store_ok r -> answers_as db r.
Proof.
  intros Hr Hok. split.
  - intros A q. destruct q; simpl; eauto using pg_get_trip, pg_get_incident, pg_get_candidate_set, pg_get_playbook,
      pg_get_profile, pg_get_memory_proposal, pg_get_notification, pg_get_runtime_control_override,
      pg_get_platform_control_override, pg_get_original_upload, pg_get_legal_hold, pg_get_deletion_request.
  - intros A q l Hq E. destruct q; simpl in *; try (apply Ok_inj in E as <-);
      eauto using pg_list_trips, pg_get_evidence, pg_list_incidents, pg_list_events, pg_list_candidate_sets,
        pg_list_candidate_outcomes, pg_list_manager_feedback, pg_list_approved_playbooks, pg_list_memory_audit,
        pg_list_notifications, pg_list_due_notifications, pg_list_notification_attempts, pg_list_action_dispatches,
        pg_list_action_dispatch_attempts, pg_list_change_records, pg_list_provider_onboarding,
        pg_list_runtime_control_changes, pg_list_platform_control_changes, pg_list_legal_holds,
        pg_active_legal_holds, pg_list_deletion_requests, pg_list_pending_deletion_requests.
Qed.

End Simulation.
