(* ===== verification/PgProperties.v ===== *)
(** * What the API may rely on when its repository is PostgreSQL

    The theorems on [apps/api/postgres_repository.py] as a whole: every writing
    method refines the contract of the store, a run of the service over a fresh
    database answers as the store would, a method that raises leaves the database
    as it was, and two workers never hold the same outbox record. *)

From stdpp Require Import list.
From S2P Require Import Prelude PyData Float64 PyStd Enums Models Recovery Security.
From S2P Require Import Repository StoreInvariant RepositoryContract Sql PgTables Postgres PgGovernance PgStore PgRefinement PgWrites PgErasure PgPurge PgLeases PgSimulation.
From Stdlib Require Import Sorting.Permutation.

(** ** Runs *)

(** a call, with the outbox rows that other transactions hold while it runs *)
Record call : Type := Call {
  held_notifications : NotificationRow.t -> bool;
  held_actions : ActionRow.t -> bool;
  reply_type : Type;
  issued : command reply_type
}.

Section Runs.
Context `{HS : Sql} `{!SqlLaws} `{HD : Documents}.

Definition issue (c : call) : M Db.t (reply_type c) := postgres (held_notifications c) (held_actions c) (issued c).

(** each call replies and moves both repositories as the contract says *)
Inductive simulated : list call -> repo -> Db.t -> repo -> Db.t -> Prop :=
  | simulated_nil r db : simulated [] r db r db
  | simulated_cons c cs r db reply r1 reply' db1 r2 db2 :
      specified (issued c) r reply r1 -> issue c db = (reply', db1) -> same_reply (issued c) reply' reply ->
      simulated cs r1 db1 r2 db2 -> simulated (c :: cs) r db r2 db2.

(** the calls are admissible whatever the outcomes of those before *)
Fixpoint admissible_run (h : instant) (r : repo) (cs : list call) : Prop :=
  match cs with
  | [] => True
  | c :: cs' => admissible h r (issued c) /\
      forall reply r', specified (issued c) r reply r' -> admissible_run (horizon (issued c) h) r' cs'
  end.

Lemma run_simulated cs : forall h r db, represents h db r -> store_ok r -> admissible_run h r cs ->
  exists h' r' db', simulated cs r db r' db' /\ represents h' db' r' /\ store_ok r'.
Proof.
  induction cs as [|c cs IH]; intros h r db Hr Hok Ha.
  { exists h, r, db. split; [constructor|done]. }
  destruct Ha as [Hc Ha].
  destruct (call_refined (held_notifications c) (held_actions c) h db r Hr Hok (issued c) Hc)
    as (reply & r1 & reply' & db1 & Hs & E & Hreply & Hrep).
  destruct (IH _ r1 db1 Hrep (specified_ok _ _ _ _ Hs Hok) (Ha _ _ Hs)) as (h' & r' & db' & Hrun & Hend).
  exists h', r', db'. split; [|done]. by econstructor.
Qed.

(** ** Transactions *)

(** a computation that leaves the state as it was when it raises *)
Definition atomic {A} (m : M Db.t A) : Prop := forall db e db', m db = (Raise e, db') -> db' = db.

Lemma atomic_begin {A} (m : M Db.t A) : atomic (begin m).
Proof.
  intros db e db' E. destruct (m db) as [[a|e'] s] eqn:Em.
  - by rewrite (begin_commit _ _ _ _ Em) in E.
  - rewrite (begin_rollback _ _ _ _ Em) in E. congruence.
Qed.

Lemma atomic_then {A B} (m : M Db.t A) (x : B) : atomic (begin m ;; mret x).
Proof.
  intros db e db' E. rewrite M_bind_unfold in E. destruct (begin m db) as [[a|e'] s] eqn:Em; [done|].
  injection E as _ <-. by eapply atomic_begin.
Qed.

Lemma atomic_lift {A B} (x : res A) (k : A -> M Db.t B) : (forall a, atomic (k a)) -> atomic (lift_res x ≫= k).
Proof.
  intros Hk db e db' E. rewrite M_bind_unfold in E. unfold lift_res in E. destruct x as [a|e'].
  - by eapply Hk.
  - by injection E as _ <-.
Qed.

Lemma postgres_atomic held_n held_a {A} (c : command A) : atomic (postgres held_n held_a c).
Proof.
  destruct c; simpl; try apply atomic_then; try apply atomic_begin.
  apply atomic_lift. intros. apply atomic_begin.
Qed.

(** an identifier that a row of the table has already *)
Definition taken {R} `{Table R} (r : R) (t : table R) : Prop := In (primary_key r) (keys (rows t)).

(** the methods that insert without a conflict clause *)
Definition duplicate {A} (c : command A) (db : Db.t) : Prop :=
  match c with
  | CreateTrip trip => taken (trip_row trip) (Db.trips db)
  | SaveAssessment tenant a => taken (assessment_row tenant a) (Db.assessments db)
  | RecordEvent e => taken (event_row e) (Db.events db)
  | SaveCandidateSet tenant s => taken (candidate_set_row tenant s) (Db.candidate_sets db)
  | RecordCandidateOutcome tenant o => taken (outcome_row tenant o) (Db.candidate_outcomes db)
  | SaveManagerFeedback f => taken (feedback_row f) (Db.manager_feedback db)
  | RecordMemoryAudit e => taken (memory_audit_row e) (Db.memory_audit_events db)
  | RecordNotificationAttempt a => taken (notification_attempt_row a) (Db.notification_attempts db)
  | RecordActionDispatchAttempt a => taken (action_attempt_row a) (Db.action_dispatch_attempts db)
  | SaveChangeRecord c => taken (change_row c) (Db.change_records db)
  | SaveProviderOnboarding c => taken (onboarding_row c) (Db.provider_onboarding_records db)
  | SaveRuntimeControlChange c => taken (control_change_row c) (Db.runtime_control_changes db)
  | SavePlatformControlChange c => taken (platform_change_row c) (Db.platform_runtime_control_changes db)
  | _ => False
  end.

Definition raises {A} (m : M Db.t A) (db : Db.t) : Prop := exists e, m db = (Raise e, db).

Lemma insert_taken {R} `{Table R} (tbl : Db.t -> table R) `{!Setter tbl} r db :
  taken r (tbl db) -> exists e db', execute tbl (insert [r]) db = (Raise e, db').
Proof.
  intros Ht. destruct (insert_conflict [r] (tbl db)) as [e E].
  - simpl. intros Hn. apply NoDup_cons in Hn as [Hn _]. by apply Hn, list_elem_of_In.
  - unfold execute. rewrite E. by eexists _, _.
Qed.

Lemma raises_begin {A B} (m : M Db.t A) (k : A -> M Db.t B) db e db' :
  m db = (Raise e, db') -> raises (begin m ≫= k) db.
Proof. intros E. exists e. by rewrite M_bind_unfold, (begin_rollback _ _ _ _ E). Qed.

Lemma duplicate_raises held_n held_a {A} (c : command A) db : duplicate c db -> raises (postgres held_n held_a c) db.
Proof.
  intros Hd. destruct c; try done; simpl in Hd.
  3: change (taken (event_row (event <| EventRecord.details := redact_dict (EventRecord.details event) |>))
              (Db.events db)) in Hd.
  7: change (taken (memory_audit_row (event <| MemoryAuditEvent.details := redact_dict (MemoryAuditEvent.details event) |>))
              (Db.memory_audit_events db)) in Hd.
  all: match type of Hd with taken ?r (?tbl ?d) => destruct (insert_taken tbl r d Hd) as (e & db' & E) end.
  all: try (eapply raises_begin; exact E).
  all: eapply raises_begin; rewrite M_bind_unfold, E; reflexivity.
Qed.

(** ** Workers *)

(** two workers: the second runs after the first committed and before its leases
    expire, or while the first still holds the rows it claims *)
Lemma workers_apart {R Row} `{Document R} `{Leasable R} `{Table Row} (tbl : Db.t -> table Row) `{!Setter tbl}
    row id_of row_id row_tenant row_status payload set_payload ready (held1 held2 : Row -> bool)
    tenant1 tenant2 worker1 worker2 ttl1 ttl2 now1 now2 limit1 limit2 fresh1 fresh2 db d claimed1 db1 claimed2 db2 :
  outbox tbl row id_of row_id row_tenant row_status payload set_payload ready ->
  stores row id (tbl db) (dict_values d) -> keyed id_of d -> 0 <= limit1 -> 0 <= limit2 -> 0 < ttl1 ->
  (forall m x, In x (dict_values d) -> claimable tenant1 now1 x = true ->
     writable (row (lease worker1 ttl1 now1 fresh1 m x)) (lease worker1 ttl1 now1 fresh1 m x)) ->
  let run held tenant worker ttl now limit fresh := claim_due tbl id_of row_id row_tenant row_status payload
    set_payload ready held tenant worker ttl now limit fresh in
  run held1 tenant1 worker1 ttl1 now1 limit1 fresh1 db = (Ok claimed1, db1) ->
  (now2 < now1 + ttl1 /\ run held2 tenant2 worker2 ttl2 now2 limit2 fresh2 db1 = (Ok claimed2, db2)) \/
  ((forall x r, In x claimed1 -> row_id r = id_of x -> held2 r = true) /\
   run held2 tenant2 worker2 ttl2 now2 limit2 fresh2 db = (Ok claimed2, db2)) ->
  forall x y, In x claimed1 -> In y claimed2 -> id_of x <> id_of y.
Proof.
  intros Hbox Ht Hd Hl1 Hl2 Httl Hw run E1 E2 x y Hx Hy.
  destruct E2 as [[Hnow E2]|[Hheld E2]].
  - destruct (claim_due_leased tbl row id_of row_id row_tenant row_status payload set_payload ready Hbox
      (fun x => negb (held1 (row x))) tenant1 worker1 ttl1 now1 fresh1 held1 limit1 db d Hl1 Ht Hd (fun _ => eq_refl) Hw)
      as (t & claimed & d' & E & Ht' & Hl).
    unfold run in E1. rewrite E in E1. injection E1 as -> <-.
    destruct (claimed_from tbl row id_of row_id row_tenant row_status payload set_payload ready Hbox tenant2 worker2
      ttl2 now2 fresh2 held2 limit2 (over tbl (fun _ => t) db) db2 d' claimed2 y Hl2) as (y0 & m & Hy0 & -> & Hc & _);
      [by rewrite (outbox_get _ _ _ _ _ _ _ _ _ Hbox)|done|done|].
    unfold lease at 1. rewrite (outbox_leased_id _ _ _ _ _ _ _ _ _ Hbox).
    eapply leases_exclusive; try done.
    intros. apply (outbox_leased_id _ _ _ _ _ _ _ _ _ Hbox).
  - intros Hxy. destruct (claimed_from tbl row id_of row_id row_tenant row_status payload set_payload ready Hbox tenant2 worker2
      ttl2 now2 fresh2 held2 limit2 db db2 d claimed2 y Hl2 Ht E2 Hy) as (y0 & m & Hy0 & -> & Hc & Hlk).
    rewrite (Hheld x (row y0) Hx) in Hlk; [done|]. rewrite (outbox_id _ _ _ _ _ _ _ _ _ Hbox), Hxy.
    unfold lease. by rewrite (outbox_leased_id _ _ _ _ _ _ _ _ _ Hbox).
Qed.

(** the transaction that claimed these notifications still holds their rows *)
Definition locks (held : NotificationRow.t -> bool) (claimed : list NotificationRecord.t) : Prop :=
  forall x row, In x claimed -> NotificationRow.notification_id row = NotificationRecord.notification_id x ->
    held row = true.

(** ** Idempotency keys *)

(** calls made before a claim expires; a retention job that does not reach it *)
Definition before_expiry {A} (e : instant) (c : command A) : Prop :=
  match c with
  | ClaimIdempotency _ _ _ _ _ now => now < e
  | CompleteIdempotency _ _ _ _ _ now => now < e
  | PurgeExpired before _ _ _ => before <= e
  | _ => True
  end.

Lemma claim_kept r op key e r' : live_until r key e -> op_now op < e -> (run_op r op).2 = r' -> live_until r' key e.
Proof. intros Hl Hop <-. by apply run_op_other. Qed.

Lemma specified_live {A} (c : command A) r reply r' key e :
  store_ok r -> specified c r reply r' -> live_until r key e -> before_expiry e c -> live_until r' key e.
Proof.
  intros Hok Hs Hl Hb. assert (Hsame : Repo.idempotency_records r' = Repo.idempotency_records r -> live_until r' key e).
  { intros E. unfold live_until in *. by rewrite E. }
  destruct c; simpl in Hs; unfold ok_reply in Hs;
    try (apply Hsame; injection Hs as _ <-; reflexivity);
    try (destruct Hs as (claimed & d & _ & -> & _); by apply Hsame).
  - unfold written in Hs. destruct (Repository.save_evidence _ _ _ _) as [r1|x] eqn:E; injection Hs as _ <-; [|done].
    apply Hsame. unfold Repository.save_evidence in E. destruct (Repository.get_trip _ _ _); [|done]. by injection E as <-.
  - unfold written in Hs. destruct (Repository.save_assessment _ _ _) as [r1|x] eqn:E; injection Hs as _ <-; [|done].
    apply Hsame. unfold Repository.save_assessment in E. destruct (Repository.get_trip _ _ _); [|done]. by injection E as <-.
  - apply (claim_kept r (Claim tenant key0 scope request_hash expires_at now) key e r' Hl Hb). cbn [run_op].
    change (Repository.claim_idempotency r tenant key0 scope request_hash expires_at now = (reply, r')) in Hs. by rewrite Hs.
  - unfold replied in Hs. destruct (Repository.complete_idempotency _ _ _ _ _ _ _) as [[x r1]|x] eqn:E;
      injection Hs as _ <-; [|done].
    apply (claim_kept r (Complete tenant key0 request_hash status_code payload now) key e r1 Hl Hb).
    cbn [run_op]. by rewrite E.
  - apply Hsame. unfold Repository.save_playbook in Hs. by destruct (dict_get _ _); injection Hs as _ <-.
  - apply Hsame. unfold Repository.complete_notification_delivery in Hs. by destruct (lease_held _ _ _); injection Hs as _ <-.
  - apply Hsame. unfold Repository.complete_action_dispatch in Hs. by destruct (lease_held _ _ _); injection Hs as _ <-.
  - apply Hsame. unfold Repository.erase_traveler_data, Repository.delete_traveler_memory in Hs.
    by destruct (_ == _); injection Hs as _ <-.
  - unfold replied in Hs. destruct (Repository.purge_expired _ _ _ _ _) as [[x r1]|x] eqn:E; injection Hs as _ <-; [|done].
    unfold Repository.purge_expired in E. apply res_bind_ok in E as (holds & _ & E). apply res_bind_ok in E as (cs & _ & E).
    apply Ok_inj in E. injection E as _ <-. destruct Hl as (rec & Hrec & He). exists rec. split; [|done]. simpl in *.
    rewrite dict_get_keep_values by apply (ok_idempotency r Hok). rewrite Hrec. by rewrite (proj2 (Z.leb_le _ _)) by lia.
Qed.

(** the database after a run *)
Definition run_db (cs : list call) (db : Db.t) : Db.t := List.fold_left (fun db c => (issue c db).2) cs db.

Lemma run_live cs last key e : forall h r db, represents h db r -> store_ok r -> live_until r key e ->
  Forall (fun c => before_expiry e (issued c)) cs -> admissible_run h r (cs ++ [last]) ->
  exists h' r', represents h' (run_db cs db) r' /\ store_ok r' /\ live_until r' key e /\ admissible h' r' (issued last).
Proof.
  induction cs as [|c cs IH]; intros h r db Hr Hok Hl Hcs Ha.
  { exists h, r. destruct Ha as [Ha _]. by split_and!. }
  apply Forall_cons in Hcs as [Hc Hcs]. destruct Ha as [Hac Ha].
  destruct (call_refined (held_notifications c) (held_actions c) h db r Hr Hok (issued c) Hac)
    as (reply & r1 & reply' & db1 & Hs & E & _ & Hrep).
  unfold run_db. cbn [List.fold_left]. unfold issue at 2. rewrite E. simpl.
  eapply (IH _ r1); [exact Hrep|by eapply specified_ok|by eapply specified_live|done|by eapply Ha].
Qed.

(** a claim that the database answers with "execute" leaves a live record *)
Lemma execute_live held_n held_a h db r tenant key scope hash e now record db1 :
  represents h db r -> store_ok r -> admissible h r (ClaimIdempotency tenant key scope hash e now) ->
  postgres held_n held_a (ClaimIdempotency tenant key scope hash e now) db = (Ok ("execute", record), db1) ->
  exists r1, specified (ClaimIdempotency tenant key scope hash e now) r (Ok ("execute", record)) r1 /\
    represents h db1 r1 /\ store_ok r1 /\ live_until r1 (tenant, key) e.
Proof.
  intros Hr Hok Ha E. destruct (call_refined held_n held_a h db r Hr Hok _ Ha) as (reply & r1 & reply' & db1' & Hs & E' & Hreply & Hrep).
  rewrite E' in E. injection E as -> ->. simpl in Hreply. subst reply. exists r1. split_and!; [done|done|by eapply specified_ok|].
  apply claim_execute in Hs as (He & _ & _ & _ & Hg). by exists record.
Qed.

(** a live record answers a claim with something else *)
Lemma live_refuses held_n held_a h db r tenant key e scope hash e' now :
  represents h db r -> store_ok r -> admissible h r (ClaimIdempotency tenant key scope hash e' now) ->
  live_until r (tenant, key) e -> now < e ->
  exists disposition record db1,
    postgres held_n held_a (ClaimIdempotency tenant key scope hash e' now) db = (Ok (disposition, record), db1) /\
    disposition <> "execute".
Proof.
  intros Hr Hok Ha (rec & Hg & He) Hnow.
  destruct (call_refined held_n held_a h db r Hr Hok _ Ha) as (reply & r1 & reply' & db1 & Hs & E & Hreply & _).
  simpl in Hreply. subst reply'. simpl in Hs. rewrite (claim_live _ _ _ _ _ _ _ _ Hg) in Hs by lia.
  injection Hs as <- <-. eexists _, rec, db1. split; [exact E|].
  destruct (_ || _); [done|]. by destruct (_ == _).
Qed.

End Runs.

(** ** The theorems *)

(** C9. Refinement.  From a database that represents a store, every writing
    method of [PostgresRouteShieldRepository] returns (it does not raise where the
    contract has a result), replies as the contract of the store says, up to the
    counts that the two repositories define differently, and commits a database that
    represents the store it leads to, whatever rows other transactions hold.  The
    call is [admissible]: texts fit their columns, inserted identifiers are new,
    overwritten records keep the columns that ON CONFLICT does not set, and the
    clock is not behind the last retention job. *)
Theorem calls_refine `{HS : Sql} `{!SqlLaws} `{HD : Documents} (c : call) h db r :
  represents h db r -> store_ok r -> admissible h r (issued c) ->
  exists reply r' reply' db', specified (issued c) r reply r' /\ issue c db = (reply', db') /\
    same_reply (issued c) reply' reply /\ represents (horizon (issued c) h) db' r' /\ store_ok r'.
Proof.
  intros Hr Hok Ha.
  destruct (call_refined (held_notifications c) (held_actions c) h db r Hr Hok (issued c) Ha)
    as (reply & r' & reply' & db' & Hs & E & Hreply & Hrep).
  exists reply, r', reply', db'. split_and!; try done. by eapply specified_ok.
Qed.

(** C18. Equivalence.  Every query of the PostgreSQL repository answers as the
    in-memory one: the lookups with the same record or the same exception, the
    listings with the same records in some order, for the filters that both read
    alike. *)
Theorem answers_agree `{HS : Sql} `{!SqlLaws} `{HD : Documents} h db r :
  represents h db r -> store_ok r ->
  (forall A (q : lookup A), pg_lookup q db = memory_lookup q r) /\
  (forall A (q : listing A) l, proper_filter q -> memory_listing q r = Ok l ->
     exists l', pg_listing q db = Ok l' /\ l' ≡ₚ l).
Proof. apply represents_answers. Qed.

(** C10. Simulation of whole runs.  On a database that [metadata.create_all] has
    just made, any admissible sequence of calls runs to its end; each reply is one
    that the contract allows after the calls before it, and at the end the database
    answers every query as the store does. *)
Theorem run_refines `{HS : Sql} `{!SqlLaws} `{HD : Documents} h cs : admissible_run h Repo.init cs ->
  exists r db, simulated cs Repo.init setup r db /\ store_ok r /\ answers_as db r.
Proof.
  intros Ha. destruct (run_simulated cs h Repo.init setup (represents_setup h) store_ok_init Ha)
    as (h' & r & db & Hs & Hr & Hok).
  exists r, db. split_and!; [done|done|by eapply represents_answers].
Qed.

(** C21. Exactly-once admission on PostgreSQL.  When the database answers a claim of
    an idempotency key with "execute", then, whatever admissible calls of any kind
    run in between (claims, completions and retention jobs included, up to the
    expiry), a later claim of that key before the expiry is answered, and not with
    "execute": the request is replayed, refused or reported in progress. *)
Theorem executes_once `{HS : Sql} `{!SqlLaws} `{HD : Documents} h db r tenant key scope hash e now record db1
    scope' hash' e' now' held_n held_a held_n' held_a' calls :
  let first := Call held_n held_a _ (ClaimIdempotency tenant key scope hash e now) in
  let again := Call held_n' held_a' _ (ClaimIdempotency tenant key scope' hash' e' now') in
  represents h db r -> store_ok r -> admissible_run h r (first :: calls ++ [again]) ->
  Forall (fun c => before_expiry e (issued c)) calls -> now' < e ->
  issue first db = (Ok ("execute", record), db1) ->
  exists disposition record' db2, issue again (run_db calls db1) = (Ok (disposition, record'), db2) /\
    disposition <> "execute".
Proof.
  intros first again Hr Hok [Ha Hrun] Hcalls Hnow E.
  destruct (execute_live held_n held_a h db r tenant key scope hash e now record db1 Hr Hok Ha E)
    as (r1 & Hs & Hr1 & Hok1 & Hl1).
  destruct (run_live calls again (tenant, key) e h r1 db1 Hr1 Hok1 Hl1 Hcalls (Hrun _ _ Hs))
    as (h' & r' & Hr' & Hok' & Hl' & Ha').
  exact (live_refuses held_n' held_a' h' _ r' tenant key e scope' hash' e' now' Hr' Hok' Ha' Hl' Hnow).
Qed.

(** C19. Error behaviour.  A method that raises leaves the database as it was: the
    statements it issued before are rolled back.  The methods that insert without
    a conflict clause raise when the identifier is taken (where the store
    overwrites or appends). *)
Theorem calls_atomic `{HS : Sql} `{!SqlLaws} `{HD : Documents} held_n held_a {A} (c : command A) db :
  (forall e db', postgres held_n held_a c db = (Raise e, db') -> db' = db) /\
  (duplicate c db -> exists e, postgres held_n held_a c db = (Raise e, db)).
Proof. split; [intros e db'; apply postgres_atomic|apply duplicate_raises]. Qed.

(** C20. Safety of the outbox under concurrency.  A worker claims notifications in
    the database; a second worker claims either after the first committed and
    before its leases expire, or while the first still holds the rows it claims
    (FOR UPDATE SKIP LOCKED).  The two never claim the same notification. *)
Theorem workers_disjoint `{HS : Sql} `{!SqlLaws} `{HD : Documents} h db r held1 held2 tenant1 tenant2
    worker1 worker2 ttl1 ttl2 now1 now2 limit1 limit2 fresh1 fresh2 claimed1 db1 claimed2 db2 :
  represents h db r -> store_ok r ->
  admissible h r (ClaimDueNotifications tenant1 worker1 ttl1 now1 limit1 fresh1) -> 0 < ttl1 -> 0 <= limit2 ->
  claim_due_notifications held1 tenant1 worker1 ttl1 now1 limit1 fresh1 db = (Ok claimed1, db1) ->
  (now2 < now1 + ttl1 /\
     claim_due_notifications held2 tenant2 worker2 ttl2 now2 limit2 fresh2 db1 = (Ok claimed2, db2)) \/
  (locks held2 claimed1 /\
   claim_due_notifications held2 tenant2 worker2 ttl2 now2 limit2 fresh2 db = (Ok claimed2, db2)) ->
  forall x y, In x claimed1 -> In y claimed2 ->
    NotificationRecord.notification_id x <> NotificationRecord.notification_id y.
Proof.
  intros Hr Hok [Hl1 Hw] Httl Hl2 E1 E2.
  exact (workers_apart Db.notifications notification_row NotificationRecord.notification_id
    NotificationRow.notification_id NotificationRow.tenant_id NotificationRow.status NotificationRow.payload
    (fun j r => r <| NotificationRow.payload := j |>) ready_notifications held1 held2 tenant1 tenant2 worker1 worker2
    ttl1 ttl2 now1 now2 limit1 limit2 fresh1 fresh2 db _ claimed1 db1 claimed2 db2 notification_outbox
    (rep_notifications h db r Hr) (ok_notifications r Hok) Hl1 Hl2 Httl Hw E1 E2).
Qed.

(** ** Witnesses

    Over the tables of [list_sql], with documents that encode a few samples. *)

#[local] Existing Instance list_sql.
#[local] Existing Instance list_sql_laws.

Definition sample_document {A} (key : A -> string) (samples : list A) : Document A := {|
  document_dump := fun a => JObj [("id", JStr (key a))];
  document_validate := fun j =>
    match j with
    | JObj [(_, JStr k)] =>
        match List.find (fun a => (key a == k)%string) samples with
        | Some a => Ok a
        | None => Raise (ValueError "no such document")
        end
    | _ => Raise (ValueError "not a document")
    end |}.
Definition no_document {A} : Document A := sample_document (fun _ => "") [].

Definition stored_trip : Trip.t := sample_trip 1%N "t1" "alice" 0.
(** two notifications, and their leases by two workers *)
Definition other_notification : NotificationRecord.t :=
  sample_notification <| NotificationRecord.notification_id := 6%N |>.
Definition leased_by (worker : string) : nat -> NotificationRecord.t -> NotificationRecord.t :=
  lease worker 60 0 (fun _ => 7%N).
Definition notification_key (n : NotificationRecord.t) : string :=
  ((if NotificationRecord.notification_id n == 5%N then "5" else "6") ++
   default "" (NotificationRecord.dispatch_claimed_by n))%string.

Definition claim_at (now expires : instant) : IdempotencyRecord.t :=
  new_claim "t1" "k" "trips.create" sample_hash expires now.

#[local] Instance sample_documents : Documents := {|
  trip_document := sample_document (fun _ => "trip") [stored_trip];
  evidence_document := no_document;
  assessment_document := no_document;
  incident_document := no_document;
  profile_document := no_document;
  approval_document := no_document;
  event_document := no_document;
  idempotency_document := sample_document
    (fun i => if IdempotencyRecord.created_at i =? 0 then "first" else "second") [claim_at 0 100; claim_at 50 300];
  proposal_document := no_document;
  candidate_set_document := no_document;
  outcome_document := no_document;
  feedback_document := no_document;
  playbook_document := no_document;
  notification_document := sample_document notification_key
    [sample_notification; other_notification; leased_by "w1" 0 sample_notification;
     leased_by "w1" 0 other_notification; leased_by "w2" 0 other_notification];
  notification_attempt_document := no_document;
  action_document := no_document;
  action_attempt_document := no_document;
  memory_audit_document := no_document;
  change_document := no_document;
  onboarding_document := no_document;
  runtime_control_document := no_document;
  platform_control_document := no_document;
  upload_document := no_document;
  legal_hold_document := no_document;
  deletion_document := no_document |}.

Definition unlocked {Row} (_ : Row) : bool := false.
Definition claim_by (worker : string) : command (list NotificationRecord.t) :=
  ClaimDueNotifications None worker 60 0 1 (fun _ => 7%N).
Definition sample_run : list call :=
  [Call unlocked unlocked _ (CreateTrip stored_trip);
   Call unlocked unlocked _ (SaveNotification sample_notification);
   Call unlocked unlocked _ (PurgeExpired 0 None None 0);
   Call unlocked unlocked _ (claim_by "w1")].

Lemma stored_trip_admissible h r : dict_get 1%N (Repo.trips r) = None -> admissible h r (CreateTrip stored_trip).
Proof.
  intros Hn. split_and!; [exact Hn|split; [split|]; vm_compute; reflexivity|split_and!].
  - done.
  - apply NoDup_singleton.
  - intros s [<-|[]]. vm_compute. reflexivity.
Qed.

Lemma sample_storable n : n = sample_notification \/ n = other_notification -> writable (notification_row n) n.
Proof. intros [-> | ->]; (split; [split|]; vm_compute; reflexivity). Qed.

Lemma claim_by_admissible h r :
  (forall x, In x (dict_values (Repo.notifications r)) -> x = sample_notification \/ x = other_notification) ->
  admissible h r (claim_by "w1").
Proof.
  intros Hin. split; [done|]. intros m x [-> | ->]%Hin _; (split; [split|]; vm_compute; reflexivity).
Qed.

Lemma run_refines_witness :
  exists r db, simulated sample_run Repo.init setup r db /\ store_ok r /\ answers_as db r.
Proof.
  apply (run_refines 0). split; [by apply stored_trip_admissible|]. intros ?? [= <- <-].
  split; [split; [by intros ? [=]|apply sample_storable; auto]|]. intros ?? [= <- <-].
  split; [vm_compute; reflexivity|]. intros reply r' E. split; [|done]. apply claim_by_admissible.
  apply (f_equal (fun p => Repo.notifications p.2)) in E. unfold snd in E at 2. rewrite <- E.
  vm_compute. intros x [<-|[]]. by left.
Defined.

Definition trip_db : Db.t := (create_trip stored_trip setup).2.
Definition trip_store : repo := Repository.create_trip Repo.init stored_trip.

Lemma trip_db_represents : represents 0 trip_db trip_store.
Proof.
  destruct (stored_trip_admissible 0 Repo.init eq_refl) as (H1 & H2 & H3).
  destruct (pg_create_trip 0 setup Repo.init (represents_setup 0) store_ok_init stored_trip H1 H2 H3) as (db & E & Hr).
  unfold trip_db. rewrite E. exact Hr.
Qed.

Lemma trip_store_ok : store_ok trip_store.
Proof. exact (specified_ok (CreateTrip stored_trip) Repo.init _ _ eq_refl store_ok_init). Qed.

Lemma calls_refine_witness :
  exists reply db, postgres unlocked unlocked (EraseTravelerData "t1" "alice" DeletionRequestScope.TRAVELER_DATA) trip_db
    = (reply, db) /\
    represents 0 db (Repository.erase_traveler_data trip_store "t1" "alice" DeletionRequestScope.TRAVELER_DATA).2.
Proof.
  destruct (calls_refine (Call unlocked unlocked _ (EraseTravelerData "t1" "alice" DeletionRequestScope.TRAVELER_DATA))
    0 trip_db trip_store trip_db_represents trip_store_ok I) as (reply & r' & reply' & db & [= <- <-] & E & _ & Hr & _).
  by exists reply', db.
Defined.

Lemma answers_agree_witness : pg_lookup (GetTrip "t1" 1%N) trip_db = Ok (Some stored_trip).
Proof. exact (proj1 (answers_agree 0 trip_db trip_store trip_db_represents trip_store_ok) _ (GetTrip "t1" 1%N)). Defined.

Lemma calls_atomic_witness : exists e, create_trip stored_trip trip_db = (Raise e, trip_db).
Proof.
  apply (proj2 (calls_atomic unlocked unlocked (CreateTrip stored_trip) trip_db)).
  vm_compute. by left.
Defined.

Definition outbox_store : repo :=
  Repository.save_notification (Repository.save_notification Repo.init other_notification) sample_notification.
Definition outbox_db : Db.t := (save_notification sample_notification (save_notification other_notification setup).2).2.

Lemma outbox_store_ok : store_ok outbox_store.
Proof.
  apply (specified_ok (SaveNotification sample_notification) _ _ _ eq_refl).
  apply (specified_ok (SaveNotification other_notification) Repo.init _ _ eq_refl store_ok_init).
Qed.

Lemma outbox_represented : represents 0 outbox_db outbox_store.
Proof.
  destruct (pg_save_notification 0 setup Repo.init (represents_setup 0) store_ok_init other_notification)
    as (db & E & Hr); [by intros ? [=]|apply sample_storable; auto|].
  destruct (pg_save_notification 0 db _ Hr (specified_ok (SaveNotification other_notification) Repo.init _ _ eq_refl
    store_ok_init) sample_notification) as (db' & E' & Hr'); [by intros ? [=]|apply sample_storable; auto|].
  unfold outbox_db. rewrite E. simpl. by rewrite E'.
Qed.

Lemma workers_disjoint_witness :
  exists claimed1 db1 claimed2 db2,
    claim_due_notifications unlocked None "w1" 60 0 1 (fun _ => 7%N) outbox_db = (Ok claimed1, db1) /\
    claim_due_notifications (fun row => NotificationRow.notification_id row == 5%N) None "w2" 60 0 1 (fun _ => 7%N)
      outbox_db = (Ok claimed2, db2) /\
    claimed1 = [leased_by "w1" 0 sample_notification] /\ claimed2 = [leased_by "w2" 0 other_notification] /\
    forall x y, In x claimed1 -> In y claimed2 ->
      NotificationRecord.notification_id x <> NotificationRecord.notification_id y.
Proof.
  eexists _, _, _, _. split_and!; try (vm_compute; reflexivity).
  eapply (workers_disjoint 0 outbox_db outbox_store unlocked (fun row => NotificationRow.notification_id row == 5%N)
    None None "w1" "w2" 60 60 0 0 1 1 (fun _ => 7%N) (fun _ => 7%N) _ _ _ _ outbox_represented outbox_store_ok).
  - apply claim_by_admissible. intros x [<-|[<-|[]]]; [by right|by left].
  - reflexivity.
  - discriminate.
  - vm_compute. reflexivity.
  - right. split; [|vm_compute; reflexivity]. intros x row [<-|[]] E. simpl. by rewrite E.
Defined.

Definition claim_call (now expires : instant) : call :=
  Call unlocked unlocked _ (ClaimIdempotency "t1" "k" "trips.create" sample_hash expires now).

Lemma claim_admissible r now expires :
  (now = 0 /\ expires = 100) \/ (now = 50 /\ expires = 300) -> admissible 0 r (issued (claim_call now expires)).
Proof.
  intros [[-> ->]|[-> ->]]; (split_and!; [done|vm_compute; reflexivity|split; [split|]; vm_compute; reflexivity]).
Qed.

Lemma executes_once_witness :
  exists record db1 disposition record' db2,
    issue (claim_call 0 100) setup = (Ok ("execute", record), db1) /\
    issue (claim_call 50 300) (run_db [Call unlocked unlocked _ (CreateTrip stored_trip)] db1)
      = (Ok (disposition, record'), db2) /\ disposition <> "execute".
Proof.
  eexists (claim_at 0 100), _.
  destruct (executes_once 0 setup Repo.init "t1" "k" "trips.create" sample_hash 100 0 (claim_at 0 100)
    (issue (claim_call 0 100) setup).2 "trips.create" sample_hash 300 50 unlocked unlocked unlocked unlocked
    [Call unlocked unlocked _ (CreateTrip stored_trip)] (represents_setup 0) store_ok_init) as (d & record' & db2 & E & Hd).
  - split; [by apply claim_admissible; left|]. intros ?? E. vm_compute in E. injection E as _ <-.
    split; [by apply stored_trip_admissible|]. intros ?? [= _ <-].
    split; [by apply claim_admissible; right|done].
  - by constructor.
  - reflexivity.
  - vm_compute. reflexivity.
  - exists d, record', db2. split; [vm_compute; reflexivity|]. split; [exact E|exact Hd].
Defined.
