(* ===== verification/Startup.v ===== *)
(** * Process wiring: start-up, shutdown and entry points

    [lifespan] and [health] of [apps/api/main.py], [agent/checkpointer.py],
    [agent/checkpoint_backend.py], [tools/migrate.py], [workers/monitor.py],
    [apps/web/server.py] and the routes of [apps/mock_provider/main.py].  The
    process is what start-up assigns (the repository, the graph's checkpointer, the
    shared limiter) with a journal of the clients it opens and closes; what the
    clients answer is a parameter. *)

From S2P Require Import Prelude PyData Float64 PyStd Enums Models Recovery Security Config Providers Idempotency Evaluation.
From Stdlib Require Import Sorting.Permutation.

(** [async with]/[try ... finally]: the cleanup runs on every path; an exception of
    its own replaces the outcome *)
Definition finally_ {S A} (m : M S A) (cleanup : M S unit) : M S A := fun s =>
  let '(r, s1) := m s in
  match cleanup s1 with
  | (Ok _, s2) => (r, s2)
  | (Raise e, s2) => (Raise e, s2)
  end.

(** [try: x = m  except Exception: handler  else: orelse] *)
Definition try_else {S A B} (m : M S A) (handler : exn -> M S B) (orelse : A -> M S B) : M S B := fun s =>
  match m s with
  | (Ok a, s1) => orelse a s1
  | (Raise e, s1) => handler e s1
  end.

(** [s.replace(old, new, 1)] *)
Fixpoint replace_first (old new s : string) : string :=
  if startswith old s then new +:+ String.substring (String.length old) (String.length s - String.length old) s
  else match s with
       | EmptyString => EmptyString
       | String c s' => String c (replace_first old new s')
       end.

(** [s.rstrip("/")], [s.split(",")] *)
Fixpoint rstrip_slash (s : string) : string :=
  match s with
  | EmptyString => EmptyString
  | String c s' =>
      match rstrip_slash s' with
      | EmptyString => if bool_decide (c = "/"%char) then EmptyString else String c EmptyString
      | t => String c t
      end
  end.
Fixpoint split_commas (s : string) : list string :=
  match s with
  | EmptyString => [""]
  | String c s' =>
      match split_commas s' with
      | word :: words => if bool_decide (c = ","%char) then "" :: word :: words else String c word :: words
      | [] => []
      end
  end.

(** [if value:] of an environment variable *)
Definition configured (value : option string) : option string :=
  match value with Some v => if truthy_str v then Some v else None | None => None end.

(** ** The process *)

Inductive resource : Type :=
  | RedisClient (url : string)
  | Engine (database_url : string)
  | Saver (conn_string : string).

#[export] Instance resource_eq_dec : EqDecision resource.
Proof. solve_decision. Defined.

Inductive event : Type :=
  | Opened (r : resource)
  | Closed (r : resource).

#[export] Instance event_eq_dec : EqDecision event.
Proof. solve_decision. Defined.

Module Process.

Record t : Type := mk {
  repository : option string;           (* the URL of the PostgreSQL repository; [None]: in memory *)
  checkpointer : option string;         (* the connection of the graph's saver; [None]: in memory *)
  shared_rate_limiter : option string;  (* the URL of the Redis limiter *)
  journal : list event
}.

#[global] Instance settable : Settable t := fun x =>
  mk (repository x) (checkpointer x) (shared_rate_limiter x) (journal x).

Definition init : t := mk None None None [].

End Process.

Abbreviation Startup := (M Process.t).

Definition opened (r : resource) : Startup unit := modify (fun s => s <| Process.journal ::= fun j => j ++ [Opened r] |>).
Definition closed (r : resource) : Startup unit := modify (fun s => s <| Process.journal ::= fun j => j ++ [Closed r] |>).

(** what the clients answer: construction from a URL, [PING], [metadata.create_all],
    the saver's connection and its tables *)
Class Clients : Type := {
  redis_from_url : string -> res unit;
  redis_ping : string -> res unit;
  is_redis_error : exn -> bool;
  create_engine : string -> res unit;
  create_all : string -> res unit;
  saver_connect : string -> res unit;
  saver_setup : string -> res unit
}.

Section Wiring.
Context `{Clients}.
Variables (getenv : string -> option string) (controls : RuntimeControls.t).

(** [RedisFixedWindowRateLimiter(redis_url, limit=..., window=...)] *)
Definition new_limiter (redis_url : string) : Startup unit :=
  lift_res (RedisFixedWindowRateLimiter.init (RuntimeControls.api_rate_limit controls)
              (RuntimeControls.api_rate_limit_window_seconds controls * second)) ;;
  lift_res (redis_from_url redis_url) ;;
  opened (RedisClient redis_url).

(** [ping]: a Redis error closes the client before it is raised again *)
Definition ping (redis_url : string) : Startup unit :=
  catch (lift_res (redis_ping redis_url)) (fun e =>
    if is_redis_error e then closed (RedisClient redis_url) ;; raise e else raise e).

Definition start_limiter : Startup unit :=
  match configured (getenv "REDIS_URL") with
  | None => mret tt
  | Some redis_url =>
      new_limiter redis_url ;;
      try_else (ping redis_url)
        (fun e => if RuntimeControls.rate_limit_redis_required controls then raise e else mret tt)
        (fun _ => modify (fun s => s <| Process.shared_rate_limiter := Some redis_url |>))
  end.

(** [if shared_rate_limiter: await shared_rate_limiter.close()] *)
Definition close_limiter : Startup unit :=
  limiter ← gets Process.shared_rate_limiter;
  match limiter with
  | None => mret tt
  | Some url => closed (RedisClient url) ;; modify (fun s => s <| Process.shared_rate_limiter := None |>)
  end.

(** [async with postgres_checkpointer(database_url) as saver: body(saver)] *)
Definition postgres_checkpointer {A} (database_url : string) (body : string -> Startup A) : Startup A :=
  let conn_string := replace_first "postgresql+asyncpg://" "postgresql://" database_url in
  lift_res (saver_connect conn_string) ;;
  opened (Saver conn_string) ;;
  finally_ (lift_res (saver_setup conn_string) ;; body conn_string) (closed (Saver conn_string)).

(** [async with checkpoint_backend() as saver: body(saver)] *)
Definition checkpoint_backend {A} (body : option string -> Startup A) : Startup A :=
  match configured (getenv "DATABASE_URL") with
  | None => body None
  | Some database_url => postgres_checkpointer database_url (fun saver => body (Some saver))
  end.

(** [PostgresRouteShieldRepository(database_url)], [setup()] and [close()] *)
Definition new_repository (database_url : string) : Startup unit :=
  lift_res (create_engine database_url) ;; opened (Engine database_url).
Definition setup (database_url : string) : Startup unit := lift_res (create_all database_url).
Definition close (database_url : string) : Startup unit := closed (Engine database_url).

(** [lifespan]: [audit] is [audit_runtime_controls()] and [serve] what runs until the
    process is asked to stop, with the outcome thrown into the generator *)
Definition lifespan {A} (audit : Startup unit) (serve : Startup A) : Startup A :=
  start_limiter ;;
  match configured (getenv "DATABASE_URL") with
  | Some database_url =>
      new_repository database_url ;;
      modify (fun s => s <| Process.repository := Some database_url |>) ;;
      setup database_url ;;
      audit ;;
      postgres_checkpointer database_url (fun saver =>
        modify (fun s => s <| Process.checkpointer := Some saver |>) ;;
        finally_ serve (close database_url ;; close_limiter))
  | None => audit ;; finally_ serve close_limiter
  end.

(** [tools/migrate.py] *)
Definition migrate : Startup unit :=
  match configured (getenv "DATABASE_URL") with
  | None => raise (RuntimeError "DATABASE_URL is required for migrations")
  | Some database_url => new_repository database_url ;; finally_ (setup database_url) (close database_url)
  end.

(** [workers/monitor.py]: the due assessments, inside the API's lifespan *)
Definition monitor_main {A} (audit : Startup unit) (process_due_assessments : Startup A) : Startup A :=
  lifespan audit process_due_assessments.

Definition bool_text (b : bool) : string := if b then "true" else "false".
(** [GET /health] of the API *)
Definition health : dict string string :=
  [("status", "ok"); ("service", "routeshield-api");
   ("llm_enabled", bool_text (RuntimeControls.llm_enabled controls));
   ("react_tool_calls_enabled", bool_text (RuntimeControls.react_tool_calls_enabled controls))].

(** the origins of the CORS middleware *)
Definition web_origins : list string :=
  List.filter truthy_str (List.map str_strip (split_commas (default "" (getenv "WEB_ORIGIN")))).

(** [apps/web/server.py]: [/health] and the body of [/runtime-config.js] *)
Definition web_health : dict string string := [("status", "ok"); ("service", "routeshield-web")].
Definition runtime_config : string :=
  let api_base_url := rstrip_slash (default "" (getenv "PUBLIC_API_BASE_URL")) in
  "window.ROUTESHIELD_CONFIG = {" +:+ dump_str "apiBaseUrl" +:+ ": " +:+ dump_str api_base_url +:+ "};" +:+
  String "010"%char "".

End Wiring.

(** ** [apps/mock_provider/main.py]

    [Query(default=None, ge=0, le=100)]: outside the range the request is refused
    with 422; the score is a float, the default an integer. *)

(** [min(100, max(0, score))]: the first argument wins a tie, so a bound is the int *)
Definition clamp (score : f64) : json :=
  if flt 0 score then (if flt score (f_int 100) then JFloat score else JInt 100) else JInt 0.
Definition response (source : string) (default_score : Z) (risk_score : option f64) : dict string json :=
  [("source", JStr source);
   ("risk_score", match risk_score with
                  | Some score => clamp score
                  | None => JInt (Z.min 100 (Z.max 0 default_score))
                  end)].
Definition mock_route (source : string) (default_score : Z) (risk_score : option f64) : res (dict string json) :=
  match risk_score with
  | Some score =>
      if fle 0 score && fle score (f_int 100) then Ok (response source default_score risk_score)
      else Raise (HTTPException 422 "risk_score")
  | None => Ok (response source default_score None)
  end.
Definition mock_health : dict string string := [("status", "ok"); ("service", "routeshield-mock-provider")].
Definition flight_status : option f64 -> res (dict string json) := mock_route "mock-flight-status" 5.
Definition airport_weather : option f64 -> res (dict string json) := mock_route "mock-airport-weather" 10.
Definition ground_route : option f64 -> res (dict string json) := mock_route "mock-ground-route" 10.
Definition destination_advisory : option f64 -> res (dict string json) := mock_route "mock-destination-advisory" 15.

(** ** What start-up wires and what shutdown releases *)

(** the resources opened, and closed, by a journal *)
Definition opened_in (j : list event) : list resource :=
  List.flat_map (fun e => match e with Opened r => [r] | Closed _ => [] end) j.
Definition closed_in (j : list event) : list resource :=
  List.flat_map (fun e => match e with Opened _ => [] | Closed r => [r] end) j.

Section Lifecycle.
Context `{Clients}.
Variables (getenv : string -> option string) (controls : RuntimeControls.t).

Definition limiter_starts : bool :=
  match configured (getenv "REDIS_URL") with
  | None => true
  | Some url =>
      is_ok (RedisFixedWindowRateLimiter.init (RuntimeControls.api_rate_limit controls)
               (RuntimeControls.api_rate_limit_window_seconds controls * second)) &&
      is_ok (redis_from_url url) &&
      (is_ok (redis_ping url) || negb (RuntimeControls.rate_limit_redis_required controls))
  end.
Definition conn_string_of (database_url : string) : string :=
  replace_first "postgresql+asyncpg://" "postgresql://" database_url.
Definition starts (audited : res unit) : bool :=
  limiter_starts && is_ok audited &&
  match configured (getenv "DATABASE_URL") with
  | None => true
  | Some url => is_ok (create_engine url) && is_ok (create_all url) &&
                is_ok (saver_connect (conn_string_of url)) && is_ok (saver_setup (conn_string_of url))
  end.

(** the process that serves requests *)
Definition wired (s : Process.t) : Prop :=
  Process.repository s = configured (getenv "DATABASE_URL") /\
  Process.checkpointer s = conn_string_of <$> configured (getenv "DATABASE_URL") /\
  Process.shared_rate_limiter s =
    match configured (getenv "REDIS_URL") with Some url => if is_ok (redis_ping url) then Some url else None | None => None end.
(** every client is closed as often as it was opened *)
Definition released (s : Process.t) : Prop :=
  Process.shared_rate_limiter s = None /\ Permutation (opened_in (Process.journal s)) (closed_in (Process.journal s)).

(** what a failed start-up leaves open: the limiter's client, once it is in service,
    and the engine, once it is made; nothing closes them *)
Definition limiter_left : list resource :=
  match configured (getenv "REDIS_URL") with
  | Some url => if is_ok (redis_ping url) then [RedisClient url] else []
  | None => []
  end.
Definition engine_left : list resource :=
  match configured (getenv "DATABASE_URL") with
  | Some url => if is_ok (create_engine url) then [Engine url] else []
  | None => []
  end.
Definition left_open : list resource := if limiter_starts then limiter_left ++ engine_left else [].

Hypothesis redis_errors : forall url e, redis_ping url = Raise e -> is_redis_error e = true.

(** the shared limiter: refused, unused or in service *)
Lemma start_limiter_spec s :
  if limiter_starts then exists s1, start_limiter getenv controls s = (Ok tt, s1) /\
    Process.repository s1 = Process.repository s /\ Process.checkpointer s1 = Process.checkpointer s /\
    match configured (getenv "REDIS_URL") with
    | None => s1 = s
    | Some url =>
        if is_ok (redis_ping url)
        then Process.shared_rate_limiter s1 = Some url /\ Process.journal s1 = Process.journal s ++ [Opened (RedisClient url)]
        else Process.shared_rate_limiter s1 = Process.shared_rate_limiter s /\
             Process.journal s1 = Process.journal s ++ [Opened (RedisClient url); Closed (RedisClient url)]
    end
  else exists e s1, start_limiter getenv controls s = (Raise e, s1) /\
    (Process.journal s1 = Process.journal s \/
     exists r, Process.journal s1 = Process.journal s ++ [Opened r; Closed r]).
Proof.
  unfold limiter_starts, start_limiter. destruct (configured (getenv "REDIS_URL")) as [url|]; [|by exists s].
  unfold new_limiter, ping. destruct (RedisFixedWindowRateLimiter.init _ _) as [l|e]; simpl;
    [|eexists _, _; split; [done|by left]].
  destruct (redis_from_url url) as [[]|e] eqn:Ef; simpl; [|eexists _, _; split; [done|by left]].
  destruct (redis_ping url) as [[]|e] eqn:Ep; simpl.
  - eexists. split; [reflexivity|done].
  - assert (He := redis_errors url e Ep).
    destruct (RuntimeControls.rate_limit_redis_required controls) eqn:Hreq; simpl.
    + eexists _, _. split; [run; unfold try_else, catch, opened; rewrite He; reflexivity|].
      right. exists (RedisClient url). simpl. by rewrite <- app_assoc.
    + eexists. split; [run; unfold try_else, catch, opened, closed; rewrite He; reflexivity|].
      simpl. by rewrite <- app_assoc.
Qed.

(** the clients that are open: those of [l], and the shared limiter's *)
Definition limiter_client (s : Process.t) : list resource :=
  match Process.shared_rate_limiter s with Some url => [RedisClient url] | None => [] end.
Definition owes (l : list resource) (s : Process.t) : Prop :=
  Permutation (opened_in (Process.journal s)) (l ++ limiter_client s ++ closed_in (Process.journal s)).

Lemma opened_app j j' : opened_in (j ++ j') = opened_in j ++ opened_in j'.
Proof. apply List.flat_map_app. Qed.
Lemma closed_app j j' : closed_in (j ++ j') = closed_in j ++ closed_in j'.
Proof. apply List.flat_map_app. Qed.

Lemma owes_opened r l s s1 : owes l s -> Process.shared_rate_limiter s1 = Process.shared_rate_limiter s ->
  Process.journal s1 = Process.journal s ++ [Opened r] -> owes (r :: l) s1.
Proof.
  unfold owes, limiter_client. intros Ho -> ->. rewrite opened_app, closed_app, Ho. simpl. rewrite app_nil_r.
  symmetry. apply Permutation_cons_append.
Qed.

Lemma owes_closed r l s s1 : owes (r :: l) s -> Process.shared_rate_limiter s1 = Process.shared_rate_limiter s ->
  Process.journal s1 = Process.journal s ++ [Closed r] -> owes l s1.
Proof.
  unfold owes, limiter_client. intros Ho -> ->. rewrite opened_app, closed_app, Ho. simpl. rewrite app_nil_r.
  rewrite <- (Permutation_cons_append (closed_in _) r). by rewrite !app_assoc, <- Permutation_middle.
Qed.

Lemma close_limiter_owes l s : owes l s -> exists s1, close_limiter s = (Ok tt, s1) /\ owes l s1 /\
  Process.shared_rate_limiter s1 = None.
Proof.
  unfold owes, limiter_client, close_limiter. intros Ho. rewrite M_bind_unfold. unfold gets. cbv iota beta.
  destruct (Process.shared_rate_limiter s) as [url|] eqn:Hs; [|exists s; by rewrite Hs].
  eexists. split; [reflexivity|]. split; [|done]. simpl in *. rewrite opened_app, closed_app, Ho. simpl. rewrite app_nil_r.
  by rewrite <- (Permutation_cons_append (closed_in _) (RedisClient url)).
Qed.

Lemma owes_released s : owes [] s -> Process.shared_rate_limiter s = None -> released s.
Proof. unfold owes, limiter_client. intros Ho Hs. rewrite Hs in Ho. by split. Qed.

(** the limiter's part of [wired] and what it owes, from [start_limiter_spec] *)
Lemma limiter_started : limiter_starts = true -> exists s1, start_limiter getenv controls Process.init = (Ok tt, s1) /\
  Process.repository s1 = None /\ Process.checkpointer s1 = None /\
  Process.shared_rate_limiter s1 =
    match configured (getenv "REDIS_URL") with Some url => if is_ok (redis_ping url) then Some url else None | None => None end /\
  owes [] s1.
Proof.
  intros Hst. pose proof (start_limiter_spec Process.init) as Hl. rewrite Hst in Hl.
  destruct Hl as (s1 & E & Hr & Hc & Hrest). exists s1. unfold owes, limiter_client. split_and!; [done|done|done| |].
  - destruct (configured _) as [url|]; [|by subst]. destruct (is_ok _); by destruct Hrest as [-> _].
  - destruct (configured _) as [url|]; [|subst; apply Permutation_refl].
    destruct (is_ok _); destruct Hrest as [-> ->]; simpl; apply Permutation_refl.
Qed.

Section Serve.
Context {A : Type} (audit : Startup unit) (audited : res unit) (serve : Startup A).
Hypotheses (Haudit : forall s, audit s = (audited, s)) (Hserve : forall s, (serve s).2 = s).

Lemma finally_unfold {B} (m : Startup B) cleanup s r s1 s2 : m s = (r, s1) -> cleanup s1 = (Ok tt, s2) ->
  finally_ m cleanup s = (r, s2).
Proof. unfold finally_. by intros -> ->. Qed.

(** what runs between start-up and shutdown, and what its cleanup leaves *)
Lemma finally_serve cleanup s s1 : cleanup s = (Ok tt, s1) -> finally_ serve cleanup s = ((serve s).1, s1).
Proof.
  intros E. unfold finally_. pose proof (Hserve s) as Hs. destruct (serve s) as [r s']. simpl in Hs. subst s'. by rewrite E.
Qed.

Definition with_database (url : string) (s : Process.t) : Process.t :=
  Process.mk (Some url) (Some (conn_string_of url)) (Process.shared_rate_limiter s)
    ((Process.journal s ++ [Opened (Engine url)]) ++ [Opened (Saver (conn_string_of url))]).

Lemma serve_database url s : owes [] s -> create_engine url = Ok tt -> create_all url = Ok tt -> audited = Ok tt ->
  saver_connect (conn_string_of url) = Ok tt -> saver_setup (conn_string_of url) = Ok tt ->
  exists s1,
    (new_repository url ;; modify (fun s => s <| Process.repository := Some url |>) ;; setup url ;; audit ;;
     postgres_checkpointer url (fun saver =>
       modify (fun s => s <| Process.checkpointer := Some saver |>) ;;
       finally_ serve (close url ;; close_limiter))) s = ((serve (with_database url s)).1, s1) /\ released s1.
Proof.
  intros Ho Ee Ea Hok Ec Es. set (saver := Saver (conn_string_of url)).
  set (s2 := with_database url s).
  set (s3 := s2 <| Process.journal ::= fun j => j ++ [Closed (Engine url)] |>).
  assert (Ho3 : owes [saver] s3).
  { eapply (owes_closed (Engine url) [saver] s2); [|done|done].
    unfold owes, limiter_client. simpl. rewrite <- app_assoc, opened_app, closed_app. simpl. rewrite app_nil_r, Ho.
    etransitivity; [apply Permutation_app_comm|done]. }
  destruct (close_limiter_owes [saver] s3 Ho3) as (s4 & E4 & Ho4 & Hs4).
  exists (s4 <| Process.journal ::= fun j => j ++ [Closed saver] |>). split.
  - unfold new_repository, setup, postgres_checkpointer. fold (conn_string_of url). fold saver.
    rewrite Ee, Ea, Ec, Es. cbv [mbind M_bind lift_res opened modify]. rewrite Haudit, Hok. cbv iota beta.
    erewrite (finally_unfold _ _ _ (serve s2).1 s4); [reflexivity| |reflexivity].
    erewrite finally_serve; [|cbv [mbind M_bind close closed modify]; exact E4].
    done.
  - apply owes_released; [by apply (owes_closed saver [] s4)|exact Hs4].
Qed.

(** a failure of a step of start-up is the outcome, and leaves the engine open *)
Lemma database_fails url s :
  owes [] s ->
  is_ok audited && (is_ok (create_engine url) && is_ok (create_all url) &&
    is_ok (saver_connect (conn_string_of url)) && is_ok (saver_setup (conn_string_of url))) = false ->
  exists e s1,
    (new_repository url ;; modify (fun s => s <| Process.repository := Some url |>) ;; setup url ;; audit ;;
     postgres_checkpointer url (fun saver =>
       modify (fun s => s <| Process.checkpointer := Some saver |>) ;;
       finally_ serve (close url ;; close_limiter))) s = (Raise e, s1) /\
    Permutation (opened_in (Process.journal s1))
      ((limiter_client s ++ (if is_ok (create_engine url) then [Engine url] else [])) ++
       closed_in (Process.journal s1)).
Proof.
  unfold new_repository, setup, postgres_checkpointer. fold (conn_string_of url). intros Ho Hf.
  cbv [mbind M_bind lift_res opened modify].
  assert (Hengine : Permutation (opened_in (Process.journal s ++ [Opened (Engine url)]))
            ((limiter_client s ++ [Engine url]) ++ closed_in (Process.journal s ++ [Opened (Engine url)]))).
  { rewrite opened_app, closed_app. simpl. rewrite app_nil_r, Ho. simpl. rewrite <- !app_assoc.
    apply Permutation_app_head, Permutation_app_comm. }
  destruct (create_engine url) as [[]|e]; cbn [is_ok].
  2: { eexists _, _. split; [done|]. by rewrite app_nil_r. }
  destruct (create_all url) as [[]|e]; [|by eexists _, _].
  rewrite Haudit. destruct audited as [[]|e]; [|by eexists _, _].
  destruct (saver_connect _) as [[]|e]; [|by eexists _, _].
  destruct (saver_setup _) as [[]|e]; [done|]. unfold finally_, closed, modify. eexists _, _. split; [done|].
  cbn. rewrite !opened_app, !closed_app. rewrite opened_app, closed_app in Hengine. simpl in *.
  rewrite !app_nil_r in *. rewrite Hengine.
  transitivity ((limiter_client s ++ [Engine url]) ++ closed_in (Process.journal s) ++ [Saver (conn_string_of url)]);
    [by rewrite <- !app_assoc|done].
Qed.

(** C34.  Start-up and shutdown.  When every step of start-up succeeds (a Redis limiter
    that does not answer is no failure unless it is required), [lifespan] hands over a
    process with the repository, the checkpointer and the limiter that the
    environment selects, its outcome is that of serving, exception or not, and at
    shutdown every client it opened is closed exactly as often.  When a step fails
    the process does not serve: [lifespan] raises, and of the clients it opened
    exactly those of [left_open] stay open, the limiter's and the engine. *)
Theorem lifespan_wires :
  if starts audited
  then exists s0 s1, wired s0 /\ lifespan getenv controls audit serve Process.init = ((serve s0).1, s1) /\ released s1
  else exists e s1, lifespan getenv controls audit serve Process.init = (Raise e, s1) /\
    Permutation (opened_in (Process.journal s1)) (left_open ++ closed_in (Process.journal s1)).
Proof.
  unfold starts, lifespan, wired, left_open.
  destruct limiter_starts eqn:Hl; [rewrite andb_true_l|cbn [andb]].
  2: { pose proof (start_limiter_spec Process.init) as Hs. rewrite Hl in Hs. destruct Hs as (e & s1 & E & Hj).
       exists e, s1. split; [by rewrite M_bind_unfold, E|]. destruct Hj as [->|[r ->]]; done. }
  destruct (limiter_started Hl) as (s1 & E & Hr & Hc & Hsh & Ho). rewrite M_bind_unfold, E. cbv iota beta.
  assert (Hlim : limiter_client s1 = limiter_left).
  { unfold limiter_client, limiter_left. rewrite Hsh. destruct (configured _) as [u|]; [|done].
    by destruct (is_ok _). }
  unfold engine_left. destruct (configured (getenv "DATABASE_URL")) as [url|] eqn:Hdb.
  - destruct (is_ok audited && _) eqn:Hst; [|rewrite <- Hlim; by apply database_fails].
    apply andb_true_iff in Hst as [Ha Hst]. rewrite !andb_true_iff in Hst. destruct Hst as [[[He Hcr] Hco] Hse].
    apply is_ok_inv in Ha as [[] Ha]. apply is_ok_inv in He as [[] He]. apply is_ok_inv in Hcr as [[] Hcr].
    apply is_ok_inv in Hco as [[] Hco]. apply is_ok_inv in Hse as [[] Hse].
    destruct (serve_database url s1 Ho He Hcr Ha Hco Hse) as (s2 & Er & Hrel).
    exists (with_database url s1), s2. by split_and!.
  - rewrite andb_true_r. destruct (is_ok audited) eqn:Ha.
    + apply is_ok_inv in Ha as [[] Ha]. destruct (close_limiter_owes [] s1 Ho) as (s2 & E2 & Ho2 & Hs2).
      exists s1, s2. split_and!; [by rewrite Hr|by rewrite Hc|done| |by apply owes_released].
      rewrite M_bind_unfold, Haudit, Ha. cbv iota beta. by apply finally_serve.
    + destruct (audited) as [[]|e] eqn:Hau; [done|]. exists e, s1. rewrite M_bind_unfold, Haudit. split; [done|].
      rewrite app_nil_r, <- Hlim. exact Ho.
Qed.

End Serve.

End Lifecycle.

(** [tools/migrate.py] closes its engine whether or not the schema applies, and
    succeeds exactly when it does *)
Lemma migrate_releases `{Clients} getenv : let '(r, s) := migrate getenv Process.init in
  Permutation (opened_in (Process.journal s)) (closed_in (Process.journal s)) /\
  (r = Ok tt <-> exists url, configured (getenv "DATABASE_URL") = Some url /\ create_engine url = Ok tt /\ create_all url = Ok tt).
Proof.
  unfold migrate, new_repository, setup, close.
  destruct (configured _) as [url|]; cbv [mbind M_bind lift_res opened closed modify finally_ raise].
  2: { split; [done|]. split; [done|]. by intros (url & ? & _). }
  destruct (create_engine url) as [[]|e] eqn:Ee.
  2: { split; [done|]. split; [done|]. intros (u & [= <-] & E & _). congruence. }
  destruct (create_all url) as [[]|e] eqn:Ea; (split; [apply Permutation_refl|]); split; try done.
  - intros _. by exists url.
  - intros (u & [= <-] & _ & E). congruence.
Qed.

(** the score that an adapter reads from a mock endpoint is the one asked for, in
    the range of the production contract *)
Lemma risk_score_of source j :
  risk_score_payload [("source", JStr source); ("risk_score", j)] =
  match as_float j with Some r => x ← r; Ok [("risk_score", JFloat x)] | None => Ok [("risk_score", JInt 0)] end.
Proof. reflexivity. Qed.

Lemma mock_contract source default_score risk_score payload : 0 <= default_score <= 100 ->
  mock_route source default_score risk_score = Ok payload ->
  risk_score_payload payload = Ok [("risk_score", JFloat (default (f_int default_score) risk_score))] /\
  0 <= default (f_int default_score) risk_score <= f_int 100.
Proof.
  intros Hd. unfold mock_route, response.
  assert (Hint : forall n, 0 <= n <= 100 -> as_float (JInt n) = Some (Ok (f_int n))).
  { intros n Hn. unfold as_float. by rewrite float_of_small. }
  assert (Hone : 0 < one64) by reflexivity.
  destruct risk_score as [x|]; intros E.
  - destruct (fle 0 x && fle x (f_int 100)) eqn:Hx; [|done]. apply Ok_inj in E as <-.
    unfold fle in Hx. apply andb_true_iff in Hx as [H0%Z.leb_le H1%Z.leb_le]. split; [|done].
    rewrite risk_score_of. unfold clamp, flt. destruct (0 <? x) eqn:Hpos; [destruct (x <? f_int 100) eqn:Hlt|].
    + done.
    + rewrite Hint by lia. apply Z.ltb_ge in Hlt. cbn -[f_int]. do 3 f_equal. f_equal. lia.
    + rewrite Hint by lia. apply Z.ltb_ge in Hpos. cbn -[f_int]. do 3 f_equal. f_equal. unfold f_int. lia.
  - apply Ok_inj in E as <-. rewrite risk_score_of, Hint by lia. cbn -[f_int one64].
    rewrite Z.max_r, Z.min_r by lia. split; [done|]. unfold f_int. nia.
Qed.

(** ** Witness: a process with every client *)

Definition all_answer : Clients := {|
  redis_from_url := fun _ => Ok tt;
  redis_ping := fun _ => Ok tt;
  is_redis_error := fun e => e == OtherError "ConnectionError";
  create_engine := fun _ => Ok tt;
  create_all := fun _ => Ok tt;
  saver_connect := fun _ => Ok tt;
  saver_setup := fun _ => Ok tt |}.
Definition sample_urls (name : string) : option string :=
  if name == "REDIS_URL" then Some "redis://cache:6379/0"
  else if name == "DATABASE_URL" then Some "postgresql+asyncpg://db/routeshield" else None.
Definition sample_controls : RuntimeControls.t :=
  RuntimeControls.mk false true false false true true false 60 60 false 86400 false true true 90.

Definition audited_start : Startup unit := mret tt.
Definition interrupted : Startup unit := raise (OtherError "SIGTERM").

Lemma lifespan_wires_witness :
  exists s1, @lifespan all_answer sample_urls sample_controls unit audited_start interrupted Process.init
      = (Raise (OtherError "SIGTERM"), s1) /\ released s1.
Proof.
  destruct (@lifespan_wires all_answer sample_urls sample_controls ltac:(discriminate) unit audited_start (Ok tt)
    interrupted ltac:(reflexivity) ltac:(reflexivity)) as (s0 & s1 & _ & E & Hrel).
  exists s1. split; [exact E|exact Hrel].
Defined.

(** a schema that does not apply leaves the limiter's client and the engine open *)
Definition no_schema : Clients := {|
  redis_from_url := fun _ => Ok tt;
  redis_ping := fun _ => Ok tt;
  is_redis_error := fun _ => true;
  create_engine := fun _ => Ok tt;
  create_all := fun _ => Raise (OtherError "OperationalError");
  saver_connect := fun _ => Ok tt;
  saver_setup := fun _ => Ok tt |}.

Lemma startup_leak : exists s, @lifespan no_schema sample_urls sample_controls unit audited_start audited_start Process.init
    = (Raise (OtherError "OperationalError"), s) /\
  opened_in (Process.journal s) = [RedisClient "redis://cache:6379/0"; Engine "postgresql+asyncpg://db/routeshield"] /\
  closed_in (Process.journal s) = [].
Proof. eexists. split; [vm_compute; reflexivity|]. split; reflexivity. Qed.
